(* ===== verification/_CoqProject ===== *)
-Q . S2P
Prelude.v
Protocol.v
PyStr.v
Json.v
Samples.v
Topology.v
TopologyFacts.v
QemuPorts.v
MemoryGuard.v
EthernetRelay.v
WebSocket.v
Cli.v
ProfileDefaults.v
ConfigRuntime.v
Launcher.v
ArgParse.v
Arm64Args.v
Arm64Facts.v
Arm64Launch.v
Arm64Loop.v
Arm64System.v
Arm64SystemFacts.v
TextScan.v
Regression.v
RegressionRun.v
Shlex.v
Experiments.v
ExperimentRun.v
Tasks.v
Resizing.v
Workbench.v
Http.v
WorkbenchFacts.v
Serve.v
ElfFlat.v
SerialConsole.v
SerialFacts.v
Transcript.v
Integrity.v
Sweep.v
ReadSweep.v
JettySweep.v
Rsp.v
Normalize.v
Bootstrap.v
Instrument.v
InnerProfile.v
LoopProfile.v
ProbeBuilds.v
DriveConsole.v
UdmaProfile.v
SyncProfile.v
Inventory.v
ReadCurve.v
Evidence.v
UbHostAdapter.v
TrialAudit.v
Trial.v
TrialFacts.v
