(* ===== verification/Prelude.v ===== *)
(** * The UBSim laboratory: a verification library

    The laboratory runs two to eight simulated hosts (gem5 or QEMU), one UDMA
    device process per host, and an ns-3 model of the fabric between them, and
    measures RMA operations on them.  This library models the Python code that
    puts such a system together, drives it and judges what it measured, and
    proves what makes that code correct.

    ** The program and the files that model it

    A topology document ([configs/*.json]) is compiled into a plan
    ([ubsim_lab/topology.py]); the plan and a machine profile resolve to a run
    manifest ([config_runtime.py]); [./lab] ([cli.py]) picks a checkpoint that
    fits the manifest; [config_launcher.py] checks memory and ports and starts the
    processes; the Ethernet relay connects the guests' control network.  The
    workbench ([web.py]) serves this through HTTP: saved tasks, launches,
    experiments ([experiments.py]) and terminals.  The command line tools under
    [tools/] run regression suites, trials and checkpoints over the guests'
    serial consoles, and audit the evidence.

    - [Topology], [TopologyFacts]: [compile_topology] with every check, cut at
      the paragraphs of the source; [Samples] holds the shipped documents.
    - [QemuPorts]: the listeners of a QEMU run ([qemu_ports.py]).
    - [MemoryGuard]: host memory readings, admission and the monitor
      ([tools/host_memory_guard.py]).
    - [EthernetRelay]: the learning relay as a step relation over its threads
      ([tools/ethernet_relay.py]).
    - [WebSocket]: framing, parsing and the terminal's pump ([web.py]).
    - [Cli]: arguments, manifests, choice of a checkpoint, dispatch ([cli.py]).
    - [ProfileDefaults], [ConfigRuntime]: the profiles and [resolve_gem5].
    - [Launcher]: every process's argument vector, and the two launch sequences
      as bodies that emit actions ([config_launcher.py]).
    - [ArgParse], [Arm64Args], [Arm64Facts], [Arm64Launch], [Arm64Loop],
      [Arm64System], [Arm64SystemFacts]: the script each gem5 process runs
      ([configs/arm64_fs.py]).  [ArgParse] is [argparse] over long options;
      [Arm64Args] holds the table of 114 options and the argument checks, in the
      order of the source; [Arm64Launch] parses what [Launcher] prints;
      [Arm64Loop] is the loop over gem5's exit events; [Arm64System] is the
      assembly: caches, buses, devices, CPUs, the device tree and the kernel's
      command line.
    - [TextScan]: the regular expressions of the tools, as matchers.
    - [UbHostAdapter]: the parameters the UDMA adapter declares to gem5, and that
      [Arm64System] sets exactly these
      ([integrations/gem5/ub_host_adapter/UbHostAdapter.py]).
    - [Regression], [RegressionRun]: the RMA suites, the fence logs and the
      verdicts; a regression from its arguments to its report
      ([tools/run_modular_rma_regression.py]).
    - [Experiments], [ExperimentRun]: recipes, preflight, measurement loop,
      summary; an experiment from its task to its status ([experiments.py]).
    - [Tasks], [Resizing]: saved tasks with their recipes, resizing, and what
      resizing twice gives ([web.py]).
    - [Workbench], [Http], [WorkbenchFacts], [Serve]: the server's state (tasks,
      launch job, experiments, terminal owners), its routes and guards, the step
      relation of requests, processes and sessions, and the socket it binds
      ([web.py]).
    - [Shlex]: [shlex.split] in POSIX mode and [shlex.quote], and how quoted
      words read back.
    - [TrialAudit]: the fail-closed audit of a trial
      ([tools/check_qemu_write_trial.py]).
    - [Trial], [TrialFacts]: the trial itself ([tools/run_qemu_timing_trial.py])
      and what the audit reads back from it.
    - [SerialConsole], [SerialFacts]: the console workers of
      [tools/dual_serial_command.py] and [tools/coordinated_checkpoint.py].
    - [Transcript]: what a runner that captures the printed consoles reads of
      them.  [Integrity]: the data integrity suites over two such consoles
      ([tools/run_qemu_integrity.py]).
    - [Sweep], [ReadSweep], [JettySweep]: the six measurement sweeps, one loop
      with a body per tool ([tools/run_gem5_read_size_sweep.py] and the others).
    - [Bootstrap]: a program sent to a guest over its console
      ([tools/transfer_guest_bootstrap.py]).  [DriveConsole]: one command over a
      terminal ([tools/drive-console.py]).  [Rsp]: the GDB probe
      ([tools/probe_gem5_gdb.py]).  [Normalize]: checkpoints made readable
      ([tools/normalize_gem5_checkpoint.py]).
    - [Instrument], [InnerProfile], [LoopProfile], [ProbeBuilds]: the builders
      that instrument and link UMDK's sources, the variants of the provider and
      the compiler launchers ([tools/build_udma_inner_profile.py] and its
      neighbours, [tools/aarch64-umdk-cc.py]).
    - [SyncProfile], [UdmaProfile], [Inventory]: the profile of a synchronized run
      ([tools/profile_sync_trial.py]), the check of a device's counters
      ([tools/check_udma_profile.py]) and the inventory of the driver's commands
      ([tools/audit_command_coverage.py]).
    - [ReadCurve]: the comparison with the physical curve, in binary64 arithmetic
      ([tools/compare_read_curve.py]).  [Evidence]: the evidence cards, their
      assertions and drawings ([tools/render-run-evidence.py]).
    - [ElfFlat]: the flat kernel image ([tools/elf_to_flat_binary.py]).
    - [Json], [PyStr]: JSON values and dictionaries, and strings, as Python has
      them.  [Protocol]: automata that read the log of a body.  This file:
      exceptions, fallible and effectful computations, loops, the automation
      ([py_inv], [bool_inv], [raises_tac]) and shared lemmas.

    ** Conventions

    A Python function that may raise is a function into [res]; a body with
    effects is a function of the log of its actions ([io]).  An exception is its
    class with its message as a template: the holes of the f-string are kept
    apart, and the translated wording stands for the text.  A [str] is its UTF-8
    bytes.  Dictionaries are association lists in insertion order.  Integers are
    unbounded, as Python's are; the 32 and 64 bit fields (frame lengths, ELF
    headers, addresses) are bounded where the code bounds them.  What comes from
    outside (files, processes, sockets, clocks, the environment) is a parameter:
    a function or a record of answers, over all values of which the theorems
    quantify.  A write or a call that may raise is an [attempt]: whether it
    raises is a parameter, any function of what was done before it, and the log
    lists what was completed.  A loop that polls until a deadline runs over the list of the polls
    that start before it.  Concurrent code is a step relation ([EthernetRelay],
    [WorkbenchFacts]), whose runs are all interleavings.  gem5's own objects are
    reached only through recorded actions (an object made, a member assigned, a
    port bound), and what gem5 computes (memory sizes, DRAM geometry, cache tag
    arrays, the generated device tree) is a parameter; abbreviated options and
    the separator [--] of [argparse], which no launcher writes, are left out.

    Fuel appears in printing decimal numbers (one digit per bit is enough, see
    [parse_nat_str]) and in scanning text (one unit per byte, and every turn
    consumes a byte or a match).  Every other recursion is structural.

    ** What the theorems show

    Invariants: a compiled plan satisfies the launchers' contract and its switch
    ports are a bijection; the relay's table is the last port seen; tasks stay
    sound under every interleaving of requests and failing writes; a validated
    recipe splits its operations evenly among Jettys whose posting lists fit the
    queue and the completion queue.  Refinement: the server implements exclusive
    leases of the launch and of each console; liveness: they are always released.
    Safety: a failed launch has terminated every process it registered, newest
    first, which is every process it started but one whose pid file could not be
    written; nothing starts before its checks; a checkpoint is selected only if
    its manifest agrees with the machine's and records no other image than the one
    present (the modern profile requires the image and its digest); the relay
    delivers each frame exactly once and in order; a command or a checkpoint is
    sent only when every console shows a prompt; an audit passes only when the
    counters equal the work that the guest commands of the records ask for.  Equivalence and round trips: parsing a stream by
    pieces; reading back what a client framed, what a launcher wrote, and what a
    trial asked for.  Composition: a successful trial leaves the records which
    the audit asks for, its failed stop excepted, and the audit reads every guest
    command as requested.
    Across the processes: whatever the launcher prints for a machine that
    resolution accepts, the gem5 script parses to a typed namespace, its checks
    pass, and the machine is assembled whenever the kernel is found, the memory
    controllers agree and gem5 accepts each assignment and call, with the
    launcher's sockets, consoles and guest identity; those checks accept exactly the documented machines.  The
    exit-event loop follows the protocol of a measured region (reset, run on the
    detailed CPUs, dump, switch back) and takes checkpoints only on the CPUs that
    booted the guest.
    From the guests' programs to the verdicts: the integrity runner ends with
    status 0 exactly when both guests of every case printed what the case asks
    for; a sweep's rows are those of its accepted cases, and each was printed by
    both guests; an experiment did, in order and as far as no write was refused,
    its task's document, the provenance of the simulator that was running it, and
    the first measurements of its recipe; a regression that reports, reports every
    case it ran, and it reports unless something raises.  Resizing again gives what resizing once gives.  The small tools: a probe reads back the registers of a stub that
    answers; a bootstrap's commands, as a shell reads them, leave a file that
    decodes to the program; normalizing a checkpoint is all or nothing and
    idempotent; instrumentation only inserts text, and the link command changes
    only where it must.
    Errors: what compilation may raise, what unwanted requests change (nothing, except that
    reading an experiment's detail, which has no origin check, marks a dead one
    failed).

    ** Not modelled

    The two plots (output only, on logarithmic scales); shell scripts; gem5's
    library behind [configs/arm64_fs.py]; and in the modelled files printing, wall
    clock fields, and the HTTP and socket libraries themselves.  Failing writes
    are modelled for saved tasks, launches' pid files, experiments, regressions,
    gem5's assembly and the replacement of a normalized checkpoint; the sweeps'
    own transcripts, fence copies and rows are assumed to be written, and so are a launch's
    directories and log files, and the removal of a normalizer's temporary file.
    Paths are compared as the strings the tools pass, without the normalization of
    [pathlib] (a doubled slash, a single dot).  Floating point
    arithmetic except in [ReadCurve], [json.loads], byte decoding and [str] of
    JSON values are parameters.

    ** Plan

    Next: the two plots; launched guests stop after their checkpoint; a joint
    theorem over a launch and the experiment that follows it. *)

From Stdlib Require Import ZArith Lia.
From stdpp Require Import base strings gmap fin_maps numbers option list sorting.

#[global] Set Default Proof Using "Type".
Open Scope Z_scope.

(** ** Python exceptions

    A raised exception is its class together with the template of its message
    (the f-string, holes included) and the values of the holes. *)

Inductive exn_class :=
  | TopologyError | ValueError | KeyError | IndexError | TypeError
  | LaunchError | OSError | RuntimeError | TimeoutError | EOFError
  | AuditError | ArgumentTypeError | SystemExit | ZeroDivisionError
  | FileNotFoundError | JSONDecodeError | ConnectionError | OverflowError | AttributeError
  | TimeoutExpired | StructError | CalledProcessError | SyntaxError | UnicodeDecodeError
  | PermissionError | ProcessLookupError | AssertionError.

#[global] Instance exn_class_eq_dec : EqDecision exn_class.
Proof. solve_decision. Defined.

Inductive parg :=
  | PS (s : string)
  | PZ (z : Z)
  | PL (l : list string).

Record exn := Exn {
  exn_cls : exn_class;
  exn_fmt : string;
  exn_args : list parg
}.

(** The classes of this program's [except] clauses: a class is caught by its
    own name and by the names of its bases. *)
Definition is_a (c d : exn_class) : bool :=
  bool_decide (c = d) ||
  match c, d with
  | TopologyError, ValueError => true
  | AuditError, ValueError => true
  | LaunchError, RuntimeError => true
  | TimeoutError, OSError => true
  | FileNotFoundError, OSError => true
  | ConnectionError, OSError => true
  | JSONDecodeError, ValueError => true
  | UnicodeDecodeError, ValueError => true
  | PermissionError, OSError => true
  | ProcessLookupError, OSError => true
  | _, _ => false
  end.

(** [parser.error(message)] of [argparse]. *)
Definition usage (message : string) : exn := Exn SystemExit message [].

(** ** Fallible computations *)

Inductive res (A : Type) :=
  | Ok (a : A)
  | Err (e : exn).
Arguments Ok {A} a.
Arguments Err {A} e.

#[global] Instance res_ret : MRet res := @Ok.
#[global] Instance res_bind : MBind res := λ A B f m,
  match m with Ok a => f a | Err e => Err e end.
#[global] Instance res_fmap : FMap res := λ A B f m,
  match m with Ok a => Ok (f a) | Err e => Err e end.

Declare Scope py_scope.
Delimit Scope py_scope with py.
Open Scope py_scope.

(** [if b: raise e] followed by the rest of the body. *)
Notation "'raise' e 'when' b ;; k" := (if b then Err e else k)
  (at level 100, b at level 99, k at level 200, right associativity,
   format "'[v' 'raise'  e  'when'  b ;; '/' k ']'") : py_scope.

Definition is_ok {A} (m : res A) : bool := match m with Ok _ => true | _ => false end.
Definition ok_opt {A} (m : res A) : option A := match m with Ok a => Some a | _ => None end.

(** [o], or the exception [e] when there is no value. *)
Definition or_raise {A} (o : option A) (e : exn) : res A :=
  match o with Some a => Ok a | None => Err e end.

Lemma bind_Ok {A B} (m : res A) (f : A → res B) b :
  m ≫= f = Ok b ↔ ∃ a, m = Ok a ∧ f a = Ok b.
Proof. destruct m; cbn; naive_solver. Qed.

Lemma bind_Err {A B} (m : res A) (f : A → res B) e :
  m ≫= f = Err e ↔ m = Err e ∨ ∃ a, m = Ok a ∧ f a = Err e.
Proof. destruct m; cbn; naive_solver. Qed.

Lemma or_raise_Ok {A} (o : option A) e a : or_raise o e = Ok a ↔ o = Some a.
Proof. destruct o; cbn; naive_solver. Qed.

Lemma or_raise_Err {A} (o : option A) e e' :
  or_raise o e = Err e' ↔ o = None ∧ e' = e.
Proof. destruct o; cbn; naive_solver. Qed.

(** One step of inverting a successful (or failing) run of a body. *)
Ltac py_step :=
  match goal with
  | H : Ok _ = Ok _ |- _ => injection H as H
  | H : Err _ = Err _ |- _ => injection H as H
  | H : Ok _ = Err _ |- _ => discriminate H
  | H : Err _ = Ok _ |- _ => discriminate H
  | H : mret _ = _ |- _ => progress change (@mret res _) with @Ok in H; cbv beta in H
  | H : _ ≫= _ = Ok _ |- _ => apply bind_Ok in H as (? & ? & H)
  | H : or_raise _ _ = Ok _ |- _ => apply or_raise_Ok in H
  | H : or_raise _ _ = Err _ |- _ => apply or_raise_Err in H as [??]
  | H : (if ?b then Err _ else _) = Ok _ |- _ => destruct b eqn:?; [discriminate H|]
  | H : (if ?b then _ else Err _) = Ok _ |- _ => destruct b eqn:?; [|discriminate H]
  | H : match ?x with _ => _ end = Ok _ |- _ => destruct x eqn:?; try discriminate H; [idtac]
  end.
Ltac py_inv := repeat (py_step; simplify_eq/=).

(** ** Effectful computations

    A body that acts on the outside world: the actions are appended, oldest
    first, to a log, which an exception does not undo. *)

Definition io (E A : Type) : Type := list E → list E * res A.

Section io.
Context {E : Type}.

Definition io_ret {A} (a : A) : io E A := λ l, (l, Ok a).
Definition io_bind {A B} (m : io E A) (k : A → io E B) : io E B := λ l,
  match m l with
  | (l', Ok a) => k a l'
  | (l', Err e) => (l', Err e)
  end.
Definition lift {A} (m : res A) : io E A := λ l, (l, m).
Definition emit (e : E) : io E unit := λ l, (l ++ [e], Ok tt).
Definition throw {A} (e : exn) : io E A := λ l, (l, Err e).

(** [for x in xs: body(x)]. *)
Fixpoint each {A} (body : A → io E unit) (xs : list A) : io E unit :=
  match xs with
  | [] => io_ret tt
  | x :: xs' => io_bind (body x) (λ _, each body xs')
  end.

(** [try: m] with [except BaseException: handler; raise], the handler seeing the
    actions logged since the [try]. *)
Definition on_error {A} (m : io E A) (handler : list E → list E) : io E A := λ l,
  match m [] with
  | (l', Ok a) => (l ++ l', Ok a)
  | (l', Err e) => (l ++ l' ++ handler l', Err e)
  end.
End io.

Notation "x <- m ; k" := (io_bind m (λ x, k))
  (at level 20, m at level 100, k at level 200, right associativity) : py_scope.
Notation "m ;;; k" := (io_bind m (λ _, k))
  (at level 100, k at level 200, right associativity) : py_scope.

(** [adds P m]: whatever the log before it, [m] only appends to it, and what it
    appends with its result satisfies [P]. *)
Definition adds {E A} (P : list E → res A → Prop) (m : io E A) : Prop :=
  ∀ l, ∃ l', (m l).1 = l ++ l' ∧ P l' (m l).2.

Section adds.
Context {E : Type}.

Lemma adds_ret {A} (P : list E → res A → Prop) a : P [] (Ok a) → adds P (io_ret a).
Proof. intros H l. exists []. by rewrite app_nil_r. Qed.

Lemma adds_lift {A} (P : list E → res A → Prop) m : P [] m → adds P (lift m).
Proof. intros H l. exists []. by rewrite app_nil_r. Qed.

Lemma adds_throw {A} (P : list E → res A → Prop) e : P [] (Err e) → adds P (@throw E A e).
Proof. intros H l. exists []. by rewrite app_nil_r. Qed.

Lemma adds_emit (P : list E → res unit → Prop) e : P [e] (Ok tt) → adds P (emit e).
Proof. intros H l. by exists [e]. Qed.

Lemma adds_bind {A B} (P : list E → res A → Prop) (Q : list E → res B → Prop) m (k : A → io E B) :
  adds P m →
  (∀ l e, P l (Err e) → Q l (Err e)) →
  (∀ l a, P l (Ok a) → adds (λ l' r, Q (l ++ l') r) (k a)) →
  adds Q (io_bind m k).
Proof.
  intros Hm He Hk l. destruct (Hm l) as (l1 & H1 & HP). unfold io_bind.
  destruct (m l) as [l0 [a|e]]; cbn in *; subst.
  - destruct (Hk _ _ HP (l ++ l1)) as (l2 & H2 & HQ). exists (l1 ++ l2).
    by rewrite H2, app_assoc.
  - exists l1. split; [done|]. by apply He.
Qed.

Lemma adds_weaken {A} (P Q : list E → res A → Prop) m :
  (∀ l r, P l r → Q l r) → adds P m → adds Q m.
Proof. intros H Hm l. destruct (Hm l) as (l' & ? & ?). exists l'. auto. Qed.

(** A property of the log alone that concatenation preserves. *)
Lemma adds_each {A} (P : list E → Prop) (body : A → io E unit) xs :
  P [] → (∀ l1 l2, P l1 → P l2 → P (l1 ++ l2)) →
  (∀ x, x ∈ xs → adds (λ l _, P l) (body x)) → adds (λ l _, P l) (each body xs).
Proof.
  intros H0 Happ. induction xs as [|x xs IH]; intros H; cbn; [by apply adds_ret|].
  eapply adds_bind; [apply H; by left|done|]. intros l a HP. cbn.
  eapply adds_weaken; [|apply IH; intros; apply H; by right]. intros l' r. cbn. auto.
Qed.

Lemma adds_on_error {A} (P Q : list E → res A → Prop) (m : io E A) handler :
  adds P m → (∀ l a, P l (Ok a) → Q l (Ok a)) →
  (∀ l e, P l (Err e) → Q (l ++ handler l) (Err e)) → adds Q (on_error m handler).
Proof.
  intros Hm Hok Herr l. unfold on_error. destruct (Hm []) as (l1 & H1 & HP).
  destruct (m []) as [l0 [a|e]]; cbn in *; subst.
  - exists l1. auto.
  - exists (l1 ++ handler l1). auto.
Qed.
End adds.

(** The action [e], which the outside world may refuse, depending on what was
    done before: the log lists the actions that were completed. *)
Definition attempt {E} (fails : list E → E → option exn) (e : E) : io E unit := λ l,
  match fails l e with None => (l ++ [e], Ok tt) | Some x => (l, Err x) end.

(** One step at the head of a body. *)
Section steps.
Context {E : Type} {B : Type} (Q : list E → res B → Prop).

Lemma adds_lift_then {A} (m : res A) (k : A → io E B) :
  (∀ e, m = Err e → Q [] (Err e)) → (∀ a, m = Ok a → adds Q (k a)) → adds Q (io_bind (lift m) k).
Proof.
  intros He Hk l. unfold io_bind, lift. destruct m as [a|e]; [by apply Hk|].
  exists []. cbn. rewrite app_nil_r. auto.
Qed.

Lemma adds_emit_then e (k : unit → io E B) :
  adds (λ l r, Q (e :: l) r) (k tt) → adds Q (io_bind (emit e) k).
Proof.
  intros Hk l. unfold io_bind, emit. destruct (Hk (l ++ [e])) as (l' & -> & HQ).
  exists (e :: l'). by rewrite <- app_assoc.
Qed.

Lemma adds_attempt_then fails e (k : unit → io E B) :
  (∀ x, Q [] (Err x)) → adds (λ l r, Q (e :: l) r) (k tt) → adds Q (io_bind (attempt fails e) k).
Proof.
  intros He Hk l. unfold io_bind, attempt. destruct (fails l e) as [x|].
  - exists []. cbn. rewrite app_nil_r. auto.
  - destruct (Hk (l ++ [e])) as (l' & -> & HQ). exists (e :: l'). by rewrite <- app_assoc.
Qed.
End steps.

(** [performs es Q m]: [m] does the actions [es], in order, and returns a value in
    [Q]; or it is stopped by an exception after the first of them. *)
Definition performs {E A} (es : list E) (Q : A → Prop) (m : io E A) : Prop :=
  adds (λ done r, match r with Ok a => done = es ∧ Q a | Err _ => done `prefix_of` es end) m.

Section performs.
Context {E : Type}.

Lemma adds_attempt (P : list E → res unit → Prop) fails e :
  P [e] (Ok tt) → (∀ x, P [] (Err x)) → adds P (attempt fails e).
Proof.
  intros Hok Herr l. unfold attempt. destruct (fails l e) as [x|]; cbn.
  - exists []. rewrite app_nil_r. auto.
  - by exists [e].
Qed.

Lemma performs_ret {A} (Q : A → Prop) a : Q a → performs (E := E) [] Q (io_ret a).
Proof. intros H. apply adds_ret. by split. Qed.

Lemma performs_lift {A} (m : res A) : performs (E := E) [] (λ a, m = Ok a) (lift m).
Proof. apply adds_lift. destruct m; cbn; [done|apply prefix_nil]. Qed.

Lemma performs_attempt fails (e : E) : performs [e] (λ _, True) (attempt fails e).
Proof. apply adds_attempt; [done|]. intros x. exact (prefix_nil _). Qed.

Lemma performs_bind {A B} es1 es2 (P : A → Prop) (Q : B → Prop) (m : io E A) (k : A → io E B) :
  performs es1 P m → (∀ a, P a → performs es2 Q (k a)) → performs (es1 ++ es2) Q (io_bind m k).
Proof.
  intros Hm Hk. eapply adds_bind; [exact Hm| |].
  - intros l e H. cbn. by apply prefix_app_r.
  - intros l a [-> Ha]. eapply adds_weaken; [|apply (Hk a Ha)]. intros l' [b|e]; cbn.
    + intros [-> Hb]. done.
    + apply prefix_app.
Qed.

Lemma performs_each fails (es : list E) : performs es (λ _, True) (each (attempt fails) es).
Proof.
  induction es as [|e es IH]; cbn [each]; [by apply performs_ret|].
  apply (performs_bind [e] es (λ _, True)); [apply performs_attempt|done].
Qed.

Lemma performs_weaken {A} es (P Q : A → Prop) (m : io E A) :
  (∀ a, P a → Q a) → performs es P m → performs es Q m.
Proof. intros H. apply adds_weaken. intros l [a|e]; naive_solver. Qed.
End performs.

(** ** When a body succeeds *)

(** [m] ends without an exception exactly when [P]. *)
Definition succeeds {E A} (P : Prop) (m : io E A) : Prop := ∀ l, is_ok (m l).2 = true ↔ P.

Section succeeds.
Context {E : Type}.

Lemma succeeds_emit (P : Prop) (e : E) : P → succeeds P (emit e).
Proof. intros HP l. cbn. tauto. Qed.
Lemma succeeds_ret {A} (P : Prop) (a : A) : P → succeeds (E := E) P (io_ret a).
Proof. intros HP l. cbn. tauto. Qed.
Lemma succeeds_throw {A} (P : Prop) e : ¬ P → succeeds (E := E) (A := A) P (throw e).
Proof. intros HP l. cbn. naive_solver. Qed.
Lemma succeeds_lift {A} (m : res A) : succeeds (E := E) (is_ok m = true) (lift m).
Proof. intros l. cbn. tauto. Qed.

Lemma succeeds_bind {A B} (P Q R : Prop) (m : io E A) (k : A → io E B) :
  (R ↔ P ∧ Q) → succeeds P m → (∀ a, succeeds Q (k a)) → succeeds R (io_bind m k).
Proof.
  intros HR Hm Hk l. rewrite HR. unfold io_bind. specialize (Hm l). destruct (m l) as [l' [a|e]]; cbn in *.
  - specialize (Hk a l'). tauto.
  - naive_solver.
Qed.

Lemma succeeds_then {A B} (P : Prop) (m : io E A) (k : A → io E B) :
  succeeds True m → (∀ a, succeeds P (k a)) → succeeds P (io_bind m k).
Proof. apply succeeds_bind. tauto. Qed.

Lemma succeeds_each {A} (P : A → Prop) (body : A → io E unit) xs :
  (∀ x, succeeds (P x) (body x)) → succeeds (∀ x, x ∈ xs → P x) (each body xs).
Proof.
  intros Hb. induction xs as [|x xs IH]; cbn [each].
  - apply succeeds_ret. by intros x ?%elem_of_nil.
  - eapply succeeds_bind; [|apply Hb|intros _; apply IH]. setoid_rewrite elem_of_cons. naive_solver.
Qed.

Lemma succeeds_iff {A} (P Q : Prop) (m : io E A) : (P ↔ Q) → succeeds P m → succeeds Q m.
Proof. intros HPQ Hm l. rewrite <- HPQ. apply Hm. Qed.

Lemma succeeds_always {A} (body : A → io E unit) xs :
  (∀ x, succeeds True (body x)) → succeeds True (each body xs).
Proof. intros Hb. eapply succeeds_iff; [|exact (succeeds_each (λ _, True) body xs Hb)]. tauto. Qed.

Lemma succeeds_attempt (P : Prop) fails (e : E) : (∀ l, fails l e = None) → P → succeeds P (attempt fails e).
Proof. intros Hf HP l. unfold attempt. rewrite Hf. cbn. tauto. Qed.
End succeeds.

(** ** Membership tests as booleans *)

Definition elemb {A} `{EqDecision A} (x : A) (l : list A) : bool := bool_decide (x ∈ l).

Lemma elemb_true {A} `{EqDecision A} (x : A) l : elemb x l = true ↔ x ∈ l.
Proof. apply bool_decide_eq_true. Qed.
Lemma elemb_false {A} `{EqDecision A} (x : A) l : elemb x l = false ↔ x ∉ l.
Proof. apply bool_decide_eq_false. Qed.

(** Membership in a list of literals, by evaluation. *)
Ltac elem_dec := apply elemb_true; vm_compute; reflexivity.

(** Boolean facts produced by inverted guards, turned into propositions. *)
Ltac bool_step :=
  match goal with
  | H : _ || _ = false |- _ => apply orb_false_iff in H as [??]
  | H : _ && _ = true |- _ => apply andb_true_iff in H as [??]
  | H : negb _ = false |- _ => apply negb_false_iff in H
  | H : negb _ = true |- _ => apply negb_true_iff in H
  | H : (_ <? _) = false |- _ => apply Z.ltb_ge in H
  | H : (_ <? _) = true |- _ => apply Z.ltb_lt in H
  | H : (_ <=? _) = true |- _ => apply Z.leb_le in H
  | H : (_ <=? _) = false |- _ => apply Z.leb_gt in H
  | H : (_ =? _) = true |- _ => apply Z.eqb_eq in H
  | H : (_ =? _) = false |- _ => apply Z.eqb_neq in H
  | H : bool_decide _ = true |- _ => apply bool_decide_eq_true in H
  | H : bool_decide _ = false |- _ => apply bool_decide_eq_false in H
  | H : elemb _ _ = true |- _ => apply elemb_true in H
  | H : elemb _ _ = false |- _ => apply elemb_false in H
  | H : Nat.eqb _ _ = true |- _ => apply Nat.eqb_eq in H
  | H : Nat.eqb _ _ = false |- _ => apply Nat.eqb_neq in H
  | H : String.eqb _ _ = true |- _ => apply String.eqb_eq in H
  | H : String.eqb _ _ = false |- _ => apply String.eqb_neq in H
  | H : (_ <=? _)%nat = true |- _ => apply Nat.leb_le in H
  | H : (_ <=? _)%nat = false |- _ => apply Nat.leb_gt in H
  | H : (_ <? _)%nat = true |- _ => apply Nat.ltb_lt in H
  | H : (_ <? _)%nat = false |- _ => apply Nat.ltb_ge in H
  | H : (_ <? _)%N = true |- _ => apply N.ltb_lt in H
  | H : (_ <? _)%N = false |- _ => apply N.ltb_ge in H
  | H : (_ =? _)%N = true |- _ => apply N.eqb_eq in H
  | H : (_ =? _)%N = false |- _ => apply N.eqb_neq in H
  end.
Ltac bool_inv := repeat bool_step.

(** ** Loops over a list *)

Section loops.
Context {A B : Type}.

(** [for index, b in enumerate(l): a = f(index, a, b)] from index [i]. *)
Fixpoint foldMi (f : nat → A → B → res A) (i : nat) (a : A) (l : list B) : res A :=
  match l with
  | [] => Ok a
  | b :: l' => a' ← f i a b; foldMi f (S i) a' l'
  end.

Definition foldM (f : A → B → res A) (a : A) (l : list B) : res A :=
  foldMi (λ _, f) 0 a l.

Lemma foldMi_app f i a l1 l2 :
  foldMi f i a (l1 ++ l2) =
  (a' ← foldMi f i a l1; foldMi f (i + length l1) a' l2).
Proof.
  revert i a. induction l1 as [|b l1 IH]; intros i a; cbn.
  - by rewrite Nat.add_0_r.
  - destruct (f i a b); cbn; [|done]. rewrite IH.
    by replace (S i + length l1)%nat with (i + S (length l1))%nat by lia.
Qed.

(** Invariant rule: [P done a] relates the processed prefix to the state. *)
Lemma foldMi_inv (P : list B → A → Prop) f a l a' :
  P [] a →
  (∀ pre b post a1 a2, l = pre ++ b :: post →
     P pre a1 → f (length pre) a1 b = Ok a2 → P (pre ++ [b]) a2) →
  foldMi f 0 a l = Ok a' → P l a'.
Proof.
  intros H0 Hstep Hrun.
  cut (∀ post pre a1, l = pre ++ post → P pre a1 →
         foldMi f (length pre) a1 post = Ok a' → P l a').
  { intros H. by apply (H l [] a). }
  induction post as [|b post IH]; cbn; intros pre a1 -> HP Hr.
  - simplify_eq. by rewrite app_nil_r.
  - apply bind_Ok in Hr as (a2 & Hf & Hr).
    apply (IH (pre ++ [b]) a2); [by rewrite <- app_assoc| |].
    + by eapply Hstep.
    + rewrite length_app. cbn. by rewrite Nat.add_1_r.
Qed.

(** The loop fails at the first element on which the body fails. *)
Lemma foldMi_Err (f : nat → A → B → res A) i a l e :
  foldMi f i a l = Err e →
  ∃ pre b post a1, l = pre ++ b :: post ∧
    foldMi f i a pre = Ok a1 ∧ f (i + length pre)%nat a1 b = Err e.
Proof.
  revert i a. induction l as [|b l IH]; intros i a; cbn; [done|].
  destruct (f i a b) as [a1|e1] eqn:Hf; cbn.
  - intros (pre & b' & post & a2 & -> & Hr & He)%IH.
    exists (b :: pre), b', post, a2. cbn. rewrite Hf. cbn. split_and!; [done..|].
    by rewrite <- Nat.add_succ_comm.
  - intros [= ->]. exists [], b, l, a. cbn. by rewrite Nat.add_0_r.
Qed.

(** A loop whose body cannot fail under its invariant succeeds. *)
Lemma foldMi_total (P : list B → A → Prop) f a l :
  P [] a →
  (∀ pre b post a1, l = pre ++ b :: post → P pre a1 →
     ∃ a2, f (length pre) a1 b = Ok a2 ∧ P (pre ++ [b]) a2) →
  ∃ a', foldMi f 0 a l = Ok a' ∧ P l a'.
Proof.
  intros H0 Hstep.
  cut (∀ post pre a1, l = pre ++ post → P pre a1 →
         ∃ a', foldMi f (length pre) a1 post = Ok a' ∧ P l a').
  { intros H. by apply (H l [] a). }
  induction post as [|b post IH]; cbn; intros pre a1 -> HP.
  - exists a1. by rewrite app_nil_r.
  - destruct (Hstep pre b post a1) as (a2 & Hf & HP2); [done..|].
    rewrite Hf. cbn.
    destruct (IH (pre ++ [b]) a2) as (a' & Hr & HP'); [by rewrite <- app_assoc|done|].
    exists a'. split; [|done].
    rewrite length_app in Hr. cbn in Hr. by rewrite Nat.add_1_r in Hr.
Qed.
End loops.

(** [[f(x) for x in l]] where [f] may raise. *)
Fixpoint mapR {A B} (f : A → res B) (l : list A) : res (list B) :=
  match l with
  | [] => Ok []
  | x :: l' => y ← f x; ys ← mapR f l'; Ok (y :: ys)
  end.

Lemma mapR_Ok {A B} (f : A → res B) l l' :
  mapR f l = Ok l' ↔ Forall2 (λ x y, f x = Ok y) l l'.
Proof.
  revert l'. induction l as [|x l IH]; intros l'; cbn.
  - split; [intros [= <-]; constructor | by inversion 1].
  - split.
    + intros H. py_inv. constructor; [done|]. by apply IH.
    + inversion 1 as [|? y ? ys Hy Hys]; subst. rewrite Hy. cbn.
      apply IH in Hys. by rewrite Hys.
Qed.

Lemma mapR_Err {A B} (f : A → res B) l e :
  mapR f l = Err e → ∃ x, x ∈ l ∧ f x = Err e.
Proof.
  induction l as [|x l IH]; cbn; [done|].
  intros [H|(y & Hy & [H|(ys & ? & ?)]%bind_Err)]%bind_Err; [..|done].
  - exists x. split; [by left|done].
  - destruct (IH H) as (x' & ? & ?). exists x'. split; [by right|done].
Qed.

Lemma mapR_length {A B} (f : A → res B) l l' : mapR f l = Ok l' → length l' = length l.
Proof. intros H%mapR_Ok. symmetry. by eapply Forall2_length. Qed.

Lemma mapR_total {A B} (f : A → res B) l :
  (∀ x, x ∈ l → ∃ y, f x = Ok y) → ∃ l', mapR f l = Ok l'.
Proof.
  induction l as [|x l IH]; intros H; cbn; [by eexists|].
  destruct (H x) as [y Hy]; [by left|]. rewrite Hy. cbn.
  destruct IH as [ys Hys]; [intros; apply H; by right|]. rewrite Hys. by eexists.
Qed.

(** ** What a computation may raise

    [raises P m]: every exception of [m] satisfies [P].  The rules below follow
    the shape of a body; [raises_tac] applies them, calling the [ubsim_raises]
    hints at calls. *)

Definition raises {A} (P : exn → Prop) (m : res A) : Prop := ∀ e, m = Err e → P e.

Section raises_rules.
Context {A B : Type} (P : exn → Prop).

Lemma raises_Ok (a : A) : raises P (Ok a).
Proof. by intros e. Qed.
Lemma raises_Err e : P e → raises P (@Err A e).
Proof. by intros H ? [= <-]. Qed.
Lemma raises_bind (m : res A) (f : A → res B) :
  raises P m → (∀ a, m = Ok a → raises P (f a)) → raises P (m ≫= f).
Proof. intros Hm Hf e [He|(a & Ha & He)]%bind_Err; [by apply Hm|by eapply Hf]. Qed.
Lemma raises_when (b : bool) e (k : res A) :
  P e → (b = false → raises P k) → raises P (if b then Err e else k).
Proof. destruct b; intros He Hk; [by apply raises_Err|by apply Hk]. Qed.
Lemma raises_if (b : bool) (k1 k2 : res A) :
  (b = true → raises P k1) → (b = false → raises P k2) → raises P (if b then k1 else k2).
Proof. destruct b; auto. Qed.
Lemma raises_or_raise (o : option A) e : (o = None → P e) → raises P (or_raise o e).
Proof. intros H e' [? ->]%or_raise_Err. by apply H. Qed.
Lemma raises_foldMi (f : nat → B → A → res B) i b (l : list A) :
  (∀ j b' x, x ∈ l → raises P (f j b' x)) → raises P (foldMi f i b l).
Proof.
  intros H e (pre & x & post & b' & -> & _ & He)%foldMi_Err.
  eapply H; [|done]. set_solver.
Qed.
Lemma raises_mapR (f : A → res B) (l : list A) :
  (∀ x, x ∈ l → raises P (f x)) → raises P (mapR f l).
Proof. intros H e (x & Hx & He)%mapR_Err. by eapply H. Qed.
End raises_rules.

Lemma raises_weaken {A} (P Q : exn → Prop) (m : res A) :
  (∀ e, P e → Q e) → raises P m → raises Q m.
Proof. intros H Hm e He. by apply H, Hm. Qed.

Create HintDb ubsim_raises.

Ltac raises_step :=
  match goal with
  | |- raises _ (Ok _) => apply raises_Ok
  | |- raises _ (Err _) => apply raises_Err; try done
  | |- raises _ (_ ≫= _) => apply raises_bind; [|intros ? ?]
  | |- raises _ (if _ then Err _ else _) => apply raises_when; [try done|intros ?]
  | |- raises _ (if _ then _ else _) => apply raises_if; intros ?
  | |- raises _ (or_raise _ _) => apply raises_or_raise; intros ?
  | |- raises _ (match ?x with _ => _ end) => destruct x eqn:?; simplify_eq/=
  | |- raises _ _ => solve [eauto with ubsim_raises]
  end.
Ltac raises_tac := repeat raises_step.

(** ** Lengths and positions *)

(** [len(l)]. *)
Definition len {A} (l : list A) : Z := Z.of_nat (length l).
#[global] Arguments len : simpl never.

Lemma len_nonneg {A} (l : list A) : 0 <= len l.
Proof. unfold len. lia. Qed.

(** [l.index(x)] of a Python list. *)
Fixpoint index_of {A} `{EqDecision A} (x : A) (l : list A) : option nat :=
  match l with
  | [] => None
  | y :: l' => if decide (x = y) then Some O else S <$> index_of x l'
  end.

Lemma index_of_Some {A} `{EqDecision A} (x : A) l i :
  index_of x l = Some i → l !! i = Some x ∧ x ∉ take i l.
Proof.
  revert i. induction l as [|y l IH]; intros i; cbn; [done|].
  case_decide as Hx.
  - intros [= <-]. subst. cbn. split; [done|]. apply not_elem_of_nil.
  - destruct (index_of x l) as [j|]; cbn; [|done]. intros [= <-].
    destruct (IH j) as [??]; [done|]. cbn. split; [done|]. set_solver.
Qed.

Lemma index_of_lt {A} `{EqDecision A} (x : A) l i : index_of x l = Some i → (i < length l)%nat.
Proof. intros [H _]%index_of_Some. by eapply lookup_lt_Some. Qed.

Lemma index_of_is_Some {A} `{EqDecision A} (x : A) l :
  x ∈ l → ∃ i, index_of x l = Some i.
Proof.
  induction l as [|y l IH]; cbn; [by intros ?%elem_of_nil|].
  intros [->|Hin]%elem_of_cons; [by rewrite decide_True; eauto|].
  case_decide; [by eexists|]. destruct IH as [i ->]; [done|]. by eexists.
Qed.

Lemma index_of_None {A} `{EqDecision A} (x : A) l : index_of x l = None → x ∉ l.
Proof. intros H Hin. destruct (index_of_is_Some x l Hin) as [i Hi]. congruence. Qed.

Lemma index_of_NoDup {A} `{EqDecision A} (x : A) l i :
  NoDup l → l !! i = Some x → index_of x l = Some i.
Proof.
  intros Hnd Hi.
  destruct (index_of_is_Some x l) as [j Hj]; [by eapply list_elem_of_lookup_2|].
  destruct (index_of_Some _ _ _ Hj) as [Hj' _]. rewrite Hj.
  by rewrite (NoDup_lookup _ _ _ _ Hnd Hj' Hi).
Qed.

(** ** Counting *)

(** A duplicate-free list of members of [k], as long as [k], is [k] reordered. *)
Lemma pigeonhole {A} (l k : list A) :
  NoDup l → (∀ x, x ∈ l → x ∈ k) → (length k ≤ length l)%nat → l ≡ₚ k.
Proof.
  intros Hnd Hin Hlen. apply submseteq_length_Permutation; [|done].
  by apply NoDup_submseteq.
Qed.

(** A map with as many entries as there are names, all of them under names,
    has an entry under every name. *)
Lemma map_covers {A} (m : gmap string A) (names : list string) :
  (∀ n, is_Some (m !! n) → n ∈ names) → size m = length names →
  ∀ n, n ∈ names → is_Some (m !! n).
Proof.
  intros Hin Hsize n Hn.
  assert ((map_to_list m).*1 ≡ₚ names) as Hp.
  { apply pigeonhole.
    - apply NoDup_fst_map_to_list.
    - intros x ([x' a] & -> & Hx)%list_elem_of_fmap. apply Hin. exists a.
      by apply elem_of_map_to_list in Hx.
    - by rewrite length_fmap, length_map_to_list, Hsize. }
  rewrite <- Hp in Hn. apply list_elem_of_fmap in Hn as ([n' a] & -> & Hx).
  exists a. by apply elem_of_map_to_list in Hx.
Qed.

(** All pairs, first components outermost. *)
Definition pairs {A B} (l : list A) (k : list B) : list (A * B) :=
  l ≫= λ a, (a,.) <$> k.

Lemma elem_of_pairs {A B} (l : list A) (k : list B) a b : (a, b) ∈ pairs l k ↔ a ∈ l ∧ b ∈ k.
Proof.
  unfold pairs. rewrite list_elem_of_bind. setoid_rewrite list_elem_of_fmap. naive_solver.
Qed.

Lemma length_pairs {A B} (l : list A) (k : list B) : length (pairs l k) = (length l * length k)%nat.
Proof.
  unfold pairs. induction l as [|a l IH]; cbn; [done|].
  by rewrite length_app, length_fmap, IH.
Qed.

Lemma filter_none {A} (P : A → bool) l : Forall (λ x, P x = false) l → List.filter P l = [].
Proof. induction 1 as [|x l Hx Hl IH]; [done|]. cbn. by rewrite Hx. Qed.

Create HintDb ubsim.
#[export] Hint Resolve NoDup_nil_2 : ubsim.
