(* ===== verification/Protocol.v ===== *)
(** * Protocols over the log of a body

    A protocol is an automaton that reads actions; [follows] states that a body,
    from a state of the automaton, performs only actions that it allows. *)

From stdpp Require Import base list option.
From S2P Require Import Prelude.

Section protocol.
Context {E S : Type} (step : S → E → option S).

Fixpoint trace (s : S) (l : list E) : option S :=
  match l with
  | [] => Some s
  | e :: l' => s' ← step s e; trace s' l'
  end.

Lemma trace_app s l k : trace s (l ++ k) = (s' ← trace s l; trace s' k).
Proof.
  revert s. induction l as [|e l IH]; intros s; [done|]. cbn. destruct (step s e); cbn; [apply IH|done].
Qed.

(** The state at a point of an allowed log, and the step taken there. *)
Lemma trace_at s l1 e l2 s2 :
  trace s (l1 ++ e :: l2) = Some s2 → ∃ s1 s1', trace s l1 = Some s1 ∧ step s1 e = Some s1' ∧ trace s1' l2 = Some s2.
Proof.
  rewrite trace_app. intros (s1 & H1 & H)%bind_Some. cbn in H. apply bind_Some in H as (s1' & H2 & H3). eauto.
Qed.

(** From [s], the body's log is allowed and a result satisfies [post]. *)
Definition follows {A} (s : S) (post : A → S → Prop) (m : io E A) : Prop :=
  adds (λ l r, ∃ s', trace s l = Some s' ∧ ∀ a, r = Ok a → post a s') m.

Lemma follows_ret {A} s (post : A → S → Prop) a : post a s → follows s post (io_ret a).
Proof. intros H. apply adds_ret. exists s. split; [done|]. by intros ? [= <-]. Qed.

Lemma follows_throw {A} s (post : A → S → Prop) e : follows s post (throw e).
Proof. apply adds_throw. by exists s. Qed.

Lemma follows_emit s (post : unit → S → Prop) e s' : step s e = Some s' → post tt s' → follows s post (emit e).
Proof. intros Hs Hp. apply adds_emit. exists s'. cbn. rewrite Hs. split; [done|]. by intros [] _. Qed.

Lemma follows_bind {A B} s (mid : A → S → Prop) (post : B → S → Prop) (m : io E A) (k : A → io E B) :
  follows s mid m → (∀ a s', mid a s' → follows s' post (k a)) → follows s post (io_bind m k).
Proof.
  intros Hm Hk. eapply adds_bind; [exact Hm|by intros l e (s' & H & _); exists s'|].
  intros l a (s' & H & Hmid). eapply adds_weaken; [|apply Hk, Hmid; reflexivity].
  intros l' r (s2 & H2 & Hpost). exists s2. by rewrite trace_app, H.
Qed.

Lemma follows_weaken {A} s (post post' : A → S → Prop) (m : io E A) :
  (∀ a s', post a s' → post' a s') → follows s post m → follows s post' m.
Proof. intros Hp. apply adds_weaken. intros l r (s' & H & Hr). exists s'. auto. Qed.

(** An action before the rest of a body. *)
Lemma follows_step {B} s (post : B → S → Prop) e s' (m : io E B) :
  step s e = Some s' → follows s' post m → follows s post (io_bind (emit e) (λ _, m)).
Proof.
  intros Hs Hm. eapply (follows_bind _ (λ _ t, t = s')); [by eapply follows_emit|]. by intros _ t ->.
Qed.

Lemma follows_fail {A B} s (post : B → S → Prop) e (k : A → io E B) : follows s post (io_bind (throw e) k).
Proof. eapply (follows_bind _ (λ _ _, False)); [apply follows_throw|done]. Qed.

Lemma follows_skip {A B} s (post : B → S → Prop) (a : A) (k : A → io E B) :
  follows s post (k a) → follows s post (io_bind (io_ret a) k).
Proof. intros H. eapply (follows_bind _ (λ x t, x = a ∧ t = s)); [by apply follows_ret|]. by intros _ _ [-> ->]. Qed.
End protocol.
