(* ===== verification/PyStr.v ===== *)
(** * Python strings

    A [str] is a Rocq [string] holding its UTF-8 bytes, so equality, prefix and
    suffix tests and concatenation are the byte ones.  This file models the
    string methods the laboratory uses: decimal and hexadecimal printing,
    [int()], [startswith], [endswith], [removeprefix], [removesuffix],
    [partition], [split], [splitlines], [join], [sorted] and [len]. *)

From Stdlib Require Import ZArith Lia Ascii.
From stdpp Require Import base strings gmap fin_maps numbers option list sorting.
From S2P Require Import Prelude.

Open Scope Z_scope.

#[global] Arguments Ascii.eqb : simpl never.
#[global] Arguments String.eqb : simpl never.
#[global] Arguments String.append : simpl nomatch.

(** Evaluates comparisons of string literals. *)
Ltac str_eqb :=
  repeat match goal with
  | |- context [String.eqb ?a ?b] =>
      let r := eval vm_compute in (String.eqb a b) in
      match r with true => idtac | false => idtac end; change (String.eqb a b) with r
  | H : context [String.eqb ?a ?b] |- _ =>
      let r := eval vm_compute in (String.eqb a b) in
      match r with true => idtac | false => idtac end; change (String.eqb a b) with r in H
  end.

(** ** Characters *)

Definition code (c : ascii) : Z := Z.of_nat (nat_of_ascii c).
Definition chr (z : Z) : ascii := ascii_of_nat (Z.to_nat z).

Definition is_digit (c : ascii) : bool := (48 <=? code c) && (code c <=? 57).
Definition is_lower (c : ascii) : bool := (97 <=? code c) && (code c <=? 122).
Definition is_upper (c : ascii) : bool := (65 <=? code c) && (code c <=? 90).
Definition is_alnum_ascii (c : ascii) : bool := is_digit c || is_lower c || is_upper c.
(** ASCII white space, as [str.strip] and [int] skip it. *)
Definition is_space (c : ascii) : bool :=
  ((9 <=? code c) && (code c <=? 13)) || ((28 <=? code c) && (code c <=? 32)).

Definition digit_char (d : Z) : ascii := chr (48 + d).
Definition digit_val (c : ascii) : Z := code c - 48.

Fixpoint str_forallb (p : ascii → bool) (s : string) : bool :=
  match s with EmptyString => true | String c s' => p c && str_forallb p s' end.

Fixpoint str_existsb (p : ascii → bool) (s : string) : bool :=
  match s with EmptyString => false | String c s' => p c || str_existsb p s' end.

Fixpoint str_filter (p : ascii → bool) (s : string) : string :=
  match s with
  | EmptyString => EmptyString
  | String c s' => if p c then String c (str_filter p s') else str_filter p s'
  end.

(** [len(s)]: the code points of [s], that is its bytes other than UTF-8
    continuation bytes. *)
Fixpoint py_len (s : string) : Z :=
  match s with
  | EmptyString => 0
  | String c s' => (if (128 <=? code c) && (code c <? 192) then 0 else 1) + py_len s'
  end.

(** ** Decimal *)

Fixpoint dec_go (fuel : nat) (n : Z) (acc : string) : string :=
  match fuel with
  | O => acc
  | S f =>
      let acc' := String (digit_char (n mod 10)) acc in
      if n <? 10 then acc' else dec_go f (n / 10) acc'
  end.

(** [str(n)] of a non-negative [int]; one digit per bit is fuel enough. *)
Definition str_of_nonneg (n : Z) : string := dec_go (S (Z.to_nat (Z.log2 n))) n EmptyString.

(** [str(n)]. *)
Definition str_of_Z (n : Z) : string :=
  if n <? 0 then "-" +:+ str_of_nonneg (- n) else str_of_nonneg n.

Fixpoint parse_go (acc : Z) (s : string) : option Z :=
  match s with
  | EmptyString => Some acc
  | String c s' => if is_digit c then parse_go (acc * 10 + digit_val c) s' else None
  end.

(** A match of the pattern [\d+] on the whole of [s] (ASCII digits). *)
Definition parse_nat (s : string) : option Z :=
  match s with EmptyString => None | _ => parse_go 0 s end.

Lemma code_chr z : 0 <= z < 256 → code (chr z) = z.
Proof.
  intros H. unfold code, chr. rewrite nat_ascii_embedding by lia. lia.
Qed.

Lemma code_bound c : 0 <= code c < 256.
Proof. unfold code. pose proof (nat_ascii_bounded c). lia. Qed.

Lemma digit_char_spec d :
  0 <= d < 10 → is_digit (digit_char d) = true ∧ digit_val (digit_char d) = d.
Proof.
  intros H. unfold is_digit, digit_val, digit_char. rewrite code_chr by lia.
  split; [|lia]. apply andb_true_iff. split; apply Z.leb_le; lia.
Qed.

Lemma parse_dec_go f n acc :
  0 <= n < 10 ^ Z.of_nat f → (0 < f)%nat →
  parse_go 0 (dec_go f n acc) = parse_go n acc.
Proof.
  revert n acc. induction f as [|f IH]; [lia|]. intros n acc Hn _.
  assert (0 <= n mod 10 < 10) as Hd by (apply Z.mod_pos_bound; lia).
  destruct (digit_char_spec _ Hd) as [Hdig Hval].
  cbn [dec_go]. destruct (n <? 10) eqn:Hlt; bool_inv.
  - cbn [parse_go]. rewrite Hdig, Hval, Z.mod_small by lia. done.
  - rewrite Nat2Z.inj_succ, Z.pow_succ_r in Hn by lia.
    destruct f as [|f]; [cbn in Hn; lia|].
    rewrite IH; [|split; [apply Z.div_pos; lia|apply Z.div_lt_upper_bound; lia]|lia].
    cbn [parse_go]. rewrite Hdig, Hval. f_equal.
    rewrite Z.mul_comm. symmetry. apply Z.div_mod. lia.
Qed.

Lemma log2_fuel n : 0 <= n → n < 10 ^ Z.of_nat (S (Z.to_nat (Z.log2 n))).
Proof.
  intros Hn. pose proof (Z.log2_nonneg n).
  rewrite Nat2Z.inj_succ, Z2Nat.id by done.
  destruct (decide (n = 0)) as [->|]; [done|].
  pose proof (Z.log2_spec n ltac:(lia)) as [_ Hup].
  pose proof (Z.pow_le_mono_l 2 10 (Z.succ (Z.log2 n))). lia.
Qed.

Lemma dec_go_nonempty f n acc : (0 < f)%nat → ∃ c s, dec_go f n acc = String c s.
Proof.
  revert n acc. induction f as [|f IH]; [lia|]. intros n acc _. cbn [dec_go].
  destruct (n <? 10); [by eexists _, _|].
  destruct f; [by eexists _, _|]. apply IH. lia.
Qed.

(** Printing then parsing a natural number is the identity. *)
Lemma parse_nat_str n : 0 <= n → parse_nat (str_of_nonneg n) = Some n.
Proof.
  intros Hn.
  assert (parse_nat (str_of_nonneg n) = parse_go 0 (str_of_nonneg n)) as ->.
  { unfold str_of_nonneg.
    destruct (dec_go_nonempty (S (Z.to_nat (Z.log2 n))) n EmptyString) as (c & s & ->);
      [lia|done]. }
  unfold str_of_nonneg. rewrite parse_dec_go; [done| |lia].
  split; [done|by apply log2_fuel].
Qed.

Lemma str_of_Z_nonneg n : 0 <= n → str_of_Z n = str_of_nonneg n.
Proof. intros H. unfold str_of_Z. by destruct (n <? 0) eqn:?; bool_inv; [lia|]. Qed.

Lemma str_of_Z_inj_nonneg a b : 0 <= a → 0 <= b → str_of_Z a = str_of_Z b → a = b.
Proof.
  intros Ha Hb H. rewrite !str_of_Z_nonneg in H by done.
  apply (f_equal parse_nat) in H. rewrite !parse_nat_str in H by done. by simplify_eq.
Qed.

Lemma dec_go_digits f n acc :
  0 <= n → str_forallb is_digit acc = true → str_forallb is_digit (dec_go f n acc) = true.
Proof.
  revert n acc. induction f as [|f IH]; [done|]. intros n acc Hn Hacc. cbn [dec_go].
  assert (0 <= n mod 10 < 10) as Hd by (apply Z.mod_pos_bound; lia).
  destruct (digit_char_spec _ Hd) as [Hdig _].
  assert (str_forallb is_digit (String (digit_char (n mod 10)) acc) = true) as H'.
  { cbn. by rewrite Hdig, Hacc. }
  destruct (n <? 10); [done|]. apply IH; [apply Z.div_pos; lia|done].
Qed.

Lemma str_of_Z_digits n : 0 <= n → str_forallb is_digit (str_of_Z n) = true.
Proof. intros H. rewrite str_of_Z_nonneg by done. by apply dec_go_digits. Qed.

(** ** Hexadecimal: [f"{n:x}"] *)

Definition hex_char (d : Z) : ascii := if d <? 10 then chr (48 + d) else chr (87 + d).

Fixpoint hex_go (fuel : nat) (n : Z) (acc : string) : string :=
  match fuel with
  | O => acc
  | S f =>
      let acc' := String (hex_char (n mod 16)) acc in
      if n <? 16 then acc' else hex_go f (n / 16) acc'
  end.

Definition hex_of_nonneg (n : Z) : string := hex_go (S (Z.to_nat (Z.log2 n))) n EmptyString.

(** [f"{n:0<width>x}"]: zero-padded on the left. *)
Fixpoint pad_left (c : ascii) (width : nat) (s : string) : string :=
  match width with
  | O => s
  | S w => if (String.length s <? S w)%nat then String c (pad_left c w s) else s
  end.
Definition hex_padded (width : nat) (n : Z) : string := pad_left "0" width (hex_of_nonneg n).

(** ** Prefixes, suffixes, pieces *)

Fixpoint strip_prefix (p s : string) : option string :=
  match p, s with
  | EmptyString, _ => Some s
  | String a p', String b s' => if Ascii.eqb a b then strip_prefix p' s' else None
  | _, _ => None
  end.

Definition startswith (s p : string) : bool := bool_decide (is_Some (strip_prefix p s)).
Definition removeprefix (s p : string) : string := default s (strip_prefix p s).

Definition strip_suffix (p s : string) : option string :=
  String.rev <$> strip_prefix (String.rev p) (String.rev s).

Definition endswith (s p : string) : bool := bool_decide (is_Some (strip_suffix p s)).
Definition removesuffix (s p : string) : string := default s (strip_suffix p s).

(** [s.partition(c)]: the part before the first [c], and the part after it when
    there is one. *)
Fixpoint partition_at (c : ascii) (s : string) : string * option string :=
  match s with
  | EmptyString => (EmptyString, None)
  | String a s' =>
      if Ascii.eqb a c then (EmptyString, Some s')
      else let '(l, r) := partition_at c s' in (String a l, r)
  end.

(** [s.split(c)]. *)
Fixpoint split_on (c : ascii) (s : string) : list string :=
  match s with
  | EmptyString => [EmptyString]
  | String a s' =>
      if Ascii.eqb a c then EmptyString :: split_on c s'
      else match split_on c s' with
           | w :: ws => String a w :: ws
           | [] => [String a EmptyString]
           end
  end.

(** The line boundary at the head of [s], if any, as the number of its bytes:
    CRLF; LF, VT, FF, CR, FS, GS, RS; U+0085; U+2028 and U+2029. *)
Definition line_break (s : string) : option nat :=
  match s with
  | String a s' =>
      let c := code a in
      if (c =? 13) && match s' with String b _ => Ascii.eqb b "010" | _ => false end then Some 2%nat
      else if ((10 <=? c) && (c <=? 13)) || ((28 <=? c) && (c <=? 30)) then Some 1%nat
      else if (c =? 194) && match s' with String b _ => code b =? 133 | _ => false end then Some 2%nat
      else if (c =? 226) &&
              match s' with
              | String b (String d _) => (code b =? 128) && ((code d =? 168) || (code d =? 169))
              | _ => false
              end then Some 3%nat
      else None
  | EmptyString => None
  end.

(** [s.splitlines()]: [skip] bytes of a boundary remain to be dropped; an
    unterminated last line counts, a final boundary opens no new line. *)
Fixpoint splitlines_go (skip : nat) (line : string) (s : string) : list string :=
  match s with
  | EmptyString => match line with EmptyString => [] | _ => [String.rev line] end
  | String a s' =>
      match skip with
      | S k => splitlines_go k line s'
      | O => match line_break s with
             | Some n => String.rev line :: splitlines_go (pred n) EmptyString s'
             | None => splitlines_go 0 (String a line) s'
             end
      end
  end.
Definition splitlines (s : string) : list string := splitlines_go 0 EmptyString s.

Fixpoint join (sep : string) (l : list string) : string :=
  match l with
  | [] => EmptyString
  | [x] => x
  | x :: l' => x +:+ sep +:+ join sep l'
  end.

Definition concat_str (l : list string) : string := foldr String.append EmptyString l.

Lemma strip_prefix_app p s : strip_prefix p (p +:+ s) = Some s.
Proof.
  induction p as [|a p IH]; cbn; [done|]. by rewrite Ascii.eqb_refl.
Qed.

Lemma strip_prefix_Some p s r : strip_prefix p s = Some r → s = p +:+ r.
Proof.
  revert s. induction p as [|a p IH]; intros [|b s]; cbn; try naive_solver.
  destruct (Ascii.eqb_spec a b) as [->|]; [|done]. intros H. f_equal. by apply IH.
Qed.

Lemma startswith_spec s p : startswith s p = true ↔ ∃ r, s = p +:+ r.
Proof.
  unfold startswith. rewrite bool_decide_eq_true. split.
  - intros [r Hr]. exists r. by apply strip_prefix_Some.
  - intros [r ->]. rewrite strip_prefix_app. by eexists.
Qed.

Lemma partition_at_absent c s :
  str_forallb (λ a, negb (Ascii.eqb a c)) s = true → partition_at c s = (s, None).
Proof.
  induction s as [|a s IH]; cbn; [done|]. intros [H1 H2]%andb_true_iff.
  apply negb_true_iff in H1. rewrite H1, IH by done. done.
Qed.

Lemma partition_at_app c l r :
  str_forallb (λ a, negb (Ascii.eqb a c)) l = true →
  partition_at c (l +:+ String c r) = (l, Some r).
Proof.
  induction l as [|a l IH]; cbn; [by rewrite Ascii.eqb_refl|].
  intros [H1 H2]%andb_true_iff. apply negb_true_iff in H1. by rewrite H1, IH.
Qed.

Lemma partition_at_Some c s l r :
  partition_at c s = (l, Some r) → s = l +:+ String c r.
Proof.
  revert l. induction s as [|a s IH]; intros l; cbn; [done|].
  destruct (Ascii.eqb_spec a c) as [->|]; [by intros [= <- <-]|].
  destruct (partition_at c s) as [l' r'] eqn:H. intros [= <- ->]. cbn. f_equal. by apply IH.
Qed.

(** ** Sorting *)

(** [sorted(l)] of strings (code points and UTF-8 bytes order alike). *)
Definition str_le (a b : string) : Prop := String.leb a b = true.
#[global] Instance str_le_dec a b : Decision (str_le a b) := decide (String.leb a b = true).
Definition py_sorted (l : list string) : list string := merge_sort str_le l.

Lemma py_sorted_perm l : py_sorted l ≡ₚ l.
Proof. apply merge_sort_Permutation. Qed.

(** ** White space, [int()] and searching *)

Fixpoint lstrip (s : string) : string :=
  match s with
  | String c s' => if is_space c then lstrip s' else s
  | EmptyString => EmptyString
  end.
(** [s.strip()]. *)
Definition strip (s : string) : string := String.rev (lstrip (String.rev (lstrip s))).

(** The digits of an [int()] literal, single underscores between them allowed. *)
Definition parse_digits (s : string) : option Z :=
  let pieces := split_on "_" s in
  if forallb (λ p, negb (String.eqb p EmptyString)) pieces then parse_nat (concat_str pieces)
  else None.

(** [int(s)] of a string of ASCII characters; [None] is its [ValueError]. *)
Definition py_int (s : string) : option Z :=
  match strip s with
  | String c s' =>
      if Ascii.eqb c "-" then Z.opp <$> parse_digits s'
      else if Ascii.eqb c "+" then parse_digits s'
      else parse_digits (String c s')
  | EmptyString => None
  end.

Definition int_of_str (s : string) : res Z :=
  or_raise (py_int s) (Exn ValueError "invalid literal for int() with base 10: {}" [PS s]).

(** The longest prefix of characters satisfying [p], and the rest. *)
Fixpoint span (p : ascii → bool) (s : string) : string * string :=
  match s with
  | String c s' => if p c then let '(a, b) := span p s' in (String c a, b) else (EmptyString, s)
  | EmptyString => (EmptyString, EmptyString)
  end.

(** A match of [pre(\d+)post] at the start of [s], for a [post] that does not
    begin with a digit: the number and the rest. *)
Definition match_num (pre post s : string) : option (Z * string) :=
  r ← strip_prefix pre s;
  let '(digits, r') := span is_digit r in
  n ← parse_nat digits;
  r'' ← strip_prefix post r';
  Some (n, r'').

(** [re.search]: the leftmost match of [m]. *)
Fixpoint search {A} (m : string → option A) (s : string) : option A :=
  match m s with
  | Some a => Some a
  | None => match s with EmptyString => None | String _ s' => search m s' end
  end.

(** [sub in s]. *)
Definition contains (sub s : string) : bool := bool_decide (is_Some (search (strip_prefix sub) s)).

(** [s.replace(a, b)] for single characters. *)
Fixpoint replace_char (a b : ascii) (s : string) : string :=
  match s with
  | EmptyString => EmptyString
  | String c s' => String (if Ascii.eqb c a then b else c) (replace_char a b s')
  end.

(** [s.lower()] of ASCII characters. *)
Fixpoint to_lower (s : string) : string :=
  match s with
  | EmptyString => EmptyString
  | String c s' => String (if is_upper c then chr (code c + 32) else c) (to_lower s')
  end.

(** [re.fullmatch(r"\d+", s)] and its neighbours: the whole of [s]. *)
Definition all_digits (s : string) : bool :=
  negb (String.eqb s EmptyString) && str_forallb is_digit s.

(** [s.rsplit(c, 1)] when [c] occurs: the parts around its last occurrence. *)
Fixpoint rpartition_at (c : ascii) (s : string) : option (string * string) :=
  match s with
  | EmptyString => None
  | String a s' =>
      match rpartition_at c s' with
      | Some (l, r) => Some (String a l, r)
      | None => if Ascii.eqb a c then Some (EmptyString, s') else None
      end
  end.

Lemma rpartition_at_app c l r :
  str_forallb (λ a, negb (Ascii.eqb a c)) r = true →
  rpartition_at c (l +:+ String c r) = Some (l, r).
Proof.
  intros Hr. assert (rpartition_at c r = None) as Hn.
  { clear l. induction r as [|a r IH]; cbn in *; [done|].
    apply andb_true_iff in Hr as [H1 H2]. apply negb_true_iff in H1. by rewrite IH, H1. }
  induction l as [|a l IH]; cbn; [by rewrite Hn, Ascii.eqb_refl|]. by rewrite IH.
Qed.

(** ** Lines *)

(** No line boundary starts inside [s] whatever follows: its bytes are neither
    ASCII boundaries nor the first bytes of the longer ones. *)
Definition plain_char (c : ascii) : bool :=
  negb (((10 <=? code c) && (code c <=? 13)) || ((28 <=? code c) && (code c <=? 30)))
  && negb (code c =? 194) && negb (code c =? 226).
Definition plain (s : string) : bool := str_forallb plain_char s.

Lemma plain_no_break a s : plain_char a = true → line_break (String a s) = None.
Proof.
  unfold plain_char, line_break. intros H.
  apply andb_true_iff in H as [[H1 H2]%andb_true_iff H3].
  apply negb_true_iff in H1, H2, H3. rewrite H1, H2, H3. cbn.
  apply orb_false_iff in H1 as [H1 _]. destruct (code a =? 13) eqn:E; [|done].
  apply Z.eqb_eq in E. rewrite E in H1. done.
Qed.

Lemma string_app_assoc (a b c : string) : (a +:+ b) +:+ c = a +:+ (b +:+ c).
Proof. induction a as [|x a IH]; cbn; [done|]. by rewrite IH. Qed.

Lemma rev_app_rev s acc : String.rev_app s acc = String.rev s +:+ acc.
Proof.
  unfold String.rev. revert acc. induction s as [|c s IH]; intros acc; cbn; [done|].
  rewrite (IH (String c acc)), (IH (String c EmptyString)). by rewrite string_app_assoc.
Qed.

Lemma rev_cons c s : String.rev (String c s) = String.rev s +:+ String c EmptyString.
Proof. unfold String.rev at 1. cbn. apply rev_app_rev. Qed.

Lemma string_app_nil_r s : s +:+ EmptyString = s.
Proof. induction s as [|c s IH]; cbn; [done|]. by rewrite IH. Qed.

Lemma rev_app_string a b : String.rev (a +:+ b) = String.rev b +:+ String.rev a.
Proof.
  induction a as [|c a IH]; cbn [String.append].
  - change (String.rev EmptyString) with EmptyString. by rewrite string_app_nil_r.
  - by rewrite !rev_cons, IH, string_app_assoc.
Qed.


Lemma splitlines_go_plain line s rest :
  plain s = true →
  splitlines_go 0 line (s +:+ String "010" rest) =
  (String.rev line +:+ s) :: splitlines_go 0 EmptyString rest.
Proof.
  revert line. induction s as [|c s IH]; intros line Hp.
  - cbn [String.append splitlines_go]. cbn. by rewrite string_app_nil_r.
  - cbn in Hp. apply andb_true_iff in Hp as [Hc Hp].
    cbn [String.append splitlines_go]. rewrite plain_no_break by done.
    rewrite IH by done. f_equal. rewrite rev_cons. by rewrite string_app_assoc.
Qed.

(** Lines written one by one are read back. *)
Lemma splitlines_lines ls :
  Forall (λ l, plain l = true) ls →
  splitlines (concat_str ((λ l, l +:+ String "010" EmptyString) <$> ls)) = ls.
Proof.
  unfold splitlines. induction 1 as [|l ls Hl Hls IH]; [done|].
  cbn [fmap list_fmap concat_str foldr]. fold (concat_str ((λ l, l +:+ String "010" EmptyString) <$> ls)).
  rewrite string_app_assoc. cbn [String.append].
  rewrite splitlines_go_plain by done. by rewrite IH.
Qed.

Lemma rev_rev_string s : String.rev (String.rev s) = s.
Proof.
  induction s as [|c s IH]; [done|].
  rewrite rev_cons, rev_app_string, IH. done.
Qed.

(** ** [int(str(n))] *)

Lemma digit_not_space c : is_digit c = true → is_space c = false.
Proof.
  unfold is_digit, is_space. intros H. bool_inv.
  apply orb_false_iff. rewrite !andb_false_iff, !Z.leb_gt. lia.
Qed.

Lemma str_forallb_app p a b : str_forallb p (a +:+ b) = str_forallb p a && str_forallb p b.
Proof. induction a as [|c a IH]; cbn; [done|]. by rewrite IH, andb_assoc. Qed.

Lemma string_length_app a b : String.length (a +:+ b) = (String.length a + String.length b)%nat.
Proof. induction a as [|c a IH]; cbn; congruence. Qed.

Lemma forallb_rev_string p s : str_forallb p (String.rev s) = str_forallb p s.
Proof.
  induction s as [|c s IH]; [done|]. rewrite rev_cons, str_forallb_app, IH. cbn.
  by rewrite andb_true_r, andb_comm.
Qed.

Lemma lstrip_digits s : str_forallb is_digit s = true → lstrip s = s.
Proof.
  destruct s as [|c s]; [done|]. cbn. intros [Hc _]%andb_true_iff. by rewrite digit_not_space.
Qed.

Lemma strip_digits s : str_forallb is_digit s = true → strip s = s.
Proof.
  intros H. unfold strip. rewrite (lstrip_digits s) by done.
  rewrite lstrip_digits by (by rewrite forallb_rev_string). apply rev_rev_string.
Qed.

Lemma split_on_absent c s :
  str_forallb (λ a, negb (Ascii.eqb a c)) s = true → split_on c s = [s].
Proof.
  induction s as [|a s IH]; cbn; [done|]. intros [H1 H2]%andb_true_iff.
  apply negb_true_iff in H1. by rewrite H1, IH.
Qed.

Lemma str_forallb_impl (p q : ascii → bool) s :
  (∀ c, p c = true → q c = true) → str_forallb p s = true → str_forallb q s = true.
Proof.
  intros H. induction s as [|c s IH]; cbn; [done|].
  intros [H1 H2]%andb_true_iff. by rewrite H, IH.
Qed.

Lemma digit_neq c d : is_digit c = true → is_digit d = false → Ascii.eqb c d = false.
Proof. intros Hc Hd. apply Ascii.eqb_neq. intros ->. congruence. Qed.

Lemma py_int_str n : 0 <= n → py_int (str_of_Z n) = Some n.
Proof.
  intros Hn. pose proof (str_of_Z_digits n Hn) as Hd.
  rewrite <- (parse_nat_str n Hn), <- (str_of_Z_nonneg n Hn).
  unfold py_int. rewrite strip_digits by done.
  destruct (str_of_Z n) as [|c s] eqn:E.
  { rewrite str_of_Z_nonneg in E by done. pose proof (parse_nat_str n Hn) as Hp.
    by rewrite E in Hp. }
  pose proof Hd as Hd'. cbn in Hd'. apply andb_true_iff in Hd' as [Hc _].
  rewrite !(digit_neq c) by (done || (vm_compute; reflexivity)).
  unfold parse_digits. rewrite split_on_absent.
  - cbn [forallb concat_str foldr]. rewrite string_app_nil_r.
    destruct (String.eqb_spec (String c s) EmptyString) as [|_]; [done|]. done.
  - eapply str_forallb_impl; [|exact Hd]. intros x Hx. cbn.
    by rewrite (digit_neq x) by (done || (vm_compute; reflexivity)).
Qed.

Lemma strip_no_space s : str_forallb (λ c, negb (is_space c)) s = true → strip s = s.
Proof.
  intros H. assert (∀ t, str_forallb (λ c, negb (is_space c)) t = true → lstrip t = t) as Hl.
  { intros [|c t]; [done|]. cbn. intros [Hc _]%andb_true_iff. apply negb_true_iff in Hc. by rewrite Hc. }
  unfold strip. rewrite (Hl s), Hl, rev_rev_string; [done|by rewrite forallb_rev_string|done].
Qed.

(** [int(str(n)) == n], of any sign. *)
Lemma int_of_str_Z n : int_of_str (str_of_Z n) = Ok n.
Proof.
  unfold int_of_str. destruct (Z_lt_le_dec n 0) as [Hn|Hn]; [|by rewrite py_int_str].
  assert (str_of_Z n = "-" +:+ str_of_Z (- n)) as ->.
  { rewrite (str_of_Z_nonneg (- n)) by lia. unfold str_of_Z.
    by rewrite (proj2 (Z.ltb_lt n 0)) by done. }
  pose proof (str_of_Z_digits (- n) ltac:(lia)) as Hd.
  pose proof (py_int_str (- n) ltac:(lia)) as Hi.
  assert (str_forallb (λ c, negb (is_space c)) (str_of_Z (- n)) = true) as Hs.
  { eapply str_forallb_impl; [|exact Hd]. intros c Hc. by rewrite digit_not_space. }
  unfold py_int in *. rewrite strip_no_space in Hi |- * by (cbn; done).
  cbn [String.append Ascii.eqb Bool.eqb]. destruct (str_of_Z (- n)) as [|c s]; [done|].
  cbn in Hd. apply andb_true_iff in Hd as [Hc _].
  rewrite !(digit_neq c) in Hi by (done || (vm_compute; reflexivity)).
  change (Ascii.eqb "-" "-") with true. cbv iota. rewrite Hi.
  cbn [fmap option_fmap option_map or_raise]. by rewrite Z.opp_involutive.
Qed.

Lemma startswith_app a s : startswith (a +:+ s) a = true.
Proof. apply startswith_spec. by eexists. Qed.

Lemma endswith_app a s : endswith (a +:+ s) s = true.
Proof.
  unfold endswith, strip_suffix. rewrite rev_app_string, strip_prefix_app.
  apply bool_decide_eq_true_2. by eexists.
Qed.

(** ** Joining and splitting *)

Lemma join_app sep a b : a ≠ [] → b ≠ [] → join sep (a ++ b) = join sep a +:+ sep +:+ join sep b.
Proof.
  intros Ha Hb. induction a as [|x [|y a] IH]; [done|..].
  - destruct b; [done|]. done.
  - change (join sep ((x :: y :: a) ++ b)) with (x +:+ sep +:+ join sep ((y :: a) ++ b)).
    rewrite IH by done. cbn [join]. by rewrite !string_app_assoc.
Qed.

Definition lacks (c : ascii) (s : string) : bool := str_forallb (λ a, negb (Ascii.eqb a c)) s.

Lemma split_on_app c a b : lacks c a = true → split_on c (a +:+ String c b) = a :: split_on c b.
Proof.
  induction a as [|x a IH]; cbn; [by rewrite Ascii.eqb_refl|].
  intros [H1 H2]%andb_true_iff. apply negb_true_iff in H1. rewrite H1. unfold lacks in IH. by rewrite IH.
Qed.

(** [sep.join(ws).split(sep) == ws]. *)
Lemma split_on_join c ws :
  ws ≠ [] → forallb (lacks c) ws = true → split_on c (join (String c EmptyString) ws) = ws.
Proof.
  induction ws as [|w ws IH]; [done|]. intros _. cbn [forallb]. intros [Hw Hws]%andb_true_iff.
  destruct ws as [|w' ws]; [by apply split_on_absent|].
  change (split_on c (w +:+ String c (join (String c EmptyString) (w' :: ws))) = w :: w' :: ws).
  rewrite split_on_app by done. by rewrite IH.
Qed.
