(* ===== verification/Json.v ===== *)
(** * JSON values and Python dictionaries

    The values [json.loads] builds, Python's [==], [in] and hashability on
    them, and insertion-ordered dictionaries with string keys.  The parser
    itself is the standard library's and is not modelled. *)

From Stdlib Require Import ZArith Lia SpecFloat.
From stdpp Require Import base strings gmap fin_maps numbers option list sorting.
From S2P Require Import Prelude PyStr.

Open Scope Z_scope.

(** ** Values *)

(** A Python [float] is a binary64 value, of which the program only inspects
    the type. *)
Inductive json :=
  | JNull
  | JBool (b : bool)
  | JInt (z : Z)
  | JFloat (f : spec_float)
  | JStr (s : string)
  | JList (l : list json)
  | JObj (o : list (string * json)).

Abbreviation jobj := (list (string * json)).

(** ** Insertion-ordered dictionaries *)

Section dict.
Context {V : Type}.
Implicit Types (d : list (string * V)) (k : string) (v : V).

(** [d.get(k)]. *)
Fixpoint dget d k : option V :=
  match d with
  | [] => None
  | (k', v) :: d' => if String.eqb k k' then Some v else dget d' k
  end.

(** [k in d]. *)
Definition has d k : bool := bool_decide (is_Some (dget d k)).

(** [d[k] = v]: an existing key keeps its place, a new key goes last. *)
Fixpoint dset d k v : list (string * V) :=
  match d with
  | [] => [(k, v)]
  | (k', v') :: d' => if String.eqb k k' then (k, v) :: d' else (k', v') :: dset d' k v
  end.

(** [d.pop(k, None)]. *)
Definition dpop d k : list (string * V) :=
  List.filter (λ kv, negb (String.eqb kv.1 k)) d.

Definition keys d : list string := d.*1.

(** [d.update(d')], and [{**d, **d'}]. *)
Definition dupdate d d' : list (string * V) :=
  foldl (λ acc kv, dset acc kv.1 kv.2) d d'.

(** [d[k]]. *)
Definition getitem d k : res V := or_raise (dget d k) (Exn KeyError k []).

Lemma dget_dset d k v k' :
  dget (dset d k v) k' = if String.eqb k' k then Some v else dget d k'.
Proof.
  induction d as [|[k1 v1] d IH]; cbn; [done|].
  destruct (String.eqb_spec k k1) as [->|Hne]; cbn.
  - by destruct (String.eqb_spec k' k1).
  - rewrite IH. destruct (String.eqb_spec k' k1) as [->|]; [|done].
    by destruct (String.eqb_spec k1 k).
Qed.

Lemma dget_dset_eq d k v : dget (dset d k v) k = Some v.
Proof. by rewrite dget_dset, String.eqb_refl. Qed.

Lemma dget_dset_ne d k v k' : k' ≠ k → dget (dset d k v) k' = dget d k'.
Proof. intros H. rewrite dget_dset. by destruct (String.eqb_spec k' k). Qed.

Lemma dget_dpop d k k' :
  dget (dpop d k) k' = if String.eqb k' k then None else dget d k'.
Proof.
  unfold dpop. induction d as [|[k1 v1] d IH]; cbn; [by destruct (String.eqb _ _)|].
  destruct (String.eqb_spec k1 k) as [->|Hne]; cbn; rewrite IH.
  - by destruct (String.eqb_spec k' k).
  - destruct (String.eqb_spec k' k1) as [->|]; [|done].
    by destruct (String.eqb_spec k1 k).
Qed.

Lemma dget_Some_elem d k v : dget d k = Some v → (k, v) ∈ d.
Proof.
  induction d as [|[k1 v1] d IH]; cbn; [done|].
  destruct (String.eqb_spec k k1) as [->|]; [intros [= ->]; by left|].
  intros ?%IH. by right.
Qed.

Lemma dget_None_keys d k : dget d k = None ↔ k ∉ keys d.
Proof.
  unfold keys. induction d as [|[k1 v1] d IH]; cbn.
  - split; [intros _; apply not_elem_of_nil|done].
  - destruct (String.eqb_spec k k1) as [->|Hne].
    + split; [done|]. intros H. destruct H. by left.
    + rewrite IH, not_elem_of_cons. naive_solver.
Qed.

Lemma dget_is_Some_keys d k : is_Some (dget d k) ↔ k ∈ keys d.
Proof.
  destruct (dget d k) eqn:H.
  - split; [intros _|by eexists]. destruct (decide (k ∈ keys d)); [done|].
    apply dget_None_keys in n. congruence.
  - apply dget_None_keys in H. split; [by intros [??]|done].
Qed.

Lemma has_true d k : has d k = true ↔ is_Some (dget d k).
Proof. apply bool_decide_eq_true. Qed.
Lemma has_false d k : has d k = false ↔ dget d k = None.
Proof. unfold has. rewrite bool_decide_eq_false. by rewrite eq_None_not_Some. Qed.

Lemma keys_dset d k v :
  keys (dset d k v) = if has d k then keys d else keys d ++ [k].
Proof.
  unfold keys. induction d as [|[k1 v1] d IH]; cbn; [done|].
  unfold has in *. cbn. destruct (String.eqb_spec k k1) as [->|]; cbn; [done|].
  rewrite IH. by case_bool_decide.
Qed.

Lemma dset_NoDup d k v : NoDup (keys d) → NoDup (keys (dset d k v)).
Proof.
  intros Hnd. rewrite keys_dset. destruct (has d k) eqn:H; [done|].
  apply has_false, dget_None_keys in H. apply NoDup_app.
  split_and!; [done|set_solver|apply NoDup_singleton].
Qed.

Lemma dget_NoDup_elem d k v : NoDup (keys d) → (k, v) ∈ d → dget d k = Some v.
Proof.
  unfold keys. induction d as [|[k1 v1] d IH]; cbn; [by intros _ ?%elem_of_nil|].
  intros [Hni Hnd]%NoDup_cons [[= -> ->]|Hin]%elem_of_cons.
  - by rewrite String.eqb_refl.
  - destruct (String.eqb_spec k k1) as [->|]; [|by apply IH].
    destruct Hni. apply list_elem_of_fmap. by exists (k1, v).
Qed.

(** The dictionary as a finite map: the lookups agree. *)
Lemma dget_list_to_map d k : list_to_map (M := gmap string V) d !! k = dget d k.
Proof.
  induction d as [|[k1 v1] d IH]; cbn; [done|].
  destruct (String.eqb_spec k k1) as [->|]; [by rewrite lookup_insert_eq|].
  by rewrite lookup_insert_ne.
Qed.

Lemma dget_dupdate d d' k :
  NoDup (keys d') →
  dget (dupdate d d') k = match dget d' k with Some v => Some v | None => dget d k end.
Proof.
  unfold keys, dupdate. revert d. induction d' as [|[k1 v1] d' IH]; intros d; cbn; [done|].
  intros [Hni Hnd]%NoDup_cons. rewrite IH by done.
  destruct (String.eqb_spec k k1) as [->|].
  - assert (dget d' k1 = None) as -> by (by apply dget_None_keys).
    apply dget_dset_eq.
  - destruct (dget d' k); [done|]. by apply dget_dset_ne.
Qed.
End dict.


(** ** Python's operations on JSON values *)

Definition json_is_str (v : json) : option string :=
  match v with JStr s => Some s | _ => None end.

(** [v == s] for a [str] [s]: only a [str] equals one. *)
Definition eq_str (v : json) (s : string) : bool :=
  match v with JStr s' => String.eqb s' s | _ => false end.

(** [v in names] for a list, set or dict keys [names] of [str]; on a list the
    test never hashes [v]. *)
Definition in_strs (v : json) (names : list string) : bool :=
  match v with JStr s => elemb s names | _ => false end.

(** Hashable values: all but lists and objects. *)
Definition hashable (v : json) : bool :=
  match v with JList _ | JObj _ => false | _ => true end.

Definition type_name (v : json) : string :=
  match v with
  | JNull => "NoneType" | JBool _ => "bool" | JInt _ => "int" | JFloat _ => "float"
  | JStr _ => "str" | JList _ => "list" | JObj _ => "dict"
  end%string.

(** Hashing [v], as a set or dict membership test does first. *)
Definition py_hash (v : json) : res unit :=
  if hashable v then Ok tt
  else Err (Exn TypeError "unhashable type: {}" [PS (type_name v)]).

(** [v in d] for a dict whose keys are [names]. *)
Definition in_dict (v : json) (names : list string) : res bool :=
  _ ← py_hash v; Ok (in_strs v names).

(** [v[k]] for a string [k]. *)
Definition subscript (v : json) (k : string) : res json :=
  match v with
  | JObj o => getitem o k
  | _ => Err (Exn TypeError "{} indices must be integers or is not subscriptable" [PS (type_name v)])
  end.

Lemma eq_str_true v s : eq_str v s = true ↔ v = JStr s.
Proof. destruct v; cbn; try naive_solver. rewrite String.eqb_eq. naive_solver. Qed.

Lemma in_strs_true v names : in_strs v names = true ↔ ∃ s, v = JStr s ∧ s ∈ names.
Proof. destruct v; cbn; try naive_solver. rewrite elemb_true. naive_solver. Qed.

Lemma in_dict_Ok v names b :
  in_dict v names = Ok b ↔ hashable v = true ∧ b = in_strs v names.
Proof. unfold in_dict, py_hash. destruct (hashable v); cbn; naive_solver. Qed.

Lemma in_dict_Err v names e :
  in_dict v names = Err e → exn_cls e = TypeError ∧ hashable v = false.
Proof. unfold in_dict, py_hash. destruct (hashable v); cbn; [done|]. by intros [= <-]. Qed.

Lemma getitem_Ok {V} (d : list (string * V)) k v : getitem d k = Ok v ↔ dget d k = Some v.
Proof. apply or_raise_Ok. Qed.
