(* ===== verification/Samples.v ===== *)
(** * The topology documents shipped in [configs/]

    Each definition is the document of that name, as [json.loads] reads it.
    They are the concrete inputs of the witnesses and examples. *)

From Stdlib Require Import ZArith.
From stdpp Require Import base strings.
From S2P Require Import Json.

Open Scope string_scope.
Open Scope Z_scope.

Definition topology_gem5_two_heads : json :=
  JObj [("schema_version", JInt 1);
    ("name", JStr "gem5-two-heads");
    ("nodes", JList [JObj [("id", JStr "head-a"); ("simulator", JStr "gem5"); ("profile", JStr "modern")];
      JObj [("id", JStr "head-b"); ("simulator", JStr "gem5"); ("profile", JStr "modern")]]);
    ("machine", JObj [("o3_lq_entries", JInt 64); ("o3_sq_entries", JInt 64); ("l1d_prefetcher", JStr "stride_exclusive")]);
    ("devices", JList [JObj [("id", JStr "udma-a"); ("node", JStr "head-a"); ("type", JStr "udma"); ("eid", JInt 256); ("ports", JInt 1); ("max_jettys", JInt 47)];
      JObj [("id", JStr "udma-b"); ("node", JStr "head-b"); ("type", JStr "udma"); ("eid", JInt 257); ("ports", JInt 1); ("max_jettys", JInt 47)]]);
    ("switches", JList [JObj [("id", JStr "switch-0"); ("type", JStr "ns3ub"); ("delay_ns", JInt 500)]]);
    ("links", JList [JObj [("device", JStr "udma-a"); ("device_port", JInt 0); ("switch", JStr "switch-0"); ("switch_port", JInt 0); ("rate_gbps", JInt 400); ("latency_ns", JInt 375)];
      JObj [("device", JStr "udma-b"); ("device_port", JInt 0); ("switch", JStr "switch-0"); ("switch_port", JInt 1); ("rate_gbps", JInt 400); ("latency_ns", JInt 375)]]);
    ("execution", JObj [("sync", JStr "required"); ("checkpoint", JStr "auto")])].

Definition topology_gem5_direct_link : json :=
  JObj [("schema_version", JInt 1);
    ("name", JStr "gem5-two-heads-direct-400g");
    ("nodes", JList [JObj [("id", JStr "head-a"); ("simulator", JStr "gem5"); ("profile", JStr "modern")];
      JObj [("id", JStr "head-b"); ("simulator", JStr "gem5"); ("profile", JStr "modern")]]);
    ("machine", JObj [("o3_lq_entries", JInt 64); ("o3_sq_entries", JInt 64); ("l1d_prefetcher", JStr "stride_exclusive")]);
    ("devices", JList [JObj [("id", JStr "udma-a"); ("node", JStr "head-a"); ("type", JStr "udma"); ("eid", JInt 256); ("ports", JInt 1); ("max_jettys", JInt 47)];
      JObj [("id", JStr "udma-b"); ("node", JStr "head-b"); ("type", JStr "udma"); ("eid", JInt 257); ("ports", JInt 1); ("max_jettys", JInt 47)]]);
    ("switches", JList []);
    ("links", JList [JObj [("device", JStr "udma-a"); ("device_port", JInt 0); ("peer_device", JStr "udma-b"); ("peer_port", JInt 0); ("rate_gbps", JInt 400); ("latency_ns", JInt 750)]]);
    ("execution", JObj [("sync", JStr "required"); ("checkpoint", JStr "auto")])].

Definition topology_gem5_three_heads : json :=
  JObj [("schema_version", JInt 1);
    ("name", JStr "gem5-three-heads");
    ("nodes", JList [JObj [("id", JStr "head-a"); ("simulator", JStr "gem5"); ("profile", JStr "modern")];
      JObj [("id", JStr "head-b"); ("simulator", JStr "gem5"); ("profile", JStr "modern")];
      JObj [("id", JStr "head-c"); ("simulator", JStr "gem5"); ("profile", JStr "modern")]]);
    ("machine", JObj [("memory_size_gb", JInt 4); ("o3_lq_entries", JInt 64); ("o3_sq_entries", JInt 64); ("l1d_prefetcher", JStr "stride_exclusive")]);
    ("devices", JList [JObj [("id", JStr "udma-a"); ("node", JStr "head-a"); ("type", JStr "udma"); ("eid", JInt 256); ("ports", JInt 1); ("max_jettys", JInt 47)];
      JObj [("id", JStr "udma-b"); ("node", JStr "head-b"); ("type", JStr "udma"); ("eid", JInt 257); ("ports", JInt 1); ("max_jettys", JInt 47)];
      JObj [("id", JStr "udma-c"); ("node", JStr "head-c"); ("type", JStr "udma"); ("eid", JInt 258); ("ports", JInt 1); ("max_jettys", JInt 47)]]);
    ("switches", JList [JObj [("id", JStr "switch-0"); ("type", JStr "ns3ub"); ("delay_ns", JInt 500)]]);
    ("links", JList [JObj [("device", JStr "udma-a"); ("device_port", JInt 0); ("switch", JStr "switch-0"); ("switch_port", JInt 0); ("rate_gbps", JInt 400); ("latency_ns", JInt 375)];
      JObj [("device", JStr "udma-b"); ("device_port", JInt 0); ("switch", JStr "switch-0"); ("switch_port", JInt 1); ("rate_gbps", JInt 400); ("latency_ns", JInt 375)];
      JObj [("device", JStr "udma-c"); ("device_port", JInt 0); ("switch", JStr "switch-0"); ("switch_port", JInt 2); ("rate_gbps", JInt 400); ("latency_ns", JInt 375)]]);
    ("execution", JObj [("sync", JStr "required"); ("checkpoint", JStr "auto")])].

Definition topology_qemu_two_heads : json :=
  JObj [("schema_version", JInt 1);
    ("name", JStr "qemu-two-heads-one-400g-switch");
    ("nodes", JList [JObj [("id", JStr "head-a"); ("simulator", JStr "qemu")];
      JObj [("id", JStr "head-b"); ("simulator", JStr "qemu")]]);
    ("devices", JList [JObj [("id", JStr "udma-a"); ("node", JStr "head-a"); ("type", JStr "udma"); ("eid", JInt 256); ("ports", JInt 1); ("max_jettys", JInt 47)];
      JObj [("id", JStr "udma-b"); ("node", JStr "head-b"); ("type", JStr "udma"); ("eid", JInt 257); ("ports", JInt 1); ("max_jettys", JInt 47)]]);
    ("switches", JList [JObj [("id", JStr "switch-0"); ("type", JStr "ns3ub"); ("delay_ns", JInt 500)]]);
    ("links", JList [JObj [("device", JStr "udma-a"); ("device_port", JInt 0); ("switch", JStr "switch-0"); ("switch_port", JInt 0); ("rate_gbps", JInt 400); ("latency_ns", JInt 375)];
      JObj [("device", JStr "udma-b"); ("device_port", JInt 0); ("switch", JStr "switch-0"); ("switch_port", JInt 1); ("rate_gbps", JInt 400); ("latency_ns", JInt 375)]]);
    ("execution", JObj [("sync", JStr "off"); ("checkpoint", JStr "none")])].

Definition topology_qemu_direct_link : json :=
  JObj [("schema_version", JInt 1);
    ("name", JStr "qemu-two-heads-direct-400g");
    ("nodes", JList [JObj [("id", JStr "head-a"); ("simulator", JStr "qemu")];
      JObj [("id", JStr "head-b"); ("simulator", JStr "qemu")]]);
    ("devices", JList [JObj [("id", JStr "udma-a"); ("node", JStr "head-a"); ("type", JStr "udma"); ("eid", JInt 256); ("ports", JInt 1); ("max_jettys", JInt 47)];
      JObj [("id", JStr "udma-b"); ("node", JStr "head-b"); ("type", JStr "udma"); ("eid", JInt 257); ("ports", JInt 1); ("max_jettys", JInt 47)]]);
    ("switches", JList []);
    ("links", JList [JObj [("device", JStr "udma-a"); ("device_port", JInt 0); ("peer_device", JStr "udma-b"); ("peer_port", JInt 0); ("rate_gbps", JInt 400); ("latency_ns", JInt 750)]]);
    ("execution", JObj [("sync", JStr "off"); ("checkpoint", JStr "none")])].

Definition topology_gem5_asymmetric_links : json :=
  JObj [("schema_version", JInt 1);
    ("name", JStr "gem5-two-heads-asymmetric-links");
    ("nodes", JList [JObj [("id", JStr "head-a"); ("simulator", JStr "gem5"); ("profile", JStr "modern")];
      JObj [("id", JStr "head-b"); ("simulator", JStr "gem5"); ("profile", JStr "modern")]]);
    ("machine", JObj [("o3_lq_entries", JInt 64); ("o3_sq_entries", JInt 64); ("l1d_prefetcher", JStr "stride_exclusive")]);
    ("devices", JList [JObj [("id", JStr "udma-a"); ("node", JStr "head-a"); ("type", JStr "udma"); ("eid", JInt 256); ("ports", JInt 1); ("max_jettys", JInt 47)];
      JObj [("id", JStr "udma-b"); ("node", JStr "head-b"); ("type", JStr "udma"); ("eid", JInt 257); ("ports", JInt 1); ("max_jettys", JInt 47)]]);
    ("switches", JList [JObj [("id", JStr "switch-0"); ("type", JStr "ns3ub"); ("delay_ns", JInt 500)]]);
    ("links", JList [JObj [("device", JStr "udma-a"); ("device_port", JInt 0); ("switch", JStr "switch-0"); ("switch_port", JInt 0); ("rate_gbps", JInt 400); ("latency_ns", JInt 375)];
      JObj [("device", JStr "udma-b"); ("device_port", JInt 0); ("switch", JStr "switch-0"); ("switch_port", JInt 1); ("rate_gbps", JInt 200); ("latency_ns", JInt 550)]]);
    ("execution", JObj [("sync", JStr "required"); ("checkpoint", JStr "auto")])].

Definition topology_qemu_heterogeneous : json :=
  JObj [("schema_version", JInt 1);
    ("name", JStr "qemu-heterogeneous-heads-one-400g-switch");
    ("nodes", JList [JObj [("id", JStr "head-a"); ("simulator", JStr "qemu"); ("cpu", JStr "cortex-a72"); ("cores", JInt 1); ("memory_mib", JInt 1024)];
      JObj [("id", JStr "head-b"); ("simulator", JStr "qemu"); ("cpu", JStr "neoverse-n1"); ("cores", JInt 2); ("memory_mib", JInt 1536)]]);
    ("devices", JList [JObj [("id", JStr "udma-a"); ("node", JStr "head-a"); ("type", JStr "udma"); ("eid", JInt 256); ("ports", JInt 1); ("max_jettys", JInt 47)];
      JObj [("id", JStr "udma-b"); ("node", JStr "head-b"); ("type", JStr "udma"); ("eid", JInt 257); ("ports", JInt 1); ("max_jettys", JInt 47)]]);
    ("switches", JList [JObj [("id", JStr "switch-0"); ("type", JStr "ns3ub"); ("delay_ns", JInt 500)]]);
    ("links", JList [JObj [("device", JStr "udma-a"); ("device_port", JInt 0); ("switch", JStr "switch-0"); ("switch_port", JInt 0); ("rate_gbps", JInt 400); ("latency_ns", JInt 375)];
      JObj [("device", JStr "udma-b"); ("device_port", JInt 0); ("switch", JStr "switch-0"); ("switch_port", JInt 1); ("rate_gbps", JInt 400); ("latency_ns", JInt 375)]]);
    ("execution", JObj [("sync", JStr "off"); ("checkpoint", JStr "none")])].
