(* ===== verification/Topology.v ===== *)
(** * Topology documents ([ubsim_lab/topology.py])

    [compile_topology] checks a declared topology and returns the launch plan.
    The source's one function is cut here at its own paragraphs, one definition
    each, and reassembled in the source's order by [compile_topology]. *)

From Stdlib Require Import ZArith Lia Ascii.
From stdpp Require Import base strings gmap fin_maps numbers option list sorting.
From S2P Require Import Prelude PyStr Json.

Open Scope string_scope.
Open Scope list_scope.
Open Scope Z_scope.

(** ** Field checks *)

Definition topology_error (fmt : string) (args : list parg) : exn := Exn TopologyError fmt args.

Definition QEMU_CPUS : list string :=
  ["cortex-a53"; "cortex-a57"; "cortex-a72"; "cortex-a76";
   "cortex-a710"; "neoverse-n1"; "neoverse-n2"; "neoverse-v1"; "max"].

Definition _fields (value : json) (allowed required : list string) (place : string)
    : res jobj :=
  match value with
  | JObj o =>
      let extra := List.filter (λ k, negb (elemb k allowed)) (keys o) in
      let missing := List.filter (λ k, negb (elemb k (keys o))) required in
      raise topology_error
              "{where}: unknown fields {sorted(extra)}; missing fields {sorted(missing)}"
              [PS place; PL (py_sorted extra); PL (py_sorted missing)]
        when negb (bool_decide (extra = [])) || negb (bool_decide (missing = [])) ;;
      Ok o
  | _ => Err (topology_error "{where} must be an object" [PS place])
  end.

Definition _list (value : json) (place : string) : res (list json) :=
  match value with
  | JList (x :: l) => Ok (x :: l)
  | _ => Err (topology_error "{where} must be a non-empty array" [PS place])
  end.

(** [type(value) is int] excludes [bool] and [float]. *)
Definition _integer (value : json) (place : string) (minimum : Z) : res Z :=
  match value with
  | JInt z =>
      raise topology_error "{where} must be an integer >= {minimum}" [PS place; PZ minimum]
        when z <? minimum ;;
      Ok z
  | _ => Err (topology_error "{where} must be an integer >= {minimum}" [PS place; PZ minimum])
  end.

Definition name_char (c : ascii) : bool :=
  is_alnum_ascii c || Ascii.eqb c "_" || Ascii.eqb c "-".

Definition _name (value : json) (place : string) : res string :=
  match value with
  | JStr s =>
      raise topology_error "{where} must use letters, digits, '_' or '-'" [PS place]
        when String.eqb s EmptyString || str_existsb (λ c, negb (name_char c)) s ;;
      Ok s
  | _ => Err (topology_error "{where} must use letters, digits, '_' or '-'" [PS place])
  end.

Definition _choice (value : json) (choices : list string) (place : string) : res string :=
  match value with
  | JStr s =>
      raise topology_error "{where} must be one of {', '.join(sorted(choices))}"
              [PS place; PL (py_sorted choices)]
        when negb (elemb s choices) ;;
      Ok s
  | _ => Err (topology_error "{where} must be one of {', '.join(sorted(choices))}"
                [PS place; PL (py_sorted choices)])
  end.

(** [f"{what}[{index}]"]. *)
Definition at_index (what : string) (index : nat) : string :=
  what +:+ "[" +:+ str_of_Z (Z.of_nat index) +:+ "]".

#[global] Arguments at_index : simpl never.

(** [v in m] for a [str] [v] and a dict [m] of string keys. *)
Definition in_keys {A} (v : string) (m : gmap string A) : bool := bool_decide (is_Some (m !! v)).

(** ** The plan *)

Inductive machine_entry :=
  | QemuMachine (cpu : string) (cores memory_mib : Z)
  | Gem5Machine (profile : string) (machine : jobj).

Record plan := Plan {
  p_name : string;
  p_simulator : string;
  p_node_ids : list string;
  p_device_ids : list string;
  p_switch_id : option string;
  p_fabric_layout : string;
  p_backend : string;
  p_port_count : Z;
  p_max_jettys : Z;
  p_jetty_limit_explicit : bool;
  p_switch_delay_ns : Z;
  p_sync : string;
  p_checkpoint : string;
  (** [(rate_gbps, latency_ns)] of each node's link, in node order. *)
  p_node_links : list (Z * Z);
  p_machines : list machine_entry
}.

(** ** Nodes *)

Record node_acc := NodeAcc {
  na_names : list string;
  na_simulators : gset string;
  na_profiles : gset string;
  na_qemu : list machine_entry
}.

Definition GEM5_PROFILES : list string := ["fast"; "kvm"; "server"; "modern"; "udma400"].

(** One iteration of the loop over [nodes]. *)
Definition check_node (index : nat) (st : node_acc) (raw_node : json) : res node_acc :=
  node ← _fields raw_node ["id"; "simulator"; "profile"; "cpu"; "cores"; "memory_mib"]
           ["id"; "simulator"] (at_index "nodes" index);
  id ← getitem node "id";
  name ← _name id (at_index "nodes" index +:+ ".id");
  raise topology_error "duplicate node id {name}" [PS name] when elemb name (na_names st) ;;
  sim ← getitem node "simulator";
  simulator ← _choice sim ["gem5"; "qemu"] (name +:+ ".simulator");
  if String.eqb simulator "gem5" then
    raise topology_error "{name}: gem5 per-node CPU and memory settings are not supported yet" [PS name]
      when has node "cpu" || has node "cores" || has node "memory_mib" ;;
    profile ← _choice (default JNull (dget node "profile")) GEM5_PROFILES (name +:+ ".profile");
    Ok (NodeAcc (na_names st ++ [name]) ({[simulator]} ∪ na_simulators st)
          ({[profile]} ∪ na_profiles st) (na_qemu st))
  else
    raise topology_error "{name}: QEMU uses cpu, cores and memory_mib, not profile" [PS name]
      when has node "profile" ;;
    cpu ← _choice (default (JStr "cortex-a72") (dget node "cpu")) QEMU_CPUS (name +:+ ".cpu");
    cores ← _integer (default (JInt 1) (dget node "cores")) (name +:+ ".cores") 1;
    memory_mib ← _integer (default (JInt 1024) (dget node "memory_mib")) (name +:+ ".memory_mib") 512;
    raise topology_error "{name}: QEMU limit is 16 cores and 8192 MiB per node" [PS name]
      when (16 <? cores) || (8192 <? memory_mib) ;;
    Ok (NodeAcc (na_names st ++ [name]) ({[simulator]} ∪ na_simulators st)
          (na_profiles st) (na_qemu st ++ [QemuMachine cpu cores memory_mib])).

Definition check_nodes (nodes : list json) : res node_acc :=
  foldMi check_node 0 (NodeAcc [] ∅ ∅ []) nodes.

(** ** Machine tuning *)

Definition L1D_PREFETCHERS : list string :=
  ["none"; "stride"; "stride_exclusive"; "stride_exclusive_d4"; "stride_exclusive_xpage"].

(** The check of one of the two queue sizes. *)
Definition check_queue_field (machine : jobj) (field : string) : res unit :=
  match dget machine field with
  | None => Ok tt
  | Some v =>
      n ← _integer v ("machine." +:+ field) 1;
      raise topology_error "machine.{field} exceeds gem5 launcher limit" [PS field] when 1024 <? n ;;
      Ok tt
  end.

Definition check_machine (spec : jobj) (simulator : string) : res jobj :=
  match dget spec "machine" with
  | None => Ok []
  | Some raw =>
      raise topology_error "machine CPU tuning is currently supported only for gem5" []
        when negb (String.eqb simulator "gem5") ;;
      machine ← _fields raw ["o3_lq_entries"; "o3_sq_entries"; "l1d_prefetcher"; "memory_size_gb"]
                  [] "machine";
      _ ← match dget machine "memory_size_gb" with
          | None => Ok tt
          | Some v =>
              memory_size_gb ← _integer v "machine.memory_size_gb" 4;
              raise topology_error "machine.memory_size_gb exceeds 128" [] when 128 <? memory_size_gb ;;
              Ok tt
          end;
      _ ← check_queue_field machine "o3_lq_entries";
      _ ← check_queue_field machine "o3_sq_entries";
      _ ← match dget machine "l1d_prefetcher" with
          | None => Ok EmptyString
          | Some v => _choice v L1D_PREFETCHERS "machine.l1d_prefetcher"
          end;
      Ok machine
  end.

(** ** The switch: its id and delay, or none for a direct link *)

Definition check_switch (switches : list json) : res (option string * Z) :=
  match switches with
  | [] => Ok (None, 0)
  | [raw] =>
      switch ← _fields raw ["id"; "type"; "delay_ns"] ["id"; "type"; "delay_ns"] "switches[0]";
      id ← getitem switch "id";
      switch_name ← _name id "switches[0].id";
      ty ← getitem switch "type";
      raise topology_error "switches[0].type must be ns3ub" [] when negb (eq_str ty "ns3ub") ;;
      delay ← getitem switch "delay_ns";
      switch_delay ← _integer delay "switches[0].delay_ns" 0;
      Ok (Some switch_name, switch_delay)
  | _ => Err (topology_error "current ns-3 adapter supports at most one switch" [])
  end.

(** ** Devices *)

Record device_acc := DeviceAcc {
  da_by_node : gmap string jobj;
  da_by_device : gmap string jobj;
  da_counts : gset Z;
  da_limits : gset Z;
  da_specified : Z
}.

Definition port_limit (simulator : string) : Z := if String.eqb simulator "gem5" then 16 else 8.

(** The optional Jetty limit of one device. *)
Definition check_max_jettys (name : string) (device : jobj) (st : device_acc) : res (gset Z * Z) :=
  match dget device "max_jettys" with
  | None => Ok (da_limits st, da_specified st)
  | Some v =>
      limit ← _integer v (name +:+ ".max_jettys") 2;
      raise topology_error "{name}.max_jettys exceeds the device limit 65535" [PS name]
        when 65535 <? limit ;;
      Ok ({[limit]} ∪ da_limits st, da_specified st + 1)
  end.

(** One iteration of the loop over [devices]. *)
Definition check_device (node_names : list string) (simulator : string) (switch_name : option string)
    (index : nat) (st : device_acc) (raw_device : json) : res device_acc :=
  device ← _fields raw_device ["id"; "node"; "type"; "eid"; "ports"; "max_jettys"]
             ["id"; "node"; "type"; "eid"; "ports"] (at_index "devices" index);
  id ← getitem device "id";
  name ← _name id (at_index "devices" index +:+ ".id");
  raise topology_error "duplicate component id {name}" [PS name]
    when in_keys name (da_by_device st) || bool_decide (Some name = switch_name) ;;
  node_field ← getitem device "node";
  node ← match node_field with
         | JStr node =>
             raise topology_error "{name}: node must exist and have exactly one UDMA device" [PS name]
               when negb (elemb node node_names) || in_keys node (da_by_node st) ;;
             Ok node
         | _ => Err (topology_error "{name}: node must exist and have exactly one UDMA device" [PS name])
         end;
  ty ← getitem device "type";
  raise topology_error "{name}: only UDMA devices are supported" [PS name] when negb (eq_str ty "udma") ;;
  node_index ← or_raise (index_of node node_names) (Exn ValueError "{} is not in list" [PS node]);
  eid_field ← getitem device "eid";
  eid ← _integer eid_field (name +:+ ".eid") 0;
  raise topology_error "{name}: current launcher requires EID {0x100 + node_index}"
          [PS name; PZ (0x100 + Z.of_nat node_index)]
    when negb (eid =? 0x100 + Z.of_nat node_index) ;;
  ports_field ← getitem device "ports";
  count ← _integer ports_field (name +:+ ".ports") 1;
  raise topology_error "{name}: port count exceeds current {simulator} limit" [PS name; PS simulator]
    when port_limit simulator <? count ;;
  limits ← check_max_jettys name device st;
  Ok (DeviceAcc (<[node := device]> (da_by_node st)) (<[name := device]> (da_by_device st))
        ({[count]} ∪ da_counts st) limits.1 limits.2).

Definition check_devices (node_names : list string) (simulator : string)
    (switch_name : option string) (devices : list json) : res device_acc :=
  foldMi (check_device node_names simulator switch_name) 0 (DeviceAcc ∅ ∅ ∅ ∅ 0) devices.

(** ** The direct link *)

Definition link_fields_direct : list string :=
  ["device"; "device_port"; "peer_device"; "peer_port"; "rate_gbps"; "latency_ns"].

(** [{a, b} != set(d)] for the keys [d] of a dict: the members of the left set
    are hashed first. *)
Definition pair_is_keys (a b : json) {A} (d : gmap string A) : res bool :=
  _ ← py_hash a;
  _ ← py_hash b;
  Ok (match a, b with
      | JStr x, JStr y => bool_decide (({[x; y]} : gset string) = dom d)
      | _, _ => false
      end).

Definition check_direct (n_nodes : Z) (port_count : Z) (by_device : gmap string jobj)
    (links : list json) : res (list (Z * Z)) :=
  raise topology_error "direct UB link requires two nodes, one port each and one link" []
    when negb (n_nodes =? 2) || negb (port_count =? 1) || negb (len links =? 1) ;;
  raw_link ← or_raise (links !! 0%nat) (Exn IndexError "list index out of range" []);
  link ← _fields raw_link link_fields_direct link_fields_direct "links[0]";
  device ← getitem link "device";
  peer ← getitem link "peer_device";
  same ← pair_is_keys device peer by_device;
  raise topology_error "direct UB link must connect the two distinct UDMA devices" [] when negb same ;;
  dp_field ← getitem link "device_port";
  device_port ← _integer dp_field "links[0].device_port" 0;
  both_zero ← (if negb (device_port =? 0) then Ok false
               else pp_field ← getitem link "peer_port";
                    peer_port ← _integer pp_field "links[0].peer_port" 0;
                    Ok (peer_port =? 0));
  raise topology_error "direct UB link must use port 0 on both devices" [] when negb both_zero ;;
  rate_field ← getitem link "rate_gbps";
  rate ← _integer rate_field "links[0].rate_gbps" 1;
  latency_field ← getitem link "latency_ns";
  latency ← _integer latency_field "links[0].latency_ns" 2;
  raise topology_error "direct UB link rate or delay exceeds launcher limit" []
    when (100000 <? rate) || (1000000000 <? latency) ;;
  Ok [(rate, latency / 2); (rate, latency - latency / 2)].

(** ** Links to the switch *)

Record link_acc := LinkAcc {
  la_device_ports : gset (string * Z);
  la_switch_ports : gset Z;
  la_by_device : gmap string (Z * Z)
}.

Definition link_fields_switch : list string :=
  ["device"; "device_port"; "switch"; "switch_port"; "rate_gbps"; "latency_ns"].

(** [link["device"] not in by_device or link["switch"] != switch_name], the
    hash of the device field coming first. *)
Definition known_endpoint (device switch : json) (by_device : gmap string jobj) (switch_name : string)
    : res (option string) :=
  _ ← py_hash device;
  Ok (match device with
      | JStr d => if in_keys d by_device && eq_str switch switch_name then Some d else None
      | _ => None
      end).

(** One iteration of the loop over [links]. *)
Definition check_link (node_names : list string) (port_count : Z) (by_device : gmap string jobj)
    (switch_name : string) (index : nat) (st : link_acc) (raw_link : json) : res link_acc :=
  let place := at_index "links" index in
  link ← _fields raw_link link_fields_switch link_fields_switch place;
  device_field ← getitem link "device";
  switch_field ← getitem link "switch";
  known ← known_endpoint device_field switch_field by_device switch_name;
  device_id ← or_raise known (topology_error "{where}: unknown device or switch" [PS place]);
  dp_field ← getitem link "device_port";
  device_port ← _integer dp_field (place +:+ ".device_port") 0;
  sp_field ← getitem link "switch_port";
  switch_port ← _integer sp_field (place +:+ ".switch_port") 0;
  raise topology_error "{where}: device port out of range" [PS place] when port_count <=? device_port ;;
  device ← or_raise (by_device !! device_id) (Exn KeyError device_id []);
  node_field ← getitem device "node";
  node ← or_raise (json_is_str node_field) (Exn ValueError "{} is not in list" []);
  node_index ← or_raise (index_of node node_names) (Exn ValueError "{} is not in list" [PS node]);
  let required_port := Z.of_nat node_index * port_count + device_port in
  raise topology_error "{where}: current adapter maps this port to switch port {required_port}"
          [PS place; PZ required_port]
    when negb (switch_port =? required_port) ;;
  raise topology_error "{where}: port is connected more than once" [PS place]
    when bool_decide ((device_id, device_port) ∈ la_device_ports st)
         || bool_decide (switch_port ∈ la_switch_ports st) ;;
  rate_field ← getitem link "rate_gbps";
  rate ← _integer rate_field (place +:+ ".rate_gbps") 1;
  latency_field ← getitem link "latency_ns";
  latency ← _integer latency_field (place +:+ ".latency_ns") 1;
  raise topology_error "{where}: rate or propagation delay exceeds launcher limit" [PS place]
    when (100000 <? rate) || (1000000000 <? latency) ;;
  let previous := default (rate, latency) (la_by_device st !! device_id) in
  raise topology_error "{where}: all ports of one device currently need the same rate and delay" [PS place]
    when negb (bool_decide (previous = (rate, latency))) ;;
  Ok (LinkAcc ({[(device_id, device_port)]} ∪ la_device_ports st)
        ({[switch_port]} ∪ la_switch_ports st) (<[device_id := previous]> (la_by_device st))).

(** [by_node[node]["id"]]. *)
Definition device_id_of (by_node : gmap string jobj) (node : string) : res string :=
  device ← or_raise (by_node !! node) (Exn KeyError node []);
  id ← getitem device "id";
  or_raise (json_is_str id) (Exn TypeError "unhashable type: {}" []).

Definition check_links (node_names : list string) (port_count : Z) (by_node by_device : gmap string jobj)
    (switch_name : string) (n_nodes : Z) (links : list json) : res (list (Z * Z)) :=
  raise topology_error "every device port needs one dedicated switch link" []
    when negb (len links =? n_nodes * port_count) ;;
  acc ← foldMi (check_link node_names port_count by_device switch_name) 0 (LinkAcc ∅ ∅ ∅) links;
  mapR (λ node,
          id ← device_id_of by_node node;
          or_raise (la_by_device acc !! id) (Exn KeyError id [])) node_names.

(** ** The compiler *)

Definition top_allowed : list string :=
  ["schema_version"; "name"; "nodes"; "devices"; "switches"; "links"; "execution"; "machine"].
Definition top_required : list string :=
  ["schema_version"; "name"; "nodes"; "devices"; "switches"; "links"; "execution"].

(** The top-level fields, once their shapes are checked. *)
Record header := Header {
  h_spec : jobj;
  h_name : string;
  h_nodes : list json;
  h_devices : list json;
  h_switches : list json;
  h_links : list json;
  h_sync : string;
  h_checkpoint : string
}.

Definition check_header (raw : json) : res header :=
  spec ← _fields raw top_allowed top_required "topology";
  version ← getitem spec "schema_version";
  raise topology_error "only schema_version 1 is supported" []
    when negb (match version with JInt v => v =? 1 | _ => false end) ;;
  name_field ← getitem spec "name";
  name ← _name name_field "name";
  nodes_field ← getitem spec "nodes";
  nodes ← _list nodes_field "nodes";
  devices_field ← getitem spec "devices";
  devices ← _list devices_field "devices";
  switches_field ← getitem spec "switches";
  switches ← match switches_field with
             | JList l => Ok l
             | _ => Err (topology_error "switches must be an array" [])
             end;
  links_field ← getitem spec "links";
  links ← _list links_field "links";
  execution_field ← getitem spec "execution";
  execution ← _fields execution_field ["sync"; "checkpoint"] ["sync"; "checkpoint"] "execution";
  sync_field ← getitem execution "sync";
  sync ← _choice sync_field ["off"; "required"] "execution.sync";
  checkpoint_field ← getitem execution "checkpoint";
  checkpoint ← _choice checkpoint_field ["none"; "auto"] "execution.checkpoint";
  Ok (Header spec name nodes devices switches links sync checkpoint).

(** The checks between the node loop and the machine section; the simulator. *)
Definition check_node_set (st : node_acc) (n_nodes : Z) (checkpoint : string) : res string :=
  match elements (na_simulators st) with
  | [simulator] =>
      raise topology_error "current gem5 launcher supports 2..8 nodes" []
        when String.eqb simulator "gem5" && negb ((2 <=? n_nodes) && (n_nodes <=? 8)) ;;
      raise topology_error "current QEMU launcher supports 2..8 nodes" []
        when String.eqb simulator "qemu" && negb ((2 <=? n_nodes) && (n_nodes <=? 8)) ;;
      raise topology_error "current gem5 launcher requires one shared machine profile" []
        when (1 <? size (na_profiles st))%nat ;;
      raise topology_error "current QEMU launcher does not support checkpoint restore" []
        when String.eqb simulator "qemu" && negb (String.eqb checkpoint "none") ;;
      Ok simulator
  | _ => Err (topology_error "mixed gem5/QEMU nodes need a new synchronized launcher" [])
  end.

(** The checks after the device loop; the common port count. *)
Definition check_device_set (st : device_acc) (n_nodes n_devices : Z) : res Z :=
  raise topology_error "current launcher requires exactly one UDMA device per node" []
    when negb (Z.of_nat (size (da_by_node st)) =? n_nodes) || negb (n_devices =? n_nodes) ;;
  raise topology_error "current launcher requires equal port and Jetty limits on all devices" []
    when negb (Nat.eqb (size (da_counts st)) 1) || (1 <? size (da_limits st))%nat
         || negb ((da_specified st =? 0) || (da_specified st =? n_devices)) ;;
  or_raise (head (elements (da_counts st))) (Exn KeyError "pop from an empty set" []).

(** ["max_jettys"] of the plan. *)
Definition plan_max_jettys (limits : gset Z) (simulator : string) (profiles : gset string) : Z :=
  match elements limits with
  | limit :: _ => limit
  | [] => if String.eqb simulator "qemu" || bool_decide ("modern" ∈ profiles) then 47 else 1152
  end.

(** ["machines"] of the plan: for gem5, each node's profile with the shared
    machine tuning. *)
Definition plan_machines (simulator : string) (qemu : list machine_entry) (machine : jobj)
    (nodes : list json) : res (list machine_entry) :=
  if String.eqb simulator "qemu" then Ok qemu
  else mapR (λ node,
               profile ← subscript node "profile";
               p ← or_raise (json_is_str profile) (Exn KeyError "profile" []);
               Ok (Gem5Machine p machine)) nodes.

Definition compile_topology (raw : json) : res plan :=
  h ← check_header raw;
  nacc ← check_nodes (h_nodes h);
  simulator ← check_node_set nacc (len (h_nodes h)) (h_checkpoint h);
  machine ← check_machine (h_spec h) simulator;
  switch ← check_switch (h_switches h);
  dacc ← check_devices (na_names nacc) simulator switch.1 (h_devices h);
  port_count ← check_device_set dacc (len (h_nodes h)) (len (h_devices h));
  node_links ← match switch.1 with
               | None => check_direct (len (h_nodes h)) port_count (da_by_device dacc) (h_links h)
               | Some switch_name =>
                   check_links (na_names nacc) port_count (da_by_node dacc) (da_by_device dacc)
                     switch_name (len (h_nodes h)) (h_links h)
               end;
  device_ids ← mapR (device_id_of (da_by_node dacc)) (na_names nacc);
  machines ← plan_machines simulator (na_qemu nacc) machine (h_nodes h);
  Ok {| p_name := h_name h;
        p_simulator := simulator;
        p_node_ids := na_names nacc;
        p_device_ids := device_ids;
        p_switch_id := switch.1;
        p_fabric_layout := match switch.1 with None => "direct" | Some _ => "switch" end;
        p_backend := "native-json";
        p_port_count := port_count;
        p_max_jettys := plan_max_jettys (da_limits dacc) simulator (na_profiles nacc);
        p_jetty_limit_explicit := negb (bool_decide (da_limits dacc = ∅));
        p_switch_delay_ns := switch.2;
        p_sync := h_sync h;
        p_checkpoint := h_checkpoint h;
        p_node_links := node_links;
        p_machines := machines |}.
