(* ===== verification/TopologyFacts.v ===== *)
(** * Correctness of the topology compiler

    Inversion lemmas for each paragraph of [compile_topology], the invariant of
    each loop, and the theorems about the whole: which exceptions it can
    raise, what a compiled plan guarantees, how ports are assigned. *)

From Stdlib Require Import ZArith Lia Ascii.
From stdpp Require Import base strings gmap fin_maps numbers option list sorting.
From S2P Require Import Prelude PyStr Json Samples Topology.

Open Scope string_scope.
Open Scope list_scope.
Open Scope Z_scope.

(** ** Field checks *)

Lemma no_extra_subset (l l' : list string) :
  List.filter (λ k, negb (elemb k l)) l' = [] → ∀ k, k ∈ l' → k ∈ l.
Proof.
  intros H k Hk. destruct (elemb k l) eqn:E; [by apply elemb_true|].
  assert (k ∈ List.filter (λ k, negb (elemb k l)) l') as Hin.
  { apply list_elem_of_In, filter_In. by rewrite E, <- list_elem_of_In. }
  rewrite H in Hin. by apply elem_of_nil in Hin.
Qed.

Lemma fields_Ok value allowed required place o :
  _fields value allowed required place = Ok o →
  value = JObj o ∧ (∀ k, k ∈ keys o → k ∈ allowed) ∧ (∀ k, k ∈ required → is_Some (dget o k)).
Proof.
  destruct value as [| | | | | |o']; cbn; try done.
  intros H. py_inv. bool_inv. split; [done|]. split.
  - by apply no_extra_subset.
  - intros k Hk. apply dget_is_Some_keys. eapply no_extra_subset; eauto.
Qed.

Lemma list_Ok value place l : _list value place = Ok l → value = JList l ∧ l ≠ [].
Proof. destruct value as [| | | | |[|]|]; cbn; try done. by intros [= <-]. Qed.

Lemma integer_Ok value place minimum z :
  _integer value place minimum = Ok z ↔ value = JInt z ∧ minimum <= z.
Proof.
  destruct value; cbn; try naive_solver.
  destruct (_ <? _) eqn:E; bool_inv; split; intros H; simplify_eq; naive_solver lia.
Qed.

Lemma name_Ok value place s :
  _name value place = Ok s →
  value = JStr s ∧ s ≠ EmptyString ∧ str_existsb (λ c, negb (name_char c)) s = false.
Proof.
  destruct value; cbn; try done. intros H. py_inv. bool_inv.
  done.
Qed.

Lemma choice_Ok value choices place s :
  _choice value choices place = Ok s ↔ value = JStr s ∧ s ∈ choices.
Proof.
  destruct value as [| | | |s'| |]; cbn; try naive_solver.
  destruct (elemb s' choices) eqn:E; cbn.
  - apply elemb_true in E. naive_solver.
  - apply elemb_false in E. naive_solver.
Qed.

(** The exceptions a body may raise: validation errors only. *)
Definition is_topology_error (e : exn) : Prop := exn_cls e = TopologyError.

Lemma fields_raises value allowed required place :
  raises is_topology_error (_fields value allowed required place).
Proof. unfold _fields. raises_tac. Qed.
Lemma list_raises value place : raises is_topology_error (_list value place).
Proof. unfold _list. raises_tac. Qed.
Lemma integer_raises value place minimum : raises is_topology_error (_integer value place minimum).
Proof. unfold _integer. raises_tac. Qed.
Lemma name_raises value place : raises is_topology_error (_name value place).
Proof. unfold _name. raises_tac. Qed.
Lemma choice_raises value choices place : raises is_topology_error (_choice value choices place).
Proof. unfold _choice. raises_tac. Qed.

#[export] Hint Resolve fields_raises list_raises integer_raises name_raises choice_raises
  : ubsim_raises.

(** A required field is found: the subscript after [_fields] never raises. *)
Lemma getitem_required P value allowed required place o k :
  _fields value allowed required place = Ok o → k ∈ required → raises P (getitem o k).
Proof.
  intros (_ & _ & H)%fields_Ok Hk. destruct (H k Hk) as [v Hv].
  unfold getitem. rewrite Hv. apply raises_Ok.
Qed.

Ltac req_field :=
  match goal with
  | H : _fields _ _ _ _ = Ok ?o |- raises _ (getitem ?o _) =>
      eapply getitem_required; [exact H|by apply elemb_true; vm_compute]
  end.
#[export] Hint Extern 1 (raises _ (getitem _ _)) => req_field : ubsim_raises.

(** ** Which exceptions reach the caller *)

(** A validation error, or the interpreter's complaint that a list or object
    cannot be a member of a set or a key of a dict. *)
Definition escapes (e : exn) : Prop :=
  is_topology_error e ∨ (exn_cls e = TypeError ∧ exn_fmt e = "unhashable type: {}").

Lemma topology_escapes {A} (m : res A) : raises is_topology_error m → raises escapes m.
Proof. apply raises_weaken. by left. Qed.
#[export] Hint Resolve topology_escapes : ubsim_raises.

Lemma py_hash_raises v : raises escapes (py_hash v).
Proof. unfold py_hash. destruct (hashable v); [apply raises_Ok|]. apply raises_Err. by right. Qed.
#[export] Hint Resolve py_hash_raises : ubsim_raises.

Lemma check_header_raises raw : raises is_topology_error (check_header raw).
Proof. unfold check_header. raises_tac. Qed.

Lemma check_node_raises i st raw : raises is_topology_error (check_node i st raw).
Proof. unfold check_node. raises_tac. Qed.

Lemma check_nodes_raises nodes : raises is_topology_error (check_nodes nodes).
Proof. apply raises_foldMi. intros. apply check_node_raises. Qed.

Lemma check_node_set_raises st n c : raises is_topology_error (check_node_set st n c).
Proof. unfold check_node_set. raises_tac. Qed.

Lemma check_machine_raises spec simulator : raises is_topology_error (check_machine spec simulator).
Proof. unfold check_machine, check_queue_field. raises_tac. Qed.

Lemma check_switch_raises switches : raises is_topology_error (check_switch switches).
Proof. unfold check_switch. raises_tac. Qed.

Lemma check_max_jettys_raises name device st : raises is_topology_error (check_max_jettys name device st).
Proof. unfold check_max_jettys. raises_tac. Qed.
#[export] Hint Resolve check_header_raises check_nodes_raises check_node_set_raises
  check_machine_raises check_switch_raises check_max_jettys_raises : ubsim_raises.

Lemma check_device_raises names simulator switch i st raw :
  raises is_topology_error (check_device names simulator switch i st raw).
Proof.
  unfold check_device. raises_tac.
  py_inv. bool_inv.
  by match goal with H : index_of _ _ = None |- _ => apply index_of_None in H end.
Qed.

(** ** The node loop *)

Definition machine_bounds (m : machine_entry) : Prop :=
  match m with
  | QemuMachine cpu cores memory_mib =>
      cpu ∈ QEMU_CPUS ∧ 1 <= cores <= 16 ∧ 512 <= memory_mib <= 8192
  | Gem5Machine profile _ => profile ∈ GEM5_PROFILES
  end.

(** The accepted node [raw] is called [name]. *)
Definition named (raw : json) (name : string) : Prop := subscript raw "id" = Ok (JStr name).
Definition profiled (raw : json) : Prop :=
  ∃ p, subscript raw "profile" = Ok (JStr p) ∧ p ∈ GEM5_PROFILES.

(** Replaces successful field checks by what they establish. *)
Ltac field_inv :=
  repeat match goal with
  | H : _fields _ _ _ _ = Ok _ |- _ => apply fields_Ok in H as (? & _ & _); subst
  | H : _name _ _ = Ok _ |- _ => apply name_Ok in H as (? & _ & _); subst
  | H : _choice _ _ _ = Ok _ |- _ => apply choice_Ok in H as [? ?]; subst
  | H : _integer _ _ _ = Ok _ |- _ => apply integer_Ok in H as [? ?]; subst
  | H : _list _ _ = Ok _ |- _ => apply list_Ok in H as [? ?]; subst
  | H : eq_str _ _ = true |- _ => apply eq_str_true in H; subst
  end.

Lemma check_node_Ok i st raw st' :
  check_node i st raw = Ok st' →
  ∃ name sim, named raw name ∧ (name ∉ na_names st) ∧
    na_names st' = na_names st ++ [name] ∧ na_simulators st' = {[sim]} ∪ na_simulators st ∧
    ((sim = "gem5" ∧ profiled raw ∧ na_qemu st' = na_qemu st) ∨
     (sim = "qemu" ∧ na_profiles st' = na_profiles st ∧
      ∃ m, machine_bounds m ∧ na_qemu st' = na_qemu st ++ [m])).
Proof.
  unfold check_node, named, profiled. intros H. py_inv. field_inv.
  destruct (String.eqb_spec x3 "gem5") as [->|Hne]; py_inv; field_inv; bool_inv;
    (eexists _, _; split; [done|split; [done|split; [done|split; [done|]]]]).
  - left. split; [done|]. split; [|done].
    destruct (dget x "profile") as [v|] eqn:Hp; [|done]. simplify_eq/=.
    eexists. unfold getitem. by rewrite Hp.
  - right. split; [set_solver|]. split; [done|]. eexists. split; [|done]. done.
Qed.

(** What the loop has established about the nodes it has seen. *)
Record node_inv (pre : list json) (st : node_acc) : Prop := {
  ni_named : Forall2 named pre (na_names st);
  ni_distinct : NoDup (na_names st);
  ni_known : ∀ s, s ∈ na_simulators st → s = "gem5" ∨ s = "qemu";
  ni_gem5 : "qemu" ∉ na_simulators st → Forall profiled pre;
  ni_qemu : "gem5" ∉ na_simulators st → length (na_qemu st) = length pre;
  ni_bounds : Forall machine_bounds (na_qemu st)
}.

Lemma check_nodes_inv nodes st : check_nodes nodes = Ok st → node_inv nodes st.
Proof.
  apply (foldMi_inv node_inv).
  - split; cbn; try constructor; set_solver.
  - intros pre raw post st1 st2 _ [I1 I2 I3 I4 I5 I6] (name & sim & Hn & Hfresh & En & Es & Hcase)%check_node_Ok.
    split.
    + rewrite En. apply Forall2_app; [done|]. by constructor.
    + rewrite En. apply NoDup_app. split_and!; [done|set_solver|apply NoDup_singleton].
    + rewrite Es. intros s. destruct Hcase as [(-> & _)|(-> & _)]; set_solver.
    + rewrite Es. intros Hq. destruct Hcase as [(-> & Hp & _)|(-> & _)]; [|set_solver].
      apply Forall_app. split; [apply I4; set_solver|by constructor].
    + rewrite Es. intros Hg. destruct Hcase as [(-> & _)|(-> & _ & m & _ & ->)]; [set_solver|].
      rewrite !length_app, I5 by set_solver. done.
    + destruct Hcase as [(_ & _ & ->)|(_ & _ & m & Hm & ->)]; [done|].
      apply Forall_app. split; [done|by constructor].
Qed.

Lemma check_node_set_Ok st nodes checkpoint simulator :
  node_inv nodes st → check_node_set st (len nodes) checkpoint = Ok simulator →
  (∀ s, s ∈ na_simulators st ↔ s = simulator) ∧ (simulator = "gem5" ∨ simulator = "qemu") ∧
  2 <= len nodes <= 8 ∧ (simulator = "qemu" → checkpoint = "none").
Proof.
  intros I H. unfold check_node_set in H.
  destruct (elements (na_simulators st)) as [|s [|]] eqn:E; [done| |done]. py_inv.
  assert (∀ s, s ∈ na_simulators st ↔ s = simulator) as Hs.
  { intros s. rewrite <- elem_of_elements, E. set_solver. }
  assert (simulator = "gem5" ∨ simulator = "qemu") as Hk by (eapply ni_known, Hs; done).
  split; [done|]. split; [done|].
  destruct Hk as [-> | ->]; str_eqb; cbn in *; bool_inv; (split; [lia|done]).
Qed.

(** ** The device loop *)

Section devices.
Context (names : list string) (simulator : string) (switch : option string).

(** The accepted device [o] of node [node]. *)
Record device_decl (node : string) (o : jobj) (name : string) (count : Z) : Prop := {
  dd_id : dget o "id" = Some (JStr name);
  dd_node : dget o "node" = Some (JStr node);
  dd_not_switch : Some name ≠ switch;
  dd_eid : ∃ i, index_of node names = Some i ∧ dget o "eid" = Some (JInt (0x100 + Z.of_nat i));
  dd_ports : dget o "ports" = Some (JInt count);
  dd_count : 1 <= count <= port_limit simulator
}.

Lemma check_max_jettys_Ok name o st l n :
  check_max_jettys name o st = Ok (l, n) →
  (dget o "max_jettys" = None ∧ l = da_limits st ∧ n = da_specified st) ∨
  (∃ limit, dget o "max_jettys" = Some (JInt limit) ∧ 2 <= limit <= 65535 ∧
     l = {[limit]} ∪ da_limits st ∧ n = da_specified st + 1).
Proof.
  unfold check_max_jettys. destruct (dget o "max_jettys") as [v|]; intros H; py_inv; [|by left].
  field_inv. bool_inv. right. eexists. by split_and!.
Qed.

Lemma check_device_Ok i st raw st' :
  check_device names simulator switch i st raw = Ok st' →
  ∃ o node name count l n, raw = JObj o ∧ device_decl node o name count ∧
    node ∈ names ∧ da_by_node st !! node = None ∧ da_by_device st !! name = None ∧
    check_max_jettys name o st = Ok (l, n) ∧
    st' = DeviceAcc (<[node := o]> (da_by_node st)) (<[name := o]> (da_by_device st))
            ({[count]} ∪ da_counts st) l n.
Proof.
  unfold check_device, getitem, in_keys. intros H. py_inv. field_inv. bool_inv. subst.
  rewrite <- !eq_None_not_Some in *.
  match goal with H : check_max_jettys _ _ _ = Ok ?p |- _ => destruct p as [l n] end.
  eexists _, _, _, _, l, n. split; [done|].
  split; [by econstructor; eauto|]. by split_and!.
Qed.

Record dev_inv (pre : list json) (st : device_acc) : Prop := {
  di_node : ∀ node o, da_by_node st !! node = Some o →
    node ∈ names ∧ ∃ name count, device_decl node o name count ∧
      da_by_device st !! name = Some o ∧ count ∈ da_counts st;
  di_device : ∀ name o, da_by_device st !! name = Some o →
    ∃ node count, device_decl node o name count ∧ da_by_node st !! node = Some o;
  di_size_node : size (da_by_node st) = length pre;
  di_size_device : size (da_by_device st) = length pre;
  di_counts : ∀ c, c ∈ da_counts st → 1 <= c <= port_limit simulator;
  di_limits : ∀ c, c ∈ da_limits st → 2 <= c <= 65535;
  di_decl : Forall (λ raw, ∃ o node name count, raw = JObj o ∧
    device_decl node o name count ∧ da_by_node st !! node = Some o) pre
}.

Lemma check_devices_inv devices st :
  check_devices names simulator switch devices = Ok st → dev_inv devices st.
Proof.
  apply (foldMi_inv dev_inv).
  { split; cbn; try done; set_solver. }
  intros pre raw post st1 st2 _ [I1 I2 I3 I4 I5 I6 I7]
    (o & node & name & count & l & n & -> & D & Hin & Hn & Hd & Hmax & ->)%check_device_Ok.
  split; cbn.
  - intros node' o'. rewrite lookup_insert. case_decide as Heq.
    + intros [= <-]. subst. split; [done|]. exists name, count.
      rewrite lookup_insert_eq. split_and!; [done..|set_solver].
    + intros (? & name' & count' & D' & Hd' & Hc)%I1. split; [done|].
      exists name', count'. split; [done|]. split; [|set_solver].
      rewrite lookup_insert_ne; [done|]. congruence.
  - intros name' o'. rewrite lookup_insert. case_decide as Heq.
    + intros [= <-]. subst. exists node, count. by rewrite lookup_insert_eq.
    + intros (node' & count' & D' & Hd')%I2. exists node', count'. split; [done|].
      rewrite lookup_insert_ne; [done|]. congruence.
  - rewrite map_size_insert_None, I3, length_app by done. cbn. lia.
  - rewrite map_size_insert_None, I4, length_app by done. cbn. lia.
  - intros c [Hc|Hc]%elem_of_union; [|by apply I5].
    apply elem_of_singleton in Hc as ->. by destruct D.
  - apply check_max_jettys_Ok in Hmax as [(_ & -> & _)|(limit & _ & Hl & -> & _)]; [done|].
    intros c [Hc|Hc]%elem_of_union; [|by apply I6]. by apply elem_of_singleton in Hc as ->.
  - apply Forall_app. split.
    + eapply Forall_impl; [exact I7|]. intros r (o' & node' & name' & count' & -> & D' & Ho').
      exists o', node', name', count'. split; [done|]. split; [done|].
      rewrite lookup_insert_ne; [done|]. congruence.
    + constructor; [|done]. exists o, node, name, count. by rewrite lookup_insert_eq.
Qed.
End devices.

Lemma check_device_raises' names simulator switch devices :
  raises is_topology_error (check_devices names simulator switch devices).
Proof. apply raises_foldMi. intros. apply check_device_raises. Qed.

(** After the device checks, every node has exactly one device and all devices
    have the same number of ports. *)
Record dev_set (names : list string) (simulator : string) (switch : option string)
    (st : device_acc) (port_count : Z) : Prop := {
  ds_covers : ∀ node, node ∈ names → ∃ o name, da_by_node st !! node = Some o ∧
    device_decl names simulator switch node o name port_count ∧ da_by_device st !! name = Some o;
  ds_device : ∀ name o, da_by_device st !! name = Some o →
    ∃ node, device_decl names simulator switch node o name port_count ∧
      da_by_node st !! node = Some o ∧ node ∈ names;
  ds_size : size (da_by_device st) = length names;
  ds_ports : 1 <= port_count <= port_limit simulator
}.

Lemma check_device_set_Ok names simulator switch devices st n port_count :
  NoDup names → n = len names → dev_inv names simulator switch devices st →
  check_device_set st n (len devices) = Ok port_count →
  dev_set names simulator switch st port_count ∧ length devices = length names.
Proof.
  intros Hnd -> [I1 I2 I3 I4 I5 I6 _] H. unfold check_device_set in H. py_inv. bool_inv.
  unfold len in *.
  destruct (elements (da_counts st)) as [|c l] eqn:E; [done|]. simplify_eq/=.
  assert (port_count ∈ da_counts st) as Hpc by (apply elem_of_elements; rewrite E; by left).
  assert (∀ c, c ∈ da_counts st → c = port_count) as Hc.
  { intros c Hc. by apply (size_singleton_inv (da_counts st)). }
  split; [|done]. split.
  - intros node Hin.
    assert (is_Some (da_by_node st !! node)) as [o Ho].
    { apply (map_covers _ names); [|done|done]. intros x [o (? & _)%I1]. done. }
    destruct (I1 _ _ Ho) as (_ & name & count & D & Hd & Hcount).
    apply Hc in Hcount as ->. by exists o, name.
  - intros name o (node & count & D & Ho)%I2. exists node.
    destruct (I1 _ _ Ho) as (Hin & name' & count' & D' & Hd & Hcount).
    assert (count = port_count) as -> by (destruct D, D'; apply Hc in Hcount; congruence).
    done.
  - by rewrite I4.
  - by apply I5.
Qed.

(** ** The links *)

Lemma in_keys_true {A} v (m : gmap string A) : in_keys v m = true ↔ is_Some (m !! v).
Proof. apply bool_decide_eq_true. Qed.

Definition rate_bounds (l : Z * Z) : Prop := 1 <= l.1 <= 100000 ∧ 1 <= l.2 <= 1000000000.

Lemma check_direct_Ok n port_count by_device links node_links :
  check_direct n port_count by_device links = Ok node_links →
  n = 2 ∧ port_count = 1 ∧ length links = 1%nat ∧
  ∃ rate latency, node_links = [(rate, latency / 2); (rate, latency - latency / 2)] ∧
    1 <= rate <= 100000 ∧ 2 <= latency <= 1000000000.
Proof.
  unfold check_direct. intros H.
  py_step. py_inv. bool_inv. field_inv. unfold len in *.
  split; [lia|]. split; [lia|]. split; [lia|]. eexists _, _. split; [done|]. lia.
Qed.

(** The accepted link [raw] joins port [port] of device [id], which belongs to
    node number [i], to switch port [i * port_count + port]. *)
Record link_decl (names : list string) (port_count : Z) (by_device : gmap string jobj)
    (raw : json) (id : string) (port sport : Z) : Prop := {
  ld_device : subscript raw "device" = Ok (JStr id);
  ld_port : subscript raw "device_port" = Ok (JInt port);
  ld_sport : subscript raw "switch_port" = Ok (JInt sport);
  ld_range : 0 <= port < port_count;
  ld_node : ∃ o node i, by_device !! id = Some o ∧ dget o "node" = Some (JStr node) ∧
    index_of node names = Some i ∧ sport = Z.of_nat i * port_count + port
}.

Lemma check_link_Ok names port_count by_device switch i st raw st' :
  check_link names port_count by_device switch i st raw = Ok st' →
  ∃ id port sport rl, link_decl names port_count by_device raw id port sport ∧ rate_bounds rl ∧
    ((id, port) ∉ la_device_ports st) ∧ (sport ∉ la_switch_ports st) ∧
    (la_by_device st !! id = None ∨ la_by_device st !! id = Some rl) ∧
    st' = LinkAcc ({[(id, port)]} ∪ la_device_ports st) ({[sport]} ∪ la_switch_ports st)
            (<[id := rl]> (la_by_device st)).
Proof.
  unfold check_link, known_endpoint. intros H. py_inv. field_inv. bool_inv. subst.
  match goal with
  | H : match ?v with _ => _ end = Some ?d |- _ => destruct v as [| | | |d'| |]; try done
  end.
  destruct (in_keys d' by_device && eq_str x1 switch); [|done]. simplify_eq/=.
  match goal with H : json_is_str ?v = Some _ |- _ => destruct v; simplify_eq/= end.
  match goal with H : getitem ?o "node" = _ |- _ => apply or_raise_Ok in H end.
  eexists x3, x5, _, (x13, x15). split.
  { split; try done. eexists _, _, _. by split_and!. }
  rewrite Heqb3. split_and!; try done.
  destruct (la_by_device st !! x3); cbn in *; [right; by f_equal|by left].
Qed.

Section links.
Context (names : list string) (port_count : Z) (by_device : gmap string jobj) (switch : string).

(** What the loop has established: the links seen so far use pairwise
    distinct endpoints and switch ports, one per link. *)
Record link_inv (pre : list json) (st : link_acc) : Prop := {
  li_ports : ∃ eps, length eps = length pre ∧ NoDup eps ∧
    (∀ id p, (id, p) ∈ eps → (id, p) ∈ la_device_ports st ∧ is_Some (by_device !! id) ∧ 0 <= p < port_count);
  li_seen : ∀ id p, (id, p) ∈ la_device_ports st → is_Some (la_by_device st !! id);
  li_rates : ∀ id rl, la_by_device st !! id = Some rl → rate_bounds rl;
  li_switch : ∃ sps, Forall2 (λ raw sport, ∃ id port, link_decl names port_count by_device raw id port sport)
    pre sps ∧ NoDup sps ∧ (∀ s, s ∈ sps → s ∈ la_switch_ports st)
}.

Lemma check_links_inv links st :
  foldMi (check_link names port_count by_device switch) 0 (LinkAcc ∅ ∅ ∅) links = Ok st →
  link_inv links st.
Proof.
  apply (foldMi_inv link_inv).
  { split; cbn; try done; exists []; split_and!; try constructor; set_solver. }
  intros pre raw post st1 st2 _ [(eps & I1 & I2 & I3) I4 I5 (sps & I6 & I7 & I8)]
    (id & port & sport & rl & D & Hrl & Hfp & Hfs & Hprev & ->)%check_link_Ok.
  split; cbn.
  - exists (eps ++ [(id, port)]). rewrite !length_app. split; [cbn; lia|]. split.
    + apply NoDup_app. split_and!; [done| |apply NoDup_singleton].
      intros x Hin Hx%list_elem_of_singleton. subst x. by apply I3 in Hin as [? _].
    + intros id' p' [Hin|Hin]%elem_of_app.
      * apply I3 in Hin as (? & ? & ?). split; [set_solver|done].
      * apply list_elem_of_singleton in Hin as [= -> ->].
        destruct D as [_ _ _ Hr (o & node & i & Ho & _)]. split; [set_solver|]. split; [by eexists|done].
  - intros id' p' [Hin|Hin]%elem_of_union.
    + apply elem_of_singleton in Hin as [= -> ->]. rewrite lookup_insert_eq. by eexists.
    + apply lookup_insert_is_Some'. right. by eapply I4.
  - intros id' rl'. rewrite lookup_insert. case_decide; [by intros [= <-]|apply I5].
  - exists (sps ++ [sport]). split; [|split].
    + apply Forall2_app; [done|]. constructor; [|done]. by eexists _, _.
    + apply NoDup_app. split_and!; [done| |apply NoDup_singleton].
      intros s Hs Hx%list_elem_of_singleton. subst s. by apply I8 in Hs.
    + intros s [Hs|Hs]%elem_of_app; [set_solver|].
      apply list_elem_of_singleton in Hs as ->. set_solver.
Qed.
End links.

Lemma known_endpoint_raises d s by_device switch : raises escapes (known_endpoint d s by_device switch).
Proof. unfold known_endpoint. raises_tac. Qed.
#[export] Hint Resolve known_endpoint_raises : ubsim_raises.

Lemma known_endpoint_Some d s by_device switch id :
  known_endpoint d s by_device switch = Ok (Some id) → is_Some (by_device !! id).
Proof.
  unfold known_endpoint. intros H. py_inv. destruct d as [| | | |d| |]; try done.
  destruct (in_keys d by_device) eqn:E; cbn in *; [|done].
  destruct (eq_str s switch); [|done]. simplify_eq/=. by apply in_keys_true.
Qed.

(** Every device of [by_device] names a declared node. *)
Definition devices_on (names : list string) (by_device : gmap string jobj) : Prop :=
  ∀ id o, by_device !! id = Some o → ∃ node, dget o "node" = Some (JStr node) ∧ node ∈ names.

Lemma devices_on_node names by_device id o :
  devices_on names by_device → by_device !! id = Some o →
  ∃ node, getitem o "node" = Ok (JStr node) ∧ node ∈ names.
Proof. intros H (node & Hn & ?)%H. exists node. unfold getitem. by rewrite Hn. Qed.

Lemma check_link_raises names port_count by_device switch i st raw :
  devices_on names by_device → raises escapes (check_link names port_count by_device switch i st raw).
Proof.
  intros Hdev. unfold check_link. raises_tac; try (by left); py_inv;
    try match goal with
    | H : known_endpoint _ _ _ _ = _ |- _ => apply known_endpoint_Some in H as [? ?]
    end;
    match goal with
    | Hdev : devices_on _ ?m, H : ?m !! _ = Some _ |- _ =>
        destruct (devices_on_node _ _ _ _ Hdev H) as (node & Hn & Hin)
    end; simplify_eq/=.
  - rewrite Hn. apply raises_Ok.
  - by rewrite Hn in *; simplify_eq/=.
  - rewrite Hn in *. simplify_eq/=.
    by match goal with H : index_of _ _ = None |- _ => apply index_of_None in H end.
Qed.

Lemma pair_is_keys_raises {A} a b (d : gmap string A) : raises escapes (pair_is_keys a b d).
Proof. unfold pair_is_keys. raises_tac. Qed.
#[export] Hint Resolve pair_is_keys_raises : ubsim_raises.

Lemma check_direct_raises n port_count by_device links :
  raises escapes (check_direct n port_count by_device links).
Proof.
  unfold check_direct. raises_tac; try (by left). exfalso. bool_inv. by destruct links.
Qed.

Lemma device_id_of_Ok by_node node o name :
  by_node !! node = Some o → dget o "id" = Some (JStr name) → device_id_of by_node node = Ok name.
Proof. intros Ho Hid. unfold device_id_of, getitem. rewrite Ho. cbn. by rewrite Hid. Qed.

(** After the loop every device has a rate and a delay: there are as many
    links as device ports and no port is used twice. *)
Lemma link_inv_covers names port_count by_device links st id :
  1 <= port_count → link_inv names port_count by_device links st →
  len links = Z.of_nat (size by_device) * port_count →
  is_Some (by_device !! id) → ∃ rl, la_by_device st !! id = Some rl ∧ rate_bounds rl.
Proof.
  intros Hpc [(eps & I1 & I2 & I3) I4 I5 _] Hlen Hid. unfold len in Hlen.
  assert (eps ≡ₚ pairs ((map_to_list by_device).*1) (seqZ 0 port_count)) as Hperm.
  { apply pigeonhole; [done| |].
    - intros [d p] (? & [o Ho] & ?)%I3. apply elem_of_pairs. split.
      + apply list_elem_of_fmap. exists (d, o). split; [done|]. by apply elem_of_map_to_list.
      + apply elem_of_seqZ. lia.
    - rewrite length_pairs, length_fmap, length_map_to_list, length_seqZ. nia. }
  destruct Hid as [o Ho].
  assert ((id, 0) ∈ eps) as Hin.
  { rewrite Hperm. apply elem_of_pairs. split; [|apply elem_of_seqZ; lia].
    apply list_elem_of_fmap. exists (id, o). split; [done|]. by apply elem_of_map_to_list. }
  apply I3 in Hin as (Hin & _). apply I4 in Hin as [rl Hrl]. exists rl. split; [done|]. by eapply I5.
Qed.

Lemma dev_set_devices_on names simulator switch st port_count :
  dev_set names simulator switch st port_count → devices_on names (da_by_device st).
Proof. intros [_ H _ _] id o (node & D & _ & ?)%H. exists node. by destruct D. Qed.

Lemma check_links_raises names simulator switch st port_count name n links :
  dev_set names simulator switch st port_count → n = len names →
  raises escapes (check_links names port_count (da_by_node st) (da_by_device st) name n links).
Proof.
  intros D ->. pose proof (dev_set_devices_on _ _ _ _ _ D) as Hon.
  unfold check_links. raises_tac; try (by left).
  - apply raises_foldMi. intros. by apply check_link_raises.
  - match goal with H : foldMi _ _ _ _ = Ok _ |- _ => apply check_links_inv in H as I end.
    apply raises_mapR. intros node Hin.
    destruct (ds_covers _ _ _ _ _ D _ Hin) as (o & id & Ho & Dd & Hdev).
    rewrite (device_id_of_Ok _ _ o id); [|done|by destruct Dd]. cbn.
    apply raises_or_raise. intros Hnone. bool_inv. unfold len in *.
    edestruct (link_inv_covers _ _ _ _ _ id (proj1 (ds_ports _ _ _ _ _ D)) I) as (rl & Hrl & _);
      [unfold len; by rewrite (ds_size _ _ _ _ _ D)|by eexists|]. congruence.
Qed.

(** The intermediate results of a run that reaches the links. *)
Record stages (raw : json) (h : header) (nacc : node_acc) (simulator : string) (machine : jobj)
    (switch : option string * Z) (dacc : device_acc) (port_count : Z) : Prop := {
  sg_header : check_header raw = Ok h;
  sg_nodes : node_inv (h_nodes h) nacc;
  sg_simulators : ∀ s, s ∈ na_simulators nacc ↔ s = simulator;
  sg_simulator : simulator = "gem5" ∨ simulator = "qemu";
  sg_count : 2 <= len (na_names nacc) <= 8;
  sg_checkpoint : simulator = "qemu" → h_checkpoint h = "none";
  sg_machine : check_machine (h_spec h) simulator = Ok machine;
  sg_switch : check_switch (h_switches h) = Ok switch;
  sg_dev_inv : dev_inv (na_names nacc) simulator switch.1 (h_devices h) dacc;
  sg_devices : dev_set (na_names nacc) simulator switch.1 dacc port_count
}.

Lemma stages_intro raw h nacc simulator machine switch dacc port_count :
  check_header raw = Ok h → check_nodes (h_nodes h) = Ok nacc →
  check_node_set nacc (len (h_nodes h)) (h_checkpoint h) = Ok simulator →
  check_machine (h_spec h) simulator = Ok machine → check_switch (h_switches h) = Ok switch →
  check_devices (na_names nacc) simulator switch.1 (h_devices h) = Ok dacc →
  check_device_set dacc (len (h_nodes h)) (len (h_devices h)) = Ok port_count →
  stages raw h nacc simulator machine switch dacc port_count ∧ len (na_names nacc) = len (h_nodes h).
Proof.
  intros H1 H2%check_nodes_inv H3 H4 H5 H6%check_devices_inv H7.
  assert (len (na_names nacc) = len (h_nodes h)) as Hlen.
  { unfold len. by rewrite (Forall2_length _ _ _ (ni_named _ _ H2)). }
  destruct (check_node_set_Ok _ _ _ _ H2 H3) as (Hs & Hk & Hc & Hq).
  destruct (check_device_set_Ok _ _ _ _ _ _ _ (ni_distinct _ _ H2) (eq_sym Hlen) H6 H7) as [D _].
  split; [|done]. split; try done. by rewrite Hlen.
Qed.

Lemma plan_machines_raises P nacc nodes simulator machine :
  node_inv nodes nacc → (∀ s, s ∈ na_simulators nacc ↔ s = simulator) →
  raises P (plan_machines simulator (na_qemu nacc) machine nodes).
Proof.
  intros I Hs. unfold plan_machines.
  destruct (String.eqb_spec simulator "qemu") as [->|Hne]; [apply raises_Ok|].
  apply raises_mapR. intros node Hin.
  pose proof (ni_gem5 _ _ I) as Hp. rewrite Hs in Hp.
  rewrite Forall_forall in Hp. destruct (Hp ltac:(congruence) node Hin) as (p & Hpr & _).
  rewrite Hpr. cbn. apply raises_Ok.
Qed.

Lemma device_ids_raises P names simulator switch st port_count :
  dev_set names simulator switch st port_count →
  raises P (mapR (device_id_of (da_by_node st)) names).
Proof.
  intros D. apply raises_mapR. intros node Hin.
  destruct (ds_covers _ _ _ _ _ D _ Hin) as (o & id & Ho & Dd & _).
  rewrite (device_id_of_Ok _ _ o id); [apply raises_Ok|done|by destruct Dd].
Qed.

Lemma check_device_set_raises names simulator switch devices st n m :
  dev_inv names simulator switch devices st → raises is_topology_error (check_device_set st n m).
Proof.
  intros _. unfold check_device_set. raises_tac. exfalso. bool_inv.
  match goal with H : head _ = None |- _ => rename H into Hh end.
  match goal with H : size (da_counts st) = 1%nat |- _ => rename H into Hsz end.
  destruct (elements (da_counts st)) eqn:E; [|done].
  unfold size, set_size in Hsz. cbn in Hsz. by rewrite E in Hsz.
Qed.

(** The compiler fails in one of two ways only: with a validation error, or
    when an unhashable value stands where a device is named.  No lookup by key
    or index, no [pop] and no [list.index] of its body ever raises. *)
Theorem compile_topology_raises raw : raises escapes (compile_topology raw).
Proof.
  unfold compile_topology.
  apply raises_bind; [apply topology_escapes, check_header_raises|intros h Hh].
  apply raises_bind; [apply topology_escapes, check_nodes_raises|intros nacc Hn].
  apply raises_bind; [apply topology_escapes, check_node_set_raises|intros simulator Hs].
  apply raises_bind; [apply topology_escapes, check_machine_raises|intros machine Hm].
  apply raises_bind; [apply topology_escapes, check_switch_raises|intros switch Hw].
  apply raises_bind; [apply topology_escapes, check_device_raises'|intros dacc Hd].
  apply raises_bind; [eapply topology_escapes, check_device_set_raises, check_devices_inv, Hd|].
  intros port_count Hp.
  destruct (stages_intro _ _ _ _ _ _ _ _ Hh Hn Hs Hm Hw Hd Hp) as [S Hlen]. destruct S.
  apply raises_bind.
  { destruct switch.1; [by eapply check_links_raises|apply check_direct_raises]. }
  intros links _.
  apply raises_bind; [by eapply device_ids_raises|intros ids _].
  apply raises_bind; [by apply plan_machines_raises|intros machines _].
  apply raises_Ok.
Qed.

(** ** What a plan guarantees *)

(** The contract of [compile_topology] with the launchers. *)
Record plan_ok (p : plan) : Prop := {
  po_simulator : p_simulator p = "gem5" ∨ p_simulator p = "qemu";
  po_nodes : 2 <= len (p_node_ids p) <= 8;
  po_nodes_distinct : NoDup (p_node_ids p);
  po_devices : length (p_device_ids p) = length (p_node_ids p);
  po_devices_distinct : NoDup (p_device_ids p);
  po_switch : ∀ s, p_switch_id p = Some s → s ∉ p_device_ids p;
  po_ports : 1 <= p_port_count p <= port_limit (p_simulator p);
  po_jettys : 2 <= p_max_jettys p <= 65535;
  po_links : length (p_node_links p) = length (p_node_ids p) ∧ Forall rate_bounds (p_node_links p);
  po_machines : length (p_machines p) = length (p_node_ids p) ∧ Forall machine_bounds (p_machines p);
  po_checkpoint : p_simulator p = "qemu" → p_checkpoint p = "none";
  po_direct : p_switch_id p = None → len (p_node_ids p) = 2 ∧ p_port_count p = 1
}.

(** A successful run, stage by stage. *)
Lemma compile_topology_stages raw p :
  compile_topology raw = Ok p →
  ∃ h nacc machine switch dacc,
    stages raw h nacc (p_simulator p) machine switch dacc (p_port_count p) ∧
    len (na_names nacc) = len (h_nodes h) ∧
    p_node_ids p = na_names nacc ∧ p_switch_id p = switch.1 ∧ p_checkpoint p = h_checkpoint h ∧
    mapR (device_id_of (da_by_node dacc)) (na_names nacc) = Ok (p_device_ids p) ∧
    plan_machines (p_simulator p) (na_qemu nacc) machine (h_nodes h) = Ok (p_machines p) ∧
    p_max_jettys p = plan_max_jettys (da_limits dacc) (p_simulator p) (na_profiles nacc) ∧
    match switch.1 with
    | None => check_direct (len (h_nodes h)) (p_port_count p) (da_by_device dacc) (h_links h)
    | Some name => check_links (na_names nacc) (p_port_count p) (da_by_node dacc) (da_by_device dacc)
                     name (len (h_nodes h)) (h_links h)
    end = Ok (p_node_links p).
Proof.
  unfold compile_topology. intros H.
  apply bind_Ok in H as (h & Hh & H). apply bind_Ok in H as (nacc & Hn & H).
  apply bind_Ok in H as (simulator & Hs & H). apply bind_Ok in H as (machine & Hm & H).
  apply bind_Ok in H as (switch & Hw & H). apply bind_Ok in H as (dacc & Hd & H).
  apply bind_Ok in H as (port_count & Hp & H). apply bind_Ok in H as (links & Hl & H).
  apply bind_Ok in H as (ids & Hi & H). apply bind_Ok in H as (machines & Hma & H).
  injection H as <-.
  destruct (stages_intro _ _ _ _ _ _ _ _ Hh Hn Hs Hm Hw Hd Hp) as [S Hlen].
  exists h, nacc, machine, switch, dacc. cbn. done.
Qed.

Lemma device_ids_spec names simulator switch st port_count ids :
  dev_set names simulator switch st port_count →
  mapR (device_id_of (da_by_node st)) names = Ok ids →
  Forall2 (λ node id, ∃ o, da_by_node st !! node = Some o ∧ da_by_device st !! id = Some o ∧
    device_decl names simulator switch node o id port_count) names ids.
Proof.
  intros D H%mapR_Ok. apply Forall2_same_length_lookup_2; [by eapply Forall2_length|].
  intros i node id Hnode Hid.
  pose proof (Forall2_lookup_lr _ _ _ _ _ _ H Hnode Hid) as Heq. cbn in Heq.
  destruct (ds_covers _ _ _ _ _ D node) as (o & id' & Ho & Dd & Hdev).
  { by eapply list_elem_of_lookup_2. }
  rewrite (device_id_of_Ok _ _ o id') in Heq; [|done|by destruct Dd]. simplify_eq. by exists o.
Qed.

Lemma device_ids_NoDup names simulator switch st port_count ids :
  NoDup names → dev_set names simulator switch st port_count →
  mapR (device_id_of (da_by_node st)) names = Ok ids → NoDup ids.
Proof.
  intros Hnd D H. pose proof (device_ids_spec _ _ _ _ _ _ D H) as HF.
  apply NoDup_alt. intros i j id Hi Hj.
  destruct (Forall2_lookup_r _ _ _ _ _ HF Hi) as (ni & Hni & oi & Hoi & Hdi & Di).
  destruct (Forall2_lookup_r _ _ _ _ _ HF Hj) as (nj & Hnj & oj & Hoj & Hdj & Dj).
  assert (oi = oj) as -> by congruence.
  assert (ni = nj) as -> by (destruct Di, Dj; congruence).
  by eapply NoDup_lookup.
Qed.

Lemma plan_max_jettys_bounds limits simulator profiles :
  (∀ c, c ∈ limits → 2 <= c <= 65535) → 2 <= plan_max_jettys limits simulator profiles <= 65535.
Proof.
  intros H. unfold plan_max_jettys. destruct (elements limits) as [|c l] eqn:E.
  - destruct (_ || _); lia.
  - apply H, elem_of_elements. rewrite E. by left.
Qed.

Lemma plan_machines_ok nacc nodes simulator machine ms :
  node_inv nodes nacc → (∀ s, s ∈ na_simulators nacc ↔ s = simulator) →
  plan_machines simulator (na_qemu nacc) machine nodes = Ok ms →
  length ms = length nodes ∧ Forall machine_bounds ms.
Proof.
  intros I Hs. unfold plan_machines.
  destruct (String.eqb_spec simulator "qemu") as [->|Hne].
  - intros [= <-]. split; [|apply I]. apply (ni_qemu _ _ I). by rewrite Hs.
  - intros H. split; [by eapply mapR_length|]. apply mapR_Ok in H.
    pose proof (ni_gem5 _ _ I) as Hp. rewrite Hs in Hp. specialize (Hp ltac:(congruence)).
    revert Hp. clear -H. induction H as [|node m nodes ms Hm _ IH]; [constructor|].
    intros [(p & Hpr & Hin) ?]%Forall_cons. constructor; [|by apply IH].
    rewrite Hpr in Hm. cbn in Hm. by simplify_eq.
Qed.

Lemma direct_rate_bounds rate latency :
  1 <= rate <= 100000 → 2 <= latency <= 1000000000 →
  Forall rate_bounds [(rate, latency / 2); (rate, latency - latency / 2)].
Proof.
  intros Hr Hl. assert (1 <= latency / 2 <= latency - 1) as [? ?].
  { split; [apply Z.div_le_lower_bound; lia|]. assert (latency / 2 < latency); [|lia].
    apply Z.div_lt; lia. }
  repeat constructor; unfold rate_bounds; cbn; lia.
Qed.

Lemma check_links_Ok names simulator switch st port_count name n links node_links :
  dev_set names simulator switch st port_count → n = len names →
  check_links names port_count (da_by_node st) (da_by_device st) name n links = Ok node_links →
  ∃ acc, link_inv names port_count (da_by_device st) links acc ∧
    len links = len names * port_count ∧
    length node_links = length names ∧ Forall rate_bounds node_links.
Proof.
  intros D ->. unfold check_links. intros H. py_inv. bool_inv.
  match goal with H : foldMi _ _ _ _ = Ok ?a |- _ => apply check_links_inv in H as I; exists a end.
  split; [done|]. split; [done|]. split; [by eapply mapR_length|].
  match goal with H : mapR _ _ = Ok _ |- _ => apply mapR_Ok in H as Hm end.
  apply Forall_lookup. intros i rl Hrl.
  destruct (Forall2_lookup_r _ _ _ _ _ Hm Hrl) as (node & _ & Hn). cbn in Hn.
  apply bind_Ok in Hn as (id & _ & Hn). apply or_raise_Ok in Hn. by eapply li_rates.
Qed.

Lemma compiled_plan_ok raw p : compile_topology raw = Ok p → plan_ok p.
Proof.
  intros (h & nacc & machine & switch & dacc & S & Hlen & Hids & Hsw & Hck & Hdev & Hma & Hj & Hlinks)
    %compile_topology_stages.
  destruct S as [_ I Hs Hk Hc Hq _ _ DI D].
  assert (length (h_nodes h) = length (na_names nacc)) as Hlen' by (unfold len in Hlen; lia).
  destruct (plan_machines_ok _ _ _ _ _ I Hs Hma) as [Hm1 Hm2].
  assert (length (p_node_links p) = length (p_node_ids p) ∧ Forall rate_bounds (p_node_links p) ∧
    (switch.1 = None → len (p_node_ids p) = 2 ∧ p_port_count p = 1)) as (L1 & L2 & L3).
  { rewrite Hids. destruct switch.1 as [name|].
    - destruct (check_links_Ok _ _ _ _ _ _ _ _ _ D (eq_sym Hlen) Hlinks) as (? & _ & _ & ? & ?). done.
    - destruct (check_direct_Ok _ _ _ _ _ Hlinks) as (? & ? & ? & rate & latency & -> & ? & ?).
      split; [unfold len in *; cbn; lia|]. split; [by apply direct_rate_bounds|]. intros _. lia. }
  split; rewrite ?Hids, ?Hck; try done.
  - apply I.
  - by eapply mapR_length.
  - eapply device_ids_NoDup; [apply I|done|done].
  - intros s E Hin. rewrite Hsw in E.
    pose proof (device_ids_spec _ _ _ _ _ _ D Hdev) as HF.
    apply list_elem_of_lookup in Hin as [i Hi].
    destruct (Forall2_lookup_r _ _ _ _ _ HF Hi) as (ni & _ & o & _ & _ & Dd).
    by destruct (dd_not_switch _ _ _ _ _ _ _ Dd).
  - apply D.
  - rewrite Hj. apply plan_max_jettys_bounds, DI.
  - by rewrite <- Hids.
  - by rewrite Hm1, Hlen'.
  - rewrite Hsw, <- Hids. done.
Qed.

(** C1: a compiled plan satisfies the launchers' contract. *)
Theorem compile_topology_plan_ok raw p : compile_topology raw = Ok p → plan_ok p.
Proof. apply compiled_plan_ok. Qed.

Lemma compile_topology_bounds raw p :
  compile_topology raw = Ok p →
  length (p_node_links p) = length (p_node_ids p) ∧ Forall rate_bounds (p_node_links p) ∧
  2 <= len (p_node_ids p) <= 8.
Proof. intros H. destruct (compiled_plan_ok _ _ H). naive_solver. Qed.

Lemma check_header_fields raw h :
  check_header raw = Ok h →
  subscript raw "links" = Ok (JList (h_links h)) ∧ subscript raw "devices" = Ok (JList (h_devices h)) ∧
  subscript raw "nodes" = Ok (JList (h_nodes h)) ∧ h_links h ≠ [].
Proof. unfold check_header. intros H. py_inv. field_inv. done. Qed.

Lemma nodes_simulators nodes st :
  check_nodes nodes = Ok st → Forall (λ n, ∃ s, subscript n "simulator" = Ok (JStr s)) nodes.
Proof.
  apply (foldMi_inv (λ pre _, Forall (λ n, ∃ s, subscript n "simulator" = Ok (JStr s)) pre)); [constructor|].
  intros pre x post st0 st1 _ Hpre H. apply Forall_app. split; [done|]. apply Forall_singleton.
  unfold check_node in H. apply bind_Ok in H as (node & Hn & H). apply bind_Ok in H as (id & _ & H).
  apply bind_Ok in H as (name & _ & H). destruct (elemb _ _); [done|].
  apply bind_Ok in H as (sim & Hs & H). apply bind_Ok in H as (simulator & Hc & _).
  field_inv. by eexists.
Qed.

(** The fields that every compiled document has. *)
Lemma compile_fields raw p :
  compile_topology raw = Ok p →
  ∃ o nodes switches, raw = JObj o ∧ dget o "name" = Some (JStr (p_name p)) ∧
    dget o "nodes" = Some (JList nodes) ∧ nodes ≠ [] ∧ len nodes = len (p_node_ids p) ∧
    dget o "switches" = Some (JList switches) ∧
    Forall (λ n, ∃ s, subscript n "simulator" = Ok (JStr s)) nodes.
Proof.
  intros H. pose proof H as H'.
  apply compile_topology_stages in H' as (h & nacc & machine & switch & dacc & S & Hlen & Hids & _).
  unfold compile_topology in H. apply bind_Ok in H as (h' & Hh & H).
  destruct S as [Hh' I _ _ Hc _ _ _ _ _]. rewrite Hh in Hh'. injection Hh' as ->.
  assert (p_name p = h_name h) as -> by (py_inv; done).
  rewrite Hids, Hlen. pose proof Hh as Hh2.
  assert (∃ nacc', check_nodes (h_nodes h) = Ok nacc') as [nacc' Hn].
  { clear -H. apply bind_Ok in H as (? & ? & _). by eexists. }
  apply nodes_simulators in Hn.
  unfold check_header in Hh. py_inv. field_inv. cbn. eexists _, _, _.
  rewrite <- !getitem_Ok. by split_and!; first [done|eassumption].
Qed.

(** C22: in a switched plan the links occupy the switch ports
    [0 .. nodes * ports - 1], each exactly once. *)
Theorem switch_ports_bijective raw p name :
  compile_topology raw = Ok p → p_switch_id p = Some name →
  ∃ links sports, subscript raw "links" = Ok (JList links) ∧
    mapR (λ l, subscript l "switch_port") links = Ok (JInt <$> sports) ∧
    sports ≡ₚ seqZ 0 (len (p_node_ids p) * p_port_count p).
Proof.
  intros (h & nacc & machine & switch & dacc & S & Hlen & Hids & Hsw & _ & _ & _ & _ & Hlinks)
    %compile_topology_stages Hname.
  rewrite <- Hsw, Hname in Hlinks. destruct S as [Hh _ _ _ _ _ _ _ _ D].
  destruct (check_links_Ok _ _ _ _ _ _ _ _ _ D (eq_sym Hlen) Hlinks) as (acc & I & Hll & _).
  destruct (li_switch _ _ _ _ _ I) as (sps & HF & Hnd & _).
  exists (h_links h), sps. split; [by apply check_header_fields|]. split.
  - apply mapR_Ok, Forall2_fmap_r. eapply Forall2_impl; [exact HF|].
    intros raw' s (id & port & Dl). apply Dl.
  - pose proof (ds_ports _ _ _ _ _ D). rewrite Hids. apply pigeonhole; [done| |].
    + intros s [i Hi]%list_elem_of_lookup.
      destruct (Forall2_lookup_r _ _ _ _ _ HF Hi) as (r & _ & id & port & Dl).
      destruct (ld_node _ _ _ _ _ _ _ Dl) as (o & node & j & _ & _ & Hj & ->).
      apply index_of_lt in Hj. pose proof (ld_range _ _ _ _ _ _ _ Dl).
      apply elem_of_seqZ. unfold len. nia.
    + rewrite length_seqZ, <- (Forall2_length _ _ _ HF). unfold len in *. lia.
Qed.

(** Every declared device is the device of one node of the plan, and its
    EID is 256 plus that node's position. *)
Theorem device_eids raw p :
  compile_topology raw = Ok p →
  ∃ devices, subscript raw "devices" = Ok (JList devices) ∧
    Forall (λ d, ∃ i node id, p_node_ids p !! i = Some node ∧ p_device_ids p !! i = Some id ∧
      subscript d "node" = Ok (JStr node) ∧ subscript d "id" = Ok (JStr id) ∧
      subscript d "eid" = Ok (JInt (256 + Z.of_nat i))) devices.
Proof.
  intros (h & nacc & machine & switch & dacc & S & Hlen & Hids & Hsw & _ & Hdev & _)
    %compile_topology_stages.
  exists (h_devices h). destruct S as [Hh I _ _ _ _ _ _ DI D].
  split; [by apply check_header_fields|].
  eapply Forall_impl; [exact (di_decl _ _ _ _ _ DI)|].
  intros r (o & node & name & count & -> & Dd & Ho).
  destruct (dd_eid _ _ _ _ _ _ _ Dd) as (i & Hi & Heid). apply index_of_Some in Hi as [Hi _].
  pose proof (device_ids_spec _ _ _ _ _ _ D Hdev) as HF.
  destruct (Forall2_lookup_l _ _ _ _ _ HF Hi) as (id & Hid & o' & Ho' & _ & Dd').
  assert (o' = o) as -> by congruence. destruct Dd, Dd'.
  exists i, node, id. rewrite Hids. cbn. unfold getitem.
  split; [done|]. split; [done|]. rewrite dd_node0, dd_id1, Heid. done.
Qed.

(** ** Witnesses *)

Lemma compile_topology_plan_ok_witness :
  ∃ p, compile_topology topology_gem5_two_heads = Ok p ∧ plan_ok p.
Proof.
  eexists. split; [vm_compute; reflexivity|].
  apply (compile_topology_plan_ok topology_gem5_two_heads). vm_compute. reflexivity.
Defined.

Lemma switch_ports_bijective_witness :
  ∃ p, compile_topology topology_gem5_three_heads = Ok p ∧ p_switch_id p = Some "switch-0" ∧
  ∃ links sports, subscript topology_gem5_three_heads "links" = Ok (JList links) ∧
    mapR (λ l, subscript l "switch_port") links = Ok (JInt <$> sports) ∧
    sports ≡ₚ seqZ 0 (len (p_node_ids p) * p_port_count p).
Proof.
  eexists. split; [vm_compute; reflexivity|]. split; [reflexivity|].
  apply (switch_ports_bijective topology_gem5_three_heads _ "switch-0"); vm_compute; reflexivity.
Defined.

Lemma device_eids_witness :
  ∃ p, compile_topology topology_qemu_two_heads = Ok p ∧
  ∃ devices, subscript topology_qemu_two_heads "devices" = Ok (JList devices) ∧
    Forall (λ d, ∃ i node id, p_node_ids p !! i = Some node ∧ p_device_ids p !! i = Some id ∧
      subscript d "node" = Ok (JStr node) ∧ subscript d "id" = Ok (JStr id) ∧
      subscript d "eid" = Ok (JInt (256 + Z.of_nat i))) devices.
Proof.
  eexists. split; [vm_compute; reflexivity|].
  apply (device_eids topology_qemu_two_heads). vm_compute. reflexivity.
Defined.
