(* ===== verification/QemuPorts.v ===== *)
(** * Listener allocation for a QEMU topology ([ubsim_lab/qemu_ports.py])

    The environment is a function from variable names; the rest is a direct
    translation, followed by the exact domain on which it succeeds. *)

From Stdlib Require Import ZArith Lia Ascii.
From stdpp Require Import base strings gmap fin_maps numbers option list sorting.
From S2P Require Import Prelude PyStr.

Open Scope string_scope.
Open Scope list_scope.
Open Scope Z_scope.

Abbreviation environ := (string → option string).

(** [int(os.environ.get(name, default))]. *)
Definition env_int (env : environ) (name : string) (def : string) : res Z :=
  int_of_str (default def (env name)).

Record ports := Ports { uart : list Z; ssh : list Z; oob : list Z }.
Definition flat (p : ports) : list Z := uart p ++ ssh p ++ oob p.

(** [[base + i * stride for i in range(count)]]. *)
Definition arith (base stride : Z) (count : nat) : list Z :=
  (λ i, base + Z.of_nat i * stride) <$> seq 0 count.

Definition port_ok (p : Z) : bool := (1024 <=? p) && (p <=? 65535).

Definition port_layout (count : Z) (uart0 uart1 ssh0 ssh1 oob0 : Z) : ports :=
  let n := Z.to_nat count in
  {| uart := arith uart0 (uart1 - uart0) n;
     ssh := arith ssh0 (ssh1 - ssh0) n;
     oob := if 2 <? count then arith oob0 1 n else [oob0] |}.

Definition qemu_ports (env : environ) (count : Z) : res ports :=
  raise Exn ValueError "QEMU supports 2-8 hosts" []
    when negb ((2 <=? count) && (count <=? 8)) ;;
  uart0 ← env_int env "UBSIM_QEMU_UART0" "3560";
  uart1 ← env_int env "UBSIM_QEMU_UART1" "3570";
  ssh0 ← env_int env "UBSIM_QEMU_SSH0_PORT" "2220";
  ssh1 ← env_int env "UBSIM_QEMU_SSH1_PORT" "2221";
  oob0 ← env_int env "UBSIM_QEMU_OOB_PORT" "4560";
  raise Exn ValueError "QEMU UART and SSH second ports must exceed first ports" []
    when (uart1 <=? uart0) || (ssh1 <=? ssh0) ;;
  let ports := port_layout count uart0 uart1 ssh0 ssh1 oob0 in
  raise Exn ValueError "QEMU local ports must be unique and within 1024-65535" []
    when existsb (λ port, negb (port_ok port)) (flat ports)
         || negb (bool_decide (NoDup (flat ports))) ;;
  Ok ports.

Lemma port_ok_true p : port_ok p = true ↔ 1024 <= p <= 65535.
Proof. unfold port_ok. rewrite andb_true_iff, !Z.leb_le. done. Qed.

Lemma arith_lookup base stride n i :
  (i < n)%nat → arith base stride n !! i = Some (base + Z.of_nat i * stride).
Proof.
  intros Hi. unfold arith. by rewrite list_lookup_fmap, lookup_seq_lt.
Qed.

Lemma env_int_raises env name def : raises (λ e, exn_cls e = ValueError) (env_int env name def).
Proof. unfold env_int, int_of_str. raises_tac. done. Qed.
#[export] Hint Resolve env_int_raises : ubsim_raises.

(** An allocation gives every one of the 2 to 8 guests a console and a
    forwarded SSH port, the out-of-band switch one listener per guest (a single
    one between two), each within 1024-65535 and no two of them the same. *)
Theorem qemu_ports_ok env count p :
  qemu_ports env count = Ok p →
  2 <= count <= 8 ∧ len (uart p) = count ∧ len (ssh p) = count ∧
  len (oob p) = (if 2 <? count then count else 1) ∧
  NoDup (uart p ++ ssh p ++ oob p) ∧
  Forall (λ port, 1024 <= port <= 65535) (uart p ++ ssh p ++ oob p).
Proof.
  unfold qemu_ports. intros H. py_inv. bool_inv.
  assert (∀ b s, len (arith b s (Z.to_nat count)) = count) as Hlen.
  { intros b s. unfold len, arith. rewrite length_fmap, length_seq. lia. }
  split_and!; [lia|lia|apply Hlen|apply Hlen| |done|].
  - cbn. by destruct (2 <? count).
  - apply Forall_forall. intros port Hin. apply port_ok_true.
    match goal with H : existsb _ _ = false |- _ => rename H into Hex end.
    destruct (port_ok port) eqn:Hp; [done|].
    enough (existsb (λ p, negb (port_ok p)) (arith x (x0 - x) (Z.to_nat count) ++
              arith x1 (x2 - x1) (Z.to_nat count) ++
              (if 2 <? count then arith x3 1 (Z.to_nat count) else [x3])) = true)
      by (unfold flat in Hex; cbn in Hex; congruence).
    apply existsb_exists. exists port. split; [by apply list_elem_of_In|by rewrite Hp].
Qed.

(** An allocation fails only with [ValueError]. *)
Theorem qemu_ports_raises env count : raises (λ e, exn_cls e = ValueError) (qemu_ports env count).
Proof. unfold qemu_ports. raises_tac. Qed.

(** Without overrides, every supported number of hosts gets its ports. *)
Example default_ports :
  forallb (λ n, is_ok (qemu_ports (λ _, None) n)) [2; 3; 4; 5; 6; 7; 8] = true.
Proof. vm_compute. reflexivity. Qed.

Lemma qemu_ports_ok_witness :
  qemu_ports (λ _, None) 2 = Ok (Ports [3560; 3570] [2220; 2221] [4560]) ∧
  NoDup ([3560; 3570] ++ [2220; 2221] ++ [4560]).
Proof.
  assert (qemu_ports (λ _, None) 2 = Ok (Ports [3560; 3570] [2220; 2221] [4560])) as H
    by (vm_compute; reflexivity).
  split; [exact H|]. apply (qemu_ports_ok _ _ _ H).
Defined.
