(* ===== verification/MemoryGuard.v ===== *)
(** * Host memory guard ([tools/host_memory_guard.py])

    The platform readings are parsed from the text the host prints; the check
    and the monitor are functions of those readings.  Clock, log file and the
    texts of the messages are not modelled. *)

From Stdlib Require Import ZArith Lia Ascii.
From stdpp Require Import base strings gmap fin_maps numbers option list sorting.
From S2P Require Import Prelude PyStr.

Open Scope string_scope.
Open Scope list_scope.
Open Scope Z_scope.

Definition GIB : Z := 1024 ^ 3.

(** ** Reading the host *)

(** [^(MemTotal|MemAvailable):\s+(\d+) kB$] at a line start: the key, the
    number and the text after the match. *)
Definition match_meminfo_key (key s : string) : option (string * Z * string) :=
  r ← strip_prefix (key +:+ ":") s;
  let '(blank, r') := span is_space r in
  if String.eqb blank EmptyString then None
  else m ← match_num EmptyString " kB" r';
       match m.2 with
       | EmptyString => Some (key, m.1, EmptyString)
       | String c _ => if Ascii.eqb c "010" then Some (key, m.1, m.2) else None
       end.

Definition match_meminfo (s : string) : option (string * Z * string) :=
  match match_meminfo_key "MemTotal" s with
  | Some m => Some m
  | None => match_meminfo_key "MemAvailable" s
  end.

(** [re.findall(..., re.MULTILINE)]; [bol] says that the position is a line
    start.  One step of fuel per character read. *)
Fixpoint findall_meminfo (fuel : nat) (bol : bool) (s : string) : list (string * Z) :=
  match fuel with
  | O => []
  | S f =>
      match if bol then match_meminfo s else None with
      | Some (key, n, rest) => (key, n) :: findall_meminfo f false rest
      | None => match s with
                | EmptyString => []
                | String c s' => findall_meminfo f (Ascii.eqb c "010") s'
                end
      end
  end.

(** [sys.platform] with the text each branch reads. *)
Inductive host :=
  | Darwin (memory_pressure : string)
  | Linux (meminfo : string)
  | OtherPlatform (platform : string).

Definition memory_bytes (h : host) : res (Z * Z) :=
  match h with
  | Darwin output =>
      match search (match_num "The system has " " ") output,
            search (match_num "System-wide memory free percentage: " "%") output with
      | Some (total, _), Some (free, _) => Ok (total, total * free / 100)
      | _, _ => Err (Exn RuntimeError "cannot read macOS memory pressure" [])
      end
  | Linux text =>
      let info : gmap string Z :=
        foldl (λ m kv, <[kv.1 := kv.2]> m) ∅ (findall_meminfo (S (String.length text)) true text) in
      match info !! "MemTotal", info !! "MemAvailable" with
      | Some total, Some available => Ok (total * 1024, available * 1024)
      | _, _ => Err (Exn RuntimeError "cannot read Linux MemAvailable" [])
      end
  | OtherPlatform p => Err (Exn RuntimeError "unsupported host platform: {sys.platform}" [PS p])
  end.

(** ** Sizes *)

Definition scale (u : string) : option Z :=
  if String.eqb u "B" then Some 1
  else if String.eqb u "kB" then Some 1000
  else if String.eqb u "KiB" then Some 1024
  else if String.eqb u "MB" then Some (1000 ^ 2)
  else if String.eqb u "MiB" then Some (1024 ^ 2)
  else if String.eqb u "GB" then Some (1000 ^ 3)
  else if String.eqb u "GiB" then Some GIB
  else None.

Definition capacity_bytes (value : string) : res Z :=
  let '(digits, suffix) := span is_digit value in
  match parse_nat digits, scale suffix with
  | Some n, Some k => Ok (n * k)
  | _, _ => Err (Exn ValueError "invalid modeled memory size: {value}" [PS value])
  end.

Definition reserve_bytes (total : Z) : Z := Z.max (2 * GIB) (total / 5).

(** ** Preflight check *)

Inductive phase := Start | QemuStart | Checkpoint.
#[global] Instance phase_eq_dec : EqDecision phase.
Proof. solve_decision. Defined.

Definition launch_headroom (ph : phase) (nodes : Z) (mem_size : string) : res Z :=
  let base := Z.max (2 * GIB) (nodes * 5 * GIB / 4) in
  if bool_decide (ph = QemuStart)
  then c ← capacity_bytes mem_size; Ok (Z.max base (nodes * c + GIB))
  else Ok base.

(** The exit status: 2 when there is not enough room. *)
Definition check (h : host) (ph : phase) (nodes : Z) (mem_size : string) : res Z :=
  reading ← memory_bytes h;
  let '(total, available) := reading in
  headroom ← launch_headroom ph nodes mem_size;
  if available <? reserve_bytes total + headroom then Ok 2
  else if bool_decide (ph = Checkpoint) && (3 <=? nodes)
  then c ← capacity_bytes mem_size; Ok (if 4 * total <? nodes * c then 2 else 0)
  else Ok 0.

(** ** The monitor *)

(** One guest's pid file: [Ok true] for a pid that takes signal 0; [Err] for the
    file, the integer or the signal failing. *)
Definition live_guest (probe : nat → res bool) (nodes : nat) : res bool :=
  (fix go (l : list nat) : res bool :=
     match l with
     | [] => Ok false
     | node :: l' =>
         match probe node with
         | Ok _ => Ok true
         | Err e => if is_a (exn_cls e) OSError || is_a (exn_cls e) ValueError then go l' else Err e
         end
     end) (seq 0 nodes).

(** What one turn of the loop observes: the manifest's identity ([None] when it
    is gone), the guests and the memory. *)
Record sample := Sample {
  s_identity : option Z;
  s_live : res bool;
  s_memory : res (Z * Z)
}.

(** What the monitor has done when it returns. *)
Record verdict := Verdict {
  v_status : Z;
  v_stopped : bool;   (** [memory-guard.stopped] written and the stop script run *)
  v_samples : nat     (** turns completed by a [sleep] *)
}.

Definition low (total available : Z) : bool := available <? reserve_bytes total.

(** The loop, one element per turn; [None] while it is still running. *)
Fixpoint monitor_go (identity low_count : Z) (samples : nat) (l : list sample) : option verdict :=
  match l with
  | [] => None
  | s :: l' =>
      match s_identity s with
      | None => Some (Verdict 0 false samples)
      | Some i =>
          if negb (i =? identity) then Some (Verdict 0 false samples)
          else match s_live s with
          | Err e => Some (Verdict (if is_a (exn_cls e) FileNotFoundError then 0 else 2) false samples)
          | Ok false => Some (Verdict 0 false samples)
          | Ok true =>
              match s_memory s with
              | Err e => Some (Verdict (if is_a (exn_cls e) FileNotFoundError then 0 else 2) false samples)
              | Ok (total, available) =>
                  let low_count' := if low total available then low_count + 1 else 0 in
                  if 2 <=? low_count' then Some (Verdict 2 true samples)
                  else monitor_go identity low_count' (S samples) l'
              end
          end
      end
  end.

(** [None] as the initial identity is the first [stat] not finding the file. *)
Definition monitor (identity : option Z) (l : list sample) : res (option verdict) :=
  match identity with
  | None => Err (Exn FileNotFoundError "{manifest}" [])
  | Some i => Ok (monitor_go i 0 0 l)
  end.

(** [main] with its parsed arguments. *)
Inductive action :=
  | Check (ph : phase) (nodes : Z) (mem_size : string)
  | Monitor (identity : option Z) (l : list sample).

Definition main (h : host) (a : action) : res (option Z) :=
  let r : res (option Z) := match a with
           | Check ph nodes mem => Some <$> check h ph nodes mem
           | Monitor i l => v ← monitor i l; Ok (option_map v_status v)
           end in
  match r with
  | Err e =>
      if is_a (exn_cls e) OSError || is_a (exn_cls e) RuntimeError || is_a (exn_cls e) ValueError
      then Ok (Some 2) else Err e
  | Ok st => Ok st
  end.

(** ** The preflight check admits exactly what leaves the reserve free *)

Lemma reserve_bytes_spec total :
  2 * GIB <= reserve_bytes total ∧ total <= 5 * reserve_bytes total + 4.
Proof.
  unfold reserve_bytes. pose proof (Z.div_mod total 5 ltac:(lia)).
  pose proof (Z.mod_pos_bound total 5 ltac:(lia)). lia.
Qed.

Lemma headroom_lower ph nodes mem h :
  launch_headroom ph nodes mem = Ok h → 2 * GIB <= h ∧ nodes * 5 * GIB / 4 <= h.
Proof. unfold launch_headroom. intros H. case_bool_decide; py_inv; lia. Qed.

Lemma capacity_raises v : raises (λ e, exn_cls e = ValueError) (capacity_bytes v).
Proof. unfold capacity_bytes. destruct (span _ _). raises_tac. Qed.

(** An admitted launch leaves the host's reserve and five quarters of a
    gibibyte per guest available, and for a QEMU start the guests' whole memory. *)
Theorem check_admits h ph nodes mem :
  check h ph nodes mem = Ok 0 →
  ∃ total available, memory_bytes h = Ok (total, available) ∧
    reserve_bytes total + 2 * GIB <= available ∧
    reserve_bytes total + nodes * 5 * GIB / 4 <= available ∧
    (ph = QemuStart → ∃ c, capacity_bytes mem = Ok c ∧
       reserve_bytes total + nodes * c + GIB <= available) ∧
    (ph = Checkpoint → 3 <= nodes → ∃ c, capacity_bytes mem = Ok c ∧ nodes * c <= 4 * total).
Proof.
  unfold check. intros H. apply bind_Ok in H as ([total available] & Hm & H).
  apply bind_Ok in H as (room & Hroom & H). exists total, available. split; [done|].
  pose proof (headroom_lower _ _ _ _ Hroom).
  destruct (available <? _) eqn:?; [done|]. bool_inv. split_and!; try lia.
  - intros ->. unfold launch_headroom in Hroom. rewrite bool_decide_true in Hroom by done.
    py_inv. eexists. split; [done|]. lia.
  - intros -> Hn. rewrite bool_decide_true in H by done. cbn in H.
    destruct (3 <=? nodes) eqn:?; bool_inv; [|lia]. py_inv.
    eexists. split; [done|]. destruct (4 * total <? _) eqn:?; bool_inv; [done|lia].
Qed.

(** The check is monotone: on a host with as much memory, more of it
    available never turns an admission into a refusal. *)
Theorem check_monotone h h' ph nodes mem total a a' :
  memory_bytes h = Ok (total, a) → memory_bytes h' = Ok (total, a') → a <= a' →
  check h ph nodes mem = Ok 0 → check h' ph nodes mem = Ok 0.
Proof.
  unfold check. intros -> -> Ha. cbn. destruct (launch_headroom ph nodes mem) as [room|]; [|done].
  cbn. destruct (a <? _) eqn:?; [done|]. bool_inv.
  replace (a' <? reserve_bytes total + room) with false; [done|].
  symmetry. apply Z.ltb_ge. lia.
Qed.

(** ** The monitor stops a run exactly on two consecutive low samples *)

Definition running (identity : Z) (s : sample) : Prop :=
  s_identity s = Some identity ∧ s_live s = Ok true ∧ ∃ m, s_memory s = Ok m.

Definition low_sample (s : sample) : Prop :=
  ∃ total available, s_memory s = Ok (total, available) ∧ available < reserve_bytes total.

Definition stops (o : option verdict) : Prop := ∃ v, o = Some v ∧ v_stopped v = true.

Lemma stops_Some v : stops (Some v) ↔ v_stopped v = true.
Proof. unfold stops. naive_solver. Qed.

(** One turn on a running sample. *)
Lemma monitor_go_cons identity c n s l :
  stops (monitor_go identity c n (s :: l)) ↔
  running identity s ∧
  ((low_sample s ∧ (2 <= c + 1 ∨ stops (monitor_go identity (c + 1) (S n) l))) ∨
   (¬ low_sample s ∧ stops (monitor_go identity 0 (S n) l))).
Proof.
  cbn. unfold running, low_sample. destruct s as [[i|] live mem]; cbn.
  2: { rewrite stops_Some. naive_solver. }
  destruct (i =? identity) eqn:Hi; bool_inv; cbn; [subst|rewrite stops_Some; naive_solver].
  destruct live as [[|]|]; [|rewrite stops_Some; naive_solver..].
  destruct mem as [[total available]|]; [|rewrite stops_Some; naive_solver].
  unfold low. destruct (available <? reserve_bytes total) eqn:Hlow; bool_inv; cbn.
  - destruct (2 <=? c + 1) eqn:Hc; bool_inv; [rewrite stops_Some; cbn|]; naive_solver lia.
  - naive_solver lia.
Qed.

Lemma low_or_not s : low_sample s ∨ ¬ low_sample s.
Proof.
  unfold low_sample. destruct (s_memory s) as [[t a]|]; [|naive_solver].
  destruct (decide (a < reserve_bytes t)); naive_solver.
Qed.

Definition two_low (identity : Z) (l : list sample) : Prop :=
  ∃ pre s1 s2 post, l = pre ++ s1 :: s2 :: post ∧
    Forall (running identity) (pre ++ [s1; s2]) ∧ low_sample s1 ∧ low_sample s2.

Lemma two_low_cons identity s l :
  running identity s → two_low identity l → two_low identity (s :: l).
Proof.
  intros Hs (pre & s1 & s2 & post & -> & Hf & H1 & H2).
  exists (s :: pre), s1, s2, post. split_and!; [done| |done..]. by constructor.
Qed.

Lemma monitor_go_complete identity pre s1 s2 post c n :
  Forall (running identity) (pre ++ [s1; s2]) → low_sample s1 → low_sample s2 → 0 <= c →
  stops (monitor_go identity c n (pre ++ s1 :: s2 :: post)).
Proof.
  revert c n. induction pre as [|s pre IH]; intros c n Hf H1 H2 Hc;
    apply Forall_cons in Hf as [Hs Hf].
  - apply Forall_cons in Hf as [Hs2 _]. apply monitor_go_cons. split; [done|]. left.
    split; [done|]. right. apply monitor_go_cons. split; [done|]. left. split; [done|]. lia.
  - cbn [app]. apply monitor_go_cons. split; [done|].
    destruct (low_or_not s); [left|right]; (split; [done|]); [right|]; apply IH; auto with lia.
Qed.

Lemma monitor_go_sound identity l c n :
  0 <= c <= 1 → stops (monitor_go identity c n l) →
  two_low identity l ∨
  c = 1 ∧ ∃ s l', l = s :: l' ∧ running identity s ∧ low_sample s.
Proof.
  revert c n. induction l as [|s l IH]; intros c n Hc; [by intros (? & ? & ?)|].
  intros [Hs [[Hlow [H|H]]|[Hlow H]]]%monitor_go_cons.
  - right. split; [lia|]. eauto.
  - destruct (decide (c = 1)) as [->|]; [right; split; [done|]; eauto|]. left.
    apply IH in H as [H|(_ & s2 & l' & -> & Hs2 & Hl2)]; [by apply two_low_cons| |lia].
    exists [], s, s2, l'. split_and!; [done| |done..]. cbn. auto.
  - apply IH in H as [H|[Hc0 _]]; [|lia..]. left. by apply two_low_cons.
Qed.

(** The monitor writes the stop file and runs the stop script if and only
    if two consecutive samples of the live, unchanged run are below the reserve;
    one low sample never stops a run. *)
Theorem monitor_stops_iff identity l :
  stops (monitor_go identity 0 0 l) ↔ two_low identity l.
Proof.
  split.
  - intros [H|[H _]]%monitor_go_sound; [done|lia..].
  - intros (pre & s1 & s2 & post & -> & Hf & H1 & H2). by apply monitor_go_complete.
Qed.

(** ** Concrete readings *)

Definition newline : string := String "010" EmptyString.
Definition sample_meminfo : string :=
  "MemTotal:       65536000 kB" +:+ newline +:+ "MemFree:  1000 kB" +:+ newline +:+
  "MemAvailable:   52428800 kB" +:+ newline.

Example sample_memory_bytes :
  memory_bytes (Linux sample_meminfo) = Ok (67108864000, 53687091200).
Proof. vm_compute. reflexivity. Qed.

Lemma check_admits_witness :
  check (Linux sample_meminfo) QemuStart 4 "2GiB" = Ok 0 ∧
  ∃ total available, memory_bytes (Linux sample_meminfo) = Ok (total, available) ∧
    reserve_bytes total + 2 * GIB <= available.
Proof.
  assert (check (Linux sample_meminfo) QemuStart 4 "2GiB" = Ok 0) as H by (vm_compute; reflexivity).
  split; [exact H|].
  destruct (check_admits _ _ _ _ H) as (total & available & Hm & Hr & _). eauto.
Defined.

Lemma check_monotone_witness :
  check (Darwin "The system has 68719476736 (pages) System-wide memory free percentage: 90%")
    Start 2 "1GiB" = Ok 0.
Proof.
  apply (check_monotone
    (Darwin "The system has 68719476736 (pages) System-wide memory free percentage: 60%")
    _ _ _ _ 68719476736 41231686041 61847529062); vm_compute; [reflexivity..|done|reflexivity].
Defined.
