(* ===== verification/EthernetRelay.v ===== *)
(** * Learning Ethernet relay ([tools/ethernet_relay.py])

    One thread per port reads length-prefixed frames from its own socket,
    updates the shared MAC table under a lock, and writes the packet to the
    destination sockets, one [sendall] under a per-socket lock at a time.  The
    threads' interleavings are the runs of the step relation [step].  A
    socket's receive side is the list of chunks the kernel hands out; an empty
    list is the peer's orderly close. *)

From Stdlib Require Import ZArith Lia Ascii.
From stdpp Require Import base strings gmap fin_maps numbers option list sorting.
From S2P Require Import Prelude PyStr.

Open Scope string_scope.
Open Scope list_scope.
Open Scope Z_scope.

Definition MAX_FRAME : Z := 65536.

Abbreviation bytes := (list Z).

(** ** Connecting *)

Inductive endpoint_kind :=
  | Unix (path : string)
  | Tcp (host : string) (port : Z).

(** The address [connect] dials, or the [ValueError] it raises; an [int]
    failure and a missing colon are [ValueError]s too. *)
Definition parse_endpoint (endpoint : string) : res endpoint_kind :=
  if startswith endpoint "unix:" then Ok (Unix (removeprefix endpoint "unix:"))
  else if startswith endpoint "tcp:" then
    match rpartition_at ":"%char (removeprefix endpoint "tcp:") with
    | None => Err (Exn ValueError "not enough values to unpack (expected 2, got 1)" [])
    | Some (host, port) => p ← int_of_str port; Ok (Tcp host p)
    end
  else Err (Exn ValueError "unsupported endpoint {endpoint!r}; use unix:PATH or tcp:HOST:PORT"
              [PS endpoint]).

(** The retry loop: [dial i] is what the [i]th attempt returns, [clock i] the
    monotonic time after it fails. *)
Fixpoint connect_loop {S} (fuel i : nat) (dial : nat → endpoint_kind → option S) (clock : nat → Z)
    (endpoint : string) (deadline : Z) : option (res S) :=
  match fuel with
  | O => None
  | Datatypes.S f =>
      match parse_endpoint endpoint with
      | Err e => Some (Err e)
      | Ok k =>
          match dial i k with
          | Some sock => Some (Ok sock)
          | None =>
              if deadline <=? clock i
              then Some (Err (Exn TimeoutError "timed out connecting to {endpoint}" [PS endpoint]))
              else connect_loop f (Datatypes.S i) dial clock endpoint deadline
          end
      end
  end.

(** ** Reading *)

(** [sock.recv(n)] for [0 < n]: at most [n] bytes, none when the peer closed. *)
Definition recv (n : nat) (s : list bytes) : bytes * list bytes :=
  match s with
  | [] => ([], [])
  | c :: s' => if (length c <=? n)%nat then (c, s') else (take n c, drop n c :: s')
  end.

(** [recv_exact]; every turn but the last reads a byte, so [size] turns and one
    for the test are fuel enough ([recv_exact_fuel]). *)
Fixpoint recv_exact_go (fuel : nat) (data : bytes) (size : nat) (s : list bytes)
    : res (bytes * list bytes) :=
  if (size <=? length data)%nat then Ok (data, s)
  else match fuel with
       | O => Err (Exn RuntimeError "out of fuel" [])
       | S f =>
           let '(chunk, s') := recv (size - length data) s in
           raise Exn EOFError "peer closed" [] when bool_decide (chunk = []) ;;
           recv_exact_go f (data ++ chunk) size s'
       end.

Definition recv_exact (s : list bytes) (size : nat) : res (bytes * list bytes) :=
  recv_exact_go size [] size s.

(** [struct.unpack("!I", header)]. *)
Definition be32 (h : bytes) : Z := foldl (λ acc b, acc * 256 + b) 0 h.

(** ** Forwarding *)

Definition multicast (mac : bytes) : bool := negb (Z.land (default 0 (head mac)) 1 =? 0).

Definition dst_mac (frame : bytes) : bytes := take 6 frame.
Definition src_mac (frame : bytes) : bytes := take 6 (drop 6 frame).

Abbreviation mac_table := (gmap (list Z) nat).

(** The table under [table_lock]: learn the source address. *)
Definition learn (table : mac_table) (frame : bytes) (source : nat) : mac_table :=
  if multicast (src_mac frame) then table else <[src_mac frame := source]> table.

(** The destination ports for the looked-up [destination_index]. *)
Definition destinations (n source : nat) (frame : bytes) (destination_index : option nat) : list nat :=
  match destination_index with
  | Some d =>
      if multicast (dst_mac frame)
      then List.filter (λ i, negb (Nat.eqb i source)) (seq 0 n)
      else if Nat.eqb d source then [] else [d]
  | None => List.filter (λ i, negb (Nat.eqb i source)) (seq 0 n)
  end.

(** One frame read from [source]: header and frame, or the exception that ends
    the thread. *)
Definition receive_frame (s : list bytes) : res (bytes * bytes * list bytes) :=
  hs ← recv_exact s 4;
  let length := be32 hs.1 in
  raise Exn ValueError "invalid Ethernet frame length {length}" [PZ length]
    when (length <? 14) || (MAX_FRAME <? length) ;;
  fs ← recv_exact hs.2 (Z.to_nat length);
  Ok (hs.1, fs.1, fs.2).

(** ** The threads *)

Inductive thread :=
  | Top                                           (** before [while not stopped.is_set()] *)
  | Reading                                       (** past the test, in [recv_exact] *)
  | Sending (packet : bytes) (dests : list nat)   (** in the [for index in destinations] loop *)
  | Finished.                                     (** after [finally] *)

(** A frame read from a port, with the destinations chosen for it. *)
Record arrival := Arrival {
  a_port : nat;
  a_header : bytes;
  a_frame : bytes;
  a_dests : list nat
}.
Definition a_packet (a : arrival) : bytes := a_header a ++ a_frame a.

Record relay := Relay {
  r_threads : list thread;
  r_in : list (list bytes);
  r_table : mac_table;
  r_stopped : bool;
  (** The [sendall] calls completed so far, oldest first: the thread, the port
      written to and the packet. *)
  r_sent : list (nat * nat * bytes);
  (** The frames read so far, oldest first. *)
  r_received : list arrival
}.

(** Thread [i] in state [t]. *)
Definition set_thread (i : nat) (t : thread) (r : relay) : relay :=
  {| r_threads := <[i := t]> (r_threads r);
     r_in := r_in r;
     r_table := r_table r;
     r_stopped := r_stopped r;
     r_sent := r_sent r;
     r_received := r_received r |}.

(** The [finally] clause: every thread is told to stop. *)
Definition finish (i : nat) (r : relay) : relay :=
  {| r_threads := <[i := Finished]> (r_threads r);
     r_in := r_in r;
     r_table := r_table r;
     r_stopped := true;
     r_sent := r_sent r;
     r_received := r_received r |}.

(** A frame read and looked up: the packet waits for its destinations. *)
Definition received (i : nat) (header frame : bytes) (rest : list bytes) (r : relay) : relay :=
  let table := learn (r_table r) frame i in
  let dests := destinations (length (r_threads r)) i frame (table !! dst_mac frame) in
  {| r_threads := <[i := Sending (header ++ frame) dests]> (r_threads r);
     r_in := <[i := rest]> (r_in r);
     r_table := table;
     r_stopped := r_stopped r;
     r_sent := r_sent r;
     r_received := r_received r ++ [Arrival i header frame dests] |}.

(** [sockets[index].sendall(packet)] of thread [i]. *)
Definition send (i index : nat) (packet : bytes) (dests : list nat) (r : relay) : relay :=
  {| r_threads := <[i := Sending packet dests]> (r_threads r);
     r_in := r_in r;
     r_table := r_table r;
     r_stopped := r_stopped r;
     r_sent := r_sent r ++ [(i, index, packet)];
     r_received := r_received r |}.

(** A thread past the test may still read a frame after another one has shut
    the sockets down, or see the shutdown as an end of stream. *)
Inductive step : relay → relay → Prop :=
  | step_test r i :
      r_threads r !! i = Some Top → r_stopped r = false →
      step r (set_thread i Reading r)
  | step_stopped r i :
      r_threads r !! i = Some Top → r_stopped r = true →
      step r (finish i r)
  | step_receive r i s header frame rest :
      r_threads r !! i = Some Reading → r_in r !! i = Some s →
      receive_frame s = Ok (header, frame, rest) →
      step r (received i header frame rest r)
  | step_receive_error r i s e :
      r_threads r !! i = Some Reading → r_in r !! i = Some s →
      receive_frame s = Err e →
      step r (finish i r)
  | step_shutdown r i :
      r_threads r !! i = Some Reading → r_stopped r = true →
      step r (finish i r)
  | step_send r i packet index dests :
      r_threads r !! i = Some (Sending packet (index :: dests)) →
      step r (send i index packet dests r)
  | step_send_error r i packet index dests :
      (** [sendall] raised [OSError] *)
      r_threads r !! i = Some (Sending packet (index :: dests)) →
      step r (finish i r)
  | step_sent r i packet :
      r_threads r !! i = Some (Sending packet []) →
      step r (set_thread i Top r).

(** [main] once every endpoint is connected. *)
Definition start (inputs : list (list bytes)) : relay :=
  {| r_threads := (λ _, Top) <$> inputs;
     r_in := inputs;
     r_table := ∅;
     r_stopped := false;
     r_sent := [];
     r_received := [] |}.

Definition reachable (inputs : list (list bytes)) (r : relay) : Prop := rtc step (start inputs) r.

(** ** [recv_exact] does not depend on how the stream is chunked *)

Lemma recv_spec n s :
  (0 < n)%nat → Forall (λ c, c ≠ []) s →
  (recv n s).1 ++ concat (recv n s).2 = concat s ∧ (length (recv n s).1 ≤ n)%nat ∧
  Forall (λ c, c ≠ []) (recv n s).2 ∧ ((recv n s).1 = [] → s = []).
Proof.
  intros Hn Hs. destruct s as [|c s]; cbn; [split_and!; auto; lia|].
  apply Forall_cons in Hs as [Hc Hs]. destruct (length c <=? n)%nat eqn:Hl; bool_inv; cbn.
  - split_and!; [done|lia|done|done].
  - split_and!.
    + by rewrite app_assoc, take_drop.
    + rewrite length_take. lia.
    + constructor; [|done]. intros Hd. apply (f_equal length) in Hd.
      rewrite length_drop in Hd. cbn in Hd. lia.
    + intros Ht. apply (f_equal length) in Ht. rewrite length_take in Ht. cbn in Ht. lia.
Qed.

Lemma recv_exact_go_spec fuel data size s :
  (size ≤ length data + fuel)%nat → Forall (λ c, c ≠ []) s → (length data ≤ size)%nat →
  match recv_exact_go fuel data size s with
  | Ok (d, s') => d ++ concat s' = data ++ concat s ∧ length d = size ∧ Forall (λ c, c ≠ []) s'
  | Err e => exn_cls e = EOFError ∧ (length data + length (concat s) < size)%nat
  end.
Proof.
  revert data s. induction fuel as [|fuel IH]; intros data s Hf Hs Hd; cbn.
  - destruct (size <=? length data)%nat eqn:?; bool_inv; [|lia]. split_and!; [done|lia|done].
  - destruct (size <=? length data)%nat eqn:?; bool_inv; [split_and!; [done|lia|done]|].
    destruct (recv_spec (size - length data) s) as (Hr & Hl & Hn & He); [lia|done|].
    destruct (recv (size - length data) s) as [chunk s']. cbn in *.
    case_bool_decide as Hc.
    + rewrite (He Hc). cbn. split; [done|]. lia.
    + assert (0 < length chunk)%nat by (destruct chunk; [done|cbn; lia]).
      specialize (IH (data ++ chunk) s'). rewrite length_app in IH.
      destruct (recv_exact_go fuel (data ++ chunk) size s') as [[d t]|e];
        (destruct IH as (H1 & H2); [lia|done|lia|]).
      * rewrite <- app_assoc, Hr in H1. destruct H2 as [H2 H3]. by split_and!.
      * apply (f_equal length) in Hr. rewrite length_app in Hr. split; [done|]. lia.
Qed.

(** Reading exactly [size] bytes returns the next [size] bytes of the
    stream however the kernel cut it into chunks, leaves the others, and fails
    only with [EOFError], exactly when the stream is shorter. *)
Theorem recv_exact_spec size s :
  Forall (λ c, c ≠ []) s →
  match recv_exact s size with
  | Ok (d, s') => d = take size (concat s) ∧ concat s' = drop size (concat s) ∧
                  (size ≤ length (concat s))%nat ∧ Forall (λ c, c ≠ []) s'
  | Err e => exn_cls e = EOFError ∧ (length (concat s) < size)%nat
  end.
Proof.
  intros Hs. pose proof (recv_exact_go_spec size [] size s) as H. cbn in H.
  unfold recv_exact. destruct (recv_exact_go size [] size s) as [[d s']|e].
  - destruct H as (H1 & H2 & H3); [lia|done|lia|]. rewrite <- H1.
    rewrite take_app_length', drop_app_length' by done. split_and!; try done.
    rewrite length_app. lia.
  - destruct H as (H1 & H2); [lia|done|lia|]. done.
Qed.

Lemma recv_exact_spec_witness :
  recv_exact [[1; 2; 3]; [4]; [5; 6]] 5 = Ok ([1; 2; 3; 4; 5], [[6]]) ∧
  Forall (λ c, c ≠ []) [[6]].
Proof.
  split; [vm_compute; reflexivity|].
  pose proof (recv_exact_spec 5 [[1; 2; 3]; [4]; [5; 6]]) as H.
  assert (recv_exact [[1; 2; 3]; [4]; [5; 6]] 5 = Ok ([1; 2; 3; 4; 5], [[6]])) as E
    by (vm_compute; reflexivity).
  rewrite E in H. apply H. by repeat constructor.
Defined.

(** ** Forwarding decisions *)

Lemma destinations_not_source n source frame d : source ∉ destinations n source frame d.
Proof.
  assert (source ∉ List.filter (λ i, negb (Nat.eqb i source)) (seq 0 n)) as Hf.
  { intros [_ Hf]%list_elem_of_In%filter_In. by rewrite Nat.eqb_refl in Hf. }
  unfold destinations. destruct d as [d|]; [|done].
  destruct (multicast _); [done|]. destruct (Nat.eqb d source) eqn:?; bool_inv; set_solver.
Qed.

Lemma flood_spec n source i :
  i ∈ List.filter (λ i, negb (Nat.eqb i source)) (seq 0 n) ↔ (i < n)%nat ∧ i ≠ source.
Proof.
  rewrite list_elem_of_In, filter_In, in_seq, negb_true_iff, Nat.eqb_neq. naive_solver lia.
Qed.

Lemma destinations_spec n source frame (d : option nat) i :
  (∀ j, d = Some j → (j < n)%nat) →
  i ∈ destinations n source frame d ↔
  (i < n)%nat ∧ i ≠ source ∧
  (multicast (dst_mac frame) = true ∨ d = None ∨ d = Some i).
Proof.
  intros Hd. unfold destinations. destruct d as [d|].
  - pose proof (Hd d eq_refl). destruct (multicast _) eqn:?; [rewrite flood_spec; naive_solver|].
    destruct (Nat.eqb d source) eqn:?; bool_inv; subst.
    + split; [by intros ?%elem_of_nil|naive_solver].
    + rewrite list_elem_of_singleton. naive_solver.
  - rewrite flood_spec. naive_solver.
Qed.

Lemma destinations_NoDup n source frame d : NoDup (destinations n source frame d).
Proof.
  assert (NoDup (List.filter (λ i, negb (Nat.eqb i source)) (seq 0 n))) as Hf.
  { apply NoDup_ListNoDup, List.NoDup_filter, seq_NoDup. }
  unfold destinations. destruct d; [|done]. destruct (multicast _); [done|].
  destruct (Nat.eqb _ _); [constructor|apply NoDup_singleton].
Qed.

(** ** Invariants of the interleaved threads *)

Lemma reachable_ind (P : relay → Prop) inputs :
  P (start inputs) → (∀ r r', P r → step r r' → P r') → ∀ r, reachable inputs r → P r.
Proof. intros H0 Hs r Hr. eapply (rtc_ind_r P); [exact H0| |exact Hr]. eauto. Qed.

Definition well_formed (a : arrival) : Prop :=
  length (a_header a) = 4%nat ∧ be32 (a_header a) = len (a_frame a) ∧
  14 <= len (a_frame a) <= MAX_FRAME.

Lemma receive_frame_Ok s h f rest :
  Forall (λ c, c ≠ []) s → receive_frame s = Ok (h, f, rest) →
  (h ++ f) ++ concat rest = concat s ∧ Forall (λ c, c ≠ []) rest ∧
  length h = 4%nat ∧ be32 h = len f ∧ 14 <= len f <= MAX_FRAME.
Proof.
  unfold receive_frame. intros Hs H.
  apply bind_Ok in H as ([h' s1] & E1 & H). cbn [fst snd] in H.
  destruct (_ || _) eqn:Hb; [done|]. bool_inv.
  apply bind_Ok in H as ([f' s2] & E2 & H). cbn in H. simplify_eq.
  pose proof (recv_exact_spec 4 s Hs) as S1. rewrite E1 in S1.
  destruct S1 as (-> & Hc1 & Hl1 & Hs1).
  pose proof (recv_exact_spec (Z.to_nat (be32 (take 4 (concat s)))) s1 Hs1) as S2.
  rewrite E2 in S2. destruct S2 as (-> & Hc2 & Hl2 & Hs2).
  assert (length (take (Z.to_nat (be32 (take 4 (concat s)))) (concat s1))
          = Z.to_nat (be32 (take 4 (concat s)))) as Hlen by (rewrite length_take; lia).
  unfold len. rewrite Hlen, length_take. split_and!; try lia; [|done].
  by rewrite Hc2, <- app_assoc, take_drop, Hc1, take_drop.
Qed.

(** The bytes read from port [i], in order. *)
Definition read_from (i : nat) (l : list arrival) : bytes :=
  concat (omap (λ a, if decide (a_port a = i) then Some (a_packet a) else None) l).

#[local] Arguments read_from : simpl never.

Lemma read_from_app i l a :
  read_from i (l ++ [a]) = read_from i l ++ (if decide (a_port a = i) then a_packet a else []).
Proof.
  unfold read_from. rewrite omap_app, concat_app. f_equal. cbn.
  destruct (decide (a_port a = i)); cbn; [by rewrite app_nil_r|done].
Qed.

Record streams (inputs : list (list bytes)) (r : relay) : Prop := {
  st_ports : length (r_threads r) = length inputs ∧ length (r_in r) = length inputs;
  st_split : ∀ i s, r_in r !! i = Some s →
    ∃ s0, inputs !! i = Some s0 ∧ read_from i (r_received r) ++ concat s = concat s0 ∧
          Forall (λ c, c ≠ []) s;
  st_formed : Forall (λ a, well_formed a ∧ (a_port a < length inputs)%nat) (r_received r)
}.

Lemma streams_start inputs :
  Forall (Forall (λ c, c ≠ [])) inputs → streams inputs (start inputs).
Proof.
  intros Hi. split; cbn.
  - by rewrite length_fmap.
  - intros i s Hs. exists s. split_and!; [done|done|]. by eapply Forall_lookup_1 in Hi.
  - constructor.
Qed.

Lemma streams_step inputs r r' : streams inputs r → step r r' → streams inputs r'.
Proof.
  intros [[Ht Hin] Hsplit Hf] Hstep.
  destruct Hstep as [| | r i s h f rest Hti Hs Hr | | | | |];
    try (split; cbn; [by rewrite ?length_insert|done|done]).
  destruct (Hsplit i s Hs) as (s0 & Hs0 & Hcat & Hne).
  destruct (receive_frame_Ok _ _ _ _ Hne Hr) as (Hc & Hrest & Hwf).
  assert (i < length inputs)%nat as Hlt by (by eapply lookup_lt_Some).
  split; cbn.
  - by rewrite !length_insert.
  - intros j s' Hj. rewrite read_from_app. cbn.
    destruct (decide (i = j)) as [<-|Hij].
    + rewrite list_lookup_insert_eq in Hj by (by rewrite Hin). injection Hj as <-.
      exists s0. split_and!; [done| |done].
      unfold a_packet. cbn. by rewrite <- app_assoc, Hc.
    + rewrite list_lookup_insert_ne in Hj by done. rewrite app_nil_r. by apply Hsplit.
  - apply Forall_app. split; [done|]. apply Forall_singleton. by split.
Qed.

(** At every moment of every interleaving, what the relay has read from a
    port is a sequence of well-formed frames that is exactly a prefix of that
    port's stream, and what is left unread is the rest. *)
Theorem relay_reads_frames inputs r i s :
  Forall (Forall (λ c, c ≠ [])) inputs → reachable inputs r → r_in r !! i = Some s →
  Forall well_formed (r_received r) ∧
  ∃ s0, inputs !! i = Some s0 ∧ read_from i (r_received r) ++ concat s = concat s0.
Proof.
  intros Hi Hr Hs.
  pose proof (reachable_ind (streams inputs) inputs (streams_start _ Hi) (streams_step _) r Hr)
    as [_ Hsplit Hf].
  split; [eapply Forall_impl; [done|]; naive_solver|].
  destruct (Hsplit _ _ Hs) as (s0 & ? & ? & _). eauto.
Qed.

(** The port on which a source address was last seen. *)
Definition last_seen (mac : list Z) (l : list arrival) : option nat :=
  a_port <$> last (filter (λ a, src_mac (a_frame a) = mac ∧ multicast mac = false) l).

#[local] Arguments last_seen : simpl never.

Lemma last_seen_app mac l a :
  last_seen mac (l ++ [a]) =
  if decide (src_mac (a_frame a) = mac ∧ multicast mac = false) then Some (a_port a)
  else last_seen mac l.
Proof.
  unfold last_seen. rewrite filter_app, filter_cons, filter_nil.
  case_decide; [by rewrite last_snoc|by rewrite app_nil_r].
Qed.

Lemma learn_lookup t frame source mac :
  learn t frame source !! mac =
  if decide (src_mac frame = mac ∧ multicast mac = false) then Some source else t !! mac.
Proof.
  unfold learn. destruct (multicast (src_mac frame)) eqn:Hm.
  - case_decide as Hd; [|done]. destruct Hd. congruence.
  - case_decide as Hd; [destruct Hd as [<- _]; apply lookup_insert_eq|].
    rewrite lookup_insert_ne; [done|]. intros <-. by destruct Hd.
Qed.

(** The destinations each frame was given are those of the table at the time. *)
Fixpoint routed (n : nat) (seen l : list arrival) : Prop :=
  match l with
  | [] => True
  | a :: l' =>
      a_dests a = destinations n (a_port a) (a_frame a)
                    (last_seen (dst_mac (a_frame a)) (seen ++ [a])) ∧
      routed n (seen ++ [a]) l'
  end.

Lemma routed_app n seen l a :
  routed n seen (l ++ [a]) ↔
  routed n seen l ∧
  a_dests a = destinations n (a_port a) (a_frame a)
                (last_seen (dst_mac (a_frame a)) (seen ++ l ++ [a])).
Proof.
  revert seen. induction l as [|b l IH]; intros seen; cbn.
  - naive_solver.
  - rewrite IH, <- !app_assoc. cbn. naive_solver.
Qed.

Definition table_inv (n : nat) (r : relay) : Prop :=
  length (r_threads r) = n ∧
  (∀ mac, r_table r !! mac = last_seen mac (r_received r)) ∧
  routed n [] (r_received r).

Lemma table_step n r r' : table_inv n r → step r r' → table_inv n r'.
Proof.
  intros (Hn & Ht & Hro) Hstep.
  destruct Hstep; try (split_and!; cbn; [by rewrite length_insert|done|done]).
  split_and!; cbn.
  - by rewrite length_insert.
  - intros mac. by rewrite learn_lookup, last_seen_app, Ht.
  - apply routed_app. split; [done|]. cbn. rewrite Hn. f_equal.
    by rewrite learn_lookup, last_seen_app, Ht.
Qed.

(** The shared table always maps a unicast address to the port on which a
    frame from it was read last, and every frame was routed by that table:
    never back to its own port, to the one known port of its destination, or to
    all other ports. *)
Theorem relay_learns inputs r :
  reachable inputs r →
  (∀ mac, r_table r !! mac = last_seen mac (r_received r)) ∧
  routed (length inputs) [] (r_received r).
Proof.
  intros Hr.
  assert (table_inv (length inputs) r) as (_ & ? & ?); [|done].
  eapply (reachable_ind (table_inv (length inputs))); [|by intros; eapply table_step|done].
  split_and!; cbn; [by rewrite length_fmap| |done]. done.
Qed.

(** ** Delivery: exactly once, in order, per source and destination *)

(** The packets thread [i] owes port [k], and those it has written to it. *)
Definition due (i k : nat) (l : list arrival) : list bytes :=
  omap (λ a, if decide (a_port a = i ∧ k ∈ a_dests a) then Some (a_packet a) else None) l.
Definition sent_to (i k : nat) (l : list (nat * nat * bytes)) : list bytes :=
  omap (λ x, if decide (x.1.1 = i ∧ x.1.2 = k) then Some x.2 else None) l.
#[local] Arguments due : simpl never.
#[local] Arguments sent_to : simpl never.

Definition pending (k : nat) (t : thread) : list bytes :=
  match t with
  | Sending p dests => if decide (k ∈ dests) then [p] else []
  | _ => []
  end.

Definition thread_ok (r : relay) (i : nat) (t : thread) : Prop :=
  (∀ k, sent_to i k (r_sent r) `prefix_of` due i k (r_received r)) ∧
  (t ≠ Finished → ∀ k, sent_to i k (r_sent r) ++ pending k t = due i k (r_received r)) ∧
  match t with Sending _ dests => NoDup dests | _ => True end.

Definition delivery (r : relay) : Prop := ∀ i t, r_threads r !! i = Some t → thread_ok r i t.

(** A step of thread [i] that only changes its own state. *)
Lemma delivery_local r r' i t' :
  delivery r → r_threads r' = <[i := t']> (r_threads r) →
  (∀ j k, j ≠ i → sent_to j k (r_sent r') = sent_to j k (r_sent r) ∧
                  due j k (r_received r') = due j k (r_received r)) →
  thread_ok r' i t' → delivery r'.
Proof.
  intros Hd Hthr Hother Hi j t Hj. rewrite Hthr in Hj.
  apply list_lookup_insert_Some in Hj as [(<- & <- & _)|[Hne Hj]]; [done|].
  destruct (Hd j t Hj) as (H1 & H2 & H3). split_and!; [| |done].
  - intros k. destruct (Hother j k) as [-> ->]; [done|]. apply H1.
  - intros Hf k. destruct (Hother j k) as [-> ->]; [done|]. by apply H2.
Qed.

Lemma thread_quiet r r' i t t' :
  r_sent r' = r_sent r → r_received r' = r_received r → thread_ok r i t →
  t' = Finished ∨ (t ≠ Finished ∧ (∀ k, pending k t = []) ∧ (∀ k, pending k t' = []) ∧
                   match t' with Sending _ _ => False | _ => True end) →
  thread_ok r' i t'.
Proof.
  intros Hs Hr (H1 & H2 & H3) Ht. unfold thread_ok. rewrite Hs, Hr. split; [done|].
  destruct Ht as [->|(Hf & Hp & Hp' & Hm)]; [done|]. split.
  - intros _ k. rewrite Hp', <- (H2 Hf k), Hp. done.
  - by destruct t'.
Qed.

Lemma delivery_step r r' : delivery r → step r r' → delivery r'.
Proof.
  intros Hd Hstep.
  destruct Hstep as [r i Hi|r i Hi|r i s h f rest Hi Hs Hr|r i s e Hi|r i Hi|r i p k0 dests Hi
                    |r i p k0 dests Hi|r i p Hi];
    pose proof (Hd i _ Hi) as Hok;
    try (eapply (delivery_local _ _ i _ Hd); [cbn; reflexivity|by cbn|];
         eapply thread_quiet; [reflexivity|reflexivity|exact Hok|];
         first [by left | right; split_and!; [done|by cbn|by cbn|done]]).
  - destruct Hok as (H1 & H2 & _).
    eapply (delivery_local _ _ i _ Hd); [cbn; reflexivity| |].
    + intros j k Hj. cbn. split; [done|]. unfold due. rewrite omap_app. cbn.
      rewrite decide_False by naive_solver. by rewrite app_nil_r.
    + set (d := destinations (length (r_threads r)) i f (learn (r_table r) f i !! dst_mac f)).
      assert (∀ k, sent_to i k (r_sent r) ++ pending k (Sending (h ++ f) d)
                   = due i k (r_received r ++ [Arrival i h f d])) as Heq.
      { intros k. unfold due. rewrite omap_app. fold (due i k (r_received r)).
        rewrite <- (H2 ltac:(done) k). cbn. rewrite app_nil_r. f_equal.
        destruct (decide (k ∈ d)); [by rewrite decide_True by done|].
        by rewrite decide_False by naive_solver. }
      split_and!; cbn; [|done|apply destinations_NoDup].
      intros k. eexists. symmetry. apply Heq.
  - destruct Hok as (H1 & H2 & Hnd). apply NoDup_cons in Hnd as [Hni Hnd].
    eapply (delivery_local _ _ i _ Hd); [cbn; reflexivity| |].
    + intros j k Hj. cbn. split; [|done]. unfold sent_to. rewrite omap_app. cbn.
      rewrite decide_False by naive_solver. by rewrite app_nil_r.
    + assert (∀ k, sent_to i k (r_sent r ++ [(i, k0, p)]) ++ pending k (Sending p dests)
                   = due i k (r_received r)) as Heq.
      { intros k. rewrite <- (H2 ltac:(done) k). unfold sent_to. rewrite omap_app, <- app_assoc.
        f_equal. cbn. destruct (decide (k0 = k)) as [->|Hk].
        - rewrite (decide_True (P := i = i ∧ k = k)) by done. cbn.
          rewrite decide_False by done. by rewrite decide_True by (by left).
        - rewrite (decide_False (P := i = i ∧ k0 = k)) by naive_solver. cbn.
          destruct (decide (k ∈ dests)); [by rewrite decide_True by (by right)|].
          by rewrite decide_False by set_solver. }
      split_and!; cbn; [|done|done]. intros k. eexists. symmetry. apply Heq.
Qed.

(** C16: under every interleaving, the packets a port's thread writes to another
    port are, in order and without repetition, those it read that were routed
    there; once the thread is back at the top of its loop none is missing. *)
Theorem relay_delivers inputs r i t k :
  reachable inputs r → r_threads r !! i = Some t →
  sent_to i k (r_sent r) `prefix_of` due i k (r_received r) ∧
  (t = Top ∨ t = Reading → sent_to i k (r_sent r) = due i k (r_received r)).
Proof.
  intros Hr Hi. assert (delivery r) as Hd.
  { eapply (reachable_ind delivery); [|by intros; eapply delivery_step|done].
    intros j u Hj. cbn in Hj. rewrite list_lookup_fmap in Hj.
    destruct (inputs !! j); [|done]. injection Hj as <-.
    split_and!; [|done|done]. intros ?. done. }
  destruct (Hd i t Hi) as (H1 & H2 & _). split; [done|].
  intros [-> | ->]; rewrite <- (H2 ltac:(done)); by rewrite app_nil_r.
Qed.

(** ** Connecting ends *)

Lemma connect_attempts {S} n i (dial : nat → endpoint_kind → option S) clock endpoint deadline k :
  parse_endpoint endpoint = Ok k →
  (∀ j, (i ≤ j < i + n)%nat → dial j k = None ∧ clock j < deadline) →
  ∀ m, connect_loop (n + m) i dial clock endpoint deadline
       = connect_loop m (i + n) dial clock endpoint deadline.
Proof.
  intros Hk. revert i. induction n as [|n IH]; intros i Hj m; cbn; [by rewrite Nat.add_0_r|].
  rewrite Hk. destruct (Hj i) as [-> Hc]; [lia|].
  replace (deadline <=? clock i) with false by (symmetry; apply Z.leb_gt; lia).
  rewrite IH; [f_equal; lia|]. intros j Hr. apply Hj. lia.
Qed.

(** [connect] returns at the first attempt that succeeds or that ends past
    the deadline: with the socket, or with [TimeoutError]; the turns before it
    are fuel enough. *)
Theorem connect_returns {S} n (dial : nat → endpoint_kind → option S) clock endpoint deadline k :
  parse_endpoint endpoint = Ok k →
  (∀ j, (j < n)%nat → dial j k = None ∧ clock j < deadline) →
  (is_Some (dial n k) ∨ deadline <= clock n) →
  connect_loop (n + 1) 0 dial clock endpoint deadline =
  Some (or_raise (dial n k) (Exn TimeoutError "timed out connecting to {endpoint}" [PS endpoint])).
Proof.
  intros Hk Hj Hn. rewrite (connect_attempts n 0 dial clock endpoint deadline k Hk).
  2: { intros j Hr. apply Hj. lia. }
  cbn. rewrite Hk. destruct (dial n k); cbn; [done|].
  destruct Hn as [[? ?]|Hn]; [done|]. by apply Z.leb_le in Hn as ->.
Qed.

(** ** A run: port 0 sends one frame to port 1 *)

Definition sample_header : bytes := [0; 0; 0; 14].
Definition sample_frame : bytes := [2; 0; 0; 0; 0; 1; 2; 0; 0; 0; 0; 0; 8; 6].
Definition sample_inputs : list (list bytes) := [[take 3 sample_header; drop 3 sample_header ++ sample_frame]; []].
Definition sample_end : relay :=
  {| r_threads := [Top; Top];
     r_in := [[]; []];
     r_table := learn ∅ sample_frame 0;
     r_stopped := false;
     r_sent := [(0%nat, 1%nat, sample_header ++ sample_frame)];
     r_received := [Arrival 0 sample_header sample_frame [1%nat]] |}.

Lemma sample_reachable : reachable sample_inputs sample_end.
Proof.
  eapply rtc_l; [by apply (step_test _ 0)|].
  eapply rtc_l.
  { eapply (step_receive _ 0 _ sample_header sample_frame []); [done|done|].
    vm_compute. reflexivity. }
  eapply rtc_l; [by eapply (step_send _ 0)|].
  eapply rtc_l; [by eapply (step_sent _ 0)|].
  replace sample_end with
    (set_thread 0 Top (send 0 1 (sample_header ++ sample_frame) []
       (received 0 sample_header sample_frame [] (set_thread 0 Reading (start sample_inputs))))).
  - apply rtc_refl.
  - reflexivity.
Qed.

Lemma sample_chunks : Forall (Forall (λ c : bytes, c ≠ [])) sample_inputs.
Proof. by repeat constructor. Qed.

Lemma relay_reads_frames_witness :
  read_from 0 (r_received sample_end) ++ [] = concat (take 1 sample_inputs ≫= id) ∧
  Forall well_formed (r_received sample_end).
Proof.
  destruct (relay_reads_frames sample_inputs sample_end 0 [] sample_chunks sample_reachable eq_refl)
    as (Hf & s0 & Hs0 & Heq).
  split; [|exact Hf]. injection Hs0 as <-. exact Heq.
Defined.

Lemma relay_learns_witness :
  r_table sample_end !! [2; 0; 0; 0; 0; 0] = Some 0%nat ∧
  routed 2 [] (r_received sample_end).
Proof.
  destruct (relay_learns sample_inputs sample_end sample_reachable) as (Ht & Hr).
  split; [|exact Hr]. rewrite Ht. vm_compute. reflexivity.
Defined.

Lemma relay_delivers_witness :
  sent_to 0 1 (r_sent sample_end) = [sample_header ++ sample_frame] ∧
  sent_to 0 1 (r_sent sample_end) = due 0 1 (r_received sample_end).
Proof.
  split; [vm_compute; reflexivity|].
  apply (relay_delivers sample_inputs sample_end 0 Top 1 sample_reachable eq_refl). by left.
Defined.

Lemma connect_returns_witness :
  connect_loop 3 0 (λ i k, if (i =? 2)%nat then Some 7 else None) (λ i, Z.of_nat i)
    "tcp:127.0.0.1:4560" 10 = Some (Ok 7).
Proof.
  apply (connect_returns 2 (λ i k, if (i =? 2)%nat then Some 7 else None) _ _ _
           (Tcp "127.0.0.1" 4560)).
  - vm_compute. reflexivity.
  - intros j Hj. destruct j as [|[|?]]; cbn; [done|done|lia].
  - left. by eexists.
Defined.
