(* ===== verification/WebSocket.v ===== *)
(** * WebSocket framing of the workbench terminal ([ubsim_lab/web.py])

    [_ws_frame] and [_ws_parse], and the loop of [_terminal_socket] that pumps
    bytes between the browser and a guest's console, one element of input per
    [select] wake-up. *)

From Stdlib Require Import ZArith Lia Ascii.
From stdpp Require Import base strings gmap fin_maps numbers option list sorting.
From S2P Require Import Prelude PyStr.

Open Scope string_scope.
Open Scope list_scope.
Open Scope N_scope.

Abbreviation bytes := (list N).

Definition blen (b : bytes) : N := N.of_nat (length b).

(** ** Frames *)

(** [int.from_bytes(b, "big")]. *)
Definition from_big (b : bytes) : N := foldl (λ acc x, acc * 256 + x) 0 b.

(** [length.to_bytes(2, "big")]. *)
Definition to_big2 (n : N) : res bytes :=
  raise Exn OverflowError "int too big to convert" [] when 65536 <=? n ;;
  Ok [n / 256; n mod 256].

Definition ws_frame (data : bytes) : res bytes :=
  let length := blen data in
  if length <? 126 then Ok ([0x82; length] ++ data)
  else b ← to_big2 length; Ok ([0x82; 126] ++ b ++ data).

(** [bytes(byte ^ mask[i % 4] for i, byte in enumerate(data))], from index [i]. *)
Fixpoint unmask (mask : bytes) (i : nat) (data : bytes) : bytes :=
  match data with
  | [] => []
  | x :: data' => N.lxor x (nth (i mod 4) mask 0) :: unmask mask (S i) data'
  end.

(** The extended length and the offset of the mask; [None] when the buffer does
    not hold them yet. *)
Definition ws_length (second : N) (buffer : bytes) : option (N * nat) :=
  let length := N.land second 0x7f in
  if length =? 126 then
    if blen buffer <? 4 then None else Some (from_big (take 2 (drop 2 buffer)), 4%nat)
  else if length =? 127 then
    if blen buffer <? 10 then None else Some (from_big (take 8 (drop 2 buffer)), 10%nat)
  else Some (length, 2%nat).

(** One turn of the loop: [Ok None] is its [break] or its end, and a frame comes
    with the bytes after it. *)
Definition ws_parse_one (buffer : bytes) : res (option (N * bytes * bytes)) :=
  match buffer with
  | first :: second :: _ =>
      let masked := negb (N.land second 0x80 =? 0) in
      match ws_length second buffer with
      | None => Ok None
      | Some (length, offset) =>
          raise Exn ValueError "invalid terminal message" []
            when negb masked || (8192 <? length) ;;
          let n := N.to_nat length in
          if blen buffer <? N.of_nat offset + 4 + length then Ok None
          else
            let mask := take 4 (drop offset buffer) in
            let payload := unmask mask 0 (take n (drop (offset + 4) buffer)) in
            Ok (Some (N.land first 0x0f, payload, drop (offset + 4 + n) buffer))
      end
  | _ => Ok None
  end.

(** The frames and what stays in the buffer; a frame takes six bytes at least,
    so the length of the buffer is fuel enough. *)
Fixpoint ws_parse_go (fuel : nat) (buffer : bytes) : res (list (N * bytes) * bytes) :=
  match fuel with
  | O => Ok ([], buffer)
  | S f =>
      one ← ws_parse_one buffer;
      match one with
      | None => Ok ([], buffer)
      | Some (opcode, payload, rest) =>
          r ← ws_parse_go f rest;
          Ok ((opcode, payload) :: r.1, r.2)
      end
  end.

Definition ws_parse (buffer : bytes) : res (list (N * bytes) * bytes) :=
  ws_parse_go (S (length buffer)) buffer.

(** ** The pump *)

(** What one [select] found readable, with the bytes received. *)
Record wake := Wake { w_guest : option bytes; w_client : option bytes }.

Inductive ended :=
  | Disconnected          (** a [break]: either side closed, or too much is pending *)
  | ClosedByClient        (** an opcode 8 frame *)
  | Raised (e : exn).

Record pump := Pump {
  u_pending : bytes;
  u_to_client : list bytes;   (** [connection.sendall], oldest first *)
  u_to_guest : list bytes     (** [guest.sendall], oldest first *)
}.

(** [for opcode, payload in frames]: the payloads for the guest, and whether an
    opcode 8 ended the session. *)
Fixpoint forward (frames : list (N * bytes)) : list bytes * bool :=
  match frames with
  | [] => ([], false)
  | (opcode, payload) :: frames' =>
      if opcode =? 8 then ([], true)
      else let '(out, closed) := forward frames' in
           (if (opcode =? 1) || (opcode =? 2) then payload :: out else out, closed)
  end.

Definition pump_guest (u : pump) (data : bytes) : pump + (pump * ended) :=
  match data with
  | [] => inr (u, Disconnected)
  | _ => match ws_frame data with
         | Err e => inr (u, Raised e)
         | Ok f => inl (Pump (u_pending u) (u_to_client u ++ [f]) (u_to_guest u))
         end
  end.

Definition pump_client (u : pump) (data : bytes) : pump + (pump * ended) :=
  match data with
  | [] => inr (u, Disconnected)
  | _ =>
      let pending := u_pending u ++ data in
      if 16384 <? blen pending then inr (Pump pending (u_to_client u) (u_to_guest u), Disconnected)
      else match ws_parse pending with
           | Err e => inr (u, Raised e)
           | Ok (frames, rest) =>
               let '(out, closed) := forward frames in
               let u' := Pump rest (u_to_client u) (u_to_guest u ++ out) in
               if closed then inr (u', ClosedByClient) else inl u'
           end
  end.

Definition pump_wake (u : pump) (w : wake) : pump + (pump * ended) :=
  let r := match w_guest w with None => inl u | Some d => pump_guest u d end in
  match r with
  | inr e => inr e
  | inl u' => match w_client w with None => inl u' | Some d => pump_client u' d end
  end.

(** The session over a finite sequence of wake-ups; [inl] is still open. *)
Fixpoint pump_run (u : pump) (l : list wake) : pump + (pump * ended) :=
  match l with
  | [] => inl u
  | w :: l' => match pump_wake u w with inr e => inr e | inl u' => pump_run u' l' end
  end.

Definition pump_start : pump := Pump [] [] [].

(** ** The parser consumes whole frames *)

Lemma ws_length_offset second buffer n o : ws_length second buffer = Some (n, o) → (2 <= o <= 10)%nat.
Proof. unfold ws_length. intros H. repeat (case_match; simplify_eq; try lia). Qed.

Lemma ws_parse_one_rest b op p r :
  ws_parse_one b = Ok (Some (op, p, r)) →
  ∃ k, r = drop k b ∧ (6 ≤ k)%nat ∧ (6 ≤ length b)%nat.
Proof.
  unfold ws_parse_one. intros H. destruct b as [|x [|y b]]; [done..|].
  destruct (ws_length y _) as [[n o]|] eqn:Hl; [|done]. apply ws_length_offset in Hl.
  destruct (_ || _); [done|]. cbv zeta in H.
  destruct (blen _ <? _) eqn:Hlen; [done|]. injection H as <- <- <-. bool_inv.
  eexists. split; [reflexivity|]. unfold blen in Hlen. split; lia.
Qed.

(** More bytes do not change a parsed frame or a rejected header. *)
Lemma ws_length_app second b c n o :
  ws_length second b = Some (n, o) → ws_length second (b ++ c) = Some (n, o).
Proof.
  unfold ws_length, blen. rewrite length_app.
  destruct (_ =? 126); [|destruct (_ =? 127); [|done]].
  - destruct (_ <? 4) eqn:?; [done|]. bool_inv. intros [= <- <-].
    replace (_ <? 4) with false by (symmetry; apply N.ltb_ge; lia).
    rewrite drop_app_le, take_app_le by (rewrite ?length_drop; lia). done.
  - destruct (_ <? 10) eqn:?; [done|]. bool_inv. intros [= <- <-].
    replace (_ <? 10) with false by (symmetry; apply N.ltb_ge; lia).
    rewrite drop_app_le, take_app_le by (rewrite ?length_drop; lia). done.
Qed.

Lemma ws_parse_one_app_Some b c op p r :
  ws_parse_one b = Ok (Some (op, p, r)) → ws_parse_one (b ++ c) = Ok (Some (op, p, r ++ c)).
Proof.
  unfold ws_parse_one. intros H. destruct b as [|x [|y b]]; [done..|]. cbn [app].
  destruct (ws_length y _) as [[n o]|] eqn:Hl; [|done].
  pose proof (ws_length_offset _ _ _ _ Hl) as Ho.
  apply (ws_length_app _ _ c) in Hl. cbn [app] in Hl. rewrite Hl.
  destruct (_ || _) eqn:Hm; [done|]. cbv zeta in H |- *.
  destruct (blen (x :: y :: b) <? _) eqn:Hlen; [done|]. bool_inv.
  injection H as <- <- <-. unfold blen in *.
  change (x :: y :: b ++ c) with ((x :: y :: b) ++ c). set (buf := x :: y :: b) in *.
  rewrite length_app.
  replace (_ <? _) with false by (symmetry; apply N.ltb_ge; lia).
  rewrite !drop_app_le by lia. rewrite !take_app_le by (rewrite length_drop; lia). done.
Qed.

Lemma ws_parse_one_app_Err b c e : ws_parse_one b = Err e → ws_parse_one (b ++ c) = Err e.
Proof.
  unfold ws_parse_one. intros H. destruct b as [|x [|y b]]; [done..|]. cbn [app].
  destruct (ws_length y _) as [[n o]|] eqn:Hl; [|done].
  apply (ws_length_app _ _ c) in Hl. cbn [app] in Hl. rewrite Hl.
  destruct (_ || _) eqn:Hm; [done|]. cbv zeta in H.
  by destruct (blen (x :: y :: b) <? _).
Qed.

(** Fuel beyond the length of the buffer changes nothing. *)
Lemma ws_parse_go_fuel f1 f2 b :
  (length b < f1)%nat → (length b < f2)%nat → ws_parse_go f1 b = ws_parse_go f2 b.
Proof.
  revert f2 b. induction f1 as [|f1 IH]; intros [|f2] b H1 H2; try lia. cbn.
  destruct (ws_parse_one b) as [[[[op p] r]|]|e] eqn:Ho; cbn; [|done..].
  apply ws_parse_one_rest in Ho as (k & -> & Hk & Hb).
  assert (length (drop k b) < length b)%nat by (rewrite length_drop; lia).
  by rewrite (IH f2) by lia.
Qed.

(** The unfolding of [_ws_parse]'s loop. *)
Lemma ws_parse_eq b :
  ws_parse b =
  (one ← ws_parse_one b;
   match one with
   | None => Ok ([], b)
   | Some (op, p, rest) => r ← ws_parse rest; Ok ((op, p) :: r.1, r.2)
   end).
Proof.
  unfold ws_parse at 1. cbn [ws_parse_go].
  destruct (ws_parse_one b) as [[[[op p] r]|]|e] eqn:Ho; cbn; [|done..].
  apply ws_parse_one_rest in Ho as (k & -> & Hk & Hb). unfold ws_parse.
  rewrite (ws_parse_go_fuel (length b) (S (length (drop k b)))) by (rewrite length_drop; lia).
  done.
Qed.

Lemma ws_parse_ind (P : bytes → Prop) :
  (∀ b, (∀ op p r, ws_parse_one b = Ok (Some (op, p, r)) → P r) → P b) → ∀ b, P b.
Proof.
  intros H b.
  remember (length b) as n eqn:Hn. revert b Hn.
  induction (lt_wf n) as [n _ IH']. intros b ->. apply H. intros op p r Hr.
  apply ws_parse_one_rest in Hr as (k & -> & Hk & Hb).
  eapply (IH' (length (drop k b))); [rewrite length_drop; lia|done].
Qed.

#[local] Arguments ws_parse : simpl never.

(** ** The parser does not depend on how the stream is cut *)

(** C37: parsing a longer buffer yields the frames of the shorter one first, then
    those of what it left followed by the new bytes. *)
Theorem ws_parse_stream b c frames rest :
  ws_parse b = Ok (frames, rest) →
  ws_parse (b ++ c) = (r ← ws_parse (rest ++ c); Ok (frames ++ r.1, r.2)).
Proof.
  revert frames. induction b as [b IH] using ws_parse_ind. intros frames.
  rewrite (ws_parse_eq b). destruct (ws_parse_one b) as [[[[op p] r]|]|e] eqn:Ho; cbn.
  - intros H. apply bind_Ok in H as ([fr rest'] & Hr & H). injection H as <- <-. cbn [fst snd] in *.
    rewrite (ws_parse_eq (b ++ c)), (ws_parse_one_app_Some _ c _ _ _ Ho). cbn.
    rewrite (IH _ _ _ eq_refl _ Hr). by destruct (ws_parse (rest' ++ c)).
  - intros [= <- <-]. destruct (ws_parse (b ++ c)) as [[]|]; done.
  - done.
Qed.

Lemma ws_parse_Err_app b c e : ws_parse b = Err e → ws_parse (b ++ c) = Err e.
Proof.
  induction b as [b IH] using ws_parse_ind. rewrite (ws_parse_eq b).
  destruct (ws_parse_one b) as [[[[op p] r]|]|e'] eqn:Ho; cbn.
  - intros [H|(? & ? & ?)]%bind_Err; [|done].
    rewrite (ws_parse_eq (b ++ c)), (ws_parse_one_app_Some _ c _ _ _ Ho). cbn.
    by rewrite (IH _ _ _ eq_refl H).
  - done.
  - intros [= ->]. by rewrite (ws_parse_eq (b ++ c)), (ws_parse_one_app_Err _ c _ Ho).
Qed.

(** What stays behind is less than one frame of the largest accepted size. *)
Lemma ws_parse_rest_bound b frames rest :
  ws_parse b = Ok (frames, rest) → blen rest < 10 + 4 + 8192.
Proof.
  revert frames. induction b as [b IH] using ws_parse_ind. intros frames.
  rewrite (ws_parse_eq b). destruct (ws_parse_one b) as [[[[op p] r]|]|e] eqn:Ho; cbn; [| |done].
  - intros H. apply bind_Ok in H as ([fr rest'] & Hr & H). injection H as <- <-.
    by eapply IH.
  - intros [= <- <-]. unfold ws_parse_one in Ho. unfold blen in *.
    destruct b as [|x [|y b]]; [cbn; lia..|].
    destruct (ws_length y _) as [[n o]|] eqn:Hl.
    + apply ws_length_offset in Hl. destruct (_ || _) eqn:Hm; [done|].
      cbv zeta in Ho. destruct (N.of_nat (length (x :: y :: b)) <? _) eqn:Hlen; [|done].
      bool_inv. lia.
    + unfold ws_length, blen in Hl. destruct (_ =? 126); [|destruct (_ =? 127)]; [| |done].
      * destruct (_ <? 4) eqn:?; [|done]. bool_inv. lia.
      * destruct (_ <? 10) eqn:?; [|done]. bool_inv. lia.
Qed.

(** ** Round trips *)

(** The client's side of RFC 6455: a final masked frame, with the shortest
    length field. *)
Definition client_frame (opcode : N) (mask payload : bytes) : bytes :=
  [N.lor 0x80 opcode] ++
  (if blen payload <? 126 then [N.lor 0x80 (blen payload)]
   else [N.lor 0x80 126; blen payload / 256; blen payload mod 256]) ++
  mask ++ unmask mask 0 payload.

Definition frame_ok (f : N * bytes * bytes) : Prop :=
  f.1.1 < 16 ∧ length f.1.2 = 4%nat ∧ blen f.2 <= 8192.

Lemma unmask_length mask i data : length (unmask mask i data) = length data.
Proof. revert i. induction data; intros i; cbn; [done|]. by rewrite IHdata. Qed.

Lemma unmask_invol mask i data : unmask mask i (unmask mask i data) = data.
Proof.
  revert i. induction data as [|x data IH]; intros i; cbn; [done|].
  by rewrite IH, N.lxor_assoc, N.lxor_nilpotent, N.lxor_0_r.
Qed.

Lemma land_lor_high n : n < 128 → N.land (N.lor 0x80 n) 0x80 = 0x80 ∧ N.land (N.lor 0x80 n) 0x7f = n.
Proof.
  intros Hn. rewrite !N.land_lor_distr_l. cbn.
  assert (n = n mod 2 ^ 7) as Hmod by (symmetry; by apply N.mod_small).
  assert (N.land n 0x7f = n) as H7.
  { change 0x7f with (N.ones 7). rewrite N.land_ones. by symmetry. }
  split; [|done]. rewrite <- H7, <- N.land_assoc. cbn. by rewrite N.land_0_r.
Qed.

Lemma land_opcode n : n < 16 → N.land (N.lor 0x80 n) 0x0f = n.
Proof.
  intros Hn. rewrite N.land_lor_distr_l. change (N.land 0x80 0x0f) with 0. rewrite N.lor_0_l.
  change 0x0f with (N.ones 4). rewrite N.land_ones. by apply N.mod_small.
Qed.

(** The masked part of a frame, taken apart. *)
Lemma body_split mask payload rest :
  length mask = 4%nat →
  (unmask (take 4 (mask ++ unmask mask 0 payload ++ rest)) 0
     (take (N.to_nat (blen payload)) (drop 4 (mask ++ unmask mask 0 payload ++ rest))),
   drop (4 + N.to_nat (blen payload)) (mask ++ unmask mask 0 payload ++ rest))
  = (payload, rest).
Proof.
  intros Hm. assert (length (unmask mask 0 payload) = N.to_nat (blen payload)) as Hl.
  { rewrite unmask_length. unfold blen. lia. }
  rewrite <- drop_drop, take_app_length', (drop_app_length' mask) by done.
  by rewrite take_app_length', drop_app_length', unmask_invol.
Qed.

Lemma ws_parse_one_client opcode mask payload rest :
  opcode < 16 → length mask = 4%nat → blen payload <= 8192 →
  ws_parse_one (client_frame opcode mask payload ++ rest) = Ok (Some (opcode, payload, rest)).
Proof.
  intros Hop Hm Hp. unfold client_frame, ws_parse_one.
  destruct (blen payload <? 126) eqn:Hl; bool_inv; cbn [app].
  - destruct (land_lor_high (blen payload)) as [H80 H7f]; [lia|].
    unfold ws_length. rewrite H80, H7f.
    replace (blen payload =? 126) with false by (symmetry; apply N.eqb_neq; lia).
    replace (blen payload =? 127) with false by (symmetry; apply N.eqb_neq; lia).
    cbn [N.eqb negb orb]. replace (8192 <? blen payload) with false by (symmetry; apply N.ltb_ge; lia).
    cbv zeta. cbn [N.eqb Pos.eqb negb orb].
    replace (_ <? _) with false.
    2: { symmetry. apply N.ltb_ge. unfold blen. cbn [length].
         rewrite !length_app, unmask_length, Hm. lia. }
    pose proof (body_split mask payload rest Hm) as Hb. injection Hb as Hb1 Hb2.
    rewrite land_opcode by done. rewrite <- (app_assoc mask). cbn [Nat.add drop] in *.
    rewrite ?drop_0. by rewrite Hb1, Hb2.
  - change (N.land (N.lor 0x80 126) 0x80) with 0x80.
    unfold ws_length. change (N.land (N.lor 0x80 126) 0x7f =? 126) with true. cbn iota beta.
    replace (blen _ <? 4) with false.
    2: { symmetry. apply N.ltb_ge. unfold blen. cbn [length]. rewrite !length_app, Hm. lia. }
    change (take 2 (drop 2 (?a :: ?b :: ?c :: ?d :: ?l))) with [c; d].
    assert (from_big [blen payload / 256; blen payload mod 256] = blen payload) as Hb.
    { unfold from_big. cbn. rewrite (N.div_mod (blen payload) 256) at 3 by done. lia. }
    rewrite Hb. cbv zeta. cbn [N.eqb Pos.eqb negb orb].
    replace (8192 <? blen payload) with false by (symmetry; apply N.ltb_ge; lia).
    replace (_ <? _) with false.
    2: { symmetry. apply N.ltb_ge. unfold blen. cbn [length].
         rewrite !length_app, unmask_length, Hm. lia. }
    pose proof (body_split mask payload rest Hm) as Hs. injection Hs as Hb1 Hb2.
    rewrite land_opcode by done. rewrite <- (app_assoc mask). cbn [Nat.add drop] in *.
    rewrite ?drop_0. by rewrite Hb1, Hb2.
Qed.

#[local] Arguments client_frame : simpl never.

(** The terminal reads back exactly the frames a conforming client sends,
    with any masks, followed by the beginning of the next one or nothing. *)
Theorem ws_parse_client fs tail r :
  Forall frame_ok fs → ws_parse tail = Ok r →
  ws_parse (concat ((λ f, client_frame f.1.1 f.1.2 f.2) <$> fs) ++ tail) =
  Ok (((λ f, (f.1.1, f.2)) <$> fs) ++ r.1, r.2).
Proof.
  intros Hfs Ht. induction Hfs as [|[[op mask] p] fs (Hop & Hm & Hp) Hfs IH]; cbn.
  - rewrite Ht. by destruct r.
  - rewrite <- app_assoc, ws_parse_eq, ws_parse_one_client by done. cbn.
    by rewrite IH.
Qed.

(** The browser's reading of a server frame: not masked, one length byte or the
    16-bit form. *)
Definition server_decode (b : bytes) : option (N * bytes) :=
  match b with
  | first :: length :: data =>
      if length =? 126
      then match data with
           | h :: l :: data' => if blen data' =? h * 256 + l then Some (first, data') else None
           | _ => None
           end
      else if blen data =? length then Some (first, data) else None
  | _ => None
  end.

(** Every block the guest sends (at most 4096 bytes per [recv]) is framed,
    as one unfragmented binary message the browser decodes to the same bytes. *)
Theorem ws_frame_decodes data :
  blen data < 65536 →
  ∃ f, ws_frame data = Ok f ∧ server_decode f = Some (0x82, data).
Proof.
  intros Hd. unfold ws_frame. destruct (blen data <? 126) eqn:Hs; bool_inv.
  - eexists. split; [reflexivity|]. cbn.
    replace (blen data =? 126) with false by (symmetry; apply N.eqb_neq; lia).
    by rewrite N.eqb_refl.
  - unfold to_big2. replace (65536 <=? blen data) with false by (symmetry; apply N.leb_gt; lia).
    eexists. split; [reflexivity|]. cbn.
    replace (blen data / 256 * 256 + blen data mod 256) with (blen data)
      by (rewrite (N.div_mod (blen data) 256) at 1 by done; lia).
    by rewrite N.eqb_refl.
Qed.

(** ** The pump *)

Definition recv_ok (w : wake) : Prop :=
  (∀ d, w_guest w = Some d → blen d <= 4096) ∧ (∀ d, w_client w = Some d → blen d <= 4096).

Definition pump_ok (u : pump) : Prop := blen (u_pending u) < 10 + 4 + 8192.

(** The client bytes of a sequence of wake-ups. *)
Definition client_bytes (l : list wake) : bytes := concat (omap w_client l).

Lemma forward_app f1 f2 :
  (forward f1).2 = false →
  forward (f1 ++ f2) = ((forward f1).1 ++ (forward f2).1, (forward f2).2).
Proof.
  induction f1 as [|[op p] f1 IH]; cbn; [by destruct (forward f2)|].
  destruct (op =? 8); [done|]. destruct (forward f1) as [o1 c1]. cbn in *.
  intros Hc. rewrite IH by done. by destruct (_ || _).
Qed.

Lemma pump_guest_inl u d u' :
  pump_guest u d = inl u' → u_pending u' = u_pending u ∧ u_to_guest u' = u_to_guest u.
Proof. unfold pump_guest. intros H. destruct d; [done|]. destruct (ws_frame _); by simplify_eq. Qed.

Lemma pump_guest_inr u d u' w :
  blen d <= 4096 → pump_guest u d = inr (u', w) → w = Disconnected.
Proof.
  unfold pump_guest. intros Hd H. destruct d as [|x d]; [by simplify_eq|].
  destruct (ws_frame_decodes (x :: d)) as (f & Hf & _); [lia|]. by rewrite Hf in H.
Qed.

(** The client half of a wake-up: the pending bytes never reach the loop's own
    limit of 16384, so only the client closing, its opcode 8 or an invalid
    message ends the session. *)
Lemma pump_client_spec u d :
  pump_ok u → blen d <= 4096 →
  pump_client u d =
  match d with
  | [] => inr (u, Disconnected)
  | _ => match ws_parse (u_pending u ++ d) with
         | Err e => inr (u, Raised e)
         | Ok (frames, rest) =>
             let u' := Pump rest (u_to_client u) (u_to_guest u ++ (forward frames).1) in
             if (forward frames).2 then inr (u', ClosedByClient) else inl u'
         end
  end.
Proof.
  unfold pump_ok, pump_client. intros Hu Hd. destruct d as [|x d]; [done|].
  replace (16384 <? _) with false.
  - destruct (ws_parse _) as [[frames rest]|]; [|done]. by destruct (forward frames).
  - symmetry. apply N.ltb_ge. unfold blen in *. rewrite length_app. lia.
Qed.

Definition parsed_so_far (u : pump) (b : bytes) : Prop :=
  ∃ frames, ws_parse b = Ok (frames, u_pending u) ∧
    u_to_guest u = (forward frames).1 ∧ (forward frames).2 = false.

Lemma pump_wake_inl u w u' b :
  recv_ok w → pump_ok u → parsed_so_far u b → pump_wake u w = inl u' →
  pump_ok u' ∧ parsed_so_far u' (b ++ default [] (w_client w)).
Proof.
  intros [Hg Hc] Hu (fr & Hp & Ht & Hf) H. unfold pump_wake in H.
  destruct (match w_guest w with None => inl u | Some d => pump_guest u d end) as [u1|] eqn:H1;
    [|done].
  assert (u_pending u1 = u_pending u ∧ u_to_guest u1 = u_to_guest u) as [E1 E2].
  { destruct (w_guest w); [by eapply pump_guest_inl|by simplify_eq]. }
  destruct (w_client w) as [d|] eqn:Hw; cbn.
  2: { simplify_eq. unfold pump_ok, parsed_so_far. rewrite E1, E2, app_nil_r. eauto. }
  rewrite pump_client_spec in H; [|unfold pump_ok; by rewrite E1|by apply Hc].
  rewrite E1, E2 in H. destruct d as [|x d]; [done|].
  destruct (ws_parse (u_pending u ++ x :: d)) as [[frames rest]|] eqn:Hr; [|done].
  cbn zeta in H. destruct (forward frames).2 eqn:Hcl; [done|]. simplify_eq. cbn.
  split; [by eapply ws_parse_rest_bound|].
  exists (fr ++ frames). rewrite (ws_parse_stream _ _ _ _ Hp), Hr, forward_app by done. cbn.
  by rewrite Ht.
Qed.

(** C38: while a terminal session is open, what has been typed into the guest is
    the payload of the text and binary frames of the client's byte stream, in
    order, whatever the boundaries between the reads; and the bytes waiting for
    the rest of their frame stay below 8206. *)
Theorem terminal_forwards l u :
  Forall recv_ok l → pump_run pump_start l = inl u →
  blen (u_pending u) < 8206 ∧
  ∃ frames, ws_parse (client_bytes l) = Ok (frames, u_pending u) ∧
    u_to_guest u = (forward frames).1.
Proof.
  assert (∀ l u0 b, Forall recv_ok l → pump_ok u0 → parsed_so_far u0 b →
            pump_run u0 l = inl u → pump_ok u ∧ parsed_so_far u (b ++ client_bytes l)) as Hgen.
  { clear l. induction l as [|w l IH]; intros u0 b Hl Hu Hp H; cbn in H.
    - simplify_eq. unfold client_bytes. cbn. by rewrite app_nil_r.
    - apply Forall_cons in Hl as [Hw Hl]. destruct (pump_wake u0 w) as [u1|] eqn:H1; [|done].
      destruct (pump_wake_inl _ _ _ _ Hw Hu Hp H1) as [Hu1 Hp1].
      destruct (IH _ _ Hl Hu1 Hp1 H) as [? Hp2]. split; [done|].
      replace (b ++ client_bytes (w :: l)) with ((b ++ default [] (w_client w)) ++ client_bytes l);
        [done|].
      rewrite <- app_assoc. f_equal. unfold client_bytes. cbn. by destruct (w_client w). }
  intros Hl H. destruct (Hgen l pump_start [] Hl) as [Hu (fr & Hp & Ht & _)]; [done| |done|].
  - exists []. by vm_compute.
  - split; [exact Hu|]. exists fr. by split.
Qed.

(** ** Concrete sessions *)

Definition sample_frame : bytes := client_frame 1 [1; 2; 3; 4] [108; 115; 10].
Definition sample_wakes : list wake :=
  [Wake (Some [35; 32]) None; Wake None (Some (take 4 sample_frame));
   Wake None (Some (drop 4 sample_frame))].

Lemma ws_parse_stream_witness :
  ws_parse (take 4 sample_frame ++ drop 4 sample_frame) = Ok ([(1, [108; 115; 10])], []).
Proof.
  rewrite (ws_parse_stream (take 4 sample_frame) _ [] (take 4 sample_frame)); vm_compute; reflexivity.
Defined.

Lemma ws_parse_client_witness :
  ws_parse (client_frame 1 [1; 2; 3; 4] [108; 115; 10] ++ [0x81]) = Ok ([(1, [108; 115; 10])], [0x81]).
Proof.
  apply (ws_parse_client [(1, [1; 2; 3; 4], [108; 115; 10])] [0x81] ([], [0x81])).
  - repeat constructor; vm_compute; done.
  - vm_compute. reflexivity.
Defined.

Lemma ws_frame_decodes_witness :
  ∃ f, ws_frame [35; 32] = Ok f ∧ server_decode f = Some (0x82, [35; 32]).
Proof. apply (ws_frame_decodes [35; 32]). vm_compute. reflexivity. Defined.

Lemma terminal_forwards_witness :
  pump_run pump_start sample_wakes = inl (Pump [] [[0x82; 2; 35; 32]] [[108; 115; 10]]) ∧
  ∃ frames, ws_parse (client_bytes sample_wakes) = Ok (frames, []) ∧
    [[108; 115; 10]] = (forward frames).1.
Proof.
  assert (pump_run pump_start sample_wakes = inl (Pump [] [[0x82; 2; 35; 32]] [[108; 115; 10]])) as H
    by (vm_compute; reflexivity).
  split; [exact H|].
  refine (proj2 (terminal_forwards _ _ _ H)).
  repeat constructor; cbn; intros ? [= <-]; vm_compute; done.
Defined.
