(* ===== verification/Cli.v ===== *)
(** * Command line ([ubsim_lab/cli.py], and [run] of [ubsim_lab/topology.py])

    Argument handling, run manifests, the choice of a compatible checkpoint and
    the dispatch of [./lab].  The environment, the checkpoint directories and
    the result of probing a launcher script are inputs; a script that the
    command line ends by running is an [outcome]. *)

From Stdlib Require Import ZArith Lia Ascii.
From stdpp Require Import base strings gmap fin_maps numbers option list sorting.
From S2P Require Import Prelude PyStr Json QemuPorts.

Open Scope string_scope.
Open Scope list_scope.
Open Scope Z_scope.

(** ** Tables *)

Definition COMMANDS : list (string * string) :=
  [("start", "scripts/run/run-dual.sh"); ("start-qemu", "scripts/run/run-qemu.sh");
   ("start-qemu-dual", "scripts/run/run-qemu-dual.sh");
   ("status-qemu", "scripts/run/status-qemu-dual.sh");
   ("stop-qemu", "scripts/run/stop-qemu-dual.sh"); ("status", "scripts/run/status-dual.sh");
   ("stop", "scripts/run/stop-dual.sh"); ("sync", "scripts/run/sync-dual.sh");
   ("checkpoint", "scripts/run/checkpoint-dual.sh");
   ("checkpoint-template", "scripts/run/checkpoint-template.sh");
   ("latency", "scripts/run/run-latency.sh"); ("latency-pair", "scripts/run/run-node-pair-latency.sh");
   ("latency-pairs", "scripts/run/run-paired-latency.sh");
   ("sweep-latency", "scripts/run/sweep-latency.sh");
   ("rma-regression", "scripts/run/run-rma-regression.sh");
   ("qemu-rma-regression", "scripts/run/run-qemu-rma-regression.sh");
   ("validate-server", "scripts/validation/validate-server-profile.sh")].

Definition CHECKPOINT_IGNORED_MANIFEST_KEYS : list string :=
  ["restore_checkpoint"; "execution_mode"; "endpoint_eids"; "peer_ring_bytes"; "dist_link_speed";
   "max_read_outstanding"; "write_payload_read_window"; "ub_fabric_layout"; "peer_switch_delay";
   "initrd_path"].

Definition BUILD_TARGETS : list (string * string) :=
  [("all", "scripts/build-all.sh"); ("gem5", "scripts/build/build_gem5.sh");
   ("qemu", "scripts/build/build_qemu.sh"); ("kernel", "scripts/build/build_olk66.sh");
   ("umdk", "scripts/build/build_umdk.sh"); ("initramfs", "official-udma/build_initramfs.sh");
   ("template-initramfs", "scripts/build/build-template-initramfs.sh");
   ("ns3ub", "scripts/build-ns3ub-adapter.sh"); ("udma-model", "scripts/build/build_udma_model.sh");
   ("udma-device", "scripts/build/build_udma_device_sim.sh");
   ("udma-optimized", "scripts/build/build_udma_optimized.sh");
   ("optimized-initramfs", "scripts/build/build_udma_optimized_image.sh");
   ("ub-switch", "scripts/build/build_ub_switch_sim.sh");
   ("mooncake", "scripts/build-mooncake-urma.sh");
   ("mooncake-initramfs", "scripts/package-mooncake-urma-initramfs.sh")].

(** ** Global options *)

Definition _runtime (value : string) : res string :=
  raise Exn ValueError "only native runtime is supported" []
    when negb (elemb value ["auto"; "native"]) ;;
  Ok "native".

(** What [_split_global_options] ends with when it does not return. *)
Inductive split :=
  | Usage                                   (** [--help]: exit 0 *)
  | Version                                 (** [--version]: exit 0 *)
  | Bad (e : exn)
  | Split (runtime : string) (args : list string).

(** The [while] loop over the leading options. *)
Fixpoint split_loop (runtime : string) (args : list string) : split :=
  match args with
  | option :: args' =>
      if startswith option "--" then
        if String.eqb option "--help" then Usage
        else if String.eqb option "--version" then Version
        else if String.eqb option "--runtime" then
          match args' with
          | [] => Bad (Exn ValueError "--runtime requires a value" [])
          | r :: args'' => split_loop r args''
          end
        else if startswith option "--runtime=" then
          split_loop (default EmptyString (partition_at "="%char option).2) args'
        else Bad (Exn ValueError "unknown global option: {option}" [PS option])
      else match _runtime runtime with
           | Err e => Bad e
           | Ok r => Split r args
           end
  | [] => match _runtime runtime with
          | Err e => Bad e
          | Ok r => Split r []
          end
  end.

Definition _split_global_options (env : environ) (argv : list string) : split :=
  split_loop (default "auto" (env "UBSIM_EXECUTION_MODE")) argv.

(** ** Manifests *)

Abbreviation manifest := (list (string * string)).

Definition parse_line (result : manifest) (raw : string) : manifest :=
  match partition_at "="%char raw with
  | (key, Some value) => if String.eqb key EmptyString then result else dset result key value
  | (_, None) => result
  end.

Definition _parse_manifest (text : string) : manifest := foldl parse_line [] (splitlines text).

(** The text the launchers write: one [key=value] line per entry. *)
Definition print_manifest (m : manifest) : string :=
  concat_str ((λ kv, kv.1 +:+ "=" +:+ kv.2 +:+ String "010" EmptyString) <$> m).

(** ** Choosing a checkpoint *)

(** A directory under [checkpoints/] that holds a [run-manifest.txt]. *)
Record checkpoint_dir := CheckpointDir {
  cd_name : string;
  cd_run_manifest : string;
  cd_metadata : option string;      (** the text of [checkpoint-manifest.txt] *)
  cd_exists : string → bool         (** the path, relative to the directory, exists *)
}.

Definition join_path (a b : string) : string :=
  if startswith b "/" then b else a +:+ "/" +:+ b.

Definition container_root : string := "/workspace/ubsim-gem5-lab".

(** [ROOT / image.relative_to(container_root)] for a path inside the container. *)
Definition host_path (root p : string) : string :=
  if String.eqb p container_root then root
  else match strip_prefix (container_root +:+ "/") p with
       | Some r => join_path root r
       | None => p
       end.

Definition truthy (o : option string) : option string :=
  match o with Some EmptyString => None | _ => o end.

Definition configured_image (root : string) (env : environ) (desired : manifest)
    (image_path : option string) : string :=
  let configured := match image_path with
                    | Some p => Some p
                    | None => match truthy (env "UBSIM_INITRD") with
                              | Some p => Some p
                              | None => dget desired "initrd_path"
                              end
                    end in
  match truthy configured with
  | Some p => host_path root p
  | None => join_path root "out/official-udma-64k-20261015.cpio.gz"
  end.

Definition is_template (metadata : manifest) : bool :=
  bool_decide (dget metadata "checkpoint_kind" = Some "node-template-v1").

Definition per_node_link_key (key : string) : bool :=
  startswith key "node" && (endswith key "_link_latency_ns" || endswith key "_link_rate_gbps").

(** The keys a candidate must agree on. *)
Definition compared_keys (desired : manifest) (template : bool) : list string :=
  List.filter (λ key, negb (elemb key CHECKPOINT_IGNORED_MANIFEST_KEYS) &&
                 negb (template && (elemb key ["node_count"; "template_checkpoint"]
                                    || per_node_link_key key)))
    (keys desired).

Definition defaults : manifest :=
  [("auto_o3_lifecycle", "0"); ("fast_boot_noncaching", "0"); ("max_jfs_depth", "1024");
   ("max_jfr_depth", "1024"); ("max_jfc_depth", "4096"); ("max_jettys", "1152");
   ("public_jettys", "128"); ("template_checkpoint", "0")].

(** The value a checkpoint's manifest gives a key. *)
Definition recorded (m : manifest) (key : string) : option string :=
  match match dget m key with Some v => Some v | None => dget defaults key end with
  | Some v => Some v
  | None =>
      if startswith key "node" then
        if endswith key "_link_latency_ns" then dget m "peer_latency_ns"
        else if endswith key "_link_rate_gbps" then dget m "peer_link_rate_gbps"
        else None
      else None
  end.

Definition mismatched (desired m : manifest) (key : string) : bool :=
  let want := dget desired key in
  let value := recorded m key in
  if String.eqb key "udma_state_format" && bool_decide (want = Some "4")
     && bool_decide (value = Some "3") then false
  else negb (bool_decide (value = want)).

Definition required_paths (template : bool) (node_count : nat) : list string :=
  if template then ["template-cpt/m5.cpt"]
  else ((λ node, "node" +:+ str_of_Z (Z.of_nat node) +:+ "-cpt") <$> seq 0 node_count) ++
       ((λ node, "udma-node" +:+ str_of_Z (Z.of_nat node) +:+ ".state") <$> seq 0 node_count).

Definition image_agrees (desired metadata : manifest) (image_hash : option string) : bool :=
  match image_hash with
  | None => true
  | Some h =>
      let recorded_hash := dget metadata "initramfs_sha256" in
      negb ((bool_decide (is_Some recorded_hash) ||
             bool_decide (dget desired "profile" = Some "modern")) &&
            negb (bool_decide (recorded_hash = Some h)))
  end.

Definition metadata_of (d : checkpoint_dir) : manifest :=
  match cd_metadata d with Some t => _parse_manifest t | None => [] end.

(** The body of the loop: whether the candidate is compatible. *)
Definition candidate_ok (desired : manifest) (node_count : Z) (image_hash : option string)
    (d : checkpoint_dir) : bool :=
  let m := _parse_manifest (cd_run_manifest d) in
  let metadata := metadata_of d in
  let template := is_template metadata in
  forallb (λ key, negb (mismatched desired m key)) (compared_keys desired template)
  && forallb (cd_exists d) (required_paths template (Z.to_nat node_count))
  && image_agrees desired metadata image_hash.

(** The tuple order of [max]. *)
Definition pair_le (a b : string * string) : bool :=
  match String.compare a.1 b.1 with
  | Lt => true
  | Gt => false
  | Eq => match String.compare a.2 b.2 with Gt => false | _ => true end
  end.

Definition candidate (d : checkpoint_dir) : string * string :=
  (default EmptyString (dget (metadata_of d) "created_utc"), cd_name d).

(** [max(l)]: the first of the largest. *)
Definition py_max {A} (le : A → A → bool) (l : list A) : option A :=
  foldl (λ best x, match best with
                   | None => Some x
                   | Some b => if le x b then Some b else Some x
                   end) None l.

Definition _select_compatible_checkpoint (root : string) (env : environ)
    (sha256 : string → option string) (dirs : list checkpoint_dir)
    (desired : manifest) (image_path : option string) : res (option string) :=
  node_count ← int_of_str (default "2" (dget desired "node_count"));
  let image_hash := sha256 (configured_image root env desired image_path) in
  if bool_decide (image_hash = None) && bool_decide (dget desired "profile" = Some "modern")
  then Ok None
  else Ok (snd <$> py_max pair_le
             (candidate <$> List.filter (candidate_ok desired node_count image_hash) dirs)).

(** ** Running scripts *)

Inductive outcome :=
  | Exit (status : Z)
  | Run (argv : list string) (env : list (string * string))
      (** [subprocess.run]: the exit status is that of the process, started with
          these variables set over the environment *)
  | Topology (args : list string)        (** [topology.run] *)
  | Workbench (args : list string)       (** [web.main] *)
  | Uncaught (e : exn).

Section dispatch.
Variable root : string.
Variable env : environ.
Variable is_file : string → bool.

Definition _script_environment (runtime : string) : list (string * string) :=
  [("UBSIM_EXECUTION_MODE", runtime);
   ("UBSIM_LAB_ROOT", default root (env "UBSIM_LAB_ROOT"))].

Definition _script (relative : string) (args : list string) (runtime : string) : outcome :=
  let path := join_path root relative in
  if is_file path then Run (["bash"; path] ++ args) (_script_environment runtime)
  else Exit 2.

(** [platform.system()] and [platform.machine()]. *)
Variable system machine : string.

Definition _build (target : string) (args : list string) (runtime : string) : res outcome :=
  relative ← getitem BUILD_TARGETS target;
  if String.eqb target "gem5" && String.eqb system "Darwin" && String.eqb machine "arm64"
  then Ok (_script "scripts/build/build_gem5_macos.sh" args runtime)
  else Ok (_script relative args runtime).

Fixpoint _requested_target_arch (args : list string) : option string :=
  match args with
  | [] => None
  | value :: args' =>
      match (if String.eqb value "--target-arch" then head args' else None) with
      | Some a => Some a
      | None =>
          if startswith value "--target-arch="
          then Some (default EmptyString (partition_at "="%char value).2)
          else _requested_target_arch args'
      end
  end.

Definition _attach (args : list string) (runtime : string) : res outcome :=
  match args with
  | [a] =>
      if all_digits a then
        node ← int_of_str a;
        uart0 ← env_int env "UBSIM_DUAL_UART0" "3460";
        uart1 ← env_int env "UBSIM_DUAL_UART1" "3470";
        let stride := uart1 - uart0 in
        if (node <? 0) || (stride <=? 0) then Ok (Exit 2)
        else Ok (Run ["bash"; join_path root "scripts/run/attach.sh"]
                   (("UBSIM_M5TERM_PORT",
                     default (str_of_Z (uart0 + node * stride)) (env "UBSIM_M5TERM_PORT"))
                    :: _script_environment runtime))
      else Ok (Exit 2)
  | _ => Ok (Exit 2)
  end.

(** The launcher script run with [--print-config]: its exit status and standard
    output, and the checkpoint selected for a manifest. *)
Variable probe : list string → Z * string.
Variable select : manifest → res (option string).

Definition restore_flag (value : string) : bool :=
  String.eqb value "--restore-checkpoint" || startswith value "--restore-checkpoint=".

Definition _start_ready (args : list string) (runtime : string) : res outcome :=
  let start := "scripts/run/run-dual.sh" in
  if elemb "--help" args || elemb "-h" args then Ok (_script start args runtime)
  else if existsb restore_flag args then Ok (Exit 2)
  else
    let '(status, stdout) := probe (["bash"; join_path root start] ++ args ++ ["--print-config"]) in
    if negb (status =? 0) then Ok (Exit status)
    else
      selected ← select (_parse_manifest stdout);
      match selected with
      | None => Ok (Exit 2)
      | Some name =>
          if elemb "--print-config" args then Ok (Exit 0)
          else Ok (_script start (args ++ ["--restore-checkpoint"; name]) runtime)
      end.

Definition build_command (tail : list string) (runtime : string) : res outcome :=
  match tail with
  | [] => Ok (Exit 2)
  | target :: rest =>
      if negb (has BUILD_TARGETS target) then Ok (Exit 2)
      else if match _requested_target_arch rest with
              | Some a => elemb a ["x86_64"; "amd64"] && negb (String.eqb target "umdk")
              | None => false
              end then Ok (Exit 2)
      else _build target rest runtime
  end.

Definition qemu_host_commands : list string :=
  ["start-qemu"; "start-qemu-dual"; "status-qemu"; "stop-qemu"; "qemu-rma-regression"].

(** One command with its arguments. *)
Definition run_command (command : string) (tail : list string) (runtime : string) : res outcome :=
  if String.eqb command "setup" then Ok (_script "scripts/setup-native.sh" tail runtime)
  else if String.eqb command "attach" then _attach tail runtime
  else if String.eqb command "attach-qemu" then Ok (_script "scripts/run/attach-qemu.sh" tail "native")
  else if String.eqb command "start-ready" then _start_ready tail runtime
  else if String.eqb command "topology" then Ok (Topology tail)
  else if String.eqb command "ui" then Ok (Workbench tail)
  else if String.eqb command "build" then build_command tail runtime
  else match dget COMMANDS command with
       | Some script =>
           let command_runtime := if elemb command qemu_host_commands then "native" else runtime in
           Ok (_script script tail command_runtime)
       | None => Ok (Exit 2)
       end.

Definition main (argv : list string) : outcome :=
  match _split_global_options env argv with
  | Usage => Exit 0
  | Version => Exit 0
  | Bad _ => Exit 2
  | Split runtime args =>
      match args with
      | [] => Exit 0
      | command :: tail =>
          if elemb command ["help"; "-h"] then Exit 0
          else match run_command command tail runtime with
               | Ok o => o
               | Err e => Uncaught e
               end
      end
  end.
End dispatch.

(** ** Manifests round trip *)

Definition no_eq (s : string) : bool := str_forallb (λ c, negb (Ascii.eqb c "="%char)) s.

(** An entry a launcher can write and read back. *)
Definition entry_ok (kv : string * string) : Prop :=
  kv.1 ≠ EmptyString ∧ no_eq kv.1 = true ∧ plain (kv.1 +:+ "=" +:+ kv.2) = true.

Lemma parse_line_entry m kv :
  entry_ok kv → parse_line m (kv.1 +:+ "=" +:+ kv.2) = dset m kv.1 kv.2.
Proof.
  intros (Hne & Heq & _). unfold parse_line. cbn [String.append].
  rewrite partition_at_app by done.
  by destruct (String.eqb_spec kv.1 EmptyString).
Qed.

Lemma dset_new {V} (d : list (string * V)) k v : k ∉ keys d → dset d k v = d ++ [(k, v)].
Proof.
  intros Hk. induction d as [|[k1 v1] d IH]; cbn; [done|].
  destruct (String.eqb_spec k k1) as [->|]; [destruct Hk; by left|].
  rewrite IH; [done|]. intros Hin. apply Hk. by right.
Qed.

(** A run manifest written by a launcher is read back entry by entry, in
    order. *)
Theorem parse_print_manifest m :
  NoDup (keys m) → Forall entry_ok m → _parse_manifest (print_manifest m) = m.
Proof.
  intros Hnd Hok. unfold _parse_manifest, print_manifest.
  replace ((λ kv : string * string, kv.1 +:+ "=" +:+ kv.2 +:+ String "010" EmptyString) <$> m)
    with ((λ l, l +:+ String "010" EmptyString) <$> ((λ kv : string * string, kv.1 +:+ "=" +:+ kv.2) <$> m)).
  2: { rewrite <- list_fmap_compose. apply list_fmap_ext. intros i kv _. cbn.
       by rewrite string_app_assoc. }
  rewrite splitlines_lines.
  2: { apply Forall_fmap. eapply Forall_impl; [done|]. by intros kv (_ & _ & ?). }
  cut (∀ acc, (∀ k, k ∈ keys m → k ∉ keys acc) →
         foldl parse_line acc ((λ kv : string * string, kv.1 +:+ "=" +:+ kv.2) <$> m) = acc ++ m).
  { intros H. apply (H []). intros k _. apply not_elem_of_nil. }
  unfold keys in *. induction Hok as [|kv m Hkv Hok IH]; intros acc Hd; cbn in *;
    [by rewrite app_nil_r|].
  apply NoDup_cons in Hnd as [Hni Hnd]. rewrite parse_line_entry by done.
  rewrite dset_new by (apply Hd; by left). rewrite IH; [|done|].
  - rewrite <- app_assoc. cbn. by destruct kv.
  - intros k Hk. unfold keys. rewrite fmap_app, elem_of_app. intros [H|H].
    + destruct (Hd k); [by right|done].
    + apply list_elem_of_singleton in H. cbn in H. by subst.
Qed.

(** ** The selected checkpoint *)

Lemma py_max_in {A} (le : A → A → bool) l x : py_max le l = Some x → x ∈ l.
Proof.
  unfold py_max. cut (∀ b, foldl (λ best x, match best with
      | None => Some x | Some b => if le x b then Some b else Some x end) b l = Some x →
      x ∈ l ∨ b = Some x).
  { intros H Hx. by destruct (H _ Hx). }
  induction l as [|y l IH]; intros b Hx; cbn in *; [by right|].
  destruct (IH _ Hx) as [?|Hy]; [left; by right|].
  destruct b as [b|]; [destruct (le y b)|]; simplify_eq; [by right|left; by left|left; by left].
Qed.

Lemma pair_le_total a b : pair_le a b = false → pair_le b a = true.
Proof.
  unfold pair_le. rewrite (String.compare_antisym b.1 a.1), (String.compare_antisym b.2 a.2).
  by destruct (String.compare a.1 b.1), (String.compare a.2 b.2).
Qed.

(** What agreeing on a key means. *)
Definition agrees (desired m : manifest) (key : string) : Prop :=
  recorded m key = dget desired key ∨
  (key = "udma_state_format" ∧ dget desired key = Some "4" ∧ recorded m key = Some "3").

Lemma mismatched_false desired m key : mismatched desired m key = false → agrees desired m key.
Proof.
  unfold mismatched, agrees. destruct (_ && _) eqn:H.
  - bool_inv. intros _. right. by subst.
  - rewrite negb_false_iff, bool_decide_eq_true. by left.
Qed.

Lemma candidate_ok_spec desired n h d :
  candidate_ok desired n h d = true →
  (∀ key, key ∈ compared_keys desired (is_template (metadata_of d)) →
     agrees desired (_parse_manifest (cd_run_manifest d)) key) ∧
  (∀ p, p ∈ required_paths (is_template (metadata_of d)) (Z.to_nat n) → cd_exists d p = true) ∧
  image_agrees desired (metadata_of d) h = true.
Proof.
  unfold candidate_ok. cbv zeta. intros H. bool_inv.
  match goal with H : forallb _ (compared_keys _ _) = true |- _ => rename H into Hks end.
  match goal with H : forallb (cd_exists d) _ = true |- _ => rename H into Hps end.
  rewrite forallb_forall in Hks, Hps. split_and!; [| |done].
  - intros key Hk. apply mismatched_false. apply list_elem_of_In, Hks in Hk.
    by apply negb_true_iff in Hk.
  - intros p Hp. by apply Hps, list_elem_of_In.
Qed.

(** C14: a checkpoint is restored only if it is one of those on disk, agrees with
    the requested machine on every compared key, has every state file the
    restore reads, and does not record another guest image than the one present;
    for the [modern] profile the image must be present and its digest recorded
    (another profile accepts a checkpoint that records no image, and any one when
    its image is absent). *)
Theorem select_sound root env sha256 dirs desired image name :
  _select_compatible_checkpoint root env sha256 dirs desired image = Ok (Some name) →
  ∃ d n, d ∈ dirs ∧ cd_name d = name ∧
    int_of_str (default "2" (dget desired "node_count")) = Ok n ∧
    (∀ key, key ∈ compared_keys desired (is_template (metadata_of d)) →
       agrees desired (_parse_manifest (cd_run_manifest d)) key) ∧
    (∀ p, p ∈ required_paths (is_template (metadata_of d)) (Z.to_nat n) → cd_exists d p = true) ∧
    (∀ recorded h, dget (metadata_of d) "initramfs_sha256" = Some recorded →
       sha256 (configured_image root env desired image) = Some h → recorded = h) ∧
    (dget desired "profile" = Some "modern" →
       ∃ h, sha256 (configured_image root env desired image) = Some h ∧
            dget (metadata_of d) "initramfs_sha256" = Some h).
Proof.
  unfold _select_compatible_checkpoint. intros H. apply bind_Ok in H as (n & Hn & H).
  destruct (_ && _) eqn:Hm; [done|]. injection H as H.
  apply fmap_Some in H as ([c nm] & Hmax & ->).
  apply py_max_in, list_elem_of_fmap in Hmax as (d & Hd & Hin).
  apply list_elem_of_In, filter_In in Hin as [Hin Hok].
  apply candidate_ok_spec in Hok as (Hk & Hp & Hi).
  exists d, n. split_and!; [by apply list_elem_of_In|by injection Hd|done|done|done| |].
  { intros recorded h Hr Hh. unfold image_agrees in Hi. rewrite Hh, Hr in Hi. cbn in Hi.
    apply negb_true_iff, negb_false_iff, bool_decide_eq_true in Hi. by injection Hi. }
  intros Hmod. rewrite Hmod in Hm. rewrite (bool_decide_true (Some "modern" = _)) in Hm by done.
  rewrite andb_true_r in Hm. apply bool_decide_eq_false in Hm.
  destruct (sha256 _) as [h|]; [|done]. exists h. split; [done|].
  unfold image_agrees in Hi. rewrite Hmod, (bool_decide_true (Some "modern" = _)) in Hi by done.
  rewrite orb_true_r in Hi. cbn in Hi. apply negb_true_iff, negb_false_iff in Hi.
  by apply bool_decide_eq_true in Hi.
Qed.

(** The selection is exhaustive: when nothing is selected although the
    guest image can be read, no checkpoint on disk is compatible. *)
Theorem select_complete root env sha256 dirs desired image h n :
  sha256 (configured_image root env desired image) = Some h →
  int_of_str (default "2" (dget desired "node_count")) = Ok n →
  _select_compatible_checkpoint root env sha256 dirs desired image = Ok None →
  ∀ d, d ∈ dirs → candidate_ok desired n (Some h) d = false.
Proof.
  unfold _select_compatible_checkpoint. intros Hh -> H d Hd. cbn in H. rewrite Hh in H. cbn in H.
  injection H as H.
  destruct (candidate_ok desired n (Some h) d) eqn:Hok; [|done]. exfalso.
  assert (d ∈ List.filter (candidate_ok desired n (Some h)) dirs) as Hin.
  { apply list_elem_of_In, filter_In. split; [by apply list_elem_of_In|done]. }
  apply (list_elem_of_fmap_2 candidate) in Hin.
  destruct (candidate <$> _) as [|c l]; [by apply not_elem_of_nil in Hin|].
  apply fmap_None in H. unfold py_max in H. cbn in H.
  clear Hin. revert c H. induction l as [|x l IH]; intros c H; cbn in H; [done|].
  destruct (pair_le x c); by eapply IH.
Qed.

(** ** Dispatch *)

Lemma split_loop_native runtime argv r args :
  split_loop runtime argv = Split r args → r = "native" ∧ ∃ pre, argv = pre ++ args.
Proof.
  revert runtime. induction argv as [argv IH] using (well_founded_induction (well_founded_ltof _ (@length string))).
  intros runtime. unfold ltof in IH. destruct argv as [|o argv]; cbn.
  - unfold _runtime. destruct (negb _); cbn; intros; simplify_eq. split; [done|]. by exists [].
  - destruct (startswith o "--").
    + destruct (String.eqb o "--help"); [done|]. destruct (String.eqb o "--version"); [done|].
      destruct (String.eqb o "--runtime").
      * destruct argv as [|r0 argv]; [done|]. intros H.
        apply IH in H as [-> [pre ->]]; [|cbn; lia]. split; [done|]. by exists (o :: r0 :: pre).
      * destruct (startswith o "--runtime="); [|done]. intros H.
        apply IH in H as [-> [pre ->]]; [|cbn; lia]. split; [done|]. by exists (o :: pre).
    + unfold _runtime. destruct (negb _); cbn; intros; simplify_eq. split; [done|]. by exists [].
Qed.

Lemma script_Run root env is_file relative args runtime argv vars :
  _script root env is_file relative args runtime = Run argv vars →
  argv = ["bash"; join_path root relative] ++ args ∧ is_file (join_path root relative) = true ∧
  dget vars "UBSIM_EXECUTION_MODE" = Some runtime.
Proof. unfold _script. destruct (is_file _) eqn:?; [|done]. by intros [= <- <-]. Qed.

Lemma build_Run root env is_file system machine target args runtime argv vars :
  _build root env is_file system machine target args runtime = Ok (Run argv vars) →
  dget vars "UBSIM_EXECUTION_MODE" = Some runtime.
Proof.
  unfold _build. intros H. apply bind_Ok in H as (rel & _ & H).
  destruct (_ && _); injection H as H; by apply script_Run in H as (_ & _ & ?).
Qed.

(** [start-ready] restores exactly the checkpoint selected for the probed
    configuration: the launcher is run only with that checkpoint appended to the
    user's arguments, none of which names a checkpoint, and nothing is started
    when the probe fails or no checkpoint is compatible. *)
Theorem start_ready_restores root env is_file probe select args runtime argv vars :
  elemb "--help" args = false → elemb "-h" args = false →
  _start_ready root env is_file probe select args runtime = Ok (Run argv vars) →
  ∃ stdout name,
    probe (["bash"; join_path root "scripts/run/run-dual.sh"] ++ args ++ ["--print-config"])
      = (0, stdout) ∧
    select (_parse_manifest stdout) = Ok (Some name) ∧
    argv = ["bash"; join_path root "scripts/run/run-dual.sh"] ++ args ++
           ["--restore-checkpoint"; name] ∧
    Forall (λ a, restore_flag a = false) args.
Proof.
  unfold _start_ready. intros -> ->. cbn [orb].
  destruct (existsb restore_flag args) eqn:Hr; [done|].
  destruct (probe _) as [status stdout] eqn:Hp.
  destruct (status =? 0) eqn:Hs; cbn [negb]; [|done]. bool_inv. subst. intros H.
  apply bind_Ok in H as ([name|] & Hsel & H); [|done].
  destruct (elemb "--print-config" args); [done|]. injection H as H.
  apply script_Run in H as (-> & _ & _). exists stdout, name. split_and!; [done..|].
  apply Forall_forall. intros a Ha. destruct (restore_flag a) eqn:E; [|done].
  enough (existsb restore_flag args = true) by congruence.
  apply existsb_exists. exists a. split; [by apply list_elem_of_In|done].
Qed.

(** Whatever the arguments, the command line runs scripts only natively:
    every script is started with [UBSIM_EXECUTION_MODE=native]. *)
Theorem main_native root env is_file system machine probe select argv cmd vars :
  main root env is_file system machine probe select argv = Run cmd vars →
  dget vars "UBSIM_EXECUTION_MODE" = Some "native".
Proof.
  unfold main. destruct (_split_global_options env argv) as [| | |runtime args] eqn:Hs; try done.
  apply split_loop_native in Hs as [-> _].
  destruct args as [|c tail]; [done|]. destruct (elemb c _); [done|].
  destruct (run_command _ _ _ _ _ _ _ c tail "native") as [o|] eqn:Hr; [|done]. intros ->.
  unfold run_command in Hr. repeat (case_match; simplify_eq).
  all: try (by apply script_Run in Hr as (_ & _ & ?)).
  all: try (injection Hr as Hr; by apply script_Run in Hr as (_ & _ & ?)).
  - unfold _attach in Hr. repeat (case_match; simplify_eq). py_inv.
    destruct (_ || _); by simplify_eq.
  - unfold _start_ready in Hr.
    destruct (_ || _); [injection Hr as Hr; by apply script_Run in Hr as (_ & _ & ?)|].
    destruct (existsb _ _); [done|]. destruct (probe _) as [status stdout].
    destruct (negb _); [done|].
    apply bind_Ok in Hr as ([name|] & _ & Hr); [|done].
    destruct (elemb _ _); [done|]. injection Hr as Hr. by apply script_Run in Hr as (_ & _ & ?).
  - unfold build_command in Hr. repeat (case_match; simplify_eq); by eapply build_Run.
Qed.

(** ** Concrete command lines *)

Definition sample_manifest : manifest :=
  [("node_count", "2"); ("profile", "modern"); ("udma_state_format", "4"); ("initrd_path", "/x=y")].

Lemma parse_print_manifest_witness : _parse_manifest (print_manifest sample_manifest) = sample_manifest.
Proof.
  apply parse_print_manifest.
  - apply (bool_decide_unpack _). vm_compute. exact I.
  - repeat constructor; vm_compute; done.
Defined.

Definition sample_dir (name created state : string) : checkpoint_dir :=
  {| cd_name := name;
     cd_run_manifest := print_manifest
       [("node_count", "2"); ("profile", "modern"); ("udma_state_format", state)];
     cd_metadata := Some (print_manifest [("created_utc", created); ("initramfs_sha256", "beef")]);
     cd_exists := λ p, elemb p ["node0-cpt"; "node1-cpt"; "udma-node0.state"; "udma-node1.state"] |}.
Definition sample_dirs : list checkpoint_dir :=
  [sample_dir "old" "2026-01-01" "3"; sample_dir "new" "2026-03-01" "4"; sample_dir "v2" "2026-05-01" "2"].

Lemma select_sound_witness :
  _select_compatible_checkpoint "/lab" (λ _, None) (λ _, Some "beef") sample_dirs sample_manifest None
    = Ok (Some "new") ∧
  ∃ d, d ∈ sample_dirs ∧ cd_name d = "new" ∧ dget (metadata_of d) "initramfs_sha256" = Some "beef".
Proof.
  assert (_select_compatible_checkpoint "/lab" (λ _, None) (λ _, Some "beef") sample_dirs
            sample_manifest None = Ok (Some "new")) as H by (vm_compute; reflexivity).
  split; [exact H|].
  destruct (select_sound _ _ _ _ _ _ _ H) as (d & n & Hd & Hname & _ & _ & _ & _ & Hm).
  destruct (Hm eq_refl) as (h & [= <-] & Hh). eauto.
Defined.

Lemma select_complete_witness :
  candidate_ok sample_manifest 2 (Some "cafe") (sample_dir "new" "2026-03-01" "4") = false.
Proof.
  apply (select_complete "/lab" (λ _, None) (λ _, Some "cafe") sample_dirs sample_manifest None);
    [reflexivity|vm_compute; reflexivity|vm_compute; reflexivity|].
  right. by left.
Defined.

Lemma start_ready_restores_witness :
  ∃ stdout name,
    (0, print_manifest sample_manifest) = (0, stdout) ∧
    (Ok (Some "new") : res (option string)) = Ok (Some name) ∧
    ["bash"; "/lab/scripts/run/run-dual.sh"; "--nodes"; "2"; "--restore-checkpoint"; "new"] =
    ["bash"; join_path "/lab" "scripts/run/run-dual.sh"] ++ ["--nodes"; "2"] ++
      ["--restore-checkpoint"; name] ∧
    Forall (λ a, restore_flag a = false) ["--nodes"; "2"].
Proof.
  eapply (start_ready_restores "/lab" (λ _, None) (λ _, true)
            (λ _, (0, print_manifest sample_manifest)) (λ _, Ok (Some "new")) ["--nodes"; "2"] "native");
    vm_compute; reflexivity.
Defined.

Lemma main_native_witness :
  ∃ vars, main "/lab" (λ _, None) (λ _, true) "Linux" "x86_64" (λ _, (1, EmptyString)) (λ _, Ok None)
            ["--runtime=auto"; "status"] = Run ["bash"; "/lab/scripts/run/status-dual.sh"] vars ∧
    dget vars "UBSIM_EXECUTION_MODE" = Some "native".
Proof.
  eexists. split; [vm_compute; reflexivity|].
  eapply (main_native "/lab" (λ _, None) (λ _, true) "Linux" "x86_64" (λ _, (1, EmptyString))
            (λ _, Ok None) ["--runtime=auto"; "status"]).
  vm_compute. reflexivity.
Defined.
