(* ===== verification/ProfileDefaults.v ===== *)
(** * gem5 machine profiles ([ubsim_lab/gem5_profile_defaults.json])

    The versioned defaults of every machine profile, in the file's order. *)

From stdpp Require Import base strings list.
From S2P Require Import Prelude.

Open Scope string_scope.
Open Scope list_scope.

Definition profile_fast : list (string * string) :=
  [("auto_o3_lifecycle", "0");
   ("benchmark_cpu", "0");
   ("cache_line_size", "64");
   ("cache_prefetcher", "none");
   ("cache_replacement_policy", "lru");
   ("coherent_bus_forward_latency_cycles", "0");
   ("coherent_bus_frontend_latency_cycles", "1");
   ("coherent_bus_header_latency_cycles", "1");
   ("coherent_bus_response_latency_cycles", "1");
   ("coherent_bus_snoop_response_latency_cycles", "1");
   ("comparison_benchmark_profile", "ctp-rm-send-imm-i128");
   ("comparison_ctp", "1");
   ("comparison_inline_bytes", "128");
   ("comparison_jettys", "1");
   ("comparison_operation", "SEND_IMM");
   ("comparison_transport_mode", "RM");
   ("completion_event_slots", "64");
   ("core_bus_snoop_filter_capacity", "2MiB");
   ("cpu_boot_model", "AtomicSimpleCPU");
   ("cpu_count", "1");
   ("cpu_event_queue_policy", "single_event_queue");
   ("cpu_freq", "3GHz");
   ("cpu_mode", "atomic_fast");
   ("cpu_roi_model", "AtomicSimpleCPU");
   ("cpu_switch_policy", "none");
   ("ctp_max_retransmissions", "7");
   ("ctp_retransmission", "off");
   ("ctp_rto_ps", "25600000");
   ("direct_wqe_latency", "0ns");
   ("direct_wqe_max_blocks", "0");
   ("dma_backend", "udma");
   ("dma_max_outstanding", "16");
   ("dma_request_segmentation", "cacheline_and_4KiB_boundaries");
   ("dma_transport", "native_gem5_request_port_dynamic");
   ("execution_mode", "native");
   ("external_udma_host_latency_ns", "100");
   ("external_udma_poll_interval", "1us");
   ("fabric_freq", "1GHz");
   ("fabric_width_bytes", "16");
   ("fast_boot_noncaching", "0");
   ("guest_memory_limit", "1GB");
   ("initial_memory_mode", "atomic");
   ("io_bus_forward_latency_cycles", "1");
   ("io_bus_frontend_latency_cycles", "2");
   ("io_bus_header_latency_cycles", "1");
   ("io_bus_response_latency_cycles", "2");
   ("io_cache_assoc", "8");
   ("io_cache_latency_tag_data_response_cycles", "1,1,1");
   ("io_cache_mshrs", "32");
   ("io_cache_size", "1kB");
   ("io_cache_targets_per_mshr", "32");
   ("io_cache_write_buffers", "32");
   ("kvm_host_cpu_contract", "not_applicable");
   ("l1d_assoc", "2");
   ("l1d_clusivity", "mostly_incl");
   ("l1d_latency_tag_data_response_cycles", "2,2,1");
   ("l1d_mshrs", "16");
   ("l1d_size", "32kB");
   ("l1d_targets_per_mshr", "16");
   ("l1d_write_buffers", "16");
   ("l1i_assoc", "3");
   ("l1i_clusivity", "mostly_incl");
   ("l1i_latency_tag_data_response_cycles", "1,1,1");
   ("l1i_mshrs", "4");
   ("l1i_size", "48kB");
   ("l1i_targets_per_mshr", "8");
   ("l1i_write_buffers", "8");
   ("l2_assoc", "16");
   ("l2_clusivity", "mostly_excl");
   ("l2_latency_tag_data_response_cycles", "12,12,5");
   ("l2_mshrs", "32");
   ("l2_size", "1MB");
   ("l2_targets_per_mshr", "8");
   ("l2_write_buffers", "8");
   ("l3_assoc", "16");
   ("l3_bus_snoop_filter_capacity", "8MiB");
   ("l3_clusivity", "mostly_excl");
   ("l3_freq", "1GHz");
   ("l3_latency_tag_data_response_cycles", "20,20,20");
   ("l3_mshrs", "20");
   ("l3_size", "16MB");
   ("l3_targets_per_mshr", "12");
   ("l3_write_buffers", "8");
   ("last_cache_level", "2");
   ("lifecycle_sync", "1");
   ("m5ops_base", "0x10010000");
   ("m5ops_mode", "inst");
   ("manifest_version", "1");
   ("max_jettys", "1152");
   ("max_jfc_depth", "4096");
   ("max_jfr_depth", "1024");
   ("max_jfs_depth", "1024");
   ("max_read_outstanding", "0");
   ("membus_snoop_filter_capacity", "64MiB");
   ("memory_address_mapping", "RoRaBaCoCh");
   ("memory_bus_forward_latency_cycles", "4");
   ("memory_bus_frontend_latency_cycles", "3");
   ("memory_bus_header_latency_cycles", "1");
   ("memory_bus_response_latency_cycles", "2");
   ("memory_bus_snoop_response_latency_cycles", "4");
   ("memory_channel_interleave_bytes", "128");
   ("memory_channel_xor_low_bit", "0");
   ("memory_channels", "1");
   ("memory_controller_backend_latency", "10ns");
   ("memory_controller_command_window", "10ns");
   ("memory_controller_frontend_latency", "10ns");
   ("memory_max_accesses_per_row", "16");
   ("memory_min_reads_per_switch", "16");
   ("memory_min_writes_per_switch", "16");
   ("memory_page_policy", "open_adaptive");
   ("memory_ranks_per_channel", "1");
   ("memory_read_buffer_bursts_per_channel", "32");
   ("memory_scheduler", "frfcfs");
   ("memory_size", "4GB");
   ("memory_type", "DDR3_1600_8x8");
   ("memory_write_buffer_bursts_per_channel", "64");
   ("memory_write_high_threshold_percent", "85");
   ("memory_write_low_threshold_percent", "50");
   ("network_backend", "modular-ns3ub");
   ("node0_link_latency_ns", "100");
   ("node0_link_rate_gbps", "400");
   ("node1_link_latency_ns", "100");
   ("node1_link_rate_gbps", "400");
   ("node_count", "2");
   ("o3_branch_predictor", "TournamentBP");
   ("o3_fetch_buffer_bytes", "64");
   ("o3_fetch_queue_entries", "32");
   ("o3_fu_pool", "DefaultFUPool");
   ("o3_fu_pool_signature", "int_alu6,int_muldiv2,fp_alu4,fp_muldiv2,simd4,pred1,rdwr4,ipr1");
   ("o3_iq_entries", "64");
   ("o3_load_ports", "4");
   ("o3_lq_entries", "32");
   ("o3_phys_cc_regs", "1280");
   ("o3_phys_float_regs", "256");
   ("o3_phys_int_regs", "256");
   ("o3_phys_mat_regs", "2");
   ("o3_phys_vec_pred_regs", "32");
   ("o3_phys_vec_regs", "256");
   ("o3_rob_entries", "192");
   ("o3_sq_entries", "32");
   ("o3_store_ports", "2");
   ("o3_width", "8");
   ("online_cpu_count", "1");
   ("oob_link_speed", "100Gbps");
   ("packet_trace", "0");
   ("payload_dma_latency", "0ns");
   ("payload_dma_rate_gbps", "0");
   ("peer_latency_ns", "100");
   ("peer_link_overhead_bytes", "0");
   ("peer_link_rate_gbps", "400");
   ("peer_port_map", "identity");
   ("peer_port_selection", "tp-context");
   ("peer_serialization_stages", "1");
   ("peer_switch_delay", "0ns");
   ("peer_topology", "l1-switch");
   ("pipe_data", "0");
   ("profile", "fast");
   ("profile_revision", "udma400-atomic-fast-functional-v2");
   ("provider", "official");
   ("public_jettys", "128");
   ("restore_checkpoint", "none");
   ("routing", "dynamic_eid");
   ("sq_control_bytes", "48");
   ("sq_fetch_burst_wqebbs", "16");
   ("sq_fetch_latency", "0ns");
   ("sq_fetch_max_outstanding", "4");
   ("sq_prefetch_wqebbs", "64");
   ("sq_sge_bytes", "16");
   ("sq_wqebb_latency", "0ns");
   ("sync_mode", "adapter-local");
   ("sync_quantum_ns", "100");
   ("sync_request", "auto");
   ("template_checkpoint", "0");
   ("ub_fabric_layout", "switch");
   ("ub_port_count", "1");
   ("ub_transport", "switch-adapter");
   ("udma_address_translation", "context_pgd_control_abi_v2");
   ("udma_iotlb_entries", "64");
   ("udma_iotlb_policy", "fully_associative_lru_4KiB_context_tagged");
   ("udma_poll_interval", "10ns");
   ("udma_state_format", "4");
   ("virtual_time_synchronization", "lifecycle");
   ("wqebb_bytes", "64");
   ("write_payload_read_window", "8")].

Definition profile_kvm : list (string * string) :=
  [("auto_o3_lifecycle", "0");
   ("benchmark_cpu", "0");
   ("cache_line_size", "64");
   ("cache_prefetcher", "none");
   ("cache_replacement_policy", "lru");
   ("coherent_bus_forward_latency_cycles", "0");
   ("coherent_bus_frontend_latency_cycles", "1");
   ("coherent_bus_header_latency_cycles", "1");
   ("coherent_bus_response_latency_cycles", "1");
   ("coherent_bus_snoop_response_latency_cycles", "1");
   ("comparison_benchmark_profile", "ctp-rm-send-imm-i128");
   ("comparison_ctp", "1");
   ("comparison_inline_bytes", "128");
   ("comparison_jettys", "1");
   ("comparison_operation", "SEND_IMM");
   ("comparison_transport_mode", "RM");
   ("completion_event_slots", "64");
   ("core_bus_snoop_filter_capacity", "2MiB");
   ("cpu_boot_model", "ArmV8KvmCPU");
   ("cpu_count", "1");
   ("cpu_event_queue_policy", "single_event_queue");
   ("cpu_freq", "3GHz");
   ("cpu_mode", "kvm");
   ("cpu_roi_model", "ArmV8KvmCPU");
   ("cpu_switch_policy", "none");
   ("ctp_max_retransmissions", "7");
   ("ctp_retransmission", "off");
   ("ctp_rto_ps", "25600000");
   ("direct_wqe_latency", "0ns");
   ("direct_wqe_max_blocks", "0");
   ("dma_backend", "udma");
   ("dma_max_outstanding", "16");
   ("dma_request_segmentation", "cacheline_and_4KiB_boundaries");
   ("dma_transport", "native_gem5_request_port_dynamic");
   ("execution_mode", "native");
   ("external_udma_host_latency_ns", "100");
   ("external_udma_poll_interval", "1us");
   ("fabric_freq", "1GHz");
   ("fabric_width_bytes", "16");
   ("fast_boot_noncaching", "0");
   ("guest_memory_limit", "1GB");
   ("initial_memory_mode", "atomic_noncaching");
   ("io_bus_forward_latency_cycles", "1");
   ("io_bus_frontend_latency_cycles", "2");
   ("io_bus_header_latency_cycles", "1");
   ("io_bus_response_latency_cycles", "2");
   ("io_cache_assoc", "8");
   ("io_cache_latency_tag_data_response_cycles", "1,1,1");
   ("io_cache_mshrs", "32");
   ("io_cache_size", "1kB");
   ("io_cache_targets_per_mshr", "32");
   ("io_cache_write_buffers", "32");
   ("kvm_host_cpu_contract", "official_provider_host_dependent_ksva");
   ("l1d_assoc", "2");
   ("l1d_clusivity", "mostly_incl");
   ("l1d_latency_tag_data_response_cycles", "2,2,1");
   ("l1d_mshrs", "16");
   ("l1d_size", "32kB");
   ("l1d_targets_per_mshr", "16");
   ("l1d_write_buffers", "16");
   ("l1i_assoc", "3");
   ("l1i_clusivity", "mostly_incl");
   ("l1i_latency_tag_data_response_cycles", "1,1,1");
   ("l1i_mshrs", "4");
   ("l1i_size", "48kB");
   ("l1i_targets_per_mshr", "8");
   ("l1i_write_buffers", "8");
   ("l2_assoc", "16");
   ("l2_clusivity", "mostly_excl");
   ("l2_latency_tag_data_response_cycles", "12,12,5");
   ("l2_mshrs", "32");
   ("l2_size", "1MB");
   ("l2_targets_per_mshr", "8");
   ("l2_write_buffers", "8");
   ("l3_assoc", "16");
   ("l3_bus_snoop_filter_capacity", "8MiB");
   ("l3_clusivity", "mostly_excl");
   ("l3_freq", "1GHz");
   ("l3_latency_tag_data_response_cycles", "20,20,20");
   ("l3_mshrs", "20");
   ("l3_size", "16MB");
   ("l3_targets_per_mshr", "12");
   ("l3_write_buffers", "8");
   ("last_cache_level", "2");
   ("lifecycle_sync", "0");
   ("m5ops_base", "0x10010000");
   ("m5ops_mode", "addr");
   ("manifest_version", "1");
   ("max_jettys", "1152");
   ("max_jfc_depth", "4096");
   ("max_jfr_depth", "1024");
   ("max_jfs_depth", "1024");
   ("max_read_outstanding", "0");
   ("membus_snoop_filter_capacity", "64MiB");
   ("memory_address_mapping", "RoRaBaCoCh");
   ("memory_bus_forward_latency_cycles", "4");
   ("memory_bus_frontend_latency_cycles", "3");
   ("memory_bus_header_latency_cycles", "1");
   ("memory_bus_response_latency_cycles", "2");
   ("memory_bus_snoop_response_latency_cycles", "4");
   ("memory_channel_interleave_bytes", "128");
   ("memory_channel_xor_low_bit", "0");
   ("memory_channels", "1");
   ("memory_controller_backend_latency", "10ns");
   ("memory_controller_command_window", "10ns");
   ("memory_controller_frontend_latency", "10ns");
   ("memory_max_accesses_per_row", "16");
   ("memory_min_reads_per_switch", "16");
   ("memory_min_writes_per_switch", "16");
   ("memory_page_policy", "open_adaptive");
   ("memory_ranks_per_channel", "1");
   ("memory_read_buffer_bursts_per_channel", "32");
   ("memory_scheduler", "frfcfs");
   ("memory_size", "4GB");
   ("memory_type", "DDR3_1600_8x8");
   ("memory_write_buffer_bursts_per_channel", "64");
   ("memory_write_high_threshold_percent", "85");
   ("memory_write_low_threshold_percent", "50");
   ("network_backend", "modular-ns3ub");
   ("node0_link_latency_ns", "100");
   ("node0_link_rate_gbps", "400");
   ("node1_link_latency_ns", "100");
   ("node1_link_rate_gbps", "400");
   ("node_count", "2");
   ("o3_branch_predictor", "TournamentBP");
   ("o3_fetch_buffer_bytes", "64");
   ("o3_fetch_queue_entries", "32");
   ("o3_fu_pool", "DefaultFUPool");
   ("o3_fu_pool_signature", "int_alu6,int_muldiv2,fp_alu4,fp_muldiv2,simd4,pred1,rdwr4,ipr1");
   ("o3_iq_entries", "64");
   ("o3_load_ports", "4");
   ("o3_lq_entries", "32");
   ("o3_phys_cc_regs", "1280");
   ("o3_phys_float_regs", "256");
   ("o3_phys_int_regs", "256");
   ("o3_phys_mat_regs", "2");
   ("o3_phys_vec_pred_regs", "32");
   ("o3_phys_vec_regs", "256");
   ("o3_rob_entries", "192");
   ("o3_sq_entries", "32");
   ("o3_store_ports", "2");
   ("o3_width", "8");
   ("online_cpu_count", "1");
   ("oob_link_speed", "100Gbps");
   ("packet_trace", "0");
   ("payload_dma_latency", "0ns");
   ("payload_dma_rate_gbps", "0");
   ("peer_latency_ns", "100");
   ("peer_link_overhead_bytes", "0");
   ("peer_link_rate_gbps", "400");
   ("peer_port_map", "identity");
   ("peer_port_selection", "tp-context");
   ("peer_serialization_stages", "1");
   ("peer_switch_delay", "0ns");
   ("peer_topology", "l1-switch");
   ("pipe_data", "0");
   ("profile", "kvm");
   ("profile_revision", "udma400-kvm-functional-v2");
   ("provider", "official");
   ("public_jettys", "128");
   ("restore_checkpoint", "none");
   ("routing", "dynamic_eid");
   ("sq_control_bytes", "48");
   ("sq_fetch_burst_wqebbs", "16");
   ("sq_fetch_latency", "0ns");
   ("sq_fetch_max_outstanding", "4");
   ("sq_prefetch_wqebbs", "64");
   ("sq_sge_bytes", "16");
   ("sq_wqebb_latency", "0ns");
   ("sync_mode", "adapter-local");
   ("sync_quantum_ns", "100");
   ("sync_request", "auto");
   ("template_checkpoint", "0");
   ("ub_fabric_layout", "switch");
   ("ub_port_count", "1");
   ("ub_transport", "switch-adapter");
   ("udma_address_translation", "context_pgd_control_abi_v2");
   ("udma_iotlb_entries", "64");
   ("udma_iotlb_policy", "fully_associative_lru_4KiB_context_tagged");
   ("udma_poll_interval", "1ms");
   ("udma_state_format", "4");
   ("virtual_time_synchronization", "disabled");
   ("wqebb_bytes", "64");
   ("write_payload_read_window", "8")].

Definition profile_modern : list (string * string) :=
  [("auto_o3_lifecycle", "1");
   ("benchmark_cpu", "2");
   ("cache_line_size", "64");
   ("cache_prefetcher", "none");
   ("cache_replacement_policy", "lru");
   ("coherent_bus_forward_latency_cycles", "0");
   ("coherent_bus_frontend_latency_cycles", "1");
   ("coherent_bus_header_latency_cycles", "1");
   ("coherent_bus_response_latency_cycles", "1");
   ("coherent_bus_snoop_response_latency_cycles", "1");
   ("comparison_benchmark_profile", "ctp-rm-send-imm-i128");
   ("comparison_ctp", "1");
   ("comparison_inline_bytes", "128");
   ("comparison_jettys", "1");
   ("comparison_operation", "SEND_IMM");
   ("comparison_transport_mode", "RM");
   ("completion_event_slots", "64");
   ("core_bus_snoop_filter_capacity", "2MiB");
   ("cpu_boot_model", "AtomicSimpleCPU");
   ("cpu_count", "4");
   ("cpu_event_queue_policy", "single_event_queue");
   ("cpu_freq", "3.2GHz");
   ("cpu_mode", "server_o3");
   ("cpu_roi_model", "ArmO3CPU");
   ("cpu_switch_policy", "perftest_lifecycle_enter_o3_exit_atomic");
   ("ctp_max_retransmissions", "7");
   ("ctp_retransmission", "off");
   ("ctp_rto_ps", "25600000");
   ("direct_wqe_latency", "0ns");
   ("direct_wqe_max_blocks", "0");
   ("dma_backend", "udma");
   ("dma_max_outstanding", "16");
   ("dma_request_segmentation", "cacheline_and_4KiB_boundaries");
   ("dma_transport", "native_gem5_request_port_dynamic");
   ("execution_mode", "native");
   ("external_udma_host_latency_ns", "100");
   ("external_udma_poll_interval", "1us");
   ("fabric_freq", "2GHz");
   ("fabric_width_bytes", "64");
   ("fast_boot_noncaching", "1");
   ("guest_memory_limit", "2GB");
   ("initial_memory_mode", "atomic_noncaching");
   ("io_bus_forward_latency_cycles", "1");
   ("io_bus_frontend_latency_cycles", "2");
   ("io_bus_header_latency_cycles", "1");
   ("io_bus_response_latency_cycles", "2");
   ("io_cache_assoc", "8");
   ("io_cache_latency_tag_data_response_cycles", "1,1,1");
   ("io_cache_mshrs", "32");
   ("io_cache_size", "2MB");
   ("io_cache_targets_per_mshr", "32");
   ("io_cache_write_buffers", "32");
   ("kvm_host_cpu_contract", "not_applicable");
   ("l1d_assoc", "4");
   ("l1d_clusivity", "mostly_incl");
   ("l1d_latency_tag_data_response_cycles", "2,2,1");
   ("l1d_mshrs", "16");
   ("l1d_size", "64kB");
   ("l1d_targets_per_mshr", "16");
   ("l1d_write_buffers", "16");
   ("l1i_assoc", "4");
   ("l1i_clusivity", "mostly_incl");
   ("l1i_latency_tag_data_response_cycles", "1,1,1");
   ("l1i_mshrs", "8");
   ("l1i_size", "64kB");
   ("l1i_targets_per_mshr", "8");
   ("l1i_write_buffers", "8");
   ("l2_assoc", "8");
   ("l2_clusivity", "mostly_excl");
   ("l2_latency_tag_data_response_cycles", "12,12,5");
   ("l2_mshrs", "32");
   ("l2_size", "1MB");
   ("l2_targets_per_mshr", "16");
   ("l2_write_buffers", "16");
   ("l3_assoc", "16");
   ("l3_bus_snoop_filter_capacity", "8MiB");
   ("l3_clusivity", "mostly_excl");
   ("l3_freq", "2GHz");
   ("l3_latency_tag_data_response_cycles", "20,20,20");
   ("l3_mshrs", "64");
   ("l3_size", "32MB");
   ("l3_targets_per_mshr", "16");
   ("l3_write_buffers", "32");
   ("last_cache_level", "3");
   ("lifecycle_sync", "1");
   ("m5ops_base", "0x10010000");
   ("m5ops_mode", "inst");
   ("manifest_version", "1");
   ("max_jettys", "47");
   ("max_jfc_depth", "524288");
   ("max_jfr_depth", "8192");
   ("max_jfs_depth", "8192");
   ("max_read_outstanding", "256");
   ("membus_snoop_filter_capacity", "64MiB");
   ("memory_address_mapping", "RoRaBaCoCh");
   ("memory_bus_forward_latency_cycles", "4");
   ("memory_bus_frontend_latency_cycles", "3");
   ("memory_bus_header_latency_cycles", "1");
   ("memory_bus_response_latency_cycles", "2");
   ("memory_bus_snoop_response_latency_cycles", "4");
   ("memory_channel_interleave_bytes", "128");
   ("memory_channel_xor_low_bit", "0");
   ("memory_channels", "16");
   ("memory_controller_backend_latency", "10ns");
   ("memory_controller_command_window", "10ns");
   ("memory_controller_frontend_latency", "10ns");
   ("memory_max_accesses_per_row", "16");
   ("memory_min_reads_per_switch", "16");
   ("memory_min_writes_per_switch", "16");
   ("memory_page_policy", "open_adaptive");
   ("memory_ranks_per_channel", "1");
   ("memory_read_buffer_bursts_per_channel", "64");
   ("memory_scheduler", "frfcfs");
   ("memory_size", "4GB");
   ("memory_type", "DDR5_6400_4x8");
   ("memory_write_buffer_bursts_per_channel", "128");
   ("memory_write_high_threshold_percent", "85");
   ("memory_write_low_threshold_percent", "50");
   ("network_backend", "modular-ns3ub");
   ("node0_link_latency_ns", "375");
   ("node0_link_rate_gbps", "400");
   ("node1_link_latency_ns", "375");
   ("node1_link_rate_gbps", "400");
   ("node_count", "2");
   ("o3_branch_predictor", "TournamentBP");
   ("o3_fetch_buffer_bytes", "64");
   ("o3_fetch_queue_entries", "32");
   ("o3_fu_pool", "DefaultFUPool");
   ("o3_fu_pool_signature", "int_alu6,int_muldiv2,fp_alu4,fp_muldiv2,simd4,pred1,rdwr4,ipr1");
   ("o3_iq_entries", "64");
   ("o3_load_ports", "4");
   ("o3_lq_entries", "32");
   ("o3_phys_cc_regs", "1280");
   ("o3_phys_float_regs", "256");
   ("o3_phys_int_regs", "256");
   ("o3_phys_mat_regs", "2");
   ("o3_phys_vec_pred_regs", "32");
   ("o3_phys_vec_regs", "256");
   ("o3_rob_entries", "192");
   ("o3_sq_entries", "32");
   ("o3_store_ports", "2");
   ("o3_width", "8");
   ("online_cpu_count", "4");
   ("oob_link_speed", "100Gbps");
   ("packet_trace", "0");
   ("payload_dma_latency", "0ns");
   ("payload_dma_rate_gbps", "0");
   ("peer_latency_ns", "375");
   ("peer_link_overhead_bytes", "0");
   ("peer_link_rate_gbps", "400");
   ("peer_port_map", "identity");
   ("peer_port_selection", "tp-context");
   ("peer_serialization_stages", "1");
   ("peer_switch_delay", "500ns");
   ("peer_topology", "l1-switch");
   ("pipe_data", "0");
   ("profile", "modern");
   ("profile_revision", "modern-arm-o3-ddr5-6400-v4");
   ("provider", "official");
   ("public_jettys", "1");
   ("restore_checkpoint", "none");
   ("routing", "dynamic_eid");
   ("sq_control_bytes", "48");
   ("sq_fetch_burst_wqebbs", "16");
   ("sq_fetch_latency", "0ns");
   ("sq_fetch_max_outstanding", "4");
   ("sq_prefetch_wqebbs", "64");
   ("sq_sge_bytes", "16");
   ("sq_wqebb_latency", "0ns");
   ("sync_mode", "adapter-local");
   ("sync_quantum_ns", "100");
   ("sync_request", "auto");
   ("template_checkpoint", "0");
   ("ub_fabric_layout", "switch");
   ("ub_port_count", "1");
   ("ub_transport", "switch-adapter");
   ("udma_address_translation", "context_pgd_control_abi_v2");
   ("udma_iotlb_entries", "64");
   ("udma_iotlb_policy", "fully_associative_lru_4KiB_context_tagged");
   ("udma_poll_interval", "10ns");
   ("udma_state_format", "4");
   ("virtual_time_synchronization", "lifecycle");
   ("wqebb_bytes", "64");
   ("write_payload_read_window", "8")].

Definition profile_server : list (string * string) :=
  [("auto_o3_lifecycle", "0");
   ("benchmark_cpu", "2");
   ("cache_line_size", "64");
   ("cache_prefetcher", "none");
   ("cache_replacement_policy", "lru");
   ("coherent_bus_forward_latency_cycles", "0");
   ("coherent_bus_frontend_latency_cycles", "1");
   ("coherent_bus_header_latency_cycles", "1");
   ("coherent_bus_response_latency_cycles", "1");
   ("coherent_bus_snoop_response_latency_cycles", "1");
   ("comparison_benchmark_profile", "ctp-rm-send-imm-i128");
   ("comparison_ctp", "1");
   ("comparison_inline_bytes", "128");
   ("comparison_jettys", "1");
   ("comparison_operation", "SEND_IMM");
   ("comparison_transport_mode", "RM");
   ("completion_event_slots", "64");
   ("core_bus_snoop_filter_capacity", "2MiB");
   ("cpu_boot_model", "AtomicSimpleCPU");
   ("cpu_count", "4");
   ("cpu_event_queue_policy", "single_event_queue");
   ("cpu_freq", "3GHz");
   ("cpu_mode", "server_o3");
   ("cpu_roi_model", "ArmO3CPU");
   ("cpu_switch_policy", "send_lat_roi_enter_o3_exit_atomic");
   ("ctp_max_retransmissions", "7");
   ("ctp_retransmission", "off");
   ("ctp_rto_ps", "25600000");
   ("direct_wqe_latency", "0ns");
   ("direct_wqe_max_blocks", "0");
   ("dma_backend", "udma");
   ("dma_max_outstanding", "16");
   ("dma_request_segmentation", "cacheline_and_4KiB_boundaries");
   ("dma_transport", "native_gem5_request_port_dynamic");
   ("execution_mode", "native");
   ("external_udma_host_latency_ns", "100");
   ("external_udma_poll_interval", "1us");
   ("fabric_freq", "2GHz");
   ("fabric_width_bytes", "64");
   ("fast_boot_noncaching", "0");
   ("guest_memory_limit", "8GB");
   ("initial_memory_mode", "atomic");
   ("io_bus_forward_latency_cycles", "1");
   ("io_bus_frontend_latency_cycles", "2");
   ("io_bus_header_latency_cycles", "1");
   ("io_bus_response_latency_cycles", "2");
   ("io_cache_assoc", "8");
   ("io_cache_latency_tag_data_response_cycles", "1,1,1");
   ("io_cache_mshrs", "32");
   ("io_cache_size", "1kB");
   ("io_cache_targets_per_mshr", "32");
   ("io_cache_write_buffers", "32");
   ("kvm_host_cpu_contract", "not_applicable");
   ("l1d_assoc", "4");
   ("l1d_clusivity", "mostly_incl");
   ("l1d_latency_tag_data_response_cycles", "2,2,1");
   ("l1d_mshrs", "16");
   ("l1d_size", "64kB");
   ("l1d_targets_per_mshr", "16");
   ("l1d_write_buffers", "16");
   ("l1i_assoc", "4");
   ("l1i_clusivity", "mostly_incl");
   ("l1i_latency_tag_data_response_cycles", "1,1,1");
   ("l1i_mshrs", "8");
   ("l1i_size", "64kB");
   ("l1i_targets_per_mshr", "8");
   ("l1i_write_buffers", "8");
   ("l2_assoc", "8");
   ("l2_clusivity", "mostly_excl");
   ("l2_latency_tag_data_response_cycles", "12,12,5");
   ("l2_mshrs", "32");
   ("l2_size", "1MB");
   ("l2_targets_per_mshr", "16");
   ("l2_write_buffers", "16");
   ("l3_assoc", "16");
   ("l3_bus_snoop_filter_capacity", "8MiB");
   ("l3_clusivity", "mostly_excl");
   ("l3_freq", "2GHz");
   ("l3_latency_tag_data_response_cycles", "20,20,20");
   ("l3_mshrs", "64");
   ("l3_size", "32MB");
   ("l3_targets_per_mshr", "16");
   ("l3_write_buffers", "32");
   ("last_cache_level", "3");
   ("lifecycle_sync", "1");
   ("m5ops_base", "0x10010000");
   ("m5ops_mode", "inst");
   ("manifest_version", "1");
   ("max_jettys", "1152");
   ("max_jfc_depth", "4096");
   ("max_jfr_depth", "1024");
   ("max_jfs_depth", "1024");
   ("max_read_outstanding", "0");
   ("membus_snoop_filter_capacity", "64MiB");
   ("memory_address_mapping", "RoRaBaCoCh");
   ("memory_bus_forward_latency_cycles", "4");
   ("memory_bus_frontend_latency_cycles", "3");
   ("memory_bus_header_latency_cycles", "1");
   ("memory_bus_response_latency_cycles", "2");
   ("memory_bus_snoop_response_latency_cycles", "4");
   ("memory_channel_interleave_bytes", "128");
   ("memory_channel_xor_low_bit", "0");
   ("memory_channels", "8");
   ("memory_controller_backend_latency", "10ns");
   ("memory_controller_command_window", "10ns");
   ("memory_controller_frontend_latency", "10ns");
   ("memory_max_accesses_per_row", "16");
   ("memory_min_reads_per_switch", "16");
   ("memory_min_writes_per_switch", "16");
   ("memory_page_policy", "open_adaptive");
   ("memory_ranks_per_channel", "1");
   ("memory_read_buffer_bursts_per_channel", "64");
   ("memory_scheduler", "frfcfs");
   ("memory_size", "4GB");
   ("memory_type", "DDR4_2400_8x8");
   ("memory_write_buffer_bursts_per_channel", "128");
   ("memory_write_high_threshold_percent", "85");
   ("memory_write_low_threshold_percent", "50");
   ("network_backend", "modular-ns3ub");
   ("node0_link_latency_ns", "100");
   ("node0_link_rate_gbps", "400");
   ("node1_link_latency_ns", "100");
   ("node1_link_rate_gbps", "400");
   ("node_count", "2");
   ("o3_branch_predictor", "TournamentBP");
   ("o3_fetch_buffer_bytes", "64");
   ("o3_fetch_queue_entries", "32");
   ("o3_fu_pool", "DefaultFUPool");
   ("o3_fu_pool_signature", "int_alu6,int_muldiv2,fp_alu4,fp_muldiv2,simd4,pred1,rdwr4,ipr1");
   ("o3_iq_entries", "64");
   ("o3_load_ports", "4");
   ("o3_lq_entries", "32");
   ("o3_phys_cc_regs", "1280");
   ("o3_phys_float_regs", "256");
   ("o3_phys_int_regs", "256");
   ("o3_phys_mat_regs", "2");
   ("o3_phys_vec_pred_regs", "32");
   ("o3_phys_vec_regs", "256");
   ("o3_rob_entries", "192");
   ("o3_sq_entries", "32");
   ("o3_store_ports", "2");
   ("o3_width", "8");
   ("online_cpu_count", "4");
   ("oob_link_speed", "100Gbps");
   ("packet_trace", "0");
   ("payload_dma_latency", "0ns");
   ("payload_dma_rate_gbps", "0");
   ("peer_latency_ns", "100");
   ("peer_link_overhead_bytes", "0");
   ("peer_link_rate_gbps", "400");
   ("peer_port_map", "identity");
   ("peer_port_selection", "tp-context");
   ("peer_serialization_stages", "1");
   ("peer_switch_delay", "0ns");
   ("peer_topology", "l1-switch");
   ("pipe_data", "0");
   ("profile", "server");
   ("profile_revision", "server-o3-ddr4-coherent-tdma-v5");
   ("provider", "official");
   ("public_jettys", "128");
   ("restore_checkpoint", "none");
   ("routing", "dynamic_eid");
   ("sq_control_bytes", "48");
   ("sq_fetch_burst_wqebbs", "16");
   ("sq_fetch_latency", "0ns");
   ("sq_fetch_max_outstanding", "4");
   ("sq_prefetch_wqebbs", "64");
   ("sq_sge_bytes", "16");
   ("sq_wqebb_latency", "0ns");
   ("sync_mode", "adapter-local");
   ("sync_quantum_ns", "100");
   ("sync_request", "auto");
   ("template_checkpoint", "0");
   ("ub_fabric_layout", "switch");
   ("ub_port_count", "1");
   ("ub_transport", "switch-adapter");
   ("udma_address_translation", "context_pgd_control_abi_v2");
   ("udma_iotlb_entries", "64");
   ("udma_iotlb_policy", "fully_associative_lru_4KiB_context_tagged");
   ("udma_poll_interval", "10ns");
   ("udma_state_format", "4");
   ("virtual_time_synchronization", "lifecycle");
   ("wqebb_bytes", "64");
   ("write_payload_read_window", "8")].

Definition profile_udma400 : list (string * string) :=
  [("auto_o3_lifecycle", "0");
   ("benchmark_cpu", "-1");
   ("cache_line_size", "64");
   ("cache_prefetcher", "none");
   ("cache_replacement_policy", "lru");
   ("coherent_bus_forward_latency_cycles", "0");
   ("coherent_bus_frontend_latency_cycles", "1");
   ("coherent_bus_header_latency_cycles", "1");
   ("coherent_bus_response_latency_cycles", "1");
   ("coherent_bus_snoop_response_latency_cycles", "1");
   ("comparison_benchmark_profile", "ctp-rm-send-imm-i128");
   ("comparison_ctp", "1");
   ("comparison_inline_bytes", "128");
   ("comparison_jettys", "1");
   ("comparison_operation", "SEND_IMM");
   ("comparison_transport_mode", "RM");
   ("completion_event_slots", "64");
   ("core_bus_snoop_filter_capacity", "2MiB");
   ("cpu_boot_model", "AtomicSimpleCPU");
   ("cpu_count", "1");
   ("cpu_event_queue_policy", "single_event_queue");
   ("cpu_freq", "3GHz");
   ("cpu_mode", "atomic_cache");
   ("cpu_roi_model", "AtomicSimpleCPU");
   ("cpu_switch_policy", "none");
   ("ctp_max_retransmissions", "7");
   ("ctp_retransmission", "off");
   ("ctp_rto_ps", "25600000");
   ("direct_wqe_latency", "0ns");
   ("direct_wqe_max_blocks", "0");
   ("dma_backend", "udma");
   ("dma_max_outstanding", "16");
   ("dma_request_segmentation", "cacheline_and_4KiB_boundaries");
   ("dma_transport", "native_gem5_request_port_dynamic");
   ("execution_mode", "native");
   ("external_udma_host_latency_ns", "100");
   ("external_udma_poll_interval", "1us");
   ("fabric_freq", "1GHz");
   ("fabric_width_bytes", "16");
   ("fast_boot_noncaching", "0");
   ("guest_memory_limit", "1GB");
   ("initial_memory_mode", "atomic");
   ("io_bus_forward_latency_cycles", "1");
   ("io_bus_frontend_latency_cycles", "2");
   ("io_bus_header_latency_cycles", "1");
   ("io_bus_response_latency_cycles", "2");
   ("io_cache_assoc", "8");
   ("io_cache_latency_tag_data_response_cycles", "1,1,1");
   ("io_cache_mshrs", "32");
   ("io_cache_size", "1kB");
   ("io_cache_targets_per_mshr", "32");
   ("io_cache_write_buffers", "32");
   ("kvm_host_cpu_contract", "not_applicable");
   ("l1d_assoc", "2");
   ("l1d_clusivity", "mostly_incl");
   ("l1d_latency_tag_data_response_cycles", "2,2,1");
   ("l1d_mshrs", "16");
   ("l1d_size", "32kB");
   ("l1d_targets_per_mshr", "16");
   ("l1d_write_buffers", "16");
   ("l1i_assoc", "3");
   ("l1i_clusivity", "mostly_incl");
   ("l1i_latency_tag_data_response_cycles", "1,1,1");
   ("l1i_mshrs", "4");
   ("l1i_size", "48kB");
   ("l1i_targets_per_mshr", "8");
   ("l1i_write_buffers", "8");
   ("l2_assoc", "16");
   ("l2_clusivity", "mostly_excl");
   ("l2_latency_tag_data_response_cycles", "12,12,5");
   ("l2_mshrs", "32");
   ("l2_size", "1MB");
   ("l2_targets_per_mshr", "8");
   ("l2_write_buffers", "8");
   ("l3_assoc", "16");
   ("l3_bus_snoop_filter_capacity", "8MiB");
   ("l3_clusivity", "mostly_excl");
   ("l3_freq", "1GHz");
   ("l3_latency_tag_data_response_cycles", "20,20,20");
   ("l3_mshrs", "20");
   ("l3_size", "16MB");
   ("l3_targets_per_mshr", "12");
   ("l3_write_buffers", "8");
   ("last_cache_level", "2");
   ("lifecycle_sync", "1");
   ("m5ops_base", "0x10010000");
   ("m5ops_mode", "inst");
   ("manifest_version", "1");
   ("max_jettys", "1152");
   ("max_jfc_depth", "4096");
   ("max_jfr_depth", "1024");
   ("max_jfs_depth", "1024");
   ("max_read_outstanding", "0");
   ("membus_snoop_filter_capacity", "64MiB");
   ("memory_address_mapping", "RoRaBaCoCh");
   ("memory_bus_forward_latency_cycles", "4");
   ("memory_bus_frontend_latency_cycles", "3");
   ("memory_bus_header_latency_cycles", "1");
   ("memory_bus_response_latency_cycles", "2");
   ("memory_bus_snoop_response_latency_cycles", "4");
   ("memory_channel_interleave_bytes", "128");
   ("memory_channel_xor_low_bit", "0");
   ("memory_channels", "1");
   ("memory_controller_backend_latency", "10ns");
   ("memory_controller_command_window", "10ns");
   ("memory_controller_frontend_latency", "10ns");
   ("memory_max_accesses_per_row", "16");
   ("memory_min_reads_per_switch", "16");
   ("memory_min_writes_per_switch", "16");
   ("memory_page_policy", "open_adaptive");
   ("memory_ranks_per_channel", "1");
   ("memory_read_buffer_bursts_per_channel", "32");
   ("memory_scheduler", "frfcfs");
   ("memory_size", "4GB");
   ("memory_type", "DDR3_1600_8x8");
   ("memory_write_buffer_bursts_per_channel", "64");
   ("memory_write_high_threshold_percent", "85");
   ("memory_write_low_threshold_percent", "50");
   ("network_backend", "modular-ns3ub");
   ("node0_link_latency_ns", "100");
   ("node0_link_rate_gbps", "400");
   ("node1_link_latency_ns", "100");
   ("node1_link_rate_gbps", "400");
   ("node_count", "2");
   ("o3_branch_predictor", "TournamentBP");
   ("o3_fetch_buffer_bytes", "64");
   ("o3_fetch_queue_entries", "32");
   ("o3_fu_pool", "DefaultFUPool");
   ("o3_fu_pool_signature", "int_alu6,int_muldiv2,fp_alu4,fp_muldiv2,simd4,pred1,rdwr4,ipr1");
   ("o3_iq_entries", "64");
   ("o3_load_ports", "4");
   ("o3_lq_entries", "32");
   ("o3_phys_cc_regs", "1280");
   ("o3_phys_float_regs", "256");
   ("o3_phys_int_regs", "256");
   ("o3_phys_mat_regs", "2");
   ("o3_phys_vec_pred_regs", "32");
   ("o3_phys_vec_regs", "256");
   ("o3_rob_entries", "192");
   ("o3_sq_entries", "32");
   ("o3_store_ports", "2");
   ("o3_width", "8");
   ("online_cpu_count", "1");
   ("oob_link_speed", "100Gbps");
   ("packet_trace", "0");
   ("payload_dma_latency", "0ns");
   ("payload_dma_rate_gbps", "0");
   ("peer_latency_ns", "100");
   ("peer_link_overhead_bytes", "0");
   ("peer_link_rate_gbps", "400");
   ("peer_port_map", "identity");
   ("peer_port_selection", "tp-context");
   ("peer_serialization_stages", "1");
   ("peer_switch_delay", "0ns");
   ("peer_topology", "l1-switch");
   ("pipe_data", "0");
   ("profile", "udma400");
   ("profile_revision", "udma400-atomic-cache-v1");
   ("provider", "official");
   ("public_jettys", "128");
   ("restore_checkpoint", "none");
   ("routing", "dynamic_eid");
   ("sq_control_bytes", "48");
   ("sq_fetch_burst_wqebbs", "16");
   ("sq_fetch_latency", "0ns");
   ("sq_fetch_max_outstanding", "4");
   ("sq_prefetch_wqebbs", "64");
   ("sq_sge_bytes", "16");
   ("sq_wqebb_latency", "0ns");
   ("sync_mode", "adapter-local");
   ("sync_quantum_ns", "100");
   ("sync_request", "auto");
   ("template_checkpoint", "0");
   ("ub_fabric_layout", "switch");
   ("ub_port_count", "1");
   ("ub_transport", "switch-adapter");
   ("udma_address_translation", "context_pgd_control_abi_v2");
   ("udma_iotlb_entries", "64");
   ("udma_iotlb_policy", "fully_associative_lru_4KiB_context_tagged");
   ("udma_poll_interval", "10ns");
   ("udma_state_format", "4");
   ("virtual_time_synchronization", "lifecycle");
   ("wqebb_bytes", "64");
   ("write_payload_read_window", "8")].

(** [PROFILE_DEFAULTS]. *)
Definition PROFILE_DEFAULTS : list (string * list (string * string)) :=
  [("fast", profile_fast); ("kvm", profile_kvm); ("modern", profile_modern); ("server", profile_server); ("udma400", profile_udma400)].
