(* ===== verification/ConfigRuntime.v ===== *)
(** * Resolving a gem5 topology ([ubsim_lab/config_runtime.py])

    [resolve_gem5] merges a profile's defaults with the compiled plan into the
    run manifest. *)

From Stdlib Require Import ZArith Lia Ascii.
From stdpp Require Import base strings gmap fin_maps numbers option list sorting.
From S2P Require Import Prelude PyStr Json Samples Topology TopologyFacts Cli ProfileDefaults.

Open Scope string_scope.
Open Scope list_scope.
Open Scope Z_scope.

(** [f"{v}"] for the scalar values a compiled topology holds in these places. *)
Definition format_scalar (v : json) : res string :=
  match v with
  | JInt z => Ok (str_of_Z z)
  | JStr s => Ok s
  | JBool b => Ok (if b then "True" else "False")
  | JNull => Ok "None"
  | _ => Err (Exn TypeError "value has no modelled format" [PS (type_name v)])
  end.

(** [v[0]] for a list. *)
Definition first_item (v : json) : res json :=
  match v with
  | JList (x :: _) => Ok x
  | JList [] => Err (Exn IndexError "list index out of range" [])
  | _ => Err (Exn TypeError "{} object is not subscriptable" [PS (type_name v)])
  end.

(** [spec.get("machine", {})], an object in every compiled topology. *)
Definition machine_of (spec : json) : res jobj :=
  match spec with
  | JObj o => match dget o "machine" with
              | None => Ok []
              | Some (JObj m) => Ok m
              | Some v => Err (Exn TypeError "{} is not an object" [PS (type_name v)])
              end
  | v => Err (Exn TypeError "{} is not an object" [PS (type_name v)])
  end.

(** [min(...)] of a non-empty iterable. *)
Definition py_min (l : list Z) : res Z :=
  match l with
  | [] => Err (Exn ValueError "min() arg is an empty sequence" [])
  | x :: l' => Ok (foldl Z.min x l')
  end.

Definition node_key (index : nat) (suffix : string) : string :=
  "node" +:+ str_of_Z (Z.of_nat index) +:+ suffix.

Definition first_profile (spec : json) : res string :=
  nodes ← subscript spec "nodes";
  node ← first_item nodes;
  profile ← subscript node "profile";
  or_raise (json_is_str profile) (Exn KeyError "{profile}" []).

(** The first [values.update]. *)
Definition base_update (root profile memory : string) (plan : plan) (latency quantum : Z)
    (rate0 : Z) (required_sync : bool) (values : manifest) : res manifest :=
  let initrd := if String.eqb profile "modern" && String.eqb memory "4GB"
                then "out/official-udma-64k-node-template-20261021.cpio.gz"
                else "out/official-udma-64k-20261015.cpio.gz" in
  public ← (if p_jetty_limit_explicit plan then Ok "1" else getitem values "public_jettys");
  Ok (dupdate values
    [("initrd_path", join_path root initrd);
     ("execution_mode", "native");
     ("node_count", str_of_Z (len (p_node_ids plan)));
     ("memory_size", memory);
     ("peer_latency_ns", str_of_Z latency);
     ("sync_quantum_ns", str_of_Z quantum);
     ("external_udma_host_latency_ns", str_of_Z quantum);
     ("sync_request", if required_sync then "roi" else "off");
     ("virtual_time_synchronization", if required_sync then "lifecycle" else "disabled");
     ("lifecycle_sync", if required_sync then "1" else "0");
     ("restore_checkpoint", "none");
     ("template_checkpoint", "0");
     ("ub_fabric_layout", p_fabric_layout plan);
     ("ub_port_count", str_of_Z (p_port_count plan));
     ("peer_link_rate_gbps", str_of_Z rate0);
     ("peer_switch_delay", str_of_Z (p_switch_delay_ns plan) +:+ "ns");
     ("max_jettys", str_of_Z (p_max_jettys plan));
     ("public_jettys", public)]).

(** The CPU policy of the [if profile == "modern" and lifecycle] statement. *)
Definition cpu_update (profile : string) (lifecycle : bool) (values : manifest) : manifest :=
  if String.eqb profile "modern" && lifecycle then
    dupdate values [("auto_o3_lifecycle", "1"); ("fast_boot_noncaching", "1");
                    ("initial_memory_mode", "atomic_noncaching");
                    ("cpu_switch_policy", "perftest_lifecycle_enter_o3_exit_atomic")]
  else
    let values := dupdate values [("auto_o3_lifecycle", "0"); ("fast_boot_noncaching", "0")] in
    if String.eqb profile "modern"
    then dupdate values [("initial_memory_mode", "atomic");
                         ("cpu_switch_policy", "send_lat_roi_enter_o3_exit_atomic")]
    else values.

(** One of the machine overrides: [if key in machine: values[target] = ...]. *)
Definition override (machine : jobj) (key target : string) (values : manifest) : res manifest :=
  match dget machine key with
  | None => Ok values
  | Some v => s ← format_scalar v; Ok (dset values target s)
  end.

(** [for index, link in enumerate(links)]. *)
Fixpoint set_links (index : nat) (links : list (Z * Z)) (values : manifest) : manifest :=
  match links with
  | [] => values
  | (rate, latency) :: links' =>
      set_links (S index) links'
        (dset (dset values (node_key index "_link_latency_ns") (str_of_Z latency))
           (node_key index "_link_rate_gbps") (str_of_Z rate))
  end.

(** [for index in range(count, 8)]. *)
Definition pop_links (count : nat) (values : manifest) : manifest :=
  foldl (λ v index, dpop (dpop v (node_key index "_link_latency_ns"))
                      (node_key index "_link_rate_gbps"))
    values (seq count (8 - count)).

Definition resolve_gem5 (root : string) (spec : json) (plan : plan) : res manifest :=
  raise Exn ValueError "gem5 configuration requires gem5 topology" []
    when negb (String.eqb (p_simulator plan) "gem5") ;;
  profile ← first_profile spec;
  values ← getitem PROFILE_DEFAULTS profile;
  latency ← py_min (p_node_links plan).*2;
  let quantum := if String.eqb profile "modern" then Z.min 100 latency else latency in
  machine ← machine_of spec;
  memory_gb ← format_scalar (default (JInt 32) (dget machine "memory_size_gb"));
  execution ← subscript spec "execution";
  sync ← subscript execution "sync";
  let required_sync := eq_str sync "required" in
  link0 ← or_raise (head (p_node_links plan)) (Exn IndexError "list index out of range" []);
  values ← base_update root profile (memory_gb +:+ "GB") plan latency quantum link0.1 required_sync values;
  let values := cpu_update profile required_sync values in
  values ← override machine "o3_lq_entries" "o3_lq_entries" values;
  values ← override machine "o3_sq_entries" "o3_sq_entries" values;
  values ← override machine "l1d_prefetcher" "cache_prefetcher" values;
  Ok (pop_links (length (p_node_ids plan)) (set_links 0 (p_node_links plan) values)).

(** ** What a compiled gem5 topology provides *)

(** The tuning fields have a printed form. *)
Definition tuned (m : jobj) : Prop :=
  ∀ k v, k ∈ ["memory_size_gb"; "o3_lq_entries"; "o3_sq_entries"; "l1d_prefetcher"] →
    dget m k = Some v → ∃ s, format_scalar v = Ok s ∧ plain s = true.

Lemma digit_plain c : is_digit c = true → plain_char c = true.
Proof.
  unfold is_digit, plain_char. intros H. bool_inv.
  rewrite !andb_true_iff, !negb_true_iff, !orb_false_iff, !andb_false_iff, !Z.leb_gt, !Z.eqb_neq. lia.
Qed.

Lemma digits_plain s : str_forallb is_digit s = true → plain s = true.
Proof.
  unfold plain. induction s as [|c s IH]; cbn; [done|].
  intros [H1 H2]%andb_true_iff. by rewrite digit_plain, IH.
Qed.

Lemma str_of_Z_plain n : 0 <= n → plain (str_of_Z n) = true.
Proof. intros. by apply digits_plain, str_of_Z_digits. Qed.

Lemma queue_field_Ok m field :
  check_queue_field m field = Ok tt →
  dget m field = None ∨ ∃ n, dget m field = Some (JInt n) ∧ 1 <= n <= 1024.
Proof.
  unfold check_queue_field. destruct (dget m field) as [v|]; [|by left].
  intros H. py_inv. field_inv. bool_inv. right. eauto.
Qed.

(** The bounds of the tuning fields. *)
Record limited (m : jobj) : Prop := {
  li_memory : ∀ v, dget m "memory_size_gb" = Some v → ∃ n, v = JInt n ∧ 4 <= n <= 128;
  li_queue : ∀ f v, f ∈ ["o3_lq_entries"; "o3_sq_entries"] → dget m f = Some v →
    ∃ n, v = JInt n ∧ 1 <= n <= 1024;
  li_prefetcher : ∀ v, dget m "l1d_prefetcher" = Some v → ∃ s, v = JStr s ∧ s ∈ L1D_PREFETCHERS
}.

Lemma limited_tuned m : limited m → tuned m.
Proof.
  intros [Hm Hq Hp] k v Hk Hv. rewrite !elem_of_cons, elem_of_nil in Hk.
  assert (k = "memory_size_gb" ∨ k ∈ ["o3_lq_entries"; "o3_sq_entries"] ∨ k = "l1d_prefetcher")
    as [->|[Hin| ->]] by (rewrite !elem_of_cons; tauto).
  - destruct (Hm v Hv) as (n & -> & ?). eexists. split; [reflexivity|]. apply str_of_Z_plain. lia.
  - destruct (Hq k v Hin Hv) as (n & -> & ?). eexists. split; [reflexivity|]. apply str_of_Z_plain. lia.
  - destruct (Hp v Hv) as (s & -> & Hs). eexists. split; [reflexivity|].
    unfold L1D_PREFETCHERS in Hs. rewrite !elem_of_cons, elem_of_nil in Hs.
    by destruct Hs as [->|[->|[->|[->|[->|[]]]]]].
Qed.

Lemma check_machine_Ok spec simulator m :
  check_machine spec simulator = Ok m → machine_of (JObj spec) = Ok m ∧ limited m.
Proof.
  unfold check_machine, machine_of. destruct (dget spec "machine") as [raw|].
  2: { intros [= <-]. split; [done|]. by split. }
  intros H. destruct (negb (String.eqb simulator "gem5")); [done|].
  apply bind_Ok in H as (o & Ho & H). apply fields_Ok in Ho as (-> & _).
  apply bind_Ok in H as (u1 & H1 & H). apply bind_Ok in H as ([] & H2 & H).
  apply bind_Ok in H as ([] & H3 & H). apply bind_Ok in H as (u4 & H4 & H).
  injection H as ->. split; [done|]. split.
  - intros v Hv. rewrite Hv in H1. py_inv. field_inv. bool_inv. eexists. split; [reflexivity|lia].
  - intros f v Hf Hv. rewrite !elem_of_cons, elem_of_nil in Hf.
    destruct Hf as [->|[->|[]]]; [apply queue_field_Ok in H2 as H5|apply queue_field_Ok in H3 as H5];
      destruct H5 as [?|(n & ? & ?)]; [congruence| |congruence|]; simplify_eq; eauto.
  - intros v Hv. rewrite Hv in H4. apply choice_Ok in H4 as [-> Hin]. eauto.
Qed.

Lemma check_header_spec raw h :
  check_header raw = Ok h →
  raw = JObj (h_spec h) ∧ subscript raw "nodes" = Ok (JList (h_nodes h)) ∧
  ∃ e, subscript raw "execution" = Ok e ∧ subscript e "sync" = Ok (JStr (h_sync h)).
Proof.
  unfold check_header. intros H. py_inv. field_inv. split; [done|]. split; [done|].
  eexists. split; [done|]. done.
Qed.

(** The parts of the document [resolve_gem5] reads. *)
Record gem5_source (raw : json) (p : plan) (profile : string) (machine : jobj) : Prop := {
  gs_profile : first_profile raw = Ok profile;
  gs_known : profile ∈ GEM5_PROFILES;
  gs_machine : machine_of raw = Ok machine;
  gs_limited : limited machine;
  gs_sync : ∃ e s, subscript raw "execution" = Ok e ∧ subscript e "sync" = Ok (JStr s)
}.

Lemma compile_gem5_source raw p :
  compile_topology raw = Ok p → p_simulator p = "gem5" → ∃ profile machine, gem5_source raw p profile machine.
Proof.
  intros (h & nacc & machine & switch & dacc & S & Hlen & Hids & _)%compile_topology_stages Hg.
  destruct S as [Hh I Hs Hk Hc _ Hm _ _ _]. rewrite Hg in *.
  destruct (check_header_spec _ _ Hh) as (-> & Hn & e & He1 & He2).
  pose proof (ni_gem5 _ _ I) as Hp. rewrite Hs in Hp. specialize (Hp ltac:(done)).
  destruct (h_nodes h) as [|node nodes] eqn:E; [unfold len in *; cbn in *; lia|].
  apply Forall_cons in Hp as [(profile & Hpr & Hin) _].
  destruct (check_machine_Ok _ _ _ Hm) as [Hm1 Hm2].
  exists profile, machine. split; [|done|done|done|by eexists _, _].
  unfold first_profile. rewrite Hn. cbn. rewrite Hpr. done.
Qed.

(** ** The manifest has every key of the profile *)

(** The keys common to all profiles, without the per-node link keys, which the
    plan replaces. *)
Definition machine_keys : list string :=
  List.filter (λ k, negb (per_node_link_key k)) (keys profile_modern).

Definition holds_keys (m : manifest) : Prop := ∀ k, k ∈ machine_keys → is_Some (dget m k).

Lemma machine_keys_not_link k : k ∈ machine_keys → per_node_link_key k = false.
Proof.
  unfold machine_keys. rewrite list_elem_of_In, filter_In. intros [_ Hk].
  apply negb_true_iff in Hk. exact Hk.
Qed.

Lemma profiles_have_keys :
  forallb (λ pr, match dget PROFILE_DEFAULTS pr with
                 | Some m => forallb (has m) machine_keys && bool_decide (NoDup (keys m))
                 | None => false end) GEM5_PROFILES = true.
Proof. vm_compute. reflexivity. Qed.

Lemma profile_defaults profile :
  profile ∈ GEM5_PROFILES →
  ∃ m, getitem PROFILE_DEFAULTS profile = Ok m ∧ holds_keys m ∧ NoDup (keys m).
Proof.
  intros Hp. pose proof profiles_have_keys as H. rewrite forallb_forall in H.
  apply list_elem_of_In, H in Hp. unfold getitem.
  destruct (dget PROFILE_DEFAULTS profile) as [m|]; [|done]. exists m. split; [done|].
  apply andb_true_iff in Hp as [Hk Hn]. split; [|by apply bool_decide_eq_true in Hn].
  intros k Hin. rewrite forallb_forall in Hk. apply has_true, Hk, list_elem_of_In, Hin.
Qed.

Lemma holds_dset m k v : holds_keys m → holds_keys (dset m k v).
Proof.
  intros H k' Hk. rewrite dget_dset. destruct (String.eqb k' k); [by eexists|]. by apply H.
Qed.

Lemma holds_dupdate m d : holds_keys m → holds_keys (dupdate m d).
Proof.
  unfold dupdate. revert m. induction d as [|[k v] d IH]; intros m H; cbn; [done|].
  by apply IH, holds_dset.
Qed.

Lemma holds_dpop m k : per_node_link_key k = true → holds_keys m → holds_keys (dpop m k).
Proof.
  intros Hk H k' Hk'. rewrite dget_dpop. destruct (String.eqb_spec k' k) as [->|]; [|by apply H].
  apply machine_keys_not_link in Hk'. congruence.
Qed.

Lemma node_key_link index suffix :
  suffix = "_link_latency_ns" ∨ suffix = "_link_rate_gbps" →
  per_node_link_key (node_key index suffix) = true.
Proof.
  intros Hs. unfold per_node_link_key, node_key.
  rewrite startswith_app. cbn [andb].
  pose proof endswith_app as He.
  rewrite <- string_app_assoc.
  destruct Hs as [-> | ->]; rewrite He; [done|by rewrite orb_true_r].
Qed.

Definition link_suffixes : list string := ["_link_latency_ns"; "_link_rate_gbps"].

Lemma node_key_inj i j s t :
  (i < 8)%nat → (j < 8)%nat → s ∈ link_suffixes → t ∈ link_suffixes →
  node_key i s = node_key j t → i = j ∧ s = t.
Proof.
  intros Hi Hj Hs Ht.
  assert (forallb (λ a, forallb (λ b,
            implb (String.eqb (node_key a.1 a.2) (node_key b.1 b.2)) (bool_decide (a = b)))
            (pairs (seq 0 8) link_suffixes)) (pairs (seq 0 8) link_suffixes) = true) as H
    by (vm_compute; reflexivity).
  rewrite forallb_forall in H. specialize (H (i, s)). rewrite <- list_elem_of_In, elem_of_pairs in H.
  specialize (H ltac:(split; [apply elem_of_seq; lia|done])).
  rewrite forallb_forall in H. specialize (H (j, t)). rewrite <- list_elem_of_In, elem_of_pairs in H.
  specialize (H ltac:(split; [apply elem_of_seq; lia|done])). cbn [fst snd] in H.
  intros Heq. rewrite Heq, String.eqb_refl in H. apply bool_decide_eq_true in H. by simplify_eq.
Qed.

#[local] Arguments node_key : simpl never.

Lemma dget_set_links_other k i links v :
  per_node_link_key k = false → dget (set_links i links v) k = dget v k.
Proof.
  intros Hk. revert i v. induction links as [|[rate lat] links IH]; intros i v; cbn; [done|].
  rewrite IH, !dget_dset_ne; [done|..]; intros ->;
    rewrite node_key_link in Hk by auto; done.
Qed.

Lemma dget_pop_links_other k n v :
  per_node_link_key k = false → dget (pop_links n v) k = dget v k.
Proof.
  intros Hk. unfold pop_links. generalize (seq n (8 - n)) as l. intros l. revert v.
  induction l as [|i l IH]; intros v; cbn; [done|].
  rewrite IH, !dget_dpop.
  destruct (String.eqb_spec k (node_key i "_link_rate_gbps")) as [->|];
    [rewrite node_key_link in Hk by auto; done|].
  destruct (String.eqb_spec k (node_key i "_link_latency_ns")) as [->|]; [|done].
  rewrite node_key_link in Hk by auto; done.
Qed.

(** The value the loops leave under a node's key. *)
Definition link_value (suffix : string) (link : Z * Z) : string :=
  if String.eqb suffix "_link_latency_ns" then str_of_Z link.2 else str_of_Z link.1.

Lemma dget_set_links i links v j s :
  (i + length links ≤ 8)%nat → (j < 8)%nat → s ∈ link_suffixes →
  dget (set_links i links v) (node_key j s) =
  if decide (i ≤ j)%nat
  then match links !! (j - i)%nat with
       | Some link => Some (link_value s link)
       | None => dget v (node_key j s)
       end
  else dget v (node_key j s).
Proof.
  revert i v. induction links as [|[rate lat] links IH]; intros i v Hlen Hj Hs; cbn [set_links length] in *.
  { by case_decide. }
  rewrite IH by (done || lia).
  assert (∀ t, t ∈ link_suffixes → i ≠ j → node_key j s ≠ node_key i t) as Hne.
  { intros t Ht Hij Heq. destruct (node_key_inj j i s t); [lia|lia|done..|lia]. }
  assert ("_link_latency_ns" ∈ link_suffixes ∧ "_link_rate_gbps" ∈ link_suffixes) as [Hl Hr].
  { unfold link_suffixes. split; [by left|right; by left]. }
  destruct (decide (i = j)) as [<-|Hij].
  - rewrite decide_False by lia. rewrite decide_True by lia. rewrite Nat.sub_diag. cbn [lookup list_lookup].
    unfold link_suffixes in Hs. rewrite !elem_of_cons, elem_of_nil in Hs.
    destruct Hs as [->|[->|[]]]; unfold link_value; str_eqb; cbn.
    + rewrite dget_dset_ne; [apply dget_dset_eq|].
      intros Heq. by destruct (node_key_inj i i "_link_latency_ns" "_link_rate_gbps") as [_ ?].
    + apply dget_dset_eq.
  - rewrite !dget_dset_ne by (by apply Hne).
    destruct (decide (S i ≤ j)%nat).
    + rewrite decide_True by lia. replace (j - i)%nat with (S (j - S i)) by lia. done.
    + by rewrite decide_False by lia.
Qed.

Lemma dget_pop_links n v j s :
  (n ≤ 8)%nat → (j < 8)%nat → s ∈ link_suffixes →
  dget (pop_links n v) (node_key j s) = if decide (n ≤ j)%nat then None else dget v (node_key j s).
Proof.
  intros Hn Hj Hs. unfold pop_links.
  assert ("_link_latency_ns" ∈ link_suffixes ∧ "_link_rate_gbps" ∈ link_suffixes) as [Hl Hr].
  { unfold link_suffixes. split; [by left|right; by left]. }
  cut (∀ k n (v : manifest), (n + k ≤ 8)%nat →
    dget (foldl (λ (v : manifest) index, dpop (dpop v (node_key index "_link_latency_ns"))
                      (node_key index "_link_rate_gbps")) v (seq n k)) (node_key j s)
    = if decide (n ≤ j < n + k)%nat then None else dget v (node_key j s)).
  { intros H. rewrite H by lia. case_decide; case_decide; try done; lia. }
  clear n v Hn. induction k as [|k IH]; intros n v Hn; cbn [seq foldl].
  { by rewrite decide_False by lia. }
  rewrite IH by lia. rewrite !dget_dpop.
  destruct (decide (n = j)) as [->|Hnj].
  - rewrite decide_False by lia. rewrite decide_True by lia.
    unfold link_suffixes in Hs. rewrite !elem_of_cons, elem_of_nil in Hs.
    destruct Hs as [->|[->|[]]]; rewrite String.eqb_refl; [by destruct (String.eqb _ _)|done].
  - destruct (String.eqb_spec (node_key j s) (node_key n "_link_rate_gbps")) as [Heq|];
      [destruct (node_key_inj j n s "_link_rate_gbps"); lia || done|].
    destruct (String.eqb_spec (node_key j s) (node_key n "_link_latency_ns")) as [Heq|];
      [destruct (node_key_inj j n s "_link_latency_ns"); lia || done|].
    case_decide; case_decide; done || lia.
Qed.

Lemma holds_links i n links v :
  holds_keys v → holds_keys (pop_links n (set_links i links v)).
Proof.
  intros H k Hk. pose proof (machine_keys_not_link k Hk).
  rewrite dget_pop_links_other, dget_set_links_other by done. by apply H.
Qed.

Lemma py_min_spec l m : py_min l = Ok m → (∀ x, x ∈ l → m <= x) ∧ m ∈ l.
Proof.
  destruct l as [|x l]; cbn; [done|]. intros [= <-].
  cut (∀ acc, (foldl Z.min acc l <= acc) ∧ (∀ y, y ∈ l → foldl Z.min acc l <= y) ∧
              (foldl Z.min acc l = acc ∨ foldl Z.min acc l ∈ l)).
  { intros H. destruct (H x) as (H1 & H2 & H3). split.
    - intros y [->|Hy]%elem_of_cons; [done|by apply H2].
    - destruct H3 as [->|?]; [by left|by right]. }
  induction l as [|y l IH]; intros acc; cbn.
  { split_and!; [lia|by intros ? ?%elem_of_nil|by left]. }
  destruct (IH (Z.min acc y)) as (H1 & H2 & H3). split_and!; [lia| |].
  - intros z [->|Hz]%elem_of_cons; [lia|by apply H2].
  - destruct H3 as [->|?]; [|right; by right].
    destruct (Z.min_spec acc y) as [[_ ->]|[_ ->]]; [by left|right; by left].
Qed.

(** ** Resolution succeeds *)

(** What an override leaves under its target. *)
Definition overridden (machine : jobj) (key : string) (old : option string) : option string :=
  match dget machine key with Some x => ok_opt (format_scalar x) | None => old end.

Lemma override_Ok machine key target v :
  tuned machine → key ∈ ["memory_size_gb"; "o3_lq_entries"; "o3_sq_entries"; "l1d_prefetcher"] →
  ∃ v', override machine key target v = Ok v' ∧ (∀ k, k ≠ target → dget v' k = dget v k) ∧
        (holds_keys v → holds_keys v') ∧ dget v' target = overridden machine key (dget v target).
Proof.
  intros Ht Hk. unfold override, overridden. destruct (dget machine key) as [x|] eqn:E; [|by eexists].
  destruct (Ht key x Hk E) as (s & Hs & _). rewrite Hs. cbn. eexists. split; [done|]. split_and!.
  - intros k Hne. by apply dget_dset_ne.
  - apply holds_dset.
  - apply dget_dset_eq.
Qed.

Lemma memory_Ok machine :
  tuned machine →
  ∃ s, format_scalar (default (JInt 32) (dget machine "memory_size_gb")) = Ok s ∧ plain s = true.
Proof.
  intros Ht. destruct (dget machine "memory_size_gb") as [v|] eqn:E; cbn; [|by eexists].
  apply (Ht "memory_size_gb" v); [by left|done].
Qed.

(** The keys [base_update] sets. *)
Definition base_keys : list string :=
  ["initrd_path"; "execution_mode"; "node_count"; "memory_size"; "peer_latency_ns"; "sync_quantum_ns";
   "external_udma_host_latency_ns"; "sync_request"; "virtual_time_synchronization"; "lifecycle_sync";
   "restore_checkpoint"; "template_checkpoint"; "ub_fabric_layout"; "ub_port_count";
   "peer_link_rate_gbps"; "peer_switch_delay"; "max_jettys"; "public_jettys"].

(** What the theorems below read of [base_update]. *)
Lemma base_update_Ok root profile memory p latency quantum rate0 sync v :
  holds_keys v →
  ∃ v', base_update root profile memory p latency quantum rate0 sync v = Ok v' ∧ holds_keys v' ∧
    dget v' "sync_quantum_ns" = Some (str_of_Z quantum) ∧
    dget v' "external_udma_host_latency_ns" = Some (str_of_Z quantum) ∧
    dget v' "peer_latency_ns" = Some (str_of_Z latency) ∧
    dget v' "lifecycle_sync" = Some (if sync then "1" else "0") ∧
    dget v' "virtual_time_synchronization" = Some (if sync then "lifecycle" else "disabled") ∧
    dget v' "profile" = dget v "profile" ∧ is_Some (dget v' "initrd_path") ∧
    dget v' "memory_size" = Some memory ∧ (∀ k, k ∉ base_keys → dget v' k = dget v k).
Proof.
  intros Hv. unfold base_update.
  assert (∃ public, (if p_jetty_limit_explicit p then Ok "1" else getitem v "public_jettys") = Ok public)
    as [public ->].
  { destruct (p_jetty_limit_explicit p); [by eexists|]. unfold getitem.
    destruct (Hv "public_jettys") as [x Hx]; [|rewrite Hx; by eexists].
    elem_dec. }
  cbn [mbind res_bind]. eexists. split; [reflexivity|]. split; [by apply holds_dupdate|].
  split_and!; [..|intros k Hk; rewrite dget_dupdate by (apply (bool_decide_unpack _); vm_compute; exact I);
    match goal with |- match dget ?d k with _ => _ end = _ => assert (dget d k = None) as ->; [by apply dget_None_keys|done] end].
  all: rewrite !dget_dupdate by (apply (bool_decide_unpack _); vm_compute; exact I); by eauto.
Qed.

Lemma cpu_update_other profile lifecycle v k :
  k ∉ ["auto_o3_lifecycle"; "fast_boot_noncaching"; "initial_memory_mode"; "cpu_switch_policy"] →
  dget (cpu_update profile lifecycle v) k = dget v k.
Proof.
  intros Hk. rewrite !not_elem_of_cons in Hk. destruct Hk as (H1 & H2 & H3 & H4 & _).
  assert (∀ k', k ≠ k' → String.eqb k k' = false) as Hne by (intros; by apply String.eqb_neq).
  unfold cpu_update, dupdate. destruct (_ && _); [|destruct (String.eqb profile "modern")];
    cbn [foldl fst snd]; rewrite !dget_dset, ?(Hne _ H1), ?(Hne _ H2), ?(Hne _ H3), ?(Hne _ H4); done.
Qed.

Lemma cpu_update_holds profile lifecycle v : holds_keys v → holds_keys (cpu_update profile lifecycle v).
Proof.
  intros H. unfold cpu_update. destruct (_ && _); [by apply holds_dupdate|].
  destruct (String.eqb _ _); by repeat apply holds_dupdate.
Qed.

Lemma profile_names :
  forallb (λ pr, match dget PROFILE_DEFAULTS pr with
                 | Some m => bool_decide (dget m "profile" = Some pr)
                 | None => false end) GEM5_PROFILES = true.
Proof. vm_compute. reflexivity. Qed.

Definition sync_quantum (profile : string) (latency : Z) : Z :=
  if String.eqb profile "modern" then Z.min 100 latency else latency.

Definition cpu_keys : list string :=
  ["auto_o3_lifecycle"; "fast_boot_noncaching"; "initial_memory_mode"; "cpu_switch_policy"].

(** Where each value of a resolved manifest comes from. *)
Record resolved_from (profile : string) (machine : jobj) (sync : bool) (defs v : manifest) : Prop := {
  rf_defs : getitem PROFILE_DEFAULTS profile = Ok defs;
  rf_limited : limited machine;
  rf_other : ∀ k, k ∉ base_keys ++ cpu_keys ++ ["o3_lq_entries"; "o3_sq_entries"; "cache_prefetcher"] →
    dget v k = dget defs k;
  rf_memory : ∃ mem, format_scalar (default (JInt 32) (dget machine "memory_size_gb")) = Ok mem ∧
    dget v "memory_size" = Some (mem +:+ "GB");
  rf_lq : dget v "o3_lq_entries" = overridden machine "o3_lq_entries" (dget defs "o3_lq_entries");
  rf_sq : dget v "o3_sq_entries" = overridden machine "o3_sq_entries" (dget defs "o3_sq_entries");
  rf_prefetcher : dget v "cache_prefetcher" =
    overridden machine "l1d_prefetcher" (dget defs "cache_prefetcher");
  rf_auto : dget v "auto_o3_lifecycle" = Some (if String.eqb profile "modern" && sync then "1" else "0");
  rf_fast : dget v "fast_boot_noncaching" = Some (if String.eqb profile "modern" && sync then "1" else "0")
}.

Lemma cpu_update_switches profile sync v :
  dget (cpu_update profile sync v) "auto_o3_lifecycle" =
    Some (if String.eqb profile "modern" && sync then "1" else "0") ∧
  dget (cpu_update profile sync v) "fast_boot_noncaching" =
    Some (if String.eqb profile "modern" && sync then "1" else "0").
Proof.
  unfold cpu_update, dupdate. destruct (_ && sync); [|destruct (String.eqb profile "modern")];
    cbn [foldl fst snd]; rewrite !dget_dset; by str_eqb.
Qed.

(** The resolved manifest of a compiled gem5 topology, before the link loops. *)
Lemma resolve_shape root raw p :
  compile_topology raw = Ok p → p_simulator p = "gem5" →
  ∃ profile latency v sync,
    resolve_gem5 root raw p = Ok (pop_links (length (p_node_ids p)) (set_links 0 (p_node_links p) v)) ∧
    profile ∈ GEM5_PROFILES ∧ py_min (p_node_links p).*2 = Ok latency ∧ holds_keys v ∧
    dget v "sync_quantum_ns" = Some (str_of_Z (sync_quantum profile latency)) ∧
    dget v "external_udma_host_latency_ns" = Some (str_of_Z (sync_quantum profile latency)) ∧
    dget v "peer_latency_ns" = Some (str_of_Z latency) ∧
    dget v "lifecycle_sync" = Some (if sync : bool then "1" else "0") ∧
    dget v "virtual_time_synchronization" = Some (if sync then "lifecycle" else "disabled") ∧
    dget v "profile" = Some profile ∧ is_Some (dget v "initrd_path") ∧
    ∃ machine defs, resolved_from profile machine sync defs v.
Proof.
  intros Hc Hg. pose proof (compile_topology_bounds raw p Hc) as (Hlinks & Hrates & Hn).
  destruct (compile_gem5_source _ _ Hc Hg) as (profile & machine & [Hpr Hin Hm Hlim (e & s & He & Hs)]).
  pose proof (limited_tuned _ Hlim) as Ht.
  destruct (profile_defaults _ Hin) as (defs & Hd & Hk & Hnd).
  destruct (p_node_links p) as [|link0 links] eqn:El; [cbn in *; unfold len in *; lia|].
  destruct (memory_Ok _ Ht) as (mem & Hmem & _).
  set (latency := foldl Z.min link0.2 links.*2).
  set (q := sync_quantum profile latency).
  destruct (base_update_Ok root profile (mem +:+ "GB") p latency q link0.1
              (eq_str (JStr s) "required") defs Hk) as (v1 & E1 & K1 & Q1 & X1 & L1 & S1 & T1 & P1 & I1 & M1 & B1).
  set (v2 := cpu_update profile (eq_str (JStr s) "required") v1).
  assert (holds_keys v2) as K2 by (by apply cpu_update_holds).
  destruct (override_Ok machine "o3_lq_entries" "o3_lq_entries" v2 Ht) as (v3 & E3 & O3 & K3 & V3);
    [elem_dec|].
  destruct (override_Ok machine "o3_sq_entries" "o3_sq_entries" v3 Ht) as (v4 & E4 & O4 & K4 & V4);
    [elem_dec|].
  destruct (override_Ok machine "l1d_prefetcher" "cache_prefetcher" v4 Ht) as (v5 & E5 & O5 & K5 & V5);
    [elem_dec|].
  assert (dget defs "profile" = Some profile) as Hprof.
  { pose proof profile_names as Hpn. rewrite forallb_forall in Hpn.
    apply list_elem_of_In, Hpn in Hin. unfold getitem in Hd.
    destruct (dget PROFILE_DEFAULTS profile) as [m|]; [|done]. injection Hd as ->.
    by apply bool_decide_eq_true in Hin. }
  assert (∀ k, k ∈ ["sync_quantum_ns"; "external_udma_host_latency_ns"; "peer_latency_ns";
                    "lifecycle_sync"; "virtual_time_synchronization"; "profile"; "initrd_path"] →
               dget v5 k = dget v1 k) as Hsame.
  { intros k Hkk. rewrite O5, O4, O3 by (intros ->; apply elemb_true in Hkk; vm_compute in Hkk; done).
    apply cpu_update_other. intros Hc4. rewrite !elem_of_cons, elem_of_nil in Hc4.
    destruct Hc4 as [->|[->|[->|[->|[]]]]]; apply elemb_true in Hkk; vm_compute in Hkk; done. }
  exists profile, latency, v5, (eq_str (JStr s) "required").
  rewrite !Hsame by elem_dec. rewrite P1.
  assert (resolved_from profile machine (eq_str (JStr s) "required") defs v5) as Hfrom.
  { destruct (cpu_update_switches profile (eq_str (JStr s) "required") v1) as [A1 A2].
    assert (∀ k, k ∉ cpu_keys → dget v2 k = dget v1 k) as O2 by (intros k; apply cpu_update_other).
    split; try done.
    - intros k Hkk. rewrite !elem_of_app, !elem_of_cons, elem_of_nil in Hkk. rewrite O5, O4, O3, O2, B1; tauto.
    - exists mem. split; [done|]. rewrite O5, O4, O3, O2, M1; try done; apply elemb_false; vm_compute; reflexivity.
    - rewrite O5, O4, V3, O2, B1; try done; apply elemb_false; vm_compute; reflexivity.
    - rewrite O5, V4, O3, O2, B1; try done; apply elemb_false; vm_compute; reflexivity.
    - rewrite V5, O4, O3, O2, B1; try done; apply elemb_false; vm_compute; reflexivity.
    - rewrite O5, O4, O3 by done. exact A1.
    - rewrite O5, O4, O3 by done. exact A2. }
  split; [|split_and!; eauto].
  unfold resolve_gem5. rewrite Hg. cbn [String.eqb negb]. str_eqb. cbn [negb].
  rewrite Hpr. cbn [mbind res_bind]. rewrite Hd. cbn [mbind res_bind].
  rewrite El. change (py_min (link0 :: links).*2) with (Ok latency). cbn [mbind res_bind].
  rewrite Hm. cbn [mbind res_bind]. rewrite Hmem. cbn [mbind res_bind].
  rewrite He. cbn [mbind res_bind]. rewrite Hs. cbn [mbind res_bind head or_raise].
  change (if String.eqb profile "modern" then Z.min 100 latency else latency) with q.
  rewrite E1. cbn [mbind res_bind].
  fold v2. rewrite E3. cbn [mbind res_bind]. rewrite E4. cbn [mbind res_bind]. rewrite E5. done.
Qed.

#[local] Arguments resolve_gem5 : simpl never.

(** What the launcher relies on. *)
Lemma resolve_keys root raw p m :
  compile_topology raw = Ok p → p_simulator p = "gem5" → resolve_gem5 root raw p = Ok m →
  holds_keys m ∧ is_Some (dget m "initrd_path").
Proof.
  intros Hc Hg Hm. destruct (resolve_shape root _ _ Hc Hg)
    as (profile & latency & v & sync & Hr & _ & _ & Hk & _ & _ & _ & _ & _ & _ & Hi & _).
  rewrite Hm in Hr. injection Hr as ->. split; [by apply holds_links|].
  by rewrite dget_pop_links_other, dget_set_links_other by (vm_compute; reflexivity).
Qed.

(** Every accepted gem5 topology resolves to a manifest that has each
    machine key of the profiles, the link settings of exactly its own nodes, and
    the profile's name; no key or index is missing on the way. *)
Theorem resolve_gem5_total root raw p :
  compile_topology raw = Ok p → p_simulator p = "gem5" →
  ∃ m, resolve_gem5 root raw p = Ok m ∧ (∀ k, k ∈ machine_keys → is_Some (dget m k)) ∧
    ∀ j s, (j < 8)%nat → s ∈ link_suffixes →
      dget m (node_key j s) = link_value s <$> p_node_links p !! j.
Proof.
  intros Hc Hg. destruct (resolve_shape root _ _ Hc Hg)
    as (profile & latency & v & sync & Hr & _ & _ & Hk & _).
  destruct (compile_topology_bounds raw p Hc) as (Hlinks & _ & Hn).
  eexists. split; [exact Hr|]. split; [by apply holds_links|].
  intros j s Hj Hs. unfold len in Hn. rewrite dget_pop_links by (done || lia).
  case_decide as Hle.
  - rewrite lookup_ge_None_2 by lia. done.
  - rewrite dget_set_links by (done || lia). rewrite decide_True by lia. rewrite Nat.sub_0_r.
    destruct (lookup_lt_is_Some_2 (p_node_links p) j) as [link ->]; [lia|]. done.
Qed.

(** C23: the resolved synchronization quantum is a positive lower bound on every
    link's latency, so no message can arrive inside the quantum that sent it;
    the host link uses the same value, and for [modern] it is at most 100 ns. *)
Theorem resolve_gem5_lookahead root raw p m :
  compile_topology raw = Ok p → p_simulator p = "gem5" → resolve_gem5 root raw p = Ok m →
  ∃ q, dget m "sync_quantum_ns" = Some (str_of_Z q) ∧
    dget m "external_udma_host_latency_ns" = Some (str_of_Z q) ∧
    1 <= q ∧ (∀ rate latency, (rate, latency) ∈ p_node_links p → q <= latency) ∧
    (dget m "profile" = Some "modern" → q <= 100).
Proof.
  intros Hc Hg Hm. destruct (resolve_shape root _ _ Hc Hg)
    as (profile & latency & v & sync & Hr & _ & Hmin & _ & Q & X & _ & _ & _ & P & _).
  rewrite Hm in Hr. injection Hr as ->.
  destruct (compile_topology_bounds raw p Hc) as (_ & Hrates & _).
  destruct (py_min_spec _ _ Hmin) as [Hle Hin].
  rewrite !dget_pop_links_other, !dget_set_links_other by (vm_compute; reflexivity).
  exists (sync_quantum profile latency). rewrite Q, X, P.
  apply list_elem_of_fmap in Hin as ([rate lat] & -> & Hin). cbn [snd] in *.
  rewrite Forall_forall in Hrates. pose proof (Hrates _ Hin) as [_ Hlat]. cbn in Hlat.
  split_and!; [done|done| | |].
  - unfold sync_quantum. destruct (String.eqb _ _); lia.
  - intros rate' lat' Hin'. assert (lat <= lat') as H.
    { apply Hle, list_elem_of_fmap. by exists (rate', lat'). }
    unfold sync_quantum. destruct (String.eqb _ _); lia.
  - intros [= ->]. unfold sync_quantum. str_eqb. lia.
Qed.

Lemma resolve_gem5_total_witness :
  ∃ p m, compile_topology topology_gem5_asymmetric_links = Ok p ∧
    resolve_gem5 "/lab" topology_gem5_asymmetric_links p = Ok m ∧
    dget m (node_key 1 "_link_latency_ns") =
      link_value "_link_latency_ns" <$> p_node_links p !! 1%nat.
Proof.
  destruct (compile_topology topology_gem5_asymmetric_links) as [p|] eqn:Hc;
    [|vm_compute in Hc; discriminate].
  exists p. destruct (resolve_gem5_total "/lab" _ p Hc) as (m & Hm & _ & Hl).
  - vm_compute in Hc. injection Hc as <-. reflexivity.
  - exists m. split; [reflexivity|]. split; [exact Hm|]. apply Hl; [lia|by left].
Defined.

Lemma resolve_gem5_lookahead_witness :
  ∃ p m, compile_topology topology_gem5_two_heads = Ok p ∧
    resolve_gem5 "/lab" topology_gem5_two_heads p = Ok m ∧
    ∃ q, dget m "sync_quantum_ns" = Some (str_of_Z q) ∧ 1 <= q.
Proof.
  destruct (compile_topology topology_gem5_two_heads) as [p|] eqn:Hc;
    [|vm_compute in Hc; discriminate].
  assert (p_simulator p = "gem5") as Hg by (vm_compute in Hc; injection Hc as <-; reflexivity).
  destruct (resolve_gem5 "/lab" topology_gem5_two_heads p) as [m|] eqn:Hm;
    [|vm_compute in Hc; injection Hc as <-; vm_compute in Hm; discriminate].
  exists p, m. split; [reflexivity|]. split; [exact Hm|].
  destruct (resolve_gem5_lookahead _ _ _ _ Hc Hg Hm) as (q & H1 & _ & H2 & _). eauto.
Defined.
