(* ===== verification/Launcher.v ===== *)
(** * Process launcher ([ubsim_lab/config_launcher.py], and [run] of [ubsim_lab/topology.py])

    The argument vectors of every process a topology starts, and the two launch
    sequences as effectful bodies: the actions are the elements of the log, and
    the answers of the outside world (files present, processes alive, memory,
    sockets appearing, a process or pid file failing) are parameters. *)

From Stdlib Require Import ZArith Lia Ascii.
From stdpp Require Import base strings gmap fin_maps numbers option list sorting.
From S2P Require Import Prelude PyStr Json Samples Topology.
From S2P Require Import TopologyFacts QemuPorts Cli ProfileDefaults ConfigRuntime.

Open Scope string_scope.
Open Scope list_scope.
Open Scope Z_scope.

Definition launch_error (fmt : string) (args : list parg) : exn := Exn LaunchError fmt args.

(** ** The gem5 command line *)

Definition GEM5_OPTIONS : list string :=
  ["cpu"; "m5ops-base"; "cpu-freq"; "num-cpus"; "benchmark-cpu"; "o3-width"; "o3-rob-entries";
   "o3-iq-entries"; "o3-lq-entries"; "o3-sq-entries"; "o3-load-ports"; "o3-store-ports";
   "o3-fetch-buffer-bytes"; "o3-fetch-queue-entries"; "o3-phys-int-regs"; "o3-phys-float-regs";
   "o3-phys-vec-regs"; "o3-phys-vec-pred-regs"; "o3-phys-mat-regs"; "last-cache-level";
   "cache-line-size"; "l1i-size"; "l1i-assoc"; "l1i-latency"; "l1i-mshrs"; "l1i-targets-per-mshr";
   "l1i-write-buffers"; "l1d-size"; "l1d-prefetcher"; "l1d-assoc"; "l1d-latency"; "l1d-mshrs";
   "l1d-targets-per-mshr"; "l1d-write-buffers"; "l2-size"; "l2-assoc"; "l2-latency"; "l2-mshrs";
   "l2-targets-per-mshr"; "l2-write-buffers"; "l3-size"; "l3-assoc"; "l3-latency"; "l3-mshrs";
   "l3-targets-per-mshr"; "l3-write-buffers"; "fabric-freq"; "fabric-width-bytes";
   "coherent-bus-frontend-latency"; "coherent-bus-forward-latency";
   "coherent-bus-response-latency"; "coherent-bus-snoop-response-latency";
   "coherent-bus-header-latency"; "memory-bus-frontend-latency";
   "memory-bus-forward-latency"; "memory-bus-response-latency";
   "memory-bus-snoop-response-latency"; "memory-bus-header-latency";
   "core-bus-snoop-filter-capacity"; "l3-bus-snoop-filter-capacity";
   "membus-snoop-filter-capacity"; "io-bus-frontend-latency"; "io-bus-forward-latency";
   "io-bus-response-latency"; "io-bus-header-latency"; "io-cache-size"; "io-cache-assoc";
   "io-cache-latency"; "io-cache-mshrs"; "io-cache-targets-per-mshr"; "io-cache-write-buffers";
   "mem-size"; "guest-mem-limit"; "mem-type"; "mem-channels"; "mem-channels-intlv";
   "mem-addr-mapping"; "xor-low-bit"; "mem-ranks"; "mem-read-buffer-size"; "mem-write-buffer-size";
   "mem-page-policy"; "mem-max-accesses-per-row"; "mem-sched-policy"; "mem-write-high-thresh";
   "mem-write-low-thresh"; "mem-min-writes-per-switch"; "mem-min-reads-per-switch";
   "mem-ctrl-frontend-latency"; "mem-ctrl-backend-latency"; "mem-ctrl-command-window"].

Definition GEM5_KEY_OVERRIDES : list (string * string) :=
  [("cpu", "cpu_mode"); ("num-cpus", "cpu_count"); ("l1d-prefetcher", "cache_prefetcher");
   ("mem-size", "memory_size"); ("guest-mem-limit", "guest_memory_limit");
   ("mem-type", "memory_type"); ("mem-channels-intlv", "memory_channel_interleave_bytes");
   ("mem-addr-mapping", "memory_address_mapping");
   ("xor-low-bit", "memory_channel_xor_low_bit"); ("mem-ranks", "memory_ranks_per_channel");
   ("mem-read-buffer-size", "memory_read_buffer_bursts_per_channel");
   ("mem-write-buffer-size", "memory_write_buffer_bursts_per_channel");
   ("mem-sched-policy", "memory_scheduler");
   ("mem-write-high-thresh", "memory_write_high_threshold_percent");
   ("mem-write-low-thresh", "memory_write_low_threshold_percent");
   ("mem-ctrl-frontend-latency", "memory_controller_frontend_latency");
   ("mem-ctrl-backend-latency", "memory_controller_backend_latency");
   ("mem-ctrl-command-window", "memory_controller_command_window")].

Definition starts_any (s : string) (prefixes : list string) : bool := existsb (startswith s) prefixes.

Definition _gem5_key (option : string) : string :=
  match dget GEM5_KEY_OVERRIDES option with
  | Some k => k
  | None =>
      let key := replace_char "-"%char "_"%char option in
      if starts_any key ["l1i_"; "l1d_"; "l2_"; "l3_"; "io_cache_"] && endswith key "_latency"
      then key +:+ "_tag_data_response_cycles"
      else if starts_any key ["coherent_bus_"; "memory_bus_"; "io_bus_"] && endswith key "_latency"
      then key +:+ "_cycles"
      else if String.eqb key "mem_channels" then "memory_channels"
      else match strip_prefix "mem_" key with
           | Some rest => "memory_" +:+ rest
           | None => key
           end
  end.

(** ** Paths and sockets *)

Definition str_of_nat (n : nat) : string := str_of_Z (Z.of_nat n).

Definition node_dir (run_root : string) (node : nat) : string :=
  join_path run_root ("node" +:+ str_of_nat node).

(** [f"{node + 1:02x}"]. *)
Definition mac_suffix (node : nat) : string := hex_padded 2 (Z.of_nat node + 1).

(** ** Actions *)

Inductive effect :=
  | Mkdir (path : string)
  | MkdirParent (path : string)
  | RemoveTree (path : string)
  | Unlink (path : string)
  | Touch (path : string)
  | WriteText (path text : string)
  | Popen (argv : list string) (vars : list (string * string))  (** the process exists *)
  | Started (argv : list string) (pidfile : string)             (** it is in [started] *)
  | WaitSocket (path : string)
  | Terminate (argv : list string).

(** The [started] list, as argument vectors. *)
Definition started (l : list effect) : list (list string) :=
  omap (λ e, match e with Started argv _ => Some argv | _ => None end) l.
Definition popened (l : list effect) : list (list string) :=
  omap (λ e, match e with Popen argv _ => Some argv | _ => None end) l.
Definition terminated (l : list effect) : list (list string) :=
  omap (λ e, match e with Terminate argv => Some argv | _ => None end) l.

(** [for process in reversed(started): process.terminate()]. *)
Definition terminate_all (l : list effect) : list effect := Terminate <$> reverse (started l).

(** ** The outside world *)

Record world := World {
  w_root : string;
  w_env : environ;
  w_macos : bool;                       (** [sys.platform == "darwin"] *)
  w_uname : string;                     (** [os.uname().machine] *)
  w_python : string;                    (** [sys.executable] *)
  w_is_file : string → bool;
  w_is_dir : string → bool;
  w_exists : string → bool;
  w_live_pid : string → bool;           (** some pid file below the directory is alive *)
  w_memory_ok : string → nat → string → bool;  (** the memory guard's exit status is 0 *)
  w_popen_ok : list string → bool;
  w_pidfile_ok : string → bool;
  w_socket : string → bool;             (** the socket appears before its deadline *)
  w_connected : bool                    (** the fabric's log reports its connection in time *)
}.

Section launcher.
Variable w : world.

Definition env_path (name def : string) : string := default def (w_env w name).
Definition under_root (p : string) : string := join_path (w_root w) p.

(** The value of an [environ] variable as an integer, inside a body. *)
Definition env_number (name def : string) : res Z := env_int (w_env w) name def.

Definition host_name : string := if w_macos w then "macos" else "linux".
Definition host_arch : string :=
  if String.eqb (w_uname w) "arm64" && negb (w_macos w) then "aarch64" else w_uname w.

Definition udma_binary : string :=
  env_path "UBSIM_UDMA_DEVICE_BINARY"
    (under_root ("artifacts/udma-device-sim-build-" +:+ (if w_macos w then "darwin" else "linux")
                 +:+ "-" +:+ host_arch +:+ "/udma-device-sim")).
Definition ns3_binary (variable : string) : string :=
  env_path variable
    (under_root ("sources/ns-3-ub/build-" +:+ host_name +:+ "/scratch/ns3.44-ub-net-adapter")).

Definition tap_path (node : nat) : string :=
  match node with
  | 0%nat => env_path "UBSIM_DUAL_TAP0" "/tmp/ubsim-dual.eth0.sock"
  | 1%nat => env_path "UBSIM_DUAL_TAP1" "/tmp/ubsim-dual.eth1.sock"
  | _ => "/tmp/ubsim-dual.eth" +:+ str_of_nat node +:+ ".sock"
  end.

Definition gem5_binary : string :=
  env_path "UBSIM_GEM5"
    (under_root (if w_macos w then "gem5/build/ARM_MAC/gem5.opt" else "gem5/build/ARM/gem5.opt")).
Definition gem5_config : string := env_path "UBSIM_CONFIG" (under_root "configs/arm64_fs.py").
Definition gem5_kernel : string :=
  env_path "UBSIM_KERNEL" (under_root "artifacts/kernel-64k-20261015/vmlinux").

(** [f"--{option}={manifest[key]}"]. *)
Definition option_argument (manifest : manifest) (option : string) : res string :=
  v ← getitem manifest (_gem5_key option); Ok ("--" +:+ option +:+ "=" +:+ v).

(** The arguments that depend on the manifest's switches and the checkpoint. *)
Definition mode_arguments (manifest : manifest) (node : nat) (checkpoint : option string)
    (template : bool) : res (list string) :=
  auto ← getitem manifest "auto_o3_lifecycle";
  fast ← getitem manifest "fast_boot_noncaching";
  Ok ((if String.eqb auto "1" then ["--auto-o3-lifecycle"] else []) ++
      (if String.eqb fast "1" then ["--fast-boot-noncaching"] else []) ++
      match checkpoint with
      | Some c => ["--restore-from=" +:+ join_path c
                     (if template then "template-cpt" else "node" +:+ str_of_nat node +:+ "-cpt")]
      | None => []
      end).

(** The last [command.extend]. *)
Definition link_arguments (manifest : manifest) (node : nat) (template : bool) (uart : Z)
    : res (list string) :=
  speed ← getitem manifest "oob_link_speed";
  delay ← getitem manifest "peer_latency_ns";
  provider ← getitem manifest "provider";
  Ok ["--eth-tap-socket=" +:+ tap_path node;
      "--eth-link-speed=" +:+ speed;
      "--eth-link-delay=" +:+ delay +:+ "ns";
      "--terminal-port=" +:+ str_of_Z uart;
      "--eth-mac=02:00:00:00:00:" +:+ mac_suffix node;
      "--extra-cmdline=ubsim_node=" +:+ (if template then "template" else str_of_nat node) +:+ " " +:+
        (if template then "ubsim_template=1 " else EmptyString) +:+ "ubsim_provider=" +:+ provider].

(** [gem5_command] without its write: the argument vector. *)
Definition gem5_argv (manifest : manifest) (node : nat) (run_root : string)
    (checkpoint : option string) (template : bool) : res (list string) :=
  let out := node_dir run_root node in
  initrd ← getitem manifest "initrd_path";
  let script := if template then join_path out "identity.txt"
                else env_path "UBSIM_GUEST_READFILE" EmptyString in
  options ← mapR (option_argument manifest) GEM5_OPTIONS;
  mode ← mode_arguments manifest node checkpoint template;
  uart0 ← env_number "UBSIM_DUAL_UART0" "3460";
  uart1 ← env_number "UBSIM_DUAL_UART1" "3470";
  links ← link_arguments manifest node template (uart0 + Z.of_nat node * (uart1 - uart0));
  Ok ([gem5_binary; "--listener-mode=on"; "--outdir=" +:+ out; gem5_config;
       "--kernel=" +:+ gem5_kernel; "--initrd=" +:+ initrd; "--root-device=/dev/ram";
       "--script=" +:+ script] ++ options ++ ["--dist-size=0"] ++ mode ++ links).

Definition gem5_command (manifest : manifest) (node : nat) (run_root : string)
    (checkpoint : option string) (template write_identity : bool) : io effect (list string) :=
  _ <- lift (getitem manifest "initrd_path");
  (if template && write_identity
   then emit (WriteText (join_path (node_dir run_root node) "identity.txt")
                (str_of_nat node +:+ String "010" EmptyString))
   else io_ret tt) ;;;
  lift (gem5_argv manifest node run_root checkpoint template).

(** ** Helpers of the launch sequences *)

Definition _spawn (argv : list string) (pidfile : string) (vars : list (string * string))
    : io effect unit :=
  emit (MkdirParent pidfile) ;;;
  (if w_popen_ok w argv then emit (Popen argv vars) else throw (Exn OSError "{argv}" [PL argv])) ;;;
  (if w_pidfile_ok w pidfile then emit (Started argv pidfile)
   else throw (Exn OSError "{pidfile}" [PS pidfile])).

Definition _wait_socket (path : string) : io effect unit :=
  emit (WaitSocket path) ;;;
  if w_socket w path then io_ret tt
  else throw (launch_error "UDMA socket did not appear: {path}" [PS path]).

Definition _check_memory (phase : string) (nodes : nat) (mem_size : string) : res unit :=
  raise launch_error "host memory preflight failed" []
    when negb (w_memory_ok w phase nodes mem_size) ;;
  Ok tt.

Fixpoint _require_files (paths : list string) : res unit :=
  match paths with
  | [] => Ok tt
  | path :: paths' =>
      raise launch_error "missing required artifact: {path}" [PS path]
        when negb (w_is_file w path) ;;
      _require_files paths'
  end.

Definition owned_names : list string :=
  ["switch"; "ub-switch"; "oob-switch"; "ub-fabric"; "run-manifest.txt"; "sync.ready";
   "memory-guard.pid"; "memory-guard.log"; "memory-guard.stopped"; "memory-guard.stderr.log"].

Definition _clear_owned_run_paths (run_root : string) : io effect unit :=
  (if String.eqb run_root "/" || String.eqb run_root "."
   then throw (launch_error "unsafe run output directory: {run_root}" [PS run_root])
   else io_ret tt) ;;;
  each (λ name,
          let path := join_path run_root name in
          if w_is_dir w path then emit (RemoveTree path)
          else if w_exists w path then emit (Unlink path) else io_ret tt) owned_names ;;;
  each (λ pn : string * nat,
          let path := join_path run_root (pn.1 +:+ str_of_nat pn.2) in
          if w_is_dir w path then emit (RemoveTree path) else io_ret tt)
    (pairs ["node"; "udma-node"] (seq 0 8)).

(** [picoseconds]: the first unit that is a suffix. *)
Definition time_units : list (string * Z) :=
  [("ps", 1); ("ns", 1000); ("us", 1000000); ("ms", 1000000000); ("s", 1000000000000)].

Fixpoint picoseconds_go (units : list (string * Z)) (value : string) : res Z :=
  match units with
  | [] => Err (launch_error "invalid delay: {value}" [PS value])
  | (unit, scale) :: units' =>
      match strip_suffix unit value with
      | Some digits => n ← int_of_str digits; Ok (n * scale)
      | None => picoseconds_go units' value
      end
  end.
Definition picoseconds (value : string) : res Z := picoseconds_go time_units value.

(** [int(manifest[key])]. *)
Definition manifest_int (m : manifest) (key : string) : res Z := v ← getitem m key; int_of_str v.

(** [args.extend((f"--{flag}", manifest[key]))] for a flag table. *)
Definition flag_arguments (m : manifest) (table : list (string * string)) : res (list string) :=
  pieces ← mapR (λ fk : string * string, v ← getitem m fk.2; Ok ["--" +:+ fk.1; v]) table;
  Ok (concat pieces).

(** [f"{0x100 + node},{latency * 1000},{rate}"] after the socket. *)
Definition endpoint (socket : string) (node : nat) (link : Z * Z) : string :=
  socket +:+ "," +:+ str_of_Z (0x100 + Z.of_nat node) +:+ "," +:+ str_of_Z (link.2 * 1000) +:+ ","
  +:+ str_of_Z link.1.

Definition enumerate {A} (l : list A) : list (nat * A) := zip (seq 0 (length l)) l.

(** ** Launching gem5 *)

(** The checkpoint chosen for a manifest and an image path, and the text of a
    file that is there. *)
Variable select : manifest → string → res (option string).
Variable read_file : string → option string.

(** The name selected, its directory, and whether it is a node template. *)
Definition gem5_checkpoint (plan : plan) (m : manifest)
    : res (option string * option string * bool) :=
  image ← getitem m "initrd_path";
  selected ← (if String.eqb (p_checkpoint plan) "auto" then select m image else Ok None);
  let directory := match truthy selected with
                   | Some name => Some (under_root (join_path "checkpoints" name))
                   | None => None
                   end in
  let template := match directory with
                  | Some d => match read_file (join_path d "checkpoint-manifest.txt") with
                              | Some text => contains "checkpoint_kind=node-template-v1" text
                              | None => false
                              end
                  | None => false
                  end in
  Ok (selected, directory, template).

Definition udma_flags : list (string * string) :=
  [("max-jfs-depth", "max_jfs_depth"); ("max-jfr-depth", "max_jfr_depth");
   ("max-jfc-depth", "max_jfc_depth"); ("max-jettys", "max_jettys");
   ("public-jettys", "public_jettys"); ("sq-prefetch-wqebbs", "sq_prefetch_wqebbs");
   ("sq-fetch-burst-wqebbs", "sq_fetch_burst_wqebbs");
   ("sq-fetch-max-outstanding", "sq_fetch_max_outstanding");
   ("completion-event-slots", "completion_event_slots");
   ("write-payload-read-window", "write_payload_read_window")].

Definition gem5_socket (node : nat) (kind : string) : string :=
  "/tmp/ubsim-dual.node" +:+ str_of_nat node +:+ "." +:+ kind +:+ ".sock".
Definition gem5_shm (node : nat) : string := "/tmp/ubsim-dual.node" +:+ str_of_nat node +:+ ".udma.shm".

(** [str(int(manifest[key]) * 1000)]. *)
Definition thousands (m : manifest) (key : string) : res string :=
  n ← manifest_int m key; Ok (str_of_Z (n * 1000)).

(** The UDMA process of one node. *)
Definition gem5_udma_argv (m : manifest) (run_root : string) (checkpoint : option string)
    (template : bool) (sync : string) (node : nat) (link : Z * Z) : res (list string) :=
  host_ps ← thousands m "external_udma_host_latency_ns";
  quantum_ps ← thousands m "sync_quantum_ns";
  ports ← getitem m "ub_port_count";
  flags ← flag_arguments m udma_flags;
  profile ← getitem m "profile";
  reads ← getitem m "max_read_outstanding";
  n_reads ← int_of_str reads;
  lifecycle ← getitem m "lifecycle_sync";
  Ok ([udma_binary; "--host-socket"; gem5_socket node "ub-host"; "--net-socket";
       gem5_socket node "ub-net"; "--shm"; gem5_shm node; "--sync"; sync;
       "--host-link-latency-ps"; host_ps;
       "--net-link-latency-ps"; str_of_Z (link.2 * 1000);
       "--sync-interval-ps"; quantum_ps;
       "--eid"; str_of_Z (0x100 + Z.of_nat node); "--ports"; ports] ++ flags ++
      (if String.eqb profile "modern"
       then ["--one-shot-jfc-notifications"; "--pipelined-completion-dma"] else []) ++
      (if negb (n_reads =? 0) then ["--max-read-outstanding"; reads] else []) ++
      (if String.eqb lifecycle "1" then ["--lifecycle-sync"] else []) ++
      match checkpoint with
      | Some c => if template then []
                  else ["--state-in"; join_path c ("udma-node" +:+ str_of_nat node +:+ ".state")]
      | None => []
      end ++
      ["--state-out"; join_path run_root ("udma-node" +:+ str_of_nat node +:+ "/state.bin")]).

(** The fabric's retransmission arguments. *)
Definition ctp_arguments (m : manifest) : res (list string) :=
  retransmission ← getitem m "ctp_retransmission";
  rto ← getitem m "ctp_rto_ps";
  maximum ← getitem m "ctp_max_retransmissions";
  Ok ["--ctp-retransmission"; retransmission; "--ctp-rto-ps"; rto;
      "--ctp-max-retransmissions"; maximum].

Definition gem5_ns3_argv (m : manifest) (plan : plan) (sync : string) : res (list string) :=
  ports ← getitem m "ub_port_count";
  link_ps ← thousands m "peer_latency_ns";
  delay ← getitem m "peer_switch_delay";
  delay_ps ← picoseconds delay;
  rate ← getitem m "peer_link_rate_gbps";
  quantum_ps ← thousands m "sync_quantum_ns";
  ctp ← ctp_arguments m;
  lifecycle ← getitem m "lifecycle_sync";
  Ok ([ns3_binary "UBSIM_UB_SWITCH_BINARY"; "--ports"; ports; "--link-delay-ps"; link_ps;
       "--switch-delay-ps"; str_of_Z delay_ps; "--rate-gbps"; rate; "--sync"; sync;
       "--sync-interval-ps"; quantum_ps] ++ ctp ++
      (if String.eqb (p_fabric_layout plan) "direct" then ["--direct-link"] else []) ++
      (if String.eqb lifecycle "1" then ["--lifecycle-sync"] else []) ++
      concat ((λ nl : nat * (Z * Z), ["--endpoint"; endpoint (gem5_socket nl.1 "ub-net") nl.1 nl.2])
                <$> enumerate (p_node_links plan))).

(** The variables set for one gem5 process. *)
Definition gem5_vars (m : manifest) (sync : string) (node : nat) : res (list (string * string)) :=
  pipe ← getitem m "pipe_data";
  trace ← getitem m "packet_trace";
  lifecycle ← getitem m "lifecycle_sync";
  poll ← getitem m "external_udma_poll_interval";
  host ← getitem m "external_udma_host_latency_ns";
  quantum ← getitem m "sync_quantum_ns";
  host_ns ← int_of_str host;
  Ok [("M5_PATH", env_path "UBSIM_M5_PATH" (under_root "system"));
      ("UBSIM_PIPE_DATA", pipe); ("UBSIM_TRACE_PACKETS", trace);
      ("UBSIM_ADAPTER_LOCAL_SYNC", "1"); ("UBSIM_LIFECYCLE_SYNC", lifecycle);
      ("OPENURMA_ADAPTER_LOCAL_SYNC", "1"); ("OPENURMA_LIFECYCLE_SYNC", lifecycle);
      ("UBSIM_EXIT_AFTER_CHECKPOINT", "1");
      ("UBSIM_UDMA_HOST_SOCKET", gem5_socket node "ub-host");
      ("UBSIM_UDMA_HOST_POLL_INTERVAL", poll);
      ("UBSIM_UDMA_HOST_SYNC", if String.eqb sync "required" then "1" else "0");
      ("UBSIM_UDMA_HOST_LIFECYCLE_SYNC", lifecycle);
      ("UBSIM_UDMA_HOST_LINK_LATENCY", host +:+ "ns");
      ("UBSIM_UDMA_HOST_SYNC_INTERVAL", quantum +:+ "ns");
      ("UBSIM_UDMA_HOST_PIO_LATENCY", str_of_Z (2 * host_ns) +:+ "ns")].

Definition guard_argv (run_root : string) (count : nat) (pid_name : list string) (stop : string)
    : list string :=
  [w_python w; under_root "tools/host_memory_guard.py"; "monitor"; "--run-root"; run_root;
   "--nodes"; str_of_nat count] ++ pid_name ++ ["--stop-script"; under_root stop].

(** The [try] block of [start_gem5]. *)
Definition gem5_launch (m : manifest) (plan : plan) (run_root : string) (checkpoint : option string)
    (template : bool) (sync : string) : io effect unit :=
  let count := length (p_node_ids plan) in
  let sub p := join_path run_root p in
  each (λ node,
          link <- lift (or_raise (p_node_links plan !! node)
                          (Exn IndexError "list index out of range" []));
          argv <- lift (gem5_udma_argv m run_root checkpoint template sync node link);
          _spawn argv (sub ("udma-node" +:+ str_of_nat node +:+ "/udma.pid")) [])
    (seq 0 count) ;;;
  each (λ nk : nat * string, _wait_socket (gem5_socket nk.1 nk.2))
    (pairs (seq 0 count) ["ub-host"; "ub-net"]) ;;;
  ns3 <- lift (gem5_ns3_argv m plan sync);
  _spawn ns3 (sub "ub-switch/gem5.pid") [] ;;;
  each (λ node,
          vars <- lift (gem5_vars m sync node);
          argv <- gem5_command m node run_root checkpoint template true;
          _spawn argv (sub ("node" +:+ str_of_nat node +:+ "/gem5.pid")) vars)
    (seq 0 count) ;;;
  _spawn (guard_argv run_root count [] "scripts/run/stop-dual.sh") (sub "memory-guard.pid") [] ;;;
  (if w_connected w then io_ret tt
   else throw (launch_error "ns-3 fabric did not connect; inspect switch and UDMA logs" [])) ;;;
  _spawn ([w_python w; under_root "tools/ethernet_relay.py"] ++
          ((λ node, "unix:" +:+ tap_path node) <$> seq 0 count))
    (sub "oob-switch/relay.pid") [].

(** The sockets and shared memory removed before the launch. *)
Definition gem5_stale_paths (count : nat) : list string :=
  ((λ nk : nat * string, gem5_socket nk.1 nk.2) <$> pairs (seq 0 count) ["ub-host"; "ub-net"]) ++
  (gem5_shm <$> seq 0 count) ++ [tap_path 0; tap_path 1] ++
  ((λ node, "/tmp/ubsim-dual.eth" +:+ str_of_nat node +:+ ".sock") <$> seq 2 (count - 2)).

(** The argument of [_require_files]. *)
Definition gem5_required (m : manifest) (run_root : string) (checkpoint : option string)
    (template : bool) : res (list string) :=
  sample ← gem5_argv m 0 run_root checkpoint template;
  initrd ← getitem m "initrd_path";
  gem5 ← or_raise (sample !! 0%nat) (Exn IndexError "list index out of range" []);
  config ← or_raise (sample !! 3%nat) (Exn IndexError "list index out of range" []);
  kernel ← or_raise (sample !! 4%nat) (Exn IndexError "list index out of range" []);
  Ok [gem5; config; initrd; udma_binary; ns3_binary "UBSIM_UB_SWITCH_BINARY";
      default EmptyString (partition_at "="%char kernel).2].

(** Everything before the first process. *)
Definition gem5_prepare (m : manifest) (plan : plan) (run_root : string) (checkpoint : option string)
    (template : bool) : io effect unit :=
  let count := length (p_node_ids plan) in
  (if w_live_pid w run_root then throw (launch_error "a simulation is already running" [])
   else io_ret tt) ;;;
  mem <- lift (getitem m "memory_size");
  lift (_check_memory "start" count mem) ;;;
  required <- lift (gem5_required m run_root checkpoint template);
  lift (_require_files required) ;;;
  _clear_owned_run_paths run_root ;;;
  each (λ node, emit (Mkdir (node_dir run_root node)) ;;;
                emit (Mkdir (join_path run_root ("udma-node" +:+ str_of_nat node)))) (seq 0 count) ;;;
  each (λ d, emit (Mkdir (join_path run_root d))) ["ub-switch"; "oob-switch"] ;;;
  emit (WriteText (join_path run_root "run-manifest.txt") (print_manifest m)) ;;;
  each (λ p, emit (Unlink p)) (gem5_stale_paths count).

(** [start_gem5]; the result is the run directory. *)
Definition start_gem5 (spec : json) (plan : plan) : io effect string :=
  m <- lift (resolve_gem5 (w_root w) spec plan);
  chosen <- lift (gem5_checkpoint plan m);
  let '(selected, checkpoint, template) := chosen in
  (if template
   then profile <- lift (getitem m "profile");
        if negb (String.eqb profile "modern")
        then throw (launch_error "node templates support the modern profile only" []) else io_ret tt
   else io_ret tt) ;;;
  let m := dset m "restore_checkpoint" (default "none" (truthy selected)) in
  let run_root := env_path "UBSIM_DUAL_OUT" (under_root "run-dual") in
  gem5_prepare m plan run_root checkpoint template ;;;
  vts <- lift (getitem m "virtual_time_synchronization");
  let sync := if String.eqb vts "enabled" then "required" else "off" in
  on_error (gem5_launch m plan run_root checkpoint template sync) terminate_all ;;;
  io_ret run_root.

(** ** Launching QEMU *)

(** The tunables read from the environment. *)
Definition qemu_knob_table : list (string * (string * string)) :=
  [("sq_prefetch_wqebbs", ("UBSIM_SQ_PREFETCH_WQEBBS", "64"));
   ("sq_fetch_burst_wqebbs", ("UBSIM_SQ_FETCH_BURST_WQEBBS", "16"));
   ("sq_fetch_max_outstanding", ("UBSIM_SQ_FETCH_MAX_OUTSTANDING", "4"));
   ("completion_event_slots", ("UBSIM_COMPLETION_EVENT_SLOTS", "64"));
   ("max_jfs_depth", ("UBSIM_UDMA_MAX_JFS_DEPTH", "8192"));
   ("max_jfr_depth", ("UBSIM_UDMA_MAX_JFR_DEPTH", "8192"));
   ("max_jfc_depth", ("UBSIM_UDMA_MAX_JFC_DEPTH", "524288"));
   ("dma_max_outstanding", ("UBSIM_QEMU_DMA_MAX_OUTSTANDING", "256"));
   ("iotlb_entries", ("UBSIM_QEMU_IOTLB_ENTRIES", "4096"));
   ("icount_shift", ("UBSIM_QEMU_ICOUNT_SHIFT", "0"));
   ("ctp_retransmission", ("UBSIM_CTP_RETRANSMISSION", "off"));
   ("ctp_rto_ps", ("UBSIM_CTP_RTO_PS", "25600000"));
   ("ctp_max_retransmissions", ("UBSIM_CTP_MAX_RETRANSMISSIONS", "7"))].

Definition qemu_knobs : manifest :=
  let knobs := (λ k : string * (string * string), (k.1, env_path k.2.1 k.2.2)) <$> qemu_knob_table in
  if bool_decide (dget knobs "ctp_retransmission" = Some "auto")
  then dset knobs "ctp_retransmission" "off" else knobs.

Definition qemu_binary : string :=
  env_path "UBSIM_QEMU" (under_root "sources/qemu-11.1.1/build/qemu-system-aarch64").
Definition qemu_kernel : string :=
  env_path "UBSIM_QEMU_KERNEL" (under_root "artifacts/kernel-64k-20261015/Image").
Definition qemu_initrd : string :=
  env_path "UBSIM_INITRD" (under_root "out/official-udma-64k-20261015.cpio.gz").

(** The device binary, or the retained one when it has not been built. *)
Definition qemu_udma_binary : string :=
  if w_is_file w udma_binary then udma_binary
  else let fallback := under_root "artifacts/udma-device-sim-build/udma-device-sim" in
       if w_is_file w fallback then fallback else udma_binary.

Record qemu_config := QemuConfig {
  qc_timing : bool;
  qc_icount : bool;
  qc_host_latency : Z;
  qc_link_latency : Z;
  qc_rate : Z;
  qc_knobs : manifest
}.

Definition qc_sync (c : qemu_config) : string := if qc_timing c then "required" else "off".
Definition qc_mode (c : qemu_config) : string :=
  if qc_timing c then "timing" else if qc_icount c then "icount-unsynchronized" else "functional".
Definition qc_poll_ns (c : qemu_config) : string := if qc_timing c then "1000000" else "1000".

(** The execution mode, the latencies and the tunables of a launch. *)
Definition qemu_configure (spec : json) (plan : plan) : res qemu_config :=
  execution ← subscript spec "execution";
  sync ← subscript execution "sync";
  let timing := eq_str sync "required" in
  let force := env_path "UBSIM_QEMU_ICOUNT_WITH_SYNC_OFF" "0" in
  raise launch_error "UBSIM_QEMU_ICOUNT_WITH_SYNC_OFF must be 0 or 1" []
    when negb (elemb force ["0"; "1"]) ;;
  host_latency ← env_number "UBSIM_QEMU_HOST_LATENCY_NS" "500";
  link_latency ← py_min (p_node_links plan).*2;
  link0 ← or_raise (head (p_node_links plan)) (Exn IndexError "list index out of range" []);
  Ok (QemuConfig timing (timing || String.eqb force "1") host_latency link_latency link0.1 qemu_knobs).

(** [machine["cpu"]], [machine["cores"]], [machine["memory_mib"]]. *)
Definition qemu_machine (m : machine_entry) : res (string * Z * Z) :=
  match m with
  | QemuMachine cpu cores memory => Ok (cpu, cores, memory)
  | Gem5Machine _ _ => Err (Exn KeyError "cpu" [])
  end.

Definition qemu_machines (plan : plan) : res (list (string * Z * Z)) := mapR qemu_machine (p_machines plan).

(** [str(first) if all(...) else "mixed"]. *)
Definition uniform (l : list string) : string :=
  match l with
  | [] => "mixed"
  | first :: _ => if forallb (String.eqb first) l then first else "mixed"
  end.

Definition qemu_base_values (c : qemu_config) (plan : plan) (ports : ports) : res manifest :=
  uart0 ← or_raise (uart ports !! 0%nat) (Exn ValueError "not enough values to unpack" []);
  uart1 ← or_raise (uart ports !! 1%nat) (Exn ValueError "not enough values to unpack" []);
  oob0 ← or_raise (oob ports !! 0%nat) (Exn IndexError "list index out of range" []);
  ssh0 ← or_raise (ssh ports !! 0%nat) (Exn IndexError "list index out of range" []);
  ssh1 ← or_raise (ssh ports !! 1%nat) (Exn IndexError "list index out of range" []);
  Ok (dupdate
    [("runtime", "qemu-tcg-" +:+ qc_mode c); ("node_count", str_of_Z (len (p_node_ids plan)));
     ("network_backend", "modular-ns3ub"); ("ub_fabric_layout", p_fabric_layout plan);
     ("synchronization", qc_sync c); ("icount_enabled", if qc_icount c then "1" else "0");
     ("host_poll_ns", qc_poll_ns c); ("uart0", str_of_Z uart0); ("uart1", str_of_Z uart1);
     ("oob_port", str_of_Z oob0); ("ssh0_port", str_of_Z ssh0); ("ssh1_port", str_of_Z ssh1);
     ("peer_link_rate_gbps", str_of_Z (qc_rate c));
     ("host_link_latency_ns", str_of_Z (qc_host_latency c));
     ("max_jettys", str_of_Z (p_max_jettys plan)); ("public_jettys", "1");
     ("udma_state_format", "3"); ("qemu_binary", qemu_binary);
     ("udma_device_binary", qemu_udma_binary); ("ns3_binary", ns3_binary "UBSIM_NS3UB_ADAPTER");
     ("kernel_image", qemu_kernel); ("initrd_image", qemu_initrd);
     ("port_count", str_of_Z (p_port_count plan)); ("peer_latency_ns", str_of_Z (qc_link_latency c));
     ("switch_delay_ns", str_of_Z (p_switch_delay_ns plan))] (qc_knobs c)).

(** The per-node entries. *)
Definition qemu_node_values (count : nat) (ports : ports) (values : manifest)
    (nml : nat * ((string * Z * Z) * (Z * Z))) : res manifest :=
  let '(node, ((cpu, cores, memory), (rate, latency))) := nml in
  uart_port ← or_raise (uart ports !! node) (Exn IndexError "list index out of range" []);
  ssh_port ← or_raise (ssh ports !! node) (Exn IndexError "list index out of range" []);
  oob_port ← or_raise (oob ports !! (if (2 <? count)%nat then node else 0%nat))
               (Exn IndexError "list index out of range" []);
  Ok (dupdate values
    [(node_key node "_cpu_type", cpu); (node_key node "_cpu_count", str_of_Z cores);
     (node_key node "_memory_mib", str_of_Z memory);
     (node_key node "_uart_port", str_of_Z uart_port); (node_key node "_ssh_port", str_of_Z ssh_port);
     (node_key node "_oob_port", str_of_Z oob_port);
     (node_key node "_link_rate_gbps", str_of_Z rate);
     (node_key node "_link_latency_ns", str_of_Z latency)]).

Definition qemu_manifest (c : qemu_config) (plan : plan) (ports : ports)
    (machines : list (string * Z * Z)) : res manifest :=
  let count := length (p_node_ids plan) in
  base ← qemu_base_values c plan ports;
  values ← foldM (qemu_node_values count ports) base (enumerate (zip machines (p_node_links plan)));
  let values := dset values "cpu_type" (uniform ((λ m, m.1.1) <$> machines)) in
  let values := dset values "cpu_count" (uniform ((λ m, str_of_Z m.1.2) <$> machines)) in
  let values := dset values "memory_mib" (uniform ((λ m, str_of_Z m.2) <$> machines)) in
  Ok (dset values "oob_backend" (if (2 <? count)%nat then "learning-relay" else "direct-socket")).

Definition qemu_file (node : nat) (kind : string) : string :=
  "/tmp/ubsim-qemu-dual.node" +:+ str_of_nat node +:+ "." +:+ kind.

Definition qemu_udma_flags : list (string * string) :=
  [("sq-prefetch-wqebbs", "sq_prefetch_wqebbs"); ("sq-fetch-burst-wqebbs", "sq_fetch_burst_wqebbs");
   ("sq-fetch-max-outstanding", "sq_fetch_max_outstanding");
   ("completion-event-slots", "completion_event_slots"); ("max-jfs-depth", "max_jfs_depth");
   ("max-jfr-depth", "max_jfr_depth"); ("max-jfc-depth", "max_jfc_depth")].

Definition qemu_udma_argv (c : qemu_config) (plan : plan) (run_root : string) (node : nat)
    (link : Z * Z) : res (list string) :=
  dma ← getitem (qc_knobs c) "dma_max_outstanding";
  flags ← flag_arguments (qc_knobs c) qemu_udma_flags;
  iotlb ← getitem (qc_knobs c) "iotlb_entries";
  let host_ps := str_of_Z (qc_host_latency c * 1000) in
  let net_ps := str_of_Z (link.2 * 1000) in
  Ok ([qemu_udma_binary; "--host-socket"; qemu_file node "host.sock";
       "--net-socket"; qemu_file node "net.sock"; "--shm"; qemu_file node "shm";
       "--sync"; qc_sync c; "--host-link-latency-ps"; host_ps; "--net-link-latency-ps"; net_ps;
       "--host-sync-interval-ps"; host_ps; "--net-sync-interval-ps"; net_ps;
       "--eid"; str_of_Z (0x100 + Z.of_nat node); "--ports"; str_of_Z (p_port_count plan);
       "--dma-max-outstanding"; dma] ++ flags ++
      ["--max-jettys"; str_of_Z (p_max_jettys plan); "--public-jettys"; "1";
       "--iotlb-entries"; iotlb; "--state-out";
       join_path run_root ("udma-node" +:+ str_of_nat node +:+ "/state.bin")]).

Definition qemu_ns3_argv (c : qemu_config) (plan : plan) : res (list string) :=
  ctp ← ctp_arguments (qc_knobs c);
  let link_ps := str_of_Z (qc_link_latency c * 1000) in
  Ok ([ns3_binary "UBSIM_NS3UB_ADAPTER"; "--ports"; str_of_Z (p_port_count plan);
       "--link-delay-ps"; link_ps; "--switch-delay-ps"; str_of_Z (p_switch_delay_ns plan * 1000);
       "--rate-gbps"; str_of_Z (qc_rate c); "--sync"; qc_sync c; "--sync-interval-ps"; link_ps] ++ ctp ++
      (if String.eqb (p_fabric_layout plan) "direct" then ["--direct-link"] else []) ++
      concat ((λ nl : nat * (Z * Z), ["--endpoint"; endpoint (qemu_file nl.1 "net.sock") nl.1 nl.2])
                <$> enumerate (p_node_links plan))).

(** The out-of-band network device of one guest. *)
Definition qemu_oob (count node : nat) (ports : ports) : res string :=
  if (2 <? count)%nat then
    p ← or_raise (oob ports !! node) (Exn IndexError "list index out of range" []);
    Ok ("socket,id=oob,listen=127.0.0.1:" +:+ str_of_Z p)
  else
    p ← or_raise (oob ports !! 0%nat) (Exn IndexError "list index out of range" []);
    Ok ((if Nat.eqb node 0 then "socket,id=oob,listen=127.0.0.1:"
         else "socket,id=oob,connect=127.0.0.1:") +:+ str_of_Z p).

Definition qemu_argv (c : qemu_config) (count : nat) (run_root : string) (ports : ports)
    (node : nat) (machine : string * Z * Z) : res (list string) :=
  let '(cpu, cores, memory) := machine in
  shift ← getitem (qc_knobs c) "icount_shift";
  uart_port ← or_raise (uart ports !! node) (Exn IndexError "list index out of range" []);
  oob_device ← qemu_oob count node ports;
  ssh_port ← or_raise (ssh ports !! node) (Exn IndexError "list index out of range" []);
  Ok ([qemu_binary; "-machine"; "virt,accel=tcg,gic-version=2,highmem=off"; "-cpu"; cpu] ++
      (if qc_icount c then ["-icount"; "shift=" +:+ shift +:+ ",sleep=off"] else []) ++
      ["-smp"; str_of_Z cores; "-m"; str_of_Z memory; "-kernel"; qemu_kernel; "-initrd"; qemu_initrd;
       "-append"; "console=ttyAMA0 rdinit=/init nokaslr loglevel=5 ubsim_node=" +:+ str_of_nat node +:+
         " ubsim_provider=official ubsim_auto_net=1 ubsim_ssh=1";
       "-display"; "none"; "-monitor"; "none"; "-no-reboot";
       "-chardev"; "socket,id=uart0,host=127.0.0.1,port=" +:+ str_of_Z uart_port +:+
         ",server=on,wait=off,logfile=" +:+ node_dir run_root node +:+
         "/system.terminal,logappend=on";
       "-serial"; "chardev:uart0";
       "-device"; "e1000,netdev=oob,mac=02:00:00:00:00:" +:+ mac_suffix node;
       "-netdev"; oob_device;
       "-device"; "e1000,netdev=ssh,mac=02:00:00:00:10:" +:+ mac_suffix node;
       "-netdev"; "user,id=ssh,hostfwd=tcp:127.0.0.1:" +:+ str_of_Z ssh_port +:+ "-:22"]).

Definition qemu_vars (c : qemu_config) (node : nat) : list (string * string) :=
  let host_ps := str_of_Z (qc_host_latency c * 1000) in
  [("UBSIM_QEMU_UB_HOST_SOCKET", qemu_file node "host.sock");
   ("UBSIM_QEMU_UB_HOST_SYNC", qc_sync c); ("UBSIM_QEMU_UB_HOST_POLL_NS", qc_poll_ns c);
   ("UBSIM_QEMU_UB_HOST_LATENCY_PS", host_ps);
   ("UBSIM_QEMU_UB_HOST_SYNC_INTERVAL_PS", host_ps)].

(** The [try] block of [start_qemu]. *)
Definition qemu_launch (c : qemu_config) (plan : plan) (run_root : string) (ports : ports)
    (machines : list (string * Z * Z)) : io effect unit :=
  let count := length (p_node_ids plan) in
  let sub p := join_path run_root p in
  each (λ nl : nat * (Z * Z),
          argv <- lift (qemu_udma_argv c plan run_root nl.1 nl.2);
          _spawn argv (sub ("udma-node" +:+ str_of_nat nl.1 +:+ "/udma.pid")) [])
    (enumerate (p_node_links plan)) ;;;
  each (λ nk : nat * string, _wait_socket (qemu_file nk.1 nk.2))
    (pairs (seq 0 count) ["host.sock"; "net.sock"]) ;;;
  ns3 <- lift (qemu_ns3_argv c plan);
  _spawn ns3 (sub "ub-fabric/ns3.pid") [] ;;;
  each (λ nm : nat * (string * Z * Z),
          let out := node_dir run_root nm.1 in
          emit (Touch (join_path out "system.terminal")) ;;;
          argv <- lift (qemu_argv c count run_root ports nm.1 nm.2);
          _spawn argv (join_path out "qemu.pid") (qemu_vars c nm.1))
    (enumerate machines) ;;;
  (if (2 <? count)%nat
   then _spawn ([w_python w; under_root "tools/ethernet_relay.py"] ++
                ((λ port, "tcp:127.0.0.1:" +:+ str_of_Z port) <$> oob ports))
          (sub "oob-switch/relay.pid") []
   else io_ret tt) ;;;
  _spawn (guard_argv run_root count ["--pid-name"; "qemu.pid"] "scripts/run/stop-qemu-dual.sh")
    (sub "memory-guard.pid") [].

Definition qemu_directories (count : nat) : list string :=
  ["ub-fabric"] ++ ((λ i, "node" +:+ str_of_nat i) <$> seq 0 count) ++
  ((λ i, "udma-node" +:+ str_of_nat i) <$> seq 0 count) ++
  (if (2 <? count)%nat then ["oob-switch"] else []).

(** [max(...)] of a non-empty iterable. *)
Definition py_maximum (l : list Z) : res Z :=
  match l with
  | [] => Err (Exn ValueError "max() arg is an empty sequence" [])
  | x :: l' => Ok (foldl Z.max x l')
  end.

(** [start_qemu]; the result is the run directory. *)
Definition start_qemu (spec : json) (plan : plan) : io effect string :=
  let count := length (p_node_ids plan) in
  ports <- lift (qemu_ports (w_env w) (Z.of_nat count));
  let run_root := env_path "UBSIM_QEMU_DUAL_OUT" (under_root "run-qemu-dual") in
  (if w_live_pid w run_root then throw (launch_error "a QEMU simulation is already running" [])
   else io_ret tt) ;;;
  machines <- lift (qemu_machines plan);
  largest <- lift (py_maximum machines.*2);
  lift (_check_memory "qemu-start" count (str_of_Z largest +:+ "MiB")) ;;;
  lift (_require_files [qemu_binary; qemu_kernel; qemu_initrd; qemu_udma_binary;
                        ns3_binary "UBSIM_NS3UB_ADAPTER"]) ;;;
  _clear_owned_run_paths run_root ;;;
  each (λ d, emit (Mkdir (join_path run_root d))) (qemu_directories count) ;;;
  c <- lift (qemu_configure spec plan);
  values <- lift (qemu_manifest c plan ports machines);
  emit (WriteText (join_path run_root "run-manifest.txt") (print_manifest values)) ;;;
  each (λ nk : nat * string, emit (Unlink (qemu_file nk.1 nk.2)))
    (pairs (seq 0 count) ["host.sock"; "net.sock"; "shm"]) ;;;
  on_error (qemu_launch c plan run_root ports machines) terminate_all ;;;
  io_ret run_root.
End launcher.

(** ** [./lab topology] ([run] of [ubsim_lab/topology.py]) *)

Section topology_run.
(** Reading and parsing the file, and the two launchers. *)
Variable load : string → res json.
Variable launch : json → plan → io effect string.

(** The exit status; prints are not modelled, and the two JSON files are
    written with their contents left to the standard library's encoder. *)
Definition run (args : list string) : io effect Z :=
  match args with
  | [action; filename] =>
      if negb (elemb action ["validate"; "plan"; "start"]) then io_ret 2
      else
        match (raw ← load filename; plan ← compile_topology raw; Ok (raw, plan)) with
        | Err e =>
            if is_a (exn_cls e) OSError || is_a (exn_cls e) JSONDecodeError
               || is_a (exn_cls e) TopologyError then io_ret 2 else throw e
        | Ok (raw, plan) =>
            if elemb action ["validate"; "plan"] then io_ret 0
            else λ l,
              match launch raw plan l with
              | (l', Ok output) =>
                  (l' ++ [Touch (join_path output "topology.json");
                          Touch (join_path output "topology-plan.json")], Ok 0)
              | (l', Err e) =>
                  if is_a (exn_cls e) LaunchError || is_a (exn_cls e) OSError
                     || is_a (exn_cls e) ValueError then (l', Ok 2) else (l', Err e)
              end
        end
  | _ => io_ret 2
  end.
End topology_run.

(** ** The gem5 command line is complete *)

Lemma option_keys_known : forallb (λ o, elemb (_gem5_key o) machine_keys) GEM5_OPTIONS = true.
Proof. vm_compute. reflexivity. Qed.

Lemma machine_key_Ok m k : holds_keys m → elemb k machine_keys = true → ∃ v, getitem m k = Ok v.
Proof.
  intros H Hk. apply elemb_true in Hk. destruct (H k Hk) as [v Hv].
  exists v. unfold getitem. by rewrite Hv.
Qed.

Definition is_value_error (e : exn) : Prop := exn_cls e = ValueError.

Lemma env_number_raises w name def : raises is_value_error (env_number w name def).
Proof. apply env_int_raises. Qed.

(** Looks a machine key up in a manifest that holds them all. *)
Ltac machine_key H k :=
  let v := fresh "v" in let Hv := fresh "Hv" in
  destruct (machine_key_Ok _ k H) as [v Hv]; [vm_compute; reflexivity|];
  rewrite ?Hv; cbn [mbind res_bind].

Lemma gem5_argv_raises w m node run_root checkpoint template :
  holds_keys m → is_Some (dget m "initrd_path") →
  raises is_value_error (gem5_argv w m node run_root checkpoint template).
Proof.
  intros H [initrd Hi]. unfold gem5_argv, getitem at 1. rewrite Hi. cbn [or_raise mbind res_bind].
  assert (∃ os, mapR (option_argument m) GEM5_OPTIONS = Ok os) as [os ->].
  { apply mapR_total. intros o Ho. unfold option_argument.
    pose proof option_keys_known as Hk. rewrite forallb_forall in Hk.
    apply list_elem_of_In, Hk in Ho. destruct (machine_key_Ok m _ H Ho) as [v ->]. by eexists. }
  cbn [mbind res_bind].
  assert (∃ ms, mode_arguments m node checkpoint template = Ok ms) as [ms ->].
  { unfold mode_arguments. machine_key H "auto_o3_lifecycle". machine_key H "fast_boot_noncaching".
    by eexists. }
  cbn [mbind res_bind].
  apply raises_bind; [apply env_number_raises|intros u0 _].
  apply raises_bind; [apply env_number_raises|intros u1 _].
  assert (∀ u, ∃ ls, link_arguments w m node template u = Ok ls) as Hl.
  { intros u. unfold link_arguments. machine_key H "oob_link_speed". machine_key H "peer_latency_ns".
    machine_key H "provider". by eexists. }
  destruct (Hl (u0 + Z.of_nat node * (u1 - u0))) as [ls ->]. apply raises_Ok.
Qed.

(** For every accepted gem5 topology, building a node's gem5 command never
    misses a manifest key: each of the 94 machine options has its value, and
    only a malformed [UBSIM_DUAL_UART*] variable can make it fail. *)
Theorem gem5_command_total w raw p m node run_root checkpoint template :
  compile_topology raw = Ok p → p_simulator p = "gem5" →
  resolve_gem5 (w_root w) raw p = Ok m →
  raises is_value_error (gem5_argv w m node run_root checkpoint template) ∧
  (w_env w "UBSIM_DUAL_UART0" = None → w_env w "UBSIM_DUAL_UART1" = None →
   ∃ argv, gem5_argv w m node run_root checkpoint template = Ok argv).
Proof.
  intros Hc Hg Hm. destruct (resolve_keys _ _ _ _ Hc Hg Hm) as [Hk Hi].
  pose proof (gem5_argv_raises w m node run_root checkpoint template Hk Hi) as Hr.
  split; [done|]. intros H0 H1.
  destruct (gem5_argv w m node run_root checkpoint template) as [argv|e] eqn:E; [by eexists|].
  exfalso. destruct Hi as [initrd Hi]. unfold gem5_argv, getitem at 1 in E. rewrite Hi in E.
  cbn [or_raise mbind res_bind] in E.
  unfold env_number, env_int in E. rewrite H0, H1 in E.
  change (int_of_str (default "3460" None)) with (Ok 3460) in E.
  change (int_of_str (default "3470" None)) with (Ok 3470) in E.
  apply bind_Err in E as [E|(os & _ & E)].
  { apply mapR_Err in E as (o & Ho & E). unfold option_argument in E.
    pose proof option_keys_known as Hok. rewrite forallb_forall in Hok.
    apply list_elem_of_In, Hok in Ho. destruct (machine_key_Ok m _ Hk Ho) as [v Hv].
    by rewrite Hv in E. }
  apply bind_Err in E as [E|(ms & _ & E)].
  { unfold mode_arguments in E. revert E. machine_key Hk "auto_o3_lifecycle".
    by machine_key Hk "fast_boot_noncaching". }
  cbn [mbind res_bind] in E. apply bind_Err in E as [E|(ls & _ & E)]; [|done].
  unfold link_arguments in E. revert E. machine_key Hk "oob_link_speed".
  machine_key Hk "peer_latency_ns". by machine_key Hk "provider".
Qed.

(** ** Delays *)

Lemma strip_suffix_app a s : strip_suffix s (a +:+ s) = Some a.
Proof.
  unfold strip_suffix. rewrite rev_app_string, strip_prefix_app. cbn. f_equal.
  apply rev_rev_string.
Qed.

(** A switch delay survives the manifest: the launcher reads back the plan's
    nanoseconds as that many thousand picoseconds. *)
Theorem picoseconds_ns n : 0 <= n → picoseconds (str_of_Z n +:+ "ns") = Ok (n * 1000).
Proof.
  intros Hn. unfold picoseconds, time_units. cbn [picoseconds_go].
  assert (strip_suffix "ps" (str_of_Z n +:+ "ns") = None) as ->.
  { unfold strip_suffix. rewrite rev_app_string. done. }
  rewrite strip_suffix_app. unfold int_of_str. by rewrite py_int_str.
Qed.

(** ** Failure of a launch undoes it *)

Lemma started_app l1 l2 : started (l1 ++ l2) = started l1 ++ started l2.
Proof. apply omap_app. Qed.
Lemma popened_app l1 l2 : popened (l1 ++ l2) = popened l1 ++ popened l2.
Proof. apply omap_app. Qed.
Lemma terminated_app l1 l2 : terminated (l1 ++ l2) = terminated l1 ++ terminated l2.
Proof. apply omap_app. Qed.

(** A body that registers nothing before the guarded part. *)
Definition idle (l : list effect) : Prop := started l = [] ∧ popened l = [] ∧ terminated l = [].

(** Every process created is registered, except for one, the last, whose pid
    file could not be written: the exception that this raises ends the body. *)
Definition registered (w : world) (l : list effect) (ok : bool) : Prop :=
  popened l = started l ∨
  ok = false ∧ ∃ argv pidfile, w_pidfile_ok w pidfile = false ∧ popened l = started l ++ [argv].

(** A stretch of the log that ends no process and registers those it creates. *)
Definition orderly (w : world) (l : list effect) (ok : bool) : Prop := terminated l = [] ∧ registered w l ok.

Lemma orderly_app w l1 l2 ok : orderly w l1 true → orderly w l2 ok → orderly w (l1 ++ l2) ok.
Proof.
  intros [T1 R1] [T2 R2]. split; [by rewrite terminated_app, T1, T2|]. unfold registered in *.
  destruct R1 as [R1|[? _]]; [|done]. rewrite started_app, popened_app, R1.
  destruct R2 as [->|(Hok & argv & pidfile & Hp & ->)]; [by left|right]. split; [done|].
  exists argv, pidfile. by rewrite app_assoc.
Qed.

Abbreviation adds_orderly w m := (adds (λ l r, orderly w l (is_ok r)) m).

Lemma orderly_quiet w ok : orderly w [] ok.
Proof. split; [done|by left]. Qed.
Lemma orderly_ret {A} w (a : A) : adds_orderly w (io_ret a).
Proof. apply adds_ret, orderly_quiet. Qed.
Lemma orderly_lift {A} w (m : res A) : adds_orderly w (lift m).
Proof. apply adds_lift, orderly_quiet. Qed.
Lemma orderly_throw {A} w e : adds_orderly w (@throw effect A e).
Proof. apply adds_throw, orderly_quiet. Qed.
Lemma orderly_emit w e : idle [e] → adds_orderly w (emit e).
Proof. intros (S & P & T). apply adds_emit. split; [done|left]. by rewrite S, P. Qed.
Lemma orderly_bind {A B} w (m : io effect A) (k : A → io effect B) :
  adds_orderly w m → (∀ a, adds_orderly w (k a)) → adds_orderly w (io_bind m k).
Proof.
  intros Hm Hk. eapply adds_bind; [exact Hm|done|]. intros l a Hl. cbn in Hl |- *.
  eapply adds_weaken; [|apply Hk]. intros l' r. cbn. by apply orderly_app.
Qed.
Lemma orderly_each {A} w (body : A → io effect unit) xs :
  (∀ x, adds_orderly w (body x)) → adds_orderly w (each body xs).
Proof.
  intros H. induction xs as [|x xs IH]; cbn; [apply orderly_ret|]. apply orderly_bind; [apply H|by intros _].
Qed.

Create HintDb orderly.
#[export] Hint Resolve orderly_ret orderly_lift orderly_throw : orderly.

Ltac orderly_step :=
  match goal with
  | |- adds _ (io_bind _ _) => apply orderly_bind; [|intros ?]
  | |- adds _ (each _ _) => apply orderly_each; intros ?
  | |- adds _ (if ?b then _ else _) => destruct b
  | |- adds _ (let '(_, _) := ?x in _) => destruct x
  | |- adds _ (emit _) => apply orderly_emit; by split_and!
  | |- adds _ _ => solve [auto with orderly]
  end.
Ltac orderly_tac := cbv zeta; repeat (orderly_step; cbv beta).

Lemma orderly_spawn w argv pidfile vars : adds_orderly w (_spawn w argv pidfile vars).
Proof.
  intros l. unfold _spawn, io_bind, emit, throw. cbn.
  destruct (w_popen_ok w argv); cbn.
  2: { exists [MkdirParent pidfile]. split_and!; [done..|]. split; [done|by left]. }
  destruct (w_pidfile_ok w pidfile) eqn:Hp; cbn.
  - exists [MkdirParent pidfile; Popen argv vars; Started argv pidfile].
    rewrite <- !app_assoc. split_and!; [done..|]. split; [done|by left].
  - exists [MkdirParent pidfile; Popen argv vars]. rewrite <- !app_assoc. split_and!; [done..|].
    split; [done|right]. split; [done|]. by exists argv, pidfile.
Qed.
#[export] Hint Resolve orderly_spawn : orderly.

Lemma orderly_wait w path : adds_orderly w (_wait_socket w path).
Proof. unfold _wait_socket. orderly_tac. Qed.
#[export] Hint Resolve orderly_wait : orderly.

Lemma orderly_command w m node run_root cp t wi : adds_orderly w (gem5_command w m node run_root cp t wi).
Proof. unfold gem5_command. orderly_tac. Qed.
#[export] Hint Resolve orderly_command : orderly.

Lemma orderly_clear w run_root : adds_orderly w (_clear_owned_run_paths w run_root).
Proof. unfold _clear_owned_run_paths. orderly_tac. Qed.
#[export] Hint Resolve orderly_clear : orderly.

Lemma orderly_gem5_launch w m p run_root cp t sync : adds_orderly w (gem5_launch w m p run_root cp t sync).
Proof. unfold gem5_launch. orderly_tac. Qed.

Lemma orderly_qemu_launch w c p run_root ports machines :
  adds_orderly w (qemu_launch w c p run_root ports machines).
Proof. unfold qemu_launch. orderly_tac. Qed.

(** What a whole launch leaves: on success every process it created, all
    registered and none terminated; on failure it has terminated every registered
    process, the newest first, and those are all the processes it created but for
    at most one, the last, whose pid file could not be written. *)
Definition undone (w : world) (l : list effect) {A} (r : res A) : Prop :=
  match r with
  | Ok _ => terminated l = [] ∧ popened l = started l
  | Err _ => terminated l = reverse (started l) ∧ registered w l false
  end.

Lemma started_terminate_all l : started (terminate_all l) = [].
Proof. unfold terminate_all. induction (reverse (started l)) as [|a r IH]; [done|]. exact IH. Qed.
Lemma popened_terminate_all l : popened (terminate_all l) = [].
Proof. unfold terminate_all. induction (reverse (started l)) as [|a r IH]; [done|]. exact IH. Qed.
Lemma terminated_terminate_all l : terminated (terminate_all l) = reverse (started l).
Proof.
  unfold terminate_all. induction (reverse (started l)) as [|a r IH]; [done|].
  unfold terminated in *. cbn. by rewrite IH.
Qed.

Lemma undone_on_error {A} w (m : io effect A) :
  adds_orderly w m → adds (λ l r, undone w l r) (on_error m terminate_all).
Proof.
  intros Hm. eapply adds_on_error; [exact Hm| |].
  - intros l a [T [R|[? _]]]; done.
  - intros l e [T R]. split.
    + rewrite terminated_app, started_app, T, terminated_terminate_all, started_terminate_all.
      by rewrite app_nil_r.
    + unfold registered. rewrite started_app, popened_app, started_terminate_all, popened_terminate_all.
      by rewrite !app_nil_r.
Qed.

Lemma idle_app l1 l2 : idle l1 → idle l2 → idle (l1 ++ l2).
Proof.
  intros (S1 & P1 & T1) (S2 & P2 & T2).
  split_and!; [rewrite started_app, S1|rewrite popened_app, P1|rewrite terminated_app, T1]; done.
Qed.

Abbreviation adds_idle m := (adds (λ l _, idle l) m).

Lemma idle_bind {A B} (m : io effect A) (k : A → io effect B) :
  adds_idle m → (∀ a, adds_idle (k a)) → adds_idle (io_bind m k).
Proof.
  intros Hm Hk. eapply adds_bind; [exact Hm|done|]. intros l a Hl. cbn.
  eapply adds_weaken; [|apply Hk]. intros l' r. cbn. by apply idle_app.
Qed.

Ltac idle_step :=
  match goal with
  | |- adds _ (io_bind _ _) => apply idle_bind; [|intros ?]
  | |- adds _ (each _ _) => apply adds_each; [done|apply idle_app|intros ? _]
  | |- adds _ (if ?b then _ else _) => destruct b
  | |- adds _ (emit _) => apply adds_emit; done
  | |- adds _ (lift _) => apply adds_lift; done
  | |- adds _ (throw _) => apply adds_throw; done
  | |- adds _ (io_ret _) => apply adds_ret; done
  end.
Ltac idle_tac := cbv zeta; repeat (idle_step; cbv beta).

Lemma idle_clear w run_root : adds_idle (_clear_owned_run_paths w run_root).
Proof. unfold _clear_owned_run_paths. idle_tac. Qed.

Lemma idle_gem5_prepare w m p run_root cp t : adds_idle (gem5_prepare w m p run_root cp t).
Proof. unfold gem5_prepare. idle_tac. apply idle_clear. all: idle_tac. Qed.

(** An idle prefix does not disturb what follows. *)
Lemma undone_bind {A B} w (m : io effect A) (k : A → io effect B) :
  adds_idle m → (∀ a, adds (λ l r, undone w l r) (k a)) → adds (λ l r, undone w l r) (io_bind m k).
Proof.
  intros Hm Hk. eapply adds_bind; [exact Hm| |].
  - intros l e (S & P & T). cbn. unfold registered. rewrite S, P, T. by split; [|left].
  - intros l a (S & P & T). eapply adds_weaken; [|apply Hk]. intros l' r. unfold undone, registered.
    rewrite terminated_app, started_app, popened_app, S, P, T. done.
Qed.

Lemma undone_ret {A B} w (m : io effect A) (b : B) :
  adds (λ l r, undone w l r) m → adds (λ l r, undone w l r) (m ;;; io_ret b).
Proof.
  intros Hm. eapply adds_bind; [exact Hm|done|]. intros l a T. apply adds_ret. cbn in *.
  by rewrite app_nil_r.
Qed.

(** C12: a gem5 launch that fails at any point, by any exception, has terminated
    every process it had started and registered, in reverse order; the only
    process it may leave behind is the last one it created, when that one's pid
    file could not be written.  A launch that succeeds has registered every
    process it created and terminated none. *)
Theorem start_gem5_rollback w select read_file spec p l :
  ∃ l', (start_gem5 w select read_file spec p l).1 = l ++ l' ∧
    undone w l' (start_gem5 w select read_file spec p l).2.
Proof.
  revert l. change (adds (λ l r, undone w l r) (start_gem5 w select read_file spec p)).
  unfold start_gem5. apply undone_bind; [idle_tac|intros m].
  apply undone_bind; [idle_tac|intros [[selected cp] t]].
  apply undone_bind; [idle_tac|intros _].
  apply undone_bind; [apply idle_gem5_prepare|intros _].
  apply undone_bind; [idle_tac|intros vts].
  apply undone_ret, undone_on_error, orderly_gem5_launch.
Qed.

(** C13: a QEMU launch that fails at any point, by any exception, has terminated
    every process it had started and registered, in reverse order; the only
    process it may leave behind is the last one it created, when that one's pid
    file could not be written.  A launch that succeeds has registered every
    process it created and terminated none. *)
Theorem start_qemu_rollback w spec p l :
  ∃ l', (start_qemu w spec p l).1 = l ++ l' ∧ undone w l' (start_qemu w spec p l).2.
Proof.
  revert l. change (adds (λ l r, undone w l r) (start_qemu w spec p)).
  unfold start_qemu. cbv zeta.
  do 12 (apply undone_bind; [first [apply idle_clear|idle_tac]|intros ?]).
  apply undone_ret, undone_on_error, orderly_qemu_launch.
Qed.

(** ** Nothing is started before the checks *)

(** [popened l = []] unless [P]. *)
Definition guarded (P : Prop) (l : list effect) : Prop := popened l = [] ∨ P.

Lemma guarded_bind {A B} (P : Prop) (m : io effect A) (k : A → io effect B) (Q : A → Prop) :
  adds (λ l r, idle l ∧ ∀ a, r = Ok a → Q a) m →
  (∀ a, Q a → adds (λ l _, guarded P l) (k a)) → adds (λ l _, guarded P l) (io_bind m k).
Proof.
  intros Hm Hk. eapply adds_bind; [exact Hm| |].
  - intros l e [(_ & Hp & _) _]. by left.
  - intros l a [(_ & Hp & _) HQ]. eapply adds_weaken; [|apply Hk, HQ; reflexivity].
    intros l' r [H|H]; [left|by right]. rewrite popened_app, Hp, H. done.
Qed.

Lemma guarded_true {A} (P : Prop) Q (m : io effect A) : P → adds Q m → adds (λ l _, guarded P l) m.
Proof. intros HP Hm. eapply adds_weaken; [|exact Hm]. intros. by right. Qed.

Lemma lift_spec {A} (m : res A) : adds (λ l r, idle l ∧ ∀ a, r = Ok a → m = Ok a) (lift (E := effect) m).
Proof. apply adds_lift. by split. Qed.

Lemma idle_spec {A} (m : io effect A) : adds_idle m → adds (λ l r, idle l ∧ ∀ a, r = Ok a → True) m.
Proof. intros H. eapply adds_weaken; [|exact H]. by split. Qed.

Lemma require_files_Ok w paths : _require_files w paths = Ok tt → Forall (λ p, w_is_file w p = true) paths.
Proof.
  induction paths as [|p paths IH]; cbn; [constructor|].
  destruct (w_is_file w p) eqn:E; cbn; [|done]. constructor; [done|by apply IH].
Qed.

(** A QEMU launch creates a process only after every check has passed: no
    live process in the run directory, the host memory for the largest guest,
    the ports, and the five artifacts present. *)
Theorem start_qemu_checks w spec p l l' :
  (start_qemu w spec p l).1 = l ++ l' → popened l' ≠ [] →
  w_live_pid w (env_path w "UBSIM_QEMU_DUAL_OUT" (under_root w "run-qemu-dual")) = false ∧
  is_ok (qemu_ports (w_env w) (Z.of_nat (length (p_node_ids p)))) = true ∧
  (∃ machines largest, qemu_machines p = Ok machines ∧ py_maximum machines.*2 = Ok largest ∧
     w_memory_ok w "qemu-start" (length (p_node_ids p)) (str_of_Z largest +:+ "MiB") = true) ∧
  Forall (λ f, w_is_file w f = true)
    [qemu_binary w; qemu_kernel w; qemu_initrd w; qemu_udma_binary w; ns3_binary w "UBSIM_NS3UB_ADAPTER"].
Proof.
  intros Hl Hp. match goal with |- ?G => enough (adds (λ l _, guarded G l) (start_qemu w spec p)) as H end.
  { destruct (H l) as (l2 & H2 & [H3|H3]); [|done]. rewrite Hl in H2. apply app_inv_head in H2 as ->. done. }
  clear Hl Hp l l'. unfold start_qemu. cbv zeta.
  eapply guarded_bind; [apply lift_spec|intros ports Hports].
  destruct (w_live_pid w _) eqn:Hlive.
  { eapply (guarded_bind _ _ _ (λ _, False)); [|done]. by apply adds_throw. }
  eapply guarded_bind; [by apply idle_spec, adds_ret|intros _ _].
  eapply guarded_bind; [apply lift_spec|intros machines Hmachines].
  eapply guarded_bind; [apply lift_spec|intros largest Hlargest].
  eapply guarded_bind; [apply lift_spec|intros [] Hmem].
  eapply guarded_bind; [apply lift_spec|intros [] Hfiles].
  eapply (guarded_true _ (λ l r, undone w l r)).
  - split; [done|]. split; [by rewrite Hports|]. split; [|by apply require_files_Ok].
    exists machines, largest. split; [done|]. split; [done|].
    unfold _check_memory in Hmem. by destruct (w_memory_ok _ _ _ _).
  - do 6 (apply undone_bind; [first [apply idle_clear|idle_tac]|intros ?]).
    apply undone_ret, undone_on_error, orderly_qemu_launch.
Qed.

(** A gem5 launch creates a process only after every check has passed:
    nothing alive in the run directory, memory for the requested size, the simulator, its configuration, the guest image,
    the kernel and the two network binaries present, and a node template only
    for [modern]. *)
Theorem start_gem5_checks w select read_file spec p l l' :
  (start_gem5 w select read_file spec p l).1 = l ++ l' → popened l' ≠ [] →
  w_live_pid w (env_path w "UBSIM_DUAL_OUT" (under_root w "run-dual")) = false ∧
  ∃ m mem, resolve_gem5 (w_root w) spec p = Ok m ∧ getitem m "memory_size" = Ok mem ∧
    w_memory_ok w "start" (length (p_node_ids p)) mem = true ∧
    Forall (λ f, w_is_file w f = true)
      [udma_binary w; ns3_binary w "UBSIM_UB_SWITCH_BINARY"].
Proof.
  intros Hl Hp. match goal with |- ?G =>
    enough (adds (λ l _, guarded G l) (start_gem5 w select read_file spec p)) as H end.
  { destruct (H l) as (l2 & H2 & [H3|H3]); [|done]. rewrite Hl in H2. apply app_inv_head in H2 as ->. done. }
  clear Hl Hp l l'. unfold start_gem5.
  eapply guarded_bind; [apply lift_spec|intros m0 Hm].
  eapply guarded_bind; [apply lift_spec|intros [[selected cp] t] _].
  eapply guarded_bind; [apply idle_spec; idle_tac|intros _ _]. cbv zeta.
  set (m := dset m0 _ _).
  eapply (guarded_bind _ _ _ (λ _, w_live_pid w (env_path w "UBSIM_DUAL_OUT" (under_root w "run-dual")) = false ∧
    ∃ mem, getitem m "memory_size" = Ok mem ∧ _check_memory w "start" (length (p_node_ids p)) mem = Ok tt ∧
    ∃ paths, gem5_required w m (env_path w "UBSIM_DUAL_OUT" (under_root w "run-dual")) cp t = Ok paths ∧
      _require_files w paths = Ok tt)).
  { intros l0. destruct (idle_gem5_prepare w m p (env_path w "UBSIM_DUAL_OUT" (under_root w "run-dual")) cp t l0)
      as (l2 & H2 & Hi). exists l2. split; [done|]. split; [done|].
    intros a. unfold gem5_prepare, io_bind, lift, throw, io_ret.
    destruct (w_live_pid w _); [done|].
    destruct (getitem m "memory_size") as [mem|]; [|done].
    destruct (_check_memory _ _ _ _) as [[]|] eqn:Hc; [|done].
    destruct (gem5_required _ _ _ _ _) as [paths|] eqn:Hr; [|done].
    destruct (_require_files w paths) as [[]|] eqn:Hf; [|done]. intros _. split; [done|].
    exists mem. split; [done|]. split; [done|]. by exists paths. }
  intros _ (Hlive & mem & Hmem & Hck & paths & Hpaths & Hreq).
  eapply (guarded_true _ (λ l r, undone w l r)).
  - split; [done|]. exists m0, mem. split; [done|]. split.
    { unfold m, getitem in Hmem |- *. rewrite dget_dset_ne in Hmem; done. }
    split; [unfold _check_memory in Hck; by destruct (w_memory_ok _ _ _ _)|].
    apply require_files_Ok in Hreq. unfold gem5_required in Hpaths. py_inv.
    rewrite !Forall_cons in Hreq. destruct Hreq as (_ & _ & _ & ? & ? & _). by repeat constructor.
  - apply undone_bind; [idle_tac|intros vts]. cbv zeta.
    apply undone_ret, undone_on_error, orderly_gem5_launch.
Qed.

(** ** Concrete launches *)

Definition sample_world (connected : bool) : world :=
  {| w_root := "/lab"; w_env := λ _, None; w_macos := false; w_uname := "x86_64";
     w_python := "/usr/bin/python3"; w_is_file := λ _, true; w_is_dir := λ _, false;
     w_exists := λ _, false; w_live_pid := λ _, false; w_memory_ok := λ _ _ _, true;
     w_popen_ok := λ _, true; w_pidfile_ok := λ _, true; w_socket := λ _, true;
     w_connected := connected |}.

Definition plan_of (raw : json) : plan :=
  match compile_topology raw with
  | Ok p => p
  | Err _ => Plan EmptyString EmptyString [] [] None EmptyString EmptyString 0 0 false 0
               EmptyString EmptyString [] []
  end.

(** Two QEMU guests: two UDMA devices, the fabric, the guests, the guard. *)
Example sample_qemu_processes :
  length (popened (start_qemu (sample_world true) topology_qemu_two_heads
                     (plan_of topology_qemu_two_heads) []).1) = 6%nat.
Proof. vm_compute. reflexivity. Qed.

(** A fabric that never connects: the six processes of a gem5 launch that had
    been started are terminated. *)
Example sample_gem5_rollback :
  let r := start_gem5 (sample_world false) (λ _ _, Ok None) (λ _, None) topology_gem5_two_heads
             (plan_of topology_gem5_two_heads) [] in
  is_ok r.2 = false ∧ length (terminated r.1) = 6%nat.
Proof. vm_compute. done. Qed.

Lemma gem5_command_total_witness :
  ∃ p m argv, compile_topology topology_gem5_two_heads = Ok p ∧
    resolve_gem5 "/lab" topology_gem5_two_heads p = Ok m ∧
    gem5_argv (sample_world true) m 1 "/lab/run-dual" None false = Ok argv.
Proof.
  destruct (compile_topology topology_gem5_two_heads) as [p|] eqn:Hc;
    [|vm_compute in Hc; discriminate].
  assert (p_simulator p = "gem5") as Hg by (vm_compute in Hc; injection Hc as <-; reflexivity).
  destruct (resolve_gem5 "/lab" topology_gem5_two_heads p) as [m|] eqn:Hm;
    [|vm_compute in Hc; injection Hc as <-; vm_compute in Hm; discriminate].
  destruct (gem5_command_total (sample_world true) _ p m 1 "/lab/run-dual" None false Hc Hg Hm)
    as [_ H].
  destruct (H eq_refl eq_refl) as [argv Ha]. exists p, m, argv.
  split; [reflexivity|]. split; [exact Hm|exact Ha].
Defined.

Lemma picoseconds_ns_witness : picoseconds (str_of_Z 500 +:+ "ns") = Ok 500000.
Proof. apply (picoseconds_ns 500). lia. Defined.

Lemma start_qemu_checks_witness :
  w_live_pid (sample_world true)
    (env_path (sample_world true) "UBSIM_QEMU_DUAL_OUT" (under_root (sample_world true) "run-qemu-dual"))
  = false.
Proof.
  destruct (start_qemu_checks (sample_world true) topology_qemu_two_heads
              (plan_of topology_qemu_two_heads) []
              (start_qemu (sample_world true) topology_qemu_two_heads
                 (plan_of topology_qemu_two_heads) []).1 eq_refl) as (H & _).
  - intros E. apply (f_equal length) in E. vm_compute in E. discriminate.
  - exact H.
Defined.

Lemma start_gem5_checks_witness :
  ∃ m mem, resolve_gem5 "/lab" topology_gem5_two_heads (plan_of topology_gem5_two_heads) = Ok m ∧
    getitem m "memory_size" = Ok mem.
Proof.
  destruct (start_gem5_checks (sample_world true) (λ _ _, Ok None) (λ _, None)
              topology_gem5_two_heads (plan_of topology_gem5_two_heads) []
              (start_gem5 (sample_world true) (λ _ _, Ok None) (λ _, None) topology_gem5_two_heads
                 (plan_of topology_gem5_two_heads) []).1 eq_refl) as (_ & m & mem & H1 & H2 & _).
  - intros E. apply (f_equal length) in E. vm_compute in E. discriminate.
  - exists m, mem. split; [exact H1|exact H2].
Defined.

(** A pid file that cannot be written: the process just created is left running,
    unregistered, while those before it are terminated. *)
Example unwritable_pid_file :
  let w := sample_world true in
  let full := {| w_root := w_root w; w_env := w_env w; w_macos := w_macos w; w_uname := w_uname w;
     w_python := w_python w; w_is_file := w_is_file w; w_is_dir := w_is_dir w; w_exists := w_exists w;
     w_live_pid := w_live_pid w; w_memory_ok := w_memory_ok w; w_popen_ok := w_popen_ok w;
     w_pidfile_ok := λ p, negb (contains "udma-node1" p); w_socket := w_socket w; w_connected := w_connected w |} in
  let r := start_gem5 full (λ _ _, Ok None) (λ _, None) topology_gem5_two_heads
             (plan_of topology_gem5_two_heads) [] in
  is_ok r.2 = false ∧ length (popened r.1) = S (length (terminated r.1)).
Proof. vm_compute. by split. Qed.
