(* ===== verification/ArgParse.v ===== *)
(** * Command lines of [configs/arm64_fs.py]: values, converters and [argparse]

    What [parser.add_argument] declares is a table of [argument]s; [parse_args]
    reads an argument vector against it the way Python's [argparse] does:
    [--name=value], [--name value], switches, unique prefixes, [-h], and an exit
    with status 2 for anything else.  The separator [--] is not modelled: what
    follows it is refused. *)

From Stdlib Require Import ZArith Lia Ascii.
From stdpp Require Import base strings gmap numbers option list.
From S2P Require Import Prelude PyStr Json.

Open Scope string_scope.
Open Scope list_scope.
Open Scope Z_scope.

(** ** Values *)

Inductive value :=
  | VStr (s : string)
  | VInt (z : Z)
  | VBool (b : bool)
  | VTriple (tag data response : Z)
  | VNone.

#[global] Instance value_eq_dec : EqDecision value.
Proof. solve_decision. Defined.

Definition namespace := list (string * value).

(** [args.name]. An absent name or a value of another kind reads as the last
    case; [Arm64Args] shows that neither happens. *)
Definition text (ns : namespace) (name : string) : string :=
  match dget ns name with Some (VStr s) => s | _ => EmptyString end.
Definition text_opt (ns : namespace) (name : string) : option string :=
  match dget ns name with Some (VStr s) => Some s | _ => None end.
Definition num (ns : namespace) (name : string) : Z :=
  match dget ns name with Some (VInt z) => z | _ => 0 end.
Definition num_opt (ns : namespace) (name : string) : option Z :=
  match dget ns name with Some (VInt z) => Some z | _ => None end.
Definition flag (ns : namespace) (name : string) : bool :=
  match dget ns name with Some (VBool b) => b | _ => false end.
Definition triple (ns : namespace) (name : string) : Z * Z * Z :=
  match dget ns name with Some (VTriple t d r) => (t, d, r) | _ => (0, 0, 0) end.

(** ** Converters *)

Definition argument_error {A} (fmt : string) : res A := Err (Exn ArgumentTypeError fmt []).

Definition positive_int (v : string) : res Z :=
  parsed ← int_of_str v;
  raise Exn ArgumentTypeError "must be a positive integer" [] when parsed <=? 0 ;;
  Ok parsed.

Definition percentage (v : string) : res Z :=
  parsed ← int_of_str v;
  raise Exn ArgumentTypeError "must be between 0 and 100" [] when (parsed <? 0) || (100 <? parsed) ;;
  Ok parsed.

(** The value of a digit of [int(s, 0)]. *)
Definition digit_of (base : Z) (c : ascii) : option Z :=
  let d := if is_digit c then code c - 48
           else if is_lower c then code c - 87
           else if is_upper c then code c - 55 else base in
  if d <? base then Some d else None.

(** Digits of a base; an underscore may stand before any digit but the first. *)
Fixpoint digits_go (base acc : Z) (underscore : bool) (s : string) : option Z :=
  match s with
  | EmptyString => Some acc
  | String c s' =>
      match digit_of base c with
      | Some d => digits_go base (acc * base + d) true s'
      | None =>
          if underscore && Ascii.eqb c "_"%char
          then match s' with
               | String c' s'' => d ← digit_of base c'; digits_go base (acc * base + d) true s''
               | EmptyString => None
               end
          else None
      end
  end.

(** The unsigned part of [int(s, 0)]: a prefix selects the base, and a decimal
    literal has no leading zero unless it is zero. *)
Definition literal (s : string) : option Z :=
  match s with
  | EmptyString => None
  | String c s' =>
      if Ascii.eqb c "0"%char then
        match s' with
        | String x s'' =>
            let digits base := if String.eqb s'' EmptyString then None else digits_go base 0 true s'' in
            if elemb x ["x"; "X"]%char then digits 16
            else if elemb x ["o"; "O"]%char then digits 8
            else if elemb x ["b"; "B"]%char then digits 2
            else digits_go 1 0 true s'
        | EmptyString => Some 0
        end
      else digits_go 10 0 false s
  end.

(** [int(value, 0)]. *)
Definition py_int0 (s : string) : option Z :=
  match strip s with
  | String c s' =>
      if Ascii.eqb c "-"%char then Z.opp <$> literal s'
      else if Ascii.eqb c "+"%char then literal s'
      else literal (String c s')
  | EmptyString => None
  end.

Definition aligned_physical_address (v : string) : res Z :=
  match py_int0 v with
  | None => argument_error "must be an integer address"
  | Some parsed =>
      raise Exn ArgumentTypeError "must name a non-zero 64-bit range" []
        when (parsed <=? 0) || (Z.shiftl 1 64 - 0x10000 <? parsed) ;;
      raise Exn ArgumentTypeError "must be aligned to the 64-KiB m5ops range" []
        when negb (Z.land parsed 0xffff =? 0) ;;
      Ok parsed
  end.

Definition cache_latency_triplet (v : string) : res (Z * Z * Z) :=
  match mapR int_of_str (split_on "," v) with
  | Err e =>
      if is_a (exn_cls e) ValueError
      then argument_error "must contain three positive integers: TAG,DATA,RESPONSE" else Err e
  | Ok parsed =>
      raise Exn ArgumentTypeError "must contain three positive integers: TAG,DATA,RESPONSE" []
        when negb (len parsed =? 3) || existsb (λ field, field <=? 0) parsed ;;
      match parsed with
      | [t; d; r] => Ok (t, d, r)
      | _ => argument_error "must contain three positive integers: TAG,DATA,RESPONSE"
      end
  end.

(** ** Declared arguments *)

(** [type=]: none, [int], the four converters, or [action="store_true"]. *)
Inductive conv := AnyStr | AnyInt | PositiveInt | Percentage | AlignedAddress | LatencyTriplet | StoreTrue.

Record argument := Arg {
  a_option : string;
  a_conv : conv;
  a_choices : option (list value);
  a_default : value
}.

#[global] Instance conv_eq_dec : EqDecision conv.
Proof. solve_decision. Defined.

#[global] Instance argument_eq_dec : EqDecision argument.
Proof. solve_decision. Defined.

(** The attribute of an option: dashes become underscores. *)
Definition dest (a : argument) : string := replace_char "-"%char "_"%char (a_option a).

Definition convert_value (c : conv) (v : string) : res value :=
  match c with
  | AnyStr | StoreTrue => Ok (VStr v)
  | AnyInt => VInt <$> int_of_str v
  | PositiveInt => VInt <$> positive_int v
  | Percentage => VInt <$> percentage v
  | AlignedAddress => VInt <$> aligned_physical_address v
  | LatencyTriplet => t ← cache_latency_triplet v; Ok (VTriple t.1.1 t.1.2 t.2)
  end.

(** [parser.error]: the process ends with status 2. *)
Definition parser_error {A} (fmt : string) (args : list parg) : res A :=
  Err (Exn SystemExit fmt (PZ 2 :: args)).

(** [_get_values]: a converter's [TypeError], [ValueError] and
    [ArgumentTypeError] end in [parser.error], as does a value out of [choices]. *)
Definition get_value (a : argument) (v : string) : res value :=
  match convert_value (a_conv a) v with
  | Err e => parser_error "argument {}: invalid value: {}" [PS (a_option a); PS v]
  | Ok x =>
      match a_choices a with
      | Some choices =>
          if elemb x choices then Ok x
          else parser_error "argument {}: invalid choice: {}" [PS (a_option a); PS v]
      | None => Ok x
      end
  end.

(** ** Reading an argument vector *)

Section parser.
Variable arguments : list argument.

Inductive token :=
  | Positional
  | Option (a : argument) (explicit : option string)
  | Help (explicit : option string)
  | Ambiguous
  | Unknown.

(** The options whose name starts with a prefix, [--help] included. *)
Definition find_option (name : string) : option argument :=
  List.find (λ a, String.eqb (a_option a) name) arguments.
Definition prefixed (name : string) : list token :=
  (if startswith "help" name then [Help None] else []) ++
  ((λ a, Option a None) <$> List.filter (λ a, startswith (a_option a) name) arguments).

Definition with_explicit (explicit : option string) (t : token) : token :=
  match t with
  | Option a _ => Option a explicit
  | Help _ => Help explicit
  | _ => t
  end.

(** [^-\d+$|^-\d*\.\d+$] after the dash. *)
Definition negative_number (s : string) : bool :=
  all_digits s ||
  match partition_at "."%char s with
  | (whole, Some fraction) => str_forallb is_digit whole && all_digits fraction
  | _ => false
  end.

Definition all_h (s : string) : bool := str_forallb (λ c, Ascii.eqb c "h"%char) s.

(** [_parse_optional] of a token that is not [--]. *)
Definition classify (tok : string) : token :=
  match strip_prefix "-" tok with
  | None => Positional
  | Some EmptyString => Positional
  | Some body =>
      match strip_prefix "-" body with
      | Some long =>
          let '(name, explicit) := partition_at "="%char long in
          let plain :=
            if contains " " tok then Positional else Unknown in
          if String.eqb name "help" then Help explicit
          else match find_option name with
               | Some a => Option a explicit
               | None =>
                   match prefixed name with
                   | [t] => with_explicit explicit t
                   | [] => plain
                   | _ => Ambiguous
                   end
               end
      | None =>
          if String.eqb body "h" then Help None
          else match strip_prefix "h" body with
               | Some rest => Help (if all_h rest then None else Some rest)
               | None => if negative_number body || contains " " tok then Positional else Unknown
               end
      end
  end.

(** [parse_known_args]'s loop; [extras] are the strings nothing consumed. *)
Fixpoint parse_loop (argv : list string) (ns : namespace) (extras : list string)
    : res (namespace * list string) :=
  match argv with
  | [] => Ok (ns, extras)
  | tok :: rest =>
      if String.eqb tok "--" then Ok (ns, extras ++ tok :: rest)
      else match classify tok with
      | Positional | Unknown => parse_loop rest ns (extras ++ [tok])
      | Ambiguous => parser_error "ambiguous option: {}" [PS tok]
      | Help None => Err (Exn SystemExit "help" [PZ 0])
      | Help (Some _) => parser_error "ignored explicit argument" []
      | Option a explicit =>
          if bool_decide (a_conv a = StoreTrue) then
            match explicit with
            | Some _ => parser_error "ignored explicit argument" []
            | None => parse_loop rest (dset ns (dest a) (VBool true)) extras
            end
          else
            match explicit with
            | Some v => x ← get_value a v; parse_loop rest (dset ns (dest a) x) extras
            | None =>
                match rest with
                | v :: rest' =>
                    match (if String.eqb v "--" then Unknown else classify v) with
                    | Positional => x ← get_value a v; parse_loop rest' (dset ns (dest a) x) extras
                    | _ => parser_error "expected one argument" [PS tok]
                    end
                | [] => parser_error "expected one argument" [PS tok]
                end
            end
      end
  end.

(** The namespace before the first string is read. *)
Definition initial : namespace := (λ a, (dest a, a_default a)) <$> arguments.

Definition parse_args (argv : list string) : res namespace :=
  r ← parse_loop argv initial [];
  match r.2 with
  | [] => Ok r.1
  | extras => parser_error "unrecognized arguments: {}" [PL extras]
  end.

(** ** Every parsed namespace is well typed *)

(** The values of a converter. *)
Definition converted (c : conv) (x : value) : Prop :=
  match c, x with
  | AnyStr, VStr _ => True
  | AnyInt, VInt _ => True
  | PositiveInt, VInt z => 0 < z
  | Percentage, VInt z => 0 <= z <= 100
  | AlignedAddress, VInt z => 0 < z <= 2 ^ 64 - 2 ^ 16 ∧ z mod 2 ^ 16 = 0
  | LatencyTriplet, VTriple t d r => 0 < t ∧ 0 < d ∧ 0 < r
  | StoreTrue, VBool _ => True
  | _, _ => False
  end.

Definition allowed (a : argument) (x : value) : Prop :=
  x = a_default a ∨
  converted (a_conv a) x ∧ (∀ choices, a_choices a = Some choices → x ∈ choices).

Definition typed (ns : namespace) : Prop :=
  ∀ a, a ∈ arguments → ∃ x, dget ns (dest a) = Some x ∧ allowed a x.

Lemma positive_int_Ok v z : positive_int v = Ok z → 0 < z.
Proof. unfold positive_int. intros H. py_inv. bool_inv. lia. Qed.

Lemma percentage_Ok v z : percentage v = Ok z → 0 <= z <= 100.
Proof. unfold percentage. intros H. py_inv. bool_inv. lia. Qed.

Lemma aligned_Ok v z : aligned_physical_address v = Ok z → 0 < z <= 2 ^ 64 - 2 ^ 16 ∧ z mod 2 ^ 16 = 0.
Proof.
  unfold aligned_physical_address. destruct (py_int0 v) as [n|]; [|done]. intros H.
  destruct (_ || _) eqn:E1; [done|]. destruct (negb _) eqn:E2; [done|]. simplify_eq.
  apply orb_false_iff in E1 as [E1 E3]. apply Z.leb_gt in E1. apply Z.ltb_ge in E3.
  apply negb_false_iff, Z.eqb_eq in E2.
  change 0xffff with (Z.ones 16) in E2. rewrite Z.land_ones in E2 by lia.
  rewrite Z.shiftl_mul_pow2 in E3 by lia. split; [|done]. lia.
Qed.

Lemma triplet_Ok v t d r : cache_latency_triplet v = Ok (t, d, r) → 0 < t ∧ 0 < d ∧ 0 < r.
Proof.
  unfold cache_latency_triplet. destruct (mapR _ _) as [l|e]; [|by destruct (is_a _ _)].
  destruct (_ || _) eqn:E; [done|]. apply orb_false_iff in E as [_ E].
  destruct l as [|a [|b [|c [|]]]]; try done. intros [= -> -> ->]. cbn in E.
  rewrite !orb_false_iff, !Z.leb_gt in E. lia.
Qed.

Lemma convert_value_Ok c v x : c ≠ StoreTrue → convert_value c v = Ok x → converted c x.
Proof.
  intros Hc. destruct c; cbn [convert_value]; try done.
  - by intros [= <-].
  - destruct (int_of_str v); [|done]. by intros [= <-].
  - destruct (positive_int v) eqn:E; [|done]. intros [= <-]. by apply positive_int_Ok in E.
  - destruct (percentage v) eqn:E; [|done]. intros [= <-]. by apply percentage_Ok in E.
  - destruct (aligned_physical_address v) eqn:E; [|done]. intros [= <-]. by apply aligned_Ok in E.
  - intros H. apply bind_Ok in H as ([[t d] r] & E & [= <-]). by apply triplet_Ok in E.
Qed.

Lemma get_value_allowed a v x :
  a_conv a ≠ StoreTrue → get_value a v = Ok x → allowed a x.
Proof.
  intros Hc. unfold get_value. destruct (convert_value _ v) as [y|] eqn:E; [|done].
  apply convert_value_Ok in E; [|done].
  destruct (a_choices a) as [choices|] eqn:Ech; [destruct (elemb y choices) eqn:Hy; [|done]|];
    intros [= <-]; right; (split; [done|]); intros ? Hch; [|congruence].
  assert (choices = choices0) as <- by congruence. by apply elemb_true.
Qed.

(** Two arguments of the table share no attribute. *)
Hypothesis dests_distinct : NoDup (dest <$> arguments).

Lemma dest_inj a b : a ∈ arguments → b ∈ arguments → dest a = dest b → a = b.
Proof using All.
  intros Ha Hb Heq. apply list_elem_of_lookup in Ha as [i Hi], Hb as [j Hj].
  assert (i = j) as ->; [|congruence].
  eapply NoDup_lookup; [exact dests_distinct|..]; rewrite list_lookup_fmap; [by rewrite Hi|].
  rewrite Hj. cbn. by rewrite Heq.
Qed.

Lemma typed_initial : typed initial.
Proof using All.
  intros a Ha. exists (a_default a). split; [|by left].
  apply dget_NoDup_elem; unfold initial.
  - unfold keys. rewrite <- list_fmap_compose. exact dests_distinct.
  - apply list_elem_of_fmap. by exists a.
Qed.

Lemma typed_dset ns a x : a ∈ arguments → typed ns → allowed a x → typed (dset ns (dest a) x).
Proof using All.
  intros Ha Hns Hx b Hb. rewrite dget_dset. destruct (String.eqb_spec (dest b) (dest a)) as [E|].
  - apply dest_inj in E; [subst; eauto|done..].
  - by apply Hns.
Qed.

Lemma find_option_In name a : find_option name = Some a → a ∈ arguments ∧ a_option a = name.
Proof.
  intros H. apply find_some in H as [Hin Heq]. apply list_elem_of_In in Hin. apply String.eqb_eq in Heq. done.
Qed.

Lemma classify_In tok a explicit : classify tok = Option a explicit → a ∈ arguments.
Proof.
  unfold classify. destruct (strip_prefix "-" tok) as [[|c body]|]; [done| |done].
  destruct (strip_prefix "-" (String c body)) as [long|].
  - destruct (partition_at "="%char long) as [name ex].
    destruct (String.eqb name "help"); [done|].
    destruct (find_option name) as [b|] eqn:E.
    { intros [= -> _]. apply find_option_In in E as [E _]. exact E. }
    destruct (prefixed name) as [|t [|]] eqn:Ep; [by destruct (contains _ _)| |done].
    assert (t ∈ prefixed name) as Ht by (rewrite Ep; by left). unfold prefixed in Ht.
    apply elem_of_app in Ht as [Ht|Ht].
    { destruct (startswith "help" name); [|by apply elem_of_nil in Ht].
      apply list_elem_of_singleton in Ht as ->. done. }
    apply list_elem_of_fmap in Ht as (b & -> & Hb). cbn. intros [= -> _].
    apply list_elem_of_In, filter_In in Hb as [Hb _]. by apply list_elem_of_In.
  - destruct (String.eqb _ "h"); [done|].
    destruct (strip_prefix "h" _); [done|]. by destruct (_ || _).
Qed.

Lemma parse_loop_typed argv ns extras ns' extras' :
  (∀ a, a ∈ arguments → a_conv a = StoreTrue → a_choices a = None) →
  typed ns → parse_loop argv ns extras = Ok (ns', extras') → typed ns'.
Proof using All.
  intros Hst. remember (length argv) as n eqn:Hn.
  assert (length argv ≤ n)%nat as Hle by lia. clear Hn. revert argv Hle ns extras.
  induction n as [|n IH]; intros [|tok rest] Hle ns extras Hns H; cbn in Hle; try lia;
    cbn [parse_loop] in H; [by simplify_eq|by simplify_eq|].
  destruct (String.eqb tok "--"); [by simplify_eq|].
  destruct (classify tok) as [|a explicit|[ex|]| |] eqn:Ec; try done;
    try (by apply (IH rest ltac:(lia) _ _ Hns H)).
  apply classify_In in Ec. destruct (bool_decide (a_conv a = StoreTrue)) eqn:Es.
  - destruct explicit; [done|]. apply bool_decide_eq_true in Es. refine (IH rest ltac:(lia) _ _ _ H).
    apply typed_dset; [done..|]. right. rewrite Es. split; [done|].
    intros ? Hch. rewrite (Hst a) in Hch; done.
  - apply bool_decide_eq_false in Es. destruct explicit as [v|].
    + apply bind_Ok in H as (x & Hx & H). refine (IH rest ltac:(lia) _ _ _ H).
      apply typed_dset; [done..|]. by eapply get_value_allowed.
    + destruct rest as [|v rest]; [done|]. destruct (if String.eqb v "--" then _ else _); try done.
      apply bind_Ok in H as (x & Hx & H). refine (IH rest ltac:(cbn in Hle; lia) _ _ _ H).
      apply typed_dset; [done..|]. by eapply get_value_allowed.
Qed.

(** ** Reading [--name=value] and switches *)

Lemma find_option_self a : a ∈ arguments → NoDup (a_option <$> arguments) → find_option (a_option a) = Some a.
Proof using All.
  intros Ha Hnd. unfold find_option. destruct (List.find _ arguments) as [b|] eqn:E.
  - apply find_some in E as [Hb Heq%String.eqb_eq]. apply list_elem_of_In in Hb. f_equal.
    apply dest_inj; [done..|]. unfold dest. by rewrite Heq.
  - apply list_elem_of_In in Ha. apply (find_none _ _ E) in Ha. by rewrite String.eqb_refl in Ha.
Qed.

Definition plain_option (a : argument) : bool :=
  str_forallb (λ c, negb (Ascii.eqb c "="%char)) (a_option a) &&
  negb (String.eqb (a_option a) "help") && negb (String.eqb (a_option a) EmptyString).

Hypothesis options_distinct : NoDup (a_option <$> arguments).
Hypothesis options_plain : forallb plain_option arguments = true.

Lemma plain_option_In a :
  a ∈ arguments →
  str_forallb (λ c, negb (Ascii.eqb c "="%char)) (a_option a) = true ∧
  String.eqb (a_option a) "help" = false ∧ a_option a ≠ EmptyString.
Proof using options_plain.
  intros Ha. pose proof options_plain as H. rewrite forallb_forall in H.
  apply list_elem_of_In, H in Ha. unfold plain_option in Ha.
  apply andb_true_iff in Ha as [[H1 H2%negb_true_iff]%andb_true_iff H3%negb_true_iff].
  split_and!; [done|done|]. by apply String.eqb_neq.
Qed.

Lemma classify_long long :
  classify ("--" +:+ long) =
  let '(name, explicit) := partition_at "="%char long in
  let plain := if contains " " ("--" +:+ long) then Positional else Unknown in
  if String.eqb name "help" then Help explicit
  else match find_option name with
       | Some a => Option a explicit
       | None => match prefixed name with
                 | [t] => with_explicit explicit t
                 | [] => plain
                 | _ => Ambiguous
                 end
       end.
Proof. reflexivity. Qed.

Lemma parse_explicit a v rest ns extras :
  a ∈ arguments → a_conv a ≠ StoreTrue →
  parse_loop (("--" +:+ a_option a +:+ "=" +:+ v) :: rest) ns extras =
  (x ← get_value a v; parse_loop rest (dset ns (dest a) x) extras).
Proof using All.
  intros Ha Hst. destruct (plain_option_In a Ha) as (Hp & Hh & Hne).
  cbn [parse_loop]. destruct (String.eqb_spec ("--" +:+ a_option a +:+ "=" +:+ v) "--") as [E|_].
  { exfalso. cbn in E. destruct (a_option a); [done|]. cbn in E. congruence. }
  assert (classify ("--" +:+ a_option a +:+ "=" +:+ v) = Option a (Some v)) as ->.
  { rewrite classify_long. change ("=" +:+ v) with (String "="%char v). rewrite partition_at_app by done.
    rewrite Hh, find_option_self by done. done. }
  by rewrite bool_decide_eq_false_2.
Qed.

Lemma parse_switch a rest ns extras :
  a ∈ arguments → a_conv a = StoreTrue →
  parse_loop (("--" +:+ a_option a) :: rest) ns extras =
  parse_loop rest (dset ns (dest a) (VBool true)) extras.
Proof using All.
  intros Ha Hst. destruct (plain_option_In a Ha) as (Hp & Hh & Hne).
  cbn [parse_loop]. destruct (String.eqb_spec ("--" +:+ a_option a) "--") as [E|_].
  { exfalso. cbn in E. destruct (a_option a); [done|]. cbn in E. congruence. }
  assert (classify ("--" +:+ a_option a) = Option a None) as ->.
  { rewrite classify_long, partition_at_absent by done. rewrite Hh, find_option_self by done. done. }
  by rewrite bool_decide_eq_true_2.
Qed.

(** A block of [--name=value] strings sets its attributes in order. *)
Lemma parse_block (items : list (argument * string)) (xs : list value) rest ns extras :
  Forall (λ i, i.1 ∈ arguments ∧ a_conv i.1 ≠ StoreTrue) items →
  mapR (λ i, get_value i.1 i.2) items = Ok xs →
  parse_loop (((λ i : argument * string, "--" +:+ a_option i.1 +:+ "=" +:+ i.2) <$> items) ++ rest) ns extras =
  parse_loop rest (dupdate ns (zip ((λ i, dest i.1) <$> items) xs)) extras.
Proof using All.
  intros Hin. revert xs ns. induction Hin as [|[a v] items [Ha Hst] _ IH]; intros xs ns Hx; cbn [mapR] in Hx.
  { injection Hx as <-. done. }
  apply bind_Ok in Hx as (x & Hx & H). apply bind_Ok in H as (xs' & Hxs & [= <-]).
  cbn [fmap list_fmap app fst snd]. rewrite parse_explicit by done. cbn [fst snd] in Hx. rewrite Hx.
  cbn [mbind res_bind]. rewrite (IH _ _ Hxs). done.
Qed.

End parser.
