(* ===== verification/Arm64Args.v ===== *)
(** * Arguments of the full-system configuration ([configs/arm64_fs.py])

    The options [main] declares and the conditions it checks before it builds a
    machine.  gem5's memory sizes ([int(Addr(size))]) are a parameter. *)

From Stdlib Require Import ZArith Lia Ascii.
From stdpp Require Import base strings gmap fin_maps numbers option list.
From S2P Require Import Prelude PyStr Json ArgParse.

Open Scope string_scope.
Open Scope list_scope.
Open Scope Z_scope.

Definition VEXPRESS_GEM5_V1_M5OPS_BASE : Z := 0x10010000.

(** ** The options *)

Definition str_arg (o d : string) : argument := Arg o AnyStr None (VStr d).
Definition none_arg (o : string) : argument := Arg o AnyStr None VNone.
Definition int_arg (o : string) (d : Z) : argument := Arg o AnyInt None (VInt d).
Definition pos_arg (o : string) (d : Z) : argument := Arg o PositiveInt None (VInt d).
Definition percent_arg (o : string) (d : Z) : argument := Arg o Percentage None (VInt d).
Definition triplet_arg (o : string) (t d r : Z) : argument := Arg o LatencyTriplet None (VTriple t d r).
Definition switch_arg (o : string) : argument := Arg o StoreTrue None (VBool false).
Definition choice_arg (o : string) (choices : list string) (d : string) : argument :=
  Arg o AnyStr (Some (VStr <$> choices)) (VStr d).

Definition CPU_MODES : list string :=
  ["atomic"; "atomic_hot"; "atomic_fast"; "atomic_cache"; "timing"; "timing_nocache"; "timing_full";
   "o3"; "server_o3"; "kvm"; "kvm_server_o3"].

Definition machine_arguments : list argument :=
  [str_arg "kernel" "vmlinux"; none_arg "initrd"; str_arg "root-device" "/dev/ram";
   str_arg "mem-size" "2GB"; none_arg "guest-mem-limit"; choice_arg "cpu" CPU_MODES "atomic";
   str_arg "kvm-max-run-slice" "1ms";
   Arg "m5ops-base" AlignedAddress None (VInt VEXPRESS_GEM5_V1_M5OPS_BASE);
   str_arg "cpu-freq" "3GHz"; switch_arg "auto-o3-lifecycle"; switch_arg "fast-boot-noncaching";
   pos_arg "loops-per-jiffy" 19988480; pos_arg "num-cpus" 1; int_arg "benchmark-cpu" (-1)].

Definition o3_arguments : list argument :=
  [pos_arg "o3-width" 8; pos_arg "o3-rob-entries" 192; pos_arg "o3-iq-entries" 64;
   pos_arg "o3-lq-entries" 32; pos_arg "o3-sq-entries" 32; pos_arg "o3-load-ports" 4;
   pos_arg "o3-store-ports" 2; pos_arg "o3-fetch-buffer-bytes" 64;
   pos_arg "o3-fetch-queue-entries" 32; pos_arg "o3-phys-int-regs" 256;
   pos_arg "o3-phys-float-regs" 256; pos_arg "o3-phys-vec-regs" 256;
   pos_arg "o3-phys-vec-pred-regs" 32; pos_arg "o3-phys-mat-regs" 2].

Definition L1D_PREFETCHER_CHOICES : list string :=
  ["none"; "stride"; "stride_exclusive"; "stride_exclusive_d4"; "stride_exclusive_xpage"].

Definition cache_arguments : list argument :=
  [Arg "last-cache-level" AnyInt (Some [VInt 1; VInt 2; VInt 3]) (VInt 2);
   pos_arg "cache-line-size" 64;
   str_arg "l1i-size" "48kB"; pos_arg "l1i-assoc" 3; triplet_arg "l1i-latency" 1 1 1;
   pos_arg "l1i-mshrs" 8; pos_arg "l1i-targets-per-mshr" 8; pos_arg "l1i-write-buffers" 8;
   str_arg "l1d-size" "32kB"; choice_arg "l1d-prefetcher" L1D_PREFETCHER_CHOICES "none";
   pos_arg "l1d-assoc" 2; triplet_arg "l1d-latency" 2 2 1; pos_arg "l1d-mshrs" 16;
   pos_arg "l1d-targets-per-mshr" 16; pos_arg "l1d-write-buffers" 16;
   str_arg "l2-size" "1MB"; pos_arg "l2-assoc" 16; triplet_arg "l2-latency" 12 12 5;
   pos_arg "l2-mshrs" 32; pos_arg "l2-targets-per-mshr" 16; pos_arg "l2-write-buffers" 16;
   str_arg "l3-size" "16MB"; pos_arg "l3-assoc" 16; triplet_arg "l3-latency" 20 20 20;
   pos_arg "l3-mshrs" 64; pos_arg "l3-targets-per-mshr" 16; pos_arg "l3-write-buffers" 32].

Definition fabric_arguments : list argument :=
  [str_arg "fabric-freq" "1GHz"; pos_arg "fabric-width-bytes" 16;
   int_arg "coherent-bus-frontend-latency" 1; int_arg "coherent-bus-forward-latency" 0;
   int_arg "coherent-bus-response-latency" 1; int_arg "coherent-bus-snoop-response-latency" 1;
   int_arg "coherent-bus-header-latency" 1;
   int_arg "memory-bus-frontend-latency" 3; int_arg "memory-bus-forward-latency" 4;
   int_arg "memory-bus-response-latency" 2; int_arg "memory-bus-snoop-response-latency" 4;
   int_arg "memory-bus-header-latency" 1;
   str_arg "core-bus-snoop-filter-capacity" "2MiB"; str_arg "l3-bus-snoop-filter-capacity" "8MiB";
   str_arg "membus-snoop-filter-capacity" "64MiB";
   int_arg "io-bus-frontend-latency" 2; int_arg "io-bus-forward-latency" 1;
   int_arg "io-bus-response-latency" 2; int_arg "io-bus-header-latency" 1;
   str_arg "io-cache-size" "1kB"; pos_arg "io-cache-assoc" 8; triplet_arg "io-cache-latency" 1 1 1;
   pos_arg "io-cache-mshrs" 32; pos_arg "io-cache-targets-per-mshr" 32;
   pos_arg "io-cache-write-buffers" 32].

Definition memory_arguments : list argument :=
  [none_arg "script"; str_arg "mem-type" "DDR3_1600_8x8"; int_arg "mem-channels" 1;
   pos_arg "mem-channels-intlv" 128;
   choice_arg "mem-addr-mapping" ["RoRaBaChCo"; "RoRaBaCoCh"; "RoCoRaBaCh"] "RoRaBaCoCh";
   Arg "mem-ranks" AnyInt None VNone; pos_arg "mem-read-buffer-size" 32;
   pos_arg "mem-write-buffer-size" 64;
   choice_arg "mem-page-policy" ["open"; "close"; "open_adaptive"; "close_adaptive"] "open_adaptive";
   pos_arg "mem-max-accesses-per-row" 16;
   choice_arg "mem-sched-policy" ["fcfs"; "frfcfs"] "frfcfs";
   percent_arg "mem-write-high-thresh" 85; percent_arg "mem-write-low-thresh" 50;
   pos_arg "mem-min-writes-per-switch" 16; pos_arg "mem-min-reads-per-switch" 16;
   str_arg "mem-ctrl-frontend-latency" "10ns"; str_arg "mem-ctrl-backend-latency" "10ns";
   str_arg "mem-ctrl-command-window" "10ns"; none_arg "external-memory-system";
   int_arg "xor-low-bit" 0].

Definition network_arguments : list argument :=
  [none_arg "extra-cmdline"; int_arg "terminal-port" 3456; str_arg "eth-tap-socket" EmptyString;
   str_arg "eth-mac" "02:00:00:00:00:01"; str_arg "eth-link-speed" "10Gbps";
   str_arg "eth-link-delay" "1us"; int_arg "dist-rank" 0; int_arg "dist-size" 0;
   str_arg "dist-server-name" "127.0.0.1"; int_arg "dist-server-port" 2200;
   str_arg "dist-sync-start" "5200000000000t"; str_arg "dist-sync-repeat" "50ns";
   switch_arg "dist-sync-on-pseudo-op"; none_arg "restore-from"].

Definition ARGUMENTS : list argument :=
  machine_arguments ++ o3_arguments ++ cache_arguments ++ fabric_arguments ++ memory_arguments ++
  network_arguments.

(** [parser.parse_args()]. *)
Definition arm64_args (argv : list string) : res namespace := parse_args ARGUMENTS argv.

(** ** The checks after parsing *)

(** Some bit of [x & (x - 1)] is set: for a positive [x], it is not a power of two. *)
Definition not_power (x : Z) : bool := negb (Z.land x (x - 1) =? 0).

(** [min(...) < 0]. *)
Definition some_negative (args : namespace) (names : list string) : bool :=
  existsb (λ name, num args name <? 0) names.

Definition kvm_modes : list string := ["kvm"; "kvm_server_o3"].
Definition cached_modes : list string :=
  ["atomic_cache"; "timing"; "timing_full"; "o3"; "server_o3"; "kvm"; "kvm_server_o3"].
Definition cpu_in (args : namespace) (modes : list string) : bool := elemb (text args "cpu") modes.

Notation "'refuse' msg 'when' b ;; k" := (if b then parser_error msg [] else k)
  (at level 100, b at level 99, k at level 200, right associativity) : py_scope.

Definition check_modes (args : namespace) : res unit :=
  refuse "--benchmark-cpu must be smaller than --num-cpus"
    when num args "num_cpus" <=? num args "benchmark_cpu" ;;
  refuse "--auto-o3-lifecycle requires --cpu=server_o3"
    when flag args "auto_o3_lifecycle" && negb (String.eqb (text args "cpu") "server_o3") ;;
  refuse "--fast-boot-noncaching requires --cpu=server_o3"
    when flag args "fast_boot_noncaching" && negb (String.eqb (text args "cpu") "server_o3") ;;
  refuse "VExpress_GEM5_V1 reserves its m5ops MMIO range at 0x10010000"
    when negb (num args "m5ops_base" =? VEXPRESS_GEM5_V1_M5OPS_BASE) ;;
  refuse "KVM fast-forward currently brings only CPU0 online; use --benchmark-cpu=0"
    when cpu_in args kvm_modes && negb (elemb (num args "benchmark_cpu") [-1; 0]) ;;
  refuse "KVM modes currently require --num-cpus=1"
    when cpu_in args kvm_modes && negb (num args "num_cpus" =? 1) ;;
  Ok tt.

Definition check_core (args : namespace) : res unit :=
  refuse "--cache-line-size must be a power of two" when not_power (num args "cache_line_size") ;;
  refuse "--o3-width exceeds this gem5 build's MaxWidth=12" when 12 <? num args "o3_width" ;;
  refuse "--o3-fetch-buffer-bytes must divide and not exceed --cache-line-size"
    when (num args "cache_line_size" <? num args "o3_fetch_buffer_bytes") ||
         negb (num args "cache_line_size" mod num args "o3_fetch_buffer_bytes" =? 0) ;;
  refuse "--o3-phys-int-regs must exceed the ARM architectural minimum of 42"
    when num args "o3_phys_int_regs" <=? 42 ;;
  refuse "--o3-phys-vec-regs must exceed the ARM architectural minimum of 44"
    when num args "o3_phys_vec_regs" <=? 44 ;;
  refuse "--o3-phys-vec-pred-regs must exceed the ARM architectural minimum of 18"
    when num args "o3_phys_vec_pred_regs" <=? 18 ;;
  refuse "--o3-phys-mat-regs must exceed the ARM architectural minimum of 1"
    when num args "o3_phys_mat_regs" <=? 1 ;;
  Ok tt.

Definition io_bus_latencies : list string :=
  ["io_bus_frontend_latency"; "io_bus_forward_latency"; "io_bus_response_latency";
   "io_bus_header_latency"].
Definition coherent_bus_latencies : list string :=
  ["coherent_bus_frontend_latency"; "coherent_bus_forward_latency"; "coherent_bus_response_latency";
   "coherent_bus_snoop_response_latency"; "coherent_bus_header_latency"].
Definition memory_bus_latencies : list string :=
  ["memory_bus_frontend_latency"; "memory_bus_forward_latency"; "memory_bus_response_latency";
   "memory_bus_snoop_response_latency"; "memory_bus_header_latency"].

Definition check_buses (args : namespace) : res unit :=
  refuse "I/O bus latencies must be non-negative" when some_negative args io_bus_latencies ;;
  refuse "coherent bus latencies must be non-negative" when some_negative args coherent_bus_latencies ;;
  refuse "memory bus latencies must be non-negative" when some_negative args memory_bus_latencies ;;
  Ok tt.

Definition check_memory (args : namespace) : res unit :=
  refuse "--mem-write-low-thresh must be smaller than --mem-write-high-thresh"
    when num args "mem_write_high_thresh" <=? num args "mem_write_low_thresh" ;;
  refuse "--mem-channels must be a positive power of two"
    when (num args "mem_channels" <=? 0) || not_power (num args "mem_channels") ;;
  refuse "--mem-ranks must be a positive power of two"
    when match num_opt args "mem_ranks" with
         | Some ranks => (ranks <=? 0) || not_power ranks
         | None => false
         end ;;
  refuse "--mem-channels-intlv must be a power of two" when not_power (num args "mem_channels_intlv") ;;
  refuse "--mem-channels-intlv must be at least one cache line"
    when num args "mem_channels_intlv" <? num args "cache_line_size" ;;
  Ok tt.

Section sizes.
(** [int(Addr(size))]. *)
Variable addr : string → res Z.

(** [cache_geometries]: label, size and associativity. *)
Definition geometries (args : namespace) : list (string * string * Z) :=
  [("L1I", text args "l1i_size", num args "l1i_assoc");
   ("L1D", text args "l1d_size", num args "l1d_assoc");
   ("L2", text args "l2_size", num args "l2_assoc");
   ("L3", text args "l3_size", num args "l3_assoc");
   ("IOCache", text args "io_cache_size", num args "io_cache_assoc")].

Definition check_geometry (line : Z) (g : string * string * Z) : res unit :=
  let '(label, size, assoc) := g in
  cache_bytes ← addr size;
  let set_span := line * assoc in
  raise Exn SystemExit "{label} size must be an integral number of sets for its line size and associativity"
    [PZ 2; PS label] when (cache_bytes <? set_span) || negb (cache_bytes mod set_span =? 0) ;;
  raise Exn SystemExit "{label} must contain a power-of-two number of sets" [PZ 2; PS label]
    when not_power (cache_bytes / set_span) ;;
  Ok tt.

(** The footprint the system bus snoops directly. *)
Definition directly_snooped (args : namespace) : res Z :=
  if num args "last_cache_level" =? 3
  then l3 ← addr (text args "l3_size"); io ← addr (text args "io_cache_size"); Ok (l3 + io)
  else if num args "last_cache_level" =? 2
  then l2 ← addr (text args "l2_size"); io ← addr (text args "io_cache_size");
       Ok (num args "num_cpus" * l2 + io)
  else l1i ← addr (text args "l1i_size"); l1d ← addr (text args "l1d_size");
       io ← addr (text args "io_cache_size");
       Ok (num args "num_cpus" * (l1i + l1d) + io).

(** The capacities of the snoop filters. *)
Definition check_filters (args : namespace) : res unit :=
  core ← addr (text args "core_bus_snoop_filter_capacity");
  l1i ← addr (text args "l1i_size");
  l1d ← addr (text args "l1d_size");
  refuse "--core-bus-snoop-filter-capacity is smaller than one core's private L1 footprint"
    when core <? l1i + l1d ;;
  _ ← (if 3 <=? num args "last_cache_level" then
         l3_bus ← addr (text args "l3_bus_snoop_filter_capacity");
         l2 ← addr (text args "l2_size");
         refuse "--l3-bus-snoop-filter-capacity is smaller than the aggregate private-L2 footprint"
           when l3_bus <? num args "num_cpus" * l2 ;;
         Ok tt
       else Ok tt);
  snooped ← directly_snooped args;
  membus ← addr (text args "membus_snoop_filter_capacity");
  refuse "--membus-snoop-filter-capacity is smaller than the aggregate cache footprint"
    when membus <? snooped ;;
  Ok tt.

Definition check_caches (args : namespace) : res unit :=
  if cpu_in args cached_modes then
    _ ← mapR (check_geometry (num args "cache_line_size")) (geometries args);
    check_filters args
  else Ok tt.

(** Everything [main] does before it creates the machine. *)
Definition check_args (args : namespace) : res unit :=
  _ ← check_modes args;
  _ ← check_core args;
  _ ← check_buses args;
  _ ← check_memory args;
  check_caches args.

Definition accepted_args (argv : list string) : res namespace :=
  args ← arm64_args argv;
  _ ← check_args args;
  Ok args.
End sizes.
