(* ===== verification/Arm64Facts.v ===== *)
(** * What [main] of [configs/arm64_fs.py] accepts

    The checks accept exactly the machines described by [machine_ok], and every
    command line the launcher builds for a gem5 topology passes them. *)

From Stdlib Require Import ZArith Lia Ascii.
From stdpp Require Import base strings gmap fin_maps numbers option list.
From S2P Require Import Prelude PyStr Json ArgParse Arm64Args.

Open Scope string_scope.
Open Scope list_scope.
Open Scope Z_scope.

(** ** The table *)

Lemma arguments_distinct : NoDup (dest <$> ARGUMENTS).
Proof. apply (bool_decide_unpack _). vm_compute. exact I. Qed.

Lemma options_distinct_ok : NoDup (a_option <$> ARGUMENTS).
Proof. apply (bool_decide_unpack _). vm_compute. exact I. Qed.

Lemma options_plain_ok : forallb plain_option ARGUMENTS = true.
Proof. vm_compute. reflexivity. Qed.

Lemma switches_unrestricted a : a ∈ ARGUMENTS → a_conv a = StoreTrue → a_choices a = None.
Proof.
  assert (forallb (λ a, implb (bool_decide (a_conv a = StoreTrue))
                          (match a_choices a with None => true | Some _ => false end)) ARGUMENTS = true) as H
    by (vm_compute; reflexivity).
  rewrite forallb_forall in H. intros Ha Hc. apply list_elem_of_In, H in Ha.
  rewrite bool_decide_eq_true_2 in Ha by done. by destruct (a_choices a).
Qed.

(** Whatever the argument vector, a namespace that [parse_args] returns holds
    every declared attribute, with its default or a value of its converter and
    among its choices. *)
Theorem arm64_args_typed argv args : arm64_args argv = Ok args → typed ARGUMENTS args.
Proof.
  unfold arm64_args, parse_args. intros H. apply bind_Ok in H as ([ns extras] & H & He). cbn in He.
  destruct extras; [|done]. injection He as <-.
  eapply parse_loop_typed; [apply arguments_distinct|apply switches_unrestricted|
    apply typed_initial, arguments_distinct|exact H].
Qed.

(** The attributes of positive arguments. *)
Definition positive_dests : list string :=
  dest <$> List.filter (λ a, bool_decide (a_conv a = PositiveInt)) ARGUMENTS.

Lemma typed_positive args name : typed ARGUMENTS args → elemb name positive_dests = true → 0 < num args name.
Proof.
  intros Ht Hn%elemb_true. apply list_elem_of_fmap in Hn as (a & -> & Ha).
  apply list_elem_of_In, filter_In in Ha as [Ha Hc]. apply bool_decide_eq_true in Hc.
  apply list_elem_of_In in Ha. destruct (Ht a Ha) as (x & Hx & Hal). unfold num. rewrite Hx.
  destruct Hal as [->|[Hal _]].
  - assert (forallb (λ a, implb (bool_decide (a_conv a = PositiveInt))
                            (match a_default a with VInt z => 0 <? z | _ => false end)) ARGUMENTS = true) as H
      by (vm_compute; reflexivity).
    rewrite forallb_forall in H. apply list_elem_of_In, H in Ha.
    rewrite bool_decide_eq_true_2 in Ha by done. destruct (a_default a); try done.
    by apply Z.ltb_lt in Ha.
  - rewrite Hc in Hal. by destruct x.
Qed.

Ltac positive args name :=
  let H := fresh "Hpos" in
  assert (0 < num args name) as H by (apply typed_positive; [done|vm_compute; reflexivity]).

(** ** Powers of two *)

Definition pow2 (x : Z) : Prop := ∃ k, 0 <= k ∧ x = 2 ^ k.

Lemma not_power_iff x : 0 < x → not_power x = false ↔ pow2 x.
Proof.
  intros Hx. unfold not_power. rewrite negb_false_iff, Z.eqb_eq. split.
  - intros Hl. exists (Z.log2 x). split; [apply Z.log2_nonneg|].
    destruct (Z.log2_spec x Hx) as [Hlo Hhi].
    destruct (Z.eq_dec x (2 ^ Z.log2 x)) as [|Hne]; [done|exfalso].
    assert (Z.log2 (x - 1) = Z.log2 x) as Hlog.
    { apply Z.log2_unique; [apply Z.log2_nonneg|lia]. }
    assert (Z.testbit (Z.land x (x - 1)) (Z.log2 x) = true) as Hb.
    { rewrite Z.land_spec, Z.bit_log2 by done. rewrite <- Hlog at 1. rewrite Z.bit_log2; [done|].
      assert (0 < 2 ^ Z.log2 x) by (apply Z.pow_pos_nonneg; [lia|apply Z.log2_nonneg]). lia. }
    rewrite Hl in Hb. by rewrite Z.bits_0 in Hb.
  - intros (k & Hk & ->). change (2 ^ k - 1) with (Z.pred (2 ^ k)).
    replace (Z.pred (2 ^ k)) with (Z.ones k) by (rewrite Z.ones_equiv; done).
    rewrite Z.land_ones by done. apply Z_mod_same_full.
Qed.

(** ** The machines that are accepted *)

Record modes_ok (args : namespace) : Prop := {
  mo_affinity : num args "benchmark_cpu" < num args "num_cpus";
  mo_switching : flag args "auto_o3_lifecycle" = true ∨ flag args "fast_boot_noncaching" = true →
    text args "cpu" = "server_o3";
  mo_m5ops : num args "m5ops_base" = VEXPRESS_GEM5_V1_M5OPS_BASE;
  mo_kvm : text args "cpu" ∈ kvm_modes →
    num args "num_cpus" = 1 ∧ (num args "benchmark_cpu" = -1 ∨ num args "benchmark_cpu" = 0)
}.

Record core_ok (args : namespace) : Prop := {
  co_line : pow2 (num args "cache_line_size");
  co_width : num args "o3_width" <= 12;
  co_fetch : (num args "o3_fetch_buffer_bytes" | num args "cache_line_size");
  co_int : 42 < num args "o3_phys_int_regs";
  co_vec : 44 < num args "o3_phys_vec_regs";
  co_pred : 18 < num args "o3_phys_vec_pred_regs";
  co_mat : 1 < num args "o3_phys_mat_regs"
}.

Record memory_ok (args : namespace) : Prop := {
  me_thresholds : num args "mem_write_low_thresh" < num args "mem_write_high_thresh";
  me_channels : pow2 (num args "mem_channels");
  me_ranks : ∀ ranks, num_opt args "mem_ranks" = Some ranks → pow2 ranks;
  me_interleave : pow2 (num args "mem_channels_intlv");
  me_line : num args "cache_line_size" <= num args "mem_channels_intlv"
}.

Lemma refuse_iff (b : bool) e (k : res unit) : (if b then Err e else k) = Ok tt ↔ b = false ∧ k = Ok tt.
Proof. destruct b; naive_solver. Qed.

Lemma then_iff (m k : res unit) : (_ ← m; k) = Ok tt ↔ m = Ok tt ∧ k = Ok tt.
Proof. destruct m as [[]|]; cbn; naive_solver. Qed.

Lemma check_modes_iff args : check_modes args = Ok tt ↔ modes_ok args.
Proof.
  unfold check_modes, parser_error, cpu_in. rewrite !refuse_iff.
  rewrite !andb_false_iff, !negb_false_iff, Z.leb_gt, !Z.eqb_eq, !String.eqb_eq, !elemb_false, elemb_true.
  split.
  - intros (H1 & H2 & H3 & H4 & H5 & H6 & _). split; [done| |done|].
    + intros [H|H]; [destruct H2|destruct H3]; congruence.
    + intros Hin. destruct H5 as [|H5]; [done|]. destruct H6 as [|H6]; [done|]. split; [done|].
      rewrite !elem_of_cons, elem_of_nil in H5. naive_solver.
  - intros [H1 H2 H3 H4]. split_and!; try done.
    + destruct (flag args "auto_o3_lifecycle"); naive_solver.
    + destruct (flag args "fast_boot_noncaching"); naive_solver.
    + destruct (decide (text args "cpu" ∈ kvm_modes)) as [Hk|]; [right|by left].
      rewrite !elem_of_cons. naive_solver.
    + destruct (decide (text args "cpu" ∈ kvm_modes)) as [Hk|]; [right|by left]. naive_solver.
Qed.

Lemma check_core_iff args : typed ARGUMENTS args → check_core args = Ok tt ↔ core_ok args.
Proof.
  intros Ht. positive args "cache_line_size". positive args "o3_fetch_buffer_bytes".
  unfold check_core, parser_error. rewrite !refuse_iff, not_power_iff by done.
  rewrite orb_false_iff, negb_false_iff, !Z.ltb_ge, Z.eqb_eq, !Z.leb_gt. split.
  - intros (H1 & H2 & [H3 H4] & H5 & H6 & H7 & H8 & _). split; try done.
    apply Z.mod_divide; [lia|done].
  - intros [H1 H2 H3 H4 H5 H6 H7]. split_and!; try done.
    + by apply Z.divide_pos_le.
    + apply Z.mod_divide; [lia|done].
Qed.

Lemma some_negative_iff args names :
  some_negative args names = false ↔ ∀ name, name ∈ names → 0 <= num args name.
Proof.
  unfold some_negative. induction names as [|n names IH]; cbn [existsb].
  - split; [|done]. intros _ ? ?%elem_of_nil. done.
  - rewrite orb_false_iff, Z.ltb_ge, IH. setoid_rewrite elem_of_cons. naive_solver.
Qed.

Lemma check_buses_iff args :
  check_buses args = Ok tt ↔
  ∀ name, name ∈ io_bus_latencies ++ coherent_bus_latencies ++ memory_bus_latencies → 0 <= num args name.
Proof.
  unfold check_buses, parser_error. rewrite !refuse_iff, !some_negative_iff.
  setoid_rewrite elem_of_app. setoid_rewrite elem_of_app. naive_solver.
Qed.

Lemma positive_power_iff x : (x <=? 0) || not_power x = false ↔ pow2 x.
Proof.
  rewrite orb_false_iff, Z.leb_gt. split; [intros [H1 H2]; by apply not_power_iff|].
  intros Hp. assert (0 < x) by (destruct Hp as (k & Hk & ->); by apply Z.pow_pos_nonneg).
  split; [done|]. by apply not_power_iff.
Qed.

Lemma check_memory_iff args : typed ARGUMENTS args → check_memory args = Ok tt ↔ memory_ok args.
Proof.
  intros Ht. positive args "mem_channels_intlv".
  unfold check_memory, parser_error. rewrite !refuse_iff, positive_power_iff, not_power_iff by done.
  rewrite Z.leb_gt, Z.ltb_ge.
  assert ((match num_opt args "mem_ranks" with
           | Some ranks => (ranks <=? 0) || not_power ranks | None => false end) = false
          ↔ ∀ ranks, num_opt args "mem_ranks" = Some ranks → pow2 ranks) as ->.
  { destruct (num_opt args "mem_ranks") as [r|]; [|naive_solver]. rewrite positive_power_iff. naive_solver. }
  split; [intros (H1 & H2 & H3 & H4 & H5 & _); by split|intros []; by split_and!].
Qed.

Lemma mapR_unit_iff {A} (f : A → res unit) l k :
  (_ ← mapR f l; k) = Ok tt ↔ (∀ x, x ∈ l → f x = Ok tt) ∧ k = Ok tt.
Proof.
  induction l as [|x l IH]; cbn [mapR].
  - cbn. split; [intros ->; split; [by intros ? ?%elem_of_nil|done]|by intros []].
  - setoid_rewrite elem_of_cons. destruct (f x) as [[]|] eqn:E; cbn [mbind res_bind].
    + destruct (mapR f l) as [us|]; cbn [mbind res_bind] in *; naive_solver.
    + split; [done|]. intros [H _]. specialize (H x (or_introl eq_refl)). congruence.
Qed.

Lemma level_typed args :
  typed ARGUMENTS args →
  num args "last_cache_level" = 1 ∨ num args "last_cache_level" = 2 ∨ num args "last_cache_level" = 3.
Proof.
  intros Ht. destruct (Ht (Arg "last-cache-level" AnyInt (Some [VInt 1; VInt 2; VInt 3]) (VInt 2)))
    as (x & Hx & Hal); [elem_dec|].
  unfold num. change (dest _) with "last_cache_level" in Hx. rewrite Hx.
  destruct Hal as [->|[_ Hch]]; [cbn; tauto|]. specialize (Hch _ eq_refl).
  rewrite !elem_of_cons, elem_of_nil in Hch. naive_solver.
Qed.

(** ** Caches and snoop filters *)

Section machine.
Variable addr : string → res Z.

(** A cache has a power-of-two number of sets, which fill it exactly. *)
Definition geometry_ok (line : Z) (g : string * string * Z) : Prop :=
  ∃ bytes sets, addr g.1.2 = Ok bytes ∧ pow2 sets ∧ bytes = sets * (line * g.2).

(** The snoop filters cover what they track. *)
Definition filters_ok (args : namespace) : Prop :=
  ∃ core l1i l1d io membus, addr (text args "core_bus_snoop_filter_capacity") = Ok core ∧
    addr (text args "l1i_size") = Ok l1i ∧ addr (text args "l1d_size") = Ok l1d ∧
    addr (text args "io_cache_size") = Ok io ∧
    addr (text args "membus_snoop_filter_capacity") = Ok membus ∧
    l1i + l1d <= core ∧
    ((num args "last_cache_level" = 1 ∧ num args "num_cpus" * (l1i + l1d) + io <= membus) ∨
     ∃ l2, addr (text args "l2_size") = Ok l2 ∧
       ((num args "last_cache_level" = 2 ∧ num args "num_cpus" * l2 + io <= membus) ∨
        ∃ l3 l3_bus, num args "last_cache_level" = 3 ∧ addr (text args "l3_size") = Ok l3 ∧
          addr (text args "l3_bus_snoop_filter_capacity") = Ok l3_bus ∧
          num args "num_cpus" * l2 <= l3_bus ∧ l3 + io <= membus)).

Record machine_ok (args : namespace) : Prop := {
  ma_modes : modes_ok args;
  ma_core : core_ok args;
  ma_buses : ∀ name, name ∈ io_bus_latencies ++ coherent_bus_latencies ++ memory_bus_latencies →
    0 <= num args name;
  ma_memory : memory_ok args;
  ma_caches : text args "cpu" ∈ cached_modes →
    (∀ g, g ∈ geometries args → geometry_ok (num args "cache_line_size") g) ∧ filters_ok args
}.

Lemma check_geometry_iff line g :
  0 < line → 0 < g.2 → check_geometry addr line g = Ok tt ↔ geometry_ok line g.
Proof.
  destruct g as [[label size] assoc]. cbn [fst snd]. intros Hl Ha. unfold check_geometry, geometry_ok. cbn [fst snd].
  assert (0 < line * assoc) as Hs by nia.
  destruct (addr size) as [bytes|e]; cbn [mbind res_bind]; [|naive_solver].
  rewrite !refuse_iff, orb_false_iff, negb_false_iff, Z.ltb_ge, Z.eqb_eq. split.
  - intros ([H1 H2] & H3 & _). exists bytes, (bytes / (line * assoc)). split; [done|].
    assert (0 < bytes / (line * assoc)) by (apply Z.div_str_pos; lia).
    split; [by apply not_power_iff|]. rewrite Z.mul_comm. by apply Z_div_exact_full_2; [lia|].
  - intros (b & sets & [= <-] & Hp & ->). assert (0 < sets) by (destruct Hp as (k & Hk & ->); by apply Z.pow_pos_nonneg).
    rewrite Z.div_mul by lia. split_and!; [nia|by apply Z.mod_mul; lia|by apply not_power_iff|done].
Qed.

(** An iff between two shapes of the same answers of [addr]. *)
Ltac answers :=
  repeat match goal with
  | |- context [addr ?s] => destruct (addr s); cbn [mbind res_bind]
  end; rewrite ?refuse_iff, ?Z.ltb_ge; naive_solver lia.

Lemma check_filters_iff args :
  typed ARGUMENTS args → check_filters addr args = Ok tt ↔ filters_ok args.
Proof.
  intros Ht. unfold check_filters, filters_ok, directly_snooped, parser_error.
  destruct (addr (text args "core_bus_snoop_filter_capacity")) as [core|]; cbn [mbind res_bind]; [|naive_solver].
  destruct (addr (text args "l1i_size")) as [l1i|]; cbn [mbind res_bind]; [|naive_solver].
  destruct (addr (text args "l1d_size")) as [l1d|]; cbn [mbind res_bind]; [|naive_solver].
  rewrite refuse_iff, Z.ltb_ge.
  destruct (level_typed args Ht) as [E|[E|E]]; rewrite E;
    cbn [Z.leb Z.eqb Z.compare Pos.compare Pos.compare_cont Pos.eqb mbind res_bind].
  - answers.
  - answers.
  - destruct (addr (text args "l3_bus_snoop_filter_capacity")) as [b|]; cbn [mbind res_bind]; [|naive_solver].
    destruct (addr (text args "l2_size")) as [l2|]; cbn [mbind res_bind]; [|naive_solver].
    destruct (b <? num args "num_cpus" * l2) eqn:Eb; bool_inv; cbn [mbind res_bind]; [naive_solver lia|].
    answers.
Qed.

Lemma check_caches_iff args :
  typed ARGUMENTS args →
  check_caches addr args = Ok tt ↔
  (text args "cpu" ∈ cached_modes →
   (∀ g, g ∈ geometries args → geometry_ok (num args "cache_line_size") g) ∧ filters_ok args).
Proof.
  intros Ht. unfold check_caches, cpu_in. destruct (elemb _ _) eqn:E; [apply elemb_true in E|apply elemb_false in E].
  2: { split; [intros _ ?; done|done]. }
  positive args "cache_line_size".
  rewrite mapR_unit_iff, check_filters_iff by done.
  assert (∀ g, g ∈ geometries args → 0 < g.2) as Hg.
  { intros g Hin. unfold geometries in Hin. rewrite !elem_of_cons, elem_of_nil in Hin.
    destruct Hin as [->|[->|[->|[->|[->|[]]]]]]; cbn [snd];
      apply typed_positive; try done; vm_compute; reflexivity. }
  split.
  - intros [H1 H2] _. split; [|done]. intros g Hin. by apply check_geometry_iff; [..|apply H1]; auto.
  - intros H. destruct (H E) as [H1 H2]. split; [|done]. intros g Hin. apply check_geometry_iff; auto.
Qed.

(** C24: on a namespace of the parser's types, the checks of [main] pass exactly
    for the machines [machine_ok] describes: caches that a power of two of sets
    fills exactly, snoop filters that cover what they track, buffers that divide
    the cache line, channels and interleaving in powers of two, and CPU modes
    whose switching, affinity and KVM conditions are met. *)
Theorem check_args_iff args : typed ARGUMENTS args → check_args addr args = Ok tt ↔ machine_ok args.
Proof.
  intros Ht. unfold check_args. rewrite !then_iff, check_modes_iff, check_core_iff, check_buses_iff,
    check_memory_iff, check_caches_iff by done.
  split; [by intros (H1 & H2 & H3 & H4 & H5)|by intros []].
Qed.

End machine.

(** ** Concrete arguments *)

Lemma arm64_args_typed_witness :
  ∃ args, arm64_args ["--cpu"; "server_o3"; "--l1i-lat=1,2,3"; "--benchmark-cpu"; "-1"] = Ok args ∧
    typed ARGUMENTS args.
Proof.
  destruct (arm64_args ["--cpu"; "server_o3"; "--l1i-lat=1,2,3"; "--benchmark-cpu"; "-1"]) as [args|] eqn:E;
    [|vm_compute in E; discriminate].
  exists args. split; [reflexivity|]. exact (arm64_args_typed _ _ E).
Defined.

Lemma check_args_iff_witness :
  ∃ args, arm64_args ["--cpu=kvm"; "--num-cpus=2"] = Ok args ∧ ¬ machine_ok (λ _, Ok 1024) args.
Proof.
  destruct (arm64_args ["--cpu=kvm"; "--num-cpus=2"]) as [args|] eqn:E; [|vm_compute in E; discriminate].
  exists args. split; [reflexivity|]. intros H.
  apply (check_args_iff (λ _, Ok 1024) args (arm64_args_typed _ _ E)) in H.
  vm_compute in E. injection E as <-. vm_compute in H. discriminate.
Defined.
