(* ===== verification/Arm64Launch.v ===== *)
(** * From the launcher's command line to an accepted configuration

    [config_launcher.py] writes the command line that [configs/arm64_fs.py]
    parses and checks.  For every gem5 topology the compiler accepts, what the
    launcher writes is accepted, and the configuration receives the values of the
    run manifest. *)

From Stdlib Require Import ZArith Lia Ascii.
From stdpp Require Import base strings gmap fin_maps numbers option list.
From S2P Require Import Prelude PyStr Json Samples Topology TopologyFacts Cli ProfileDefaults ConfigRuntime.
From S2P Require Import Launcher ArgParse Arm64Args Arm64Facts.

Open Scope string_scope.
Open Scope list_scope.
Open Scope Z_scope.

(** ** gem5's memory sizes *)

(** Units of [Addr], which reads decimal and binary prefixes alike as powers of
    1024. *)
Definition size_units : list (string * Z) :=
  [("kB", 1024); ("MB", 1048576); ("GB", 1073741824);
   ("KiB", 1024); ("MiB", 1048576); ("GiB", 1073741824)].

(** What the program relies on of gem5's [Addr]. *)
Definition documented (addr : string → res Z) : Prop :=
  ∀ n unit scale, 0 <= n → (unit, scale) ∈ size_units → addr (str_of_Z n +:+ unit) = Ok (n * scale).

(** A function that reads these sizes and no others. *)
Fixpoint read_size_go (units : list (string * Z)) (s : string) : res Z :=
  match units with
  | [] => Err (Exn ValueError "invalid size" [PS s])
  | (unit, scale) :: units' =>
      match strip_suffix unit s with
      | Some digits =>
          if all_digits digits then
            match parse_nat digits with
            | Some n => if String.eqb s (str_of_Z n +:+ unit) then Ok (n * scale)
                        else Err (Exn ValueError "invalid size" [PS s])
            | None => Err (Exn ValueError "invalid size" [PS s])
            end
          else read_size_go units' s
      | None => read_size_go units' s
      end
  end.
Definition read_size (s : string) : res Z := read_size_go size_units s.

Lemma read_size_go_documented addr units s z :
  documented addr → (∀ u, u ∈ units → u ∈ size_units) → read_size_go units s = Ok z → addr s = Ok z.
Proof.
  intros Hd. induction units as [|[unit scale] units IH]; intros Hu; cbn [read_size_go]; [done|].
  assert (∀ u, u ∈ units → u ∈ size_units) as Hu' by (intros u Hin; apply Hu; by right).
  destruct (strip_suffix unit s) as [digits|]; [|by apply IH].
  destruct (all_digits digits) eqn:Ed; [|by apply IH].
  destruct (parse_nat digits) as [n|] eqn:En; [|done].
  destruct (String.eqb_spec s (str_of_Z n +:+ unit)) as [->|]; [|done].
  intros [= <-]. apply Hd; [|apply Hu; by left].
  destruct (Z_lt_le_dec n 0) as [Hneg|]; [|done]. exfalso.
  unfold parse_nat in En. destruct digits as [|c digits]; [done|].
  cut (∀ acc t k, 0 <= acc → parse_go acc t = Some k → 0 <= k).
  { intros H. apply H in En; lia. }
  intros acc t. revert acc. induction t as [|c' t IHt]; cbn [parse_go]; intros acc k Ha; [by intros [= <-]|].
  destruct (is_digit c') eqn:Hc; [|done]. apply IHt. unfold is_digit in Hc. unfold digit_val. bool_inv. lia.
Qed.

Lemma read_size_agrees addr s z : documented addr → read_size s = Ok z → addr s = Ok z.
Proof. intros Hd. by apply read_size_go_documented. Qed.

Lemma documented_read_size : documented read_size.
Proof.
  intros n unit scale Hn Hu.
  assert (all_digits (str_of_Z n) = true) as Hd.
  { unfold all_digits. rewrite str_of_Z_digits by done. destruct (String.eqb_spec (str_of_Z n) EmptyString) as [E|]; [|done].
    pose proof (parse_nat_str n Hn) as Hp. rewrite <- str_of_Z_nonneg, E in Hp by done. done. }
  assert (parse_nat (str_of_Z n) = Some n) as Hp by (rewrite str_of_Z_nonneg by done; by apply parse_nat_str).
  unfold read_size, size_units in *. rewrite !elem_of_cons, elem_of_nil in Hu.
  destruct Hu as [[= -> ->]|[[= -> ->]|[[= -> ->]|[[= -> ->]|[[= -> ->]|[[= -> ->]|[]]]]]]];
    cbn [read_size_go];
    repeat match goal with
    | |- context [strip_suffix ?u (str_of_Z n +:+ ?v)] =>
        first [ constr_eq u v; rewrite (strip_suffix_app (str_of_Z n) u)
              | assert (strip_suffix u (str_of_Z n +:+ v) = None) as ->
                  by (unfold strip_suffix; rewrite rev_app_string; reflexivity) ]
    end; rewrite Hd, Hp, String.eqb_refl; done.
Qed.

(** ** The options on the command line *)

Definition arg (o : string) : argument :=
  default (none_arg o) (find_option ARGUMENTS o).

Definition given (m : manifest) (o : string) : string := default EmptyString (dget m (_gem5_key o)).

Definition leading : list string := ["kernel"; "initrd"; "root-device"; "script"].
Definition trailing : list string :=
  ["restore-from"; "eth-tap-socket"; "eth-link-speed"; "eth-link-delay"; "terminal-port"; "eth-mac";
   "extra-cmdline"].

(** Options of any string, which cannot be refused. *)
Definition free (o : string) : bool :=
  bool_decide (a_conv (arg o) = AnyStr) && match a_choices (arg o) with None => true | Some _ => false end.

Lemma free_value o v : free o = true → get_value (arg o) v = Ok (VStr v).
Proof.
  unfold free. intros [Hc Hn]%andb_true_iff. apply bool_decide_eq_true in Hc.
  unfold get_value, convert_value. rewrite Hc. by destruct (a_choices (arg o)).
Qed.

Definition declared (o : string) : bool :=
  elemb (arg o) ARGUMENTS && String.eqb (a_option (arg o)) o && negb (bool_decide (a_conv (arg o) = StoreTrue)).

Lemma declared_all : forallb declared (leading ++ GEM5_OPTIONS ++ ["dist-size"] ++ trailing) = true.
Proof. vm_compute. reflexivity. Qed.

Lemma declared_spec o :
  o ∈ leading ++ GEM5_OPTIONS ++ ["dist-size"] ++ trailing →
  arg o ∈ ARGUMENTS ∧ a_option (arg o) = o ∧ a_conv (arg o) ≠ StoreTrue.
Proof.
  intros Ho. pose proof declared_all as H. rewrite forallb_forall in H.
  apply list_elem_of_In, H in Ho. unfold declared in Ho. bool_inv. done.
Qed.

(** The options a topology's tuning fields may change. *)
Definition tunable : list string := ["o3-lq-entries"; "o3-sq-entries"; "l1d-prefetcher"; "mem-size"].

(** Every value of every profile is accepted by its option. *)
Lemma profile_values_accepted :
  forallb (λ pr, match dget PROFILE_DEFAULTS pr with
                 | Some defs => forallb (λ o, match dget defs (_gem5_key o) with
                                              | Some v => is_ok (get_value (arg o) v)
                                              | None => false
                                              end) GEM5_OPTIONS
                 | None => false
                 end) GEM5_PROFILES = true.
Proof. vm_compute. reflexivity. Qed.

Lemma profile_value_accepted profile defs o :
  profile ∈ GEM5_PROFILES → getitem PROFILE_DEFAULTS profile = Ok defs → o ∈ GEM5_OPTIONS →
  ∃ v x, dget defs (_gem5_key o) = Some v ∧ get_value (arg o) v = Ok x.
Proof.
  intros Hp Hd Ho. pose proof profile_values_accepted as H. rewrite forallb_forall in H.
  apply list_elem_of_In, H in Hp. apply getitem_Ok in Hd. rewrite Hd in Hp.
  rewrite forallb_forall in Hp. apply list_elem_of_In, Hp in Ho.
  destruct (dget defs (_gem5_key o)) as [v|]; [|done].
  destruct (get_value (arg o) v) as [x|] eqn:E; [|done]. by exists v, x.
Qed.

Lemma stable_keys :
  forallb (λ o, elemb o tunable ||
     (negb (elemb (_gem5_key o) (base_keys ++ cpu_keys ++ ["o3_lq_entries"; "o3_sq_entries"; "cache_prefetcher"]))
      && negb (per_node_link_key (_gem5_key o)))) GEM5_OPTIONS = true.
Proof. vm_compute. reflexivity. Qed.

(** A resolved manifest gives an option the profile's value unless it is
    tunable. *)
Lemma given_stable profile machine sync defs v o :
  resolved_from profile machine sync defs v → o ∈ GEM5_OPTIONS → o ∉ tunable →
  dget v (_gem5_key o) = dget defs (_gem5_key o).
Proof.
  intros R Ho Hn. pose proof stable_keys as H. rewrite forallb_forall in H.
  apply list_elem_of_In, H in Ho. apply elemb_false in Hn. rewrite Hn in Ho. cbn [orb] in Ho. bool_inv.
  by apply (rf_other _ _ _ _ _ R).
Qed.

Lemma queue_accepted machine o old n x :
  o = "o3-lq-entries" ∨ o = "o3-sq-entries" → limited machine →
  get_value (arg o) old = Ok x → overridden machine (_gem5_key o) (Some old) = Some n →
  ∃ y, get_value (arg o) n = Ok y.
Proof.
  intros Ho L Hx. unfold overridden.
  destruct (dget machine (_gem5_key o)) as [v|] eqn:E; [|intros [= <-]; by eexists].
  destruct (li_queue _ L (_gem5_key o) v) as (k & -> & Hk); [|done|].
  { destruct Ho as [->| ->]; vm_compute; [by left|right; by left]. }
  cbn [format_scalar ok_opt]. intros [= <-]. exists (VInt k).
  assert (a_conv (arg o) = PositiveInt ∧ a_choices (arg o) = None) as [E1 E2].
  { destruct Ho as [->| ->]; vm_compute; done. }
  unfold get_value, convert_value. rewrite E1, E2. unfold positive_int. rewrite int_of_str_Z. cbn [mbind res_bind].
  by rewrite (proj2 (Z.leb_gt k 0)) by lia.
Qed.

Lemma prefetcher_accepted machine old n x :
  limited machine → get_value (arg "l1d-prefetcher") old = Ok x →
  overridden machine "l1d_prefetcher" (Some old) = Some n →
  ∃ y, get_value (arg "l1d-prefetcher") n = Ok y.
Proof.
  intros L Hx. unfold overridden.
  destruct (dget machine "l1d_prefetcher") as [v|] eqn:E; [|intros [= <-]; by eexists].
  destruct (li_prefetcher _ L v E) as (s & -> & Hs). cbn. intros [= <-].
  unfold L1D_PREFETCHERS in Hs. rewrite !elem_of_cons, elem_of_nil in Hs.
  destruct Hs as [->|[->|[->|[->|[->|[]]]]]]; eexists; vm_compute; reflexivity.
Qed.

(** Every option of the table has a value in the resolved manifest, which it
    accepts. *)
Lemma resolved_accepted profile machine sync defs v o :
  profile ∈ GEM5_PROFILES → resolved_from profile machine sync defs v → o ∈ GEM5_OPTIONS →
  ∃ s x, dget v (_gem5_key o) = Some s ∧ get_value (arg o) s = Ok x.
Proof.
  intros Hp R Ho. destruct (profile_value_accepted _ _ o Hp (rf_defs _ _ _ _ _ R) Ho) as (old & x & Hold & Hx).
  destruct (decide (o ∈ tunable)) as [Ht|Ht].
  2: { exists old, x. split; [|done]. by rewrite (given_stable _ _ _ _ _ o R Ho Ht). }
  pose proof (rf_limited _ _ _ _ _ R) as L.
  unfold tunable in Ht. rewrite !elem_of_cons, elem_of_nil in Ht.
  assert (∀ key, (∀ u, overridden machine key (Some old) = Some u → ∃ y, get_value (arg o) u = Ok y) →
    key ∈ ["memory_size_gb"; "o3_lq_entries"; "o3_sq_entries"; "l1d_prefetcher"] →
    dget v (_gem5_key o) = overridden machine key (dget defs (_gem5_key o)) →
    ∃ s y, dget v (_gem5_key o) = Some s ∧ get_value (arg o) s = Ok y) as Hover.
  { intros key Hy Hk Hv. rewrite Hv, Hold.
    assert (∃ u, overridden machine key (Some old) = Some u) as [u Hu].
    { unfold overridden. destruct (dget machine key) as [j|] eqn:E; [|by eexists].
      destruct (limited_tuned _ L key j Hk E) as (u & -> & _). by eexists. }
    destruct (Hy u Hu) as [y Hyy]. by exists u, y. }
  destruct Ht as [->|[->|[->|[->|[]]]]].
  - apply (Hover "o3_lq_entries"); [|elem_dec|apply (rf_lq _ _ _ _ _ R)].
    intros u Hu. eapply queue_accepted; eauto.
  - apply (Hover "o3_sq_entries"); [|elem_dec|apply (rf_sq _ _ _ _ _ R)].
    intros u Hu. eapply queue_accepted; eauto.
  - apply (Hover "l1d_prefetcher"); [|elem_dec|apply (rf_prefetcher _ _ _ _ _ R)].
    intros u Hu. eapply prefetcher_accepted; eauto.
  - destruct (rf_memory _ _ _ _ _ R) as (mem & _ & Hm). exists (mem +:+ "GB"), (VStr (mem +:+ "GB")).
    split; [exact Hm|]. by apply free_value.
Qed.

(** ** The command line's layout *)

Definition tokens (val : string → string) (names : list string) : list string :=
  (λ o, "--" +:+ o +:+ "=" +:+ val o) <$> names.

Definition first_names : list string := leading ++ GEM5_OPTIONS ++ ["dist-size"].
Definition last_names (checkpoint : option string) : list string :=
  match checkpoint with Some _ => trailing | None => List.tl trailing end.

Definition switches (m : manifest) : list string :=
  (if bool_decide (dget m "auto_o3_lifecycle" = Some "1") then ["--auto-o3-lifecycle"] else []) ++
  (if bool_decide (dget m "fast_boot_noncaching" = Some "1") then ["--fast-boot-noncaching"] else []).

Lemma tokens_app val a b : tokens val (a ++ b) = tokens val a ++ tokens val b.
Proof. apply fmap_app. Qed.

Lemma options_layout val m os :
  mapR (option_argument m) GEM5_OPTIONS = Ok os → (∀ o, o ∈ GEM5_OPTIONS → val o = given m o) →
  os = tokens val GEM5_OPTIONS.
Proof.
  intros Hm Hv. apply mapR_Ok in Hm. unfold tokens.
  assert (∀ l k, Forall2 (λ a b, option_argument m a = Ok b) l k → (∀ o, o ∈ l → val o = given m o) →
    k = (λ o, "--" +:+ o +:+ "=" +:+ val o) <$> l) as H; [|by apply H].
  clear. intros l k Hf. induction Hf as [|o t l k Ho _ IH]; intros Hv; [done|].
  cbn [fmap list_fmap]. rewrite <- IH by (intros; apply Hv; by right). f_equal.
  unfold option_argument in Ho. apply bind_Ok in Ho as (v & Hv' & [= <-]).
  rewrite Hv by (by left). unfold given. apply getitem_Ok in Hv'. by rewrite Hv'.
Qed.

(** What [gem5_argv] gives to the configuration script. *)
Record layout (w : world) (m : manifest) (node : nat) (checkpoint : option string) (template : bool)
    (val : string → string) (script_argv : list string) : Prop := {
  la_argv : script_argv = tokens val first_names ++ switches m ++ tokens val (last_names checkpoint);
  la_given : ∀ o, o ∈ GEM5_OPTIONS → val o = given m o;
  la_dist : val "dist-size" = "0";
  la_root : val "root-device" = "/dev/ram";
  la_kernel : val "kernel" = gem5_kernel w;
  la_extra : ∃ provider, dget m "provider" = Some provider ∧
    val "extra-cmdline" = "ubsim_node=" +:+ (if template then "template" else str_of_nat node) +:+ " " +:+
      (if template then "ubsim_template=1 " else EmptyString) +:+ "ubsim_provider=" +:+ provider;
  la_uart : ∃ uart0 uart1, env_number w "UBSIM_DUAL_UART0" "3460" = Ok uart0 ∧
    env_number w "UBSIM_DUAL_UART1" "3470" = Ok uart1 ∧
    val "terminal-port" = str_of_Z (uart0 + Z.of_nat node * (uart1 - uart0))
}.

Lemma gem5_argv_layout w m node run_root checkpoint template argv :
  gem5_argv w m node run_root checkpoint template = Ok argv →
  ∃ val, layout w m node checkpoint template val (drop 4 argv).
Proof.
  unfold gem5_argv. intros H.
  apply bind_Ok in H as (initrd & _ & H). apply bind_Ok in H as (os & Hos & H).
  apply bind_Ok in H as (mode & Hmode & H). apply bind_Ok in H as (uart0 & H0 & H).
  apply bind_Ok in H as (uart1 & H1 & H). apply bind_Ok in H as (ls & Hls & [= <-]).
  unfold mode_arguments in Hmode. apply bind_Ok in Hmode as (auto & Ha%getitem_Ok & Hmode).
  apply bind_Ok in Hmode as (fast & Hf%getitem_Ok & [= <-]).
  unfold link_arguments in Hls. apply bind_Ok in Hls as (speed & _ & Hls).
  apply bind_Ok in Hls as (delay & _ & Hls). apply bind_Ok in Hls as (provider & Hp%getitem_Ok & [= <-]).
  set (table := [("kernel", gem5_kernel w); ("initrd", initrd); ("root-device", "/dev/ram");
    ("script", if template then join_path (node_dir run_root node) "identity.txt"
               else env_path w "UBSIM_GUEST_READFILE" EmptyString);
    ("dist-size", "0");
    ("restore-from", match checkpoint with
                     | Some c => join_path c (if template then "template-cpt"
                                              else "node" +:+ str_of_nat node +:+ "-cpt")
                     | None => EmptyString end);
    ("eth-tap-socket", tap_path w node); ("eth-link-speed", speed); ("eth-link-delay", delay +:+ "ns");
    ("terminal-port", str_of_Z (uart0 + Z.of_nat node * (uart1 - uart0)));
    ("eth-mac", "02:00:00:00:00:" +:+ mac_suffix node);
    ("extra-cmdline", "ubsim_node=" +:+ (if template then "template" else str_of_nat node) +:+ " " +:+
        (if template then "ubsim_template=1 " else EmptyString) +:+ "ubsim_provider=" +:+ provider)]).
  exists (λ o, default (given m o) (dget table o)).
  assert (∀ o, o ∈ GEM5_OPTIONS → default (given m o) (dget table o) = given m o) as Hg.
  { assert (forallb (λ o, negb (elemb o (leading ++ ["dist-size"] ++ trailing))) GEM5_OPTIONS = true) as Hd
      by (vm_compute; reflexivity).
    intros o Ho. rewrite forallb_forall in Hd. apply list_elem_of_In, Hd in Ho. bool_inv.
    assert (dget table o = None) as ->; [|done]. by apply dget_None_keys. }
  split; [|exact Hg|reflexivity|reflexivity|reflexivity|by exists provider|by exists uart0, uart1].
  rewrite (options_layout (λ o, default (given m o) (dget table o)) _ _ Hos Hg).
  unfold first_names. rewrite !tokens_app. unfold switches. rewrite Ha, Hf.
  destruct (String.eqb_spec auto "1") as [->|Hna], (String.eqb_spec fast "1") as [->|Hnf];
    rewrite ?bool_decide_eq_true_2 by done; rewrite ?(bool_decide_eq_false_2 (Some auto = Some "1")) by congruence;
    rewrite ?(bool_decide_eq_false_2 (Some fast = Some "1")) by congruence;
    destruct checkpoint; cbn [drop app]; rewrite <- ?app_assoc; reflexivity.
Qed.

(** ** Parsing it *)

Definition received (val : string → string) (o : string) : value :=
  match get_value (arg o) (val o) with Ok x => x | Err _ => VNone end.

(** The attributes a block of options sets. *)
Definition assigned (val : string → string) (names : list string) : namespace :=
  (λ o, (dest (arg o), received val o)) <$> names.

Definition acceptable (val : string → string) (names : list string) : Prop :=
  ∀ o, o ∈ names → o ∈ leading ++ GEM5_OPTIONS ++ ["dist-size"] ++ trailing ∧
    ∃ x, get_value (arg o) (val o) = Ok x.

Lemma parse_tokens val names rest ns extras :
  acceptable val names →
  parse_loop ARGUMENTS (tokens val names ++ rest) ns extras =
  parse_loop ARGUMENTS rest (dupdate ns (assigned val names)) extras.
Proof.
  revert ns. induction names as [|o names IH]; intros ns Ha; [done|].
  destruct (Ha o) as (Ho & x & Hx); [by left|]. destruct (declared_spec o Ho) as (Hin & Heq & Hst).
  cbn [tokens fmap list_fmap app]. rewrite <- Heq at 1.
  rewrite (parse_explicit _ arguments_distinct options_distinct_ok options_plain_ok) by done.
  rewrite Hx. cbn [mbind res_bind]. fold (tokens val names). rewrite IH by (intros p Hp; apply Ha; by right).
  cbn [assigned fmap list_fmap]. unfold dupdate. cbn [foldl fst snd]. 
  assert (received val o = x) as -> by (unfold received; by rewrite Hx). done.
Qed.

Definition switched (m : manifest) : namespace :=
  (if bool_decide (dget m "auto_o3_lifecycle" = Some "1") then [("auto_o3_lifecycle", VBool true)] else []) ++
  (if bool_decide (dget m "fast_boot_noncaching" = Some "1") then [("fast_boot_noncaching", VBool true)] else []).

Lemma parse_switches m rest ns extras :
  parse_loop ARGUMENTS (switches m ++ rest) ns extras =
  parse_loop ARGUMENTS rest (dupdate ns (switched m)) extras.
Proof.
  pose proof (parse_switch _ arguments_distinct options_distinct_ok options_plain_ok
                (switch_arg "auto-o3-lifecycle")) as Ha.
  pose proof (parse_switch _ arguments_distinct options_distinct_ok options_plain_ok
                (switch_arg "fast-boot-noncaching")) as Hf.
  unfold switches, switched.
  destruct (bool_decide _), (bool_decide _); cbn [app];
    repeat (first [rewrite Ha by (done || elem_dec) | rewrite Hf by (done || elem_dec)]); done.
Qed.

(** The namespace after the launcher's strings. *)
Definition launched (val : string → string) (m : manifest) (checkpoint : option string) : namespace :=
  dupdate (dupdate (dupdate (initial ARGUMENTS) (assigned val first_names)) (switched m))
    (assigned val (last_names checkpoint)).

Lemma parse_launched w m node checkpoint template val argv :
  layout w m node checkpoint template val argv →
  acceptable val (first_names ++ last_names checkpoint) →
  arm64_args argv = Ok (launched val m checkpoint).
Proof.
  intros [-> _ _ _ _ _ _] Ha. unfold arm64_args, parse_args.
  rewrite parse_tokens by (intros o Ho; apply Ha, elem_of_app; by left).
  rewrite parse_switches. rewrite <- (app_nil_r (tokens val (last_names checkpoint))).
  rewrite parse_tokens by (intros o Ho; apply Ha, elem_of_app; by right). done.
Qed.

Definition last_dests : list string := (λ o, dest (arg o)) <$> trailing.

Lemma first_distinct : NoDup ((λ o, dest (arg o)) <$> first_names).
Proof. apply (bool_decide_unpack _). vm_compute. exact I. Qed.

Lemma last_distinct checkpoint : NoDup ((λ o, dest (arg o)) <$> last_names checkpoint).
Proof. destruct checkpoint; apply (bool_decide_unpack _); vm_compute; exact I. Qed.

Lemma dget_assigned val names o :
  NoDup ((λ o, dest (arg o)) <$> names) → o ∈ names →
  dget (assigned val names) (dest (arg o)) = Some (received val o).
Proof.
  intros Hnd Ho. apply dget_NoDup_elem.
  - unfold keys, assigned. rewrite <- list_fmap_compose. exact Hnd.
  - apply list_elem_of_fmap. by exists o.
Qed.

Lemma dget_assigned_None val names k :
  (k ∉ ((λ o, dest (arg o)) <$> names)) → dget (assigned val names) k = None.
Proof. intros Hk. apply dget_None_keys. unfold keys, assigned. by rewrite <- list_fmap_compose. Qed.

Lemma assigned_keys val names : keys (assigned val names) = (λ o, dest (arg o)) <$> names.
Proof. unfold keys, assigned. by rewrite <- list_fmap_compose. Qed.

Lemma switched_distinct m : NoDup (keys (switched m)).
Proof.
  unfold switched. destruct (bool_decide _), (bool_decide _); apply (bool_decide_unpack _); vm_compute; exact I.
Qed.

Definition switch_names : list string := ["auto_o3_lifecycle"; "fast_boot_noncaching"].

Lemma dget_switched_None m k : k ∉ switch_names → dget (switched m) k = None.
Proof.
  intros Hk. apply dget_None_keys. intros Hin. apply Hk. unfold switched, switch_names in *.
  destruct (bool_decide _), (bool_decide _); cbn in Hin; rewrite ?elem_of_cons, ?elem_of_nil in *; tauto.
Qed.

Lemma last_not_first checkpoint k :
  elemb k last_dests = false → k ∉ ((λ o, dest (arg o)) <$> last_names checkpoint).
Proof.
  intros Hk%elemb_false Hin. apply Hk. destruct checkpoint; cbn [last_names] in Hin; [exact Hin|].
  unfold last_dests. right. exact Hin.
Qed.

Lemma launched_first val m checkpoint o :
  o ∈ first_names → dget (launched val m checkpoint) (dest (arg o)) = Some (received val o).
Proof.
  intros Ho. unfold launched.
  assert (forallb (λ o, negb (elemb (dest (arg o)) last_dests) && negb (elemb (dest (arg o)) switch_names))
            first_names = true) as H by (vm_compute; reflexivity).
  rewrite forallb_forall in H. pose proof Ho as Ho'. apply list_elem_of_In, H, andb_true_iff in Ho' as [H1%negb_true_iff H2%negb_true_iff].
  rewrite dget_dupdate by (rewrite assigned_keys; apply last_distinct).
  rewrite dget_assigned_None by (by apply last_not_first).
  rewrite dget_dupdate by apply switched_distinct. rewrite dget_switched_None by (by apply elemb_false).
  rewrite dget_dupdate by (rewrite assigned_keys; apply first_distinct).
  by rewrite dget_assigned by (done || apply first_distinct).
Qed.

Lemma launched_switch val m checkpoint k :
  k ∈ switch_names →
  dget (launched val m checkpoint) k = Some (VBool (bool_decide (dget m k = Some "1"))).
Proof.
  intros Hk. unfold launched.
  assert (elemb k last_dests = false ∧ (k ∉ ((λ o, dest (arg o)) <$> first_names)) ∧
          dget (initial ARGUMENTS) k = Some (VBool false)) as (H1 & H2 & H3).
  { unfold switch_names in Hk. rewrite !elem_of_cons, elem_of_nil in Hk.
    destruct Hk as [->|[->|[]]]; (split; [|split; [apply elemb_false|]]); vm_compute; reflexivity. }
  rewrite dget_dupdate by (rewrite assigned_keys; apply last_distinct).
  rewrite dget_assigned_None by (by apply last_not_first).
  rewrite dget_dupdate by apply switched_distinct.
  rewrite dget_dupdate by (rewrite assigned_keys; apply first_distinct).
  rewrite dget_assigned_None, H3 by done. unfold switched.
  unfold switch_names in Hk. rewrite !elem_of_cons, elem_of_nil in Hk.
  destruct Hk as [->|[->|[]]]; destruct (bool_decide _), (bool_decide _); reflexivity.
Qed.

(** ** Checking it *)

(** The options the checks read. *)
Definition size_options : list string :=
  ["l1i-size"; "l1d-size"; "l2-size"; "l3-size"; "io-cache-size"; "core-bus-snoop-filter-capacity";
   "l3-bus-snoop-filter-capacity"; "membus-snoop-filter-capacity"].
Definition checked_options : list string :=
  ["cpu"; "num-cpus"; "benchmark-cpu"; "m5ops-base"; "cache-line-size"; "o3-width";
   "o3-fetch-buffer-bytes"; "o3-phys-int-regs"; "o3-phys-vec-regs"; "o3-phys-vec-pred-regs";
   "o3-phys-mat-regs"; "io-bus-frontend-latency"; "io-bus-forward-latency"; "io-bus-response-latency";
   "io-bus-header-latency"; "coherent-bus-frontend-latency"; "coherent-bus-forward-latency";
   "coherent-bus-response-latency"; "coherent-bus-snoop-response-latency";
   "coherent-bus-header-latency"; "memory-bus-frontend-latency"; "memory-bus-forward-latency";
   "memory-bus-response-latency"; "memory-bus-snoop-response-latency"; "memory-bus-header-latency";
   "mem-write-high-thresh"; "mem-write-low-thresh"; "mem-channels"; "mem-ranks"; "mem-channels-intlv";
   "last-cache-level"; "l1i-assoc"; "l1d-assoc"; "l2-assoc"; "l3-assoc"; "io-cache-assoc"] ++
  size_options.

Definition checked_names : list string := switch_names ++ ((λ o, dest (arg o)) <$> checked_options).
Definition size_names : list string := (λ o, dest (arg o)) <$> size_options.

(** The checks read nothing else. *)
Lemma check_args_ext addr addr' args args' :
  (∀ k, k ∈ checked_names → dget args k = dget args' k) →
  (∀ k, k ∈ size_names → addr (text args k) = addr' (text args k)) →
  check_args addr args = check_args addr' args'.
Proof.
  intros Hk Hs.
  assert (∀ k, elemb k checked_names = true → num args k = num args' k) as Hn.
  { intros k Hin%elemb_true. unfold num. by rewrite Hk. }
  assert (∀ k, elemb k checked_names = true → flag args k = flag args' k) as Hf.
  { intros k Hin%elemb_true. unfold flag. by rewrite Hk. }
  assert (∀ k, elemb k checked_names = true → text args k = text args' k) as Ht.
  { intros k Hin%elemb_true. unfold text. by rewrite Hk. }
  assert (num_opt args "mem_ranks" = num_opt args' "mem_ranks") as Hr.
  { unfold num_opt. rewrite Hk; [done|elem_dec]. }
  assert (∀ k, elemb k size_names = true → addr (text args k) = addr' (text args k)) as Ha.
  { intros k Hin%elemb_true. by apply Hs. }
  unfold check_args, check_modes, check_core, check_buses, check_memory, check_caches, check_filters,
    directly_snooped, some_negative, io_bus_latencies, coherent_bus_latencies, memory_bus_latencies,
    geometries, cpu_in, check_geometry.
  cbn [existsb mapR].
  repeat match goal with
  | |- context [addr (text args ?k)] => rewrite (Ha k) by (vm_compute; reflexivity)
  end.
  rewrite Hr.
  repeat match goal with
  | |- context [num args ?k] => rewrite (Hn k) by (vm_compute; reflexivity)
  | |- context [text args ?k] => rewrite (Ht k) by (vm_compute; reflexivity)
  | |- context [flag args ?k] => rewrite (Hf k) by (vm_compute; reflexivity)
  end. reflexivity.
Qed.

(** The namespace of a profile's own values. *)
Definition reference (profile : string) (sync : bool) (defs : manifest) : namespace :=
  [("auto_o3_lifecycle", VBool (String.eqb profile "modern" && sync));
   ("fast_boot_noncaching", VBool (String.eqb profile "modern" && sync))] ++
  assigned (given defs) GEM5_OPTIONS.

Lemma reference_switch profile sync defs k :
  k ∈ switch_names →
  dget (reference profile sync defs) k = Some (VBool (String.eqb profile "modern" && sync)).
Proof.
  unfold reference, switch_names. rewrite !elem_of_cons, elem_of_nil. generalize (assigned (given defs) GEM5_OPTIONS).
  intros l [->|[->|[]]]; reflexivity.
Qed.

(** Every profile passes the checks, with or without lifecycle switching, and
    its sizes are written in documented units. *)
Lemma references_pass :
  forallb (λ pr, match dget PROFILE_DEFAULTS pr with
                 | Some defs => forallb (λ sync,
                     is_ok (check_args read_size (reference pr sync defs)) &&
                     forallb (λ k, is_ok (read_size (text (reference pr sync defs) k))) size_names)
                     [true; false]
                 | None => false
                 end) GEM5_PROFILES = true.
Proof. vm_compute. reflexivity. Qed.

Lemma reference_passes profile sync defs :
  profile ∈ GEM5_PROFILES → getitem PROFILE_DEFAULTS profile = Ok defs →
  check_args read_size (reference profile sync defs) = Ok tt ∧
  ∀ k, k ∈ size_names → is_ok (read_size (text (reference profile sync defs) k)) = true.
Proof.
  intros Hp Hd%getitem_Ok. pose proof references_pass as H. rewrite forallb_forall in H.
  apply list_elem_of_In, H in Hp. rewrite Hd in Hp. rewrite forallb_forall in Hp.
  assert (In sync [true; false]) as Hs by (destruct sync; cbn; tauto).
  apply Hp, andb_true_iff in Hs as [H1 H2]. split.
  - destruct (check_args _ _) as [[]|]; done.
  - rewrite forallb_forall in H2. intros k Hk%list_elem_of_In. by apply H2.
Qed.

(** The manifest a launch hands to [gem5_command], read through to the profile. *)
Lemma launch_values root raw p m restored :
  compile_topology raw = Ok p → p_simulator p = "gem5" → resolve_gem5 root raw p = Ok m →
  ∃ profile machine sync defs v, profile ∈ GEM5_PROFILES ∧ resolved_from profile machine sync defs v ∧
    (∀ o, o ∈ GEM5_OPTIONS →
       dget (dset m "restore_checkpoint" restored) (_gem5_key o) = dget v (_gem5_key o)) ∧
    (∀ k, per_node_link_key k = false → String.eqb k "restore_checkpoint" = false →
       dget (dset m "restore_checkpoint" restored) k = dget v k) ∧
    (∀ k, k ∈ switch_names → dget (dset m "restore_checkpoint" restored) k =
       Some (if String.eqb profile "modern" && sync then "1" else "0")).
Proof.
  intros Hc Hg Hm. destruct (resolve_shape root _ _ Hc Hg)
    as (profile & latency & v & sync & Hr & Hin & _ & _ & _ & _ & _ & _ & _ & _ & _ & machine & defs & R).
  rewrite Hm in Hr. injection Hr as ->. exists profile, machine, sync, defs, v. split; [done|]. split; [done|].
  assert (∀ k, per_node_link_key k = false → String.eqb k "restore_checkpoint" = false →
    dget (dset (pop_links (length (p_node_ids p)) (set_links 0 (p_node_links p) v)) "restore_checkpoint" restored) k
    = dget v k) as Hk.
  { intros k H1 H2. rewrite dget_dset, H2, dget_pop_links_other, dget_set_links_other by done. done. }
  split_and!; [|exact Hk|].
  - assert (forallb (λ o, negb (per_node_link_key (_gem5_key o)) &&
              negb (String.eqb (_gem5_key o) "restore_checkpoint")) GEM5_OPTIONS = true) as H
      by (vm_compute; reflexivity).
    rewrite forallb_forall in H. intros o Ho. apply list_elem_of_In, H, andb_true_iff in Ho as [H1 H2].
    apply negb_true_iff in H1, H2. by apply Hk.
  - intros k Hin'. unfold switch_names in Hin'. rewrite !elem_of_cons, elem_of_nil in Hin'.
    destruct Hin' as [->|[->|[]]]; rewrite Hk by (vm_compute; reflexivity).
    + apply (rf_auto _ _ _ _ _ R).
    + apply (rf_fast _ _ _ _ _ R).
Qed.

(** The options besides the table take what the launcher writes for them. *)
Lemma acceptable_launch val w m node checkpoint template argv :
  layout w m node checkpoint template val argv →
  (∀ o, o ∈ GEM5_OPTIONS → ∃ x, get_value (arg o) (val o) = Ok x) →
  acceptable val (first_names ++ last_names checkpoint).
Proof.
  intros L Hg o Ho.
  assert (o ∈ leading ++ GEM5_OPTIONS ++ ["dist-size"] ++ trailing) as Hin.
  { unfold first_names in Ho. rewrite !elem_of_app in *. destruct Ho as [[?|[?|?]]|Ho]; [tauto..|].
    right. right. right. destruct checkpoint; [done|]. unfold trailing. right. exact Ho. }
  split; [done|]. destruct (decide (o ∈ GEM5_OPTIONS)) as [|Hn]; [by apply Hg|].
  assert (o = "dist-size" ∨ o = "terminal-port" ∨ free o = true) as [->|[->|Hf]].
  { rewrite !elem_of_app in Hin. unfold leading, trailing in Hin. rewrite !elem_of_cons, elem_of_nil in Hin.
    destruct Hin as [Hin|[Hin|[Hin|Hin]]]; [|done|..]; destruct_or?; try done; subst;
      first [by left|right; by left|right; right; vm_compute; reflexivity]. }
  - rewrite (la_dist _ _ _ _ _ _ _ L). by eexists.
  - destruct (la_uart _ _ _ _ _ _ _ L) as (u0 & u1 & _ & _ & ->). exists (VInt (u0 + Z.of_nat node * (u1 - u0))).
    unfold get_value. change (a_conv (arg "terminal-port")) with AnyInt.
    change (a_choices (arg "terminal-port")) with (@None (list value)). unfold convert_value.
    by rewrite int_of_str_Z.
  - eexists. by apply free_value.
Qed.

(** Options that no tuning field changes arrive with the profile's value. *)
Lemma stable_agree profile machine sync defs v m val checkpoint o :
  resolved_from profile machine sync defs v →
  (∀ o, o ∈ GEM5_OPTIONS → val o = given m o ∧ dget m (_gem5_key o) = dget v (_gem5_key o)) →
  o ∈ GEM5_OPTIONS → o ∉ tunable →
  dget (launched val m checkpoint) (dest (arg o)) = dget (reference profile sync defs) (dest (arg o)).
Proof.
  intros R Hv H1 H2.
  assert (forallb (λ o, negb (elemb (dest (arg o)) switch_names)) GEM5_OPTIONS = true) as H by (vm_compute; reflexivity).
  rewrite forallb_forall in H. pose proof H1 as H3. apply list_elem_of_In, H, negb_true_iff, elemb_false in H3.
  rewrite launched_first by (apply elem_of_app; right; apply elem_of_app; by left).
  unfold reference, switch_names in *. rewrite !not_elem_of_cons in H3. destruct H3 as (N1 & N2 & _).
  cbn [app dget]. rewrite (proj2 (String.eqb_neq _ _) N1), (proj2 (String.eqb_neq _ _) N2).
  rewrite dget_assigned; [|apply (bool_decide_unpack _); vm_compute; exact I|done].
  unfold received. destruct (Hv o H1) as [-> Heq].
  unfold given. by rewrite Heq, (given_stable _ _ _ _ _ o R H1 H2).
Qed.

(** On what the checks read, the launched namespace is the profile's own. *)
Lemma checked_agree profile machine sync defs v m val checkpoint k :
  resolved_from profile machine sync defs v →
  (∀ o, o ∈ GEM5_OPTIONS → val o = given m o ∧ dget m (_gem5_key o) = dget v (_gem5_key o)) →
  (∀ k, k ∈ switch_names → dget m k = Some (if String.eqb profile "modern" && sync then "1" else "0")) →
  k ∈ checked_names → dget (launched val m checkpoint) k = dget (reference profile sync defs) k.
Proof.
  intros R Hv Hsw Hk. unfold checked_names in Hk. apply elem_of_app in Hk as [Hk|Hk].
  - rewrite launched_switch, (Hsw k Hk), reference_switch by done.
    by destruct (String.eqb profile "modern" && sync).
  - apply list_elem_of_fmap in Hk as (o & -> & Ho).
    assert (forallb (λ o, elemb o GEM5_OPTIONS && negb (elemb o tunable)) checked_options = true) as H
      by (vm_compute; reflexivity).
    rewrite forallb_forall in H.
    apply list_elem_of_In, H, andb_true_iff in Ho as [H1%elemb_true H2%negb_true_iff%elemb_false].
    by eapply stable_agree.
Qed.

(** The configuration's arguments after a launch, and where they come from. *)
Record parsed_launch (addr : string → res Z) (w : world) (m : manifest) (node : nat) (checkpoint : option string)
    (template : bool) (argv : list string) (val : string → string) (profile : string) (machine : jobj) (sync : bool)
    (defs v : manifest) : Prop := {
  pl_profile : profile ∈ GEM5_PROFILES;
  pl_resolved : resolved_from profile machine sync defs v;
  pl_layout : layout w m node checkpoint template val (drop 4 argv);
  pl_values : ∀ o, o ∈ GEM5_OPTIONS → dget m (_gem5_key o) = dget v (_gem5_key o);
  pl_other : ∀ k, per_node_link_key k = false → String.eqb k "restore_checkpoint" = false → dget m k = dget v k;
  pl_read : ∀ o, o ∈ GEM5_OPTIONS → ∃ s x, dget m (_gem5_key o) = Some s ∧ val o = s ∧ get_value (arg o) s = Ok x;
  pl_acceptable : acceptable val (first_names ++ last_names checkpoint);
  pl_accepted : accepted_args addr (drop 4 argv) = Ok (launched val m checkpoint)
}.

Lemma launch_parsed addr w raw p m restored node run_root checkpoint template argv :
  documented addr →
  compile_topology raw = Ok p → p_simulator p = "gem5" → resolve_gem5 (w_root w) raw p = Ok m →
  gem5_argv w (dset m "restore_checkpoint" restored) node run_root checkpoint template = Ok argv →
  ∃ val profile machine sync defs v,
    parsed_launch addr w (dset m "restore_checkpoint" restored) node checkpoint template argv val profile machine sync defs v.
Proof.
  intros Hd Hc Hg Hm Ha. apply gem5_argv_layout in Ha as (val & L).
  destruct (launch_values _ _ _ _ restored Hc Hg Hm)
    as (profile & machine & sync & defs & v & Hp & R & Hv & Hother & Hsw).
  exists val, profile, machine, sync, defs, v. set (m' := dset m "restore_checkpoint" restored) in *.
  assert (∀ o, o ∈ GEM5_OPTIONS → ∃ s x, dget m' (_gem5_key o) = Some s ∧ val o = s ∧ get_value (arg o) s = Ok x)
    as Hval.
  { intros o Ho. destruct (resolved_accepted _ _ _ _ _ o Hp R Ho) as (s & x & Hs & Hx).
    exists s, x. rewrite (la_given _ _ _ _ _ _ _ L o Ho). unfold given. by rewrite !Hv, Hs. }
  assert (acceptable val (first_names ++ last_names checkpoint)) as Hacc.
  { apply acceptable_launch with w m' node template (drop 4 argv); [done|].
    intros o Ho. destruct (Hval o Ho) as (s & x & _ & -> & Hx). by exists x. }
  split; try done.
  unfold accepted_args. rewrite (parse_launched _ _ _ _ _ _ _ L Hacc). cbn [mbind res_bind].
  destruct (reference_passes profile sync defs Hp (rf_defs _ _ _ _ _ R)) as [Hpass Hsize].
  assert (∀ k, k ∈ checked_names →
    dget (launched val m' checkpoint) k = dget (reference profile sync defs) k) as Hagree.
  { intros k Hk. eapply checked_agree; [exact R| |exact Hsw|exact Hk].
    intros o Ho. split; [apply (la_given _ _ _ _ _ _ _ L o Ho)|by apply Hv]. }
  rewrite (check_args_ext addr read_size _ (reference profile sync defs)), Hpass; [done|exact Hagree|].
  intros k Hk. assert (text (launched val m' checkpoint) k = text (reference profile sync defs) k) as ->.
  { unfold text. rewrite Hagree; [done|]. unfold checked_names, checked_options.
    apply elem_of_app. right. rewrite fmap_app. apply elem_of_app. by right. }
  specialize (Hsize k Hk). destruct (read_size _) as [z|] eqn:Ez; [|done].
  by rewrite (read_size_agrees addr _ z).
Qed.

Lemma launched_last val m checkpoint o :
  o ∈ last_names checkpoint → dget (launched val m checkpoint) (dest (arg o)) = Some (received val o).
Proof.
  intros Ho. unfold launched. rewrite dget_dupdate by (rewrite assigned_keys; apply last_distinct).
  by rewrite dget_assigned by (done || apply last_distinct).
Qed.

(** An attribute that no string sets keeps its default. *)
Lemma launched_default val m checkpoint k :
  elemb k (last_dests ++ switch_names ++ ((λ o, dest (arg o)) <$> first_names)) = false →
  dget (launched val m checkpoint) k = dget (initial ARGUMENTS) k.
Proof.
  intros Hk%elemb_false. rewrite !elem_of_app in Hk. unfold launched.
  rewrite dget_dupdate by (rewrite assigned_keys; apply last_distinct).
  rewrite dget_assigned_None by (apply last_not_first, elemb_false; tauto).
  rewrite dget_dupdate by apply switched_distinct. rewrite dget_switched_None by tauto.
  rewrite dget_dupdate by (rewrite assigned_keys; apply first_distinct).
  by rewrite dget_assigned_None by tauto.
Qed.

(** C2: every command line that the launcher builds for a gem5 topology the
    compiler accepted — whatever the node, the checkpoint, the paths and the
    tuning fields — is parsed by the configuration script and passes all its
    checks, and each of the machine options arrives with the value the run
    manifest records for it. *)
Theorem launch_accepted addr w raw p m restored node run_root checkpoint template argv :
  documented addr →
  compile_topology raw = Ok p → p_simulator p = "gem5" → resolve_gem5 (w_root w) raw p = Ok m →
  gem5_argv w (dset m "restore_checkpoint" restored) node run_root checkpoint template = Ok argv →
  ∃ args, accepted_args addr (drop 4 argv) = Ok args ∧
    ∀ o, o ∈ GEM5_OPTIONS → ∃ a v x, find_option ARGUMENTS o = Some a ∧
      dget (dset m "restore_checkpoint" restored) (_gem5_key o) = Some v ∧
      get_value a v = Ok x ∧ dget args (dest a) = Some x.
Proof.
  intros Hd Hc Hg Hm Ha.
  destruct (launch_parsed _ _ _ _ _ _ _ _ _ _ _ Hd Hc Hg Hm Ha) as (val & profile & machine & sync & defs & v & P).
  exists (launched val (dset m "restore_checkpoint" restored) checkpoint).
  split; [apply (pl_accepted _ _ _ _ _ _ _ _ _ _ _ _ _ P)|].
  intros o Ho. destruct (pl_read _ _ _ _ _ _ _ _ _ _ _ _ _ P o Ho) as (s & x & Hs & Hvo & Hx).
  exists (arg o), s, x. split_and!; [|done|done|].
  - destruct (declared_spec o) as (Hin & Hopt & _).
    { apply elem_of_app. right. apply elem_of_app. by left. }
    rewrite <- Hopt at 1. by apply find_option_self; [apply arguments_distinct| |apply options_distinct_ok].
  - rewrite launched_first by (apply elem_of_app; right; apply elem_of_app; by left).
    unfold received. by rewrite Hvo, Hx.
Qed.

Lemma launch_accepted_witness :
  ∃ p m argv args, compile_topology topology_gem5_two_heads = Ok p ∧
    resolve_gem5 "/lab" topology_gem5_two_heads p = Ok m ∧
    gem5_argv (sample_world true) (dset m "restore_checkpoint" "none") 1 "/lab/run-dual" None false = Ok argv ∧
    accepted_args read_size (drop 4 argv) = Ok args.
Proof.
  destruct (compile_topology topology_gem5_two_heads) as [p|] eqn:Hc;
    [|vm_compute in Hc; discriminate].
  assert (p_simulator p = "gem5") as Hg by (vm_compute in Hc; injection Hc as <-; reflexivity).
  destruct (resolve_gem5 "/lab" topology_gem5_two_heads p) as [m|] eqn:Hm;
    [|vm_compute in Hc; injection Hc as <-; vm_compute in Hm; discriminate].
  destruct (gem5_argv (sample_world true) (dset m "restore_checkpoint" "none") 1 "/lab/run-dual" None false)
    as [argv|] eqn:Ha;
    [|vm_compute in Hc; injection Hc as <-; vm_compute in Hm; injection Hm as <-; vm_compute in Ha; discriminate].
  destruct (launch_accepted read_size (sample_world true) _ p m "none" 1 "/lab/run-dual" None false argv
              documented_read_size Hc Hg Hm Ha) as (args & H & _).
  exists p, m, argv, args. split; [reflexivity|]. split; [exact Hm|]. split; [exact Ha|exact H].
Defined.
