(* ===== verification/Arm64Loop.v ===== *)
(** * The simulation loop of [configs/arm64_fs.py]

    [main] advances the simulator, reads why it stopped, and switches CPUs,
    synchronizes the UDMA adapter, keeps statistics or writes a checkpoint.  The
    events are the list of exit causes that [m5.simulate] reports; the actions
    are the log.  [region_step] is the protocol of a measured region, which the loop
    implements. *)

From Stdlib Require Import ZArith Lia Ascii.
From stdpp Require Import base strings gmap numbers option list.
From S2P Require Import Prelude Protocol PyStr Json QemuPorts Cli ArgParse Arm64Args.

Open Scope string_scope.
Open Scope list_scope.
Open Scope Z_scope.

(** ** The maximum slice of a KVM run *)

Section slice.
(** [m5.util.convert.anyToLatency] in some type of seconds, [> 0], and
    [m5.ticks.fromSeconds]. *)
Variable seconds : Type.
Variable any_to_latency : string → res seconds.
Variable positive_seconds : seconds → bool.
Variable from_seconds : seconds → Z.

Definition kvm_max_run_slice_ticks (args : namespace) : res (option Z) :=
  if cpu_in args kvm_modes then
    match any_to_latency (text args "kvm_max_run_slice") with
    | Err e =>
        if is_a (exn_cls e) TypeError || is_a (exn_cls e) ValueError
        then parser_error "invalid --kvm-max-run-slice: {}" [] else Err e
    | Ok s =>
        refuse "--kvm-max-run-slice must be positive" when negb (positive_seconds s) ;;
        refuse "--kvm-max-run-slice is below one gem5 tick" when from_seconds s <=? 0 ;;
        Ok (Some (from_seconds s))
    end
  else Ok None.
End slice.

(** ** Actions and state *)

Inductive side := Boot | O3.
#[global] Instance side_eq_dec : EqDecision side.
Proof. solve_decision. Defined.

Inductive action :=
  | Simulate (ticks : option Z)
  | SwitchCpus (to : side)      (** [_switch_pairs] forward, or reversed *)
  | BeginLifecycleSync
  | FinishLifecycleSync
  | StatsDump
  | StatsReset
  | WriteCheckpoint (dir : string).

Record loop_state := LoopState { switched_to_o3 : bool; lifecycle_active : bool }.

Inductive ending := Exited | Waiting.

Definition LIMIT : string := "simulate() limit reached".
Definition FENCES : list string := ["ubsim lifecycle sync fence"; "openurma lifecycle sync fence"].
Definition COMMIT : string := "ubsim lifecycle sync commit".
Definition server_modes : list string := ["server_o3"; "kvm_server_o3"].

Section loop.
Variable args : namespace.
Variable env : environ.
Variable outdir : string.
Variable slice : option Z.            (** [kvm_max_run_slice_ticks] *)
Variable adapter : bool.              (** [hasattr(root.system, "external_udma")] *)

Definition auto_lifecycle : bool := flag args "auto_o3_lifecycle".
Definition lifecycle_stats : bool := bool_decide (env "UBSIM_PROFILE_LIFECYCLE_STATS" = Some "1").
Definition exit_after_checkpoint : bool := bool_decide (env "UBSIM_EXIT_AFTER_CHECKPOINT" = Some "1").

(** [m5.switchCpus]; [_switch_pairs] exists in the server modes only. *)
Definition switch_cpus (to : side) : io action unit :=
  if cpu_in args server_modes then emit (SwitchCpus to)
  else throw (Exn AttributeError "_switch_pairs" []).

Definition guarded_by (b : bool) (m : io action unit) : io action unit := if b then m else io_ret tt.

Definition on_commit (st : loop_state) : io action loop_state :=
  (if adapter then emit FinishLifecycleSync else throw (Exn AttributeError "external_udma" [])) ;;;
  guarded_by (lifecycle_active st && lifecycle_stats) (emit StatsDump) ;;;
  guarded_by (auto_lifecycle && lifecycle_active st) (switch_cpus Boot) ;;;
  let switched := if auto_lifecycle && lifecycle_active st then false else switched_to_o3 st in
  let active := negb (lifecycle_active st) in
  guarded_by (active && lifecycle_stats) (emit StatsReset) ;;;
  io_ret (LoopState switched active).

Definition on_checkpoint (st : loop_state) : io action unit :=
  guarded_by (cpu_in args kvm_modes)
    (throw (Exn RuntimeError "checkpoints are not supported by the KVM/O3 switch configuration" [])) ;;;
  guarded_by (switched_to_o3 st)
    (throw (Exn RuntimeError "server_o3 checkpoints are supported only before the switch" [])) ;;;
  emit (WriteCheckpoint (join_path outdir "cpt")).

Definition on_switchcpu (st : loop_state) : io action loop_state :=
  if switched_to_o3 st then switch_cpus Boot ;;; io_ret (LoopState false (lifecycle_active st))
  else switch_cpus O3 ;;; io_ret (LoopState true (lifecycle_active st)).

(** The [while True] loop over the causes the simulator reports. *)
Fixpoint event_loop (causes : list string) (st : loop_state) : io action ending :=
  emit (Simulate slice) ;;;
  match causes with
  | [] => io_ret Waiting
  | cause :: rest =>
      if bool_decide (is_Some slice) && String.eqb cause LIMIT then event_loop rest st
      else if elemb cause FENCES then
        (if adapter then io_ret tt
         else throw (Exn RuntimeError "lifecycle synchronization requires the external UDMA adapter" [])) ;;;
        if auto_lifecycle && negb (lifecycle_active st) then
          switch_cpus O3 ;;;
          emit (Simulate (Some 0)) ;;;
          match rest with
          | [] => io_ret Waiting
          | resumed :: rest' =>
              if String.eqb resumed LIMIT
              then emit BeginLifecycleSync ;;; event_loop rest' (LoopState true (lifecycle_active st))
              else throw (Exn RuntimeError "unexpected exit while resuming O3 before lifecycle drain: {}"
                            [PS resumed])
          end
        else emit BeginLifecycleSync ;;; event_loop rest st
      else if String.eqb cause COMMIT then st' <- on_commit st; event_loop rest st'
      else if contains "checkpoint" (to_lower cause) then
        on_checkpoint st ;;;
        if exit_after_checkpoint then io_ret Exited else event_loop rest st
      else if String.eqb cause "switchcpu" && cpu_in args server_modes then
        st' <- on_switchcpu st; event_loop rest st'
      else io_ret Exited
  end.

(** From [switched_to_o3 = False; lifecycle_active = False] on. *)
Definition run_loop (causes : list string) : io action ending :=
  event_loop causes (LoopState false false).

(** ** The CPUs that run *)

(** The protocol of the CPUs: a switch goes to the CPUs that do not run (when
    [strict]), and a checkpoint is written on boot CPUs that are not KVM's. *)
Definition cpu_step (strict : bool) (s : side) (a : action) : option side :=
  match a with
  | SwitchCpus to => if strict && bool_decide (to = s) then None else Some to
  | WriteCheckpoint _ => if bool_decide (s = Boot) && negb (cpu_in args kvm_modes) then Some s else None
  | _ => Some s
  end.

(** The CPUs that run after a log. *)
Fixpoint running (at_start : side) (l : list action) : side :=
  match l with
  | [] => at_start
  | SwitchCpus to :: l' => running to l'
  | _ :: l' => running at_start l'
  end.

Lemma cpu_trace strict s l s' : trace (cpu_step strict) s l = Some s' → running s l = s'.
Proof.
  revert s. induction l as [|a l IH]; intros s; [by intros [= ->]|]. cbn [trace]. intros (t & H1 & H2)%bind_Some.
  destruct a; cbn in H1 |- *; try (by injection H1 as <-; apply IH);
    destruct (_ && _); try done; injection H1 as <-; by apply IH.
Qed.

Definition side_of (st : loop_state) : side := if switched_to_o3 st then O3 else Boot.

Abbreviation cpu_follows := (follows (cpu_step (negb auto_lifecycle))).

Lemma follows_switch s to (post : unit → side → Prop) :
  (auto_lifecycle = false → to ≠ s) → post tt to → cpu_follows s post (switch_cpus to).
Proof.
  intros Hne Hp. unfold switch_cpus. destruct (cpu_in _ _); [|apply follows_throw].
  eapply follows_emit; [|exact Hp]. cbn. destruct auto_lifecycle; [done|]. by rewrite bool_decide_eq_false_2 by auto.
Qed.

Lemma follows_checkpoint st : cpu_follows (side_of st) (λ _ s, s = side_of st) (on_checkpoint st).
Proof.
  unfold on_checkpoint. destruct (cpu_in args kvm_modes) eqn:Hk; cbn [guarded_by]; [apply follows_fail|].
  apply follows_skip. destruct (switched_to_o3 st) eqn:Hs; cbn [guarded_by]; [apply follows_fail|].
  apply follows_skip. eapply follows_emit; [|done]. unfold side_of. cbn. by rewrite Hs, Hk.
Qed.

Lemma follows_quiet s b a : cpu_step (negb auto_lifecycle) s a = Some s →
  cpu_follows s (λ _ t, t = s) (guarded_by b (emit a)).
Proof. intros Ha. destruct b; [by eapply follows_emit|by apply follows_ret]. Qed.

Lemma follows_commit st : cpu_follows (side_of st) (λ st' s, s = side_of st') (on_commit st).
Proof.
  unfold on_commit. apply (follows_bind _ _ (λ _ s, s = side_of st)).
  { destruct adapter; [by eapply follows_emit|apply follows_throw]. }
  intros _ ? ->. eapply follows_bind; [by apply follows_quiet|]. intros _ ? ->.
  set (t := if auto_lifecycle && lifecycle_active st then Boot else side_of st).
  apply (follows_bind _ _ (λ _ s, s = t)).
  { unfold t. destruct (auto_lifecycle && lifecycle_active st) eqn:E; cbn [guarded_by]; [|by apply follows_ret].
    apply follows_switch; [|done]. intros Ha. by rewrite Ha in E. }
  intros _ ? ->. eapply follows_bind; [by apply follows_quiet|]. intros _ ? ->.
  apply follows_ret. unfold t, side_of. cbn. by destruct (_ && _).
Qed.

Lemma follows_switchcpu st : cpu_follows (side_of st) (λ st' s, s = side_of st') (on_switchcpu st).
Proof.
  unfold on_switchcpu, side_of.
  destruct (switched_to_o3 st);
    [apply (follows_bind _ _ (λ _ s, s = Boot))|apply (follows_bind _ _ (λ _ s, s = O3))];
    try (by apply follows_switch); intros _ ? ->; by apply follows_ret.
Qed.

Lemma event_loop_cpus causes st : cpu_follows (side_of st) (λ _ _, True) (event_loop causes st).
Proof.
  remember (length causes) as n eqn:Hn. assert (length causes ≤ n)%nat as Hle by lia. clear Hn.
  revert causes Hle st. induction n as [|n IH]; intros [|cause rest] Hle st; cbn in Hle; try lia; cbn [event_loop];
    (eapply follows_step; [done|]); [by apply follows_ret..|].
  assert (∀ st', cpu_follows (side_of st') (λ _ _, True) (event_loop rest st')) as Hrest by (intros; apply IH; lia).
  destruct (_ && String.eqb cause LIMIT); [apply Hrest|].
  destruct (elemb cause FENCES).
  { destruct adapter; [apply follows_skip|apply follows_fail].
    destruct (auto_lifecycle && negb (lifecycle_active st)) eqn:E.
    2: { eapply follows_step; [done|apply Hrest]. }
    apply (follows_bind _ _ (λ _ s, s = O3)); [apply follows_switch; [intros Ha; by rewrite Ha in E|done]|].
    intros _ ? ->. eapply follows_step; [done|].
    destruct rest as [|resumed rest']; [by apply follows_ret|].
    destruct (String.eqb resumed LIMIT); [|apply follows_throw].
    eapply follows_step; [done|]. apply (IH rest' ltac:(cbn in Hle; lia) (LoopState true (lifecycle_active st))). }
  destruct (String.eqb cause COMMIT).
  { eapply follows_bind; [apply follows_commit|]. intros st' ? ->. apply Hrest. }
  destruct (contains _ _).
  { eapply follows_bind; [apply follows_checkpoint|]. intros _ ? ->.
    destruct exit_after_checkpoint; [by apply follows_ret|apply Hrest]. }
  destruct (_ && _); [|by apply follows_ret].
  eapply follows_bind; [apply follows_switchcpu|]. intros st' ? ->. apply Hrest.
Qed.

(** C15: whatever the simulator reports and in whatever order, a checkpoint is
    written only while the boot CPUs run and never in a KVM mode; and without
    the automatic lifecycle each switch goes from the CPUs that run to the
    others. *)
Theorem checkpoints_on_boot_cpus causes l1 a l2 :
  (run_loop causes []).1 = l1 ++ a :: l2 →
  match a with
  | WriteCheckpoint _ => running Boot l1 = Boot ∧ cpu_in args kvm_modes = false
  | SwitchCpus to => auto_lifecycle = false → to ≠ running Boot l1
  | _ => True
  end.
Proof.
  destruct (event_loop_cpus causes (LoopState false false) []) as (l & Hl & s' & Hs & _).
  unfold run_loop. rewrite Hl. cbn [app]. intros ->. apply trace_at in Hs as (s1 & s1' & H1 & H2 & _).
  apply cpu_trace in H1. change (side_of _) with Boot in H1. rewrite H1. destruct a; try done; cbn in H2.
  - intros Ha ->. rewrite Ha, bool_decide_eq_true_2 in H2 by done. done.
  - destruct (_ && _) eqn:E; [|done]. bool_inv. done.
Qed.

(** ** A measured region *)

(** Between two fences the loop moves all CPUs to O3, drains, measures, and
    returns to the boot CPUs; checkpoints are written outside. *)
Inductive region :=
  | Idle       (** boot CPUs *)
  | Switched   (** O3, not resumed *)
  | Resumed    (** resumed at the same tick *)
  | Entering   (** the adapter drains *)
  | Entered    (** synchronized, statistics not reset *)
  | Measuring
  | Leaving    (** the adapter drains *)
  | Left       (** statistics not dumped *)
  | Dumped.    (** still on O3 *)

Definition region_step (stats : bool) (ph : region) (a : action) : option region :=
  match ph, a with
  | Idle, SwitchCpus O3 => Some Switched
  | Switched, Simulate (Some 0) => Some Resumed
  | Resumed, BeginLifecycleSync => Some Entering
  | Entering, FinishLifecycleSync => Some (if stats then Entered else Measuring)
  | Entered, StatsReset => Some Measuring
  | Measuring, BeginLifecycleSync => Some Leaving
  | Leaving, FinishLifecycleSync => Some (if stats then Left else Dumped)
  | Left, StatsDump => Some Dumped
  | Dumped, SwitchCpus Boot => Some Idle
  | Idle, WriteCheckpoint _ => Some Idle
  | (Idle | Entering | Measuring | Leaving), Simulate None => Some ph
  | _, _ => None
  end.

(** What the adapter and the guest do under the automatic lifecycle: fences and
    commits take turns, and the guest does not switch CPUs itself.  The event
    after an entry fence answers the resume. *)
Fixpoint disciplined (pending active : bool) (causes : list string) : bool :=
  match causes with
  | [] => true
  | cause :: rest =>
      if elemb cause FENCES then
        negb pending &&
        (if active then disciplined true active rest
         else match rest with [] => true | _ :: rest' => disciplined true active rest' end)
      else if String.eqb cause COMMIT then pending && disciplined false (negb active) rest
      else negb (String.eqb cause "switchcpu") && disciplined pending active rest
  end.

(** The region of a state with a fence pending or not. *)
Definition region_of (pending active : bool) : region :=
  match pending, active with
  | false, false => Idle
  | true, false => Entering
  | false, true => Measuring
  | true, true => Leaving
  end.

Section automatic.
Hypothesis automatic : auto_lifecycle = true.
Hypothesis server : text args "cpu" = "server_o3".
Hypothesis not_kvm : slice = None.

Lemma region_switch ph to ph' :
  region_step lifecycle_stats ph (SwitchCpus to) = Some ph' →
  follows (region_step lifecycle_stats) ph (λ _ s, s = ph') (switch_cpus to).
Proof using server.
  intros Hs. unfold switch_cpus, cpu_in. rewrite server. by eapply follows_emit.
Qed.

Lemma region_commit active :
  follows (region_step lifecycle_stats) (region_of true active)
    (λ st' ph, st' = LoopState (negb active) (negb active) ∧ ph = region_of false (negb active))
    (on_commit (LoopState true active)).
Proof using automatic server.
  unfold on_commit. cbn [lifecycle_active switched_to_o3].
  destruct adapter; [|apply follows_fail]. rewrite automatic. cbn [andb].
  destruct active; cbn [region_of andb negb guarded_by].
  - eapply follows_step; [reflexivity|].
    apply (follows_bind _ _ (λ _ ph, ph = Dumped)).
    { destruct lifecycle_stats; cbn [guarded_by]; [by eapply follows_emit|by apply follows_ret]. }
    intros _ ? ->. eapply follows_bind; [by apply region_switch|]. intros _ ? ->.
    apply follows_skip. by apply follows_ret.
  - eapply follows_step; [reflexivity|]. do 2 apply follows_skip.
    apply (follows_bind _ _ (λ _ ph, ph = Measuring)).
    { destruct lifecycle_stats; cbn [guarded_by]; [by eapply follows_emit|by apply follows_ret]. }
    intros _ ? ->. by apply follows_ret.
Qed.

Lemma region_loop causes pending active :
  disciplined pending active causes = true →
  follows (region_step lifecycle_stats) (region_of pending active) (λ _ _, True)
    (event_loop causes (LoopState (pending || active) active)).
Proof using All.
  remember (length causes) as n eqn:Hn. assert (length causes ≤ n)%nat as Hle by lia. clear Hn.
  revert causes Hle pending active.
  induction n as [|n IH]; intros [|cause rest] Hle pending active Hd; cbn in Hle; try lia;
    cbn [event_loop]; rewrite not_kvm;
    (eapply (follows_step _ _ _ _ (region_of pending active)); [by destruct pending, active|]);
    [by apply follows_ret..|].
  assert (∀ q b, disciplined q b rest = true →
    follows (region_step lifecycle_stats) (region_of q b) (λ _ _, True) (event_loop rest (LoopState (q || b) b)))
    as Hrest by (intros; apply IH; [lia|done]).
  cbn [disciplined] in Hd. rewrite automatic.
  destruct (bool_decide _ && _) eqn:E0; [by rewrite bool_decide_eq_false_2 in E0 by (by intros [? ?])|clear E0].
  destruct (elemb cause FENCES).
  { apply andb_true_iff in Hd as [Hp%negb_true_iff Hd]. subst pending.
    destruct adapter; [apply follows_skip|apply follows_fail]. destruct active; cbn [andb negb lifecycle_active].
    - eapply follows_step; [reflexivity|]. exact (Hrest true true Hd).
    - eapply follows_bind; [by apply region_switch|]. intros _ ? ->.
      eapply follows_step; [reflexivity|]. destruct rest as [|resumed rest']; [by apply follows_ret|].
      destruct (String.eqb resumed LIMIT); [|apply follows_throw].
      eapply follows_step; [reflexivity|]. apply (IH rest' ltac:(cbn in Hle; lia) true false Hd). }
  destruct (String.eqb cause COMMIT).
  { apply andb_true_iff in Hd as [-> Hd]. cbn [orb]. eapply follows_bind; [apply region_commit|].
    intros st' ? [-> ->]. exact (Hrest false (negb active) Hd). }
  apply andb_true_iff in Hd as [Hsw%negb_true_iff Hd]. rewrite Hsw. cbn [andb].
  destruct (contains _ _); [|by apply follows_ret].
  unfold on_checkpoint, cpu_in. rewrite server. cbn [guarded_by switched_to_o3].
  change (elemb "server_o3" kvm_modes) with false. cbn [guarded_by].
  apply (follows_bind _ _ (λ _ ph, ph = region_of pending active)).
  { apply follows_skip. destruct (pending || active) eqn:E; cbn [guarded_by]; [apply follows_fail|].
    apply orb_false_iff in E as [-> ->]. apply follows_skip. by eapply follows_emit. }
  intros _ ? ->. destruct exit_after_checkpoint; [by apply follows_ret|exact (Hrest pending active Hd)].
Qed.

(** C4: under the automatic lifecycle of [server_o3], as long as fences and
    commits take turns, the loop implements the protocol of a measured region:
    all CPUs move to O3 and are resumed before the adapter drains, statistics are
    reset after the entry commit and dumped before the CPUs return, every region
    is measured on O3 only, and checkpoints are written outside regions. *)
Theorem loop_implements_regions causes :
  disciplined false false causes = true →
  ∃ ph, trace (region_step lifecycle_stats) Idle (run_loop causes []).1 = Some ph.
Proof using All.
  intros Hd. destruct (region_loop causes false false Hd []) as (l & Hl & ph & Hs & _).
  exists ph. unfold run_loop. cbn in Hl |- *. by rewrite Hl.
Qed.

End automatic.
End loop.

(** ** Concrete runs *)

Definition sample_args : namespace :=
  match arm64_args ["--cpu=server_o3"; "--auto-o3-lifecycle"] with Ok args => args | Err _ => [] end.
Definition sample_env : environ := λ name,
  if String.eqb name "UBSIM_PROFILE_LIFECYCLE_STATS" then Some "1" else None.
Definition sample_causes : list string :=
  ["openurma lifecycle sync fence"; LIMIT; COMMIT; "ubsim lifecycle sync fence"; COMMIT; "checkpoint";
   "m5_exit instruction encountered"].

Example sample_region :
  run_loop sample_args sample_env "/out" None true sample_causes [] =
  ([Simulate None; SwitchCpus O3; Simulate (Some 0); BeginLifecycleSync;
    Simulate None; FinishLifecycleSync; StatsReset;
    Simulate None; BeginLifecycleSync;
    Simulate None; FinishLifecycleSync; StatsDump; SwitchCpus Boot;
    Simulate None; WriteCheckpoint "/out/cpt"; Simulate None], Ok Exited).
Proof. vm_compute. reflexivity. Qed.

(** Without the discipline: a second entry fence before the commit switches to
    the CPUs that already run. *)
Example undisciplined_fences :
  disciplined false false ["ubsim lifecycle sync fence"; LIMIT; "ubsim lifecycle sync fence"; LIMIT] = false ∧
  List.filter (λ a, match a with SwitchCpus _ => true | _ => false end)
    (run_loop sample_args sample_env "/out" None true
       ["ubsim lifecycle sync fence"; LIMIT; "ubsim lifecycle sync fence"; LIMIT] []).1 =
  [SwitchCpus O3; SwitchCpus O3].
Proof. vm_compute. done. Qed.

Lemma checkpoints_on_boot_cpus_witness :
  running Boot [Simulate None; SwitchCpus O3; Simulate (Some 0); BeginLifecycleSync;
    Simulate None; FinishLifecycleSync; StatsReset; Simulate None; BeginLifecycleSync;
    Simulate None; FinishLifecycleSync; StatsDump; SwitchCpus Boot; Simulate None] = Boot ∧
  cpu_in sample_args kvm_modes = false.
Proof.
  apply (checkpoints_on_boot_cpus sample_args sample_env "/out" None true sample_causes _
           (WriteCheckpoint "/out/cpt") [Simulate None]).
  rewrite sample_region. reflexivity.
Defined.

Lemma loop_implements_regions_witness :
  ∃ ph, trace (region_step true) Idle (run_loop sample_args sample_env "/out" None true sample_causes []).1 = Some ph.
Proof.
  apply (loop_implements_regions sample_args sample_env "/out" None true);
    vm_compute; reflexivity.
Defined.
