(* ===== verification/Arm64System.v ===== *)
(** * Assembling the machine ([create] of [configs/arm64_fs.py])

    The machine is a tree of gem5 objects; [create] assigns attributes of objects
    (named by their paths) and calls their methods.  Both are actions of the log.
    What gem5 computes (the geometry of a memory type, the number of controllers,
    file lookup) is a parameter, and so is what it raises when an attribute is
    assigned or a method called. *)

From Stdlib Require Import ZArith Lia Ascii.
From stdpp Require Import base strings gmap numbers option list.
From S2P Require Import Prelude PyStr Json QemuPorts Cli ArgParse Arm64Args Arm64Loop.

Open Scope string_scope.
Open Scope list_scope.
Open Scope Z_scope.

Definition IOMEM_BASE : Z := 0x2D000000.
Definition OFFICIAL_UDMA_IOMEM_SIZE : Z := 0x1000000.
Definition PL011_UART0_BASE : Z := 0x1C090000.
Definition OFFICIAL_UDMA_UBRT : Z := 0x2D010000.
Definition OFFICIAL_UDMA_UBC_IRQ : Z := 104.
Definition OFFICIAL_UDMA_V2M_BASE : Z := 0x2C1C0000.
Definition OFFICIAL_UDMA_V2M_SIZE : Z := 0x1000.
Definition OFFICIAL_UDMA_V2M_SPI_BASE : Z := 256.
Definition OFFICIAL_UDMA_V2M_SPI_COUNT : Z := 64.
Definition EXTERNAL_UDMA_MISC_SPI : Z := 104.
Definition EXTERNAL_UDMA_AEQ_SPI : Z := 105.
Definition EXTERNAL_UDMA_CEQ_SPI : Z := 106.

(** ** Objects and actions *)

Inductive setting :=
  | Int (z : Z)
  | Text (s : string)
  | Truth (b : bool)
  | Null                                        (** [NULL] and [None] *)
  | Ref (path : string)                         (** an object of the tree *)
  | New (cls : string) (keywords : list (string * setting))
  | Items (l : list setting).

Inductive build :=
  | Assign (path : string) (v : setting)
  | Invoke (path : string) (arguments : list setting).

(** [if b: m]. *)
Definition if_only (b : bool) (m : io build unit) : io build unit := if b then m else io_ret tt.

(** gem5 accepting whatever it is given. *)
Definition no_error : build → option exn := λ _, None.

Section create.
(** What gem5 raises, if anything, when an attribute is assigned (the value
    constructed and converted included) or a function called; the log lists what
    was tried, the refused action last. *)
Variable gem5_error : build → option exn.

Definition put (b : build) : io build unit :=
  emit b ;;; match gem5_error b with Some e => throw e | None => io_ret tt end.

Definition assigns (l : list (string * setting)) : io build unit :=
  each (λ a : string * setting, put (Assign a.1 a.2)) l.

(** [object.attribute]. *)
Definition dot (object attribute : string) : string := object +:+ "." +:+ attribute.
Definition attributes (object : string) (l : list (string * setting)) : io build unit :=
  assigns ((λ a : string * setting, (dot object a.1, a.2)) <$> l).

(** ** Helpers *)

Definition configure_cache (cache size : string) (assoc : Z) (latencies : Z * Z * Z)
    (mshrs targets_per_mshr write_buffers : Z) (clusivity : string) : io build unit :=
  attributes cache
    [("size", Text size); ("assoc", Int assoc); ("tag_latency", Int latencies.1.1);
     ("data_latency", Int latencies.1.2); ("response_latency", Int latencies.2); ("mshrs", Int mshrs);
     ("tgts_per_mshr", Int targets_per_mshr); ("write_buffers", Int write_buffers);
     ("clusivity", Text clusivity); ("demand_mshr_reserve", Int 1); ("sequential_access", Truth false);
     ("write_allocator", Null); ("prefetcher", Null); ("replacement_policy", New "LRURP" [])].

Variable args : namespace.
Variable env : environ.

(** The call with the six arguments [args.<level>_*]. *)
Definition configure_level (cache level clusivity : string) : io build unit :=
  configure_cache cache (text args (level +:+ "_size")) (num args (level +:+ "_assoc"))
    (triple args (level +:+ "_latency")) (num args (level +:+ "_mshrs"))
    (num args (level +:+ "_targets_per_mshr")) (num args (level +:+ "_write_buffers")) clusivity.

Definition configure_o3 (cpu : string) : io build unit :=
  attributes cpu
    (((λ name, (name, Int (num args "o3_width"))) <$>
       ["fetchWidth"; "decodeWidth"; "renameWidth"; "dispatchWidth"; "issueWidth"; "wbWidth";
        "commitWidth"; "squashWidth"]) ++
     [("numROBEntries", Int (num args "o3_rob_entries"));
      ("numIQEntries", Int (num args "o3_iq_entries"));
      ("LQEntries", Int (num args "o3_lq_entries"));
      ("SQEntries", Int (num args "o3_sq_entries"));
      ("cacheLoadPorts", Int (num args "o3_load_ports"));
      ("cacheStorePorts", Int (num args "o3_store_ports"));
      ("fetchBufferSize", Int (num args "o3_fetch_buffer_bytes"));
      ("fetchQueueSize", Int (num args "o3_fetch_queue_entries"));
      ("numPhysIntRegs", Int (num args "o3_phys_int_regs"));
      ("numPhysFloatRegs", Int (num args "o3_phys_float_regs"));
      ("numPhysVecRegs", Int (num args "o3_phys_vec_regs"));
      ("numPhysVecPredRegs", Int (num args "o3_phys_vec_pred_regs"));
      ("numPhysMatRegs", Int (num args "o3_phys_mat_regs"));
      ("numPhysCCRegs", Int (num args "o3_phys_int_regs" * 5));
      ("fuPool", New "DefaultFUPool" []);
      ("branchPred", New "TournamentBP" [("numThreads", Int 1)])]).

Definition configure_coherent_xbar (bus : string) (system_bus : bool) : io build unit :=
  let latency name := Int (num args ((if system_bus then "memory_bus_" else "coherent_bus_") +:+ name)) in
  attributes bus
    [("frontend_latency", latency "frontend_latency"); ("forward_latency", latency "forward_latency");
     ("response_latency", latency "response_latency");
     ("snoop_response_latency", latency "snoop_response_latency");
     ("header_latency", latency "header_latency"); ("width", Int (num args "fabric_width_bytes"))].

(** ** Modes *)

Definition atomic_modes : list string := ["atomic"; "atomic_hot"; "atomic_fast"; "atomic_cache"].
Definition use_timing : bool := cpu_in args ["timing"; "timing_nocache"; "timing_full"].
Definition kvm_boot : bool := cpu_in args kvm_modes.
Definition server_switch : bool := cpu_in args server_modes.
Definition use_caches : bool := cpu_in args cached_modes.

Definition mem_mode : string :=
  if kvm_boot || flag args "fast_boot_noncaching" then "atomic_noncaching"
  else if cpu_in args atomic_modes || server_switch then "atomic" else "timing".

(** Whether this gem5 defines the alias [O3CPU]. *)
Variable o3_alias : bool.
Definition o3_class : string := if o3_alias then "O3CPU" else "ArmO3CPU".

Definition cpu_cls : string :=
  if String.eqb (text args "cpu") "o3" then o3_class
  else if kvm_boot then "ArmV8KvmCPU"
  else if server_switch then "AtomicSimpleCPU"
  else if use_timing then "TimingSimpleCPU"
  else "AtomicSimpleCPU".

(** ** The system, its clocks and buses *)

(** [SysPaths.binary]; [None] when it raises. *)
Variable binary : string → res string.

Definition opt_text (o : option string) : setting := match o with Some s => Text s | None => Null end.
Definition fabric_clock : setting := Ref "system.fabric_clk_domain".

Definition create_system : io build unit :=
  kernel <- lift (binary (text args "kernel"));
  put (Assign "system" (New "SimpleSystem"
    [("caches", Truth use_caches); ("mem_size", Text (text args "mem_size")); ("mem_mode", Text mem_mode);
     ("workload", New "ArmFsLinux" [("object_file", Text kernel)]);
     ("readfile", opt_text (text_opt args "script"))])) ;;;
  if_only kvm_boot
    (assigns [("system.kvm_vm", New "KvmVM" []); ("system.release", New "ArmDefaultRelease.for_kvm" []);
              ("system.realview.gic.simulate_gic", Truth true);
              ("GenericTimer.generateDeviceTree", Ref "SimObject.generateDeviceTree")]).

Definition create_fabric : io build unit :=
  assigns [("system.cache_line_size", Int (num args "cache_line_size"));
           ("system.fabric_voltage_domain", New "VoltageDomain" [("voltage", Text "1.0V")]);
           ("system.fabric_clk_domain", New "SrcClockDomain"
              [("clock", Text (text args "fabric_freq"));
               ("voltage_domain", Ref "system.fabric_voltage_domain")]);
           ("system.membus.clk_domain", fabric_clock)] ;;;
  configure_coherent_xbar "system.membus" true ;;;
  assigns [("system.membus.snoop_filter.max_capacity", Text (text args "membus_snoop_filter_capacity"));
           ("system.iobus.clk_domain", fabric_clock);
           ("system.iobus.width", Int (num args "fabric_width_bytes"));
           ("system.iobus.frontend_latency", Int (num args "io_bus_frontend_latency"));
           ("system.iobus.forward_latency", Int (num args "io_bus_forward_latency"));
           ("system.iobus.response_latency", Int (num args "io_bus_response_latency"));
           ("system.iobus.header_latency", Int (num args "io_bus_header_latency"))] ;;;
  if_only use_caches
    (configure_level "system.iocache" "io_cache" "mostly_incl" ;;;
     put (Assign "system.iocache.clk_domain" fabric_clock)).

(** ** Memory controllers *)

(** What gem5 holds of a controller after [MemConfig.config_mem]: its path, the
    bytes of a full rank row buffer, the address mapping, and whether the command
    window is shorter than one DRAM cycle. *)
Record mem_ctrl := MemCtrl {
  mc_path : string;
  mc_row_buffer_bytes : Z;
  mc_mapping : string;
  mc_window_below_tck : bool
}.
Variable mem_ctrls : list mem_ctrl.

Definition configure_ctrl (ctrl : mem_ctrl) : io build unit :=
  let dram := dot (mc_path ctrl) "dram" in
  assigns [(dot (mc_path ctrl) "clk_domain", fabric_clock); (dot dram "clk_domain", fabric_clock)] ;;;
  attributes (mc_path ctrl)
    [("mem_sched_policy", Text (text args "mem_sched_policy"));
     ("write_high_thresh_perc", Int (num args "mem_write_high_thresh"));
     ("write_low_thresh_perc", Int (num args "mem_write_low_thresh"));
     ("min_writes_per_switch", Int (num args "mem_min_writes_per_switch"));
     ("min_reads_per_switch", Int (num args "mem_min_reads_per_switch"));
     ("static_frontend_latency", Text (text args "mem_ctrl_frontend_latency"));
     ("static_backend_latency", Text (text args "mem_ctrl_backend_latency"));
     ("command_window", Text (text args "mem_ctrl_command_window"))] ;;;
  attributes dram
    [("read_buffer_size", Int (num args "mem_read_buffer_size"));
     ("write_buffer_size", Int (num args "mem_write_buffer_size"));
     ("page_policy", Text (text args "mem_page_policy"));
     ("max_accesses_per_row", Int (num args "mem_max_accesses_per_row"))] ;;;
  let interleave := num args "mem_channels_intlv" in
  if_only (String.eqb (mc_mapping ctrl) "RoRaBaChCo" && negb (interleave =? mc_row_buffer_bytes ctrl))
    (throw (Exn ValueError "RoRaBaChCo requires --mem-channels-intlv to equal the full rank row-buffer size" [])) ;;;
  if_only (negb (String.eqb (mc_mapping ctrl) "RoRaBaChCo") && (mc_row_buffer_bytes ctrl <? interleave))
    (throw (Exn ValueError "--mem-channels-intlv exceeds the DRAM rank row-buffer size" [])) ;;;
  if_only (mc_window_below_tck ctrl)
    (throw (Exn ValueError "--mem-ctrl-command-window must be at least one DRAM tCK" [])).

Definition create_memory : io build unit :=
  put (Invoke "MemConfig.config_mem" [Ref "system"]) ;;;
  each configure_ctrl mem_ctrls.

(** ** Networks *)

Definition create_ethernet : io build unit :=
  let socket := text args "eth_tap_socket" in
  if_only (negb (String.eqb socket EmptyString))
    (put (Assign "system.ethernet" (New "IGbE_e1000" [("hardware_address", Text (text args "eth_mac"))])) ;;;
     put (Invoke "system.attach_pci" [Ref "system.ethernet"]) ;;;
     assigns [("system.ethertap", New "EtherTapStub" [("port", Text socket)]);
              ("system.etherlink", New "EtherLink" [("speed", Text (text args "eth_link_speed"));
                                                    ("delay", Text (text args "eth_link_delay"))]);
              ("system.etherlink.int0", Ref "system.ethernet.interface");
              ("system.etherlink.int1", Ref "system.ethertap.tap")]).

Definition create_dist : io build unit :=
  if_only (0 <? num args "dist_size")
    (if_only (num args "dist_size" <? 2) (throw (Exn ValueError "--dist-size must be at least 2" [])) ;;;
     assigns [("system.dist_sync_stub", New "EtherSwitch" []);
              ("system.dist_sync_link", New "DistEtherLink"
                 [("speed", Text (text args "eth_link_speed")); ("delay", Text (text args "eth_link_delay"));
                  ("dist_rank", Int (num args "dist_rank")); ("dist_size", Int (num args "dist_size"));
                  ("server_name", Text (text args "dist_server_name"));
                  ("server_port", Int (num args "dist_server_port"));
                  ("sync_start", Text (text args "dist_sync_start"));
                  ("sync_repeat", Text (text args "dist_sync_repeat"));
                  ("dist_sync_on_pseudo_op", Truth (flag args "dist_sync_on_pseudo_op"))]);
              ("system.dist_sync_link.int0", Ref "system.dist_sync_stub.interface[0]")]).

(** ** CPU clusters *)

Definition cluster (i : nat) : string := "system.cpu_cluster[" +:+ str_of_Z (Z.of_nat i) +:+ "]".
Definition cluster_cpu (i : nat) : string := dot (cluster i) "cpus[0]".
Definition switch_cpu (i : nat) : string := "system.switch_cpus[" +:+ str_of_Z (Z.of_nat i) +:+ "]".

(** [range(args.num_cpus)]. *)
Definition cpu_range : list nat := seq 0 (Z.to_nat (num args "num_cpus")).

Definition cache_class (name : string) : setting := if use_caches then Ref ("devices." +:+ name) else Null.

Definition new_cluster : setting :=
  New "ArmCpuCluster" [("system", Ref "system"); ("num_cpus", Int 1); ("cpu_clock", Text (text args "cpu_freq"));
    ("cpu_voltage", Text "1.0V"); ("cpu_type", Ref cpu_cls); ("l1i_type", cache_class "L1I");
    ("l1d_type", cache_class "L1D"); ("l2_type", cache_class "L2"); ("tarmac_gen", Truth false);
    ("tarmac_dest", Null)].

(** The extensions of the release, and whether their list can be read. *)
Variable extensions : option (list string).

Definition create_clusters : io build unit :=
  put (Invoke "system.connect" []) ;;;
  each (λ i, put (Assign (cluster i) new_cluster) ;;;
             put (Assign (dot (cluster_cpu i) "socket_id") (Int 0)) ;;;
             if_only kvm_boot (assigns [(dot (cluster_cpu i) "usePerf", Truth false);
                                        (dot (cluster_cpu i) "usePerfOverflow", Truth false)])) cpu_range ;;;
  put (Assign "system.cpu_cluster" (Items ((λ i, Ref (cluster i)) <$> cpu_range))) ;;;
  match extensions with
  | Some l => put (Assign "system.release.extensions"
                      (Items (Text <$> List.filter (λ e, negb (contains "FEAT_HCX" e)) l)))
  | None => io_ret tt
  end.

(** ** Caches *)

Definition stride_modes : list string :=
  ["stride"; "stride_exclusive"; "stride_exclusive_d4"; "stride_exclusive_xpage"].

Definition configure_prefetcher (cpu : string) : io build unit :=
  let mode := text args "l1d_prefetcher" in
  if_only (elemb mode stride_modes)
    (put (Assign (dot cpu "dcache.prefetcher") (New "StridePrefetcher"
       [("degree", Int 4); ("distance", Int (if String.eqb mode "stride_exclusive_d4" then 4 else 2));
        ("on_read", Truth true); ("on_write", Truth true);
        ("exclusive_on_write", Truth (startswith mode "stride_exclusive"))])) ;;;
     if_only (String.eqb mode "stride_exclusive_xpage")
       (put (Invoke (dot cpu "dcache.prefetcher.registerMMU") [Ref (dot cpu "mmu")]))).

Definition configure_cluster (i : nat) : io build unit :=
  let level := num args "last_cache_level" in
  if_only (2 <=? level)
    (configure_coherent_xbar (dot (cluster i) "toL2Bus") false ;;;
     put (Assign (dot (cluster i) "toL2Bus.snoop_filter.max_capacity")
             (Text (text args "core_bus_snoop_filter_capacity")))) ;;;
  configure_level (dot (cluster_cpu i) "icache") "l1i" "mostly_incl" ;;;
  configure_level (dot (cluster_cpu i) "dcache") "l1d" "mostly_incl" ;;;
  configure_prefetcher (cluster_cpu i) ;;;
  if_only (2 <=? level) (configure_level (dot (cluster i) "l2") "l2" "mostly_excl") ;;;
  if_only (String.eqb (text args "cpu") "o3") (configure_o3 (cluster_cpu i)).

Definition create_caches : io build unit :=
  put (Invoke "system.addCaches" [Truth use_caches; Int (num args "last_cache_level")]) ;;;
  if_only use_caches
    (each configure_cluster cpu_range ;;;
     if_only (3 <=? num args "last_cache_level")
       (configure_level "system.l3" "l3" "mostly_excl" ;;;
        assigns [("system.l3.clk_domain", fabric_clock); ("system.toL3Bus.clk_domain", fabric_clock)] ;;;
        configure_coherent_xbar "system.toL3Bus" false ;;;
        put (Assign "system.toL3Bus.snoop_filter.max_capacity"
                (Text (text args "l3_bus_snoop_filter_capacity"))))).

(** ** Switching and stalls *)

Definition create_switch_cpu (i : nat) : io build unit :=
  assigns [(switch_cpu i, New o3_class [("switched_out", Truth true); ("cpu_id", Ref (dot (cluster_cpu i) "cpu_id"));
                                        ("socket_id", Int 0)]);
           (dot (switch_cpu i) "clk_domain", Ref (dot (cluster_cpu i) "clk_domain"))] ;;;
  put (Invoke (dot (switch_cpu i) "createThreads") []) ;;;
  configure_o3 (switch_cpu i).

Definition create_switch : io build unit :=
  if_only server_switch
    (each create_switch_cpu cpu_range ;;;
     assigns [("system.switch_cpus", Items ((λ i, Ref (switch_cpu i)) <$> cpu_range));
              ("system._switch_pairs",
                Items ((λ i, Items [Ref (cluster_cpu i); Ref (switch_cpu i)]) <$> cpu_range))]).

Definition create_stalls : io build unit :=
  if_only (cpu_in args atomic_modes || String.eqb (text args "cpu") "server_o3")
    (each (λ i, attributes (cluster_cpu i)
        [("simulate_data_stalls", Truth (negb server_switch && negb (String.eqb (text args "cpu") "atomic_fast")));
         ("simulate_inst_stalls",
            Truth (negb server_switch && negb (cpu_in args ["atomic_hot"; "atomic_fast"])))]) cpu_range).

(** ** The UDMA adapter *)

Definition environment (name def : string) : string := default def (env name).

Definition interrupt_pin (spi : Z) : setting := New "ArmSPI" [("num", Int spi); ("platform", Ref "system.realview")].

Definition create_adapter : io build unit :=
  let host_socket := environment "UBSIM_UDMA_HOST_SOCKET" EmptyString in
  if_only (String.eqb host_socket EmptyString)
    (throw (Exn RuntimeError "UBSIM_UDMA_HOST_SOCKET is required; UDMA runs as an external process" [])) ;;;
  assigns
    [("system.external_udma", New "UbHostAdapter"
       [("pio_addr", Int IOMEM_BASE); ("pio_size", Int OFFICIAL_UDMA_IOMEM_SIZE);
        ("pio_latency", Text (environment "UBSIM_UDMA_HOST_PIO_LATENCY" "100ns"));
        ("socket_path", Text host_socket);
        ("poll_interval", Text (environment "UBSIM_UDMA_HOST_POLL_INTERVAL" "1us"));
        ("sync", Truth (String.eqb (environment "UBSIM_UDMA_HOST_SYNC" "0") "1"));
        ("lifecycle_sync", Truth (String.eqb (environment "UBSIM_UDMA_HOST_LIFECYCLE_SYNC" "0") "1"));
        ("link_latency", Text (environment "UBSIM_UDMA_HOST_LINK_LATENCY" "50ns"));
        ("sync_interval", Text (environment "UBSIM_UDMA_HOST_SYNC_INTERVAL" "50ns"));
        ("interrupt_misc", interrupt_pin EXTERNAL_UDMA_MISC_SPI);
        ("interrupt_aeq", interrupt_pin EXTERNAL_UDMA_AEQ_SPI);
        ("interrupt_ceq", interrupt_pin EXTERNAL_UDMA_CEQ_SPI)]);
     ("system.external_udma.pio", Ref "system.membus.mem_side_ports");
     ("system.external_udma.dma", Ref "system.iobus.cpu_side_ports");
     ("system.external_udma.msi", Ref "system.membus.cpu_side_ports")].

(** ** Consoles, boot loader and device tree *)

(** The number of [system.realview.uart]. *)
Variable uarts : nat.
Variable outdir : string.

(** The console ports: [system.terminal], then the remaining UARTs. *)
Definition console_ports : list Z :=
  (λ i, num args "terminal_port" + Z.of_nat i) <$> seq 0 (S (uarts - 1)).

Definition create_consoles : io build unit :=
  put (Assign "system.terminal.port" (Int (num args "terminal_port"))) ;;;
  each (λ idx, put (Assign ("system.realview.uart[" +:+ str_of_Z (Z.of_nat idx) +:+ "].device.port")
                       (Int (num args "terminal_port" + Z.of_nat idx)))) (seq 1 (uarts - 1)).

(** [generateDtb] with the two generators replaced for its duration: whatever it
    raises, the originals are put back (assignments to Python classes). *)
Definition restore_generators (_ : list build) : list build :=
  [Assign "GenericTimerMem.generateDeviceTree" (Ref "original_timer_dtb");
   Assign "ArmSystem.generateDeviceTree" (Ref "original_system_dtb")].

Definition create_platform : io build unit :=
  create_consoles ;;;
  put (Invoke "system.realview.setupBootLoader" [Ref "system"; Ref "SysPaths.binary"]) ;;;
  assigns [("system.m5ops_base", Int (num args "m5ops_base"));
           ("system.workload.dtb_filename", Text (join_path outdir "system.dtb"))] ;;;
  if_only (negb kvm_boot) (put (Assign "GenericTimerMem.generateDeviceTree" (Ref "_omit_mmio_timer_from_dtb"))) ;;;
  put (Assign "ArmSystem.generateDeviceTree" (Ref "_official_udma_device_tree(original_system_dtb)")) ;;;
  on_error (put (Invoke "system.generateDtb" [Text (join_path outdir "system.dtb")])) restore_generators ;;;
  each (λ b, put b) (restore_generators []) ;;;
  match text_opt args "initrd" with
  | Some initrd => if_only (negb (String.eqb initrd EmptyString))
                     (put (Assign "system.workload.initrd_filename" (Text initrd)))
  | None => io_ret tt
  end.

(** ** The kernel command line *)

Definition hex (z : Z) : string := "0x" +:+ hex_of_nonneg z.

Definition cmdline_extras : list string :=
  (if cpu_in args ["timing"; "timing_nocache"; "o3"; "server_o3"; "kvm"; "kvm_server_o3"] then ["urma_fast"] else []) ++
  (if server_switch then ["ubsim_cpu_switch=server_o3"] else []) ++
  (if kvm_boot then
     ["maxcpus=1"; "ubsim_m5ops_mode=addr"; "ubsim_m5ops_base=" +:+ hex (num args "m5ops_base");
      "earlycon=pl011,mmio32," +:+ hex PL011_UART0_BASE; "keep_bootcon"; "ignore_loglevel"; "loglevel=8";
      "nokaslr"] else []) ++
  (if 0 <=? num args "benchmark_cpu" then ["ubsim_bench_cpu=" +:+ str_of_Z (num args "benchmark_cpu")] else []) ++
  (if flag args "extras" then ["urma_extras"] else []) ++
  match text_opt args "extra_cmdline" with
  | Some extra => if String.eqb extra EmptyString then [] else [extra]
  | None => []
  end ++
  ["GLIBC_TUNABLES=glibc.pthread.rseq=0"].

(** [args.guest_mem_limit or args.mem_size]. *)
Definition mem_limit : string :=
  match text_opt args "guest_mem_limit" with
  | Some limit => if String.eqb limit EmptyString then text args "mem_size" else limit
  | None => text args "mem_size"
  end.

Definition command_line : string :=
  join " " (["console=ttyAMA0"; "lpj=" +:+ str_of_Z (num args "loops_per_jiffy"); "norandmaps";
             "root=" +:+ text args "root_device"; "rw"; "mem=" +:+ mem_limit] ++ cmdline_extras).

(** ** The whole machine *)

Definition create : io build unit :=
  create_system ;;;
  create_fabric ;;;
  create_memory ;;;
  create_ethernet ;;;
  create_dist ;;;
  create_clusters ;;;
  create_caches ;;;
  create_switch ;;;
  create_stalls ;;;
  create_adapter ;;;
  create_platform ;;;
  put (Assign "system.workload.command_line" (Text command_line)).

(** [main] between the checks and the loop: the root, the machine, the restored
    or fresh state. *)
Definition instantiate : io build unit :=
  put (Assign "root" (New "Root" [("full_system", Truth true)])) ;;;
  create ;;;
  assigns [("root.system", Ref "system"); ("root.system.init_param", Int 0);
           ("root.system.readfile", Text (default EmptyString (text_opt args "script")))] ;;;
  match text_opt args "restore_from" with
  | Some c => if String.eqb c EmptyString then put (Invoke "m5.instantiate" [])
              else put (Invoke "m5.instantiate" [Text c])
  | None => put (Invoke "m5.instantiate" [])
  end.
End create.

(** ** The device tree of the UB devices *)

Inductive property :=
  | Empty
  | Words (l : list Z)
  | Strings (l : list string)
  | Phandle (path : string).

Inductive fdt_node := FdtNode (name : string) (properties : list (string * property)).

(** [_omit_mmio_timer_from_dtb] yields no node. *)
Definition _omit_mmio_timer_from_dtb : list fdt_node := [].

Section tree.
(** [state.addrCells], [state.sizeCells] and [state.phandle] of a device. *)
Variable addrCells : Z → list Z.
Variable sizeCells : Z → list Z.
Variable phandle : string → Z.

Definition gicv2m : string := "system.realview.gicv2m".

(** The nodes that [_official_udma_device_tree] appends to the root. *)
Definition official_nodes : list fdt_node :=
  [FdtNode "chosen" [("linux,ubios-information-table", Words (addrCells OFFICIAL_UDMA_UBRT))];
   FdtNode ("msi-controller@" +:+ hex_of_nonneg OFFICIAL_UDMA_V2M_BASE)
     [("compatible", Strings ["arm,gic-v2m-frame"]); ("msi-controller", Empty);
      ("reg", Words (addrCells OFFICIAL_UDMA_V2M_BASE ++ sizeCells OFFICIAL_UDMA_V2M_SIZE));
      ("arm,msi-base-spi", Words [OFFICIAL_UDMA_V2M_SPI_BASE]);
      ("arm,msi-num-spis", Words [OFFICIAL_UDMA_V2M_SPI_COUNT]); ("phandle", Phandle gicv2m)];
   FdtNode "ubc@0"
     [("compatible", Strings ["ub,ubc"]); ("index", Words [0]); ("msi-parent", Words [phandle gicv2m]);
      ("interrupts", Words [0; OFFICIAL_UDMA_UBC_IRQ - 32; 4])];
   FdtNode "ummu@0"
     [("compatible", Strings ["ub,ummu"]); ("index", Words [0]); ("msi-parent", Words [phandle gicv2m])]].

Definition _official_udma_device_tree (original : list fdt_node) : list fdt_node := original ++ official_nodes.
End tree.
