(* ===== verification/Arm64SystemFacts.v ===== *)
(** * From a launch to a booted machine

    When [create] succeeds, as far as the script goes and as far as gem5 accepts
    what it is given, what the simulation loop may raise on the machines it
    creates, and what the guests of one launch see: their console ports and their
    kernel command lines. *)

From Stdlib Require Import ZArith Lia Ascii.
From stdpp Require Import base strings gmap fin_maps numbers option list.
From S2P Require Import Prelude PyStr Json QemuPorts Samples Topology TopologyFacts Cli ProfileDefaults ConfigRuntime.
From S2P Require Import Launcher Protocol ArgParse Arm64Args Arm64Facts Arm64Loop Arm64System Arm64Launch.

Open Scope string_scope.
Open Scope list_scope.
Open Scope Z_scope.

(** ** When an assembly succeeds *)





(** ** When [create] succeeds *)

Section create.
Variable args : namespace.
Variable env : environ.
Variable o3_alias : bool.
Variable binary : string → res string.
Variable mem_ctrls : list mem_ctrl.
Variable extensions : option (list string).
Variable uarts : nat.
Variable outdir : string.



Abbreviation create_machine := (create no_error args env o3_alias binary mem_ctrls extensions uarts outdir).







End create.

(** ** What gem5 may refuse *)

Section refusals.
Variable gem5_error : build → option exn.











End refusals.

(** ** What the simulation loop may raise *)

(** On a machine with its adapter and, when it switches by itself, its switch
    CPUs, the loop raises only [RuntimeError]. *)
Definition runtime_error (e : exn) : Prop := exn_cls e = RuntimeError.
Definition raises_runtime {A} (m : io action A) : Prop := adds (λ _ r, raises runtime_error r) m.

Lemma rr_bind {A B} (m : io action A) (k : A → io action B) :
  raises_runtime m → (∀ a, raises_runtime (k a)) → raises_runtime (io_bind m k).
Proof.
  intros Hm Hk. eapply adds_bind; [exact Hm| |].
  - intros l e H e' [= <-]. by apply H.
  - intros l a _. eapply adds_weaken; [|apply Hk]. by intros.
Qed.
Lemma rr_emit a : raises_runtime (emit a).
Proof. by apply adds_emit. Qed.
Lemma rr_ret {A} (a : A) : raises_runtime (io_ret a).
Proof. by apply adds_ret. Qed.
Lemma rr_throw {A} fmt args : raises_runtime (A := A) (throw (Exn RuntimeError fmt args)).
Proof. apply adds_throw. intros e [= <-]. reflexivity. Qed.

Section loop.
Variable args : namespace.
Variable env : environ.
Variable outdir : string.
Variable slice : option Z.
Hypothesis switchable : auto_lifecycle args = true → cpu_in args server_modes = true.

Lemma rr_switch to : cpu_in args server_modes = true → raises_runtime (switch_cpus args to).
Proof. intros H. unfold switch_cpus. rewrite H. apply rr_emit. Qed.

Lemma rr_guarded b m : (b = true → raises_runtime m) → raises_runtime (guarded_by b m).
Proof. destruct b; intros H; [by apply H|apply rr_ret]. Qed.

Lemma rr_commit st : raises_runtime (on_commit args env true st).
Proof using switchable.
  unfold on_commit. apply rr_bind; [apply rr_emit|intros _].
  apply rr_bind; [apply rr_guarded; intros _; apply rr_emit|intros _].
  apply rr_bind; [apply rr_guarded; intros [H _]%andb_true_iff; by apply rr_switch, switchable|intros _].
  cbv zeta. apply rr_bind; [apply rr_guarded; intros _; apply rr_emit|intros _]. apply rr_ret.
Qed.

Lemma rr_loop causes st : raises_runtime (event_loop args env outdir slice true causes st).
Proof using switchable.
  remember (length causes) as n eqn:Hn. assert (length causes ≤ n)%nat as Hle by lia. clear Hn.
  revert causes Hle st. induction n as [|n IH]; intros [|cause rest] Hle st; cbn in Hle; try lia; cbn [event_loop];
    (apply rr_bind; [apply rr_emit|intros _]); [apply rr_ret..|].
  assert (∀ st', raises_runtime (event_loop args env outdir slice true rest st')) as Hrest by (intros; apply IH; lia).
  destruct (_ && String.eqb cause LIMIT); [apply Hrest|].
  destruct (elemb cause FENCES).
  { apply rr_bind; [apply rr_ret|intros _].
    destruct (auto_lifecycle args && negb (lifecycle_active st)) eqn:E.
    2: { apply rr_bind; [apply rr_emit|intros _; apply Hrest]. }
    apply andb_true_iff in E as [E _].
    apply rr_bind; [by apply rr_switch, switchable|intros _]. apply rr_bind; [apply rr_emit|intros _].
    destruct rest as [|resumed rest']; [apply rr_ret|].
    destruct (String.eqb resumed LIMIT); [|apply rr_throw].
    apply rr_bind; [apply rr_emit|intros _]. apply IH. cbn in Hle. lia. }
  destruct (String.eqb cause COMMIT); [apply rr_bind; [apply rr_commit|intros; apply Hrest]|].
  destruct (contains _ _).
  { apply rr_bind; [|intros _; destruct (exit_after_checkpoint env); [apply rr_ret|apply Hrest]].
    unfold on_checkpoint. apply rr_bind; [apply rr_guarded; intros _; apply rr_throw|intros _].
    apply rr_bind; [apply rr_guarded; intros _; apply rr_throw|intros _; apply rr_emit]. }
  destruct (_ && _) eqn:E; [|apply rr_ret]. apply andb_true_iff in E as [_ E].
  apply rr_bind; [|intros; apply Hrest].
  unfold on_switchcpu. destruct (switched_to_o3 st); (apply rr_bind; [by apply rr_switch|intros _; apply rr_ret]).
Qed.
End loop.

(** On a machine whose arguments passed the checks, whatever the simulator
    reports, the loop ends or goes on, or raises [RuntimeError]: the switch pairs
    and the adapter it reaches for are there. *)
Theorem loop_errors addr argv args env outdir slice causes e :
  accepted_args addr argv = Ok args →
  (run_loop args env outdir slice true causes []).2 = Err e → exn_cls e = RuntimeError.
Proof.
  unfold accepted_args. intros H He.
  apply bind_Ok in H as (ns & Hns & H). apply bind_Ok in H as ([] & Hck & [= ->]).
  apply arm64_args_typed in Hns. apply check_args_iff in Hck as [[Haff Hsw _ _] _ _ _ _]; [|done].
  destruct (rr_loop args env outdir slice) with (causes := causes) (st := LoopState false false) (l := @nil action)
    as (l' & _ & Hr).
  - intros Ha. unfold auto_lifecycle in Ha. unfold cpu_in. rewrite Hsw by (by left). reflexivity.
  - exact (Hr e He).
Qed.

(** ** Consoles *)

Lemma launched_terminal w m node checkpoint template val argv uart0 uart1 :
  layout w m node checkpoint template val argv →
  env_number w "UBSIM_DUAL_UART0" "3460" = Ok uart0 → env_number w "UBSIM_DUAL_UART1" "3470" = Ok uart1 →
  num (launched val m checkpoint) "terminal_port" = uart0 + Z.of_nat node * (uart1 - uart0).
Proof.
  intros L H0 H1. destruct (la_uart _ _ _ _ _ _ _ L) as (u0 & u1 & E0 & E1 & Hv).
  rewrite H0 in E0. rewrite H1 in E1. injection E0 as <-. injection E1 as <-.
  assert ("terminal-port" ∈ last_names checkpoint) as Hin.
  { destruct checkpoint; elem_dec. }
  pose proof (launched_last val m checkpoint _ Hin) as Hl.
  change (dest (arg "terminal-port")) with "terminal_port" in Hl. unfold num. rewrite Hl.
  unfold received. rewrite Hv. unfold get_value. change (a_conv (arg "terminal-port")) with AnyInt.
  change (a_choices (arg "terminal-port")) with (@None (list value)). unfold convert_value.
  by rewrite int_of_str_Z.
Qed.

(** Within one launch, no two guests share a console port: with the four
    UARTs of the platform, and console bases at least four apart as the defaults
    are, the ports of different nodes are disjoint, whatever the nodes and the
    checkpoint. *)
Theorem consoles_disjoint addr w raw p m restored run_root checkpoint template i j argv_i argv_j args_i args_j
    uart0 uart1 uarts port :
  documented addr →
  compile_topology raw = Ok p → p_simulator p = "gem5" → resolve_gem5 (w_root w) raw p = Ok m →
  gem5_argv w (dset m "restore_checkpoint" restored) i run_root checkpoint template = Ok argv_i →
  gem5_argv w (dset m "restore_checkpoint" restored) j run_root checkpoint template = Ok argv_j →
  accepted_args addr (drop 4 argv_i) = Ok args_i → accepted_args addr (drop 4 argv_j) = Ok args_j →
  env_number w "UBSIM_DUAL_UART0" "3460" = Ok uart0 → env_number w "UBSIM_DUAL_UART1" "3470" = Ok uart1 →
  4 <= Z.abs (uart1 - uart0) → (uarts ≤ 4)%nat → i ≠ j →
  port ∈ console_ports args_i uarts → port ∉ console_ports args_j uarts.
Proof.
  intros Hd Hc Hg Hm Hi Hj Ai Aj H0 H1 Hgap Hu Hne Hpi Hpj.
  destruct (launch_parsed _ _ _ _ _ _ _ _ _ _ _ Hd Hc Hg Hm Hi) as (vi & ? & ? & ? & ? & ? & Pi).
  destruct (launch_parsed _ _ _ _ _ _ _ _ _ _ _ Hd Hc Hg Hm Hj) as (vj & ? & ? & ? & ? & ? & Pj).
  pose proof (pl_accepted _ _ _ _ _ _ _ _ _ _ _ _ _ Pi) as Ei.
  pose proof (pl_accepted _ _ _ _ _ _ _ _ _ _ _ _ _ Pj) as Ej.
  rewrite Ai in Ei. rewrite Aj in Ej. injection Ei as ->. injection Ej as ->.
  unfold console_ports in Hpi, Hpj.
  rewrite (launched_terminal _ _ _ _ _ _ _ _ _ (pl_layout _ _ _ _ _ _ _ _ _ _ _ _ _ Pi) H0 H1) in Hpi.
  rewrite (launched_terminal _ _ _ _ _ _ _ _ _ (pl_layout _ _ _ _ _ _ _ _ _ _ _ _ _ Pj) H0 H1) in Hpj.
  apply list_elem_of_fmap in Hpi as (a & -> & Ha). apply list_elem_of_fmap in Hpj as (b & Heq & Hb).
  apply elem_of_seq in Ha, Hb.
  assert (Z.abs ((Z.of_nat i - Z.of_nat j) * (uart1 - uart0)) <= 3) as Hsmall by nia.
  rewrite Z.abs_mul in Hsmall. assert (1 <= Z.abs (Z.of_nat i - Z.of_nat j)) by lia. nia.
Qed.

(** ** The guests' kernel command lines *)

(** What precedes the launcher's own words. *)
Definition words_before (args : namespace) : list string :=
  ["console=ttyAMA0"; "lpj=" +:+ str_of_Z (num args "loops_per_jiffy"); "norandmaps";
   "root=" +:+ text args "root_device"; "rw"; "mem=" +:+ mem_limit args] ++
  (if cpu_in args ["timing"; "timing_nocache"; "o3"; "server_o3"; "kvm"; "kvm_server_o3"] then ["urma_fast"] else []) ++
  (if server_switch args then ["ubsim_cpu_switch=server_o3"] else []) ++
  (if kvm_boot args then
     ["maxcpus=1"; "ubsim_m5ops_mode=addr"; "ubsim_m5ops_base=" +:+ hex (num args "m5ops_base");
      "earlycon=pl011,mmio32," +:+ hex PL011_UART0_BASE; "keep_bootcon"; "ignore_loglevel"; "loglevel=8";
      "nokaslr"] else []) ++
  (if 0 <=? num args "benchmark_cpu" then ["ubsim_bench_cpu=" +:+ str_of_Z (num args "benchmark_cpu")] else []) ++
  (if flag args "extras" then ["urma_extras"] else []).
Definition last_word : string := "GLIBC_TUNABLES=glibc.pthread.rseq=0".

Lemma command_line_words args extra :
  text_opt args "extra_cmdline" = Some extra → extra ≠ EmptyString →
  command_line args = join " " (words_before args ++ [extra; last_word]).
Proof.
  intros He Hne. unfold command_line, cmdline_extras, words_before. rewrite He.
  rewrite (proj2 (String.eqb_neq _ _) Hne). by rewrite <- !app_assoc.
Qed.

(** The words a launch adds. *)
Definition node_words (template : bool) (node : nat) (provider : string) : list string :=
  ["ubsim_node=" +:+ (if template then "template" else str_of_nat node)] ++
  (if template then ["ubsim_template=1"] else []) ++ ["ubsim_provider=" +:+ provider].

Lemma extra_words (template : bool) node provider :
  "ubsim_node=" +:+ (if template then "template" else str_of_nat node) +:+ " " +:+
    (if template then "ubsim_template=1 " else EmptyString) +:+ "ubsim_provider=" +:+ provider =
  join " " (node_words template node provider).
Proof. destruct template; cbn [node_words app join]; by rewrite ?string_app_assoc. Qed.

Lemma join_nested sep a b c :
  a ≠ [] → b ≠ [] → join sep (a ++ [join sep b; c]) = join sep (a ++ b ++ [c]).
Proof.
  intros Ha Hb. rewrite (join_app sep a) by done. rewrite (join_app sep a) by (done || by destruct b).
  by rewrite (join_app sep b [c]) by done.
Qed.

Definition is_identity (word : string) : bool := startswith word "ubsim_node=".

(** The values the words read, for a profile. *)
Definition profile_words (profile : string) (sync : bool) (defs : manifest) : list string :=
  words_before ([("root_device", VStr "/dev/ram"); ("loops_per_jiffy", VInt 19988480)] ++
                reference profile sync defs).

Lemma profile_words_plain :
  forallb (λ pr, match dget PROFILE_DEFAULTS pr with
                 | Some defs =>
                     forallb (λ sync, forallb (λ w, lacks " " w && negb (is_identity w)) (profile_words pr sync defs))
                       [true; false] &&
                     bool_decide (dget defs "provider" = Some "official") &&
                     negb (String.eqb (given defs "guest-mem-limit") EmptyString)
                 | None => false
                 end) GEM5_PROFILES = true.
Proof. vm_compute. reflexivity. Qed.

Lemma profile_words_spec profile sync defs :
  profile ∈ GEM5_PROFILES → getitem PROFILE_DEFAULTS profile = Ok defs →
  (∀ w, w ∈ profile_words profile sync defs → lacks " " w = true ∧ is_identity w = false) ∧
  dget defs "provider" = Some "official" ∧ given defs "guest-mem-limit" ≠ EmptyString.
Proof.
  intros Hp Hd%getitem_Ok. pose proof profile_words_plain as H. rewrite forallb_forall in H.
  apply list_elem_of_In, H in Hp. rewrite Hd in Hp. 
  apply andb_true_iff in Hp as [[Hw Hpr%bool_decide_eq_true]%andb_true_iff Hl%negb_true_iff%String.eqb_neq].
  split; [|done]. rewrite forallb_forall in Hw.
  assert (In sync [true; false]) as Hs by (destruct sync; cbn; tauto). apply Hw in Hs. rewrite forallb_forall in Hs.
  intros x Hx%list_elem_of_In%Hs. by apply andb_true_iff in Hx as [? ?%negb_true_iff].
Qed.

(** The guest's memory limit is the profile's. *)
Lemma launched_limit addr w m node checkpoint template argv val profile machine sync defs v :
  parsed_launch addr w m node checkpoint template argv val profile machine sync defs v →
  dget m "guest_memory_limit" = Some (given defs "guest-mem-limit") ∧
  mem_limit (launched val m checkpoint) = given defs "guest-mem-limit".
Proof.
  intros P. pose proof (pl_resolved _ _ _ _ _ _ _ _ _ _ _ _ _ P) as R.
  destruct (profile_words_spec profile sync defs (pl_profile _ _ _ _ _ _ _ _ _ _ _ _ _ P) (rf_defs _ _ _ _ _ R))
    as (_ & _ & Hlimit).
  destruct (pl_read _ _ _ _ _ _ _ _ _ _ _ _ _ P "guest-mem-limit") as (s & x & Hs & Hv & _); [elem_dec|].
  assert (s = given defs "guest-mem-limit") as ->.
  { rewrite (pl_values _ _ _ _ _ _ _ _ _ _ _ _ _ P) in Hs by elem_dec.
    rewrite (given_stable _ _ _ _ _ _ R) in Hs; [|elem_dec|apply elemb_false; vm_compute; reflexivity].
    unfold given. by rewrite Hs. }
  split; [exact Hs|].
  pose proof (launched_first val m checkpoint "guest-mem-limit") as Hl.
  change (dest (arg "guest-mem-limit")) with "guest_mem_limit" in Hl.
  unfold mem_limit, text_opt. rewrite Hl by elem_dec. unfold received. rewrite free_value, Hv by (vm_compute; reflexivity).
  by rewrite (proj2 (String.eqb_neq _ _) Hlimit).
Qed.

(** On a launch's arguments the words before are the profile's. *)
Lemma launched_words addr w m node checkpoint template argv val profile machine sync defs v :
  parsed_launch addr w m node checkpoint template argv val profile machine sync defs v →
  words_before (launched val m checkpoint) = profile_words profile sync defs.
Proof.
  intros P. pose proof (pl_resolved _ _ _ _ _ _ _ _ _ _ _ _ _ P) as R.
  pose proof (pl_layout _ _ _ _ _ _ _ _ _ _ _ _ _ P) as L.
  set (ref := [("root_device", VStr "/dev/ram"); ("loops_per_jiffy", VInt 19988480)] ++ reference profile sync defs).
  assert (∀ o, elemb o GEM5_OPTIONS && negb (elemb o tunable) &&
             negb (elemb (dest (arg o)) ["root_device"; "loops_per_jiffy"]) = true →
    dget (launched val m checkpoint) (dest (arg o)) = dget ref (dest (arg o))) as Hso.
  { intros o [[H1%elemb_true H2%negb_true_iff%elemb_false]%andb_true_iff H3%negb_true_iff%elemb_false]%andb_true_iff.
    rewrite !not_elem_of_cons in H3. destruct H3 as (N1 & N2 & _). unfold ref. cbn [app dget].
    rewrite (proj2 (String.eqb_neq _ _) N1), (proj2 (String.eqb_neq _ _) N2).
    eapply stable_agree; [exact R| |exact H1|exact H2].
    intros o' Ho'. split; [apply (la_given _ _ _ _ _ _ _ L o' Ho')|by apply (pl_values _ _ _ _ _ _ _ _ _ _ _ _ _ P)]. }
  assert (∀ k o, dest (arg o) = k → elemb o GEM5_OPTIONS && negb (elemb o tunable) &&
             negb (elemb (dest (arg o)) ["root_device"; "loops_per_jiffy"]) = true →
    dget (launched val m checkpoint) k = dget ref k) as Hs by (intros k o <-; apply Hso).
  assert (dget (launched val m checkpoint) "root_device" = dget ref "root_device") as Hroot.
  { pose proof (launched_first val m checkpoint "root-device") as Hl.
    change (dest (arg "root-device")) with "root_device" in Hl. rewrite Hl by elem_dec.
    unfold received. rewrite (la_root _ _ _ _ _ _ _ L). by rewrite free_value. }
  assert (dget (launched val m checkpoint) "loops_per_jiffy" = dget ref "loops_per_jiffy") as Hlpj.
  { rewrite launched_default by (vm_compute; reflexivity). vm_compute. reflexivity. }
  assert (dget (launched val m checkpoint) "extras" = dget ref "extras") as Hex.
  { rewrite launched_default by (vm_compute; reflexivity). unfold ref, reference.
    symmetry. change (dget (assigned (given defs) GEM5_OPTIONS) "extras" = None).
    apply dget_assigned_None, elemb_false. vm_compute. reflexivity. }
  assert (num (launched val m checkpoint) "loops_per_jiffy" = num ref "loops_per_jiffy") as E1
    by (unfold num; by rewrite Hlpj).
  assert (text (launched val m checkpoint) "root_device" = text ref "root_device") as E2
    by (unfold text; by rewrite Hroot).
  assert (flag (launched val m checkpoint) "extras" = flag ref "extras") as E3 by (unfold flag; by rewrite Hex).
  assert (text (launched val m checkpoint) "cpu" = text ref "cpu") as E4
    by (unfold text; by rewrite (Hs "cpu" "cpu") by (vm_compute; reflexivity)).
  assert (num (launched val m checkpoint) "m5ops_base" = num ref "m5ops_base") as E5
    by (unfold num; by rewrite (Hs "m5ops_base" "m5ops-base") by (vm_compute; reflexivity)).
  assert (num (launched val m checkpoint) "benchmark_cpu" = num ref "benchmark_cpu") as E6
    by (unfold num; by rewrite (Hs "benchmark_cpu" "benchmark-cpu") by (vm_compute; reflexivity)).
  assert (mem_limit (launched val m checkpoint) = mem_limit ref) as E7.
  { destruct (profile_words_spec profile sync defs (pl_profile _ _ _ _ _ _ _ _ _ _ _ _ _ P) (rf_defs _ _ _ _ _ R))
      as (_ & _ & Hlimit).
    assert (text_opt ref "guest_mem_limit" = Some (given defs "guest-mem-limit")) as Hg.
    { unfold text_opt. pose proof (dget_assigned (given defs) GEM5_OPTIONS "guest-mem-limit") as Ha.
      change (dest (arg "guest-mem-limit")) with "guest_mem_limit" in Ha.
      change (dget ref "guest_mem_limit") with (dget (assigned (given defs) GEM5_OPTIONS) "guest_mem_limit").
      rewrite Ha; [|apply (bool_decide_unpack _); vm_compute; exact I|elem_dec].
      unfold received. by rewrite free_value by (vm_compute; reflexivity). }
    rewrite (proj2 (launched_limit _ _ _ _ _ _ _ _ _ _ _ _ _ P)). unfold mem_limit. rewrite Hg.
    by rewrite (proj2 (String.eqb_neq _ _) Hlimit). }
  unfold profile_words. fold ref. unfold words_before, server_switch, kvm_boot, cpu_in.
  by rewrite E1, E2, E3, E4, E5, E6, E7.
Qed.

Lemma lacks_app c a b : lacks c (a +:+ b) = lacks c a && lacks c b.
Proof. unfold lacks. induction a as [|x a IH]; [done|]. cbn. by rewrite IH, andb_assoc. Qed.

Lemma digits_lack_space n : 0 <= n → lacks " " (str_of_Z n) = true.
Proof.
  intros Hn. eapply str_forallb_impl; [|by apply str_of_Z_digits]. intros c Hc. cbn.
  by rewrite (digit_neq c) by (done || (vm_compute; reflexivity)).
Qed.

(** The words of a launched guest's command line. *)
Lemma launched_split addr w m node checkpoint template argv val profile machine sync defs v :
  parsed_launch addr w m node checkpoint template argv val profile machine sync defs v →
  split_on " " (command_line (launched val m checkpoint)) =
    profile_words profile sync defs ++ node_words template node "official" ++ [last_word].
Proof.
  intros P. pose proof (pl_layout _ _ _ _ _ _ _ _ _ _ _ _ _ P) as L.
  pose proof (pl_resolved _ _ _ _ _ _ _ _ _ _ _ _ _ P) as R.
  destruct (profile_words_spec profile sync defs (pl_profile _ _ _ _ _ _ _ _ _ _ _ _ _ P) (rf_defs _ _ _ _ _ R))
    as (Hplain & Hprov & _).
  destruct (la_extra _ _ _ _ _ _ _ L) as (provider & Hp & Hextra).
  assert (provider = "official") as ->.
  { rewrite (pl_other _ _ _ _ _ _ _ _ _ _ _ _ _ P) in Hp by (vm_compute; reflexivity).
    rewrite (rf_other _ _ _ _ _ R), Hprov in Hp by (apply elemb_false; vm_compute; reflexivity). by injection Hp as <-. }
  rewrite extra_words in Hextra.
  assert (text_opt (launched val m checkpoint) "extra_cmdline" = Some (join " " (node_words template node "official")))
    as Hopt.
  { unfold text_opt. pose proof (launched_last val m checkpoint "extra-cmdline") as Hl.
    change (dest (arg "extra-cmdline")) with "extra_cmdline" in Hl.
    rewrite Hl by (destruct checkpoint; elem_dec). unfold received. by rewrite free_value, Hextra. }
  rewrite (command_line_words _ _ Hopt) by (by destruct template).
  rewrite join_nested by (by destruct template || done).
  rewrite (launched_words _ _ _ _ _ _ _ _ _ _ _ _ _ P). apply split_on_join; [done|].
  rewrite !forallb_app. apply andb_true_iff. split.
  { apply forallb_forall. intros x Hx%list_elem_of_In. by apply Hplain. }
  cbn [forallb]. unfold node_words. destruct template; [reflexivity|]. cbn [app forallb].
  rewrite lacks_app. unfold str_of_nat. rewrite digits_lack_space by lia. reflexivity.
Qed.

(** C9: every guest of a launch is told who it is: the words of its kernel
    command line hold exactly one [ubsim_node=], which names its own node (or
    the template), its provider, and the memory limit of the profile. *)
Theorem guest_identity addr w raw p m restored node run_root checkpoint template argv args :
  documented addr →
  compile_topology raw = Ok p → p_simulator p = "gem5" → resolve_gem5 (w_root w) raw p = Ok m →
  gem5_argv w (dset m "restore_checkpoint" restored) node run_root checkpoint template = Ok argv →
  accepted_args addr (drop 4 argv) = Ok args →
  let words := split_on " " (command_line args) in
  List.filter is_identity words =
    ["ubsim_node=" +:+ (if template then "template" else str_of_nat node)] ∧
  "ubsim_provider=official" ∈ words ∧
  ∃ limit, dget m "guest_memory_limit" = Some limit ∧ "mem=" +:+ limit ∈ words.
Proof.
  intros Hd Hc Hg Hm Ha Hargs words.
  destruct (launch_parsed _ _ _ _ _ _ _ _ _ _ _ Hd Hc Hg Hm Ha) as (val & profile & machine & sync & defs & v & P).
  pose proof (pl_accepted _ _ _ _ _ _ _ _ _ _ _ _ _ P) as E. rewrite Hargs in E. injection E as ->.
  pose proof (pl_resolved _ _ _ _ _ _ _ _ _ _ _ _ _ P) as R.
  destruct (profile_words_spec profile sync defs (pl_profile _ _ _ _ _ _ _ _ _ _ _ _ _ P) (rf_defs _ _ _ _ _ R))
    as (Hplain & _).
  unfold words. rewrite (launched_split _ _ _ _ _ _ _ _ _ _ _ _ _ P). split_and!.
  - rewrite !List.filter_app, (filter_none is_identity (profile_words _ _ _)) by (apply Forall_forall; intros; by apply Hplain).
    unfold node_words. destruct template; [reflexivity|]. cbn [app List.filter].
    unfold is_identity at 1. by rewrite startswith_app.
  - apply elem_of_app. right. apply elem_of_app. left. unfold node_words. apply elem_of_app. right.
    apply elem_of_app. right. by left.
  - destruct (launched_limit _ _ _ _ _ _ _ _ _ _ _ _ _ P) as [Hlim Hmem].
    rewrite dget_dset_ne in Hlim by done. exists (given defs "guest-mem-limit"). split; [exact Hlim|].
    apply elem_of_app. left. rewrite <- (launched_words _ _ _ _ _ _ _ _ _ _ _ _ _ P).
    unfold words_before. rewrite Hmem. do 5 right. by left.
Qed.

(** ** A launched machine assembles *)



(** ** Concrete machines *)

Definition launched_args (node : nat) : namespace :=
  match (m ← resolve_gem5 "/lab" topology_gem5_two_heads (plan_of topology_gem5_two_heads);
         argv ← gem5_argv (sample_world true) (dset m "restore_checkpoint" "none") node "/lab/run-dual" None false;
         accepted_args read_size (drop 4 argv)) with
  | Ok args => args
  | Err _ => []
  end.

Example sample_command_line :
  command_line (launched_args 1) =
  "console=ttyAMA0 lpj=19988480 norandmaps root=/dev/ram rw mem=2GB urma_fast ubsim_cpu_switch=server_o3 ubsim_bench_cpu=2 ubsim_node=1 ubsim_provider=official GLIBC_TUNABLES=glibc.pthread.rseq=0".
Proof. vm_compute. reflexivity. Qed.

Example sample_consoles : console_ports (launched_args 1) 4 = [3470; 3471; 3472; 3473].
Proof. vm_compute. reflexivity. Qed.

Lemma loop_errors_witness :
  exn_cls (Exn RuntimeError "checkpoints are not supported by the KVM/O3 switch configuration" []) = RuntimeError.
Proof.
  destruct (accepted_args read_size ["--cpu=kvm"]) as [args|] eqn:Ha; [|vm_compute in Ha; discriminate].
  apply (loop_errors read_size ["--cpu=kvm"] args (λ _, None) "/out" None ["checkpoint"]); [exact Ha|].
  vm_compute in Ha. injection Ha as <-. vm_compute. reflexivity.
Defined.

(** The arguments of a sample launch. *)
Lemma sample_launch node :
  (node < 2)%nat →
  ∃ p m argv args, compile_topology topology_gem5_two_heads = Ok p ∧ p_simulator p = "gem5" ∧
    resolve_gem5 (w_root (sample_world true)) topology_gem5_two_heads p = Ok m ∧
    gem5_argv (sample_world true) (dset m "restore_checkpoint" "none") node "/lab/run-dual" None false = Ok argv ∧
    accepted_args read_size (drop 4 argv) = Ok args ∧ args = launched_args node ∧
    is_ok (gem5_vars (sample_world true) (dset m "restore_checkpoint" "none") "off" node) = true.
Proof.
  intros Hn. assert (compile_topology topology_gem5_two_heads = Ok (plan_of topology_gem5_two_heads)) as Hc
    by (vm_compute; reflexivity).
  destruct (resolve_gem5 "/lab" topology_gem5_two_heads (plan_of topology_gem5_two_heads)) as [m|] eqn:Hm;
    [|vm_compute in Hm; discriminate].
  exists (plan_of topology_gem5_two_heads), m.
  destruct node as [|[|]]; [| |lia];
    (destruct (gem5_argv (sample_world true) (dset m "restore_checkpoint" "none") _ "/lab/run-dual" None false)
       as [argv|] eqn:Ha; [|vm_compute in Hm; injection Hm as <-; vm_compute in Ha; discriminate]);
    (destruct (accepted_args read_size (drop 4 argv)) as [args|] eqn:Hargs;
       [|vm_compute in Hm; injection Hm as <-; vm_compute in Ha; injection Ha as <-; vm_compute in Hargs; discriminate]);
    exists argv, args; (split; [exact Hc|]); (split; [vm_compute; reflexivity|]); (split; [exact Hm|]);
    (split; [reflexivity|]); (split; [exact Hargs|]);
    vm_compute in Hm; injection Hm as <-; vm_compute in Ha; injection Ha as <-;
    vm_compute in Hargs; injection Hargs as <-; split; vm_compute; reflexivity.
Qed.

Lemma consoles_disjoint_witness : 3460 ∉ console_ports (launched_args 1) 4.
Proof.
  destruct (sample_launch 0) as (p & m & argv0 & args0 & Hc & Hg & Hm & H0 & A0 & E0 & _); [lia|].
  destruct (sample_launch 1) as (p' & m' & argv1 & args1 & Hc' & _ & Hm' & H1 & A1 & E1 & _); [lia|].
  rewrite Hc in Hc'. injection Hc' as <-. rewrite Hm in Hm'. injection Hm' as <-. subst args0 args1.
  apply (consoles_disjoint read_size (sample_world true) topology_gem5_two_heads p m "none" "/lab/run-dual" None false
           0 1 argv0 argv1 (launched_args 0) (launched_args 1) 3460 3470 4 3460 documented_read_size
           Hc Hg Hm H0 H1 A0 A1 eq_refl eq_refl); [lia|lia|lia|].
  elem_dec.
Defined.

Lemma guest_identity_witness :
  List.filter is_identity (split_on " " (command_line (launched_args 1))) = ["ubsim_node=1"].
Proof.
  destruct (sample_launch 1) as (p & m & argv & args & Hc & Hg & Hm & Ha & A & E & _); [lia|]. subst args.
  exact (proj1 (guest_identity read_size (sample_world true) topology_gem5_two_heads p m "none" 1 "/lab/run-dual" None
           false argv (launched_args 1) documented_read_size Hc Hg Hm Ha A)).
Defined.



