(* ===== verification/TextScan.v ===== *)
(** * Scanning command output

    The fragment of regular expressions the laboratory's tools apply to guest
    and simulator output, as matchers: a matcher takes the text at a position
    and returns what it captures with the text after the match.  In each of the
    patterns modelled with it the greedy choice is the only one that can
    succeed, so no backtracking is lost.  [\d], [\w] and [\s] are ASCII; a byte
    above 127 counts as a word character. *)

From Stdlib Require Import ZArith Lia Ascii.
From stdpp Require Import base strings gmap fin_maps numbers option list sorting.
From S2P Require Import Prelude PyStr.

Open Scope string_scope.
Open Scope list_scope.
Open Scope Z_scope.

Definition matcher (A : Type) : Type := string → option (A * string).

Definition m_lit (p : string) : matcher unit := λ s, r ← strip_prefix p s; Some (tt, r).

Definition m_sp0 : matcher unit := λ s, Some (tt, (span is_space s).2).

Definition m_sp1 : matcher unit := λ s,
  let '(b, r) := span is_space s in if String.eqb b EmptyString then None else Some (tt, r).

(** [\d+], as text. *)
Definition m_digits : matcher string := λ s,
  let '(d, r) := span is_digit s in if String.eqb d EmptyString then None else Some (d, r).

Definition word_char (c : ascii) : bool := is_alnum_ascii c || Ascii.eqb c "_"%char || (128 <=? code c).

(** [\w+]. *)
Definition m_word : matcher string := λ s,
  let '(d, r) := span word_char s in if String.eqb d EmptyString then None else Some (d, r).

(** [[\d.]+]. *)
Definition m_dotted : matcher string := λ s,
  let '(d, r) := span (λ c, is_digit c || Ascii.eqb c "."%char) s in
  if String.eqb d EmptyString then None else Some (d, r).

(** [(?:m)?]: the matched text is [f] of the capture, or nothing. *)
Definition m_opt (m : matcher string) : matcher string := λ s,
  match m s with Some x => Some x | None => Some (EmptyString, s) end.

(** [(?:\.[0-9]+)?]. *)
Definition m_fraction : matcher string :=
  m_opt (λ s, r ← strip_prefix "." s; d ← m_digits r; Some ("." +:+ d.1, d.2)).

(** [(?:[eE][+-]?\d+)?]. *)
Definition m_exponent : matcher string :=
  m_opt (λ s, match s with
              | String c r =>
                  if Ascii.eqb c "e"%char || Ascii.eqb c "E"%char then
                    match r with
                    | String g r' =>
                        if Ascii.eqb g "+"%char || Ascii.eqb g "-"%char
                        then d ← m_digits r'; Some (String c (String g d.1), d.2)
                        else d ← m_digits r; Some (String c d.1, d.2)
                    | EmptyString => None
                    end
                  else None
              | EmptyString => None
              end).

(** [[0-9]+(?:\.[0-9]+)?]. *)
Definition m_decimal : matcher string := λ s,
  d ← m_digits s; f ← m_fraction d.2; Some (d.1 +:+ f.1, f.2).

(** [\d+(?:\.\d+)?(?:[eE][+-]?\d+)?]. *)
Definition m_float : matcher string := λ s,
  d ← m_decimal s; e ← m_exponent d.2; Some (d.1 +:+ e.1, e.2).

(** The text from the last newline of [s] on. *)
Fixpoint last_newline (s : string) : option string :=
  match s with
  | EmptyString => None
  | String c s' =>
      match last_newline s' with
      | Some r => Some r
      | None => if Ascii.eqb c "010"%char then Some s else None
      end
  end.

(** [\s*$] under [re.MULTILINE]: the longest run of white space that ends at the
    end of a line. *)
Definition m_eol : matcher unit := λ s,
  let '(b, r) := span is_space s in
  if String.eqb r EmptyString then Some (tt, EmptyString)
  else n ← last_newline b; Some (tt, n +:+ r).

(** Whether [rest], what a match at [s] left, is at the start of a line. *)
Definition after_newline (s rest : string) : bool :=
  match String.get (String.length s - String.length rest - 1) s with
  | Some c => Ascii.eqb c "010"%char
  | None => false
  end.

(** [re.findall]; [anchored] patterns begin with a multi-line [^] and are tried
    at line starts only. *)
Fixpoint findall_go {A} (fuel : nat) (anchored bol : bool) (m : matcher A) (s : string) : list A :=
  match fuel with
  | O => []
  | S f =>
      match (if negb anchored || bol then m s else None) with
      | Some (a, rest) => a :: findall_go f anchored (after_newline s rest) m rest
      | None =>
          match s with
          | EmptyString => []
          | String c s' => findall_go f anchored (Ascii.eqb c "010"%char) m s'
          end
      end
  end.
Definition findall {A} (anchored : bool) (m : matcher A) (s : string) : list A :=
  findall_go (S (String.length s)) anchored true m s.

(** [(?m)^--- UART \d+ ---\s*$]. *)
Definition m_uart_header : matcher unit := λ s,
  a ← m_lit "--- UART " s; d ← m_digits a.2; b ← m_lit " ---" d.2; m_eol b.2.

(** [re.split(pattern, s)] for an anchored pattern; [piece] is the text since
    the last separator, reversed. *)
Fixpoint split_go (fuel : nat) (bol : bool) (m : matcher unit) (piece s : string) : list string :=
  match fuel with
  | O => [String.rev piece]
  | S f =>
      match (if bol then m s else None) with
      | Some (_, rest) => String.rev piece :: split_go f false m EmptyString rest
      | None =>
          match s with
          | EmptyString => [String.rev piece]
          | String c s' => split_go f (Ascii.eqb c "010"%char) m (String c piece) s'
          end
      end
  end.
Definition uart_sections (output : string) : list string :=
  drop 1 (split_go (S (String.length output)) true m_uart_header EmptyString output).

(** [Number of jettys\s*:\s*(\d+)] and [JFS depth\s*:\s*(\d+)]. *)
Definition m_labelled (label : string) : matcher string := λ s,
  a ← m_lit label s; b ← m_sp0 a.2; c ← m_lit ":" b.2; d ← m_sp0 c.2; m_digits d.2.

(** [\s+number], [n] times: the captures. *)
Fixpoint m_columns (number : matcher string) (n : nat) : matcher (list string) := λ s,
  match n with
  | O => Some ([], s)
  | S n' =>
      a ← m_sp1 s; x ← number a.2; xs ← m_columns number n' x.2; Some (x.1 :: xs.1, xs.2)
  end.

(** [^\s*first\s+second\s+...\s*$]: the captures of [first], of [second] and of
    the numeric columns. *)
Definition m_row (first second : matcher string) (number : matcher string) (columns : nat)
    : matcher (string * string * list string) := λ s,
  a ← m_sp0 s; f ← first a.2; b ← m_sp1 f.2; g ← second b.2;
  xs ← m_columns number columns g.2; e ← m_eol xs.2;
  Some (f.1, g.1, xs.1, e.2).

(** A literal that captures itself. *)
Definition m_self (p : string) : matcher string := λ s, r ← strip_prefix p s; Some (p, r).

(** [(\w+)=(\d+)]. *)
Definition m_assign : matcher (string * string) := λ s,
  k ← m_word s; e ← m_lit "=" k.2; v ← m_digits e.2; Some (k.1, v.1, v.2).

(** [__UBSIM_RC_\d+_\d+__=(\d+)]. *)
Definition m_exit : matcher string := λ s,
  a ← m_lit "__UBSIM_RC_" s; b ← m_digits a.2; c ← m_lit "_" b.2; d ← m_digits c.2;
  e ← m_lit "__=" d.2; m_digits e.2.
