(* ===== verification/Regression.v ===== *)
(** * RMA regression suite ([tools/run_modular_rma_regression.py])

    The case tables, the guest command lines, the validation of transcripts and
    of the time-fence logs, and the errors of a case. *)

From Stdlib Require Import ZArith Lia Ascii.
From stdpp Require Import base strings gmap fin_maps numbers option list sorting.
From S2P Require Import Prelude PyStr Json TextScan.

Open Scope string_scope.
Open Scope list_scope.
Open Scope Z_scope.

(** ** Cases *)

Record case := Case {
  k_label : string;
  k_verb : string;
  k_size : Z;
  k_iterations : Z;
  k_post_list : Z;
  k_cq_mod : Z;
  k_bidirectional : bool;
  k_all_exponent : option Z
}.

Definition FULL_CASES : list case :=
  [Case "send_lat_128" "send_lat" 128 20 1 1 false None;
   Case "send_bw_128_wrap" "send_bw" 128 128 16 16 false None;
   Case "send_bw_4096" "send_bw" 4096 32 16 16 false None;
   Case "write_lat_128" "write_lat" 128 8 1 1 false None;
   Case "read_lat_128" "read_lat" 128 8 1 1 false None;
   Case "write_bw_4096_out16" "write_bw" 4096 64 16 16 true None;
   Case "read_bw_4096_out16" "read_bw" 4096 64 16 16 true None;
   Case "write_bw_65536_frag" "write_bw" 65536 16 1 1 true None;
   Case "read_bw_65536_frag" "read_bw" 65536 16 1 1 true None;
   Case "write_bw_1m_frag" "write_bw" 1048576 5 1 1 true None;
   Case "read_bw_1m_frag" "read_bw" 1048576 5 1 1 true None;
   Case "write_bw_all_2_to_1m_inline64" "write_bw" 1048576 64 1 1 true (Some 20)].

Definition SYNC_SMOKE_CASES : list case :=
  [Case "send_lat_128_sync" "send_lat" 128 8 1 1 false None;
   Case "write_lat_128_sync" "write_lat" 128 8 1 1 false None;
   Case "read_lat_128_sync" "read_lat" 128 8 1 1 false None;
   Case "send_bw_128_sync" "send_bw" 128 16 16 16 false None;
   Case "read_bw_4096_sync" "read_bw" 4096 64 16 16 true None].

Definition TIMING_SEND_CASES : list case :=
  (λ size, Case ("send_bw_" +:+ str_of_Z size +:+ "_timing") "send_bw" size 1024 64 64 false None)
    <$> [128; 1024; 4096].

Definition OUTSTANDING_CASES : list case :=
  verb ← ["send_bw"; "write_bw"; "read_bw"];
  mbm ← [("single", 1, 1); ("batch16", 16, 16); ("batch512", 512, 512)];
  let '(mode, batch, moderation) := (mbm : string * Z * Z) in
  [Case (verb +:+ "_4096_depth512_" +:+ mode) verb 4096 2048 batch moderation true None].

Definition BOUNDARY_CASES : list case :=
  verb ← ["send_bw"; "write_bw"; "read_bw"];
  size ← [1; 2; 63; 64; 65; 127; 128; 129; 4095; 4096] ++
         (if String.eqb verb "send_bw" then [] else [4097; 65535; 65536]);
  [Case (verb +:+ "_" +:+ str_of_Z size +:+ "_boundary") verb size 64 1 1 true None].

Definition MULTI_CASES : list case :=
  verb ← ["send_bw"; "write_bw"; "read_bw"];
  size ← [128; 4096];
  [Case (verb +:+ "_" +:+ str_of_Z size +:+ "_multi") verb size 512 16 16 true None].

Inductive suite := Full | SyncSmoke | TimingSend | Outstanding512 | Boundaries | Multi.

Definition suite_cases (s : suite) : list case :=
  match s with
  | Full => FULL_CASES
  | SyncSmoke => SYNC_SMOKE_CASES
  | TimingSend => TIMING_SEND_CASES
  | Outstanding512 => OUTSTANDING_CASES
  | Boundaries => BOUNDARY_CASES
  | Multi => MULTI_CASES
  end.

Definition dist_sync (s : suite) : bool := match s with SyncSmoke | TimingSend => true | _ => false end.

Definition queue_depth (s : suite) : option Z :=
  match s with
  | Outstanding512 | TimingSend => Some 512
  | Boundaries | Multi => Some 64
  | _ => None
  end.

(** ** Time fences *)

Definition participants : list string := ["host0"; "host1"; "udma0"; "udma1"; "network"].

Definition fence_logs (root : string) : list (string * string) :=
  [("host0", root +:+ "/node0/gem5.log"); ("host1", root +:+ "/node1/gem5.log");
   ("udma0", root +:+ "/udma-node0/udma.log"); ("udma1", root +:+ "/udma-node1/udma.log");
   ("network", root +:+ "/ub-switch/gem5.log")].

Definition fence_tag (name : string) : string :=
  if startswith name "host" then "UB_HOST_FENCE"
  else if startswith name "udma" then "UDMA_FENCE" else "NS3_UB_NET_FENCE".

(** What one fence line says. *)
Inductive fence_line :=
  | Malformed
  | Fence (generation active : Z) (endpoints : option string).

Definition read_fence (line : string) : fence_line :=
  let fields := foldl (λ d kv, dset d kv.1 kv.2) [] (findall false m_assign line) in
  match g ← dget fields "generation"; parse_nat g, a ← dget fields "active"; parse_nat a with
  | Some g, Some a => Fence g a (dget fields "endpoints")
  | _, _ => Malformed
  end.

Definition fence_lines (name log : string) : list fence_line :=
  read_fence <$> List.filter (contains ("[" +:+ fence_tag name +:+ "]")) (splitlines log).

Inductive fence_error :=
  | ErrMalformed (name : string)
  | ErrEndpoints
  | ErrIncomplete (name : string)
  | ErrAlternation (name : string)
  | ErrGenerations (name : string)
  | ErrDisagreement (name : string).

(** The loop over one participant's lines: its sequence and its errors. *)
Definition fence_step (name : string) (st : list (Z * Z) * list fence_error) (f : fence_line)
    : list (Z * Z) * list fence_error :=
  match f with
  | Malformed => (st.1, st.2 ++ [ErrMalformed name])
  | Fence g a e =>
      (st.1 ++ [(g, a)],
       st.2 ++ (if String.eqb name "network" && negb (bool_decide (e = Some "2"))
                then [ErrEndpoints] else []))
  end.

(** [active != (1 if i % 2 == 0 else 0)] for some [i], from index parity [even]. *)
Fixpoint alternation_broken (even : bool) (sequence : list (Z * Z)) : bool :=
  match sequence with
  | [] => false
  | (_, active) :: sequence' =>
      negb (active =? (if even then 1 else 0)) || alternation_broken (negb even) sequence'
  end.

(** [b[0] <= a[0]] for some neighbours. *)
Fixpoint generations_broken (sequence : list (Z * Z)) : bool :=
  match sequence with
  | a :: ((b :: _) as sequence') => (b.1 <=? a.1) || generations_broken sequence'
  | _ => false
  end.

Definition check_participant (logs : list (string * string)) (name : string)
    : list (Z * Z) * list fence_error :=
  let '(sequence, errors) :=
    foldl (fence_step name) ([], []) (fence_lines name (default EmptyString (dget logs name))) in
  (sequence,
   errors ++
   (if bool_decide (sequence = []) || negb (len sequence mod 2 =? 0) then [ErrIncomplete name] else []) ++
   (if alternation_broken true sequence then [ErrAlternation name] else []) ++
   (if generations_broken sequence then [ErrGenerations name] else [])).

(** One turn of the loop over the participants. *)
Definition validate_participant (logs : list (string * string))
    (st : option (list (Z * Z)) * list fence_error) (name : string)
    : option (list (Z * Z)) * list fence_error :=
  let '(sequence, errors) := check_participant logs name in
  match st.1 with
  | None => (Some sequence, st.2 ++ errors)
  | Some reference =>
      (Some reference,
       st.2 ++ errors ++ (if bool_decide (sequence = reference) then [] else [ErrDisagreement name]))
  end.

Definition validate_fences (logs : list (string * string)) : list fence_error :=
  (foldl (validate_participant logs) (None, []) participants).2.

(** A log file as [open], [stat] and [read] see it: [None] when it cannot be
    opened. *)
Abbreviation file := (option (list Z)).

Inductive delta_error := ErrTruncated (name : string) | ErrUnreadable (name : string).

(** The bytes one participant logged since [start]. *)
Definition fence_delta (name : string) (start : option nat) (f : file) : list Z * list delta_error :=
  match f with
  | None => ([], [ErrUnreadable name])
  | Some data =>
      match start with
      | None => ([], [ErrTruncated name])
      | Some n => if (length data <? n)%nat then ([], [ErrTruncated name]) else (drop n data, [])
      end
  end.

(** One turn of the loop over the logs: [logs] and [errors] grow. *)
Definition add_delta (acc : list (string * list Z) * list delta_error) (e : string * (option nat * file))
    : list (string * list Z) * list delta_error :=
  let '(data, errors) := fence_delta e.1 e.2.1 e.2.2 in
  (acc.1 ++ [(e.1, data)], acc.2 ++ errors).

(** What the logs added, and what is wrong with them. *)
Definition fence_deltas (entries : list (string * (option nat * file)))
    : list (string * list Z) * list delta_error :=
  foldl add_delta ([], []) entries.

(** [collect_fence_deltas]: each delta is also copied beside the results by
    [write], which may raise. *)
Fixpoint collect_deltas {E} (write : string → list Z → io E unit)
    (acc : list (string * list Z) * list delta_error) (entries : list (string * (option nat * file)))
    : io E (list (string * list Z) * list delta_error) :=
  match entries with
  | [] => io_ret acc
  | e :: entries' =>
      write e.1 (fence_delta e.1 e.2.1 e.2.2).1 ;;;
      collect_deltas write (add_delta acc e) entries'
  end.
Definition collect_fence_deltas {E} (write : string → list Z → io E unit)
    (entries : list (string * (option nat * file))) : io E (list (string * list Z) * list delta_error) :=
  collect_deltas write ([], []) entries.

(** ** Transcripts *)

Inductive output_error :=
  | ErrTranscripts
  | ErrDepth (node : nat) (got : list string)
  | ErrResult (node : nat)
  | ErrScan (node : nat)
  | ErrJettys (got : list string)
  | ErrFence (e : fence_error)
  | ErrDelta (e : delta_error).

Definition check_section (depth size iterations : Z) (source_node_only : bool) (index : nat)
    (section : string) : list output_error :=
  let depths := findall false (m_labelled "JFS depth") section in
  let expected := if source_node_only && Nat.eqb index 0 then [] else [str_of_Z depth] in
  (if bool_decide (depths = expected) then [] else [ErrDepth index depths]) ++
  (if Nat.eqb (length (findall true (m_row (m_self (str_of_Z size)) (m_self (str_of_Z iterations))
                                       m_float 3) section)) 1
   then [] else [ErrResult index]).

Definition validate_depth_output (output : string) (depth size iterations : Z)
    (source_node_only : bool) : list output_error :=
  let sections := uart_sections output in
  (if Nat.eqb (length sections) 2 then [] else [ErrTranscripts]) ++
  concat (imap (check_section depth size iterations source_node_only) sections).

(** The rows a full scan must print. *)
Definition scan_expected (exponent iterations : Z) : list (string * string) :=
  (λ power, (str_of_Z (Z.shiftl 1 (Z.of_nat power)), str_of_Z iterations))
    <$> seq 1 (Z.to_nat exponent).

Definition validate_bw_scan (output : string) (exponent iterations : Z) : list output_error :=
  let sections := uart_sections output in
  (if Nat.eqb (length sections) 2 then [] else [ErrTranscripts]) ++
  concat (imap (λ index section,
    if bool_decide ((λ r : string * string * list string, r.1)
                      <$> findall true (m_row m_digits m_digits m_float 3) section
                    = scan_expected exponent iterations)
    then [] else [ErrScan index]) sections).

(** [(?m)^(\d+):], the last match. *)
Definition last_gem5_tick (text : option string) : option Z :=
  t ← text;
  d ← last (findall true (λ s, d ← m_digits s; c ← m_lit ":" d.2; Some (d.1, c.2)) t);
  parse_nat d.

Definition tick_delta (before after : option Z) : option Z :=
  match before, after with
  | Some b, Some a => if a <? b then None else Some (a - b)
  | _, _ => None
  end.

(** ** Guest command lines *)

Definition command (verb : string) (size iterations post_list cq_mod port : Z) (server : option string)
    (bidirectional dist_sync : bool) (all_exponent queue_depth : option Z) (jettys : Z) : string :=
  join " "
    ((if dist_sync then ["UBSIM_DIST_SYNC=1"; "OPENURMA_DIST_SYNC=1"] else []) ++
     ["LD_LIBRARY_PATH=/lib:/usr/lib"; "urma_perftest"; verb; "-d"; "udma0"; "--eid_idx"; "0"; "--ctp";
      "-P"; str_of_Z port; "-J"; str_of_Z jettys; "-I"; "64"; "-n"; str_of_Z iterations;
      "-l"; str_of_Z post_list; "-Q"; str_of_Z cq_mod; "-p"; "0"] ++
     match queue_depth with Some d => ["-T"; str_of_Z d; "-R"; str_of_Z d] | None => [] end ++
     (if 1 <? jettys then ["--jettys_pre_jfr"; "1"] else []) ++
     match all_exponent with Some e => ["-a" +:+ str_of_Z e] | None => ["-s"; str_of_Z size] end ++
     (if bidirectional then ["-B"] else []) ++
     match server with Some s => ["-S"; s] | None => [] end).

(** ** A case and a suite *)

(** What running one case's two commands yields. *)
Record observed := Observed {
  o_returncode : Z;
  o_output : string;
  o_fences : option (list (string * (option nat * file)))
    (** the fence logs with their sizes before the case, when they are checked *)
}.

Section run.
(** [bytes.decode(errors="replace")]. *)
Variable decode : list Z → string.
Variable the_suite : suite.
Variable jettys : Z.

(** The errors of what the fence logs added. *)
Definition delta_errors (collected : list (string * list Z) * list delta_error) : list output_error :=
  (ErrDelta <$> collected.2) ++
  (ErrFence <$> validate_fences ((λ nd : string * list Z, (nd.1, decode nd.2)) <$> collected.1)).

Definition fence_errors (o : observed) : list output_error :=
  match o_fences o with
  | None => []
  | Some entries => delta_errors (fence_deltas entries)
  end.

(** The errors of what the two commands printed. *)
Definition output_errors (c : case) (output : string) : list output_error :=
  (match queue_depth the_suite with
   | Some d => validate_depth_output output d (k_size c) (k_iterations c * jettys)
                 (match the_suite with TimingSend => true | _ => false end)
   | None => []
   end) ++
  (if 1 <? jettys then
     let seen := findall false (m_labelled "Number of jettys") output in
     if bool_decide (seen = [str_of_Z jettys; str_of_Z jettys]) then [] else [ErrJettys seen]
   else []) ++
  (match k_all_exponent c with
   | Some e => if endswith (k_verb c) "_bw" then validate_bw_scan output e (k_iterations c) else []
   | None => []
   end).

Definition case_errors (c : case) (o : observed) : list output_error :=
  output_errors c (o_output o) ++ fence_errors o.

Definition accepted (c : case) (o : observed) : bool :=
  (o_returncode o =? 0) && bool_decide (case_errors c o = []).

End run.

(** ** Collecting the deltas *)

(** Every delta is copied, in the order of the logs, and what is collected does
    not depend on the copies. *)
Lemma collect_performs {E} (fails : list E → E → option exn) (copy : string → list Z → E) entries :
  performs ((λ nd : string * list Z, copy nd.1 nd.2) <$> (fence_deltas entries).1) (λ r, r = fence_deltas entries)
    (collect_fence_deltas (λ name data, attempt fails (copy name data)) entries).
Proof.
  set (ev := λ nd : string * list Z, copy nd.1 nd.2).
  assert (∀ l acc, ∃ more, (foldl add_delta acc l).1 = acc.1 ++ more ∧
    performs (ev <$> more) (λ r, r = foldl add_delta acc l)
      (collect_deltas (λ name data, attempt fails (copy name data)) acc l)) as H.
  { induction l as [|e l IH]; intros acc; cbn [foldl collect_deltas].
    - exists []. split; [by rewrite app_nil_r|]. by apply performs_ret.
    - destruct (IH (add_delta acc e)) as (more & H1 & H2).
      exists ((e.1, (fence_delta e.1 e.2.1 e.2.2).1) :: more). split.
      + rewrite H1. unfold add_delta. destruct (fence_delta _ _ _). cbn. by rewrite <- app_assoc.
      + rewrite fmap_cons, <- (app_nil_l (ev <$> more)), app_comm_cons.
        eapply performs_bind; [apply performs_attempt|]. intros _ _. exact H2. }
  destruct (H entries ([], [])) as (more & H1 & H2). unfold fence_deltas. rewrite H1. exact H2.
Qed.

(** ** The fence check is exact *)

(** The lines of a participant are all well formed and read as [seq]. *)
Definition well_read (name log : string) (seq : list (Z * Z)) : Prop :=
  Forall2 (λ f p, ∃ e, f = Fence p.1 p.2 e ∧ (name = "network" → e = Some "2"))
    (fence_lines name log) seq.

(** A complete enter/leave history: alternating 1, 0 from 1 to 0, generations
    increasing. *)
Record complete (seq : list (Z * Z)) : Prop := {
  co_pairs : seq ≠ [] ∧ len seq mod 2 = 0;
  co_active : ∀ i g a, seq !! i = Some (g, a) → a = if Nat.even i then 1 else 0;
  co_generations : ∀ i a b, seq !! i = Some a → seq !! S i = Some b → a.1 < b.1
}.

Lemma fence_fold name ls s0 e0 :
  (foldl (fence_step name) (s0, e0) ls).2 = [] ↔
  e0 = [] ∧ ∃ t, (foldl (fence_step name) (s0, e0) ls).1 = s0 ++ t ∧
    Forall2 (λ f p, ∃ e, f = Fence p.1 p.2 e ∧ (name = "network" → e = Some "2")) ls t.
Proof.
  revert s0 e0. induction ls as [|f ls IH]; intros s0 e0; cbn [foldl].
  - cbn. split; [intros ->|by intros [? _]]. split; [done|]. exists []. by rewrite app_nil_r.
  - destruct f as [|g a e]; cbn [fence_step fst snd]; rewrite IH.
    + split; [intros [[_ ?]%app_eq_nil _]; done|]. intros [_ (t & _ & Ht)].
      inversion Ht as [|? ? ? ? (? & ? & _)]; done.
    + assert (∀ b : bool, (if b then [ErrEndpoints] else []) = [] ↔ b = false) as Hb by (by intros []).
      split.
      * intros [[-> Hn%Hb]%app_eq_nil (t & Ht & HF)]. split; [done|].
        exists ((g, a) :: t). rewrite Ht, <- app_assoc. split; [done|].
        constructor; [|done]. exists e. split; [done|]. intros ->. str_eqb. cbn in Hn. by bool_inv.
      * intros [-> (t & Ht & HF)]. inversion HF as [|? [g' a'] ? t' (e' & He & Hn) HF']; subst.
        injection He as -> -> ->. cbn [fst snd] in *. split.
        -- cbn. apply Hb. destruct (String.eqb_spec name "network") as [->|]; [|done].
           cbn. rewrite bool_decide_true by auto. done.
        -- exists t'. split; [|done]. rewrite Ht, <- app_assoc. done.
Qed.

Lemma fence_fold_seq name ls s0 e0 t :
  Forall2 (λ f p, ∃ e, f = Fence p.1 p.2 e ∧ (name = "network" → e = Some "2")) ls t →
  (foldl (fence_step name) (s0, e0) ls).1 = s0 ++ t.
Proof.
  intros HF. revert s0 e0. induction HF as [|f [g a] ls t (e & -> & _) _ IH]; intros s0 e0; cbn.
  - by rewrite app_nil_r.
  - rewrite IH. by rewrite <- app_assoc.
Qed.

Lemma alternation_spec even seq :
  alternation_broken even seq = false ↔
  ∀ i g a, seq !! i = Some (g, a) → a = if Bool.eqb (Nat.even i) even then 1 else 0.
Proof.
  revert even. induction seq as [|[g a] seq IH]; intros even; cbn; [by split|].
  rewrite orb_false_iff, negb_false_iff, Z.eqb_eq, IH. split.
  - intros [-> H] [|i] g' a' Hi; cbn in Hi; simplify_eq; [by destruct even|].
    rewrite (H _ _ _ Hi), Nat.even_succ, <- Nat.negb_even.
    by destruct (Nat.even i), even.
  - intros H. split; [rewrite (H 0%nat g a eq_refl); by destruct even|].
    intros i g' a' Hi. rewrite (H (S i) g' a' Hi), Nat.even_succ, <- Nat.negb_even.
    by destruct (Nat.even i), even.
Qed.

Lemma generations_spec seq :
  generations_broken seq = false ↔
  ∀ i a b, seq !! i = Some a → seq !! S i = Some b → a.1 < b.1.
Proof.
  induction seq as [|a [|b seq] IH]; cbn [generations_broken]; [by split|by split|].
  rewrite orb_false_iff, Z.leb_gt, IH. split.
  - intros [Hab H] [|i] x y Hx Hy; cbn in *; simplify_eq; [done|]. by eapply H.
  - intros H. split; [by apply (H 0%nat)|]. intros i x y Hx Hy. by apply (H (S i)).
Qed.

Lemma if_nil {A} (b : bool) (x : A) : (if b then [x] else []) = [] ↔ b = false.
Proof. by destruct b. Qed.

Lemma complete_spec seq :
  complete seq ↔
  (bool_decide (seq = []) || negb (len seq mod 2 =? 0) = false) ∧
  alternation_broken true seq = false ∧ generations_broken seq = false.
Proof.
  rewrite orb_false_iff, bool_decide_eq_false, negb_false_iff, Z.eqb_eq, alternation_spec, generations_spec.
  split.
  - intros [[? ?] Ha Hg]. split_and!; [done..| |done].
    intros i g a Hi. rewrite (Ha i g a Hi). by destruct (Nat.even i).
  - intros ([? ?] & Ha & Hg). split; [done| |done].
    intros i g a Hi. rewrite (Ha i g a Hi). by destruct (Nat.even i).
Qed.

Lemma check_participant_nil logs name :
  (check_participant logs name).2 = [] ↔
  well_read name (default EmptyString (dget logs name)) (check_participant logs name).1 ∧
  complete (check_participant logs name).1.
Proof.
  unfold check_participant, well_read. set (ls := fence_lines _ _).
  destruct (foldl (fence_step name) ([], []) ls) as [seq errors] eqn:E. cbn [fst snd].
  rewrite complete_spec, !app_nil, !if_nil.
  assert (errors = [] ↔ Forall2 (λ f p, ∃ e, f = Fence p.1 p.2 e ∧ (name = "network" → e = Some "2")) ls seq)
    as Herr; [|by rewrite Herr].
  pose proof (fence_fold name ls [] []) as H. rewrite E in H. cbn [fst snd app] in H.
  rewrite H. split; [by intros [_ (t & -> & ?)]|]. intros HF. split; [done|]. by exists seq.
Qed.

Lemma check_participant_seq logs name seq :
  well_read name (default EmptyString (dget logs name)) seq → (check_participant logs name).1 = seq.
Proof.
  unfold well_read, check_participant. intros HF.
  pose proof (fence_fold_seq _ _ [] [] _ HF) as H. by destruct (foldl _ _ _).
Qed.

(** C25: the fence check reports nothing if and only if the five participants
    logged one and the same complete enter/leave history, every line well formed
    and the network's fences each spanning two endpoints. *)
Theorem validate_fences_iff logs :
  validate_fences logs = [] ↔
  ∃ seq, complete seq ∧
    ∀ name, name ∈ participants → well_read name (default EmptyString (dget logs name)) seq.
Proof.
  unfold validate_fences, participants. cbn [foldl].
  pose proof (check_participant_nil logs) as Hnil. pose proof (check_participant_seq logs) as Hseq.
  unfold validate_participant at 5. pose proof (Hnil "host0") as N0. pose proof (Hseq "host0") as S0.
  destruct (check_participant logs "host0") as [s0 e0]. cbn [fst snd] in *.
  assert (∀ st name, st.1 = Some s0 →
    (validate_participant logs st name).1 = Some s0 ∧
    ((validate_participant logs st name).2 = [] ↔
     st.2 = [] ∧ well_read name (default EmptyString (dget logs name)) s0 ∧ complete s0)) as Hone.
  { intros [r es] name Hr. cbn in Hr. subst r. unfold validate_participant.
    pose proof (Hnil name) as N. pose proof (Hseq name s0) as Sq.
    destruct (check_participant logs name) as [s e]. cbn [fst snd] in *. split; [done|].
    rewrite !app_nil. case_bool_decide as Hs.
    - subst. rewrite N. naive_solver.
    - split; [by intros (_ & _ & ?)|]. intros (_ & Hw & _). destruct Hs. by apply Sq. }
  set (st1 := validate_participant logs (Some s0, [] ++ e0) "host1").
  set (st2 := validate_participant logs st1 "udma0").
  set (st3 := validate_participant logs st2 "udma1").
  destruct (Hone (Some s0, [] ++ e0) "host1" eq_refl) as [R1 H1]. fold st1 in R1, H1.
  destruct (Hone st1 "udma0" R1) as [R2 H2]. fold st2 in R2, H2.
  destruct (Hone st2 "udma1" R2) as [R3 H3]. fold st3 in R3, H3.
  destruct (Hone st3 "network" R3) as [_ H4].
  rewrite H4, H3, H2, H1. cbn [snd app]. rewrite N0. split.
  - intros Hall. exists s0. split; [naive_solver|].
    intros name Hin. rewrite !elem_of_cons, elem_of_nil in Hin. naive_solver.
  - intros (seq & Hc & Hw).
    assert (s0 = seq) as -> by (apply S0, Hw; by left).
    split_and!; try done; apply Hw; elem_dec.
Qed.

(** ** The case tables *)

(** The tables: labels name a case within its suite, whole batches make up the
    iterations, and a batch fits the configured queue. *)
Example cases_consistent :
  forallb (λ s, bool_decide (NoDup (k_label <$> suite_cases s)) &&
    forallb (λ c, (k_iterations c mod k_post_list c =? 0) && (k_cq_mod c <=? k_post_list c) &&
                  match queue_depth s with Some d => k_post_list c <=? d | None => true end)
      (suite_cases s))
    [Full; SyncSmoke; TimingSend; Outstanding512; Boundaries; Multi] = true.
Proof. vm_compute. reflexivity. Qed.

(** A suite's fence logs, as the simulators print them. *)
Definition sample_fence (tag extra : string) : string :=
  "12: [" +:+ tag +:+ "] generation=3 active=1" +:+ extra +:+ String "010" EmptyString +:+
  "noise" +:+ String "010" EmptyString +:+
  "99: [" +:+ tag +:+ "] generation=4 active=0" +:+ extra +:+ String "010" EmptyString.

Example sample_fences_valid :
  validate_fences
    [("host0", sample_fence "UB_HOST_FENCE" EmptyString); ("host1", sample_fence "UB_HOST_FENCE" EmptyString);
     ("udma0", sample_fence "UDMA_FENCE" EmptyString); ("udma1", sample_fence "UDMA_FENCE" EmptyString);
     ("network", sample_fence "NS3_UB_NET_FENCE" " endpoints=2")] = [].
Proof. vm_compute. reflexivity. Qed.
