(* ===== verification/RegressionRun.v ===== *)
(** * An RMA regression from its arguments to its report
      ([tools/run_modular_rma_regression.py], [main])

    [Regression] judges one case; here are the checks of the arguments, the two
    commands of every case, the clocks around it, the records, the report and
    its table.  Every reading, run and write may raise, which ends the
    regression. *)

From Stdlib Require Import ZArith Lia Ascii.
From stdpp Require Import base strings gmap numbers option list.
From S2P Require Import Prelude PyStr TextScan Regression.

Open Scope string_scope.
Open Scope list_scope.
Open Scope Z_scope.

(** ** Arguments *)

Record args := Args {
  a_lab : string;
  a_run_root : string;
  a_uart0 : Z;
  a_uart1 : Z;
  a_timeout : string;      (** [str(args.timeout)] *)
  a_fail_fast : bool;
  a_jettys : Z;
  a_gem5 : bool;           (** [--simulator] is gem5, not qemu *)
  a_suite : suite
}.

Definition check_args (a : args) : res unit :=
  raise usage "--jettys must be between 1 and 64" when negb ((1 <=? a_jettys a) && (a_jettys a <=? 64)) ;;
  raise usage "timing-send requires exactly one Jetty"
    when (match a_suite a with TimingSend => true | _ => false end) && negb (a_jettys a =? 1) ;;
  Ok tt.

Definition suite_name (s : suite) : string :=
  match s with
  | Full => "full"
  | SyncSmoke => "sync-smoke"
  | TimingSend => "timing-send"
  | Outstanding512 => "outstanding512"
  | Boundaries => "boundaries"
  | Multi => "multi"
  end.

(** ** What a case runs *)

Definition case_port (index : nat) : Z := 21300 + Z.of_nat index.

Definition case_command (a : args) (index : nat) (c : case) (server : option string) : string :=
  command (k_verb c) (k_size c) (k_iterations c) (k_post_list c) (k_cq_mod c) (case_port index) server
    (k_bidirectional c) (dist_sync (a_suite a)) (k_all_exponent c) (queue_depth (a_suite a)) (a_jettys a).

Definition console_argv (a : args) (server client : string) : list string :=
  ["python3"; a_lab a +:+ "/tools/dual_serial_command.py";
   "--ports"; str_of_Z (a_uart0 a); str_of_Z (a_uart1 a); "--commands"; server; client;
   "--timeout"; a_timeout a; "--prompt-kick-after"; "1"; "--stagger"; "1"; "--full-output"].

Definition case_argv (a : args) (index : nat) (c : case) : list string :=
  console_argv a (case_command a index c None) (case_command a index c (Some "10.0.0.1")).

Definition stem (index : nat) (c : case) : string :=
  pad_left "0" 2 (str_of_Z (Z.of_nat index)) +:+ "-" +:+ k_label c.

(** Whether the fence logs are read around each case. *)
Definition fenced (a : args) : bool := dist_sync (a_suite a) && a_gem5 a.
Definition paths (a : args) : list (string * string) := if fenced a then fence_logs (a_run_root a) else [].

(** ** The clocks *)

(** [max(valid_tick_deltas)], of the deltas that are known. *)
Definition max_ticks (deltas : list (option Z)) : option Z :=
  match omap id deltas with
  | [] => None
  | d :: ds => Some (foldl Z.max d ds)
  end.

(** The last ticks in both hosts' logs; [read] is [Ok None] where the file is
    absent, and any other failure to read it raises. *)
Definition ticks (a : args) (read : string → res (option string)) : res (list (option Z)) :=
  if a_gem5 a
  then mapR (λ node, text ← read (a_run_root a +:+ "/node" +:+ node +:+ "/gem5.log");
                     Ok (last_gem5_tick text)) ["0"; "1"]
  else Ok [None; None].

(** ** Records and the report *)

(** A record, without the wall clock. *)
Record record := Record_ {
  rc_index : nat;
  rc_case : case;
  rc_returncode : Z;
  rc_errors : list output_error;
  rc_evidence : list string;
  rc_accepted : bool;
  rc_ticks : list (option Z);       (** [node0_sim_ticks], [node1_sim_ticks] *)
  rc_elapsed : option Z;            (** [simulated_elapsed_ns_max], in thousandths *)
  rc_server : string;
  rc_client : string;
  rc_raw : string
}.

Record report := Report {
  rp_simulator : string;
  rp_suite : string;
  rp_synchronized : bool;
  rp_time_source : option string;
  rp_tick_period : option Z;
  rp_expected : nat;
  rp_completed : nat;
  rp_cases : list record
}.

(** What a regression does, each action listed once it is complete. *)
Inductive action :=
  | MadeOutput
  | WroteManifest (text : string)
  | RanConsoles (argv : list string)
  | WroteRaw (name text : string)
  | WroteFence (name : string) (data : list Z)
  | Printed (label : string)
  | WroteReport (r : report)
  | WroteCsv (rows : list record)
  | PrintedWall.

(** What a regression meets: what an action raises after those before it (an
    output directory that exists among them), the run's manifest, the sizes of the
    fence logs and both hosts' logs before and after each case, what its two
    commands did, and the fence logs after it. *)
Record outside := Outside {
  x_fails : list action → action → option exn;
  x_manifest : res string;
  x_offsets : nat → list (string * string) → res (list (option nat));
  x_before : nat → string → res (option string);
  x_after : nat → string → res (option string);
  x_run : nat → list string → res (Z * string);
  x_logs : nat → list (string * string) → list file
}.

Section main.
Context (decode : list Z → string) (a : args) (x : outside).

Abbreviation act := (attempt (x_fails x)).

(** The fence logs with their sizes before the case. *)
Definition entries (index : nat) (offsets : list (option nat)) : list (string * (option nat * file)) :=
  zip_with (λ (p : string * string) f, (p.1, f)) (paths a) (zip offsets (x_logs x index (paths a))).

Definition fence_file (index : nat) (c : case) (name : string) : string :=
  stem index c +:+ ".fences." +:+ name +:+ ".log".

Definition raw_name (index : nat) (c : case) : string := stem index c +:+ ".uart.txt".

Definition record_of (index : nat) (c : case) (result : Z * string)
    (collected : option (list (string * list Z) * list delta_error)) (deltas : list (option Z)) : record :=
  let errors := output_errors (a_suite a) (a_jettys a) c result.2 ++
                match collected with Some d => delta_errors decode d | None => [] end in
  Record_ index c result.1 errors ((λ p, fence_file index c p.1) <$> paths a)
    ((result.1 =? 0) && bool_decide (errors = []))
    deltas (max_ticks deltas)
    (case_command a index c None) (case_command a index c (Some "10.0.0.1"))
    (raw_name index c).

(** One turn of the loop. *)
Definition measure_case (index : nat) (c : case) : io action record :=
  offsets <- lift (x_offsets x index (paths a)) ;
  ticks_before <- lift (ticks a (x_before x index)) ;
  result <- lift (x_run x index (case_argv a index c)) ;
  emit (RanConsoles (case_argv a index c)) ;;;
  ticks_after <- lift (ticks a (x_after x index)) ;
  act (WroteRaw (raw_name index c) result.2) ;;;
  collected <- (if fenced a
                then d <- collect_fence_deltas (λ name data, act (WroteFence (fence_file index c name) data))
                            (entries index offsets) ;
                     io_ret (Some d)
                else io_ret None) ;
  act (Printed (k_label c)) ;;;
  io_ret (record_of index c result collected (zip_with tick_delta ticks_before ticks_after)).

(** The loop over the cases. *)
Fixpoint measure_cases (index : nat) (cases : list case) : io action (list record) :=
  match cases with
  | [] => io_ret []
  | c :: cases' =>
      r <- measure_case index c ;
      if a_fail_fast a && negb (rc_accepted r) then io_ret [r]
      else rs <- measure_cases (S index) cases' ; io_ret (r :: rs)
  end.

Definition report_of (records : list record) : report :=
  Report (if a_gem5 a then "gem5" else "qemu") (suite_name (a_suite a)) (dist_sync (a_suite a))
    (if a_gem5 a then Some "max gem5 UART-boundary tick delta" else None)
    (if a_gem5 a then Some 1 else None)
    (length (suite_cases (a_suite a))) (length records) records.

Definition clean (r : record) : bool := (rc_returncode r =? 0) && bool_decide (rc_errors r = []).

Definition status_of (r : report) : Z :=
  if Nat.eqb (rp_completed r) (rp_expected r) && forallb clean (rp_cases r) then 0 else 1.

Definition main : io action Z :=
  _ <- lift (check_args a) ;
  act MadeOutput ;;;
  manifest <- lift (x_manifest x) ;
  act (WroteManifest manifest) ;;;
  records <- measure_cases 0 (suite_cases (a_suite a)) ;
  act (WroteReport (report_of records)) ;;;
  act (WroteCsv records) ;;;
  act PrintedWall ;;;
  io_ret (status_of (report_of records)).
End main.

(** The consoles run by a log, its transcripts, its reports and its tables. *)
Definition consoles (l : list action) : list (list string) :=
  omap (λ e, match e with RanConsoles v => Some v | _ => None end) l.
Definition raws (l : list action) : list string :=
  omap (λ e, match e with WroteRaw n _ => Some n | _ => None end) l.
Definition reports (l : list action) : list report :=
  omap (λ e, match e with WroteReport r => Some r | _ => None end) l.
Definition tables (l : list action) : list (list record) :=
  omap (λ e, match e with WroteCsv rows => Some rows | _ => None end) l.

(** ** Names *)

(** The transcripts of a suite do not overwrite each other. *)
Lemma raw_names_distinct s :
  NoDup (imap raw_name (suite_cases s)).
Proof. apply (bool_decide_eq_true _). destruct s; vm_compute; reflexivity. Qed.

Lemma max_ticks_spec ds d :
  max_ticks ds = Some d ↔ Some d ∈ ds ∧ ∀ d', Some d' ∈ ds → d' <= d.
Proof.
  assert (∀ l a0, let m := foldl Z.max a0 l in m ∈ a0 :: l ∧ ∀ z, z ∈ a0 :: l → z <= m) as Hfold.
  { induction l as [|b l IH]; intros a0; cbn; [set_solver by lia|].
    destruct (IH (Z.max a0 b)) as [H1 H2]. split.
    - apply elem_of_cons in H1 as [->|H1]; [|set_solver]. destruct (Z.max_spec a0 b) as [[_ ->]|[_ ->]]; set_solver.
    - intros z. pose proof (H2 (Z.max a0 b) ltac:(by left)).
      rewrite !elem_of_cons. intros [->|[->|Hz]]; [lia..|]. apply H2. by right. }
  assert (∀ z, Some z ∈ ds ↔ z ∈ omap id ds) as Hin.
  { intros z. rewrite list_elem_of_omap. unfold id. split; [by exists (Some z)|]. intros (o & Ho & Heq). congruence. }
  unfold max_ticks. setoid_rewrite Hin. destruct (omap id ds) as [|b l].
  { split; [done|]. intros [H _]. by apply elem_of_nil in H. }
  destruct (Hfold l b) as [H1 H2]. split.
  - intros [= <-]. by split.
  - intros [H3 H4]. f_equal. apply Z.le_antisymm; auto.
Qed.

(** ** The outcome *)

Section outcome.
Context (decode : list Z → string) (a : args) (x : outside).

(** The record [r] is what case [index] gave: the two commands of that case were
    run, and the record is accepted exactly when [Regression] accepts what they
    did. *)
Definition recorded (index : nat) (c : case) (r : record) : Prop :=
  ∃ offsets before result after,
    x_offsets x index (paths a) = Ok offsets ∧ ticks a (x_before x index) = Ok before ∧
    x_run x index (case_argv a index c) = Ok result ∧ ticks a (x_after x index) = Ok after ∧
    let o := Observed result.1 result.2 (if fenced a then Some (entries a x index offsets) else None) in
    rc_index r = index ∧ rc_case r = c ∧ rc_returncode r = result.1 ∧ rc_raw r = raw_name index c ∧
    rc_ticks r = zip_with tick_delta before after ∧ rc_elapsed r = max_ticks (rc_ticks r) ∧
    rc_errors r = case_errors decode (a_suite a) (a_jettys a) c o ∧
    rc_accepted r = accepted decode (a_suite a) (a_jettys a) c o.

(** The cases of [l] and nothing of a report. *)
Definition cases_only (l : list action) : Prop := reports l = [] ∧ tables l = [].

Lemma cases_only_app l l' : cases_only l → cases_only l' → cases_only (l ++ l').
Proof. unfold cases_only, reports, tables. rewrite !omap_app. by intros [-> ->] [-> ->]. Qed.

(** What one case adds: at most its consoles and its transcript, both of them if
    it ends with a record. *)
Definition case_done (index : nat) (c : case) (l : list action) (out : res record) : Prop :=
  consoles l `prefix_of` [case_argv a index c] ∧ raws l `prefix_of` [raw_name index c] ∧ cases_only l ∧
  ∀ r, out = Ok r → consoles l = [case_argv a index c] ∧ raws l = [raw_name index c] ∧ recorded index c r.

Lemma fence_copies index c (nds : list (string * list Z)) l :
  l `prefix_of` ((λ nd, WroteFence (fence_file index c nd.1) nd.2) <$> nds) →
  consoles l = [] ∧ raws l = [] ∧ cases_only l.
Proof.
  intros [t Ht]. assert (Forall (λ e, match e with WroteFence _ _ => True | _ => False end) l) as HF.
  { apply (Forall_app _ l t). rewrite <- Ht. apply Forall_fmap, Forall_true. done. }
  clear Ht. induction HF as [|e l He _ (I1 & I2 & I3 & I4)]; [done|]. destruct e; try done.
Qed.

Lemma measure_case_spec index c : adds (case_done index c) (measure_case decode a x index c).
Proof.
  assert (∀ e, case_done index c [] (Err e)) as F0.
  { intros e. split_and!; try done; eexists; reflexivity. }
  assert (∀ e, case_done index c [RanConsoles (case_argv a index c)] (Err e)) as F1.
  { intros e. split_and!; try done; eexists; reflexivity. }
  assert (∀ text fs e, (consoles fs = [] ∧ raws fs = [] ∧ cases_only fs) →
    case_done index c (RanConsoles (case_argv a index c) :: WroteRaw (raw_name index c) text :: fs) (Err e)) as F2.
  { intros text fs e (E1 & E2 & E3 & E4). unfold case_done, cases_only, consoles, raws, reports, tables in *. cbn.
    rewrite E1, E2, E3, E4. split_and!; try done; eexists; by rewrite app_nil_r. }
  unfold measure_case.
  apply adds_lift_then; [auto|intros offsets Ho]. apply adds_lift_then; [auto|intros before Hb].
  apply adds_lift_then; [auto|intros result Hr]. apply adds_emit_then.
  apply adds_lift_then; [auto|intros after Ha]. apply adds_attempt_then; [auto|].
  set (o := Observed result.1 result.2 (if fenced a then Some (entries a x index offsets) else None)).
  eapply (adds_bind (λ l r, (consoles l = [] ∧ raws l = [] ∧ cases_only l) ∧
    ∀ col, r = Ok col → fence_errors decode o = match col with Some d => delta_errors decode d | None => [] end)).
  - unfold o. destruct (fenced a); [|apply adds_ret; split; [done|by intros ? [= <-]]].
    eapply adds_bind; [apply collect_performs| |].
    + intros l e H. split; [|done]. exact (fence_copies index c _ _ H).
    + intros l d [-> ->]. apply adds_ret. rewrite app_nil_r.
      split; [by apply (fence_copies index c (fence_deltas (entries a x index offsets)).1)|]. by intros ? [= <-].
  - intros l e [H _]. by apply F2.
  - intros l col [Hl Hcol]. apply adds_attempt_then; [intros e; rewrite app_nil_r; by apply F2|]. apply adds_ret.
    specialize (Hcol col eq_refl). destruct Hl as (E1 & E2 & E3 & E4).
    unfold case_done, cases_only, consoles, raws, reports, tables in *. cbn. rewrite !omap_app, E1, E2, E3, E4. cbn.
    split_and!; try done. intros r [= <-]. split_and!; try done.
    exists offsets, before, result, after. cbv zeta. fold o. unfold accepted, case_errors. rewrite Hcol. by split_and!.
Qed.

(** What the loop adds from case [index] on: the first of the consoles and of the
    transcripts of the cases; and if it ends, the records of exactly these. *)
Definition measured (index : nat) (cases : list case) (argvs : list (list string)) (names : list string)
    (l : list action) (out : res (list record)) : Prop :=
  consoles l `prefix_of` argvs ∧ raws l `prefix_of` names ∧ cases_only l ∧
  ∀ rs, out = Ok rs →
    let n := length rs in
    (n ≤ length cases)%nat ∧
    (∀ k r, rs !! k = Some r → ∃ c, cases !! k = Some c ∧ recorded (index + k) c r) ∧
    consoles l = take n argvs ∧ raws l = take n names ∧
    (n < length cases → a_fail_fast a = true ∧ ∃ r, last rs = Some r ∧ rc_accepted r = false)%nat.

Lemma measure_cases_spec index cases :
  adds (measured index cases (imap (λ k c, case_argv a (index + k) c) cases) (imap (λ k c, raw_name (index + k) c) cases))
    (measure_cases decode a x index cases).
Proof.
  revert index. induction cases as [|c cases IH]; intros index; cbn [measure_cases].
  { apply adds_ret. unfold measured. cbn. split_and!; try done. intros rs [= <-]. cbn. split_and!; try done. lia. }
  assert (∀ A (f : nat → case → A), imap (λ k c, f (index + k)%nat c) (c :: cases) =
            f index c :: imap (λ k c, f (S index + k)%nat c) cases) as Hi.
  { intros A f. cbn. rewrite Nat.add_0_r. f_equal. apply imap_ext. intros k c' _. cbn. f_equal. lia. }
  rewrite (Hi _ (case_argv a)), (Hi _ raw_name). unfold measured.
  eapply adds_bind; [apply measure_case_spec| |].
  - intros l e (H1 & H2 & H3 & _). split_and!; [|..|done|done];
      (etrans; [eassumption|]); by apply (prefix_app_r [_] [_]).
  - intros l r (_ & _ & H3 & H4). destruct (H4 r eq_refl) as (E1 & E2 & Hr).
    destruct (a_fail_fast a && negb (rc_accepted r)) eqn:E.
    + apply adds_ret. rewrite app_nil_r, E1, E2. split_and!; [by eexists..|done|]. intros rs [= <-]. cbn.
      split_and!; [lia| |done|done|].
      * intros [|k] r' Hk; [|done]. injection Hk as <-. exists c. rewrite Nat.add_0_r. done.
      * intros _. bool_inv. split; [done|]. by exists r.
    + eapply adds_bind; [apply IH| |].
      * intros l' e (I1 & I2 & I3 & _). unfold consoles, raws in *. rewrite !omap_app, E1, E2.
        split_and!; [by apply prefix_cons..|by apply cases_only_app|done].
      * intros l' rs (I1 & I2 & I3 & I4). apply adds_ret. rewrite app_nil_r.
        destruct (I4 rs eq_refl) as (J1 & J2 & J3 & J4 & J5).
        unfold consoles, raws in *. rewrite !omap_app, E1, E2.
        split_and!; [by apply prefix_cons..|by apply cases_only_app|]. intros rs' [= <-]. cbn. split_and!.
        -- lia.
        -- intros [|k] r' Hk; cbn in Hk.
           ++ injection Hk as <-. exists c. by rewrite Nat.add_0_r.
           ++ destruct (J2 k r' Hk) as (c' & ? & ?). exists c'. split; [done|]. by replace (index + S k)%nat with (S index + k)%nat by lia.
        -- by rewrite J3.
        -- by rewrite J4.
        -- intros Hn. destruct J5 as (? & r' & Hr' & ?); [lia|]. split; [done|]. exists r'. split; [|done].
           destruct rs; [done|]. exact Hr'.
Qed.

(** What a report of [records] says, and what is in the log with it. *)
Definition reported (l : list action) (records : list record) : Prop :=
  let n := length records in
  let cases := suite_cases (a_suite a) in
  reports l = [report_of a records] ∧ (n ≤ length cases)%nat ∧
  (∀ k r, records !! k = Some r → ∃ c, cases !! k = Some c ∧ recorded k c r) ∧
  consoles l = take n (imap (case_argv a) cases) ∧ raws l = take n (imap raw_name cases) ∧
  (n < length cases → a_fail_fast a = true ∧ ∃ r, last records = Some r ∧ rc_accepted r = false)%nat.

(** How a regression ends: it raised before its report, or the report is there;
    then it raised on the table or what it prints last, or ended with its status. *)
Definition outcome (l : list action) (out : res Z) : Prop :=
  let cases := suite_cases (a_suite a) in
  consoles l `prefix_of` imap (case_argv a) cases ∧ raws l `prefix_of` imap raw_name cases ∧
  (cases_only l ∧ is_ok out = false ∨
   ∃ records, reported l records ∧
     ∀ z, out = Ok z →
       tables l = [records] ∧ (z = 0 ∨ z = 1) ∧
       (z = 0 ↔ length records = length cases ∧ ∀ r, r ∈ records → rc_accepted r = true)).

Lemma status_spec records :
  (∀ k r, records !! k = Some r → ∃ c, suite_cases (a_suite a) !! k = Some c ∧ recorded k c r) →
  let z := status_of (report_of a records) in
  (z = 0 ∨ z = 1) ∧
  (z = 0 ↔ length records = length (suite_cases (a_suite a)) ∧ ∀ r, r ∈ records → rc_accepted r = true).
Proof.
  intros H z. assert (∀ r, r ∈ records → clean r = rc_accepted r) as Hc.
  { intros r (k & Hk)%list_elem_of_lookup.
    destruct (H k r Hk) as (c & _ & ? & ? & ? & ? & _ & _ & _ & _ & _ & _ & Hrc & _ & _ & _ & He & Ha).
    unfold clean. by rewrite Ha, Hrc, He. }
  unfold z, status_of. cbn [report_of rp_completed rp_expected rp_cases].
  assert (forallb clean records = true ↔ ∀ r, r ∈ records → rc_accepted r = true) as Hf.
  { rewrite forallb_forall. setoid_rewrite list_elem_of_In. split; intros Hall r Hr; specialize (Hall r Hr);
      apply list_elem_of_In in Hr; rewrite ?Hc in *; auto. }
  destruct (Nat.eqb_spec (length records) (length (suite_cases (a_suite a)))) as [E|E]; cbn [andb].
  - destruct (forallb clean records); split; auto; split; try done; [intros _; split; [done|by apply Hf]|].
    intros [_ Hall]. by apply Hf in Hall.
  - split; [by right|]. split; [done|]. by intros [? _].
Qed.

Lemma main_outcome : adds outcome (main decode a x).
Proof.
  assert (∀ l e, consoles l = [] → raws l = [] → cases_only l → outcome l (Err e)) as F.
  { intros l e H1 H2 H3. unfold outcome. rewrite H1, H2. split_and!; [apply prefix_nil..|by left]. }
  unfold main. apply adds_lift_then; [intros; by apply F|intros _ _].
  apply adds_attempt_then; [intros; by apply F|]. apply adds_lift_then; [intros; by apply F|intros manifest _].
  apply adds_attempt_then; [intros; by apply F|].
  eapply adds_bind; [apply measure_cases_spec| |].
  - intros l e (H1 & H2 & H3 & _). split_and!; [exact H1|exact H2|]. by left.
  - intros l records (H1 & H2 & [H3 H3'] & H4). destruct (H4 records eq_refl) as (J1 & J2 & J3 & J4 & J5).
    destruct (status_spec records J2) as [Hz1 Hz2].
    apply adds_attempt_then.
    { intros e. rewrite app_nil_r. split_and!; [exact H1|exact H2|]. by left. }
    assert (∀ more out, consoles more = [] → raws more = [] → reports more = [] →
      (∀ z, out = Ok z → tables more = [records] ∧ z = status_of (report_of a records)) →
      outcome (MadeOutput :: WroteManifest manifest :: l ++ WroteReport (report_of a records) :: more) out) as G.
    { intros more out E1 E2 E3 E4. unfold outcome, reported, consoles, raws, reports, tables in *. cbn.
      rewrite !omap_app. cbn. rewrite E1, E2, E3, H3, H3', !app_nil_r. split_and!; [exact H1|exact H2|].
      right. exists records. split_and!; try done. intros z Hz. destruct (E4 z Hz) as [-> ->]. by split_and!. }
    apply adds_attempt_then; [intros e; by apply G|].
    apply adds_attempt_then; [intros e; by apply G|].
    apply adds_ret. apply G; try done. by intros z [= <-].
Qed.

(** Nothing that the regression reads, runs or writes raises. *)
Record undisturbed : Prop := {
  un_fails : ∀ l e, x_fails x l e = None;
  un_manifest : is_ok (x_manifest x) = true;
  un_offsets : ∀ index ps, is_ok (x_offsets x index ps) = true;
  un_before : ∀ index f, is_ok (x_before x index f) = true;
  un_after : ∀ index f, is_ok (x_after x index f) = true;
  un_run : ∀ index v, is_ok (x_run x index v) = true
}.

Lemma ticks_read read : (∀ f, is_ok (read f) = true) → is_ok (ticks a read) = true.
Proof.
  intros H. unfold ticks. destruct (a_gem5 a); [|done]. cbn.
  do 2 (match goal with |- context [read ?f] => let E := fresh in pose proof (H f) as E; destruct (read f); [cbn|discriminate] end).
  done.
Qed.

Lemma succeeds_read {A} (m : res A) : is_ok m = true → succeeds (E := action) True (lift m).
Proof. intros H. eapply succeeds_iff; [|apply succeeds_lift]. tauto. Qed.

Lemma main_succeeds : check_args a = Ok tt → undisturbed → succeeds True (main decode a x).
Proof.
  intros Ha [Hf Hm Ho Hb Hl Hr].
  assert (∀ e, succeeds True (attempt (x_fails x) e)) as Hact by (intros e; by apply succeeds_attempt).
  unfold main. apply succeeds_then; [apply succeeds_read; by rewrite Ha|intros _].
  apply succeeds_then; [apply Hact|intros _]. apply succeeds_then; [by apply succeeds_read|intros manifest].
  apply succeeds_then; [apply Hact|intros _]. apply succeeds_then.
  2:{ intros records. do 3 (apply succeeds_then; [apply Hact|intros _]). by apply succeeds_ret. }
  generalize 0%nat. generalize (suite_cases (a_suite a)). intros cases.
  induction cases as [|c cases IH]; intros index; cbn [measure_cases]; [by apply succeeds_ret|].
  apply succeeds_then.
  - unfold measure_case. do 3 (apply succeeds_then; [apply succeeds_read; auto using ticks_read|intros ?]).
    apply succeeds_then; [by apply succeeds_emit|intros _].
    apply succeeds_then; [apply succeeds_read; auto using ticks_read|intros ?].
    apply succeeds_then; [apply Hact|intros _]. apply succeeds_then.
    + destruct (fenced a); [|by apply succeeds_ret]. apply succeeds_then; [|intros ?; by apply succeeds_ret].
      unfold collect_fence_deltas. generalize (@nil (string * list Z), @nil delta_error).
      induction (entries _ _ _ _) as [|e l IHl]; intros acc; cbn [collect_deltas]; [by apply succeeds_ret|].
      apply succeeds_then; [apply Hact|intros _; apply IHl].
    + intros col. apply succeeds_then; [apply Hact|intros _; by apply succeeds_ret].
  - intros r. destruct (_ && _); [by apply succeeds_ret|]. apply succeeds_then; [apply IH|intros; by apply succeeds_ret].
Qed.

(** C39: a regression whose arguments pass the checks writes its report and ends
    with status 0 or 1 unless something it reads, runs or writes raises.  However
    it ends, it ran the first cases of the suite, in order, each by the two
    commands of that very case on its own port, with its transcript under its own
    name.  It ends without a report only by an exception; a report, whenever there
    is one, holds exactly one record of each case that was run, with the verdict on
    what its commands did; all cases are there unless the regression was to stop at
    a failure, and then the last record is the failure.  The status, once the table
    is written too, is 0 exactly when every case of the suite is in the report and
    accepted. *)
Theorem regression_reported :
  let '(l, out) := main decode a x [] in
  let cases := suite_cases (a_suite a) in
  consoles l `prefix_of` imap (case_argv a) cases ∧ raws l `prefix_of` imap raw_name cases ∧ NoDup (raws l) ∧
  (reports l = [] ∧ tables l = [] ∧ is_ok out = false ∨
   ∃ records, reported l records ∧
     ∀ z, out = Ok z →
       tables l = [records] ∧ (z = 0 ∨ z = 1) ∧
       (z = 0 ↔ length records = length cases ∧ ∀ r, r ∈ records → rc_accepted r = true)) ∧
  (check_args a = Ok tt → undisturbed → is_ok out = true).
Proof.
  pose proof main_succeeds as Hs. destruct (main_outcome []) as (l & Hl & H1 & H2 & H3).
  unfold succeeds in Hs. specialize (λ Ha Hu, Hs Ha Hu []). destruct (main decode a x []) as [l' out].
  cbn [fst snd app] in *. subst l'. split_and!; [exact H1|exact H2| | |].
  - destruct H2 as [t Ht]. pose proof (raw_names_distinct (a_suite a)) as Hd. rewrite Ht in Hd.
    by apply NoDup_app in Hd as [Hd _].
  - destruct H3 as [[[R1 R2] R3]|H3]; [by left|by right].
  - intros Ha Hu. by apply Hs.
Qed.
End outcome.

Definition sample_args : args :=
  Args "/lab" "/lab/run-dual" 3560 3570 "1800.0" true 1 false SyncSmoke.
Definition sample_outside (returncode : Z) : outside :=
  Outside (λ _ _, None) (Ok "simulator=qemu") (λ _ _, Ok []) (λ _ _, Ok None) (λ _ _, Ok None)
    (λ _ _, Ok (returncode, EmptyString)) (λ _ _, []).

(** A suite whose cases all pass. *)
Example all_pass :
  let r := main (λ _, EmptyString) sample_args (sample_outside 0) [] in
  r.2 = Ok 0 ∧ length (raws r.1) = 5%nat ∧ length (reports r.1) = 1%nat.
Proof. vm_compute. by split_and!. Qed.

Lemma regression_reported_witness : is_ok (main (λ _, EmptyString) sample_args (sample_outside 0) []).2 = true.
Proof.
  pose proof (regression_reported (λ _, EmptyString) sample_args (sample_outside 0)) as H.
  destruct (main (λ _, EmptyString) sample_args (sample_outside 0) []) as [l out].
  destruct H as (_ & _ & _ & _ & H). apply H; [reflexivity|]. by split.
Defined.

(** A failure stops the suite at its first case. *)
Example fail_fast_stops :
  let r := main (λ _, EmptyString) sample_args (sample_outside 1) [] in
  r.2 = Ok 1 ∧ raws r.1 = ["00-send_lat_128_sync.uart.txt"] ∧ length (reports r.1) = 1%nat.
Proof. vm_compute. by split_and!. Qed.

(** A transcript that cannot be written ends the regression without a report. *)
Example transcript_refused :
  let x := sample_outside 0 in
  let r := main (λ _, EmptyString) sample_args
    (Outside (λ l _, if Nat.eqb (length (consoles l)) 2 then Some (Exn OSError "No space left on device" []) else None)
       (x_manifest x) (x_offsets x) (x_before x) (x_after x) (x_run x) (x_logs x)) [] in
  is_ok r.2 = false ∧ length (consoles r.1) = 2%nat ∧ length (raws r.1) = 1%nat ∧ reports r.1 = [].
Proof. vm_compute. by split_and!. Qed.

(** Too many Jetties are refused before anything is made. *)
Example jettys_refused :
  main (λ _, EmptyString) (Args "/lab" "/lab/run-dual" 3560 3570 "1800.0" true 65 false Multi) (sample_outside 0) [] =
  ([], Err (usage "--jettys must be between 1 and 64")).
Proof. reflexivity. Qed.
