(* ===== verification/Shlex.v ===== *)
(** * Shell words ([shlex.split])

    The POSIX mode of the standard library's [shlex.split]: white space
    separates words, quotes and backslashes protect characters.  A text built
    from plain words reads back as those words. *)

From Stdlib Require Import ZArith Lia Ascii.
From stdpp Require Import base strings numbers option list.
From S2P Require Import Prelude PyStr.

Open Scope string_scope.
Open Scope list_scope.
Open Scope Z_scope.

(** ** The state machine *)

Definition backslash : ascii := "092"%char.
Definition double_quote : ascii := "034"%char.
Definition single_quote : ascii := "039"%char.
Definition shell_space (c : ascii) : bool :=
  Ascii.eqb c " "%char || Ascii.eqb c "009"%char || Ascii.eqb c "010"%char || Ascii.eqb c "013"%char.
Definition is_quote (c : ascii) : bool := Ascii.eqb c double_quote || Ascii.eqb c single_quote.

(** The lexer's [state]; [Escaped] keeps the state to return to. *)
Inductive lexer :=
  | Between
  | InWord
  | Quoted (quote : ascii)
  | Escaped (back : option ascii).   (** [None]: outside quotes *)

Definition no_closing : exn := Exn ValueError "No closing quotation" [].
Definition no_escaped : exn := Exn ValueError "No escaped character" [].

(** [token] is reversed; [quoted] says that an empty token counts. *)
Definition finish (quoted : bool) (token : string) (rest : list string) : list string :=
  if String.eqb token EmptyString && negb quoted then rest else String.rev token :: rest.

Fixpoint lex (state : lexer) (quoted : bool) (token s : string) : res (list string) :=
  match s with
  | EmptyString =>
      match state with
      | Between => Ok []
      | InWord => Ok (finish quoted token [])
      | Quoted _ => Err no_closing
      | Escaped _ => Err no_escaped
      end
  | String c s' =>
      match state with
      | Between =>
          if shell_space c then lex Between false EmptyString s'
          else if Ascii.eqb c backslash then lex (Escaped None) false EmptyString s'
          else if is_quote c then lex (Quoted c) true EmptyString s'
          else lex InWord false (String c EmptyString) s'
      | InWord =>
          if shell_space c then words ← lex Between false EmptyString s'; Ok (finish quoted token words)
          else if is_quote c then lex (Quoted c) true token s'
          else if Ascii.eqb c backslash then lex (Escaped None) quoted token s'
          else lex InWord quoted (String c token) s'
      | Quoted q =>
          if Ascii.eqb c q then lex InWord true token s'
          else if Ascii.eqb c backslash && Ascii.eqb q double_quote then lex (Escaped (Some q)) true token s'
          else lex (Quoted q) true (String c token) s'
      | Escaped None => lex InWord quoted (String c token) s'
      | Escaped (Some q) =>
          let token := if Ascii.eqb c backslash || Ascii.eqb c q then token else String backslash token in
          lex (Quoted q) quoted (String c token) s'
      end
  end.

Definition shlex_split (s : string) : res (list string) := lex Between false EmptyString s.

Example shlex_sample :
  shlex_split (replace_char "#"%char double_quote "A=1 run #two words# 'it''s' a\ b ##  end") =
  Ok ["A=1"; "run"; "two words"; "its"; "a b"; EmptyString; "end"].
Proof. vm_compute. reflexivity. Qed.

Example shlex_unclosed : shlex_split "run 'x" = Err no_closing.
Proof. vm_compute. reflexivity. Qed.

(** ** Plain words *)

(** Neither white space, quote nor backslash. *)
Definition shell_plain (c : ascii) : bool :=
  negb (shell_space c) && negb (is_quote c) && negb (Ascii.eqb c backslash).
Definition plain_word (w : string) : bool := negb (String.eqb w EmptyString) && str_forallb shell_plain w.

Lemma lex_word w token s :
  str_forallb shell_plain w = true →
  lex InWord false token (w +:+ s) = lex InWord false (String.rev_app w token) s.
Proof.
  revert token. induction w as [|c w IH]; intros token; cbn; [done|].
  unfold shell_plain at 1. intros [Hc Hw]%andb_true_iff. bool_inv.
  repeat match goal with H : _ = false |- _ => rewrite H end. by apply IH.
Qed.

Lemma lex_start w s :
  plain_word w = true → lex Between false EmptyString (w +:+ s) = lex InWord false (String.rev w) s.
Proof.
  unfold plain_word. destruct w as [|c w]; cbn; [done|].
  unfold shell_plain at 1. intros [Hc Hw]%andb_true_iff. bool_inv.
  repeat match goal with H : _ = false |- _ => rewrite H end. by rewrite lex_word.
Qed.

Lemma finish_word w rest : plain_word w = true → finish false (String.rev w) rest = w :: rest.
Proof.
  intros H. unfold finish. rewrite rev_rev_string.
  destruct (String.eqb_spec (String.rev w) EmptyString) as [E|]; [|done].
  apply (f_equal String.rev) in E. rewrite rev_rev_string in E. subst. done.
Qed.

(** A command written with single spaces between plain words splits into them. *)
Lemma shlex_split_join ws :
  Forall (λ w, plain_word w = true) ws → shlex_split (join " " ws) = Ok ws.
Proof.
  unfold shlex_split. induction 1 as [|w ws Hw Hws IH]; [done|].
  destruct ws as [|w' ws].
  - cbn [join]. rewrite <- (string_app_nil_r w) at 1. rewrite lex_start by done. cbn [lex].
    by rewrite finish_word.
  - change (join " " (w :: w' :: ws)) with (w +:+ String " "%char (join " " (w' :: ws))).
    rewrite lex_start by done. cbn [lex]. change (shell_space " "%char) with true. cbv iota.
    rewrite IH. cbn. by rewrite finish_word.
Qed.

(** ** Quoting ([shlex.quote]) *)

(** [[\w@%+=:,./-]], ASCII. *)
Definition shell_safe (c : ascii) : bool :=
  is_alnum_ascii c || existsb (Ascii.eqb c) ["_"; "@"; "%"; "+"; "="; ":"; ","; "."; "/"; "-"]%char.

(** [s.replace("'", "'\"'\"'")]. *)
Fixpoint escape (s : string) : string :=
  match s with
  | EmptyString => EmptyString
  | String c s' =>
      if Ascii.eqb c single_quote then
        String single_quote (String double_quote (String single_quote (String double_quote
          (String single_quote (escape s')))))
      else String c (escape s')
  end.

Definition shlex_quote (s : string) : string :=
  if String.eqb s EmptyString then "''"
  else if str_forallb shell_safe s then s
  else String single_quote (escape s +:+ String single_quote EmptyString).

Lemma shell_safe_plain c : shell_safe c = true → shell_plain c = true.
Proof.
  intros H. apply not_false_iff_true. intros Hp. revert H. apply not_true_iff_false.
  destruct c as [[] [] [] [] [] [] [] []]; vm_compute in Hp |- *; congruence.
Qed.

Lemma lex_escape s token rest :
  lex (Quoted single_quote) true token (escape s +:+ String single_quote rest) =
  lex InWord true (String.rev_app s token) rest.
Proof.
  revert token. induction s as [|c s IH]; intros token; [done|]. cbn [escape].
  destruct (Ascii.eqb_spec c single_quote) as [->|Hc].
  - cbn. apply IH.
  - cbn [String.append lex]. apply Ascii.eqb_neq in Hc. rewrite Hc. cbn [andb].
    change (Ascii.eqb single_quote double_quote) with false. rewrite andb_false_r. apply IH.
Qed.

(** The text [t] is read as the word [w], at the end of a text or before a space. *)
Definition spells (t w : string) : Prop :=
  ∀ rest, rest = EmptyString ∨ (∃ s, rest = String " "%char s) →
  lex Between false EmptyString (t +:+ rest) =
  words ← lex Between false EmptyString rest; Ok (w :: words).

Lemma lex_end token q rest :
  rest = EmptyString ∨ (∃ s, rest = String " "%char s) → q = true ∨ token ≠ EmptyString →
  lex InWord q token rest = words ← lex Between false EmptyString rest; Ok (String.rev token :: words).
Proof.
  intros Hrest Hq. assert (∀ l, finish q token l = String.rev token :: l) as Hf.
  { intros l. unfold finish. destruct (String.eqb_spec token EmptyString) as [->|], q; naive_solver. }
  destruct Hrest as [->|[s ->]]; cbn [lex]; [by rewrite Hf|].
  change (shell_space " "%char) with true. cbv iota. cbn.
  destruct (lex Between false EmptyString s); cbn; [by rewrite Hf|done].
Qed.

Lemma rev_nonempty w : w ≠ EmptyString → String.rev w ≠ EmptyString.
Proof. intros Hw E. apply Hw. by rewrite <- (rev_rev_string w), E. Qed.

Lemma spells_plain w : plain_word w = true → spells w w.
Proof.
  intros Hw rest Hrest. rewrite lex_start by done. rewrite lex_end, rev_rev_string; [done|done|]. right.
  apply rev_nonempty. unfold plain_word in Hw. apply andb_true_iff in Hw as [Hw _].
  by apply negb_true_iff, String.eqb_neq in Hw.
Qed.

(** The quoted form of a word that is not safe as it is. *)
Lemma lex_quoted w token rest :
  rest = EmptyString ∨ (∃ s, rest = String " "%char s) →
  lex (Quoted single_quote) true token ((escape w +:+ String single_quote EmptyString) +:+ rest) =
  words ← lex Between false EmptyString rest; Ok ((String.rev token +:+ w) :: words).
Proof.
  intros Hrest. rewrite string_app_assoc. cbn [String.append]. rewrite lex_escape, lex_end by auto.
  by rewrite rev_app_rev, rev_app_string, rev_rev_string.
Qed.

Lemma spells_quote w : spells (shlex_quote w) w.
Proof.
  intros rest Hrest. unfold shlex_quote. destruct (String.eqb_spec w EmptyString) as [->|Hw].
  { cbn. apply (lex_end EmptyString); [done|by left]. }
  destruct (str_forallb shell_safe w) eqn:Hs.
  - apply spells_plain; [|done]. unfold plain_word.
    apply andb_true_iff. split; [by apply negb_true_iff, String.eqb_neq|].
    by eapply str_forallb_impl; [apply shell_safe_plain|].
  - cbn [String.append lex]. change (shell_space single_quote) with false.
    change (Ascii.eqb single_quote backslash) with false. change (is_quote single_quote) with true. cbv iota.
    by apply lex_quoted.
Qed.

(** A quoted text glued to a plain word. *)
Lemma spells_glued w p : plain_word w = true → spells (w +:+ shlex_quote p) (w +:+ p).
Proof.
  intros Hw rest Hrest. rewrite string_app_assoc, lex_start by done.
  assert (String.rev w ≠ EmptyString) as Hne.
  { apply rev_nonempty. unfold plain_word in Hw. apply andb_true_iff in Hw as [Hw _].
    by apply negb_true_iff, String.eqb_neq in Hw. }
  unfold shlex_quote. destruct (String.eqb_spec p EmptyString) as [->|Hp].
  { change (lex InWord false (String.rev w) ("''" +:+ rest)) with (lex InWord true (String.rev w) rest).
    rewrite lex_end by auto. by rewrite rev_rev_string, string_app_nil_r. }
  destruct (str_forallb shell_safe p) eqn:Hs.
  - rewrite lex_word by by eapply str_forallb_impl; [apply shell_safe_plain|].
    rewrite lex_end; [|done|].
    + assert (String.rev (String.rev_app p (String.rev w)) = w +:+ p) as ->; [|done].
      by rewrite rev_app_rev, rev_app_string, !rev_rev_string.
    + right. rewrite rev_app_rev. intros E. apply (f_equal String.length) in E.
      destruct (String.rev p) eqn:Ep; [|done]. by apply (rev_nonempty p).
  - cbn [String.append lex]. change (shell_space single_quote) with false.
    change (Ascii.eqb single_quote backslash) with false. change (is_quote single_quote) with true. cbv iota.
    rewrite lex_quoted by done. by rewrite rev_rev_string.
Qed.

(** A command written with single spaces between words reads as those words. *)
Lemma shlex_split_spells ts ws : Forall2 spells ts ws → shlex_split (join " " ts) = Ok ws.
Proof.
  unfold shlex_split. induction 1 as [|t w ts ws Ht Hts IH]; [done|]. destruct ts as [|t' ts].
  - apply Forall2_nil_inv_l in Hts as ->. cbn [join]. rewrite <- (string_app_nil_r t). by rewrite Ht by by left.
  - change (join " " (t :: t' :: ts)) with (t +:+ String " "%char (join " " (t' :: ts))).
    rewrite Ht by (right; by eexists). cbn [lex]. change (shell_space " "%char) with true. cbv iota. by rewrite IH.
Qed.

Lemma spells_plain_words ws : Forall (λ w, plain_word w = true) ws → Forall2 spells ws ws.
Proof. induction 1; constructor; [by apply spells_plain|done]. Qed.

Lemma plain_num n : plain_word (str_of_Z n) = true.
Proof.
  assert (∀ m, 0 <= m → str_forallb shell_plain (str_of_Z m) = true ∧ str_of_Z m ≠ EmptyString) as H.
  { intros m Hm. split.
    - eapply str_forallb_impl; [|by apply str_of_Z_digits]. intros c Hc.
      unfold shell_plain, shell_space, is_quote. by rewrite !(digit_neq c) by (done || (vm_compute; reflexivity)).
    - intros E. pose proof (parse_nat_str m Hm) as P. rewrite <- str_of_Z_nonneg, E in P by done. done. }
  unfold plain_word. apply andb_true_iff. destruct (Z.leb_spec 0 n) as [Hn|Hn].
  - destruct (H n Hn) as [H1 H2]. split; [by apply negb_true_iff, String.eqb_neq|done].
  - destruct (H (- n) ltac:(lia)) as [H1 _]. rewrite str_of_Z_nonneg in H1 by lia.
    unfold str_of_Z. destruct (Z.ltb_spec n 0); [|lia]. split; [done|]. cbn. exact H1.
Qed.
