(* ===== verification/Experiments.v ===== *)
(** * Saved experiments ([ubsim_lab/experiments.py])

    The validation of a recipe, the preflight of a launch or an experiment, the
    guest commands, the parsing of their output and the measurement loop, any write
    of which may raise. *)

From Stdlib Require Import ZArith Lia Ascii.
From stdpp Require Import base strings gmap fin_maps numbers option list sorting.
From S2P Require Import Prelude PyStr Json Samples TextScan Topology.
From S2P Require Import TopologyFacts QemuPorts Cli ProfileDefaults ConfigRuntime Launcher Regression.

Open Scope string_scope.
Open Scope list_scope.
Open Scope Z_scope.

(** ** Recipes *)

Definition OPS : list string := ["read_bw"; "write_bw"; "read_lat"; "write_lat"].

(** The typed view of a validated recipe. *)
Record recipe := Recipe {
  operations : list string;
  sizes : list Z;
  jettys : list Z;
  total_ops : Z;
  warmups : Z;
  repeats : Z;
  depth : Z;
  jfc_depth : Z;
  post_list : Z;
  timeout_s : Z
}.

Definition recipe_fields : list string :=
  ["operations"; "sizes"; "jettys"; "total_ops"; "warmups"; "repeats"; "depth"; "jfc_depth";
   "post_list"; "timeout_s"].

Definition DEFAULT_RECIPE : json :=
  JObj [("operations", JList [JStr "read_bw"]);
        ("sizes", JList [JInt 2; JInt 32; JInt 128; JInt 512; JInt 2048; JInt 4096]);
        ("jettys", JList [JInt 1]); ("total_ops", JInt 16384); ("warmups", JInt 1);
        ("repeats", JInt 3); ("depth", JInt 8192); ("jfc_depth", JInt 524288);
        ("post_list", JInt 256); ("timeout_s", JInt 900)].

Definition value_error (fmt : string) (args : list parg) : exn := Exn ValueError fmt args.

(** [set(raw) != set(DEFAULT_RECIPE)]. *)
Definition same_keys (o : jobj) : bool :=
  forallb (λ k, elemb k recipe_fields) (keys o) && forallb (λ k, has o k) recipe_fields.

Section recipes.
(** [str(v)]: the standard library's formatting. *)
Variable py_str : json → string.

(** The list checks of one field. *)
Definition check_values (field : string) (choices : option (list string)) (maximum : Z) (v : json)
    : res (list json) :=
  match v with
  | JList values =>
      raise value_error "{field} needs 1-{maximum} distinct values" [PS field; PZ maximum]
        when negb ((1 <=? len values) && (len values <=? maximum))
             || negb (bool_decide (NoDup (py_str <$> values))) ;;
      raise value_error "{field} has unsupported tests" [PS field]
        when match choices with
             | Some l => existsb (λ v, negb (in_strs v l)) values
             | None => false
             end ;;
      Ok values
  | _ => Err (value_error "{field} needs 1-{maximum} distinct values" [PS field; PZ maximum])
  end.

(** [type(value) is int and low <= value <= high]. *)
Definition in_range (v : json) (low high : Z) : option Z :=
  match v with JInt z => if (low <=? z) && (z <=? high) then Some z else None | _ => None end.

Definition integer (o : jobj) (name : string) (low high : Z) : res Z :=
  v ← getitem o name;
  or_raise (in_range v low high) (value_error "{name} must be within {low}-{high}" [PS name; PZ low; PZ high]).

(** [device.get("max_jettys", 47)], an integer in every compiled topology. *)
Definition device_jettys (device : json) : res Z :=
  match device with
  | JObj o => match default (JInt 47) (dget o "max_jettys") with
              | JInt z => Ok z
              | v => Err (Exn TypeError "'<' not supported" [PS (type_name v)])
              end
  | v => Err (Exn AttributeError "{} has no attribute 'get'" [PS (type_name v)])
  end.

Definition spec_devices (spec : json) : res (list json) :=
  devices ← subscript spec "devices";
  match devices with
  | JList l => Ok l
  | v => Err (Exn TypeError "{} is not iterable" [PS (type_name v)])
  end.

(** The checks of the loop over the Jetty counts. *)
Fixpoint check_jettys (total depth jfc post : Z) (l : list Z) : res unit :=
  match l with
  | [] => Ok tt
  | j :: l' =>
      raise value_error "total operations must divide by J={j} into whole batches" [PZ j]
        when negb (total mod j =? 0) || (total / j <? post) ;;
      raise value_error "JFC depth does not cover the window of J={j}" [PZ j]
        when jfc <? j * Z.min depth (total / j) ;;
      check_jettys total depth jfc post l'
  end.

Definition one_port (device : json) : res bool :=
  ports ← subscript device "ports";
  Ok (match ports with JInt z => z =? 1 | JBool b => b | _ => false end).

Definition validate_recipe (raw spec : json) : res recipe :=
  match raw with
  | JObj o =>
      raise value_error "recipe fields are incomplete or unknown" [] when negb (same_keys o) ;;
      ops_field ← getitem o "operations";
      ops ← check_values "operations" (Some OPS) 4 ops_field;
      sizes_field ← getitem o "sizes";
      sizes ← check_values "sizes" None 24 sizes_field;
      jettys_field ← getitem o "jettys";
      jettys ← check_values "jettys" None 12 jettys_field;
      sizes ← mapR (λ v, or_raise (in_range v 1 (10 * 1024 * 1024))
                           (value_error "message size must be within 1B-10MiB" [])) sizes;
      devices ← spec_devices spec;
      limits ← mapR device_jettys devices;
      max_jettys ← py_min limits;
      jettys ← mapR (λ v, or_raise (in_range v 1 max_jettys)
                            (value_error "Jetty count must be within 1-{max_jettys}" [PZ max_jettys])) jettys;
      let ops := omap json_is_str ops in
      raise value_error "latency tests support one Jetty only" []
        when existsb (λ op, endswith op "_lat") ops && negb (bool_decide (jettys = [1])) ;;
      total ← integer o "total_ops" 256 1000000;
      warmups ← integer o "warmups" 0 5;
      repeats ← integer o "repeats" 1 10;
      depth ← integer o "depth" 1 8192;
      jfc ← integer o "jfc_depth" 1 2097152;
      post ← integer o "post_list" 1 256;
      timeout ← integer o "timeout_s" 10 7200;
      raise value_error "queue depth must not be smaller than the batch" [] when depth <? post ;;
      _ ← check_jettys total depth jfc post jettys;
      raise value_error "experiment has more than 120 runs" []
        when 120 <? len ops * len sizes * len jettys * (warmups + repeats) ;;
      plan ← compile_topology spec;
      single ← mapR one_port devices;
      raise value_error "recipe needs two hosts with one port each" []
        when negb (len (p_node_ids plan) =? 2) || existsb negb single ;;
      Ok (Recipe ops sizes jettys total warmups repeats depth jfc post timeout)
  | _ => Err (value_error "recipe fields are incomplete or unknown" [])
  end.

(** [read_recipe]: the parsed recipe file, or the defaults. *)
Definition read_recipe (saved : option (res json)) (spec : json) : res recipe :=
  match saved with
  | Some parsed => raw ← parsed; validate_recipe raw spec
  | None => validate_recipe DEFAULT_RECIPE spec
  end.
End recipes.

(** ** Guest commands *)

Definition command (op : string) (size j : Z) (r : recipe) (port : Z) (client : bool) (simulator : string)
    : string :=
  join " "
    ((if String.eqb simulator "gem5" then ["UBSIM_DIST_SYNC=1"; "OPENURMA_DIST_SYNC=1"] else []) ++
     ["LD_LIBRARY_PATH=/lib:/usr/lib"; "urma_perftest"; op; "-d"; "udma0"; "--eid_idx"; "0"; "--ctp";
      "-s"; str_of_Z size; "-P"; str_of_Z port; "-J"; str_of_Z j] ++
     (if endswith op "_bw" then ["--jettys_pre_jfr"; "1"; "-I"; "0"] else ["-I"; "128"]) ++
     ["-T"; str_of_Z (depth r); "-R"; str_of_Z (depth r); "-C"; str_of_Z (jfc_depth r);
      "-n"; str_of_Z (total_ops r / j); "-Q"; "1"; "-p"; "0"] ++
     (if endswith op "_bw" then ["-l"; str_of_Z (post_list r)] else []) ++
     (if client then ["-S"; "10.0.0.1"] else [])).

(** ** Results *)

(** The metrics, as the decimal numerals printed by the guest. *)
Inductive metrics :=
  | Bandwidth (peak average mpps : string)
  | Latency (samples average p99 p999 p9999 : string).

Definition parse_output (output op : string) (size j total : Z) : res metrics :=
  let exits := findall false m_exit output in
  let counts := findall false (m_labelled "Number of jettys") output in
  raise value_error "endpoint status or Jetty count mismatch: rc={exits}, jettys={counts}"
          [PL exits; PL counts]
    when negb (bool_decide (exits = ["0"; "0"]))
         || negb (bool_decide (counts = [str_of_Z j; str_of_Z j])) ;;
  if endswith op "_bw" then
    match findall true (m_row (m_self (str_of_Z size)) (m_self (str_of_Z total)) m_decimal 3) output with
    | [row0; row1] =>
        raise value_error "bandwidth rows of the two endpoints differ" []
          when negb (bool_decide (row0 = row1)) ;;
        match row0.2 with
        | [peak; average; mpps] => Ok (Bandwidth peak average mpps)
        | _ => Err (value_error "not enough values to unpack" [])
        end
    | rows => Err (value_error "expected the same row from both endpoints, got {len(rows)}" [PZ (len rows)])
    end
  else
    match findall true (m_row (m_self (str_of_Z size)) m_digits m_decimal 9) output with
    | [(_, samples, columns)] =>
        average ← or_raise (columns !! 3%nat) (Exn IndexError "tuple index out of range" []);
        p99 ← or_raise (columns !! 5%nat) (Exn IndexError "tuple index out of range" []);
        p999 ← or_raise (columns !! 6%nat) (Exn IndexError "tuple index out of range" []);
        p9999 ← or_raise (columns !! 7%nat) (Exn IndexError "tuple index out of range" []);
        Ok (Latency samples average p99 p999 p9999)
    | rows => Err (value_error "expected one latency row, got {len(rows)}" [PZ (len rows)])
    end.

(** ** The measurement loop *)

(** One measurement: its place in the nested loops. *)
Record point := Point {
  q_op : string;
  q_size : Z;
  q_jettys : Z;
  q_index : Z
}.

(** The order of the four nested loops. *)
Definition points (r : recipe) : list point :=
  op ← operations r;
  size ← sizes r;
  j ← jettys r;
  index ← seqZ 0 (warmups r + repeats r);
  [Point op size j index].

Record row := Row {
  w_sequence : Z;
  w_phase : string;
  w_repeat : Z;
  w_operation : string;
  w_size : Z;
  w_jettys : Z;
  w_port : Z;
  w_metrics : metrics
}.

Definition phase_of (r : recipe) (index : Z) : string := if index <? warmups r then "warmup" else "measure".

(** The guest port of the [sequence]th measurement. *)
Definition run_port (sequence : Z) : Z := 21600 + (sequence - 1) mod 1000.

(** What happens outside: the serial runner's exit status and output for the two
    commands, and the fence logs around it. *)
Record measured := Measured {
  d_returncode : Z;
  d_output : string;
  d_fences : list (string * (option nat * file))
}.

(** The writes of the loop, each listed once it is complete.  The status and the
    summary are replaced in one step; a write of another file that is refused may
    leave that file truncated. *)
Inductive event :=
  | StatusRunning (completed total : Z)
  | SetupLogged (name : string)
  | TranscriptWritten (sequence : Z) (output : string)
  | FenceCopied (sequence : Z) (name : string) (data : list Z)
  | ResultsWritten (rows : list row)
  | SummaryWritten (rows : list row)
  | StatusProgress (completed : Z)
  | Printed (completed : Z)
  | StatusFinished (completed : Z)
  | StatusFailed (completed : Z).

Section measuring.
Variable fails : list event → event → option exn.
Variable decode : list Z → string.
Variable simulator : string.
(** The serial runner, between the sizes of the fence logs before it and their
    reading after it; a size that cannot be read, a runner that cannot start or
    that exceeds its time raises. *)
Variable execute : Z → list string → res measured.
(** Whether the hosts' network is up before and after the setup command, and
    that command's exit status. *)
Variable ready_before ready_after : bool.
Variable setup_returncode : res Z.
(** [_ports(simulator)]. *)
Variable ports : res (Z * Z).

Definition check_fences (sequence : Z) (d : measured) : io event unit :=
  if String.eqb simulator "gem5" then
    collected <- collect_fence_deltas (λ name data, attempt fails (FenceCopied sequence name data)) (d_fences d);
    lift (raise Exn RuntimeError "fence validation failed" []
            when negb (bool_decide (delta_errors decode collected = [])) ;;
          Ok tt)
  else io_ret tt.

(** The body of the innermost loop: the row it adds. *)
Definition measure (r : recipe) (rows : list row) (q : point) : io event row :=
  let sequence := len rows + 1 in
  let port := run_port sequence in
  let commands := [command (q_op q) (q_size q) (q_jettys q) r port false simulator;
                   command (q_op q) (q_size q) (q_jettys q) r port true simulator] in
  d <- lift (execute sequence commands);
  attempt fails (TranscriptWritten sequence (d_output d)) ;;;
  lift (raise Exn RuntimeError "{transcript} failed with status {result.returncode}" [PZ (d_returncode d)]
          when negb (d_returncode d =? 0) ;;
        Ok tt) ;;;
  check_fences sequence d ;;;
  m <- lift (parse_output (d_output d) (q_op q) (q_size q) (q_jettys q) (total_ops r));
  io_ret (Row sequence (phase_of r (q_index q)) (Z.max 0 (q_index q - warmups r + 1))
            (q_op q) (q_size q) (q_jettys q) port m).

Fixpoint measure_all (r : recipe) (rows : list row) (l : list point) : io event (list row) :=
  match l with
  | [] => io_ret rows
  | q :: l' =>
      row <- measure r rows q;
      let rows' := rows ++ [row] in
      attempt fails (ResultsWritten rows') ;;;
      attempt fails (SummaryWritten rows') ;;;
      attempt fails (StatusProgress (w_sequence row)) ;;;
      attempt fails (Printed (w_sequence row)) ;;;
      measure_all r rows' l'
  end.

Definition run_total (r : recipe) : Z :=
  len (operations r) * len (sizes r) * len (jettys r) * (warmups r + repeats r).

(** The network setup of the two hosts. *)
Definition setup : io event unit :=
  if String.eqb simulator "gem5" then
    if ready_before then io_ret tt else
    returncode <- lift setup_returncode;
    attempt fails (SetupLogged "network-setup.log") ;;;
    lift (raise Exn RuntimeError "gem5 network setup failed, see network-setup.log" []
            when negb (returncode =? 0) || negb ready_after ;;
          Ok tt)
  else if String.eqb simulator "qemu" then
    returncode <- lift setup_returncode;
    attempt fails (SetupLogged "network-setup.uart.txt") ;;;
    lift (raise Exn RuntimeError "QEMU network setup failed, see network-setup.uart.txt" []
            when negb (returncode =? 0) ;;
          Ok tt)
  else io_ret tt.

(** [run] once the provenance is written. *)
Definition run_experiment (r : recipe) : io event Z :=
  attempt fails (StatusRunning 0 (run_total r)) ;;;
  _ <- lift ports;
  setup ;;;
  rows <- measure_all r [] (points r);
  attempt fails (StatusFinished (len rows)) ;;;
  io_ret 0.

(** The completed count in the status file after these writes. *)
Definition completed_of (l : list event) : Z :=
  foldl (λ c e, match e with
                | StatusRunning c' _ | StatusProgress c' | StatusFinished c' | StatusFailed c' => c'
                | _ => c
                end) 0 l.
End measuring.

(** ** Summaries *)

Section summary.
(** Floating-point results of [float], [sum]/[len], [min] and [max]. *)
Variable F : Type.
Variable mean minimum maximum : list string → F.

Definition key_of (w : row) : string * Z * Z := (w_operation w, w_size w, w_jettys w).

Record summary_item := SummaryItem {
  s_key : string * Z * Z;
  s_repeats : Z;
  s_value : F;
  s_minimum : F;
  s_maximum : F;
  s_rate : option F                (** [message_rate_mpps], of a bandwidth test *)
}.

(** [grouped.setdefault(key, []).append(row)] over the measured rows. *)
Fixpoint add_row (w : row) (g : list ((string * Z * Z) * list row)) : list ((string * Z * Z) * list row) :=
  match g with
  | [] => [(key_of w, [w])]
  | (k, ws) :: g' => if bool_decide (k = key_of w) then (k, ws ++ [w]) :: g' else (k, ws) :: add_row w g'
  end.
Definition grouped (rows : list row) : list ((string * Z * Z) * list row) :=
  foldl (λ g w, if String.eqb (w_phase w) "measure" then add_row w g else g) [] rows.

Definition rate_of (w : row) : option string :=
  match w_metrics w with Bandwidth _ _ mpps => Some mpps | Latency _ _ _ _ _ => None end.

(** [row[metric]]: the operation that names the metric also chose the parser. *)
Definition metric_of (w : row) : string :=
  match w_metrics w with Bandwidth _ average _ => average | Latency _ average _ _ _ => average end.

(** The order of the tuples that [sorted] compares. *)
Definition key_le (a b : string * Z * Z) : Prop :=
  match String.compare a.1.1 b.1.1 with
  | Lt => True
  | Gt => False
  | Eq => a.1.2 < b.1.2 ∨ (a.1.2 = b.1.2 ∧ a.2 <= b.2)
  end.
Definition group_le (a b : (string * Z * Z) * list row) : Prop := key_le a.1 b.1.
#[global] Instance key_le_dec a b : Decision (key_le a b).
Proof. unfold key_le. destruct (String.compare _ _); apply _. Defined.
#[global] Instance group_le_dec a b : Decision (group_le a b) := key_le_dec a.1 b.1.

Definition summarize (rows : list row) : list summary_item :=
  (λ kg : (string * Z * Z) * list row,
     SummaryItem kg.1 (len kg.2) (mean (metric_of <$> kg.2)) (minimum (metric_of <$> kg.2))
       (maximum (metric_of <$> kg.2))
       (if endswith kg.1.1.1 "_bw" then Some (mean (omap rate_of kg.2)) else None))
    <$> merge_sort group_le (grouped rows).
End summary.

(** ** Preflight *)

(** [_runtime] of one simulator. *)
Record runtime_info := RuntimeInfo {
  ri_active : bool;
  ri_topology_name : option string;
  ri_run_dir : string
}.

Inductive check_label :=
  | LTopology | LOccupancy | LLaunchedConfig | LStartMode | LArtifacts | LMemory | LPorts
  | LRecipe | LHosts | LTiming | LNetwork | LTerminal.
#[global] Instance check_label_eq_dec : EqDecision check_label.
Proof. solve_decision. Defined.

Record verdict := Verdict {
  v_ok : bool;
  v_checks : list (check_label * bool);
  v_checkpoint : option string;
  v_simulator : string;
  v_same : bool
}.

Section preflight.
Variable w : world.
Variable py_str : json → string.
Variable x_ok : string → bool.                       (** [os.access(path, os.X_OK)] *)
Variable port_free : Z → bool.
Variable select : manifest → string → res (option string).
(** [json.loads] of the running topology's file equals the document. *)
Variable launched_same : string → json → bool.
Variable sync_ready : string → bool.
Variable runtime : string → runtime_info.

(** [checkpoint_availability]: the manifest of a gem5 topology and the
    checkpoint that matches it. *)
Definition checkpoint_availability (spec : json) (plan : plan)
    : res (option string * option manifest) :=
  if negb (String.eqb (p_simulator plan) "gem5") then Ok (None, None)
  else
    m ← resolve_gem5 (w_root w) spec plan;
    image ← getitem m "initrd_path";
    checkpoint ← (if String.eqb (p_checkpoint plan) "auto" then select m image else Ok None);
    Ok (checkpoint, Some m).

(** [_ports]. *)
Definition _ports (simulator : string) : res (Z * Z) :=
  if String.eqb simulator "gem5" then
    a ← env_number w "UBSIM_DUAL_UART0" "3460"; b ← env_number w "UBSIM_DUAL_UART1" "3470"; Ok (a, b)
  else
    a ← env_number w "UBSIM_QEMU_UART0" "3560"; b ← env_number w "UBSIM_QEMU_UART1" "3570"; Ok (a, b).

(** The files of a list that are missing, or not executable where [index] is 0,
    3 or 4. *)
Definition missing_artifacts (paths : list string) : list string :=
  omap (λ ip : nat * string,
          if negb (w_is_file w ip.2) || (elemb ip.1 [0; 3; 4]%nat && negb (x_ok ip.2))
          then Some ip.2 else None) (enumerate paths).

Definition gem5_artifacts (initrd : string) : list string :=
  [gem5_binary w; gem5_kernel w; gem5_config w; udma_binary w; ns3_binary w "UBSIM_UB_SWITCH_BINARY"; initrd].

Definition qemu_artifacts : list string :=
  [qemu_binary w; qemu_kernel w; qemu_initrd w;
   (if w_is_file w (udma_binary w) then udma_binary w
    else under_root w "artifacts/udma-device-sim-build/udma-device-sim");
   ns3_binary w "UBSIM_NS3UB_ADAPTER"].

(** The start-mode and artifact checks. *)
Definition artifact_checks (spec : json) (plan : plan) (own : runtime_info)
    : res (list (check_label * bool) * option string * option manifest) :=
  if String.eqb (p_simulator plan) "gem5" then
    a ← checkpoint_availability spec plan;
    checks ← match a.2 with
             | Some m =>
                 if ri_active own then Ok []
                 else Ok [(LArtifacts, bool_decide (missing_artifacts
                       (gem5_artifacts (default (under_root w "out/official-udma-64k-20261015.cpio.gz")
                                          (dget m "initrd_path"))) = []))]
             | None => Ok []
             end;
    Ok ((LStartMode, true) :: checks, a.1, a.2)
  else Ok ([(LArtifacts, bool_decide (missing_artifacts qemu_artifacts = []))], None, None).

Definition modeled_memory (plan : plan) (resolved : option manifest) : res string :=
  if String.eqb (p_simulator plan) "gem5" then getitem (default [] resolved) "memory_size"
  else machines ← qemu_machines plan; largest ← py_maximum machines.*2;
       Ok (str_of_Z largest +:+ "MiB").

(** The memory and port checks of a simulator that is not running. *)
Definition memory_check (plan : plan) (resolved : option manifest) : res (check_label * bool) :=
  mem ← modeled_memory plan resolved;
  Ok (LMemory, w_memory_ok w (if String.eqb (p_simulator plan) "gem5" then "start" else "qemu-start")
                 (length (p_node_ids plan)) mem).

Definition port_checks (plan : plan) : res (list (check_label * bool)) :=
  base ← _ports (p_simulator plan);
  let n := length (p_node_ids plan) in
  let free l := [(LPorts, forallb port_free l)] in
  if String.eqb (p_simulator plan) "qemu" then
    match qemu_ports (w_env w) (Z.of_nat n) with
    | Ok p => Ok (free (flat p))
    | Err e => if is_a (exn_cls e) ValueError then Ok [(LPorts, false)] else Err e
    end
  else Ok (free (arith base.1 (base.2 - base.1) n)).

(** [all(node.get("profile") == "modern" for node in spec["nodes"])], and the
    execution mode. *)
Definition timing_ok (spec : json) : res bool :=
  nodes ← subscript spec "nodes";
  profiles ← match nodes with
             | JList l => mapR (λ node, match node with
                                        | JObj o => Ok (default JNull (dget o "profile"))
                                        | v => Err (Exn AttributeError "{} has no attribute 'get'" [PS (type_name v)])
                                        end) l
             | v => Err (Exn TypeError "{} is not iterable" [PS (type_name v)])
             end;
  execution ← subscript spec "execution";
  sync ← subscript execution "sync";
  Ok (forallb (λ p, eq_str p "modern") profiles && eq_str sync "required").

(** The checks of an experiment. *)
Definition experiment_checks (spec raw_recipe : json) (plan : plan) (own : runtime_info) (same : bool)
    (terminal_busy : bool) : res (list (check_label * bool)) :=
  recipe_check ← match validate_recipe py_str raw_recipe spec with
                 | Ok _ => Ok (LRecipe, true)
                 | Err e => if is_a (exn_cls e) ValueError then Ok (LRecipe, false) else Err e
                 end;
  gem5_checks ← (if String.eqb (p_simulator plan) "gem5" then
                   timing ← timing_ok spec;
                   Ok ((LTiming, timing) :: if same then [(LNetwork, true)] else [])
                 else Ok []);
  Ok ([recipe_check; (LHosts, same)] ++ gem5_checks ++ [(LTerminal, negb terminal_busy)]).

Definition preflight (spec : json) (recipe : option json) (terminal_busy : bool) : res verdict :=
  plan ← compile_topology spec;
  name ← subscript spec "name";
  let own := runtime (p_simulator plan) in
  let other := runtime (if String.eqb (p_simulator plan) "gem5" then "qemu" else "gem5") in
  let same := ri_active own && match ri_topology_name own with
                               | Some n => eq_str name n
                               | None => false
                               end in
  let occupancy := (LOccupancy, negb (ri_active other) && (negb (ri_active own) || same)) in
  let launched := if same && bool_decide (is_Some recipe)
                  then [(LLaunchedConfig, launched_same (ri_run_dir own) spec)] else [] in
  artifacts ← artifact_checks spec plan own;
  memory ← (if ri_active own then Ok [] else c ← memory_check plan artifacts.2; Ok [c]);
  ports ← (if ri_active own then Ok [] else port_checks plan);
  experiment ← match recipe with
               | Some r => experiment_checks spec r plan own same terminal_busy
               | None => Ok []
               end;
  let checks := [(LTopology, true); occupancy] ++ launched ++ artifacts.1.1 ++ memory ++ ports ++ experiment in
  Ok (Verdict (forallb snd checks) checks artifacts.1.2 (p_simulator plan) same).
End preflight.

(** ** What a valid recipe guarantees *)

(** The relations between the fields that the guests' command lines rely on. *)
Record recipe_ok (r : recipe) : Prop := {
  ro_operations : NoDup (operations r) ∧ operations r ≠ [] ∧ Forall (λ op, op ∈ OPS) (operations r);
  ro_sizes : sizes r ≠ [] ∧ Forall (λ s, 1 <= s <= 10485760) (sizes r);
  ro_jettys : jettys r ≠ [] ∧ Forall (λ j, 1 <= j) (jettys r);
  ro_batches : ∀ j, j ∈ jettys r →
    total_ops r = j * (total_ops r / j) ∧ post_list r <= total_ops r / j ∧
    j * Z.min (depth r) (total_ops r / j) <= jfc_depth r;
  ro_depth : 1 <= post_list r <= depth r ∧ depth r <= 8192;
  ro_counts : 0 <= warmups r <= 5 ∧ 1 <= repeats r <= 10;
  ro_latency : (∃ op, op ∈ operations r ∧ endswith op "_lat" = true) → jettys r = [1];
  ro_total : 1 <= run_total r <= 120
}.

Lemma check_values_Ok py_str field choices maximum v l :
  check_values py_str field choices maximum v = Ok l →
  v = JList l ∧ 1 <= len l ∧ NoDup (py_str <$> l) ∧
  (∀ c, choices = Some c → Forall (λ x, in_strs x c = true) l).
Proof.
  unfold check_values. destruct v as [| | | | |values|]; try done. intros H. py_inv. bool_inv.
  split; [done|]. split; [lia|]. split; [done|]. intros c ->.
  apply Forall_forall. intros x Hx. destruct (in_strs x c) eqn:E; [done|].
  enough (existsb (λ v, negb (in_strs v c)) l = true) by congruence.
  apply existsb_exists. exists x. split; [by apply list_elem_of_In|by rewrite E].
Qed.

Lemma in_range_Some v low high z : in_range v low high = Some z → v = JInt z ∧ low <= z <= high.
Proof. unfold in_range. destruct v; try done. destruct (_ && _) eqn:E; [|done]. bool_inv. by intros [= ->]. Qed.

Lemma ranged_Ok low high e l zs :
  mapR (λ v, or_raise (in_range v low high) e) l = Ok zs →
  length zs = length l ∧ Forall (λ z, low <= z <= high) zs ∧ l = JInt <$> zs.
Proof.
  intros H. split; [by eapply mapR_length|]. apply mapR_Ok in H.
  induction H as [|v z l' zs' Hv _ [IH1 IH2]]; [done|].
  apply or_raise_Ok, in_range_Some in Hv as [-> Hz]. cbn.
  split; [by apply Forall_cons|]. by rewrite IH2 at 1.
Qed.

Lemma integer_Ok' o name low high z : integer o name low high = Ok z → low <= z <= high.
Proof. unfold integer. intros H. py_inv. by apply in_range_Some in H as [_ ?]. Qed.

Lemma check_jettys_Ok total depth jfc post l :
  check_jettys total depth jfc post l = Ok tt → Forall (λ j, 1 <= j) l →
  ∀ j, j ∈ l → total = j * (total / j) ∧ post <= total / j ∧ j * Z.min depth (total / j) <= jfc.
Proof.
  induction l as [|x l IH]; cbn [check_jettys]; intros H Hpos j Hj; [by apply elem_of_nil in Hj|].
  py_inv. bool_inv. apply Forall_cons in Hpos as [Hx Hpos].
  apply elem_of_cons in Hj as [->|Hj]; [|by apply IH].
  split_and!; [|lia|lia]. pose proof (Z.div_mod total x ltac:(lia)). lia.
Qed.

Lemma ops_strings l :
  Forall (λ x, in_strs x OPS = true) l →
  JStr <$> omap json_is_str l = l ∧ Forall (λ op, op ∈ OPS) (omap json_is_str l).
Proof.
  induction 1 as [|x l Hx _ [IH1 IH2]]; [done|].
  apply in_strs_true in Hx as (s & -> & Hs). cbn. rewrite IH1. split; [done|by constructor].
Qed.

Lemma validated_recipe py_str raw spec r : validate_recipe py_str raw spec = Ok r → recipe_ok r.
Proof.
  unfold validate_recipe. destruct raw as [| | | | | |o]; try done. intros H.
  destruct (negb (same_keys o)); [done|].
  apply bind_Ok in H as (f1 & _ & H). apply bind_Ok in H as (ops & Hops & H).
  apply bind_Ok in H as (f2 & _ & H). apply bind_Ok in H as (szs & Hszs & H).
  apply bind_Ok in H as (f3 & _ & H). apply bind_Ok in H as (js & Hjs & H).
  apply bind_Ok in H as (sizes & Hsizes & H). apply bind_Ok in H as (devices & _ & H).
  apply bind_Ok in H as (limits & _ & H). apply bind_Ok in H as (maxj & _ & H).
  apply bind_Ok in H as (jettys & Hjettys & H). cbv zeta in H.
  destruct (existsb _ _ && _) eqn:Hlat; [done|].
  apply bind_Ok in H as (total & Htotal & H). apply bind_Ok in H as (warm & Hwarm & H).
  apply bind_Ok in H as (reps & Hreps & H). apply bind_Ok in H as (dep & Hdep & H).
  apply bind_Ok in H as (jfc & Hjfc & H). apply bind_Ok in H as (post & Hpost & H).
  apply bind_Ok in H as (timeout & _ & H). destruct (dep <? post) eqn:Hdp; [done|].
  apply bind_Ok in H as ([] & Hck & H). destruct (120 <? _) eqn:H120; [done|].
  apply bind_Ok in H as (plan & _ & H). apply bind_Ok in H as (single & _ & H).
  destruct (_ || _); [done|]. injection H as <-. bool_inv.
  apply check_values_Ok in Hops as (_ & Hl1 & Hnd & Hin).
  apply check_values_Ok in Hszs as (_ & Hl2 & _ & _).
  apply check_values_Ok in Hjs as (_ & Hl3 & _ & _).
  destruct (ops_strings _ (Hin _ eq_refl)) as [Hstr HinO].
  apply ranged_Ok in Hsizes as (Ls & Hsz & _). apply ranged_Ok in Hjettys as (Lj & Hj & _).
  apply integer_Ok' in Htotal, Hwarm, Hreps, Hdep, Hjfc, Hpost.
  assert (len (omap json_is_str ops) = len ops) as Lo.
  { unfold len. apply (f_equal length) in Hstr. rewrite length_fmap in Hstr. lia. }
  assert (∀ A (l : list A), 1 <= len l → l ≠ []) as Hne.
  { intros A l Hl ->. unfold len in Hl. cbn in Hl. lia. }
  unfold len in *.
  assert (Forall (λ j, 1 <= j) jettys) as Hj1 by (eapply Forall_impl; [exact Hj|]; cbn; lia).
  split; cbn.
  - split_and!; [|apply Hne; unfold len; lia|done].
    apply (NoDup_fmap_1 (py_str ∘ JStr)).
    by rewrite list_fmap_compose, Hstr.
  - split; [apply Hne; unfold len; lia|done].
  - split; [apply Hne; unfold len; lia|done].
  - by apply check_jettys_Ok.
  - lia.
  - lia.
  - intros (op & Hop & Hend). apply andb_false_iff in Hlat as [Hlat|Hlat].
    + enough (existsb (λ op, endswith op "_lat") (omap json_is_str ops) = true) by congruence.
      apply existsb_exists. exists op. split; [by apply list_elem_of_In|done].
    + by bool_inv.
  - unfold run_total, len. cbn. split; [|lia].
    assert (1 <= Z.of_nat (length (omap json_is_str ops)) * Z.of_nat (length sizes)) by nia.
    assert (1 <= Z.of_nat (length (omap json_is_str ops)) * Z.of_nat (length sizes) * Z.of_nat (length jettys))
      by nia.
    nia.
Qed.

(** C40: a validated recipe has at least one and at most 120 runs, and for each
    Jetty count its operations divide evenly among the Jettys, at least one posting
    list each (not always whole ones), with posting lists that fit the queue and
    initial windows that fit the completion queue; latency tests use one Jetty. *)
Theorem validate_recipe_ok py_str raw spec r : validate_recipe py_str raw spec = Ok r → recipe_ok r.
Proof. apply validated_recipe. Qed.

(** ** The measurement loop *)

(** What the [k]th measurement (from 0) records besides its metrics. *)
Definition row_plan (r : recipe) (k : nat) (q : point) : Z * string * Z * string * Z * Z * Z :=
  (Z.of_nat k + 1, phase_of r (q_index q), Z.max 0 (q_index q - warmups r + 1), q_op q, q_size q,
   q_jettys q, run_port (Z.of_nat k + 1)).
Definition row_id (w : row) : Z * string * Z * string * Z * Z * Z :=
  (w_sequence w, w_phase w, w_repeat w, w_operation w, w_size w, w_jettys w, w_port w).

(** The rows of the results file by the last write of it that was completed. *)
Definition written (l : list event) : list row :=
  foldl (λ rows e, match e with ResultsWritten ws => ws | _ => rows end) [] l.

Lemma length_points r : len (points r) = Z.max 0 (run_total r) ∨ warmups r + repeats r < 0.
Proof.
  destruct (decide (warmups r + repeats r < 0)) as [|Hn]; [by right|left].
  assert (∀ A B (f : A → list B) l n, (∀ x, length (f x) = n) → length (l ≫= f) = (length l * n)%nat) as Hb.
  { intros A B f l n Hf. induction l as [|x l IH]; [done|]. cbn. rewrite length_app, Hf, IH. lia. }
  unfold points, run_total, len.
  rewrite (Hb _ _ _ _ (length (sizes r) * (length (jettys r) * Z.to_nat (warmups r + repeats r)))%nat).
  { rewrite !Nat2Z.inj_mul, Z2Nat.id by lia. rewrite Z.max_r by (repeat apply Z.mul_nonneg_nonneg; lia). lia. }
  intros op. rewrite (Hb _ _ _ _ (length (jettys r) * Z.to_nat (warmups r + repeats r))%nat); [lia|].
  intros s. rewrite (Hb _ _ _ _ (Z.to_nat (warmups r + repeats r))); [lia|].
  intros j. rewrite (Hb _ _ _ _ 1%nat) by done. rewrite length_seqZ. lia.
Qed.

Section measuring_facts.
Context (fails : list event → event → option exn) (decode : list Z → string) (simulator : string).
Context (execute : Z → list string → res measured).

(** The run of the guests behind a row. *)
Definition row_backed (r : recipe) (w : row) : Prop :=
  ∃ d, execute (w_sequence w)
         [Experiments.command (w_operation w) (w_size w) (w_jettys w) r (w_port w) false simulator;
          Experiments.command (w_operation w) (w_size w) (w_jettys w) r (w_port w) true simulator] = Ok d ∧
       d_returncode d = 0 ∧
       (simulator = "gem5" → delta_errors decode (fence_deltas (d_fences d)) = []) ∧
       parse_output (d_output d) (w_operation w) (w_size w) (w_jettys w) (total_ops r) = Ok (w_metrics w).

(** Writes of transcripts, fence copies and setup logs only. *)
Definition evidence (l : list event) : Prop :=
  Forall (λ e, match e with TranscriptWritten _ _ | FenceCopied _ _ _ | SetupLogged _ => True | _ => False end) l.

Lemma evidence_kept l l' : evidence l' → written (l ++ l') = written l ∧ completed_of (l ++ l') = completed_of l.
Proof.
  intros H. unfold written, completed_of. rewrite !foldl_app. generalize (foldl (λ rows e, match e with ResultsWritten ws => ws | _ => rows end) [] l).
  generalize (foldl (λ c e, match e with StatusRunning c' _ | StatusProgress c' | StatusFinished c' | StatusFailed c' => c' | _ => c end) 0 l).
  induction H as [|e l' He _ IH]; [done|]. intros c rows. destruct e; try done; apply IH.
Qed.

(** With nothing refused, [m] fails only by [P]. *)
Definition only_evidence {A} (m : io event A) (Q : A → Prop) : Prop :=
  adds (λ l r, evidence l ∧ ∀ a, r = Ok a → Q a) m.

Lemma only_evidence_bind {A B} (m : io event A) P (k : A → io event B) Q :
  only_evidence m P → (∀ a, P a → only_evidence (k a) Q) → only_evidence (io_bind m k) Q.
Proof.
  intros Hm Hk. eapply adds_bind; [exact Hm|by intros l e [? _]|].
  intros l a [Hl Ha]. eapply adds_weaken; [|apply (Hk a), Ha; reflexivity].
  intros l' r [Hl' Hr]. split; [by apply Forall_app|exact Hr].
Qed.
Lemma only_evidence_lift {A} (m : res A) : only_evidence (lift m) (λ a, m = Ok a).
Proof. apply adds_lift. by split; [constructor|]. Qed.
Lemma only_evidence_attempt e : evidence [e] → only_evidence (attempt fails e) (λ _, True).
Proof. intros H. apply adds_attempt; [by split|]. intros x. split; [constructor|done]. Qed.
Lemma only_evidence_ret {A} (a : A) (Q : A → Prop) : Q a → only_evidence (io_ret a) Q.
Proof. intros H. apply adds_ret. split; [constructor|]. by intros ? [= <-]. Qed.

Lemma check_fences_spec sequence d :
  only_evidence (check_fences fails decode simulator sequence d)
    (λ _, simulator = "gem5" → delta_errors decode (fence_deltas (d_fences d)) = []).
Proof.
  unfold check_fences. destruct (String.eqb_spec simulator "gem5") as [_|Hn]; [|by apply only_evidence_ret].
  apply (only_evidence_bind _ (λ c, c = fence_deltas (d_fences d))).
  - eapply adds_weaken; [|apply collect_performs].
    assert (∀ l : list (string * list Z), evidence ((λ nd, FenceCopied sequence nd.1 nd.2) <$> l)) as He
      by (intros l; apply Forall_fmap, Forall_true; done).
    intros l [c|e]; cbn.
    + intros [-> ->]. split; [apply He|by intros ? [= <-]].
    + intros [t Ht]. split; [|done]. specialize (He (fence_deltas (d_fences d)).1). unfold evidence in He.
      rewrite Ht in He. by apply Forall_app in He as [He _].
  - intros c ->. eapply adds_weaken; [|apply only_evidence_lift]. intros l r [Hl Hr]. split; [exact Hl|].
    intros a Ha _. specialize (Hr a Ha). cbn in Hr. destruct (bool_decide_reflect (delta_errors decode (fence_deltas (d_fences d)) = [])); [done|discriminate].
Qed.

Lemma measure_spec r rows q :
  only_evidence (measure fails decode simulator execute r rows q)
    (λ w, row_id w = row_plan r (length rows) q ∧ row_backed r w).
Proof.
  unfold measure. eapply only_evidence_bind; [apply only_evidence_lift|]. intros d Hd.
  eapply only_evidence_bind; [by apply only_evidence_attempt; repeat constructor|]. intros _ _.
  eapply only_evidence_bind; [apply only_evidence_lift|]. intros [] Hrc.
  eapply only_evidence_bind; [apply check_fences_spec|]. intros ? Hf.
  eapply only_evidence_bind; [apply only_evidence_lift|]. intros m Hm.
  apply only_evidence_ret. split; [done|]. exists d. cbn in *.
  destruct (d_returncode d =? 0) eqn:E; [|discriminate]. bool_inv. done.
Qed.

Lemma setup_spec rb ra sc : only_evidence (setup fails simulator rb ra sc) (λ _, True).
Proof.
  assert (∀ name (k : Z → res unit), only_evidence (returncode <- lift sc; attempt fails (SetupLogged name) ;;; lift (k returncode)) (λ _, True)) as H.
  { intros name k. eapply only_evidence_bind; [apply only_evidence_lift|]. intros c _.
    eapply only_evidence_bind; [by apply only_evidence_attempt; repeat constructor|]. intros _ _.
    eapply adds_weaken; [|apply only_evidence_lift]. by intros l r [? _]. }
  unfold setup. destruct (String.eqb simulator "gem5"); [destruct rb; [by apply only_evidence_ret|]|
    destruct (String.eqb simulator "qemu"); [|by apply only_evidence_ret]]; apply H.
Qed.

(** The state of the files: the rows written, the completed count in step. *)
Definition measured_so_far (r : recipe) (rows : list row) : Prop :=
  (length rows <= length (points r))%nat ∧
  row_id <$> rows = take (length rows) (imap (row_plan r) (points r)) ∧ Forall (row_backed r) rows.
Definition consistent (r : recipe) (l0 : list event) (rows : list row) : Prop :=
  written l0 = rows ∧ completed_of l0 = len rows ∧ measured_so_far r rows.

(** The same where the loop may stop: the status may lag by the row just written. *)
Definition halted (r : recipe) (l0 : list event) : Prop :=
  measured_so_far r (written l0) ∧ (completed_of l0 = len (written l0) ∨ completed_of l0 + 1 = len (written l0)).

Lemma consistent_halted r l rows : consistent r l rows → halted r l.
Proof. intros (<- & Hc & Hm). split; [done|by left]. Qed.

Lemma measured_next r done_ q todo rows w :
  points r = done_ ++ q :: todo → length rows = length done_ → measured_so_far r rows →
  row_id w = row_plan r (length rows) q → row_backed r w → measured_so_far r (rows ++ [w]).
Proof.
  intros Hp Hlen (_ & Hrows & HF) Hid Hback. split_and!.
  - rewrite Hp, !length_app. cbn. lia.
  - rewrite fmap_app, length_app, Hrows, Hp. cbn. rewrite Hid, Hlen.
    rewrite imap_app. rewrite take_app_le by (rewrite length_imap; lia).
    rewrite <- (length_imap (row_plan r) done_) at 1. rewrite firstn_all.
    rewrite take_app_ge by (rewrite length_imap; lia).
    f_equal. rewrite length_imap.
    replace (length done_ + 1 - length done_)%nat with 1%nat by lia. cbn. by rewrite Nat.add_0_r.
  - apply Forall_app. by split; [|constructor].
Qed.

(** The four writes after a measurement, whichever is refused. *)
Lemma writes_halted r l rows w :
  consistent r l rows → measured_so_far r (rows ++ [w]) → w_sequence w = len rows + 1 →
  let rows' := rows ++ [w] in
  let m := attempt fails (ResultsWritten rows') ;;; attempt fails (SummaryWritten rows') ;;;
           attempt fails (StatusProgress (w_sequence w)) ;;; attempt fails (Printed (w_sequence w)) in
  match m l with
  | (l', Ok _) => consistent r l' rows'
  | (l', Err e) => halted r l' ∧ ∃ l1 x, fails l1 x = Some e
  end.
Proof.
  intros (Hw & Hc & Hm) Hm' Hs rows' m. unfold m, io_bind, attempt, rows'.
  assert (len (rows ++ [w]) = len rows + 1) as Hlen by (unfold len; rewrite length_app; cbn; lia).
  assert (∀ more rs c, written (l ++ more) = rs → completed_of (l ++ more) = c → measured_so_far r rs →
                       c = len rs ∨ c + 1 = len rs → halted r (l ++ more)) as Hh.
  { intros more rs c H1 H2 H3 H4. unfold halted. by rewrite H1, H2. }
  destruct (fails l _) as [e|] eqn:E1; [split; [by eapply consistent_halted|eauto]|].
  destruct (fails _ (SummaryWritten _)) as [e|] eqn:E2.
  { split; [|eauto]. apply (Hh _ (rows ++ [w]) (len rows)); [unfold written; by rewrite foldl_app|unfold completed_of; rewrite foldl_app; exact Hc|done|lia]. }
  rewrite <- app_assoc. cbn [app]. destruct (fails _ (StatusProgress _)) as [e|] eqn:E3.
  { split; [|eauto]. apply (Hh _ (rows ++ [w]) (len rows)); [unfold written; by rewrite foldl_app|unfold completed_of; rewrite foldl_app; exact Hc|done|lia]. }
  rewrite <- app_assoc. cbn [app]. destruct (fails _ (Printed _)) as [e|] eqn:E4.
  { split; [|eauto]. apply (Hh _ (rows ++ [w]) (w_sequence w)); [unfold written; by rewrite foldl_app|unfold completed_of; by rewrite foldl_app|done|lia]. }
  rewrite <- app_assoc. split_and!; [unfold written; by rewrite foldl_app|unfold completed_of; rewrite foldl_app; cbn; lia|apply Hm'..].
Qed.

Lemma measure_all_runs r done_ todo l rows :
  points r = done_ ++ todo → length rows = length done_ → consistent r l rows →
  match measure_all fails decode simulator execute r rows todo l with
  | (l', Ok out) => consistent r l' out ∧ length out = length (points r)
  | (l', Err _) => halted r l' ∧
      ((∀ l e, fails l e = None) → completed_of l' = len (written l') ∧ (length (written l') < length (points r))%nat)
  end.
Proof.
  revert done_ l rows. induction todo as [|q todo IH]; intros done_ l rows Hp Hlen Hc.
  { cbn. split; [done|]. by rewrite Hp, app_nil_r. }
  cbn [measure_all]. unfold io_bind at 1.
  destruct (measure_spec r rows q l) as (ev & Hl & Hev & Hrow).
  destruct (measure _ _ _ _ r rows q l) as [l1 [w|e]]; cbn in Hl, Hrow; subst l1;
    destruct (evidence_kept l ev Hev) as [Hkw Hkc];
    (assert (consistent r (l ++ ev) rows) as Hc1 by (destruct Hc as (H1 & H2 & H3); by split_and!; [rewrite Hkw|rewrite Hkc|]));
    pose proof Hc1 as (Hw1 & Hn1 & Hm1).
  2:{ split; [by eapply consistent_halted|]. intros _. rewrite Hw1, Hn1, Hp, length_app. cbn. split; [done|lia]. }
  destruct (Hrow w eq_refl) as [Hid Hback].
  assert (w_sequence w = len rows + 1) as Hs.
  { apply (f_equal (λ t, t.1.1.1.1.1.1)) in Hid. exact Hid. }
  pose proof (measured_next r done_ q todo rows w Hp Hlen Hm1 Hid Hback) as Hm'.
  pose proof (writes_halted r (l ++ ev) rows w Hc1 Hm' Hs) as Hwr. cbv zeta in Hwr |- *.
  unfold io_bind in Hwr |- *.
  destruct (attempt fails (ResultsWritten _) _) as [l2 [[]|e]]; [|destruct Hwr as (? & ? & ? & Hf); split; [done|]; intros Hn; by rewrite Hn in Hf].
  destruct (attempt fails (SummaryWritten _) _) as [l3 [[]|e]]; [|destruct Hwr as (? & ? & ? & Hf); split; [done|]; intros Hn; by rewrite Hn in Hf].
  destruct (attempt fails (StatusProgress _) _) as [l4 [[]|e]]; [|destruct Hwr as (? & ? & ? & Hf); split; [done|]; intros Hn; by rewrite Hn in Hf].
  destruct (attempt fails (Printed _) _) as [l5 [[]|e]]; [|destruct Hwr as (? & ? & ? & Hf); split; [done|]; intros Hn; by rewrite Hn in Hf].
  apply (IH (done_ ++ [q])); [by rewrite <- app_assoc|rewrite !length_app; cbn; lia|done].
Qed.

Lemma run_port_inj a b : 1 <= a <= 1000 → 1 <= b <= 1000 → run_port a = run_port b → a = b.
Proof. unfold run_port. intros Ha Hb. rewrite !Z.mod_small by lia. lia. Qed.

(** The rows of a run have distinct service ports. *)
Lemma measured_ports r rows : recipe_ok r → measured_so_far r rows → NoDup (w_port <$> rows).
Proof.
  intros Hr (Hle & Hrows & _).
  assert (len (points r) <= 120) as H120.
  { pose proof (ro_total _ Hr). pose proof (ro_counts _ Hr). destruct (length_points r); lia. }
  assert (w_port <$> rows = (λ k, run_port (Z.of_nat k + 1)) <$> seq 0 (length rows)) as ->.
  { transitivity (snd <$> (row_id <$> rows)); [by rewrite <- list_fmap_compose|].
    rewrite Hrows, fmap_take, fmap_imap. apply list_eq. intros i.
    destruct (decide (i < length rows)%nat) as [Hi|Hi].
    - rewrite lookup_take by done. rewrite list_lookup_imap, list_lookup_fmap, lookup_seq_lt by done.
      destruct (lookup_lt_is_Some_2 (points r) i ltac:(lia)) as [q ->].
      cbn. by rewrite decide_True by done.
    - rewrite lookup_take_ge by lia. rewrite list_lookup_fmap, lookup_seq_ge by lia. done. }
  apply NoDup_fmap_2_strong; [|apply NoDup_seq]. intros x y Hx Hy Heq.
  apply elem_of_seq in Hx, Hy. unfold len in H120. apply run_port_inj in Heq; lia.
Qed.
End measuring_facts.

(** The outcome of the measurements: the rows last written are the first
    measurements of the recipe in their order, numbered from 1, on distinct service
    ports, each backed by a run of both hosts that ended with status 0; the status
    file counts them, or all but the row being recorded when a write was refused;
    the measurements end with status 0 only if all were made, and, when no write is
    refused, exactly then. *)
Lemma experiment_outcome fails decode simulator execute rb ra sc ports r :
  recipe_ok r →
  let out := run_experiment fails decode simulator execute rb ra sc ports r [] in
  let rows := written out.1 in
  row_id <$> rows = take (length rows) (imap (row_plan r) (points r)) ∧
  Forall (row_backed decode simulator execute r) rows ∧
  NoDup (w_port <$> rows) ∧ len rows <= run_total r ∧
  (completed_of out.1 = len rows ∨ completed_of out.1 + 1 = len rows) ∧
  (∀ z, out.2 = Ok z → z = 0 ∧ completed_of out.1 = len rows ∧ len rows = run_total r) ∧
  ((∀ l e, fails l e = None) →
     completed_of out.1 = len rows ∧ (is_ok out.2 = true ↔ len rows = run_total r)).
Proof.
  intros Hr out. pose proof (ro_total _ Hr) as Ht. pose proof (ro_counts _ Hr) as Hc.
  destruct (length_points r) as [Hlen|?]; [|lia]. rewrite Z.max_r in Hlen by lia.
  set (P := λ o : list event * res Z, halted decode simulator execute r o.1 ∧
          match o.2 with
          | Ok z => z = 0 ∧ completed_of o.1 = len (written o.1) ∧ length (written o.1) = length (points r)
          | Err _ => (∀ l e, fails l e = None) →
              completed_of o.1 = len (written o.1) ∧ (length (written o.1) < length (points r))%nat
          end).
  enough (P out) as [[Hm Hcmp] Hout].
  { pose proof (measured_ports _ _ _ r _ Hr Hm) as Hports. destruct Hm as (Hle & Hrows & HF). unfold len in *.
    split_and!; try done; [lia| |].
    - intros z E. rewrite E in Hout. destruct Hout as (-> & ? & ?). split_and!; [done..|lia].
    - intros Hno. destruct out.2 as [z|e]; cbn.
      + destruct Hout as (-> & ? & ?). split; [done|]. split; [lia|done].
      + destruct (Hout Hno) as [??]. split; [done|]. split; [done|lia]. }
  assert (∀ l e, written l = [] → completed_of l = 0 → P (l, Err e)) as H0.
  { intros l e Hw Hz. unfold P, halted, measured_so_far. cbn [fst snd]. rewrite Hw, Hz. unfold len in *. cbn.
    split_and!; [lia|done..|by left|]. intros _. split; [done|lia]. }
  unfold out, run_experiment, io_bind at 1, attempt at 1. clear out.
  destruct (fails [] _) as [e|]; [by apply H0|]. cbn [app].
  unfold io_bind at 1, lift. destruct ports as [p|e]; [|by apply H0].
  unfold io_bind at 1. destruct (setup_spec fails simulator rb ra sc [StatusRunning 0 (run_total r)]) as (ev & Hl & Hev & _).
  destruct (setup _ _ _ _ _ _) as [l0 [[]|e]]; cbn [fst snd] in Hl; subst l0;
    destruct (evidence_kept [StatusRunning 0 (run_total r)] ev Hev) as [Hw Hz]; [|by apply H0].
  unfold io_bind at 1.
  pose proof (measure_all_runs fails decode simulator execute r [] (points r) _ [] eq_refl eq_refl
    (conj Hw (conj Hz (conj (Nat.le_0_l _) (conj eq_refl (Forall_nil_2 _)))))) as Hrun.
  destruct (measure_all _ _ _ _ r [] (points r) _) as [l [rows|e]]; [|exact Hrun].
  destruct Hrun as [(Hwl & Hcl & Hml) Hall]. unfold io_bind, attempt, P.
  destruct (fails l _) as [e|] eqn:Ef; cbn [fst snd io_ret].
  - split; [unfold halted; rewrite Hwl; split; [exact Hml|by left]|]. intros Hno. by rewrite Hno in Ef.
  - assert (written (l ++ [StatusFinished (len rows)]) = rows) as Hw2 by (unfold written in *; by rewrite foldl_app).
    assert (completed_of (l ++ [StatusFinished (len rows)]) = len rows) as Hc2 by (unfold completed_of; by rewrite foldl_app).
    unfold halted. rewrite Hw2, Hc2. auto.
Qed.

(** ** Summaries *)

(** The measured rows of a key, in the order they were measured. *)
Definition samples_of (k : string * Z * Z) (rows : list row) : list row :=
  filter (λ w, w_phase w = "measure" ∧ key_of w = k) rows.

Lemma add_row_lookup w g k ws :
  NoDup g.*1 →
  NoDup (add_row w g).*1 ∧ (∀ k', k' ∈ (add_row w g).*1 ↔ (k' = key_of w ∨ k' ∈ g.*1)) ∧
  ((k, ws) ∈ add_row w g ↔
     (if decide (k = key_of w) then
        ((∃ ws', (k, ws') ∈ g ∧ ws = ws' ++ [w]) ∨ ((k ∉ (g.*1)) ∧ ws = [w]))
      else (k, ws) ∈ g)).
Proof.
  induction g as [|[k0 ws0] g IH]; intros Hnd.
  { cbn. split_and!.
    - apply NoDup_cons. split; [apply not_elem_of_nil|constructor].
    - intros k'. rewrite list_elem_of_singleton. split; [by left|].
      intros [?|H]; [done|by apply not_elem_of_nil in H].
    - rewrite list_elem_of_singleton. case_decide as Hk.
      + split; [intros [= ? ->]; right; split; [apply not_elem_of_nil|done]|].
        intros [(? & H & _)|[_ ->]]; [by apply not_elem_of_nil in H|by subst].
      + split; [by intros [= ? _]|intros H; by apply not_elem_of_nil in H]. }
  cbn in Hnd. apply NoDup_cons in Hnd as [Hn Hnd].
  destruct (IH Hnd) as (IH1 & IH2 & IH3). cbn.
  case_bool_decide as Hk; cbn.
  - subst k0. split_and!.
    + by apply NoDup_cons.
    + intros k'. rewrite elem_of_cons. naive_solver.
    + rewrite elem_of_cons. case_decide as Hk'.
      * subst k. split.
        -- intros [[= ->]|Hin]; [left; exists ws0; split; [by left|done]|].
           exfalso. apply Hn. by apply (list_elem_of_fmap_2 fst) in Hin.
        -- intros [(ws' & Hin & ->)|[Hno _]].
           ++ apply elem_of_cons in Hin as [[= ->]|Hin]; [by left|].
              exfalso. apply Hn. by apply (list_elem_of_fmap_2 fst) in Hin.
           ++ exfalso. apply Hno. by left.
      * rewrite elem_of_cons. naive_solver.
  - split_and!.
    + apply NoDup_cons. split; [|done]. rewrite IH2. naive_solver.
    + intros k'. rewrite !elem_of_cons, IH2. naive_solver.
    + rewrite elem_of_cons, IH3. case_decide as Hk'.
      * subst k. split.
        -- intros [[= Hk0 _]|[(ws' & Hin & ->)|[Hno ->]]]; [by rewrite Hk0 in Hk| |].
           ++ left. exists ws'. split; [by right|done].
           ++ right. split; [|done]. rewrite elem_of_cons. naive_solver.
        -- intros [(ws' & Hin & ->)|[Hno ->]].
           ++ apply elem_of_cons in Hin as [[= Hk0 _]|Hin]; [by rewrite Hk0 in Hk|]. right. left. by exists ws'.
           ++ right. right. split; [|done]. intros H. apply Hno. by right.
      * rewrite elem_of_cons. naive_solver.
Qed.

Lemma grouped_snoc rows w :
  grouped (rows ++ [w]) =
  if String.eqb (w_phase w) "measure" then add_row w (grouped rows) else grouped rows.
Proof. unfold grouped. by rewrite foldl_app. Qed.

Lemma samples_snoc k rows w :
  samples_of k (rows ++ [w]) =
  if decide (w_phase w = "measure" ∧ key_of w = k) then samples_of k rows ++ [w] else samples_of k rows.
Proof. unfold samples_of. rewrite filter_app. cbn. case_decide; [done|by rewrite app_nil_r]. Qed.

(** The groups are the keys of the measured rows, each with its rows. *)
Lemma grouped_ok rows :
  NoDup (grouped rows).*1 ∧
  (∀ k, k ∈ (grouped rows).*1 ↔ samples_of k rows ≠ []) ∧
  (∀ k ws, (k, ws) ∈ grouped rows → ws = samples_of k rows).
Proof.
  induction rows as [|w rows (IH1 & IH2 & IH3)] using rev_ind.
  { split_and!; [constructor| |]; intros; rewrite ?elem_of_nil; cbn in *; [naive_solver|].
    by apply elem_of_nil in H. }
  rewrite grouped_snoc. destruct (String.eqb (w_phase w) "measure") eqn:Hm; bool_inv.
  2:{ split_and!; [done| |]; intros; rewrite samples_snoc, decide_False by naive_solver; auto. }
  destruct (add_row_lookup w (grouped rows) (key_of w) [] IH1) as (H1 & H2 & _).
  split_and!; [done| |].
  - intros k. rewrite H2, IH2, samples_snoc. case_decide as Hd.
    + split; [intros _ Heq; by apply app_nil in Heq as [_ [=]]|]. intros _. left. by destruct Hd.
    + split; [|by right]. intros [->|?]; [by destruct Hd|done].
  - intros k ws Hin. destruct (add_row_lookup w (grouped rows) k ws IH1) as (_ & _ & H3).
    apply H3 in Hin. rewrite samples_snoc. case_decide as Hk; case_decide as Hd; try naive_solver.
    subst k. destruct Hin as [(ws' & Hin & ->)|[Hno ->]]; [by rewrite (IH3 _ _ Hin)|].
    rewrite IH2 in Hno. destruct (samples_of (key_of w) rows) eqn:E; [done|]. exfalso. by apply Hno.
Qed.

#[global] Instance key_le_total : Total key_le.
Proof.
  intros [[s1 x1] y1] [[s2 x2] y2]. unfold key_le; cbn. rewrite (String.compare_antisym s1 s2).
  destruct (String.compare s2 s1); cbn; [lia|by right|by left].
Qed.
#[global] Instance group_le_total : Total group_le.
Proof. intros a b. apply key_le_total. Qed.

(** The summary has one item for each operation, size and Jetty count with
    a measured row, in the order of the keys; the item counts the measured rows
    of its key and its values are computed from them, warm-up rows left out. *)
Theorem summarize_ok (F : Type) mean minimum maximum rows :
  let items := summarize F mean minimum maximum rows in
  NoDup (s_key F <$> items) ∧ Sorted key_le (s_key F <$> items) ∧
  (∀ k, k ∈ s_key F <$> items ↔ ∃ w, w ∈ rows ∧ w_phase w = "measure" ∧ key_of w = k) ∧
  (∀ i, i ∈ items → let samples := samples_of (s_key F i) rows in
     s_repeats F i = len samples ∧ s_value F i = mean (metric_of <$> samples) ∧
     s_minimum F i = minimum (metric_of <$> samples) ∧ s_maximum F i = maximum (metric_of <$> samples)).
Proof.
  intros items. destruct (grouped_ok rows) as (Hnd & Hkeys & Hrows).
  assert (s_key F <$> items = (merge_sort group_le (grouped rows)).*1) as Hk.
  { unfold items, summarize. by rewrite <- list_fmap_compose. }
  pose proof (merge_sort_Permutation group_le (grouped rows)) as Hperm.
  rewrite Hk. split_and!.
  - by rewrite Hperm.
  - eapply Sorted_fmap; [|apply Sorted_merge_sort, _]. done.
  - intros k. rewrite Hperm, Hkeys. unfold samples_of. split.
    + intros H. destruct (filter _ rows) as [|w ws] eqn:E; [done|].
      assert (w ∈ filter (λ w, w_phase w = "measure" ∧ key_of w = k) rows) as Hw by (rewrite E; by left).
      apply list_elem_of_filter in Hw as [[? ?] ?]. by exists w.
    + intros (w & Hw & ? & ?) Hnil. by eapply (filter_nil_not_elem_of _ rows w Hnil).
  - intros i Hi. apply list_elem_of_fmap in Hi as ([k ws] & -> & Hin). rewrite Hperm in Hin.
    apply Hrows in Hin as ->. done.
Qed.

(** ** The preflight *)

Lemma experiment_checks_Ok py_str spec raw plan own same busy l :
  experiment_checks py_str spec raw plan own same busy = Ok l → forallb snd l = true →
  (∃ r, validate_recipe py_str raw spec = Ok r) ∧ same = true ∧ busy = false ∧
  (p_simulator plan = "gem5" → timing_ok spec = Ok true).
Proof.
  unfold experiment_checks. intros H Hall.
  apply bind_Ok in H as (rc & Hrc & H). apply bind_Ok in H as (gc & Hgc & [= <-]).
  cbn in Hall. rewrite forallb_app in Hall. cbn in Hall. bool_inv.
  split_and!; try done.
  - destruct (validate_recipe _ _ _) as [r|e]; [by exists r|].
    destruct (is_a _ _); [|done]. by injection Hrc as <-.
  - intros Hg. rewrite Hg in Hgc. cbn in Hgc. apply bind_Ok in Hgc as (t & Ht & [= <-]).
    destruct t; [done|]. cbn in *. done.
Qed.

Section preflight_facts.
Context (w : world) (py_str : json → string) (x_ok : string → bool) (port_free : Z → bool)
  (select : manifest → string → res (option string)) (launched_same : string → json → bool)
  (runtime : string → runtime_info).

Lemma port_checks_Ok plan l :
  port_checks w port_free plan = Ok l → forallb snd l = true →
  ∃ ports, Forall (λ p, port_free p = true) ports ∧
    (p_simulator plan = "qemu" → ∃ p, qemu_ports (w_env w) (len (p_node_ids plan)) = Ok p ∧ ports = flat p).
Proof.
  unfold port_checks. intros H Hall. apply bind_Ok in H as (base & _ & H).
  destruct (String.eqb_spec (p_simulator plan) "qemu") as [Hq|Hq].
  - fold (len (p_node_ids plan)) in H. destruct (qemu_ports _ _) as [p|e] eqn:E.
    + injection H as <-. cbn in Hall. rewrite andb_true_r in Hall. exists (flat p).
      split; [|by intros _; exists p]. apply Forall_forall. intros x Hx.
      by eapply forallb_forall in Hall; [|by apply list_elem_of_In].
    + destruct (is_a _ _); [|done]. by injection H as <-.
  - injection H as <-. cbn in Hall. rewrite andb_true_r in Hall. eexists. split; [|done].
    apply Forall_forall. intros x Hx. by eapply forallb_forall in Hall; [|by apply list_elem_of_In].
Qed.

(** A preflight that passes found a compiled topology, the other simulator
    idle and this one idle or running this topology; an idle one has its memory
    and its ports; and an experiment has a valid recipe, this topology running
    with the document it was saved with, the terminals closed and, on gem5,
    timed CPUs with required synchronization. *)
Theorem preflight_sound spec recipe busy v :
  preflight w py_str x_ok port_free select launched_same runtime spec recipe busy = Ok v → v_ok v = true →
  ∃ plan, compile_topology spec = Ok plan ∧ v_simulator v = p_simulator plan ∧
    let own := runtime (p_simulator plan) in
    ri_active (runtime (if String.eqb (p_simulator plan) "gem5" then "qemu" else "gem5")) = false ∧
    (ri_active own = true → v_same v = true) ∧
    (ri_active own = false →
       (∃ resolved mem, modeled_memory plan resolved = Ok mem ∧
          w_memory_ok w (if String.eqb (p_simulator plan) "gem5" then "start" else "qemu-start")
            (length (p_node_ids plan)) mem = true) ∧
       (∃ l, port_checks w port_free plan = Ok l ∧ forallb snd l = true)) ∧
    (∀ raw, recipe = Some raw →
       v_same v = true ∧ launched_same (ri_run_dir own) spec = true ∧ busy = false ∧
       (∃ r, validate_recipe py_str raw spec = Ok r) ∧
       (p_simulator plan = "gem5" → timing_ok spec = Ok true)).
Proof.
  unfold preflight. intros H Hok.
  apply bind_Ok in H as (plan & Hc & H). apply bind_Ok in H as (name & Hn & H).
  apply bind_Ok in H as (artifacts & Ha & H). apply bind_Ok in H as (memory & Hm & H).
  apply bind_Ok in H as (ports & Hp & H). apply bind_Ok in H as (experiment & He & H).
  injection H as <-. cbn in Hok |- *. rewrite !forallb_app in Hok. bool_inv.
  exists plan. split_and!; try done.
  - intros Hact. rewrite Hact in *. by cbn in *.
  - intros Hact. rewrite Hact in *. cbn in *. split; [|by exists ports].
    apply bind_Ok in Hm as (c & Hmc & [= <-]). unfold memory_check in Hmc.
    apply bind_Ok in Hmc as (mem & Hmem & [= <-]). cbn in *. bool_inv. by eexists _, _.
  - intros raw ->. apply experiment_checks_Ok in He; [|done].
    destruct He as (? & Hsame & ? & ?). split_and!; try done.
    rewrite Hsame in *. cbn in *. by bool_inv.
Qed.
End preflight_facts.

(** ** Concrete experiments *)

Definition sample_recipe : recipe :=
  Recipe ["read_bw"; "write_bw"] [64] [1; 2] 512 1 2 256 1024 8 60.

Definition sample_raw : json :=
  JObj [("operations", JList [JStr "read_bw"; JStr "write_bw"]); ("sizes", JList [JInt 64]);
        ("jettys", JList [JInt 1; JInt 2]); ("total_ops", JInt 512); ("warmups", JInt 1);
        ("repeats", JInt 2); ("depth", JInt 256); ("jfc_depth", JInt 1024); ("post_list", JInt 8);
        ("timeout_s", JInt 60)].

(** [str] on the values of the samples. *)
Definition sample_str (j : json) : string :=
  match j with JStr s => s | JInt z => str_of_Z z | _ => "?" end.

Lemma sample_recipe_valid : validate_recipe sample_str sample_raw topology_qemu_two_heads = Ok sample_recipe.
Proof. vm_compute. reflexivity. Qed.

Lemma validate_recipe_ok_witness : recipe_ok sample_recipe.
Proof. exact (validate_recipe_ok sample_str sample_raw topology_qemu_two_heads _ eq_refl). Defined.

(** What the two endpoints print after a bandwidth test of [j] Jettys. *)
Definition sample_output (j : Z) : string :=
  let nl := String "010" EmptyString in
  let endpoint := "__UBSIM_RC_7_0__=0" +:+ nl +:+ "Number of jettys : " +:+ str_of_Z j +:+ nl +:+
                  " 64  512  120.5 118.25 1.9" +:+ nl in
  endpoint +:+ endpoint.

(** Guests that serve every command: the third and fourth of the twelve runs
    measure one Jetty, and so on. *)
Definition sample_execute (sequence : Z) (commands : list string) : res measured :=
  let j := if (sequence - 1) mod 6 <? 3 then 1 else 2 in
  Ok (Measured 0 (sample_output j) []).

Example sample_finishes :
  (run_experiment (λ _ _, None) (λ _, EmptyString) "qemu" sample_execute false false (Ok 0) (Ok (3560, 3570))
     sample_recipe []).2 = Ok 0.
Proof. vm_compute. reflexivity. Qed.

(** A disk that is full at the second row: one row is recorded. *)
Example disk_full :
  let '(l, out) := run_experiment (λ _ e, match e with ResultsWritten [_; _] => Some (Exn OSError "disk full" []) | _ => None end)
     (λ _, EmptyString) "qemu" sample_execute false false (Ok 0) (Ok (3560, 3570)) sample_recipe [] in
  out = Err (Exn OSError "disk full" []) ∧ len (written l) = 1 ∧ completed_of l = 1.
Proof. vm_compute. by split_and!. Qed.

(** The QEMU topology is running, gem5 is not. *)
Definition sample_runtime (simulator : string) : runtime_info :=
  if String.eqb simulator "qemu"
  then RuntimeInfo true (Some "qemu-two-heads-one-400g-switch") "/lab/run-qemu-dual"
  else RuntimeInfo false None "/lab/run-dual".

Lemma preflight_sound_witness :
  ∃ v plan, preflight (sample_world true) sample_str (λ _, true) (λ _, true) (λ _ _, Ok None) (λ _ _, true)
      sample_runtime topology_qemu_two_heads (Some sample_raw) false = Ok v ∧
    compile_topology topology_qemu_two_heads = Ok plan ∧ v_simulator v = p_simulator plan ∧ v_same v = true.
Proof.
  destruct (preflight (sample_world true) sample_str (λ _, true) (λ _, true) (λ _ _, Ok None) (λ _ _, true)
      sample_runtime topology_qemu_two_heads (Some sample_raw) false) as [v|] eqn:E;
    [|vm_compute in E; discriminate].
  assert (v_ok v = true) as Hv by (vm_compute in E; injection E as <-; reflexivity).
  destruct (preflight_sound _ _ _ _ _ _ _ _ _ _ _ E Hv) as (plan & Hc & Hs & _ & _ & _ & H).
  exists v, plan. split; [reflexivity|]. split; [exact Hc|]. split; [exact Hs|].
  destruct (H _ eq_refl) as [Hsame _]. exact Hsame.
Defined.
