(* ===== verification/ExperimentRun.v ===== *)
(** * A whole experiment ([ubsim_lab/experiments.py], [run] and [main])

    From a saved task to its rows: the recipe is read and validated, the preflight
    must pass, the inputs are copied beside the results, and the measurements of
    [Experiments] follow; an exception ends in the status file.  Every write, copy
    and reading may raise, the handler's own included.  The theorem joins the
    preflight and the loop. *)

From Stdlib Require Import ZArith Lia.
From stdpp Require Import base strings numbers option list.
From S2P Require Import Prelude PyStr Json Samples Topology Cli ConfigRuntime Launcher Experiments.

Open Scope string_scope.
Open Scope list_scope.
Open Scope Z_scope.

Definition DEFAULT_RECIPE : json :=
  JObj [("operations", JList [JStr "read_bw"]);
        ("sizes", JList [JInt 2; JInt 32; JInt 128; JInt 512; JInt 2048; JInt 4096]);
        ("jettys", JList [JInt 1]); ("total_ops", JInt 16384); ("warmups", JInt 1); ("repeats", JInt 3);
        ("depth", JInt 8192); ("jfc_depth", JInt 524288); ("post_list", JInt 256); ("timeout_s", JInt 900)].

(** [provenance.json], without the times. *)
Record provenance := Provenance {
  pv_task : string;
  pv_simulator : string;
  pv_run_root : string;
  pv_checkpoint : option string;
  pv_image : string;
  pv_image_sha256 : option string
}.

(** What an experiment does, each step listed once it is complete. *)
Inductive step :=
  | MadeDirectory
  | WroteTopology (spec : json)
  | WroteRecipe (recipe : json)
  | CopiedRunFile (name : string)
  | CopiedCheckpoint (name : string)
  | WroteProvenance (p : provenance)
  | Measuring (e : Experiments.event)
  | PrintedFailure.

Section run.
(** What a step raises, after those before it. *)
Context (fails : list step → step → option exn).
(** The preflight's world and what it asks (see [Experiments.preflight]). *)
Context (w : world) (py_str : json → string) (x_ok : string → bool) (port_free : Z → bool).
Context (select : manifest → string → res (option string)) (launched_same : string → json → bool).
Context (read_runtime : res (string → runtime_info)).
(** The guests (see [Experiments.run_experiment]). *)
Context (decode : list Z → string) (execute : Z → list string → res measured).
Context (ready_before ready_after : bool) (setup_returncode : res Z).
(** The saved task and its recipe file, the text of a running manifest when there
    is one, the digest of a file, and whether the status file can be read when
    an exception is recorded. *)
Context (read_task : string → res json) (recipe_file : string → option (res json)).
Context (manifest_text : string → option (res string)) (sha256 : string → res string).
Context (read_status : res unit).

(** [read_recipe]: the recipe as JSON and as it is used. *)
Definition read_recipe (task_id : string) (spec : json) : res (json * recipe) :=
  raw ← match recipe_file task_id with Some r => r | None => Ok DEFAULT_RECIPE end;
  r ← validate_recipe py_str raw spec;
  Ok (raw, r).

(** The manifest of the running simulator. *)
Definition running_manifest (run_root : string) : res manifest :=
  match manifest_text run_root with
  | Some text => t ← text; Ok (_parse_manifest t)
  | None => Ok []
  end.

Definition image_of (simulator : string) (m : manifest) : string :=
  match dget m (if String.eqb simulator "gem5" then "initrd_path" else "initrd_image") with
  | Some path => path
  | None => env_path w "UBSIM_INITRD" (under_root w "out/official-udma-64k-20261015.cpio.gz")
  end.

Definition provenance_of (task_id simulator run_root : string) (m : manifest) : res provenance :=
  let image := image_of simulator m in
  digest ← (if w_is_file w image then d ← sha256 image; Ok (Some d) else Ok None);
  Ok (Provenance task_id simulator run_root (dget m "restore_checkpoint") image digest).

(** The files of the run that are copied, and the manifest of its checkpoint. *)
Definition run_files (run_root : string) : list step :=
  CopiedRunFile <$> List.filter (λ f, w_is_file w (join_path run_root f)) ["run-manifest.txt"; "topology-plan.json"].

Definition checkpoint_files (m : manifest) : list step :=
  match dget m "restore_checkpoint" with
  | Some c =>
      if negb (String.eqb c EmptyString) && negb (String.eqb c "none") &&
         w_is_file w (under_root w ("checkpoints/" +:+ c +:+ "/checkpoint-manifest.txt"))
      then [CopiedCheckpoint c] else []
  | None => []
  end.

(** The directory before the measurements. *)
Definition prepare (task_id simulator run_root : string) (spec raw : json) : io step unit :=
  attempt fails MadeDirectory ;;;
  attempt fails (WroteTopology spec) ;;;
  attempt fails (WroteRecipe raw) ;;;
  each (attempt fails) (run_files run_root) ;;;
  m <- lift (running_manifest run_root);
  each (attempt fails) (checkpoint_files m) ;;;
  p <- lift (provenance_of task_id simulator run_root m);
  attempt fails (WroteProvenance p).

(** A body of the loop inside this log. *)
Definition measuring {A} (body : (list Experiments.event → Experiments.event → option exn) → io Experiments.event A)
    : io step A := λ l,
  let r := body (λ l' e, fails (l ++ (Measuring <$> l')) (Measuring e)) [] in
  (l ++ (Measuring <$> r.1), r.2).

Definition run (task_id : string) : io step Z :=
  spec <- lift (read_task task_id);
  recipe <- lift (read_recipe task_id spec);
  plan <- lift (compile_topology spec);
  runtime <- lift read_runtime;
  verdict <- lift (preflight w py_str x_ok port_free select launched_same runtime spec (Some recipe.1) false);
  _ <- lift (raise Exn ValueError "{checks that failed}" [] when negb (v_ok verdict) ;; Ok tt);
  let run_root := ri_run_dir (runtime (p_simulator plan)) in
  prepare task_id (p_simulator plan) run_root spec recipe.1 ;;;
  measuring (λ f, run_experiment f decode (p_simulator plan) execute ready_before ready_after setup_returncode
                    (_ports w (p_simulator plan)) recipe.2).

Definition measured_events (l : list step) : list Experiments.event :=
  omap (λ s, match s with Measuring e => Some e | _ => None end) l.

(** The handler of [main]: the status file, read and replaced. *)
Definition record_failure (completed : Z) : io step Z :=
  attempt fails MadeDirectory ;;;
  _ <- lift read_status;
  attempt fails (Measuring (StatusFailed completed)) ;;;
  attempt fails PrintedFailure ;;;
  io_ret 1.

Definition main (task_id : string) : io step Z := λ l,
  match run task_id l with
  | (l', Ok z) => (l', Ok z)
  | (l', Err _) => record_failure (completed_of (measured_events l')) l'
  end.
End run.

(** ** From the task to the rows *)

Section joint.
Context (fails : list step → step → option exn).
Context (w : world) (py_str : json → string) (x_ok : string → bool) (port_free : Z → bool).
Context (select : manifest → string → res (option string)) (launched_same : string → json → bool).
Context (read_runtime : res (string → runtime_info)) (decode : list Z → string).
Context (execute : Z → list string → res measured).
Context (ready_before ready_after : bool) (setup_returncode : res Z).
Context (read_task : string → res json) (recipe_file : string → option (res json)).
Context (manifest_text : string → option (res string)) (sha256 : string → res string) (read_status : res unit).

(** All that is in the directory before the measurements: the document, the
    recipe, the files of the running simulator and the provenance. *)
Definition opening (task simulator run_root : string) (spec raw : json) : list step :=
  [MadeDirectory] ++ [WroteTopology spec] ++ [WroteRecipe raw] ++ run_files w run_root ++
  match running_manifest manifest_text run_root with
  | Ok m =>
      checkpoint_files w m ++
      match provenance_of w sha256 task simulator run_root m with Ok p => [WroteProvenance p] | Err _ => [] end
  | Err _ => []
  end.

(** The manifest was read, and [p] is the provenance. *)
Definition provenance_is (task simulator run_root : string) (p : provenance) : Prop :=
  ∃ m, running_manifest manifest_text run_root = Ok m ∧ provenance_of w sha256 task simulator run_root m = Ok p.

Lemma prepare_performs task simulator run_root spec raw :
  performs (opening task simulator run_root spec raw) (λ _, ∃ p, provenance_is task simulator run_root p)
    (prepare fails w manifest_text sha256 task simulator run_root spec raw).
Proof.
  unfold prepare, opening.
  do 3 (eapply performs_bind; [apply performs_attempt|intros _ _]).
  eapply performs_bind; [apply performs_each|intros _ _].
  eapply (performs_bind []); [apply performs_lift|intros m Hm]. rewrite Hm.
  eapply performs_bind; [apply performs_each|intros _ _].
  eapply (performs_bind []); [apply performs_lift|intros p Hp]. rewrite Hp.
  eapply performs_weaken; [|apply performs_attempt]. intros _ _. by exists p, m.
Qed.

(** What recording a failure does. *)
Definition failure (completed : Z) : list step :=
  [MadeDirectory] ++ [Measuring (StatusFailed completed)] ++ [PrintedFailure].

(** A failure is recorded with status 1, or what recorded it raised. *)
Definition recorded (completed : Z) (tail : list step) (out : res Z) : Prop :=
  out = Ok 1 ∧ tail = failure completed ∨
  ∃ e, out = Err e ∧ tail `prefix_of` failure completed ∧
       (read_status = Err e ∨ ∃ l x, x ∈ failure completed ∧ fails l x = Some e).

Lemma record_failure_spec completed :
  adds (recorded completed) (record_failure fails read_status completed).
Proof.
  intros l. unfold record_failure, io_bind, attempt, lift, recorded, failure. cbn [app].
  destruct (fails l MadeDirectory) as [e|] eqn:E1; cbn [fst snd].
  { exists []. rewrite app_nil_r. split; [done|]. right. exists e. split; [done|]. split; [eexists; reflexivity|].
    right. exists l, MadeDirectory. split; [by left|done]. }
  destruct read_status as [[]|e]; cbn [fst snd].
  2:{ exists [MadeDirectory]. split; [done|]. right. exists e. split; [done|]. split; [|by left]. by eexists. }
  destruct (fails _ (Measuring _)) as [e|] eqn:E2; cbn [fst snd].
  { exists [MadeDirectory]. split; [done|]. right. exists e. split; [done|]. split; [by eexists|].
    right. eexists _, _. split; [by right; left|exact E2]. }
  destruct (fails _ PrintedFailure) as [e|] eqn:E3; cbn [fst snd]; rewrite <- !app_assoc.
  - eexists. split; [done|]. right. exists e. split; [done|]. split; [by eexists|].
    right. eexists _, _. split; [by right; right; left|exact E3].
  - eexists. split; [done|]. by left.
Qed.

Lemma measured_of_measuring l : measured_events (Measuring <$> l) = l.
Proof. induction l as [|e l IH]; [done|]. cbn. by f_equal. Qed.

Lemma measured_opening task simulator run_root spec raw l :
  l `prefix_of` opening task simulator run_root spec raw → measured_events l = [].
Proof.
  intros Hl. assert (Forall (λ s, match s with Measuring _ => False | _ => True end) l) as HF.
  { destruct Hl as [t Ht]. apply (Forall_app _ l t). rewrite <- Ht. unfold opening.
    repeat (apply Forall_app; split); try by repeat constructor.
    - unfold run_files. apply Forall_fmap, Forall_true. done.
    - destruct (running_manifest _ _) as [m|]; [|done]. apply Forall_app. split.
      + unfold checkpoint_files. destruct (dget m _); [|done]. destruct (_ && _); repeat constructor.
      + destruct (provenance_of _ _ _ _ _ _); repeat constructor. }
  clear Hl. induction HF as [|s l Hs _ IH]; [done|]. destruct s; done.
Qed.

(** What a simulator must be for an experiment to start. *)
Definition ready (runtime : string → runtime_info) (spec : json) (plan : plan) : Prop :=
  ri_active (runtime (if String.eqb (p_simulator plan) "gem5" then "qemu" else "gem5")) = false ∧
  launched_same (ri_run_dir (runtime (p_simulator plan))) spec = true ∧
  (p_simulator plan = "gem5" → timing_ok spec = Ok true).

Abbreviation run_ := (run fails w py_str x_ok port_free select launched_same read_runtime decode execute ready_before
  ready_after setup_returncode read_task recipe_file manifest_text sha256).

(** What a run has done when it ends with [out]: nothing, or some of the opening,
    or all of it and the measurements [l]. *)
Inductive did (task : string) : list step → res Z → Prop :=
  | did_nothing e : did task [] (Err e)
  | did_open spec raw r plan runtime body out :
      read_task task = Ok spec → validate_recipe py_str raw spec = Ok r → compile_topology spec = Ok plan →
      read_runtime = Ok runtime → ready runtime spec plan →
      (let run_root := ri_run_dir (runtime (p_simulator plan)) in
       let documents := opening task (p_simulator plan) run_root spec raw in
       body `prefix_of` documents ∧ is_ok out = false ∨
       ∃ p l,
         provenance_is task (p_simulator plan) run_root p ∧ body = documents ++ (Measuring <$> l) ∧
         let rows := written l in
         row_id <$> rows = take (length rows) (imap (row_plan r) (points r)) ∧
         Forall (row_backed decode (p_simulator plan) execute r) rows ∧
         NoDup (w_port <$> rows) ∧ len rows <= run_total r ∧
         (completed_of l = len rows ∨ completed_of l + 1 = len rows) ∧
         (∀ z, out = Ok z → z = 0 ∧ completed_of l = len rows ∧ len rows = run_total r) ∧
         ((∀ l e, fails l e = None) → completed_of l = len rows ∧ (is_ok out = true ↔ len rows = run_total r))) →
      did task body out.

Lemma run_did task : did task (run_ task []).1 (run_ task []).2.
Proof.
  set (P := λ o : list step * res Z, did task o.1 o.2). change (P (run_ task [])).
  unfold run, io_bind at 1, lift. destruct (read_task task) as [spec|e] eqn:Es; [|exact (did_nothing _ _)].
  unfold io_bind at 1. destruct (read_recipe py_str recipe_file task spec) as [[raw r]|e] eqn:Er; [|exact (did_nothing _ _)].
  unfold io_bind at 1. destruct (compile_topology spec) as [plan|e] eqn:Ec; [|exact (did_nothing _ _)].
  unfold io_bind at 1. destruct read_runtime as [runtime|e] eqn:Et; [|exact (did_nothing _ _)].
  unfold io_bind at 1. cbn [fst snd].
  destruct (preflight _ _ _ _ _ _ _ spec (Some raw) false) as [v|e] eqn:Ep; [|exact (did_nothing _ _)].
  unfold io_bind at 1. destruct (v_ok v) eqn:Ev; cbn [negb]; [|exact (did_nothing _ _)].
  destruct (preflight_sound _ _ _ _ _ _ _ _ _ _ _ Ep Ev) as (plan' & Hc & _ & Hother & _ & _ & Hrec).
  rewrite Ec in Hc. injection Hc as <-. destruct (Hrec raw eq_refl) as (_ & Hsame & _ & _ & Htiming).
  assert (validate_recipe py_str raw spec = Ok r) as Hv by (unfold read_recipe in Er; py_inv; congruence).
  unfold P. eapply (did_open task spec raw r plan runtime); [done|done|done|done|done|]. cbv zeta.
  set (run_root := ri_run_dir _).
  destruct (prepare_performs task (p_simulator plan) run_root spec raw []) as (done_ & Hl & Hp). unfold io_bind.
  destruct (prepare _ _ _ _ _ _ _ _ _ []) as [l0 [[]|e]]; cbn [fst snd app] in *; subst l0.
  2:{ left. done. }
  destruct Hp as [-> [p Hp]]. right. unfold measuring. cbn [fst snd].
  set (f := λ l' e, fails (_ ++ (Measuring <$> l')) (Measuring e)).
  destruct (experiment_outcome f decode (p_simulator plan) execute ready_before ready_after setup_returncode
    (_ports w (p_simulator plan)) r (validated_recipe _ _ _ _ Hv)) as (H1 & H2 & H3 & H4 & H5 & H6 & H7).
  eexists p, _. split; [exact Hp|]. split; [reflexivity|]. split_and!; try done.
  intros Hno. apply H7. intros l e. apply Hno.
Qed.

Lemma did_measured task body out : did task body out → is_ok out = true → out = Ok 0.
Proof.
  intros [e|spec raw r plan runtime body' out' _ _ _ _ _ H] Hok; [done|].
  destruct H as [[_ H]|(p & l & _ & _ & _ & _ & _ & _ & _ & H & _)]; [congruence|].
  destruct out' as [z|e]; [|done]. by destruct (H z eq_refl) as [-> _].
Qed.

(** C6: an experiment ends with status 0 after a run that succeeded, or, after one
    that did not, records the failure with status 1; it raises only when that
    record itself is refused.  A run does nothing; or the other simulator was idle
    and the task's own was running from the very document of the task, the recipe
    is valid, and the run did the first steps of its opening (that document, that
    recipe, the files of the running simulator and its provenance, in this order),
    or all of them followed by measurements.  The rows last written are then the
    first measurements of the recipe in order, on distinct ports, each backed by a
    run of both guests, and the status file counts them, but for the row being
    recorded when a write was refused.  Status 0 means that all were measured and
    counted, and when no write is refused, exactly that. *)
Theorem experiment_joint task :
  let '(log, out) :=
    main fails w py_str x_ok port_free select launched_same read_runtime decode execute ready_before ready_after
      setup_returncode read_task recipe_file manifest_text sha256 read_status task [] in
  ∃ body tail result,
    log = body ++ tail ∧ did task body result ∧
    (result = Ok 0 ∧ tail = [] ∧ out = Ok 0 ∨
     is_ok result = false ∧ recorded (completed_of (measured_events body)) tail out).
Proof.
  pose proof (run_did task) as Hd. unfold main. destruct (run_ task []) as [body [z|e]]; cbn [fst snd] in Hd.
  - exists body, [], (Ok z). rewrite app_nil_r. split; [done|]. split; [exact Hd|]. left.
    pose proof (did_measured _ _ _ Hd eq_refl) as [= ->]. done.
  - destruct (record_failure_spec (completed_of (measured_events body)) body) as (tail & Hl & Hr).
    destruct (record_failure _ _ _ _) as [l out]. cbn [fst snd] in Hl, Hr. subst l.
    exists body, tail, (Err e). split; [done|]. split; [exact Hd|]. by right.
Qed.
End joint.

(** The shipped QEMU topology, running, with a valid recipe. *)
Abbreviation sample_main fails runtime := (main fails (sample_world true) sample_str (λ _, true) (λ _, true)
  (λ _ _, Ok None) (λ _ _, true) (Ok runtime) (λ _, EmptyString) sample_execute false false (Ok 0)
  (λ _, Ok topology_qemu_two_heads) (λ _, Some (Ok sample_raw)) (λ _, None) (λ _, Ok "digest") (Ok tt) "task" []).

Example sample_experiment :
  let r := sample_main (λ _ _, None) sample_runtime in
  r.2 = Ok 0 ∧ len (written (measured_events r.1)) = 12.
Proof. vm_compute. by split. Qed.

(** gem5 running at the same time: nothing is written but the failure. *)
Example other_simulator_busy :
  sample_main (λ _ _, None)
    (λ s, RuntimeInfo true (ri_topology_name (sample_runtime s)) (ri_run_dir (sample_runtime s))) =
  ([MadeDirectory; Measuring (StatusFailed 0); PrintedFailure], Ok 1).
Proof. vm_compute. reflexivity. Qed.

Definition full : exn := Exn OSError "No space left on device" [].

(** A disk that is full once the document is written: no recipe, and the failure
    is recorded if there is room for it again, or raises. *)
Example recipe_refused :
  sample_main (λ _ s, match s with WroteRecipe _ => Some full | _ => None end) sample_runtime =
  ([MadeDirectory; WroteTopology topology_qemu_two_heads; MadeDirectory; Measuring (StatusFailed 0); PrintedFailure], Ok 1).
Proof. vm_compute. reflexivity. Qed.

Example disk_stays_full :
  sample_main (λ _ s, match s with WroteRecipe _ | Measuring _ => Some full | _ => None end) sample_runtime =
  ([MadeDirectory; WroteTopology topology_qemu_two_heads; MadeDirectory], Err full).
Proof. vm_compute. reflexivity. Qed.
