(* ===== verification/Tasks.v ===== *)
(** * The workbench's saved tasks ([ubsim_lab/web.py])

    The directory of task documents, the operations that create, copy, edit and
    list them, and the resizing of single-switch topologies.

    A document is the value [json.loads] reads back from its file; the values
    the program writes came from [json.loads], and [json.dumps] keeps them.  The
    code deep-copies every document before it changes it, so values stand for
    its objects.  Strings are their UTF-8 bytes. *)

From Stdlib Require Import ZArith Lia Ascii.
From stdpp Require Import base strings gmap fin_maps numbers option list sorting.
From S2P Require Import Prelude PyStr Json Samples Topology TopologyFacts ConfigRuntime Experiments.

Open Scope string_scope.
Open Scope list_scope.
Open Scope Z_scope.

(** ** Names *)

Definition TEMPLATES : list ((string * string) * string) :=
  [(("gem5", "switch"), "topology-gem5-two-heads.json");
   (("qemu", "switch"), "topology-qemu-two-heads.json")].

Definition TEMPLATE_LABELS : list (string * string) :=
  [("topology-gem5-two-heads.json", "gem5 · 双机经交换芯片");
   ("topology-qemu-two-heads.json", "QEMU · 双机经交换芯片")].

(** [[a-z0-9-]]. *)
Definition id_char (c : ascii) : bool := is_lower c || is_digit c || Ascii.eqb c "-"%char.
Definition id_tail (prefix s : string) : bool :=
  match strip_prefix prefix s with
  | Some r => negb (String.eqb r EmptyString) && str_forallb id_char r
  | None => false
  end.
(** [TASK_ID.fullmatch]. *)
Definition valid_id (s : string) : bool := id_tail "template-" s || id_tail "task-" s.

(** A file of [configs/], or one of [configs/ui-tasks/]. *)
Inductive place :=
  | InConfigs (name : string)
  | InTasks (name : string).

Definition _task_path (task_id : string) : res place :=
  raise Exn ValueError "invalid task id" [] when negb (valid_id task_id) ;;
  if startswith task_id "template-" then
    let name := removeprefix task_id "template-" +:+ ".json" in
    raise Exn ValueError "no such template" [] when negb (elemb name TEMPLATES.*2) ;;
    Ok (InConfigs name)
  else Ok (InTasks (task_id +:+ ".json")).

Definition _metadata_path (task_id : string) : string := task_id +:+ ".meta.json".

(** [experiments.recipe_path]. *)
Definition recipe_path (task_id : string) : res string :=
  _ ← _task_path task_id; Ok (task_id +:+ ".recipe.json").

(** ** The directory *)

(** A file is what reading and parsing it gives. *)
Record store := Store { files : gmap string (res json) }.

Definition action (A : Type) : Type := store → store * res A.

Definition act_ret {A} (m : res A) : action A := λ st, (st, m).
Definition act_bind {A B} (m : action A) (k : A → action B) : action B := λ st,
  match m st with
  | (st', Ok a) => k a st'
  | (st', Err e) => (st', Err e)
  end.
#[warnings="-at-level-200-changed"]
Notation "'let!' x := m 'in' k" := (act_bind m (λ x, k))
  (at level 200, x name, m at level 100, k at level 200) : py_scope.

Section tasks.
(** [configs/<name>], which the workbench never writes. *)
Variable configs : string → option (res json).
(** A failing write. *)
Variable write_error : string → option exn.
(** [str.strip] and [len] on Unicode text. *)
Variable strip_text : string → string.
Variable text_len : string → Z.
(** [text[:80]]. *)
Variable take_80 : string → string.
Variable py_str : json → string.

(** [_atomic_json]: the new content replaces the file or the file stays. *)
Definition _atomic_json (name : string) (value : json) : action unit := λ st,
  match write_error name with
  | Some e => (st, Err e)
  | None => (Store (<[name := Ok value]> (files st)), Ok tt)
  end.

Definition file_at (st : store) (p : place) : option (res json) :=
  match p with InConfigs name => configs name | InTasks name => files st !! name end.

Definition _read_task (st : store) (task_id : string) : res json :=
  path ← _task_path task_id;
  match file_at st path with
  | None => Err (Exn ValueError "no such task" [])
  | Some content => content
  end.

(** [json.loads(...)], or [{}] when the file cannot be read or parsed. *)
Definition _task_metadata (st : store) (task_id : string) : json :=
  match files st !! _metadata_path task_id with
  | Some (Ok v) => v
  | _ => JObj []
  end.

(** [v.get(k)]. *)
Definition attr_get (v : json) (k : string) : res (option json) :=
  match v with
  | JObj o => Ok (dget o k)
  | _ => Err (Exn AttributeError "{} has no attribute 'get'" [PS (type_name v)])
  end.

Definition _display_name (st : store) (task_id : string) (spec : json) : res json :=
  if startswith task_id "template-" then
    path ← _task_path task_id;
    name ← subscript spec "name";
    Ok (match path with
        | InConfigs file | InTasks file => default name (JStr <$> dget TEMPLATE_LABELS file)
        end)
  else
    name ← subscript spec "name";
    shown ← attr_get (_task_metadata st task_id) "display_name";
    Ok (default name shown).

(** [len(v)]. *)
Definition json_len (v : json) : res Z :=
  match v with
  | JList l => Ok (len l)
  | JObj o => Ok (len o)
  | JStr s => Ok (text_len s)
  | v => Err (Exn TypeError "object of type {} has no len()" [PS (type_name v)])
  end.

(** [bool(v)]. *)
Definition json_truthy (v : json) : bool :=
  match v with
  | JNull => false
  | JBool b => b
  | JInt z => negb (z =? 0)
  | JFloat f => match f with SpecFloat.S754_zero _ => false | _ => true end
  | JStr s => negb (String.eqb s EmptyString)
  | JList l => negb (bool_decide (length l = 0%nat))
  | JObj o => negb (bool_decide (length o = 0%nat))
  end.

Definition _summary (st : store) (task_id : string) : res json :=
  spec ← _read_task st task_id;
  name ← _display_name st task_id spec;
  nodes ← subscript spec "nodes";
  node ← first_item nodes;
  simulator ← subscript node "simulator";
  switches ← subscript spec "switches";
  count ← json_len nodes;
  topology_name ← subscript spec "name";
  Ok (JObj [("id", JStr task_id); ("name", name); ("simulator", simulator);
            ("layout", JStr (if json_truthy switches then "switch" else "direct"));
            ("node_count", JInt count); ("editable", JBool (startswith task_id "task-"));
            ("topology_name", topology_name)]).

(** The glob [task-*.json] without metadata and recipes, given newest first. *)
Definition is_task_file (name : string) : bool :=
  startswith name "task-" && endswith name ".json" &&
  negb (endswith name ".meta.json" || endswith name ".recipe.json").

Definition _list_tasks (newest_first : list string → list string) (st : store) : res (list json) :=
  let saved := newest_first (List.filter is_task_file (map_to_list (files st)).*1) in
  let templates := (λ name, "template-" +:+ removesuffix name ".json") <$> TEMPLATES.*2 in
  mapR (_summary st) (((λ name, removesuffix name ".json") <$> saved) ++ templates).

(** ** Resizing *)

Definition str_field (v : json) (k : string) : res string :=
  x ← subscript v k; or_raise (json_is_str x) (Exn TypeError "unhashable type: {}" [PS (type_name x)]).
Definition int_field (v : json) (k : string) : res Z :=
  x ← subscript v k;
  match x with JInt z => Ok z | x => Err (Exn TypeError "unexpected {}" [PS (type_name x)]) end.

(** [d.update(...)] and [d[k] = v] on a value. *)
Definition json_update (v : json) (fields : jobj) : res json :=
  match v with
  | JObj o => Ok (JObj (dupdate o fields))
  | v => Err (Exn AttributeError "{} has no attribute 'update'" [PS (type_name v)])
  end.

(** The last element with the key, as in a dict comprehension. *)
Definition by_key {K} `{EqDecision K} (l : list (K * json)) (k : K) : option json :=
  snd <$> last (filter (λ kv, kv.1 = k) l).

(** [chr(ord("a") + index)]. *)
Definition host_suffix (index : nat) : string := String (chr (97 + Z.of_nat index)) EmptyString.
Definition head_id (index : nat) : string := "head-" +:+ host_suffix index.
Definition udma_id (index : nat) : string := "udma-" +:+ host_suffix index.

(** What the loop over the hosts reads. *)
Record leaf := Leaf {
  l_nodes : list (string * json);
  l_devices : list (string * json);
  l_links : list ((string * Z) * json);
  l_node_seed : json;
  l_device_seed : json;
  l_link_seed : json;
  l_switch : json
}.

Definition keyed (field : string) (v : json) : res (string * json) :=
  k ← str_field v field; Ok (k, v).
Definition keyed_link (v : json) : res ((string * Z) * json) :=
  d ← str_field v "device"; p ← int_field v "device_port"; Ok ((d, p), v).

Definition items (v : json) : res (list json) :=
  match v with
  | JList l => Ok l
  | v => Err (Exn TypeError "{} is not iterable" [PS (type_name v)])
  end.

Definition read_leaf (spec : json) : res leaf :=
  nodes ← subscript spec "nodes"; node_list ← items nodes;
  current_nodes ← mapR (keyed "id") node_list;
  devices ← subscript spec "devices"; device_list ← items devices;
  current_devices ← mapR (keyed "node") device_list;
  links ← subscript spec "links"; link_list ← items links;
  current_links ← mapR keyed_link link_list;
  node_seed ← first_item nodes;
  device_seed ← first_item devices;
  link_seed ← first_item links;
  switches ← subscript spec "switches"; switch ← first_item switches;
  switch_id ← subscript switch "id";
  Ok (Leaf current_nodes current_devices current_links node_seed device_seed link_seed switch_id).

(** One turn of the loop: the host's node, device and links. *)
Definition leaf_host (l : leaf) (index : nat) : res (json * json * list json) :=
  node ← json_update (default (l_node_seed l) (by_key (l_nodes l) (head_id index)))
           [("id", JStr (head_id index))];
  device ← json_update (default (l_device_seed l) (by_key (l_devices l) (head_id index)))
             [("id", JStr (udma_id index)); ("node", JStr (head_id index));
              ("eid", JInt (256 + Z.of_nat index))];
  ports ← int_field device "ports";
  links ← mapR (λ port : nat,
            json_update (default (l_link_seed l) (by_key (l_links l) (udma_id index, Z.of_nat port)))
              [("device", JStr (udma_id index)); ("device_port", JInt (Z.of_nat port));
               ("switch", l_switch l);
               ("switch_port", JInt (Z.of_nat index * ports + Z.of_nat port))])
            (seq 0 (Z.to_nat ports));
  Ok (node, device, links).

Definition _resize_single_leaf (spec host_count : json) : res json :=
  _ ← compile_topology spec;
  switches ← subscript spec "switches";
  n_switches ← json_len switches;
  raise Exn ValueError "only single-switch topologies can be resized" [] when negb (n_switches =? 1) ;;
  nodes ← subscript spec "nodes"; node ← first_item nodes; simulator ← subscript node "simulator";
  count ← or_raise (in_range host_count 2 8) (Exn ValueError "{simulator}: 2-8 hosts" [PS (py_str simulator)]);
  l ← read_leaf spec;
  hosts ← mapR (leaf_host l) (seq 0 (Z.to_nat count));
  result ← json_update spec
             [("nodes", JList ((λ h : json * json * list json, h.1.1) <$> hosts));
              ("devices", JList ((λ h : json * json * list json, h.1.2) <$> hosts));
              ("links", JList (mjoin ((λ h : json * json * list json, h.2) <$> hosts)))];
  _ ← compile_topology result;
  Ok result.

(** [d.setdefault(k, v)]: the dict after, and the value. *)
Definition setdefault (o : jobj) (k : string) (v : json) : jobj * json :=
  match dget o k with Some v' => (o, v') | None => (dset o k v, v) end.

Definition _template_spec (simulator host_count : json) : res json :=
  _ ← py_hash simulator;
  template ← or_raise (s ← json_is_str simulator; snd <$> List.find (λ t, bool_decide (t.1 = (s, "switch"))) TEMPLATES)
               (Exn ValueError "unsupported simulator" []);
  content ← or_raise (configs template) (Exn FileNotFoundError "{}" [PS template]);
  spec ← content;
  spec ← (if eq_str simulator "gem5" then
            match spec with
            | JObj o =>
                let '(o', machine) := setdefault o "machine" (JObj []) in
                match machine with
                | JObj m => Ok (JObj (dset o' "machine" (JObj (setdefault m "memory_size_gb" (JInt 4)).1)))
                | v => Err (Exn AttributeError "{} has no attribute 'setdefault'" [PS (type_name v)])
                end
            | v => Err (Exn AttributeError "{} has no attribute 'setdefault'" [PS (type_name v)])
            end
          else Ok spec);
  _resize_single_leaf spec host_count.

(** ** The operations *)

Definition get (o : jobj) (k : string) : json := default JNull (dget o k).

(** [isinstance(v, str) and 1 <= len(v.strip()) <= 80]: the stripped name. *)
Definition shown_name (v : json) : res string :=
  match v with
  | JStr s =>
      let n := text_len (strip_text s) in
      raise Exn ValueError "a task name has 1-80 characters" [] when negb ((1 <=? n) && (n <=? 80)) ;;
      Ok (strip_text s)
  | _ => Err (Exn ValueError "a task name has 1-80 characters" [])
  end.

(** The identifier drawn for a new task: the time and eight random digits. *)
Definition new_id (stamp random : string) : string := "task-" +:+ stamp +:+ "-" +:+ random.

(** [task_id.replace("-", "_")]. *)
Definition internal_name (task_id : string) : string := replace_char "-"%char "_"%char task_id.

Definition set_name (spec : json) (name : string) : res json :=
  match spec with
  | JObj o => Ok (JObj (dset o "name" (JStr name)))
  | v => Err (Exn TypeError "{} does not support item assignment" [PS (type_name v)])
  end.

(** The file of a saved task. *)
Definition task_file (task_id : string) : res string :=
  path ← _task_path task_id;
  match path with InTasks name => Ok name | InConfigs name => Err (Exn ValueError "read-only" [PS name]) end.

(** The two writes and the reply that end an operation. *)
Definition publish (task_id : string) (spec : json) (display_name : string) : action json :=
  let! file := act_ret (task_file task_id) in
  let! _ := _atomic_json file spec in
  let! _ := _atomic_json (_metadata_path task_id) (JObj [("display_name", JStr display_name)]) in
  λ st, (st, _summary st task_id).

Definition create_checks (task_id : string) (body : jobj) : res (string * json) :=
  display_name ← shown_name (get body "name");
  raise Exn ValueError "only single-switch topologies are supported" []
    when negb (eq_str (get body "topology_type") "single_leaf") ;;
  spec ← _template_spec (get body "simulator") (get body "host_count");
  spec ← set_name spec (internal_name task_id);
  _ ← compile_topology spec;
  Ok (display_name, spec).

Definition _create_task (task_id : string) (body : jobj) : action json :=
  let! checked := act_ret (create_checks task_id body) in
  publish task_id checked.2 checked.1.

(** [(_display_name(...) + " 副本")[:80]]. *)
Definition copy_name (shown : json) : res string :=
  match shown with
  | JStr s => Ok (take_80 (s +:+ " 副本"))
  | v => Err (Exn TypeError "unsupported operand types: {} and str" [PS (type_name v)])
  end.

(** The recipe goes with the copy of a two-host task. *)
Definition copy_recipe (task_id fresh : string) (clone : json) : action unit :=
  let! source := act_ret (recipe_path task_id) in
  let! found := (λ st, (st, Ok (files st !! source))) in
  match found with
  | None => act_ret (Ok tt)
  | Some content =>
      let! two := act_ret (nodes ← subscript clone "nodes"; n ← json_len nodes; Ok (n =? 2)) in
      if negb two then act_ret (Ok tt) else
      let! recipe := act_ret (raw ← content; _ ← validate_recipe py_str raw clone; Ok raw) in
      let! target := act_ret (recipe_path fresh) in
      _atomic_json target recipe
  end.

Definition copy_checks (st : store) (task_id fresh : string) : res (string * json) :=
  source ← _read_task st task_id;
  clone ← set_name source (internal_name fresh);
  _ ← compile_topology clone;
  shown ← _display_name st task_id source;
  display_name ← copy_name shown;
  Ok (display_name, clone).

Definition _copy_task (task_id fresh : string) : action json :=
  let! checked := (λ st, (st, copy_checks st task_id fresh)) in
  let! file := act_ret (task_file fresh) in
  let! _ := _atomic_json file checked.2 in
  let! _ := _atomic_json (_metadata_path fresh) (JObj [("display_name", JStr checked.1)]) in
  let! _ := copy_recipe task_id fresh checked.2 in
  λ st, (st, _summary st fresh).

(** [spec.get("name") != current["name"]], both names of compiled documents
    being strings. *)
Definition same_name (spec : jobj) (current : json) : res bool :=
  name ← subscript current "name";
  Ok (match json_is_str name with Some n => eq_str (get spec "name") n | None => false end).

Definition save_checks (st : store) (task_id : string) (body : jobj) : res (string * json) :=
  raise Exn ValueError "templates are read-only" [] when negb (startswith task_id "task-") ;;
  current ← _read_task st task_id;
  match get body "spec" with
  | JObj spec =>
      same ← same_name spec current;
      raise Exn ValueError "the internal name cannot change" [] when negb same ;;
      _ ← compile_topology (JObj spec);
      shown ← _display_name st task_id current;
      display_name ← shown_name (default shown (dget body "display_name"));
      Ok (display_name, JObj spec)
  | _ => Err (Exn ValueError "no topology" [])
  end.

Definition _save_task (task_id : string) (body : jobj) : action json :=
  let! checked := (λ st, (st, save_checks st task_id body)) in
  publish task_id checked.2 checked.1.

(** The recipe branch of [do_PUT]. *)
Definition put_recipe (task_id : string) (body : jobj) : action json :=
  let! path := (λ st, (st,
    spec ← _read_task st task_id;
    _ ← validate_recipe py_str (JObj body) spec;
    recipe_path task_id)) in
  let! _ := _atomic_json path (JObj body) in
  act_ret (Ok (JObj [("recipe", JObj body)])).

(** The requests that reach the directory. *)
Inductive request :=
  | Create (fresh : string) (body : jobj)
  | Copy (task_id fresh : string)
  | Save (task_id : string) (body : jobj)
  | PutRecipe (task_id : string) (body : jobj).

Definition serve (r : request) : action json :=
  match r with
  | Create fresh body => _create_task fresh body
  | Copy task_id fresh => _copy_task task_id fresh
  | Save task_id body => _save_task task_id body
  | PutRecipe task_id body => put_recipe task_id body
  end.
End tasks.

(** ** File names *)

Lemma app_inj_tail_string a b s : a +:+ s = b +:+ s → a = b.
Proof.
  intros H. apply (f_equal String.rev) in H. rewrite !rev_app_string in H.
  assert (∀ p x y : string, p +:+ x = p +:+ y → x = y) as Hinj.
  { induction p as [|c p IH]; intros x y; cbn; [done|]. intros [= ?]. auto. }
  apply Hinj in H. apply (f_equal String.rev) in H. by rewrite !rev_rev_string in H.
Qed.

Lemma id_tail_chars prefix s :
  str_forallb id_char prefix = true → id_tail prefix s = true → str_forallb id_char s = true.
Proof.
  unfold id_tail. intros Hp H. destruct (strip_prefix prefix s) as [r|] eqn:E; [|done].
  apply strip_prefix_Some in E as ->. bool_inv. rewrite str_forallb_app, Hp. done.
Qed.

Lemma valid_id_chars s : valid_id s = true → str_forallb id_char s = true.
Proof.
  unfold valid_id. intros H. destruct (id_tail "template-" s) eqn:E.
  - by apply (id_tail_chars "template-").
  - cbn in H. by apply (id_tail_chars "task-").
Qed.

(** A metadata or recipe file is no task's document, whatever the ids. *)
Lemma suffix_not_task a b x :
  str_forallb id_char b = true → a +:+ ("." +:+ x) +:+ ".json" ≠ b +:+ ".json".
Proof.
  intros Hb H. rewrite <- string_app_assoc in H. apply app_inj_tail_string in H as <-.
  rewrite !str_forallb_app in Hb. cbn in Hb. by rewrite andb_false_r in Hb.
Qed.

Lemma metadata_not_task a b :
  str_forallb id_char b = true → _metadata_path a ≠ b +:+ ".json".
Proof. intros Hb. exact (suffix_not_task a b "meta" Hb). Qed.

Lemma recipe_path_Ok a r : recipe_path a = Ok r → r = a +:+ ".recipe.json".
Proof. unfold recipe_path. intros H. by py_inv. Qed.

Lemma recipe_not_task a b r :
  recipe_path a = Ok r → str_forallb id_char b = true → r ≠ b +:+ ".json".
Proof. intros ->%recipe_path_Ok Hb. exact (suffix_not_task a b "recipe" Hb). Qed.

Definition saved_id (task_id : string) : Prop := id_tail "task-" task_id = true.

Lemma saved_valid task_id : saved_id task_id → valid_id task_id = true.
Proof. unfold saved_id, valid_id. intros ->. apply orb_true_r. Qed.

Lemma saved_not_template task_id : saved_id task_id → startswith task_id "template-" = false.
Proof.
  unfold saved_id, id_tail. destruct (strip_prefix "task-" task_id) as [r|] eqn:E; [|done].
  apply strip_prefix_Some in E as ->. done.
Qed.

Lemma saved_path task_id : saved_id task_id → _task_path task_id = Ok (InTasks (task_id +:+ ".json")).
Proof. intros H. unfold _task_path. by rewrite saved_valid, saved_not_template by done. Qed.

Lemma saved_file task_id : saved_id task_id → task_file task_id = Ok (task_id +:+ ".json").
Proof. intros H. unfold task_file. by rewrite saved_path. Qed.

(** An id that starts with [task-] and has a path is a saved task's. *)
Lemma path_saved task_id p : startswith task_id "task-" = true → _task_path task_id = Ok p → saved_id task_id.
Proof.
  intros (r & ->)%startswith_spec. unfold _task_path. intros H. py_inv. bool_inv.
  unfold valid_id in *. bool_inv. done.
Qed.

(** ** The directory's invariant *)

(** Every saved task is a document that compiles. *)
Definition sound (st : store) : Prop :=
  ∀ task_id content, saved_id task_id → files st !! (task_id +:+ ".json") = Some content →
    ∃ spec p, content = Ok spec ∧ compile_topology spec = Ok p.

(** No saved task is lost or renamed. *)
Definition kept (st st' : store) : Prop :=
  ∀ task_id spec, saved_id task_id → files st !! (task_id +:+ ".json") = Some (Ok spec) →
    ∃ spec', files st' !! (task_id +:+ ".json") = Some (Ok spec') ∧
      subscript spec' "name" = subscript spec "name".

(** The ids drawn for new tasks are unused task ids. *)
Definition draws (st : store) (r : request) : Prop :=
  match r with
  | Create fresh _ | Copy _ fresh => saved_id fresh ∧ files st !! (fresh +:+ ".json") = None
  | Save _ _ | PutRecipe _ _ => True
  end.

#[global] Instance kept_refl : Reflexive kept.
Proof. intros st task_id spec _ H. by exists spec. Qed.
#[global] Instance kept_trans : Transitive kept.
Proof.
  intros st1 st2 st3 H12 H23 task_id spec Hid H.
  destruct (H12 _ _ Hid H) as (spec2 & H2 & E2). destruct (H23 _ _ Hid H2) as (spec3 & H3 & E3).
  exists spec3. by rewrite E3.
Qed.

(** An action from a sound directory leads to a sound one that keeps the tasks. *)
Definition safe {A} (m : action A) (st : store) : Prop :=
  sound st → sound (m st).1 ∧ kept st (m st).1.

Lemma safe_ret {A} (m : res A) st : safe (act_ret m) st.
Proof. by intros H. Qed.

Lemma safe_reply {A} (f : store → res A) st : safe (λ st, (st, f st)) st.
Proof. by intros H. Qed.

Lemma safe_bind {A B} (m : action A) (k : A → action B) st :
  safe m st → (∀ a, (m st).2 = Ok a → safe (k a) (m st).1) → safe (act_bind m k) st.
Proof.
  intros Hm Hk Hst. destruct (Hm Hst) as [Hs1 Hk1]. unfold act_bind.
  destruct (m st) as [st1 [a|e]] eqn:E; cbn in *; [|done].
  destruct (Hk a eq_refl Hs1) as [Hs2 Hk2]. split; [done|]. by etrans.
Qed.

Section safety.
Context (configs : string → option (res json)) (write_error : string → option exn)
  (strip_text : string → string) (text_len : string → Z) (take_80 : string → string)
  (py_str : json → string).

(** A write to a file that is no task's document. *)
Lemma safe_other name value st :
  (∀ task_id, saved_id task_id → name ≠ task_id +:+ ".json") →
  safe (_atomic_json write_error name value) st.
Proof.
  intros Hn Hst. unfold _atomic_json. destruct (write_error name); [done|]. cbn. split.
  - intros task_id content Hid. cbn. rewrite lookup_insert_ne by (by apply Hn). by apply Hst.
  - intros task_id spec Hid H. exists spec. cbn. by rewrite lookup_insert_ne by (by apply Hn).
Qed.

Lemma safe_metadata task_id value st : safe (_atomic_json write_error (_metadata_path task_id) value) st.
Proof. apply safe_other. intros b Hb. apply metadata_not_task, valid_id_chars, saved_valid, Hb. Qed.

(** The document of a task: compiled, and new or under its old name. *)
Lemma safe_document task_id spec p st :
  saved_id task_id → compile_topology spec = Ok p →
  (∀ content, files st !! (task_id +:+ ".json") = Some content →
     ∃ old, content = Ok old ∧ subscript spec "name" = subscript old "name") →
  safe (_atomic_json write_error (task_id +:+ ".json") spec) st.
Proof.
  intros Hid Hc Hold Hst. unfold _atomic_json. destruct (write_error _); [done|]. cbn. split.
  - intros b content Hb. cbn. destruct (decide (b = task_id)) as [->|Hne].
    + rewrite lookup_insert_eq. intros [= <-]. by exists spec, p.
    + rewrite lookup_insert_ne by (intros H; by apply app_inj_tail_string in H). by apply Hst.
  - intros b old Hb H. cbn. destruct (decide (b = task_id)) as [->|Hne].
    + rewrite lookup_insert_eq. exists spec. split; [done|].
      destruct (Hold _ H) as (? & [= <-] & E). done.
    + exists old. by rewrite lookup_insert_ne by (intros E; by apply app_inj_tail_string in E).
Qed.

Lemma safe_publish task_id spec shown p st :
  saved_id task_id → compile_topology spec = Ok p →
  (∀ content, files st !! (task_id +:+ ".json") = Some content →
     ∃ old, content = Ok old ∧ subscript spec "name" = subscript old "name") →
  safe (publish configs write_error text_len task_id spec shown) st.
Proof.
  intros Hid Hc Hold. unfold publish. apply safe_bind; [apply safe_ret|intros file Hf].
  cbn in Hf |- *. rewrite saved_file in Hf by done. injection Hf as <-.
  apply safe_bind; [by eapply safe_document|intros _ _].
  apply safe_bind; [apply safe_metadata|intros _ _]. apply safe_reply.
Qed.

Lemma read_saved st task_id spec :
  saved_id task_id → _read_task configs st task_id = Ok spec →
  files st !! (task_id +:+ ".json") = Some (Ok spec).
Proof.
  intros Hid. unfold _read_task. rewrite saved_path by done. cbn.
  destruct (files st !! _); [|done]. by intros ->.
Qed.

(** Reading succeeds only through a path, hence a saved task's id. *)
Lemma read_id st task_id spec :
  startswith task_id "task-" = true → _read_task configs st task_id = Ok spec → saved_id task_id.
Proof. intros Hs H. unfold _read_task in H. apply bind_Ok in H as (p & Hp & _). by eapply path_saved. Qed.

Lemma same_name_true spec current name :
  same_name spec current = Ok true → subscript current "name" = Ok name →
  subscript (JObj spec) "name" = Ok name.
Proof.
  unfold same_name. intros H Hn. rewrite Hn in H. cbn in H. injection H as H.
  destruct (json_is_str name) as [n|] eqn:En; [|done].
  destruct name; try done. injection En as ->. apply eq_str_true in H. unfold get in H.
  apply getitem_Ok. destruct (dget spec "name") as [v|]; [|done]. cbn in H. by rewrite H.
Qed.

Lemma safe_copy_recipe task_id fresh clone st : safe (copy_recipe write_error text_len py_str task_id fresh clone) st.
Proof.
  unfold copy_recipe. apply safe_bind; [apply safe_ret|intros source _]. cbn.
  apply safe_bind; [apply safe_reply|intros found _]. destruct found as [content|]; [|apply safe_ret].
  apply safe_bind; [apply safe_ret|intros two _]. destruct (negb two); [apply safe_ret|].
  apply safe_bind; [apply safe_ret|intros recipe _].
  apply safe_bind; [apply safe_ret|intros target Ht]. apply safe_other. intros b Hb.
  eapply recipe_not_task; [exact Ht|]. by apply valid_id_chars, saved_valid.
Qed.

#[local] Abbreviation serve := (serve configs write_error strip_text text_len take_80 py_str).

(** What the checks of an edit establish. *)
Lemma saved_edit st task_id body shown spec :
  sound st →
  save_checks configs strip_text text_len st task_id body = Ok (shown, spec) →
  saved_id task_id ∧ (∃ p, compile_topology spec = Ok p) ∧
  ∃ current, files st !! (task_id +:+ ".json") = Some (Ok current) ∧
    subscript spec "name" = subscript current "name".
Proof.
  intros Hst H. unfold save_checks in H. destruct (startswith task_id "task-") eqn:Hs; [|done].
  cbn [negb] in H. apply bind_Ok in H as (current & Hr & H).
  pose proof (read_id _ _ _ Hs Hr) as Hid. apply (read_saved _ _ _ Hid) in Hr.
  destruct (get body "spec") as [| | | | | |o]; try done.
  apply bind_Ok in H as (same & Hsame & H). destruct same; [|done]. cbn [negb] in H.
  apply bind_Ok in H as (p & Hp & H). apply bind_Ok in H as (d1 & _ & H).
  apply bind_Ok in H as (d2 & _ & [= <- <-]). split; [done|]. split; [by exists p|].
  exists current. split; [done|].
  destruct (Hst _ _ Hid Hr) as (c & pc & [= <-] & Hcc).
  destruct (compile_fields _ _ Hcc) as (oc & ? & ? & -> & Hn & _). apply getitem_Ok in Hn.
  cbn [subscript]. rewrite Hn. by apply (same_name_true _ (JObj oc)).
Qed.

Lemma safe_fresh fresh spec p st :
  saved_id fresh → files st !! (fresh +:+ ".json") = None → compile_topology spec = Ok p →
  safe (_atomic_json write_error (fresh +:+ ".json") spec) st.
Proof. intros Hid Hn Hc. eapply safe_document; [done|done|]. intros content. by rewrite Hn. Qed.

Lemma serve_safe r st : draws st r → safe (serve r) st.
Proof.
  intros Hd Hst. cut (safe (serve r) st); [by intros H; apply H|].
  revert Hd. destruct r as [fresh body|task_id fresh|task_id body|task_id body]; cbn.
  - intros [Hid Hn]. apply safe_bind; [apply safe_ret|intros [shown spec] Hc].
    cbn in Hc |- *. unfold create_checks in Hc. py_inv.
    eapply safe_publish; [done|done|]. intros content. by rewrite Hn.
  - intros [Hid Hn]. apply safe_bind; [apply safe_reply|intros [shown clone] Hc].
    cbn in Hc |- *. unfold copy_checks in Hc. py_inv.
    apply safe_bind; [apply safe_ret|intros file Hf]. cbn in Hf |- *. rewrite saved_file in Hf by done.
    injection Hf as <-. apply safe_bind; [by eapply safe_fresh|intros _ _].
    apply safe_bind; [apply safe_metadata|intros _ _].
    apply safe_bind; [apply safe_copy_recipe|intros _ _]. apply safe_reply.
  - intros _. apply safe_bind; [apply safe_reply|intros [shown spec] Hc].
    cbn in Hc |- *. apply saved_edit in Hc as (Hid & (p & Hp) & current & Hcur & Hname); [|done].
    eapply safe_publish; [done|exact Hp|]. intros content Hf. rewrite Hcur in Hf. injection Hf as <-.
    by exists current.
  - intros _. apply safe_bind; [apply safe_reply|intros path Hc]. cbn in Hc |- *.
    apply bind_Ok in Hc as (spec & _ & Hc). apply bind_Ok in Hc as (rc & _ & Hc).
    apply safe_bind; [|intros _ _; apply safe_ret]. apply safe_other. intros b Hb.
    eapply recipe_not_task; [exact Hc|]. by apply valid_id_chars, saved_valid.
Qed.
End safety.

(** ** What a request achieves *)

(** A directory and the requests served on it: each draws unused ids, each may
    meet its own failing writes. *)
Inductive history (configs : string → option (res json)) (strip_text : string → string)
    (text_len : string → Z) (take_80 : string → string) (py_str : json → string) (st0 : store)
    : store → Prop :=
  | history_start : history configs strip_text text_len take_80 py_str st0 st0
  | history_serve st r write_error :
      history configs strip_text text_len take_80 py_str st0 st → draws st r →
      history configs strip_text text_len take_80 py_str st0
        (serve configs write_error strip_text text_len take_80 py_str r st).1.

(** C10: whatever requests arrive and whatever writes fail, every saved task is
    a document that compiles, and no task is lost or renamed. *)
Theorem tasks_stay_sound configs strip_text text_len take_80 py_str st0 st :
  sound st0 → history configs strip_text text_len take_80 py_str st0 st →
  sound st ∧ kept st0 st.
Proof.
  intros H0. induction 1 as [|st r write_error _ [Hs Hk] Hd]; [done|].
  destruct (serve_safe configs write_error strip_text text_len take_80 py_str r st Hd Hs).
  split; [done|]. by etrans.
Qed.

(** A compiled document has a summary. *)
Lemma summary_total configs text_len st task_id spec p o :
  saved_id task_id → files st !! (task_id +:+ ".json") = Some (Ok spec) → compile_topology spec = Ok p →
  files st !! _metadata_path task_id = Some (Ok (JObj o)) →
  ∃ v, _summary configs text_len st task_id = Ok v.
Proof.
  intros Hid Hf Hc Hm. destruct (compile_fields _ _ Hc) as (d & nodes & switches & -> & H1 & H2 & Hne & _ & H3 & HF).
  unfold _summary, _read_task. rewrite saved_path by done. cbn. rewrite Hf. cbn.
  unfold _display_name. rewrite saved_not_template by done. unfold _task_metadata. rewrite Hm. cbn.
  apply getitem_Ok in H1, H2, H3. rewrite H1, H2, H3. cbn.
  destruct nodes as [|n nodes]; [done|]. cbn. apply Forall_cons in HF as [[s Hs] _]. rewrite Hs. cbn.
  by eexists.
Qed.

Section requests.
Context (configs : string → option (res json)) (strip_text : string → string)
  (text_len : string → Z) (take_80 : string → string) (py_str : json → string).

(** With no failing write, publishing stores the document and the name. *)
Lemma publish_stores task_id spec p shown st :
  saved_id task_id → compile_topology spec = Ok p →
  ∃ v, publish configs (λ _, None) text_len task_id spec shown st =
    (Store (<[_metadata_path task_id := Ok (JObj [("display_name", JStr shown)])]>
              (<[task_id +:+ ".json" := Ok spec]> (files st))), Ok v).
Proof.
  intros Hid Hc. unfold publish, act_bind, act_ret. rewrite saved_file by done. cbn.
  match goal with |- ∃ v, (?st', _) = _ =>
    destruct (summary_total configs text_len st' task_id spec p [("display_name", JStr shown)]
                Hid ltac:(cbn; rewrite lookup_insert_ne, lookup_insert_eq;
                          [done|intros H; by apply metadata_not_task in H; [|apply valid_id_chars, saved_valid]])
                Hc ltac:(cbn; by rewrite lookup_insert_eq)) as [v ->] end.
  by exists v.
Qed.

Lemma stored_reads task_id spec st :
  saved_id task_id → files st !! (task_id +:+ ".json") = Some (Ok spec) →
  _read_task configs st task_id = Ok spec.
Proof. intros Hid Hf. unfold _read_task. rewrite saved_path by done. cbn. by rewrite Hf. Qed.

(** After [publish] the task reads back as the document. *)
Lemma published_reads task_id spec p shown st :
  saved_id task_id → compile_topology spec = Ok p →
  ∃ st' v, publish configs (λ _, None) text_len task_id spec shown st = (st', Ok v) ∧
    _read_task configs st' task_id = Ok spec.
Proof.
  intros Hid Hc. destruct (publish_stores task_id spec p shown st Hid Hc) as [v Hv].
  eexists _, v. split; [exact Hv|]. apply stored_reads; [done|]. cbn.
  rewrite lookup_insert_ne, lookup_insert_eq; [done|].
  intros H. by apply metadata_not_task in H; [|apply valid_id_chars, saved_valid].
Qed.

(** Creating a task and editing one are all or nothing when the files can
    be written: an error leaves the directory as it was, and a success stores
    exactly the checked document, so that reading the task gives it back. *)
Theorem edits_atomic st task_id body :
  sound st → saved_id task_id →
  match _create_task configs (λ _, None) strip_text text_len py_str task_id body st with
  | (st', Err _) => st' = st
  | (st', Ok _) => ∃ spec, _read_task configs st' task_id = Ok spec ∧
      subscript spec "name" = Ok (JStr (internal_name task_id)) ∧ is_ok (compile_topology spec) = true
  end ∧
  match _save_task configs (λ _, None) strip_text text_len task_id body st with
  | (st', Err _) => st' = st
  | (st', Ok _) => ∃ spec, dget body "spec" = Some spec ∧ _read_task configs st' task_id = Ok spec
  end.
Proof.
  intros Hst Hid. split.
  - unfold _create_task, act_bind at 1, act_ret at 1.
    destruct (create_checks _ _ _ _ task_id body) as [[shown spec]|e] eqn:Hc; [|done].
    cbn [fst snd]. unfold create_checks in Hc. py_inv.
    match goal with H : compile_topology spec = Ok ?p |- _ =>
      destruct (published_reads task_id spec p shown st Hid H) as (st' & v & -> & Hr);
      exists spec; rewrite H end.
    split_and!; try done. match goal with H : set_name ?s _ = Ok spec |- _ =>
      destruct s; try done; injection H as <- end.
    apply getitem_Ok. by rewrite dget_dset_eq.
  - unfold _save_task, act_bind at 1.
    destruct (save_checks _ _ _ st task_id body) as [[shown spec]|e] eqn:Hc; [|done].
    cbn [fst snd]. pose proof Hc as Hc'. apply saved_edit in Hc' as (_ & (p & Hp) & _); [|done].
    destruct (published_reads task_id spec p shown st Hid Hp) as (st' & v & -> & Hr).
    exists spec. split; [|done]. unfold save_checks in Hc.
    destruct (negb _); [done|]. apply bind_Ok in Hc as (current & _ & Hc). unfold get in Hc.
    destruct (dget body "spec") as [[| | | | | |o]|]; try done. cbn in Hc. by py_inv.
Qed.
End requests.

(** ** Resizing keeps what it can *)

(** [v] is [old] with [fields] set. *)
Definition rewritten (old v : json) (fields : jobj) : Prop :=
  ∃ o o', old = JObj o ∧ v = JObj o' ∧
    ∀ k, dget o' k = match dget fields k with Some x => Some x | None => dget o k end.

Lemma json_update_rewritten old v fields :
  NoDup (keys fields) → json_update old fields = Ok v → rewritten old v fields.
Proof.
  intros Hnd. destruct old as [| | | | | |o]; try done. cbn. intros [= <-].
  exists o, (dupdate o fields). split_and!; [done|done|]. intros k. by apply dget_dupdate.
Qed.

(** Host [i] of a resized topology: its parameters are those of the old host of
    that name, or the first host's, and so for its links. *)
Definition host_kept (l : leaf) (i : nat) (h : json * json * list json) : Prop :=
  rewritten (default (l_node_seed l) (by_key (l_nodes l) (head_id i))) h.1.1 [("id", JStr (head_id i))] ∧
  rewritten (default (l_device_seed l) (by_key (l_devices l) (head_id i))) h.1.2
    [("id", JStr (udma_id i)); ("node", JStr (head_id i)); ("eid", JInt (256 + Z.of_nat i))] ∧
  ∃ ports, subscript h.1.2 "ports" = Ok (JInt ports) ∧ length h.2 = Z.to_nat ports ∧
    ∀ port link, h.2 !! port = Some link →
      rewritten (default (l_link_seed l) (by_key (l_links l) (udma_id i, Z.of_nat port))) link
        [("device", JStr (udma_id i)); ("device_port", JInt (Z.of_nat port)); ("switch", l_switch l);
         ("switch_port", JInt (Z.of_nat i * ports + Z.of_nat port))].

Lemma leaf_host_kept l i h : leaf_host l i = Ok h → host_kept l i h.
Proof.
  unfold leaf_host. intros H. apply bind_Ok in H as (node & Hn & H).
  apply bind_Ok in H as (device & Hd & H). apply bind_Ok in H as (ports & Hp & H).
  apply bind_Ok in H as (links & Hl & [= <-]).
  split; [|split]; cbn.
  - apply json_update_rewritten; [|done]. cbn. apply NoDup_singleton.
  - apply json_update_rewritten; [|done]. apply (bool_decide_unpack _). by vm_compute.
  - exists ports. unfold int_field in Hp. apply bind_Ok in Hp as (x & Hx & Hp).
    destruct x; try done. injection Hp as ->. split; [done|].
    split; [rewrite (mapR_length _ _ _ Hl); apply length_seq|].
    intros port link Hlink. apply mapR_Ok in Hl.
    destruct (Forall2_lookup_r _ _ _ _ _ Hl Hlink) as (x & Hx' & Hu).
    apply lookup_seq in Hx' as [-> _]. cbn in Hu.
    apply json_update_rewritten in Hu; [done|]. apply (bool_decide_unpack _). by vm_compute.
Qed.

(** A resized topology compiles; it has exactly the requested hosts, named
    and numbered in order, each with the parameters of the old host of its name
    or of the first host, and nothing else of the document changes. *)
Theorem resize_keeps py_str text_len spec count r :
  _resize_single_leaf text_len py_str spec (JInt count) = Ok r →
  2 <= count <= 8 ∧ is_ok (compile_topology r) = true ∧
  ∃ l hosts, read_leaf spec = Ok l ∧ len hosts = count ∧
    (∀ i h, hosts !! i = Some h → host_kept l i h) ∧
    rewritten spec r
      [("nodes", JList ((λ h : json * json * list json, h.1.1) <$> hosts));
       ("devices", JList ((λ h : json * json * list json, h.1.2) <$> hosts));
       ("links", JList (mjoin ((λ h : json * json * list json, h.2) <$> hosts)))].
Proof.
  unfold _resize_single_leaf. intros H.
  apply bind_Ok in H as (p & _ & H). apply bind_Ok in H as (switches & _ & H).
  apply bind_Ok in H as (n & _ & H). destruct (negb _); [done|].
  apply bind_Ok in H as (nodes & _ & H). apply bind_Ok in H as (node & _ & H).
  apply bind_Ok in H as (sim & _ & H). apply bind_Ok in H as (c & Hc & H).
  apply or_raise_Ok, in_range_Some in Hc as [[= ->] Hc].
  apply bind_Ok in H as (l & Hl & H). apply bind_Ok in H as (hosts & Hh & H).
  apply bind_Ok in H as (r' & Hr & H). apply bind_Ok in H as (p' & Hp & [= <-]).
  split; [done|]. split; [by rewrite Hp|]. exists l, hosts. split; [done|].
  split; [unfold len; rewrite (mapR_length _ _ _ Hh), length_seq; lia|].
  split; [|apply json_update_rewritten; [apply (bool_decide_unpack _); by vm_compute|done]].
  intros i h Hi. apply mapR_Ok in Hh. destruct (Forall2_lookup_r _ _ _ _ _ Hh Hi) as (x & Hx & Hu).
  apply lookup_seq in Hx as [-> _]. by apply leaf_host_kept.
Qed.

(** ** Concrete requests *)

Definition sample_configs (name : string) : option (res json) :=
  if String.eqb name "topology-gem5-two-heads.json" then Some (Ok topology_gem5_two_heads)
  else if String.eqb name "topology-qemu-two-heads.json" then Some (Ok topology_qemu_two_heads) else None.

Definition sample_body : jobj :=
  [("name", JStr "A pair"); ("simulator", JStr "qemu"); ("topology_type", JStr "single_leaf");
   ("host_count", JInt 2)].

(** Nothing fails, and the texts are ASCII and short. *)
Definition sample_serve (r : request) (st : store) : store * res json :=
  serve sample_configs (λ _, None) (λ s, s) py_len (λ s, s) sample_str r st.

Definition sample_created : store := (sample_serve (Create "task-a" sample_body) (Store ∅)).1.

(** The document of a task, with the devices' Jetty limit changed. *)
Definition with_limit (limit : Z) (spec : json) : json :=
  match spec with
  | JObj o =>
      JObj (dset o "devices"
        (match dget o "devices" with
         | Some (JList l) => JList ((λ d, match d with JObj d => JObj (dset d "max_jettys" (JInt limit)) | d => d end) <$> l)
         | _ => JNull
         end))
  | v => v
  end.

Definition sample_edit (limit : Z) (st : store) : request :=
  Save "task-a" [("spec", with_limit limit (match _read_task sample_configs st "task-a" with Ok v => v | _ => JNull end))].

(** A recipe with four Jettys is saved, then the limit lowered to two: copying
    the task fails on the recipe after the copy has been created. *)
Example copy_with_stale_recipe :
  let raw := match sample_raw with JObj o => dset o "jettys" (JList [JInt 1; JInt 4]) | _ => [] end in
  let st1 := (sample_serve (PutRecipe "task-a" (dset raw "operations" (JList [JStr "read_bw"]))) sample_created).1 in
  let st2 := (sample_serve (sample_edit 2 st1) st1).1 in
  let '(st3, reply) := sample_serve (Copy "task-a" "task-b") st2 in
  is_ok reply = false ∧ is_ok (_summary sample_configs py_len st3 "task-b") = true.
Proof. vm_compute. done. Qed.

Lemma empty_sound : sound (Store ∅).
Proof. intros task_id content _. cbn. by rewrite lookup_empty. Qed.

Lemma tasks_stay_sound_witness : sound sample_created ∧ kept (Store ∅) sample_created.
Proof.
  apply (tasks_stay_sound sample_configs (λ s, s) py_len (λ s, s) sample_str (Store ∅) sample_created empty_sound).
  refine (history_serve _ _ _ _ _ _ (Store ∅) (Create "task-a" sample_body) (λ _, None) _ _).
  - apply history_start.
  - split; reflexivity.
Defined.

Lemma edits_atomic_witness :
  ∃ spec, _read_task sample_configs sample_created "task-a" = Ok spec ∧
    subscript spec "name" = Ok (JStr "task_a").
Proof.
  destruct (edits_atomic sample_configs (λ s, s) py_len sample_str (Store ∅) "task-a" sample_body
              empty_sound eq_refl) as [H _].
  assert (is_ok (_create_task sample_configs (λ _, None) (λ s, s) py_len sample_str "task-a" sample_body (Store ∅)).2
          = true) as Hok by (vm_compute; reflexivity).
  change sample_created with
    (_create_task sample_configs (λ _, None) (λ s, s) py_len sample_str "task-a" sample_body (Store ∅)).1.
  destruct (_create_task _ _ _ _ _ _ _ _) as [st' [v|e]]; [|discriminate Hok].
  destruct H as (spec & H1 & H2 & _). exists spec. split; [exact H1|exact H2].
Defined.

Lemma resize_keeps_witness :
  ∃ r, _resize_single_leaf py_len sample_str topology_gem5_two_heads (JInt 4) = Ok r ∧
    is_ok (compile_topology r) = true.
Proof.
  destruct (_resize_single_leaf py_len sample_str topology_gem5_two_heads (JInt 4)) as [r|] eqn:E;
    [|vm_compute in E; discriminate].
  exists r. split; [reflexivity|].
  destruct (resize_keeps sample_str py_len topology_gem5_two_heads 4 r E) as (_ & H & _). exact H.
Defined.
