(* ===== verification/Resizing.v ===== *)
(** * Resizing a resized topology ([ubsim_lab/web.py], [_resize_single_leaf])

    Shrinking loses nothing that a direct resizing would have kept: the hosts of
    a resized topology are the ones any smaller topology is made of. *)

From Stdlib Require Import ZArith Lia.
From stdpp Require Import base strings gmap numbers option list.
From S2P Require Import Prelude PyStr Json Samples Topology TopologyFacts ConfigRuntime Experiments Tasks.

Open Scope string_scope.
Open Scope list_scope.
Open Scope Z_scope.

(** ** Writing fields twice *)

Section dset.
Context {V : Type}.
Implicit Types (d : list (string * V)).

Lemma dset_same d k v : dget d k = Some v → dset d k v = d.
Proof.
  induction d as [|[k1 v1] d IH]; cbn; [done|]. destruct (String.eqb_spec k k1) as [->|]; [by intros [= ->]|].
  intros H. by rewrite IH.
Qed.

Lemma dset_twice d k v w : dset (dset d k v) k w = dset d k w.
Proof.
  induction d as [|[k1 v1] d IH]; cbn; [by rewrite String.eqb_refl|].
  destruct (String.eqb k k1) eqn:E; cbn; rewrite ?String.eqb_refl, ?E; [done|by rewrite IH].
Qed.

Lemma dset_commute d k v k' v' :
  k ≠ k' → is_Some (dget d k) → dset (dset d k v) k' v' = dset (dset d k' v') k v.
Proof.
  intros Hne. induction d as [|[k1 v1] d IH]; cbn; [by intros [? ?]|].
  destruct (String.eqb_spec k k1) as [->|H1].
  - intros _. cbn. destruct (String.eqb_spec k' k1) as [->|]; [done|]. cbn. by rewrite String.eqb_refl.
  - intros Hs. cbn. destruct (String.eqb_spec k' k1) as [->|]; cbn.
    + by destruct (String.eqb_spec k k1).
    + destruct (String.eqb_spec k k1); [done|]. by rewrite IH.
Qed.

Lemma dupdate_absorbed d fields :
  (∀ k v, (k, v) ∈ fields → dget d k = Some v) → dupdate d fields = d.
Proof.
  unfold dupdate. induction fields as [|[k v] fields IH]; intros H; cbn; [done|].
  rewrite dset_same by (apply H; by left). apply IH. intros k' v' Hk. apply H. by right.
Qed.
End dset.

(** Setting fields that are set already changes nothing. *)
Lemma json_update_again old fields v :
  NoDup (keys fields) → json_update old fields = Ok v → json_update v fields = Ok v.
Proof.
  intros Hnd H. destruct (json_update_rewritten _ _ _ Hnd H) as (o & o' & -> & -> & Hg).
  cbn. do 2 f_equal. apply dupdate_absorbed. intros k x Hk. rewrite Hg.
  assert (dget fields k = Some x) as ->; [|done]. by apply dget_NoDup_elem.
Qed.

Lemma json_update_field old fields v k x :
  NoDup (keys fields) → json_update old fields = Ok v → dget fields k = Some x → subscript v k = Ok x.
Proof.
  intros Hnd H Hk. destruct (json_update_rewritten _ _ _ Hnd H) as (o & o' & -> & -> & Hg).
  apply getitem_Ok. by rewrite Hg, Hk.
Qed.

Lemma json_update_other old fields v k :
  NoDup (keys fields) → json_update old fields = Ok v → dget fields k = None → subscript v k = subscript old k.
Proof.
  intros Hnd H Hk. destruct (json_update_rewritten _ _ _ Hnd H) as (o & o' & -> & -> & Hg).
  cbn. unfold getitem. by rewrite Hg, Hk.
Qed.

(** ** Dictionaries by a key of their values *)

Section keyed.
Context {K : Type} `{EqDecision K}.

Lemma by_key_unique (l : list (K * json)) k v :
  (k, v) ∈ l → (∀ v', (k, v') ∈ l → v' = v) → by_key l k = Some v.
Proof using Type.
  intros Hin Hu. unfold by_key. destruct (last (filter (λ kv, kv.1 = k) l)) as [[k' v']|] eqn:E.
  - apply last_Some_elem_of, list_elem_of_filter in E as [Hk Hv]. cbn in *. subst k'. by rewrite (Hu v').
  - apply last_None in E. assert ((k, v) ∈ filter (λ kv, kv.1 = k) l) as H by (by apply list_elem_of_filter).
    rewrite E in H. by apply elem_of_nil in H.
Qed.

(** The pairs that a comprehension [{f(x): x for x in l}] makes. *)
Lemma mapR_pairs (f : json → res (K * json)) l l' k v :
  (∀ x y, f x = Ok y → y.2 = x) → mapR f l = Ok l' → (k, v) ∈ l' ↔ v ∈ l ∧ f v = Ok (k, v).
Proof using Type.
  intros Hf H%mapR_Ok. split.
  - intros [i Hi]%list_elem_of_lookup. destruct (Forall2_lookup_r _ _ _ _ _ H Hi) as (x & Hx & Hk).
    pose proof (Hf _ _ Hk) as Hv. cbn in Hv. subst x. split; [|done]. by eapply list_elem_of_lookup_2.
  - intros [[i Hi]%list_elem_of_lookup Hk]. destruct (Forall2_lookup_l _ _ _ _ _ H Hi) as (y & Hy & Hk').
    rewrite Hk in Hk'. injection Hk' as <-. by eapply list_elem_of_lookup_2.
Qed.
End keyed.

Lemma keyed_value field x y : keyed field x = Ok y → y.2 = x.
Proof. unfold keyed. intros H. by py_inv. Qed.
Lemma keyed_link_value x y : keyed_link x = Ok y → y.2 = x.
Proof. unfold keyed_link. intros H. by py_inv. Qed.

Lemma keyed_str field v s : subscript v field = Ok (JStr s) → keyed field v = Ok (s, v).
Proof. unfold keyed, str_field. by intros ->. Qed.

(** Up to eight hosts have their own names. *)
Lemma suffix_inj (f : nat → string) (i j : nat) :
  NoDup (f <$> seq 0 8) → (i < 8)%nat → (j < 8)%nat → f i = f j → i = j.
Proof.
  intros Hnd Hi Hj E. eapply (NoDup_lookup _ i j (f i)); [exact Hnd| |].
  - rewrite list_lookup_fmap, lookup_seq_lt by done. done.
  - rewrite list_lookup_fmap, lookup_seq_lt by done. cbn. by rewrite E.
Qed.
Lemma head_id_inj i j : (i < 8)%nat → (j < 8)%nat → head_id i = head_id j → i = j.
Proof. apply suffix_inj, (bool_decide_eq_true _). vm_compute. reflexivity. Qed.
Lemma udma_id_inj i j : (i < 8)%nat → (j < 8)%nat → udma_id i = udma_id j → i = j.
Proof. apply suffix_inj, (bool_decide_eq_true _). vm_compute. reflexivity. Qed.

(** ** The hosts of a resized topology *)

Section hosts.
Context (l : leaf) (count : nat) (hosts : list (json * json * list json)).
Hypothesis few : (count ≤ 8)%nat.
Hypothesis made : mapR (leaf_host l) (seq 0 count) = Ok hosts.

Lemma host_at i h : hosts !! i = Some h → leaf_host l i = Ok h ∧ (i < count)%nat.
Proof using made.
  intros Hi. apply mapR_Ok in made. destruct (Forall2_lookup_r _ _ _ _ _ made Hi) as (x & Hx & Hh).
  apply lookup_seq in Hx as [-> ?]. done.
Qed.

Lemma host_exists i : (i < count)%nat → ∃ h, hosts !! i = Some h.
Proof using made.
  intros Hi. apply lookup_lt_is_Some. by rewrite (mapR_length _ _ _ made), length_seq.
Qed.

(** What a host's parts say of themselves. *)
Lemma host_keys i h :
  leaf_host l i = Ok h →
  keyed "id" h.1.1 = Ok (head_id i, h.1.1) ∧ keyed "node" h.1.2 = Ok (head_id i, h.1.2) ∧
  (∀ port link, h.2 !! port = Some link → keyed_link link = Ok ((udma_id i, Z.of_nat port), link)).
Proof using Type.
  unfold leaf_host. intros H. apply bind_Ok in H as (node & Hn & H).
  apply bind_Ok in H as (device & Hd & H). apply bind_Ok in H as (ports & Hp & H).
  apply bind_Ok in H as (links & Hl & [= <-]). cbn [fst snd]. split_and!.
  - apply keyed_str. by eapply json_update_field; [|exact Hn|]; [apply NoDup_singleton|].
  - apply keyed_str. by eapply json_update_field; [|exact Hd|]; [apply (bool_decide_unpack _); by vm_compute|].
  - intros port link Hlink. apply mapR_Ok in Hl. destruct (Forall2_lookup_r _ _ _ _ _ Hl Hlink) as (x & Hx & Hu).
    apply lookup_seq in Hx as [-> _]. cbn in Hu. unfold keyed_link, str_field, int_field.
    match type of Hu with json_update _ ?f = _ => assert (NoDup (keys f)) as Hnd by (apply (bool_decide_unpack _); by vm_compute) end.
    rewrite (json_update_field _ _ _ "device" _ Hnd Hu eq_refl), (json_update_field _ _ _ "device_port" _ Hnd Hu eq_refl). done.
Qed.

(** Reading a list of parts back by a key that tells the hosts apart. *)
Lemma part_found (part : json * json * list json → json) field l' i h :
  (∀ j g, leaf_host l j = Ok g → keyed field (part g) = Ok (head_id j, part g)) →
  mapR (keyed field) (part <$> hosts) = Ok l' → hosts !! i = Some h → by_key l' (head_id i) = Some (part h).
Proof using few made.
  intros Hk Hm Hi. destruct (host_at i h Hi) as [Hh Hlt]. apply by_key_unique.
  - apply (mapR_pairs _ _ _ _ _ (keyed_value field) Hm). split; [|by apply Hk].
    apply list_elem_of_fmap. exists h. split; [done|]. by eapply list_elem_of_lookup_2.
  - intros v' [Hv Hf]%(mapR_pairs _ _ _ _ _ (keyed_value field) Hm).
    apply list_elem_of_fmap in Hv as (g & -> & [j Hj]%list_elem_of_lookup).
    destruct (host_at j g Hj) as [Hg Hlt']. rewrite (Hk _ _ Hg) in Hf. assert (head_id j = head_id i) by congruence.
    assert (j = i) as -> by (apply head_id_inj; [lia|lia|done]). congruence.
Qed.

Lemma link_found l' i h port link :
  mapR keyed_link (mjoin ((λ h : json * json * list json, h.2) <$> hosts)) = Ok l' →
  hosts !! i = Some h → h.2 !! port = Some link → by_key l' (udma_id i, Z.of_nat port) = Some link.
Proof using few made.
  intros Hm Hi Hp. destruct (host_at i h Hi) as [Hh Hlt].
  destruct (host_keys i h Hh) as (_ & _ & Hl). apply by_key_unique.
  - apply (mapR_pairs _ _ _ _ _ keyed_link_value Hm). split; [|by apply Hl].
    apply list_elem_of_join. exists h.2. split; [by eapply list_elem_of_lookup_2|].
    apply list_elem_of_fmap. exists h. split; [done|]. by eapply list_elem_of_lookup_2.
  - intros v' [Hv Hf]%(mapR_pairs _ _ _ _ _ keyed_link_value Hm).
    apply list_elem_of_join in Hv as (ls & Hv & Hls).
    apply list_elem_of_fmap in Hls as (g & -> & [j Hj]%list_elem_of_lookup).
    apply list_elem_of_lookup in Hv as [q Hq]. destruct (host_at j g Hj) as [Hg Hlt'].
    destruct (host_keys j g Hg) as (_ & _ & Hl'). rewrite (Hl' _ _ Hq) in Hf.
    assert (udma_id j = udma_id i ∧ Z.of_nat q = Z.of_nat port) as [Hf1 Hf2] by (split; congruence).
    assert (j = i) as -> by (apply udma_id_inj; [lia|lia|done]). rewrite Hi in Hj. injection Hj as <-.
    assert (q = port) as -> by lia. congruence.
Qed.

(** Made again from what was made of it, a host is the same. *)
Lemma host_again l1 i :
  mapR (keyed "id") ((λ h : json * json * list json, h.1.1) <$> hosts) = Ok (l_nodes l1) →
  mapR (keyed "node") ((λ h : json * json * list json, h.1.2) <$> hosts) = Ok (l_devices l1) →
  mapR keyed_link (mjoin ((λ h : json * json * list json, h.2) <$> hosts)) = Ok (l_links l1) →
  l_switch l1 = l_switch l → (i < count)%nat → leaf_host l1 i = leaf_host l i.
Proof using few made.
  intros Hn Hd Hl Hs Hi. destruct (host_exists i Hi) as [h Hh]. destruct (host_at i h Hh) as [Hok _].
  assert (leaf_host l i = Ok h) as -> by done.
  pose proof (part_found (λ h, h.1.1) "id" _ i h (λ j g E, proj1 (host_keys j g E)) Hn Hh) as Fn.
  pose proof (part_found (λ h, h.1.2) "node" _ i h (λ j g E, proj1 (proj2 (host_keys j g E))) Hd Hh) as Fd.
  pose proof (λ port link, link_found _ i h port link Hl Hh) as Fl.
  unfold leaf_host in Hok |- *. rewrite Fn, Fd, Hs. cbn [from_option id].
  apply bind_Ok in Hok as (node & En & Hok). apply bind_Ok in Hok as (device & Ed & Hok).
  apply bind_Ok in Hok as (ports & Ep & Hok). apply bind_Ok in Hok as (links & El & [= <-]). cbn [fst snd] in *.
  apply json_update_again in En; [|apply NoDup_singleton]. rewrite En. cbn [mbind res_bind].
  apply json_update_again in Ed; [|apply (bool_decide_unpack _); by vm_compute]. rewrite Ed. cbn [mbind res_bind].
  rewrite Ep. cbn [mbind res_bind].
  assert (mapR (λ port : nat, json_update (default (l_link_seed l1) (by_key (l_links l1) (udma_id i, Z.of_nat port)))
     [("device", JStr (udma_id i)); ("device_port", JInt (Z.of_nat port)); ("switch", l_switch l);
      ("switch_port", JInt (Z.of_nat i * ports + Z.of_nat port))]) (seq 0 (Z.to_nat ports)) = Ok links) as ->; [|done].
  apply mapR_Ok in El. apply mapR_Ok. apply Forall2_same_length_lookup_2; [by eapply Forall2_length|].
  intros k x link Hx Hk. pose proof (Forall2_lookup_lr _ _ _ _ _ _ El Hx Hk) as Hu. cbn in Hu.
  apply lookup_seq in Hx as [-> _]. cbn beta. cbn [Nat.add]. rewrite (Fl k link Hk). cbn [from_option id].
  eapply json_update_again; [|exact Hu]. apply (bool_decide_unpack _). by vm_compute.
Qed.
End hosts.

(** ** The document *)

(** The hosts' parts in a document. *)
Definition host_fields (hosts : list (json * json * list json)) : jobj :=
  [("nodes", JList ((λ h : json * json * list json, h.1.1) <$> hosts));
   ("devices", JList ((λ h : json * json * list json, h.1.2) <$> hosts));
   ("links", JList (mjoin ((λ h : json * json * list json, h.2) <$> hosts)))].

Lemma host_fields_NoDup hosts : NoDup (keys (host_fields hosts)).
Proof. apply (bool_decide_unpack _). by vm_compute. Qed.

(** Other hosts in their place give the same document. *)
Lemma document_again o hosts hosts' :
  is_Some (dget o "nodes") → is_Some (dget o "devices") → is_Some (dget o "links") →
  dupdate (dupdate o (host_fields hosts)) (host_fields hosts') = dupdate o (host_fields hosts').
Proof.
  intros Hn Hd Hl. unfold dupdate, host_fields. cbn [foldl fst snd].
  assert (∀ (d : jobj) k k' v, is_Some (dget d k) → is_Some (dget (dset d k' v) k)) as Hset.
  { intros d k k' v [x Hx]. rewrite dget_dset. destruct (String.eqb k k'); [by eexists|by exists x]. }
  rewrite (dset_commute _ "links" _ "nodes"), (dset_commute _ "devices" _ "nodes"), dset_twice by auto.
  rewrite (dset_commute _ "links" _ "devices"), dset_twice by auto. by rewrite dset_twice.
Qed.

Lemma json_is_update o o' fields : json_update (JObj o) fields = Ok (JObj o') → o' = dupdate o fields.
Proof. cbn. congruence. Qed.

Lemma mapR_ext_in {A B} (f g : A → res B) l : (∀ x, x ∈ l → f x = g x) → mapR f l = mapR g l.
Proof.
  induction l as [|x l IH]; intros H; cbn; [done|].
  rewrite (H x) by (by left). by rewrite IH by (intros; apply H; by right).
Qed.

Lemma read_leaf_fields o l :
  read_leaf (JObj o) = Ok l →
  is_Some (dget o "nodes") ∧ is_Some (dget o "devices") ∧ is_Some (dget o "links") ∧
  ∃ switches, subscript (JObj o) "switches" = Ok switches ∧
    (switch ← first_item switches; subscript switch "id") = Ok (l_switch l).
Proof.
  unfold read_leaf. cbn [subscript]. intros H.
  repeat match goal with H : _ ≫= _ = Ok _ |- _ => apply bind_Ok in H as (? & ? & H) end. injection H as <-.
  repeat match goal with H : getitem o ?k = Ok _ |- _ => pose proof (proj1 (getitem_Ok _ _ _) H); revert H end. intros.
  cbn [l_switch].
  split_and!; [by eexists..|]. eexists. split; [match goal with H : getitem o "switches" = _ |- _ => exact H end|].
  match goal with H : first_item ?x = Ok ?s |- (first_item ?x ≫= _) = _ => rewrite H end. assumption.
Qed.

(** What the loop reads of a resized document that compiles. *)
Lemma read_resized l count hosts o p :
  (2 ≤ count)%nat → mapR (leaf_host l) (seq 0 count) = Ok hosts →
  compile_topology (JObj (dupdate o (host_fields hosts))) = Ok p →
  (∃ switches, subscript (JObj o) "switches" = Ok switches ∧
     (switch ← first_item switches; subscript switch "id") = Ok (l_switch l)) →
  ∃ l1, read_leaf (JObj (dupdate o (host_fields hosts))) = Ok l1 ∧
    mapR (keyed "id") ((λ h : json * json * list json, h.1.1) <$> hosts) = Ok (l_nodes l1) ∧
    mapR (keyed "node") ((λ h : json * json * list json, h.1.2) <$> hosts) = Ok (l_devices l1) ∧
    mapR keyed_link (mjoin ((λ h : json * json * list json, h.2) <$> hosts)) = Ok (l_links l1) ∧
    l_switch l1 = l_switch l.
Proof.
  intros Hcount Hm Hc (switches & Hsw & Hid).
  set (r := JObj (dupdate o (host_fields hosts))) in *.
  assert (json_update (JObj o) (host_fields hosts) = Ok r) as Hu by done.
  pose proof (host_fields_NoDup hosts) as Hnd.
  assert (∀ h, h ∈ hosts → ∃ i, leaf_host l i = Ok h) as Hmade.
  { intros h [i Hi]%list_elem_of_lookup. exists i. by eapply (host_at l count hosts). }
  destruct (mapR_total (keyed "id") ((λ h : json * json * list json, h.1.1) <$> hosts)) as [ns Hns].
  { intros x (h & -> & [i Hi]%Hmade)%list_elem_of_fmap. destruct (host_keys l i h Hi) as (H & _). by eexists. }
  destruct (mapR_total (keyed "node") ((λ h : json * json * list json, h.1.2) <$> hosts)) as [ds Hds].
  { intros x (h & -> & [i Hi]%Hmade)%list_elem_of_fmap. destruct (host_keys l i h Hi) as (_ & H & _). by eexists. }
  destruct (mapR_total keyed_link (mjoin ((λ h : json * json * list json, h.2) <$> hosts))) as [ls Hls].
  { intros x (lk & Hx & (h & -> & [i Hi]%Hmade)%list_elem_of_fmap)%list_elem_of_join.
    apply list_elem_of_lookup in Hx as [q Hq]. destruct (host_keys l i h Hi) as (_ & _ & H). rewrite (H _ _ Hq). by eexists. }
  pose proof Hc as Hc'. unfold compile_topology in Hc'. apply bind_Ok in Hc' as (h & Hh & _).
  apply check_header_fields in Hh as (Hlinks & _ & _ & Hne).
  rewrite (json_update_field _ _ _ "links" _ Hnd Hu eq_refl) in Hlinks.
  assert (mjoin ((λ h : json * json * list json, h.2) <$> hosts) ≠ []) as Hne' by congruence.
  assert (length hosts = count) as Hlen by (by rewrite (mapR_length _ _ _ Hm), length_seq).
  unfold read_leaf.
  rewrite (json_update_field _ _ _ "nodes" _ Hnd Hu eq_refl), (json_update_field _ _ _ "devices" _ Hnd Hu eq_refl),
    (json_update_field _ _ _ "links" _ Hnd Hu eq_refl), (json_update_other _ _ _ "switches" Hnd Hu eq_refl), Hsw.
  cbn [mbind res_bind items]. rewrite Hns. cbn [mbind res_bind]. rewrite Hds. cbn [mbind res_bind].
  rewrite Hls. cbn [mbind res_bind].
  destruct (mjoin ((λ h : json * json * list json, h.2) <$> hosts)) as [|k0 links]; [done|].
  destruct hosts as [|h0 hosts]; [cbn in Hlen; lia|]. cbn [fmap list_fmap first_item mbind res_bind].
  destruct (first_item switches) as [sw|e]; [|done]. cbn [mbind res_bind] in Hid |- *. rewrite Hid. cbn [mbind res_bind].
  eexists. split; [reflexivity|]. by split_and!.
Qed.

(** C28: shrinking a resized topology, or resizing it to the hosts it has, gives
    exactly what the same resizing of the original gives, its error included. *)
Theorem resize_again py_str text_len spec count r count' :
  _resize_single_leaf text_len py_str spec (JInt count) = Ok r → 2 <= count' <= count →
  _resize_single_leaf text_len py_str r (JInt count') = _resize_single_leaf text_len py_str spec (JInt count').
Proof.
  intros H Hc'. unfold _resize_single_leaf in *.
  apply bind_Ok in H as (p & Hp & H). apply bind_Ok in H as (switches & Hsw & H).
  apply bind_Ok in H as (n & Hn & H). destruct (negb _) eqn:E1; [done|].
  apply bind_Ok in H as (nodes & Hnodes & H). apply bind_Ok in H as (node & Hnode & H).
  apply bind_Ok in H as (sim & Hsim & H). apply bind_Ok in H as (c & Hc & H).
  apply or_raise_Ok, in_range_Some in Hc as [[= ->] Hc].
  apply bind_Ok in H as (l & Hl & H). apply bind_Ok in H as (hosts & Hh & H).
  apply bind_Ok in H as (r' & Hr & H). apply bind_Ok in H as (p' & Hp' & [= <-]).
  fold (host_fields hosts) in Hr. pose proof (host_fields_NoDup hosts) as Hnd.
  destruct spec as [| | | | | |o]; try done.
  assert (r' = JObj (dupdate o (host_fields hosts))) as -> by (unfold json_update in Hr; congruence).
  set (r := JObj (dupdate o (host_fields hosts))) in *.
  assert (json_update (JObj o) (host_fields hosts) = Ok r) as Hu by done.
  destruct (read_resized l (Z.to_nat c) hosts o p' ltac:(lia) Hh Hp') as (l1 & Hl1 & Mn & Md & Ml & Ms).
  { by apply read_leaf_fields in Hl as (_ & _ & _ & H). }
  destruct (compile_fields _ _ Hp') as (o' & nodes' & sw' & [= <-] & _ & Hn' & Hne & _ & _ & HF).
  destruct nodes' as [|n0 nodes']; [done|]. apply Forall_cons in HF as [[s0 Hs0] _].
  assert (subscript r "nodes" = Ok (JList (n0 :: nodes'))) as Hn0 by (by apply getitem_Ok).
  pose proof (json_update_other _ _ _ "switches" Hnd Hu eq_refl) as Hsw1. rewrite Hsw in Hsw1.
  rewrite Hp', Hp. cbn [mbind res_bind]. rewrite Hsw1, Hsw. cbn [mbind res_bind].
  fold r in Hl1. rewrite Hn0, Hnodes. cbn [mbind res_bind]. rewrite Hl, Hl1. cbn [mbind res_bind]. rewrite Hn. cbn [mbind res_bind]. rewrite E1. cbn [first_item mbind res_bind].
  rewrite Hs0, Hnode. cbn [mbind res_bind]. rewrite Hsim. cbn [mbind res_bind].
  assert (in_range (JInt count') 2 8 = Some count') as ->.
  { unfold in_range. by rewrite (proj2 (Z.leb_le _ _)), (proj2 (Z.leb_le _ _)) by lia. }
  cbn [or_raise mbind res_bind].
  rewrite (mapR_ext_in (leaf_host l1) (leaf_host l)).
  2:{ intros i Hi%elem_of_seq. eapply (host_again l (Z.to_nat c) hosts); try done; lia. }
  destruct (mapR (leaf_host l) (seq 0 (Z.to_nat count'))) as [hosts'|e]; [|done]. cbn [mbind res_bind json_update].
  fold (host_fields hosts'). unfold r. cbn [json_update mbind res_bind]. apply read_leaf_fields in Hl as (? & ? & ? & _).
  by rewrite document_again.
Qed.

(** Four hosts made of the two of the shipped gem5 topology, then two again. *)
Lemma resize_again_witness :
  ∃ r, _resize_single_leaf py_len sample_str topology_gem5_two_heads (JInt 4) = Ok r ∧
    _resize_single_leaf py_len sample_str r (JInt 2) = _resize_single_leaf py_len sample_str topology_gem5_two_heads (JInt 2).
Proof.
  destruct (_resize_single_leaf py_len sample_str topology_gem5_two_heads (JInt 4)) as [r|] eqn:E;
    [|vm_compute in E; discriminate].
  exists r. split; [reflexivity|].
  exact (resize_again sample_str py_len topology_gem5_two_heads 4 r 2 E ltac:(lia)).
Defined.

(** ** The templates *)

(** A new task starts from a document exactly when it is for two to eight hosts
    of one of the two simulators: the shipped templates give one for each of
    these sizes, and nothing else is accepted. *)
Theorem templates_total py_str text_len simulator host_count :
  is_ok (_template_spec sample_configs text_len py_str (JStr simulator) host_count) = true ↔
  (simulator = "gem5" ∨ simulator = "qemu") ∧ ∃ n, host_count = JInt n ∧ 2 <= n <= 8.
Proof.
  assert (∀ spec, is_ok (_resize_single_leaf text_len py_str spec host_count) = true → ∃ n, host_count = JInt n ∧ 2 <= n <= 8) as Hr.
  { intros spec H. destruct (_resize_single_leaf text_len py_str spec host_count) as [r|] eqn:E; [|done].
    unfold _resize_single_leaf in E. do 3 (apply bind_Ok in E as (? & _ & E)). destruct (negb _); [done|].
    do 3 (apply bind_Ok in E as (? & _ & E)). apply bind_Ok in E as (n & Hn & _).
    apply or_raise_Ok, in_range_Some in Hn as [-> Hn]. by exists n. }
  split.
  - destruct (decide (simulator = "gem5")) as [->|Hg]; [intros H; split; [by left|]; unfold _template_spec in H; by apply Hr in H|].
    destruct (decide (simulator = "qemu")) as [->|Hq]; [intros H; split; [by right|]; unfold _template_spec in H; by apply Hr in H|].
    unfold _template_spec. cbn. by rewrite !bool_decide_eq_false_2 by congruence.
  - intros [Hs (n & -> & Hn)].
    assert (n = 2 ∨ n = 3 ∨ n = 4 ∨ n = 5 ∨ n = 6 ∨ n = 7 ∨ n = 8) as Hcases by lia.
    destruct Hs as [->| ->]; destruct_or! Hcases; subst n; vm_compute; reflexivity.
Qed.
