(* ===== verification/Workbench.v ===== *)
(** * The workbench server ([ubsim_lab/web.py])

    The request handlers over the task directory ([Tasks]), the launch job and
    its waiter thread, the experiment runs and the terminal owners.  What a
    request sees outside the server is a field of [env]. *)

From Stdlib Require Import ZArith Lia Ascii.
From stdpp Require Import base strings gmap fin_maps numbers option list sorting.
From S2P Require Import Prelude PyStr Json Samples Topology TopologyFacts QemuPorts Cli ProfileDefaults.
From S2P Require Import ConfigRuntime Launcher Experiments Tasks.

Open Scope string_scope.
Open Scope list_scope.
Open Scope Z_scope.

(** ** State *)

Inductive job_state := JobRunning | JobFinished | JobFailed.
#[global] Instance job_state_eq_dec : EqDecision job_state.
Proof. solve_decision. Defined.

(** The dict of a launch; the waiter thread holds a reference to it. *)
Record job := Job {
  j_task : string;
  j_simulator : string;
  j_state : job_state;
  j_returncode : option Z
}.

(** The status file of an experiment, and whether its worker process lives. *)
Inductive run_state := Starting | RunRunning | RunFinished | RunFailed.
#[global] Instance run_state_eq_dec : EqDecision run_state.
Proof. solve_decision. Defined.

Record run := Run {
  r_id : string;
  r_task : string;
  r_state : run_state;
  r_alive : bool
}.

(** A console: the simulator and the node's index. *)
Abbreviation console := (string * nat)%type.

Record server := Server {
  s_store : store;
  s_jobs : list job;                (** the job objects, in order of creation *)
  s_exits : list (option Z);        (** the exit status of each job's process *)
  s_job : option nat;               (** [self.job] *)
  s_runs : list run;
  s_owners : gset console;          (** [self.terminal_owners] *)
  s_sessions : list console         (** the terminal threads past their lock *)
}.

(** What a request sees outside. *)
Record env := Env {
  e_world : world;
  e_configs : string → option (res json);
  e_write_error : string → option exn;
  e_strip : string → string;
  e_text_len : string → Z;
  e_take_80 : string → string;
  e_py_str : json → string;
  e_x_ok : string → bool;
  e_port_free : Z → bool;
  e_select : manifest → string → res (option string);
  e_text : string → option string;          (** a readable text file *)
  e_json : string → option json;            (** a readable JSON file *)
  e_json_eq : json → json → bool;           (** [==] *)
  e_kill_0 : Z → bool;                      (** [os.kill(pid, 0)] succeeds *)
  e_popen : res unit;
  e_stop : string → res (Z * string);       (** [./lab stop]: its exit status and output *)
  e_connect : Z → res unit;                 (** connecting to the guest's console *)
  e_newest_first : list string → list string;
  e_fresh_task : string;                    (** the ids drawn for a new task or run *)
  e_fresh_run : string
}.

(** The list without the first occurrence of [x]. *)
Fixpoint remove_one (x : console) (l : list console) : list console :=
  match l with
  | [] => []
  | y :: l' => if decide (x = y) then l' else y :: remove_one x l'
  end.

(** ** The running simulations *)

Section runtime.
Variable e : env.
Let w := e_world e.

Definition _run_dir (simulator : string) : string :=
  if String.eqb simulator "gem5" then env_path w "UBSIM_DUAL_OUT" (under_root w "run-dual")
  else env_path w "UBSIM_QEMU_DUAL_OUT" (under_root w "run-qemu-dual").

(** [int(text.splitlines()[0])] names a process. *)
Definition _pid_alive (path : string) : bool :=
  match e_text e path with
  | Some t => match splitlines t with
              | l :: _ => match py_int l with Some pid => e_kill_0 e pid | None => false end
              | [] => false
              end
  | None => false
  end.

Definition pidfile (simulator : string) (node : nat) : string :=
  join_path (_run_dir simulator)
    ("node" +:+ str_of_Z (Z.of_nat node) +:+ (if String.eqb simulator "gem5" then "/gem5.pid" else "/qemu.pid")).

Definition _runtime (simulator : string) : runtime_info :=
  RuntimeInfo (_pid_alive (pidfile simulator 0))
    (match e_json e (join_path (_run_dir simulator) "topology.json") with
     | Some (JObj o) => match dget o "name" with Some (JStr n) => Some n | _ => None end
     | _ => None
     end)
    (_run_dir simulator).

(** [json.loads(topology_file.read_text()) == spec]. *)
Definition launched_same (run_dir : string) (spec : json) : bool :=
  match e_json e (join_path run_dir "topology.json") with
  | Some launched => e_json_eq e launched spec
  | None => false
  end.

(** ** Starting a task *)

Definition read_task (st : server) (task_id : string) : res json :=
  _read_task (e_configs e) (s_store st) task_id.

Definition job_running (st : server) : bool :=
  match s_job st with
  | Some n => match s_jobs st !! n with Some j => bool_decide (j_state j = JobRunning) | None => false end
  | None => false
  end.

(** The labels of the preflight's checks, those added here included. *)
Record judged := Judged { g_ok : bool; g_verdict : verdict; g_extra : list string }.

Definition preflight (st : server) (task_id : string) (experiment : bool) : res judged :=
  spec ← read_task st task_id;
  recipe ← (if experiment then
              path ← recipe_path task_id;
              raw ← match files (s_store st) !! path with
                    | Some content => content
                    | None => Ok DEFAULT_RECIPE
                    end;
              _ ← validate_recipe (e_py_str e) raw spec;
              Ok (Some raw)
            else Ok None);
  v ← Experiments.preflight w (e_py_str e) (e_x_ok e) (e_port_free e) (e_select e) launched_same _runtime
        spec recipe (experiment && negb (bool_decide (s_owners st = ∅)));
  let started := negb experiment && v_same v in
  let starting := job_running st in
  Ok (Judged (v_ok v && negb started && negb starting) v
        ((if started then ["already running"] else []) ++ (if starting then ["another launch"] else []))).

Definition any_active : bool := ri_active (_runtime "gem5") || ri_active (_runtime "qemu").

(** The section of [start_task] under the lock. *)
Definition launch (st : server) (task_id simulator : string) : server * res unit :=
  if job_running st then (st, Err (Exn ValueError "a task is already starting" []))
  else if any_active then (st, Err (Exn ValueError "a simulation is already running" []))
  else match e_popen e with
       | Err x => (st, Err x)
       | Ok _ =>
           (Server (s_store st) (s_jobs st ++ [Job task_id simulator JobRunning None]) (s_exits st ++ [None])
              (Some (length (s_jobs st))) (s_runs st) (s_owners st) (s_sessions st), Ok tt)
       end.

Definition start_task (st : server) (task_id : string) : server * res unit :=
  match (spec ← read_task st task_id; plan ← compile_topology spec;
         v ← preflight st task_id false;
         raise Exn ValueError "the failed checks" (PS <$> g_extra v) when negb (g_ok v) ;;
         Ok plan) with
  | Err x => (st, Err x)
  | Ok plan => launch st task_id (p_simulator plan)
  end.

(** The waiter thread, once the process has ended with [code]. *)
Definition wait (st : server) (n : nat) (code : Z) : server :=
  Server (s_store st)
    (alter (λ j, Job (j_task j) (j_simulator j) (if code =? 0 then JobFinished else JobFailed) (Some code))
       n (s_jobs st))
    (s_exits st) (s_job st) (s_runs st) (s_owners st) (s_sessions st).

(** ** Starting an experiment *)

Definition set_runs (st : server) (runs : list run) : server :=
  Server (s_store st) (s_jobs st) (s_exits st) (s_job st) runs (s_owners st) (s_sessions st).

(** [status.get("state") == "running" and _process_alive(status.get("pid"))]:
    the worker writes its pid with the state. *)
Definition measuring (r : run) : bool := bool_decide (r_state r = RunRunning) && r_alive r.

(** The section of [start_experiment] under the lock. *)
Definition register_run (st : server) (task_id : string) : server * res string :=
  if existsb measuring (s_runs st)
  then (st, Err (Exn ValueError "a performance experiment is already running" []))
  else match e_popen e with
       | Err x => (set_runs st (s_runs st ++ [Run (e_fresh_run e) task_id Starting false]), Err x)
       | Ok _ => (set_runs st (s_runs st ++ [Run (e_fresh_run e) task_id Starting true]), Ok (e_fresh_run e))
       end.

(** [experiment_detail]: a running experiment whose worker has died is failed. *)
Definition settle (r : run) : run :=
  if bool_decide (r_state r = RunRunning) && negb (r_alive r) then Run (r_id r) (r_task r) RunFailed (r_alive r) else r.

Definition is_hex (c : ascii) : bool := is_digit c || ((97 <=? code c) && (code c <=? 102)).
(** [run-[0-9]{8}-[0-9]{6}-[a-f0-9]{6}]. *)
Definition valid_run_id (s : string) : bool :=
  match split_on "-"%char s with
  | [a; b; c; d] =>
      String.eqb a "run" && str_forallb is_digit b && (py_len b =? 8) && str_forallb is_digit c &&
      (py_len c =? 6) && str_forallb is_hex d && (py_len d =? 6)
  | _ => false
  end.

Definition find_run (st : server) (run_id : string) : res (nat * run) :=
  raise Exn ValueError "invalid experiment id" [] when negb (valid_run_id run_id) ;;
  or_raise (list_find (λ r, r_id r = run_id) (s_runs st)) (Exn ValueError "no such experiment" []).

Definition experiment_detail (st : server) (run_id : string) : server * res run :=
  match find_run st run_id with
  | Err x => (st, Err x)
  | Ok (n, r) => (set_runs st (<[n := settle r]> (s_runs st)), Ok (settle r))
  end.

Definition start_experiment (st : server) (task_id : string) : server * res run :=
  match (v ← preflight st task_id true;
         raise Exn ValueError "the failed checks" (PS <$> g_extra v) when negb (g_ok v) ;; Ok tt) with
  | Err x => (st, Err x)
  | Ok _ =>
      match register_run st task_id with
      | (st', Err x) => (st', Err x)
      | (st', Ok run_id) => experiment_detail st' run_id
      end
  end.

(** ** Terminals *)

(** [next((i for i, node in enumerate(nodes) if node["id"] == node_id), None)]. *)
Fixpoint node_index (nodes : list json) (node_id : string) (i : nat) : res (option nat) :=
  match nodes with
  | [] => Ok None
  | node :: nodes' =>
      id ← subscript node "id";
      if eq_str id node_id then Ok (Some i) else node_index nodes' node_id (S i)
  end.

Definition node_of (st : server) (task_id node_id : string) : res (json * nat * string) :=
  spec ← read_task st task_id;
  nodes ← subscript spec "nodes"; node_list ← items nodes;
  found ← node_index node_list node_id 0;
  index ← or_raise found (Exn ValueError "no such host" []);
  node ← first_item nodes; simulator ← str_field node "simulator";
  Ok (spec, index, simulator).

(** The running topology is the task's. *)
Definition is_current (spec : json) (simulator : string) : res bool :=
  name ← subscript spec "name";
  Ok (match ri_topology_name (_runtime simulator) with Some n => eq_str name n | None => false end).

(** [_terminal_socket] up to the section under the lock. *)
Definition open_terminal (st : server) (task_id node_id : string) : server * res console :=
  match ('(spec, index, simulator) ← node_of st task_id node_id;
         current ← is_current spec simulator;
         raise Exn ValueError "no running terminal" []
           when negb (ri_active (_runtime simulator)) || negb current ;;
         raise Exn ValueError "the terminal is already connected" []
           when bool_decide ((simulator, index) ∈ s_owners st) ;;
         Ok (simulator, index)) with
  | Err x => (st, Err x)
  | Ok key =>
      (Server (s_store st) (s_jobs st) (s_exits st) (s_job st) (s_runs st) ({[key]} ∪ s_owners st)
         (key :: s_sessions st), Ok key)
  end.

(** The [finally] of a session, however it ends. *)
Definition close_terminal (st : server) (key : console) : server :=
  Server (s_store st) (s_jobs st) (s_exits st) (s_job st) (s_runs st) (s_owners st ∖ {[key]})
    (remove_one key (s_sessions st)).

Definition terminal_port (simulator : string) (index : nat) : res Z :=
  base ← (if String.eqb simulator "gem5" then env_number w "UBSIM_DUAL_UART0" "3460"
          else env_number w "UBSIM_QEMU_UART0" "3560");
  second ← (if String.eqb simulator "gem5" then env_number w "UBSIM_DUAL_UART1" "3470"
            else env_number w "UBSIM_QEMU_UART1" "3570");
  Ok (base + (second - base) * Z.of_nat index).
End runtime.
