(* ===== verification/Http.v ===== *)
(** * The workbench's HTTP interface ([ubsim_lab/web.py])

    The guards on a request, the routes of [do_GET], [do_POST] and [do_PUT] and
    the replies, over the server's operations ([Workbench]). *)

From Stdlib Require Import ZArith Lia Ascii.
From stdpp Require Import base strings gmap fin_maps numbers option list sorting.
From S2P Require Import Prelude PyStr Json Samples Topology TopologyFacts QemuPorts Cli ProfileDefaults.
From S2P Require Import ConfigRuntime Launcher Experiments Tasks Workbench.

Open Scope string_scope.
Open Scope list_scope.
Open Scope Z_scope.

(** A request: the split URL, the headers, and the JSON of the first bytes of
    its body. *)
Record http := Http {
  q_path : string;
  q_param : string → option string;      (** the first value of a query parameter *)
  q_header : string → option string;
  q_body : Z → res json
}.

Inductive response :=
  | Replied (status : Z) (value : json)
  | Content (mime path : string).

Definition handler := server → server * res response.

Definition MAX_BODY : Z := 256 * 1024.

(** ** Guards *)

Definition _origin_ok (q : http) : bool :=
  match q_header q "Origin" with
  | None => true
  | Some origin =>
      String.eqb origin EmptyString ||
      String.eqb origin ("http://" +:+ default EmptyString (q_header q "Host"))
  end.

Definition _body (q : http) : res jobj :=
  raise Exn ValueError "application/json required" []
    when negb (String.eqb (partition_at ";"%char (default EmptyString (q_header q "Content-Type"))).1
                 "application/json") ;;
  length ← int_of_str (default "0" (q_header q "Content-Length"));
  raise Exn ValueError "the request is too large or empty" []
    when negb ((0 <? length) && (length <=? MAX_BODY)) ;;
  value ← q_body q length;
  match value with
  | JObj o => Ok o
  | _ => Err (Exn ValueError "the request must be a JSON object" [])
  end.

(** [path.count("/")]. *)
Definition slashes (path : string) : Z := len (split_on "/"%char path) - 1.
(** [path.split("/")[3]] and [path.rsplit("/", 1)[1]]. *)
Definition fourth (path : string) : res string :=
  or_raise (split_on "/"%char path !! 3%nat) (Exn IndexError "list index out of range" []).
Definition last_part (path : string) : res string :=
  or_raise (snd <$> rpartition_at "/"%char path) (Exn IndexError "list index out of range" []).

(** The replies of the exceptions a handler catches; any other ends the
    connection without one. *)
Definition caught (timeouts : bool) (x : exn) : bool :=
  is_a (exn_cls x) OSError || is_a (exn_cls x) ValueError ||
  (timeouts && is_a (exn_cls x) TimeoutExpired).
Definition _error (status : Z) (x : exn) : response :=
  Replied status (JObj [("error", JStr (exn_fmt x))]).
Definition guarded (timeouts : bool) (h : handler) : handler := λ st,
  match h st with
  | (st', Err x) => if caught timeouts x then (st', Ok (_error 400 x)) else (st', Err x)
  | r => r
  end.

Section handlers.
Variable e : env.

(** A pure reply, and an operation of the task directory. *)
Definition reply (status : Z) (m : server → res json) : handler := λ st,
  (st, v ← m st; Ok (Replied status v)).
Definition on_store (status : Z) (m : action json) (wrap : json → json) : handler := λ st,
  match m (s_store st) with
  | (store, r) =>
      (Server store (s_jobs st) (s_exits st) (s_job st) (s_runs st) (s_owners st) (s_sessions st),
       v ← r; Ok (Replied status (wrap v)))
  end.
Definition with_body (q : http) (k : jobj → handler) : handler := λ st,
  match _body q with Err x => (st, Err x) | Ok body => k body st end.
Definition with_id (id : res string) (k : string → handler) : handler := λ st,
  match id with Err x => (st, Err x) | Ok i => k i st end.

Definition task_json (v : json) : json := JObj [("task", v)].

Definition serve_tasks (r : request) : action json :=
  serve (e_configs e) (e_write_error e) (e_strip e) (e_text_len e) (e_take_80 e) (e_py_str e) r.

(** ** Views *)

Definition opt_str (o : option string) : json := match o with Some s => JStr s | None => JNull end.

Definition job_json (st : server) : json :=
  match (n ← s_job st; s_jobs st !! n) with
  | None => JNull
  | Some j =>
      JObj [("task_id", JStr (j_task j)); ("simulator", JStr (j_simulator j));
            ("state", JStr (match j_state j with
                            | JobRunning => "running" | JobFinished => "finished" | JobFailed => "failed" end));
            ("returncode", match j_returncode j with Some z => JInt z | None => JNull end)]
  end.

Definition run_json (r : run) : json :=
  JObj [("id", JStr (r_id r)); ("task_id", JStr (r_task r));
        ("state", JStr (match r_state r with
                        | Starting => "starting" | RunRunning => "running"
                        | RunFinished => "finished" | RunFailed => "failed" end))].

Definition judged_json (v : judged) : json :=
  JObj [("ok", JBool (g_ok v)); ("checkpoint", opt_str (v_checkpoint (g_verdict v)));
        ("simulator", JStr (v_simulator (g_verdict v)));
        ("running_this_task", JBool (v_same (g_verdict v)))].

Definition runtime_json (simulator : string) : json :=
  let r := _runtime e simulator in
  JObj [("active", JBool (ri_active r)); ("topology_name", opt_str (ri_topology_name r));
        ("run_dir", JStr (ri_run_dir r)); ("simulator", JStr simulator);
        ("stop_reason", opt_str (strip <$> e_text e (join_path (ri_run_dir r) "memory-guard.stopped")))].

(** [_host_details]. *)
Definition release (variable : string) : string :=
  let custom := match w_env (e_world e) variable with
                | Some s => negb (String.eqb s EmptyString) | None => false end in
  match e_text e (under_root (e_world e) "artifacts/kernel-64k-20261015/kernelrelease.txt") with
  | Some t => if custom then "版本待确认" else strip t
  | None => "版本待确认"
  end.
Definition page_size (variable : string) : json :=
  match w_env (e_world e) variable with
  | Some s => if String.eqb s EmptyString then JStr "64 KiB" else JNull
  | None => JStr "64 KiB"
  end.

Definition gem5_details (m : manifest) : res json :=
  let f k := v ← getitem m k; Ok (JStr v) in
  roi ← f "cpu_roi_model"; boot ← f "cpu_boot_model"; freq ← f "cpu_freq"; count ← f "cpu_count";
  l1i ← f "l1i_size"; l1d ← f "l1d_size"; l2 ← f "l2_size";
  level ← getitem m "last_cache_level";
  l3 ← (if String.eqb level "3" then f "l3_size" else Ok JNull);
  memory ← f "memory_size"; limit ← f "guest_memory_limit"; kind ← f "memory_type";
  channels ← f "memory_channels";
  Ok (JObj [("cpu_model", roi); ("boot_cpu_model", boot); ("cpu_freq", freq); ("cpu_count", count);
            ("l1i", l1i); ("l1d", l1d); ("l2", l2); ("l3", l3); ("memory_size", memory);
            ("guest_memory_limit", limit); ("memory_type", kind); ("memory_channels", channels);
            ("os", JStr ("Linux " +:+ release "UBSIM_KERNEL" +:+ " · initramfs"));
            ("page_size", page_size "UBSIM_KERNEL")]).

Definition qemu_details (node : json) : res json :=
  cpu ← attr_get node "cpu"; cores ← attr_get node "cores"; memory ← attr_get node "memory_mib";
  Ok (JObj [("cpu_model", default (JStr "cortex-a72") cpu); ("cpu_count", default (JInt 1) cores);
            ("cpu_freq", JNull); ("l1i", JNull); ("l1d", JNull); ("l2", JNull); ("l3", JNull);
            ("memory_size", JStr (e_py_str e (default (JInt 1024) memory) +:+ " MiB"));
            ("guest_memory_limit", JNull); ("memory_type", JNull); ("memory_channels", JNull);
            ("os", JStr ("Linux " +:+ release "UBSIM_QEMU_KERNEL" +:+ " · initramfs"));
            ("page_size", page_size "UBSIM_QEMU_KERNEL")]).

Definition _host_details (spec : json) : res (list json) :=
  plan ← compile_topology spec;
  nodes ← subscript spec "nodes"; node_list ← items nodes;
  if String.eqb (p_simulator plan) "gem5" then
    m ← resolve_gem5 (w_root (e_world e)) spec plan;
    detail ← gem5_details m;
    Ok ((λ _, detail) <$> node_list)
  else mapR qemu_details node_list.

(** The reply to a checkpoint query. *)
Definition availability (spec : json) : res json :=
  plan ← compile_topology spec;
  a ← checkpoint_availability (e_world e) (e_select e) spec plan;
  let count := str_of_Z (len (p_node_ids plan)) in
  let restored := match a.1 with Some c => negb (String.eqb c EmptyString) | None => false end in
  let detail :=
    if negb (String.eqb (p_simulator plan) "gem5") then "QEMU 可直接启动"
    else if restored then "匹配 " +:+ default EmptyString a.1 +:+ "，可恢复启动"
    else if String.eqb (p_checkpoint plan) "auto"
         then count +:+ " 台主机没有匹配 checkpoint，将从内核冷启动（启动前检查内存）"
         else count +:+ " 台主机按配置冷启动（启动前检查内存）" in
  hosts ← _host_details spec;
  Ok (JObj [("available", JBool true); ("checkpoint", opt_str a.1);
            ("launch_mode", JStr (if negb (String.eqb (p_simulator plan) "gem5") then "direct"
                                  else if restored then "restore" else "cold"));
            ("detail", JStr detail); ("hosts", JList hosts)]).

(** ** [do_GET] *)

Definition under_tasks (q : http) (tail : string) : bool :=
  startswith (q_path q) "/api/tasks/" && endswith (q_path q) tail.
Definition param (q : http) (name def : string) : string := default def (q_param q name).

Definition get_recipe (task_id : string) (st : server) : res json :=
  spec ← read_task e st task_id;
  nodes ← subscript spec "nodes"; n ← json_len (e_text_len e) nodes;
  if negb (n =? 2) then
    Ok (JObj [("recipe", JNull); ("reason", JStr "性能实验当前只支持双机拓扑")])
  else
    path ← recipe_path task_id;
    raw ← default (Ok DEFAULT_RECIPE) (files (s_store st) !! path);
    _ ← validate_recipe (e_py_str e) raw spec;
    Ok (JObj [("recipe", raw)]).

Definition get_task (task_id : string) (st : server) : res json :=
  spec ← read_task e st task_id;
  summary ← _summary (e_configs e) (e_text_len e) (s_store st) task_id;
  _ ← compile_topology spec;
  Ok (JObj [("task", summary); ("spec", spec)]).

(** The runs of a task, newest first. *)
Definition get_runs (task_id : string) (st : server) : res json :=
  _ ← read_task e st task_id;
  Ok (JObj [("runs", JList (take 50 (run_json <$> reverse (filter (λ r, r_task r = task_id) (s_runs st)))))]).

(** The last [limit] bytes of a file, or nothing. *)
Definition _tail (path : string) (limit : nat) : string :=
  match e_text e path with
  | Some t => String.substring (String.length t - limit) limit t
  | None => EmptyString
  end.

Definition get_terminal (task_id node_id : string) (st : server) : res json :=
  '(spec, index, simulator) ← node_of e st task_id node_id;
  current ← is_current e spec simulator;
  let log := _tail (join_path (_run_dir e simulator)
                      ("node" +:+ str_of_Z (Z.of_nat index) +:+ "/system.terminal")) (24 * 1024) in
  Ok (JObj [("text", JStr (if (current : bool) then log else EmptyString));
            ("live", JBool (current && _pid_alive e (pidfile e simulator index)));
            ("node_index", JInt (Z.of_nat index)); ("simulator", JStr simulator)]).

Definition get_results (run_id : string) : handler := λ st,
  (st, raise Exn ValueError "invalid experiment id" [] when negb (valid_run_id run_id) ;;
       let path := under_root (e_world e) ("experiments/ui-workbench/" +:+ run_id +:+ "/results.csv") in
       _ ← or_raise (e_text e path) (Exn FileNotFoundError "{}" [PS path]);
       Ok (Content "text/csv" path)).

(** [_terminal_socket] up to the pump: the session stays open on status 101. *)
Definition _terminal_socket (q : http) : handler := λ st,
  if negb (_origin_ok q) then (st, Ok (_error 403 (Exn ValueError "origin mismatch" [])))
  else match open_terminal e st (param q "task" EmptyString) (param q "node" EmptyString) with
  | (st', Err x) => if caught false x then (st', Ok (_error 400 x)) else (st', Err x)
  | (st', Ok key) =>
      match (port ← terminal_port e key.1 key.2;
             _ ← e_connect e port;
             raise Exn ValueError "a WebSocket is required" []
               when negb (String.eqb (to_lower (default EmptyString (q_header q "Upgrade"))) "websocket")
                    || String.eqb (default EmptyString (q_header q "Sec-WebSocket-Key")) EmptyString ;;
             Ok tt) with
      | Ok _ => (st', Ok (Replied 101 JNull))
      | Err x =>
          let closed := close_terminal st' key in
          if caught false x then (closed, Ok (_error 400 x)) else (closed, Err x)
      end
  end.

Definition not_found : handler := λ st, (st, Ok (_error 404 (Exn ValueError "not found" []))).

Definition mime (name : string) : string :=
  if endswith name "html" then "text/html" else if endswith name "css" then "text/css" else "text/javascript".

Definition route_GET (q : http) : handler :=
  let path := q_path q in
  if elemb path ["/"; "/index.html"; "/app.css"; "/app.js"] then
    let name := if String.eqb path "/" then "index.html" else removeprefix path "/" in
    λ st, (st, Ok (Content (mime name) name))
  else if String.eqb path "/api/tasks" then
    reply 200 (λ st, l ← _list_tasks (e_configs e) (e_text_len e) (e_newest_first e) (s_store st);
                     Ok (JObj [("tasks", JList l)]))
  else if under_tasks q "/recipe" then
    with_id (fourth path) (λ i, reply 200 (get_recipe i))
  else if under_tasks q "/preflight" then
    with_id (fourth path) (λ i, reply 200 (λ st,
      v ← preflight e st i (String.eqb (param q "experiment" "0") "1"); Ok (judged_json v)))
  else if startswith path "/api/tasks/" && (slashes path =? 3) then
    with_id (last_part path) (λ i, reply 200 (get_task i))
  else if String.eqb path "/api/runtime" then
    reply 200 (λ st, Ok (JObj [("gem5", runtime_json "gem5"); ("qemu", runtime_json "qemu"); ("job", job_json st)]))
  else if String.eqb path "/api/experiments" then
    reply 200 (get_runs (param q "task" EmptyString))
  else if startswith path "/api/experiments/" && endswith path "/results.csv" then
    with_id (fourth path) get_results
  else if startswith path "/api/experiments/" && (slashes path =? 3) then
    with_id (last_part path) (λ i st,
      match experiment_detail st i with (st', r) => (st', x ← r; Ok (Replied 200 (run_json x))) end)
  else if String.eqb path "/api/terminal" then
    reply 200 (get_terminal (param q "task" EmptyString) (param q "node" EmptyString))
  else if String.eqb path "/ws/terminal" then _terminal_socket q
  else not_found.

Definition do_GET (q : http) : handler := guarded true (route_GET q).

(** ** [do_POST] and [do_PUT] *)

Definition forbidden (q : http) (h : handler) : handler := λ st,
  if negb (_origin_ok q) then (st, Ok (_error 403 (Exn ValueError "origin mismatch" []))) else h st.

Definition stop (body : jobj) (st : server) : res response :=
  task_id ← or_raise (json_is_str (default (JStr EmptyString) (dget body "task_id")))
              (Exn TypeError "expected string" []);
  spec ← read_task e st task_id;
  nodes ← subscript spec "nodes"; node ← first_item nodes; simulator ← str_field node "simulator";
  current ← is_current e spec simulator;
  raise Exn ValueError "the task has no running simulation" []
    when negb (ri_active (_runtime e simulator)) || negb current ;;
  result ← e_stop e (if String.eqb simulator "gem5" then "stop" else "stop-qemu");
  Ok (Replied (if result.1 =? 0 then 200 else 409)
        (JObj [("returncode", JInt result.1);
               ("output", JStr (String.substring (String.length result.2 - Z.to_nat 16000) (Z.to_nat 16000) result.2))])).

Definition route_POST (q : http) : handler :=
  let path := q_path q in
  if String.eqb path "/api/tasks" then
    with_body q (λ body, on_store 201 (serve_tasks (Create (e_fresh_task e) body)) task_json)
  else if String.eqb path "/api/topology/checkpoint" then
    with_body q (λ body, reply 200 (λ _,
      spec ← (match get body "spec" with
              | JNull => _template_spec (e_configs e) (e_text_len e) (e_py_str e) (get body "simulator")
                           (get body "host_count")
              | v => Ok v end);
      availability spec))
  else if String.eqb path "/api/topology/resize" then
    with_body q (λ body, reply 200 (λ _,
      r ← _resize_single_leaf (e_text_len e) (e_py_str e) (get body "spec") (get body "host_count");
      Ok (JObj [("spec", r)])))
  else if under_tasks q "/copy" then
    with_id (fourth path) (λ i, with_body q (λ _, on_store 201 (serve_tasks (Copy i (e_fresh_task e))) task_json))
  else if under_tasks q "/start" then
    with_id (fourth path) (λ i, with_body q (λ _ st,
      match start_task e st i with (st', r) => (st', _ ← r; Ok (Replied 202 (JObj [("job", job_json st')]))) end))
  else if under_tasks q "/experiment" then
    with_id (fourth path) (λ i, with_body q (λ _ st,
      match start_experiment e st i with
      | (st', r) => (st', x ← r; Ok (Replied 202 (JObj [("run", run_json x)]))) end))
  else if String.eqb path "/api/stop" then
    with_body q (λ body st, (st, stop body st))
  else not_found.

Definition do_POST (q : http) : handler := forbidden q (guarded true (route_POST q)).

Definition route_PUT (q : http) : handler :=
  let path := q_path q in
  if startswith path "/api/tasks/" && (slashes path =? 3) then
    with_id (last_part path) (λ i, with_body q (λ body, on_store 200 (serve_tasks (Save i body)) task_json))
  else if under_tasks q "/recipe" then
    with_id (fourth path) (λ i st,
      match read_task e st i with
      | Err x => (st, Err x)
      | Ok _ => with_body q (λ body, on_store 200 (serve_tasks (PutRecipe i body)) (λ v, v)) st
      end)
  else not_found.

Definition do_PUT (q : http) : handler := forbidden q (guarded false (route_PUT q)).
End handlers.
