(* ===== verification/WorkbenchFacts.v ===== *)
(** * What the workbench guarantees

    The effects a request can have on the server, the runs of the server as a
    transition system, and its refinement of exclusive leases: one launch at a
    time and one session per console. *)

From Stdlib Require Import ZArith Lia Ascii.
From stdpp Require Import base strings gmap fin_maps numbers option list sorting relations.
From S2P Require Import Prelude PyStr Json Samples Topology TopologyFacts QemuPorts Cli ProfileDefaults.
From S2P Require Import ConfigRuntime Launcher Experiments Tasks Workbench Http.

Open Scope string_scope.
Open Scope list_scope.
Open Scope Z_scope.

(** ** The effects of a request *)

Definition set_store (st : server) (store : store) : server :=
  Server store (s_jobs st) (s_exits st) (s_job st) (s_runs st) (s_owners st) (s_sessions st).
Definition add_job (st : server) (j : job) : server :=
  Server (s_store st) (s_jobs st ++ [j]) (s_exits st ++ [None]) (Some (length (s_jobs st)))
    (s_runs st) (s_owners st) (s_sessions st).
Definition attach (st : server) (key : console) : server :=
  Server (s_store st) (s_jobs st) (s_exits st) (s_job st) (s_runs st) ({[key]} ∪ s_owners st)
    (key :: s_sessions st).

(** The elementary changes of the state while a request is served. *)
Inductive effect (e : env) : server → server → Prop :=
  | effect_store st r : draws (s_store st) r → effect e st (set_store st (serve_tasks e r (s_store st)).1)
  | effect_launch st j : job_running st = false → j_state j = JobRunning → effect e st (add_job st j)
  | effect_runs st runs : effect e st (set_runs st runs)
  | effect_attach st key : key ∉ s_owners st → effect e st (attach st key)
  | effect_detach st key : key ∈ s_sessions st → effect e st (close_terminal st key).

(** The id drawn for a new task is an unused task id. *)
Definition fresh_in (e : env) (st : server) : Prop :=
  saved_id (e_fresh_task e) ∧ files (s_store st) !! (e_fresh_task e +:+ ".json") = None.

Create HintDb effects.

Section effects.
Context (e : env).

Definition effectful (h : handler) : Prop := ∀ st, fresh_in e st → rtc (effect e) st (h st).1.

Lemma effectful_none (h : handler) : (∀ st, (h st).1 = st) → effectful h.
Proof. intros H st _. rewrite H. constructor. Qed.

Lemma effectful_guarded t h : effectful h → effectful (guarded t h).
Proof.
  intros H st Hf. specialize (H st Hf). unfold guarded. destruct (h st) as [st' [r|x]]; [done|].
  by destruct (caught t x).
Qed.

Lemma effectful_with_body q k : (∀ body, effectful (k body)) → effectful (with_body q k).
Proof. intros H st Hf. unfold with_body. destruct (_body q); [by apply H|constructor]. Qed.

Lemma effectful_with_id id k : (∀ i, effectful (k i)) → effectful (with_id id k).
Proof. intros H st Hf. unfold with_id. destruct id; [by apply H|constructor]. Qed.

Lemma effectful_reply status m : effectful (reply status m).
Proof. by apply effectful_none. Qed.

Lemma effectful_on_store status r wrap :
  (∀ st, fresh_in e st → draws (s_store st) r) → effectful (on_store status (serve_tasks e r) wrap).
Proof.
  intros Hd st Hf. unfold on_store. apply rtc_once.
  pose proof (effect_store e st r (Hd st Hf)) as H. by destruct (serve_tasks e r (s_store st)).
Qed.

Lemma effectful_start i :
  effectful (λ st, match start_task e st i with
                   | (st', r) => (st', _ ← r; Ok (Replied 202 (JObj [("job", job_json st')]))) end).
Proof.
  intros st _. unfold start_task. destruct (_ ≫= _) as [plan|x]; [|constructor].
  unfold launch. destruct (job_running st) eqn:Hj; [constructor|].
  destruct (any_active e); [constructor|]. destruct (e_popen e); [|constructor].
  apply rtc_once. by apply (effect_launch e st (Job i (p_simulator plan) JobRunning None)).
Qed.

Lemma detail_effect st i : rtc (effect e) st (experiment_detail st i).1.
Proof.
  unfold experiment_detail. destruct (find_run st i) as [[n r]|x]; [|constructor].
  apply rtc_once, effect_runs.
Qed.

Lemma effectful_experiment i : effectful (λ st,
  match start_experiment e st i with (st', r) => (st', x ← r; Ok (Replied 202 (JObj [("run", run_json x)]))) end).
Proof.
  intros st _. unfold start_experiment. destruct (_ ≫= _) as [v|x]; [|constructor].
  unfold register_run. destruct (existsb _ _); [constructor|]. destruct (e_popen e) as [u|x].
  - pose proof (detail_effect (set_runs st (s_runs st ++ [Run (e_fresh_run e) i Starting true])) (e_fresh_run e)) as H.
    destruct (experiment_detail _ _) as [st' r]. cbn in *. eapply rtc_l; [apply effect_runs|exact H].
  - apply rtc_once, effect_runs.
Qed.

Lemma open_terminal_effect st task node :
  match open_terminal e st task node with
  | (st', Ok key) => (key ∉ s_owners st) ∧ st' = attach st key
  | (st', Err _) => st' = st
  end.
Proof.
  unfold open_terminal. destruct (_ ≫= _) as [key|x] eqn:H; [|done]. split; [|done].
  apply bind_Ok in H as ([[spec index] simulator] & _ & H). apply bind_Ok in H as (current & _ & H).
  destruct (_ || _); [done|]. case_bool_decide as Hk; [done|]. by injection H as <-.
Qed.

Lemma effectful_terminal q : effectful (_terminal_socket e q).
Proof.
  intros st _. unfold _terminal_socket. destruct (negb (_origin_ok q)); [constructor|].
  pose proof (open_terminal_effect st (param q "task" EmptyString) (param q "node" EmptyString)) as H.
  destruct (open_terminal _ _ _ _) as [st' [key|x]]; [|subst; destruct (caught _ _); constructor].
  destruct H as [Hk ->]. pose proof (effect_attach e st key Hk) as Hat.
  destruct (_ ≫= _) as [u|x]; [by apply rtc_once|].
  assert (rtc (effect e) st (close_terminal (attach st key) key)) as Hr.
  { eapply rtc_l; [exact Hat|]. apply rtc_once, effect_detach. by left. }
  by destruct (caught _ _).
Qed.

Lemma effectful_detail i : effectful (λ st,
  match experiment_detail st i with (st', r) => (st', x ← r; Ok (Replied 200 (run_json x))) end).
Proof. intros st _. pose proof (detail_effect st i) as H. by destruct (experiment_detail st i). Qed.

Lemma effectful_forbidden q h : effectful h → effectful (forbidden q h).
Proof. intros H st Hf. unfold forbidden. destruct (negb _); [constructor|by apply H]. Qed.

Lemma effectful_read i h : effectful h → effectful (λ st,
  match read_task e st i with Err x => (st, Err x) | Ok _ => h st end).
Proof. intros H st Hf. destruct (read_task e st i); [by apply H|constructor]. Qed.

Lemma effectful_results i : effectful (get_results e i).
Proof. by apply effectful_none. Qed.

#[local] Hint Resolve effectful_guarded effectful_with_body effectful_with_id effectful_reply
  effectful_start effectful_experiment effectful_terminal effectful_detail effectful_forbidden
  effectful_read effectful_results : effects.

(** The route is a cascade of tests on the path. *)
Ltac route := cbv zeta; repeat match goal with |- effectful (if ?b then _ else _) => destruct b end.

Lemma do_GET_effectful q : effectful (do_GET e q).
Proof.
  apply effectful_guarded. unfold route_GET. route;
    first [by auto with effects|apply effectful_none; done].
Qed.

Lemma do_POST_effectful q : effectful (do_POST e q).
Proof.
  apply effectful_forbidden, effectful_guarded. unfold route_POST. route;
    repeat first [apply effectful_with_body; intros ?|apply effectful_with_id; intros ?];
    try (apply effectful_on_store; intros st Hf; exact Hf);
    first [by auto with effects|apply effectful_none; done].
Qed.

Lemma do_PUT_effectful q : effectful (do_PUT e q).
Proof.
  apply effectful_forbidden, effectful_guarded. unfold route_PUT. route.
  - apply effectful_with_id; intros i. apply effectful_with_body; intros body. by apply effectful_on_store.
  - apply effectful_with_id; intros i. apply effectful_read, effectful_with_body. intros body. by apply effectful_on_store.
  - by apply effectful_none.
Qed.
End effects.

(** ** Runs of the server *)

Definition set_exits (st : server) (exits : list (option Z)) : server :=
  Server (s_store st) (s_jobs st) exits (s_job st) (s_runs st) (s_owners st) (s_sessions st).

(** What other processes and threads do between requests: a launch process
    ends; its waiter thread records it; an experiment's worker writes its status
    file or dies; a terminal session ends. *)
Inductive internal : server → server → Prop :=
  | int_exit st n code : s_exits st !! n = Some None → internal st (set_exits st (<[n := Some code]> (s_exits st)))
  | int_wait st n code j :
      s_exits st !! n = Some (Some code) → s_jobs st !! n = Some j → j_state j = JobRunning →
      internal st (wait st n code)
  | int_worker st n r state alive :
      s_runs st !! n = Some r → r_alive r = true →
      internal st (set_runs st (<[n := Run (r_id r) (r_task r) state alive]> (s_runs st)))
  | int_hangup st key : key ∈ s_sessions st → internal st (close_terminal st key).

(** Requests are served one after the other where they touch shared state: the
    sections under the lock, and the files each request replaces. *)
Inductive step : server → server → Prop :=
  | step_GET e q st : fresh_in e st → step st (do_GET e q st).1
  | step_POST e q st : fresh_in e st → step st (do_POST e q st).1
  | step_PUT e q st : fresh_in e st → step st (do_PUT e q st).1
  | step_internal st st' : internal st st' → step st st'.

(** The server as [Workbench.__init__] leaves it, over a directory of tasks. *)
Definition booted (store : store) : server := Server store [] [] None [] ∅ [].

(** The bookkeeping: the current job is the last one created; the others have
    been recorded; a recorded job's process has ended; the owners are the
    consoles of the open sessions. *)
Record ledger (st : server) : Prop := {
  lg_lengths : length (s_exits st) = length (s_jobs st);
  lg_current : s_job st = match length (s_jobs st) with O => None | S n => Some n end;
  lg_recorded : ∀ n j, s_jobs st !! n = Some j → S n ≠ length (s_jobs st) → j_state j ≠ JobRunning;
  lg_ended : ∀ n j, s_jobs st !! n = Some j → j_state j ≠ JobRunning → ∃ code, s_exits st !! n = Some (Some code);
  lg_owners : ∀ key, key ∈ s_owners st ↔ key ∈ s_sessions st;
  lg_sessions : NoDup (s_sessions st);
  lg_store : sound (s_store st)
}.

Lemma elem_of_remove_one x y l : NoDup l → y ∈ remove_one x l ↔ y ∈ l ∧ y ≠ x.
Proof.
  induction l as [|z l IH]; intros Hnd; cbn.
  { split; [intros H|intros [H _]]; by apply elem_of_nil in H. }
  apply NoDup_cons in Hnd as [Hz Hnd]. case_decide as Hx.
  - subst z. rewrite elem_of_cons. naive_solver.
  - rewrite !elem_of_cons, IH by done. naive_solver.
Qed.

Lemma NoDup_remove_one x l : NoDup l → NoDup (remove_one x l).
Proof.
  induction l as [|z l IH]; intros Hnd; cbn; [done|].
  apply NoDup_cons in Hnd as [Hz Hnd]. case_decide; [done|]. apply NoDup_cons.
  split; [|by apply IH]. rewrite elem_of_remove_one by done. naive_solver.
Qed.

Lemma job_running_spec st :
  ledger st → job_running st = true ↔
  ∃ n j, s_job st = Some n ∧ S n = length (s_jobs st) ∧ s_jobs st !! n = Some j ∧ j_state j = JobRunning.
Proof.
  intros [_ Hc _ _ _ _ _]. unfold job_running. destruct (length (s_jobs st)) as [|n] eqn:E; rewrite Hc.
  - split; [done|]. by intros (? & ? & ? & _).
  - destruct (lookup_lt_is_Some_2 (s_jobs st) n ltac:(lia)) as [j Hj]. rewrite Hj, bool_decide_eq_true.
    split; [intros ?; by exists n, j|]. intros (? & ? & [= <-] & _ & ? & ?). congruence.
Qed.

Lemma ledger_close st key : ledger st → ledger (close_terminal st key).
Proof.
  intros [L1 L2 L3 L4 L5 L6 L7]. split; cbn; try done.
  - intros k. rewrite elem_of_remove_one, <- L5 by done. set_solver.
  - by apply NoDup_remove_one.
Qed.

Lemma ledger_add st j : ledger st → job_running st = false → j_state j = JobRunning → ledger (add_job st j).
Proof.
  intros L Hn Hj. pose proof L as [L1 L2 L3 L4 L5 L6 L7]. split; cbn; try done.
  - rewrite !length_app. cbn. lia.
  - rewrite length_app. cbn. by rewrite Nat.add_1_r.
  - intros n j' Hl Hne. rewrite length_app in Hne. cbn in Hne.
    apply lookup_app_Some in Hl as [Hl|[Hge Hl]].
    + destruct (decide (S n = length (s_jobs st))) as [He|]; [|by apply (L3 n)].
      intros Hr. enough (job_running st = true) by congruence. apply job_running_spec; [done|].
      exists n, j'. split_and!; try done. by rewrite L2, <- He.
    + apply list_lookup_singleton_Some in Hl as [? _]. lia.
  - intros n j' Hl Hr. apply lookup_app_Some in Hl as [Hl|[Hge Hl]].
    + destruct (L4 _ _ Hl Hr) as [code Hc]. exists code. by apply lookup_app_l_Some.
    + apply list_lookup_singleton_Some in Hl as [_ <-]. done.
Qed.

Lemma ledger_effect e st st' : effect e st st' → ledger st → ledger st'.
Proof.
  intros [st0 r Hd|st0 j Hn Hj|st0 runs|st0 key Hk|st0 key Hk] L.
  - destruct L as [L1 L2 L3 L4 L5 L6 L7]. split; cbn; try done.
    by apply (serve_safe (e_configs e) (e_write_error e) (e_strip e) (e_text_len e) (e_take_80 e) (e_py_str e)).
  - by apply ledger_add.
  - by destruct L.
  - destruct L as [L1 L2 L3 L4 L5 L6 L7]. split; cbn; try done.
    + intros k. rewrite elem_of_cons, <- L5. set_solver.
    + apply NoDup_cons. by rewrite <- L5.
  - by apply ledger_close.
Qed.

Lemma ledger_internal st st' : internal st st' → ledger st → ledger st'.
Proof.
  intros [st0 n code Hx|st0 n code j Hx Hj Hr|st0 n r state alive Hr Ha|st0 key Hk] L;
    [| | |by apply ledger_close]; destruct L as [L1 L2 L3 L4 L5 L6 L7]; split; cbn; try done.
  - by rewrite length_insert.
  - intros m j Hj Hne. destruct (L4 _ _ Hj Hne) as [c Hc]. exists c.
    rewrite list_lookup_insert_ne; [done|]. intros ->. congruence.
  - by rewrite length_alter.
  - by rewrite length_alter.
  - intros m j' Hl. rewrite length_alter. rewrite list_lookup_alter in Hl.
    destruct (decide (n = m)) as [->|Hne]; [|by apply (L3 m)].
    rewrite Hj in Hl. injection Hl as <-. cbn. by destruct (code =? 0).
  - intros m j' Hl Hne. rewrite list_lookup_alter in Hl.
    destruct (decide (n = m)) as [->|Hnm]; [by exists code|by apply (L4 m j')].
Qed.

(** ** Exclusive leases *)

(** The contract: at most one launch at a time, at most one session per
    console, and the tasks of the directory. *)
Record leases := Leases {
  launching : option nat;
  attached : gset console
}.

Inductive lease_step : leases → leases → Prop :=
  | lease_launch n a : lease_step (Leases None a) (Leases (Some n) a)
  | lease_finish n a : lease_step (Leases (Some n) a) (Leases None a)
  | lease_attach l a key : key ∉ a → lease_step (Leases l a) (Leases l ({[key]} ∪ a))
  | lease_detach l a key : key ∈ a → lease_step (Leases l a) (Leases l (a ∖ {[key]})).

(** The leases a state of the server stands for. *)
Definition leased (st : server) : leases :=
  Leases (if job_running st then s_job st else None) (s_owners st).

Lemma leased_add st j :
  job_running st = false → j_state j = JobRunning →
  lease_step (leased st) (leased (add_job st j)).
Proof.
  intros Hn Hj. unfold leased. rewrite Hn.
  assert (job_running (add_job st j) = true) as ->.
  { unfold job_running. cbn. rewrite lookup_app_r, Nat.sub_diag by lia. cbn. by rewrite Hj. }
  constructor.
Qed.

Lemma leased_effect e st st' : effect e st st' → ledger st → rtc lease_step (leased st) (leased st').
Proof.
  intros [st0 r Hd|st0 j Hn Hj|st0 runs|st0 key Hk|st0 key Hk] L; try done.
  - by apply rtc_once, leased_add.
  - apply rtc_once. by constructor.
  - apply rtc_once. constructor. by apply (lg_owners _ L).
Qed.

(** A running job is the current one, and the last. *)
Lemma running_current st n j :
  ledger st → s_jobs st !! n = Some j → j_state j = JobRunning →
  s_job st = Some n ∧ S n = length (s_jobs st) ∧ job_running st = true.
Proof.
  intros L Hj Hr. pose proof (lg_current _ L) as Hc.
  assert (S n = length (s_jobs st)) as Hn.
  { destruct (decide (S n = length (s_jobs st))); [done|]. by destruct (lg_recorded _ L n j Hj). }
  rewrite <- Hn in Hc. split_and!; [done|done|]. apply job_running_spec; [done|]. by exists n, j.
Qed.

Lemma wait_stops st n code j :
  ledger st → s_jobs st !! n = Some j → j_state j = JobRunning → job_running (wait st n code) = false.
Proof.
  intros L Hj Hr. destruct (running_current _ _ _ L Hj Hr) as (Hc & _ & _).
  unfold job_running. cbn. rewrite Hc, list_lookup_alter_eq, Hj. cbn. by destruct (code =? 0).
Qed.

Lemma leased_wait st n code j :
  ledger st → s_jobs st !! n = Some j → j_state j = JobRunning →
  lease_step (leased st) (leased (wait st n code)).
Proof.
  intros L Hj Hr. pose proof (wait_stops _ _ code _ L Hj Hr) as Hs.
  destruct (running_current _ _ _ L Hj Hr) as (Hc & _ & Hr').
  unfold leased. rewrite Hs, Hr', Hc. constructor.
Qed.

Lemma leased_internal st st' : internal st st' → ledger st → rtc lease_step (leased st) (leased st').
Proof.
  intros [st0 n code Hx|st0 n code j Hx Hj Hr|st0 n r state alive Hr Ha|st0 key Hk] L; try done.
  - by eapply rtc_once, leased_wait.
  - apply rtc_once. constructor. by apply (lg_owners _ L).
Qed.

Lemma effects_refine e st st' :
  rtc (effect e) st st' → ledger st → ledger st' ∧ rtc lease_step (leased st) (leased st').
Proof.
  induction 1 as [|st st1 st' Hs _ IH]; [done|]. intros L.
  pose proof (ledger_effect _ _ _ Hs L) as L1. destruct (IH L1). split; [done|].
  etrans; [by eapply leased_effect|done].
Qed.

Lemma step_refines st st' :
  step st st' → ledger st → ledger st' ∧ rtc lease_step (leased st) (leased st').
Proof.
  intros [e q st0 Hf|e q st0 Hf|e q st0 Hf|st0 st1 Hi] L.
  - by eapply effects_refine, L; apply do_GET_effectful.
  - by eapply effects_refine, L; apply do_POST_effectful.
  - by eapply effects_refine, L; apply do_PUT_effectful.
  - split; [by eapply ledger_internal|by apply leased_internal].
Qed.

Lemma ledger_booted store : sound store → ledger (booted store).
Proof. intros H. split; cbn; try done; try constructor. all: by intros ?%elem_of_nil || set_solver. Qed.

Lemma runs_refine store st :
  sound store → rtc step (booted store) st →
  ledger st ∧ rtc lease_step (leased (booted store)) (leased st).
Proof.
  intros Hs. revert st. apply (rtc_ind_r (λ st, ledger st ∧ rtc lease_step (leased (booted store)) (leased st))).
  { split; [by apply ledger_booted|done]. }
  intros st st' _ Hstep [L IH]. destruct (step_refines _ _ Hstep L). split; [done|]. by etrans.
Qed.

(** C3: however requests, processes and sessions interleave, the server refines
    the exclusive leases: each of its steps is a sequence of lease steps, every
    launch process still alive holds the launch, the open terminal sessions are
    exactly the attached consoles, one each, and the tasks stay sound. *)
Theorem workbench_refines_leases store st :
  sound store → rtc step (booted store) st →
  rtc lease_step (Leases None ∅) (leased st) ∧
  (∀ n, s_exits st !! n = Some None → launching (leased st) = Some n) ∧
  NoDup (s_sessions st) ∧ (∀ key, key ∈ s_sessions st ↔ key ∈ attached (leased st)) ∧
  sound (s_store st).
Proof.
  intros Hs Hr. destruct (runs_refine _ _ Hs Hr) as [L H]. split_and!; try done; try apply L.
  - intros n Hx. pose proof (lg_lengths _ L) as Hlen. pose proof (lookup_lt_Some _ _ _ Hx) as Hlt.
    destruct (lookup_lt_is_Some_2 (s_jobs st) n ltac:(lia)) as [j Hj].
    assert (j_state j = JobRunning) as Hrun.
    { destruct (decide (j_state j = JobRunning)) as [|Hne]; [done|].
      destruct (lg_ended _ L _ _ Hj Hne) as [c Hc]. congruence. }
    destruct (running_current _ _ _ L Hj Hrun) as (Hc & _ & Hr'). unfold leased. by rewrite Hr'.
  - intros key. cbn. by rewrite (lg_owners _ L).
Qed.

(** The launch ends: its process exits and the waiter records it. *)
Lemma launch_ends st :
  ledger st → ∃ st', rtc internal st st' ∧ ledger st' ∧ job_running st' = false ∧ s_sessions st' = s_sessions st.
Proof.
  intros L. destruct (job_running st) eqn:Hj; [|by exists st].
  pose proof Hj as (n & j & Hc & Hn & Hl & Hr)%job_running_spec; [|done].
  assert (∃ st1, rtc internal st st1 ∧ (∃ code, s_exits st1 !! n = Some (Some code)) ∧
            s_jobs st1 = s_jobs st ∧ s_sessions st1 = s_sessions st) as (st1 & Hst1 & [code Hcode] & Hjobs & Hses).
  { destruct (lookup_lt_is_Some_2 (s_exits st) n) as [[code|] Hx]; [rewrite (lg_lengths _ L); lia| |].
    - exists st. split_and!; try done. by exists code.
    - exists (set_exits st (<[n := Some 0]> (s_exits st))). split_and!; try done.
      + apply rtc_once. by constructor.
      + exists 0. cbn. apply list_lookup_insert_eq. by eapply lookup_lt_Some. }
  assert (ledger st1) as L1.
  { clear -L Hst1. induction Hst1; [done|]. apply IHHst1. by eapply ledger_internal. }
  exists (wait st1 n code). rewrite <- Hjobs in Hl. split_and!; [| | |done].
  - eapply rtc_r; [exact Hst1|]. by econstructor.
  - eapply ledger_internal; [|exact L1]. by econstructor.
  - by eapply wait_stops.
Qed.

Lemma sessions_end st :
  ledger st → ∃ st', rtc internal st st' ∧ ledger st' ∧ s_sessions st' = [] ∧
    s_jobs st' = s_jobs st ∧ s_job st' = s_job st.
Proof.
  remember (s_sessions st) as l eqn:E. revert st E. induction l as [|key l IH]; intros st E L.
  { by exists st. }
  assert (internal st (close_terminal st key)) as Hi by (constructor; rewrite <- E; by left).
  pose proof (ledger_internal _ _ Hi L) as L1.
  destruct (IH (close_terminal st key)) as (st' & Hr & L' & Hs & Hj & Hc);
    [cbn; rewrite <- E; cbn; by rewrite decide_True by done|done|].
  exists st'. split_and!; try done. by eapply rtc_l.
Qed.

(** With no job running, a launch is refused only by what is outside the server's
    leases: its task, the preflight proper, a simulation that is still active, or
    the process that cannot be made. *)
Lemma launch_accepted_idle e st task spec plan v :
  job_running st = false →
  read_task e st task = Ok spec → compile_topology spec = Ok plan →
  Experiments.preflight (e_world e) (e_py_str e) (e_x_ok e) (e_port_free e) (e_select e) (launched_same e) (_runtime e)
    spec None false = Ok v →
  v_ok v = true → v_same v = false → any_active e = false → e_popen e = Ok tt →
  (start_task e st task).2 = Ok tt.
Proof.
  intros Hj Hs Hp Hv Hok Hsame Hact Hpopen. unfold start_task, preflight. rewrite Hs. cbn. rewrite Hp. cbn.
  rewrite Hv. cbn. rewrite Hok, Hsame, Hj. cbn. unfold launch. by rewrite Hj, Hact, Hpopen.
Qed.

(** C35: no lease is held for ever: from every state the server can reach, the
    ends of processes and sessions alone lead to a state in which no launch job is
    running and every console is free; there, a launch whose task compiles and
    passes the preflight, with no simulation active, is accepted as soon as its
    process can be made. *)
Theorem leases_released store st :
  sound store → rtc step (booted store) st →
  ∃ st', rtc internal st st' ∧ leased st' = Leases None ∅ ∧ s_sessions st' = [] ∧
    ∀ e task spec plan v,
      read_task e st' task = Ok spec → compile_topology spec = Ok plan →
      Experiments.preflight (e_world e) (e_py_str e) (e_x_ok e) (e_port_free e) (e_select e) (launched_same e) (_runtime e)
        spec None false = Ok v →
      v_ok v = true → v_same v = false → any_active e = false → e_popen e = Ok tt →
      (start_task e st' task).2 = Ok tt.
Proof.
  intros Hs Hr. destruct (runs_refine _ _ Hs Hr) as [L _].
  destruct (launch_ends _ L) as (st1 & R1 & L1 & Hj & _).
  destruct (sessions_end _ L1) as (st2 & R2 & L2 & Hs2 & Ejobs & Ejob).
  assert (job_running st2 = false) as Hj2 by (unfold job_running in *; by rewrite Ejobs, Ejob).
  exists st2. split; [by etrans|]. split; [|split; [done|intros e task spec plan v; by apply launch_accepted_idle]].
  unfold leased. rewrite Hj2.
  f_equal. apply set_eq. intros key. rewrite (lg_owners _ L2), Hs2.
  split; [by intros ?%elem_of_nil|set_solver].
Qed.

(** ** Refused requests *)

(** A handler that leaves the server as it is. *)
Definition still (h : handler) : Prop := ∀ st, (h st).1 = st.

Lemma still_guarded t h : still h → still (guarded t h).
Proof.
  intros H st. specialize (H st). unfold guarded. destruct (h st) as [st' [r|x]]; [done|].
  by destruct (caught t x).
Qed.
Lemma still_with_body q x k : _body q = Err x → still (with_body q k).
Proof. intros H st. unfold with_body. by rewrite H. Qed.
Lemma still_with_id id k : (∀ i, still (k i)) → still (with_id id k).
Proof. intros H st. unfold with_id. destruct id; [apply H|done]. Qed.
Lemma still_read e i h : still h → still (λ st,
  match read_task e st i with Err x => (st, Err x) | Ok _ => h st end).
Proof. intros H st. by destruct (read_task e st i). Qed.

Lemma POST_needs_body e q x : _body q = Err x → still (route_POST e q).
Proof.
  intros Hb. unfold route_POST. cbv zeta.
  repeat match goal with |- still (if ?b then _ else _) => destruct b end;
    try (apply still_with_id; intros i); first [by eapply still_with_body|done].
Qed.

Lemma PUT_needs_body e q x : _body q = Err x → still (route_PUT e q).
Proof.
  intros Hb. unfold route_PUT. cbv zeta.
  repeat match goal with |- still (if ?b then _ else _) => destruct b end;
    try (apply still_with_id; intros i); [by eapply still_with_body| |done].
  by eapply still_read, still_with_body.
Qed.

(** What reading an experiment's detail may change: a run recorded as running
    whose worker has died is failed. *)
Definition settled (st st' : server) : Prop :=
  st' = st ∨
  ∃ n r, s_runs st !! n = Some r ∧ r_state r = RunRunning ∧ r_alive r = false ∧
         st' = set_runs st (<[n := Run (r_id r) (r_task r) RunFailed false]> (s_runs st)).

Lemma detail_settles st i : settled st (experiment_detail st i).1.
Proof.
  unfold experiment_detail. destruct (find_run st i) as [[n r]|x] eqn:Hf; [|by left]. cbn [fst].
  unfold find_run in Hf. destruct (negb _); [discriminate|]. apply or_raise_Ok in Hf.
  apply list_find_Some in Hf as (Hn & _). unfold settle.
  destruct (bool_decide _ && _) eqn:E.
  - apply andb_true_iff in E as [E1%bool_decide_eq_true E2%negb_true_iff]. right. exists n, r.
    split_and!; try done. by rewrite E2.
  - left. rewrite list_insert_id by done. by destruct st.
Qed.

Lemma GET_settles e q st : _origin_ok q = false → settled st (do_GET e q st).1.
Proof.
  intros Ho. assert (∀ h : handler, settled st (h st).1 → settled st (guarded true h st).1) as Hg.
  { intros h H. unfold guarded. destruct (h st) as [st' [r|x]]; [done|]. by destruct (caught _ _). }
  apply Hg. clear Hg. unfold route_GET. cbv zeta.
  repeat match goal with |- settled _ ((if ?b then _ else _) _).1 => destruct b end;
    unfold with_id;
    repeat match goal with |- settled _ (match ?m with Ok _ => _ | Err _ => _ end).1 => destruct m as [i|x]; [|by left] end;
    try (by left).
  - pose proof (detail_settles st i) as H. by destruct (experiment_detail st i).
  - left. unfold _terminal_socket. by rewrite Ho.
Qed.

(** C36: a page of another origin changes next to nothing: its POST and PUT
    requests and its terminals are answered with status 403, and its GET requests,
    whose origin is not checked, leave the server as it is, but that reading an
    experiment whose worker has died records it as failed; and whatever the
    origin, a POST or PUT without a JSON object of 1 to 262144 bytes declared as
    JSON leaves the server as it is. *)
Theorem unwanted_requests e q st :
  (_origin_ok q = false →
     do_POST e q st = (st, Ok (_error 403 (Exn ValueError "origin mismatch" []))) ∧
     do_PUT e q st = (st, Ok (_error 403 (Exn ValueError "origin mismatch" []))) ∧
     _terminal_socket e q st = (st, Ok (_error 403 (Exn ValueError "origin mismatch" []))) ∧
     settled st (do_GET e q st).1) ∧
  ((do_POST e q st).1 ≠ st ∨ (do_PUT e q st).1 ≠ st →
     ∃ length body, int_of_str (default "0" (q_header q "Content-Length")) = Ok length ∧
       1 <= length <= 262144 ∧ q_body q length = Ok (JObj body) ∧
       (partition_at ";"%char (default EmptyString (q_header q "Content-Type"))).1 = "application/json").
Proof.
  split.
  - intros Ho. pose proof (GET_settles e q st Ho) as Hget. unfold do_POST, do_PUT, forbidden, _terminal_socket. by rewrite Ho.
  - intros Hch. destruct (_body q) as [body|x] eqn:Hb.
    + unfold _body in Hb. destruct (negb _) eqn:Hct; [done|].
      apply bind_Ok in Hb as (n & Hn & Hb). destruct (negb _) eqn:Hlen in Hb; [done|].
      apply bind_Ok in Hb as (v & Hv & Hb). destruct v; try done. injection Hb as ->.
      bool_inv. exists n, body. unfold MAX_BODY in *. split_and!; try done; lia.
    + exfalso. destruct Hch as [Hch|Hch]; apply Hch; unfold do_POST, do_PUT, forbidden;
        destruct (negb (_origin_ok q)); try done; apply still_guarded.
      * by eapply POST_needs_body.
      * by eapply PUT_needs_body.
Qed.

(** ** Concrete runs *)

(** [running]: QEMU runs the topology named [task_a]. *)
Definition sample_env (running : bool) (fresh_task fresh_run : string) : env :=
  {| e_world := sample_world true; e_configs := sample_configs; e_write_error := λ _, None;
     e_strip := λ s, s; e_text_len := py_len; e_take_80 := λ s, s; e_py_str := sample_str;
     e_x_ok := λ _, true; e_port_free := λ _, true; e_select := λ _ _, Ok None;
     e_text := λ path, if running && String.eqb path "/lab/run-qemu-dual/node0/qemu.pid" then Some "4711" else None;
     e_json := λ path, if running && String.eqb path "/lab/run-qemu-dual/topology.json"
                       then Some (JObj [("name", JStr "task_a")]) else None;
     e_json_eq := λ _ _, true; e_kill_0 := λ _, true; e_popen := Ok tt; e_stop := λ _, Ok (0, EmptyString);
     e_connect := λ _, Ok tt; e_newest_first := λ l, l; e_fresh_task := fresh_task; e_fresh_run := fresh_run |}.

Definition sample_http (path : string) (body : jobj) : http :=
  {| q_path := path;
     q_param := λ k, if String.eqb k "task" then Some "task-a" else if String.eqb k "node" then Some "head-b" else None;
     q_header := λ k, if String.eqb k "Content-Type" then Some "application/json"
                      else if String.eqb k "Content-Length" then Some "99"
                      else if String.eqb k "Upgrade" then Some "websocket"
                      else if String.eqb k "Sec-WebSocket-Key" then Some "key" else None;
     q_body := λ _, Ok (JObj body) |}.

Definition idle := sample_env false "task-b" "run-20260101-000000-00000a".
Definition busy := sample_env true "task-b" "run-20260101-000000-00000a".

Definition first_env := sample_env false "task-a" "run-20260101-000000-00000a".
Definition with_task : server := (do_POST first_env (sample_http "/api/tasks" sample_body) (booted (Store ∅))).1.
Definition launched : server := (do_POST idle (sample_http "/api/tasks/task-a/start" []) with_task).1.
Definition connected : server := (do_GET busy (sample_http "/ws/terminal" []) launched).1.

Definition status_of (r : server * res response) : Z :=
  match r.2 with Ok (Replied s _) => s | Ok (Content _ _) => 200 | Err _ => 0 end.

(** The task is created and launched; a second launch and a second terminal are
    refused. *)
Example sample_session :
  status_of (do_POST idle (sample_http "/api/tasks/task-a/start" []) with_task) = 202 ∧
  status_of (do_POST idle (sample_http "/api/tasks/task-a/start" []) launched) = 400 ∧
  status_of (do_GET busy (sample_http "/ws/terminal" []) launched) = 101 ∧
  status_of (do_GET busy (sample_http "/ws/terminal" []) connected) = 400.
Proof. vm_compute. done. Qed.

(** Two requests before the first worker has written its status: both
    experiments start, and both workers live. *)
Example experiments_overlap :
  let q := sample_http "/api/tasks/task-a/experiment" [] in
  let first := do_POST busy q with_task in
  let second := do_POST (sample_env true "task-b" "run-20260101-000000-00000b") q first.1 in
  status_of first = 202 ∧ status_of second = 202 ∧ (r_alive <$> s_runs second.1) = [true; true].
Proof. vm_compute. done. Qed.

Lemma sample_run : rtc step (booted (Store ∅)) connected.
Proof.
  eapply rtc_l; [refine (step_POST first_env (sample_http "/api/tasks" sample_body) _ _); split; vm_compute; reflexivity|].
  eapply rtc_l; [refine (step_POST idle (sample_http "/api/tasks/task-a/start" []) with_task _); split; vm_compute; reflexivity|].
  eapply rtc_l; [refine (step_GET busy (sample_http "/ws/terminal" []) launched _); split; vm_compute; reflexivity|].
  apply rtc_refl.
Qed.

Lemma workbench_refines_leases_witness :
  rtc lease_step (Leases None ∅) (leased connected) ∧ s_sessions connected = [("qemu", 1%nat)].
Proof.
  destruct (workbench_refines_leases (Store ∅) connected empty_sound sample_run) as [H _].
  split; [exact H|vm_compute; reflexivity].
Defined.

Lemma leases_released_witness :
  ∃ st', rtc internal connected st' ∧ leased st' = Leases None ∅ ∧ s_sessions st' = [].
Proof.
  destruct (leases_released (Store ∅) connected empty_sound sample_run) as (st' & H1 & H2 & H3 & _). by exists st'.
Defined.

Definition foreign : http :=
  {| q_path := "/api/tasks/task-a/start"; q_param := λ _, None;
     q_header := λ k, if String.eqb k "Origin" then Some "http://evil.example"
                      else if String.eqb k "Host" then Some "127.0.0.1:8765" else None;
     q_body := λ _, Ok (JObj []) |}.

Lemma unwanted_requests_witness :
  _origin_ok foreign = false ∧
  do_POST busy foreign launched = (launched, Ok (_error 403 (Exn ValueError "origin mismatch" []))).
Proof.
  split; [vm_compute; reflexivity|].
  destruct (unwanted_requests busy foreign launched) as [H _].
  destruct (H ltac:(vm_compute; reflexivity)) as [Hp _]. exact Hp.
Defined.
