(* ===== verification/Serve.v ===== *)
(** * Serving the workbench ([ubsim_lab/web.py], [main])

    The command's arguments, the socket it binds and how it ends; and whether a
    recorded worker process lives. *)

From Stdlib Require Import ZArith Lia SpecFloat.
From stdpp Require Import base strings numbers option list.
From S2P Require Import Prelude PyStr Json Workbench.

Open Scope string_scope.
Open Scope list_scope.
Open Scope Z_scope.

(** ** Worker processes *)

(** [int(value)] of a JSON value. *)
Definition int_of_json (v : json) : res Z :=
  match v with
  | JInt z => Ok z
  | JBool b => Ok (if b then 1 else 0)
  | JStr s => int_of_str s
  | JFloat (S754_zero _) => Ok 0
  | JFloat (S754_infinity _) => Err (Exn OverflowError "cannot convert float infinity to integer" [])
  | JFloat S754_nan => Err (Exn ValueError "cannot convert float NaN to integer" [])
  | JFloat (S754_finite neg m e) =>
      let magnitude := if 0 <=? e then Zpos m * 2 ^ e else Zpos m / 2 ^ (- e) in
      Ok (if neg then - magnitude else magnitude)
  | _ => Err (Exn TypeError "int() argument must be a string, a bytes-like object or a real number" [])
  end.

(** [except (OSError, TypeError, ValueError)]. *)
Definition no_process (e : exn) : bool :=
  is_a (exn_cls e) OSError || is_a (exn_cls e) TypeError || is_a (exn_cls e) ValueError.

(** [_process_alive], for what [os.kill(pid, 0)] answers. *)
Definition _process_alive (kill : Z → res unit) (pid : json) : res bool :=
  match (z ← int_of_json pid; kill z) with
  | Ok _ => Ok true
  | Err e => if no_process e then Ok false else Err e
  end.

(** A status file names a living process only through the system's answer for
    that very number; anything else in its place is no process, and only a
    number too large for the system escapes. *)
Lemma process_alive_iff kill pid :
  _process_alive kill pid = Ok true ↔ ∃ z, int_of_json pid = Ok z ∧ kill z = Ok tt.
Proof.
  unfold _process_alive. destruct (int_of_json pid) as [z|e]; cbn.
  - destruct (kill z) as [[]|e] eqn:E; [naive_solver|]. destruct (no_process e); naive_solver congruence.
  - destruct (no_process e); naive_solver.
Qed.

(** ** The server's socket *)

Record server_args := ServerArgs {
  sa_host : string;
  sa_port : Z
}.

Definition default_args : server_args := ServerArgs "127.0.0.1" 8765.

Inductive server_type := IPv4Workbench | IPv6Workbench.

(** The server object after [server_bind]: the name is the bound address, not
    what a reverse lookup answers. *)
Record bound := Bound {
  b_type : server_type;
  b_name : string;
  b_port : Z
}.

Inductive served :=
  | Serving (b : bound)
  | Announced (host : string) (port : Z).

Section main.
(** [bind] and [getsockname]; the outcome of [serve_forever]. *)
Context (bind : server_type → string → Z → res (string * Z)).
(** [None]: interrupted from the keyboard. *)
Context (serve_forever : option (res unit)).

Definition server_bind (type : server_type) (host : string) (port : Z) : res bound :=
  address ← bind type host port;
  Ok (Bound type address.1 address.2).

Definition loopback : list string := ["127.0.0.1"; "localhost"; "::1"].

Definition main (a : server_args) : io served Z :=
  _ <- lift (raise usage "only a loopback address of this machine" when negb (elemb (sa_host a) loopback) ;; Ok tt) ;
  let type := if String.eqb (sa_host a) "::1" then IPv6Workbench else IPv4Workbench in
  server <- lift (server_bind type (sa_host a) (sa_port a)) ;
  emit (Serving server) ;;;
  emit (Announced (b_name server) (b_port server)) ;;;
  _ <- lift (match serve_forever with Some r => r | None => Ok tt end) ;
  io_ret 0.
End main.

(** The workbench binds nothing but a loopback address of this machine, and what
    it announces is what it has bound. *)
Lemma main_loopback bind serve a log r b :
  main bind serve a [] = (log, r) → Serving b ∈ log →
  sa_host a ∈ loopback ∧ bind (b_type b) (sa_host a) (sa_port a) = Ok (b_name b, b_port b) ∧
  (b_type b = IPv6Workbench ↔ sa_host a = "::1") ∧ log = [Serving b; Announced (b_name b) (b_port b)].
Proof.
  unfold main, io_bind, lift, emit, io_ret, server_bind.
  destruct (elemb (sa_host a) loopback) eqn:E; cbn [negb]; [|intros [= <- <-] H; by apply elem_of_nil in H].
  set (t := if String.eqb _ _ then _ else _).
  destruct (bind t (sa_host a) (sa_port a)) as [[n p]|e] eqn:Eb; cbn; [|intros [= <- <-] H; by apply elem_of_nil in H].
  intros H Hb.
  assert (log = [Serving (Bound t n p); Announced n p]) as -> by (destruct serve as [[]|]; cbn in H; congruence).
  apply elem_of_cons in Hb as [[= ->]|Hb]; [|apply list_elem_of_singleton in Hb; discriminate]. cbn. split_and!; [by apply elemb_true|done| |done].
  subst t. destruct (String.eqb (sa_host a) "::1") eqn:Eq; bool_inv; naive_solver.
Qed.

Example defaults_served :
  main (λ _ h p, Ok (h, p)) None default_args [] =
  ([Serving (Bound IPv4Workbench "127.0.0.1" 8765); Announced "127.0.0.1" 8765], Ok 0).
Proof. reflexivity. Qed.

Example wildcard_refused :
  main (λ _ h p, Ok (h, p)) None (ServerArgs "0.0.0.0" 8765) [] =
  ([], Err (usage "only a loopback address of this machine")).
Proof. reflexivity. Qed.
