(* ===== verification/ElfFlat.v ===== *)
(** * The flat kernel image ([tools/elf_to_flat_binary.py])

    The ELF64 headers read with [struct], the choice of the loadable sections
    and the image built from them, against a specification of the image by
    address. *)

From Stdlib Require Import ZArith Lia.
From stdpp Require Import base strings numbers option list.
From S2P Require Import Prelude.

Open Scope string_scope.
Open Scope list_scope.
Open Scope Z_scope.

Section elf.

(** ** [struct] *)

Definition struct_error : exn := Exn StructError "unpack_from requires a larger buffer" [].

(** A little-endian unsigned integer. *)
Fixpoint from_little (b : list Z) : Z :=
  match b with [] => 0 | x :: b' => x + 256 * from_little b' end.

(** The fields of the given sizes, one after the other. *)
Fixpoint fields (sizes : list nat) (b : list Z) : list Z :=
  match sizes with
  | [] => []
  | n :: sizes' => from_little (take n b) :: fields sizes' (drop n b)
  end.

Definition total (sizes : list nat) : nat := foldr Nat.add 0%nat sizes.

(** [Struct.unpack_from(data, offset)] for unsigned fields. *)
Definition unpack_from (sizes : list nat) (data : list Z) (offset : Z) : res (list Z) :=
  raise struct_error when len data <? offset + Z.of_nat (total sizes) ;;
  Ok (fields sizes (drop (Z.to_nat offset) data)).

(** [<16sHHIQQQIHHHHHH], after the 16 bytes of the identification, and
    [<IIQQQQIIQQ]. *)
Definition ELF_HEADER : list nat := [2; 2; 4; 8; 8; 8; 4; 2; 2; 2; 2; 2; 2]%nat.
Definition SECTION_HEADER : list nat := [4; 4; 8; 8; 8; 8; 4; 4; 8; 8]%nat.
Definition SHF_ALLOC : Z := 2.
Definition SHT_NOBITS : Z := 8.

(** ** Sections *)

Record section_header := SectionHeader {
  sh_type : Z;
  sh_flags : Z;
  sh_addr : Z;
  sh_offset : Z;
  sh_size : Z
}.

(** The fields 1 to 5 of an unpacked header. *)
Definition section_of (f : list Z) : section_header :=
  SectionHeader (nth 1 f 0) (nth 2 f 0) (nth 3 f 0) (nth 4 f 0) (nth 5 f 0).

Definition loadable (s : section_header) : bool :=
  negb (Z.land (sh_flags s) SHF_ALLOC =? 0) && negb (sh_type s =? SHT_NOBITS) && negb (sh_size s =? 0).

Definition MAGIC : list Z := [0x7f; 0x45; 0x4c; 0x46; 2; 1].

Definition read_sections (data : list Z) : res (list section_header) :=
  raise struct_error when len data <? 64 ;;
  header ← unpack_from ELF_HEADER data 16;
  raise Exn ValueError "{source} is not a little-endian ELF64 file" []
    when negb (bool_decide (take 6 data = MAGIC)) ;;
  let section_offset := nth 5 header 0 in
  let section_size := nth 10 header 0 in
  let section_count := nth 11 header 0 in
  mapR (λ index : nat,
          f ← unpack_from SECTION_HEADER data (section_offset + Z.of_nat index * section_size);
          Ok (section_of f))
       (seq 0 (Z.to_nat section_count)).

(** ** The image *)

(** [min] and [max] over a non-empty list. *)
Definition least (l : list Z) : Z := match l with [] => 0 | x :: l' => foldl Z.min x l' end.
Definition greatest (l : list Z) : Z := match l with [] => 0 | x :: l' => foldl Z.max x l' end.

(** [image[i:j] = bytes] on a bytearray: the slice is replaced, whatever its
    length, the bounds clipped to the array. *)
Definition set_slice (image : list Z) (i j : nat) (bytes : list Z) : list Z :=
  take i image ++ bytes ++ drop (Nat.max i j) image.

(** [data[offset:offset + size]]. *)
Definition contents (data : list Z) (s : section_header) : list Z :=
  take (Z.to_nat (sh_size s)) (drop (Z.to_nat (sh_offset s)) data).

Definition place_section (data : list Z) (base : Z) (image : list Z) (s : section_header) : list Z :=
  let i := Z.to_nat (sh_addr s - base) in
  set_slice image i (i + Z.to_nat (sh_size s)) (contents data s).

Definition convert (data : list Z) : res (list Z) :=
  sections ← read_sections data;
  let chosen := List.filter loadable sections in
  raise Exn ValueError "{source} has no loadable initialized sections" [] when bool_decide (length chosen = 0%nat) ;;
  let base := least (sh_addr <$> chosen) in
  let finish := greatest ((λ s, sh_addr s + sh_size s) <$> chosen) in
  Ok (foldl (place_section data base) (replicate (Z.to_nat (finish - base)) 0) chosen).

End elf.

(** ** What the image holds *)

(** The section covers the address. *)
Definition covers (a : Z) (s : section_header) : bool := (sh_addr s <=? a) && (a <? sh_addr s + sh_size s).

(** The byte of the section at an address it covers. *)
Definition byte_in (data : list Z) (a : Z) (s : section_header) : Z :=
  nth (Z.to_nat (sh_offset s + (a - sh_addr s))) data 0.

(** The byte at an address: that of the last section that covers it, or 0. *)
Definition byte_at (data : list Z) (sections : list section_header) (a : Z) : Z :=
  match last (List.filter (covers a) sections) with Some s => byte_in data a s | None => 0 end.

(** The section's bytes are in the file. *)
Definition in_file (data : list Z) (s : section_header) : Prop :=
  0 <= sh_offset s ∧ 0 <= sh_size s ∧ sh_offset s + sh_size s <= len data.

Lemma foldl_min_spec l x : foldl Z.min x l <= x ∧ Forall (λ y, foldl Z.min x l <= y) l.
Proof.
  revert x. induction l as [|y l IH]; intros x; cbn; [split; [lia|constructor]|].
  destruct (IH (Z.min x y)) as [H1 H2]. split; [lia|]. apply Forall_cons. split; [lia|done].
Qed.

Lemma foldl_max_spec l x : x <= foldl Z.max x l ∧ Forall (λ y, y <= foldl Z.max x l) l.
Proof.
  revert x. induction l as [|y l IH]; intros x; cbn; [split; [lia|constructor]|].
  destruct (IH (Z.max x y)) as [H1 H2]. split; [lia|]. apply Forall_cons. split; [lia|done].
Qed.

Lemma least_spec l : Forall (λ y, least l <= y) l.
Proof.
  destruct l as [|x l]; [constructor|]. cbn. destruct (foldl_min_spec l x). by apply Forall_cons.
Qed.

Lemma greatest_spec l : Forall (λ y, y <= greatest l) l.
Proof.
  destruct l as [|x l]; [constructor|]. cbn. destruct (foldl_max_spec l x). by apply Forall_cons.
Qed.

Lemma nth_take_lt (l : list Z) n m : (m < n)%nat → nth m (take n l) 0 = nth m l 0.
Proof. revert n m. induction l as [|x l IH]; intros [|n] [|m] Hm; cbn; try done; try lia. apply IH. lia. Qed.

Lemma nth_drop_add (l : list Z) n m : nth m (drop n l) 0 = nth (n + m) l 0.
Proof.
  revert l. induction n as [|n IH]; intros [|x l]; cbn; [done|done|by destruct m|apply IH].
Qed.

Lemma length_contents data s : in_file data s → length (contents data s) = Z.to_nat (sh_size s).
Proof. intros (? & ? & ?). unfold contents, len in *. rewrite length_take, length_drop. lia. Qed.

Lemma length_place data base image s :
  in_file data s → base <= sh_addr s → sh_addr s + sh_size s <= base + len image →
  length (place_section data base image s) = length image.
Proof.
  intros Hin Hb He. unfold place_section, set_slice, len in *.
  rewrite !length_app, length_take, length_drop, length_contents by done.
  destruct Hin as (? & ? & ?). lia.
Qed.

(** One section's bytes, the rest of the image unchanged. *)
Lemma nth_place data base image s i :
  in_file data s → base <= sh_addr s → sh_addr s + sh_size s <= base + len image →
  nth i (place_section data base image s) 0 =
  if covers (base + Z.of_nat i) s then byte_in data (base + Z.of_nat i) s else nth i image 0.
Proof.
  intros Hin Hb He. pose proof (length_contents _ _ Hin) as Hc. destruct Hin as (H1 & H2 & H3).
  unfold place_section, set_slice, covers, byte_in, len in *.
  set (k := Z.to_nat (sh_addr s - base)).
  assert (length (take k image) = k) as Hk by (rewrite length_take; lia).
  destruct (decide (i < k)%nat) as [Hi|Hi].
  - rewrite app_nth1 by lia. replace (_ && _) with false by (symmetry; apply andb_false_iff; lia).
    rewrite <- (take_drop k image) at 2. by rewrite app_nth1 by lia.
  - rewrite app_nth2 by lia. rewrite Hk.
    destruct (decide (i - k < length (contents data s))%nat) as [Hj|Hj].
    + rewrite app_nth1 by done. replace (_ && _) with true by (symmetry; apply andb_true_iff; lia).
      unfold contents in *.
      rewrite nth_take_lt, nth_drop_add by lia. f_equal. lia.
    + rewrite app_nth2 by lia. replace (_ && _) with false by (symmetry; apply andb_false_iff; lia).
      rewrite Nat.max_r by lia.
      rewrite nth_drop_add. f_equal. lia.
Qed.

Lemma nth_zeros n m : nth n (replicate m 0) 0 = 0.
Proof. revert n. induction m as [|m IH]; intros [|n]; cbn; try done. Qed.

Lemma foldl_min_in l x : foldl Z.min x l = x ∨ foldl Z.min x l ∈ l.
Proof.
  revert x. induction l as [|y l IH]; intros x; cbn; [by left|]. rewrite elem_of_cons.
  destruct (IH (Z.min x y)) as [->|H]; [|by right; right].
  destruct (Z.min_dec x y) as [->| ->]; [by left|by right; left].
Qed.

Lemma foldl_max_in l x : foldl Z.max x l = x ∨ foldl Z.max x l ∈ l.
Proof.
  revert x. induction l as [|y l IH]; intros x; cbn; [by left|]. rewrite elem_of_cons.
  destruct (IH (Z.max x y)) as [->|H]; [|by right; right].
  destruct (Z.max_dec x y) as [->| ->]; [by left|by right; left].
Qed.

Lemma least_in l : l ≠ [] → least l ∈ l.
Proof. destruct l as [|x l]; [done|]. intros _. cbn. rewrite elem_of_cons. by destruct (foldl_min_in l x); [left|right]. Qed.

Lemma greatest_in l : l ≠ [] → greatest l ∈ l.
Proof. destruct l as [|x l]; [done|]. intros _. cbn. rewrite elem_of_cons. by destruct (foldl_max_in l x); [left|right]. Qed.

(** The last element of the filter of a list that ends with [x]. *)
Lemma last_filter_snoc {A} (p : A → bool) l x :
  last (List.filter p (l ++ [x])) = if p x then Some x else last (List.filter p l).
Proof.
  rewrite List.filter_app. cbn. destruct (p x); [by rewrite last_snoc|by rewrite app_nil_r].
Qed.

(** The sections fit in the file and between the bounds of the image. *)
Definition fits (data : list Z) (base finish : Z) (s : section_header) : Prop :=
  in_file data s ∧ base <= sh_addr s ∧ sh_addr s + sh_size s <= finish.

Lemma placed data base finish l :
  base <= finish → Forall (fits data base finish) l →
  let image := foldl (place_section data base) (replicate (Z.to_nat (finish - base)) 0) l in
  len image = finish - base ∧
  ∀ a, base <= a < finish → nth (Z.to_nat (a - base)) image 0 = byte_at data l a.
Proof.
  intros Hb. induction l as [|s l IH] using rev_ind; intros HF; cbn zeta.
  { unfold len. cbn. rewrite length_replicate. split; [lia|]. intros a Ha. apply nth_zeros. }
  apply Forall_app in HF as [HF Hs]. apply Forall_singleton in Hs as (Hin & H1 & H2).
  destruct (IH HF) as [Hlen Hbytes]. rewrite foldl_app. cbn [foldl].
  set (image := foldl _ _ l) in *. split.
  - unfold len. rewrite length_place by (done || lia). exact Hlen.
  - intros a Ha. rewrite nth_place by (done || lia).
    replace (base + Z.of_nat (Z.to_nat (a - base))) with a by lia.
    unfold byte_at. rewrite last_filter_snoc. destruct (covers a s); [done|]. by apply Hbytes.
Qed.

Lemma elem_filter_loadable l s : s ∈ List.filter loadable l ↔ s ∈ l ∧ loadable s = true.
Proof. by rewrite !list_elem_of_In, List.filter_In. Qed.

(** For an ELF file whose loadable sections lie in the file, the image
    starts at the lowest of their addresses and ends at the highest, and holds
    at each address the byte of the last section that covers it, and zero where
    none does. *)
Theorem convert_flat data sections :
  read_sections data = Ok sections →
  (∃ s, s ∈ sections ∧ loadable s = true) →
  (∀ s, s ∈ sections → loadable s = true → in_file data s) →
  let chosen := List.filter loadable sections in
  ∃ image base, convert data = Ok image ∧
    (∀ s, s ∈ chosen → base <= sh_addr s ∧ sh_addr s + sh_size s <= base + len image) ∧
    (∃ s, s ∈ chosen ∧ sh_addr s = base) ∧ (∃ s, s ∈ chosen ∧ sh_addr s + sh_size s = base + len image) ∧
    ∀ a, base <= a < base + len image → nth (Z.to_nat (a - base)) image 0 = byte_at data chosen a.
Proof.
  intros Hr (s0 & Hs0 & Hl0) Hin chosen. unfold convert. rewrite Hr. cbn [mbind res_bind]. fold chosen.
  assert (s0 ∈ chosen) as Hc0 by (by apply elem_filter_loadable).
  rewrite bool_decide_eq_false_2 by (intros E; apply nil_length_inv in E; rewrite E in Hc0; by apply elem_of_nil in Hc0).
  set (base := least (sh_addr <$> chosen)). set (finish := greatest _).
  assert (Forall (fits data base finish) chosen) as HF.
  { pose proof (least_spec (sh_addr <$> chosen)) as HL.
    pose proof (greatest_spec ((λ s, sh_addr s + sh_size s) <$> chosen)) as HG.
    rewrite Forall_fmap in HL, HG. rewrite Forall_forall in HL, HG. apply Forall_forall. intros s Hs.
    pose proof Hs as Hs'. apply elem_filter_loadable in Hs' as [? ?]. split; [by apply Hin|].
    split; [by apply HL|by apply HG]. }
  pose proof HF as HF0. rewrite Forall_forall in HF0.
  assert (base <= finish) as Hbf by (destruct (HF0 _ Hc0) as ((_ & ? & _) & ? & ?); lia).
  destruct (placed data base finish chosen Hbf HF) as [Hlen Hbytes].
  eexists _, base. split; [done|]. rewrite Hlen. replace (base + (finish - base)) with finish by lia.
  split; [intros s Hs; by destruct (HF0 s Hs)|].
  assert (chosen ≠ []) as Hne by (intros E; rewrite E in Hc0; by apply elem_of_nil in Hc0).
  split_and!; [| |done].
  - destruct (proj1 (list_elem_of_fmap _ _ _) (least_in (sh_addr <$> chosen) ltac:(by destruct chosen)))
      as (s & Hs & ?). by exists s.
  - destruct (proj1 (list_elem_of_fmap _ _ _) (greatest_in ((λ s, sh_addr s + sh_size s) <$> chosen)
      ltac:(by destruct chosen))) as (s & Hs & ?). by exists s.
Qed.

(** ** A concrete file *)

Fixpoint to_little (n : nat) (z : Z) : list Z :=
  match n with O => [] | S n' => z mod 256 :: to_little n' (z / 256) end.
Definition encode (sizes : list nat) (values : list Z) : list Z :=
  mjoin (zip_with to_little sizes values).

(** Two sections of program data after the headers, one of them of [size]
    bytes, and a section that is not loaded. *)
Definition sample_elf (size : Z) : list Z :=
  MAGIC ++ replicate 10 0 ++ encode ELF_HEADER [2; 183; 1; 0; 0; 64; 0; 64; 0; 0; 64; 3; 0] ++
  encode SECTION_HEADER [0; 1; 6; 4096; 256; size; 0; 0; 1; 0] ++
  encode SECTION_HEADER [0; 8; 2; 9000; 256; 100; 0; 0; 1; 0] ++
  encode SECTION_HEADER [0; 1; 2; 4100; 259; 2; 0; 0; 1; 0] ++
  [11; 12; 13; 21; 22].

Definition sample_sections (size : Z) : list section_header :=
  [SectionHeader 1 6 4096 256 size; SectionHeader 8 2 9000 256 100; SectionHeader 1 2 4100 259 2].

Example sample_image : convert (sample_elf 3) = Ok [11; 12; 13; 0; 21; 22].
Proof. vm_compute. reflexivity. Qed.

(** A first section said to be longer than the file: the image is built all the
    same, shorter than its address range, and the second section's bytes are no
    longer at their address. *)
Example sample_truncated : convert (sample_elf 64) = Ok [11; 12; 13; 21; 21; 22].
Proof. vm_compute. reflexivity. Qed.

Lemma convert_flat_witness :
  ∃ image base, convert (sample_elf 3) = Ok image ∧ (∃ s, s ∈ sample_sections 3 ∧ sh_addr s = base).
Proof.
  destruct (convert_flat (sample_elf 3) (sample_sections 3)) as (image & base & H & _ & (s & Hs & Hb) & _).
  - vm_compute. reflexivity.
  - exists (SectionHeader 1 6 4096 256 3). split; [left|vm_compute; reflexivity].
  - intros s Hs Hl. repeat (apply elem_of_cons in Hs as [->|Hs]; [first [discriminate Hl|vm_compute; split_and!; discriminate]|]).
    by apply elem_of_nil in Hs.
  - exists image, base. split; [exact H|]. exists s. split; [|exact Hb].
    apply elem_filter_loadable in Hs as [Hs _]. exact Hs.
Defined.
