(* ===== verification/SerialConsole.v ===== *)
(** * Guest consoles ([tools/dual_serial_command.py], [tools/coordinated_checkpoint.py])

    One worker per console waits for a shell prompt, all workers meet at a
    barrier, and each sends its command and follows the console's output until
    the command's own markers and a fresh prompt have arrived; or, for a
    checkpoint, until the simulator closes the console.  Output is modelled as
    what each [recv] returns, in pieces of any size. *)

From Stdlib Require Import ZArith Lia Ascii.
From stdpp Require Import base strings numbers option list.
From S2P Require Import Prelude PyStr Json TextScan.

Open Scope string_scope.
Open Scope list_scope.
Open Scope Z_scope.

Definition CR : ascii := "013"%char.
Definition LF : ascii := "010"%char.

(** [s.rstrip()]. *)
Definition rstrip (s : string) : string := String.rev (lstrip (String.rev s)).

(** [s[-n:]]: the last [n] characters. *)
Fixpoint tail_chars (n : Z) (s : string) : string :=
  match s with
  | EmptyString => EmptyString
  | String c s' =>
      if (py_len s <=? n) && negb ((128 <=? code c) && (code c <? 192)) then s else tail_chars n s'
  end.

(** [print(s)]. *)
Definition line (s : string) : string := s +:+ String LF EmptyString.

(** What [subprocess] reads in text mode: CRLF and CR as LF. *)
Fixpoint universal_newlines (s : string) : string :=
  match s with
  | EmptyString => EmptyString
  | String c s' =>
      if Ascii.eqb c CR then
        String LF (match s' with
                   | String d s'' => if Ascii.eqb d LF then universal_newlines s'' else universal_newlines s'
                   | EmptyString => EmptyString
                   end)
      else String c (universal_newlines s')
  end.

(** ** Patterns *)

(** [[A-Za-z0-9_.-]]. *)
Definition host_char (c : ascii) : bool :=
  is_alnum_ascii c || Ascii.eqb c "_"%char || Ascii.eqb c "."%char || Ascii.eqb c "-"%char.
Definition in_line (c : ascii) : bool := negb (Ascii.eqb c CR) && negb (Ascii.eqb c LF).

(** [\([A-Za-z0-9][A-Za-z0-9_.-]*\)[^\r\n]*# ]: only whether it matches is used. *)
Definition m_prompt (s : string) : option unit :=
  match strip_prefix "(" s with
  | Some (String c r) =>
      if is_alnum_ascii c then
        match strip_prefix ")" (span host_char r).2 with
        | Some r => if contains "# " (span in_line r).1 then Some tt else None
        | None => None
        end
      else None
  | _ => None
  end.
Definition prompt_seen (s : string) : bool := bool_decide (is_Some (search m_prompt s)).

(** [\r?]. *)
Definition m_cr : matcher unit := λ s,
  match s with String c r => if Ascii.eqb c CR then Some (tt, r) else Some (tt, s) | EmptyString => Some (tt, s) end.
(** [\r?\n]. *)
Definition m_newline : matcher unit := λ s, a ← m_cr s; m_lit (String LF EmptyString) a.2.

(** [(?:\r?\n)begin\r?\n]. *)
Definition m_begin (begin_marker : string) : matcher unit := λ s,
  a ← m_newline s; b ← m_lit begin_marker a.2; m_newline b.2.

(** [(?:\r?\n)status=([0-9]+)\r?\n]. *)
Definition m_status (status_marker : string) : matcher string := λ s,
  a ← m_newline s; b ← m_lit (status_marker +:+ "=") a.2; d ← m_digits b.2; e ← m_newline d.2; Some (d.1, e.2).

(** ** A worker of [dual_serial_command] *)

(** What one [recv] does: data, a timeout (with the time since the connection),
    or the end of the stream. *)
Inductive received :=
  | Data (bytes : string)
  | Quiet (elapsed : Z)
  | Eof.

(** A console as one worker meets it. *)
Record console := Console {
  k_attempts : list (res unit);   (** the connections tried before the deadline *)
  k_before : list received;       (** the [recv]s of the wait for a prompt that start before the deadline *)
  k_kick : res unit;              (** sending the newline *)
  k_send : res unit;              (** sending the command *)
  k_after : list received;        (** the [recv]s after it that start before the deadline *)
  k_nonce : string                (** [time.monotonic_ns()] *)
}.

(** [connect_until_ready]. *)
Fixpoint connect_until_ready (attempts : list (res unit)) : res unit :=
  match attempts with
  | [] => Err (Exn TimeoutError "UART {port} did not start listening before timeout" [])
  | Ok _ :: _ => Ok tt
  | Err e :: attempts' => if is_a (exn_cls e) OSError then connect_until_ready attempts' else Err e
  end.

Definition attached : string := "terminal already attached".

(** The wait for a prompt: everything received, and the newlines sent. *)
Fixpoint await_prompt (kick_after : option Z) (kick : res unit) (kicked : bool) (text : string) (events : list received)
    : string * res unit :=
  match events with
  | [] => (text, Err (Exn TimeoutError "no shell prompt before command within {timeout}s" []))
  | Quiet elapsed :: events' =>
      if match kick_after with Some t => negb kicked && (t <=? elapsed) | None => false end then
        match kick with
        | Err e => (text, Err e)
        | Ok _ => await_prompt kick_after kick true text events'
        end
      else await_prompt kick_after kick kicked text events'
  | Eof :: _ => (text, Err (Exn ConnectionError "UART {port} closed before command (EOF)" []))
  | Data data :: events' =>
      let text := text +:+ data in
      if contains attached data then
        (text, Err (Exn RuntimeError "terminal already attached; detach it with ~. first" []))
      else if prompt_seen text then (text, Ok tt)
      else await_prompt kick_after kick kicked text events'
  end.

Definition begin_marker (nonce : string) : string := "__UBSIM_BEGIN_" +:+ nonce +:+ "__".
Definition status_marker (nonce : string) : string := "__UBSIM_RC_" +:+ nonce +:+ "__".

(** The bytes sent: CTRL-U, then the command between its two [printf]s. *)
Definition wrapped (nonce command : string) : string :=
  String "021" ("printf '\n" +:+ begin_marker nonce +:+ "\n'; " +:+ command +:+
    "; __ubsim_rc=$?; printf '\n" +:+ status_marker nonce +:+ "=%d\n' " +:+ String "034" "$__ubsim_rc" +:+
    String "034" (String LF EmptyString)).

(** Whether [text], received since the command was sent, holds the executed
    begin line, then the status line, then a prompt: the status and the output
    after the begin line. *)
Definition complete (nonce text : string) : option (Z * string) :=
  match search (m_begin (begin_marker nonce)) text with
  | None => None
  | Some (_, output) =>
      match search (m_status (status_marker nonce)) output with
      | None => None
      | Some (digits, rest) =>
          if prompt_seen rest then status ← parse_nat digits; Some (status, output) else None
      end
  end.

(** The wait for the command's end: everything received since it was sent. *)
Fixpoint await_status (nonce text : string) (events : list received) : string * res (Z * string) :=
  match events with
  | [] => (text, Err (Exn TimeoutError "no shell prompt after collective command within {timeout}s" []))
  | Quiet _ :: events' => await_status nonce text events'
  | Eof :: _ => (text, Err (Exn ConnectionError "UART {port} closed while awaiting command completion (EOF)" []))
  | Data data :: events' =>
      let text := text +:+ data in
      match complete nonce text with
      | Some done => (text, Ok done)
      | None => await_status nonce text events'
      end
  end.

Section worker.
(** [bytes.decode(errors="replace")]. *)
Variable decode : string → string.

(** The last [n] bytes. *)
Definition tail_bytes (n : nat) (s : string) : string :=
  String.substring (String.length s - n) n s.

Definition failure (e : exn) (chunks : string) : string :=
  "ERROR: " +:+ exn_fmt e +:+ String LF (decode (tail_bytes 1000 chunks)).

(** Up to the gate: what was received, and whether a prompt was. *)
Definition before_gate (kick_after : option Z) (k : console) : string * res unit :=
  match connect_until_ready (k_attempts k) with
  | Err e => (EmptyString, Err e)
  | Ok _ => await_prompt kick_after (k_kick k) false EmptyString (k_before k)
  end.

(** [run_one]: the worker's result and the bytes it sent as a command; [gate]
    says whether every worker reached the barrier in time. *)
Definition run_one (kick_after : option Z) (gate : bool) (port : Z) (command : string) (k : console)
    : string * option string :=
  match before_gate kick_after k with
  | (text, Err e) => (failure e text, None)
  | (text, Ok _) =>
      if negb gate then
        (failure (Exn RuntimeError "peer UART did not reach the command start gate" []) text, None)
      else
        let nonce := str_of_Z port +:+ "_" +:+ k_nonce k in
        match k_send k with
        | Err e => (failure e text, None)
        | Ok _ =>
            (match await_status nonce EmptyString (k_after k) with
             | (more, Err e) => failure e (text +:+ more)
             | (_, Ok (status, output)) =>
                 if status =? 0 then decode output
                 else "ERROR: command exited with status " +:+ str_of_Z status +:+ String LF (decode output)
             end, Some (wrapped nonce command))
        end
  end.

(** ** The collective command *)

Record job := Job {
  j_port : Z;
  j_command : string;
  j_console : console
}.

(** The barrier: everyone arrives, and before anyone's wait times out. *)
Definition gate_opens (kick_after : option Z) (in_time : bool) (jobs : list job) : bool :=
  in_time && forallb (λ j, is_ok (before_gate kick_after (j_console j)).2) jobs.

(** The results of the workers, by index. *)
Definition run_all (kick_after : option Z) (in_time : bool) (jobs : list job) : list (string * option string) :=
  let gate := gate_opens kick_after in_time jobs in
  (λ j, run_one kick_after gate (j_port j) (j_command j) (j_console j)) <$> jobs.

Definition is_error (transcript : string) : bool := startswith transcript "ERROR:".

(** What [main] finds for each port. [finished] tells which workers ended before
    the join timed out. *)
Definition transcripts (kick_after : option Z) (in_time : bool) (finished : nat → bool) (jobs : list job)
    : list string :=
  imap (λ i r, if finished i then r.1 else "ERROR: worker did not finish") (run_all kick_after in_time jobs).

(** [main]: the exit status. *)
Definition main (kick_after : option Z) (in_time : bool) (finished : nat → bool) (jobs : list job) : Z :=
  if existsb is_error (transcripts kick_after in_time finished jobs) then 1 else 0.

(** What [main] prints for one port: a failed worker's headline and the end of
    the rest, or the transcript, in full or its end. *)
Definition printed_one (full : bool) (p : Z * string) : string :=
  line ("--- UART " +:+ str_of_Z p.1 +:+ " ---") +:+
  if is_error p.2 then
    let '(headline, body) := partition_at LF p.2 in
    line headline +:+ line (rstrip (tail_chars 1200 (default EmptyString body)))
  else line (rstrip (if full then p.2 else tail_chars 1200 p.2)).

Definition printed (full : bool) (ports : list (Z * string)) : string := concat_str (printed_one full <$> ports).

(** The output of the whole command. *)
Definition output (full : bool) (kick_after : option Z) (in_time : bool) (finished : nat → bool) (jobs : list job)
    : string :=
  printed full (zip (j_port <$> jobs) (transcripts kick_after in_time finished jobs)).

(** [parser.error] unless each port has its command; a single command is for all. *)
Definition commands_for (command : option string) (commands : option (list string)) (ports : list Z)
    : res (list string) :=
  match commands with
  | Some l =>
      raise Exn SystemExit "--commands must provide exactly one command per port" []
        when negb (Nat.eqb (length l) (length ports)) ;;
      Ok l
  | None => Ok (replicate (length ports) (default EmptyString command))
  end.
End worker.

(** ** A coordinated checkpoint *)

Module Checkpoint.

(** The wait of [checkpoint_one]: the newline is sent at the first timeout, and
    the refusal is looked for in everything received. *)
Fixpoint await_prompt (kick : res unit) (kicked : bool) (text : string) (events : list received) : res unit :=
  match events with
  | [] => Err (Exn TimeoutError "shell prompt timeout" [])
  | Quiet _ :: events' =>
      if kicked then await_prompt kick kicked text events'
      else match kick with Err e => Err e | Ok _ => await_prompt kick true text events' end
  | Eof :: _ => Err (Exn RuntimeError "console closed before shell prompt" [])
  | Data chunk :: events' =>
      let text := text +:+ chunk in
      if contains attached text then Err (Exn RuntimeError "terminal already attached; detach with ~. first" [])
      else if prompt_seen text then Ok tt
      else await_prompt kick kicked text events'
  end.

(** The simulator stops: the console closes. *)
Fixpoint await_close (events : list received) : res unit :=
  match events with
  | [] => Err (Exn TimeoutError "gem5 did not stop after checkpoint" [])
  | Eof :: _ => Ok tt
  | _ :: events' => await_close events'
  end.

(** Up to the gate; the connection is tried once. *)
Definition before_gate (k : console) : res unit :=
  _ ← match k_attempts k with a :: _ => a | [] => Ok tt end;
  await_prompt (k_kick k) false EmptyString (k_before k).

(** [checkpoint_one]: its error, if any, and whether it asked for the checkpoint. *)
Definition checkpoint_one (gate : bool) (k : console) : res unit * bool :=
  match before_gate k with
  | Err e => (Err e, false)
  | Ok _ =>
      if negb gate then (Err (Exn RuntimeError "BrokenBarrierError" []), false)
      else match k_send k with
           | Err e => (Err e, false)
           | Ok _ => (await_close (k_after k), true)
           end
  end.

Definition gate_opens (in_time : bool) (consoles : list console) : bool :=
  in_time && forallb (λ k, is_ok (before_gate k)) consoles.

Definition run_all (in_time : bool) (consoles : list console) : list (res unit * bool) :=
  checkpoint_one (gate_opens in_time consoles) <$> consoles.

(** [main]: the errors appended by the workers that ended before the join timed
    out decide the status. *)
Definition main (in_time : bool) (finished : nat → bool) (consoles : list console) : Z :=
  if existsb id (imap (λ i r, finished i && negb (is_ok r.1)) (run_all in_time consoles)) then 1 else 0.
End Checkpoint.
