(* ===== verification/SerialFacts.v ===== *)
(** * What the console workers guarantee

    A command is sent to a guest only when every console has shown a prompt;
    its result does not depend on how the output was cut into pieces; and the
    exit status is 0 exactly when every command was seen to start, to end with
    status 0 and to return to a prompt. *)

From Stdlib Require Import ZArith Lia Ascii.
From stdpp Require Import base strings numbers option list.
From S2P Require Import Prelude PyStr Json TextScan SerialConsole.

Open Scope string_scope.
Open Scope list_scope.
Open Scope Z_scope.

(** ** Patterns on growing texts *)

Fixpoint newlines (s : string) : nat :=
  match s with EmptyString => 0 | String c s' => (if Ascii.eqb c LF then 1 else 0) + newlines s' end.

Lemma newlines_app a b : newlines (a +:+ b) = (newlines a + newlines b)%nat.
Proof. induction a as [|c a IH]; cbn; [done|]. rewrite IH. lia. Qed.

(** One pattern after another. *)
Definition seqm {A B} (m : matcher A) (k : A → matcher B) : matcher B := λ s, a ← m s; k a.1 a.2.

Lemma seqm_Some {A B} (m : matcher A) (k : A → matcher B) s b r :
  seqm m k s = Some (b, r) ↔ ∃ a r1, m s = Some (a, r1) ∧ k a r1 = Some (b, r).
Proof.
  unfold seqm. destruct (m s) as [[a r1]|]; cbn; split; [by eauto|naive_solver|done|naive_solver].
Qed.

(** A match consumes [e] newlines; it stays one when text is added after what
    it leaves; a text that first matches when text is added has at most [n]. *)
Record pattern {A} (m : matcher A) (e n : nat) : Prop := {
  pt_eats : ∀ s a r, m s = Some (a, r) → newlines s = (e + newlines r)%nat;
  pt_grows : ∀ s x a r, m s = Some (a, r) → r ≠ EmptyString → m (s +:+ x) = Some (a, r +:+ x);
  pt_short : ∀ s x a r, m s = None → m (s +:+ x) = Some (a, r) → (newlines s <= n)%nat;
  pt_nil : ∀ a r, m EmptyString = Some (a, r) → r = EmptyString
}.
(** The match leaves nothing open: it stays one whatever follows. *)
Definition closed {A} (m : matcher A) : Prop := ∀ s x a r, m s = Some (a, r) → m (s +:+ x) = Some (a, r +:+ x).

Section patterns.
Context {A B : Type}.

Lemma pattern_seq (m : matcher A) (k : A → matcher B) e1 n1 e2 n2 :
  pattern m e1 n1 → (∀ a, pattern (k a) e2 n2) → pattern (seqm m k) (e1 + e2) (Nat.max n1 (e1 + n2)).
Proof.
  intros [E1 G1 S1 N1] K. split.
  - intros s b r (a & r1 & H1 & H2)%seqm_Some. rewrite (E1 _ _ _ H1), (pt_eats _ _ _ (K a) _ _ _ H2). lia.
  - intros s x b r (a & r1 & H1 & H2)%seqm_Some Hr. apply seqm_Some. exists a, (r1 +:+ x).
    assert (r1 ≠ EmptyString) by (intros ->; by apply (pt_nil _ _ _ (K a)) in H2).
    split; [by apply G1|by apply (pt_grows _ _ _ (K a))].
  - intros s x b r H0 (a & r1 & H1 & H2)%seqm_Some. destruct (m s) as [[a' r']|] eqn:Hm.
    + assert (k a' r' = None) as Hk by (unfold seqm in H0; rewrite Hm in H0; exact H0).
      rewrite (E1 _ _ _ Hm). destruct (decide (r' = EmptyString)) as [->|Hr]; [cbn; lia|].
      rewrite (G1 _ x _ _ Hm Hr) in H1. injection H1 as <- <-.
      pose proof (pt_short _ _ _ (K a') _ _ _ _ Hk H2). lia.
    + pose proof (S1 _ _ _ _ Hm H1). lia.
  - intros b r (a & r1 & H1 & H2)%seqm_Some. apply N1 in H1 as ->. by apply (pt_nil _ _ _ (K a)) in H2.
Qed.

(** What follows cannot fail. *)
Lemma pattern_seq_total (m : matcher A) (k : A → matcher B) e1 n1 e2 n2 :
  pattern m e1 n1 → (∀ a, pattern (k a) e2 n2) → (∀ a s, k a s ≠ None) → pattern (seqm m k) (e1 + e2) n1.
Proof.
  intros P K T. destruct (pattern_seq m k e1 n1 e2 n2 P K) as [E G _ N]. split; [done..| |done].
  intros s x b r H (a & r1 & H1 & _)%seqm_Some. apply (pt_short _ _ _ P s x a r1); [|done].
  unfold seqm in H. destruct (m s) as [[a' r']|]; [|done]. cbn in H. by apply T in H.
Qed.

Lemma closed_seq (m : matcher A) (k : A → matcher B) e n :
  pattern m e n → (∀ a, closed (k a)) → (∀ a, k a EmptyString = None) → closed (seqm m k).
Proof.
  intros P K N s x b r (a & r1 & H1 & H2)%seqm_Some. apply seqm_Some. exists a, (r1 +:+ x).
  assert (r1 ≠ EmptyString) by (intros ->; by rewrite N in H2).
  split; [by apply (pt_grows _ _ _ P)|by apply K].
Qed.

Lemma closed_seq_closed (m : matcher A) (k : A → matcher B) :
  closed m → (∀ a, closed (k a)) → closed (seqm m k).
Proof.
  intros P K s x b r (a & r1 & H1 & H2)%seqm_Some. apply seqm_Some. exists a, (r1 +:+ x).
  split; [by apply P|by apply K].
Qed.

Lemma search_newlines (m : matcher A) e n s a r :
  pattern m e n → search m s = Some (a, r) → (e <= newlines s)%nat.
Proof.
  intros P. induction s as [|c s IH]; cbn; destruct (m _) as [[a' r']|] eqn:H; try done.
  - intros _. apply (pt_eats _ _ _ P) in H. cbn in H. lia.
  - intros _. apply (pt_eats _ _ _ P) in H. cbn in H. lia.
  - intros ?%IH. lia.
Qed.

(** The leftmost match of a text is that of every longer text, when a match
    takes more newlines than an unfinished one can have. *)
Lemma search_grows (m : matcher A) e n s x a r :
  pattern m e n → closed m → (n < e)%nat → search m s = Some (a, r) → search m (s +:+ x) = Some (a, r +:+ x).
Proof.
  intros P C Hlt. induction s as [|c s IH]; intros H; cbn in H.
  - destruct (m EmptyString) as [[a' r']|] eqn:Hm; [|done]. injection H as -> ->.
    pose proof (pt_eats _ _ _ P _ _ _ Hm). cbn in *. lia.
  - destruct (m (String c s)) as [[a' r']|] eqn:Hm.
    + injection H as -> ->. apply (C _ x) in Hm. cbn in Hm |- *. by rewrite Hm.
    + cbn. destruct (m (String c (s +:+ x))) as [[a' r']|] eqn:Hx; [|by apply IH].
      pose proof (pt_short _ _ _ P (String c s) x _ _ Hm Hx). pose proof (search_newlines _ _ _ _ _ _ P H).
      cbn in *. lia.
Qed.
End patterns.

(** ** The patterns of the workers *)

Lemma strip_prefix_grows p s x r : strip_prefix p s = Some r → strip_prefix p (s +:+ x) = Some (r +:+ x).
Proof. intros ->%strip_prefix_Some. rewrite string_app_assoc. apply strip_prefix_app. Qed.

Lemma strip_prefix_short p s x r :
  strip_prefix p s = None → strip_prefix p (s +:+ x) = Some r → ∃ p', p' ≠ EmptyString ∧ p = s +:+ p'.
Proof.
  revert p. induction s as [|c s IH]; intros p H Hx.
  - exists p. split; [by intros ->|done].
  - destruct p as [|a p]; [done|]. cbn in H, Hx. destruct (Ascii.eqb_spec a c) as [->|]; [|done].
    destruct (IH _ H Hx) as (p' & Hp & ->). by exists p'.
Qed.

Lemma m_lit_Some p s u r : m_lit p s = Some (u, r) ↔ strip_prefix p s = Some r.
Proof. unfold m_lit. destruct (strip_prefix p s), u; cbn; naive_solver. Qed.

Lemma closed_lit p : closed (m_lit p).
Proof. intros s x u r H%m_lit_Some. apply m_lit_Some. by apply strip_prefix_grows. Qed.

(** A literal whose last character is [c]. *)
Lemma pattern_lit p c n :
  newlines p = n → pattern (m_lit (p +:+ String c EmptyString)) (newlines (p +:+ String c EmptyString)) n.
Proof.
  intros Hn. split.
  - intros s u r H%m_lit_Some. apply strip_prefix_Some in H as ->. apply newlines_app.
  - intros s x u r H _. by apply closed_lit.
  - intros s x u r H Hx%m_lit_Some. unfold m_lit in H. destruct (strip_prefix _ s) eqn:E; [done|].
    destruct (strip_prefix_short _ _ _ _ E Hx) as (p' & Hp & Heq). subst n.
    apply (f_equal newlines) in Heq as Hc. rewrite !newlines_app in Hc.
    clear -Hp Heq. revert p Heq. induction s as [|a s IH]; intros p Heq; [cbn; lia|].
    destruct p as [|b p]; cbn in Heq.
    + injection Heq as -> Heq. by destruct s, p'.
    + injection Heq as -> Heq. cbn. apply IH in Heq. lia.
  - intros u r H%m_lit_Some. by destruct p.
Qed.

Lemma pattern_cr : pattern m_cr 0 0.
Proof.
  split.
  - intros [|c s] u r; cbn; [by intros [= _ <-]|]. destruct (Ascii.eqb_spec c CR) as [->|]; by intros [= _ <-].
  - intros [|c s] x u r; cbn; [by intros [= _ <-]|]. destruct (Ascii.eqb_spec c CR) as [->|]; by intros [= <- <-].
  - intros [|c s] x u r; cbn; [done|]. by destruct (Ascii.eqb _ _).
  - cbn. by intros u r [= _ <-].
Qed.

Lemma m_newline_seq : m_newline = seqm m_cr (λ _, m_lit (String LF EmptyString)).
Proof. done. Qed.

Lemma pattern_newline : pattern m_newline 1 0.
Proof.
  rewrite m_newline_seq. apply (pattern_seq m_cr _ 0 0 1 0 pattern_cr). intros _.
  by apply (pattern_lit EmptyString LF 0).
Qed.
Lemma closed_newline : closed m_newline.
Proof.
  rewrite m_newline_seq. apply (closed_seq _ _ 0 0 pattern_cr); [intros _; apply closed_lit|done].
Qed.

Lemma span_grows p s x d c r : span p s = (d, String c r) → span p (s +:+ x) = (d, String c r +:+ x).
Proof.
  revert d. induction s as [|a s IH]; intros d; cbn; [done|]. destruct (p a) eqn:Hp; [|by intros [= <- -> ->]].
  destruct (span p s) as [d' r'] eqn:E. intros [= <- ->]. by rewrite (IH d' eq_refl).
Qed.

Lemma newlines_span s d r : span is_digit s = (d, r) → newlines s = newlines r.
Proof.
  revert d. induction s as [|a s IH]; intros d; cbn; [by intros [= <- <-]|].
  destruct (is_digit a) eqn:Ha; [|by intros [= <- <-]].
  destruct (span is_digit s) as [d' r'] eqn:E. intros [= <- <-].
  destruct (Ascii.eqb_spec a LF) as [->|]; [done|]. cbn. by eapply IH.
Qed.

Lemma pattern_digits : pattern m_digits 0 0.
Proof.
  unfold m_digits. split.
  - intros s a r. destruct (span is_digit s) as [d r'] eqn:E. destruct (String.eqb d EmptyString); [done|].
    intros [= <- <-]. by apply newlines_span in E.
  - intros s x a r. destruct (span is_digit s) as [d r'] eqn:E. destruct (String.eqb d EmptyString) eqn:Ed; [done|].
    intros [= <- <-] Hr. destruct r' as [|c r']; [done|]. rewrite (span_grows _ _ _ _ _ _ E). by rewrite Ed.
  - intros s x a r. destruct s as [|c s]; [cbn; lia|]. cbn. destruct (is_digit c).
    + destruct (span is_digit s). cbn. done.
    + done.
  - done.
Qed.

Lemma pattern_ret {A} (a : A) : pattern (λ s, Some (a, s)) 0 0.
Proof. split; intros; simplify_eq/=; done || lia. Qed.
Lemma closed_ret {A} (a : A) : closed (λ s, Some (a, s)).
Proof. intros s x b r [= <- <-]. done. Qed.

(** A text that holds no newline. *)
Definition one_line (s : string) : Prop := newlines s = 0%nat.

Lemma one_line_snoc s : s ≠ EmptyString → ∃ p c, s = p +:+ String c EmptyString.
Proof.
  induction s as [|a s IH]; [done|]. intros _. destruct s as [|b s]; [by exists EmptyString, a|].
  destruct IH as (p & c & ->); [done|]. by exists (String a p), c.
Qed.

Lemma pattern_word w : w ≠ EmptyString → one_line w → pattern (m_lit w) 0 0.
Proof.
  intros Hne H. destruct (one_line_snoc w Hne) as (p & c & ->). unfold one_line in H.
  pose proof (newlines_app p (String c EmptyString)) as E.
  rewrite <- H. apply pattern_lit. lia.
Qed.

Section markers.
Context (w : string) (Hne : w ≠ EmptyString) (Hw : one_line w).

Lemma pattern_begin : pattern (m_begin w) 2 1.
Proof using All.
  apply (pattern_seq m_newline (λ _, seqm (m_lit w) (λ _, m_newline)) 1 0 1 0 pattern_newline). intros _.
  apply (pattern_seq (m_lit w) (λ _, m_newline) 0 0 1 0); [by apply pattern_word|]. intros _. apply pattern_newline.
Qed.
Lemma closed_begin : closed (m_begin w).
Proof.
  apply (closed_seq_closed m_newline (λ _, seqm (m_lit w) (λ _, m_newline)) closed_newline). intros _.
  apply closed_seq_closed; [apply closed_lit|intros _; apply closed_newline].
Qed.

Definition after_status : string → matcher string := λ d, seqm m_newline (λ _ s, Some (d, s)).

Lemma m_status_seq :
  m_status w = seqm m_newline (λ _, seqm (m_lit (w +:+ "=")) (λ _, seqm m_digits after_status)).
Proof. done. Qed.

Lemma pattern_status : pattern (m_status w) 2 1.
Proof using All.
  rewrite m_status_seq. apply (pattern_seq m_newline _ 1 0 1 0 pattern_newline). intros _.
  apply (pattern_seq (m_lit (w +:+ "=")) _ 0 0 1 0).
  { apply pattern_word; [by destruct w|]. unfold one_line in *. by rewrite newlines_app, Hw. }
  intros _. apply (pattern_seq m_digits _ 0 0 1 0 pattern_digits). intros d.
  apply (pattern_seq_total m_newline _ 1 0 0 0 pattern_newline); [intros _; apply pattern_ret|done].
Qed.
Lemma closed_status : closed (m_status w).
Proof.
  rewrite m_status_seq. apply closed_seq_closed; [apply closed_newline|]. intros _.
  apply closed_seq_closed; [apply closed_lit|]. intros _.
  apply (closed_seq m_digits after_status 0 0 pattern_digits); [|done]. intros d.
  apply closed_seq_closed; [apply closed_newline|]. intros _. apply closed_ret.
Qed.
End markers.

(** A prompt is still seen when more text arrives. *)
Lemma search_prefix_grows {A} (m : string → option A) s x :
  (∀ t, is_Some (m t) → is_Some (m (t +:+ x))) → is_Some (search m s) → is_Some (search m (s +:+ x)).
Proof.
  intros Hm. induction s as [|c s IH]; cbn [search].
  - intros H. destruct (m EmptyString) eqn:E; [|by destruct H].
    destruct (Hm EmptyString) as [b Hb]; [by rewrite E|]. cbn in *. destruct x; cbn in *; by rewrite Hb.
  - intros H. cbn [String.append search]. specialize (Hm (String c s)) as Hc. cbn in Hc.
    destruct (m (String c s)) as [a|]; [|destruct (m (String c (s +:+ x))); [by eexists|by apply IH]].
    destruct Hc as [b ->]; by eexists.
Qed.

Lemma contains_app p s x : contains p s = true → contains p (s +:+ x) = true.
Proof.
  unfold contains. rewrite !bool_decide_eq_true. apply search_prefix_grows.
  intros t [r H]. exists (r +:+ x). by apply strip_prefix_grows.
Qed.

Lemma span_prefix p s x : ∃ y, (span p (s +:+ x)).1 = (span p s).1 +:+ y.
Proof.
  induction s as [|c s IH]; cbn; [by eexists|]. destruct (p c); [|by exists EmptyString].
  destruct IH as [y IH]. destruct (span p s), (span p (s +:+ x)). cbn in *. exists y. by rewrite IH.
Qed.

Lemma prompt_grows t x : is_Some (m_prompt t) → is_Some (m_prompt (t +:+ x)).
Proof.
  unfold m_prompt. destruct (strip_prefix "(" t) as [[|c r]|] eqn:E; [by intros [? ?]| |by intros [? ?]].
  apply (strip_prefix_grows _ _ x) in E. rewrite E. cbn [String.append].
  destruct (is_alnum_ascii c); [|by intros [? ?]].
  destruct (span host_char r) as [d r'] eqn:Es. cbn [snd].
  destruct r' as [|c' r']; [by intros [? ?]|]. rewrite (span_grows _ _ _ _ _ _ Es). cbn [snd].
  destruct (strip_prefix ")" (String c' r')) as [r1|] eqn:E1; [|by intros [? ?]].
  rewrite (strip_prefix_grows _ _ x _ E1).
  destruct (contains "# " (span in_line r1).1) eqn:Ec; [|by intros [? ?]]. intros _.
  destruct (span_prefix in_line r1 x) as [y ->]. rewrite contains_app by done. by eexists.
Qed.

Lemma prompt_seen_app s x : prompt_seen s = true → prompt_seen (s +:+ x) = true.
Proof. unfold prompt_seen. rewrite !bool_decide_eq_true. apply search_prefix_grows. intros t. apply prompt_grows. Qed.

(** ** Completion *)

Lemma one_line_app a b : one_line a → one_line b → one_line (a +:+ b).
Proof. unfold one_line. rewrite newlines_app. lia. Qed.

Section nonce.
Context (nonce : string) (Hnonce : one_line nonce).

Lemma begin_one_line : one_line (begin_marker nonce) ∧ begin_marker nonce ≠ EmptyString.
Proof using Hnonce. split; [|done]. by repeat apply one_line_app. Qed.
Lemma status_one_line : one_line (status_marker nonce) ∧ status_marker nonce ≠ EmptyString.
Proof using Hnonce. split; [|done]. by repeat apply one_line_app. Qed.

Lemma complete_grows text x status output :
  complete nonce text = Some (status, output) → complete nonce (text +:+ x) = Some (status, output +:+ x).
Proof using Hnonce.
  unfold complete. destruct begin_one_line as [B1 B2], status_one_line as [S1 S2].
  destruct (search (m_begin _) text) as [[u out]|] eqn:E1; [|done].
  rewrite (search_grows _ 2 1 _ x _ _ (pattern_begin _ B2 B1) (closed_begin _) ltac:(lia) E1).
  destruct (search (m_status _) out) as [[digits rest]|] eqn:E2; [|done].
  rewrite (search_grows _ 2 1 _ x _ _ (pattern_status _ S2 S1) (closed_status _) ltac:(lia) E2).
  destruct (prompt_seen rest) eqn:E3; [|done]. rewrite prompt_seen_app by done.
  destruct (parse_nat digits) as [z|]; cbn; [|done]. by intros [= <- <-].
Qed.

(** The bytes of the [recv]s. *)
Definition data_of (e : received) : string := match e with Data d => d | _ => EmptyString end.
Definition stream (events : list received) : string := concat_str (data_of <$> events).

Lemma await_status_spec events text :
  Forall (λ e, e ≠ Eof) events → complete nonce text = None →
  match (await_status nonce text events).2 with
  | Ok (status, output) => ∃ x, complete nonce (text +:+ stream events) = Some (status, output +:+ x)
  | Err e => exn_cls e = TimeoutError ∧ complete nonce (text +:+ stream events) = None
  end.
Proof using Hnonce.
  intros Hf. revert text. induction Hf as [|e events He _ IH]; intros text Hn; cbn.
  { by rewrite string_app_nil_r. }
  unfold stream. cbn. fold (stream events). destruct e as [d|t|]; [| |done].
  - rewrite <- string_app_assoc. destruct (complete nonce (text +:+ d)) as [[status output]|] eqn:E.
    + cbn. exists (stream events). by apply complete_grows.
    + by apply IH.
  - by apply IH.
Qed.
End nonce.

(** C19: how the output of a command is cut into pieces does not matter: a
    worker that does not lose the console ends with a status exactly when all
    that arrived, taken at once, holds the begin line, the status line and a
    prompt, and with that status; otherwise it times out. *)
Theorem await_status_pieces nonce events :
  one_line nonce → Forall (λ e, e ≠ Eof) events →
  match (await_status nonce EmptyString events).2 with
  | Ok (status, output) => ∃ x, complete nonce (stream events) = Some (status, output +:+ x)
  | Err e => exn_cls e = TimeoutError ∧ complete nonce (stream events) = None
  end.
Proof. intros Hn He. by apply (await_status_spec nonce Hn events EmptyString). Qed.

(** ** What a completed command has printed *)

Definition line_end (s : string) : Prop := s = String LF EmptyString ∨ s = String CR (String LF EmptyString).

Lemma search_Some {A} (m : string → option A) s a : search m s = Some a → ∃ pre t, s = pre +:+ t ∧ m t = Some a.
Proof.
  induction s as [|c s IH]; cbn; destruct (m _) eqn:E; try done.
  - intros [= ->]. by exists EmptyString, EmptyString.
  - intros [= ->]. by exists EmptyString, (String c s).
  - intros (pre & t & -> & H)%IH. by exists (String c pre), t.
Qed.

Lemma m_newline_Some s u r : m_newline s = Some (u, r) → ∃ n, line_end n ∧ s = n +:+ r.
Proof.
  rewrite m_newline_seq. intros (a & r1 & H1 & H2%m_lit_Some)%seqm_Some. apply strip_prefix_Some in H2 as ->.
  destruct s as [|c s]; cbn in H1; [done|]. destruct (Ascii.eqb_spec c CR) as [->|]; injection H1; intros; subst.
  - exists (String CR (String LF EmptyString)). split; [by right|done].
  - exists (String LF EmptyString). split; [by left|done].
Qed.

(** The shell printed the begin line, the command's output and the status line,
    and went back to a prompt. *)
Definition executed (nonce text : string) (status : Z) (output : string) : Prop :=
  ∃ before n1 n2 body n3 digits n4 rest,
    text = before +:+ n1 +:+ begin_marker nonce +:+ n2 +:+ output ∧
    output = body +:+ n3 +:+ status_marker nonce +:+ "=" +:+ digits +:+ n4 +:+ rest ∧
    Forall line_end [n1; n2; n3; n4] ∧ parse_nat digits = Some status ∧ prompt_seen rest = true.

Lemma complete_executed nonce text status output :
  complete nonce text = Some (status, output) → executed nonce text status output.
Proof.
  unfold complete. destruct (search (m_begin _) text) as [[u out]|] eqn:E1; [|done].
  destruct (search (m_status _) out) as [[digits rest]|] eqn:E2; [|done].
  destruct (prompt_seen rest) eqn:Ep; [|done]. destruct (parse_nat digits) as [z|] eqn:Ez; [|done].
  intros [= <- <-]. apply search_Some in E1 as (pre & t & -> & H1). apply search_Some in E2 as (body & t' & -> & H2).
  change (m_begin (begin_marker nonce)) with (seqm m_newline (λ _, seqm (m_lit (begin_marker nonce)) (λ _, m_newline)))
    in H1.
  apply seqm_Some in H1 as (? & r1 & (n1 & N1 & ->)%m_newline_Some & H1).
  apply seqm_Some in H1 as (? & r2 & H1%m_lit_Some & H1'). apply strip_prefix_Some in H1 as ->.
  apply m_newline_Some in H1' as (n2 & N2 & ->).
  rewrite m_status_seq in H2. apply seqm_Some in H2 as (? & r3 & (n3 & N3 & ->)%m_newline_Some & H2).
  apply seqm_Some in H2 as (? & r4 & H2%m_lit_Some & H2'). apply strip_prefix_Some in H2 as ->.
  apply seqm_Some in H2' as (d & r5 & Hd & H2). apply seqm_Some in H2 as (? & r6 & (n4 & N4 & ->)%m_newline_Some & H2).
  injection H2 as -> ->.
  assert (r4 = digits +:+ n4 +:+ rest) as ->.
  { unfold m_digits in Hd. destruct (span is_digit r4) as [d r] eqn:Es. destruct (String.eqb d EmptyString); [done|].
    injection Hd as -> ->. clear -Es. revert digits Es. induction r4 as [|c r4 IH]; intros d Es; cbn in Es.
    - by injection Es as <- <-.
    - destruct (is_digit c); [|by injection Es as <- <-].
      destruct (span is_digit r4) as [d' r']. injection Es as <- ->. cbn. f_equal. by apply IH. }
  exists pre, n1, n2, body, n3, digits, n4, rest. split_and!; try done.
  - by rewrite !string_app_assoc.
  - repeat (apply Forall_cons; split; [done|]). by apply Forall_nil.
Qed.

Lemma await_status_Ok nonce events text more status output :
  await_status nonce text events = (more, Ok (status, output)) → complete nonce more = Some (status, output).
Proof.
  revert text. induction events as [|[d|t|] events IH]; intros text H; cbn in H; try done.
  - destruct (complete nonce (text +:+ d)) as [[z o]|] eqn:E; [|by eapply IH]. by injection H as <- <- <-.
  - by eapply IH.
Qed.

Lemma await_prompt_Ok kick_after kick kicked text events text' :
  await_prompt kick_after kick kicked text events = (text', Ok tt) → prompt_seen text' = true.
Proof.
  revert kicked text. induction events as [|[d|t|] events IH]; intros kicked text H; cbn in H; try done.
  - destruct (contains attached d); [done|]. destruct (prompt_seen (text +:+ d)) eqn:E; [|by eapply IH].
    by injection H as <-.
  - destruct (match kick_after with Some t' => _ | None => _ end); [destruct kick; [by eapply IH|done]|by eapply IH].
Qed.

Lemma before_gate_prompt kick_after k text : before_gate kick_after k = (text, Ok tt) → prompt_seen text = true.
Proof. unfold before_gate. destruct (connect_until_ready _); [|done]. apply await_prompt_Ok. Qed.

Section collective.
Context (decode : string → string) (kick_after : option Z) (in_time : bool) (jobs : list job).

(** The worker's nonce. *)
Definition nonce_of (j : job) : string := str_of_Z (j_port j) +:+ "_" +:+ k_nonce (j_console j).

(** The console showed a prompt before the command; the command was sent, was
    executed with status 0, and its output is not taken for an error. *)
Definition succeeded (j : job) : Prop :=
  ∃ text more output,
    before_gate kick_after (j_console j) = (text, Ok tt) ∧ k_send (j_console j) = Ok tt ∧
    await_status (nonce_of j) EmptyString (k_after (j_console j)) = (more, Ok (0, output)) ∧
    is_error (decode output) = false.

Lemma gate_opens_iff :
  gate_opens kick_after in_time jobs = true ↔
  in_time = true ∧ ∀ j, j ∈ jobs → ∃ text, before_gate kick_after (j_console j) = (text, Ok tt).
Proof.
  unfold gate_opens. rewrite andb_true_iff, List.forallb_forall. setoid_rewrite <- list_elem_of_In.
  split; intros [H1 H2]; (split; [done|]); intros j Hj; specialize (H2 j Hj).
  - destruct (before_gate kick_after (j_console j)) as [text [[]|]]; [by exists text|done].
  - by destruct H2 as [text ->].
Qed.

(** The worker's result starts with ["ERROR:"] unless it succeeded. *)
Lemma run_one_error j gate :
  is_error (run_one decode kick_after gate (j_port j) (j_command j) (j_console j)).1 = false ↔
  gate = true ∧ succeeded j.
Proof.
  assert (∀ e t, is_error (failure decode e t) = true) as He.
  { intros e t. unfold failure, is_error. change ("ERROR: " +:+ ?x) with ("ERROR:" +:+ (" " +:+ x)).
    apply startswith_app. }
  unfold run_one, succeeded. destruct (before_gate kick_after (j_console j)) as [text [[]|e]] eqn:Eb; cbn [fst];
    [|rewrite He; split; [done|naive_solver]].
  destruct gate; cbn [negb fst]; [|rewrite He; naive_solver].
  destruct (k_send (j_console j)) as [[]|e] eqn:Ek; cbn [fst]; [|rewrite He; naive_solver].
  fold (nonce_of j). destruct (await_status _ _ _) as [more [[status output]|e]] eqn:Ea; cbn [fst];
    [|rewrite He; naive_solver].
  destruct (Z.eqb_spec status 0) as [->|Hs].
  - split; [|by intros (_ & text' & more' & output' & [= <-] & _ & [= <- <-] & ?)].
    intros H. split; [done|]. by exists text, more, output.
  - split; [|intros (_ & text' & more' & output' & _ & _ & [= _ E _] & _); congruence].
    intros H. exfalso. unfold is_error in H.
    change ("ERROR: command exited with status " +:+ ?x) with ("ERROR:" +:+ (" command exited with status " +:+ x)) in H.
    by rewrite startswith_app in H.
Qed.

Lemma all_imap {A B} (f : nat → A → B) (P : B → bool) l :
  existsb P (imap f l) = false ↔ ∀ i a, l !! i = Some a → P (f i a) = false.
Proof.
  rewrite <- not_true_iff_false, existsb_exists. split.
  - intros H i a Hi. apply not_true_iff_false. intros Hp. apply H. exists (f i a). split; [|done].
    apply list_elem_of_In, list_elem_of_lookup. exists i. by rewrite list_lookup_imap, Hi.
  - intros H (b & Hb%list_elem_of_In & Hp). apply list_elem_of_lookup in Hb as [i Hi].
    rewrite list_lookup_imap in Hi. destruct (l !! i) as [a|] eqn:E; [|done]. injection Hi as <-.
    by rewrite H in Hp.
Qed.

(** The console showed a prompt before anything was sent. *)
Definition prompted (k : console) : Prop :=
  ∃ text, before_gate kick_after k = (text, Ok tt) ∧ prompt_seen text = true.

Lemma gate_prompted j : gate_opens kick_after in_time jobs = true → j ∈ jobs → prompted (j_console j).
Proof.
  intros [_ H]%gate_opens_iff Hj. destruct (H j Hj) as [text Ht]. exists text. split; [done|].
  by eapply before_gate_prompt.
Qed.

(** A command is sent to a guest only when every console has shown a shell
    prompt and everyone has reached the barrier in time; and what is sent to a
    console is its own command between the markers of its own nonce. *)
Theorem commands_after_prompts i result sent :
  run_all decode kick_after in_time jobs !! i = Some (result, Some sent) →
  in_time = true ∧ (∀ j, j ∈ jobs → prompted (j_console j)) ∧
  ∃ j, jobs !! i = Some j ∧ sent = wrapped (nonce_of j) (j_command j).
Proof.
  unfold run_all. rewrite list_lookup_fmap. destruct (jobs !! i) as [j|]; [|done]. cbn. intros [= H].
  assert (gate_opens kick_after in_time jobs = true ∧ sent = wrapped (nonce_of j) (j_command j)) as [Hg ->].
  { unfold run_one in H. destruct (before_gate _ _) as [text [[]|]]; [|done].
    destruct (gate_opens _ _ _); cbn in H; [|done]. destruct (k_send _); [|done]. by injection H as _ <-. }
  split_and!; [by apply gate_opens_iff in Hg as [? _]| |by exists j]. intros j' Hj'. by apply gate_prompted.
Qed.

(** C20: the collective command ends with status 0 exactly when every worker
    ended, everyone reached the barrier in time, and on every console the
    command was executed with status 0 after a prompt, its output not beginning
    like an error; its begin line, output, status line and prompt then stand in
    this order in what arrived after it was sent. *)
Theorem collective_status finished :
  jobs ≠ [] →
  (main decode kick_after in_time finished jobs = 0 ↔
   (∀ i, (i < length jobs)%nat → finished i = true) ∧ in_time = true ∧ ∀ j, j ∈ jobs → succeeded j) ∧
  (∀ j, succeeded j → prompted (j_console j) ∧ ∃ more output, executed (nonce_of j) more 0 output ∧
     await_status (nonce_of j) EmptyString (k_after (j_console j)) = (more, Ok (0, output))).
Proof.
  intros Hne. split; cycle 1.
  { intros j (text & more & output & Hb & _ & Ha & _). split; [exists text; by eapply conj, before_gate_prompt|].
    exists more, output. split; [|done]. by apply complete_executed, (await_status_Ok _ _ _ _ _ _ Ha). }
  unfold main, transcripts, run_all. set (gate := gate_opens kick_after in_time jobs).
  set (run := λ j, run_one decode kick_after gate (j_port j) (j_command j) (j_console j)).
  assert (existsb is_error (imap (λ i r, if finished i then r.1 else "ERROR: worker did not finish") (run <$> jobs))
            = false ↔ ∀ i j, jobs !! i = Some j → finished i = true ∧ gate = true ∧ succeeded j) as E.
  { rewrite all_imap. setoid_rewrite list_lookup_fmap. split.
    - intros H i j Hj. specialize (H i (run j)). rewrite Hj in H. specialize (H eq_refl).
      destruct (finished i); [|done]. split; [done|]. by apply run_one_error.
    - intros H i r Hr. destruct (jobs !! i) as [j|] eqn:Hj; [|done]. injection Hr as <-.
      destruct (H i j Hj) as (-> & Hg & Hs). by apply run_one_error. }
  transitivity (∀ i j, jobs !! i = Some j → finished i = true ∧ gate = true ∧ succeeded j).
  { rewrite <- E. by destruct (existsb _ _). }
  split.
  - intros H. assert (gate = true) as Hg.
    { destruct jobs as [|j l]; [done|]. by destruct (H 0%nat j eq_refl) as (_ & ? & _). }
    apply gate_opens_iff in Hg as [Hin _]. split_and!; [|done|].
    + intros i [j Hj]%lookup_lt_is_Some_2. by destruct (H i j Hj).
    + intros j [i Hj]%list_elem_of_lookup. by destruct (H i j Hj) as (_ & _ & ?).
  - intros (Hf & Hin & Hs) i j Hj. split_and!; [apply Hf; by eapply lookup_lt_Some| |by apply Hs; eapply list_elem_of_lookup_2].
    apply gate_opens_iff. split; [done|]. intros j' Hj'. destruct (Hs j' Hj') as (text & _ & _ & ? & _). by exists text.
Qed.
End collective.

(** ** Coordinated checkpoints *)

Lemma checkpoint_prompt_Ok kick kicked text events :
  Checkpoint.await_prompt kick kicked text events = Ok tt →
  ∃ shown rest, events = shown ++ rest ∧ prompt_seen (text +:+ stream shown) = true ∧
    contains attached (text +:+ stream shown) = false.
Proof.
  revert kicked text. induction events as [|[d|t|] events IH]; intros kicked text H; cbn in H; try done.
  - destruct (contains attached (text +:+ d)) eqn:Ea; [done|].
    destruct (prompt_seen (text +:+ d)) eqn:Ep.
    + exists [Data d], events. unfold stream. cbn. by rewrite string_app_nil_r.
    + destruct (IH _ _ H) as (shown & rest & -> & H1 & H2). exists (Data d :: shown), rest.
      unfold stream in *. cbn. by rewrite <- string_app_assoc.
  - assert (∃ kicked', Checkpoint.await_prompt kick kicked' text events = Ok tt) as [k' H'].
    { destruct kicked; [by eexists|]. destruct kick; [by eexists|done]. }
    destruct (IH _ _ H') as (shown & rest & -> & H1 & H2). by exists (Quiet t :: shown), rest.
Qed.

Lemma await_close_Ok events : Checkpoint.await_close events = Ok tt ↔ Eof ∈ events.
Proof.
  induction events as [|[d|t|] events IH]; cbn.
  - split; [done|]. by intros ?%elem_of_nil.
  - rewrite IH, elem_of_cons. naive_solver.
  - rewrite IH, elem_of_cons. naive_solver.
  - split; [left|done].
Qed.

(** The console was free and showed a prompt. *)
Definition free_prompt (k : console) : Prop :=
  ∃ shown rest, k_before k = shown ++ rest ∧ prompt_seen (stream shown) = true ∧
    contains attached (stream shown) = false.

(** The simulators are asked for a checkpoint only when every console was
    free and at a prompt; and the checkpoint ends with status 0, all workers
    having ended, exactly when every guest was asked for it in time and closed
    its console afterwards. *)
Theorem checkpoint_status in_time consoles :
  consoles ≠ [] →
  (∀ r, (r, true) ∈ Checkpoint.run_all in_time consoles → ∀ k, k ∈ consoles → free_prompt k) ∧
  (Checkpoint.main in_time (λ _, true) consoles = 0 ↔
   in_time = true ∧ ∀ k, k ∈ consoles →
     Checkpoint.before_gate k = Ok tt ∧ k_send k = Ok tt ∧ Eof ∈ k_after k).
Proof.
  intros Hne.
  assert (Checkpoint.gate_opens in_time consoles = true ↔
          in_time = true ∧ ∀ k, k ∈ consoles → Checkpoint.before_gate k = Ok tt) as Hgate.
  { unfold Checkpoint.gate_opens. rewrite andb_true_iff, List.forallb_forall. setoid_rewrite <- list_elem_of_In.
    split; intros [H1 H2]; (split; [done|]); intros k Hk; specialize (H2 k Hk).
    - by destruct (Checkpoint.before_gate k) as [[]|].
    - by rewrite H2. }
  split.
  - intros r (k & Hr & Hk)%list_elem_of_fmap k' Hk'. unfold Checkpoint.checkpoint_one in Hr.
    destruct (Checkpoint.before_gate k); [|done].
    destruct (Checkpoint.gate_opens in_time consoles) eqn:Hg; [|done].
    destruct (proj1 Hgate eq_refl) as [_ Hg']. clear Hg. specialize (Hg' k' Hk') as Hg. unfold Checkpoint.before_gate in Hg.
    apply bind_Ok in Hg as ([] & _ & Hg). apply checkpoint_prompt_Ok in Hg as (shown & rest & ? & ? & ?).
    by exists shown, rest.
  - assert (∀ k, (Checkpoint.checkpoint_one (Checkpoint.gate_opens in_time consoles) k).1 = Ok tt ↔
              Checkpoint.gate_opens in_time consoles = true ∧
              Checkpoint.before_gate k = Ok tt ∧ k_send k = Ok tt ∧ Eof ∈ k_after k) as Hone.
    { intros k. unfold Checkpoint.checkpoint_one. rewrite <- await_close_Ok.
      destruct (Checkpoint.before_gate k) as [[]|]; [|naive_solver].
      destruct (Checkpoint.gate_opens in_time consoles); cbn; [|naive_solver].
      destruct (k_send k) as [[]|]; naive_solver. }
    unfold Checkpoint.main, Checkpoint.run_all.
    transitivity (∀ k, k ∈ consoles → Checkpoint.gate_opens in_time consoles = true ∧
                    Checkpoint.before_gate k = Ok tt ∧ k_send k = Ok tt ∧ Eof ∈ k_after k).
    { transitivity (existsb id (imap (λ (i : nat) (r : res unit * bool), true && negb (is_ok r.1))
        (Checkpoint.checkpoint_one (Checkpoint.gate_opens in_time consoles) <$> consoles)) = false);
        [by destruct (existsb _ _)|].
      rewrite all_imap. setoid_rewrite list_lookup_fmap. split.
      - intros H k [i Hk]%list_elem_of_lookup. apply Hone. specialize (H i).
        rewrite Hk in H. specialize (H _ eq_refl). cbn in H.
        by destruct (Checkpoint.checkpoint_one _ k) as [[[]|] ?].
      - intros H i r Hr. destruct (consoles !! i) as [k|] eqn:Hk; [|done]. injection Hr as <-.
        apply list_elem_of_lookup_2 in Hk. unfold id. cbn. by rewrite (proj2 (Hone k) (H k Hk)). }
    split.
    + intros H. split; [|by intros k Hk; apply H].
      destruct consoles as [|k l]; [done|]. destruct (H k ltac:(left)) as [Hg _]. by apply Hgate in Hg as [? _].
    + intros [Ht H] k Hk. split; [|by apply H]. apply Hgate. split; [done|]. intros k' Hk'. by apply H.
Qed.

(** ** Concrete consoles *)

Definition lf (s : string) : string := s +:+ String LF EmptyString.
Definition a_prompt : string := "(ubsim-node0) /root # ".

(** The output of a run of the command, with the echo of what was sent. *)
Definition sample_output (nonce printed : string) (status : Z) : string :=
  lf (wrapped nonce "uname") +:+ lf (begin_marker nonce) +:+ lf printed +:+
  lf (String LF (status_marker nonce +:+ "=" +:+ str_of_Z status)) +:+ a_prompt.

(** A text in pieces of [n] bytes. *)
Fixpoint pieces (fuel n : nat) (s : string) : list received :=
  match fuel with
  | O => []
  | S f =>
      if String.eqb s EmptyString then []
      else Data (String.substring 0 n s) :: pieces f n (String.substring n (String.length s - n) s)
  end.

Definition sample_job (port : Z) (printed : string) (status : Z) (n : nat) : job :=
  let nonce := str_of_Z port +:+ "_77" in
  Job port "uname" (Console [Err (Exn OSError "refused" []); Ok tt] [Data "boot"; Quiet 1000; Data a_prompt] (Ok tt) (Ok tt)
                      (pieces 1000 n (sample_output nonce printed status)) "77").

Definition sample_jobs : list job := [sample_job 3560 "Linux" 0 7; sample_job 3570 "Linux" 0 500].

Lemma await_status_pieces_witness :
  ∃ output, (await_status "3560_77" EmptyString (pieces 1000 7 (sample_output "3560_77" "Linux" 3))).2 =
              Ok (3, output) ∧
    ∃ x, complete "3560_77" (stream (pieces 1000 7 (sample_output "3560_77" "Linux" 3))) = Some (3, output +:+ x).
Proof.
  eexists. split; [vm_compute; reflexivity|].
  refine (await_status_pieces "3560_77" (pieces 1000 7 (sample_output "3560_77" "Linux" 3)) _ _);
    [reflexivity|].
  apply (Forall_impl (λ e, match e with Eof => False | _ => True end)); [|by intros []].
  vm_compute. repeat constructor.
Defined.

Lemma commands_after_prompts_witness :
  ∃ r, run_all id None true sample_jobs !! 0%nat = Some (r, Some (wrapped "3560_77" "uname")) ∧
    ∀ j, j ∈ sample_jobs → prompted None (j_console j).
Proof.
  eexists. split; [vm_compute; reflexivity|].
  refine (proj1 (proj2 (commands_after_prompts id None true sample_jobs 0 _ (wrapped "3560_77" "uname") _))).
  vm_compute. reflexivity.
Defined.

Lemma collective_status_witness :
  main id None true (λ _, true) sample_jobs = 0 ∧ ∀ j, j ∈ sample_jobs → succeeded id None j.
Proof.
  assert (main id None true (λ _, true) sample_jobs = 0) as H by (vm_compute; reflexivity).
  split; [exact H|].
  exact (proj2 (proj2 (proj1 (proj1 (collective_status id None true sample_jobs (λ _, true) ltac:(discriminate))) H))).
Defined.

(** The console closes after the request. *)
Definition checkpointed (n : Z) : console :=
  Console [Ok tt] [Quiet n; Data a_prompt] (Ok tt) (Ok tt) [Data "..."; Quiet n; Eof] "77".

Lemma checkpoint_status_witness :
  Checkpoint.main true (λ _, true) [checkpointed 1; checkpointed 2] = 0 ∧
  ∀ k, k ∈ [checkpointed 1; checkpointed 2] → Eof ∈ k_after k.
Proof.
  assert (Checkpoint.main true (λ _, true) [checkpointed 1; checkpointed 2] = 0) as H by (vm_compute; reflexivity).
  split; [exact H|]. intros k Hk.
  exact (proj2 (proj2 (proj2 (proj1 (proj2 (checkpoint_status true [checkpointed 1; checkpointed 2]
                                           ltac:(discriminate))) H) k Hk))).
Defined.

(** A command whose output begins with ["ERROR:"] counts as failed although its
    status is 0. *)
Example error_output : main id None true (λ _, true) [sample_job 3560 "ERROR: 0 found" 0 50] = 1.
Proof. vm_compute. reflexivity. Qed.

(** The refusal of a second terminal is not recognised when it arrives in two
    pieces, which the checkpoint's wait does. *)
Definition refusal : list received := [Data "terminal alre"; Data "ady attached"; Eof].
Example refusal_in_pieces :
  (await_prompt None (Ok tt) false EmptyString refusal).2 =
    Err (Exn ConnectionError "UART {port} closed before command (EOF)" []) ∧
  Checkpoint.await_prompt (Ok tt) false EmptyString refusal =
    Err (Exn RuntimeError "terminal already attached; detach with ~. first" []).
Proof. vm_compute. done. Qed.
