(* ===== verification/Transcript.v ===== *)
(** * What the callers of [tools/dual_serial_command.py] read

    The runners of suites and sweeps capture the printed transcripts as text,
    split them at the console headers and look at their lines.  This file shows
    that what they see of each console is what that console's guest printed. *)

From Stdlib Require Import ZArith Lia Ascii.
From stdpp Require Import base strings numbers option list.
From S2P Require Import Prelude PyStr TextScan SerialConsole SerialFacts.

Open Scope string_scope.
Open Scope list_scope.
Open Scope Z_scope.

(** ** Lines *)

Lemma splitlines_go_lf k l a b :
  (k ≤ S (String.length a))%nat → (k = 0%nat ∨ l = EmptyString) →
  splitlines_go k l (a +:+ String LF b) = splitlines_go k l (a +:+ String LF EmptyString) ++ splitlines b.
Proof.
  revert k l. induction a as [|c a IH]; intros k l Hk Hl; cbn in Hk.
  { destruct k as [|[|k]]; [reflexivity| |lia]. destruct Hl as [|Hl]; [lia|]. by rewrite Hl. }
  cbn [String.append splitlines_go]. destruct k as [|k]; [|apply IH; [lia|naive_solver]].
  assert (line_break (String c (a +:+ String LF b)) = line_break (String c (a +:+ String LF EmptyString)) ∧
    ∀ n, line_break (String c (a +:+ String LF b)) = Some n → (pred n ≤ S (String.length a))%nat) as [-> Hn].
  { unfold line_break. destruct a as [|d [|e a]] ; cbn; repeat case_match; split; try done;
      intros; simplify_eq; cbn; try lia. all: bool_inv; try done. }
  destruct (line_break _) as [n|] eqn:E; [|apply IH; [lia|by left]].
  cbn [app]. f_equal. apply IH; [by apply Hn|by right].
Qed.

(** A line feed ends a line. *)
Lemma splitlines_lf a b :
  splitlines (a +:+ String LF b) = splitlines (a +:+ String LF EmptyString) ++ splitlines b.
Proof. unfold splitlines at 1 2. apply splitlines_go_lf; [lia|by left]. Qed.

(** The lines that begin with [p]. *)
Definition marked (p s : string) : list string := List.filter (λ x, startswith x p) (splitlines s).

Lemma marked_lf p a b : marked p (a +:+ String LF b) = marked p (a +:+ String LF EmptyString) ++ marked p b.
Proof. unfold marked. by rewrite splitlines_lf, List.filter_app. Qed.

Section blank.
Context (d : ascii) (p' : string) (Hd : is_space d = false).

(** White space holds no marker. *)
Lemma marked_blank s : str_forallb is_space s = true → marked (String d p') s = [].
Proof using Hd.
  assert (∀ t, str_forallb is_space t = true → startswith t (String d p') = false) as Hn.
  { intros t Ht. apply not_true_iff_false. intros [r ->]%startswith_spec. cbn in Ht. by rewrite Hd in Ht. }
  assert (∀ s k l, str_forallb is_space l = true → str_forallb is_space s = true →
    Forall (λ x, startswith x (String d p') = false) (splitlines_go k l s)) as H;
    [|intros Hs; by apply filter_none, H].
  clear s. induction s as [|e s IH]; intros k l Hl Hs; cbn [splitlines_go].
  - destruct l as [|e l]; [by apply Forall_nil|]. apply Forall_singleton, Hn. by rewrite forallb_rev_string.
  - cbn in Hs. apply andb_true_iff in Hs as [He Hs]. destruct k as [|k]; [|by apply IH].
    destruct (line_break (String e s)).
    + apply Forall_cons. split; [apply Hn; by rewrite forallb_rev_string|]. by apply IH.
    + apply IH; [cbn; by rewrite He|done].
Qed.

(** Dropping white space before a line drops no marker. *)
Lemma marked_drop a x : str_forallb is_space a = true → marked (String d p') (a +:+ String LF x) = marked (String d p') x.
Proof using Hd.
  intros Ha. rewrite marked_lf, marked_blank; [done|]. by rewrite str_forallb_app, Ha.
Qed.
End blank.

(** ** The header of a console *)

Lemma string_app_eq a r u v :
  a +:+ r = u +:+ v → (∃ y, u = a +:+ y ∧ r = y +:+ v) ∨ (∃ y, a = u +:+ y ∧ v = y +:+ r).
Proof.
  revert u. induction a as [|c a IH]; intros u H; cbn in H; [left; by exists u|].
  destruct u as [|e u]; cbn in H; [right; by exists (String c a)|].
  injection H as -> H. destruct (IH u H) as [(y & -> & ->)|(y & -> & ->)]; [left|right]; by exists y.
Qed.

(** [\s*$] after a header: what is left begins with a line feed, or is empty. *)
Lemma m_eol_lf s :
  ∃ a r, m_eol (String LF s) = Some (tt, r) ∧ String LF s = a +:+ r ∧ str_forallb is_space a = true ∧
    (r = EmptyString ∨ ∃ x, r = String LF x).
Proof.
  assert (∀ s, s = (span is_space s).1 +:+ (span is_space s).2 ∧ str_forallb is_space (span is_space s).1 = true) as Hspan.
  { clear. induction s as [|c s [IH1 IH2]]; cbn; [done|]. destruct (is_space c) eqn:E; [|done].
    destruct (span is_space s) as [a b]. cbn in *. split; [by rewrite IH1 at 1|by rewrite E]. }
  assert (∀ b, is_Some (last_newline (String LF b)) ∧ ∀ n, last_newline (String LF b) = Some n →
    ∃ a x, String LF b = a +:+ n ∧ n = String LF x) as Hnl.
  { assert (∀ b n, last_newline b = Some n → ∃ a x, b = a +:+ n ∧ n = String LF x) as H.
    { clear. induction b as [|c b IH]; intros n H; cbn in H; [done|]. destruct (last_newline b) as [r|] eqn:E.
      - injection H as ->. destruct (IH _ eq_refl) as (a & x & -> & ->). by exists (String c a), x.
      - destruct (Ascii.eqb_spec c "010"%char) as [->|]; [|done]. injection H as <-. by exists EmptyString, b. }
    intros b. split; [cbn; by destruct (last_newline b)|]. apply H. }
  unfold m_eol. destruct (Hspan (String LF s)) as [E Hb]. destruct (span is_space (String LF s)) as [b r] eqn:Es.
  cbn [fst snd] in *. destruct (String.eqb_spec r EmptyString) as [->|Hr].
  { exists b, EmptyString. split_and!; try done. by left. }
  destruct b as [|c b]; [cbn in Es; by destruct (span is_space s)|].
  assert (c = LF) as -> by (cbn in E; congruence).
  destruct (Hnl b) as [[n Hn] Hx]. destruct (Hx n Hn) as (a & x & Ea & ->). rewrite Hn. cbn.
  exists a, (String LF x +:+ r). split_and!; [done| | |right; by exists (x +:+ r)].
  - by rewrite E, Ea, string_app_assoc.
  - rewrite Ea, str_forallb_app in Hb. by apply andb_true_iff in Hb as [? _].
Qed.

(** Whether no line of [s] is a console header; [bol]: [s] starts a line. *)
Fixpoint headless (bol : bool) (s : string) : bool :=
  negb (bol && bool_decide (is_Some (m_uart_header s))) &&
  match s with EmptyString => true | String c s' => headless (Ascii.eqb c LF) s' end.

(** Whether a matcher that needs no line feed finds the same before one. *)
Lemma strip_prefix_lf p s y r :
  lacks LF p = true → strip_prefix p (s +:+ String LF y) = Some r →
  ∃ r', strip_prefix p s = Some r' ∧ r = r' +:+ String LF y.
Proof.
  revert p. induction s as [|c s IH]; intros [|a p] Hp H; cbn in *; simplify_eq.
  - by exists EmptyString.
  - apply andb_true_iff in Hp as [Ha _]. by destruct (Ascii.eqb a LF).
  - by exists (String c s).
  - apply andb_true_iff in Hp as [_ Hp]. destruct (Ascii.eqb a c); [|done]. by apply IH.
Qed.

Lemma span_lf p s y : p LF = false → span p (s +:+ String LF y) = ((span p s).1, (span p s).2 +:+ String LF y).
Proof.
  intros Hp. induction s as [|c s IH]; cbn; [by rewrite Hp|]. destruct (p c); [|done].
  rewrite IH. by destruct (span p s).
Qed.

Lemma m_eol_grows s y : is_Some (m_eol (s +:+ String LF y)) → is_Some (m_eol s).
Proof.
  unfold m_eol. destruct (span is_space s) as [b r] eqn:E.
  destruct (String.eqb_spec r EmptyString) as [->|Hr]; [by intros _; eexists|].
  destruct r as [|c r]; [done|]. rewrite (span_grows _ _ _ _ _ _ E). cbn.
  destruct (last_newline b); cbn; [by intros _; eexists|by intros [? ?]].
Qed.

Lemma header_grows s y : is_Some (m_uart_header (s +:+ String LF y)) → is_Some (m_uart_header s).
Proof.
  unfold m_uart_header. intros [x H].
  destruct (m_lit "--- UART " (s +:+ String LF y)) as [[u1 r1]|] eqn:E1; [|done].
  apply m_lit_Some in E1. apply strip_prefix_lf in E1 as (r1' & E1 & ->); [|done].
  apply (m_lit_Some _ _ u1) in E1. rewrite E1. cbn [mbind option_bind fst snd] in H |- *. unfold m_digits in *. rewrite span_lf in H by done.
  destruct (span is_digit r1') as [d r2]. cbn [fst snd] in *. destruct (String.eqb d EmptyString); [done|].
  cbn [mbind option_bind fst snd] in H |- *. destruct (m_lit " ---" (r2 +:+ String LF y)) as [[u3 r3]|] eqn:E3; [|done].
  apply m_lit_Some in E3. apply strip_prefix_lf in E3 as (r3' & E3 & ->); [|done].
  apply (m_lit_Some _ _ u3) in E3. rewrite E3. cbn [mbind option_bind fst snd] in H |- *. eapply m_eol_grows. by rewrite H.
Qed.

(** Text without a header, up to the line feed before [h], is one piece. *)
Lemma split_headless s h bol piece f :
  headless bol s = true →
  split_go (S (String.length s) + f) bol m_uart_header piece (s +:+ String LF h) =
  split_go f true m_uart_header (String.rev_app (s +:+ String LF EmptyString) piece) h.
Proof.
  revert bol piece. induction s as [|c s IH]; intros bol piece H.
  all: cbn [headless] in H; apply andb_true_iff in H as [Hb H]; cbn [String.length Nat.add split_go String.append].
  all: match goal with |- context [if ?b then ?m else None] => assert ((if b then m else None) = None) as ->;
    [destruct b; [|done]; apply negb_true_iff in Hb; cbn [andb] in Hb; apply bool_decide_eq_false in Hb;
     apply eq_None_not_Some; intros Hm; apply Hb, (header_grows _ h); exact Hm|] end.
  - done.
  - by apply IH.
Qed.

Lemma rev_app_nil s : String.rev (String.rev_app s EmptyString) = s.
Proof. rewrite rev_app_rev, string_app_nil_r. apply rev_rev_string. Qed.

Lemma span_all p a b : str_forallb p a = true → span p b = (EmptyString, b) → span p (a +:+ b) = (a, b).
Proof.
  intros Ha Hb. induction a as [|c a IH]; cbn in *; [done|]. apply andb_true_iff in Ha as [-> Ha]. by rewrite IH.
Qed.

(** The header line of port [p] at the start of a line. *)
Lemma header_match p t :
  0 <= p →
  ∃ a r, m_uart_header ("--- UART " +:+ str_of_Z p +:+ " ---" +:+ String LF t) = Some (tt, r) ∧
    String LF t = a +:+ r ∧ str_forallb is_space a = true ∧ (r = EmptyString ∨ ∃ x, r = String LF x).
Proof.
  intros Hp. destruct (m_eol_lf t) as (a & r & Hm & Ht & Ha & Hr). exists a, r. split_and!; try done.
  unfold m_uart_header, m_lit. rewrite strip_prefix_app. cbn [mbind option_bind fst snd].
  unfold m_digits. pose proof (str_of_Z_digits p Hp) as Hd.
  assert (span is_digit (str_of_Z p +:+ " ---" +:+ String LF t) = (str_of_Z p, " ---" +:+ String LF t)) as ->.
  { by apply span_all. }
  destruct (String.eqb_spec (str_of_Z p) EmptyString) as [E|_].
  { pose proof (parse_nat_str p Hp) as Hn. rewrite <- str_of_Z_nonneg, E in Hn by done. done. }
  cbn [mbind option_bind fst snd]. rewrite strip_prefix_app. cbn [mbind option_bind fst snd]. exact Hm.
Qed.

Lemma headless_weaken bol s : headless bol s = true → headless false s = true.
Proof. destruct s, bol; cbn [headless andb negb]; rewrite ?andb_true_iff; naive_solver. Qed.

Lemma headless_suffix bol a y : headless bol (a +:+ y) = true → headless false y = true.
Proof.
  revert bol. induction a as [|c a IH]; intros bol; [apply headless_weaken|].
  cbn [String.append headless]. intros [_ H]%andb_true_iff. by eapply IH.
Qed.

(** The text of [n] consoles, a header and a body each. *)
Definition consoles (ps : list (Z * string)) : string :=
  concat_str ((λ p, line ("--- UART " +:+ str_of_Z p.1 +:+ " ---") +:+ line p.2) <$> ps).

Lemma consoles_cons p b ps :
  consoles ((p, b) :: ps) =
  "--- UART " +:+ str_of_Z p +:+ " ---" +:+ String LF (b +:+ String LF (consoles ps)).
Proof. unfold consoles at 1, line. cbn [fmap list_fmap concat_str foldr fst snd]. by rewrite !string_app_assoc. Qed.

Lemma consoles_solid ps y r :
  str_forallb is_space y = true → consoles ps = y +:+ r → y = EmptyString ∨ (ps = [] ∧ r = EmptyString).
Proof.
  intros Hy H. destruct y as [|c y]; [by left|]. right. destruct ps as [|[p b] ps]; [done|].
  rewrite consoles_cons in H. injection H as <- H. done.
Qed.

(** What the [split] at the headers leaves of a console's body. *)
Definition keeps (s b : string) : Prop :=
  ∀ d p, is_space d = false → marked (String d p) s = marked (String d p) (line b).

Lemma keeps_rest a y b : str_forallb is_space a = true → String LF b = a +:+ y →
  (y = EmptyString ∨ ∃ x, y = String LF x) → keeps (line y) b.
Proof.
  intros Ha Hb Hy d p Hd. unfold line. destruct Hy as [->|[x ->]].
  - rewrite string_app_nil_r in Hb. subst a. cbn in Ha. apply andb_true_iff in Ha as [_ Ha].
    rewrite !marked_blank; try done. by rewrite str_forallb_app, Ha.
  - change (String LF x +:+ ?l) with (EmptyString +:+ String LF (x +:+ l)). rewrite (marked_drop _ _ Hd EmptyString) by done.
    destruct a as [|c a]; cbn in Hb; [by injection Hb as ->|]. injection Hb as <- ->.
    cbn in Ha. apply andb_true_iff in Ha as [_ Ha]. rewrite string_app_assoc. cbn [String.append]. by rewrite (marked_drop _ _ Hd a).
Qed.

Lemma split_consoles ps f piece :
  Forall (λ p, 0 <= p.1 ∧ headless true p.2 = true) ps →
  (String.length (consoles ps) < f)%nat →
  ∃ sections, split_go f true m_uart_header piece (consoles ps) = String.rev piece :: sections ∧
    Forall2 (λ s p, keeps s p.2) sections ps.
Proof.
  intros Hps. revert f piece. induction Hps as [|[p b] ps [Hp Hb] _ IH]; intros f piece Hf.
  { exists []. split; [|done]. destruct f; [cbn in Hf; lia|]. done. }
  cbn in Hp, Hb. rewrite consoles_cons in Hf |- *.
  destruct (header_match p (b +:+ String LF (consoles ps)) Hp) as (a & r & Hm & Ht & Ha & Hr).
  destruct f as [|f]; [lia|]. cbn [split_go]. rewrite Hm.
  assert (String.length r < f)%nat as Hf'.
  { apply (f_equal String.length) in Ht. cbn [String.length] in Ht. rewrite !string_length_app in Hf, Ht.
    cbn [String.append String.length] in Hf, Ht. rewrite ?string_length_app in Hf. cbn [String.length] in Hf. rewrite ?string_length_app in Hf. cbn [String.length] in Hf. lia. }
  change (String LF (b +:+ String LF (consoles ps))) with (String LF b +:+ String LF (consoles ps)) in Ht.
  symmetry in Ht. apply string_app_eq in Ht as [(y & Hb' & ->)|(y & -> & Hy)].
  - pose proof (headless_weaken _ _ Hb) as Hl. assert (headless false (String LF b) = true) as Hl' by exact Hb.
    rewrite Hb' in Hl'. apply headless_suffix in Hl'.
    rewrite string_length_app in Hf'. cbn [String.length] in Hf'.
    replace f with (S (String.length y) + (f - S (String.length y)))%nat by lia.
    rewrite split_headless by done.
    destruct (IH (f - S (String.length y))%nat (String.rev_app (y +:+ String LF EmptyString) EmptyString)) as (ss & -> & HF);
      [lia|]. rewrite rev_app_nil. eexists. split; [reflexivity|]. apply Forall2_cons. split; [|done].
    eapply keeps_rest; [exact Ha|exact Hb'|].
    destruct Hr as [Hr|[x Hr]]; [by destruct y|]. destruct y as [|c y]; [by left|right].
    injection Hr as -> _. by exists y.
  - rewrite str_forallb_app in Ha. apply andb_true_iff in Ha as [Hb2 Hy'].
    destruct y as [|c y].
    + cbn in Hy. subst r. destruct f as [|f]; [cbn in Hf'; lia|].
      destruct (IH f (String LF EmptyString) ltac:(cbn in Hf'; lia)) as (ss & Hs & HF).
      exists (String LF EmptyString :: ss). cbn [split_go]. split.
      { f_equal. exact Hs. }
      apply Forall2_cons. split; [|done]. eapply (keeps_rest (String LF b) EmptyString); [done| |by left].
      by rewrite string_app_nil_r.
    + injection Hy as <- Hy. cbn in Hy'. apply andb_true_iff in Hy' as [_ Hy'].
      assert (ps = [] ∧ r = EmptyString) as [-> ->].
      { destruct (consoles_solid _ _ _ Hy' Hy) as [->|?]; [|done]. cbn in Hy.
        destruct ps as [|[p' b'] ps]; [by rewrite <- Hy|]. rewrite consoles_cons in Hy.
        destruct Hr as [->|[x ->]]; done. }
      exists [EmptyString]. split; [by destruct f|]. apply Forall2_cons. split; [|done].
      intros d q Hd. cbn in Hb2. apply andb_true_iff in Hb2 as [_ Hb2].
      rewrite !marked_blank; try done. unfold line. cbn [snd]. by rewrite str_forallb_app, Hb2.
Qed.

(** Splitting at the headers finds one section per console, with the marked
    lines of its body. *)
Lemma uart_sections_consoles ps :
  Forall (λ p, 0 <= p.1 ∧ headless true p.2 = true) ps →
  Forall2 (λ s p, keeps s p.2) (uart_sections (consoles ps)) ps.
Proof.
  intros H. destruct (split_consoles ps (S (String.length (consoles ps))) EmptyString H) as (ss & E & HF); [lia|].
  unfold uart_sections. by rewrite E.
Qed.

(** ** The printed text, read back *)

(** What the reader of the printed text finds in place of a transcript. *)
Definition shown (t : string) : string := universal_newlines (rstrip t).

Lemma universal_lf a b :
  (∀ x, a ≠ x +:+ String CR EmptyString) →
  universal_newlines (a +:+ String LF b) = universal_newlines a +:+ String LF (universal_newlines b).
Proof.
  remember (String.length a) as n eqn:En. revert a En.
  induction (lt_wf n) as [n _ IH]. intros a -> Ha. destruct a as [|c a]; [done|]. cbn [String.append universal_newlines].
  assert (∀ x, a ≠ x +:+ String CR EmptyString) as Ha'.
  { intros x ->. by apply (Ha (String c x)). }
  destruct (Ascii.eqb_spec c CR) as [->|Hc]; [|cbn [String.append]; f_equal; eapply IH; [|done|done]; cbn; lia].
  destruct a as [|d a]; [by destruct (Ha EmptyString)|]. cbn [String.append].
  destruct (Ascii.eqb_spec d LF) as [->|Hd]; cbn [String.append]; f_equal; f_equal.
  - eapply IH; [|done|]; [cbn; lia|]. intros x ->. by apply (Ha' (String LF x)).
  - change (String d (a +:+ String LF b)) with (String d a +:+ String LF b). eapply IH; [|done|done]. cbn; lia.
Qed.

Lemma lacks_last c s x : lacks c s = true → s ≠ x +:+ String c EmptyString.
Proof.
  intros H ->. unfold lacks in H. rewrite str_forallb_app in H. cbn in H.
  by rewrite Ascii.eqb_refl, andb_false_r in H.
Qed.

Lemma rstrip_last t c x : rstrip t = x +:+ String c EmptyString → is_space c = false.
Proof.
  intros H. apply (f_equal String.rev) in H. unfold rstrip in H. rewrite rev_rev_string, rev_app_string in H.
  cbn in H. revert H. generalize (String.rev t). clear. intros s. induction s as [|d s IH]; cbn; [done|].
  destruct (is_space d) eqn:E; [done|]. by intros [= -> _].
Qed.

Lemma universal_plain s : lacks CR s = true → universal_newlines s = s.
Proof.
  unfold lacks. induction s as [|c s IH]; cbn; [done|]. intros [->%negb_true_iff H]%andb_true_iff. by rewrite IH.
Qed.

Lemma header_plain p : 0 <= p → lacks CR ("--- UART " +:+ str_of_Z p +:+ " ---") = true.
Proof.
  intros Hp. unfold lacks. rewrite !str_forallb_app.
  rewrite (str_forallb_impl is_digit _ (str_of_Z p)); [done| |by apply str_of_Z_digits].
  intros c Hc. by rewrite (digit_neq c CR).
Qed.

Lemma printed_cons p t ps :
  is_error t = false →
  printed true ((p, t) :: ps) =
  ("--- UART " +:+ str_of_Z p +:+ " ---") +:+ String LF (rstrip t +:+ String LF (printed true ps)).
Proof.
  intros Ht. unfold printed at 1, printed_one. cbn [fmap list_fmap concat_str foldr fst snd]. rewrite Ht.
  unfold line. by rewrite !string_app_assoc.
Qed.

(** The full output of consoles that did not fail. *)
Lemma universal_printed ps :
  Forall (λ p, 0 <= p.1 ∧ is_error p.2 = false) ps →
  universal_newlines (printed true ps) = consoles ((λ p, (p.1, shown p.2)) <$> ps).
Proof.
  induction 1 as [|[p t] ps [Hp Ht] _ IH]; [done|]. cbn in Hp, Ht. cbn [fmap list_fmap].
  rewrite consoles_cons, printed_cons by done.
  rewrite universal_lf by (intros; by apply lacks_last, header_plain).
  rewrite universal_plain by by apply header_plain.
  rewrite universal_lf by (intros x Hx%rstrip_last; done). by rewrite IH, !string_app_assoc.
Qed.

(** The sections of the full output of a command that no console failed: of each
    console, the lines its guest printed. *)
Lemma uart_sections_printed ps :
  Forall (λ p, 0 <= p.1 ∧ is_error p.2 = false ∧ headless true (shown p.2) = true) ps →
  Forall2 (λ s p, keeps s (shown p.2)) (uart_sections (universal_newlines (printed true ps))) ps.
Proof.
  intros H. rewrite universal_printed by (eapply Forall_impl; [exact H|]; naive_solver).
  pose proof (uart_sections_consoles ((λ p, (p.1, shown p.2)) <$> ps)) as Hu. rewrite Forall2_fmap_r in Hu.
  apply Hu, Forall_fmap. eapply Forall_impl; [exact H|]. naive_solver.
Qed.

Section collective.
Context (decode : string → string) (kick_after : option Z) (in_time : bool) (finished : nat → bool) (jobs : list job).

(** What the worker of [j] reports once its command is sent. *)
Definition transcript (j : job) : string := (run_one decode kick_after true (j_port j) (j_command j) (j_console j)).1.

Lemma transcripts_sent :
  gate_opens kick_after in_time jobs = true → (∀ i, (i < length jobs)%nat → finished i = true) →
  transcripts decode kick_after in_time finished jobs = transcript <$> jobs.
Proof.
  intros Hg Hf. unfold transcripts, run_all. rewrite Hg. apply list_eq. intros i.
  rewrite list_lookup_imap, !list_lookup_fmap. destruct (jobs !! i) as [j|] eqn:Hj; [|done]. cbn.
  by rewrite Hf by by eapply lookup_lt_Some.
Qed.

(** When a command that succeeded on every console is read back, there is a
    section for each console with the marked lines its guest printed. *)
Lemma sections_of_success :
  jobs ≠ [] → SerialConsole.main decode kick_after in_time finished jobs = 0 →
  (∀ j, j ∈ jobs → 0 <= j_port j ∧ headless true (shown (transcript j)) = true) →
  Forall2 (λ s j, keeps s (shown (transcript j)))
    (uart_sections (universal_newlines (output decode true kick_after in_time finished jobs))) jobs.
Proof.
  intros Hne H0 Hj. pose proof (collective_status decode kick_after in_time jobs finished Hne) as [Hc _].
  apply Hc in H0 as (Hf & Hin & Hs). assert (gate_opens kick_after in_time jobs = true) as Hg.
  { apply gate_opens_iff. split; [done|]. intros j Hj'. destruct (Hs j Hj') as (text & _ & _ & ? & _). by exists text. }
  unfold output. rewrite transcripts_sent by done.
  assert (zip (j_port <$> jobs) (transcript <$> jobs) = (λ j, (j_port j, transcript j)) <$> jobs) as ->.
  { clear. induction jobs as [|j l IH]; cbn; [done|]. by rewrite IH. }
  pose proof (uart_sections_printed ((λ j, (j_port j, transcript j)) <$> jobs)) as Hu.
  rewrite Forall2_fmap_r in Hu. apply Hu, Forall_fmap, Forall_forall. clear Hu. intros j Hin'. cbn. destruct (Hj j Hin') as [Hp Hh]. split_and!; try done.
  unfold transcript. apply run_one_error. split; [done|by apply Hs].
Qed.
End collective.

(** ** Two guests *)

Section two_guests.
Context (decode : string → string) (kick_after : option Z) (in_time : bool) (finished : nat → bool) (j0 j1 : job).

Lemma both_succeed :
  SerialConsole.main decode kick_after in_time finished [j0; j1] = 0 ↔
  in_time = true ∧ finished 0%nat = true ∧ finished 1%nat = true ∧
  succeeded decode kick_after j0 ∧ succeeded decode kick_after j1.
Proof.
  pose proof (collective_status decode kick_after in_time [j0; j1] finished ltac:(done)) as [-> _]. split.
  - intros (Hf & ? & Hs). split_and!; [done|apply Hf; cbn; lia..|apply Hs; by left|apply Hs; by right; left].
  - intros (? & ? & ? & ? & ?). split_and!; [|done|].
    + intros [|[|i]] Hi; [done..|cbn in Hi; lia].
    + intros j. rewrite !elem_of_cons, elem_of_nil. naive_solver.
Qed.

(** What the runner sees of the guest behind [j]. *)
Definition guest_output (j : job) : string := shown (transcript decode kick_after j).

Lemma two_sections :
  SerialConsole.main decode kick_after in_time finished [j0; j1] = 0 →
  0 <= j_port j0 → 0 <= j_port j1 →
  headless true (guest_output j0) = true → headless true (guest_output j1) = true →
  ∃ s0 s1,
    uart_sections (universal_newlines (output decode true kick_after in_time finished [j0; j1])) = [s0; s1] ∧
    keeps s0 (guest_output j0) ∧ keeps s1 (guest_output j1).
Proof.
  intros H0 P0 P1 H1 H2.
  pose proof (sections_of_success decode kick_after in_time finished [j0; j1] ltac:(done) H0) as Hs.
  assert (∀ j, j ∈ [j0; j1] → 0 <= j_port j ∧ headless true (shown (transcript decode kick_after j)) = true) as Hj.
  { intros j. rewrite !elem_of_cons, elem_of_nil. intros [->|[->|[]]]; done. }
  specialize (Hs Hj). apply Forall2_cons_inv_r in Hs as (s0 & l & K0 & Hs & ->).
  apply Forall2_cons_inv_r in Hs as (s1 & l' & K1 & Hs & ->). apply Forall2_nil_inv_r in Hs as ->.
  by exists s0, s1.
Qed.
End two_guests.
