(* ===== verification/Integrity.v ===== *)
(** * Byte-level integrity runs ([tools/run_qemu_integrity.py])

    The suites' cases, the guest commands, the acceptance of a transcript, the
    run with its report; and what acceptance says of the two guests. *)

From Stdlib Require Import ZArith Lia Ascii.
From stdpp Require Import base strings numbers option list.
From S2P Require Import Prelude PyStr TextScan SerialConsole SerialFacts Transcript.

Open Scope string_scope.
Open Scope list_scope.
Open Scope Z_scope.

(** ** Cases *)

Inductive suite := Smoke | Boundaries | Wrap | Concurrent | Shared | Large | SendOverlimit.

#[global] Instance suite_eq_dec : EqDecision suite.
Proof. solve_decision. Defined.

Record icase := ICase {
  i_op : string;
  i_size : Z;
  i_rounds : Z;
  i_batch : Z;
  i_depth : Z
}.

Definition ops : list string := ["send"; "write"; "read"].

Definition suite_cases (s : suite) : list icase :=
  match s with
  | Boundaries =>
      op ← ops;
      size ← [1; 2; 63; 64; 65; 127; 128; 129; 4095; 4096] ++
             (if String.eqb op "send" then [] else [4097; 65535; 65536]);
      [ICase op size 4 1 64]
  | Wrap | Shared => (λ op, ICase op 4096 8 512 512) <$> ops
  | Large => op ← ["write"; "read"]; size ← [65537; 1048576]; [ICase op size 4 1 64]
  | SendOverlimit => [ICase "send" 4097 1 1 512]
  | Smoke | Concurrent => (λ op, ICase op 4096 4 1 64) <$> ops
  end.

Definition concurrent (s : suite) : bool := bool_decide (s = Concurrent).
Definition negative (s : suite) : bool := bool_decide (s = SendOverlimit).
Definition shared_jettys (s : suite) : Z := if bool_decide (s = Shared) then 2 else 1.

(** ** Acceptance *)

Definition roles : list string := ["server"; "client"].

(** The line [urma-integrity] prints after its data checks and teardown. *)
Definition expected_marker (s : suite) (c : icase) (role : string) : string :=
  if negative s then
    "PASS negative-send-length bytes=4097 expected_status=2 receiver_unchanged=1 role=" +:+ role
  else
    "PASS integrity op=" +:+ i_op c +:+ " bytes=" +:+ str_of_Z (i_size c) +:+ " rounds=" +:+ str_of_Z (i_rounds c) +:+
    " batch=" +:+ str_of_Z (i_batch c) +:+ " depth=" +:+ str_of_Z (i_depth c) +:+
    " shared_jettys=" +:+ str_of_Z (shared_jettys s) +:+ " schedule=round-robin-pairs payloads=" +:+
    str_of_Z (i_rounds c * i_batch c) +:+ " role=" +:+ role.

Definition expected_markers (s : suite) (c : icase) (role : string) : list string :=
  replicate (if concurrent s then 2 else 1)%nat (expected_marker s c role).

Inductive output_error :=
  | ExpectedTwo
  | WrongMarkers (role : string) (markers : list string).

Definition markers (text : string) : list string :=
  strip <$> List.filter (λ x, startswith x "PASS ") (splitlines text).

Definition section_errors (s : suite) (c : icase) (sr : string * string) : list output_error :=
  let found := markers sr.1 in
  if bool_decide (found = expected_markers s c sr.2) then [] else [WrongMarkers sr.2 found].

Definition validate_output (s : suite) (c : icase) (text : string) : list output_error :=
  let sections := uart_sections text in
  if negb (Nat.eqb (length sections) 2) then [ExpectedTwo]
  else concat (section_errors s c <$> zip sections roles).

(** ** Guest commands *)

Definition base_command (s : suite) (c : icase) : string :=
  (if negative s then "UBSIM_INTEGRITY_EXPECT_SEND_LENGTH_ERROR=1 " else EmptyString) +:+
  "UBSIM_INTEGRITY_SHARED_JETTYS=" +:+ str_of_Z (shared_jettys s) +:+
  " LD_LIBRARY_PATH=/lib:/usr/lib /tmp/urma-integrity udma0 " +:+ i_op c +:+ " " +:+ str_of_Z (i_size c) +:+ " " +:+
  str_of_Z (i_rounds c) +:+ " " +:+ str_of_Z (i_batch c) +:+ " " +:+ str_of_Z (i_depth c).

Definition peer (node : Z) : string := if node =? 0 then EmptyString else " 10.0.0.1".

Definition node_command (s : suite) (c : icase) (index : nat) (node : Z) : string :=
  let port := 21500 + Z.of_nat index * 2 in
  let base := base_command s c in
  if concurrent s then
    base +:+ " " +:+ str_of_Z port +:+ peer node +:+ " >/tmp/integrity-a.log 2>&1 & a=$!; " +:+
    base +:+ " " +:+ str_of_Z (port + 1) +:+ peer node +:+ " >/tmp/integrity-b.log 2>&1 & b=$!; " +:+
    "wait $a; ra=$?; wait $b; rb=$?; cat /tmp/integrity-a.log /tmp/integrity-b.log; " +:+
    "test $ra -eq 0 && test $rb -eq 0"
  else base +:+ " " +:+ str_of_Z port +:+ peer node.

Definition case_commands (s : suite) (index : nat) (c : icase) : list string := node_command s c index <$> [0; 1].

(** ** The run *)

Record irecord := IRecord {
  r_case : icase;
  r_commands : list string;
  r_returncode : Z;
  r_accepted : bool;
  r_errors : list output_error;
  r_raw : string
}.

(** What the run leaves behind, in order. *)
Inductive action :=
  | MadeOutput
  | WroteManifest (text : string)
  | Installed (port : Z)
  | Ran (index : nat) (commands : list string)
  | WroteTranscript (name text : string)
  | WroteReport (expected_cases : Z) (records : list irecord).

(** What it meets: the output directory, the run's manifest, the binary, the
    copy to a guest, and the console command of a case (status and output). *)
Record world := World {
  w_output : res unit;
  w_manifest : res string;
  w_binary : res unit;
  w_ssh : Z → Z;
  w_run : nat → list string → Z * string
}.

Definition two_digits (n : Z) : string := if n <? 10 then "0" +:+ str_of_Z n else str_of_Z n.

Section run.
Context (w : world) (s : suite).

Definition install (port : Z) : io action unit :=
  emit (Installed port) ;;;
  if w_ssh w port =? 0 then io_ret tt
  else throw (Exn CalledProcessError "Command {} returned non-zero exit status {}" [PZ (w_ssh w port)]).

Definition run_case (index : nat) (c : icase) : io action irecord :=
  let commands := case_commands s index c in
  let result := w_run w index commands in
  let name := two_digits (Z.of_nat index) +:+ "-" +:+ i_op c +:+ "-" +:+ str_of_Z (i_size c) +:+ ".uart.txt" in
  emit (Ran index commands) ;;;
  emit (WroteTranscript name result.2) ;;;
  let errors := validate_output s c result.2 in
  io_ret (IRecord c commands result.1 ((result.1 =? 0) && bool_decide (errors = [])) errors name).

(** The loop: it stops after the first case that is not accepted. *)
Fixpoint run_cases (index : nat) (cases : list icase) : io action (list irecord) :=
  match cases with
  | [] => io_ret []
  | c :: cases' =>
      r <- run_case index c;
      if r_accepted r then rs <- run_cases (S index) cases'; io_ret (r :: rs) else io_ret [r]
  end.

Definition main : io action Z :=
  _ <- lift (w_output w);
  emit MadeOutput ;;;
  manifest <- lift (w_manifest w);
  (if elemb "synchronization=off" (splitlines manifest) then io_ret tt
   else throw (Exn RuntimeError "functional integrity runner requires no-sync" [])) ;;;
  emit (WroteManifest manifest) ;;;
  _ <- lift (w_binary w);
  each install [2220; 2221] ;;;
  records <- run_cases 0 (suite_cases s);
  emit (WroteReport (len (suite_cases s)) records) ;;;
  io_ret (if negb (len records =? len (suite_cases s)) || negb (forallb r_accepted records) then 1 else 0).
End run.

(** ** The verdict of a run *)

Definition case_accepted (w : world) (s : suite) (index : nat) (c : icase) : Prop :=
  (w_run w index (case_commands s index c)).1 = 0 ∧
  validate_output s c (w_run w index (case_commands s index c)).2 = [].

(** The run gets to its cases. *)
Definition ready (w : world) : Prop :=
  w_output w = Ok tt ∧ (∃ manifest, w_manifest w = Ok manifest ∧ "synchronization=off" ∈ splitlines manifest) ∧
  w_binary w = Ok tt ∧ w_ssh w 2220 = 0 ∧ w_ssh w 2221 = 0.

Section verdict.
Context (w : world) (s : suite).

Lemma run_case_spec index c l :
  ∃ l' r, run_case w s index c l = (l', Ok r) ∧ (r_accepted r = true ↔ case_accepted w s index c).
Proof.
  unfold run_case, io_bind, emit, io_ret. eexists _, _. split; [reflexivity|]. cbn.
  by rewrite andb_true_iff, Z.eqb_eq, bool_decide_eq_true.
Qed.

Lemma run_cases_spec index cases l :
  ∃ l' rs, run_cases w s index cases l = (l', Ok rs) ∧
    (length rs = length cases ∧ forallb r_accepted rs = true ↔
     ∀ k c, cases !! k = Some c → case_accepted w s (index + k) c).
Proof.
  revert index l. induction cases as [|c cases IH]; intros index l; cbn [run_cases].
  { exists l, []. split; [done|]. by split; [intros _ [|k]|]. }
  unfold io_bind. destruct (run_case_spec index c l) as (l' & r & -> & Hr).
  destruct (r_accepted r) eqn:Ha.
  - destruct (IH (S index) l') as (l2 & rs & -> & Hrs). eexists _, _. split; [reflexivity|].
    cbn [length forallb]. rewrite Ha. cbn [andb].
    transitivity (length rs = length cases ∧ forallb r_accepted rs = true); [split; intros [??]; split; lia || done|].
    rewrite Hrs. split.
    + intros H [|k] c' Hk; cbn in Hk; simplify_eq; [rewrite Nat.add_0_r; by apply Hr|].
      rewrite Nat.add_succ_r. by apply (H k).
    + intros H k c' Hk. specialize (H (S k) c' Hk). by rewrite Nat.add_succ_r in H.
  - eexists _, _. split; [reflexivity|]. cbn. rewrite Ha. split; [by intros [_ ?]|]. intros H.
    specialize (H 0%nat c eq_refl). rewrite Nat.add_0_r in H. by apply Hr in H.
Qed.

Lemma main_zero :
  (main w s []).2 = Ok 0 ↔
  ready w ∧ ∀ index c, suite_cases s !! index = Some c → case_accepted w s index c.
Proof.
  unfold main, ready, io_bind, lift, emit, install.
  destruct (w_output w) as [[]|]; [|naive_solver]. destruct (w_manifest w) as [m|]; [|naive_solver].
  destruct (elemb "synchronization=off" (splitlines m)) eqn:Em; cbn [fst snd].
  2:{ apply elemb_false in Em. cbn. naive_solver. }
  apply elemb_true in Em. unfold io_ret at 1. destruct (w_binary w) as [[]|]; [|naive_solver].
  cbn [each]. unfold io_bind, emit. destruct (Z.eqb_spec (w_ssh w 2220) 0) as [->|]; [|cbn; naive_solver].
  unfold io_ret at 1. destruct (Z.eqb_spec (w_ssh w 2221) 0) as [->|]; [|cbn; naive_solver].
  unfold io_ret at 1 2. match goal with |- context [run_cases w s 0 _ ?l] => destruct (run_cases_spec 0 (suite_cases s) l) as (l' & rs & -> & H) end.
  cbn [Nat.add] in H. rewrite <- H. cbn.
  transitivity (length rs = length (suite_cases s) ∧ forallb r_accepted rs = true).
  - unfold len. split.
    + destruct (Z.eqb_spec (Z.of_nat (length rs)) (Z.of_nat (length (suite_cases s)))) as [E|]; [|done].
      destruct (forallb r_accepted rs); [|done]. intros _. split; [lia|done].
    + intros [-> ->]. by rewrite Z.eqb_refl.
  - naive_solver.
Qed.
End verdict.

(** ** The guests behind a run *)

Section guests.
Context (decode : string → string) (k0 k1 : nat → console) (in_time : nat → bool) (finished : nat → nat → bool).

(** The workers of a case: its two commands on the two guests' consoles. *)
Definition guest_jobs (index : nat) (commands : list string) : list job :=
  zip_with (λ pk command, Job pk.1 command pk.2) [(3560, k0 index); (3570, k1 index)] commands.

(** [dual_serial_command.py --ports 3560 3570 --full-output ...]. *)
Definition guests_run (index : nat) (commands : list string) : Z * string :=
  let jobs := guest_jobs index commands in
  (SerialConsole.main decode (Some 1) (in_time index) (finished index) jobs,
   universal_newlines (output decode true (Some 1) (in_time index) (finished index) jobs)).

(** The markers of a section are those its guest printed. *)
Lemma section_markers x t : keeps x t → markers x = markers (line t).
Proof. intros H. unfold markers. f_equal. apply (H "P"%char "ASS "). reflexivity. Qed.

Lemma section_errors_nil s c x role : section_errors s c (x, role) = [] ↔ markers x = expected_markers s c role.
Proof. unfold section_errors. cbn. by case_bool_decide. Qed.

Definition jobs_of (s : suite) (index : nat) (c : icase) : list job := guest_jobs index (case_commands s index c).

Abbreviation seen := (guest_output decode (Some 1)).

(** No line of what a guest printed looks like a console header. *)
Definition no_headers (s : suite) : Prop :=
  ∀ index c j, suite_cases s !! index = Some c → j ∈ jobs_of s index c → headless true (seen j) = true.

(** The case is accepted by the two guests. *)
Definition guests_pass (s : suite) (index : nat) (c : icase) : Prop :=
  in_time index = true ∧ finished index 0%nat = true ∧ finished index 1%nat = true ∧
  Forall2 (λ j role, succeeded decode (Some 1) j ∧ markers (line (seen j)) = expected_markers s c role)
    (jobs_of s index c) roles.

Lemma case_verdict w s index c :
  w_run w = guests_run → (∀ j, j ∈ jobs_of s index c → headless true (seen j) = true) →
  (case_accepted w s index c ↔ guests_pass s index c).
Proof.
  intros Hw Hh. unfold case_accepted, guests_pass. rewrite Hw. unfold guests_run. fold (jobs_of s index c).
  assert (∃ j0 j1, jobs_of s index c = [j0; j1] ∧ j_port j0 = 3560 ∧ j_port j1 = 3570) as (j0 & j1 & E & P0 & P1)
    by (eexists _, _; done).
  cbn [fst snd]. rewrite E in *. pose proof (both_succeed decode (Some 1) (in_time index) (finished index) j0 j1) as Hb.
  pose proof (two_sections decode (Some 1) (in_time index) (finished index) j0 j1) as Hs.
  unfold roles. rewrite !Forall2_cons, Forall2_nil.
  assert (SerialConsole.main decode (Some 1) (in_time index) (finished index) [j0; j1] = 0 →
    (validate_output s c (universal_newlines (output decode true (Some 1) (in_time index) (finished index) [j0; j1])) = [] ↔
     markers (line (seen j0)) = expected_markers s c "server" ∧ markers (line (seen j1)) = expected_markers s c "client")) as Hv.
  { intros H0. destruct Hs as (s0 & s1 & Es & K0 & K1); [done|lia|lia|apply Hh; by left|apply Hh; by right; left|].
    unfold validate_output. rewrite Es. cbn [length Nat.eqb negb zip zip_with roles fmap list_fmap concat].
    rewrite !app_nil, !section_errors_nil, (section_markers _ _ K0), (section_markers _ _ K1). tauto. }
  split.
  - intros [H0 H]. apply (Hv H0) in H. apply Hb in H0. naive_solver.
  - intros H. assert (SerialConsole.main decode (Some 1) (in_time index) (finished index) [j0; j1] = 0) as H0
      by (apply Hb; naive_solver). split; [done|]. apply (Hv H0). naive_solver.
Qed.

(** C5: an integrity run ends with status 0 exactly when it could start and, in
    every case of its suite, both guests executed their command with status 0
    after a prompt and printed exactly the acceptance markers of the case and of
    their role: the printing, cutting and splitting of the transcripts between
    the guests and the verdict loses and adds nothing. *)
Theorem integrity_verdict w s :
  w_run w = guests_run → no_headers s →
  ((main w s []).2 = Ok 0 ↔
   ready w ∧ ∀ index c, suite_cases s !! index = Some c →
     guests_pass s index c).
Proof.
  intros Hw Hh. rewrite main_zero. apply and_iff_compat_l. apply forall_proper. intros index.
  apply forall_proper. intros c. split; intros H Hc.
  - apply (case_verdict w); [done| |by apply H]. intros j. by apply Hh.
  - apply (case_verdict w); [done| |by apply H]. intros j. by apply Hh.
Qed.
End guests.

(** ** A concrete run *)

Definition sample_case : icase := ICase "send" 4097 1 1 512.
Definition sample_guest (port : Z) (role : string) : console :=
  j_console (sample_job port (expected_marker SendOverlimit sample_case role) 0 300).
Definition sample_world : world :=
  World (Ok tt) (Ok "synchronization=off") (Ok tt) (λ _, 0)
    (guests_run id (λ _, sample_guest 3560 "server") (λ _, sample_guest 3570 "client") (λ _, true) (λ _ _, true)).

Example sample_suites : length ∘ suite_cases <$> [Smoke; Boundaries; Wrap; Concurrent; Shared; Large; SendOverlimit] =
  [3; 36; 3; 3; 3; 4; 1]%nat.
Proof. vm_compute. reflexivity. Qed.

(** A role taken for the other is not accepted. *)
Example swapped_roles :
  validate_output SendOverlimit sample_case
    (consoles [(3560, expected_marker SendOverlimit sample_case "client");
               (3570, expected_marker SendOverlimit sample_case "server")]) ≠ [].
Proof. vm_compute. discriminate. Qed.

Lemma integrity_verdict_witness :
  (main sample_world SendOverlimit []).2 = Ok 0 ∧
  guests_pass id (λ _, sample_guest 3560 "server") (λ _, sample_guest 3570 "client") (λ _, true) (λ _ _, true)
    SendOverlimit 0 sample_case.
Proof.
  assert ((main sample_world SendOverlimit []).2 = Ok 0) as H by (vm_compute; reflexivity). split; [exact H|].
  refine (proj2 (proj1 (integrity_verdict id (λ _, sample_guest 3560 "server") (λ _, sample_guest 3570 "client")
    (λ _, true) (λ _ _, true) sample_world SendOverlimit eq_refl _) H) 0%nat sample_case eq_refl).
  intros [|index] c j Hc Hj; [|done]. injection Hc as <-.
  apply list_elem_of_In in Hj. destruct Hj as [<-|[<-|[]]]; vm_compute; reflexivity.
Defined.
