(* ===== verification/Sweep.v ===== *)
(** * Measurement sweeps

    What the sweeps under [tools/] have in common: a case after the other, the
    commands of its two guests are run, the transcript is kept, the output is
    judged, and the row goes to a CSV file; the first case that is not accepted
    ends the sweep.  A tool is a record of its parts; [ReadSweep] and
    [JettySweep] hold the six tools.  The seconds a case took are left out of its
    row. *)

From Stdlib Require Import ZArith Lia Ascii.
From stdpp Require Import base strings numbers option list.
From S2P Require Import Prelude PyStr TextScan Regression.

Open Scope string_scope.
Open Scope list_scope.
Open Scope Z_scope.

(** [s.replace(old, new, 1)] of a nonempty [old]. *)
Fixpoint replace_first (old new s : string) : string :=
  match strip_prefix old s with
  | Some r => new +:+ r
  | None => match s with EmptyString => EmptyString | String c s' => String c (replace_first old new s') end
  end.

(** [if required not in manifest: parser.error(...)], for each of them. *)
Definition manifest_has (required : list string) (manifest : string) : res unit :=
  match List.filter (λ r, negb (contains (r +:+ String "010" EmptyString) manifest)) required with
  | [] => Ok tt
  | r :: _ => Err (Exn SystemExit "run manifest lacks {required.strip()}" [PS r])
  end.

Section sweep.
(** Floating-point numbers. *)
Context {F : Type}.

(** A row: what [csv.DictWriter.writerow] is given. *)
Inductive cell :=
  | CZ (z : Z)
  | CS (s : string)
  | CF (f : F).
Definition row : Type := list (string * cell).

Inductive action :=
  | MadeOutput
  | WroteManifest (text : string)
  | WroteHeader (file : string) (fields : list string)
  | Ran (name : string) (commands : list string)
  | WroteTranscript (name text : string)
  | WroteRow (r : row).

(** What a sweep meets: its output directory, the run's manifest, and for each
    transcript what the two commands did. *)
Record world := World {
  w_output : res unit;
  w_manifest : res string;
  w_run : string → list string → observed;
  w_stderr : string → string   (** what they print as errors *)
}.

Record tool (C : Type) := Tool {
  t_check : res unit;                              (** the checks of the arguments *)
  t_manifest : string → res unit;                  (** the checks of the manifest *)
  t_file : string;
  t_fields : list string;
  t_cases : list C;
  t_name : nat → C → string;                       (** of the transcript *)
  t_stderr : bool;                                 (** whether errors are captured apart *)
  t_commands : nat → C → list string;
  t_judge : nat → C → observed → res (option row)  (** [None]: [return 1] *)
}.
Arguments t_check {C} _.
Arguments t_manifest {C} _ _.
Arguments t_file {C} _.
Arguments t_fields {C} _.
Arguments t_cases {C} _.
Arguments t_name {C} _ _ _.
Arguments t_stderr {C} _.
Arguments t_commands {C} _ _ _.
Arguments t_judge {C} _ _ _ _.

Section tool.
Context {C : Type} (t : tool C) (w : world).

Definition outcome (index : nat) (c : C) : observed := w_run w (t_name t index c) (t_commands t index c).

Definition transcript (index : nat) (c : C) : string :=
  o_output (outcome index c) +:+ (if t_stderr t then w_stderr w (t_name t index c) else EmptyString).

(** [csv.DictWriter] refuses fields that are not in its header. *)
Definition fits (r : row) : bool := forallb (λ kv, elemb kv.1 (t_fields t)) r.
Definition write_row (r : row) : io action unit :=
  if fits r then emit (WroteRow r)
  else throw (Exn ValueError "dict contains fields not in fieldnames" []).

Fixpoint sweep (index : nat) (cases : list C) : io action Z :=
  match cases with
  | [] => io_ret 0
  | c :: cases' =>
      emit (Ran (t_name t index c) (t_commands t index c)) ;;;
      emit (WroteTranscript (t_name t index c) (transcript index c)) ;;;
      judged <- lift (t_judge t index c (outcome index c));
      match judged with
      | None => io_ret 1
      | Some r => write_row r ;;; sweep (S index) cases'
      end
  end.

(** Up to the first case. *)
Definition prepare : io action unit :=
  _ <- lift (t_check t);
  manifest <- lift (w_manifest w);
  _ <- lift (t_manifest t manifest);
  _ <- lift (w_output w);
  emit MadeOutput ;;; emit (WroteManifest manifest).

Definition main : io action Z :=
  prepare ;;;
  emit (WroteHeader (t_file t) (t_fields t)) ;;;
  sweep 0 (t_cases t).

(** *** What a sweep leaves behind *)

(** The case is accepted with this row. *)
Definition case_row (index : nat) (c : C) (r : row) : Prop :=
  t_judge t index c (outcome index c) = Ok (Some r) ∧ fits r = true.

(** The checks pass and the output directory is new. *)
Definition prepared : Prop :=
  t_check t = Ok tt ∧ (∃ manifest, w_manifest w = Ok manifest ∧ t_manifest t manifest = Ok tt) ∧ w_output w = Ok tt.

Definition rows_written (l : list action) : list row := omap (λ a, match a with WroteRow r => Some r | _ => None end) l.
Definition cases_run (l : list action) : list string := omap (λ a, match a with Ran n _ => Some n | _ => None end) l.

(** From case [index] on: the rows are those of the accepted cases up to the
    first that is not, which is the last one run. *)
Definition swept (index : nat) (cases : list C) (l : list action) (r : res Z) : Prop :=
  (∀ k row, rows_written l !! k = Some row → ∃ c, cases !! k = Some c ∧ case_row (index + k) c row) ∧
  (∀ c, cases !! length (rows_written l) = Some c → ∀ row, ¬ case_row (index + length (rows_written l)) c row) ∧
  cases_run l = take (S (length (rows_written l))) (imap (λ k c, t_name t (index + k) c) cases) ∧
  (r = Ok 0 ↔ length (rows_written l) = length cases) ∧ (length (rows_written l) ≤ length cases)%nat.

Lemma swept_stop index c cases name commands text r :
  name = t_name t index c → (∀ row, ¬ case_row index c row) → r ≠ Ok 0 →
  swept index (c :: cases) [Ran name commands; WroteTranscript name text] r.
Proof using Type.
  intros -> Hno Hr. unfold swept. cbn. split_and!; [done| | |done|lia].
  - intros c' [= <-] row. rewrite Nat.add_0_r. apply Hno.
  - by rewrite Nat.add_0_r.
Qed.

Lemma swept_next index c cases name commands text row l r :
  name = t_name t index c → case_row index c row → swept (S index) cases l r →
  swept index (c :: cases) ([Ran name commands; WroteTranscript name text; WroteRow row] ++ l) r.
Proof using Type.
  intros -> Hrow (H1 & H2 & H3 & H4 & H5). unfold swept. cbn. fold (rows_written l) (cases_run l).
  assert (∀ k, index + S k = S index + k)%nat as Hk by lia. split_and!.
  - intros [|k] row' Hk'; cbn in Hk'; simplify_eq; [exists c; by rewrite Nat.add_0_r|]. rewrite Hk. by apply H1.
  - rewrite Hk. apply H2.
  - rewrite Nat.add_0_r, H3. f_equal. f_equal. apply imap_ext. intros k c' _. cbn. by rewrite Hk.
  - rewrite H4. lia.
  - lia.
Qed.

Lemma sweep_spec index cases : adds (swept index cases) (sweep index cases).
Proof using Type.
  revert index. induction cases as [|c cases IH]; intros index; cbn [sweep].
  { apply adds_ret. unfold swept. cbn. by split_and!; try done. }
  intros l. unfold io_bind, emit, lift, io_ret.
  destruct (t_judge t index c (outcome index c)) as [[row|]|e] eqn:E.
  - unfold write_row. destruct (fits row) eqn:Ef.
    + unfold emit. destruct (IH (S index) (((l ++ [Ran (t_name t index c) (t_commands t index c)]) ++
        [WroteTranscript (t_name t index c) (transcript index c)]) ++ [WroteRow row])) as (l' & -> & H).
      eexists. split; [by rewrite <- !app_assoc|]. rewrite app_assoc. apply swept_next; [done|by split|exact H].
    + unfold throw. cbn. eexists. split; [by rewrite <- app_assoc|]. apply swept_stop; [done| |done].
      intros row' [H ?]. rewrite E in H. injection H as ->. congruence.
  - cbn. eexists. split; [by rewrite <- app_assoc|]. apply swept_stop; [done| |done]. intros row' [H ?]. congruence.
  - cbn. eexists. split; [by rewrite <- app_assoc|]. apply swept_stop; [done| |done]. intros row' [H ?]. congruence.
Qed.

Lemma rows_written_app l k : rows_written (l ++ k) = rows_written l ++ rows_written k.
Proof using Type. apply omap_app. Qed.
Lemma cases_run_app l k : cases_run (l ++ k) = cases_run l ++ cases_run k.
Proof using Type. apply omap_app. Qed.

Lemma prepare_spec l :
  ∃ l', rows_written l' = [] ∧ cases_run l' = [] ∧
    ((prepared ∧ prepare l = (l ++ l', Ok tt)) ∨ (¬ prepared ∧ ∃ e, prepare l = (l ++ l', Err e))).
Proof using Type.
  unfold prepare, prepared, io_bind, lift, emit.
  destruct (t_check t) as [[]|e]; [|exists []; split_and!; [done..|right; rewrite app_nil_r; naive_solver]].
  destruct (w_manifest w) as [m|e]; [|exists []; split_and!; [done..|right; rewrite app_nil_r; naive_solver]].
  destruct (t_manifest t m) as [[]|e] eqn:Em;
    [|exists []; split_and!; [done..|right; rewrite app_nil_r; split; [|by eexists]; naive_solver congruence]].
  destruct (w_output w) as [[]|e]; [|exists []; split_and!; [done..|right; rewrite app_nil_r; naive_solver]].
  exists [MadeOutput; WroteManifest m]. split_and!; [done..|]. left. rewrite <- app_assoc. naive_solver.
Qed.

Lemma main_swept :
  ∃ l r, main [] = (l, r) ∧
  ((¬ prepared ∧ rows_written l = [] ∧ cases_run l = [] ∧ ∃ e, r = Err e) ∨ (prepared ∧ swept 0 (t_cases t) l r)).
Proof using Type.
  unfold main, io_bind. destruct (prepare_spec []) as (l' & R & D & [[Hp ->]|[Hp [e ->]]]); cbn [app].
  - unfold emit. destruct (sweep_spec 0 (t_cases t) (l' ++ [WroteHeader (t_file t) (t_fields t)])) as (l2 & E & H).
    destruct (sweep 0 (t_cases t) _) as [l3 r]. cbn [fst snd] in *. subst l3. eexists _, r. split; [done|].
    right. split; [done|]. unfold swept in *. rewrite !rows_written_app, !cases_run_app, R, D. exact H.
  - eexists _, _. split; [done|]. left. split_and!; [done..|by eexists].
Qed.

(** C11: a sweep that is not prepared runs nothing and raises; otherwise it runs
    its cases in order up to the first that is not accepted, the rows it writes
    are those of the accepted cases, in order, each case's own, and it ends with
    status 0 exactly when every case has its row. *)
Theorem sweep_outcome :
  let '(l, r) := main [] in
  let n := length (rows_written l) in
  (¬ prepared ∧ n = 0%nat ∧ cases_run l = [] ∧ ∃ e, r = Err e) ∨
  (prepared ∧ (n ≤ length (t_cases t))%nat ∧
   cases_run l = take (S n) (imap (λ k c, t_name t k c) (t_cases t)) ∧
   (∀ k row, rows_written l !! k = Some row → ∃ c, t_cases t !! k = Some c ∧ case_row k c row) ∧
   (∀ c, t_cases t !! n = Some c → ∀ row, ¬ case_row n c row) ∧
   (r = Ok 0 ↔ n = length (t_cases t))).
Proof using Type.
  destruct main_swept as (l & r & -> & [(Hn & -> & -> & e & ->)|(Hp & H1 & H2 & H3 & H4 & H5)]); [left|right].
  - split_and!; [done..|by exists e].
  - by split_and!.
Qed.

(** What an accepted case guarantees of its observation and its row. *)
Definition measures (good : nat → C → observed → row → Prop) : Prop :=
  ∀ index c o r, t_judge t index c o = Ok (Some r) → good index c o r.

Lemma swept_measured good index cases l r :
  measures good → swept index cases l r → r = Ok 0 →
  length (rows_written l) = length cases ∧
  ∀ k c, cases !! k = Some c →
    ∃ row, rows_written l !! k = Some row ∧ good (index + k)%nat c (outcome (index + k) c) row.
Proof using Type.
  intros Hm (H1 & _ & _ & H4 & _) H0. apply H4 in H0. split; [done|]. intros k c Hc.
  assert (is_Some (rows_written l !! k)) as [row Hrow].
  { apply lookup_lt_is_Some. rewrite H0. by eapply lookup_lt_Some. }
  exists row. split; [done|]. destruct (H1 k row Hrow) as (c' & Hc' & Hj & _). simplify_eq. by eapply Hm.
Qed.

(** A sweep that ends with status 0 has measured every case. *)
Lemma sweep_measured good l :
  measures good → main [] = (l, Ok 0) →
  prepared ∧ length (rows_written l) = length (t_cases t) ∧
  ∀ k c, t_cases t !! k = Some c → ∃ row, rows_written l !! k = Some row ∧ good k c (outcome k c) row.
Proof using Type.
  intros Hm H. destruct main_swept as (l' & r & E & D). rewrite H in E. injection E as <- <-.
  destruct D as [(_ & _ & _ & e & ?)|[Hp Hs]]; [done|]. split; [done|].
  by apply (swept_measured good 0 (t_cases t) l (Ok 0)).
Qed.
End tool.
End sweep.
Arguments cell : clear implicits.
Arguments row : clear implicits.
Arguments action : clear implicits.
Arguments tool F C : clear implicits.

(** ** The figures of a bandwidth run *)

(** [^\s*{size}\s+{total}\s+([0-9.]+)\s+([0-9.]+)\s+([0-9.]+)\s*$]: the columns. *)
Definition bw_rows (size total : Z) (output : string) : list (list string) :=
  (λ r : string * string * list string, r.2)
    <$> findall true (m_row (m_self (str_of_Z size)) (m_self (str_of_Z total)) m_dotted 3) output.

Definition jetty_counts (output : string) : list string := findall false (m_labelled "Number of jettys") output.
Definition exit_statuses (output : string) : list string := findall false m_exit output.

(** Both guests exited with status 0, used [jettys] Jettys and printed the same
    row of columns. *)
Definition endpoints_agree (jettys size total : Z) (columns : list string) (output : string) : Prop :=
  jetty_counts output = [str_of_Z jettys; str_of_Z jettys] ∧ exit_statuses output = ["0"; "0"] ∧
  bw_rows size total output = [columns; columns].
