(* ===== verification/ReadSweep.v ===== *)
(** * READ sweeps ([tools/run_gem5_read_size_sweep.py], [tools/run_gem5_read_latency_sweep.py],
      [tools/run_read_compare_scan.py])

    Bandwidth and latency of a single Jetty's READs over message sizes, and the
    scan that measures both on gem5 or QEMU with the parsers of the other two. *)

From Stdlib Require Import ZArith Lia Ascii.
From stdpp Require Import base strings numbers option list.
From S2P Require Import Prelude PyStr Json TextScan Shlex Regression Sweep.

Open Scope string_scope.
Open Scope list_scope.
Open Scope Z_scope.

(** [commands[1].replace("LD_LIBRARY_PATH=...", ..., 1)], for a path that is given. *)
Definition with_library_path (path : option string) (client : string) : string :=
  match path with
  | Some p =>
      if String.eqb p EmptyString then client
      else replace_first "LD_LIBRARY_PATH=/lib:/usr/lib" ("LD_LIBRARY_PATH=" +:+ shlex_quote p) client
  | None => client
  end.

Definition invalid (message : string) : exn := Exn ValueError message [].

Section floats.
(** [float(s)]. *)
Context {F : Type} (to_float : string → res F).

(** The single row both guests printed. *)
Definition agreed_row (message : string) (rows : list (list string)) (good : bool) : res (list F) :=
  match rows with
  | [row0; row1] =>
      raise invalid message when negb (good && bool_decide (row0 = row1)) ;;
      mapR to_float row0
  | _ => Err (invalid message)
  end.

Lemma agreed_row_Ok message rows good v :
  agreed_row message rows good = Ok v ↔ ∃ columns, good = true ∧ rows = [columns; columns] ∧ mapR to_float columns = Ok v.
Proof.
  unfold agreed_row. destruct rows as [|r0 [|r1 [|r2 rows]]]; try naive_solver.
  destruct good; cbn; [|naive_solver]. case_bool_decide; naive_solver.
Qed.

End floats.

(** ** Bandwidth over sizes *)

Module ReadSize.

Record args := Args {
  a_sizes : list Z;
  a_target_bytes : option Z;
  a_client_library_path : option string
}.

Definition words (size iterations port : Z) (server : option string) : list string :=
  ["UBSIM_DIST_SYNC=1"; "OPENURMA_DIST_SYNC=1"; "LD_LIBRARY_PATH=/lib:/usr/lib"; "urma_perftest"; "read_bw";
   "-d"; "udma0"; "--eid_idx"; "0"; "--ctp";
   "-s"; str_of_Z size; "-P"; str_of_Z port; "-J"; "1"; "-I"; "0";
   "-T"; "8192"; "-R"; "8192"; "-C"; "524288";
   "-n"; str_of_Z iterations; "-l"; "256"; "-Q"; "1"; "-p"; "0"] ++
  match server with Some s => ["-S"; s] | None => [] end.

Definition command (size iterations port : Z) (server : option string) : string :=
  join " " (words size iterations port server).

Definition parse_result {F} (to_float : string → res F) (output : string) (size iterations : Z) : res (list F) :=
  agreed_row to_float "invalid READ result: jettys={counts}, exits={exits}, rows={rows}" (bw_rows size iterations output)
    (bool_decide (jetty_counts output = ["1"; "1"]) && bool_decide (exit_statuses output = ["0"; "0"])).

Definition iterations (target_bytes : option Z) (size : Z) : Z :=
  match target_bytes with
  | None => 16384
  | Some target => Z.max 256 (Z.min 16384 (target / size / 256 * 256))
  end.

Definition port (index : nat) : Z := 21520 + Z.of_nat index.

Definition commands (a : args) (index : nat) (size : Z) : list string :=
  let n := iterations (a_target_bytes a) size in
  [command size n (port index) None;
   with_library_path (a_client_library_path a) (command size n (port index) (Some "10.0.0.1"))].

Definition transcript (index : nat) (size : Z) : string :=
  "read-bw-" +:+ pad_left "0" 2 (str_of_Z (Z.of_nat index)) +:+ "-s" +:+ str_of_Z size +:+ ".uart.txt".

Section judge.
Context {F : Type} (to_float : string → res F).

(** After the command: [return 1], or the row. *)
Definition judge (a : args) (index : nat) (size : Z) (o : observed) : res (option (row F)) :=
  let n := iterations (a_target_bytes a) size in
  if negb (o_returncode o =? 0) then Ok None
  else match parse_result to_float (o_output o) size n with
       | Ok [peak; average; mpps] =>
           Ok (Some [("sequence", CZ (Z.of_nat index + 1)); ("size_bytes", CZ size); ("iterations", CZ n);
                     ("jettys", CZ 1); ("peak_mib_s", CF peak); ("average_mib_s", CF average);
                     ("message_rate_mpps", CF mpps); ("transcript", CS (transcript index size))])
       | Ok _ => Err (invalid "not enough values to unpack")
       | Err e => if is_a (exn_cls e) ValueError then Ok None else Err e
       end.

Definition check (a : args) : res unit :=
  raise usage "sizes must be positive" when existsb (λ size, size <? 1) (a_sizes a) ;;
  raise usage "target bytes must be positive"
    when match a_target_bytes a with Some t => t <? 1 | None => false end ;;
  Ok tt.

Definition tool (a : args) : tool F Z :=
  Tool Z (check a) (manifest_has ["profile=modern"; "sync_request=roi"; "ub_port_count=1"]) "results.csv"
    ["sequence"; "size_bytes"; "iterations"; "jettys"; "peak_mib_s"; "average_mib_s"; "message_rate_mpps";
     "wall_seconds"; "transcript"]
    (a_sizes a) transcript false (commands a) (judge a).
End judge.
End ReadSize.

(** ** Latency over sizes *)

Module ReadLatency.

Record args := Args {
  a_sizes : list Z;
  a_iterations : Z;
  a_client_library_path : option string
}.

Definition words (size iterations port : Z) (server : option string) : list string :=
  ["UBSIM_DIST_SYNC=1"; "OPENURMA_DIST_SYNC=1"; "LD_LIBRARY_PATH=/lib:/usr/lib"; "urma_perftest"; "read_lat";
   "-d"; "udma0"; "--eid_idx"; "0"; "--ctp";
   "-s"; str_of_Z size; "-P"; str_of_Z port; "-J"; "1"; "-I"; "128";
   "-T"; "8192"; "-R"; "8192"; "-C"; "524288";
   "-n"; str_of_Z iterations; "-Q"; "1"; "-p"; "0"] ++
  match server with Some s => ["-S"; s] | None => [] end.

Definition command (size iterations port : Z) (server : option string) : string :=
  join " " (words size iterations port server).

Definition fields : list string :=
  ["samples"; "minimum_us"; "maximum_us"; "median_us"; "average_us"; "stdev_us"; "p99_us"; "p999_us"; "p9999_us";
   "p99999_us"].

(** The rows of [size]: the samples and the nine figures. *)
Definition rows (size : Z) (output : string) : list (list string) :=
  (λ r : string * string * list string, r.1.2 :: r.2)
    <$> findall true (m_row (m_self (str_of_Z size)) m_digits m_decimal 9) output.

Definition parse_result (output : string) (size : Z) : res (list (string * string)) :=
  match rows size output with
  | [columns] =>
      raise invalid "invalid READ latency result: rows={matches}, exits={exits}, jettys={jettys}"
        when negb (bool_decide (exit_statuses output = ["0"; "0"])) || negb (bool_decide (jetty_counts output = ["1"; "1"])) ;;
      Ok (zip fields columns)
  | _ => Err (invalid "invalid READ latency result: rows={matches}, exits={exits}, jettys={jettys}")
  end.

Definition port (index : nat) : Z := 21800 + Z.of_nat index.

Definition commands (a : args) (index : nat) (size : Z) : list string :=
  [command size (a_iterations a) (port index) None;
   with_library_path (a_client_library_path a) (command size (a_iterations a) (port index) (Some "10.0.0.1"))].

Definition transcript (index : nat) (size : Z) : string :=
  "read-lat-" +:+ pad_left "0" 2 (str_of_Z (Z.of_nat index)) +:+ "-s" +:+ str_of_Z size +:+ ".uart.txt".

Section judge.
Context {F : Type} (decode : list Z → string).

Definition judge (a : args) (index : nat) (size : Z) (o : observed) : res (option (row F)) :=
  if negb (o_returncode o =? 0) || negb (bool_decide (fence_errors decode o = [])) then Ok None
  else match parse_result (o_output o) size with
       | Ok parsed =>
           Ok (Some ([("sequence", CZ (Z.of_nat index + 1)); ("size_bytes", CZ size);
                      ("requested_iterations", CZ (a_iterations a)); ("transcript", CS (transcript index size))] ++
                     ((λ kv : string * string, (kv.1, CS kv.2)) <$> parsed)))
       | Err e => if is_a (exn_cls e) ValueError then Ok None else Err e
       end.

Definition tool (a : args) : tool F Z :=
  Tool Z (Ok tt) (manifest_has ["profile=modern"; "sync_request=roi"; "ub_port_count=1"]) "results.csv"
    (["sequence"; "size_bytes"; "requested_iterations"; "wall_seconds"] ++ fields ++ ["transcript"])
    (a_sizes a) transcript false (commands a) (judge a).
End judge.
End ReadLatency.

(** ** Both, on either simulator *)

Module CompareScan.

Inductive simulator := Gem5 | Qemu.
Inductive kind := Lat | Bw.

Record args := Args {
  a_simulator : simulator;
  a_sizes : list Z;
  a_bw_iterations : Z;
  a_lat_iterations : Z;
  a_bw_target_bytes : Z;
  a_allow_unsynchronized : bool
}.

Definition kind_name (k : kind) : string := match k with Lat => "lat" | Bw => "bw" end.

Definition command (sim : simulator) (k : kind) (size count port : Z) (client : bool) : string :=
  match sim with Gem5 => "UBSIM_DIST_SYNC=1 OPENURMA_DIST_SYNC=1 " | Qemu => EmptyString end +:+
  "LD_LIBRARY_PATH=/lib:/usr/lib urma_perftest read_" +:+ kind_name k +:+
  " -d udma0 --eid_idx 0 --ctp -s " +:+ str_of_Z size +:+ " -P " +:+ str_of_Z port +:+
  " -J 1 -T 8192 -R 8192 -C 524288 -n " +:+ str_of_Z count +:+ " -Q 1 -p 0" +:+
  match k with Bw => " -I 0 -l 256" | Lat => " -I 128" end +:+
  (if client then " -S 10.0.0.1" else EmptyString).

Definition count (a : args) (k : kind) (size : Z) : Z :=
  match k with
  | Lat => a_lat_iterations a
  | Bw => Z.max 256 (Z.min (a_bw_iterations a) (a_bw_target_bytes a / size / 256 * 256))
  end.

Definition port (k : kind) (index : nat) : Z := match k with Lat => 22100 | Bw => 22200 end + Z.of_nat index.

Definition commands (a : args) (k : kind) (index : nat) (size : Z) : list string :=
  command (a_simulator a) k size (count a k size) (port k index) <$> [false; true].

Definition transcript (k : kind) (index : nat) (size : Z) : string :=
  "read-" +:+ kind_name k +:+ "-" +:+ pad_left "0" 2 (str_of_Z (Z.of_nat index)) +:+ "-s" +:+ str_of_Z size +:+ ".uart.txt".

Definition fields (k : kind) : list string :=
  match k with
  | Lat => ["size_bytes"; "iterations"; "samples"; "average_us"; "p99_us"; "wall_seconds"; "transcript"]
  | Bw => ["size_bytes"; "iterations"; "peak_mib_s"; "average_mib_s"; "message_rate_mpps"; "wall_seconds"; "transcript"]
  end.

Section scan.
Context {F : Type} (to_float : string → res F) (decode : list Z → string).

Definition judge (a : args) (k : kind) (index : nat) (size : Z) (o : observed) : res (option (row F)) :=
  let n := count a k size in
  raise Exn RuntimeError "{transcript}: synchronization errors: {errors}" []
    when match a_simulator a with Gem5 => negb (bool_decide (fence_errors decode o = [])) | Qemu => false end ;;
  raise Exn RuntimeError "{transcript}: command failed with {result.returncode}" [PZ (o_returncode o)]
    when negb (o_returncode o =? 0) ;;
  match k with
  | Lat =>
      parsed ← ReadLatency.parse_result (o_output o) size;
      samples ← getitem parsed "samples";
      average ← getitem parsed "average_us";
      p99 ← getitem parsed "p99_us";
      Ok (Some [("size_bytes", CZ size); ("iterations", CZ n); ("samples", CS samples); ("average_us", CS average);
                ("p99_us", CS p99); ("transcript", CS (transcript k index size))])
  | Bw =>
      parsed ← ReadSize.parse_result to_float (o_output o) size n;
      match parsed with
      | [peak; average; rate] =>
          Ok (Some [("size_bytes", CZ size); ("iterations", CZ n); ("peak_mib_s", CF peak); ("average_mib_s", CF average);
                    ("message_rate_mpps", CF rate); ("transcript", CS (transcript k index size))])
      | _ => Err (invalid "not enough values to unpack")
      end
  end.

Definition check (a : args) : res unit :=
  raise usage "sizes must be positive" when existsb (λ size, size <? 1) (a_sizes a) ;; Ok tt.

(** [sync_ready]: whether the run's [sync.ready] exists. *)
Definition check_manifest (a : args) (sync_ready : bool) (manifest : string) : res unit :=
  let marker := match a_simulator a with
                | Gem5 => "sync_request=roi"
                | Qemu => if a_allow_unsynchronized a then "synchronization=off" else "synchronization=required"
                end in
  raise usage "expected a synchronized two-host run"
    when negb (contains (marker +:+ String "010" EmptyString) manifest)
         || negb (contains ("node_count=2" +:+ String "010" EmptyString) manifest) ;;
  raise usage "run ./lab sync before measuring gem5"
    when match a_simulator a with Gem5 => negb sync_ready | Qemu => false end ;;
  Ok tt.

Definition tool (a : args) (sync_ready : bool) (k : kind) : tool F Z :=
  Tool Z (check a) (check_manifest a sync_ready) ("read-" +:+ kind_name k +:+ ".csv") (fields k)
    (a_sizes a) (transcript k) true (commands a k) (judge a k).

(** The scan of one kind. *)
Definition scan (w : world) (t : Sweep.tool F Z) : io (action F) Z :=
  emit (WroteHeader (t_file _ t) (t_fields _ t)) ;;; sweep t w 0 (t_cases _ t).

Definition main (a : args) (sync_ready : bool) (w : world) : io (action F) Z :=
  prepare (tool a sync_ready Lat) w ;;;
  scan w (tool a sync_ready Lat) ;;;
  scan w (tool a sync_ready Bw) ;;;
  io_ret 0.
End scan.
End CompareScan.

(** ** Iterations *)

(** Whole batches of 256 (the posting list), at least one and at most 64; within
    the target volume unless a single batch exceeds it; and no batch fewer than
    the target allows. *)
Theorem iterations_bounds target size :
  1 <= size → 1 <= target →
  let n := ReadSize.iterations (Some target) size in
  256 <= n <= 16384 ∧ n mod 256 = 0 ∧ (n * size <= target ∨ n = 256) ∧ (n = 16384 ∨ target < (n + 256) * size).
Proof.
  intros Hs Ht n. subst n. unfold ReadSize.iterations. set (q := target / size / 256).
  assert (0 <= q) by (unfold q; repeat apply Z.div_pos; lia).
  assert (Hq1 : 256 * q * size <= target).
  { unfold q. pose proof (Z.mul_div_le (target / size) 256). pose proof (Z.mul_div_le target size). nia. }
  assert (Hq2 : target < (256 * q + 256) * size).
  { unfold q. pose proof (Z.mul_succ_div_gt (target / size) 256). pose proof (Z.mul_succ_div_gt target size). nia. }
  assert (H16 : 16384 = 64 * 256) by done.
  assert (∃ m, Z.max 256 (Z.min 16384 (q * 256)) = m * 256 ∧ 1 <= m <= 64 ∧ (m <= q ∨ m = 1) ∧ (m = 64 ∨ q <= m))
    as (m & -> & Hm & H1 & H2).
  { exists (Z.max 1 (Z.min 64 q)). lia. }
  split_and!; [lia|lia|apply Z.mod_mul; lia| |].
  - destruct H1; [left; nia|right; lia].
  - destruct H2; [left; lia|right; nia].
Qed.

(** ** What the guests' shells read *)

(** The library path a client is given. *)
Definition library_path (path : option string) : string :=
  match path with
  | Some p => if String.eqb p EmptyString then "/lib:/usr/lib" else p
  | None => "/lib:/usr/lib"
  end.

(** The first words of a command, with a quoted path or the usual one. *)
Lemma library_words path rest :
  Forall (λ x, plain_word x = true) rest → rest ≠ [] →
  shlex_split (with_library_path path
    (join " " (["UBSIM_DIST_SYNC=1"; "OPENURMA_DIST_SYNC=1"; "LD_LIBRARY_PATH=/lib:/usr/lib"] ++ rest))) =
  Ok (["UBSIM_DIST_SYNC=1"; "OPENURMA_DIST_SYNC=1"; "LD_LIBRARY_PATH=" +:+ library_path path] ++ rest).
Proof.
  intros Hrest Hne. destruct rest as [|x rest]; [done|]. clear Hne.
  set (tail := join " " (x :: rest)).
  assert (∀ v, join " " (["UBSIM_DIST_SYNC=1"; "OPENURMA_DIST_SYNC=1"; v] ++ x :: rest) =
    "UBSIM_DIST_SYNC=1 OPENURMA_DIST_SYNC=1 " +:+ v +:+ " " +:+ tail) as Hj by done.
  assert (∀ v w', spells v w' → shlex_split ("UBSIM_DIST_SYNC=1 OPENURMA_DIST_SYNC=1 " +:+ v +:+ " " +:+ tail) =
    Ok (["UBSIM_DIST_SYNC=1"; "OPENURMA_DIST_SYNC=1"; w'] ++ x :: rest)) as Hs.
  { intros v w' Hv. rewrite <- Hj. apply shlex_split_spells.
    repeat (apply Forall2_cons; split; [try exact Hv; apply spells_plain; reflexivity|]).
    by apply spells_plain_words. }
  rewrite Hj. unfold with_library_path, library_path. destruct path as [p|]; [|apply Hs, spells_plain; reflexivity].
  destruct (String.eqb_spec p EmptyString) as [->|Hp]; [apply Hs, spells_plain; reflexivity|].
  assert (replace_first "LD_LIBRARY_PATH=/lib:/usr/lib" ("LD_LIBRARY_PATH=" +:+ shlex_quote p)
    ("UBSIM_DIST_SYNC=1 OPENURMA_DIST_SYNC=1 " +:+ "LD_LIBRARY_PATH=/lib:/usr/lib" +:+ " " +:+ tail) =
    "UBSIM_DIST_SYNC=1 OPENURMA_DIST_SYNC=1 " +:+ ("LD_LIBRARY_PATH=" +:+ shlex_quote p) +:+ " " +:+ tail) as -> by done.
  apply Hs, spells_glued. reflexivity.
Qed.

Ltac plain :=
  repeat (apply Forall_cons; split;
    [lazymatch goal with |- plain_word (str_of_Z _) = true => apply plain_num | _ => vm_compute; reflexivity end|]);
  apply Forall_nil_2.

(** The guests of a sweep read the options of the case; the client, whatever
    characters its library path has, reads that path. *)
Lemma read_size_words path size n port :
  shlex_split (with_library_path path (ReadSize.command size n port (Some "10.0.0.1"))) =
  Ok (["UBSIM_DIST_SYNC=1"; "OPENURMA_DIST_SYNC=1"; "LD_LIBRARY_PATH=" +:+ library_path path] ++
      drop 3 (ReadSize.words size n port (Some "10.0.0.1"))).
Proof. apply (library_words path (drop 3 (ReadSize.words size n port (Some "10.0.0.1")))); [|done]. plain. Qed.

Lemma read_latency_words path size n port :
  shlex_split (with_library_path path (ReadLatency.command size n port (Some "10.0.0.1"))) =
  Ok (["UBSIM_DIST_SYNC=1"; "OPENURMA_DIST_SYNC=1"; "LD_LIBRARY_PATH=" +:+ library_path path] ++
      drop 3 (ReadLatency.words size n port (Some "10.0.0.1"))).
Proof. apply (library_words path (drop 3 (ReadLatency.words size n port (Some "10.0.0.1")))); [|done]. plain. Qed.

(** The words of a scan's command. *)
Definition scan_words (sim : CompareScan.simulator) (k : CompareScan.kind) (size count port : Z) (client : bool)
    : list string :=
  match sim with CompareScan.Gem5 => ["UBSIM_DIST_SYNC=1"; "OPENURMA_DIST_SYNC=1"] | CompareScan.Qemu => [] end ++
  ["LD_LIBRARY_PATH=/lib:/usr/lib"; "urma_perftest"; "read_" +:+ CompareScan.kind_name k;
   "-d"; "udma0"; "--eid_idx"; "0"; "--ctp"; "-s"; str_of_Z size; "-P"; str_of_Z port;
   "-J"; "1"; "-T"; "8192"; "-R"; "8192"; "-C"; "524288"; "-n"; str_of_Z count; "-Q"; "1"; "-p"; "0"] ++
  match k with CompareScan.Bw => ["-I"; "0"; "-l"; "256"] | CompareScan.Lat => ["-I"; "128"] end ++
  (if client then ["-S"; "10.0.0.1"] else []).

Lemma scan_command_words sim k size count port client :
  shlex_split (CompareScan.command sim k size count port client) = Ok (scan_words sim k size count port client).
Proof.
  assert (CompareScan.command sim k size count port client = join " " (scan_words sim k size count port client)) as ->
    by (destruct sim, k, client; reflexivity).
  apply shlex_split_join. destruct sim, k, client; plain.
Qed.

(** The words the sweep of a kind uses. *)
Definition sweep_words (k : CompareScan.kind) (size count port : Z) (client : bool) : list string :=
  let server := if client then Some "10.0.0.1" else None in
  match k with
  | CompareScan.Bw => ReadSize.words size count port server
  | CompareScan.Lat => ReadLatency.words size count port server
  end.

(** The guests of a scan read the options of the sweep whose parser reads their
    output, in another order; on QEMU without its synchronization settings. *)
Theorem scan_matches_sweeps sim k size count port client :
  ∃ ws, shlex_split (CompareScan.command sim k size count port client) = Ok ws ∧
    ws ≡ₚ (match sim with CompareScan.Gem5 => id | CompareScan.Qemu => drop 2 end) (sweep_words k size count port client).
Proof.
  eexists. split; [apply scan_command_words|]. unfold sweep_words, scan_words, ReadSize.words, ReadLatency.words.
  destruct sim, k, client; cbn [app drop id CompareScan.kind_name]; change id with (λ l : list string, l);
    cbn [app]; solve_Permutation.
Qed.

(** ** What a row says *)

Section measured.
Context {F : Type} (to_float : string → res F) (decode : list Z → string).

(** The row of a size: both guests used one Jetty, exited with status 0 and
    printed the row's figures. *)
Definition size_measured (a : ReadSize.args) (index : nat) (size : Z) (o : observed) (r : row F) : Prop :=
  let n := ReadSize.iterations (ReadSize.a_target_bytes a) size in
  o_returncode o = 0 ∧
  ∃ columns peak average mpps, endpoints_agree 1 size n columns (o_output o) ∧
    mapR to_float columns = Ok [peak; average; mpps] ∧
    r = [("sequence", CZ (Z.of_nat index + 1)); ("size_bytes", CZ size); ("iterations", CZ n);
         ("jettys", CZ 1); ("peak_mib_s", CF peak); ("average_mib_s", CF average);
         ("message_rate_mpps", CF mpps); ("transcript", CS (ReadSize.transcript index size))].

Lemma read_size_parsed output size n v :
  ReadSize.parse_result to_float output size n = Ok v →
  ∃ columns, endpoints_agree 1 size n columns output ∧ mapR to_float columns = Ok v.
Proof.
  intros (columns & Hg & Hrows & Hv)%agreed_row_Ok. apply andb_true_iff in Hg as [H1 H2].
  apply bool_decide_eq_true in H1, H2. exists columns. by split.
Qed.

Lemma read_size_measures a : measures (ReadSize.tool to_float a) (size_measured a).
Proof.
  intros index size o r H. cbn in H. unfold ReadSize.judge in H.
  destruct (Z.eqb_spec (o_returncode o) 0) as [H0|]; [|done]. cbn [negb] in H. split; [done|].
  destruct (ReadSize.parse_result _ _ _ _) as [v|e] eqn:E; [|by destruct (is_a _ _)].
  destruct v as [|peak [|average [|mpps [|? ?]]]]; try done. injection H as <-.
  apply read_size_parsed in E as (columns & Ha & Hv). by exists columns, peak, average, mpps.
Qed.

(** The row of a latency. *)
Definition latency_measured (a : ReadLatency.args) (index : nat) (size : Z) (o : observed) (r : row F) : Prop :=
  o_returncode o = 0 ∧ fence_errors decode o = [] ∧
  ∃ columns, ReadLatency.rows size (o_output o) = [columns] ∧ exit_statuses (o_output o) = ["0"; "0"] ∧
    jetty_counts (o_output o) = ["1"; "1"] ∧
    r = [("sequence", CZ (Z.of_nat index + 1)); ("size_bytes", CZ size);
         ("requested_iterations", CZ (ReadLatency.a_iterations a));
         ("transcript", CS (ReadLatency.transcript index size))] ++
        ((λ kv : string * string, (kv.1, CS kv.2)) <$> zip ReadLatency.fields columns).

Lemma read_latency_parsed output size v :
  ReadLatency.parse_result output size = Ok v →
  ∃ columns, ReadLatency.rows size output = [columns] ∧ exit_statuses output = ["0"; "0"] ∧
    jetty_counts output = ["1"; "1"] ∧ v = zip ReadLatency.fields columns.
Proof.
  unfold ReadLatency.parse_result. destruct (ReadLatency.rows size output) as [|columns [|? ?]]; try done.
  repeat case_bool_decide; try done. intros [= <-]. by exists columns.
Qed.

Lemma read_latency_measures a : measures (ReadLatency.tool decode a) (latency_measured a).
Proof.
  intros index size o r H. cbn in H. unfold ReadLatency.judge in H.
  destruct (Z.eqb_spec (o_returncode o) 0) as [H0|]; [|done]. case_bool_decide as Hf; [|done]. cbn in H.
  destruct (ReadLatency.parse_result _ _) as [v|e] eqn:E; [|by destruct (is_a _ _)]. injection H as <-.
  apply read_latency_parsed in E as (columns & H1 & H2 & H3 & ->). split_and!; [done..|]. by exists columns.
Qed.

(** C17: when the size sweep ends with status 0, there is one row per requested
    size, in order, and each row's figures stand in the transcript of its own
    case, where both guests exited with status 0, used one Jetty and printed the
    same row for exactly that size and that number of iterations. *)
Theorem read_sizes_measured a w l :
  Sweep.main (ReadSize.tool to_float a) w [] = (l, Ok 0) →
  length (rows_written l) = length (ReadSize.a_sizes a) ∧
  ∀ k size, ReadSize.a_sizes a !! k = Some size →
    1 <= size ∧ ∃ row, rows_written l !! k = Some row ∧
      size_measured a k size (outcome (ReadSize.tool to_float a) w k size) row.
Proof.
  intros H. apply (sweep_measured _ _ (size_measured a)) in H as ((Hc & _) & Hlen & Hall); [|apply read_size_measures].
  split; [done|]. intros k size Hk. split; [|by apply Hall]. cbn in Hc. unfold ReadSize.check in Hc.
  destruct (existsb _ _) eqn:E in Hc; [done|]. rewrite <- not_true_iff_false, existsb_exists in E.
  destruct (Z.ltb_spec size 1); [|lia]. exfalso. apply E. exists size. split; [|by apply Z.ltb_lt].
  apply list_elem_of_In. by eapply list_elem_of_lookup_2.
Qed.
End measured.

(** ** A concrete sweep *)

Definition sample_endpoint (size n : Z) : string :=
  let nl := String "010" EmptyString in
  "Number of jettys : 1" +:+ nl +:+ " " +:+ str_of_Z size +:+ " " +:+ str_of_Z n +:+ " 10.5 10.25 0.08" +:+ nl +:+
  "__UBSIM_RC_3460_77__=0" +:+ nl.

Definition sample_args : ReadSize.args := ReadSize.Args [128; 1048576] (Some 67108864) (Some "/opt/my libs").

Definition sample_size_world : world :=
  World (Ok tt)
    (Ok (concat_str ((λ l, l +:+ String "010" EmptyString) <$> ["profile=modern"; "sync_request=roi"; "ub_port_count=1"])))
    (λ name _, let e := if String.eqb name "read-bw-00-s128.uart.txt" then sample_endpoint 128 16384
                        else sample_endpoint 1048576 256 in Observed 0 (e +:+ e) None)
    (λ _, EmptyString).

Lemma iterations_bounds_witness : 1 <= 4096 ∧ 256 <= ReadSize.iterations (Some 1000000) 4096.
Proof. split; [lia|]. exact (proj1 (proj1 (iterations_bounds 1000000 4096 ltac:(lia) ltac:(lia)))). Defined.

Lemma read_sizes_measured_witness :
  ∃ l, Sweep.main (ReadSize.tool (@Ok string) sample_args) sample_size_world [] = (l, Ok 0) ∧
    length (rows_written l) = 2%nat.
Proof.
  destruct (Sweep.main (ReadSize.tool (@Ok string) sample_args) sample_size_world []) as [l r] eqn:H.
  assert (r = Ok 0) as -> by (apply (f_equal snd) in H; vm_compute in H; by rewrite <- H).
  exists l. split; [done|]. exact (proj1 (read_sizes_measured (@Ok string) sample_args sample_size_world l H)).
Defined.

(** The client's shell gets the path in one word. *)
Example sample_client :
  (λ c, shlex_split c) <$> ReadSize.commands sample_args 0 128 !! 1%nat =
  Some (Ok (["UBSIM_DIST_SYNC=1"; "OPENURMA_DIST_SYNC=1"; "LD_LIBRARY_PATH=/opt/my libs"] ++
            drop 3 (ReadSize.words 128 16384 21520 (Some "10.0.0.1")))).
Proof. vm_compute. reflexivity. Qed.
