(* ===== verification/JettySweep.v ===== *)
(** * Jetty sweeps ([tools/run_gem5_write_jetty_sweep.py], [tools/run_gem5_rma_jetty_compare.py],
      [tools/profile_gem5_read_jettys.py])

    Bandwidth as the number of Jettys grows: one-way WRITE, READ against WRITE,
    and READ with the guest's profilers. *)

From Stdlib Require Import ZArith Lia Ascii.
From stdpp Require Import base strings numbers option list.
From S2P Require Import Prelude PyStr Json TextScan Shlex Regression Sweep ReadSweep.

Open Scope string_scope.
Open Scope list_scope.
Open Scope Z_scope.

(** [max] of a nonempty list. *)
Definition max_of (l : list Z) : Z := match l with [] => 0 | x :: l' => foldl Z.max x l' end.

Lemma max_of_ge x l : x ∈ l → x <= max_of l.
Proof.
  assert (∀ l a, a <= foldl Z.max a l ∧ ∀ y, y ∈ l → y <= foldl Z.max a l) as H.
  { clear. induction l as [|b l IH]; intros a; cbn; [split; [lia|by intros y ?%elem_of_nil]|].
    destruct (IH (Z.max a b)) as [H1 H2]. split; [lia|]. intros y [->|Hy]%elem_of_cons; [lia|auto]. }
  destruct l as [|a l]; [by intros ?%elem_of_nil|]. intros [->|Hx]%elem_of_cons; cbn; [exact (proj1 (H l a))|by apply (proj2 (H l a))].
Qed.

(** The guard of a Jetty count: whole iterations per Jetty, and enough of them. *)
Definition bad_count (total_ops least count : Z) : bool :=
  (count <? 1) || negb (total_ops mod count =? 0) || (total_ops / count <? least).

(** The initial window of all Jettys. *)
Definition window (depth total_ops count : Z) : Z := count * Z.min depth (total_ops / count).

(** ** WRITE *)

Module WriteJetty.

Record args := Args {
  a_jettys : list Z;
  a_total_ops : Z;
  a_queue_depth : Z;
  a_jfc_depth : Z;
  a_post_list : Z
}.

Definition command (jettys iterations port : Z) (server : option string) (queue_depth jfc_depth post_list : Z) : string :=
  join " "
    (["UBSIM_DIST_SYNC=1"; "OPENURMA_DIST_SYNC=1"; "LD_LIBRARY_PATH=/lib:/usr/lib"; "urma_perftest"; "write_bw";
      "-d"; "udma0"; "--eid_idx"; "0"; "--ctp"; "-s"; "512"; "-P"; str_of_Z port; "-J"; str_of_Z jettys;
      "--jettys_pre_jfr"; "1"; "-I"; "0"; "-T"; str_of_Z queue_depth; "-R"; str_of_Z queue_depth;
      "-C"; str_of_Z jfc_depth; "-n"; str_of_Z iterations; "-l"; str_of_Z post_list; "-Q"; "1"; "-p"; "0"] ++
     match server with Some s => ["-S"; s] | None => [] end).

Definition parse_result {F} (to_float : string → res F) (output : string) (jettys total_ops : Z) : res (list F) :=
  raise invalid "Jetty headers differ: {counts}"
    when negb (bool_decide (jetty_counts output = [str_of_Z jettys; str_of_Z jettys])) ;;
  raise invalid "guest exit codes differ: {exits}" when negb (bool_decide (exit_statuses output = ["0"; "0"])) ;;
  agreed_row to_float "expected two matching WRITE rows, got {rows}" (bw_rows 512 total_ops output) true.

Definition commands (a : args) (index : nat) (jettys : Z) : list string :=
  (λ server, command jettys (a_total_ops a / jettys) (21520 + Z.of_nat index) server
               (a_queue_depth a) (a_jfc_depth a) (a_post_list a)) <$> [None; Some "10.0.0.1"].

Definition transcript (index : nat) (jettys : Z) : string :=
  "write-bw-512-" +:+ pad_left "0" 2 (str_of_Z (Z.of_nat index)) +:+ "-j" +:+ str_of_Z jettys +:+ ".uart.txt".

Definition check (a : args) : res unit :=
  raise usage "each Jetty count must divide total ops and leave >=post-list ops per Jetty"
    when existsb (bad_count (a_total_ops a) (a_post_list a)) (a_jettys a) ;;
  raise usage "queue depth must be between post-list and 8192"
    when (a_queue_depth a <? a_post_list a) || (8192 <? a_queue_depth a) ;;
  raise usage "JFC depth must cover the maximum total initial Jetty window"
    when a_jfc_depth a <? max_of (window (a_queue_depth a) (a_total_ops a) <$> a_jettys a) ;;
  Ok tt.

Definition check_manifest (manifest : string) : res unit :=
  match manifest_has ["profile=modern"; "sync_request=roi"] manifest with
  | Ok _ => Ok tt
  | Err _ => Err (usage "requires a modern synchronized gem5 run")
  end.

Section judge.
Context {F : Type} (to_float : string → res F) (decode : list Z → string).

Definition judge (a : args) (index : nat) (jettys : Z) (o : observed) : res (option (row F)) :=
  match parse_result to_float (o_output o) jettys (a_total_ops a) with
  | Ok [peak; average; mpps] =>
      if negb (o_returncode o =? 0) || negb (bool_decide (fence_errors decode o = [])) then Ok None
      else Ok (Some [("jettys", CZ jettys); ("iterations_per_jetty", CZ (a_total_ops a / jettys));
                     ("total_operations", CZ (a_total_ops a)); ("queue_depth", CZ (a_queue_depth a));
                     ("jfc_depth", CZ (a_jfc_depth a)); ("post_list", CZ (a_post_list a)); ("peak_mib_s", CF peak);
                     ("average_mib_s", CF average); ("message_rate_mpps", CF mpps);
                     ("transcript", CS (transcript index jettys))])
  | Ok _ => Ok None   (** the unpacking's [ValueError] *)
  | Err e => if is_a (exn_cls e) ValueError then Ok None else Err e
  end.

Definition tool (a : args) : tool F Z :=
  Tool Z (check a) check_manifest "results.csv"
    ["jettys"; "iterations_per_jetty"; "total_operations"; "queue_depth"; "jfc_depth"; "post_list"; "peak_mib_s";
     "average_mib_s"; "message_rate_mpps"; "wall_seconds"; "transcript"]
    (a_jettys a) transcript false (commands a) (judge a).
End judge.
End WriteJetty.

(** ** READ against WRITE *)

Module RmaJetty.

Record args := Args {
  a_size : Z;
  a_jettys : list Z;
  a_total_ops : Z;
  a_depth : Z;
  a_jfc_depth : Z;
  a_post_list : Z;
  a_repeat_one : bool
}.

Record case := Case {
  c_op : string;
  c_jettys : Z;
  c_repeat : bool
}.

Definition words (op : string) (size jettys iterations port : Z) (server : option string)
    (depth jfc_depth post_list : Z) : list string :=
  ["UBSIM_DIST_SYNC=1"; "OPENURMA_DIST_SYNC=1"; "LD_LIBRARY_PATH=/lib:/usr/lib"; "urma_perftest"; op +:+ "_bw";
   "-d"; "udma0"; "--eid_idx"; "0"; "--ctp"; "-s"; str_of_Z size; "-P"; str_of_Z port; "-J"; str_of_Z jettys;
   "--jettys_pre_jfr"; "1"; "-I"; "0"; "-T"; str_of_Z depth; "-R"; str_of_Z depth; "-C"; str_of_Z jfc_depth;
   "-n"; str_of_Z iterations; "-l"; str_of_Z post_list; "-Q"; "1"; "-p"; "0"] ++
  match server with Some s => ["-S"; s] | None => [] end.

Definition command (op : string) (size jettys iterations port : Z) (server : option string)
    (depth jfc_depth post_list : Z) : string :=
  join " " (words op size jettys iterations port server depth jfc_depth post_list).

Definition parse_result {F} (to_float : string → res F) (output : string) (size jettys total_ops : Z) : res (list F) :=
  agreed_row to_float "invalid result: jettys={counts}, exits={exits}, rows={rows}" (bw_rows size total_ops output)
    (bool_decide (jetty_counts output = [str_of_Z jettys; str_of_Z jettys]) &&
     bool_decide (exit_statuses output = ["0"; "0"])).

Definition cases (a : args) : list case :=
  (j ← a_jettys a; op ← ["read"; "write"]; [Case op j false]) ++
  (if a_repeat_one a then op ← ["read"; "write"]; [Case op 1 true] else []).

Definition commands (a : args) (index : nat) (c : case) : list string :=
  (λ server, command (c_op c) (a_size a) (c_jettys c) (a_total_ops a / c_jettys c) (21600 + Z.of_nat index) server
               (a_depth a) (a_jfc_depth a) (a_post_list a)) <$> [None; Some "10.0.0.1"].

Definition transcript (a : args) (index : nat) (c : case) : string :=
  pad_left "0" 2 (str_of_Z (Z.of_nat index)) +:+ "-" +:+ c_op c +:+ "-s" +:+ str_of_Z (a_size a) +:+
  "-j" +:+ str_of_Z (c_jettys c) +:+ (if c_repeat c then "-repeat" else EmptyString) +:+ ".uart.txt".

Definition check (a : args) : res unit :=
  raise usage "invalid size, post-list, or queue depth"
    when (a_size a <? 1) || (a_post_list a <? 1) || (a_depth a <? a_post_list a) || (8192 <? a_depth a) ;;
  raise usage "each Jetty count must divide total ops and leave >=post-list ops per Jetty"
    when existsb (bad_count (a_total_ops a) (a_post_list a)) (a_jettys a) ;;
  raise usage "JFC depth cannot cover the maximum aggregate Jetty window"
    when a_jfc_depth a <? max_of (window (a_depth a) (a_total_ops a) <$> a_jettys a) ;;
  Ok tt.

Section judge.
Context {F : Type} (to_float : string → res F) (decode : list Z → string).

Definition judge (a : args) (index : nat) (c : case) (o : observed) : res (option (row F)) :=
  match parse_result to_float (o_output o) (a_size a) (c_jettys c) (a_total_ops a) with
  | Ok [peak; average; mpps] =>
      if negb (o_returncode o =? 0) || negb (bool_decide (fence_errors decode o = [])) then Ok None
      else Ok (Some [("sequence", CZ (Z.of_nat index + 1)); ("operation", CS (c_op c)); ("jettys", CZ (c_jettys c));
                     ("repeat", CZ (if c_repeat c then 1 else 0)); ("size_bytes", CZ (a_size a));
                     ("iterations_per_jetty", CZ (a_total_ops a / c_jettys c));
                     ("total_operations", CZ (a_total_ops a)); ("queue_depth", CZ (a_depth a));
                     ("jfc_depth", CZ (a_jfc_depth a)); ("post_list", CZ (a_post_list a)); ("peak_mib_s", CF peak);
                     ("average_mib_s", CF average); ("message_rate_mpps", CF mpps);
                     ("transcript", CS (transcript a index c))])
  | Ok _ => Ok None
  | Err e => if is_a (exn_cls e) ValueError then Ok None else Err e
  end.

Definition tool (a : args) : tool F case :=
  Tool case (check a)
    (manifest_has ["profile=modern"; "sync_request=roi"; "ub_port_count=1"; "peer_link_rate_gbps=400"]) "results.csv"
    ["sequence"; "operation"; "jettys"; "repeat"; "size_bytes"; "iterations_per_jetty"; "total_operations";
     "queue_depth"; "jfc_depth"; "post_list"; "peak_mib_s"; "average_mib_s"; "message_rate_mpps"; "wall_seconds";
     "transcript"]
    (cases a) (transcript a) false (commands a) (judge a).
End judge.
End RmaJetty.

(** ** READ with the guest's profilers *)

Module ReadJettys.

Record args := Args {
  a_jettys : list Z;
  a_total_ops : Z;
  a_aggregate_depth : option Z;
  a_client_preload : option string;
  a_client_binary : option string;
  a_client_env : option string;
  a_client_stats_helper : option string;
  a_client_library_path : option string;
  a_pin_cpu : option Z;
  a_client_provider_profile : bool;
  a_no_peak : bool
}.

Definition depth : Z := 8192.
Definition jfc_depth : Z := 524288.
Definition post_list : Z := 256.
Definition size : Z := 128.

(** An option that is given and not empty. *)
Definition given (o : option string) : option string := s ← o; if String.eqb s EmptyString then None else Some s.

Definition aggregate (a : args) : option Z := d ← a_aggregate_depth a; if d =? 0 then None else Some d.

Definition case_depth (a : args) (jettys : Z) : Z :=
  match aggregate a with Some d => d / jettys | None => depth end.

Definition check (a : args) : res unit :=
  raise usage "--pin-cpu must be nonnegative" when match a_pin_cpu a with Some c => c <? 0 | None => false end ;;
  raise usage "invalid Jetty count, iterations, or aggregate depth"
    when existsb (λ j, (j <? 1) || negb (a_total_ops a mod j =? 0) ||
                       match aggregate a with Some d => negb (d mod j =? 0) | None => false end ||
                       (a_total_ops a / j <? case_depth a j)) (a_jettys a) ;;
  raise usage "aggregate depth must cover each posting list and be <= 8192"
    when match aggregate a with
         | Some d => (d <? max_of (a_jettys a) * post_list) || (depth <? d)
         | None => false
         end ;;
  Ok tt.

Definition fields : list string :=
  ["sequence"; "jettys"; "iterations_per_jetty"; "total_operations"; "effective_jfs_depth"; "peak_mib_s";
    "average_mib_s"; "message_rate_mpps"; "wall_seconds"; "transcript"; "phase_frequency_hz";
    "phase_span_ticks"; "phase_post_jetty_calls"; "phase_post_jetty_ticks"; "phase_post_jfs_calls";
    "phase_post_jfs_ticks"; "phase_poll_calls"; "phase_poll_ticks"; "phase_poll_empty_calls";
    "phase_poll_empty_ticks"; "phase_poll_positive_calls"; "phase_poll_positive_ticks"; "phase_cqes";
    "phase_other_ticks"; "phase_gap_post_post_ticks"; "phase_gap_post_poll_ticks";
    "phase_gap_poll_post_ticks"; "phase_gap_poll_poll_ticks"; "phase_gap_post_post_calls";
    "phase_gap_post_poll_calls"; "phase_gap_poll_post_calls"; "phase_gap_poll_poll_calls";
    "phase_gap_post_post_max"; "phase_gap_post_poll_max"; "phase_gap_poll_post_max";
    "phase_gap_poll_poll_max"; "phase_post_max"; "phase_poll_max"; "loop_frequency_hz"; "loop_outer_loops";
    "loop_jetty_visits"; "loop_post_calls"; "loop_poll_calls"; "loop_cqes"; "loop_empty_polls";
    "loop_scan_ticks"; "loop_post_ticks"; "loop_poll_ticks"; "loop_account_ticks"; "inner_frequency_hz";
    "inner_post_calls"; "inner_post_wrs"; "inner_post_lock_calls"; "inner_post_total_ticks";
    "inner_post_encode_ticks"; "inner_post_barrier_ticks"; "inner_post_db_ticks"; "inner_poll_calls";
    "inner_poll_cqes"; "inner_poll_empty_calls"; "inner_poll_lock_calls"; "inner_poll_total_ticks";
    "inner_poll_scan_ticks"; "inner_poll_db_ticks"; "inner_cqe_samples"; "inner_cqe_lookup_ticks";
    "inner_cqe_barrier_ticks"; "inner_cqe_parse_ticks"; "inner_cqe_timer_pair_ticks";
    "inner_cqe_relookup_ticks"; "inner_wqe_samples"; "inner_wqe_check_ticks"; "inner_wqe_set_ticks";
    "inner_wqe_queue_ticks"; "inner_wqe_timer_pair_ticks"; "inner_sqe_samples"; "inner_sqe_check_ticks";
    "inner_sqe_prepare_ticks"; "inner_sqe_parse_ticks"].

(** The server's and the client's command. *)
Definition server_command (a : args) (index : nat) (jettys : Z) : string :=
  let server := RmaJetty.command "read" size jettys (a_total_ops a / jettys) (21700 + Z.of_nat index) None
                  (case_depth a jettys) jfc_depth post_list in
  let server := if a_no_peak a then server +:+ " -N" else server in
  match a_pin_cpu a with
  | Some cpu => replace_first "urma_perftest" ("taskset " +:+ hex_of_nonneg (Z.shiftl 1 cpu) +:+ " urma_perftest") server
  | None => server
  end.

Definition client_command (a : args) (index : nat) (jettys : Z) : string :=
  let client := RmaJetty.command "read" size jettys (a_total_ops a / jettys) (21700 + Z.of_nat index) (Some "10.0.0.1")
                  (case_depth a jettys) jfc_depth post_list in
  let client := if a_no_peak a then client +:+ " -N" else client in
  let client := match given (a_client_preload a) with
                | Some p => "LD_PRELOAD=" +:+ shlex_quote p +:+ " " +:+ client
                | None => client
                end in
  let client := match given (a_client_binary a) with
                | Some b => replace_first "urma_perftest" (shlex_quote b) client
                | None => client
                end in
  let client := with_library_path (a_client_library_path a) client in
  let client := match a_pin_cpu a with
                | Some cpu =>
                    let target := match given (a_client_binary a) with Some b => shlex_quote b | None => "urma_perftest" end in
                    replace_first target ("taskset " +:+ hex_of_nonneg (Z.shiftl 1 cpu) +:+ " " +:+ target) client
                | None => client
                end in
  let client := match given (a_client_env a) with Some e => e +:+ " " +:+ client | None => client end in
  match given (a_client_stats_helper a) with
  | Some h =>
      shlex_quote h +:+ " r && ( " +:+ client +:+ " ); __ubsim_read_rc=$?; " +:+ shlex_quote h +:+ " d; " +:+
      "test $__ubsim_read_rc -eq 0"
  | None => client
  end.

Definition commands (a : args) (index : nat) (jettys : Z) : list string :=
  [server_command a index jettys; client_command a index jettys].

Definition transcript (index : nat) (jettys : Z) : string :=
  pad_left "0" 2 (str_of_Z (Z.of_nat index)) +:+ "-read-s" +:+ str_of_Z size +:+ "-j" +:+ str_of_Z jettys +:+ ".uart.txt".

(** A line that begins with the tag in brackets and a space: its rest. *)
Definition m_profile (tag : string) : matcher string := λ s,
  a ← m_lit ("[" +:+ tag +:+ "] ") s; Some (span (λ c, negb (Ascii.eqb c "010"%char)) a.2).

(** The assignments of a profiler's only row, their names prefixed; [None] for
    an error: not one row, or a count of completions that is not the total. *)
Definition profile (tag prefix count : string) (total : Z) (output : string) : option (list (string * string)) :=
  match findall true (m_profile tag) output with
  | [text] =>
      let phase := foldl (λ d kv, dset d (prefix +:+ kv.1) kv.2) [] (findall false m_assign text) in
      if bool_decide ((v ← dget phase (prefix +:+ count); parse_nat v) = Some total) then Some phase else None
  | _ => None
  end.

(** The rows of the profilers that are asked for, or [None] for an error. *)
Definition phases (a : args) (output : string) : option (list (string * string)) :=
  let total := a_total_ops a in
  phase ← (if bool_decide (is_Some (given (a_client_preload a)))
           then profile "URMA_PHASE" "phase_" "cqes" total output else Some []);
  loop ← (if bool_decide (is_Some (given (a_client_binary a)))
          then profile "URMA_LOOP" "loop_" "cqes" total output else Some []);
  inner ← (if a_client_provider_profile a
           then profile "UDMA_INNER" "inner_" "poll_cqes" total output else Some []);
  Some (dupdate (dupdate phase loop) inner).

Section judge.
Context {F : Type} (to_float : string → res F) (decode : list Z → string).
(** Reading what was added to the nodes' [stats.txt] during a case. *)
Context (stats : nat → res unit).

Definition judge (a : args) (index : nat) (jettys : Z) (o : observed) : res (option (row F)) :=
  _ ← stats index;
  match RmaJetty.parse_result to_float (o_output o) size jettys (a_total_ops a), phases a (o_output o) with
  | Ok [peak; average; mpps], Some phase =>
      if negb (o_returncode o =? 0) || negb (bool_decide (fence_errors decode o = [])) then Ok None
      else Ok (Some ([("sequence", CZ (Z.of_nat index + 1)); ("jettys", CZ jettys);
                      ("iterations_per_jetty", CZ (a_total_ops a / jettys)); ("total_operations", CZ (a_total_ops a));
                      ("effective_jfs_depth", CZ (case_depth a jettys)); ("peak_mib_s", CF peak);
                      ("average_mib_s", CF average); ("message_rate_mpps", CF mpps);
                      ("transcript", CS (transcript index jettys))] ++
                     ((λ kv : string * string, (kv.1, CS kv.2)) <$> phase)))
  | Err e, _ => if is_a (exn_cls e) ValueError then Ok None else Err e
  | _, _ => Ok None
  end.

Definition tool (a : args) : tool F Z :=
  Tool Z (check a)
    (manifest_has ["profile=modern"; "sync_request=roi"; "ub_port_count=1"; "peer_link_rate_gbps=400"]) "results.csv"
    fields (a_jettys a) transcript false (commands a) (judge a).
End judge.
End ReadJettys.

(** ** What the checks of the arguments guarantee *)

(** The work divides into [count] Jettys of at least a posting list each, and
    their initial windows fit the completion queue. *)
Definition fits_queues (total_ops post_list depth jfc_depth count : Z) : Prop :=
  1 <= count ∧ count * (total_ops / count) = total_ops ∧ post_list <= total_ops / count ∧
  post_list <= depth <= 8192 ∧ window depth total_ops count <= jfc_depth.

Lemma bad_count_false total least count :
  bad_count total least count = false ↔ 1 <= count ∧ total mod count = 0 ∧ least <= total / count.
Proof. unfold bad_count. rewrite !orb_false_iff, negb_false_iff, !Z.ltb_ge, Z.eqb_eq. tauto. Qed.

Lemma divides total count : 1 <= count → total mod count = 0 → count * (total / count) = total.
Proof. intros H1 H2. pose proof (Z.div_mod total count). lia. Qed.

Lemma existsb_false {A} (f : A → bool) l : existsb f l = false ↔ ∀ x, x ∈ l → f x = false.
Proof.
  rewrite <- not_true_iff_false, existsb_exists. setoid_rewrite <- list_elem_of_In. split.
  - intros H x Hx. apply not_true_iff_false. intros Hf. apply H. by exists x.
  - intros H (x & Hx & Hf). by rewrite H in Hf.
Qed.

(** The checks that the WRITE sweep and the comparison share. *)
Lemma counts_fit total post_list depth jfc_depth jettys :
  existsb (bad_count total post_list) jettys = false →
  post_list <= depth <= 8192 → max_of (window depth total <$> jettys) <= jfc_depth →
  ∀ j, j ∈ jettys → fits_queues total post_list depth jfc_depth j.
Proof.
  intros H Hd Hm j Hj. apply (proj1 (existsb_false _ _)) with (x := j) in H; [|done].
  apply bad_count_false in H as (H1 & H2 & H3). unfold fits_queues. split_and!; try lia; [by apply divides|].
  etransitivity; [|exact Hm]. apply max_of_ge, list_elem_of_fmap. by exists j.
Qed.

(** A single Jetty has the smallest window. *)
Lemma one_fits total post_list depth jfc_depth j :
  0 <= depth → 1 <= post_list →
  fits_queues total post_list depth jfc_depth j → fits_queues total post_list depth jfc_depth 1.
Proof.
  unfold fits_queues, window. intros Hd Hp (H1 & H2 & H3 & H4 & H5). rewrite Z.div_1_r, Z.mul_1_l.
  set (q := total / j) in *. split_and!; try lia; nia.
Qed.

(** C34: a write or RMA Jetty sweep whose arguments pass its checks asks of each of
    its cases, the repeated ones included, for work that divides evenly over the
    Jettys, at least a posting list each, send queues between a posting list and
    8192, and a completion queue that holds the initial windows of all Jettys.  The
    profiled READ sweep's checks give even division, send queues between its
    posting list and 8192, work for at least one full queue a Jetty, and an
    aggregate depth shared evenly; its completion queue holds the initial windows
    exactly when an aggregate depth is given or the case has at most 64 Jettys. *)
Theorem jetty_sweeps_fit :
  (∀ a j, WriteJetty.check a = Ok tt → j ∈ WriteJetty.a_jettys a →
     fits_queues (WriteJetty.a_total_ops a) (WriteJetty.a_post_list a) (WriteJetty.a_queue_depth a)
       (WriteJetty.a_jfc_depth a) j) ∧
  (∀ a c, RmaJetty.check a = Ok tt → RmaJetty.a_jettys a ≠ [] → c ∈ RmaJetty.cases a →
     fits_queues (RmaJetty.a_total_ops a) (RmaJetty.a_post_list a) (RmaJetty.a_depth a) (RmaJetty.a_jfc_depth a)
       (RmaJetty.c_jettys c)) ∧
  (∀ a j, ReadJettys.check a = Ok tt → j ∈ ReadJettys.a_jettys a →
     1 <= j ∧ j * (ReadJettys.a_total_ops a / j) = ReadJettys.a_total_ops a ∧
     ReadJettys.case_depth a j <= ReadJettys.a_total_ops a / j ∧
     256 <= ReadJettys.case_depth a j <= 8192 ∧
     (∀ d, ReadJettys.aggregate a = Some d → j * ReadJettys.case_depth a j = d) ∧
     (window (ReadJettys.case_depth a j) (ReadJettys.a_total_ops a) j <= ReadJettys.jfc_depth ↔
      ReadJettys.aggregate a ≠ None ∨ j <= 64)).
Proof.
  split_and!.
  - intros a j H Hj. unfold WriteJetty.check in H. py_inv. bool_inv. eapply counts_fit; [eassumption|lia|lia|done].
  - intros a c H Hne Hc. unfold RmaJetty.check in H. py_inv. bool_inv.
    assert (∀ j, j ∈ RmaJetty.a_jettys a → fits_queues (RmaJetty.a_total_ops a) (RmaJetty.a_post_list a)
      (RmaJetty.a_depth a) (RmaJetty.a_jfc_depth a) j) as Hfit
      by (apply counts_fit; [assumption|lia|lia]).
    unfold RmaJetty.cases in Hc. apply elem_of_app in Hc as [Hc|Hc].
    + apply list_elem_of_bind in Hc as (j & Hc & Hj). apply list_elem_of_bind in Hc as (op & Hc & _).
      apply list_elem_of_singleton in Hc as ->. by apply Hfit.
    + destruct (RmaJetty.a_repeat_one a); [|by apply elem_of_nil in Hc].
      apply list_elem_of_bind in Hc as (op & Hc & _). apply list_elem_of_singleton in Hc as ->. cbn.
      destruct (RmaJetty.a_jettys a) as [|j l]; [done|]. apply (one_fits _ _ _ _ j); [lia|lia|]. apply Hfit. by left.
  - intros a j H Hj. unfold ReadJettys.check in H. py_inv. bool_inv.
    match goal with H : existsb _ _ = false |- _ => apply (proj1 (existsb_false _ _)) with (x := j) in H; [|done] end.
    bool_inv. split; [done|]. split; [by apply divides|]. split; [done|].
    pose proof (max_of_ge _ _ Hj) as Hmax. unfold ReadJettys.case_depth in *.
    unfold window, ReadJettys.jfc_depth.
    destruct (ReadJettys.aggregate a) as [d|]; [|unfold ReadJettys.depth in *; split_and!; [lia|lia|done|rewrite Z.min_l by lia]].
    2:{ split; [intros Hw; right; lia|]. intros [?|?]; [done|lia]. }
    bool_inv.
    unfold ReadJettys.post_list, ReadJettys.depth in *. assert (d = j * (d / j)) as Hd by (symmetry; by apply divides).
    set (q := d / j) in *. split_and!; [nia|nia|by intros ? [= <-]|]. rewrite Z.min_l by lia.
    split; [intros _; by left|]. intros _. lia.
Qed.

(** 128 Jettys of 8192 operations pass the profiled READ sweep's checks, with
    initial windows of 1048576 on a completion queue of 524288. *)
Example read_windows_overflow :
  let a := ReadJettys.Args [128] 1048576 None None None None None None None false false in
  ReadJettys.check a = Ok tt ∧ window (ReadJettys.case_depth a 128) 1048576 128 = 1048576 ∧
  ReadJettys.jfc_depth = 524288.
Proof. vm_compute. by split_and!. Qed.

(** ** What a row says *)

Section measured.
Context {F : Type} (to_float : string → res F) (decode : list Z → string).

Lemma rma_parsed output size jettys total v :
  RmaJetty.parse_result to_float output size jettys total = Ok v →
  ∃ columns, endpoints_agree jettys size total columns output ∧ mapR to_float columns = Ok v.
Proof.
  intros (columns & Hg & Hrows & Hv)%agreed_row_Ok. apply andb_true_iff in Hg as [H1 H2].
  apply bool_decide_eq_true in H1, H2. exists columns. by split.
Qed.

Lemma write_parsed output jettys total v :
  WriteJetty.parse_result to_float output jettys total = Ok v →
  ∃ columns, endpoints_agree jettys 512 total columns output ∧ mapR to_float columns = Ok v.
Proof.
  unfold WriteJetty.parse_result. repeat case_bool_decide; try done. cbn.
  intros (columns & _ & Hrows & Hv)%agreed_row_Ok. exists columns. by split.
Qed.

(** The two guests and the simulators' time fences accept the case, and its
    figures are those both guests printed. *)
Definition case_measured (jettys size total : Z) (figures : list F) (o : observed) : Prop :=
  o_returncode o = 0 ∧ fence_errors decode o = [] ∧
  ∃ columns, endpoints_agree jettys size total columns (o_output o) ∧ mapR to_float columns = Ok figures.

Lemma write_measures a :
  measures (WriteJetty.tool to_float decode a) (λ index j o r, ∃ peak average mpps,
    case_measured j 512 (WriteJetty.a_total_ops a) [peak; average; mpps] o ∧
    dget r "jettys" = Some (CZ j) ∧ dget r "peak_mib_s" = Some (CF peak) ∧ dget r "average_mib_s" = Some (CF average) ∧
    dget r "message_rate_mpps" = Some (CF mpps) ∧ dget r "transcript" = Some (CS (WriteJetty.transcript index j))).
Proof.
  intros index j o r H. cbn in H. unfold WriteJetty.judge in H.
  destruct (WriteJetty.parse_result _ _ _ _) as [v|e] eqn:E; [|by destruct (is_a _ _)].
  destruct v as [|peak [|average [|mpps [|? ?]]]]; try done.
  destruct (Z.eqb_spec (o_returncode o) 0) as [H0|]; [|done]. case_bool_decide as Hf; [|done]. injection H as <-.
  apply write_parsed in E as (columns & Ha & Hv). exists peak, average, mpps.
  split; [|done]. split_and!; [done..|]. by exists columns.
Qed.

Lemma rma_measures a :
  measures (RmaJetty.tool to_float decode a) (λ index c o r, ∃ peak average mpps,
    case_measured (RmaJetty.c_jettys c) (RmaJetty.a_size a) (RmaJetty.a_total_ops a) [peak; average; mpps] o ∧
    dget r "operation" = Some (CS (RmaJetty.c_op c)) ∧ dget r "jettys" = Some (CZ (RmaJetty.c_jettys c)) ∧
    dget r "peak_mib_s" = Some (CF peak) ∧ dget r "average_mib_s" = Some (CF average) ∧
    dget r "message_rate_mpps" = Some (CF mpps) ∧ dget r "transcript" = Some (CS (RmaJetty.transcript a index c))).
Proof.
  intros index c o r H. cbn in H. unfold RmaJetty.judge in H.
  destruct (RmaJetty.parse_result _ _ _ _) as [v|e] eqn:E; [|by destruct (is_a _ _)].
  destruct v as [|peak [|average [|mpps [|? ?]]]]; try done.
  destruct (Z.eqb_spec (o_returncode o) 0) as [H0|]; [|done]. case_bool_decide as Hf; [|done]. injection H as <-.
  apply rma_parsed in E as (columns & Ha & Hv). exists peak, average, mpps.
  split; [|done]. split_and!; [done..|]. by exists columns.
Qed.

(** A profiler's row counts as many completions as the case had operations. *)
Lemma profile_Some tag prefix count total output phase :
  ReadJettys.profile tag prefix count total output = Some phase →
  ∃ text v, findall true (ReadJettys.m_profile tag) output = [text] ∧
    dget phase (prefix +:+ count) = Some v ∧ parse_nat v = Some total.
Proof.
  unfold ReadJettys.profile. destruct (findall _ _ _) as [|text [|? ?]]; try done.
  case_bool_decide as H; [|done]. intros [= <-]. apply bind_Some in H as (v & Hv & Hn). by exists text, v.
Qed.

(** The keys of a profiler's row bear its prefix. *)
Lemma profile_keys tag prefix count total output phase k v :
  ReadJettys.profile tag prefix count total output = Some phase → dget phase k = Some v → startswith k prefix = true.
Proof.
  unfold ReadJettys.profile. destruct (findall _ _ _) as [|text [|? ?]]; try done.
  case_bool_decide; [|done]. intros [= <-]. generalize (findall false m_assign text). intros l.
  assert (∀ d, (∀ k v, dget d k = Some v → startswith k prefix = true) →
    ∀ k v, dget (foldl (λ d kv, dset d (prefix +:+ kv.1) kv.2) d l) k = Some v → startswith k prefix = true) as H'.
  { clear. induction l as [|[x y] l IH]; intros d Hd k v; cbn; [apply Hd|]. apply IH. intros k' v'. rewrite dget_dset.
    destruct (String.eqb_spec k' (prefix +:+ x)) as [->|]; [intros _; apply startswith_app|apply Hd]. }
  by apply H'.
Qed.

Lemma profile_NoDup tag prefix count total output phase :
  ReadJettys.profile tag prefix count total output = Some phase → NoDup (keys phase).
Proof.
  unfold ReadJettys.profile. destruct (findall _ _ _) as [|text [|? ?]]; try done.
  case_bool_decide; [|done]. intros [= <-]. generalize (findall false m_assign text). intros l.
  assert (∀ d, NoDup (keys d) → NoDup (keys (foldl (λ d kv, dset d (prefix +:+ kv.1) kv.2) d l))) as H'.
  { clear. induction l as [|[x y] l IH]; intros d Hd; cbn; [done|]. by apply IH, dset_NoDup. }
  apply H', NoDup_nil_2.
Qed.

(** Each profiler that is asked for counted the case's operations. *)
Lemma phases_counts a output phase :
  ReadJettys.phases a output = Some phase →
  (is_Some (ReadJettys.given (ReadJettys.a_client_preload a)) →
     ∃ v, dget phase "phase_cqes" = Some v ∧ parse_nat v = Some (ReadJettys.a_total_ops a)) ∧
  (is_Some (ReadJettys.given (ReadJettys.a_client_binary a)) →
     ∃ v, dget phase "loop_cqes" = Some v ∧ parse_nat v = Some (ReadJettys.a_total_ops a)) ∧
  (ReadJettys.a_client_provider_profile a = true →
     ∃ v, dget phase "inner_poll_cqes" = Some v ∧ parse_nat v = Some (ReadJettys.a_total_ops a)).
Proof.
  unfold ReadJettys.phases. intros H.
  apply bind_Some in H as (p & Hp & H). apply bind_Some in H as (lo & Hlo & H). apply bind_Some in H as (inn & Hin & H).
  injection H as <-.
  assert (∀ k v, dget lo k = Some v → startswith k "loop_" = true) as Klo.
  { intros k v Hk. destruct (bool_decide _) in Hlo; [by eapply profile_keys|]. injection Hlo as <-. done. }
  assert (∀ k v, dget inn k = Some v → startswith k "inner_" = true) as Kin.
  { intros k v Hk. destruct (ReadJettys.a_client_provider_profile a); [by eapply profile_keys|]. injection Hin as <-. done. }
  assert (NoDup (keys lo)) as Dlo.
  { destruct (bool_decide _) in Hlo; [by eapply profile_NoDup|]. injection Hlo as <-. apply NoDup_nil_2. }
  assert (NoDup (keys inn)) as Din.
  { destruct (ReadJettys.a_client_provider_profile a); [by eapply profile_NoDup|]. injection Hin as <-. apply NoDup_nil_2. }
  assert (∀ k, startswith k "loop_" = false → dget lo k = None) as Nlo.
  { intros k Hk. destruct (dget lo k) eqn:E; [|done]. apply Klo in E. congruence. }
  assert (∀ k, startswith k "inner_" = false → dget inn k = None) as Nin.
  { intros k Hk. destruct (dget inn k) eqn:E; [|done]. apply Kin in E. congruence. }
  split_and!.
  - intros Hg. rewrite bool_decide_true in Hp by done. apply profile_Some in Hp as (_ & v & _ & Hv & Hn).
    exists v. split; [|done]. rewrite !dget_dupdate, Nin, Nlo by done. exact Hv.
  - intros Hg. rewrite bool_decide_true in Hlo by done. apply profile_Some in Hlo as (_ & v & _ & Hv & Hn).
    exists v. split; [|done]. change ("loop_" +:+ "cqes") with "loop_cqes" in Hv. by rewrite !dget_dupdate, Nin, Hv by done.
  - intros Hg. rewrite Hg in Hin. apply profile_Some in Hin as (_ & v & _ & Hv & Hn).
    exists v. split; [|done]. change ("inner_" +:+ "poll_cqes") with "inner_poll_cqes" in Hv. by rewrite !dget_dupdate, Hv.
Qed.
End measured.
