(* ===== verification/Rsp.v ===== *)
(** * The remote GDB probe ([tools/probe_gem5_gdb.py])

    Packets of GDB's remote serial protocol, the requests of the probe over a
    stream socket, and what a stub that answers them lets the probe report. *)

From Stdlib Require Import ZArith Lia Ascii.
From stdpp Require Import base strings numbers option list.
From S2P Require Import Prelude PyStr ElfFlat.

Open Scope string_scope.
Open Scope list_scope.
Open Scope Z_scope.

(** ** Packets *)

(** [s.encode("ascii")] and [b.decode("ascii")]: the same bytes. *)
Definition ascii_only (s : string) : bool := str_forallb (λ c, code c <? 128) s.
Definition ascii_text (s : string) : res string :=
  raise Exn UnicodeDecodeError "'ascii' codec can't decode" [] when negb (ascii_only s) ;; Ok s.

(** [sum(raw)]. *)
Fixpoint byte_sum (s : string) : Z := match s with EmptyString => 0 | String c s' => code c + byte_sum s' end.

Definition packet (payload : string) : string :=
  "$" +:+ payload +:+ "#" +:+ hex_padded 2 (Z.land (byte_sum payload) 255).

(** ** The socket *)

(** What will arrive; for each [recv(2)], whether both bytes are there; what was
    sent. *)
Record sock := Sock {
  k_in : string;
  k_two : list bool;
  k_sent : list string
}.

(** A body over the socket; [None]: still running when the fuel is spent. *)
Definition rsp (A : Type) : Type := sock → option (res A * sock).

Definition rsp_ret {A} (r : res A) : rsp A := λ k, Some (r, k).
Definition rsp_bind {A B} (m : rsp A) (f : A → rsp B) : rsp B := λ k,
  match m k with
  | Some (Ok a, k') => f a k'
  | Some (Err e, k') => Some (Err e, k')
  | None => None
  end.
Notation "x <~ m ; k" := (rsp_bind m (λ x, k)) (at level 20, m at level 100, k at level 200, right associativity).

(** [recv(1)]: nothing once the peer has closed. *)
Definition recv1 : rsp string := λ k,
  match k_in k with
  | EmptyString => Some (Ok EmptyString, k)
  | String c s => Some (Ok (String c EmptyString), Sock s (k_two k) (k_sent k))
  end.

(** [recv(2)]: one byte or two. *)
Definition recv2 : rsp unit := λ k,
  let n := match k_two k with false :: _ => 1%nat | _ => 2%nat end in
  Some (Ok tt, Sock (String.substring n (String.length (k_in k) - n) (k_in k)) (tail (k_two k)) (k_sent k)).

Definition sendall (b : string) : rsp unit := λ k, Some (Ok tt, Sock (k_in k) (k_two k) (k_sent k ++ [b])).

(** ** Requests *)

Fixpoint await_start (fuel : nat) : rsp unit :=
  match fuel with
  | O => λ _, None
  | S f =>
      char <~ recv1;
      if String.eqb char EmptyString then rsp_ret (Err (Exn EOFError "remote closed the RSP connection" []))
      else if String.eqb char "$" then rsp_ret (Ok tt) else await_start f
  end.

Fixpoint collect (fuel : nat) (data : string) : rsp string :=
  match fuel with
  | O => λ _, None
  | S f =>
      char <~ recv1;
      if String.eqb char "#" then rsp_ret (Ok data) else collect f (data +:+ char)
  end.

Section probe.
Context (fuel : nat).

Definition receive : rsp string :=
  _ <~ await_start fuel;
  data <~ collect fuel EmptyString;
  _ <~ recv2;
  _ <~ sendall "+";
  rsp_ret (ascii_text data).

Definition request (payload : string) : rsp string :=
  _ <~ sendall (packet payload);
  first <~ recv1;
  if String.eqb first "+" then receive
  else rsp_ret (Err (Exn RuntimeError "missing RSP acknowledgement: {first!r}" [PS first])).

(** ** Registers *)

Definition hex_val (c : ascii) : option Z :=
  if is_digit c then Some (code c - 48)
  else if (97 <=? code c) && (code c <=? 102) then Some (code c - 87)
  else if (65 <=? code c) && (code c <=? 70) then Some (code c - 55)
  else None.

(** [bytes.fromhex]: pairs of digits, white space between them. *)
Fixpoint fromhex (s : string) : option (list Z) :=
  match s with
  | EmptyString => Some []
  | String a s' =>
      if ((9 <=? code a) && (code a <=? 13)) || (code a =? 32) then fromhex s'
      else match s' with
           | String b s'' =>
               h ← hex_val a; l ← hex_val b; rest ← fromhex s''; Some (16 * h + l :: rest)
           | EmptyString => None
           end
  end.

Definition slice (first last : nat) (b : list Z) : list Z := take (last - first) (drop first b).

(** [main]: the line it prints, as its parts. *)
Definition main : rsp (string * Z * Z * string) :=
  stop <~ request "?";
  dump <~ request "g";
  registers <~ rsp_ret (or_raise (fromhex dump) (Exn ValueError "non-hexadecimal number found in fromhex() arg" []));
  if len registers <? 264 then
    rsp_ret (Err (Exn RuntimeError "short AArch64 register packet: {len(registers)} bytes" [PZ (len registers)]))
  else
    let sp := from_little (slice 248 256 registers) in
    let pc := from_little (slice 256 264 registers) in
    insn <~ request ("m" +:+ hex_of_nonneg pc +:+ ",10");
    _ <~ sendall (packet "D");
    rsp_ret (Ok (stop, pc, sp, insn)).

(** [f"stop={stop} pc=0x{pc:016x} sp=0x{sp:016x} bytes={insn}"]. *)
Definition report (r : string * Z * Z * string) : string :=
  let '(stop, pc, sp, insn) := r in
  "stop=" +:+ stop +:+ " pc=0x" +:+ hex_padded 16 pc +:+ " sp=0x" +:+ hex_padded 16 sp +:+ " bytes=" +:+ insn.
End probe.

(** ** The stub at the other end *)

(** A payload that can be framed: ASCII, without the end mark. *)
Definition framed (p : string) : Prop := lacks "#" p = true ∧ ascii_only p = true.

(** The acknowledgement of a request and the answer to it. *)
Definition answer (p : string) : string := "+" +:+ packet p.

Definition hex_byte (n : Z) : string := hex_padded 2 n.
Definition hexdump (b : list Z) : string := concat_str (hex_byte <$> b).

Definition is_byte (n : Z) : Prop := 0 <= n < 256.

Lemma byte_cases (P : Z → bool) : forallb P (seqZ 0 256) = true → ∀ n, is_byte n → P n = true.
Proof. rewrite List.forallb_forall. intros H n Hn. apply H, list_elem_of_In, elem_of_seqZ. unfold is_byte in Hn. lia. Qed.

Lemma hex_byte_digits n :
  is_byte n → hex_byte n = String (hex_char (n / 16)) (String (hex_char (n mod 16)) EmptyString).
Proof. intros H. apply String.eqb_eq. revert n H. apply byte_cases. vm_compute. reflexivity. Qed.

Lemma hex_char_val n :
  is_byte n →
  hex_val (hex_char (n / 16)) = Some (n / 16) ∧ hex_val (hex_char (n mod 16)) = Some (n mod 16) ∧
  ((9 <=? code (hex_char (n / 16))) && (code (hex_char (n / 16)) <=? 13)) || (code (hex_char (n / 16)) =? 32) = false ∧
  lacks "#" (hex_byte n) = true ∧ ascii_only (hex_byte n) = true.
Proof.
  intros H. set (P n := bool_decide (hex_val (hex_char (n / 16)) = Some (n / 16) ∧
    hex_val (hex_char (n mod 16)) = Some (n mod 16) ∧
    ((9 <=? code (hex_char (n / 16))) && (code (hex_char (n / 16)) <=? 13)) || (code (hex_char (n / 16)) =? 32) = false ∧
    lacks "#" (hex_byte n) = true ∧ ascii_only (hex_byte n) = true)).
  apply (bool_decide_eq_true _), (byte_cases P); [vm_compute; reflexivity|done].
Qed.

Lemma fromhex_hexdump b : Forall is_byte b → fromhex (hexdump b) = Some b.
Proof.
  unfold hexdump, concat_str. induction 1 as [|n b Hn _ IH]; [done|]. cbn [fmap list_fmap foldr].
  rewrite hex_byte_digits by done. destruct (hex_char_val n Hn) as (H1 & H2 & H3 & _).
  cbn [String.append fromhex]. rewrite H3, H1. cbn [mbind option_bind]. rewrite H2. cbn [mbind option_bind].
  rewrite IH. cbn. f_equal. f_equal. pose proof (Z.div_mod n 16). lia.
Qed.

Lemma hexdump_framed b : Forall is_byte b → framed (hexdump b).
Proof.
  unfold hexdump, concat_str, framed. induction 1 as [|n b Hn _ [IH1 IH2]]; [done|]. cbn [fmap list_fmap foldr].
  destruct (hex_char_val n Hn) as (_ & _ & _ & H1 & H2). unfold lacks, ascii_only in *.
  by rewrite !str_forallb_app, H1, H2, IH1, IH2.
Qed.

Lemma land_byte n : is_byte (Z.land n 255).
Proof. change 255 with (Z.ones 8). rewrite Z.land_ones by lia. apply Z.mod_pos_bound. lia. Qed.

(** ** A packet is received as it was sent *)

Lemma not_hash c : Ascii.eqb c "#" = false → String.eqb (String c EmptyString) "#" = false.
Proof. intros H%Ascii.eqb_neq. apply String.eqb_neq. by intros [= ->]. Qed.

Lemma collect_payload p : ∀ fuel acc rest two sent,
  lacks "#" p = true → (String.length p < fuel)%nat →
  collect fuel acc (Sock (p +:+ String "#" rest) two sent) = Some (Ok (acc +:+ p), Sock rest two sent).
Proof.
  induction p as [|c p IH]; intros fuel acc rest two sent Hp Hf; (destruct fuel as [|f]; [cbn in Hf; lia|]).
  - cbn. by rewrite string_app_nil_r.
  - cbn in Hp. apply andb_true_iff in Hp as [Hc Hp]. apply negb_true_iff in Hc.
    cbn [collect]. unfold rsp_bind, recv1. cbn [String.append k_in].
    rewrite (not_hash c Hc).
    cbn [k_two k_sent]. rewrite IH by (done || cbn in Hf; lia). by rewrite string_app_assoc.
Qed.

(** A connection that closes inside a packet keeps the probe reading: no number
    of turns ends the loop. *)
Lemma collect_forever fuel : ∀ acc k, lacks "#" (k_in k) = true → collect fuel acc k = None.
Proof.
  induction fuel as [|f IH]; intros acc k H; [done|]. cbn [collect]. unfold rsp_bind, recv1.
  destruct (k_in k) as [|c s] eqn:E; cbn [String.eqb].
  - apply IH. by rewrite E.
  - cbn in H. apply andb_true_iff in H as [Hc Hs]. apply negb_true_iff in Hc.
    rewrite (not_hash c Hc). by apply IH.
Qed.

Section exchange.
Context (fuel : nat).

Lemma receive_packet p rest two sent :
  framed p → (S (String.length p) < fuel)%nat →
  receive fuel (Sock (packet p +:+ rest) (true :: two) sent) = Some (Ok p, Sock rest two (sent ++ ["+"])).
Proof.
  intros [Hp Ha] Hf. unfold receive, rsp_bind.
  assert (packet p +:+ rest = String "$" (p +:+ String "#" (hex_byte (Z.land (byte_sum p) 255) +:+ rest))) as ->
    by (unfold packet; by rewrite !string_app_assoc).
  assert (∀ s, await_start fuel (Sock (String "$" s) (true :: two) sent) = Some (Ok tt, Sock s (true :: two) sent)) as ->
    by (intros; by destruct fuel; [lia|]).
  rewrite collect_payload by (done || lia). rewrite hex_byte_digits by apply land_byte.
  cbn [recv2 k_two k_in k_sent tail String.append String.length]. cbn [sendall rsp_ret k_in k_two k_sent].
  assert (∀ a b, String.substring 2 (S (S (String.length rest)) - 2) (String a (String b rest)) = rest) as ->.
  { intros a b. cbn. rewrite Nat.sub_0_r. clear. induction rest as [|c s IH]; cbn; [done|]. by rewrite IH. }
  unfold ascii_text. by rewrite Ha.
Qed.

(** A request whose answer is next. *)
Lemma request_answered payload p rest two sent :
  framed p → (S (String.length p) < fuel)%nat →
  request fuel payload (Sock (answer p +:+ rest) (true :: two) sent) =
  Some (Ok p, Sock rest two ((sent ++ [packet payload]) ++ ["+"])).
Proof.
  intros Hp Hf. unfold request, rsp_bind, answer. cbn [sendall k_in k_two k_sent].
  change (("+" +:+ packet p) +:+ rest) with (String "+" (packet p +:+ rest)).
  cbn [recv1 k_in k_two k_sent]. change (String.eqb (String "+" EmptyString) "+") with true. cbv iota.
  by apply receive_packet.
Qed.

(** ** The probe *)

(** What a stub stopped with these registers answers to the probe. *)
Definition stub_stream (stop : string) (registers : list Z) (memory : string) : string :=
  answer stop +:+ answer (hexdump registers) +:+ answer memory.

(** C32: against a stub that acknowledges and answers each request with a framed
    packet, each of whose checksums arrives whole (both bytes in one [recv]), the
    probe ends, reports the stop reason, the stack pointer and the program counter
    of the stub's register file and the memory it asked for at that program
    counter, acknowledges every answer and detaches.  [short_checksum] below is
    what a split checksum leads to. *)
Theorem probe_reads_registers stop registers memory :
  framed stop → framed memory → Forall is_byte registers → (264 ≤ length registers)%nat →
  (String.length (stub_stream stop registers memory) ≤ fuel)%nat →
  let sp := from_little (slice 248 256 registers) in
  let pc := from_little (slice 256 264 registers) in
  main fuel (Sock (stub_stream stop registers memory) [true; true; true] []) =
  Some (Ok (stop, pc, sp, memory),
        Sock EmptyString []
          [packet "?"; "+"; packet "g"; "+"; packet ("m" +:+ hex_of_nonneg pc +:+ ",10"); "+"; packet "D"]).
Proof.
  intros Hs Hm Hr Hlen Hf sp pc.
  assert (Hfuel : (S (String.length stop) < fuel ∧ S (String.length (hexdump registers)) < fuel ∧ S (String.length memory) < fuel)%nat).
  {     unfold stub_stream, answer, packet in Hf. rewrite !string_length_app in Hf. cbn [String.length] in Hf. lia. }
  destruct Hfuel as (F1 & F2 & F3). unfold main, stub_stream. unfold rsp_bind at 1.
  rewrite request_answered by done. unfold rsp_bind at 1.
  rewrite request_answered by (done || by apply hexdump_framed). unfold rsp_bind at 1, rsp_ret at 1.
  rewrite fromhex_hexdump by done. cbn [or_raise].
  destruct (Z.ltb_spec (len registers) 264) as [H|_]; [unfold len in H; lia|].
  fold sp pc. unfold rsp_bind at 1. rewrite <- (string_app_nil_r (answer memory)), request_answered by done.
  reflexivity.
Qed.
End exchange.

(** The checksum of a packet is that of its payload, and its digits end the packet. *)
Lemma packet_checksum p :
  ∃ a b, packet p = "$" +:+ p +:+ "#" +:+ String a (String b EmptyString) ∧
    (h ← hex_val a; l ← hex_val b; Some (16 * h + l)) = Some (byte_sum p mod 256).
Proof.
  pose proof (land_byte (byte_sum p)) as H. unfold packet. fold (hex_byte (Z.land (byte_sum p) 255)).
  rewrite hex_byte_digits by done. destruct (hex_char_val _ H) as (H1 & H2 & _). eexists _, _. split; [done|].
  rewrite H1. cbn [mbind option_bind]. rewrite H2. cbn [mbind option_bind]. f_equal.
  assert (Z.land (byte_sum p) 255 = byte_sum p mod 256) as -> by (change 255 with (Z.ones 8); by rewrite Z.land_ones).
  pose proof (Z.div_mod (byte_sum p mod 256) 16). lia.
Qed.

(** ** Concrete exchanges *)

(** A register file whose stack pointer and program counter are known. *)
Definition sample_registers : list Z := replicate 248 0 ++ [1; 2; 0; 0; 0; 0; 0; 0] ++ [16; 0; 8; 128; 0; 0; 255; 255].

Lemma probe_reads_registers_witness :
  main 2000 (Sock (stub_stream "S05" sample_registers "1f2003d5") [true; true; true] []) =
  Some (Ok ("S05", 18446462600880848912, 513, "1f2003d5"),
        Sock EmptyString []
          [packet "?"; "+"; packet "g"; "+"; packet "mffff000080080010,10"; "+"; packet "D"]).
Proof.
  eapply eq_trans; [refine (probe_reads_registers 2000 "S05" sample_registers "1f2003d5" _ _ _ _ _)|];
    [split; reflexivity|split; reflexivity| |vm_compute; lia|vm_compute; lia|vm_compute; reflexivity].
  apply (bool_decide_eq_true _). vm_compute. reflexivity.
Defined.

(** A checksum that arrives in two pieces leaves its second digit where the next
    acknowledgement is looked for. *)
Example short_checksum :
  match main 2000 (Sock (stub_stream "S05" sample_registers "1f2003d5") [false; true; true] []) with
  | Some (Err e, _) => exn_fmt e
  | _ => EmptyString
  end = "missing RSP acknowledgement: {first!r}".
Proof. vm_compute. reflexivity. Qed.
