(* ===== verification/Normalize.v ===== *)
(** * Checkpoint normalization ([tools/normalize_gem5_checkpoint.py])

    gem5 writes the lock bits of its flash model as digits and reads them as
    words.  The tool rewrites that one line of a checkpoint through a temporary
    file. *)

From Stdlib Require Import ZArith Lia Ascii.
From stdpp Require Import base strings numbers option list.
From S2P Require Import Prelude PyStr.

Open Scope string_scope.
Open Scope list_scope.
Open Scope Z_scope.

Definition NL : ascii := "010"%char.

(** ** Text *)

(** The lines of a text file, with their line feeds. *)
Fixpoint lines_of (s : string) : list string :=
  match s with
  | EmptyString => []
  | String c s' =>
      if Ascii.eqb c NL then String c EmptyString :: lines_of s'
      else match lines_of s' with
           | l :: ls => String c l :: ls
           | [] => [String c EmptyString]
           end
  end.

(** [s.split()]: [word] is the current word, reversed. *)
Fixpoint split_ws_go (word s : string) : list string :=
  let flush := if String.eqb word EmptyString then [] else [String.rev word] in
  match s with
  | EmptyString => flush
  | String c s' => if is_space c then flush ++ split_ws_go EmptyString s' else split_ws_go (String c word) s'
  end.
Definition split_ws (s : string) : list string := split_ws_go EmptyString s.

(** ** One pass over the lines *)

Definition locks_section : string := "[system.realview.flash1.blocks]".

(** [set(values) <= set(allowed)]. *)
Definition only (allowed values : list string) : bool := forallb (λ v, elemb v allowed) values.

Definition lock_word (value : string) : string := if String.eqb value "1" then "true" else "false".

(** A line of the section of the locks: the line to write, and whether it is new. *)
Definition locked_line (line : string) : res (string * bool) :=
  let values := split_ws (removeprefix line "locked=") in
  if negb (bool_decide (values = [])) && only ["0"; "1"] values then
    Ok ("locked=" +:+ join " " (lock_word <$> values) +:+ String NL EmptyString, true)
  else if negb (bool_decide (values = [])) && negb (only ["true"; "false"] values) then
    Err (Exn ValueError "invalid flash lock vector in {path}" [])
  else Ok (line, false).

(** One turn of the loop: the section after the line, what is written for it and
    whether that is new. *)
Definition next_line (section line : string) : res (string * (string * bool)) :=
  let section := if startswith line "[" then strip line else section in
  if String.eqb section locks_section && startswith line "locked=" then
    r ← locked_line line; Ok (section, r)
  else Ok (section, (line, false)).

Fixpoint rewrite_lines (section : string) (lines : list string) : res (list (string * bool)) :=
  match lines with
  | [] => Ok []
  | l :: lines' =>
      r ← next_line section l;
      rest ← rewrite_lines r.1 lines';
      Ok (r.2 :: rest)
  end.

(** The text that the loop writes, and [changed]. *)
Definition rewrite_text (text : string) : res (string * bool) :=
  ls ← rewrite_lines EmptyString (lines_of text);
  Ok (concat_str ls.*1, existsb snd ls).

(** ** The files *)

Inductive action :=
  | MadeTemporary
  | Wrote (text : string)      (** to the temporary file *)
  | Replaced                   (** the checkpoint by the temporary file *)
  | Unlinked.

(** What the system calls answer. *)
Record world := World {
  w_stat : res unit;
  w_temporary : res unit;
  w_text : res string;         (** reading the checkpoint *)
  w_write : res unit;
  w_chmod : res unit;
  w_replace : res unit
}.

Definition made_temporary (a : action) : bool := match a with MadeTemporary => true | _ => false end.

Definition normalize (w : world) : io action bool :=
  _ <- lift (w_stat w);
  on_error
    (_ <- lift (w_temporary w);
     emit MadeTemporary ;;;
     text <- lift (w_text w);
     r <- lift (rewrite_text text);
     _ <- lift (w_write w);
     emit (Wrote r.1) ;;;
     if r.2 then
       _ <- lift (w_chmod w);
       _ <- lift (w_replace w);
       emit Replaced ;;; io_ret true
     else emit Unlinked ;;; io_ret false)
    (λ l, if existsb made_temporary l then [Unlinked] else []).

Definition announce (path : string) (changed : bool) : string :=
  path +:+ ": " +:+ (if changed then "normalized" else "already compatible").

(** The loop of [main]: the lines it prints and the status. *)
Fixpoint main (checkpoints : list (string * world)) : list string * res Z :=
  match checkpoints with
  | [] => ([], Ok 0)
  | (path, w) :: checkpoints' =>
      match (normalize w []).2 with
      | Ok changed => let r := main checkpoints' in (announce path changed :: r.1, r.2)
      | Err e => ([], Err e)
      end
  end.

(** The checkpoint's text and the temporary file's. *)
Definition disk : Type := string * option string.

Definition apply_action (d : disk) (a : action) : disk :=
  match a with
  | MadeTemporary => (d.1, Some EmptyString)
  | Wrote text => (d.1, Some text)
  | Replaced => (default d.1 d.2, None)
  | Unlinked => (d.1, None)
  end.

(** ** Lines and words *)

(** A line without its line feed. *)
Definition body (s : string) : Prop := lacks NL s = true.

(** Lines as a file yields them: only the last may lack its line feed. *)
Inductive file_lines : list string → Prop :=
  | no_lines : file_lines []
  | last_line c s : body (String c s) → file_lines [String c s]
  | more_lines s ls : body s → file_lines ls → file_lines ((s +:+ String NL EmptyString) :: ls).

Lemma lines_of_lines s : file_lines (lines_of s) ∧ concat_str (lines_of s) = s.
Proof.
  induction s as [|c s [IH1 IH2]]; cbn [lines_of]; [split; [constructor|done]|].
  destruct (Ascii.eqb_spec c NL) as [->|Hc].
  { split; [by apply (more_lines EmptyString)|]. change (String NL (concat_str (lines_of s)) = String NL s). by rewrite IH2. }
  assert (Ascii.eqb c NL = false) as Hb by by apply Ascii.eqb_neq.
  destruct IH1 as [|d t Hl|t ls Hl Hls]; cbn [concat_str foldr] in *; subst s.
  - split; [apply last_line; unfold body; cbn; by rewrite Hb|done].
  - rewrite string_app_nil_r. split; [apply last_line; unfold body in *; cbn in *; by rewrite Hb|cbn; by rewrite string_app_nil_r].
  - split; [|done]. apply (more_lines (String c t)); [unfold body in *; cbn; by rewrite Hb|done].
Qed.

Lemma lines_of_body s rest : body s → lines_of (s +:+ String NL rest) = (s +:+ String NL EmptyString) :: lines_of rest.
Proof.
  induction s as [|c s IH]; unfold body; cbn; [done|]. intros [Hc H]%andb_true_iff.
  apply negb_true_iff in Hc. by rewrite Hc, IH.
Qed.

Lemma lines_of_unterminated c s : body (String c s) → lines_of (String c s) = [String c s].
Proof.
  revert c. induction s as [|d s IH]; intros c H; unfold body in H; cbn [lacks str_forallb] in H;
    apply andb_true_iff in H as [Hc H]; apply negb_true_iff in Hc.
  - cbn. by rewrite Hc.
  - pose proof (IH d H) as E. cbn [lines_of] in E |- *. by rewrite Hc, E.
Qed.

Lemma lines_of_concat ls : file_lines ls → lines_of (concat_str ls) = ls.
Proof.
  induction 1 as [|c s H|s ls H _ IH]; cbn [concat_str foldr]; [done| |].
  - rewrite string_app_nil_r. by apply lines_of_unterminated.
  - fold (concat_str ls). rewrite string_app_assoc. cbn. by rewrite lines_of_body, IH.
Qed.

(** A word: not empty and without white space. *)
Definition word (s : string) : Prop := s ≠ EmptyString ∧ str_forallb (λ c, negb (is_space c)) s = true.

Lemma split_ws_word_go w : ∀ acc c rest,
  str_forallb (λ c, negb (is_space c)) w = true → is_space c = true → acc +:+ w ≠ EmptyString →
  split_ws_go acc (w +:+ String c rest) = (String.rev acc +:+ w) :: split_ws_go EmptyString rest.
Proof.
  induction w as [|d w IH]; intros acc c rest Hw Hc Hne; cbn.
  - rewrite Hc, string_app_nil_r. rewrite string_app_nil_r in Hne.
    destruct (String.eqb_spec acc EmptyString); [done|]. reflexivity.
  - cbn in Hw. apply andb_true_iff in Hw as [Hd Hw]. apply negb_true_iff in Hd. rewrite Hd, IH; [|done|done|by destruct acc].
    by rewrite rev_cons, string_app_assoc.
Qed.

Lemma split_ws_word w c rest :
  word w → is_space c = true → split_ws (w +:+ String c rest) = w :: split_ws rest.
Proof. intros [Hne Hw] Hc. by apply split_ws_word_go. Qed.

Lemma split_ws_join ws : Forall word ws → split_ws (join " " ws +:+ String NL EmptyString) = ws.
Proof.
  induction ws as [|w [|v ws] IH]; intros H; [done| |].
  - inversion H; subst. by rewrite split_ws_word.
  - inversion H as [|?? Hw Hws]; subst. change (join " " (w :: v :: ws)) with (w +:+ " " +:+ join " " (v :: ws)).
    rewrite !string_app_assoc. cbn [String.append]. by rewrite split_ws_word, (IH Hws).
Qed.

(** ** A second pass *)

Lemma lock_word_cases v : lock_word v = "true" ∨ lock_word v = "false".
Proof. unfold lock_word. case_match; auto. Qed.

Lemma lock_words values : Forall word (lock_word <$> values) ∧ only ["true"; "false"] (lock_word <$> values) = true.
Proof.
  induction values as [|v vs [IH1 IH2]]; [split; [constructor|done]|]. cbn [fmap list_fmap].
  destruct (lock_word_cases v) as [-> | ->]; (split; [constructor; [by split|done]|exact IH2]).
Qed.

Lemma lock_words_new v values : only ["0"; "1"] (lock_word <$> v :: values) = false.
Proof. cbn [fmap list_fmap]. by destruct (lock_word_cases v) as [-> | ->]. Qed.

Lemma join_body values : body (join " " (lock_word <$> values)).
Proof.
  unfold body. induction values as [|v [|w vs] IH]; [done| |].
  - cbn. by destruct (lock_word_cases v) as [-> | ->].
  - change (join " " (lock_word <$> v :: w :: vs)) with (lock_word v +:+ " " +:+ join " " (lock_word <$> w :: vs)).
    unfold lacks in *. destruct (lock_word_cases v) as [-> | ->]; exact IH.
Qed.

(** The line that replaces a vector of digits. *)
Definition bool_line (values : list string) : string :=
  "locked=" +:+ join " " (lock_word <$> values) +:+ String NL EmptyString.

Lemma bool_line_kept v values : locked_line (bool_line (v :: values)) = Ok (bool_line (v :: values), false).
Proof.
  unfold locked_line, bool_line. unfold removeprefix. rewrite strip_prefix_app. cbn [default from_option id].
  destruct (lock_words (v :: values)) as [Hw Ho]. rewrite split_ws_join by exact Hw.
  by rewrite lock_words_new, Ho, andb_false_r, andb_false_r.
Qed.

(** What one turn writes for a line. *)
Lemma next_line_out section line section' out c :
  next_line section line = Ok (section', (out, c)) →
  next_line section out = Ok (section', (out, false)) ∧
  (c = false ∧ out = line ∨
   c = true ∧ section = locks_section ∧ startswith line "locked=" = true ∧
     ∃ v values, split_ws (removeprefix line "locked=") = v :: values ∧
       only ["0"; "1"] (v :: values) = true ∧ out = bool_line (v :: values)).
Proof.
  unfold next_line at 1. cbn zeta.
  destruct (String.eqb _ _ && startswith line "locked=") eqn:E.
  2: { intros [= <- <- <-]. split; [|by left]. unfold next_line. cbn zeta. by rewrite E. }
  apply andb_true_iff in E as [E1 E2]. pose proof E2 as E2'. apply startswith_spec in E2' as [r Hr].
  assert (startswith line "[" = false) as Hl by (by rewrite Hr).
  rewrite Hl in E1 |- *. apply String.eqb_eq in E1 as ->.
  destruct (locked_line line) as [[out' c']|e] eqn:El; [|done]. intros [= <- <- <-].
  unfold locked_line in El. set (values := split_ws (removeprefix line "locked=")) in El.
  destruct values as [|v vs] eqn:Ev; cbn [negb andb] in El.
  { injection El as <- <-. split; [|by left]. unfold next_line. rewrite E2, Hl. cbn [andb String.eqb].
    unfold locked_line. fold values. by rewrite Ev. }
  rewrite bool_decide_eq_false_2 in El by done. cbn [negb andb] in El. subst values.
  destruct (only ["0"; "1"] (v :: vs)) eqn:E01.
  - assert (out' = bool_line (v :: vs) ∧ c' = true) as [-> ->] by (by injection El as <- <-). split.
    + assert (startswith (bool_line (v :: vs)) "[" = false ∧ startswith (bool_line (v :: vs)) "locked=" = true) as [B1 B2]
        by (split; [done|apply startswith_app]).
      unfold next_line. rewrite B1, B2. rewrite String.eqb_refl. cbn [andb].
      rewrite bool_line_kept. reflexivity.
    + right. eauto 10.
  - destruct (only ["true"; "false"] (v :: vs)) eqn:Etf; [|done]. injection El as <- <-. split; [|by left].
    unfold next_line. rewrite E2, Hl. unfold locked_line. by rewrite Ev, E01, Etf.
Qed.

(** A line after the pass: the same, or the words of a vector of digits. *)
Definition rewritten (line line' : string) : Prop :=
  line' = line ∨
  startswith line "locked=" = true ∧
    ∃ v values, split_ws (removeprefix line "locked=") = v :: values ∧
      only ["0"; "1"] (v :: values) = true ∧ line' = bool_line (v :: values).

Lemma next_line_rewritten section line section' out c :
  next_line section line = Ok (section', (out, c)) → rewritten line out ∧ (c = false → out = line).
Proof.
  intros (_ & [[-> ->]|(-> & _ & H1 & H2)])%next_line_out; (split; [|done]); [by left|by right].
Qed.

Lemma bool_line_complete values : ∃ s, body s ∧ bool_line values = s +:+ String NL EmptyString.
Proof.
  exists ("locked=" +:+ join " " (lock_word <$> values)). split; [|unfold bool_line; by rewrite string_app_assoc].
  exact (join_body values).
Qed.

Lemma rewritten_lines line line' ls :
  rewritten line line' → file_lines ls →
  (∃ s, body s ∧ line = s +:+ String NL EmptyString) ∨ ls = [] ∧ file_lines [line] → file_lines (line' :: ls).
Proof.
  intros [->|(_ & v & vs & _ & _ & ->)] Hls Hl.
  - destruct Hl as [(s & Hs & ->)|[-> Hl]]; [by constructor|done].
  - destruct (bool_line_complete (v :: vs)) as (s & Hs & ->). by constructor.
Qed.

Lemma rewrite_lines_twice ls : file_lines ls → ∀ section out,
  rewrite_lines section ls = Ok out →
  Forall2 rewritten ls out.*1 ∧ file_lines out.*1 ∧
  rewrite_lines section out.*1 = Ok ((λ o, (o.1, false)) <$> out) ∧ (existsb snd out = false → out.*1 = ls).
Proof.
  assert (∀ line ls, (file_lines ls → ∀ section out,
      rewrite_lines section ls = Ok out →
      Forall2 rewritten ls out.*1 ∧ file_lines out.*1 ∧
      rewrite_lines section out.*1 = Ok ((λ o, (o.1, false)) <$> out) ∧ (existsb snd out = false → out.*1 = ls)) →
    file_lines ls → (∃ s, body s ∧ line = s +:+ String NL EmptyString) ∨ ls = [] ∧ file_lines [line] →
    ∀ section out, rewrite_lines section (line :: ls) = Ok out →
      Forall2 rewritten (line :: ls) out.*1 ∧ file_lines out.*1 ∧
      rewrite_lines section out.*1 = Ok ((λ o, (o.1, false)) <$> out) ∧
      (existsb snd out = false → out.*1 = line :: ls)) as Hstep.
  { clear ls. intros line ls IH Hls Hline section out E. cbn [rewrite_lines] in E.
    destruct (next_line section line) as [[section' [line' c]]|e] eqn:En; [|done]. cbn [mbind res_bind fst snd] in E.
    destruct (rewrite_lines section' ls) as [out'|e] eqn:Er; [|done]. injection E as <-.
    destruct (IH Hls _ _ Er) as (H1 & H2 & H3 & H4).
    pose proof (next_line_rewritten _ _ _ _ _ En) as [Hr Hc]. pose proof (next_line_out _ _ _ _ _ En) as [Hn _].
    cbn [fmap list_fmap fst snd existsb]. split; [by constructor|]. split.
    { eapply rewritten_lines; [done|done|]. destruct Hline as [Hline|[-> Hline]]; [by left|right].
      inversion H1; subst. by split. }
    split; [cbn [rewrite_lines]; rewrite Hn; cbn [mbind res_bind fst snd]; fold (out'.*1); by rewrite H3|].
    intros [-> Ho]%orb_false_iff. rewrite Hc by done. f_equal. by apply H4. }
  induction 1 as [|c s H|s ls H Hls IH]; intros section out.
  - intros [= <-]. repeat split; constructor.
  - apply Hstep; [|constructor|right; by repeat constructor].
    intros _ sec o [= <-]. repeat split; constructor.
  - apply Hstep; [done|done|left; by exists s].
Qed.

Lemma rewrite_text_twice text out changed :
  rewrite_text text = Ok (out, changed) →
  Forall2 rewritten (lines_of text) (lines_of out) ∧ rewrite_text out = Ok (out, false) ∧
  (changed = false → out = text).
Proof.
  unfold rewrite_text. destruct (lines_of_lines text) as [Hl Hc].
  destruct (rewrite_lines EmptyString (lines_of text)) as [ls|e] eqn:E; [|done]. cbn [mbind res_bind]. intros [= <- <-].
  destruct (rewrite_lines_twice _ Hl _ _ E) as (H1 & H2 & H3 & H4). rewrite lines_of_concat by done. rewrite H3.
  cbn [mbind res_bind]. split; [done|]. split.
  - f_equal. clear. f_equal; [|induction ls; [done|exact IHls]].
    f_equal. induction ls; [done|]. cbn. by f_equal.
  - intros Hls. by rewrite H4.
Qed.

(** ** The checkpoint *)

(** C33: whatever fails, normalizing a checkpoint leaves no temporary file and
    either the checkpoint as it was or the whole of its normalized text, in which
    only vectors of digits have been replaced by the words for them; and a
    checkpoint that was normalized, or found compatible, is compatible. *)
Theorem normalize_safe w text0 :
  (∀ text, w_text w = Ok text → text = text0) →
  let r := normalize w [] in
  let d := foldl apply_action (text0, None) r.1 in
  d.2 = None ∧
  match r.2 with
  | Err _ => d.1 = text0
  | Ok changed =>
      rewrite_text text0 = Ok (d.1, changed) ∧ Forall2 rewritten (lines_of text0) (lines_of d.1) ∧
      rewrite_text d.1 = Ok (d.1, false) ∧ (changed = false → d.1 = text0)
  end.
Proof.
  intros Ht. unfold normalize, io_bind, lift, emit, on_error, io_ret.
  destruct (w_stat w); [|done]. destruct (w_temporary w); [|done]. destruct (w_text w) as [text|e]; [|done].
  rewrite (Ht _ eq_refl). destruct (rewrite_text text0) as [[out changed]|e] eqn:E; [|done].
  destruct (w_write w); [|done]. pose proof (rewrite_text_twice _ _ _ E) as (H1 & H2 & H3).
  destruct changed; cbn [fst snd].
  - destruct (w_chmod w); [|done]. destruct (w_replace w); done.
  - cbn. rewrite (H3 eq_refl) in *. done.
Qed.

(** ** A concrete checkpoint *)

Definition nl (s : string) : string := s +:+ String NL EmptyString.

Definition sample_checkpoint : string :=
  nl "[system.cpu]" +:+ nl "locked=0 1" +:+ nl locks_section +:+ nl "locked=0 1 0".

Definition sample_world : world := World (Ok tt) (Ok tt) (Ok sample_checkpoint) (Ok tt) (Ok tt) (Ok tt).

Lemma normalize_safe_witness :
  (foldl apply_action (sample_checkpoint, None) (normalize sample_world []).1).1 =
    nl "[system.cpu]" +:+ nl "locked=0 1" +:+ nl locks_section +:+ nl "locked=false true false".
Proof.
  assert (H : ∀ text, w_text sample_world = Ok text → text = sample_checkpoint) by (intros text [= <-]; reflexivity).
  pose proof (normalize_safe sample_world sample_checkpoint H) as T. destruct T as [_ T].
  assert ((normalize sample_world []).2 = Ok true) as E by (vm_compute; reflexivity). rewrite E in T.
  destruct T as [T _]. apply (f_equal (λ r, match r with Ok p => p.1 | Err _ => EmptyString end)) in T.
  symmetry. eapply eq_trans; [|exact T]. vm_compute. reflexivity.
Defined.

(** A vector of other words is refused, and the checkpoint kept. *)
Example odd_vector :
  normalize (World (Ok tt) (Ok tt) (Ok (nl locks_section +:+ nl "locked=2 0")) (Ok tt) (Ok tt) (Ok tt)) [] =
  ([MadeTemporary; Unlinked], Err (Exn ValueError "invalid flash lock vector in {path}" [])).
Proof. vm_compute. reflexivity. Qed.
