(* ===== verification/Bootstrap.v ===== *)
(** * The transfer of a bootstrap program ([tools/transfer_guest_bootstrap.py])

    A program goes to a guest over its console: compressed, written as uuencoded
    text, appended to a file by short commands and decoded there. *)

From Stdlib Require Import ZArith Lia Ascii.
From stdpp Require Import base strings numbers option list.
From S2P Require Import Prelude PyStr TextScan Shlex SerialConsole.

Open Scope string_scope.
Open Scope list_scope.
Open Scope Z_scope.

(** ** Pieces *)

(** [[l[i:i + n] for i in range(0, len(l), n)]]. *)
Fixpoint pieces_go {A} (fuel n : nat) (l : list A) : list (list A) :=
  match fuel, l with
  | S f, _ :: _ => take n l :: pieces_go f n (drop n l)
  | _, _ => []
  end.
Definition pieces {A} (n : nat) (l : list A) : list (list A) := pieces_go (length l) n l.

(** The same of a string. *)
Definition text_pieces (n : nat) (s : string) : list string :=
  String.string_of_list_ascii <$> pieces n (String.list_ascii_of_string s).

(** ** [binascii.b2a_uu] *)

(** Six bits as a printable character. *)
Definition sextet (n : Z) : ascii := chr (32 + n).

(** Three bytes make four characters; a short group is completed with zeros. *)
Definition triple (a b c : Z) (rest : string) : string :=
  String (sextet (a / 4)) (String (sextet (a mod 4 * 16 + b / 16))
    (String (sextet (b mod 16 * 4 + c / 64)) (String (sextet (c mod 64)) rest))).

Fixpoint triples (b : list Z) : string :=
  match b with
  | x :: y :: z :: b' => triple x y z (triples b')
  | [x; y] => triple x y 0 EmptyString
  | [x] => triple x 0 0 EmptyString
  | [] => EmptyString
  end.

(** One line: the number of its bytes, their characters and a line feed. *)
Definition b2a_uu (b : list Z) : string := String (sextet (len b)) (triples b) +:+ String LF EmptyString.

(** [encoded] of [main]. *)
Definition encode (compressed : list Z) : string :=
  "begin 644 payload.gz" +:+ String LF EmptyString +:+
  concat_str (b2a_uu <$> pieces 45 compressed) +:+
  "`" +:+ String LF ("end" +:+ String LF EmptyString).

(** ** Commands *)

Definition uu_file : string := "/tmp/ubsim-bootstrap.uu".
Definition gz_file : string := "/tmp/ubsim-bootstrap.gz".

Definition setup_command : string := ": > /tmp/ubsim-bootstrap.uu".
Definition append_command (chunk : string) : string := "printf '%s' " +:+ shlex_quote chunk +:+ " >> /tmp/ubsim-bootstrap.uu".
Definition decode_command (dest : string) : string :=
  let destination := shlex_quote dest in
  "uudecode -o /tmp/ubsim-bootstrap.gz /tmp/ubsim-bootstrap.uu && gzip -dc /tmp/ubsim-bootstrap.gz > " +:+
  destination +:+ " && chmod 755 " +:+ destination +:+ " && wc -c " +:+ destination.

(** ** Sending *)

(** A command written to the console, with the transcript that came back. *)
Definition ran : Type := string * string.

Section transfer.
(** [bytes.decode(errors="replace")]. *)
Variable decode : string → string.
Variable port : Z.
(** The console as attempt [a] at the command [n] meets it. *)
Variable consoles : nat → nat → console.

(** The loop of [send], with [left] attempts to come; a command is in the log once
    it was written to the console. *)
Fixpoint send (n : nat) (left : nat) (command : string) : io ran string :=
  match left with
  | O => throw (Exn RuntimeError "ERROR: gem5 UART remained attached after retries" [])
  | S left' =>
      let r := run_one decode (Some 1) true port command (consoles n (5 - left)%nat) in
      (if r.2 is Some _ then emit (command, r.1) else io_ret tt) ;;;
      if contains attached r.1 then send n left' command
      else if startswith r.1 "ERROR:" then throw (Exn RuntimeError (tail_chars 800 r.1) [])
      else io_ret r.1
  end.

(** The appends, in order. *)
Fixpoint send_all (n : nat) (commands : list string) : io ran unit :=
  match commands with
  | [] => io_ret tt
  | c :: commands' => send n 5 c ;;; send_all (S n) commands'
  end.

Definition append_commands (compressed : list Z) : list string :=
  append_command <$> text_pieces 150 (encode compressed).

Definition transfer (compressed : list Z) (dest : string) : io ran string :=
  let appends := append_commands compressed in
  send 0 5 setup_command ;;;
  send_all 1 appends ;;;
  send (S (length appends)) 5 (decode_command dest).

(** [main] once the source is read and compressed: what it prints and the status. *)
Definition main (compressed : list Z) (dest : string) : list ran * (string * Z) :=
  match transfer compressed dest [] with
  | (l, Ok transcript) => (l, (tail_chars 800 transcript, 0))
  | (l, Err e) => (l, (exn_fmt e, 1))
  end.
End transfer.

(** ** What the guest's file holds *)

(** The words of a command that writes the file, as its shell reads them. *)
Definition write_file (text : option string) (words : list string) : option string :=
  match words with
  | [":"; ">"; file] => if String.eqb file uu_file then Some EmptyString else text
  | ["printf"; "%s"; chunk; ">>"; file] =>
      if String.eqb file uu_file then (λ t, t +:+ chunk) <$> text else text
  | _ => text
  end.

Definition run_words (text : option string) (command : string) : option string :=
  match shlex_split command with Ok ws => write_file text ws | Err _ => text end.

(** Reading uuencoded text: the value of a character, four of them as three bytes. *)
Definition unsextet (c : ascii) : Z := Z.land (code c - 32) 63.

Fixpoint untriples (s : string) : list Z :=
  match s with
  | String c0 (String c1 (String c2 (String c3 s'))) =>
      let n0 := unsextet c0 in let n1 := unsextet c1 in let n2 := unsextet c2 in let n3 := unsextet c3 in
      (n0 * 4 + n1 / 16) :: (n1 mod 16 * 16 + n2 / 4) :: (n2 mod 4 * 64 + n3) :: untriples s'
  | _ => []
  end.

(** The body: lines up to one without bytes, then [end]. *)
Fixpoint uu_lines (ls : list string) : option (list Z) :=
  match ls with
  | String c s :: ls' =>
      if unsextet c =? 0 then match ls' with "end" :: _ => Some [] | _ => None end
      else rest ← uu_lines ls'; Some (take (Z.to_nat (unsextet c)) (untriples s) ++ rest)
  | _ => None
  end.

Definition uudecode (text : string) : option (list Z) :=
  match split_on LF text with
  | header :: ls => if startswith header "begin " then uu_lines ls else None
  | [] => None
  end.

(** ** Pieces *)

Section pieces.
Context {A : Type} (n : nat) (Hn : (0 < n)%nat).

Lemma pieces_go_spec fuel (l : list A) :
  (length l ≤ fuel)%nat →
  concat (pieces_go fuel n l) = l ∧ Forall (λ p, 0 < length p ≤ n)%nat (pieces_go fuel n l).
Proof using Hn.
  revert l. induction fuel as [|f IH]; intros [|x l] H; cbn [pieces_go concat];
    [split; [done|constructor]|cbn in H; lia|split; [done|constructor]|].
  destruct (IH (drop n (x :: l))) as [H1 H2]; [rewrite length_drop; cbn in *; lia|].
  rewrite H1, take_drop. split; [done|]. constructor; [|done]. rewrite length_take. cbn. lia.
Qed.

Lemma pieces_spec (l : list A) : concat (pieces n l) = l ∧ Forall (λ p, 0 < length p ≤ n)%nat (pieces n l).
Proof using Hn. by apply pieces_go_spec. Qed.
End pieces.

Lemma concat_str_texts (ls : list (list ascii)) :
  concat_str (String.string_of_list_ascii <$> ls) = String.string_of_list_ascii (concat ls).
Proof.
  assert (∀ a b, String.string_of_list_ascii (a ++ b) = String.string_of_list_ascii a +:+ String.string_of_list_ascii b) as Happ.
  { induction a as [|c a IH]; intros b; cbn; [done|]. by rewrite IH. }
  induction ls as [|l ls IH]; [done|]. cbn [fmap list_fmap concat]. rewrite Happ, <- IH. reflexivity.
Qed.

Lemma text_pieces_concat n s : (0 < n)%nat → concat_str (text_pieces n s) = s.
Proof.
  intros Hn. unfold text_pieces. rewrite concat_str_texts.
  rewrite (proj1 (pieces_spec n Hn _)). apply String.string_of_list_ascii_of_string.
Qed.

(** ** The text decodes to the bytes *)

Definition is_byte (n : Z) : Prop := 0 <= n < 256.

Lemma unsextet_sextet n : 0 <= n < 64 → unsextet (sextet n) = n.
Proof.
  intros H. unfold unsextet, sextet. rewrite code_chr by lia. replace (32 + n - 32) with n by lia.
  change 63 with (Z.ones 6). rewrite Z.land_ones by lia. by apply Z.mod_small.
Qed.

Lemma untriple a b c s :
  is_byte a → is_byte b → is_byte c → untriples (triple a b c s) = a :: b :: c :: untriples s.
Proof.
  unfold is_byte. intros Ha Hb Hc. unfold triple. cbn [untriples]. rewrite !unsextet_sextet by (Z.div_mod_to_equations; lia).
  assert (a / 4 * 4 + (a mod 4 * 16 + b / 16) / 16 = a ∧
    (a mod 4 * 16 + b / 16) mod 16 * 16 + (b mod 16 * 4 + c / 64) / 4 = b ∧
    (b mod 16 * 4 + c / 64) mod 4 * 64 + c mod 64 = c) as (-> & -> & ->); [|done].
  Z.div_mod_to_equations. lia.
Qed.

(** Padding a short group. *)
Definition pad (b : list Z) : list Z :=
  b ++ match Nat.modulo (length b) 3 with 1%nat => [0; 0] | 2%nat => [0] | _ => [] end.

Lemma list_ind3 {A} (P : list A → Prop) :
  P [] → (∀ x, P [x]) → (∀ x y, P [x; y]) → (∀ x y z l, P l → P (x :: y :: z :: l)) → ∀ l, P l.
Proof.
  intros H0 H1 H2 H3. fix IH 1. intros [|x [|y [|z l]]]; [exact H0|apply H1|apply H2|apply H3, IH].
Qed.

Lemma untriples_triples b : Forall is_byte b → ∃ zeros, untriples (triples b) = b ++ zeros.
Proof.
  assert (is_byte 0) as H0 by (unfold is_byte; lia).
  induction b as [|x|x y|x y z b IH] using list_ind3; intros H; [by exists []| | |]; cbn [triples].
  - rewrite !Forall_cons in H. rewrite untriple by naive_solver. by exists [0; 0].
  - rewrite !Forall_cons in H. rewrite untriple by naive_solver. by exists [0].
  - rewrite !Forall_cons in H. rewrite untriple by naive_solver. destruct IH as [zeros ->]; [naive_solver|]. by exists zeros.
Qed.

Lemma sextet_lf n : 0 <= n < 64 → Ascii.eqb (sextet n) LF = false.
Proof.
  intros H. apply Ascii.eqb_neq. intros E. apply (f_equal code) in E. unfold sextet in E. rewrite code_chr in E by lia.
  change (code LF) with 10 in E. lia.
Qed.

Lemma triples_line b : Forall is_byte b → lacks LF (triples b) = true.
Proof.
  assert (∀ x y z s, is_byte x → is_byte y → is_byte z → lacks LF (triple x y z s) = lacks LF s) as Hs.
  { unfold is_byte, triple. intros x y z s Hx Hy Hz. unfold lacks. cbn [str_forallb].
    rewrite !sextet_lf by (Z.div_mod_to_equations; lia). done. }
  assert (is_byte 0) as H0 by (unfold is_byte; lia).
  induction b as [|x|x y|x y z b IH] using list_ind3; intros H; [done| | |]; cbn [triples];
    rewrite !Forall_cons in H; (rewrite Hs by naive_solver); [done|done|naive_solver].
Qed.

(** A piece of a program, as [b2a_uu] takes it. *)
Definition uu_piece (b : list Z) : Prop := Forall is_byte b ∧ (0 < length b ≤ 45)%nat.

Lemma split_body ls t :
  Forall uu_piece ls →
  split_on LF (concat_str (b2a_uu <$> ls) +:+ t) =
  ((λ b, String (sextet (len b)) (triples b)) <$> ls) ++ split_on LF t.
Proof.
  induction 1 as [|b ls [Hb Hlen] _ IH]; [done|].
  change (concat_str (b2a_uu <$> b :: ls)) with (b2a_uu b +:+ concat_str (b2a_uu <$> ls)).
  unfold b2a_uu at 1. rewrite !string_app_assoc.
  change (String LF EmptyString +:+ concat_str (b2a_uu <$> ls) +:+ t)
    with (String LF (concat_str (b2a_uu <$> ls) +:+ t)).
  rewrite split_on_app; [cbn [fmap list_fmap app]; by rewrite IH|].
  unfold lacks. cbn [str_forallb]. rewrite sextet_lf by (unfold len; lia). by apply triples_line.
Qed.

Lemma uu_lines_body ls :
  Forall uu_piece ls →
  uu_lines (((λ b, String (sextet (len b)) (triples b)) <$> ls) ++ ["`"; "end"; EmptyString]) = Some (concat ls).
Proof.
  induction 1 as [|b ls [Hb Hlen] _ IH]; [done|]. cbn [fmap list_fmap app uu_lines concat].
  rewrite unsextet_sextet by (unfold len; lia). destruct (Z.eqb_spec (len b) 0) as [E|_]; [unfold len in E; lia|].
  unfold len at 1. rewrite IH. cbn [mbind option_bind]. rewrite Nat2Z.id.
  destruct (untriples_triples b Hb) as [zeros ->]. by rewrite take_app_length.
Qed.

(** The text of a program decodes to the program. *)
Lemma uudecode_encode compressed : Forall is_byte compressed → uudecode (encode compressed) = Some compressed.
Proof.
  intros Hb. destruct (pieces_spec 45 ltac:(lia) compressed) as [Hc Hl].
  assert (Forall uu_piece (pieces 45 compressed)) as Hp.
  { rewrite <- Hc, Forall_concat in Hb. apply Forall_and. by split. }
  unfold encode, uudecode.
  set (tail := concat_str (b2a_uu <$> pieces 45 compressed) +:+ "`" +:+ String LF ("end" +:+ String LF EmptyString)).
  change ("begin 644 payload.gz" +:+ String LF EmptyString +:+ tail) with ("begin 644 payload.gz" +:+ String LF tail).
  rewrite split_on_app by done. change (startswith "begin 644 payload.gz" "begin ") with true. cbv iota.
  unfold tail. rewrite split_body by done. by rewrite uu_lines_body, Hc.
Qed.

(** ** The commands, as a shell reads them *)

Lemma spells_format : spells "'%s'" "%s".
Proof. intros rest Hrest. exact (lex_quoted "%s" EmptyString rest Hrest). Qed.

Ltac spelled := lazymatch goal with
  | |- Forall2 _ _ _ => repeat (constructor; [spelled|]); constructor
  | |- spells (shlex_quote _) _ => apply spells_quote
  | |- spells "'%s'" _ => exact spells_format
  | _ => apply spells_plain; vm_compute; reflexivity
  end.

Lemma append_words chunk : shlex_split (append_command chunk) = Ok ["printf"; "%s"; chunk; ">>"; uu_file].
Proof.
  assert (append_command chunk = join " " ["printf"; "'%s'"; shlex_quote chunk; ">>"; uu_file]) as -> by done.
  apply shlex_split_spells. spelled.
Qed.

Lemma decode_words dest :
  shlex_split (decode_command dest) =
  Ok ["uudecode"; "-o"; gz_file; uu_file; "&&"; "gzip"; "-dc"; gz_file; ">"; dest; "&&"; "chmod"; "755"; dest;
      "&&"; "wc"; "-c"; dest].
Proof.
  assert (decode_command dest =
    join " " ["uudecode"; "-o"; gz_file; uu_file; "&&"; "gzip"; "-dc"; gz_file; ">"; shlex_quote dest; "&&"; "chmod";
      "755"; shlex_quote dest; "&&"; "wc"; "-c"; shlex_quote dest]) as -> by done.
  apply shlex_split_spells. spelled.
Qed.

(** The file after the first commands and an append of each chunk. *)
Lemma appended chunks t :
  foldl run_words (Some t) (append_command <$> chunks) = Some (t +:+ concat_str chunks).
Proof.
  revert t. induction chunks as [|c cs IH]; intros t; [by rewrite string_app_nil_r|].
  cbn [fmap list_fmap foldl]. unfold run_words at 2. rewrite append_words.
  change (write_file (Some t) ["printf"; "%s"; c; ">>"; uu_file]) with (Some (t +:+ c)).
  rewrite IH, string_app_assoc. reflexivity.
Qed.

(** No append is a long burst. *)
Lemma quote_length s : (String.length (shlex_quote s) ≤ 5 * String.length s + 2)%nat.
Proof.
  assert (String.length (escape s) ≤ 5 * String.length s)%nat as H.
  { induction s as [|c s IH]; cbn [escape String.length]; [lia|]. destruct (Ascii.eqb c single_quote); cbn; lia. }
  unfold shlex_quote. destruct (String.eqb_spec s EmptyString) as [->|]; [cbn; lia|].
  destruct (str_forallb shell_safe s); [lia|]. cbn [String.length]. rewrite string_length_app. cbn. lia.
Qed.

Lemma text_pieces_short n s : (0 < n)%nat → Forall (λ p, String.length p ≤ n)%nat (text_pieces n s).
Proof.
  intros Hn. unfold text_pieces. apply Forall_fmap. eapply Forall_impl; [apply (pieces_spec n Hn)|].
  intros l [_ Hl]. cbn. enough (String.length (String.string_of_list_ascii l) = length l) as -> by lia.
  clear. induction l as [|c l IH]; cbn; congruence.
Qed.

Lemma appends_short compressed : Forall (λ c, String.length c ≤ 791)%nat (append_commands compressed).
Proof.
  apply Forall_fmap. eapply Forall_impl; [apply (text_pieces_short 150); lia|]. intros c Hc. cbn beta in Hc.
  change (String.length (append_command c) ≤ 791)%nat.
  unfold append_command. rewrite !string_length_app. pose proof (quote_length c).
  change (String.length "printf '%s' ") with 12%nat. change (String.length " >> /tmp/ubsim-bootstrap.uu") with 27%nat. lia.
Qed.

(** ** What was sent *)

Section sent.
Context (decode : string → string) (port : Z) (consoles : nat → nat → console).

(** A transcript that is no error is that of a command that was written. *)
Lemma run_one_sent k gate command r :
  run_one decode (Some 1) gate port command k = r → startswith r.1 "ERROR:" = false → is_Some r.2.
Proof.
  unfold run_one. intros <-. destruct (before_gate (Some 1) k) as [text [u|e]]; [|done].
  destruct (negb gate); [done|]. destruct (k_send k); [|done]. by eexists.
Qed.

(** One command of the transfer: written once for each transcript that came back,
    the last of them no error unless the transfer stops. *)
Definition sends (command : string) (l : list ran) (r : res string) : Prop :=
  match r with
  | Ok t => startswith t "ERROR:" = false ∧
      ∃ l', l = l' ++ [(command, t)] ∧ Forall (λ a, a.1 = command ∧ contains attached a.2 = true) l'
  | Err e => True
  end.

Lemma send_adds n left command : adds (sends command) (send decode port consoles n left command).
Proof.
  induction left as [|left IH]; cbn [send]; [by apply adds_throw|].
  destruct (run_one decode (Some 1) true port command _) as [t sent] eqn:E.
  pose proof (run_one_sent _ _ _ _ E) as Hs. cbn [fst snd] in *.
  eapply (adds_bind (λ l _, l = if sent is Some _ then [(command, t)] else [])); [|done|].
  { destruct sent; [by apply adds_emit|by apply adds_ret]. }
  intros l _ ->. destruct (contains attached t) eqn:Ea.
  - eapply adds_weaken; [|exact IH]. intros l [t'|e]; [|done]. cbn. intros (Ht & l' & -> & Hl'). split; [done|].
    destruct sent; [|by exists l']. exists ((command, t) :: l'). split; [done|]. by constructor.
  - destruct (startswith t "ERROR:") eqn:Et; [by apply adds_throw|]. apply adds_ret. split; [done|].
    destruct (Hs eq_refl) as [b ->]. exists []. by split.
Qed.

Definition fresh (l : list ran) : Prop := Forall (λ a, contains attached a.2 = false ) l.

(** Once each when no transcript speaks of another terminal. *)
Lemma sends_once command l t : sends command l (Ok t) → fresh l → l = [(command, t)] ∧ startswith t "ERROR:" = false.
Proof.
  intros (Ht & [|a l'] & -> & Hl') Hf; [done|]. cbn [app] in Hf. apply Forall_cons in Hf as [Ha _].
  apply Forall_cons in Hl' as [[_ Ha'] _]. congruence.
Qed.

(** What a successful stretch of the transfer leaves in the log. *)
Definition sent_in_order (commands : list string) (l : list ran) : Prop :=
  fresh l → l.*1 = commands ∧ Forall (λ a, startswith a.2 "ERROR:" = false) l.

Lemma sends_in_order command l t : sends command l (Ok t) → sent_in_order [command] l.
Proof. intros H Hf. destruct (sends_once _ _ _ H Hf) as [-> Ht]. split; [done|by constructor]. Qed.

Lemma sent_app c1 c2 l1 l2 : sent_in_order c1 l1 → sent_in_order c2 l2 → sent_in_order (c1 ++ c2) (l1 ++ l2).
Proof.
  intros H1 H2 [F1 F2]%Forall_app. destruct (H1 F1) as [<- ?], (H2 F2) as [<- ?]. rewrite fmap_app.
  split; [done|]. by apply Forall_app.
Qed.

Definition ok_in_order {A} (commands : list string) (l : list ran) (r : res A) : Prop :=
  is_ok r = true → sent_in_order commands l.

Lemma send_in_order n command : adds (ok_in_order [command]) (send decode port consoles n 5 command).
Proof.
  eapply adds_weaken; [|apply send_adds]. intros l [t|e] H; [|done]. intros _. by eapply sends_in_order.
Qed.

Lemma in_order_bind {A B} c1 c2 (m : io ran A) (k : A → io ran B) :
  adds (ok_in_order c1) m → (∀ a, adds (ok_in_order c2) (k a)) → adds (ok_in_order (c1 ++ c2)) (io_bind m k).
Proof.
  intros Hm Hk. eapply adds_bind; [exact Hm|done|]. intros l a Hl. eapply adds_weaken; [|apply Hk].
  intros l' r Hl' Hr. apply sent_app; [by apply Hl|by apply Hl'].
Qed.

Lemma send_all_in_order n commands : adds (ok_in_order commands) (send_all decode port consoles n commands).
Proof.
  revert n. induction commands as [|c cs IH]; intros n; cbn [send_all]; [by apply adds_ret|].
  apply (in_order_bind [c] cs); [apply send_in_order|]. intros _. apply IH.
Qed.

Lemma transfer_in_order compressed dest :
  adds (ok_in_order (setup_command :: append_commands compressed ++ [decode_command dest]))
    (transfer decode port consoles compressed dest).
Proof.
  apply (in_order_bind [setup_command] (append_commands compressed ++ [decode_command dest])); [apply send_in_order|].
  intros _. apply in_order_bind; [apply send_all_in_order|]. intros _. apply send_in_order.
Qed.

(** C26: the transfer ends with status 0 or 1; when it ends with 0, and no
    transcript of a command that was written speaks of an attached terminal, the
    guest was given the setup, the appends and the decoding, once each and in this
    order, and none of their transcripts is an error; as a shell reads these
    commands they leave a file that decodes to the compressed program, and the
    last one writes to the very destination that was asked for.  No append is
    longer than 791 characters. *)
Theorem transfer_delivers compressed dest :
  Forall is_byte compressed →
  let r := main decode port consoles compressed dest in
  (r.2.2 = 0 ∨ r.2.2 = 1) ∧
  Forall (λ c, String.length c ≤ 791)%nat (append_commands compressed) ∧
  (r.2.2 = 0 → fresh r.1 →
    r.1.*1 = setup_command :: append_commands compressed ++ [decode_command dest] ∧
    Forall (λ a, startswith a.2 "ERROR:" = false) r.1 ∧
    (∃ text, foldl run_words None r.1.*1 = Some text ∧ uudecode text = Some compressed) ∧
    shlex_split (decode_command dest) =
      Ok ["uudecode"; "-o"; gz_file; uu_file; "&&"; "gzip"; "-dc"; gz_file; ">"; dest; "&&"; "chmod"; "755"; dest;
          "&&"; "wc"; "-c"; dest]).
Proof.
  intros Hb r. unfold r, main. destruct (transfer_in_order compressed dest []) as (l & Hl & H).
  destruct (transfer decode port consoles compressed dest []) as [l' [t|e]]; cbn [fst snd app] in *; subst l'.
  2: { split; [by right|]. split; [apply appends_short|done]. }
  split; [by left|]. split; [apply appends_short|]. intros _ Hf. destruct (H eq_refl Hf) as [-> Hok].
  split; [done|]. split; [done|]. split; [|apply decode_words]. exists (encode compressed).
  split; [|by apply uudecode_encode]. cbn [foldl]. rewrite foldl_app. cbn [foldl].
  change (run_words None setup_command) with (Some EmptyString). unfold append_commands at 1. rewrite appended.
  rewrite text_pieces_concat by lia. unfold run_words. by rewrite decode_words.
Qed.
End sent.

(** ** A concrete transfer *)

(** A guest at its prompt that runs each command with status 0. *)
Definition shell (n : nat) : console :=
  let nonce := "3470_" +:+ str_of_Z (Z.of_nat n) in
  let nl := String CR (String LF EmptyString) in
  Console [Ok tt] [Data "(none) / # "] (Ok tt) (Ok tt)
    [Data (nl +:+ begin_marker nonce +:+ nl +:+ "done" +:+ nl +:+ status_marker nonce +:+ "=0" +:+ nl +:+ "(none) / # ")]
    (str_of_Z (Z.of_nat n)).

Definition sample_program : list Z := seqZ 0 200.

Lemma transfer_delivers_witness :
  ∃ text, foldl run_words None (main id 3470 (λ n _, shell n) sample_program "/tmp/it's here").1.*1 = Some text ∧
    uudecode text = Some sample_program.
Proof.
  refine (proj1 (proj2 (proj2 (proj2 (proj2 (transfer_delivers id 3470 (λ n _, shell n) sample_program "/tmp/it's here" _)) _ _)))).
  - apply (bool_decide_eq_true (Forall is_byte sample_program)). vm_compute. reflexivity.
  - vm_compute. reflexivity.
  - apply (bool_decide_eq_true (fresh _)). vm_compute. reflexivity.
Defined.
