(* ===== verification/Instrument.v ===== *)
(** * Instrumented builds: what the builders share

    The builders of [tools/build_udma_inner_profile.py],
    [tools/build_perftest_loop_profile.py] and [tools/build_udma_hotpath_probes.py]
    rewrite a C source at markers that must occur exactly once, compile it with
    the flags of the CMake build and link it with that build's command. *)

From Stdlib Require Import ZArith Lia Ascii.
From stdpp Require Import base strings numbers option list.
From S2P Require Import Prelude PyStr Json Shlex.

Open Scope string_scope.
Open Scope list_scope.
Open Scope Z_scope.

(** Text of the sources: [\n], [\t] and two backslashes are the line feed, the
    tabulation and the backslash, and a backquote stands for the double quote. *)
Fixpoint lit (s : string) : string :=
  match s with
  | String "\" (String "n" s') => String "010" (lit s')
  | String "\" (String "t" s') => String "009" (lit s')
  | String "\" (String "\" s') => String "\" (lit s')
  | String "`" s' => String "034" (lit s')
  | String c s' => String c (lit s')
  | EmptyString => EmptyString
  end.

(** ** Substrings *)

(** [s.count(sub)] and [s.replace(sub, new)] of a nonempty [sub]: occurrences do
    not overlap; [skip] characters of the last one are still to come. *)
Fixpoint count_go (sub : string) (skip : nat) (s : string) : nat :=
  match s with
  | EmptyString => O
  | String c s' =>
      match skip with
      | S k => count_go sub k s'
      | O => if startswith s sub then S (count_go sub (pred (String.length sub)) s') else count_go sub O s'
      end
  end.
Definition count_sub (sub s : string) : nat := count_go sub O s.

Fixpoint replace_go (sub new : string) (skip : nat) (s : string) : string :=
  match s with
  | EmptyString => EmptyString
  | String c s' =>
      match skip with
      | S k => replace_go sub new k s'
      | O =>
          if startswith s sub then new +:+ replace_go sub new (pred (String.length sub)) s'
          else String c (replace_go sub new O s')
      end
  end.
Definition replace_sub (sub new s : string) : string := replace_go sub new O s.

(** The text before the first occurrence of [sub], and the text from there. *)
Fixpoint cut_at (sub s : string) : option (string * string) :=
  if startswith s sub then Some (EmptyString, s)
  else match s with
       | EmptyString => None
       | String c s' => r ← cut_at sub s'; Some (String c r.1, r.2)
       end.

Definition not_found : exn := Exn ValueError "substring not found" [].

(** ** Edits *)

Section edits.
(** The message of the error when a marker is not unique. *)
Context (message : string).

(** [one]. *)
Definition one (data old new : string) : res string :=
  raise Exn RuntimeError message [PZ (Z.of_nat (count_sub old data)); PS old]
    when negb (Nat.eqb (count_sub old data) 1) ;;
  Ok (replace_sub old new data).

Definition edit : Type := string * string.
Definition edited (old new : string) : edit := (lit old, lit new).

(** [body = one(body, old, new)], edit after edit. *)
Fixpoint edits (es : list edit) (body : string) : res string :=
  match es with
  | [] => Ok body
  | (old, new) :: es' => body' ← one body old new; edits es' body'
  end.

(** [begin = data.index(first)]; [end = data.index(last, begin)]: the text before
    the function, the function, and the text after it. *)
Definition region (first last data : string) : res (string * string * string) :=
  a ← or_raise (cut_at first data) not_found;
  b ← or_raise (cut_at last a.2) not_found;
  Ok (a.1, b.1, b.2).

(** [data[:begin] + body + data[end:]] with the edits made on the function. *)
Definition patch_region (first last : string) (es : list edit) (data : string) : res string :=
  r ← region first last data;
  body ← edits es r.1.2;
  Ok (r.1.1 +:+ body +:+ r.2).
End edits.

(** ** Flags and link commands *)

(** [if " = " in line: key, value = line.split(" = ", 1)], line after line. *)
Definition assignment (line : string) : option (string * string) :=
  match cut_at " = " line with
  | Some (key, rest) => Some (key, removeprefix rest " = ")
  | None => None
  end.

Definition flag_keys : list string := ["C_DEFINES"; "C_INCLUDES"; "C_FLAGS"].

(** The values split as they are read, as two of the builders do. *)
Fixpoint split_values (values : list (string * list string)) (lines : list string)
    : res (list (string * list string)) :=
  match lines with
  | [] => Ok values
  | line :: lines' =>
      match assignment line with
      | Some (key, value) => ws ← shlex_split value; split_values (dset values key ws) lines'
      | None => split_values values lines'
      end
  end.

Definition build_flags (flags_make : string) : res (list string) :=
  values ← split_values [] (splitlines flags_make);
  ls ← mapR (getitem values) flag_keys;
  Ok (concat ls).

(** [link[link.index(original)] = replacement]. *)
Definition relink (original replacement : string) (link : list string) : res (list string) :=
  i ← or_raise (index_of original link) (Exn ValueError "{original!r} is not in list" [PS original]);
  Ok (<[i := replacement]> link).

(** [link[link.index("-o") + 1] = output]. *)
Definition relink_output (output : string) (link : list string) : res (list string) :=
  i ← or_raise (index_of "-o" link) (Exn ValueError "'-o' is not in list" []);
  raise Exn IndexError "list assignment index out of range" [] when Nat.leb (length link) (S i) ;;
  Ok (<[S i := output]> link).

(** [link.insert(link.index("-lummu"), directory)]. *)
Definition link_before (library directory : string) (link : list string) : res (list string) :=
  i ← or_raise (index_of library link) (Exn ValueError "{library!r} is not in list" [PS library]);
  Ok (take i link ++ directory :: drop i link).

(** ** The outside world *)

(** What a builder does to the files, and the commands that it runs. *)
Inductive action :=
  | Wrote (path text : string)
  | Ran (argv : list string) (cwd : option string).

(** [subprocess.run(argv, check=True)] with what it answers. *)
Definition run_checked (answer : res unit) (argv : list string) (cwd : option string) : io action unit :=
  emit (Ran argv cwd) ;;; lift answer.

(** [logs P m]: each action of [m] satisfies [P], whatever fails. *)
Definition logs {A} (P : action → Prop) (m : io action A) : Prop := adds (λ l _, Forall P l) m.

Section logs.
Context (P : action → Prop).

Lemma logs_bind {A B} (m : io action A) (k : A → io action B) :
  logs P m → (∀ a, logs P (k a)) → logs P (io_bind m k).
Proof.
  intros Hm Hk. eapply adds_bind; [exact Hm|done|]. intros l a Hl. eapply adds_weaken; [|apply Hk].
  intros l' r Hl'. by apply Forall_app.
Qed.

Lemma logs_lift {A B} (m : res A) (k : A → io action B) :
  (∀ a, m = Ok a → logs P (k a)) → logs P (io_bind (lift m) k).
Proof.
  intros H l. unfold io_bind, lift. destruct m as [a|e]; [by apply H|]. exists []. rewrite app_nil_r. by split.
Qed.

Lemma logs_ret {A} (a : A) : logs P (io_ret a).
Proof. by apply adds_ret. Qed.

Lemma logs_emit e : P e → logs P (emit e).
Proof. intros H. apply adds_emit. by apply Forall_singleton. Qed.

Lemma logs_run answer argv cwd : P (Ran argv cwd) → logs P (run_checked answer argv cwd).
Proof. intros H. apply logs_bind; [by apply logs_emit|]. intros _. apply adds_lift. constructor. Qed.
End logs.

(** ** Text with insertions *)

(** [inserted s t]: [t] is [s] with characters inserted. *)
Inductive inserted : string → string → Prop :=
  | inserted_nil : inserted EmptyString EmptyString
  | inserted_keep c s t : inserted s t → inserted (String c s) (String c t)
  | inserted_new c s t : inserted s t → inserted s (String c t).

(** A test for it. *)
Fixpoint within (s t : string) : bool :=
  match t with
  | EmptyString => match s with EmptyString => true | _ => false end
  | String d t' =>
      match s with
      | EmptyString => true
      | String c s' => if Ascii.eqb c d then within s' t' else within s t'
      end
  end.

Lemma inserted_refl s : inserted s s.
Proof. induction s; by constructor. Qed.

Lemma within_inserted s t : within s t = true → inserted s t.
Proof.
  revert s. induction t as [|d t IH]; intros [|c s] H; cbn in H; [constructor|done| |].
  - apply inserted_new. apply IH. by destruct t.
  - destruct (Ascii.eqb_spec c d) as [->|]; [by apply inserted_keep, IH|by apply inserted_new, IH].
Qed.

Lemma inserted_app a b c d : inserted a b → inserted c d → inserted (a +:+ c) (b +:+ d).
Proof. induction 1; intros Hcd; cbn; [done|by apply inserted_keep; auto|by apply inserted_new; auto]. Qed.

Lemma inserted_trans s t u : inserted s t → inserted t u → inserted s u.
Proof.
  intros Hst Htu. revert s Hst. induction Htu as [|c t u Htu IH|c t u Htu IH]; intros s Hst; [done| |].
  - inversion Hst; subst; [by apply inserted_keep, IH|by apply inserted_new, IH].
  - by apply inserted_new, IH.
Qed.

#[global] Instance inserted_preorder : PreOrder inserted.
Proof. split; [exact inserted_refl|exact inserted_trans]. Qed.

(** ** What an edit does *)

(** [s] without its first [n] characters. *)
Fixpoint sdrop (n : nat) (s : string) : string :=
  match n, s with S k, String _ s' => sdrop k s' | _, _ => s end.

Lemma sdrop_app a b : sdrop (String.length a) (a +:+ b) = b.
Proof. induction a; cbn; [by destruct b|done]. Qed.

Lemma replace_absent sub new s : ∀ k, count_go sub k s = O → replace_go sub new k s = sdrop k s.
Proof.
  induction s as [|c s IH]; intros [|k] H; cbn in *; [done|done| |by apply IH].
  destruct (startswith _ sub); [done|]. rewrite IH by done. by destruct s.
Qed.

(** A marker that occurs once is replaced there, and the rest is kept. *)
Lemma replace_once sub new s :
  sub ≠ EmptyString → count_sub sub s = 1%nat →
  ∃ a b, s = a +:+ sub +:+ b ∧ replace_sub sub new s = a +:+ new +:+ b.
Proof.
  unfold count_sub, replace_sub. intros Hsub. induction s as [|c s IH]; intros H; [done|]. cbn [count_go replace_go] in *.
  destruct (startswith (String c s) sub) eqn:E.
  - apply startswith_spec in E as [r Hr]. injection H as H. exists EmptyString, r. split; [done|]. cbn.
    rewrite replace_absent by done. destruct sub as [|d sub]; [done|]. injection Hr as -> ->. cbn. by rewrite sdrop_app.
  - destruct (IH H) as (a & b & -> & Hr). exists (String c a), b. cbn. by rewrite Hr.
Qed.

Lemma one_spec message data old new out :
  old ≠ EmptyString → one message data old new = Ok out → ∃ a b, data = a +:+ old +:+ b ∧ out = a +:+ new +:+ b.
Proof.
  intros Hold. unfold one. destruct (Nat.eqb_spec (count_sub old data) 1) as [H|]; [|done]. cbn. intros [= <-].
  by apply replace_once.
Qed.

(** Edits that only insert text, and how much they insert. *)
Definition adds_only (e : edit) : bool := negb (String.eqb e.1 EmptyString) && within e.1 e.2.
Definition size (s : string) : Z := Z.of_nat (String.length s).
Definition growth (es : list edit) : Z := foldr Z.add 0 ((λ e, size e.2 - size e.1) <$> es).

Lemma size_app a b : size (a +:+ b) = size a + size b.
Proof.
  unfold size. rewrite string_length_app. lia.
Qed.

Lemma edits_insert message es : forallb adds_only es = true → ∀ body out,
  edits message es body = Ok out → inserted body out ∧ size out = size body + growth es.
Proof.
  induction es as [|[old new] es IH]; intros Ha body out; cbn [edits]; [intros [= <-]; split; [done|cbn; lia]|].
  cbn [forallb] in Ha. apply andb_true_iff in Ha as [[Hold Hw]%andb_true_iff Ha].
  apply negb_true_iff, String.eqb_neq in Hold.
  destruct (one message body old new) as [body'|e] eqn:E; [|done]. cbn [mbind res_bind]. intros H.
  destruct (one_spec _ _ _ _ _ Hold E) as (a & b & -> & ->). destruct (IH Ha _ _ H) as [H1 H2]. split.
  - etransitivity; [|exact H1]. repeat apply inserted_app; [done|by apply within_inserted|done].
  - rewrite H2, !size_app. cbn. fold (growth es). lia.
Qed.

Lemma cut_at_spec sub s a r : cut_at sub s = Some (a, r) → s = a +:+ r ∧ startswith r sub = true.
Proof.
  revert a r. induction s as [|c s IH]; intros a r; cbn [cut_at]; destruct (startswith _ sub) eqn:E; try done.
  - intros [= <- <-]. by split.
  - intros [= <- <-]. by split.
  - destruct (cut_at sub s) as [[a' r']|]; [|done]. cbn. intros [= <- <-]. destruct (IH _ _ eq_refl) as [-> ?]. by split.
Qed.

Lemma region_spec first last data pre body post :
  region first last data = Ok (pre, body, post) →
  data = pre +:+ body +:+ post ∧ startswith (body +:+ post) first = true ∧ startswith post last = true.
Proof.
  unfold region. destruct (cut_at first data) as [[a r]|] eqn:E1; [|done]. cbn [or_raise mbind res_bind fst snd].
  destruct (cut_at last r) as [[b r']|] eqn:E2; [|done]. cbn [or_raise mbind res_bind fst snd]. intros [= <- <- <-].
  apply cut_at_spec in E1 as [-> H1], E2 as [-> H2]. by split.
Qed.

(** A patch keeps the text around the function and only inserts into it. *)
Lemma patch_region_insert message first last es data out :
  forallb adds_only es = true → patch_region message first last es data = Ok out →
  ∃ pre body post body', data = pre +:+ body +:+ post ∧ out = pre +:+ body' +:+ post ∧
    startswith (body +:+ post) first = true ∧ startswith post last = true ∧
    inserted body body' ∧ size body' = size body + growth es.
Proof.
  intros Ha. unfold patch_region. destruct (region first last data) as [[[pre body] post]|e] eqn:E; [|done].
  cbn [mbind res_bind fst snd]. destruct (edits message es body) as [body'|e] eqn:E'; [|done]. cbn [mbind res_bind].
  intros [= <-]. destruct (region_spec _ _ _ _ _ _ E) as (-> & H1 & H2).
  destruct (edits_insert _ _ Ha _ _ E') as [H3 H4]. by exists pre, body, post, body'.
Qed.

Lemma patch_inserted message first last es data out :
  forallb adds_only es = true → patch_region message first last es data = Ok out →
  inserted data out ∧ size out = size data + growth es.
Proof.
  intros Ha H. destruct (patch_region_insert _ _ _ _ _ _ Ha H) as (pre & body & post & body' & -> & -> & _ & _ & Hi & Hs).
  split; [|rewrite !size_app; lia]. repeat apply inserted_app; [done|done|done].
Qed.

(** [out] is [data] with [n] characters inserted. *)
Definition extends (n : Z) (data out : string) : Prop := inserted data out ∧ size out = size data + n.

Lemma extends_trans n m a b c : extends n a b → extends m b c → extends (n + m) a c.
Proof. intros [H1 H2] [H3 H4]. split; [by etransitivity|lia]. Qed.

Lemma extends_refl a : extends 0 a a.
Proof. split; [done|lia]. Qed.

(** ** What the edits of a link command do *)

(** [with_objects objs link link']: the first occurrence of each original, in turn,
    became its replacement. *)
Inductive with_objects : list (string * string) → list string → list string → Prop :=
  | no_objects link : with_objects [] link link
  | with_object o r objs i link link' :
      link !! i = Some o → o ∉ take i link → with_objects objs (<[i := r]> link) link' →
      with_objects ((o, r) :: objs) link link'.

Definition relink_objects (objects : list (string * string)) (link : list string) : res (list string) :=
  foldl (λ acc o, link ← acc; relink o.1 o.2 link) (Ok link) objects.

Lemma relink_objects_spec objects : ∀ link link',
  relink_objects objects link = Ok link' → with_objects objects link link' ∧ length link' = length link.
Proof.
  unfold relink_objects.
  assert (∀ objs e, foldl (λ acc o, link ← acc; relink o.1 o.2 link) (@Err (list string) e) objs = Err e) as Herr.
  { induction objs as [|o objs IH]; intros e; [done|]. cbn. apply IH. }
  induction objects as [|[o r] objs IH]; intros link link'; cbn [foldl]; [intros [= <-]; by split; [constructor|]|].
  cbn [mbind res_bind fst snd]. unfold relink at 2. destruct (index_of o link) as [i|] eqn:E; cbn [or_raise mbind res_bind].
  - intros H. destruct (IH _ _ H) as [H1 H2]. apply index_of_Some in E as [E1 E2]. rewrite length_insert in H2.
    split; [by econstructor|done].
  - by rewrite Herr.
Qed.

Lemma relink_output_spec output link link' :
  relink_output output link = Ok link' →
  ∃ i, link !! i = Some "-o" ∧ (S i < length link)%nat ∧ link' = <[S i := output]> link.
Proof.
  unfold relink_output. destruct (index_of "-o" link) as [i|] eqn:E; [|done]. cbn [or_raise mbind res_bind].
  destruct (Nat.leb_spec (length link) (S i)); [done|]. cbn. intros [= <-]. apply index_of_Some in E as [E _]. eauto.
Qed.

Lemma link_before_spec library directory link link' :
  link_before library directory link = Ok link' →
  ∃ a b, link = a ++ library :: b ∧ link' = a ++ directory :: library :: b.
Proof.
  unfold link_before. destruct (index_of library link) as [i|] eqn:E; [|done]. cbn [or_raise mbind res_bind].
  intros [= <-]. apply index_of_Some in E as [E _]. exists (take i link), (drop (S i) link).
  rewrite <- (drop_S _ _ _ E). by rewrite take_drop.
Qed.
