(* ===== verification/InnerProfile.v ===== *)
(** * The instrumented UDMA provider ([tools/build_udma_inner_profile.py])

    Two sources of the provider are copied with counters inserted, compiled, and
    linked in place of the objects of the build.  The theorem is that the
    instrumentation only inserts text: nothing of the provider is lost. *)

From Stdlib Require Import ZArith Lia Ascii.
From stdpp Require Import base strings numbers option list.
From S2P Require Import Prelude PyStr Json Shlex Instrument.

Open Scope string_scope.
Open Scope list_scope.
Open Scope Z_scope.

(** ** Texts *)

Definition HEADER : string := lit (
  "\n" +:+
  "#ifndef UBSIM_UDMA_INNER_PROFILE_H\n" +:+
  "#define UBSIM_UDMA_INNER_PROFILE_H\n" +:+
  "#include <stdint.h>\n" +:+
  "#include <stdbool.h>\n" +:+
  "struct ubsim_udma_inner_profile {\n" +:+
  "    uint64_t post_calls, post_wrs, post_lock_calls;\n" +:+
  "    uint64_t post_total_ticks, post_encode_ticks, post_barrier_ticks, post_db_ticks;\n" +:+
  "    uint64_t poll_calls, poll_cqes, poll_empty_calls, poll_lock_calls;\n" +:+
  "    uint64_t poll_total_ticks, poll_scan_ticks, poll_db_ticks;\n" +:+
  "    uint64_t cqe_samples, cqe_lookup_ticks, cqe_barrier_ticks, cqe_parse_ticks;\n" +:+
  "    uint64_t cqe_timer_pair_ticks;\n" +:+
  "    uint64_t cqe_relookup_ticks;\n" +:+
  "    uint64_t wqe_samples, wqe_check_ticks, wqe_set_ticks, wqe_queue_ticks;\n" +:+
  "    uint64_t wqe_timer_pair_ticks;\n" +:+
  "    uint64_t sqe_samples, sqe_check_ticks, sqe_prepare_ticks, sqe_parse_ticks;\n" +:+
  "};\n" +:+
  "extern struct ubsim_udma_inner_profile ubsim_inner;\n" +:+
  "extern bool ubsim_inner_on;\n" +:+
  "static inline uint64_t ubsim_inner_ticks(void)\n" +:+
  "{\n" +:+
  "    uint64_t value;\n" +:+
  "    __asm__ volatile(`mrs %0, cntvct_el0` : `=r`(value));\n" +:+
  "    return value;\n" +:+
  "}\n" +:+
  "static inline uint64_t ubsim_inner_frequency(void)\n" +:+
  "{\n" +:+
  "    uint64_t value;\n" +:+
  "    __asm__ volatile(`mrs %0, cntfrq_el0` : `=r`(value));\n" +:+
  "    return value;\n" +:+
  "}\n" +:+
  "#endif\n").

Definition JFS_GLOBALS : string := lit (
  "\n" +:+
  "struct ubsim_udma_inner_profile ubsim_inner;\n" +:+
  "bool ubsim_inner_on;\n" +:+
  "\n" +:+
  "__attribute__((constructor)) static void ubsim_inner_enable(void)\n" +:+
  "{\n" +:+
  "    ubsim_inner_on = getenv(`UBSIM_UDMA_INNER_PROFILE`) != NULL;\n" +:+
  "}\n" +:+
  "\n" +:+
  "__attribute__((destructor)) static void ubsim_inner_emit(void)\n" +:+
  "{\n" +:+
  "    if (!ubsim_inner_on)\n" +:+
  "        return;\n" +:+
  "    fprintf(stderr,\n" +:+
  "        `[UDMA_INNER] frequency_hz=%llu post_calls=%llu post_wrs=%llu `\n" +:+
  "        `post_lock_calls=%llu post_total_ticks=%llu post_encode_ticks=%llu `\n" +:+
  "        `post_barrier_ticks=%llu post_db_ticks=%llu poll_calls=%llu `\n" +:+
  "        `poll_cqes=%llu poll_empty_calls=%llu poll_lock_calls=%llu `\n" +:+
  "        `poll_total_ticks=%llu poll_scan_ticks=%llu poll_db_ticks=%llu `\n" +:+
  "        `cqe_samples=%llu cqe_lookup_ticks=%llu cqe_barrier_ticks=%llu `\n" +:+
  "        `cqe_parse_ticks=%llu cqe_timer_pair_ticks=%llu cqe_relookup_ticks=%llu `\n" +:+
  "        `wqe_samples=%llu wqe_check_ticks=%llu wqe_set_ticks=%llu `\n" +:+
  "        `wqe_queue_ticks=%llu wqe_timer_pair_ticks=%llu `\n" +:+
  "        `sqe_samples=%llu sqe_check_ticks=%llu sqe_prepare_ticks=%llu `\n" +:+
  "        `sqe_parse_ticks=%llu\\n`,\n" +:+
  "        (unsigned long long)ubsim_inner_frequency(),\n" +:+
  "        (unsigned long long)ubsim_inner.post_calls,\n" +:+
  "        (unsigned long long)ubsim_inner.post_wrs,\n" +:+
  "        (unsigned long long)ubsim_inner.post_lock_calls,\n" +:+
  "        (unsigned long long)ubsim_inner.post_total_ticks,\n" +:+
  "        (unsigned long long)ubsim_inner.post_encode_ticks,\n" +:+
  "        (unsigned long long)ubsim_inner.post_barrier_ticks,\n" +:+
  "        (unsigned long long)ubsim_inner.post_db_ticks,\n" +:+
  "        (unsigned long long)ubsim_inner.poll_calls,\n" +:+
  "        (unsigned long long)ubsim_inner.poll_cqes,\n" +:+
  "        (unsigned long long)ubsim_inner.poll_empty_calls,\n" +:+
  "        (unsigned long long)ubsim_inner.poll_lock_calls,\n" +:+
  "        (unsigned long long)ubsim_inner.poll_total_ticks,\n" +:+
  "        (unsigned long long)ubsim_inner.poll_scan_ticks,\n" +:+
  "        (unsigned long long)ubsim_inner.poll_db_ticks,\n" +:+
  "        (unsigned long long)ubsim_inner.cqe_samples,\n" +:+
  "        (unsigned long long)ubsim_inner.cqe_lookup_ticks,\n" +:+
  "        (unsigned long long)ubsim_inner.cqe_barrier_ticks,\n" +:+
  "        (unsigned long long)ubsim_inner.cqe_parse_ticks,\n" +:+
  "        (unsigned long long)ubsim_inner.cqe_timer_pair_ticks,\n" +:+
  "        (unsigned long long)ubsim_inner.cqe_relookup_ticks,\n" +:+
  "        (unsigned long long)ubsim_inner.wqe_samples,\n" +:+
  "        (unsigned long long)ubsim_inner.wqe_check_ticks,\n" +:+
  "        (unsigned long long)ubsim_inner.wqe_set_ticks,\n" +:+
  "        (unsigned long long)ubsim_inner.wqe_queue_ticks,\n" +:+
  "        (unsigned long long)ubsim_inner.wqe_timer_pair_ticks,\n" +:+
  "        (unsigned long long)ubsim_inner.sqe_samples,\n" +:+
  "        (unsigned long long)ubsim_inner.sqe_check_ticks,\n" +:+
  "        (unsigned long long)ubsim_inner.sqe_prepare_ticks,\n" +:+
  "        (unsigned long long)ubsim_inner.sqe_parse_ticks);\n" +:+
  "}\n").

(** The edits of [patch_jfs] after the include, and of the others. *)
Definition jfs_edits : list edit :=
  [edited ("\tint wr_cnt = 0;\n")
     ("\tint wr_cnt = 0;\n" +:+
      "\tuint64_t profile_start = ubsim_inner_on ? ubsim_inner_ticks() : 0;\n" +:+
      "\tuint64_t encode_start = 0, encode_end = 0, phase_start = 0;\n" +:+
      "\tif (ubsim_inner_on) {\n" +:+
      "\t\tubsim_inner.post_calls++;\n" +:+
      "\t\tif (!sq->lock_free) ubsim_inner.post_lock_calls++;\n" +:+
      "\t}\n");
   edited ("\tfor (it = wr; it != NULL; it = (urma_jfs_wr_t *)(void *)it->next) {")
     ("\tencode_start = ubsim_inner_on ? ubsim_inner_ticks() : 0;\n" +:+
      "\tfor (it = wr; it != NULL; it = (urma_jfs_wr_t *)(void *)it->next) {");
   edited ("\t\twr_cnt++;\n" +:+
     "\t}\n" +:+
     "\n" +:+
     "\tif (wr_cnt) {")
     ("\t\twr_cnt++;\n" +:+
      "\t}\n" +:+
      "\tencode_end = ubsim_inner_on ? ubsim_inner_ticks() : 0;\n" +:+
      "\tif (ubsim_inner_on) {\n" +:+
      "\t\tubsim_inner.post_wrs += wr_cnt;\n" +:+
      "\t\tubsim_inner.post_encode_ticks += encode_end - encode_start;\n" +:+
      "\t}\n" +:+
      "\n" +:+
      "\tif (wr_cnt) {");
   edited ("\t\tUDMA_TO_DEVICE_BARRIER();\n" +:+
     "\n" +:+
     "\t\tif (wr_cnt == 1 && dwqe_enable && (sq->pi - sq->ci == 1))")
     ("\t\tphase_start = ubsim_inner_on ? ubsim_inner_ticks() : 0;\n" +:+
      "\t\tUDMA_TO_DEVICE_BARRIER();\n" +:+
      "\t\tif (ubsim_inner_on) ubsim_inner.post_barrier_ticks += ubsim_inner_ticks() - phase_start;\n" +:+
      "\n" +:+
      "\t\tphase_start = ubsim_inner_on ? ubsim_inner_ticks() : 0;\n" +:+
      "\t\tif (wr_cnt == 1 && dwqe_enable && (sq->pi - sq->ci == 1))");
   edited ("\t\telse\n" +:+
     "\t\t\tudma_update_sq_db(sq);\n" +:+
     "\t}\n" +:+
     "\n")
     ("\t\telse\n" +:+
      "\t\t\tudma_update_sq_db(sq);\n" +:+
      "\t\tif (ubsim_inner_on) ubsim_inner.post_db_ticks += ubsim_inner_ticks() - phase_start;\n" +:+
      "\t}\n" +:+
      "\n");
   edited ("\treturn ret;\n" +:+
     "}")
     ("\tif (ubsim_inner_on) ubsim_inner.post_total_ticks += ubsim_inner_ticks() - profile_start;\n" +:+
      "\treturn ret;\n" +:+
      "}")].

Definition wqe_edits : list edit :=
  [edited ("\tuint32_t i;\n")
     ("\tuint32_t i;\n" +:+
      "\tstatic uint64_t sample_counter;\n" +:+
      "\tbool sample = false;\n" +:+
      "\tif (ubsim_inner_on && ++sample_counter == 127u) {\n" +:+
      "\t\tsample_counter = 0;\n" +:+
      "\t\tsample = true;\n" +:+
      "\t}\n" +:+
      "\tif (sample) {\n" +:+
      "\t\tuint64_t pair_start = ubsim_inner_ticks();\n" +:+
      "\t\tubsim_inner.wqe_timer_pair_ticks += ubsim_inner_ticks() - pair_start;\n" +:+
      "\t}\n" +:+
      "\tuint64_t start = sample ? ubsim_inner_ticks() : 0;\n" +:+
      "\tuint64_t check_end = 0, set_end = 0;\n");
   edited ("\t\treturn URMA_EINVAL;\n" +:+
     "\t}\n" +:+
     "\n" +:+
     "\tret = udma_set_sqe(")
     ("\t\treturn URMA_EINVAL;\n" +:+
      "\t}\n" +:+
      "\tcheck_end = sample ? ubsim_inner_ticks() : 0;\n" +:+
      "\n" +:+
      "\tret = udma_set_sqe(");
   edited ("\tif (ret)\n" +:+
     "\t\treturn ret;\n" +:+
     "\n" +:+
     "\twqebb_cnt = wqe_info.wqe_cnt;")
     ("\tif (ret)\n" +:+
      "\t\treturn ret;\n" +:+
      "\tset_end = sample ? ubsim_inner_ticks() : 0;\n" +:+
      "\n" +:+
      "\twqebb_cnt = wqe_info.wqe_cnt;");
   edited ("\tsq->pi += wqebb_cnt;\n" +:+
     "\n" +:+
     "\treturn URMA_SUCCESS;")
     ("\tsq->pi += wqebb_cnt;\n" +:+
      "\tif (sample) {\n" +:+
      "\t\tuint64_t queue_end = ubsim_inner_ticks();\n" +:+
      "\t\tubsim_inner.wqe_samples++;\n" +:+
      "\t\tubsim_inner.wqe_check_ticks += check_end - start;\n" +:+
      "\t\tubsim_inner.wqe_set_ticks += set_end - check_end;\n" +:+
      "\t\tubsim_inner.wqe_queue_ticks += queue_end - set_end;\n" +:+
      "\t}\n" +:+
      "\n" +:+
      "\treturn URMA_SUCCESS;")].

Definition sqe_edits : list edit :=
  [edited ("\turma_target_jetty_t *tjetty;\n")
     ("\turma_target_jetty_t *tjetty;\n" +:+
      "\tstatic uint64_t sample_counter;\n" +:+
      "\tbool sample = false;\n" +:+
      "\tif (ubsim_inner_on && ++sample_counter == 127u) {\n" +:+
      "\t\tsample_counter = 0;\n" +:+
      "\t\tsample = true;\n" +:+
      "\t}\n" +:+
      "\tuint64_t start = sample ? ubsim_inner_ticks() : 0;\n" +:+
      "\tuint64_t check_end = 0, prepare_end = 0;\n");
   edited ("\t\treturn URMA_EINVAL;\n" +:+
     "\t}\n" +:+
     "\n" +:+
     "\t(void)memset(wqe_ctl, 0, sizeof(" +:+ "*wqe_ctl));")
     ("\t\treturn URMA_EINVAL;\n" +:+
      "\t}\n" +:+
      "\tcheck_end = sample ? ubsim_inner_ticks() : 0;\n" +:+
      "\n" +:+
      "\t(void)memset(wqe_ctl, 0, sizeof(" +:+ "*wqe_ctl));");
   edited ("\twqe_ctl->rmt_jetty_type = (uint8_t)(tjetty->type);\n" +:+
     "\tif (udma_parse_jfs_wr(wqe_ctl, wr, sq, wqe_info, tjetty) != 0) {")
     ("\twqe_ctl->rmt_jetty_type = (uint8_t)(tjetty->type);\n" +:+
      "\tprepare_end = sample ? ubsim_inner_ticks() : 0;\n" +:+
      "\tif (udma_parse_jfs_wr(wqe_ctl, wr, sq, wqe_info, tjetty) != 0) {");
   edited ("\t\treturn URMA_EINVAL;\n" +:+
     "\t}\n" +:+
     "\n" +:+
     "\treturn URMA_SUCCESS;\n" +:+
     "}")
     ("\t\treturn URMA_EINVAL;\n" +:+
      "\t}\n" +:+
      "\tif (sample) {\n" +:+
      "\t\tuint64_t parse_end = ubsim_inner_ticks();\n" +:+
      "\t\tubsim_inner.sqe_samples++;\n" +:+
      "\t\tubsim_inner.sqe_check_ticks += check_end - start;\n" +:+
      "\t\tubsim_inner.sqe_prepare_ticks += prepare_end - check_end;\n" +:+
      "\t\tubsim_inner.sqe_parse_ticks += parse_end - prepare_end;\n" +:+
      "\t}\n" +:+
      "\n" +:+
      "\treturn URMA_SUCCESS;\n" +:+
      "}")].

Definition jfc_edits : list edit :=
  [edited ("\tint npolled;\n")
     ("\tint npolled;\n" +:+
      "\tuint64_t profile_start = ubsim_inner_on ? ubsim_inner_ticks() : 0;\n" +:+
      "\tuint64_t scan_start = 0, db_start = 0;\n" +:+
      "\tif (ubsim_inner_on) {\n" +:+
      "\t\tubsim_inner.poll_calls++;\n" +:+
      "\t\tif (!udma_u_jfc->cq.lock_free) ubsim_inner.poll_lock_calls++;\n" +:+
      "\t}\n");
   edited ("\tfor (npolled = 0; npolled < cr_cnt; ++npolled) {")
     ("\tscan_start = ubsim_inner_on ? ubsim_inner_ticks() : 0;\n" +:+
      "\tfor (npolled = 0; npolled < cr_cnt; ++npolled) {");
   edited ("\t\tif (ret != JFC_OK)\n" +:+
     "\t\t\tbreak;\n" +:+
     "\t}\n" +:+
     "\n" +:+
     "\tif (npolled) {")
     ("\t\tif (ret != JFC_OK)\n" +:+
      "\t\t\tbreak;\n" +:+
      "\t}\n" +:+
      "\tif (ubsim_inner_on) {\n" +:+
      "\t\tubsim_inner.poll_scan_ticks += ubsim_inner_ticks() - scan_start;\n" +:+
      "\t\tubsim_inner.poll_cqes += npolled;\n" +:+
      "\t\tif (npolled == 0) ubsim_inner.poll_empty_calls++;\n" +:+
      "\t}\n" +:+
      "\n" +:+
      "\tif (npolled) {");
   edited ("\t\tci = udma_u_jfc->cq.ci;\n" +:+
     "\t\t*udma_u_jfc->sw_db = ci & UDMA_U_JFC_DB_CI_IDX_M;\n")
     ("\t\tdb_start = ubsim_inner_on ? ubsim_inner_ticks() : 0;\n" +:+
      "\t\tci = udma_u_jfc->cq.ci;\n" +:+
      "\t\t*udma_u_jfc->sw_db = ci & UDMA_U_JFC_DB_CI_IDX_M;\n" +:+
      "\t\tif (ubsim_inner_on) ubsim_inner.poll_db_ticks += ubsim_inner_ticks() - db_start;\n");
   edited ("\treturn ret == JFC_POLL_ERR ? -UDMA_INTER_ERR : npolled;\n" +:+
     "}")
     ("\tif (ubsim_inner_on) ubsim_inner.poll_total_ticks += ubsim_inner_ticks() - profile_start;\n" +:+
      "\treturn ret == JFC_POLL_ERR ? -UDMA_INTER_ERR : npolled;\n" +:+
      "}")].

Definition cqe_edits (relookup : bool) : list edit :=
  [edited ("\tstruct udma_u_jfc_cqe *cqe = get_next_cqe(udma_u_jfc, udma_u_jfc->cq.ci);")
     ("\tstatic uint64_t sample_counter;\n" +:+
      "\tbool sample = false;\n" +:+
      "\tif (ubsim_inner_on && ++sample_counter == 127u) {\n" +:+
      "\t\tsample_counter = 0;\n" +:+
      "\t\tsample = true;\n" +:+
      "\t}\n" +:+
      "\tif (sample) {\n" +:+
      "\t\tuint64_t pair_start = ubsim_inner_ticks();\n" +:+
      "\t\tubsim_inner.cqe_timer_pair_ticks += ubsim_inner_ticks() - pair_start;\n" +:+
      "\t}\n" +:+
      "\tuint64_t start = sample ? ubsim_inner_ticks() : 0;\n" +:+
      "\tstruct udma_u_jfc_cqe *cqe = get_next_cqe(udma_u_jfc, udma_u_jfc->cq.ci);\n" +:+
      "\tuint64_t lookup_end = sample ? ubsim_inner_ticks() : 0;")] ++
  (if relookup then
   [edited ("\tuint64_t lookup_end = sample ? ubsim_inner_ticks() : 0;\n" +:+
     "\tif (cqe == NULL)")
     ("\tuint64_t lookup_end = sample ? ubsim_inner_ticks() : 0;\n" +:+
      "\tif (sample && cqe != NULL) {\n" +:+
      "\t\t__asm__ volatile(`` ::: `memory`);\n" +:+
      "\t\tuint64_t reload_start = ubsim_inner_ticks();\n" +:+
      "\t\tstruct udma_u_jfc_cqe *again = get_next_cqe(udma_u_jfc, udma_u_jfc->cq.ci);\n" +:+
      "\t\t__asm__ volatile(`` :: `r`(again) : `memory`);\n" +:+
      "\t\tubsim_inner.cqe_relookup_ticks += ubsim_inner_ticks() - reload_start;\n" +:+
      "\t}\n" +:+
      "\tif (cqe == NULL)")]
   else []) ++
  [edited ("\tUDMA_FROM_DEVICE_BARRIER();\n" +:+
     "\t++udma_u_jfc->cq.ci;")
     ("\tUDMA_FROM_DEVICE_BARRIER();\n" +:+
      "\tuint64_t barrier_end = sample ? ubsim_inner_ticks() : 0;\n" +:+
      "\t++udma_u_jfc->cq.ci;");
   edited ("\tif (udma_u_parse_cqe_for_jfc(udma_ctx, cqe, cr))\n" +:+
     "\t\treturn JFC_POLL_ERR;\n" +:+
     "\n")
     ("\tif (udma_u_parse_cqe_for_jfc(udma_ctx, cqe, cr))\n" +:+
      "\t\treturn JFC_POLL_ERR;\n" +:+
      "\tif (sample) {\n" +:+
      "\t\tuint64_t parse_end = ubsim_inner_ticks();\n" +:+
      "\t\tubsim_inner.cqe_samples++;\n" +:+
      "\t\tubsim_inner.cqe_lookup_ticks += lookup_end - start;\n" +:+
      "\t\tubsim_inner.cqe_barrier_ticks += barrier_end - lookup_end;\n" +:+
      "\t\tubsim_inner.cqe_parse_ticks += parse_end - barrier_end;\n" +:+
      "\t}\n" +:+
      "\n")].

(** ** Patches *)

Definition marker : string := "expected exactly one marker, got {data.count(old)}: {old[:80]!r}".

Definition jfs_include : edit :=
  (lit "#include `udma_u_jfs.h`", lit "#include `udma_u_jfs.h`\n#include `ubsim_udma_inner_profile.h`\n" +:+ JFS_GLOBALS).

Definition patch_jfs (data : string) : res string :=
  data ← one marker data jfs_include.1 jfs_include.2;
  patch_region marker "urma_status_t udma_u_post_sq_wr(" "urma_status_t udma_u_post_jfs_wr(" jfs_edits data.

Definition patch_wqe_sample : string → res string :=
  patch_region marker "urma_status_t udma_u_post_one_wr(" "urma_status_t udma_u_post_sq_wr(" wqe_edits.

Definition patch_sqe_sample : string → res string :=
  patch_region marker "static urma_status_t udma_set_sqe(" "urma_status_t udma_u_post_one_wr(" sqe_edits.

Definition jfc_include : edit :=
  (lit "#include `udma_u_jfc.h`", lit "#include `udma_u_jfc.h`\n#include `ubsim_udma_inner_profile.h`").

Definition patch_jfc (data : string) : res string :=
  data ← one marker data jfc_include.1 jfc_include.2;
  patch_region marker "int udma_u_poll_jfc(" "int udma_u_wait_jfc(" jfc_edits data.

Definition patch_cqe_sample (relookup : bool) : string → res string :=
  patch_region marker "static enum jfc_poll_state udma_u_poll_one(" "int udma_u_poll_jfc(" (cqe_edits relookup).

(** ** The build *)

Record options := Options {
  sample_cqe : bool;
  sample_wqe : bool;
  sample_sqe : bool;
  sample_relookup : bool
}.

(** The source [name] with the instrumentation asked for. *)
Definition modify (o : options) (name data : string) : res string :=
  let jfs := String.eqb name "udma_u_jfs.c" in
  let jfc := String.eqb name "udma_u_jfc.c" in
  modified ← (if jfs then patch_jfs data else patch_jfc data);
  modified ← (if jfs && sample_wqe o then patch_wqe_sample modified else Ok modified);
  modified ← (if jfs && sample_sqe o then patch_sqe_sample modified else Ok modified);
  if jfc && sample_cqe o then patch_cqe_sample (sample_relookup o) modified else Ok modified.

Definition suffix (o : options) : string :=
  if sample_relookup o then ".sampled_relookup.o"
  else if sample_sqe o then ".sampled_deep.o"
  else if sample_cqe o && sample_wqe o then ".sampled_both.o"
  else if sample_cqe o then ".sampled_cqe.o"
  else if sample_wqe o then ".sampled_wqe.o"
  else ".o".

Definition output_name (o : options) : string :=
  if sample_relookup o then "liburma-udma-sampled-relookup.so"
  else if sample_sqe o then "liburma-udma-sampled-deep.so"
  else if sample_cqe o && sample_wqe o then "liburma-udma-sampled-both.so"
  else if sample_cqe o then "liburma-udma-sampled.so"
  else if sample_wqe o then "liburma-udma-wqe-sampled.so"
  else "liburma-udma.so".

Definition object_of (name : string) : string := "CMakeFiles/BETA_UDMA_SO.dir/" +:+ name +:+ ".o".

Section build.
Context (ROOT BUILD SOURCE TARGET : string).

(** What the files hold and the commands answer: [flags.make] and [link.txt] of the
    CMake build, the sources, the compilations and the link. *)
Record world := World {
  w_flags : res string;
  w_source : string → res string;
  w_compile : string → res unit;
  w_link_text : res string;
  w_link : res unit
}.

Definition extra_flags : list string :=
  ["-I" +:+ BUILD; "-I" +:+ SOURCE; "-I" +:+ ROOT +:+ "/deps/ummu/include"; "-I" +:+ ROOT +:+ "/deps/ummu/kernel_headers"].

(** One source: written, compiled, and its object recorded under the original's name. *)
Definition compile_one (w : world) (o : options) (flags : list string) (name : string) : io action (string * string) :=
  let source := BUILD +:+ "/" +:+ name in
  let obj := BUILD +:+ "/" +:+ name +:+ suffix o in
  text <- lift (w_source w name);
  modified <- lift (modify o name text);
  emit (Wrote source modified) ;;;
  run_checked (w_compile w name) ("gcc" :: flags ++ ["-c"; source; "-o"; obj]) None ;;;
  io_ret (object_of name, obj).

(** The edits of the link command. *)
Definition relink_all (objects : list (string * string)) (output : string) (link : list string) : res (list string) :=
  link ← relink_objects objects link;
  link ← relink_output output link;
  link_before "-lummu" ("-L" +:+ ROOT +:+ "/artifacts/umdk-build-ummu-official") link.

Definition build (w : world) (o : options) : io action string :=
  _ <- lift (raise usage "--sample-relookup requires --sample-cqe" when sample_relookup o && negb (sample_cqe o) ;; Ok tt);
  emit (Wrote (BUILD +:+ "/ubsim_udma_inner_profile.h") HEADER) ;;;
  text <- lift (w_flags w);
  flags <- lift (build_flags text);
  let flags := flags ++ extra_flags in
  jfs <- compile_one w o flags "udma_u_jfs.c";
  jfc <- compile_one w o flags "udma_u_jfc.c";
  text <- lift (w_link_text w);
  link <- lift (shlex_split text);
  let output := BUILD +:+ "/" +:+ output_name o in
  link <- lift (relink_all [jfs; jfc] output link);
  run_checked (w_link w) link (Some TARGET) ;;;
  io_ret output.
End build.

(** ** The instrumentation only inserts *)

(** The characters that an instrumented source has more. *)
Definition added (o : options) (name : string) : Z :=
  if String.eqb name "udma_u_jfs.c" then
    growth [jfs_include] + growth jfs_edits + (if sample_wqe o then growth wqe_edits else 0) +
    (if sample_sqe o then growth sqe_edits else 0)
  else
    growth [jfc_include] + growth jfc_edits +
    (if String.eqb name "udma_u_jfc.c" && sample_cqe o then growth (cqe_edits (sample_relookup o)) else 0).

Lemma patch_with_include inc first last es data out :
  forallb adds_only (inc :: es) = true →
  (data' ← one marker data inc.1 inc.2; patch_region marker first last es data') = Ok out →
  extends (growth [inc] + growth es) data out.
Proof.
  cbn [forallb]. intros [Hi He]%andb_true_iff. destruct (one marker data inc.1 inc.2) as [data'|e] eqn:E; [|done].
  cbn [mbind res_bind]. intros H. eapply (extends_trans _ _ _ data').
  - apply (edits_insert marker [inc]); [cbn [forallb]; by rewrite Hi|]. destruct inc. cbn [edits fst snd] in *. by rewrite E.
  - by apply (patch_inserted marker first last).
Qed.

Lemma patch_jfs_extends data out : patch_jfs data = Ok out → extends (growth [jfs_include] + growth jfs_edits) data out.
Proof. apply (patch_with_include jfs_include). vm_compute. reflexivity. Qed.

Lemma patch_jfc_extends data out : patch_jfc data = Ok out → extends (growth [jfc_include] + growth jfc_edits) data out.
Proof. apply (patch_with_include jfc_include). vm_compute. reflexivity. Qed.

Lemma patch_wqe_extends data out : patch_wqe_sample data = Ok out → extends (growth wqe_edits) data out.
Proof. apply patch_inserted. vm_compute. reflexivity. Qed.

Lemma patch_sqe_extends data out : patch_sqe_sample data = Ok out → extends (growth sqe_edits) data out.
Proof. apply patch_inserted. vm_compute. reflexivity. Qed.

Lemma patch_cqe_extends relookup data out :
  patch_cqe_sample relookup data = Ok out → extends (growth (cqe_edits relookup)) data out.
Proof. apply patch_inserted. destruct relookup; vm_compute; reflexivity. Qed.

Lemma patch_if (c : bool) (f : string → res string) n data out :
  (∀ d o, f d = Ok o → extends n d o) →
  (if c then f data else Ok data) = Ok out → extends (if c then n else 0) data out.
Proof. intros H. destruct c; [by apply H|intros [= <-]; apply extends_refl]. Qed.

Lemma modify_extends o name data out :
  String.eqb name "udma_u_jfs.c" = true ∨ String.eqb name "udma_u_jfc.c" = true →
  modify o name data = Ok out → extends (added o name) data out.
Proof.
  intros Hname. unfold modify, added. destruct Hname as [E|E]; apply String.eqb_eq in E as ->.
  - change (String.eqb "udma_u_jfs.c" "udma_u_jfs.c") with true.
    change (String.eqb "udma_u_jfs.c" "udma_u_jfc.c") with false. cbn [andb].
    destruct (patch_jfs data) as [d1|] eqn:E1; [|done]. cbn [mbind res_bind]. apply patch_jfs_extends in E1.
    destruct (if sample_wqe o then _ else _) as [d2|] eqn:E2; [|done]. cbn [mbind res_bind].
    apply (patch_if _ _ _ _ _ patch_wqe_extends) in E2.
    destruct (if sample_sqe o then _ else _) as [d3|] eqn:E3; [|done]. cbn [mbind res_bind]. intros [= <-].
    apply (patch_if _ _ _ _ _ patch_sqe_extends) in E3. by repeat (eapply extends_trans; [|eassumption]).
  - change (String.eqb "udma_u_jfc.c" "udma_u_jfs.c") with false.
    change (String.eqb "udma_u_jfc.c" "udma_u_jfc.c") with true. cbn [andb].
    destruct (patch_jfc data) as [d1|] eqn:E1; [|done]. cbn [mbind res_bind]. apply patch_jfc_extends in E1.
    intros E2. eapply extends_trans; [exact E1|]. by apply (patch_if _ _ _ _ _ (patch_cqe_extends (sample_relookup o))).
Qed.

Section outcome.
Context (ROOT BUILD SOURCE TARGET : string).
(** A source as the builder may write it. *)
Definition instrumented (w : world) (o : options) (name text : string) : Prop :=
  ∃ data, w_source w name = Ok data ∧ extends (added o name) data text.

Definition compiled (o : options) (flags : list string) (name text : string) : list action :=
  let source := BUILD +:+ "/" +:+ name in
  [Wrote source text; Ran ("gcc" :: flags ++ ["-c"; source; "-o"; source +:+ suffix o]) None].

Lemma object_path o name : BUILD +:+ "/" +:+ name +:+ suffix o = (BUILD +:+ "/" +:+ name) +:+ suffix o.
Proof. by rewrite !string_app_assoc. Qed.

(** What one source leaves in the log: nothing, the source, or the source and its compilation. *)
Definition compiles (w : world) (o : options) (flags : list string) (name : string) (l : list action)
    (r : res (string * string)) : Prop :=
  l = [] ∧ is_ok r = false ∨
  ∃ text, instrumented w o name text ∧ l = compiled o flags name text ∧
    ∀ p, r = Ok p → p = (object_of name, (BUILD +:+ "/" +:+ name) +:+ suffix o).

Lemma compile_one_adds w o flags name :
  String.eqb name "udma_u_jfs.c" = true ∨ String.eqb name "udma_u_jfc.c" = true →
  adds (compiles w o flags name) (compile_one BUILD w o flags name).
Proof.
  intros Hname l. unfold compile_one, run_checked, io_bind, lift, emit, io_ret.
  destruct (w_source w name) as [data|e] eqn:Es; [|exists []; rewrite app_nil_r; split; [done|by left]].
  destruct (modify o name data) as [text|e] eqn:Em; [|exists []; rewrite app_nil_r; split; [done|by left]].
  exists (compiled o flags name text).
  assert (instrumented w o name text) as Hi by (exists data; split; [done|by apply modify_extends]).
  destruct (w_compile w name); cbn [fst snd]; rewrite <- app_assoc; unfold compiled; rewrite object_path;
    (split; [done|]; right; exists text; split; [done|]; split; [done|]).
  - by intros p [= <-].
  - done.
Qed.

(** A source that the builder writes: the header, or an instrumented source. *)
Definition written (w : world) (o : options) (a : action) : Prop :=
  match a with
  | Wrote path text =>
      path = BUILD +:+ "/ubsim_udma_inner_profile.h" ∧ text = HEADER ∨
      ∃ name, path = BUILD +:+ "/" +:+ name ∧ instrumented w o name text
  | Ran _ _ => True
  end.

Lemma compiles_written w o flags name l r : compiles w o flags name l r → Forall (written w o) l.
Proof.
  intros [[-> _]|(text & Hi & -> & _)]; [constructor|]. unfold compiled.
  apply Forall_cons. split; [right; by exists name|by repeat constructor].
Qed.

(** C27: whatever fails, each source that the builder writes is the provider's with
    a number of characters inserted that depends on the options alone; and when
    the builder ends normally it wrote the header, wrote and compiled both
    sources, and ran the link command of the build with the two objects, the
    output and one library directory as the only changes. *)
Theorem provider_instrumented w o :
  let r := build ROOT BUILD SOURCE TARGET w o [] in
  Forall (written w o) r.1 ∧
  ∀ output, r.2 = Ok output →
    (sample_relookup o = true → sample_cqe o = true) ∧
    output = BUILD +:+ "/" +:+ output_name o ∧
    ∃ flags jfs jfc text link linked i a b,
      instrumented w o "udma_u_jfs.c" jfs ∧ instrumented w o "udma_u_jfc.c" jfc ∧
      w_link_text w = Ok text ∧ shlex_split text = Ok link ∧
      with_objects [(object_of "udma_u_jfs.c", (BUILD +:+ "/udma_u_jfs.c") +:+ suffix o);
                    (object_of "udma_u_jfc.c", (BUILD +:+ "/udma_u_jfc.c") +:+ suffix o)] link linked ∧
      linked !! i = Some "-o" ∧ <[S i := output]> linked = a ++ "-lummu" :: b ∧
      r.1 = Wrote (BUILD +:+ "/ubsim_udma_inner_profile.h") HEADER ::
            compiled o flags "udma_u_jfs.c" jfs ++ compiled o flags "udma_u_jfc.c" jfc ++
            [Ran (a ++ ("-L" +:+ ROOT +:+ "/artifacts/umdk-build-ummu-official") :: "-lummu" :: b) (Some TARGET)].
Proof.
  intros r. subst r. unfold build, io_bind, lift, emit, run_checked, io_ret.
  destruct (sample_relookup o && negb (sample_cqe o)) eqn:Eo; [split; [constructor|done]|]. cbv iota. cbn [app].
  assert (written w o (Wrote (BUILD +:+ "/ubsim_udma_inner_profile.h") HEADER)) as Hh by (by left).
  destruct (w_flags w) as [t|]; [|split; [by repeat constructor|done]].
  destruct (build_flags t) as [fl|]; [|split; [by repeat constructor|done]].
  set (flags := fl ++ extra_flags ROOT BUILD SOURCE). set (l0 := [Wrote _ HEADER]).
  destruct (compile_one_adds w o flags "udma_u_jfs.c" (or_introl eq_refl) l0) as (l1 & E1 & C1).
  pose proof (compiles_written _ _ _ _ _ _ C1) as W1.
  destruct (compile_one BUILD w o flags "udma_u_jfs.c" l0) as [l0' [jfs|e]]; cbn [fst snd] in *; subst l0';
    [|split; [by repeat constructor|done]].
  destruct (compile_one_adds w o flags "udma_u_jfc.c" (or_intror eq_refl) (l0 ++ l1)) as (l2 & E2 & C2).
  pose proof (compiles_written _ _ _ _ _ _ C2) as W2.
  assert (Forall (written w o) ((l0 ++ l1) ++ l2)) as W by (apply Forall_app; split; [by constructor|done]).
  destruct (compile_one BUILD w o flags "udma_u_jfc.c" (l0 ++ l1)) as [l0' [jfc|e]]; cbn [fst snd] in *; subst l0'; [|by split].
  destruct (w_link_text w) as [text|] eqn:El; [|by split]. destruct (shlex_split text) as [link|] eqn:Es; [|by split].
  destruct (relink_all _ _ _ _) as [argv|] eqn:Er; [|by split].
  assert (Forall (written w o) (((l0 ++ l1) ++ l2) ++ [Ran argv (Some TARGET)])) as W' by (apply Forall_app; split; [done|by repeat constructor]).
  destruct (w_link w); (split; [done|]); [|done]. intros output [= <-].
  split; [intros Hr; rewrite Hr in Eo; by destruct (sample_cqe o)|]. split; [done|].
  destruct C1 as [[_ C1]|(m1 & I1 & -> & P1)]; [done|]. destruct C2 as [[_ C2]|(m2 & I2 & -> & P2)]; [done|].
  rewrite (P1 _ eq_refl), (P2 _ eq_refl) in Er. unfold relink_all in Er.
  destruct (relink_objects _ link) as [linked|] eqn:Eo1; [|done]. cbn [mbind res_bind] in Er.
  destruct (relink_output _ linked) as [linked'|] eqn:Eo2; [|done]. cbn [mbind res_bind] in Er.
  apply relink_objects_spec in Eo1 as [Eo1 _]. apply relink_output_spec in Eo2 as (i & Hi & _ & ->).
  apply link_before_spec in Er as (front & back & Ha & ->).
  exists flags, m1, m2, text, link, linked, i, front, back. repeat (split; [done|]). by rewrite <- !app_assoc.
Qed.
End outcome.

(** ** A concrete build *)

(** Sources that hold each marker once. *)
Definition olds (es : list edit) : string := concat_str es.*1.

Definition sample_jfs : string :=
  lit "#include `udma_u_jfs.h`\nstatic urma_status_t udma_set_sqe(" +:+ olds sqe_edits +:+
  "urma_status_t udma_u_post_one_wr(" +:+ olds wqe_edits +:+ "urma_status_t udma_u_post_sq_wr(" +:+ olds jfs_edits +:+
  "urma_status_t udma_u_post_jfs_wr(".

Definition sample_jfc : string :=
  lit "#include `udma_u_jfc.h`\nstatic enum jfc_poll_state udma_u_poll_one(" +:+ olds (cqe_edits false) +:+
  lit "\tif (cqe == NULL)" +:+ "int udma_u_poll_jfc(" +:+ olds jfc_edits +:+ "int udma_u_wait_jfc(".

Definition sample_world : world :=
  World (Ok (lit "C_DEFINES = -DX\nC_INCLUDES = -I/src\nC_FLAGS = -O2 -fPIC\n"))
    (λ name, Ok (if String.eqb name "udma_u_jfs.c" then sample_jfs else sample_jfc)) (λ _, Ok tt)
    (Ok ("cc -o liburma-udma.so CMakeFiles/BETA_UDMA_SO.dir/udma_u_jfs.c.o other.o " +:+
         "CMakeFiles/BETA_UDMA_SO.dir/udma_u_jfc.c.o -lummu")) (Ok tt).

Definition sample_options : options := Options true true false false.

(** The text of the second action. *)
Definition text_at (l : list action) : string :=
  match l !! 1%nat with Some (Wrote _ text) => text | _ => EmptyString end.

Lemma provider_instrumented_witness :
  extends (added sample_options "udma_u_jfs.c") sample_jfs
    match modify sample_options "udma_u_jfs.c" sample_jfs with Ok m => m | Err _ => EmptyString end.
Proof.
  assert ((build "/lab" "/out" "/src" "/target" sample_world sample_options []).2 =
          Ok "/out/liburma-udma-sampled-both.so") as E by (vm_compute; reflexivity).
  destruct (proj2 (provider_instrumented "/lab" "/out" "/src" "/target" sample_world sample_options) _ E)
    as (_ & _ & flags & jfs & jfc & text & link & linked & i & front & back & (data & Hd & He) & _ & _ & _ & _ & _ & _ & Hlog).
  injection Hd as <-. apply (f_equal text_at) in Hlog.
  assert (match modify sample_options "udma_u_jfs.c" sample_jfs with Ok m => m | Err _ => EmptyString end = jfs) as ->.
  { eapply eq_trans; [|exact Hlog]. vm_compute. reflexivity. }
  exact He.
Defined.

(** All the stages at once: the rest of the markers survive the earlier patches. *)
Example deep_sources :
  is_ok (modify (Options true true true true) "udma_u_jfs.c" sample_jfs) = true ∧
  is_ok (modify (Options true true true true) "udma_u_jfc.c"
    (lit "#include `udma_u_jfc.h`\nstatic enum jfc_poll_state udma_u_poll_one(" +:+
     lit "\tstruct udma_u_jfc_cqe *cqe = get_next_cqe(udma_u_jfc, udma_u_jfc->cq.ci);\n\tif (cqe == NULL)" +:+
     olds (drop 1 (cqe_edits false)) +:+ "int udma_u_poll_jfc(" +:+ olds jfc_edits +:+ "int udma_u_wait_jfc(")) = true.
Proof. vm_compute. by split. Qed.
