(* ===== verification/LoopProfile.v ===== *)
(** * The instrumented perftest ([tools/build_perftest_loop_profile.py])

    The bandwidth loop of perftest is copied with timers inserted, compiled, and
    linked in place of the object of the build. *)

From Stdlib Require Import ZArith Lia Ascii.
From stdpp Require Import base strings numbers option list.
From S2P Require Import Prelude PyStr Json Shlex Instrument.

Open Scope string_scope.
Open Scope list_scope.
Open Scope Z_scope.

(** ** Texts *)

(** The timers, with a flag that is always off. *)
Definition timers : string := lit (
  "\n" +:+
  "#if defined(__aarch64__)\n" +:+
  "static inline uint64_t loop_ticks(void)\n" +:+
  "{\n" +:+
  "    uint64_t value;\n" +:+
  "    __asm__ volatile(`mrs %0, cntvct_el0` : `=r`(value));\n" +:+
  "    return value;\n" +:+
  "}\n" +:+
  "static inline uint64_t loop_frequency(void)\n" +:+
  "{\n" +:+
  "    uint64_t value;\n" +:+
  "    __asm__ volatile(`mrs %0, cntfrq_el0` : `=r`(value));\n" +:+
  "    return value;\n" +:+
  "}\n" +:+
  "#else\n" +:+
  "#include <time.h>\n" +:+
  "static inline uint64_t loop_ticks(void)\n" +:+
  "{\n" +:+
  "    struct timespec ts;\n" +:+
  "    clock_gettime(CLOCK_MONOTONIC, &ts);\n" +:+
  "    return (uint64_t)ts.tv_sec * 1000000000ull + ts.tv_nsec;\n" +:+
  "}\n" +:+
  "static inline uint64_t loop_frequency(void) { return 1000000000ull; }\n" +:+
  "#endif\n" +:+
  "\n" +:+
  "static const bool loop_profile_on = false;\n").

(** What takes the place of the flag. *)
Definition counters : string := lit (
  "\n" +:+
  "static struct {\n" +:+
  "    uint64_t outer_loops, jetty_visits, post_calls, poll_calls;\n" +:+
  "    uint64_t cqes, empty_polls;\n" +:+
  "    uint64_t scan_ticks, post_ticks, poll_ticks, account_ticks;\n" +:+
  "} loop_profile;\n" +:+
  "static bool loop_profile_on;\n" +:+
  "\n" +:+
  "__attribute__((destructor)) static void emit_loop_profile(void)\n" +:+
  "{\n" +:+
  "    if (!loop_profile_on) return;\n" +:+
  "    fprintf(stderr,\n" +:+
  "        `[URMA_LOOP] frequency_hz=%llu outer_loops=%llu jetty_visits=%llu `\n" +:+
  "        `post_calls=%llu poll_calls=%llu cqes=%llu empty_polls=%llu `\n" +:+
  "        `scan_ticks=%llu post_ticks=%llu poll_ticks=%llu account_ticks=%llu\\n`,\n" +:+
  "        (unsigned long long)loop_frequency(),\n" +:+
  "        (unsigned long long)loop_profile.outer_loops,\n" +:+
  "        (unsigned long long)loop_profile.jetty_visits,\n" +:+
  "        (unsigned long long)loop_profile.post_calls,\n" +:+
  "        (unsigned long long)loop_profile.poll_calls,\n" +:+
  "        (unsigned long long)loop_profile.cqes,\n" +:+
  "        (unsigned long long)loop_profile.empty_polls,\n" +:+
  "        (unsigned long long)loop_profile.scan_ticks,\n" +:+
  "        (unsigned long long)loop_profile.post_ticks,\n" +:+
  "        (unsigned long long)loop_profile.poll_ticks,\n" +:+
  "        (unsigned long long)loop_profile.account_ticks);\n" +:+
  "}\n").

Definition body_edits : list edit :=
  [edited ("    while (tot_scnt < tot_iters || tot_ccnt < tot_iters ||\n" +:+
     "        (cfg->time_type.bs.duration == 1 && run_ctx->state != END_STATE)) {\n")
     ("    while (tot_scnt < tot_iters || tot_ccnt < tot_iters ||\n" +:+
      "        (cfg->time_type.bs.duration == 1 && run_ctx->state != END_STATE)) {\n" +:+
      "        uint64_t loop_begin = loop_profile_on ? loop_ticks() : 0;\n" +:+
      "        uint64_t loop_post_ticks = 0;\n" +:+
      "        if (loop_profile_on) loop_profile.outer_loops++;\n");
   edited ("                urma_jfs_wr_t *bad_wr = NULL;\n" +:+
     "                if (cfg->jetty_mode == PERFTEST_JETTY_SIMPLEX) {")
     ("                urma_jfs_wr_t *bad_wr = NULL;\n" +:+
      "                uint64_t post_begin = loop_profile_on ? loop_ticks() : 0;\n" +:+
      "                if (cfg->jetty_mode == PERFTEST_JETTY_SIMPLEX) {");
   edited ("                        &bad_wr);\n" +:+
     "                }\n" +:+
     "\n" +:+
     "                if (status != URMA_SUCCESS) {")
     ("                        &bad_wr);\n" +:+
      "                }\n" +:+
      "                if (loop_profile_on) {\n" +:+
      "                    uint64_t delta = loop_ticks() - post_begin;\n" +:+
      "                    loop_profile.post_ticks += delta;\n" +:+
      "                    loop_post_ticks += delta;\n" +:+
      "                    loop_profile.post_calls++;\n" +:+
      "                }\n" +:+
      "\n" +:+
      "                if (status != URMA_SUCCESS) {");
   edited ("            }\n" +:+
     "        }\n" +:+
     "\n" +:+
     "        if (tot_ccnt < tot_iters || (cfg->time_type.bs.duration == 1 && tot_ccnt < tot_scnt)) {")
     ("            }\n" +:+
      "        }\n" +:+
      "        if (loop_profile_on) {\n" +:+
      "            loop_profile.scan_ticks += loop_ticks() - loop_begin - loop_post_ticks;\n" +:+
      "            loop_profile.jetty_visits += cfg->jettys;\n" +:+
      "        }\n" +:+
      "\n" +:+
      "        if (tot_ccnt < tot_iters || (cfg->time_type.bs.duration == 1 && tot_ccnt < tot_scnt)) {");
   edited ("            cqe_cnt = urma_poll_jfc(ctx->jfc_s[0], PERFTEST_POLL_BATCH, cr);\n" +:+
     "            if (cqe_cnt > 0) {")
     ("            uint64_t poll_begin = loop_profile_on ? loop_ticks() : 0;\n" +:+
      "            cqe_cnt = urma_poll_jfc(ctx->jfc_s[0], PERFTEST_POLL_BATCH, cr);\n" +:+
      "            uint64_t poll_end = loop_profile_on ? loop_ticks() : 0;\n" +:+
      "            if (loop_profile_on) {\n" +:+
      "                loop_profile.poll_ticks += poll_end - poll_begin;\n" +:+
      "                loop_profile.poll_calls++;\n" +:+
      "                if (cqe_cnt > 0) loop_profile.cqes += cqe_cnt;\n" +:+
      "                if (cqe_cnt == 0) loop_profile.empty_polls++;\n" +:+
      "            }\n" +:+
      "            if (cqe_cnt > 0) {");
   edited ("                goto free_cr;\n" +:+
     "            }\n" +:+
     "        }\n" +:+
     "    }\n" +:+
     "\n" +:+
     "    if (cfg->no_peak == true && cfg->time_type.bs.iterations == 1) {")
     ("                goto free_cr;\n" +:+
      "            }\n" +:+
      "            if (loop_profile_on) loop_profile.account_ticks += loop_ticks() - poll_end;\n" +:+
      "        }\n" +:+
      "    }\n" +:+
      "\n" +:+
      "    if (cfg->no_peak == true && cfg->time_type.bs.iterations == 1) {");
   edited ("    uint64_t tot_scnt = 0;")
     ("    loop_profile_on = getenv(`UBSIM_BW_LOOP_PROFILE`) != NULL;\n" +:+
      "    uint64_t tot_scnt = 0;")].

(** [insert]. *)
Definition insert : string := replace_sub "static const bool loop_profile_on = false;" counters timers.

(** ** The source *)

Definition marker : string := "expected one source marker, found {text.count(old)}: {old[:90]!r}".

Definition half : string := "#define PERFTEST_HALF (2)".

Definition loop_source (raw : string) : res string :=
  r ← region "static int run_once_bw(" "static int clean_scq_credit(" raw;
  body ← edits marker body_edits r.1.2;
  output ← one marker raw r.1.2 body;
  one marker output half (insert +:+ lit "\n" +:+ half).

(** ** The build *)

Section build.
Context (ROOT BUILD SOURCE_DIR TARGET : string).

Record world := World {
  w_raw : res string;          (** [perftest_run_test.c] *)
  w_header : res string;       (** [git show] of the header *)
  w_flags : res string;
  w_compile : res unit;
  w_link_text : res string;
  w_link : res unit
}.

Definition stale : string := "/workspace/openurma-gem5-lab/sources/OpenURMA/integration/umdk/vendor/umdk".

Definition loop_flags (flags_make : string) : res (list string) :=
  flags ← build_flags flags_make;
  Ok (((λ flag, replace_sub stale (ROOT +:+ "/sources/umdk") flag) <$> flags) ++ ["-I" +:+ BUILD; "-I" +:+ SOURCE_DIR]).

Definition original : string := "CMakeFiles/urma_perftest.dir/perftest_run_test.c.o".

Definition build (w : world) : io action string :=
  raw <- lift (w_raw w);
  output <- lift (loop_source raw);
  let source := BUILD +:+ "/perftest_run_test.c" in
  emit (Wrote source output) ;;;
  emit (Ran ["git"; "show"; "fd4d120^:tools/ou-m5ops.h"] (Some ROOT)) ;;;
  header <- lift (w_header w);
  emit (Wrote (BUILD +:+ "/ou-m5ops.h") header) ;;;
  text <- lift (w_flags w);
  flags <- lift (loop_flags text);
  let obj := BUILD +:+ "/perftest_run_test.c.o" in
  run_checked (w_compile w) ("gcc" :: flags ++ ["-c"; source; "-o"; obj]) None ;;;
  text <- lift (w_link_text w);
  link <- lift (shlex_split text);
  link <- lift (relink_objects [(original, obj)] link);
  let binary := BUILD +:+ "/urma_perftest_loop_profile" in
  link <- lift (relink_output binary link);
  run_checked (w_link w) link (Some TARGET) ;;;
  io_ret binary.
End build.

(** ** The instrumentation only inserts *)

Definition added : Z := growth body_edits + size insert + 1.

(** The function to edit is not empty: it starts with its own header. *)
Lemma body_nonempty raw pre body post :
  region "static int run_once_bw(" "static int clean_scq_credit(" raw = Ok (pre, body, post) → body ≠ EmptyString.
Proof.
  intros (_ & H1 & H2)%region_spec ->. cbn [String.append] in H1.
  apply startswith_spec in H1 as [r1 ->]. apply startswith_spec in H2 as [r2 H2]. discriminate.
Qed.

Lemma one_extends message old new data out :
  old ≠ EmptyString → inserted old new → one message data old new = Ok out → extends (size new - size old) data out.
Proof.
  intros Hold Hi H. destruct (one_spec _ _ _ _ _ Hold H) as (a & b & -> & ->). split.
  - repeat apply inserted_app; done.
  - rewrite !size_app. lia.
Qed.

Lemma loop_source_extends raw out : loop_source raw = Ok out → extends added raw out.
Proof.
  unfold loop_source. destruct (region _ _ raw) as [[[pre body] post]|e] eqn:Er; [|done]. cbn [mbind res_bind fst snd].
  destruct (edits marker body_edits body) as [body'|e] eqn:Ee; [|done]. cbn [mbind res_bind].
  destruct (one marker raw body body') as [output|e] eqn:Eo; [|done]. cbn [mbind res_bind]. intros H.
  apply edits_insert in Ee as [E1 E2]; [|vm_compute; reflexivity].
  eapply one_extends in Eo; [|by eapply body_nonempty|done]. rewrite E2 in Eo.
  eapply one_extends in H; [|done|apply within_inserted; vm_compute; reflexivity].
  assert (added = (size body + growth body_edits - size body) + (size (insert +:+ lit "\n" +:+ half) - size half)) as ->.
  { rewrite !size_app. change (size (lit "\n")) with 1. unfold added. lia. }
  by eapply extends_trans.
Qed.

Section outcome.
Context (ROOT BUILD SOURCE_DIR TARGET : string).

Definition sound_write (w : world) (a : action) : Prop :=
  match a with
  | Wrote path text =>
      path = BUILD +:+ "/perftest_run_test.c" ∧ (∃ raw, w_raw w = Ok raw ∧ extends added raw text) ∨
      path = BUILD +:+ "/ou-m5ops.h" ∧ w_header w = Ok text
  | Ran _ _ => True
  end.

(** Whatever fails, the source that the builder writes is perftest's with a
    constant number of characters inserted; and when the builder ends normally the
    link command that it ran is that of the build but for the one object and the
    output. *)
Theorem perftest_instrumented w :
  let r := build ROOT BUILD SOURCE_DIR TARGET w [] in
  Forall (sound_write w) r.1 ∧
  ∀ binary, r.2 = Ok binary →
    ∃ source text link linked i log,
      r.1 = Wrote (BUILD +:+ "/perftest_run_test.c") source :: log ++ [Ran (<[S i := binary]> linked) (Some TARGET)] ∧
      (∃ raw, w_raw w = Ok raw ∧ extends added raw source) ∧
      w_link_text w = Ok text ∧ shlex_split text = Ok link ∧
      with_objects [(original, BUILD +:+ "/perftest_run_test.c.o")] link linked ∧ linked !! i = Some "-o".
Proof.
  intros r. subst r. unfold build, io_bind, lift, emit, run_checked, io_ret.
  destruct (w_raw w) as [raw|] eqn:Eraw; [|by repeat split].
  destruct (loop_source raw) as [source|] eqn:Es; [|by repeat split]. apply loop_source_extends in Es. cbn [app].
  assert (∃ raw, w_raw w = Ok raw ∧ extends added raw source) as Hs by by exists raw.
  assert (∀ argv cwd l, Forall (sound_write w) l → Forall (sound_write w) (l ++ [Ran argv cwd])) as Hran.
  { intros argv cwd l Hl. apply Forall_app. split; [done|by repeat constructor]. }
  assert (Forall (sound_write w) [Wrote (BUILD +:+ "/perftest_run_test.c") source]) as H1
    by (apply Forall_singleton; by left).
  apply (Hran ["git"; "show"; "fd4d120^:tools/ou-m5ops.h"] (Some ROOT)) in H1. cbn [app] in H1.
  destruct (w_header w) as [header|] eqn:Eh; [|by split]. cbn [app].
  assert (Forall (sound_write w) ([Wrote (BUILD +:+ "/perftest_run_test.c") source;
    Ran ["git"; "show"; "fd4d120^:tools/ou-m5ops.h"] (Some ROOT)] ++ [Wrote (BUILD +:+ "/ou-m5ops.h") header])) as H2
    by (apply Forall_app; split; [done|apply Forall_singleton; by right]). cbn [app] in H2.
  destruct (w_flags w) as [t|]; [|by split]. destruct (loop_flags ROOT BUILD SOURCE_DIR t) as [flags|]; [|by split].
  pose proof (λ a c, Hran a c _ H2) as H3. pose proof (λ a c a' c', Hran a' c' _ (H3 a c)) as H4. cbn [app] in H3, H4.
  destruct (w_compile w); [|split; [apply H3|done]].
  destruct (w_link_text w) as [text|] eqn:El; [|split; [apply H3|done]].
  destruct (shlex_split text) as [link|] eqn:Ek; [|split; [apply H3|done]].
  destruct (relink_objects _ link) as [linked|] eqn:Eo; [|split; [apply H3|done]].
  destruct (relink_output _ linked) as [argv|] eqn:Ea; [|split; [apply H3|done]].
  destruct (w_link w); (split; [apply H4|]); [|done]. intros binary [= <-].
  apply relink_objects_spec in Eo as [Eo _]. apply relink_output_spec in Ea as (i & Hi & _ & ->).
  exists source, text, link, linked, i. eexists [_; _; _]. split; [done|]. split; [by exists raw|]. by repeat (split; [done|]).
Qed.
End outcome.

(** ** A concrete build *)

Definition sample_raw : string :=
  half +:+ lit "\nstatic int run_once_bw(" +:+ concat_str body_edits.*1 +:+ "static int clean_scq_credit(".

Definition sample_world : world :=
  World (Ok sample_raw) (Ok "header") (Ok (lit "C_DEFINES = -DX\nC_INCLUDES = -I/src\nC_FLAGS = -O2\n")) (Ok tt)
    (Ok "cc -O2 CMakeFiles/urma_perftest.dir/perftest_run_test.c.o -o urma_perftest -lm") (Ok tt).

Lemma perftest_instrumented_witness :
  ∃ link linked i, with_objects [(original, "/out/perftest_run_test.c.o")] link linked ∧ linked !! i = Some "-o" ∧
    last (build "/lab" "/out" "/src" "/target" sample_world []).1 =
      Some (Ran (<[S i := "/out/urma_perftest_loop_profile"]> linked) (Some "/target")).
Proof.
  assert ((build "/lab" "/out" "/src" "/target" sample_world []).2 = Ok "/out/urma_perftest_loop_profile") as E
    by (vm_compute; reflexivity).
  destruct (proj2 (perftest_instrumented "/lab" "/out" "/src" "/target" sample_world) _ E)
    as (source & text & link & linked & i & log & Hlog & _ & _ & _ & Hl & Hi).
  exists link, linked, i. split; [exact Hl|]. split; [exact Hi|]. rewrite Hlog. rewrite app_comm_cons. apply last_snoc.
Defined.
