(* ===== verification/ProbeBuilds.v ===== *)
(** * Variants of the UDMA provider and cross compilation

    [tools/build_udma_hotpath_probes.py] builds variants of the provider,
    [tools/build_udma_optimized.py] the one the laboratory uses, and
    [tools/aarch64-umdk-cc.py] and [tools/aarch64-umdk-cxx.py] stand before the
    cross compilers. *)

From Stdlib Require Import ZArith Lia Ascii.
From stdpp Require Import base strings numbers option list.
From S2P Require Import Prelude PyStr Json Shlex Instrument.

Open Scope string_scope.
Open Scope list_scope.
Open Scope Z_scope.

Module Hotpath.

(** The keyword arguments of [build]. *)
Record variant := Variant {
  no_trapv : bool;
  prefetch_distance : Z;
  prefetch_locality : Z;
  sqe_prefetch_distance : Z;
  sqe_prefetch_locality : Z;
  no_cqe_barrier : bool;
  optimize_o3 : bool
}.

Definition plain : variant := Variant false 0 1 0 1 false false.

(** ** The sources *)

Definition cqe_lookup : string := lit "\tstruct udma_u_jfc_cqe *cqe = get_next_cqe(udma_u_jfc, udma_u_jfc->cq.ci);".
Definition cqe_prefetch (v : variant) : string :=
  lit "\t/* Diagnostic: fetch " +:+ str_of_Z (prefetch_distance v) +:+ lit " later CQE cache lines. */\n" +:+
  lit "\t__builtin_prefetch(get_u_buf_entry(&udma_u_jfc->cq, udma_u_jfc->cq.ci + " +:+
  str_of_Z (prefetch_distance v) +:+ "), 0, " +:+ str_of_Z (prefetch_locality v) +:+ lit ");\n" +:+ cqe_lookup.

Definition barrier : string := lit "\tUDMA_FROM_DEVICE_BARRIER();\n\t++udma_u_jfc->cq.ci;".
Definition no_barrier : string := lit "\t/* Diagnostic only: no CQE read barrier. */\n\t++udma_u_jfc->cq.ci;".

Definition sqe_encode : string :=
  lit "\tret = udma_set_sqe((struct udma_jfs_sqe_ctl *" +:+ ")sq->qbuf_curr, sq, wr, &wqe_info);".
Definition sqe_prefetch (v : variant) : string :=
  lit "\t__builtin_prefetch(udma_inc_ptr_wrap((uint8_t *" +:+ ")sq->qbuf_curr, " +:+
  str_of_Z (sqe_prefetch_distance v) +:+ "u << sq->baseblk_shift, (uint8_t *" +:+
  ")sq->qbuf, (uint8_t *" +:+ ")sq->qbuf_end), 1, " +:+ str_of_Z (sqe_prefetch_locality v) +:+ lit ");\n" +:+ sqe_encode.

Definition jfs : string := "udma_u_jfs.c".
Definition jfc : string := "udma_u_jfc.c".
Definition NAMES : list string := [jfs; jfc].

Definition when_one (c : bool) (message old new contents : string) : res string :=
  if c then one message contents old new else Ok contents.

(** The contents that are written for a source. *)
Definition probe (v : variant) (source_name contents : string) : res string :=
  contents ← when_one (negb (prefetch_distance v =? 0) && String.eqb source_name jfc)
    "CQE lookup marker not unique" cqe_lookup (cqe_prefetch v) contents;
  contents ← when_one (no_cqe_barrier v && String.eqb source_name jfc)
    "CQE read barrier marker not unique" barrier no_barrier contents;
  when_one (negb (sqe_prefetch_distance v =? 0) && String.eqb source_name jfs)
    "SQE encode marker not unique" sqe_encode (sqe_prefetch v) contents.

(** ** The build of one variant *)

Definition raw_values (flags_make : string) : list (string * string) :=
  foldl (λ d line, match assignment line with Some (k, v) => dset d k v | None => d end) [] (splitlines flags_make).

Section build.
Context (ROOT SOURCE TARGET OUTPUT : string).

Record world := World {
  w_flags : res string;
  w_source : string → res string;
  w_compile : string → string → res unit;   (** of a variant and a source *)
  w_link_text : res string;
  w_link : string → res unit
}.

Definition variant_flags (v : variant) (flags_make : string) : res (list string) :=
  let values := raw_values flags_make in
  ls ← mapR (λ key, text ← getitem values key; shlex_split text) flag_keys;
  Ok (concat ls ++
      ["-I" +:+ SOURCE; "-I" +:+ ROOT +:+ "/deps/ummu/include"; "-I" +:+ ROOT +:+ "/deps/ummu/kernel_headers"] ++
      (if no_trapv v then ["-fno-trapv"] else []) ++ (if optimize_o3 v then ["-O3"] else [])).

Definition path_of (name source_name : string) : string := OUTPUT +:+ "/" +:+ name +:+ "/" +:+ source_name.

(** One turn of the loop over the sources. *)
Definition compile_one (w : world) (name : string) (v : variant) (flags : list string) (source_name : string)
    : io action (string * string) :=
  let source := path_of name source_name in
  original <- lift (w_source w source_name);
  contents <- lift (probe v source_name original);
  emit (Wrote source contents) ;;;
  let obj := path_of name (source_name +:+ ".o") in
  run_checked (w_compile w name source_name) ("gcc" :: flags ++ ["-c"; source; "-o"; obj]) None ;;;
  io_ret ("CMakeFiles/BETA_UDMA_SO.dir/" +:+ source_name +:+ ".o", obj).

Definition build (w : world) (name : string) (v : variant) : io action string :=
  text <- lift (w_flags w);
  flags <- lift (variant_flags v text);
  r0 <- compile_one w name v flags jfs;
  r1 <- compile_one w name v flags jfc;
  text <- lift (w_link_text w);
  link <- lift (shlex_split text);
  let library := path_of name "liburma-udma.so" in
  link <- lift (link ← relink_objects [r0; r1] link;
                link ← relink_output library link;
                link_before "-lummu" ("-L" +:+ ROOT +:+ "/artifacts/umdk-build-ummu-official") link);
  run_checked (w_link w name) link (Some TARGET) ;;;
  io_ret library.

(** The variants of [main]. *)
Definition variants : list (string * variant) :=
  [("relinked", plain);
   ("no-trapv", Variant true 0 1 0 1 false false);
   ("cqe-prefetch", Variant false 4 1 0 1 false false);
   ("cqe-prefetch8", Variant false 8 1 0 1 false false);
   ("cqe-prefetch16", Variant false 16 1 0 1 false false);
   ("cqe-prefetch4-l1", Variant false 4 3 0 1 false false);
   ("sqe-prefetch4", Variant false 0 1 4 1 false false);
   ("cqe4-sqe4", Variant false 4 1 4 1 false false);
   ("no-cqe-barrier", Variant false 0 1 0 1 true false);
   ("cqe4-sqe4-o3", Variant false 4 1 4 1 false true);
   ("o3-only", Variant false 0 1 0 1 false true)].

Definition main (w : world) : io action unit :=
  each (λ nv : string * variant, build w nv.1 nv.2 ;;; io_ret tt) variants.
End build.
End Hotpath.

(** ** The provider of the laboratory *)

Module Optimized.

Definition PINNED_UMDK_SHA : string := "8f272493e4138cd52cfb3ce11064a07c8d1be49f".

Definition optimized : Hotpath.variant := Hotpath.Variant false 4 1 8 1 false true.

Inductive event :=
  | Built (a : action)
  | Copied (source target : string)
  | Manifest (path : string) (value : json).

Section main.
Context (ROOT SOURCE TARGET OUTPUT : string).
(** [hashlib.sha256(b).hexdigest()]. *)
Variable sha256 : string → string.

(** [git rev-parse], [git diff --quiet], the copy, and the bytes of its target. *)
Record world := World {
  w_revision : res string;
  w_diff : res unit;
  w_build : Hotpath.world;
  w_copy : res unit;
  w_bytes : res string
}.

Definition main (w : world) : io event unit :=
  revision <- lift (w_revision w);
  _ <- lift (raise Exn RuntimeError "unexpected UMDK revision: {revision}" [PS (strip revision)]
               when negb (String.eqb (strip revision) PINNED_UMDK_SHA) ;; Ok tt);
  _ <- lift (w_diff w);
  source <- (λ l, let r := Hotpath.build ROOT SOURCE TARGET OUTPUT (w_build w) "optimized" optimized [] in
                  (l ++ (Built <$> r.1), r.2));
  let target := ROOT +:+ "/artifacts/udma-optimized-provider/liburma-udma.so" in
  _ <- lift (w_copy w);
  emit (Copied source target) ;;;
  bytes <- lift (w_bytes w);
  emit (Manifest (ROOT +:+ "/artifacts/udma-optimized-provider/manifest.json")
    (JObj [("provider", JStr "udma-optimized");
           ("base", JStr "pinned UMDK with CQE read-ahead, SQE write-ahead and -O3 on two objects");
           ("cqe_prefetch_distance", JInt 4); ("sqe_prefetch_distance", JInt 8);
           ("sha256", JStr (sha256 bytes));
           ("source", JStr (removeprefix source (ROOT +:+ "/")))])).
End main.
End Optimized.

(** ** Before the cross compilers *)

Module Cross.

Inductive outcome :=
  | Exit (status : Z) (message : string)
  | Exec (argv : list string).

Section cross.
(** [Path(s).resolve()], and whether a directory is there. *)
Context (resolve : string → string) (is_dir : string → bool).

(** The loop over the arguments. *)
Definition cross_arg (sysroot arg : string) : option string :=
  if elemb arg ["-msse4.2"; "-DUB_ARCH_X86_64"] then None
  else Some (if String.eqb arg "-I/usr/include/libnl3" then "-I" +:+ sysroot +:+ "/usr/include/libnl3" else arg).

Definition cross_args (sysroot : string) (args : list string) : list string :=
  omap (cross_arg sysroot) args ++ ["--sysroot=" +:+ sysroot; "-march=armv8-a+crc"; "-DUB_ARCH_ARM64"].

(** [main] of the two launchers: [tool] and the default compiler tell them apart. *)
Definition main (tool default : string) (sysroot_value : string) (compiler : option string) (args : list string)
    : outcome :=
  if String.eqb sysroot_value EmptyString then Exit 2 (tool +:+ ": UBSIM_ARM64_SYSROOT is required")
  else
    let sysroot := resolve sysroot_value in
    if negb (is_dir (sysroot +:+ "/usr/include")) then Exit 2 (tool +:+ ": invalid ARM64 sysroot: " +:+ sysroot)
    else Exec (option.default default compiler :: cross_args sysroot args).

Definition cc := main "aarch64-umdk-cc" "aarch64-linux-gnu-gcc".
Definition cxx := main "aarch64-umdk-cxx" "aarch64-linux-gnu-g++".
End cross.
End Cross.

(** ** Probes *)

Section probes.
Import Hotpath.

(** Text before a marker. *)
Lemma inserted_before p s : inserted s (p +:+ s).
Proof. induction p; cbn; [done|by constructor]. Qed.

Lemma when_one_inserted c message old new d out :
  old ≠ EmptyString → inserted old new → when_one c message old new d = Ok out → inserted d out.
Proof.
  intros Hold Hi. unfold when_one. destruct c; [|by intros [= <-]]. intros H.
  destruct (one_spec _ _ _ _ _ Hold H) as (a & b & -> & ->). repeat apply inserted_app; done.
Qed.

Lemma cqe_prefetch_inserted v : inserted cqe_lookup (cqe_prefetch v).
Proof. unfold cqe_prefetch. rewrite <- !string_app_assoc. apply inserted_before. Qed.

Lemma sqe_prefetch_inserted v : inserted sqe_encode (sqe_prefetch v).
Proof. unfold sqe_prefetch. rewrite <- !string_app_assoc. apply inserted_before. Qed.

(** A variant that keeps the barrier keeps all of the source. *)
Lemma probe_inserted v n d out : no_cqe_barrier v = false → probe v n d = Ok out → inserted d out.
Proof.
  intros Hb. unfold probe. rewrite Hb. cbn [andb when_one].
  destruct (when_one _ _ cqe_lookup _ d) as [d1|] eqn:E1; [|done]. cbn [mbind res_bind].
  apply when_one_inserted in E1; [|done|apply cqe_prefetch_inserted]. intros E2.
  apply when_one_inserted in E2; [|done|apply sqe_prefetch_inserted]. by etransitivity.
Qed.

(** The variant [relinked] compiles the sources as they are. *)
Lemma probe_plain n d : probe plain n d = Ok d.
Proof. done. Qed.

(** What one build writes and runs. *)
Context (ROOT SOURCE TARGET OUTPUT : string).

Definition built_one (w : world) (name : string) (v : variant) (a : action) : Prop :=
  match a with
  | Wrote path text => ∃ n d, n ∈ NAMES ∧ path = path_of OUTPUT name n ∧ w_source w n = Ok d ∧ probe v n d = Ok text
  | Ran argv cwd => cwd = None ∨ cwd = Some TARGET ∧ ∃ pre post, argv = pre ++ "-lummu" :: post
  end.

Lemma compile_one_built w name v flags n : n ∈ NAMES → logs (built_one w name v) (compile_one OUTPUT w name v flags n).
Proof.
  intros Hn. apply logs_lift. intros d Hd. apply logs_lift. intros text Ht.
  apply logs_bind; [apply logs_emit; by exists n, d|]. intros _.
  apply logs_bind; [apply logs_run; by left|]. intros _. apply logs_ret.
Qed.

Lemma build_built w name v : logs (built_one w name v) (build ROOT SOURCE TARGET OUTPUT w name v).
Proof.
  apply logs_lift. intros text _. apply logs_lift. intros flags _.
  apply logs_bind; [apply compile_one_built; by left|]. intros r0.
  apply logs_bind; [apply compile_one_built; by right; left|]. intros r1.
  apply logs_lift. intros t _. apply logs_lift. intros link _. apply logs_lift. intros argv Hargv.
  apply logs_bind; [|intros _; apply logs_ret]. apply logs_run. right. split; [done|].
  destruct (relink_objects _ link) as [l1|]; [|done]. cbn [mbind res_bind] in Hargv.
  destruct (relink_output _ l1) as [l2|]; [|done]. cbn [mbind res_bind] in Hargv.
  apply link_before_spec in Hargv as (pre & post & _ & ->). exists (pre ++ ["-L" +:+ ROOT +:+ "/artifacts/umdk-build-ummu-official"]), post.
  by rewrite <- app_assoc.
Qed.
End probes.

Section variants.
Context (ROOT SOURCE TARGET OUTPUT : string).
Import Hotpath.

Lemma append_inj a b c : a +:+ b = a +:+ c → b = c.
Proof. induction a as [|x a IH]; cbn; [done|]. intros [= H]. auto. Qed.

Lemma paths_apart name v n name' v' n' :
  (name, v) ∈ variants → (name', v') ∈ variants → n ∈ NAMES → n' ∈ NAMES →
  path_of OUTPUT name n = path_of OUTPUT name' n' → name' = name ∧ n' = n.
Proof.
  intros H1 H2 H3 H4 E. apply append_inj in E.
  set (P := λ x y : string * string, bool_decide (x = y) ||
    negb (String.eqb ("/" +:+ x.1 +:+ "/" +:+ x.2) ("/" +:+ y.1 +:+ "/" +:+ y.2))).
  assert (∀ x y, x ∈ list_prod variants.*1 NAMES → y ∈ list_prod variants.*1 NAMES → P x y = true) as HP.
  { assert (forallb (λ x, forallb (P x) (list_prod variants.*1 NAMES)) (list_prod variants.*1 NAMES) = true) as H
      by (vm_compute; reflexivity).
    intros x y Hx Hy. rewrite List.forallb_forall in H. specialize (H x (proj1 (list_elem_of_In _ _) Hx)).
    rewrite List.forallb_forall in H. by apply H, list_elem_of_In. }
  assert (P (name, n) (name', n') = true) as Hp.
  { apply HP; apply list_elem_of_In, List.in_prod; apply list_elem_of_In; try done;
      apply list_elem_of_fmap; by eexists (_, _). }
  unfold P in Hp. cbn [fst snd] in Hp. apply orb_true_iff in Hp as [Hp|Hp].
  - apply bool_decide_eq_true in Hp. by injection Hp as -> ->.
  - apply negb_true_iff, String.eqb_neq in Hp. by rewrite E in Hp.
Qed.

(** Whatever fails, each source that the comparison of hot paths writes is that
    of one variant alone, and but for the variant without the barrier it is the
    provider's source with text inserted. *)
Theorem probes_separate w :
  Forall (λ a, match a with
    | Wrote path text =>
        ∃ name v n d, (name, v) ∈ variants ∧ n ∈ NAMES ∧ path = path_of OUTPUT name n ∧
          w_source w n = Ok d ∧ probe v n d = Ok text ∧ (name ≠ "no-cqe-barrier" → inserted d text) ∧
          ∀ name' v' n', (name', v') ∈ variants → n' ∈ NAMES → path = path_of OUTPUT name' n' → name' = name ∧ n' = n
    | Ran _ _ => True end) (main ROOT SOURCE TARGET OUTPUT w []).1.
Proof.
  set (Q := λ a, _). enough (logs Q (main ROOT SOURCE TARGET OUTPUT w)) as H.
  { destruct (H []) as (l & E & Hl). rewrite E. exact Hl. }
  apply (adds_each (Forall Q)); [constructor|by intros; apply Forall_app|]. intros [name v] Hv.
  eapply (logs_bind Q (build _ _ _ _ w name v)); [|intros; apply logs_ret].
  eapply adds_weaken; [|apply build_built]. intros l r Hl. eapply Forall_impl; [exact Hl|].
  intros [path text|argv cwd]; [|done]. intros (n & d & Hn & -> & Hd & Hp). exists name, v, n, d.
  split; [done|]. split; [done|]. split; [done|]. split; [done|]. split; [done|]. split.
  - intros Hne. eapply probe_inserted; [|exact Hp].
    assert (Forall (λ nv, nv.1 = "no-cqe-barrier" ∨ no_cqe_barrier nv.2 = false) variants) as Hall
      by (repeat constructor; auto).
    rewrite Forall_forall in Hall. by destruct (Hall _ Hv).
  - intros name' v' n' Hv' Hn' E. by eapply paths_apart.
Qed.
End variants.

Lemma build_library ROOT SOURCE TARGET OUTPUT w name v l l' library :
  Hotpath.build ROOT SOURCE TARGET OUTPUT w name v l = (l', Ok library) →
  library = Hotpath.path_of OUTPUT name "liburma-udma.so".
Proof.
  unfold Hotpath.build, io_bind, lift, run_checked, emit, io_ret. intros H.
  repeat (case_match; simplify_eq/=; try done).
Qed.

Ltac empty_log := split; [done|]; split; [intros ? ? []%not_elem_of_nil|done].

Section optimized.
Context (ROOT SOURCE TARGET OUTPUT : string) (sha256 : string → string).
Import Optimized.

(** Nothing is built, copied or recorded unless the revision is the pinned one
    and the provider's sources are unmodified; each source that is compiled has
    all of the pinned text; and a run that ends normally ends by recording the
    digest of the copy of the library that the link produced. *)
Theorem optimized_pinned w :
  let r := main ROOT SOURCE TARGET OUTPUT sha256 w [] in
  (r.1 ≠ [] → ∃ revision, w_revision w = Ok revision ∧ strip revision = PINNED_UMDK_SHA ∧ w_diff w = Ok tt) ∧
  (∀ path text, Built (Wrote path text) ∈ r.1 →
    ∃ n d, n ∈ Hotpath.NAMES ∧ Hotpath.w_source (w_build w) n = Ok d ∧ inserted d text) ∧
  (is_ok r.2 = true →
    ∃ bytes value built, w_bytes w = Ok bytes ∧ value = sha256 bytes ∧
      let library := Hotpath.path_of OUTPUT "optimized" "liburma-udma.so" in
      let target := ROOT +:+ "/artifacts/udma-optimized-provider/liburma-udma.so" in
      (Hotpath.build ROOT SOURCE TARGET OUTPUT (w_build w) "optimized" optimized []).2 = Ok library ∧
      ∃ manifest, dget manifest "sha256" = Some (JStr value) ∧
        r.1 = built ++ [Copied library target; Manifest (ROOT +:+ "/artifacts/udma-optimized-provider/manifest.json") (JObj manifest)]).
Proof.
  intros r. subst r. unfold main, io_bind, lift, emit.
  destruct (w_revision w) as [revision|]; [|empty_log].
  destruct (String.eqb_spec (strip revision) PINNED_UMDK_SHA) as [Hr|]; [|empty_log].
  cbn [negb]. cbv iota. destruct (w_diff w) as [[]|] eqn:Ed; [|empty_log]. cbn [app].
  destruct (build_built ROOT SOURCE TARGET OUTPUT (w_build w) "optimized" optimized []) as (l & El & Hl).
  assert (∀ tail path text, Forall (λ e, match e with Built _ => False | _ => True end) tail →
    Built (Wrote path text) ∈ (Built <$> l) ++ tail →
    ∃ n d, n ∈ Hotpath.NAMES ∧ Hotpath.w_source (w_build w) n = Ok d ∧ inserted d text) as Hin.
  { intros tl path text Htl [Ha|Ha]%elem_of_app; [|rewrite Forall_forall in Htl; by destruct (Htl _ Ha)].
    apply list_elem_of_fmap in Ha as (a & [= <-] & Ha). rewrite Forall_forall in Hl.
    destruct (Hl _ Ha) as (n & d & Hn & _ & Hd & Hp). exists n, d. split; [done|]. split; [done|].
    eapply probe_inserted; [|exact Hp]. done. }
  assert (∀ log : list event, log ≠ [] → ∃ rev, Ok revision = Ok rev ∧ strip rev = PINNED_UMDK_SHA ∧ Ok () = Ok ()) as Hrev
    by (intros; by exists revision).
  destruct (Hotpath.build _ _ _ _ _ _ _ []) as [l' [library|e]] eqn:Eb; cbn [fst snd app] in *; subst l'.
  2: { split; [apply Hrev|]. split; [|done]. intros path text Ha. apply (Hin [] path text); [constructor|rewrite app_nil_r; exact Ha]. }
  apply build_library in Eb as ->. destruct (w_copy w) as [u|e].
  2: { split; [apply Hrev|]. split; [|done]. intros path text Ha. apply (Hin [] path text); [constructor|rewrite app_nil_r; exact Ha]. }
  destruct (w_bytes w) as [bytes|e]; cbn [fst snd].
  2: { split; [apply Hrev|]. split; [|done]. intros path text. apply Hin. by repeat constructor. }
  rewrite <- app_assoc. cbn [app].
  split; [apply Hrev|]. split; [intros path text; apply Hin; by repeat constructor|]. intros _.
  exists bytes, (sha256 bytes), (Built <$> l). repeat (split; [done|]). eexists. split; [|reflexivity]. done.
Qed.
End optimized.

(** A pinned revision whose build succeeds. *)
Definition sample_build : Hotpath.world :=
  Hotpath.World (Ok (lit "C_DEFINES = -DX\nC_INCLUDES = -I/src\nC_FLAGS = -O2\n"))
    (λ n, Ok (if String.eqb n Hotpath.jfs then Hotpath.sqe_encode else Hotpath.cqe_lookup)) (λ _ _, Ok tt)
    (Ok ("cc -o liburma-udma.so CMakeFiles/BETA_UDMA_SO.dir/udma_u_jfs.c.o " +:+
         "CMakeFiles/BETA_UDMA_SO.dir/udma_u_jfc.c.o -lummu")) (λ _, Ok tt).

Definition sample_pinned : Optimized.world :=
  Optimized.World (Ok (lit "8f272493e4138cd52cfb3ce11064a07c8d1be49f\n")) (Ok tt) sample_build (Ok tt) (Ok "ELF").

Lemma optimized_pinned_witness :
  ∃ n d, n ∈ Hotpath.NAMES ∧ Hotpath.w_source sample_build n = Ok d ∧
    inserted d (Hotpath.sqe_prefetch Optimized.optimized).
Proof.
  refine (proj1 (proj2 (optimized_pinned "/lab" "/src" "/target" "/out" id sample_pinned))
    "/out/optimized/udma_u_jfs.c" (Hotpath.sqe_prefetch Optimized.optimized) _).
  apply list_elem_of_lookup. exists 0%nat. vm_compute. reflexivity.
Defined.

(** ** The cross compilers' arguments *)

Section cross.
Context (resolve : string → string) (is_dir : string → bool).
Import Cross.

(** The launchers run the compiler only with a sysroot that has headers; its
    arguments are the caller's without the two that name the host's architecture,
    in their order, the host's libnl redirected into the sysroot, and end with
    the three of the target. *)
Lemma cross_args_target tool default value compiler args argv :
  Cross.main resolve is_dir tool default value compiler args = Exec argv →
  let sysroot := resolve value in
  value ≠ EmptyString ∧ is_dir (sysroot +:+ "/usr/include") = true ∧
  argv = option.default default compiler ::
    ((λ a, if String.eqb a "-I/usr/include/libnl3" then "-I" +:+ sysroot +:+ "/usr/include/libnl3" else a) <$>
      filter (λ a, a ∉ ["-msse4.2"; "-DUB_ARCH_X86_64"]) args) ++
    ["--sysroot=" +:+ sysroot; "-march=armv8-a+crc"; "-DUB_ARCH_ARM64"].
Proof.
  unfold Cross.main. destruct (String.eqb_spec value EmptyString); [done|].
  destruct (is_dir _) eqn:Ed; [|done]. cbn [negb]. intros [= <-]. split; [done|]. split; [done|].
  unfold cross_args. f_equal. f_equal. induction args as [|a args IH]; [done|]. cbn [omap list_omap]. unfold cross_arg at 1, elemb.
  destruct (bool_decide_reflect (a ∈ ["-msse4.2"; "-DUB_ARCH_X86_64"])) as [Hin|Hin].
  - rewrite filter_cons_False by auto. exact IH.
  - rewrite filter_cons_True by done. cbn [fmap list_fmap]. f_equal. exact IH.
Qed.
End cross.
