(* ===== verification/DriveConsole.v ===== *)
(** * One command over a gem5 terminal ([tools/drive-console.py])

    The tool sends a command that prints a marker with its status and reads the
    terminal until the marker appears.  What follows the marker in the bytes
    received so far is taken for the status. *)

From Stdlib Require Import ZArith Lia Ascii.
From stdpp Require Import base strings numbers option list.
From S2P Require Import Prelude PyStr Shlex Instrument SerialConsole SerialFacts.

Open Scope string_scope.
Open Scope list_scope.
Open Scope Z_scope.

Section drive.
(** [uuid.uuid4().hex]. *)
Variable hex : string.

Definition marker : string := "__UBSIM_RC_" +:+ hex +:+ "__".

Definition payload (command : string) : string :=
  String LF (command +:+ "; printf '\n" +:+ marker +:+ "%s\n' $?" +:+ String LF EmptyString).

(** [b.splitlines()] of bytes: at line feeds, carriage returns and both. *)
Fixpoint first_line (s : string) : string :=
  match s with
  | EmptyString => EmptyString
  | String c s' => if in_line c then String c (first_line s') else EmptyString
  end.

(** [bytes.splitlines()[0]]. *)
Definition head_line (s : string) : res string :=
  match s with EmptyString => Err (Exn IndexError "list index out of range" []) | _ => Ok (first_line s) end.

(** The status once the marker is there. *)
Definition marked_status (text : string) : option (res Z) :=
  match cut_at marker text with
  | None => None
  | Some (_, rest) =>
      Some (tail ← head_line (removeprefix rest marker);
            match int_of_str tail with
            | Ok n => Ok n
            | Err e => if is_a (exn_cls e) ValueError then Ok 3 else Err e
            end)
  end.

(** The reads that start before the deadline; the status of the tool. *)
Fixpoint drive (text : string) (events : list received) : res Z :=
  match events with
  | [] => Ok 2
  | Quiet _ :: events' => drive text events'
  | Eof :: _ => Ok 2
  | Data chunk :: events' =>
      let text := text +:+ chunk in
      match marked_status text with
      | Some r => r
      | None => drive text events'
      end
  end.

(** [main] after the connection: the bytes sent and the status. *)
Definition main (command : string) (events : list received) : string * res Z :=
  (payload command, drive EmptyString events).

(** ** What the status is *)

(** Reads that bring no marker leave the decision to the next ones. *)
Lemma drive_unmarked events later : ∀ text,
  Forall (λ e, match e with Eof => False | _ => True end) events →
  (∀ n, (0 < n ≤ length events)%nat → cut_at marker (text +:+ stream (take n events)) = None) →
  drive text (events ++ later) = drive (text +:+ stream events) later.
Proof.
  induction events as [|e events IH]; intros text He Hn; [by rewrite string_app_nil_r|].
  apply Forall_cons in He as [He Hes].
  assert (stream (e :: events) = data_of e +:+ stream events) as -> by done. rewrite <- string_app_assoc.
  assert (cut_at marker (text +:+ data_of e) = None) as H1.
  { specialize (Hn 1%nat ltac:(cbn; lia)). cbn in Hn. by rewrite take_0, string_app_nil_r in Hn. }
  assert (drive text ((e :: events) ++ later) = drive (text +:+ data_of e) (events ++ later)) as ->.
  { destruct e as [chunk|elapsed|]; [|by rewrite string_app_nil_r|done]. cbn [app drive data_of] in *.
    unfold marked_status. by rewrite H1. }
  apply IH; [done|]. intros n Hlt. specialize (Hn (S n) ltac:(cbn; lia)).
  by rewrite string_app_assoc.
Qed.

(** Then the status is read off the first bytes that hold the marker: a whole line
    after it is the status that the command printed. *)
Lemma status_read text before n rest :
  cut_at marker text = Some (before, marker +:+ str_of_Z n +:+ String LF rest) → marked_status text = Some (Ok n).
Proof.
  intros H. unfold marked_status. rewrite H. unfold removeprefix. rewrite strip_prefix_app. cbn [from_option id].
  assert (∀ s, str_forallb in_line s = true → first_line (s +:+ String LF rest) = s) as Hf.
  { induction s as [|c s IH]; cbn; [done|]. intros [-> Hs]%andb_true_iff. by rewrite IH. }
  assert (str_forallb in_line (str_of_Z n) = true ∧ str_of_Z n ≠ EmptyString) as [H1 H2].
  { pose proof (plain_num n) as Hp. unfold plain_word in Hp. apply andb_true_iff in Hp as [Hne Hp].
    apply negb_true_iff, String.eqb_neq in Hne. split; [|done]. eapply str_forallb_impl; [|exact Hp].
    intros c Hc. unfold in_line. unfold shell_plain in Hc.
    destruct (Ascii.eqb_spec c CR) as [->|]; [done|]. by destruct (Ascii.eqb_spec c LF) as [->|]. }
  unfold head_line. destruct (str_of_Z n +:+ String LF rest) eqn:E; [by destruct (str_of_Z n)|]. rewrite <- E.
  cbn [mbind res_bind]. by rewrite Hf, int_of_str_Z.
Qed.
End drive.

(** ** Concrete terminals *)

Definition sample_marker : string := marker "00ff".

(** A terminal without echo. *)
Example quiet_terminal :
  drive "00ff" EmptyString [Data "booted "; Quiet 0; Data (String LF sample_marker +:+ "7" +:+ String CR (String LF "# "))] = Ok 7.
Proof. vm_compute. reflexivity. Qed.

(** A terminal that echoes the command shows the marker of its text first. *)
Example echoed_command :
  drive "00ff" EmptyString
    [Data (payload "00ff" "true"); Data (String LF sample_marker +:+ "0" +:+ String LF "# ")] = Ok 3.
Proof. vm_compute. reflexivity. Qed.

(** A read that ends with the marker has no line after it. *)
Example marker_ends_read :
  drive "00ff" EmptyString [Data (String LF sample_marker); Data ("0" +:+ String LF "# ")] =
  Err (Exn IndexError "list index out of range" []).
Proof. vm_compute. reflexivity. Qed.

(** A status whose digits come in two reads is cut. *)
Example status_in_pieces :
  drive "00ff" EmptyString [Data (String LF sample_marker +:+ "1"); Data ("27" +:+ String LF "# ")] = Ok 1.
Proof. vm_compute. reflexivity. Qed.
