(* ===== verification/UdmaProfile.v ===== *)
(** * UDMA profiles of a stopped run ([tools/check_udma_profile.py])

    The device model prints one line of counters when it stops.  The tool accepts
    a log when that line is there once and its counters are those of a run of the
    expected length without rejected work. *)

From Stdlib Require Import ZArith Lia Ascii.
From stdpp Require Import base strings numbers option list.
From S2P Require Import Prelude PyStr Json TextScan Rsp.

Open Scope string_scope.
Open Scope list_scope.
Open Scope Z_scope.

(** ** Counters *)

Definition is_hex (c : ascii) : bool := bool_decide (is_Some (hex_val c)).

(** [0x[0-9a-fA-F]+|\d+]. *)
Definition m_number : matcher string := λ s,
  match strip_prefix "0x" s with
  | Some r =>
      let '(d, r') := span is_hex r in
      if String.eqb d EmptyString then m_digits s else Some ("0x" +:+ d, r')
  | None => m_digits s
  end.

(** [(\w+)=(0x[0-9a-fA-F]+|\d+)]. *)
Definition m_field : matcher (string * string) := λ s,
  k ← m_word s; e ← m_lit "=" k.2; v ← m_number e.2; Some (k.1, v.1, v.2).

(** [int(value, 0)] of a number: a decimal one has no leading zero unless it is zero. *)
Definition int_base0 (value : string) : res Z :=
  let bad := Exn ValueError "invalid literal for int() with base 0: {}" [PS value] in
  match strip_prefix "0x" value with
  | Some r => or_raise (foldl (λ acc c, a ← acc; d ← hex_val c; Some (16 * a + d)) (Some 0) (String.list_ascii_of_string r)) bad
  | None =>
      raise bad when startswith value "0" && negb (str_forallb (Ascii.eqb "0") value) ;;
      or_raise (parse_nat value) bad
  end.

Definition metrics : Type := list (string * Z).

(** [dict(pairs)], then the values as numbers. *)
Definition fields_of (line : string) : list (string * string) :=
  foldl (λ d kv, dset d kv.1 kv.2) [] (findall false m_field line).
Definition metrics_of (line : string) : res metrics :=
  mapR (λ kv : string * string, n ← int_base0 kv.2; Ok (kv.1, n)) (fields_of line).

(** ** The checks *)

Definition shown (v : option Z) : parg := match v with Some n => PZ n | None => PS "None" end.

Definition equal_error (m : metrics) (expected : Z) (key : string) : option exn :=
  if bool_decide (dget m key = Some expected) then None
  else Some (Exn ValueError "{key}: expected {expected_wqes}, got {metrics.get(key)}" [PS key; PZ expected; shown (dget m key)]).

Definition zero_error (m : metrics) (key : string) : option exn :=
  if bool_decide (dget m key = Some 0) then None
  else Some (Exn ValueError "{key}: expected zero, got {metrics.get(key)}" [PS key; shown (dget m key)]).

Definition minimum_error (m : metrics) (kv : string * Z) : option exn :=
  if default (-1) (dget m kv.1) <? kv.2
  then Some (Exn ValueError "{key}: expected >= {minimum}, got {metrics.get(key)}" [PS kv.1; PZ kv.2; shown (dget m kv.1)])
  else None.

Definition errors_of (m : metrics) (expected_wqes min_rma_peak : Z) : list exn :=
  omap (equal_error m expected_wqes) ["sq_wqes"; "sq_completions"] ++
  omap (zero_error m) ["sq_depth_rejects"; "sq_decode_rejects"; "ubase_errors"] ++
  omap (minimum_error m)
    [("rma_pending_peak", min_rma_peak); ("sq_wqebbs_retired", expected_wqes); ("sq_consumer_wraps", 1)].

Definition profile_lines (text : string) : list string :=
  List.filter (λ line, startswith line "[UDMA_PROFILE]") (splitlines text).

Definition check_profile (text : string) (expected_wqes min_rma_peak : Z) : res (metrics * list exn) :=
  match profile_lines text with
  | [line] => m ← metrics_of line; Ok (m, errors_of m expected_wqes min_rma_peak)
  | _ => Ok ([], [Exn ValueError "expected exactly one final UDMA profile" []])
  end.

(** [main]: the reports of the logs, in order, and the status. *)
Definition main (logs : list (string * res string)) (expected_wqes min_rma_peak : Z)
    : res (list (string * (metrics * list exn)) * Z) :=
  reports ← mapR (λ log : string * res string,
                    text ← log.2; r ← check_profile text expected_wqes min_rma_peak; Ok (log.1, r)) logs;
  Ok (reports, if existsb (λ r : string * (metrics * list exn), negb (bool_decide (r.2.2 = []))) reports then 1 else 0).

(** ** What is accepted *)

Lemma omap_nil {A B} (f : A → option B) l : omap f l = [] ↔ Forall (λ x, f x = None) l.
Proof.
  induction l as [|x l IH]; [by split|]. cbn. rewrite Forall_cons, <- IH.
  destruct (f x); split; [done|by intros []|by intros|by intros [_ ?]].
Qed.

(** A log is accepted exactly when it has one profile, whose counters are all
    numbers, both queues counted the expected number of work requests, nothing
    was rejected, and the peak, the retired blocks and the wraps reach their
    minima. *)
Theorem profile_accepted text expected_wqes min_rma_peak m :
  check_profile text expected_wqes min_rma_peak = Ok (m, []) ↔
  (∃ line, profile_lines text = [line] ∧ metrics_of line = Ok m) ∧
  dget m "sq_wqes" = Some expected_wqes ∧ dget m "sq_completions" = Some expected_wqes ∧
  dget m "sq_depth_rejects" = Some 0 ∧ dget m "sq_decode_rejects" = Some 0 ∧ dget m "ubase_errors" = Some 0 ∧
  min_rma_peak <= default (-1) (dget m "rma_pending_peak") ∧
  expected_wqes <= default (-1) (dget m "sq_wqebbs_retired") ∧
  1 <= default (-1) (dget m "sq_consumer_wraps").
Proof.
  assert (∀ key, equal_error m expected_wqes key = None ↔ dget m key = Some expected_wqes) as He.
  { intros key. unfold equal_error. by case_bool_decide. }
  assert (∀ key, zero_error m key = None ↔ dget m key = Some 0) as Hz.
  { intros key. unfold zero_error. by case_bool_decide. }
  assert (∀ kv, minimum_error m kv = None ↔ kv.2 <= default (-1) (dget m kv.1)) as Hm.
  { intros kv. unfold minimum_error. destruct (Z.ltb_spec (default (-1) (dget m kv.1)) kv.2); split; (done || lia). }
  assert (errors_of m expected_wqes min_rma_peak = [] ↔
    dget m "sq_wqes" = Some expected_wqes ∧ dget m "sq_completions" = Some expected_wqes ∧
    dget m "sq_depth_rejects" = Some 0 ∧ dget m "sq_decode_rejects" = Some 0 ∧ dget m "ubase_errors" = Some 0 ∧
    min_rma_peak <= default (-1) (dget m "rma_pending_peak") ∧
    expected_wqes <= default (-1) (dget m "sq_wqebbs_retired") ∧
    1 <= default (-1) (dget m "sq_consumer_wraps")) as <-.
  { unfold errors_of. rewrite !app_nil, !omap_nil, !Forall_cons, !He, !Hz, !Hm. cbn [fst snd]. naive_solver. }
  unfold check_profile. destruct (profile_lines text) as [|line [|l ls]].
  - naive_solver.
  - destruct (metrics_of line) as [m'|e] eqn:E; cbn [mbind res_bind]; naive_solver congruence.
  - naive_solver.
Qed.
