(* ===== verification/SyncProfile.v ===== *)
(** * Profiles of a synchronized run ([tools/profile_sync_trial.py])

    The tool takes the counters of the simulators' processes before and after one
    latency run and reports their differences with the statistics that the
    simulators wrote during it. *)

From Stdlib Require Import ZArith Lia Ascii.
From stdpp Require Import base strings numbers option list sorting.
From S2P Require Import Prelude PyStr Json TextScan Normalize.

Open Scope string_scope.
Open Scope list_scope.
Open Scope Z_scope.

(** ** The processes *)

Definition PROCESS_FILES : list (string * string) :=
  [("node0", "node0/gem5.pid"); ("node1", "node1/gem5.pid"); ("dist_switch", "switch/gem5.pid");
   ("ub_switch", "ub-switch/gem5.pid")].

(** The fields of [/proc/<pid>/stat] after the command name:
    [stat[stat.rfind(")") + 2:].split()]. *)
Definition skip_first (s : string) : string := match s with String _ s' => s' | EmptyString => EmptyString end.
Definition stat_fields (stat : string) : list string :=
  match rpartition_at ")" stat with
  | Some (_, rest) => split_ws (skip_first rest)
  | None => split_ws (skip_first stat)
  end.

(** [dict(line.split(":", 1) for line in text.splitlines() if ":" in line)]. *)
Definition colon_dict (text : string) : list (string * string) :=
  foldl (λ d line, match partition_at ":" line with (k, Some v) => dset d k v | _ => d end) [] (splitlines text).

Definition field_int (fields : list string) (n : nat) : res Z :=
  text ← or_raise (fields !! n) (Exn IndexError "list index out of range" []); int_of_str text.
Definition dict_int (d : list (string * string)) (key : string) : res Z := int_of_str (default "0" (dget d key)).

Definition counters : Type := list (string * Z).

(** The files of one process: [stat], [status] and [io]. *)
Record proc := Proc { p_stat : res string; p_status : res string; p_io : res string }.

(** One process's counters. *)
Definition process_counters (pid : Z) (p : proc) : res counters :=
  stat ← p_stat p;
  let fields := stat_fields stat in
  status ← p_status p;
  let status := colon_dict status in
  io ← p_io p;
  let io := colon_dict io in
  minflt ← field_int fields 7; majflt ← field_int fields 9;
  utime ← field_int fields 11; stime ← field_int fields 12;
  threads ← field_int fields 17;
  voluntary ← dict_int status "voluntary_ctxt_switches";
  nonvoluntary ← dict_int status "nonvoluntary_ctxt_switches";
  read ← dict_int io "read_bytes"; write ← dict_int io "write_bytes";
  Ok [("pid", pid); ("minflt", minflt); ("majflt", majflt); ("utime_ticks", utime); ("stime_ticks", stime);
      ("num_threads", threads); ("voluntary_ctxt_switches", voluntary);
      ("nonvoluntary_ctxt_switches", nonvoluntary); ("read_bytes", read); ("write_bytes", write)].

Definition snapshots : Type := list (string * counters).

(** A process that ended or may not be looked at is left out. *)
Definition vanished (e : exn) : bool := is_a (exn_cls e) FileNotFoundError || is_a (exn_cls e) PermissionError.

(** [process_snapshot]: [pidfile] gives the text of a file that exists, [proc_of]
    the files of a process. *)
Fixpoint snapshot_go (pidfile : string → option string) (proc_of : Z → proc) (files : list (string * string))
    : res snapshots :=
  match files with
  | [] => Ok []
  | (label, path) :: files' =>
      let pid_text := strip (default EmptyString (pidfile path)) in
      if negb (all_digits pid_text) then snapshot_go pidfile proc_of files'
      else
        pid ← int_of_str pid_text;
        match process_counters pid (proc_of pid) with
        | Ok c => rest ← snapshot_go pidfile proc_of files'; Ok ((label, c) :: rest)
        | Err e => if vanished e then snapshot_go pidfile proc_of files' else Err e
        end
  end.
Definition process_snapshot (pidfile : string → option string) (proc_of : Z → proc) : res snapshots :=
  snapshot_go pidfile proc_of PROCESS_FILES.

(** ** Differences *)

(** [before[label].keys()] without the process and its threads, and [after - before]. *)
Definition deltas (before after : counters) : res counters :=
  mapR (λ kv : string * Z, a ← getitem after kv.1; Ok (kv.1, a - kv.2))
    (List.filter (λ kv, negb (elemb kv.1 ["pid"; "num_threads"])) before).

(** One process's difference, with its CPU time as a number of ticks and the ticks
    of a second. *)
Record delta := Delta {
  d_counters : counters;
  d_cpu : Z * Z;
  d_pid : Z
}.

Definition subtract_one (before after : counters) (ticks_per_second : Z) : res (option delta) :=
  b ← getitem before "pid"; a ← getitem after "pid";
  if negb (b =? a) then Ok None
  else
    d ← deltas before after;
    u ← getitem d "utime_ticks"; s ← getitem d "stime_ticks";
    raise Exn ZeroDivisionError "division by zero" [] when ticks_per_second =? 0 ;;
    Ok (Some (Delta d (u + s, ticks_per_second) b)).

(** [subtract], over the labels of both, in order. *)
Fixpoint subtract_go (before after : snapshots) (ticks_per_second : Z) (labels : list string)
    : res (list (string * delta)) :=
  match labels with
  | [] => Ok []
  | l :: labels' =>
      b ← getitem before l; a ← getitem after l;
      d ← subtract_one b a ticks_per_second;
      rest ← subtract_go before after ticks_per_second labels';
      Ok (match d with Some d => (l, d) :: rest | None => rest end)
  end.
Definition common (before after : snapshots) : list string :=
  py_sorted (List.filter (has after) (keys before)).
Definition subtract (before after : snapshots) (ticks_per_second : Z) : res (list (string * delta)) :=
  subtract_go before after ticks_per_second (common before after).

(** ** The simulators' statistics *)

Section stats.
(** A floating-point number, [float(s)], and the integer it is, if it is one. *)
Context {F : Type} (to_float : string → res F) (is_integer : F → option Z).

Definition stat_number (c : ascii) : bool := is_digit c || elemb c [".";"e";"E";"+";"-"]%char.

(** [^field\s+([0-9.eE+-]+)], multi-line. *)
Definition m_stat (field : string) : matcher string := λ s,
  a ← m_lit field s; b ← m_sp1 a.2;
  let '(d, r) := span stat_number b.2 in if String.eqb d EmptyString then None else Some (d, r).

Definition stat_fields_names : list string := ["simTicks"; "simInsts"; "hostSeconds"; "hostTickRate"].

Definition number : Type := Z + F.

Fixpoint stats_of (text : string) (fields : list string) : res (list (string * number)) :=
  match fields with
  | [] => Ok []
  | f :: fields' =>
      match last (findall true (m_stat f) text) with
      | Some m =>
          value ← to_float m;
          rest ← stats_of text fields';
          Ok ((f, match is_integer value with Some n => inl n | None => inr value end) :: rest)
      | None => stats_of text fields'
      end
  end.

(** [text] of [parse_new_stats]: what a file holds after the offset; [decode]
    replaces the bytes that are not UTF-8. *)
Definition since (decode : string → string) (offset : nat) (bytes : string) : string :=
  decode (String.substring offset (String.length bytes - offset) bytes).

Definition nodes : list string := ["node0"; "node1"].

(** [stats_offsets] and [parse_new_stats], of files that may not exist. *)
Definition stats_offsets (stats : string → option string) : list (string * nat) :=
  (λ node, (node, match stats node with Some bytes => String.length bytes | None => O end)) <$> nodes.

Fixpoint parse_new_stats (decode : string → string) (stats : string → option string) (offsets : list (string * nat))
    : res (list (string * list (string * number))) :=
  match offsets with
  | [] => Ok []
  | (node, offset) :: offsets' =>
      match stats node with
      | None => parse_new_stats decode stats offsets'
      | Some bytes =>
          v ← stats_of (since decode offset bytes) stat_fields_names;
          rest ← parse_new_stats decode stats offsets';
          Ok ((node, v) :: rest)
      end
  end.

(** ** The run *)

Record args := Args { a_label : string; a_samples : Z; a_size : Z; a_port : Z; a_output : string }.

Definition command (a : args) : list string :=
  ["./lab"; "latency"; "--samples"; str_of_Z (a_samples a); "--size"; str_of_Z (a_size a); "--port"; str_of_Z (a_port a);
   "--roi-stats"; "--format"; "tsv"; "--raw-output"; a_output a +:+ "/" +:+ a_label a +:+ ".uart.txt";
   "--timeout"; "600"].

(** The files at one moment. *)
Record moment := Moment {
  m_pidfile : string → option string;
  m_proc : Z → proc;
  m_stats : string → option string
}.

Record report := Report {
  r_returncode : Z;
  r_deltas : list (string * delta);
  r_stats : list (string * list (string * number));
  r_stdout : string;
  r_stderr : string
}.

(** [main]: the report and the status. [linux]: [/proc/self/stat] is a file; the
    command's status and output come with the files after it. *)
Definition main (decode : string → string) (linux : bool) (ticks_per_second : Z) (before after : moment)
    (completed : Z * string * string) : res (report * Z) :=
  raise usage "process profiling requires a Linux host with /proc" when negb linux ;;
  b ← process_snapshot (m_pidfile before) (m_proc before);
  let offsets := stats_offsets (m_stats before) in
  let '(returncode, stdout, stderr) := completed in
  a ← process_snapshot (m_pidfile after) (m_proc after);
  d ← subtract b a ticks_per_second;
  s ← parse_new_stats decode (m_stats after) offsets;
  Ok (Report returncode d s stdout stderr, returncode).
End stats.

(** ** What is read of a process *)

(** [/proc/<pid>/stat] as the kernel writes it: any command name, then fields. *)
Definition stat_line (pid comm : string) (fields : list string) : string :=
  pid +:+ " (" +:+ comm +:+ ") " +:+ join " " fields +:+ String NL EmptyString.

Lemma join_lacks c fields :
  Forall (λ f, lacks c f = true) fields → lacks c " " = true → lacks c (join " " fields) = true.
Proof.
  intros H Hc. induction H as [|f [|g fs] Hf H IH]; [done|done|].
  change (join " " (f :: g :: fs)) with (f +:+ " " +:+ join " " (g :: fs)).
  assert (∀ a b, lacks c a = true → lacks c b = true → lacks c (a +:+ b) = true) as Happ.
  { unfold lacks. induction a as [|x a IHa]; cbn; [done|]. intros b [-> Ha]%andb_true_iff Hb. by apply IHa. }
  apply Happ; [done|]. by apply Happ.
Qed.

(** Whatever the name of the command (with spaces, parentheses or digits), the
    fields after it are read as they are. *)
Lemma stat_fields_line pid comm fields :
  Forall word fields → Forall (λ f, lacks ")" f = true) fields → stat_fields (stat_line pid comm fields) = fields.
Proof.
  intros Hw Hl. unfold stat_fields, stat_line.
  assert (pid +:+ " (" +:+ comm +:+ ") " +:+ join " " fields +:+ String NL EmptyString =
    (pid +:+ " (" +:+ comm) +:+ String ")" (String " " (join " " fields +:+ String NL EmptyString))) as ->
    by (by rewrite !string_app_assoc).
  rewrite rpartition_at_app; [cbn [skip_first]; by apply split_ws_join|].
  cbn. assert (∀ a, lacks ")" a = true → str_forallb (λ x, negb (Ascii.eqb x ")")) (a +:+ String NL EmptyString) = true) as H.
  { unfold lacks. induction a as [|x a IH]; cbn; [done|]. intros [-> Ha]%andb_true_iff. by rewrite IH. }
  apply H. by apply join_lacks.
Qed.

(** ** What is reported *)

Definition counter_names : list string :=
  ["pid"; "minflt"; "majflt"; "utime_ticks"; "stime_ticks"; "num_threads"; "voluntary_ctxt_switches";
   "nonvoluntary_ctxt_switches"; "read_bytes"; "write_bytes"].

Lemma process_counters_keys pid p c : process_counters pid p = Ok c → keys c = counter_names ∧ dget c "pid" = Some pid.
Proof. unfold process_counters. intros H. py_inv. done. Qed.

Lemma snapshot_keys pidfile proc_of files : ∀ s,
  snapshot_go pidfile proc_of files = Ok s → Forall (λ lc, keys lc.2 = counter_names) s ∧ keys s ⊆ files.*1.
Proof.
  induction files as [|[label path] files IH]; intros s; cbn [snapshot_go]; [intros [= <-]; split; [constructor|done]|].
  assert (∀ s', snapshot_go pidfile proc_of files = Ok s' →
    Forall (λ lc, keys lc.2 = counter_names) s' ∧ keys s' ⊆ label :: files.*1) as IH'.
  { intros s' H. destruct (IH _ H) as [H1 H2]. split; [done|]. intros x Hx. right. by apply H2. }
  destruct (negb _); [apply IH'|]. destruct (int_of_str _) as [pid|]; [|done]. cbn [mbind res_bind].
  destruct (process_counters pid (proc_of pid)) as [c|e] eqn:E; [|destruct (vanished e); [apply IH'|done]].
  destruct (snapshot_go pidfile proc_of files) as [rest|] eqn:Er; [|done]. cbn [mbind res_bind]. intros [= <-].
  destruct (IH' _ eq_refl) as [H1 H2]. split; [constructor; [by eapply process_counters_keys|done]|].
  intros x [->|Hx]%elem_of_cons; [by left|by apply H2].
Qed.

Lemma dget_of_key (c : counters) k : keys c = counter_names → k ∈ counter_names → ∃ v, dget c k = Some v.
Proof. intros <- H. by apply dget_is_Some_keys. Qed.

(** The difference of two complete sets of counters. *)
Definition difference (b a : counters) (d : counters) : Prop :=
  keys d = filter (λ k, k ≠ "pid" ∧ k ≠ "num_threads") counter_names ∧
  ∀ k v, dget d k = Some v → ∃ x y, dget b k = Some x ∧ dget a k = Some y ∧ v = y - x.

Lemma deltas_spec b a :
  keys b = counter_names → keys a = counter_names → ∃ d, deltas b a = Ok d ∧ difference b a d.
Proof.
  intros Hb Ha.
  assert (∀ l, (∀ k v, (k, v) ∈ l → dget b k = Some v) → keys l ⊆ counter_names →
    ∃ d, mapR (λ kv : string * Z, x ← getitem a kv.1; Ok (kv.1, x - kv.2)) l = Ok d ∧ keys d = keys l ∧
      ∀ k v, dget d k = Some v → ∃ x y, dget b k = Some x ∧ dget a k = Some y ∧ v = y - x) as H.
  { induction l as [|[k x] l IH]; intros Hl Hk; [by exists []|].
    destruct IH as (d & E & Hd & Hv); [intros; apply Hl; by right|intros y Hy; apply Hk; by right|].
    destruct (dget_of_key a k Ha) as [y Hy]; [apply Hk; by left|].
    exists ((k, y - x) :: d). cbn [mapR fst snd]. rewrite (proj2 (getitem_Ok a k y) Hy). cbn [mbind res_bind]. rewrite E.
    split; [done|]. split; [unfold keys in *; cbn; by rewrite Hd|]. intros k' v'. cbn [dget].
    destruct (String.eqb_spec k' k) as [->|Hne]; [|by apply Hv]. intros [= <-]. exists x, y. split; [|done]. apply Hl. by left. }
  assert (NoDup (keys b)) as Hnd by (rewrite Hb; by apply (bool_decide_eq_true _); vm_compute).
  destruct (H (List.filter (λ kv, negb (elemb kv.1 ["pid"; "num_threads"])) b)) as (d & Hd & Hkeys & Hv).
  - intros k v [Hin _]%list_elem_of_In%List.filter_In. apply dget_NoDup_elem; [done|by apply list_elem_of_In].
  - intros k (kv & -> & [Hin _]%list_elem_of_In%List.filter_In)%list_elem_of_fmap. rewrite <- Hb.
    apply list_elem_of_fmap. exists kv. split; [done|by apply list_elem_of_In].
  - exists d. split; [exact Hd|]. split; [|exact Hv]. rewrite Hkeys, <- Hb. clear. unfold keys.
    induction b as [|[k v] b IH]; [done|]. cbn [List.filter fmap list_fmap fst]. unfold elemb.
    destruct (bool_decide_reflect (k ∈ ["pid"; "num_threads"])) as [Hin|Hin]; cbn [negb].
    + rewrite filter_cons_False; [exact IH|]. intros [H1 H2]. by repeat (apply elem_of_cons in Hin as [->|Hin]; [done|]); apply not_elem_of_nil in Hin.
    + rewrite filter_cons_True; [cbn [fmap list_fmap fst]; by f_equal|]. split; intros ->; apply Hin; [by left|by right; left].
Qed.

Definition pid_of (s : snapshots) (label : string) : option Z := c ← dget s label; dget c "pid".

(** The difference reported for one process. *)
Definition reported (b a : snapshots) (ticks : Z) (label : string) (d : delta) : Prop :=
  ∃ x y u s, dget b label = Some x ∧ dget a label = Some y ∧
    dget x "pid" = Some (d_pid d) ∧ dget y "pid" = Some (d_pid d) ∧ difference x y (d_counters d) ∧
    dget (d_counters d) "utime_ticks" = Some u ∧ dget (d_counters d) "stime_ticks" = Some s ∧ d_cpu d = (u + s, ticks).

Lemma difference_key b a d k : difference b a d → k ∈ counter_names → k ≠ "pid" → k ≠ "num_threads" → ∃ v, dget d k = Some v.
Proof. intros [Hk _] Hin H1 H2. apply dget_is_Some_keys. rewrite Hk. apply list_elem_of_filter. by split. Qed.

Lemma subtract_one_spec x y ticks :
  keys x = counter_names → keys y = counter_names → ticks ≠ 0 →
  ∃ px py, dget x "pid" = Some px ∧ dget y "pid" = Some py ∧
    ((px ≠ py ∧ subtract_one x y ticks = Ok None) ∨
     (px = py ∧ ∃ d, subtract_one x y ticks = Ok (Some d) ∧ d_pid d = px ∧ difference x y (d_counters d) ∧
        ∃ u s, dget (d_counters d) "utime_ticks" = Some u ∧ dget (d_counters d) "stime_ticks" = Some s ∧
          d_cpu d = (u + s, ticks))).
Proof.
  intros Hx Hy Ht. destruct (dget_of_key x "pid" Hx) as [px Epx]; [by left|].
  destruct (dget_of_key y "pid" Hy) as [py Epy]; [by left|]. exists px, py. split; [done|]. split; [done|].
  unfold subtract_one. rewrite (proj2 (getitem_Ok x "pid" px) Epx), (proj2 (getitem_Ok y "pid" py) Epy). cbn [mbind res_bind].
  destruct (Z.eqb_spec px py) as [<-|Hne]; [right|by left]. split; [done|]. cbn [negb].
  destruct (deltas_spec x y Hx Hy) as (d & -> & Hd). cbn [mbind res_bind].
  destruct (difference_key _ _ _ "utime_ticks" Hd) as [u Hu]; [by do 3 right; left|done|done|].
  destruct (difference_key _ _ _ "stime_ticks" Hd) as [s Hs]; [by do 4 right; left|done|done|].
  rewrite (proj2 (getitem_Ok d _ _) Hu), (proj2 (getitem_Ok d _ _) Hs). cbn [mbind res_bind].
  destruct (Z.eqb_spec ticks 0); [done|]. cbn. eexists. split; [done|]. split; [done|]. split; [done|]. by exists u, s.
Qed.

Lemma subtract_go_spec b a ticks labels :
  Forall (λ lc, keys lc.2 = counter_names) b → Forall (λ lc, keys lc.2 = counter_names) a → ticks ≠ 0 →
  (∀ l, l ∈ labels → l ∈ keys b ∧ l ∈ keys a) →
  ∃ ds, subtract_go b a ticks labels = Ok ds ∧
    keys ds = List.filter (λ l, bool_decide (pid_of b l = pid_of a l)) labels ∧
    Forall (λ ld, reported b a ticks ld.1 ld.2) ds.
Proof.
  intros Hb Ha Ht. induction labels as [|l labels IH]; intros Hl; [by exists []|].
  destruct (Hl l) as [H1 H2]; [by left|]. destruct IH as (ds & E & Hk & Hr); [intros; apply Hl; by right|].
  apply dget_is_Some_keys in H1 as [x Hx], H2 as [y Hy].
  rewrite Forall_forall in Hb, Ha. pose proof (Hb _ (dget_Some_elem _ _ _ Hx)) as Kx. pose proof (Ha _ (dget_Some_elem _ _ _ Hy)) as Ky.
  destruct (subtract_one_spec x y ticks Kx Ky Ht) as (px & py & Px & Py & H).
  cbn [subtract_go List.filter]. 
  rewrite (proj2 (@getitem_Ok counters b l x) Hx), (proj2 (@getitem_Ok counters a l y) Hy). cbn [mbind res_bind].
  assert (∀ s c n, dget s l = Some c → dget c "pid" = Some n → pid_of s l = Some n) as Hpid
    by (intros s c n Hc Hn; exact (eq_trans (f_equal (λ o, o ≫= λ c, dget c "pid") Hc) Hn)).
  rewrite (Hpid b x px Hx Px), (Hpid a y py Hy Py).
  destruct H as [[Hne ->]|(<- & d & -> & Hd1 & Hd2 & u & s & Hd3)]; cbn [mbind res_bind]; rewrite E; cbn [mbind res_bind].
  - rewrite bool_decide_eq_false_2 by congruence. by exists ds.
  - rewrite bool_decide_eq_true_2 by done. exists ((l, d) :: ds). split; [done|]. split; [unfold keys in *; cbn; by rewrite Hk|].
    constructor; [|done]. exists x, y, u, s. cbn [fst snd]. rewrite Hd1. naive_solver.
Qed.

(** C31: the differences of two snapshots are always found: exactly the processes that
    are in both under the same process number are reported, in the order of their
    labels, each with every counter of the second snapshot less that of the first
    and with the CPU time of the two. *)
Theorem profile_differences pidfile proc_of pidfile' proc_of' b a ticks :
  process_snapshot pidfile proc_of = Ok b → process_snapshot pidfile' proc_of' = Ok a → ticks ≠ 0 →
  ∃ ds, subtract b a ticks = Ok ds ∧
    keys ds = List.filter (λ l, bool_decide (pid_of b l = pid_of a l)) (py_sorted (List.filter (has a) (keys b))) ∧
    Forall (λ ld, reported b a ticks ld.1 ld.2) ds.
Proof.
  intros Hb Ha Ht. apply snapshot_keys in Hb as [Hb _], Ha as [Ha _]. apply subtract_go_spec; try done.
  intros l Hl. unfold common in Hl. rewrite py_sorted_perm in Hl.
  apply list_elem_of_In, List.filter_In in Hl as [Hl1%list_elem_of_In Hl2]. split; [done|].
  unfold has in Hl2. apply bool_decide_eq_true in Hl2. by apply dget_is_Some_keys.
Qed.

(** ** A concrete run *)

Definition sample_stat (comm : string) (n : Z) : res string :=
  Ok (stat_line "77" comm (["S"; "1"; "77"; "77"; "0"; "-1"; "4194560"; str_of_Z (n + 3); "0"; str_of_Z n; "0";
    str_of_Z (n * 10); str_of_Z n] ++ replicate 4 "0" ++ ["5"; "0"])).

Definition sample_proc (n : Z) (pid : Z) : proc :=
  Proc (sample_stat "gem5 (node) 0" n) (Ok "Name:	gem5") (Ok EmptyString).

Definition sample_pidfile (path : string) : option string :=
  if String.eqb path "node0/gem5.pid" then Some ("77" +:+ String NL EmptyString) else None.

Lemma profile_differences_witness :
  ∃ b a ds, subtract b a 100 = Ok ds ∧ keys ds = ["node0"] ∧ Forall (λ ld, reported b a 100 ld.1 ld.2) ds.
Proof.
  destruct (process_snapshot sample_pidfile (sample_proc 4)) as [b|] eqn:Eb; [|vm_compute in Eb; discriminate].
  destruct (process_snapshot sample_pidfile (sample_proc 9)) as [a|] eqn:Ea; [|vm_compute in Ea; discriminate].
  destruct (profile_differences _ _ _ _ b a 100 Eb Ea) as (ds & H1 & H2 & H3); [lia|].
  exists b, a, ds. split; [exact H1|]. split; [|exact H3]. rewrite H2.
  vm_compute in Eb, Ea. injection Eb as <-. injection Ea as <-. vm_compute. reflexivity.
Defined.
