(* ===== verification/Inventory.v ===== *)
(** * The inventory of the driver's commands ([tools/audit_command_coverage.py])

    The tool reads the command numbers of the pinned driver from the enums of its
    headers, classifies them by hand-written tables and compares a digest of the
    declarations of each namespace with the reviewed one. *)

From Stdlib Require Import ZArith Lia Ascii.
From stdpp Require Import base strings numbers option list sorting.
From S2P Require Import Prelude PyStr Json TextScan Rsp Instrument.

Open Scope string_scope.
Open Scope list_scope.
Open Scope Z_scope.

(** ** Source text *)

(** The text after the line at hand, its line feed included. *)
Fixpoint from_newline (s : string) : string :=
  match s with
  | String c s' => if Ascii.eqb c "010" then s else from_newline s'
  | EmptyString => EmptyString
  end.

(** [re.sub(r"/\*.*?\*/|//[^\n]*", "", text, flags=re.S)]: a comment that is not
    closed stays. *)
Fixpoint strip_comments (fuel : nat) (s : string) : string :=
  match fuel, s with
  | S f, String c s' =>
      let keep := String c (strip_comments f s') in
      if Ascii.eqb c "/" then
        match s' with
        | String "*" rest =>
            match cut_at "*/" rest with Some (_, r) => strip_comments f (removeprefix r "*/") | None => keep end
        | String "/" rest => strip_comments f (from_newline rest)
        | _ => keep
        end
      else keep
  | _, _ => EmptyString
  end.

(** [enum\s+<name>\s*\{([^}]+)\}], or without a name. *)
Definition m_enum (name : string) : matcher string := λ s,
  a ← m_lit "enum" s;
  b ← (if String.eqb name EmptyString then Some (tt, a.2) else c ← m_sp1 a.2; m_lit name c.2);
  c ← m_sp0 b.2; d ← m_lit "{" c.2;
  let '(body, r) := span (λ c, negb (Ascii.eqb c "}")) d.2 in
  if String.eqb body EmptyString then None else e ← m_lit "}" r; Some (body, e.2).

(** [re.findall(r"\b" + pattern, text)] of a pattern that starts with a letter and
    ends with a closing brace; [inside]: the character before is one of a word. *)
Fixpoint enum_bodies (fuel : nat) (name : string) (inside : bool) (s : string) : list string :=
  match fuel with
  | O => []
  | S f =>
      match (if inside then None else m_enum name s) with
      | Some (body, r) => body :: enum_bodies f name false r
      | None => match s with String c s' => enum_bodies f name (word_char c) s' | EmptyString => [] end
      end
  end.

(** ** Expressions *)

(** [\b(0[xX][0-9a-fA-F]+|[0-9]+)[uUlL]+\b]: the number, and the text after the suffix. *)
Definition is_hex (c : ascii) : bool := bool_decide (is_Some (hex_val c)).
Definition is_suffix (c : ascii) : bool := elemb c ["u"; "U"; "l"; "L"]%char.
Definition starts_word (s : string) : bool := match s with String c _ => word_char c | EmptyString => false end.

Definition suffixed (digits r : string) : option (string * string) :=
  let '(suffix, r') := span is_suffix r in
  if String.eqb digits EmptyString || String.eqb suffix EmptyString || starts_word r' then None else Some (digits, r').

Definition m_suffixed : matcher string := λ s,
  let decimal := let '(d, r) := span is_digit s in suffixed d r in
  match s with
  | String "0" (String x r) =>
      if Ascii.eqb x "x" || Ascii.eqb x "X" then
        let '(d, r') := span is_hex r in
        if String.eqb d EmptyString then decimal
        else match suffixed ("0" +:+ String x d) r' with Some m => Some m | None => decimal end
      else decimal
  | _ => decimal
  end.

Fixpoint drop_suffixes (fuel : nat) (inside : bool) (s : string) : string :=
  match fuel with
  | O => EmptyString
  | S f =>
      match (if inside then None else m_suffixed s) with
      | Some (number, r) => number +:+ drop_suffixes f true r
      | None => match s with String c s' => String c (drop_suffixes f (word_char c) s') | EmptyString => EmptyString end
      end
  end.

(** The nodes of [ast] that [visit] knows. *)
Inductive binop := Add | Sub | BitOr | LShift.
Inductive expr :=
  | Constant (n : Z)
  | Name (id : string)
  | UnaryOp (negative : bool) (operand : expr)
  | BinOp (op : binop) (lhs rhs : expr).

Inductive token := TInt (n : Z) | TName (id : string) | TOp (op : binop) | TOpen | TClose.

(** Digits of a base, single underscores between them. *)
Definition digit_value (base : Z) (c : ascii) : option Z :=
  d ← hex_val c; if d <? base then Some d else None.
Definition digits_value (base : Z) (s : string) : option Z :=
  if existsb (String.eqb EmptyString) (split_on "_" s) then None
  else foldl (λ acc c, a ← acc; if Ascii.eqb c "_" then Some a else d ← digit_value base c; Some (base * a + d))
         (Some 0) (String.list_ascii_of_string s).

(** An integer literal: a decimal one has no leading zero unless it is zero. *)
Definition int_literal (s : string) : option Z :=
  let based base r := digits_value base (removeprefix r "_") in
  match s with
  | String "0" (String x r) =>
      if elemb x ["x"; "X"]%char then based 16 r
      else if elemb x ["o"; "O"]%char then based 8 r
      else if elemb x ["b"; "B"]%char then based 2 r
      else n ← digits_value 10 s; if n =? 0 then Some 0 else None
  | _ => digits_value 10 s
  end.

Definition keywords : list string :=
  ["False"; "None"; "True"; "and"; "as"; "assert"; "async"; "await"; "break"; "class"; "continue"; "def"; "del";
   "elif"; "else"; "except"; "finally"; "for"; "from"; "global"; "if"; "import"; "in"; "is"; "lambda"; "nonlocal";
   "not"; "or"; "pass"; "raise"; "return"; "try"; "while"; "with"; "yield"].

(** The tokens of an expression; [depth] counts open parentheses, within which a
    line may end. Text that no expression of [visit] holds has no tokens. *)
Fixpoint tokens (fuel : nat) (depth : nat) (s : string) : option (list token) :=
  match fuel, s with
  | O, _ => None
  | _, EmptyString => Some []
  | S f, String c s' =>
      if elemb c [" "; "009"; "012"]%char then tokens f depth s'
      else if Ascii.eqb c "010" then (if Nat.eqb depth 0 then None else tokens f depth s')
      else if Ascii.eqb c "+" then ts ← tokens f depth s'; Some (TOp Add :: ts)
      else if Ascii.eqb c "-" then ts ← tokens f depth s'; Some (TOp Sub :: ts)
      else if Ascii.eqb c "|" then ts ← tokens f depth s'; Some (TOp BitOr :: ts)
      else if Ascii.eqb c "(" then ts ← tokens f (S depth) s'; Some (TOpen :: ts)
      else if Ascii.eqb c ")" then ts ← tokens f (pred depth) s'; Some (TClose :: ts)
      else if Ascii.eqb c "<" then
        match s' with String "<" r => ts ← tokens f depth r; Some (TOp LShift :: ts) | _ => None end
      else if is_digit c then
        let '(w, r) := span word_char s in n ← int_literal w; ts ← tokens f depth r; Some (TInt n :: ts)
      else if word_char c then
        let '(w, r) := span word_char s in
        if elemb w keywords then None else ts ← tokens f depth r; Some (TName w :: ts)
      else None
  end.

(** Python's grammar of these operators: [|] binds less than [<<], and that less
    than [+] and [-], all to the left; the signs bind most. *)
Definition level_of (op : binop) : nat := match op with BitOr => 0 | LShift => 1 | Add | Sub => 2 end.

Inductive mode := Level (n : nat) | Rest (n : nat) (lhs : expr).

Fixpoint parse (fuel : nat) (m : mode) (ts : list token) : option (expr * list token) :=
  match fuel with
  | O => None
  | S f =>
      match m with
      | Rest n lhs =>
          match ts with
          | TOp op :: ts' =>
              if Nat.eqb (level_of op) n then
                r ← parse f (Level (S n)) ts'; parse f (Rest n (BinOp op lhs r.1)) r.2
              else Some (lhs, ts)
          | _ => Some (lhs, ts)
          end
      | Level n =>
          if Nat.ltb n 3 then r ← parse f (Level (S n)) ts; parse f (Rest n r.1) r.2
          else match ts with
               | TInt n :: ts' => Some (Constant n, ts')
               | TName s :: ts' => Some (Name s, ts')
               | TOp Add :: ts' => r ← parse f (Level 3) ts'; Some (UnaryOp false r.1, r.2)
               | TOp Sub :: ts' => r ← parse f (Level 3) ts'; Some (UnaryOp true r.1, r.2)
               | TOpen :: ts' =>
                   r ← parse f (Level 0) ts';
                   match r.2 with TClose :: ts'' => Some (r.1, ts'') | _ => None end
               | _ => None
               end
      end
  end.

(** The whole of a list of tokens: every turn takes a token or descends a level. *)
Definition parse_all (ts : list token) : option expr :=
  match parse (6 * S (length ts)) (Level 0) ts with Some (e, []) => Some e | _ => None end.

Definition values : Type := list (string * Z).

Definition unsupported (expression : string) : exn := Exn ValueError "unsupported enum expression {expression!r}" [PS expression].

(** [visit]. *)
Fixpoint visit (vs : values) (expression : string) (e : expr) : res Z :=
  match e with
  | Constant n => Ok n
  | Name id => or_raise (dget vs id) (unsupported expression)
  | UnaryOp negative operand => n ← visit vs expression operand; Ok (n * (if negative then -1 else 1))
  | BinOp op l r =>
      a ← visit vs expression l; b ← visit vs expression r;
      match op with
      | Add => Ok (a + b)
      | Sub => Ok (a - b)
      | BitOr => Ok (Z.lor a b)
      | LShift => if (0 <=? b) && (b <=? 63) then Ok (Z.shiftl a b) else Err (unsupported expression)
      end
  end.

(** [evaluate]: what cannot be parsed and what [visit] refuses both end the enum. *)
Definition evaluate (vs : values) (expression : string) : res Z :=
  let expression := drop_suffixes (S (String.length expression)) false expression in
  e ← or_raise (ts ← tokens (S (String.length expression)) 0 expression; parse_all ts) (unsupported expression);
  visit vs expression e.

(** ** Enums *)

Definition symbol_ok (s : string) : bool :=
  match s with
  | String c s' => (is_alnum_ascii c && negb (is_digit c) || Ascii.eqb c "_") && str_forallb word_char s'
  | EmptyString => false
  end.

(** One declaration: its symbol and its value. *)
Definition declaration (source : string) (vs : values) (previous : Z) (item : string) : res (string * Z) :=
  let '(name, expression) := partition_at "=" item in
  let symbol := strip name in
  raise Exn ValueError "{source}: invalid/duplicate enum symbol {symbol!r}" [PS source; PS symbol]
    when negb (symbol_ok symbol) || has vs symbol ;;
  value ← match expression with
          | Some e => match evaluate vs (strip e) with
                      | Ok n => Ok n
                      | Err _ => Err (Exn ValueError "{source}: {symbol}: {error}" [PS source; PS symbol])
                      end
          | None => Ok (previous + 1)
          end;
  raise Exn ValueError "{source}: opcode out of range: {symbol}={value}" [PS source; PS symbol; PZ value]
    when negb ((0 <=? value) && (value <=? 65535)) ;;
  Ok (symbol, value).

(** The items of the body; only the last may be empty. *)
Fixpoint declarations (source : string) (vs : values) (previous : Z) (items : list string) : res values :=
  match items with
  | [] => Ok vs
  | item :: items' =>
      let item := strip item in
      if String.eqb item EmptyString && bool_decide (items' = []) then Ok vs
      else
        d ← declaration source vs previous item;
        declarations source (vs ++ [d]) d.2 items'
  end.

Definition enum_entries (text name source : string) : res values :=
  let text := strip_comments (S (String.length text)) text in
  match enum_bodies (S (String.length text)) name false text with
  | [body] => declarations source [] (-1) (split_on "," body)
  | bodies =>
      Err (Exn ValueError "{source}: expected exactly one enum {enum_name!r}, found {len(matches)}"
             [PS source; PS name; PZ (len bodies)])
  end.

(** ** The inventory *)

Definition UDMA : string := "oe66/drivers/ub/urma/hw/udma/udma_cmd.h".
Definition CTRLQ : string := "oe66/include/ub/ubase/ubase_comm_ctrlq.h".

(** Namespace, header and enum. *)
Definition GROUPS : list (string * string * string) :=
  [("ubase", "oe66/include/ub/ubase/ubase_comm_cmd.h", "ubase_opcode_type");
   ("ubase", UDMA, "udma_cmd_opcode_type");
   ("mailbox", UDMA, EmptyString);
   ("mailbox", "oe66/include/ub/ubase/ubase_comm_mbx.h", "ubase_mbox_opcode");
   ("ctrlq-tp", "oe66/drivers/ub/urma/hw/udma/udma_ctrlq_tp.h", "udma_ctrlq_cmd_code_type");
   ("ctrlq-device", UDMA, "udma_ctrlq_dev_mgmt_opcode");
   ("ctrlq-tp", CTRLQ, "ubase_ctrlq_opc_type_tp");
   ("ctrlq-device", CTRLQ, "ubase_ctrlq_opc_type_dev_register");
   ("ctrlq-qos", CTRLQ, "ubase_ctrlq_opc_type_qos");
   ("ctrlq-ip", CTRLQ, "ubase_ctrlq_opc_type_ip");
   ("ctrlq-ubmem", "oe66/drivers/ub/urma/hw/udma/udma_ctrlq_tp.h", "udma_ctrlq_ubmem_opcode")].

Definition SERVICE_IDS : list (string * Z) :=
  [("ctrlq-tp", 1); ("ctrlq-device", 2); ("ctrlq-ip", 3); ("ctrlq-qos", 4); ("ctrlq-ubmem", 5)].

Definition REVIEWED_DECLARATIONS : list (string * string) :=
  [("ctrlq-device", "5766d71c1446300e07437b05816b129bdd7cba46985c772a76e06645ac842e0a");
   ("ctrlq-ip", "5ac517ef2390465763a6a0b903376da30e94f33f89d2647c5a0626e6cb4b5868");
   ("ctrlq-qos", "fdc6e6af9518ef61ae9c7fff029b635c2b08792058830bbab66d0439cf1e43ce");
   ("ctrlq-tp", "717cc73a731db23832e071bff960cc26d35e623534fa5fdef80b07d0b2dac0cf");
   ("ctrlq-ubmem", "f249ccd1be89d699701f7ad7fb4deed1dce26fccc2418955abe03cf4e91629a1");
   ("mailbox", "9fcb8182b8a0a3a28b30ce294e2342d7b56bc2d351b3e4e55827ac25a0c26841");
   ("ubase", "3bd32e5a954a156791c1a1198b54ff7057ea6113c60707fc413cb3f2fbec5c8e")].

Definition MODELED : list (string * list Z) :=
  [("ubase", [1; 2; 48; 25088; 28673]);
   ("mailbox", [4; 6; 7; 36; 37; 38; 39; 52; 55; 68; 71; 84; 87]);
   ("ctrlq-tp", [19; 33; 34; 35]);
   ("ctrlq-device", [1; 21]);
   ("ctrlq-qos", [1; 2]);
   ("ctrlq-ip", []);
   ("ctrlq-ubmem", [])].

Definition classify (namespace : string) (value : Z) : string :=
  if String.eqb namespace "ubase" && elemb value [28672; 61454] then "dispatch-only"
  else if String.eqb namespace "ubase" && elemb value [16915; 16916] then "rejected"
  else if elemb value (default [] (dget MODELED namespace)) then "modeled-partial"
  else if startswith namespace "ctrlq" then "rejected"
  else "completion-only".

Record alias := Alias { al_symbol : string; al_source : string; al_enum : string }.
#[global] Instance alias_eq_dec : EqDecision alias.
Proof. solve_decision. Defined.

Record row := Row {
  row_namespace : string;
  row_opcode : Z;
  row_service : option Z;
  row_classification : string;
  row_basis : string;
  row_aliases : list alias
}.

Definition fresh (namespace : string) (value : Z) : row :=
  Row namespace value (dget SERVICE_IDS namespace) (classify namespace value) "manual-source-review" [].

Definition with_alias (a : alias) (r : row) : row :=
  if elemb a (row_aliases r) then r
  else Row (row_namespace r) (row_opcode r) (row_service r) (row_classification r) (row_basis r) (row_aliases r ++ [a]).

Definition is_key (namespace : string) (value : Z) (r : row) : bool :=
  String.eqb (row_namespace r) namespace && (row_opcode r =? value).

(** [rows.setdefault(key, ...)] and the new alias. *)
Fixpoint add_row (namespace : string) (value : Z) (a : alias) (rows : list row) : list row :=
  match rows with
  | [] => [with_alias a (fresh namespace value)]
  | r :: rows' => if is_key namespace value r then with_alias a r :: rows' else r :: add_row namespace value a rows'
  end.

(** One enum's declarations; those of a maximum are no commands. *)
Definition add_enum (namespace path name : string) (rows : list row) (decls : values) : list row :=
  foldl (λ rows (d : string * Z),
    if endswith d.1 "_MAX" then rows else add_row namespace d.2 (Alias d.1 path name) rows) rows decls.

Section audit.
(** The headers under the root, and [hashlib.sha256(json.dumps(x).encode()).hexdigest()]
    of a namespace's opcodes and aliases. *)
Context (read_text : string → res string) (digest : list (Z * list alias) → string).

Fixpoint collect (rows : list row) (groups : list (string * string * string)) : res (list row) :=
  match groups with
  | [] => Ok rows
  | (namespace, path, name) :: groups' =>
      text ← read_text path;
      decls ← enum_entries text name path;
      collect (add_enum namespace path name rows decls) groups'
  end.

(** The orders of the keys and of the aliases. *)
Definition row_le (r s : row) : bool :=
  match String.compare (row_namespace r) (row_namespace s) with
  | Lt => true | Gt => false | Eq => row_opcode r <=? row_opcode s
  end.
Definition alias_le (a b : alias) : bool :=
  match String.compare (al_symbol a) (al_symbol b) with
  | Lt => true | Gt => false
  | Eq => match String.compare (al_source a) (al_source b) with Gt => false | _ => true end
  end.

Definition sort_by {A} (le : A → A → bool) : list A → list A := merge_sort (λ a b, Is_true (le a b)).

Definition sorted_row (r : row) : row :=
  Row (row_namespace r) (row_opcode r) (row_service r) (row_classification r) (row_basis r)
    (sort_by alias_le (row_aliases r)).

(** [declaration_fingerprints]. *)
Definition namespaces (rows : list row) : list string := py_sorted (remove_dups (row_namespace <$> rows)).
Definition declared (rows : list row) (namespace : string) : list (Z * list alias) :=
  (λ r, (row_opcode r, row_aliases r)) <$>
    List.filter (λ r, String.eqb (row_namespace r) namespace) (sort_by row_le rows).
Definition declaration_fingerprints (rows : list row) : list (string * string) :=
  (λ n, (n, digest (declared rows n))) <$> namespaces rows.

Definition reviewed (fingerprints : list (string * string)) (r : row) : row :=
  if bool_decide (dget fingerprints (row_namespace r) = dget REVIEWED_DECLARATIONS (row_namespace r)) then r
  else Row (row_namespace r) (row_opcode r) (row_service r) "unreviewed" "source-inventory-drift" (row_aliases r).

Definition entries (groups : list (string * string * string)) : res (list row) :=
  rows ← collect [] groups;
  let rows := sorted_row <$> rows in
  Ok (reviewed (declaration_fingerprints rows) <$> sort_by row_le rows).

(** Two dictionaries are equal. *)
Definition same_dict (d d' : list (string * string)) : bool :=
  forallb (λ k, bool_decide (dget d k = dget d' k)) (keys d ++ keys d').

(** [main]: the rows it prints and the status. *)
Definition main (check : bool) : res (list row * Z) :=
  rows ← entries GROUPS;
  Ok (rows, if check && negb (same_dict (declaration_fingerprints rows) REVIEWED_DECLARATIONS) then 1 else 0).
End audit.

(** ** Expressions *)

(** Fuel that is enough for a mode on a list of tokens. *)
Definition need (m : mode) (ts : list token) : nat :=
  match m with
  | Level n => 5 * length ts + (5 - n)
  | Rest _ _ => 5 * length ts + 5
  end.

(** A level takes a token at least; the rest of one takes none or more. *)
Lemma parse_shrinks f : ∀ m ts e r, parse f m ts = Some (e, r) →
  match m with Level _ => (length r < length ts)%nat | Rest _ _ => (length r ≤ length ts)%nat end.
Proof.
  induction f as [|f IH]; intros m ts e r H; [done|]. destruct m as [n|n lhs]; cbn [parse] in H.
  - destruct (Nat.ltb n 3).
    + destruct (parse f (Level (S n)) ts) as [[e1 r1]|] eqn:E1; [|done]. apply IH in E1.
      cbn [mbind option_bind fst snd] in H. apply IH in H. lia.
    + destruct ts as [|[k|s|[]| |] ts]; try done; try (injection H as <- <-; cbn; lia).
      * destruct (parse f (Level 3) ts) as [[e1 r1]|] eqn:E1; [|done]. apply IH in E1. injection H as <- <-. cbn. lia.
      * destruct (parse f (Level 3) ts) as [[e1 r1]|] eqn:E1; [|done]. apply IH in E1. injection H as <- <-. cbn. lia.
      * destruct (parse f (Level 0) ts) as [[e1 r1]|] eqn:E1; [|done]. apply IH in E1.
        cbn [mbind option_bind fst snd] in H. destruct r1 as [|[] r1]; try done. injection H as <- <-. cbn in *. lia.
  - destruct ts as [|[k|s|op| |] ts]; try (injection H as <- <-; cbn; lia).
    destruct (Nat.eqb _ _); [|injection H as <- <-; cbn; lia].
    destruct (parse f (Level (S n)) ts) as [[e1 r1]|] eqn:E1; [|done]. apply IH in E1.
    cbn [mbind option_bind fst snd] in H. apply IH in H. cbn. lia.
Qed.

Lemma parse_level f n ts :
  parse (S f) (Level n) ts =
  if Nat.ltb n 3 then r ← parse f (Level (S n)) ts; parse f (Rest n r.1) r.2
  else match ts with
       | TInt n :: ts' => Some (Constant n, ts')
       | TName s :: ts' => Some (Name s, ts')
       | TOp Add :: ts' => r ← parse f (Level 3) ts'; Some (UnaryOp false r.1, r.2)
       | TOp Sub :: ts' => r ← parse f (Level 3) ts'; Some (UnaryOp true r.1, r.2)
       | TOpen :: ts' => r ← parse f (Level 0) ts'; match r.2 with TClose :: ts'' => Some (r.1, ts'') | _ => None end
       | _ => None
       end.
Proof. reflexivity. Qed.

Lemma parse_rest f n lhs ts :
  parse (S f) (Rest n lhs) ts =
  match ts with
  | TOp op :: ts' =>
      if Nat.eqb (level_of op) n then r ← parse f (Level (S n)) ts'; parse f (Rest n (BinOp op lhs r.1)) r.2
      else Some (lhs, ts)
  | _ => Some (lhs, ts)
  end.
Proof. reflexivity. Qed.

(** With enough fuel, more changes nothing. *)
Lemma parse_enough f : ∀ m ts, (need m ts ≤ f)%nat →
  match m with Level n => (n ≤ 3)%nat | Rest n _ => (n < 3)%nat end → parse (S f) m ts = parse f m ts.
Proof.
  induction f as [|f IH]; intros m ts Hf Hm.
  { destruct m; cbn [need] in Hf; lia. }
  destruct m as [n|n lhs]; cbn [need] in Hf.
  - rewrite (parse_level (S f) n ts), (parse_level f n ts).
    destruct (Nat.ltb_spec n 3) as [Hn|Hn].
    + rewrite (IH (Level (S n)) ts) by (cbn [need]; lia).
      destruct (parse f (Level (S n)) ts) as [[e1 r1]|] eqn:E1; [|done]. apply parse_shrinks in E1.
      cbn [mbind option_bind fst snd]. apply IH; [cbn [need]; lia|done].
    + destruct ts as [|[k|s|[]| |] ts]; try done; cbn [length] in Hf; (rewrite IH; [done|cbn [need]; lia|lia]).
  - rewrite (parse_rest (S f) n lhs ts), (parse_rest f n lhs ts).
    destruct ts as [|[k|s|op| |] ts]; try done. destruct (Nat.eqb _ _); [|done]. cbn [length] in Hf.
    rewrite (IH (Level (S n)) ts) by (cbn [need]; lia).
    destruct (parse f (Level (S n)) ts) as [[e1 r1]|] eqn:E1; [|done]. apply parse_shrinks in E1.
    cbn [mbind option_bind fst snd]. apply IH; [cbn [need]; lia|done].
Qed.

Lemma parse_more f g m ts : (need m ts ≤ f ≤ g)%nat →
  match m with Level n => (n ≤ 3)%nat | Rest n _ => (n < 3)%nat end → parse g m ts = parse f m ts.
Proof.
  intros [H1 H2] Hm. induction g as [|g IH]; [by replace f with 0%nat by lia|].
  destruct (decide (f = S g)) as [->|]; [done|]. rewrite parse_enough by (done || lia). apply IH. lia.
Qed.

(** An expression with every operation in parentheses. *)
Fixpoint written (e : expr) : list token :=
  match e with
  | Constant n => [TInt n]
  | Name s => [TName s]
  | UnaryOp negative e' => TOp (if negative then Sub else Add) :: written e'
  | BinOp op l r => TOpen :: written l ++ TOp op :: written r ++ [TClose]
  end.

(** No operator of level [n] or above comes next. *)
Definition no_operator (n : nat) (ts : list token) : bool :=
  match ts with TOp op :: _ => Nat.ltb (level_of op) n | _ => true end.

(** [reads m ts e r]: with enough fuel the parser reads [e] and leaves [r]. *)
Definition reads (m : mode) (ts : list token) (e : expr) (r : list token) : Prop :=
  ∀ f, (need m ts ≤ f)%nat → parse f m ts = Some (e, r).

Lemma rest_reads n e r f : no_operator n r = true → (0 < f)%nat → parse f (Rest n e) r = Some (e, r).
Proof.
  destruct f as [|f]; [lia|]. intros Hr _. rewrite parse_rest. destruct r as [|[k|s|op| |] r]; try done.
  cbn in Hr. apply Nat.ltb_lt in Hr. by destruct (Nat.eqb_spec (level_of op) n); [lia|].
Qed.

(** What the levels above read is read at level [n] when no operator of it follows. *)
Lemma level_reads n ts e r :
  (n < 3)%nat → reads (Level (S n)) ts e r → (length r < length ts)%nat → no_operator n r = true →
  reads (Level n) ts e r.
Proof.
  intros Hn H Hlen Hr f Hf. cbn [need] in Hf. destruct f as [|f]; [lia|]. rewrite parse_level.
  destruct (Nat.ltb_spec n 3); [|lia]. rewrite H by (cbn [need]; lia). cbn [mbind option_bind fst snd].
  apply rest_reads; [done|lia].
Qed.

Lemma levels_read k n ts e r :
  (n + k = 3)%nat → reads (Level 3) ts e r → (length r < length ts)%nat → no_operator n r = true → reads (Level n) ts e r.
Proof.
  revert n. induction k as [|k IH]; intros n Hk H Hlen Hr; [by replace n with 3%nat by lia|].
  apply level_reads; [lia| |done|done]. apply IH; [lia|done|done|].
  destruct r as [|[m|s|op| |] r]; try done. cbn [no_operator] in *. apply Nat.ltb_lt in Hr. apply Nat.ltb_lt. lia.
Qed.

(** An operation between two operands that are read, up to its parenthesis. *)
Lemma operation_reads op l r tl tr rest n :
  reads (Level 3) (tl ++ TOp op :: tr ++ TClose :: rest) l (TOp op :: tr ++ TClose :: rest) →
  reads (Level 3) (tr ++ TClose :: rest) r (TClose :: rest) → tl ≠ [] → tr ≠ [] → (n ≤ level_of op)%nat →
  reads (Level n) (tl ++ TOp op :: tr ++ TClose :: rest) (BinOp op l r) (TClose :: rest).
Proof.
  intros Hl Hr Htl Htr Hn. remember (level_of op - n)%nat as d eqn:Hd. revert n Hn Hd.
  assert (level_of op < 3)%nat as Hop by (destruct op; cbn; lia).
  assert (0 < length tl ∧ 0 < length tr)%nat as [L1 L2] by (destruct tl, tr; cbn; (done || lia)).
  induction d as [|d IH]; intros n Hn Hd.
  - assert (n = level_of op) as -> by lia. intros f Hf. cbn [need] in Hf. destruct f as [|f]; [lia|]. rewrite parse_level.
    destruct (Nat.ltb_spec (level_of op) 3); [|lia].
    rewrite (levels_read (3 - S (level_of op)) (S (level_of op)) _ l (TOp op :: tr ++ TClose :: rest));
      [|lia|exact Hl|rewrite length_app; cbn; lia|cbn [no_operator]; apply Nat.ltb_lt; lia|cbn [need]; lia].
    cbn [mbind option_bind fst snd]. rewrite length_app in Hf. cbn [length] in Hf. destruct f as [|f]; [lia|].
    rewrite parse_rest, Nat.eqb_refl.
    rewrite (levels_read (3 - S (level_of op)) (S (level_of op)) _ r (TClose :: rest));
      [|lia|exact Hr|rewrite length_app; cbn; lia|done|cbn [need]; rewrite length_app in *; cbn [length] in *; lia].
    cbn [mbind option_bind fst snd]. apply rest_reads; [done|lia].
  - apply level_reads; [lia|apply IH; lia|rewrite !length_app; cbn; rewrite length_app; cbn; lia|done].
Qed.

Lemma written_nonempty e : written e ≠ [].
Proof. by destruct e. Qed.

Lemma written_reads e : ∀ rest, reads (Level 3) (written e ++ rest) e rest.
Proof.
  induction e as [k|s|negative e IH|op l IHl r IHr]; intros rest f Hf; (destruct f as [|f]; [cbn [need] in Hf; lia|]);
    rewrite parse_level; cbn [Nat.ltb Nat.leb].
  - done.
  - done.
  - cbn [written app] in *. cbn [need length] in Hf. destruct negative; (rewrite IH; [done|cbn [need]; lia]).
  - cbn [written app] in *. rewrite <- !app_assoc in *. cbn [app] in *. rewrite <- app_assoc in *. cbn [app] in *.
    rewrite (operation_reads op l r (written l) (written r) rest 0);
      [done|apply IHl|apply IHr|apply written_nonempty|apply written_nonempty|lia|cbn [need length] in *; lia].
Qed.

(** The parser reads every expression that is written with parentheses. *)
Lemma parse_written e : parse_all (written e) = Some e.
Proof.
  unfold parse_all. rewrite <- (app_nil_r (written e)) at 2.
  rewrite (levels_read 3 0 _ e []); [done|done|apply written_reads| |done|].
  - pose proof (written_nonempty e). rewrite app_nil_r. destruct (written e); [done|cbn; lia].
  - cbn [need]. rewrite app_nil_r. lia.
Qed.

(** The operators between their operands, as in C. *)
Example precedence :
  (tokens 50 0 "1 << 3 + 2 | -A - 4 - 1" ≫= parse_all) =
  Some (BinOp BitOr (BinOp LShift (Constant 1) (BinOp Add (Constant 3) (Constant 2)))
    (BinOp Sub (BinOp Sub (UnaryOp true (Name "A")) (Constant 4)) (Constant 1))).
Proof. vm_compute. reflexivity. Qed.

(** ** The order of the rows *)

Lemma compare_trans a : ∀ b c o, String.compare a b = o → String.compare b c = o → String.compare a c = o.
Proof.
  induction a as [|x a IH]; intros [|y b] [|z c] o; cbn [String.compare]; try congruence.
  unfold Ascii.compare. intros H1 H2.
  destruct (N.compare_spec (N_of_ascii x) (N_of_ascii y)) as [E1|E1|E1], (N.compare_spec (N_of_ascii y) (N_of_ascii z)) as [E2|E2|E2];
    subst o; try discriminate.
  - rewrite E1, E2, N.compare_refl. by eapply IH.
  - rewrite E1. by apply N.compare_lt_iff in E2 as ->.
  - rewrite E1. by apply N.compare_gt_iff in E2 as ->.
  - rewrite <- E2. by apply N.compare_lt_iff in E1 as ->.
  - assert ((N_of_ascii x ?= N_of_ascii z)%N = Lt) as -> by (apply N.compare_lt_iff; lia). done.
  - rewrite <- E2. by apply N.compare_gt_iff in E1 as ->.
  - assert ((N_of_ascii x ?= N_of_ascii z)%N = Gt) as -> by (apply N.compare_gt_iff; lia). done.
Qed.

Lemma compare_refl a : String.compare a a = Eq.
Proof.
  induction a as [|x a IH]; cbn [String.compare]; [done|]. unfold Ascii.compare. by rewrite N.compare_refl.
Qed.

Definition row_order (r s : row) : Prop := Is_true (row_le r s).

#[local] Instance row_order_dec r s : Decision (row_order r s) := _.

#[local] Instance row_order_total : Total row_order.
Proof.
  intros r s. unfold row_order, row_le. rewrite (String.compare_antisym (row_namespace r) (row_namespace s)).
  destruct (String.compare (row_namespace s) (row_namespace r)); cbn [CompOpp]; [|by right|by left].
  destruct (Z.leb_spec (row_opcode r) (row_opcode s)); [by left|right]. apply Is_true_eq_left, Z.leb_le. lia.
Qed.

Lemma row_le_iff r s :
  row_order r s ↔ String.compare (row_namespace r) (row_namespace s) = Lt ∨
                  row_namespace r = row_namespace s ∧ row_opcode r <= row_opcode s.
Proof.
  unfold row_order, row_le. destruct (String.compare _ _) eqn:E.
  - apply String.compare_eq_iff in E. rewrite E. split.
    + intros H%Is_true_eq_true%Z.leb_le. by right.
    + intros [H|[_ H]]; [done|]. by apply Is_true_eq_left, Z.leb_le.
  - split; [by left|done].
  - split; [done|]. intros [H|[H _]]; [done|]. rewrite H, compare_refl in E. done.
Qed.

#[local] Instance row_order_trans : Transitive row_order.
Proof.
  intros r s t. rewrite !row_le_iff. intros [H1|[H1 H2]] [H3|[H3 H4]].
  - left. by eapply compare_trans.
  - left. by rewrite <- H3.
  - left. by rewrite H1.
  - right. split; [congruence|lia].
Qed.

(** A row's key, and rows in order of keys that occur once. *)
Definition key (r : row) : string * Z := (row_namespace r, row_opcode r).

Lemma sort_rows_sorted l : Sorted row_order (sort_by row_le l).
Proof. apply (Sorted_merge_sort row_order). Qed.
Lemma sort_rows_perm l : sort_by row_le l ≡ₚ l.
Proof. apply merge_sort_Permutation. Qed.

Lemma sort_of_sorted l : NoDup (key <$> l) → Sorted row_order l → sort_by row_le l = l.
Proof.
  intros Hnd Hl. apply (Sorted_unique_strong row_order); [|apply sort_rows_sorted|done|apply sort_rows_perm].
  intros r s Hr Hs H1 H2. rewrite sort_rows_perm in Hr. apply row_le_iff in H1, H2.
  assert (key r = key s) as Hk.
  { unfold key. destruct H1 as [H1|[H1 H1']], H2 as [H2|[H2 H2']].
    - pose proof (compare_trans _ _ _ _ H1 H2) as H. by rewrite compare_refl in H.
    - rewrite H2, compare_refl in H1. done.
    - rewrite H1, compare_refl in H2. done.
    - f_equal; [done|lia]. }
  apply list_elem_of_lookup in Hr as [i Hi], Hs as [j Hj].
  assert (i = j) as ->; [|congruence].
  eapply (NoDup_lookup _ i j (key r) Hnd); [by rewrite list_lookup_fmap, Hi|by rewrite list_lookup_fmap, Hj, Hk].
Qed.

(** ** What the inventory holds *)

(** An alias under a key. *)
Definition listed (rows : list row) (k : string * Z) (a : alias) : Prop := ∃ r, r ∈ rows ∧ key r = k ∧ a ∈ row_aliases r.

(** A row as the tables make it. *)
Definition row_ok (r : row) : Prop :=
  row_aliases r ≠ [] ∧ NoDup (row_aliases r) ∧ row_service r = dget SERVICE_IDS (row_namespace r) ∧
  row_classification r = classify (row_namespace r) (row_opcode r) ∧ row_basis r = "manual-source-review".

Lemma with_alias_key a r : key (with_alias a r) = key r.
Proof. unfold with_alias. by destruct (elemb a (row_aliases r)). Qed.

Lemma with_alias_in a r b : b ∈ row_aliases (with_alias a r) ↔ b ∈ row_aliases r ∨ b = a.
Proof.
  unfold with_alias. destruct (elemb a (row_aliases r)) eqn:E; cbn [row_aliases].
  - apply elemb_true in E. naive_solver.
  - by rewrite elem_of_app, list_elem_of_singleton.
Qed.

Lemma with_alias_ok a r : NoDup (row_aliases r) → row_service r = dget SERVICE_IDS (row_namespace r) →
  row_classification r = classify (row_namespace r) (row_opcode r) → row_basis r = "manual-source-review" → row_ok (with_alias a r).
Proof.
  intros H1 H2 H3 H4. unfold row_ok.
  assert (row_aliases (with_alias a r) ≠ []) as Hne.
  { intros E. assert (a ∈ row_aliases (with_alias a r)) as H by (apply with_alias_in; by right).
    rewrite E in H. by apply not_elem_of_nil in H. }
  split; [done|]. unfold with_alias. destruct (elemb a (row_aliases r)) eqn:E; [done|]. cbn. split; [|done].
  apply elemb_false in E. apply NoDup_app. split; [done|]. split; [|apply NoDup_singleton].
  intros x Hx Hs. apply list_elem_of_singleton in Hs as ->. done.
Qed.

Lemma is_key_spec ns v r : is_key ns v r = true ↔ key r = (ns, v).
Proof.
  unfold is_key, key. rewrite andb_true_iff, String.eqb_eq, Z.eqb_eq. split; [by intros [-> ->]|by intros [= -> ->]].
Qed.

Section add.
Context (ns : string) (v : Z) (a : alias).

Lemma add_row_keys rows :
  NoDup (key <$> rows) → NoDup (key <$> add_row ns v a rows) ∧
  (∀ k, k ∈ key <$> add_row ns v a rows → k = (ns, v) ∨ k ∈ key <$> rows).
Proof.
  induction rows as [|r rows IH]; cbn [add_row fmap list_fmap].
  - intros _. rewrite with_alias_key. split; [apply NoDup_singleton|]. intros k [->|[]%not_elem_of_nil]%elem_of_cons. by left.
  - intros [Hr Hnd]%NoDup_cons. destruct (is_key ns v r) eqn:E; cbn [fmap list_fmap].
    + rewrite with_alias_key. split; [by constructor|]. intros k Hk. by right.
    + destruct (IH Hnd) as [H1 H2]. split.
      * constructor; [|done]. intros [H|H]%H2; [|done]. apply is_key_spec in H. congruence.
      * intros k [->|[H|H]%H2]%elem_of_cons; [right; by left|by left|right; by right].
Qed.

Lemma add_row_ok rows : Forall row_ok rows → Forall row_ok (add_row ns v a rows).
Proof.
  induction rows as [|r rows IH]; cbn [add_row]; [intros _; constructor; [|constructor]; apply with_alias_ok; try done; constructor|].
  intros [Hr Hrows]%Forall_cons. destruct (is_key ns v r); constructor; auto.
  destruct Hr as (_ & H1 & H2 & H3 & H4). by apply with_alias_ok.
Qed.

Lemma add_row_listed rows k b : listed (add_row ns v a rows) k b ↔ listed rows k b ∨ k = (ns, v) ∧ b = a.
Proof.
  unfold listed. induction rows as [|r rows IH]; cbn [add_row].
  - split.
    + intros (r & [->|[]%not_elem_of_nil]%elem_of_cons & Hk & Hb). rewrite with_alias_key in Hk.
      apply with_alias_in in Hb as [[]%not_elem_of_nil| ->]. by right.
    + intros [(r & []%not_elem_of_nil & _)|[-> ->]]. eexists. split; [by left|]. rewrite with_alias_key.
      split; [done|]. apply with_alias_in. by right.
  - destruct (is_key ns v r) eqn:E.
    + apply is_key_spec in E. split.
      * intros (s & [->|Hs]%elem_of_cons & Hk & Hb).
        -- rewrite with_alias_key in Hk. apply with_alias_in in Hb as [Hb| ->]; [left; exists r; split; [by left|done]|right; by rewrite <- Hk, E].
        -- left. exists s. split; [by right|done].
      * intros [(s & [->|Hs]%elem_of_cons & Hk & Hb)|[-> ->]].
        -- exists (with_alias a r). split; [by left|]. rewrite with_alias_key. split; [done|]. apply with_alias_in. by left.
        -- exists s. split; [by right|done].
        -- exists (with_alias a r). split; [by left|]. rewrite with_alias_key. split; [done|]. apply with_alias_in. by right.
    + split.
      * intros (s & [->|Hs]%elem_of_cons & Hk & Hb); [left; exists r; split; [by left|done]|].
        destruct (proj1 IH) as [(t & Ht & H)|H]; [by exists s|left; exists t; split; [by right|done]|by right].
      * intros [(s & [->|Hs]%elem_of_cons & Hk & Hb)|H].
        -- exists r. split; [by left|done].
        -- destruct (proj2 IH) as (t & Ht & H); [left; by exists s|]. exists t. split; [by right|done].
        -- destruct (proj2 IH) as (t & Ht & H'); [by right|]. exists t. split; [by right|done].
Qed.
End add.

(** A declaration of an enum: no maximum. *)
Definition declares (decls : values) (ns path name : string) (k : string * Z) (b : alias) : Prop :=
  ∃ s v, (s, v) ∈ decls ∧ endswith s "_MAX" = false ∧ k = (ns, v) ∧ b = Alias s path name.

(** The invariant of the rows while they are collected. *)
Definition rows_ok (rows : list row) : Prop := NoDup (key <$> rows) ∧ Forall row_ok rows.

Lemma add_enum_spec ns path name decls : ∀ rows, rows_ok rows →
  rows_ok (add_enum ns path name rows decls) ∧
  ∀ k b, listed (add_enum ns path name rows decls) k b ↔ listed rows k b ∨ declares decls ns path name k b.
Proof.
  unfold add_enum, declares. induction decls as [|[s v] decls IH]; intros rows [H1 H2]; cbn [foldl fst snd].
  - split; [done|]. intros k b. split; [by left|]. intros [H|(? & ? & []%not_elem_of_nil & _)]. done.
  - set (rows' := if endswith s "_MAX" then rows else add_row ns v (Alias s path name) rows).
    assert (rows_ok rows' ∧ ∀ k b, listed rows' k b ↔ listed rows k b ∨ endswith s "_MAX" = false ∧ k = (ns, v) ∧ b = Alias s path name)
      as [Hok Hl].
    { unfold rows'. destruct (endswith s "_MAX"); [split; [done|]; naive_solver|]. split.
      - split; [by apply add_row_keys|by apply add_row_ok].
      - intros k b. rewrite add_row_listed. naive_solver. }
    destruct (IH rows' Hok) as [IH1 IH2]. split; [done|]. intros k b. rewrite IH2, Hl. split.
    + intros [[H|(Hm & -> & ->)]|(s' & v' & Hin & H)]; [by left|right; exists s, v; split; [by left|done]|right; exists s', v'; split; [by right|done]].
    + intros [H|(s' & v' & [[= -> ->]|Hin]%elem_of_cons & H)]; [by left; left|left; by right|right; by exists s', v'].
Qed.

Section outcome.
Context (read_text : string → res string) (digest : list (Z * list alias) → string).

(** A key and an alias that the headers of the groups declare. *)
Definition declared_in (groups : list (string * string * string)) (k : string * Z) (b : alias) : Prop :=
  ∃ ns path name text decls, (ns, path, name) ∈ groups ∧ read_text path = Ok text ∧
    enum_entries text name path = Ok decls ∧ declares decls ns path name k b.

Lemma collect_spec groups : ∀ rows rows', rows_ok rows → collect read_text rows groups = Ok rows' →
  rows_ok rows' ∧ ∀ k b, listed rows' k b ↔ listed rows k b ∨ declared_in groups k b.
Proof.
  induction groups as [|[[ns path] name] groups IH]; intros rows rows' Hok; cbn [collect].
  - intros [= <-]. split; [done|]. intros k b. split; [by left|]. intros [H|(? & ? & ? & ? & ? & []%not_elem_of_nil & _)]. done.
  - destruct (read_text path) as [text|] eqn:Et; [|done]. cbn [mbind res_bind].
    destruct (enum_entries text name path) as [decls|] eqn:Ed; [|done]. cbn [mbind res_bind]. intros H.
    destruct (add_enum_spec ns path name decls rows Hok) as [Hok1 Hl1]. destruct (IH _ _ Hok1 H) as [Hok' Hl']. split; [done|].
    intros k b. rewrite Hl', Hl1. split.
    + intros [[Hb|Hb]|(ns' & path' & name' & text' & decls' & Hg & Hr)]; [by left| |].
      * right. exists ns, path, name, text, decls. split; [by left|done].
      * right. exists ns', path', name', text', decls'. split; [by right|done].
    + intros [Hb|(ns' & path' & name' & text' & decls' & [[= -> -> ->]|Hg]%elem_of_cons & Hr & He & Hd)]; [by left; left| |].
      * left. right. rewrite Et in Hr. injection Hr as <-. rewrite Ed in He. by injection He as <-.
      * right. by exists ns', path', name', text', decls'.
Qed.

Lemma reviewed_key f r : key (reviewed f r) = key r.
Proof. unfold reviewed. by case_bool_decide. Qed.
Lemma reviewed_aliases f r : row_aliases (reviewed f r) = row_aliases r.
Proof. unfold reviewed. by case_bool_decide. Qed.

Lemma keys_of_map (f : row → row) (l : list row) : (∀ r, key (f r) = key r) → key <$> (f <$> l) = key <$> l.
Proof. intros H. rewrite <- list_fmap_compose. apply list_fmap_ext. intros i r _. apply H. Qed.

(** The rows of the inventory, through the sorting and the review. *)
Lemma entries_rows groups rows :
  entries read_text digest groups = Ok rows →
  ∃ pre, rows_ok pre ∧ (∀ k b, listed pre k b ↔ declared_in groups k b) ∧
    rows = reviewed (declaration_fingerprints digest (sorted_row <$> pre)) <$> sort_by row_le (sorted_row <$> pre).
Proof.
  unfold entries. destruct (collect read_text [] groups) as [pre|] eqn:E; [|done]. cbn [mbind res_bind]. intros [= <-].
  apply collect_spec in E as [Hok Hl]; [|split; constructor]. exists pre. split; [done|]. split; [|done].
  intros k b. rewrite Hl. split; [|by right]. intros [(? & []%not_elem_of_nil & _)|H]. done.
Qed.

Lemma rows_sorted f (l : list row) : NoDup (key <$> l) →
  NoDup (key <$> (reviewed f <$> sort_by row_le l)) ∧ Sorted row_order (reviewed f <$> sort_by row_le l) ∧
  sort_by row_le (reviewed f <$> sort_by row_le l) = reviewed f <$> sort_by row_le l.
Proof.
  intros Hnd. assert (NoDup (key <$> (reviewed f <$> sort_by row_le l))) as H1.
  { rewrite keys_of_map by apply reviewed_key. by rewrite sort_rows_perm. }
  assert (Sorted row_order (reviewed f <$> sort_by row_le l)) as H2.
  { pose proof (sort_rows_sorted l) as H. clear H1. induction H as [|r l' H IH Hh]; cbn [fmap list_fmap]; [constructor|].
    constructor; [done|]. inversion Hh as [|s l'' Hrs]; subst; cbn [fmap list_fmap]; constructor.
    apply row_le_iff in Hrs. apply row_le_iff. pose proof (reviewed_key f r) as Kr. pose proof (reviewed_key f s) as Ks.
    unfold key in Kr, Ks. injection Kr as -> ->. injection Ks as -> ->. done. }
  split; [done|]. split; [done|]. by apply sort_of_sorted.
Qed.

(** C30: the inventory has one row for each command number of a namespace, in order;
    its rows list exactly the declarations of the headers, each once, but for the
    maxima; and a row keeps the classification of the reviewed tables, or is
    marked as unreviewed. *)
Theorem inventory_exact groups rows :
  entries read_text digest groups = Ok rows →
  NoDup (key <$> rows) ∧ Sorted row_order rows ∧
  (∀ k b, listed rows k b ↔ declared_in groups k b) ∧
  Forall (λ r, row_aliases r ≠ [] ∧ NoDup (row_aliases r) ∧
    (row_classification r = classify (row_namespace r) (row_opcode r) ∨
     row_classification r = "unreviewed" ∧ row_basis r = "source-inventory-drift")) rows.
Proof.
  intros (pre & [Hnd Hok] & Hl & ->)%entries_rows.
  set (f := declaration_fingerprints digest _).
  assert (NoDup (key <$> (sorted_row <$> pre))) as Hnd' by by rewrite keys_of_map.
  destruct (rows_sorted f _ Hnd') as (H1 & H2 & _). split; [done|]. split; [done|]. split.
  - intros k b. rewrite <- Hl. unfold listed. split.
    + intros (r & (s & -> & Hs)%list_elem_of_fmap & Hk & Hb). rewrite sort_rows_perm in Hs.
      apply list_elem_of_fmap in Hs as (t & -> & Ht). rewrite reviewed_key in Hk. rewrite reviewed_aliases in Hb.
      exists t. split; [done|]. split; [done|]. cbn in Hb. unfold sort_by in Hb. by rewrite merge_sort_Permutation in Hb.
    + intros (r & Hr & Hk & Hb). exists (reviewed f (sorted_row r)). split.
      * apply list_elem_of_fmap. exists (sorted_row r). split; [done|]. rewrite sort_rows_perm. apply list_elem_of_fmap. by exists r.
      * rewrite reviewed_key, reviewed_aliases. split; [done|]. cbn. unfold sort_by. by rewrite merge_sort_Permutation.
  - apply Forall_fmap. rewrite sort_rows_perm. apply Forall_fmap. eapply Forall_impl; [exact Hok|].
    intros r (Ha & Hn & _ & Hc & _). cbn [compose]. rewrite !reviewed_aliases. cbn [row_aliases sorted_row].
    assert (sort_by alias_le (row_aliases r) ≡ₚ row_aliases r) as Hp by apply merge_sort_Permutation. split.
    { intros E. rewrite E in Hp. by apply Permutation_nil in Hp. }
    split; [by rewrite Hp|]. unfold reviewed. case_bool_decide; [by left|by right].
Qed.
End outcome.

(** ** The check *)

Section check.
Context (digest : list (Z * list alias) → string).

Lemma dget_map_pairs {V} (f : string → V) l k : dget ((λ n, (n, f n)) <$> l) k = if decide (k ∈ l) then Some (f k) else None.
Proof.
  induction l as [|n l IH]; cbn [fmap list_fmap dget]; [by rewrite decide_False by apply not_elem_of_nil|].
  destruct (String.eqb_spec k n) as [->|Hne]; [by rewrite decide_True by by left|]. change (dget (list_fmap _ _ (λ n0, (n0, f n0)) l) k) with (dget ((λ n0, (n0, f n0)) <$> l) k). rewrite IH.
  destruct (decide (k ∈ l)) as [H|H]; [by rewrite decide_True by by right|].
  rewrite decide_False; [done|]. by intros [?|?]%elem_of_cons.
Qed.

Lemma in_namespaces rows ns : ns ∈ namespaces rows ↔ ns ∈ row_namespace <$> rows.
Proof. unfold namespaces. by rewrite py_sorted_perm, elem_of_remove_dups. Qed.

Lemma fingerprint_of rows ns :
  dget (declaration_fingerprints digest rows) ns =
  if decide (ns ∈ row_namespace <$> rows) then Some (digest (declared rows ns)) else None.
Proof.
  unfold declaration_fingerprints. rewrite dget_map_pairs.
  destruct (decide (ns ∈ namespaces rows)) as [H|H]; rewrite in_namespaces in H; [by rewrite decide_True|by rewrite decide_False].
Qed.

Lemma declared_absent rows ns : ns ∉ row_namespace <$> rows → declared rows ns = [].
Proof.
  intros H. unfold declared. destruct (List.filter _ (sort_by row_le rows)) as [|r l] eqn:E; [done|].
  assert (r ∈ r :: l) as Hr by by left. rewrite <- E in Hr. apply list_elem_of_In, List.filter_In in Hr as [Hr Hn].
  apply list_elem_of_In in Hr. rewrite sort_rows_perm in Hr. apply String.eqb_eq in Hn. destruct H. apply list_elem_of_fmap. by exists r.
Qed.

Lemma same_dict_spec d d' : same_dict d d' = true → ∀ k, dget d k = dget d' k.
Proof.
  unfold same_dict. rewrite List.forallb_forall. intros H k.
  destruct (decide (k ∈ keys d ++ keys d')) as [Hk|Hk].
  - apply list_elem_of_In in Hk. by apply H, bool_decide_eq_true in Hk.
  - rewrite not_elem_of_app in Hk. destruct Hk as [H1%dget_None_keys H2%dget_None_keys]. congruence.
Qed.

(** The review does not change what is digested. *)
Lemma reviewed_declared f (l : list row) ns :
  NoDup (key <$> l) → declared (reviewed f <$> sort_by row_le l) ns = declared l ns.
Proof.
  intros Hnd. unfold declared. destruct (rows_sorted f l Hnd) as (_ & _ & ->).
  induction (sort_by row_le l) as [|r l' IH]; [done|]. cbn [fmap list_fmap List.filter].
  assert (row_namespace (reviewed f r) = row_namespace r ∧ row_opcode (reviewed f r) = row_opcode r) as [-> Ho]
    by (pose proof (reviewed_key f r) as K; unfold key in K; by injection K).
  destruct (String.eqb (row_namespace r) ns); [|exact IH]. cbn [fmap list_fmap]. rewrite Ho, reviewed_aliases. f_equal. exact IH.
Qed.

Lemma reviewed_namespaces f (l : list row) ns :
  ns ∈ row_namespace <$> (reviewed f <$> sort_by row_le l) ↔ ns ∈ row_namespace <$> l.
Proof.
  rewrite <- list_fmap_compose. assert (row_namespace ∘ reviewed f <$> sort_by row_le l = row_namespace <$> sort_by row_le l) as ->.
  { apply list_fmap_ext. intros i r _. pose proof (reviewed_key f r) as K. unfold key in K. by injection K. }
  by rewrite sort_rows_perm.
Qed.

(** The fingerprints of a run that passes are the reviewed ones. *)
Lemma check_fingerprints read_text rows ns :
  main read_text digest true = Ok (rows, 0) →
  dget (declaration_fingerprints digest rows) ns = dget REVIEWED_DECLARATIONS ns.
Proof.
  unfold main. destruct (entries read_text digest GROUPS) as [r|]; [|done]. cbn [mbind res_bind andb].
  destruct (same_dict _ _) eqn:E; [|done]. cbn [negb]. intros [= <-]. by apply same_dict_spec.
Qed.

(** C29: the check is closed: when it ends with status 0 no row is marked as
    unreviewed, and every namespace of the review is there with its digest and no
    other; two source trees that pass it declare the same commands with the same
    aliases, unless the digest of two of their inventories collides. *)
Theorem check_closed read_text rows :
  main read_text digest true = Ok (rows, 0) →
  Forall (λ r, row_classification r = classify (row_namespace r) (row_opcode r)) rows ∧
  (∀ ns, ns ∈ row_namespace <$> rows ↔ ns ∈ keys REVIEWED_DECLARATIONS) ∧
  ∀ read_text' rows', main read_text' digest true = Ok (rows', 0) →
    (∀ ns, digest (declared rows ns) = digest (declared rows' ns) → declared rows ns = declared rows' ns) →
    ∀ ns, declared rows ns = declared rows' ns.
Proof.
  intros H. pose proof (λ ns, check_fingerprints _ _ ns H) as Hf.
  assert (∀ ns rows, dget (declaration_fingerprints digest rows) ns = dget REVIEWED_DECLARATIONS ns →
    ns ∈ row_namespace <$> rows ↔ ns ∈ keys REVIEWED_DECLARATIONS) as Hns.
  { intros ns rows' E. rewrite <- dget_is_Some_keys, <- E, fingerprint_of.
    destruct (decide (ns ∈ row_namespace <$> rows')) as [Hin|Hin]; split; [by eexists|done|done|by intros []]. }
  split; [|split].
  - unfold main in H. destruct (entries read_text digest GROUPS) as [r|] eqn:E; [|done]. cbn [mbind res_bind] in H.
    injection H as -> _. apply entries_rows in E as (pre & [Hnd Hok] & _ & Erows).
    assert (NoDup (key <$> (sorted_row <$> pre))) as Hnd' by by rewrite keys_of_map.
    apply Forall_forall. intros r Hr. pose proof Hr as Hr'. rewrite Erows in Hr'. apply list_elem_of_fmap in Hr' as (s & Es & Hs).
    rewrite sort_rows_perm in Hs. pose proof Hs as Hs'. apply list_elem_of_fmap in Hs' as (t & -> & Ht).
    rewrite Forall_forall in Hok. destruct (Hok _ Ht) as (_ & _ & _ & Hc & _).
    rewrite Es. unfold reviewed. rewrite bool_decide_eq_true_2; [done|]. rewrite <- (Hf (row_namespace (sorted_row t))), Erows.
    rewrite !fingerprint_of, reviewed_declared by done.
    assert (row_namespace (sorted_row t) ∈ row_namespace <$> (sorted_row <$> pre)) as Hin
      by (apply list_elem_of_fmap; by eexists).
    rewrite decide_True by done. rewrite decide_True by by apply reviewed_namespaces. done.
  - intros ns. apply Hns, Hf.
  - intros read_text' rows' H' Hcol ns. pose proof (check_fingerprints _ _ ns H') as Hf'.
    destruct (decide (ns ∈ keys REVIEWED_DECLARATIONS)) as [Hin|Hin].
    + apply Hcol. specialize (Hf ns). rewrite <- Hf' in Hf. pose proof (proj2 (Hns ns rows' Hf') Hin) as I2.
      pose proof (proj2 (Hns ns rows (eq_trans Hf Hf')) Hin) as I1. rewrite !fingerprint_of in Hf.
      rewrite decide_True in Hf by done. rewrite decide_True in Hf by done. by injection Hf.
    + rewrite !declared_absent; [done| |].
      * intros I. by apply (Hns ns rows' Hf') in I.
      * intros I. by apply (Hns ns rows (Hf ns)) in I.
Qed.
End check.

(** ** A concrete source tree *)

Definition sample_enum (name body : string) : string := "enum " +:+ name +:+ " { " +:+ body +:+ " };".

Definition sample_tree (remark path : string) : res string :=
  if String.eqb path "oe66/include/ub/ubase/ubase_comm_cmd.h" then
    Ok (remark +:+ sample_enum "ubase_opcode_type" "U_A = 0x1, U_B = (1U << 4) | 2, U_C, U_MAX")
  else if String.eqb path UDMA then
    Ok (sample_enum "udma_cmd_opcode_type" "U_D = OTHER_HEADER + 1")
  else if String.eqb path "oe66/include/ub/ubase/ubase_comm_mbx.h" then Ok (sample_enum "ubase_mbox_opcode" "M_A = 4")
  else Err (Exn FileNotFoundError "{path}" [PS path]).

(** A macro of another header ends the audit. *)
Example unknown_macro :
  match enum_entries match sample_tree EmptyString UDMA with Ok t => t | Err _ => EmptyString end "udma_cmd_opcode_type" UDMA with
  | Err e => exn_fmt e
  | Ok _ => EmptyString
  end = "{source}: {symbol}: {error}".
Proof. vm_compute. reflexivity. Qed.

Definition full_tree (remark path : string) : res string :=
  if String.eqb path UDMA then
    Ok (sample_enum "udma_cmd_opcode_type" "U_D = 0x4213" +:+ "enum { M_B = 9, };" +:+
        sample_enum "udma_ctrlq_dev_mgmt_opcode" "D_A = 0x15")
  else if String.eqb path "oe66/drivers/ub/urma/hw/udma/udma_ctrlq_tp.h" then
    Ok (sample_enum "udma_ctrlq_cmd_code_type" "T_A = 0x13" +:+ sample_enum "udma_ctrlq_ubmem_opcode" "B_A")
  else if String.eqb path CTRLQ then
    Ok (sample_enum "ubase_ctrlq_opc_type_tp" "T_B = 0x13" +:+ sample_enum "ubase_ctrlq_opc_type_dev_register" "D_B = 1" +:+
        sample_enum "ubase_ctrlq_opc_type_qos" "Q_A = 1" +:+ sample_enum "ubase_ctrlq_opc_type_ip" "I_A = 7")
  else sample_tree remark path.

(** A digest that knows the namespaces of this tree by the first letter of a symbol. *)
Definition sample_digest (l : list (Z * list alias)) : string :=
  match l with
  | (_, a :: _) :: _ =>
      default EmptyString (dget REVIEWED_DECLARATIONS
        match al_symbol a with
        | String "U" _ => "ubase" | String "M" _ => "mailbox" | String "T" _ => "ctrlq-tp"
        | String "D" _ => "ctrlq-device" | String "Q" _ => "ctrlq-qos" | String "I" _ => "ctrlq-ip" | _ => "ctrlq-ubmem"
        end)
  | _ => EmptyString
  end.

Definition sample_rows (remark : string) : list row :=
  match main (full_tree remark) sample_digest true with Ok (rows, _) => rows | Err _ => [] end.

Lemma inventory_exact_witness :
  NoDup (key <$> sample_rows EmptyString) ∧
  (listed (sample_rows EmptyString) ("ctrlq-tp", 19) (Alias "T_B" CTRLQ "ubase_ctrlq_opc_type_tp") ↔
   declared_in (full_tree EmptyString) GROUPS ("ctrlq-tp", 19) (Alias "T_B" CTRLQ "ubase_ctrlq_opc_type_tp")).
Proof.
  assert (entries (full_tree EmptyString) sample_digest GROUPS = Ok (sample_rows EmptyString)) as H by (vm_compute; reflexivity).
  destruct (inventory_exact (full_tree EmptyString) sample_digest GROUPS (sample_rows EmptyString) H) as (H1 & _ & H2 & _).
  split; [exact H1|apply H2].
Defined.

Definition sample_remark : string := "/* 2026 */ // enum x { }" +:+ String "010" EmptyString.

Lemma check_closed_witness :
  declared (sample_rows EmptyString) "ctrlq-tp" = declared (sample_rows sample_remark) "ctrlq-tp".
Proof.
  assert (main (full_tree EmptyString) sample_digest true = Ok (sample_rows EmptyString, 0)) as H by (vm_compute; reflexivity).
  assert (main (full_tree sample_remark) sample_digest true = Ok (sample_rows sample_remark, 0)) as H'
    by (vm_compute; reflexivity).
  refine (proj2 (proj2 (check_closed sample_digest _ _ H)) _ _ H' _ "ctrlq-tp"). intros ns _.
  assert (sample_rows sample_remark = sample_rows EmptyString) as E by (vm_compute; reflexivity). rewrite E. reflexivity.
Defined.
