(* ===== verification/ReadCurve.v ===== *)
(** * Simulated READs against the physical curve ([tools/compare_read_curve.py])

    Two tables of bandwidth and message rate over message sizes, compared in
    binary64 arithmetic.  Reading a decimal as a float and printing one are the
    language's ([to_float], [fixed]). *)

From Stdlib Require Import ZArith Lia SpecFloat.
From stdpp Require Import base strings numbers option list sorting.
From S2P Require Import Prelude PyStr Json.

Open Scope string_scope.
Open Scope list_scope.
Open Scope Z_scope.

(** ** Floats *)

Abbreviation float := spec_float.
Abbreviation fsub := (SFsub 53 1024).
Abbreviation fmul := (SFmul 53 1024).

(** [a / b] raises on a zero divisor. *)
Definition fdiv (a b : float) : res float :=
  match b with
  | S754_zero _ => Err (Exn ZeroDivisionError "division by zero" [])
  | _ => Ok (SFdiv 53 1024 a b)
  end.

(** The float of an integer of at most 53 bits. *)
Definition float_of_Z (z : Z) : float := binary_normalize 53 1024 z 0 false.

(** [abs(predicted / actual - 1) * 100]. *)
Definition error_pct (predicted actual : float) : res float :=
  q ← fdiv predicted actual;
  Ok (fmul (SFabs (fsub q (float_of_Z 1))) (float_of_Z 100)).

(** ** Tables *)

(** What the comparison keeps of a row. *)
Record point := Point {
  average_mib_s : float;
  message_rate_mpps : float
}.

(** A row of [csv.DictReader]: a short row has [None] in its last columns. *)
Abbreviation csv_row := (list (string * option string)).

Definition cell (row : csv_row) (column : string) : res string :=
  c ← or_raise (dget row column) (Exn KeyError "{column}" [PS column]);
  or_raise c (Exn TypeError "not a string" []).

(** [rows.get(size)] of a dictionary of sizes, in insertion order. *)
Fixpoint at_size (rows : list (Z * point)) (size : Z) : option point :=
  match rows with
  | [] => None
  | (s, p) :: rows' => if s =? size then Some p else at_size rows' size
  end.

Section compare.
Context (to_float : string → res float) (fixed : nat → float → string).

Definition load_row (rows : list (Z * point)) (row : csv_row) : res (list (Z * point)) :=
  t ← cell row "size_bytes";
  size ← int_of_str t;
  raise Exn ValueError "duplicate size {size} in {path}" [PZ size] when elemb size rows.*1 ;;
  b ← cell row "average_mib_s"; bandwidth ← to_float b;
  r ← cell row "message_rate_mpps"; rate ← to_float r;
  Ok (rows ++ [(size, Point bandwidth rate)]).

(** A table that opens, and its rows. *)
Definition load_rows (table : res (list csv_row)) : res (list (Z * point)) :=
  rows ← table; foldM load_row [] rows.

(** ** The comparison *)

(** One printed line. *)
Record line := Line {
  l_size : Z;
  l_actual : point;
  l_predicted : point;
  l_bw_error : float;
  l_rate_error : float;
  l_within : bool
}.

Definition compare_size (physical simulated : list (Z * point)) (size : Z) : res line :=
  actual ← or_raise (at_size physical size) (Exn KeyError "{size}" [PZ size]);
  predicted ← or_raise (at_size simulated size) (Exn KeyError "{size}" [PZ size]);
  bw_error ← error_pct (average_mib_s predicted) (average_mib_s actual);
  rate_error ← error_pct (message_rate_mpps predicted) (message_rate_mpps actual);
  Ok (Line size actual predicted bw_error rate_error
        (SFleb bw_error (float_of_Z 20) && SFleb rate_error (float_of_Z 20))).

Definition print_line (l : line) : string :=
  join ","
    [str_of_Z (l_size l); fixed 6 (average_mib_s (l_actual l)); fixed 6 (average_mib_s (l_predicted l));
     fixed 3 (l_bw_error l); fixed 6 (message_rate_mpps (l_actual l)); fixed 6 (message_rate_mpps (l_predicted l));
     fixed 3 (l_rate_error l); if l_within l then "1" else "0"].

Definition header : string :=
  "size_bytes,physical_mib_s,simulated_mib_s,bandwidth_error_pct,physical_mpps,simulated_mpps,rate_error_pct,within_20_pct".

(** [# passing_sizes=a/b physical_coverage=c/d]. *)
Definition verdict (passed simulated physical : Z) : string :=
  "# passing_sizes=" +:+ str_of_Z passed +:+ "/" +:+ str_of_Z simulated +:+
  " physical_coverage=" +:+ str_of_Z simulated +:+ "/" +:+ str_of_Z physical.

Definition passed (ls : list line) : Z := len (List.filter l_within ls).

(** The loop: every line is printed as it is computed. *)
Fixpoint compare_sizes (physical simulated : list (Z * point)) (sizes : list Z) : io string (list line) :=
  match sizes with
  | [] => io_ret []
  | size :: sizes' =>
      l <- lift (compare_size physical simulated size) ;
      emit (print_line l) ;;;
      ls <- compare_sizes physical simulated sizes' ;
      io_ret (l :: ls)
  end.

Definition main (physical_table simulated_table : res (list csv_row)) : io string unit :=
  physical <- lift (load_rows physical_table) ;
  simulated <- lift (load_rows simulated_table) ;
  _ <- lift (raise Exn ValueError "simulated CSV has no rows" [] when bool_decide (simulated = []) ;;
             raise Exn ValueError "sizes absent from physical data: {sorted(unknown)}" []
               when existsb (λ s, negb (elemb s physical.*1)) simulated.*1 ;; Ok tt) ;
  emit header ;;;
  ls <- compare_sizes physical simulated (merge_sort Z.le simulated.*1) ;
  emit (verdict (passed ls) (len simulated) (len physical)).

(** ** What is printed *)

Lemma load_row_sizes rows row rows' : load_row rows row = Ok rows' → NoDup rows.*1 → NoDup rows'.*1.
Proof using Type.
  unfold load_row. intros H Hd. py_inv. bool_inv. rewrite fmap_app. apply NoDup_app. cbn.
  split_and!; [done| |apply NoDup_singleton]. intros s Hs ->%list_elem_of_singleton. done.
Qed.

(** A table names each of its sizes once. *)
Lemma load_rows_sizes table rows : load_rows table = Ok rows → NoDup rows.*1.
Proof using Type.
  unfold load_rows, foldM. intros H. py_inv.
  refine (foldMi_inv (λ _ rows, NoDup rows.*1) (λ _, load_row) [] _ _ _ _ H); [constructor|].
  intros pre b post a1 a2 _ Hd Hr. by eapply load_row_sizes.
Qed.

Lemma compare_sizes_spec physical simulated sizes :
  adds (λ out r, ∃ ls, out = print_line <$> ls ∧
          Forall2 (λ s l, compare_size physical simulated s = Ok l) (take (length ls) sizes) ls ∧
          match r with
          | Ok ls' => ls' = ls ∧ length ls = length sizes
          | Err e => ∃ s, sizes !! length ls = Some s ∧ compare_size physical simulated s = Err e
          end)
    (compare_sizes physical simulated sizes).
Proof using Type.
  induction sizes as [|s sizes IH]; cbn [compare_sizes].
  { apply adds_ret. exists []. by repeat constructor. }
  intros out. unfold io_bind, lift, emit, io_ret.
  destruct (compare_size physical simulated s) as [l|e] eqn:E.
  - destruct (IH (out ++ [print_line l])) as (out' & H1 & ls & -> & H2 & H3).
    destruct (compare_sizes _ _ _ _) as [o [ls'|e]]; cbn in *; subst o; eexists (print_line l :: (print_line <$> ls)).
    + destruct H3 as [-> H3]. split; [by rewrite <- app_assoc|]. exists (l :: ls). cbn. split_and!; auto.
    + split; [by rewrite <- app_assoc|]. exists (l :: ls). cbn. split_and!; auto.
  - exists []. cbn. split; [by rewrite app_nil_r|]. exists []. cbn. split_and!; [done|constructor|by exists s].
Qed.

(** A comparison that ends printed one line for every simulated size, in
    ascending order, each computed from the two rows of that size; the last line
    counts those within 20 per cent. *)
Theorem comparison_complete physical_table simulated_table out :
  main physical_table simulated_table [] = (out, Ok tt) →
  ∃ physical simulated ls,
    load_rows physical_table = Ok physical ∧ load_rows simulated_table = Ok simulated ∧
    simulated ≠ [] ∧ simulated.*1 ⊆ physical.*1 ∧
    out = header :: (print_line <$> ls) ++ [verdict (passed ls) (len simulated) (len physical)] ∧
    NoDup (l_size <$> ls) ∧ StronglySorted Z.le (l_size <$> ls) ∧ l_size <$> ls ≡ₚ simulated.*1 ∧
    Forall (λ l, compare_size physical simulated (l_size l) = Ok l) ls.
Proof using Type.
  unfold main, io_bind, lift, emit.
  destruct (load_rows physical_table) as [physical|e] eqn:Ep; [|discriminate].
  destruct (load_rows simulated_table) as [simulated|e] eqn:Es; [|discriminate].
  destruct (bool_decide (simulated = [])) eqn:E1; [discriminate|].
  destruct (existsb _ _) eqn:E2; [discriminate|]. cbn [app].
  destruct (compare_sizes_spec physical simulated (merge_sort Z.le simulated.*1) [header]) as (o & H1 & ls & -> & H2 & H3).
  destruct (compare_sizes _ _ _ _) as [o' [ls'|e]]; cbn in H1, H3; subst o'; [|discriminate].
  destruct H3 as [-> H3]. intros [= <-]. rewrite H3, take_ge in H2 by done.
  assert (l_size <$> ls = merge_sort Z.le simulated.*1) as Hl.
  { clear -H2. induction H2 as [|s l ss ls H _ IH]; [done|]. cbn. f_equal; [|exact IH].
    unfold compare_size in H. py_inv. done. }
  exists physical, simulated, ls. bool_inv. split_and!; try done.
  - intros s Hs. destruct (elemb s physical.*1) eqn:E; [by apply elemb_true|].
    exfalso. apply not_true_iff_false in E2. apply E2, existsb_exists. exists s.
    split; [by apply list_elem_of_In|by rewrite E].
  - rewrite Hl, merge_sort_Permutation. by eapply load_rows_sizes.
  - rewrite Hl. apply StronglySorted_merge_sort; apply _.
  - by rewrite Hl, merge_sort_Permutation.
  - rewrite <- Hl in H2. clear -H2. induction ls as [|l ls IH]; [constructor|]. inversion H2; subst. constructor; auto.
Qed.
End compare.

(** 95 of 100 MiB/s is within 20 per cent, 79 is not. *)
Example within_ninety_five :
  let table b : res (list csv_row) := Ok [[("size_bytes", Some "2"); ("average_mib_s", Some b); ("message_rate_mpps", Some "1")]] in
  let to_float s := float_of_Z <$> int_of_str s in
  let within b := last (main to_float (λ _ _, "f") (table "100") (table b) []).1 in
  within "95" = Some "# passing_sizes=1/1 physical_coverage=1/1" ∧
  within "79" = Some "# passing_sizes=0/1 physical_coverage=1/1".
Proof. vm_compute. by split. Qed.
