(* ===== verification/Evidence.v ===== *)
(** * Evidence cards ([tools/render-run-evidence.py])

    Three pictures drawn from the preserved logs: each card asserts that its
    evidence is in the logs before anything is drawn, and nothing is saved before
    all three are drawn.  Drawing is a list of primitive operations; the width of
    a text in a font is a parameter, and the texts are kept in their UTF-8 bytes. *)

From Stdlib Require Import ZArith Lia Ascii.
From stdpp Require Import base strings numbers option list.
From S2P Require Import Prelude PyStr.

Open Scope string_scope.
Open Scope list_scope.
Open Scope Z_scope.

(** ** The console's text *)

(** [\x1b\[[0-9;?]*[ -/]*[@-~]] at the head of [s]: what follows it. *)
Definition control_sequence (s : string) : option string :=
  r ← strip_prefix (String "027" "[") s;
  let parameters := (span (λ c, is_digit c || (code c =? 59) || (code c =? 63)) r).2 in
  match (span (λ c, (32 <=? code c) && (code c <=? 47)) parameters).2 with
  | String c rest => if (64 <=? code c) && (code c <=? 126) then Some rest else None
  | EmptyString => None
  end.

(** [re.sub] by the empty string; every turn consumes a character. *)
Fixpoint drop_sequences (fuel : nat) (s : string) : string :=
  match fuel with
  | O => s
  | S fuel => match control_sequence s with
              | Some rest => drop_sequences fuel rest
              | None => match s with String c s' => String c (drop_sequences fuel s') | EmptyString => EmptyString end
              end
  end.

Definition clean_uart (s : string) : string :=
  let s := str_filter (λ c, negb (Ascii.eqb c "013")) s in
  drop_sequences (String.length s) s.

(** ** Drawing *)

Definition W : Z := 1920.
Definition H : Z := 1080.
Definition BG : string := "#0b1020".
Definition PANEL : string := "#121a2d".
Definition PANEL_2 : string := "#0e1628".
Definition TEXT : string := "#e6edf7".
Definition MUTED : string := "#8da0bb".
Definition CYAN : string := "#54d6ff".
Definition GREEN : string := "#67e8a5".
Definition YELLOW : string := "#ffd166".
Definition MAGENTA : string := "#c4a7ff".
Definition RED : string := "#ff6b81".
Definition GRID : string := "#26344d".

Record font := Font {
  f_size : Z;
  f_mono : bool
}.
Definition F_TITLE : font := Font 48 false.
Definition F_SUB : font := Font 25 false.
Definition F_MONO : font := Font 25 true.
Definition F_CJK_CODE : font := Font 25 false.
Definition F_LABEL : font := Font 23 false.
Definition F_FOOT : font := Font 19 true.

Abbreviation box := (Z * Z * Z * Z)%type.

Inductive op :=
  | RoundedRectangle (b : box) (radius : Z) (fill : string) (outline : option string)
  | Ellipse (b : box) (fill : string)
  | Line (b : box) (fill : string) (width : Z)
  | Polygon (points : list (Z * Z)) (fill : string)
  | Text (x y : Z) (text : string) (f : font) (fill : string).

Definition card : Type := list op.

(** A character of U+3400 to U+9FFF in a UTF-8 text. *)
Fixpoint has_cjk (s : string) : bool :=
  match s with
  | EmptyString => false
  | String c s' =>
      (code c =? 227) && (match s' with String c' _ => 144 <=? code c' | EmptyString => false end) ||
      (228 <=? code c) && (code c <=? 233) || has_cjk s'
  end.

Section cards.
(** The right end of a text's bounding box; the digest of a file. *)
Context (text_width : string → font → Z) (sha256 : string → string).

Definition base (title subtitle badge : string) : card :=
  let bw := text_width badge F_LABEL + 40 in
  [RoundedRectangle (55, 42, W - 55, H - 48) 26 PANEL (Some GRID);
   Text 92 74 title F_TITLE TEXT;
   Text 94 140 subtitle F_SUB MUTED;
   RoundedRectangle (W - 92 - bw, 76, W - 92, 126) 15 "#17314a" None;
   Text (W - 72 - bw) 87 badge F_LABEL CYAN].

Definition terminal (b : box) (label : string) : card :=
  let '(x1, y1, x2, y2) := b in
  [RoundedRectangle b 18 PANEL_2 (Some GRID)] ++
  imap (λ (i : nat) c, let i := Z.of_nat i in Ellipse (x1 + 24 + i * 28, y1 + 20, x1 + 37 + i * 28, y1 + 33) c)
    [RED; YELLOW; GREEN] ++
  [Text (x1 + 130) (y1 + 14) label F_LABEL MUTED;
   Line (x1, y1 + 54, x2, y1 + 54) GRID 2].

Definition code_lines (x y : Z) (lines : list (string * string)) (gap : Z) : card :=
  imap (λ (idx : nat) (lc : string * string),
    Text x (y + Z.of_nat idx * gap) lc.1 (if has_cjk lc.1 then F_CJK_CODE else F_MONO) lc.2) lines.

Definition footer (source digest : string) : card :=
  [Text 92 (H - 90) ("source: " +:+ source) F_FOOT MUTED;
   Text (W - 900) (H - 90) ("sha256: " +:+ digest) F_FOOT MUTED].

Definition UART : string := "run-dual/node1/system.terminal".
Definition NODE1 : string := "run-dual/node1/gem5.log".
Definition NODE0 : string := "run-dual/node0/gem5.log".

Definition first_chars (n : nat) (s : string) : string := String.substring 0 n s.

(** [assert all(s in log for s in required)]. *)
Definition evident (message : string) (required : list string) (log : string) : res unit :=
  raise Exn AssertionError message [] when negb (forallb (λ s, contains s log) required) ;; Ok tt.

(** ** The three cards *)

Definition command_evidence : list string :=
  ["UBSIM_DIST_SYNC=1 urma_perftest read_lat";
   "URMA_READ Latency Test";
   "128     2           2.78       2.98";
   "__UBSIM_RC_3470_393488758418017__=0";
   "__UBSIM_RC_3470_393558655143923__=0"].

Definition command_lines : list (string * string) :=
  [("(ubsim-node1) ~ # UBSIM_DIST_SYNC=1 urma_perftest read_lat \", CYAN);
   ("  -d bonding_dev_0 --eid_idx 0 --ctp --use_bonding --aggr_mode balance \", CYAN);
   ("  -s 128 -P 21117 -J 1 -I 0 -l 1 -n 8 -p 0 -S 10.0.0.1", CYAN);
   (EmptyString, TEXT);
   ("                    URMA_READ Latency Test", GREEN);
   (" Device name: bonding_dev_0     Transport mode: UB     JETTY mode: DUPLEX", TEXT);
   (" bytes  iterations  t_min  t_max  t_median  t_avg  stdev   99%   99.9%", MUTED);
   (" 128    2           2.78   2.98   2.86      2.88   0.10    2.98  2.98  us", GREEN);
   (" __UBSIM_RC_3470_393488758418017__=0", YELLOW);
   (EmptyString, TEXT);
   ("# 同一实验再次执行（端口 21118）", MAGENTA);
   (" 128    2           2.78   2.98   2.86      2.88   0.10    2.98  2.98  us", GREEN);
   (" __UBSIM_RC_3470_393558655143923__=0", YELLOW)].

Definition render_command_result (uart : string) : res card :=
  _ ← evident "expected UART evidence is missing" command_evidence uart;
  Ok (base "命令执行证据：官方 urma_perftest 完成 READ 时延测试" "真实 UART 记录 · 仅合并了终端自动换行，数值未改写" "EXIT 0 × 2" ++
      terminal (90, 202, W - 90, 930) "ubsim-node1 / PL011 console" ++
      code_lines 124 282 command_lines 43 ++
      footer "run-dual/node1/system.terminal:503-649" (first_chars 24 (sha256 UART))).

Definition resource_evidence : list string :=
  ["Jetty id=1026 sq_iova=0xfffff7edc000 db_off=0x603080";
   "Jetty id=1027 sq_iova=0xfffff7eda000 db_off=0x604080";
   "allocated TP id=5 tpn=5 port=0 source=GET_TP_LIST";
   "allocated TP id=6 tpn=6 port=1 source=GET_TP_LIST";
   "activated TP id=5 tpn=5 count=1 port=0";
   "activated TP id=6 tpn=6 count=1 port=1"].

Definition resource_lines : list (string * string) :=
  [("[NIC udma official] Jetty id=1026", GREEN);
   ("  sq_iova=0xfffff7edc000  db_off=0x603080  seid_idx=0", TEXT);
   ("[NIC udma official] Jetty id=1027", GREEN);
   ("  sq_iova=0xfffff7eda000  db_off=0x604080  seid_idx=1", TEXT);
   (EmptyString, TEXT);
   ("[NIC udma official] allocated TP id=5  tpn=5  port=0  source=GET_TP_LIST", CYAN);
   ("[NIC udma official] activated TP id=5  tpn=5  count=1  port=0", CYAN);
   ("[NIC udma official] allocated TP id=6  tpn=6  port=1  source=GET_TP_LIST", MAGENTA);
   ("[NIC udma official] activated TP id=6  tpn=6  count=1  port=1", MAGENTA);
   (EmptyString, TEXT);
   ("结论：两个 Jetty 使用不同 doorbell，并分别绑定 port 0 / port 1 的 TP。", YELLOW)].

Definition render_resources (node1 : string) : res card :=
  _ ← evident "expected resource evidence is missing" resource_evidence node1;
  Ok (base "设备侧证据：官方资源创建落到两个独立端口" "Jetty / SQ doorbell / TP 均来自本次真实 gem5 设备日志" "PORT 0 + PORT 1" ++
      terminal (90, 202, W - 90, 860) "node1 / gem5.log / official UDMA device model" ++
      code_lines 124 286 resource_lines 45 ++
      [RoundedRectangle (90, 886, W - 90, 955) 14 "#10253a" None;
       Text 122 903 "证据链：用户态命令 → 官方 provider/内核驱动 → SQ doorbell → TP 资源" F_LABEL CYAN] ++
      footer "run-dual/node1/gem5.log:3852-3921" (first_chars 24 (sha256 NODE1))).

Definition request_evidence : list string :=
  ["seq=16 src_port=1 dst_port=1 tpn=6 op=0x84 len=128";
   "seq=17 src_port=0 dst_port=0 tpn=5 op=0x84 len=128";
   "seq=18 src_port=1 dst_port=1 tpn=6 op=0x84 len=128";
   "seq=19 src_port=0 dst_port=0 tpn=5 op=0x84 len=128"].
Definition response_evidence : list string :=
  ["seq=16 src_port=1 dst_port=1 tpn=4294967295 op=0x85 len=128";
   "seq=17 src_port=0 dst_port=0 tpn=4294967295 op=0x85 len=128";
   "seq=18 src_port=1 dst_port=1 tpn=4294967295 op=0x85 len=128";
   "seq=19 src_port=0 dst_port=0 tpn=4294967295 op=0x85 len=128"].

Definition left_lines : list (string * string) :=
  [("SQ doorbell jetty=1027", MUTED);
   ("seq=16  port 1 -> 1  tpn=6", MAGENTA);
   ("op=0x84  len=128", TEXT);
   (EmptyString, TEXT);
   ("SQ doorbell jetty=1026", MUTED);
   ("seq=17  port 0 -> 0  tpn=5", CYAN);
   ("op=0x84  len=128", TEXT);
   (EmptyString, TEXT);
   ("seq=18  port 1 -> 1  tpn=6", MAGENTA);
   ("seq=19  port 0 -> 0  tpn=5", CYAN)].
Definition right_lines : list (string * string) :=
  [("remote segment 18 resolved", MUTED);
   ("seq=16  port 1 -> 1", MAGENTA);
   ("op=0x85  len=128", TEXT);
   (EmptyString, TEXT);
   ("remote segment 17 resolved", MUTED);
   ("seq=17  port 0 -> 0", CYAN);
   ("op=0x85  len=128", TEXT);
   (EmptyString, TEXT);
   ("seq=18  port 1 -> 1", MAGENTA);
   ("seq=19  port 0 -> 0", CYAN)].

Definition render_packets (node1 node0 : string) : res card :=
  _ ← evident "expected READ requests are missing" request_evidence node1;
  _ ← evident "expected READ responses are missing" response_evidence node0;
  Ok (base "包级证据：READ 请求与响应在双端口间交替" "同一序列号保持端口对称：port 1 ↔ port 1，port 0 ↔ port 0" "op 0x84 → 0x85" ++
      terminal (90, 202, 945, 862) "node1 TX · READ request (0x84)" ++
      terminal (975, 202, W - 90, 862) "node0 TX · READ response (0x85)" ++
      code_lines 122 286 left_lines 48 ++
      code_lines 1007 286 right_lines 48 ++
      [Line (945, 525, 975, 525) GREEN 5;
       Polygon [(975, 525); (958, 515); (958, 535)] GREEN;
       RoundedRectangle (90, 888, W - 90, 956) 14 "#10253a" None;
       Text 122 904 "可观测结果：连续请求按 1 / 0 / 1 / 0 分流，响应沿原端口返回。" F_LABEL GREEN] ++
      footer "node1/gem5.log:3922+  |  node0/gem5.log:3890-3913"
        (first_chars 10 (sha256 NODE1) +:+ "… / " +:+ first_chars 10 (sha256 NODE0) +:+ "…")).

(** ** The program *)

Inductive action :=
  | MadeOutput
  | SavedPng (name : string) (c : card)
  | SavedGif (name : string) (frames : list (card * Z)).   (** a frame and how long it stays *)

Definition names : list string :=
  ["01-command-and-result.png"; "02-official-resources.png"; "03-dual-port-packets.png"].

Definition main (read : string → res string) : io action unit :=
  emit MadeOutput ;;;
  uart <- lift (clean_uart <$> read UART) ;
  node1 <- lift (read NODE1) ;
  node0 <- lift (read NODE0) ;
  c1 <- lift (render_command_result uart) ;
  c2 <- lift (render_resources node1) ;
  c3 <- lift (render_packets node1 node0) ;
  each emit (zip_with SavedPng names [c1; c2; c3]) ;;;
  emit (SavedGif "evidence-slideshow.gif" [(c1, 3500); (c2, 3500); (c3, 4500)]).

(** ** Evidence before pictures *)

(** Every assertion of the three cards. *)
Definition all_evident (uart node1 node0 : string) : Prop :=
  (∀ s, s ∈ command_evidence → contains s uart = true) ∧
  (∀ s, s ∈ resource_evidence ++ request_evidence → contains s node1 = true) ∧
  (∀ s, s ∈ response_evidence → contains s node0 = true).

Lemma evident_iff message required log :
  evident message required log = Ok tt ↔ ∀ s, s ∈ required → contains s log = true.
Proof using Type.
  unfold evident. transitivity (forallb (λ s, contains s log) required = true).
  - destruct (forallb _ _); cbn; split; done.
  - rewrite forallb_forall. by setoid_rewrite list_elem_of_In.
Qed.

Lemma evident_raises message required log :
  evident message required log = Ok tt ∨ evident message required log = Err (Exn AssertionError message []).
Proof using Type. unfold evident. destruct (negb _); auto. Qed.

(** Pictures are saved exactly when the three logs can be read and every piece of
    evidence is in its log (the console's without its control sequences): all
    three, and then the slide show of these very cards; otherwise nothing is. *)
Theorem evidence_gate read :
  let '(log, r) := main read [] in
  (∃ uart node1 node0 c1 c2 c3,
     read UART = Ok uart ∧ read NODE1 = Ok node1 ∧ read NODE0 = Ok node0 ∧
     all_evident (clean_uart uart) node1 node0 ∧ r = Ok tt ∧
     log = MadeOutput :: zip_with SavedPng names [c1; c2; c3] ++
           [SavedGif "evidence-slideshow.gif" [(c1, 3500); (c2, 3500); (c3, 4500)]]) ∨
  (log = [MadeOutput] ∧ (∃ e, r = Err e) ∧
   ∀ uart node1 node0, read UART = Ok uart → read NODE1 = Ok node1 → read NODE0 = Ok node0 →
     ¬ all_evident (clean_uart uart) node1 node0).
Proof using Type.
  unfold main, io_bind, lift, emit at 1. cbn [app].
  destruct (read UART) as [uart|e] eqn:E1; cbn [fmap res_fmap];
    [|right; split_and!; [done|by eexists|congruence]].
  destruct (read NODE1) as [node1|e] eqn:E2; [|right; split_and!; [done|by eexists|congruence]].
  destruct (read NODE0) as [node0|e] eqn:E3; [|right; split_and!; [done|by eexists|congruence]].
  unfold render_command_result, render_resources, render_packets.
  assert (∀ m l log, evident m l log = Err (Exn AssertionError m []) → ¬ (∀ s, s ∈ l → contains s log = true)) as Hno.
  { intros m l log He Hall. apply (evident_iff m) in Hall. congruence. }
  destruct (evident_raises "expected UART evidence is missing" command_evidence (clean_uart uart)) as [H1|H1]; rewrite H1;
    [|right; split_and!; [done|by eexists|]; intros u n1 n0 [= <-] [= <-] [= <-] (Ha & _); by apply (Hno _ _ _ H1)].
  destruct (evident_raises "expected resource evidence is missing" resource_evidence node1) as [H2|H2]; rewrite H2;
    [|right; split_and!; [done|by eexists|]; intros u n1 n0 [= <-] [= <-] [= <-] (_ & Ha & _); apply (Hno _ _ _ H2);
      intros s Hs; apply Ha, elem_of_app; by left].
  destruct (evident_raises "expected READ requests are missing" request_evidence node1) as [H3|H3]; rewrite H3;
    [|right; split_and!; [done|by eexists|]; intros u n1 n0 [= <-] [= <-] [= <-] (_ & Ha & _); apply (Hno _ _ _ H3);
      intros s Hs; apply Ha, elem_of_app; by right].
  destruct (evident_raises "expected READ responses are missing" response_evidence node0) as [H4|H4]; rewrite H4;
    [|right; split_and!; [done|by eexists|]; intros u n1 n0 [= <-] [= <-] [= <-] (_ & _ & Ha); by apply (Hno _ _ _ H4)].
  left. exists uart, node1, node0. do 3 eexists. split_and!; try done. split_and!.
  - by apply (evident_iff "expected UART evidence is missing").
  - intros s [Hs|Hs]%elem_of_app; [by eapply (evident_iff "expected resource evidence is missing")|].
    by eapply (evident_iff "expected READ requests are missing").
  - by apply (evident_iff "expected READ responses are missing").
Qed.

(** ** The cards fit the picture *)

Definition inside_box (b : box) : Prop :=
  let '(x1, y1, x2, y2) := b in 0 <= x1 <= x2 ∧ x2 <= W ∧ 0 <= y1 <= y2 ∧ y2 <= H.

(** What an operation touches, a text by the height of its font. *)
Definition inside (o : op) : Prop :=
  match o with
  | RoundedRectangle b r _ _ => inside_box b ∧ 0 <= r
  | Ellipse b _ => inside_box b
  | Line b _ width => inside_box b ∧ 0 < width
  | Polygon ps _ => Forall (λ p, 0 <= p.1 <= W ∧ 0 <= p.2 <= H) ps
  | Text x y _ f _ => 0 <= x < W ∧ 0 <= y ∧ y + f_size f <= H
  end.

Ltac inside_tac := repeat constructor; cbn; unfold W, H; lia.

(** Every operation of a card that is drawn stays inside the picture, whatever
    the logs and the digests, for badges of at most 1600 pixels. *)
Lemma cards_inside uart node1 node0 c :
  (∀ badge, 0 <= text_width badge F_LABEL <= 1600) →
  render_command_result uart = Ok c ∨ render_resources node1 = Ok c ∨ render_packets node1 node0 = Ok c →
  Forall inside c.
Proof using Type.
  intros Hw Hc. pose proof (Hw "EXIT 0 × 2"). pose proof (Hw "PORT 0 + PORT 1"). pose proof (Hw "op 0x84 → 0x85").
  destruct Hc as [Hc|[Hc|Hc]]; unfold render_command_result, render_resources, render_packets in Hc; py_inv; inside_tac.
Qed.
End cards.

(** The packets the third card shows are those its evidence is about. *)
Example packets_shown :
  let packets : list (Z * Z * Z) := [(16, 1, 6); (17, 0, 5); (18, 1, 6); (19, 0, 5)] in
  let ports (p : Z) := " src_port=" +:+ str_of_Z p +:+ " dst_port=" +:+ str_of_Z p in
  let arrow (p : Z) := "  port " +:+ str_of_Z p +:+ " -> " +:+ str_of_Z p in
  request_evidence = (λ p : Z * Z * Z, "seq=" +:+ str_of_Z p.1.1 +:+ ports p.1.2 +:+ " tpn=" +:+ str_of_Z p.2 +:+
                                       " op=0x84 len=128") <$> packets ∧
  response_evidence = (λ p : Z * Z * Z, "seq=" +:+ str_of_Z p.1.1 +:+ ports p.1.2 +:+ " tpn=4294967295 op=0x85 len=128")
                        <$> packets ∧
  List.filter (λ s, startswith s "seq=") left_lines.*1 =
    (λ p : Z * Z * Z, "seq=" +:+ str_of_Z p.1.1 +:+ arrow p.1.2 +:+ "  tpn=" +:+ str_of_Z p.2) <$> packets ∧
  List.filter (λ s, startswith s "seq=") right_lines.*1 =
    (λ p : Z * Z * Z, "seq=" +:+ str_of_Z p.1.1 +:+ arrow p.1.2) <$> packets.
Proof. vm_compute. by split_and!. Qed.

Example colours_removed :
  clean_uart ("a" +:+ String "027" "[1;32mb" +:+ String "027" "[0m" +:+ String "013" "c") = "abc".
Proof. reflexivity. Qed.
