(* ===== verification/UbHostAdapter.v ===== *)
(** * The declared parameters of the UDMA adapter
      ([integrations/gem5/ub_host_adapter/UbHostAdapter.py])

    What the class declares to gem5, and that the machine of [Arm64System] makes
    its adapter with declared parameters only, of the declared types, and none
    without a default left out. *)

From Stdlib Require Import ZArith Lia.
From stdpp Require Import base strings numbers option list.
From S2P Require Import Prelude PyStr Json QemuPorts Cli ArgParse Arm64Args Arm64Loop Arm64System.

Open Scope string_scope.
Open Scope list_scope.
Open Scope Z_scope.

(** ** Declarations *)

Inductive param_type := Addr | Latency | PString | PBool | ArmInterruptPin.

Record param := Param {
  p_name : string;
  p_type : param_type;
  p_default : option setting
}.

Definition cls_name : string := "UbHostAdapter".

(** The [Param]s of the class, in order. *)
Definition params : list param :=
  [Param "pio_addr" Addr None;
   Param "pio_size" Addr (Some (Int 0x10000));
   Param "pio_latency" Latency (Some (Text "100ns"));
   Param "socket_path" PString None;
   Param "poll_interval" Latency (Some (Text "1us"));
   Param "sync" PBool (Some (Truth false));
   Param "lifecycle_sync" PBool (Some (Truth false));
   Param "link_latency" Latency (Some (Text "50ns"));
   Param "sync_interval" Latency (Some (Text "50ns"));
   Param "interrupt_misc" ArmInterruptPin (Some Null);
   Param "interrupt_aeq" ArmInterruptPin (Some Null);
   Param "interrupt_ceq" ArmInterruptPin (Some Null)].

(** Its own port; [pio] and [dma] are those of gem5's [DmaDevice]. *)
Definition ports : list string := ["msi"].
Definition inherited_ports : list string := ["pio"; "dma"].

(** The methods Python may call ([cxx_exports]). *)
Definition cxx_exports : list string := ["beginLifecycleSync"; "finishLifecycleSync"].

Definition declared (name : string) : option param :=
  snd <$> list_find (λ p, p_name p = name) params.

(** ** Conformance *)

(** A value that a parameter of the type accepts: addresses are 64 bits wide, a
    latency is a text with its unit, a pin is [NULL] or an interrupt object. *)
Definition accepts (t : param_type) (v : setting) : bool :=
  match t, v with
  | Addr, Int z => (0 <=? z) && (z <? 2 ^ 64)
  | Latency, Text _ => true
  | PString, Text _ => true
  | PBool, Truth _ => true
  | ArmInterruptPin, Null => true
  | ArmInterruptPin, New c _ => elemb c ["ArmSPI"; "ArmPPI"]
  | _, _ => false
  end.

Definition conforms (keywords : list (string * setting)) : bool :=
  bool_decide (NoDup keywords.*1) &&
  forallb (λ kv : string * setting,
    match declared kv.1 with Some p => accepts (p_type p) kv.2 | None => false end) keywords &&
  forallb (λ p, match p_default p with Some _ => true | None => elemb (p_name p) keywords.*1 end) params.

(** The defaults are values of their types. *)
Lemma defaults_accepted p v : p ∈ params → p_default p = Some v → accepts (p_type p) v = true.
Proof.
  intros Hp Hv. assert (forallb (λ p, match p_default p with Some v => accepts (p_type p) v | None => true end) params = true) as H
    by (vm_compute; reflexivity).
  rewrite forallb_forall in H. specialize (H p (proj1 (list_elem_of_In _ _) Hp)). by rewrite Hv in H.
Qed.

(** ** The adapter of the machine *)

Definition own (name : string) : string := "system.external_udma." +:+ name.

(** With a socket in its environment, the machine gets exactly one adapter, made
    with every declared parameter and nothing else, each of its type; then its
    own port and the two inherited ones are bound, once each.  Without a socket
    nothing is made. *)
Theorem adapter_conforms env :
  let '(log, r) := create_adapter no_error env [] in
  if String.eqb (environment env "UBSIM_UDMA_HOST_SOCKET" EmptyString) EmptyString
  then log = [] ∧ is_ok r = false
  else ∃ keywords bindings,
    r = Ok tt ∧
    log = Assign "system.external_udma" (New cls_name keywords) :: bindings ∧
    conforms keywords = true ∧ keywords.*1 = p_name <$> params ∧
    (∃ targets, bindings = zip_with (λ port target, Assign (own port) (Ref target)) (inherited_ports ++ ports) targets ∧
                length targets = 3%nat).
Proof.
  unfold create_adapter, if_only. cbv zeta.
  destruct (String.eqb _ _) eqn:E; [by split|].
  eexists _, _. split; [reflexivity|]. split; [reflexivity|]. split; [|split; [reflexivity|]].
  - unfold conforms. repeat rewrite andb_true_iff. split_and!; vm_compute; reflexivity.
  - eexists [_; _; _]. by split.
Qed.

(** The lines of the adapter's three interrupts differ, and none is a message
    signalled one of the interrupt frame. *)
Example interrupt_lines :
  let spis := [EXTERNAL_UDMA_MISC_SPI; EXTERNAL_UDMA_AEQ_SPI; EXTERNAL_UDMA_CEQ_SPI] in
  bool_decide (NoDup spis) = true ∧
  forallb (λ s, (s <? OFFICIAL_UDMA_V2M_SPI_BASE) ||
                (OFFICIAL_UDMA_V2M_SPI_BASE + OFFICIAL_UDMA_V2M_SPI_COUNT <=? s)) spis = true.
Proof. vm_compute. by split. Qed.

(** The adapter's aperture, larger than the declared default, ends below 4 GiB
    and overlaps neither the interrupt frame nor the first console. *)
Example aperture :
  0x10000 <= OFFICIAL_UDMA_IOMEM_SIZE ∧ IOMEM_BASE + OFFICIAL_UDMA_IOMEM_SIZE <= 2 ^ 32 ∧
  OFFICIAL_UDMA_V2M_BASE + OFFICIAL_UDMA_V2M_SIZE <= IOMEM_BASE ∧ PL011_UART0_BASE + 0x1000 <= IOMEM_BASE.
Proof. vm_compute. repeat split; discriminate. Qed.
