(* ===== verification/TrialAudit.v ===== *)
(** * The audit of a QEMU trial ([tools/check_qemu_write_trial.py])

    The fail-closed check of a trial's evidence: the guests' command lines, the
    two endpoints' transcripts, and the final counters of the fabric and of the
    devices against the work the commands asked for. *)

From Stdlib Require Import ZArith Lia Ascii SpecFloat.
From stdpp Require Import base strings gmap numbers option list.
From S2P Require Import Prelude PyStr Json TextScan Shlex.

Open Scope string_scope.
Open Scope list_scope.
Open Scope Z_scope.

Definition audit_error (fmt : string) (args : list parg) : exn := Exn AuditError fmt args.

(** [require(condition, message)]. *)
Definition require (condition : bool) (message : string) : res unit :=
  if condition then Ok tt else Err (audit_error message []).

(** ** Counters *)

Abbreviation counters := (list (string * Z)).

(** [(\w+)=(\d+)(?=\s|$)]. *)
Definition m_counter : matcher (string * string) := λ s,
  a ← m_assign s;
  match a.2 with
  | EmptyString => Some a
  | String c _ => if is_space c then Some a else None
  end.

(** [dict(...)] of the pairs. *)
Definition dict_of {V} (l : list (string * V)) : list (string * V) := dupdate [] l.

Definition last_fields (text marker : string) : res counters :=
  match last (List.filter (λ line, startswith line ("[" +:+ marker +:+ "] ")) (splitlines text)) with
  | None => Err (audit_error "missing {marker}" [PS marker])
  | Some line =>
      Ok (dict_of (omap (λ kv : string * string, v ← parse_nat kv.2; Some (kv.1, v)) (findall false m_counter line)))
  end.

Definition equal (fields : counters) (key : string) (expected : Z) : res unit :=
  raise audit_error "{key}: expected {expected}, got {fields.get(key)}" [PS key; PZ expected]
    when negb (bool_decide (dget fields key = Some expected)) ;;
  Ok tt.

(** [for key in keys: equal(fields, key, expected)]. *)
Fixpoint all_equal (fields : counters) (keys : list string) (expected : Z) : res unit :=
  match keys with
  | [] => Ok tt
  | key :: keys' => _ ← equal fields key expected; all_equal fields keys' expected
  end.

(** [require(key in fields, ...)] for each key. *)
Fixpoint all_present (fields : counters) (keys : list string) : res unit :=
  match keys with
  | [] => Ok tt
  | key :: keys' =>
      raise audit_error "missing {key}" [PS key] when negb (has fields key) ;; all_present fields keys'
  end.

(** ** Command lines *)

Record config := Config {
  g_verb : string;
  g_bidirectional : bool;
  g_values : list (string * Z)
}.
#[global] Instance config_eq_dec : EqDecision config.
Proof. solve_decision. Defined.

Definition value (c : config) (flag : string) : Z := default 0 (dget (g_values c) flag).

Definition count (x : string) (l : list string) : Z := len (List.filter (String.eqb x) l).
(** The item after the first [flag]. *)
Definition after (flag : string) (l : list string) : option string :=
  i ← index_of flag l; l !! S i.

Definition value_flags : list string :=
  ["-s"; "-n"; "-T"; "-J"; "-l"; "-Q"; "-I"; "-R"; "-d"; "--eid_idx"; "-S"; "-P"; "-p"; "-C"].

(** The [while remaining] loop. *)
Fixpoint check_flags (remaining : list string) : res unit :=
  match remaining with
  | [] => Ok tt
  | flag :: rest =>
      if elemb flag ["-B"; "--ctp"] then check_flags rest
      else match rest with
           | _ :: rest' =>
               raise audit_error "unsupported command mode/option: {flag}" [PS flag]
                 when negb (elemb flag value_flags) ;;
               check_flags rest'
           | [] => Err (audit_error "unsupported command mode/option: {flag}" [PS flag])
           end
  end.

Inductive role := ServerRole | ClientRole.

Definition check_role (args : list string) (r : role) : res unit :=
  match r with
  | ServerRole => require (negb (elemb "-S" args)) "server must not specify client destination"
  | ClientRole => require ((count "-S" args =? 1) && bool_decide (after "-S" args = Some "10.0.0.1"))
                    "client must connect to 10.0.0.1"
  end.

(** One explicit numeric option. *)
Definition flag_value (args : list string) (flag : string) : res (string * Z) :=
  raise audit_error "missing or duplicate {flag}" [PS flag] when negb (count flag args =? 1) ;;
  v ← or_raise (t ← after flag args; py_int t) (audit_error "invalid {flag}" [PS flag]);
  raise audit_error "invalid range for {flag}" [PS flag]
    when negb (if String.eqb flag "-I" then 0 <=? v else 0 <? v) ;;
  Ok (flag, v).

Definition command_config (command : string) (r : role) : res config :=
  args ← shlex_split command;
  let verbs := List.filter (λ verb, elemb (verb +:+ "_bw") args) ["write"; "read"; "send"] in
  verb ← match elemb "urma_perftest" args, verbs with
         | true, [verb] => Ok verb
         | _, _ => Err (audit_error "only explicit-size write/read/send_bw is supported" [])
         end;
  _ ← require (count "-B" args <=? 1) "duplicate bidirectional flag";
  let bidirectional := elemb "-B" args in
  _ ← require (bidirectional || String.eqb verb "read") "only READ supports unidirectional auditing";
  let executable := default 0%nat (index_of "urma_perftest" args) in
  _ ← require (forallb (λ token, startswith token "LD_LIBRARY_PATH=" || String.eqb token "UBSIM_BW_REPORT_DIAGNOSTIC=1")
                 (take executable args)) "unsupported command prefix";
  _ ← check_flags (drop (executable + 2) args);
  _ ← require (count "--ctp" args =? 1) "explicit CTP transport required";
  _ ← require ((count "-d" args =? 1) && bool_decide (after "-d" args = Some "udma0")) "expected -d udma0";
  _ ← require ((count "--eid_idx" args =? 1) && bool_decide (after "--eid_idx" args = Some "0"))
        "expected --eid_idx 0";
  _ ← check_role args r;
  values ← mapR (flag_value args)
             (["-s"; "-n"; "-T"; "-J"; "-l"; "-Q"; "-I"] ++
              (if elemb verb ["read"; "send"] || elemb "-R" args then ["-R"] else []));
  let config := Config verb bidirectional values in
  _ ← require (value config "-J" =? 1) "multi-Jetty iteration accounting not supported";
  _ ← require (negb (String.eqb verb "read") || (value config "-I" =? 0))
        "READ does not support inline; require explicit -I 0";
  _ ← require (negb (String.eqb verb "send") || (value config "-s" <=? 4096))
        "SEND sizes above 4096 are outside the supported trial contract";
  _ ← require (negb (existsb (λ arg, startswith arg "-a") args)) "scan commands not supported";
  Ok config.

(** Whether each endpoint reports no peak. *)
Definition peak_policy (verb : string) (iterations : Z) : bool * bool :=
  if 20000 <? iterations then (true, true)
  else if String.eqb verb "send" then (true, false) else (false, false).

(** ** Transcripts *)

(** [(?m)^--- UART (\d+) ---\s*$]. *)
Definition m_uart_port : matcher string := λ s,
  a ← m_lit "--- UART " s; d ← m_digits a.2; b ← m_lit " ---" d.2; e ← m_eol b.2; Some (d.1, e.2).

(** [re.split] with the captured port: the pieces after each separator. *)
Fixpoint split_ports (fuel : nat) (bol : bool) (piece s : string) : string * list (string * string) :=
  match fuel with
  | O => (String.rev piece, [])
  | S f =>
      match (if bol then m_uart_port s else None) with
      | Some (port, rest) =>
          let '(body, blocks) := split_ports f false EmptyString rest in
          (String.rev piece, (port, body) :: blocks)
      | None =>
          match s with
          | EmptyString => (String.rev piece, [])
          | String c s' => split_ports f (Ascii.eqb c "010"%char) (String c piece) s'
          end
      end
  end.
Definition uart_blocks (text : string) : list (string * string) :=
  (split_ports (S (String.length text)) true EmptyString text).2.

(** [-?\d+]. *)
Definition m_signed : matcher string := λ s,
  let sign := startswith s "-" in
  d ← m_digits (removeprefix s "-"); Some ((if sign then "-" else EmptyString) +:+ d.1, d.2).

(** [^__UBSIM_RC_<port>_\d+__=(-?\d+)\s*$]. *)
Definition m_return_code (port : string) : matcher string := λ s,
  a ← m_lit ("__UBSIM_RC_" +:+ port +:+ "_") s; d ← m_digits a.2; b ← m_lit "__=" d.2;
  v ← m_signed b.2; e ← m_eol v.2; Some (v.1, e.2).

(** [^\s*max_msg_size\s*:\s*(\d+)\s*$]. *)
Definition m_max_msg_size : matcher string := λ s,
  a ← m_sp0 s; d ← m_labelled "max_msg_size" a.2; e ← m_eol d.2; Some (d.1, e.2).

(** [Max inline size\s*:\s*(\d+)\s*\[B\]]. *)
Definition m_inline : matcher string := λ s,
  d ← m_labelled "Max inline size" s; b ← m_sp0 d.2; c ← m_lit "[B]" b.2; Some (d.1, c.2).

(** [(\w+)=([^\s]+)]. *)
Definition m_binding : matcher (string * string) := λ s,
  k ← m_word s; e ← m_lit "=" k.2;
  let '(v, r) := span (λ c, negb (is_space c)) e.2 in
  if String.eqb v EmptyString then None else Some (k.1, v, r).

(** ** Floating point *)

(** Python's [float]: its parsing and the operations the audit uses. *)
Record floats := Floats {
  float : Type;
  f_of_str : string → option float;
  f_of_Z : Z → float;
  f_isfinite : float → bool;
  f_isclose : float → float → bool;        (** [rel_tol=1e-12, abs_tol=1e-9] *)
  f_lt : float → float → bool;
  f_le : float → float → bool;
  f_eq : float → float → bool;
  f_add : float → float → float;
  f_sub : float → float → float;
  f_mul : float → float → float;
  f_div : float → float → res float;       (** [ZeroDivisionError] *)
  f_floor : float → float;
  f_within : Z → float → float → bool      (** [abs(a - b)] against the precision of the column *)
}.

Section audit.
Variable fl : floats.
Variable py_str : json → string.
(** The text of a file of the trial's directory, when it can be read. *)
Variable read_text : string → option string.
(** [json.loads] of the report. *)
Variable loads : string → res json.

Let zero := f_of_Z fl 0.

(** ** The guests' report diagnostics *)

(** [number(key)]. *)
Definition number (fields : list (string * string)) (key : string) : res (float fl) :=
  t ← or_raise (dget fields key) (audit_error "missing report diagnostic {key}" [PS key]);
  v ← or_raise (f_of_str fl t) (Exn ValueError "could not convert string to float" []);
  raise audit_error "nonfinite report diagnostic {key}" [PS key] when negb (f_isfinite fl v) ;;
  Ok v.

(** [matches(key, expected)]. *)
Definition matches (fields : list (string * string)) (key : string) (expected : float fl) : res unit :=
  v ← number fields key;
  raise audit_error "diagnostic arithmetic mismatch: {key}" [PS key] when negb (f_isclose fl v expected) ;;
  Ok tt.

Definition api_type (verb : string) : Z :=
  if String.eqb verb "read" then 0 else if String.eqb verb "write" then 1 else 2.

Definition check_report_diagnostic (line : string) (c : config) (no_peak : bool)
    : res (float fl * float fl * float fl) :=
  let fields := dict_of (findall false m_binding line) in
  let num := number fields in
  let mat := matches fields in
  let n := value c "-n" in let s := value c "-s" in
  let peak01 := if no_peak then 1 else 0 in
  _ ← require (bool_decide (dget fields "observation" = Some "existing_samples_only"))
        "unknown diagnostic observation scope";
  _ ← mapR (λ ke : string * Z, mat ke.1 (f_of_Z fl ke.2))
        [("api_type", api_type (g_verb c)); ("bidirection", 1); ("no_peak", peak01); ("jettys", 1);
         ("size", s); ("iters_sum", n); ("cfg_iters", n); ("post_list", value c "-l");
         ("cq_mod", value c "-Q"); ("completed_index", if no_peak then 0 else n - 1)];
  scale ← num "scale";
  _ ← require (f_lt fl zero scale) "diagnostic scale must be positive";
  mhz ← num "cpu_mhz"; _ ← mat "scale" (f_mul fl mhz (f_of_Z fl 1000000));
  completed ← num "tcompleted_last"; posted ← num "tposted0";
  let cycles := f_sub fl completed posted in
  opt ← (if f_lt fl zero cycles then num "opt_delta" else Ok zero);
  _ ← require (f_lt fl zero cycles && f_lt fl zero opt) "invalid diagnostic cycle interval";
  _ ← mat "cycles_sum" cycles;
  _ ← mat "array0" posted;
  _ ← (if no_peak then
         first ← num "tcompleted0"; _ ← mat "tcompleted_last" first;
         start ← num "array0"; mat "opt_delta" (f_sub fl first start)
       else Ok tt);
  _ ← mat "peak_up" (f_mul fl (f_of_Z fl ((1 - peak01) * s)) scale);
  _ ← mat "peak_down" (f_mul fl opt (f_of_Z fl 1048576));
  _ ← mat "avg_up" (f_mul fl (f_of_Z fl (s * n)) scale);
  _ ← mat "avg_down" (f_mul fl cycles (f_of_Z fl 1048576));
  peak_up ← num "peak_up"; peak_down ← num "peak_down"; q ← f_div fl peak_up peak_down; _ ← mat "peak" q;
  avg_up ← num "avg_up"; avg_down ← num "avg_down"; q ← f_div fl avg_up avg_down; _ ← mat "avg" q;
  _ ← (if no_peak then Ok tt
       else bound ← f_div fl cycles (f_of_Z fl n);
            require (f_le fl opt (f_floor fl bound)) "enabled peak minimum excludes the full interval candidate");
  peak ← num "peak"; avg ← num "avg";
  rate ← f_div fl (f_mul fl (f_of_Z fl n) scale) cycles;
  rate ← f_div fl rate (f_of_Z fl 1000000);
  Ok (peak, avg, rate).

(** ** One endpoint *)

Definition upper_verb (verb : string) : string :=
  if String.eqb verb "write" then "URMA_WRITE" else if String.eqb verb "read" then "URMA_READ" else "URMA_SEND".

(** What the audit keeps of an endpoint's transcript. *)
Record endpoint := Endpoint {
  n_values : float fl * float fl * float fl;
  n_diagnostic : option (float fl * float fl * float fl)
}.

Definition float_of (t : string) : res (float fl) :=
  or_raise (f_of_str fl t) (Exn ValueError "could not convert string to float" []).

(** The body of the loop over the two UART blocks. *)
Definition check_endpoint (c : config) (index : nat) (expected_port : option string) (block : string * string)
    : res endpoint :=
  let '(port, body) := block in
  let verb := g_verb c in let two_way := g_bidirectional c in
  let no_peak := peak_policy verb (value c "-n") in
  _ ← require (bool_decide (expected_port = Some port)) "UART/manifest mismatch";
  _ ← require (bool_decide (findall true (m_return_code port) body = ["0"]))
        "missing/failed/duplicate guest return code";
  _ ← require (contains (upper_verb verb) body && Bool.eqb (contains "Bidirectional" body) two_way)
        "wrong verb or direction result";
  _ ← require (contains "BW peak[MB/sec]" body && contains "BW average[MB/sec]" body)
        "unexpected perftest unit header; refusing unit inference";
  _ ← require (bool_decide (findall false (m_labelled "JFS depth") body =
                 if negb two_way && Nat.eqb index 0 then [] else [str_of_Z (value c "-T")])) "SQ depth mismatch";
  _ ← require (bool_decide (findall false (m_labelled "CQ Moderation") body = [str_of_Z (value c "-Q")]))
        "CQ moderation mismatch";
  _ ← require (bool_decide (findall false (m_labelled "Number of jettys") body = [str_of_Z (value c "-J")]))
        "Jetty count mismatch";
  let post_lists := findall false (m_labelled "JFS post list") body in
  _ ← require (bool_decide (post_lists = []) || bool_decide (post_lists = [str_of_Z (value c "-l")]))
        "post list mismatch";
  let inline := findall false m_inline body in
  _ ← (if String.eqb verb "read"
       then require (bool_decide (inline = []) || bool_decide (inline = ["0"])) "unexpected READ inline header"
       else require (bool_decide (inline = [str_of_Z (value c "-I")])) "inline size mismatch or missing header");
  row ← match findall true (m_row m_digits m_digits m_dotted 3) body with
        | [row] => Ok row
        | _ => Err (audit_error "missing/ambiguous bandwidth row" [])
        end;
  _ ← require (bool_decide (parse_nat row.1.1 = Some (value c "-s")) &&
               bool_decide (parse_nat row.1.2 = Some (value c "-n"))) "size/iterations mismatch";
  columns ← mapR float_of row.2;
  '(peak, average, rate) ← match columns with
                           | [p; a; r] => Ok (p, a, r)
                           | _ => Err (Exn IndexError "tuple index out of range" []) end;
  _ ← require (f_isfinite fl peak && f_isfinite fl average && f_lt fl zero average && f_le fl zero peak &&
               f_isfinite fl rate && f_le fl zero rate) "invalid bandwidth values";
  _ ← match no_peak with
      | (false, false) => require (f_le fl average peak) "peak-enabled aggregate average exceeds peak"
      | (true, true) => require (f_eq fl peak zero) "peak must be zero when both endpoints disable peak"
      | _ => require (f_lt fl zero peak) "client-only enabled SEND peak must be positive"
      end;
  let lines := List.filter (λ line, startswith line "[UBSIM_BW_REPORT_DIAGNOSTIC]") (splitlines body) in
  _ ← require (two_way || bool_decide (lines = [])) "unidirectional report diagnostics not supported";
  diagnostic ← match lines with
               | [] => Ok None
               | [line] => d ← check_report_diagnostic line c (if Nat.eqb index 0 then no_peak.1 else no_peak.2);
                           Ok (Some d)
               | _ => Err (audit_error "duplicate report diagnostics" [])
               end;
  Ok (Endpoint (peak, average, rate) diagnostic).

Definition same_values (a b : float fl * float fl * float fl) : bool :=
  f_eq fl a.1.1 b.1.1 && f_eq fl a.1.2 b.1.2 && f_eq fl a.2 b.2.

(** The printed aggregate against the sums of the local diagnostics. *)
Definition check_sums (values : float fl * float fl * float fl) (a b : option (float fl * float fl * float fl))
    : res unit :=
  match a, b with
  | None, None => Ok tt
  | Some x, Some y =>
      require (f_within fl 0 values.1.1 (f_add fl (f_add fl zero x.1.1) y.1.1) &&
               f_within fl 1 values.1.2 (f_add fl (f_add fl zero x.1.2) y.1.2) &&
               f_within fl 2 values.2 (f_add fl (f_add fl zero x.2) y.2))
        "summed local diagnostics disagree with printed aggregate rounding"
  | _, _ => Err (audit_error "diagnostics missing on one endpoint" [])
  end.

(** ** The advertised size bound, reported beside the verdict *)

Definition size_limit (port_of : nat → option string) (node : nat) (block : string * string) : res Z :=
  _ ← require (bool_decide (port_of node = Some block.1)) "capability UART mismatch";
  _ ← require (bool_decide (findall true (m_return_code block.1) block.2 = ["0"]))
        "capability command missing successful return code";
  match findall true m_max_msg_size block.2 with
  | [t] => v ← or_raise (parse_nat t) (audit_error "missing/invalid max_msg_size" []);
           raise audit_error "missing/invalid max_msg_size" [] when negb (0 <? v) ;; Ok v
  | _ => Err (audit_error "missing/invalid max_msg_size" [])
  end.

(** [advertised_size_compliance]: [None] when the capabilities are not known. *)
Definition size_compliance (port_of : nat → option string) (sizes : list Z) : option bool :=
  match read_text "capabilities.txt" with
  | None => None
  | Some text =>
      match uart_blocks text with
      | [b0; b1] =>
          match size_limit port_of 0 b0, size_limit port_of 1 b1 with
          | Ok l0, Ok l1 => Some (forallb (λ s, s <=? Z.min l0 l1) sizes)
          | _, _ => None
          end
      | _ => None
      end
  end.

(** ** The records of the trial *)

Record case_result := CaseResult {
  c_config : config;
  c_values : float fl * float fl * float fl
}.
Definition c_size (c : case_result) : Z := value (c_config c) "-s".
Definition c_count (c : case_result) : Z := value (c_config c) "-n".

(** The variables of the loop over the records. *)
Record progress := Progress {
  a_seen : list string;
  a_verb : option string;
  a_two_way : option bool;
  a_cases : list case_result;
  a_wqes : Z;
  a_payload : Z;
  a_segments : Z
}.

Definition read (name : string) : res string :=
  or_raise (read_text name) (audit_error "missing/unreadable evidence: {name}" [PS name]).

(** [v == 0] and [v == []]. *)
Definition is_zero (v : option json) : bool :=
  match v with
  | Some (JInt z) => z =? 0
  | Some (JBool b) => negb b
  | Some (JFloat (S754_zero _)) => true
  | _ => false
  end.
Definition is_empty_list (v : option json) : bool := match v with Some (JList []) => true | _ => false end.

Definition verbs : list string := ["write"; "read"; "send"].

(** [^(write|read|send)-] and [(write|read|send)-\d+] as a whole. *)
Definition workload_label (label : string) : bool := existsb (λ v, startswith label (v +:+ "-")) verbs.
Definition numbered_label (label : string) : bool :=
  existsb (λ v, match strip_prefix (v +:+ "-") label with Some r => all_digits r | None => false end) verbs.

(** The items after the only ["--commands"]. *)
Fixpoint after_commands (items : list json) : list json :=
  match items with
  | [] => []
  | x :: items' => if eq_str x "--commands" then items' else after_commands items'
  end.

Definition command_of (v : json) (r : role) : res config :=
  text ← or_raise (json_is_str v) (Exn AttributeError "{} has no attribute 'read'" [PS (type_name v)]);
  command_config text r.

Definition directions (two_way : bool) : Z := if two_way then 2 else 1.
Definition ceil_segments (size : Z) : Z := (size + 4095) / 4096.

(** A workload record: both endpoints checked, its work added. *)
Definition check_case (manifest : list (string * string)) (st : progress) (record : jobj) (label : string)
    (command : list json) : res progress :=
  _ ← require (numbered_label label && negb (elemb label (a_seen st))) "invalid/duplicate workload label";
  _ ← require (is_zero (dget record "returncode") && is_empty_list (dget record "validation_errors"))
        "{label}: missing/failed runner validation";
  _ ← require (len (List.filter (λ x, eq_str x "--commands") command) =? 1) "{label}: missing paired commands";
  '(server, client) ← match after_commands command with
                      | [s; c] => Ok (s, c)
                      | _ => Err (audit_error "expected exactly two guest commands" [])
                      end;
  c ← command_of server ServerRole;
  c' ← command_of client ClientRole;
  _ ← require (bool_decide (c' = c)) "endpoint commands differ";
  let verb := default (g_verb c) (a_verb st) in
  _ ← require (String.eqb (g_verb c) verb) "mixed verbs or requested verb mismatch";
  let two_way := default (g_bidirectional c) (a_two_way st) in
  _ ← require (Bool.eqb (g_bidirectional c) two_way) "mixed traffic directions";
  let size := value c "-s" in let n := value c "-n" in
  _ ← require (String.eqb label (verb +:+ "-" +:+ str_of_Z size)) "label/command verb or size mismatch";
  raw ← read (label +:+ ".txt");
  '(b0, b1) ← match uart_blocks raw with
              | [b0; b1] => Ok (b0, b1)
              | _ => Err (audit_error "expected exactly two UART blocks" [])
              end;
  e0 ← check_endpoint c 0 (dget manifest "uart0") b0;
  e1 ← check_endpoint c 1 (dget manifest "uart1") b1;
  _ ← require (same_values (n_values e0) (n_values e1)) "exchanged endpoint bandwidth rows differ";
  _ ← check_sums (n_values e0) (n_diagnostic e0) (n_diagnostic e1);
  Ok (Progress (a_seen st ++ [label]) (Some verb) (Some two_way) (a_cases st ++ [CaseResult c (n_values e0)])
        (a_wqes st + n) (a_payload st + directions two_way * n * size)
        (a_segments st + directions two_way * n * ceil_segments size)).

(** One turn of the loop over the records. *)
Definition check_record (manifest : list (string * string)) (st : progress) (record : jobj) : res progress :=
  command ← match default (JList []) (dget record "command") with
            | JList l => Ok l
            | _ => Err (audit_error "invalid command record" [])
            end;
  label ← or_raise (json_is_str (default (JStr EmptyString) (dget record "label")))
            (Exn TypeError "expected string or bytes-like object" []);
  if negb (workload_label label) then
    _ ← require (negb (existsb (λ item, contains "urma_perftest" (py_str item)) command))
          "unsupported performance workload";
    Ok st
  else check_case manifest st record label command.

Fixpoint check_records (manifest : list (string * string)) (st : progress) (records : list jobj) : res progress :=
  match records with
  | [] => Ok st
  | r :: records' => st' ← check_record manifest st r; check_records manifest st' records'
  end.

(** ** The final counters *)

Definition check_fabric (verb : string) (two_way : bool) (st : progress) (log : string) : res counters :=
  let n := directions two_way * a_wqes st in
  fabric ← last_fields log "NS3_UB_NET_STATS";
  progress ← last_fields log "NS3_UB_NET_PROGRESS";
  _ ← all_equal progress ["native_tasks"; "pending_target_dma"; "scheduled_packets"; "native_wqes_failed"] 0;
  _ ← equal progress "outputs_empty" 1;
  _ ← all_equal progress ["native_wqes_submitted"; "native_wqes_completed"] n;
  _ ← all_equal fabric ["native_wqes_submitted"; "native_wqes_completed"] n;
  _ ← equal fabric "payload_bytes" (a_payload st * (if String.eqb verb "read" then 2 else 1));
  _ ← all_equal fabric ["ctp_request_segments"; "ctp_native_completions"] (a_segments st);
  _ ← equal fabric "ctp_taacks" (if String.eqb verb "write" then a_segments st else 0);
  _ ← equal fabric "ctp_read_responses" (if String.eqb verb "read" then a_segments st else 0);
  _ ← (if String.eqb verb "send" then equal fabric "ctp_native_send_delivery_completions" (a_segments st)
       else if String.eqb verb "read" || has fabric "ctp_native_send_delivery_completions"
            then equal fabric "ctp_native_send_delivery_completions" 0 else Ok tt);
  _ ← all_equal fabric ["native_wqes_failed"; "target_dma_errors"; "pending_target_dma"; "ns3_runtime_drops";
                        "native_trace_size_mismatches"; "ctp_retransmission_exhausted"; "async_timestamp_jumps"] 0;
  Ok fabric.

(** The completion notifications, checked in the third state format. *)
Definition check_notifications (manifest : list (string * string)) (profile progress : counters) : res unit :=
  if bool_decide (dget manifest "udma_state_format" = Some "3") then
    slots ← or_raise (t ← dget manifest "completion_event_slots"; py_int t)
              (audit_error "missing/invalid completion event slot budget" []);
    _ ← require ((1 <=? slots) && (slots <=? 4096)) "invalid completion event slot budget";
    _ ← all_equal profile ["ceq_consumer_rejects"; "notification_failures"] 0;
    _ ← equal progress "event_slots_in_use" 0;
    _ ← require (match dget profile "event_queue_peak" with
                 | Some v => (0 <=? v) && (v <=? slots) | None => false end)
          "notification event queue exceeds configured bound";
    all_present profile ["ceq_consumer_updates"; "ceq_full_waits"; "events_published"]
  else Ok tt.

Definition check_node (manifest : list (string * string)) (verb : string) (node_wqes : Z) (text : string)
    : res unit :=
  profile ← last_fields text "UDMA_PROFILE";
  progress ← last_fields text "UDMA_PROGRESS";
  _ ← all_equal profile ["sq_wqes"; "sq_completions"] node_wqes;
  _ ← all_equal progress ["sq_wqes"; "sq_completions"] node_wqes;
  _ ← all_equal profile ["sq_depth_rejects"; "sq_decode_rejects"; "ubase_errors"; "async_timestamp_jumps"] 0;
  _ ← equal progress "quiescent" 1;
  _ ← all_equal progress ["pending_rma"; "read_dma_queues"; "remote_services"; "completion_events";
                          "event_busy"; "receive_busy"; "destroy_pending"] 0;
  host ← last_fields text "UB_HOST_PENDING";
  _ ← equal host "reads" 0;
  _ ← equal host "writes" 0;
  _ ← all_present profile (if String.eqb verb "send" then ["sq_consumer_wraps"]
                           else ["rma_pending_peak"; "sq_consumer_wraps"]);
  check_notifications manifest profile progress.

Record verdict := Verdict {
  t_verb : string;
  t_two_way : bool;
  t_cases : list case_result;
  t_wqes : Z;
  t_bytes : Z;
  t_compliance : option bool
}.

(** [report.get("records", [])], a list of objects. *)
Definition report_records (report : json) : res (list jobj) :=
  match report with
  | JObj o =>
      match default (JList []) (dget o "records") with
      | JList l => mapR (λ r, match r with JObj o => Ok o | _ => Err (audit_error "invalid report records" []) end) l
      | _ => Err (audit_error "invalid report records" [])
      end
  | v => Err (Exn AttributeError "{} has no attribute 'get'" [PS (type_name v)])
  end.

(** Exactly one record of the label, with status 0. *)
Definition check_step (records : list jobj) (label : string) : res unit :=
  require (match List.filter (λ r, match dget r "label" with Some v => eq_str v label | None => false end) records with
           | [r] => is_zero (dget r "returncode")
           | _ => false
           end) "missing/failed {label}".

Definition parse_manifest (text : string) : list (string * string) :=
  dict_of (omap (λ line, match partition_at "="%char line with (k, Some v) => Some (k, v) | _ => None end)
             (splitlines text)).

Definition retry_profile (mode : string) : option string :=
  if String.eqb mode "on" then Some "experimental-ta-timeout-replay"
  else if String.eqb mode "off" then Some "ctp-lossless-lower-layer-assumed" else None.

(** [\breliability_profile=(\S+)]: the captures; [before] is the character before. *)
Fixpoint reliability_profiles (fuel : nat) (before : bool) (s : string) : list string :=
  match fuel with
  | O => []
  | S f =>
      match (if before then None else strip_prefix "reliability_profile=" s) with
      | Some r =>
          let '(v, rest) := span (λ c, negb (is_space c)) r in
          if String.eqb v EmptyString then
            match s with String c s' => reliability_profiles f (word_char c) s' | EmptyString => [] end
          else v :: reliability_profiles f true rest
      | None =>
          match s with String c s' => reliability_profiles f (word_char c) s' | EmptyString => [] end
      end
  end.

Definition check_manifest (manifest : list (string * string)) (log : res string) : res unit :=
  let mode := dget manifest "ctp_retransmission" in
  let profile := m ← mode; retry_profile m in
  _ ← require (bool_decide (mode = None) || bool_decide (is_Some profile)) "invalid effective CTP retry mode";
  log ← log;
  let observed := reliability_profiles (S (String.length log)) false log in
  _ ← require (bool_decide (observed = []) ||
               match profile with Some p => bool_decide (observed = [p]) | None => false end)
        "runtime CTP profile disagrees with manifest";
  _ ← mapR (λ ke : string * string, require (bool_decide (dget manifest ke.1 = Some ke.2)) "manifest {key} must be {expected}")
        [("runtime", "qemu-tcg-timing"); ("node_count", "2"); ("network_backend", "modular-ns3ub");
         ("synchronization", "required")];
  rate ← or_raise (t ← dget manifest "peer_link_rate_gbps"; f_of_str fl t)
           (audit_error "missing/invalid configured link rate" []);
  require (f_isfinite fl rate && f_lt fl zero rate) "invalid configured link rate".

Definition check_expected (expected : option (list Z)) : res unit :=
  match expected with
  | None => Ok tt
  | Some l =>
      _ ← require (negb (bool_decide (length l = 0%nat))) "expected sizes must be a nonempty sequence";
      _ ← require (forallb (λ s, (0 <? s) && (s <=? 0xffffffff)) l) "expected sizes must be positive uint32 integers";
      require (bool_decide (NoDup l)) "duplicate expected sizes"
  end.

(** [audit]: every check in the order of the source, the first failure raised. *)
Definition audit (verb : option string) (expected : option (list Z)) : res verdict :=
  _ ← check_expected expected;
  _ ← require (match verb with None => true | Some v => elemb v verbs end) "unsupported requested verb";
  report_text ← read "report.json"; report ← loads report_text;
  manifest_text ← read "run-manifest.txt";
  let manifest := parse_manifest manifest_text in
  _ ← check_manifest manifest (read "ns3.log");
  records ← report_records report;
  _ ← mapR (check_step records) ["launch"; "shell-ready"; "network"; "stop"];
  st ← check_records manifest (Progress [] verb None [] 0 0 0) records;
  '(verb, two_way) ← match a_cases st, a_verb st, a_two_way st with
                     | _ :: _, Some v, Some b => Ok (v, b)
                     | _, _, _ => Err (audit_error "no supported bandwidth cases" [])
                     end;
  _ ← require (match expected with None => true | Some l => bool_decide ((c_size <$> a_cases st) = l) end)
        "completed size sequence does not match expected sizes";
  log ← read "ns3.log";
  _ ← check_fabric verb two_way st log;
  text0 ← read "udma-node0-udma.log";
  _ ← check_node manifest verb (if two_way then a_wqes st else 0) text0;
  text1 ← read "udma-node1-udma.log";
  _ ← check_node manifest verb (a_wqes st) text1;
  Ok (Verdict verb two_way (a_cases st) (directions two_way * a_wqes st) (a_payload st)
        (size_compliance (λ node, dget manifest (if Nat.eqb node 0 then "uart0" else "uart1")) (c_size <$> a_cases st))).

(** [main]: the exit status. *)
Definition main (verb : option string) (expected : option (list Z)) : res Z :=
  match audit verb expected with
  | Ok _ => Ok 0
  | Err x => if is_a (exn_cls x) ValueError || is_a (exn_cls x) TypeError || is_a (exn_cls x) KeyError
             then Ok 1 else Err x
  end.
End audit.

(** ** What a passed audit establishes *)

Lemma require_Ok b m u : require b m = Ok u → b = true.
Proof. unfold require. by destruct b. Qed.

Lemma equal_Ok fields key z u : equal fields key z = Ok u → dget fields key = Some z.
Proof. unfold equal. intros H. py_inv. by bool_inv. Qed.

Lemma all_equal_Ok fields keys z u :
  all_equal fields keys z = Ok u → Forall (λ k, dget fields k = Some z) keys.
Proof.
  induction keys as [|k keys IH]; cbn; intros H; [constructor|].
  apply bind_Ok in H as ([] & Hk & H). apply equal_Ok in Hk. constructor; [done|by apply IH].
Qed.

Definition sum (l : list Z) : Z := foldr Z.add 0 l.

Lemma sum_snoc l x : sum (l ++ [x]) = sum l + x.
Proof. unfold sum. rewrite foldr_app. cbn. induction l as [|y l IH]; cbn; lia. Qed.

Section audited.
Context (fl : floats) (py_str : json → string)
  (read_text : string → option string) (loads : string → res json).

(** The label of a record. *)
Definition label_of (r : jobj) : string :=
  match dget r "label" with Some (JStr s) => s | _ => EmptyString end.
Definition workload (r : jobj) : bool := workload_label (label_of r).

(** The label a case was recorded under. *)
Definition case_label (c : case_result fl) : string :=
  g_verb (c_config fl c) +:+ "-" +:+ str_of_Z (c_size fl c).

(** A record's two guest commands, the items after its ["--commands"], both ask
    for this configuration. *)
Definition asked (r : jobj) (c : config) : Prop :=
  ∃ items server client, dget r "command" = Some (JList items) ∧
    after_commands items = [JStr server; JStr client] ∧
    command_config server ServerRole = Ok c ∧ command_config client ClientRole = Ok c.

(** The accounts after the records [done_]. *)
Record accounts (first : option string) (done_ : list jobj) (st : progress fl) : Prop := {
  ac_labels : case_label <$> a_cases fl st = label_of <$> List.filter workload done_;
  ac_asked : Forall2 (λ r c, asked r (c_config fl c)) (List.filter workload done_) (a_cases fl st);
  ac_seen : a_seen fl st = label_of <$> List.filter workload done_;
  ac_distinct : NoDup (a_seen fl st);
  ac_first : first = None ∨ a_verb fl st = first;
  ac_uniform : Forall (λ c, Some (g_verb (c_config fl c)) = a_verb fl st ∧
                            Some (g_bidirectional (c_config fl c)) = a_two_way fl st ∧
                            0 < c_size fl c ∧ 0 < c_count fl c) (a_cases fl st);
  ac_wqes : a_wqes fl st = sum (c_count fl <$> a_cases fl st);
  ac_payload : ∀ b, a_two_way fl st = Some b →
    a_payload fl st = directions b * sum ((λ c, c_count fl c * c_size fl c) <$> a_cases fl st);
  ac_segments : ∀ b, a_two_way fl st = Some b →
    a_segments fl st = directions b * sum ((λ c, c_count fl c * ceil_segments (c_size fl c)) <$> a_cases fl st);
  ac_none : a_two_way fl st = None → a_cases fl st = [] ∧ a_payload fl st = 0 ∧ a_segments fl st = 0;
  ac_verb : a_cases fl st ≠ [] → is_Some (a_verb fl st)
}.

Lemma flag_value_Ok args flag kv : flag_value args flag = Ok kv → kv.1 = flag ∧ (flag ≠ "-I" → 0 < kv.2).
Proof.
  unfold flag_value. intros H. destruct (negb _); [done|]. apply bind_Ok in H as (z & _ & H).
  destruct (negb _) eqn:E; [done|]. injection H as <-. split; [done|]. intros Hne. cbn.
  apply negb_false_iff in E. rewrite (proj2 (String.eqb_neq _ _) Hne) in E. by apply Z.ltb_lt in E.
Qed.

(** A configured command names positive sizes and counts. *)
Lemma command_config_Ok text r c :
  command_config text r = Ok c → 0 < value c "-s" ∧ 0 < value c "-n".
Proof.
  unfold command_config. intros H. apply bind_Ok in H as (args & _ & H). cbv zeta in H.
  apply bind_Ok in H as (verb & _ & H). do 7 apply bind_Ok in H as (? & _ & H).
  apply bind_Ok in H as (? & _ & H).
  apply bind_Ok in H as (values & Hv & H). do 4 apply bind_Ok in H as (? & _ & H). injection H as <-.
  apply mapR_Ok in Hv. cbn [app] in Hv.
  inversion Hv as [|? kv1 ? l1 H1 Hv1]; subst. inversion Hv1 as [|? kv2 ? l2 H2 Hv2]; subst.
  apply flag_value_Ok in H1 as [E1 P1], H2 as [E2 P2]. destruct kv1, kv2; cbn in *; subst.
  unfold value; cbn. split; [by apply P1|by apply P2].
Qed.

Lemma command_of_Ok v r c :
  command_of v r = Ok c → ∃ text, v = JStr text ∧ command_config text r = Ok c.
Proof.
  unfold command_of. intros H. apply bind_Ok in H as (t & Ht & H). exists t. split; [|done].
  apply or_raise_Ok in Ht. destruct v; try done. by injection Ht as ->.
Qed.

(** What a successful workload record adds. *)
Lemma check_case_Ok manifest st record label command st' :
  check_case fl read_text manifest st record label command = Ok st' →
  ∃ c values two_way,
    (∃ server client, after_commands command = [JStr server; JStr client] ∧
       command_config server ServerRole = Ok c ∧ command_config client ClientRole = Ok c) ∧
    st' = Progress fl (a_seen fl st ++ [label]) (Some (g_verb c)) (Some two_way)
            (a_cases fl st ++ [CaseResult fl c values]) (a_wqes fl st + value c "-n")
            (a_payload fl st + directions two_way * value c "-n" * value c "-s")
            (a_segments fl st + directions two_way * value c "-n" * ceil_segments (value c "-s")) ∧
    (label ∉ a_seen fl st) ∧ label = g_verb c +:+ "-" +:+ str_of_Z (value c "-s") ∧
    g_bidirectional c = two_way ∧ 0 < value c "-s" ∧ 0 < value c "-n" ∧
    (∀ v, a_verb fl st = Some v → g_verb c = v) ∧ (∀ b, a_two_way fl st = Some b → two_way = b).
Proof.
  unfold check_case. intros H. apply bind_Ok in H as (? & Hnew & H). apply bind_Ok in H as (? & _ & H).
  apply bind_Ok in H as (? & _ & H). apply bind_Ok in H as ([server client] & Hpair & H).
  apply bind_Ok in H as (c & Hc & H). apply bind_Ok in H as (c' & Hc' & H). apply bind_Ok in H as (? & Hsame & H).
  cbv zeta in H. apply bind_Ok in H as (? & Hverb & H). apply bind_Ok in H as (? & Hway & H).
  apply bind_Ok in H as (? & Hlabel & H). apply bind_Ok in H as (raw & _ & H).
  apply bind_Ok in H as ([b0 b1] & _ & H). apply bind_Ok in H as (e0 & _ & H).
  apply bind_Ok in H as (e1 & _ & H). apply bind_Ok in H as (? & _ & H). apply bind_Ok in H as (? & _ & H).
  injection H as <-. apply require_Ok in Hnew, Hverb, Hway, Hlabel, Hsame. bool_inv. subst c'.
  apply command_of_Ok in Hc as (ts & -> & Hc). apply command_of_Ok in Hc' as (tc & -> & Hc').
  assert (after_commands command = [JStr ts; JStr tc]) as Hafter
    by (destruct (after_commands command) as [|? [|? [|]]]; try done; by injection Hpair as -> ->).
  destruct (command_config_Ok _ _ _ Hc) as [Hs Hn]. apply Bool.eqb_prop in Hway. rewrite <- Hverb, <- Hway.
  exists c, (n_values fl e0), (g_bidirectional c). rewrite <- Hverb in *. split_and!; try done.
  - by exists ts, tc.
  - intros v Hv. rewrite Hv in Hverb. done.
  - intros b Hb. rewrite Hb in Hway. done.
Qed.

Lemma accounts_case first done_ st record label command st' manifest :
  accounts first done_ st → label = label_of record → workload record = true →
  default (JList []) (dget record "command") = JList command →
  check_case fl read_text manifest st record label command = Ok st' →
  accounts first (done_ ++ [record]) st'.
Proof.
  intros A Hl Hw Hcmd H. apply check_case_Ok in H as (c & values & b & (server & client & Ha & Hc1 & Hc2) & -> & Hnew & Hlab & Hb & Hs & Hn & Hv & Hway).
  assert (List.filter workload (done_ ++ [record]) = List.filter workload done_ ++ [record]) as Hf.
  { rewrite List.filter_app. cbn [List.filter]. by rewrite Hw. }
  destruct A as [A1 A0 A2 A3 A4 A5 A6 A7 A8 A9 A10].
  split; cbn; rewrite ?Hf, ?fmap_app; cbn.
  - rewrite A1. do 2 f_equal. rewrite <- Hl. by rewrite Hlab.
  - apply Forall2_app; [exact A0|]. constructor; [|constructor]. exists command, server, client. cbn. split_and!; try done.
    destruct (dget record "command") as [v|]; cbn in Hcmd; [by rewrite Hcmd|]. injection Hcmd as <-. done.
  - by rewrite A2, Hl.
  - apply NoDup_app. split_and!; [done| |apply NoDup_singleton].
    intros x Hx ->%list_elem_of_singleton. done.
  - destruct first as [v|]; [right|by left]. destruct A4 as [?|A4]; [done|]. by rewrite (Hv v A4).
  - apply Forall_app. split.
    + eapply Forall_impl; [exact A5|]. cbn. intros x (E1 & E2 & ? & ?). split_and!; try done.
      * rewrite E1. destruct (a_verb fl st) as [v|]; [|done]. by rewrite (Hv v eq_refl).
      * rewrite E2. destruct (a_two_way fl st) as [b'|]; [|done]. by rewrite (Hway b' eq_refl).
    + apply Forall_singleton. cbn. by rewrite Hb.
  - by rewrite sum_snoc, A6.
  - intros b' [= <-]. rewrite sum_snoc. unfold c_count, c_size. cbn.
    destruct (a_two_way fl st) as [b0|] eqn:E.
    + rewrite (A7 b0 eq_refl), (Hway b0 eq_refl). unfold c_count, c_size. lia.
    + destruct (A9 eq_refl) as (-> & -> & _). cbn. lia.
  - intros b' [= <-]. rewrite sum_snoc. unfold c_count, c_size. cbn.
    destruct (a_two_way fl st) as [b0|] eqn:E.
    + rewrite (A8 b0 eq_refl), (Hway b0 eq_refl). unfold c_count, c_size. lia.
    + destruct (A9 eq_refl) as (-> & _ & ->). cbn. lia.
  - done.
  - by eexists.
Qed.

Lemma accounts_record first done_ st record st' manifest :
  accounts first done_ st → check_record fl py_str read_text manifest st record = Ok st' →
  accounts first (done_ ++ [record]) st'.
Proof.
  intros A H. unfold check_record in H. apply bind_Ok in H as (command & Hcmd & H).
  apply bind_Ok in H as (label & Hl & H).
  assert (label = label_of record) as Hlab.
  { unfold label_of. destruct (dget record "label") as [v|]; cbn in Hl.
    - destruct v; try done. by injection Hl.
    - by injection Hl. }
  destruct (workload_label label) eqn:Hw; cbn [negb] in H.
  - by eapply accounts_case; [exact A|exact Hlab|unfold workload; rewrite <- Hlab| |exact H];
      [done|destruct (default _ _); try done; by injection Hcmd as ->].
  - apply bind_Ok in H as (? & _ & [= <-]).
    assert (List.filter workload (done_ ++ [record]) = List.filter workload done_) as Hf.
    { rewrite List.filter_app. cbn [List.filter]. unfold workload at 2. rewrite <- Hlab, Hw. apply app_nil_r. }
    destruct A. split; try done; by rewrite Hf.
Qed.

Lemma accounts_records first manifest records done_ st st' :
  accounts first done_ st → check_records fl py_str read_text manifest st records = Ok st' →
  accounts first (done_ ++ records) st'.
Proof.
  revert done_ st. induction records as [|r records IH]; intros done_ st A H; cbn in H.
  { injection H as <-. by rewrite app_nil_r. }
  apply bind_Ok in H as (st1 & Hr & H). replace (done_ ++ r :: records) with ((done_ ++ [r]) ++ records)
    by (by rewrite <- app_assoc). eapply IH; [|exact H]. by eapply accounts_record.
Qed.

(** The counters that a passed audit read in the fabric's and the nodes' logs. *)
Definition fabric_agrees (v : verdict fl) (log : string) : Prop :=
  ∃ fabric, last_fields log "NS3_UB_NET_STATS" = Ok fabric ∧
    dget fabric "native_wqes_submitted" = Some (t_wqes fl v) ∧
    dget fabric "native_wqes_completed" = Some (t_wqes fl v) ∧
    dget fabric "payload_bytes" = Some (t_bytes fl v * (if String.eqb (t_verb fl v) "read" then 2 else 1)) ∧
    Forall (λ k, dget fabric k = Some 0)
      ["native_wqes_failed"; "target_dma_errors"; "pending_target_dma"; "ns3_runtime_drops";
       "native_trace_size_mismatches"; "ctp_retransmission_exhausted"; "async_timestamp_jumps"].

Definition node_agrees (wqes : Z) (text : string) : Prop :=
  ∃ profile, last_fields text "UDMA_PROFILE" = Ok profile ∧
    dget profile "sq_wqes" = Some wqes ∧ dget profile "sq_completions" = Some wqes.

Lemma check_fabric_Ok verb two_way st log fabric v :
  check_fabric fl verb two_way st log = Ok fabric → t_verb fl v = verb →
  t_wqes fl v = directions two_way * a_wqes fl st → t_bytes fl v = a_payload fl st → fabric_agrees v log.
Proof.
  unfold check_fabric. intros H E1 E2 E3. apply bind_Ok in H as (f & Hf & H).
  apply bind_Ok in H as (p & _ & H). do 3 apply bind_Ok in H as ([] & _ & H).
  apply bind_Ok in H as (u1 & H1 & H). apply bind_Ok in H as (u2 & H2 & H).
  do 4 apply bind_Ok in H as (? & _ & H). apply bind_Ok in H as (u3 & H3 & _).
  apply all_equal_Ok in H1, H3. apply equal_Ok in H2.
  apply Forall_cons in H1 as [H1a H1]. apply Forall_cons in H1 as [H1b _].
  exists f. rewrite E1, E2, E3. by split_and!.
Qed.

Lemma node_counters_Ok manifest verb wqes text u :
  check_node manifest verb wqes text = Ok u → node_agrees wqes text.
Proof.
  unfold check_node. intros H. apply bind_Ok in H as (f & Hf & H).
  apply bind_Ok in H as (p & _ & H). apply bind_Ok in H as (u1 & H1 & _).
  apply all_equal_Ok in H1. apply Forall_cons in H1 as [H1a H1]. apply Forall_cons in H1 as [H1b _].
  by exists f.
Qed.

(** C7: an audit that passes has counted every workload record of the report
    exactly once, in order and under its own label, with the configuration that
    both of the record's guest commands ask for; all are of one verb and one
    direction; the fabric's counters equal the work those commands asked for,
    without failures or drops, and so do each device's; and the requested verb
    and sizes, if any, are those of the trial. *)
Theorem audit_sound verb expected v :
  audit fl py_str read_text loads verb expected = Ok v →
  let count := sum (c_count fl <$> t_cases fl v) in
  (∃ text report records, read_text "report.json" = Some text ∧ loads text = Ok report ∧
     report_records report = Ok records ∧
     case_label <$> t_cases fl v = label_of <$> List.filter workload records ∧
     Forall2 (λ r c, asked r (c_config fl c)) (List.filter workload records) (t_cases fl v)) ∧
  NoDup (case_label <$> t_cases fl v) ∧ t_cases fl v ≠ [] ∧
  Forall (λ c, g_verb (c_config fl c) = t_verb fl v ∧ g_bidirectional (c_config fl c) = t_two_way fl v ∧
               0 < c_size fl c ∧ 0 < c_count fl c) (t_cases fl v) ∧
  t_wqes fl v = directions (t_two_way fl v) * count ∧
  t_bytes fl v = directions (t_two_way fl v) * sum ((λ c, c_count fl c * c_size fl c) <$> t_cases fl v) ∧
  (∃ log, read_text "ns3.log" = Some log ∧ fabric_agrees v log) ∧
  (∃ text, read_text "udma-node0-udma.log" = Some text ∧ node_agrees (if t_two_way fl v then count else 0) text) ∧
  (∃ text, read_text "udma-node1-udma.log" = Some text ∧ node_agrees count text) ∧
  (∀ x, verb = Some x → t_verb fl v = x) ∧ (∀ l, expected = Some l → c_size fl <$> t_cases fl v = l).
Proof.
  unfold audit, read. intros H. apply bind_Ok in H as (? & _ & H). apply bind_Ok in H as (? & _ & H).
  apply bind_Ok in H as (rt & Hrt & H). apply bind_Ok in H as (report & Hrep & H).
  apply bind_Ok in H as (mt & _ & H). cbv zeta in H. apply bind_Ok in H as (? & _ & H).
  apply bind_Ok in H as (records & Hrec & H). apply bind_Ok in H as (? & _ & H).
  apply bind_Ok in H as (st & Hst & H). apply bind_Ok in H as ([vb tw] & Hvt & H).
  apply bind_Ok in H as (? & Hexp & H). apply bind_Ok in H as (log & Hlog & H).
  apply bind_Ok in H as (fabric & Hfab & H). apply bind_Ok in H as (t0 & Ht0 & H).
  apply bind_Ok in H as (? & Hn0 & H). apply bind_Ok in H as (t1 & Ht1 & H).
  apply bind_Ok in H as (? & Hn1 & [= <-]). apply or_raise_Ok in Hrt, Hlog, Ht0, Ht1.
  assert (accounts verb [] (Progress fl [] verb None [] 0 0 0)) as A0.
  { split; cbn; first [done|by constructor|by right]. }
  pose proof (accounts_records _ _ _ _ _ _ A0 Hst) as A. cbn in A. destruct A as [A1 A0' A2 A3 A4 A5 A6 A7 _ A9 _].
  assert (a_cases fl st ≠ [] ∧ a_verb fl st = Some vb ∧ a_two_way fl st = Some tw) as (Hne & Ev & Et).
  { destruct (a_cases fl st), (a_verb fl st), (a_two_way fl st); try done. by injection Hvt as <- <-. }
  cbn [t_cases t_wqes t_bytes t_verb t_two_way]. cbv zeta. split_and!.
  - by exists rt, report, records.
  - by rewrite A1, <- A2.
  - done.
  - eapply Forall_impl; [exact A5|]. cbn. intros c (E1 & E2 & ? & ?). rewrite Ev in E1. rewrite Et in E2.
    injection E1 as ->. injection E2 as ->. done.
  - by rewrite A6.
  - by apply A7.
  - exists log. split; [done|]. by eapply check_fabric_Ok.
  - exists t0. split; [done|]. rewrite <- A6. by eapply node_counters_Ok.
  - exists t1. split; [done|]. rewrite <- A6. by eapply node_counters_Ok.
  - intros w ->. destruct A4 as [?|A4]; [done|]. rewrite Ev in A4. by injection A4.
  - intros l ->. apply require_Ok in Hexp. by bool_inv.
Qed.
End audited.

(** ** A concrete trial *)

(** Numbers with three decimals, enough for the rows below. *)
Definition fixed_point (t : string) : option Z :=
  match partition_at "."%char t with
  | (a, None) => z ← parse_nat a; Some (1000 * z)
  | (a, Some b) => z ← parse_nat a; f ← parse_nat (String.substring 0 3 (b +:+ "000")); Some (1000 * z + f)
  end.

Definition sample_floats : floats :=
  {| float := Z; f_of_str := fixed_point; f_of_Z := λ z, 1000 * z; f_isfinite := λ _, true;
     f_isclose := Z.eqb; f_lt := Z.ltb; f_le := Z.leb; f_eq := Z.eqb; f_add := Z.add; f_sub := Z.sub;
     f_mul := λ a b, a * b / 1000;
     f_div := λ a b, if b =? 0 then Err (Exn ZeroDivisionError "float division by zero" []) else Ok (1000 * a / b);
     f_floor := λ a, 1000 * (a / 1000); f_within := λ _ a b, Z.abs (a - b) <=? 5 |}.

Definition line (t : string) : string := t +:+ String "010" EmptyString.

Definition sample_command : string :=
  "urma_perftest read_bw -d udma0 --eid_idx 0 --ctp -s 64 -n 100 -T 128 -J 1 -l 1 -Q 1 -I 0 -R 128".

Definition sample_endpoint (port extra : string) : string :=
  line ("--- UART " +:+ port +:+ " ---") +:+ line "URMA_READ test" +:+ extra +:+
  line "CQ Moderation : 1" +:+ line "Number of jettys : 1" +:+
  line " bytes iterations BW peak[MB/sec] BW average[MB/sec] MsgRate" +:+
  line " 64 100 12.5 11.25 0.75" +:+ line ("__UBSIM_RC_" +:+ port +:+ "_77__=0").

Definition sample_node (n : string) : string :=
  line ("[UDMA_PROFILE] sq_wqes=" +:+ n +:+ " sq_completions=" +:+ n +:+ " sq_depth_rejects=0 sq_decode_rejects=0 " +:+
        "ubase_errors=0 async_timestamp_jumps=0 rma_pending_peak=4 sq_consumer_wraps=0") +:+
  line ("[UDMA_PROGRESS] sq_wqes=" +:+ n +:+ " sq_completions=" +:+ n +:+ " quiescent=1 pending_rma=0 " +:+
        "read_dma_queues=0 remote_services=0 completion_events=0 event_busy=0 receive_busy=0 destroy_pending=0") +:+
  line "[UB_HOST_PENDING] reads=0 writes=0".

Definition sample_fabric (wqes : string) : string :=
  line ("[NS3_UB_NET_PROGRESS] native_tasks=0 pending_target_dma=0 scheduled_packets=0 native_wqes_failed=0 " +:+
        "outputs_empty=1 native_wqes_submitted=" +:+ wqes +:+ " native_wqes_completed=" +:+ wqes) +:+
  line ("[NS3_UB_NET_STATS] native_wqes_submitted=" +:+ wqes +:+ " native_wqes_completed=" +:+ wqes +:+
        " payload_bytes=12800 ctp_request_segments=100 ctp_native_completions=100 ctp_taacks=0 " +:+
        "ctp_read_responses=100 ctp_native_send_delivery_completions=0 native_wqes_failed=0 target_dma_errors=0 " +:+
        "pending_target_dma=0 ns3_runtime_drops=0 native_trace_size_mismatches=0 ctp_retransmission_exhausted=0 " +:+
        "async_timestamp_jumps=0").

(** The trial's directory, the fabric having completed [wqes] operations. *)
Definition sample_files (wqes name : string) : option string :=
  if String.eqb name "report.json" then Some "report"
  else if String.eqb name "run-manifest.txt" then
    Some (line "runtime=qemu-tcg-timing" +:+ line "node_count=2" +:+ line "network_backend=modular-ns3ub" +:+
          line "synchronization=required" +:+ line "peer_link_rate_gbps=400" +:+ line "uart0=3560" +:+ line "uart1=3570")
  else if String.eqb name "read-64.txt" then
    Some (sample_endpoint "3560" EmptyString +:+ sample_endpoint "3570" (line "JFS depth : 128"))
  else if String.eqb name "ns3.log" then Some (sample_fabric wqes)
  else if String.eqb name "udma-node0-udma.log" then Some (sample_node "0")
  else if String.eqb name "udma-node1-udma.log" then Some (sample_node "100")
  else None.

Definition sample_step (label : string) : json := JObj [("label", JStr label); ("returncode", JInt 0)].
Definition sample_report : json :=
  JObj [("records", JList [sample_step "launch"; sample_step "shell-ready"; sample_step "network";
    JObj [("label", JStr "read-64"); ("returncode", JInt 0); ("validation_errors", JList []);
          ("command", JList [JStr "python3"; JStr "--commands"; JStr sample_command;
                             JStr (sample_command +:+ " -S 10.0.0.1")])];
    sample_step "stop"])].

Definition sample_audit (wqes : string) : res (verdict sample_floats) :=
  audit sample_floats (λ _, EmptyString) (sample_files wqes) (λ _, Ok sample_report)
    (Some "read") (Some [64]).

(** One operation lost by the fabric fails the audit. *)
Example sample_lost : is_ok (sample_audit "100") = true ∧ is_ok (sample_audit "99") = false.
Proof. vm_compute. done. Qed.

Lemma audit_sound_witness :
  is_ok (sample_audit "100") = true ∧
  ∀ v, sample_audit "100" = Ok v → Forall (λ c, 0 < c_size sample_floats c) (t_cases sample_floats v).
Proof.
  split; [vm_compute; reflexivity|]. intros v E. unfold sample_audit in E.
  pose proof (audit_sound _ _ _ _ _ _ _ E) as (_ & _ & _ & F & _).
  eapply Forall_impl; [exact F|]. cbv beta. intros c (_ & _ & H & _). exact H.
Defined.
