(* ===== verification/Trial.v ===== *)
(** * QEMU bandwidth trials ([tools/run_qemu_timing_trial.py])

    The guest command lines and the constraints they must satisfy, the checks of
    the guests' capabilities and transcripts, the drain observation, and the
    trial itself with the records it leaves as evidence.  Wall clock times are
    left out of the records. *)

From Stdlib Require Import ZArith Lia Ascii SpecFloat.
From stdpp Require Import base strings gmap numbers option list.
From S2P Require Import Prelude PyStr Json TextScan Shlex Regression TrialAudit.

Open Scope string_scope.
Open Scope list_scope.
Open Scope Z_scope.

(** ** Guest command lines *)

Definition bad (fmt : string) : exn := Exn ValueError fmt [].

Definition BW_VERBS : list string := ["write_bw"; "read_bw"; "send_bw"].

(** The words of the f-string. *)
Definition bw_words (verb : string) (size port iterations depth post_list cq_mod inline_size : Z)
    (report_diagnostic unidirectional_read : bool) : list string :=
  (if report_diagnostic then ["UBSIM_BW_REPORT_DIAGNOSTIC=1"] else []) ++
  ["LD_LIBRARY_PATH=/lib:/usr/lib"; "urma_perftest"; verb; "-d"; "udma0"; "--eid_idx"; "0"; "--ctp"] ++
  (if unidirectional_read then [] else ["-B"]) ++
  ["-s"; str_of_Z size; "-P"; str_of_Z port; "-J"; "1"; "-I"; str_of_Z inline_size; "-T"; str_of_Z depth] ++
  (if String.eqb verb "write_bw" then [] else ["-R"; str_of_Z depth]) ++
  ["-n"; str_of_Z iterations; "-l"; str_of_Z post_list; "-Q"; str_of_Z cq_mod; "-p"; "0"].

Definition bw_command (verb : string) (size port iterations depth post_list cq_mod inline_size : Z)
    (report_diagnostic unidirectional_read : bool) : res string :=
  raise bad "single-direction mode supports only READ without report diagnostics"
    when unidirectional_read && (negb (String.eqb verb "read_bw") || report_diagnostic) ;;
  raise bad "unsupported bandwidth verb" when negb (elemb verb BW_VERBS) ;;
  raise bad "bandwidth settings must be positive"
    when existsb (λ z, z <=? 0) [size; port; iterations; depth; post_list; cq_mod] ;;
  raise bad "depth must not exceed iterations (perftest would silently lower it)" when iterations <? depth ;;
  raise bad "SEND payload must not exceed 4096 bytes" when String.eqb verb "send_bw" && (4096 <? size) ;;
  raise bad "WRITE post list and CQ moderation must not exceed SQ depth"
    when (depth <? post_list) || (depth <? cq_mod) ;;
  raise bad "WRITE iterations must be divisible by post list and CQ moderation"
    when negb (iterations mod post_list =? 0) || negb (iterations mod cq_mod =? 0) ;;
  raise bad "post list must be a multiple of CQ moderation"
    when (1 <? post_list) && negb (post_list mod cq_mod =? 0) ;;
  raise bad "WRITE inline size must not be negative" when inline_size <? 0 ;;
  let inline_size := if String.eqb verb "read_bw" then 0 else inline_size in
  Ok (join " " (bw_words verb size port iterations depth post_list cq_mod inline_size
                  report_diagnostic unidirectional_read)).

(** The client's command: the server's, and where to connect. *)
Definition client_of (command : string) : string := command +:+ " -S 10.0.0.1".

(** ** Transcripts *)

(** [repr] of a list of strings of digits. *)
Definition repr_digits (l : list string) : string :=
  "[" +:+ join ", " ((λ s, "'" +:+ s +:+ "'") <$> l) +:+ "]".

Definition node_name (node : nat) : string := "node" +:+ str_of_Z (Z.of_nat node).

Definition check_read_section (depth size iterations : Z) (node : nat) (section : string) : list string :=
  let depths := findall false (m_labelled "JFS depth") section in
  (if bool_decide (depths = if Nat.eqb node 0 then [] else [str_of_Z depth]) then []
   else [node_name node +:+ ": unexpected single-direction READ depth header " +:+ repr_digits depths]) ++
  (if Nat.eqb (length (findall true (m_row (m_self (str_of_Z size)) (m_self (str_of_Z iterations)) m_float 3)
                         section)) 1
   then [] else [node_name node +:+ ": missing or duplicate complete bandwidth result"]).

Definition validate_unidirectional_read_output (output : string) (depth size iterations : Z) : list string :=
  let sections := uart_sections output in
  if Nat.eqb (length sections) 2 then concat (imap (check_read_section depth size iterations) sections)
  else ["expected two UART transcripts"].

(** The messages of [validate_depth_output] and [validate_bw_scan]. *)
Definition describe (depth : Z) (e : output_error) : string :=
  match e with
  | ErrTranscripts => "expected two UART transcripts"
  | ErrDepth node got =>
      node_name node +:+ ": expected JFS depth " +:+ repr_digits [str_of_Z depth] +:+ ", got " +:+ repr_digits got
  | ErrResult node => node_name node +:+ ": missing or duplicate complete bandwidth result"
  | ErrScan node => node_name node +:+ ": incomplete, duplicated or unexpected scan rows"
  | _ => EmptyString
  end.

(** ** Capabilities *)

(** [^field\s*:\s*(\d+)\s*$]. *)
Definition m_field (field : string) : matcher string := λ s,
  d ← m_labelled field s; e ← m_eol d.2; Some (d.1, e.2).

Definition requested_limits (verb : string) (depth inline_size : Z) (max_size : option Z) : list (string * Z) :=
  [("max_jfs_depth", depth); ("max_jfs_inline_size", if String.eqb verb "read_bw" then 0 else inline_size)] ++
  (if String.eqb verb "write_bw" then [] else [("max_jfr_depth", depth)]) ++
  (match max_size with Some z => [("max_msg_size", z)] | None => [] end).

(** One limit of one guest. *)
Definition check_limit (node : nat) (section : string) (request : string * Z) : res (string * Z) :=
  let '(field, requested) := request in
  match findall true (m_field field) section with
  | [t] =>
      v ← or_raise (parse_nat t) (bad "invalid literal for int()");
      raise Exn ValueError "node{node}: requested {requested} exceeds {field}={value}"
              [PZ (Z.of_nat node); PZ requested; PS field; PZ v]
        when v <? requested ;;
      Ok (field, v)
  | _ => Err (Exn ValueError "node{node}: missing unique {field}" [PZ (Z.of_nat node); PS field])
  end.

Definition validate_bw_capabilities (text verb : string) (depth inline_size : Z) (max_size : option Z)
    : res (list (list (string * Z))) :=
  match uart_sections text with
  | [s0; s1] =>
      let requests := requested_limits verb depth inline_size max_size in
      l0 ← mapR (check_limit 0 s0) requests;
      l1 ← mapR (check_limit 1 s1) requests;
      Ok [l0; l1]
  | _ => Err (bad "need capability responses from both guests")
  end.

(** ** The drain observation *)

Definition drain_specs : list (string * string) :=
  [("udma-node0/udma", "UDMA_PROGRESS"); ("udma-node1/udma", "UDMA_PROGRESS");
   ("ub-fabric/ns3", "NS3_UB_NET_PROGRESS")].

(** [splitlines(keepends=True)]: [skip] bytes of a boundary are still due. *)
Fixpoint keep_lines_go (skip : nat) (line s : string) : list string :=
  match s with
  | EmptyString => match line with EmptyString => [] | _ => [String.rev line] end
  | String a s' =>
      match skip with
      | S O => String.rev (String a line) :: keep_lines_go 0 EmptyString s'
      | S k => keep_lines_go k (String a line) s'
      | O =>
          match line_break s with
          | Some (S O) => String.rev (String a line) :: keep_lines_go 0 EmptyString s'
          | Some (S k) => keep_lines_go k (String a line) s'
          | _ => keep_lines_go 0 (String a line) s'
          end
      end
  end.
Definition keep_lines (s : string) : list string := keep_lines_go 0 EmptyString s.

Definition line_counters (line : string) : list (string * Z) :=
  dict_of (omap (λ kv : string * string, v ← parse_nat kv.2; Some (kv.1, v)) (findall false m_assign line)).

Definition is_report (marker line : string) : bool :=
  endswith line (String "010" EmptyString) && startswith line ("[" +:+ marker +:+ "]").

Abbreviation replies := (list (string * list (string * Z))).

(** The complete reports in what a component logged since the request. *)
Definition read_replies (found : replies) (spec_text : (string * string) * string) : replies :=
  let '((component, marker), text) := spec_text in
  foldl (λ r line, dset r component (line_counters line)) found (List.filter (is_report marker) (keep_lines text)).

(** The polls of one sample before its deadline: the three logs' new text. *)
Fixpoint poll_replies (found : replies) (polls : list (res (list string))) : res replies :=
  match polls with
  | [] => Ok found
  | p :: polls' =>
      texts ← p;
      let found := foldl read_replies found (zip drain_specs texts) in
      if Nat.eqb (length found) (length drain_specs) then Ok found else poll_replies found polls'
  end.

Definition counter (found : replies) (component key : string) : option Z :=
  fields ← dget found component; dget fields key.

Definition drained (found : replies) : bool :=
  forallb (λ component, bool_decide (counter found component "quiescent" = Some 1))
    ["udma-node0/udma"; "udma-node1/udma"] &&
  forallb (λ key, bool_decide (counter found "ub-fabric/ns3" key = Some 0))
    ["native_tasks"; "pending_target_dma"; "scheduled_packets"] &&
  bool_decide (counter found "ub-fabric/ns3" "outputs_empty" = Some 1).

(** One turn of the loop: the request to the three processes, then the polls. *)
Record turn := Turn {
  u_request : res unit;
  u_polls : list (res (list string))
}.

(** The turns that start before the timeout; the samples in order. *)
Fixpoint observe_drain (consecutive : Z) (samples : list (replies * bool)) (turns : list turn)
    : res (bool * list (replies * bool)) :=
  match turns with
  | [] => Ok (2 <=? consecutive, samples)
  | u :: turns' =>
      _ ← u_request u;
      found ← poll_replies [] (u_polls u);
      let d := drained found in
      let consecutive := if d then consecutive + 1 else 0 in
      let samples := samples ++ [(found, d)] in
      if 2 <=? consecutive then Ok (true, samples) else observe_drain consecutive samples turns'
  end.

(** ** Arguments *)

Record settings := Settings {
  s_timeout : string;               (** [str(args.timeout)] *)
  s_sizes : list Z;
  s_drain : bool;                   (** [args.drain_timeout > 0] *)
  s_verb : string;
  s_unidirectional : bool;
  s_diagnostic : bool;
  s_iterations : Z;
  s_depth : Z;
  s_post_list : Z;
  s_cq_mod : Z;
  s_inline : Z;
  s_user_scan : bool;
  s_latency : bool;
  s_read_size : option Z;
  s_read_sizes : option (list Z)
}.

Definition explicit_command (s : settings) (size port : Z) (report_diagnostic : bool) : res string :=
  bw_command (s_verb s) size port (s_iterations s) (s_depth s) (s_post_list s) (s_cq_mod s) (s_inline s)
    report_diagnostic (s_unidirectional s).

(** [parse_args] after argparse. *)
Definition check_settings (s : settings) : res settings :=
  raise usage "--unidirectional-read requires explicit-size read_bw without diagnostics"
    when s_unidirectional s && (negb (String.eqb (s_verb s) "read_bw") || s_user_scan s || s_diagnostic s) ;;
  raise usage "report diagnostics require explicit-size bandwidth trials" when s_diagnostic s && s_user_scan s ;;
  raise usage "duplicate sizes would overwrite experiment evidence"
    when negb (bool_decide (NoDup (s_sizes s))) || negb (bool_decide (NoDup (default [] (s_read_sizes s)))) ;;
  if s_user_scan s then Ok s
  else match mapR (λ size, explicit_command s size 21410 false) (s_sizes s) with
       | Ok _ => Ok s
       | Err e => Err (if is_a (exn_cls e) ValueError then Exn SystemExit (exn_fmt e) (exn_args e) else e)
       end.

(** ** The trial *)

(** How a command ended. *)
Inductive ended :=
  | Ended (returncode : Z) (stdout : string)
  | TimedOut (stdout : option string).

(** What the trial meets outside: every command may depend on all that was
    recorded before it. *)
Record env := Env {
  e_output : res unit;                                  (** the new output directory *)
  e_named_image : bool;                                 (** [UBSIM_INITRD] is set *)
  e_image : res (string * string);                      (** the image's path and digest *)
  e_run : list jobj → list string → res ended;
  e_manifest : res string;                              (** [run-manifest.txt], copied *)
  e_artifact : string → res (string * string);          (** a path, resolved, and its digest *)
  e_terminals : list (res string * res string);         (** both terminals, at each poll *)
  e_probe : list jobj → string → res unit;              (** the process of a pid file *)
  e_turns : list jobj → list turn;                      (** the drain observation *)
  e_copy : list jobj → res unit;                        (** the logs, copied at the end *)
  e_float : string → option spec_float                  (** [float] *)
}.

(** Text mode: CRLF and CR read as LF. *)
Fixpoint universal (s : string) : string :=
  match s with
  | EmptyString => EmptyString
  | String a s' =>
      if Ascii.eqb a "013"%char then
        match s' with
        | String b s'' => if Ascii.eqb b "010"%char then String b (universal s'') else String "010" (universal s')
        | EmptyString => String "010" EmptyString
        end
      else String a (universal s')
  end.

(** [records[-1][key] = value]. *)
Fixpoint amend_last (key : string) (value : json) (records : list jobj) : list jobj :=
  match records with
  | [] => []
  | [r] => [dset r key value]
  | r :: records' => r :: amend_last key value records'
  end.
Definition amend (key : string) (value : json) : io jobj unit := λ l, (amend_last key value l, Ok tt).

Definition strings (l : list string) : json := JList (JStr <$> l).

Section trial.
Variable v : env.
Variable s : settings.

Definition record (label : string) (command : list string) (returncode : Z) : jobj :=
  [("label", JStr label); ("command", strings command); ("returncode", JInt returncode)].

(** [run]: the output and the return code, recorded. *)
Definition run (label : string) (command : list string) : io jobj (string * Z) := λ l,
  match e_run v l command with
  | Err e => (l, Err e)
  | Ok o =>
      let '(text, rc) := match o with Ended rc t => (t, rc) | TimedOut t => (default EmptyString t, 124) end in
      (l ++ [record label command rc], Ok (text, rc))
  end.

(** [if run(...): return 1]; otherwise the file it wrote is read back. *)
Definition must_run (label : string) (command : list string) (k : string → io jobj Z) : io jobj Z :=
  tr <- run label command;
  if tr.2 =? 0 then k (universal tr.1) else io_ret 1.

Definition serial : list string :=
  ["python3"; "tools/dual_serial_command.py"; "--ports"; "3560"; "3570"; "--full-output"; "--timeout";
   s_timeout s; "--prompt-kick-after"; "1"].
Definition one_command (command : string) : list string := serial ++ ["--command"; command].
Definition paired (command : string) : list string :=
  serial ++ ["--stagger"; "1"; "--commands"; command; client_of command].

(** *** Before the workload *)

Definition input_image (image : string * string) : jobj :=
  [("label", JStr "input-image"); ("path", JStr image.1); ("sha256", JStr image.2);
   ("report_diagnostic", JBool (s_diagnostic s))].

(** Up to the launch: whether it succeeded. *)
Definition launch_trial : io jobj bool :=
  (if s_diagnostic s && negb (e_named_image v)
   then throw (bad "diagnostics require explicit UBSIM_INITRD; the regular image is not instrumented")
   else io_ret tt) ;;;
  image <- lift (e_image v);
  emit (input_image image) ;;;
  tr <- run "launch" ["./lab"; "start-qemu-dual"; "--timing"];
  io_ret (tr.2 =? 0).

Definition fingerprint (manifest : list (string * string)) (name : string) : res (string * json) :=
  path ← getitem manifest name;
  pd ← e_artifact v path;
  Ok (name, JObj [("path", JStr pd.1); ("sha256", JStr pd.2)]).

Definition input_artifacts (artifacts : jobj) : jobj :=
  [("label", JStr "input-artifacts"); ("artifacts", JObj artifacts);
   ("scope", JStr "Launch executable/images only; dynamic dependencies not fingerprinted")].

Definition ARTIFACTS : list string :=
  ["qemu_binary"; "udma_device_binary"; "ns3_binary"; "kernel_image"; "initrd_image"].

Definition banner : string := "Official UDMA full-system guest".

(** One poll of the two terminals: the second is read only when the first has
    the banner. *)
Definition shells_ready (poll : res string * res string) : res bool :=
  t0 ← poll.1;
  if contains banner t0 then t1 ← poll.2; Ok (contains banner t1) else Ok false.

Fixpoint await_shells (polls : list (res string * res string)) : res unit :=
  match polls with
  | [] => Err (Exn TimeoutError "shell-ready deadline" [])
  | p :: polls' => shells_ready p ≫= λ ready : bool, if ready then Ok tt else await_shells polls'
  end.

Definition shell_ready : jobj := [("label", JStr "shell-ready"); ("returncode", JInt 0)].

(** *** The READ latency *)

Definition latency_command : string :=
  "LD_LIBRARY_PATH=/lib:/usr/lib urma_perftest read_lat -d udma0 --eid_idx 0 --ctp -s 128 -P 21114 -J 1 " +:+
  "-I 0 -n 128 -l 1 -Q 1 -p 0".

(** [^\s*128\s+\d+\s+([\d.]+\s+){3}([\d.]+)\s+]: the last capture. *)
Definition m_latency : matcher string := λ s,
  a ← m_sp0 s; b ← m_lit "128" a.2; c ← m_sp1 b.2; d ← m_digits c.2; e ← m_columns m_dotted 4 d.2;
  f ← m_sp1 e.2; x ← last e.1; Some (x, f.2).

Definition float_or_raise (t : string) : res spec_float :=
  or_raise (e_float v t) (Exn ValueError "could not convert string to float: {}" [PS t]).

Definition measure_latency (k : io jobj Z) : io jobj Z :=
  if s_latency s then
    must_run "read-latency" (paired latency_command) (λ text,
      match findall true m_latency text with
      | [x] => f <- lift (float_or_raise x); amend "average_us" (JFloat f) ;;; k
      | _ => amend "validation_errors" (strings ["missing unique client READ latency row"]) ;;;
             amend "returncode" (JInt 1) ;;; io_ret 1
      end)
  else k.

(** *** The READ scan *)

(** The requested depth, capped by both guests. *)
Definition capped (caps name : string) (requested : Z) : res Z :=
  match omap parse_nat (findall false (m_labelled name) caps) with
  | [a; b] =>
      raise Exn ValueError "missing both guests' capability: {name}" [PS name] when Z.min a b <=? 0 ;;
      Ok (Z.min requested (Z.min a b))
  | _ => Err (Exn ValueError "missing both guests' capability: {name}" [PS name])
  end.

(** [if read_size]. *)
Definition nonzero (size : option Z) : option Z := z ← size; if z =? 0 then None else Some z.

Definition scan_command (r t c : Z) (size : option Z) (index : nat) : string :=
  join " "
    (["LD_LIBRARY_PATH=/lib:/usr/lib"; "urma_perftest"; "read_bw"; "-d"; "udma0"; "--eid_idx"; "0"; "--ctp"] ++
     (match nonzero size with Some z => ["-s"; str_of_Z z] | None => ["-a23"] end) ++
     ["-P"; str_of_Z (21115 + Z.of_nat index); "-J"; "1"; "-R"; str_of_Z r; "-T"; str_of_Z t; "-C"; str_of_Z c;
      "-Q"; "1"; "-l"; "256"; "-n"; "16384"; "-p"; "0"]).

Definition scan_label (size : option Z) : string :=
  match s_read_sizes s with
  | Some _ => "read-" +:+ match size with Some z => str_of_Z z | None => "None" end
  | None => "requested-read-scan"
  end.

(** The rows of one size, by section; the second column is the average. *)
Definition size_rows (size : Z) (transcript : string) : list (list (string * string * list string)) :=
  (λ section, findall true (m_row (m_self (str_of_Z size)) (m_self "16384") m_dotted 3) section)
    <$> uart_sections transcript.

Definition scan_errors (size : option Z) (transcript : string) : list string :=
  match nonzero size with
  | Some z =>
      let rows := size_rows z transcript in
      if Nat.eqb (length rows) 2 && forallb (λ r, Nat.eqb (length r) 1) rows then []
      else ["missing single-size READ results"]
  | None => describe 0 <$> validate_bw_scan transcript 23 16384
  end.

Definition average_of (rows : list (string * string * list string)) : res json :=
  row ← or_raise (head rows) (Exn IndexError "list index out of range" []);
  t ← or_raise (row.2 !! 1%nat) (Exn IndexError "tuple index out of range" []);
  f ← float_or_raise t; Ok (JFloat f).

(** [^__UBSIM_RC_\d+_\d+__=\d+\s*$]. *)
Definition m_status_line : matcher string := λ t,
  a ← m_lit "__UBSIM_RC_" t; b ← m_digits a.2; c ← m_lit "_" b.2; d ← m_digits c.2; e ← m_lit "__=" d.2;
  f ← m_digits e.2; g ← m_eol f.2; Some (f.1, g.2).

Definition PROCESSES : list string :=
  ["node0/qemu"; "node1/qemu"; "udma-node0/udma"; "udma-node1/udma"; "ub-fabric/ns3"].

Definition probe (name : string) : io jobj unit := λ l, (l, e_probe v l name).

Fixpoint scan_sizes (r t c : Z) (index : nat) (failed : bool) (sizes : list (option Z)) : io jobj Z :=
  match sizes with
  | [] => io_ret (if failed then 1 else 0)
  | size :: sizes' =>
      tr <- run (scan_label size) (paired (scan_command r t c size index));
      let transcript := universal tr.1 in
      let errors := scan_errors size transcript in
      (match nonzero size with
       | Some z =>
           if bool_decide (errors = []) && (tr.2 =? 0)
           then averages <- lift (mapR average_of (size_rows z transcript));
                amend "average_mib_s" (JList averages)
           else io_ret tt
       | None => io_ret tt
       end) ;;;
      amend "validation_errors" (strings errors) ;;;
      amend "size_bytes" (match size with Some z => JInt z | None => JNull end) ;;;
      if (tr.2 =? 0) && bool_decide (errors = []) then scan_sizes r t c (S index) failed sizes'
      else if (tr.2 =? 124) || negb (Nat.eqb (length (findall true m_status_line transcript)) 2) then io_ret 1
      else each probe PROCESSES ;;; scan_sizes r t c (S index) true sizes'
  end.

(** [args.read_sizes or [args.read_size]]. *)
Definition scanned_sizes : list (option Z) :=
  match s_read_sizes s with
  | Some ((_ :: _) as l) => Some <$> l
  | _ => [s_read_size s]
  end.

Definition capabilities_command : string := "urma_admin show -d udma0 -w".

Definition user_scan : io jobj Z :=
  must_run "capabilities" (one_command capabilities_command) (λ caps,
    r <- lift (capped caps "max_jfr_depth" 8192);
    t <- lift (capped caps "max_jfs_depth" 8192);
    c <- lift (capped caps "max_jfc_depth" 524288);
    if t <? 256 then throw (bad "reported JFS capacity cannot support requested batch256")
    else scan_sizes r t c 0 false scanned_sizes).

(** *** The explicit sizes *)

Definition case_label (size : Z) : string := removesuffix (s_verb s) "_bw" +:+ "-" +:+ str_of_Z size.

Definition m_diagnostic_line : matcher string := λ t,
  a ← m_lit "[UBSIM_BW_REPORT_DIAGNOSTIC]" t;
  let '(l, r) := span (λ c, negb (Ascii.eqb c "010"%char)) a.2 in Some (l, r).

Definition transcript_errors (size : Z) (transcript : string) : list string :=
  (if s_unidirectional s then validate_unidirectional_read_output transcript (s_depth s) size (s_iterations s)
   else describe (s_depth s) <$> validate_depth_output transcript (s_depth s) size (s_iterations s) false) ++
  (if s_diagnostic s && negb (Nat.eqb (length (findall true m_diagnostic_line transcript)) 2)
   then ["missing unique report diagnostic from both endpoints"] else []).

Fixpoint run_sizes (index : nat) (sizes : list Z) : io jobj Z :=
  match sizes with
  | [] => io_ret 0
  | size :: sizes' =>
      command <- lift (explicit_command s size (21410 + Z.of_nat index) (s_diagnostic s));
      must_run (case_label size) (paired command) (λ transcript,
        let errors := transcript_errors size transcript in
        amend "validation_errors" (strings errors) ;;;
        if bool_decide (errors = []) then run_sizes (S index) sizes'
        else amend "returncode" (JInt 1) ;;; io_ret 1)
  end.

Definition limits_json (limits : list (list (string * Z))) : json :=
  JList ((λ l : list (string * Z), JObj ((λ kv : string * Z, (kv.1, JInt kv.2)) <$> l)) <$> limits).

Definition explicit_sizes : io jobj Z :=
  must_run "capabilities" (one_command capabilities_command) (λ caps,
    match validate_bw_capabilities caps (s_verb s) (s_depth s) (s_inline s) (Some (foldl Z.max 0 (s_sizes s))) with
    | Ok limits =>
        amend "bw_capabilities" (limits_json limits) ;;;
        (if String.eqb (s_verb s) "write_bw" then amend "write_capabilities" (limits_json limits) else io_ret tt) ;;;
        amend "effective_inline" (JInt (if String.eqb (s_verb s) "read_bw" then 0 else s_inline s)) ;;;
        run_sizes 0 (s_sizes s)
    | Err e =>
        if is_a (exn_cls e) ValueError then
          amend "validation_errors" (strings [exn_fmt e]) ;;; amend "returncode" (JInt 1) ;;; io_ret 1
        else throw e
    end).

(** *** The whole trial *)

(** What follows a successful launch. *)
Definition measured : io jobj Z :=
  text <- lift (e_manifest v);
  artifacts <- lift (mapR (fingerprint (parse_manifest text)) ARTIFACTS);
  emit (input_artifacts artifacts) ;;;
  lift (await_shells (e_terminals v)) ;;;
  emit shell_ready ;;;
  must_run "network" (one_command "ubsim-net-up") (λ _,
    measure_latency (if s_user_scan s then user_scan else explicit_sizes)).

Definition sample_json (sample : replies * bool) : json :=
  JObj [("processes", JObj ((λ cf : string * list (string * Z),
                               (cf.1, JObj ((λ kv : string * Z, (kv.1, JInt kv.2)) <$> cf.2))) <$> sample.1));
        ("observed_work_drained", JBool sample.2)].

Definition drain_record (observed : bool) (samples : list (replies * bool)) : jobj :=
  [("label", JStr "post-workload-drain"); ("observed_work_drained", JBool observed);
   ("samples", JList (sample_json <$> samples));
   ("scope", JStr "Live work snapshots, not global event-queue or checkpoint quiescence")].
Definition drain_failure (e : exn) : jobj :=
  [("label", JStr "post-workload-drain"); ("error", JStr (exn_fmt e)); ("observed_work_drained", JBool false)].

Definition drain : io jobj unit := λ l,
  match observe_drain 0 [] (e_turns v l) with
  | Ok (observed, samples) => emit (drain_record observed samples) l
  | Err e => if is_a (exn_cls e) OSError || is_a (exn_cls e) ValueError then emit (drain_failure e) l
             else throw e l
  end.

(** The [if launched] of the [finally]. *)
Definition shut_down : io jobj unit :=
  (if s_drain s then drain else io_ret tt) ;;;
  tr <- run "stop" ["./lab"; "stop-qemu"];
  io_ret tt.

(** The records and the result before the [finally], and whether it launched. *)
Definition body : list jobj * res Z * bool :=
  match launch_trial [] with
  | (l, Err e) => (l, Err e, false)
  | (l, Ok false) => (l, Ok 1, false)
  | (l, Ok true) => let '(l', r) := measured l in (l', r, true)
  end.

(** The records of [report.json], when it is written, and the exit status; an
    exception of the [finally] replaces the outcome. *)
Definition finalized (b : list jobj * res Z * bool) : option (list jobj) * res Z :=
  let '(l, r, launched) := b in
  match (if launched then shut_down l else (l, Ok tt)) with
  | (_, Err e) => (None, Err e)
  | (l', Ok _) => match e_copy v l' with Err e => (None, Err e) | Ok _ => (Some l', r) end
  end.
End trial.

Definition main (v : env) (s : settings) : option (list jobj) * res Z :=
  match check_settings s with
  | Err e => (None, Err e)
  | Ok s => match e_output v with Err e => (None, Err e) | Ok _ => finalized v s (body v s) end
  end.
