(* ===== verification/TrialFacts.v ===== *)
(** * Trials leave evidence that the audit reads back

    Every command line a trial may send is read back by the audit as the
    requested configuration; the drain observation is sound; and the records of
    a successful trial are those the audit asks for. *)

From Stdlib Require Import ZArith Lia Ascii.
From stdpp Require Import base strings gmap numbers option list.
From S2P Require Import Prelude PyStr Json TextScan Shlex Regression TrialAudit Trial.

Open Scope string_scope.
Open Scope list_scope.
Open Scope Z_scope.

(** ** Words that differ in their numbers only *)

Definition similar (w w' : string) : Prop := w = w' ∨ (all_digits w = true ∧ all_digits w' = true).

Lemma all_digits_str n : 0 <= n → all_digits (str_of_Z n) = true.
Proof.
  intros H. unfold all_digits. rewrite str_of_Z_digits by done.
  destruct (String.eqb_spec (str_of_Z n) EmptyString) as [E|]; [|done].
  pose proof (py_int_str n H) as P. by rewrite E in P.
Qed.

Lemma all_digits_neq p w : all_digits p = false → all_digits w = true → String.eqb p w = false.
Proof. intros Hp Hw. apply String.eqb_neq. intros ->. congruence. Qed.

Lemma similar_eqb p w w' : all_digits p = false → similar w w' → String.eqb p w = String.eqb p w'.
Proof. intros Hp [->|[H H']]; [done|]. by rewrite !all_digits_neq. Qed.

Lemma index_of_eqb p w l : index_of p (w :: l) = if String.eqb p w then Some O else S <$> index_of p l.
Proof. cbn. destruct (String.eqb_spec p w) as [->|]; [by rewrite decide_True|by rewrite decide_False]. Qed.

Lemma count_similar ws ws' p : Forall2 similar ws ws' → all_digits p = false → count p ws = count p ws'.
Proof.
  intros Hs Hp. unfold count, len. f_equal. induction Hs as [|w w' l l' Hw Hl IH]; [done|].
  cbn. rewrite (similar_eqb _ _ _ Hp Hw). destruct (String.eqb p w'); cbn; by rewrite IH.
Qed.

Lemma index_of_similar ws ws' p : Forall2 similar ws ws' → all_digits p = false → index_of p ws = index_of p ws'.
Proof.
  intros Hs Hp. induction Hs as [|w w' l l' Hw Hl IH]; [done|].
  rewrite !index_of_eqb, (similar_eqb _ _ _ Hp Hw). by rewrite IH.
Qed.

Lemma elemb_similar ws ws' p : Forall2 similar ws ws' → all_digits p = false → elemb p ws = elemb p ws'.
Proof.
  intros Hs Hp. unfold elemb. apply bool_decide_ext. induction Hs as [|w w' l l' Hw Hl IH]; [done|].
  rewrite !elem_of_cons, IH. pose proof (similar_eqb _ _ _ Hp Hw) as E.
  destruct (String.eqb_spec p w), (String.eqb_spec p w'); naive_solver.
Qed.

Lemma no_scan_similar ws ws' :
  Forall2 similar ws ws' →
  existsb (λ a, startswith a "-a") ws = existsb (λ a, startswith a "-a") ws'.
Proof.
  induction 1 as [|w w' l l' Hw Hl IH]; [done|]. cbn. rewrite IH. f_equal.
  destruct Hw as [->|[H H']]; [done|].
  assert (∀ t, all_digits t = true → startswith t "-a" = false) as N; [|by rewrite !N].
  intros t Ht. unfold startswith. destruct t as [|c t]; [done|]. cbn.
  unfold all_digits in Ht. cbn in Ht. apply andb_true_iff in Ht as [_ [Hc _]%andb_true_iff].
  destruct (Ascii.eqb_spec "-" c) as [<-|]; [done|]. apply bool_decide_eq_false. by intros [??].
Qed.

Lemma check_flags_similar n ws ws' :
  (length ws < n)%nat → Forall2 similar ws ws' → check_flags ws' = Ok tt → check_flags ws = Ok tt.
Proof.
  revert ws ws'. induction n as [|n IH]; intros ws ws' Hn Hs H; [lia|].
  assert (∀ f f', similar f f' → ∀ l, forallb (λ x, negb (all_digits x)) l = true → elemb f l = elemb f' l) as M.
  { intros f f' Hf l Hl. unfold elemb. apply bool_decide_ext. destruct Hf as [->|[D D']]; [done|].
    assert (∀ g, all_digits g = true → g ∉ l) as N; [|split; intros Hin; exfalso; by eapply N; [|exact Hin]].
    intros g Dg Hin. apply list_elem_of_In in Hin.
    pose proof (proj1 (List.forallb_forall _ l) Hl g Hin) as X. cbn in X. by rewrite Dg in X. }
  destruct Hs as [|f f' l l' Hf Hl]; [done|]. cbn [check_flags] in H |- *.
  rewrite (M _ _ Hf) by reflexivity. destruct (elemb f' ["-B"; "--ctp"]) eqn:E.
  { eapply IH; [|exact Hl|exact H]. cbn in Hn. lia. }
  destruct Hl as [|g g' l l' _ Hl]; [done|]. rewrite (M _ _ Hf) by reflexivity.
  destruct (negb (elemb f' value_flags)); [done|]. eapply IH; [|exact Hl|exact H]. cbn in Hn. lia.
Qed.

Lemma flag_value_num ws ws' flag i n :
  Forall2 similar ws ws' → all_digits flag = false → count flag ws' = 1 → index_of flag ws' = Some i →
  ws !! S i = Some (str_of_Z n) → 0 <= n → (flag ≠ "-I" → 0 < n) → flag_value ws flag = Ok (flag, n).
Proof.
  intros Hs Hd Hc Hi Hl Hn Hp. unfold flag_value, after.
  rewrite (count_similar _ _ _ Hs), Hc, (index_of_similar _ _ _ Hs), Hi by done. cbn. rewrite Hl. cbn.
  rewrite py_int_str by done. cbn. destruct (String.eqb_spec flag "-I") as [->|Hne]; cbn.
  - destruct (Z.leb_spec 0 n); [done|lia].
  - destruct (Z.ltb_spec 0 n); [done|]. specialize (Hp Hne). lia.
Qed.

(** ** The audit reads back every command of a trial *)

(** The configuration a trial asks for. *)
Definition requested (verb : string) (size iterations depth post_list cq_mod inline_size : Z) (unidirectional : bool)
    : config :=
  Config (removesuffix verb "_bw") (negb unidirectional)
    ([("-s", size); ("-n", iterations); ("-T", depth); ("-J", 1); ("-l", post_list); ("-Q", cq_mod);
      ("-I", if String.eqb verb "read_bw" then 0 else inline_size)] ++
     (if String.eqb verb "write_bw" then [] else [("-R", depth)])).

Lemma join_client ws : ws ≠ [] → client_of (join " " ws) = join " " (ws ++ ["-S"; "10.0.0.1"]).
Proof. intros H. by rewrite join_app. Qed.

(** The same words with 1 for every number. *)
Definition shape (verb : string) (diagnostic unidirectional : bool) : list string :=
  bw_words verb 1 1 1 1 1 1 (if String.eqb verb "read_bw" then 0 else 1) diagnostic unidirectional.

Definition prefix_token (token : string) : bool :=
  startswith token "LD_LIBRARY_PATH=" || String.eqb token "UBSIM_BW_REPORT_DIAGNOSTIC=1".

(** What the audit asks of the words besides their numbers. *)
Definition well_shaped (ws : list string) (verb : string) (two_way : bool) (r : role) : bool :=
  elemb "urma_perftest" ws &&
  bool_decide (List.filter (λ x, elemb (x +:+ "_bw") ws) ["write"; "read"; "send"] = [verb]) &&
  (count "-B" ws <=? 1) && Bool.eqb (elemb "-B" ws) two_way && (two_way || String.eqb verb "read") &&
  forallb prefix_token
    (take (default 0%nat (index_of "urma_perftest" ws)) ws) &&
  is_ok (check_flags (drop (default 0%nat (index_of "urma_perftest" ws) + 2) ws)) &&
  (count "--ctp" ws =? 1) && (count "-d" ws =? 1) && (count "--eid_idx" ws =? 1) &&
  match r with ServerRole => negb (elemb "-S" ws) | ClientRole => count "-S" ws =? 1 end &&
  negb (existsb (λ arg, startswith arg "-a") ws).

(** The words after the three literal options. *)
Definition targets (ws : list string) (r : role) : Prop :=
  after "-d" ws = Some "udma0" ∧ after "--eid_idx" ws = Some "0" ∧
  match r with ServerRole => True | ClientRole => after "-S" ws = Some "10.0.0.1" end.

Lemma prefix_similar ws ws' (P : string → bool) :
  (∀ w, all_digits w = true → P w = false) → Forall2 similar ws ws' → forallb P ws' = true → forallb P ws = true.
Proof.
  intros HP. induction 1 as [|w w' l l' Hw Hl IH]; [done|]. cbn. intros [H1 H2]%andb_true_iff.
  rewrite IH by done. destruct Hw as [->|[_ D]]; [by rewrite H1|]. by rewrite HP in H1.
Qed.

Lemma digits_no_prefix w c p : is_digit c = false → all_digits w = true → startswith w (String c p) = false.
Proof.
  intros Hc Hw. apply not_true_iff_false. intros [r ->]%startswith_spec.
  unfold all_digits in Hw. cbn in Hw. rewrite Hc in Hw. cbn in Hw. by rewrite andb_false_r in Hw.
Qed.

Lemma prefix_token_digits w : all_digits w = true → prefix_token w = false.
Proof.
  intros D. unfold prefix_token.
  rewrite digits_no_prefix, String.eqb_sym, all_digits_neq; done || (vm_compute; reflexivity).
Qed.

Lemma command_config_words ws ws' verb two_way r values :
  Forall (λ w, plain_word w = true) ws → Forall2 similar ws ws' →
  well_shaped ws' verb two_way r = true → targets ws r →
  mapR (flag_value ws) (["-s"; "-n"; "-T"; "-J"; "-l"; "-Q"; "-I"] ++
                        (if elemb verb ["read"; "send"] || elemb "-R" ws' then ["-R"] else [])) = Ok values →
  dget values "-J" = Some 1 → (verb = "read" → dget values "-I" = Some 0) →
  (verb = "send" → ∃ z, dget values "-s" = Some z ∧ z <= 4096) →
  command_config (join " " ws) r = Ok (Config verb two_way values).
Proof.
  intros Hp Hs Hw (Hd & He & HS) Hv HJ HI Hz. unfold well_shaped in Hw.
  apply andb_true_iff in Hw as [Hw Hscan]. apply andb_true_iff in Hw as [Hw Hrole].
  apply andb_true_iff in Hw as [Hw Ceid]. apply andb_true_iff in Hw as [Hw Cd].
  apply andb_true_iff in Hw as [Hw Cctp]. apply andb_true_iff in Hw as [Hw Hflags].
  apply andb_true_iff in Hw as [Hw Hprefix]. apply andb_true_iff in Hw as [Hw Hone].
  apply andb_true_iff in Hw as [Hw Htwo]. apply andb_true_iff in Hw as [Hw Cb].
  apply andb_true_iff in Hw as [Hexe Hverb]. apply bool_decide_eq_true in Hverb.
  unfold command_config, require. rewrite shlex_split_join by done. cbn [mbind res_bind].
  rewrite (elemb_similar _ _ "urma_perftest" Hs) by done.
  assert (List.filter (λ x, elemb (x +:+ "_bw") ws) ["write"; "read"; "send"] = [verb]) as ->.
  { rewrite <- Hverb. apply filter_ext_in. intros x Hx. apply elemb_similar; [done|].
    by repeat destruct Hx as [<-|Hx]. }
  rewrite Hexe. cbn [mbind res_bind].
  rewrite (count_similar _ _ "-B" Hs), Cb, (elemb_similar _ _ "-B" Hs) by done.
  apply Bool.eqb_prop in Htwo as ->. rewrite Hone, (index_of_similar _ _ "urma_perftest" Hs) by done.
  cbn [mbind res_bind].
  change (λ token, startswith token "LD_LIBRARY_PATH=" || String.eqb token "UBSIM_BW_REPORT_DIAGNOSTIC=1")
    with prefix_token.
  rewrite (prefix_similar _ _ prefix_token prefix_token_digits (Forall2_take _ _ _ _ Hs) Hprefix).
  rewrite (check_flags_similar _ _ _ (Nat.lt_succ_diag_r _) (Forall2_drop _ _ _ _ Hs))
    by (by destruct (check_flags _) as [[]|]).
  rewrite (count_similar _ _ "--ctp" Hs), Cctp, (count_similar _ _ "-d" Hs), Cd by done.
  rewrite (count_similar _ _ "--eid_idx" Hs), Ceid, Hd, He by done.
  rewrite !bool_decide_eq_true_2 by done. cbn [andb mbind res_bind].
  assert (check_role ws r = Ok tt) as ->.
  { destruct r; cbn; unfold require; [by rewrite (elemb_similar _ _ "-S" Hs), Hrole by done|].
    rewrite (count_similar _ _ "-S" Hs), Hrole, HS by done. by rewrite bool_decide_eq_true_2. }
  cbn [mbind res_bind]. rewrite (elemb_similar _ _ "-R" Hs), Hv by done. cbn [mbind res_bind].
  unfold value. cbn [g_values]. rewrite HJ. cbn [default]. change (1 =? 1) with true. cbn [mbind res_bind].
  rewrite (no_scan_similar _ _ Hs), Hscan.
  assert (negb (String.eqb verb "read") || (default 0 (dget values "-I") =? 0) = true) as ->.
  { destruct (String.eqb_spec verb "read") as [->|]; [|done]. by rewrite HI. }
  assert (negb (String.eqb verb "send") || (default 0 (dget values "-s") <=? 4096) = true) as ->; [|done].
  destruct (String.eqb_spec verb "send") as [->|]; [|done]. destruct Hz as (z & -> & Hz); [done|].
  cbn. by apply Z.leb_le.
Qed.

Section numbers.
Context (size port iterations depth post_list cq_mod inline_size : Z)
  (Hsize : 0 < size) (Hport : 0 < port) (Hit : 0 < iterations) (Hdepth : 0 < depth)
  (Hpost : 0 < post_list) (Hcq : 0 < cq_mod) (Hinline : 0 <= inline_size).

Local Ltac num := first [lia | assumption].

Lemma words_plain verb diagnostic unidirectional :
  verb ∈ BW_VERBS →
  Forall (λ w, plain_word w = true)
    (bw_words verb size port iterations depth post_list cq_mod inline_size diagnostic unidirectional).
Proof using All.
  intros Hv. assert (plain_word verb = true) as Pv.
  { unfold BW_VERBS in Hv. repeat (apply elem_of_cons in Hv as [->|Hv]; [reflexivity|]). by apply elem_of_nil in Hv. }
  unfold bw_words. repeat (apply Forall_app; split);
    repeat match goal with |- Forall _ (if ?b then _ else _) => destruct b end;
    repeat (apply Forall_cons; split); try apply Forall_nil_2; try exact Pv;
    match goal with |- plain_word (str_of_Z _) = true => apply plain_num | _ => reflexivity end.
Qed.

Lemma words_similar verb diagnostic unidirectional :
  (String.eqb verb "read_bw" = true → inline_size = 0) →
  Forall2 similar (bw_words verb size port iterations depth post_list cq_mod inline_size diagnostic unidirectional)
    (shape verb diagnostic unidirectional).
Proof using All.
  intros Hr. unfold shape, bw_words. repeat apply Forall2_app;
    repeat match goal with |- Forall2 _ (if ?b then _ else _) _ => destruct b end;
    repeat (apply Forall2_cons; split); try apply Forall2_nil_2;
    first [left; reflexivity | right; split; apply all_digits_str; num | idtac].
  destruct (String.eqb verb "read_bw"); [left; by rewrite Hr|right; split; apply all_digits_str; num].
Qed.
End numbers.

(** What an accepted command asked for. *)
Lemma bw_command_Ok verb size port iterations depth post_list cq_mod inline_size diagnostic unidirectional text :
  bw_command verb size port iterations depth post_list cq_mod inline_size diagnostic unidirectional = Ok text →
  verb ∈ BW_VERBS ∧ (unidirectional = true → verb = "read_bw" ∧ diagnostic = false) ∧
  0 < size ∧ 0 < port ∧ 0 < iterations ∧ 0 < depth ∧ 0 < post_list ∧ 0 < cq_mod ∧ 0 <= inline_size ∧
  (verb = "send_bw" → size <= 4096) ∧
  text = join " " (bw_words verb size port iterations depth post_list cq_mod
                     (if String.eqb verb "read_bw" then 0 else inline_size) diagnostic unidirectional).
Proof.
  unfold bw_command. intros H.
  destruct (unidirectional && _) eqn:Eu; [done|]. destruct (negb (elemb verb BW_VERBS)) eqn:Ev; [done|].
  destruct (existsb _ _) eqn:Ep; [done|]. destruct (iterations <? depth); [done|].
  destruct (String.eqb verb "send_bw" && _) eqn:Es; [done|].
  destruct ((depth <? _) || _); [done|]. destruct (negb _ || negb _); [done|]. destruct ((1 <? _) && _); [done|].
  destruct (inline_size <? 0) eqn:Ei; [done|]. injection H as <-. cbn [existsb] in Ep. bool_inv.
  split_and!; try done; try lia.
  - intros ->. cbn in Eu. bool_inv. done.
  - intros ->. change (String.eqb "send_bw" "send_bw") with true in Es. cbn in Es. bool_inv. lia.
Qed.

(** The words one endpoint is started with. *)
Definition endpoint_words (r : role) (ws : list string) : list string :=
  match r with ServerRole => ws | ClientRole => ws ++ ["-S"; "10.0.0.1"] end.

Section audited_command.
Context (verb : string) (size port iterations depth post_list cq_mod inline_size : Z)
  (diagnostic unidirectional : bool) (r : role).
Context (Hsize : 0 < size) (Hport : 0 < port) (Hit : 0 < iterations) (Hdepth : 0 < depth)
  (Hpost : 0 < post_list) (Hcq : 0 < cq_mod) (Hinline : 0 <= inline_size)
  (Hsend : verb = "send_bw" → size <= 4096)
  (Hverb : verb ∈ BW_VERBS) (Huni : unidirectional = true → verb = "read_bw" ∧ diagnostic = false).

Definition sent : list string :=
  endpoint_words r (bw_words verb size port iterations depth post_list cq_mod
                      (if String.eqb verb "read_bw" then 0 else inline_size) diagnostic unidirectional).

Lemma sent_plain : Forall (λ w, plain_word w = true) sent.
Proof using All.
  assert (0 <= (if String.eqb verb "read_bw" then 0 else inline_size)) by (by destruct (String.eqb _ _)).
  unfold sent, endpoint_words. destruct r; [by apply words_plain|].
  apply Forall_app. split; [by apply words_plain|]. by repeat constructor.
Qed.

Lemma sent_similar : Forall2 similar sent (endpoint_words r (shape verb diagnostic unidirectional)).
Proof using All.
  assert (0 <= (if String.eqb verb "read_bw" then 0 else inline_size)) by (by destruct (String.eqb _ _)).
  assert (String.eqb verb "read_bw" = true → (if String.eqb verb "read_bw" then 0 else inline_size) = 0)
    by (by intros ->).
  unfold sent, endpoint_words. destruct r; [by apply words_similar|].
  apply Forall2_app; [by apply words_similar|]. repeat constructor; by left.
Qed.

(** [verb], [diagnostic], [unidirectional] and the role made concrete. *)
Ltac each_shape :=
  unfold BW_VERBS in Hverb; repeat (apply elem_of_cons in Hverb as [Hverb|Hverb]); [..|by apply elem_of_nil in Hverb];
  destruct unidirectional; try (destruct (Huni eq_refl) as [? ?]; congruence);
  destruct diagnostic; try (destruct (Huni eq_refl) as [? ?]; congruence); destruct r.

Lemma sent_shaped :
  well_shaped (endpoint_words r (shape verb diagnostic unidirectional)) (removesuffix verb "_bw")
    (negb unidirectional) r = true.
Proof using Hverb Huni.
  each_shape; rewrite Hverb; vm_compute; reflexivity.
Qed.

Lemma sent_targets : targets sent r.
Proof using All.
  pose proof sent_similar as S. unfold targets, after.
  rewrite (index_of_similar _ _ "-d" S), (index_of_similar _ _ "--eid_idx" S), (index_of_similar _ _ "-S" S)
    by reflexivity.
  clear S. unfold sent. each_shape; rewrite Hverb; split_and!; done || reflexivity.
Qed.

Definition asked : list (string * Z) :=
  g_values (requested verb size iterations depth post_list cq_mod inline_size unidirectional).

Lemma sent_values :
  mapR (flag_value sent)
    (["-s"; "-n"; "-T"; "-J"; "-l"; "-Q"; "-I"] ++
     (if elemb (removesuffix verb "_bw") ["read"; "send"] ||
         elemb "-R" (endpoint_words r (shape verb diagnostic unidirectional)) then ["-R"] else [])) = Ok asked.
Proof using All.
  pose proof sent_similar as S. revert S. unfold asked, requested, sent. cbn [g_values].
  each_shape; rewrite Hverb; intros S; apply mapR_Ok;
    (match goal with |- Forall2 _ ?l _ => let l' := eval vm_compute in l in change l with l' end);
    repeat (apply Forall2_cons; split); try apply Forall2_nil_2;
    (eapply flag_value_num; [exact S|reflexivity|vm_compute; reflexivity|vm_compute; reflexivity|reflexivity|..];
      first [lia | done]).
Qed.

Lemma sent_config :
  command_config (join " " sent) r =
  Ok (requested verb size iterations depth post_list cq_mod inline_size unidirectional).
Proof using All.
  rewrite (command_config_words _ _ _ _ _ _ sent_plain sent_similar sent_shaped sent_targets sent_values);
    unfold asked, requested; cbn [g_values].
  - done.
  - done.
  - intros H. unfold BW_VERBS in Hverb.
    repeat (apply elem_of_cons in Hverb as [E|Hverb]; [rewrite E in H |- *; try discriminate H; done|]).
    by apply elem_of_nil in Hverb.
  - intros H. exists size. split; [done|]. apply Hsend. unfold BW_VERBS in Hverb.
    repeat (apply elem_of_cons in Hverb as [E|Hverb]; [rewrite E in H; try discriminate H; done|]).
    by apply elem_of_nil in Hverb.
Qed.
End audited_command.

Lemma bw_command_config verb size port iterations depth post_list cq_mod inline_size diagnostic unidirectional text :
  bw_command verb size port iterations depth post_list cq_mod inline_size diagnostic unidirectional = Ok text →
  let c := requested verb size iterations depth post_list cq_mod inline_size unidirectional in
  command_config text ServerRole = Ok c ∧ command_config (client_of text) ClientRole = Ok c.
Proof.
  intros (Hv & Hu & Hs & Hp & Hi & Hd & Hl & Hq & Hn & Hsend & ->)%bw_command_Ok.
  split; [by apply (sent_config _ size port _ depth _ _ inline_size diagnostic _ ServerRole)|].
  rewrite join_client.
  - by apply (sent_config _ size port _ depth _ _ inline_size diagnostic _ ClientRole).
  - unfold bw_words. by destruct diagnostic.
Qed.

(** C21: the audit reads every command line the trial accepts to send, on the
    server's side and with the client's destination added, as exactly the
    configuration that was requested, whose constraints hold. *)
Theorem bw_command_audited verb size port iterations depth post_list cq_mod inline_size diagnostic unidirectional text :
  bw_command verb size port iterations depth post_list cq_mod inline_size diagnostic unidirectional = Ok text →
  let c := requested verb size iterations depth post_list cq_mod inline_size unidirectional in
  command_config text ServerRole = Ok c ∧ command_config (client_of text) ClientRole = Ok c ∧
  0 < value c "-s" ∧ 0 < value c "-n" ∧ (g_verb c = "send" → value c "-s" <= 4096).
Proof.
  intros H. cbv zeta. destruct (bw_command_config _ _ _ _ _ _ _ _ _ _ _ H) as [H1 H2].
  split; [exact H1|]. split; [exact H2|]. clear H1 H2.
  apply bw_command_Ok in H as (Hv & _ & Hs & _ & Hi & _ & _ & _ & _ & Hsend & _).
  split_and!; [exact Hs|exact Hi|]. intros E. apply Hsend. unfold BW_VERBS in Hv.
  repeat (apply elem_of_cons in Hv as [->|Hv]; [try discriminate E; done|]). by apply elem_of_nil in Hv.
Qed.

Lemma bw_command_audited_witness :
  is_ok (bw_command "read_bw" 65536 21410 64 64 16 16 64 false true) = true ∧
  ∀ text, bw_command "read_bw" 65536 21410 64 64 16 16 64 false true = Ok text →
    command_config text ServerRole =
      Ok (Config "read" false [("-s", 65536); ("-n", 64); ("-T", 64); ("-J", 1); ("-l", 16); ("-Q", 16); ("-I", 0);
                               ("-R", 64)]).
Proof.
  split; [vm_compute; reflexivity|]. intros text H.
  exact (proj1 (bw_command_audited "read_bw" 65536 21410 64 64 16 16 64 false true text H)).
Defined.

(** ** The drain observation *)

(** The component reported the counters [fields] in a complete line that it
    logged after the turn's request. *)
Definition reported (u : turn) (component marker : string) (fields : list (string * Z)) : Prop :=
  ∃ texts i text line, Ok texts ∈ u_polls u ∧ drain_specs !! i = Some (component, marker) ∧
    texts !! i = Some text ∧ line ∈ keep_lines text ∧ is_report marker line = true ∧ fields = line_counters line.

(** Every component reported that it has no work left. *)
Definition idle_turn (u : turn) : Prop :=
  (∀ component, component ∈ ["udma-node0/udma"; "udma-node1/udma"] →
     ∃ fields, reported u component "UDMA_PROGRESS" fields ∧ dget fields "quiescent" = Some 1) ∧
  (∃ fields, reported u "ub-fabric/ns3" "NS3_UB_NET_PROGRESS" fields ∧ dget fields "outputs_empty" = Some 1 ∧
     ∀ key, key ∈ ["native_tasks"; "pending_target_dma"; "scheduled_packets"] → dget fields key = Some 0).

(** What has been found so far was reported. *)
Definition found_ok (u : turn) (found : replies) : Prop :=
  ∀ component fields, dget found component = Some fields →
    ∃ marker, (component, marker) ∈ drain_specs ∧ reported u component marker fields.

Lemma foldl_read_ok u found spec texts i text lines :
  found_ok u found → Ok texts ∈ u_polls u → drain_specs !! i = Some spec → texts !! i = Some text →
  (∀ line, line ∈ lines → line ∈ keep_lines text ∧ is_report spec.2 line = true) →
  found_ok u (foldl (λ r line, dset r spec.1 (line_counters line)) found lines).
Proof.
  intros Hf Hp Hi Ht. revert found Hf. induction lines as [|line lines IH]; intros found Hf Hl; [done|]. cbn.
  apply IH; [|intros; apply Hl; by right]. intros component fields. rewrite dget_dset.
  destruct (String.eqb_spec component spec.1) as [->|]; [|apply Hf]. intros [= <-].
  exists spec.2. split; [apply list_elem_of_lookup_2 in Hi; by destruct spec|].
  exists texts, i, text, line. destruct (Hl line) as [? ?]; [by left|]. destruct spec. by split_and!.
Qed.

Lemma zip_read_ok u texts pre specs later found :
  drain_specs = pre ++ specs → Ok texts ∈ u_polls u → drop (length pre) texts = later →
  found_ok u found → found_ok u (foldl read_replies found (zip specs later)).
Proof.
  revert pre later found. induction specs as [|spec specs IH]; intros pre later found E Hp Hd Hf; [done|].
  destruct later as [|text later]; [done|]. cbn [zip_with foldl].
  assert (texts !! length pre = Some text) as Ht.
  { rewrite <- (Nat.add_0_r (length pre)), <- lookup_drop, Hd. done. }
  apply (IH (pre ++ [spec])); [by rewrite <- app_assoc|done| |].
  { rewrite length_app. cbn. rewrite <- drop_drop, Hd. done. }
  destruct spec as [component marker]. cbn [read_replies].
  apply (foldl_read_ok u found (component, marker) texts (length pre) text); [done..| | |].
  - rewrite E. by apply list_lookup_middle.
  - done.
  - intros line Hl. apply list_elem_of_In, filter_In in Hl as [Hl Hr]. by apply list_elem_of_In in Hl.
Qed.

Lemma poll_ok u polls found found' :
  (∀ p, p ∈ polls → p ∈ u_polls u) → found_ok u found → poll_replies found polls = Ok found' → found_ok u found'.
Proof.
  revert found. induction polls as [|p polls IH]; intros found Hin Hf H; cbn in H; [by simplify_eq|].
  apply bind_Ok in H as (texts & -> & H).
  assert (found_ok u (foldl read_replies found (zip drain_specs texts))) as Hf'.
  { apply (zip_read_ok u texts []); [done| |done|done]. apply Hin. by left. }
  destruct (Nat.eqb _ _); [by simplify_eq|]. eapply IH; [|exact Hf'|exact H]. intros; apply Hin. by right.
Qed.

Lemma counter_reported u found component key z marker :
  found_ok u found → counter found component key = Some z →
  (∀ m, (component, m) ∈ drain_specs → m = marker) →
  ∃ fields, dget found component = Some fields ∧ reported u component marker fields ∧ dget fields key = Some z.
Proof.
  intros Hf Hc Hm. unfold counter in Hc. destruct (dget found component) as [fields|] eqn:E; [|done]. cbn in Hc.
  destruct (Hf _ _ E) as (m & Hin & Hr). rewrite <- (Hm m Hin). by exists fields.
Qed.

Lemma drained_idle u found : found_ok u found → drained found = true → idle_turn u.
Proof.
  intros Hf H. unfold drained in H. apply andb_true_iff in H as [H Ho]. apply andb_true_iff in H as [Hq Hk].
  apply bool_decide_eq_true in Ho. split.
  - intros component Hc. apply list_elem_of_In in Hc.
    pose proof (proj1 (List.forallb_forall _ _) Hq _ Hc) as E. apply bool_decide_eq_true in E.
    destruct (counter_reported _ _ _ _ _ "UDMA_PROGRESS" Hf E) as (fields & _ & Hr & Hz); [|by exists fields].
    intros m Hm. apply list_elem_of_In in Hm.
    repeat destruct Hc as [<-|Hc]; try done; repeat destruct Hm as [Hm|Hm]; try done; by injection Hm as <-.
  - assert (∀ m, ("ub-fabric/ns3", m) ∈ drain_specs → m = "NS3_UB_NET_PROGRESS") as Hm.
    { intros m Hm. apply list_elem_of_In in Hm. repeat destruct Hm as [Hm|Hm]; try done; by injection Hm as <-. }
    destruct (counter_reported _ _ _ _ _ _ Hf Ho Hm) as (fields & Hd & Hr & Hz). exists fields. split_and!; [done..|].
    intros key Hin. apply list_elem_of_In in Hin.
    pose proof (proj1 (List.forallb_forall _ _) Hk _ Hin) as E. apply bool_decide_eq_true in E.
    unfold counter in E. by rewrite Hd in E.
Qed.

(** Two neighbours satisfy the predicate. *)
Fixpoint adjacent {A} (P : A → bool) (l : list A) : bool :=
  match l with
  | a :: ((b :: _) as l') => (P a && P b) || adjacent P l'
  | _ => false
  end.

Lemma adjacent_snoc {A} (P : A → bool) l a b :
  adjacent P ((l ++ [a]) ++ [b]) = adjacent P (l ++ [a]) || (P a && P b).
Proof.
  induction l as [|x l IH]; cbn; [by rewrite orb_false_r|].
  destruct l as [|y l]; cbn in *; [by rewrite !orb_false_r|]. rewrite IH. by rewrite orb_assoc.
Qed.
Lemma adjacent_single {A} (P : A → bool) a : adjacent P [a] = false.
Proof. done. Qed.

(** The loop's variables after the turns [done_]. *)
Record observing (done_ : list turn) (consecutive : Z) (samples : list (replies * bool)) : Prop := {
  ob_samples : Forall2 (λ u x, found_ok u x.1 ∧ x.2 = drained x.1) done_ samples;
  ob_last : consecutive = match last samples with Some x => if x.2 : bool then 1 else 0 | None => 0 end;
  ob_none : adjacent snd samples = false
}.

Lemma observe_spec turns done_ consecutive samples b samples' :
  observing done_ consecutive samples → observe_drain consecutive samples turns = Ok (b, samples') →
  ∃ ran, ran `prefix_of` turns ∧
    Forall2 (λ u x, found_ok u x.1 ∧ x.2 = drained x.1) (done_ ++ ran) samples' ∧
    if b then ∃ pre x y, samples' = pre ++ [x; y] ∧ x.2 = true ∧ y.2 = true
    else ran = turns ∧ adjacent snd samples' = false.
Proof.
  revert done_ consecutive samples. induction turns as [|u turns IH]; intros done_ consecutive samples O H.
  { cbn in H. injection H as <- <-. exists []. destruct O as [O1 O2 O3]. rewrite app_nil_r. split_and!; [done..|].
    destruct (2 <=? consecutive) eqn:E; [|done]. apply Z.leb_le in E.
    revert O2. destruct (last samples) as [[? []]|]; cbn; lia. }
  cbn [observe_drain] in H. apply bind_Ok in H as ([] & _ & H). apply bind_Ok in H as (found & Hp & H). cbv zeta in H.
  assert (found_ok u found) as Hf.
  { eapply poll_ok; [|..|exact Hp]; [done|]. by intros ? ?. }
  destruct O as [O1 O2 O3]. set (d := drained found) in *.
  assert (Forall2 (λ u x, found_ok u x.1 ∧ x.2 = drained x.1) (done_ ++ [u]) (samples ++ [(found, d)])) as O1'.
  { apply Forall2_app; [done|]. by repeat constructor. }
  destruct (2 <=? _) eqn:E.
  - injection H as <- <-. exists [u]. split_and!; [by exists turns|done|]. apply Z.leb_le in E.
    destruct d eqn:Ed; [|lia]. destruct (last samples) as [x|] eqn:El; [|lia].
    apply last_Some in El as (pre & ->). destruct x as [x []]; cbn in O2; [|lia].
    exists pre, (x, true), (found, true). split_and!; [|done..]. by rewrite <- app_assoc.
  - assert (observing (done_ ++ [u]) (if d then consecutive + 1 else 0) (samples ++ [(found, d)])) as O'.
    { apply Z.leb_gt in E. split; [done|..].
      - rewrite last_snoc. cbn [snd]. destruct d; [|done].
        revert O2 E. destruct (last samples) as [[? []]|]; cbn; lia.
      - destruct samples as [|x samples] using rev_ind; [done|]. rewrite adjacent_snoc, O3. cbn [snd orb].
        rewrite last_snoc in O2. destruct d; [|by rewrite andb_false_r].
        destruct x as [x []]; cbn in *; [lia|done]. }
    destruct (IH _ _ _ O' H) as (ran & Hpre & H1 & H2).
    exists (u :: ran). rewrite <- app_assoc in H1. split_and!; [by apply prefix_cons|done|].
    destruct b; [done|]. by destruct H2 as [-> ?].
Qed.

(** The observation reports a drain exactly when its last two samples were
    drained, and then in both turns each device reported itself quiescent and
    the fabric reported no task, transfer or packet, in complete lines logged
    after that turn's request; otherwise every turn was sampled and no two
    neighbours were drained. *)
Theorem observe_drain_sound turns b samples :
  observe_drain 0 [] turns = Ok (b, samples) →
  if b then ∃ pre u1 u2 post, turns = pre ++ u1 :: u2 :: post ∧ idle_turn u1 ∧ idle_turn u2 ∧
              length samples = (length pre + 2)%nat
  else length samples = length turns ∧ adjacent snd samples = false.
Proof.
  intros H. destruct (observe_spec turns [] 0 [] b samples) as (ran & [post ->] & H1 & H2); [|done|].
  { split; [constructor|done..]. }
  cbn in H1. destruct b.
  - destruct H2 as (pre & x & y & -> & Ex & Ey).
    apply Forall2_app_inv_r in H1 as (pre' & tl & Hpre & Ht & ->).
    apply Forall2_cons_inv_r in Ht as (u1 & tl' & [F1 D1] & Ht & ->).
    apply Forall2_cons_inv_r in Ht as (u2 & tl'' & [F2 D2] & Ht & ->).
    apply Forall2_nil_inv_r in Ht as ->.
    exists pre', u1, u2, post. rewrite <- app_assoc. split_and!; [done|..].
    + eapply drained_idle; [exact F1|]. by rewrite <- D1.
    + eapply drained_idle; [exact F2|]. by rewrite <- D2.
    + rewrite length_app. cbn. by rewrite (Forall2_length _ _ _ Hpre).
  - destruct H2 as [E ?]. split; [|done]. rewrite <- E. symmetry. by apply (Forall2_length _ _ _ H1).
Qed.

Definition quiet_device : string := line "[UDMA_PROGRESS] quiescent=1".
Definition quiet_fabric : string :=
  line "[NS3_UB_NET_PROGRESS] native_tasks=0 pending_target_dma=0 scheduled_packets=0 outputs_empty=1".
Definition busy_turn : turn := Turn (Ok tt) [Ok [quiet_device; line "[UDMA_PROGRESS] quiescent=0"; quiet_fabric]].
(** The fabric's line arrives in two pieces. *)
Definition quiet_turn : turn :=
  Turn (Ok tt) [Ok [quiet_device; quiet_device; "[NS3_UB_NET"]; Ok [quiet_device; quiet_device; quiet_fabric]].

Lemma observe_drain_sound_witness :
  ∃ samples, observe_drain 0 [] [busy_turn; quiet_turn; quiet_turn; busy_turn] = Ok (true, samples) ∧
    length samples = 3%nat.
Proof.
  eexists. split; [vm_compute; reflexivity|].
  pose proof (observe_drain_sound [busy_turn; quiet_turn; quiet_turn; busy_turn] true _
                ltac:(vm_compute; reflexivity)) as (pre & u1 & u2 & post & _ & _ & _ & H).
  vm_compute. reflexivity.
Defined.

(** ** The evidence of a successful trial *)

Lemma bind_inv {E A B} (m : io E A) (k : A → io E B) l l' b :
  io_bind m k l = (l', Ok b) → ∃ l1 a, m l = (l1, Ok a) ∧ k a l1 = (l', Ok b).
Proof. unfold io_bind. destruct (m l) as [l1 [a|e]]; [by eauto|done]. Qed.

Lemma lift_inv {E A} (m : res A) (l l' : list E) a : lift m l = (l', Ok a) → l' = l ∧ m = Ok a.
Proof. unfold lift. by intros [= <- ->]. Qed.

Lemma amend_last_snoc key x l r : amend_last key x (l ++ [r]) = l ++ [dset r key x].
Proof. induction l as [|y l IH]; [done|]. cbn. rewrite IH. by destruct l. Qed.

Section trial.
Context (v : env) (s : settings).

Lemma run_inv label command l l' text rc :
  run v label command l = (l', Ok (text, rc)) → l' = l ++ [record label command rc].
Proof. unfold run. destruct (e_run v l command) as [[]|]; intros [= <- _ <-]; done. Qed.

Lemma must_run_0 label command k l l' :
  must_run v label command k l = (l', Ok 0) →
  ∃ text, k text (l ++ [record label command 0]) = (l', Ok 0).
Proof.
  unfold must_run. intros (l1 & [text rc] & Hr & H)%bind_inv. cbn in H.
  destruct (Z.eqb_spec rc 0) as [->|]; [|done]. apply run_inv in Hr as ->. by eexists.
Qed.

(** The record of one measured size. *)
Definition evidence (size : Z) (command : string) : jobj :=
  [("label", JStr (case_label s size)); ("command", strings (paired s command)); ("returncode", JInt 0);
   ("validation_errors", JList [])].

Lemma run_sizes_0 index sizes l l' :
  run_sizes v s index sizes l = (l', Ok 0) →
  ∃ records, l' = l ++ records ∧
    Forall2 (λ size r, ∃ i command, explicit_command s size (21410 + i) (s_diagnostic s) = Ok command ∧
                         r = evidence size command) sizes records.
Proof.
  revert index l. induction sizes as [|size sizes IH]; intros index l H; cbn [run_sizes] in H.
  { injection H as <-. exists []. rewrite app_nil_r. split; [done|constructor]. }
  apply bind_inv in H as (l1 & command & Hc & H). apply lift_inv in Hc as [-> Hc].
  apply must_run_0 in H as (text & H). cbv zeta in H. apply bind_inv in H as (l2 & [] & Ha & H).
  unfold amend in Ha. rewrite amend_last_snoc in Ha. injection Ha as <-.
  destruct (bool_decide _) eqn:E; [|apply bind_inv in H as (? & ? & _ & H); done].
  apply bool_decide_eq_true in E. rewrite E in H.
  destruct (IH _ _ H) as (records & -> & F).
  exists (evidence size command :: records). rewrite <- app_assoc. split; [done|]. constructor; [|done].
  by exists (Z.of_nat index), command.
Qed.

Definition common_start (image : string * string) (artifacts : jobj) : list jobj :=
  [input_image s image; record "launch" ["./lab"; "start-qemu-dual"; "--timing"] 0;
   input_artifacts artifacts; shell_ready; record "network" (one_command s "ubsim-net-up") 0].

Lemma launch_inv l : launch_trial v s [] = (l, Ok true) →
  ∃ image, l = [input_image s image; record "launch" ["./lab"; "start-qemu-dual"; "--timing"] 0].
Proof.
  unfold launch_trial. intros (l1 & [] & H1 & H)%bind_inv.
  assert (l1 = []) as -> by (destruct (_ && _); [done|by injection H1]).
  apply bind_inv in H as (l2 & image & Hi & H). apply lift_inv in Hi as [-> _].
  apply bind_inv in H as (l3 & [] & He & H). injection He as <-.
  apply bind_inv in H as (l4 & [text rc] & Hr & H). injection H as <- Hrc.
  apply Z.eqb_eq in Hrc. cbn in Hrc. subst rc. apply run_inv in Hr as ->. by exists image.
Qed.

Lemma measured_inv l l' :
  s_user_scan s = false → s_latency s = false → measured v s l = (l', Ok 0) →
  ∃ artifacts capabilities cases,
    l' = l ++ [input_artifacts artifacts; shell_ready; record "network" (one_command s "ubsim-net-up") 0] ++
         capabilities :: cases ∧
    dget capabilities "label" = Some (JStr "capabilities") ∧
    Forall2 (λ size r, ∃ i command, explicit_command s size (21410 + i) (s_diagnostic s) = Ok command ∧
                         r = evidence size command) (s_sizes s) cases.
Proof.
  intros Hu Hlat H. unfold measured in H.
  apply bind_inv in H as (l1 & text & Hm & H). apply lift_inv in Hm as [-> _].
  apply bind_inv in H as (l2 & artifacts & Ha & H). apply lift_inv in Ha as [-> _].
  apply bind_inv in H as (l3 & [] & He & H). injection He as <-.
  apply bind_inv in H as (l4 & [] & Hw & H). apply lift_inv in Hw as [-> _].
  apply bind_inv in H as (l5 & [] & He & H). injection He as <-.
  apply must_run_0 in H as (t1 & H). unfold measure_latency in H. rewrite Hlat, Hu in H.
  unfold explicit_sizes in H. apply must_run_0 in H as (caps & H).
  destruct (validate_bw_capabilities _ _ _ _ _) as [limits|e].
  - apply bind_inv in H as (l6 & [] & H1 & H). unfold amend in H1. rewrite amend_last_snoc in H1.
    injection H1 as <-. apply bind_inv in H as (l7 & [] & H2 & H).
    assert (∃ c, l7 = (((l ++ [input_artifacts artifacts]) ++ [shell_ready]) ++
                       [record "network" (one_command s "ubsim-net-up") 0]) ++ [c] ∧
                 dget c "label" = Some (JStr "capabilities")) as (c & -> & Hc).
    { destruct (String.eqb (s_verb s) "write_bw").
      - unfold amend in H2. rewrite amend_last_snoc in H2. injection H2 as <-. by eexists.
      - injection H2 as <-. by eexists. }
    apply bind_inv in H as (l8 & [] & H3 & H). unfold amend in H3. rewrite amend_last_snoc in H3.
    injection H3 as <-. apply run_sizes_0 in H as (cases & -> & F).
    eexists artifacts, _, cases. split; [by rewrite <- !app_assoc|]. split; [|done].
    by rewrite dget_dset.
  - destruct (is_a _ _); [|done].
    apply bind_inv in H as (? & ? & _ & H). by apply bind_inv in H as (? & ? & _ & H).
Qed.

Lemma shut_down_inv l l' :
  shut_down v s l = (l', Ok tt) →
  ∃ drain rc, l' = l ++ drain ++ [record "stop" ["./lab"; "stop-qemu"] rc] ∧
    Forall (λ r, dget r "label" = Some (JStr "post-workload-drain")) drain.
Proof.
  unfold shut_down. intros (l1 & [] & Hd & H)%bind_inv.
  apply bind_inv in H as (l2 & [text rc] & Hr & H). injection H as <-. apply run_inv in Hr as ->.
  assert (∃ drain, l1 = l ++ drain ∧ Forall (λ r, dget r "label" = Some (JStr "post-workload-drain")) drain)
    as (drain & -> & F).
  { destruct (s_drain s); [|injection Hd as <-; exists []; rewrite app_nil_r; split; [done|constructor]].
    unfold Trial.drain in Hd. destruct (observe_drain _ _ _) as [[b samples]|e].
    - injection Hd as <-. eexists. split; [done|]. by repeat constructor.
    - destruct (_ || _); [|done]. injection Hd as <-. eexists. split; [done|]. by repeat constructor. }
  exists drain, rc. by rewrite app_assoc.
Qed.

Lemma main_inv records :
  s_user_scan s = false → s_latency s = false → main v s = (Some records, Ok 0) →
  NoDup (s_sizes s) ∧ ∃ image artifacts capabilities cases drain rc,
    records = common_start image artifacts ++ capabilities :: cases ++ drain ++
              [record "stop" ["./lab"; "stop-qemu"] rc] ∧
    dget capabilities "label" = Some (JStr "capabilities") ∧
    Forall2 (λ size r, ∃ i command, explicit_command s size (21410 + i) (s_diagnostic s) = Ok command ∧
                         r = evidence size command) (s_sizes s) cases ∧
    Forall (λ r, dget r "label" = Some (JStr "post-workload-drain")) drain.
Proof.
  intros Hu Hl H. unfold main in H. destruct (check_settings s) as [s'|] eqn:Ec; [|done].
  unfold check_settings in Ec. rewrite Hu in Ec.
  destruct (_ && _); [done|]. destruct (_ && _); [done|]. destruct (_ || _) eqn:En; [done|].
  destruct (mapR _ _); [|done]. injection Ec as <-. apply orb_false_iff in En as [En _].
  apply negb_false_iff, bool_decide_eq_true in En. split; [done|].
  destruct (e_output v); [|done]. unfold finalized, body in H.
  destruct (launch_trial v s []) as [l1 [[]|e]] eqn:El; [|by destruct (e_copy v l1)..].
  apply launch_inv in El as (image & ->). destruct (measured v s _) as [l2 r2] eqn:Em.
  destruct (shut_down v s l2) as [l3 [[]|]] eqn:Es; [|done]. destruct (e_copy v l3); [|done].
  injection H as <- ->. apply measured_inv in Em as (artifacts & capabilities & cases & -> & Hc & F); [|done..].
  apply shut_down_inv in Es as (drain & rc & -> & D).
  exists image, artifacts, capabilities, cases, drain, rc. split_and!; [|done..].
  unfold common_start. rewrite <- !app_assoc. done.
Qed.
End trial.

(** The record carries the label. *)
Definition named (label : string) (r : jobj) : bool :=
  match dget r "label" with Some x => eq_str x label | None => false end.

Lemma check_step_named records label r :
  List.filter (named label) records = [r] → check_step records label = Ok tt ↔ is_zero (dget r "returncode") = true.
Proof.
  unfold check_step. intros H. change (λ r, _) with (named label). rewrite H. by destruct (is_zero _).
Qed.

Lemma workload_label_intro verb x : verb ∈ verbs → workload_label (verb +:+ "-" +:+ x) = true.
Proof.
  intros H%list_elem_of_In. apply existsb_exists. exists verb. split; [done|].
  rewrite <- string_app_assoc. apply startswith_app.
Qed.

Lemma case_label_workload s size command :
  s_verb s ∈ BW_VERBS → workload (evidence s size command) = true.
Proof.
  intros H. unfold workload, label_of, evidence. cbn [dget String.eqb]. unfold case_label, BW_VERBS in *.
  repeat (apply elem_of_cons in H as [->|H]; [by apply workload_label_intro, elemb_true; vm_compute|]).
  by apply elem_of_nil in H.
Qed.

Lemma labelled_not (name label : string) r :
  dget r "label" = Some (JStr name) → String.eqb name label = false → named label r = false.
Proof. unfold named. by intros ->. Qed.

Lemma labelled_no_workload (name : string) r :
  dget r "label" = Some (JStr name) → workload_label name = false → workload r = false.
Proof. unfold workload, label_of. by intros ->. Qed.

(** The cases carry none of the labels of the trial's own steps. *)
Lemma workload_not_named label r : workload r = true → workload_label label = false → named label r = false.
Proof.
  unfold workload, label_of, named. intros H Hl. destruct (dget r "label") as [[]|]; try done.
  cbn. destruct (String.eqb_spec s label) as [->|]; [congruence|done].
Qed.

Section evidence.
Context (v : env) (s : settings).

(** A measured size's record satisfies what the audit asks of it before it
    reads the transcript. *)
Definition auditable (size : Z) (r : jobj) : Prop :=
  ∃ command,
    dget r "label" = Some (JStr (case_label s size)) ∧
    is_zero (dget r "returncode") = true ∧ is_empty_list (dget r "validation_errors") = true ∧
    dget r "command" = Some (strings (paired s command)) ∧
    (let c := requested (s_verb s) size (s_iterations s) (s_depth s) (s_post_list s) (s_cq_mod s) (s_inline s)
                (s_unidirectional s) in
     command_config command ServerRole = Ok c ∧ command_config (client_of command) ClientRole = Ok c).

Lemma evidence_auditable size i command :
  explicit_command s size (21410 + i) (s_diagnostic s) = Ok command → auditable size (evidence s size command).
Proof. intros H. exists command. split_and!; [reflexivity..|]. by apply bw_command_config in H. Qed.

(** C8: a trial of explicit sizes without a READ latency run that ends with
    status 0 has left launch, shell and network steps that pass the audit's
    checks, and one record per requested size, in order and under distinct
    labels, which succeeded without validation errors and whose two guest
    commands the audit reads as the requested configuration.  Its last record is
    the stop step, whose failure the status does not show: that step passes the
    audit exactly when [./lab stop-qemu] ended with status 0. *)
Theorem trial_evidence records :
  s_user_scan s = false → s_latency s = false → main v s = (Some records, Ok 0) →
  (∀ label, label ∈ ["launch"; "shell-ready"; "network"] → check_step records label = Ok tt) ∧
  (∃ pre rc, records = pre ++ [record "stop" ["./lab"; "stop-qemu"] rc] ∧
     (check_step records "stop" = Ok tt ↔ rc = 0)) ∧
  NoDup (s_sizes s) ∧ Forall2 auditable (s_sizes s) (List.filter workload records).
Proof.
  intros Hu Hl H.
  destruct (main_inv v s _ Hu Hl H) as (Hnd & image & artifacts & caps & cases & drain & rc & -> & Hc & F & D).
  assert (Forall (λ r, workload r = true) cases) as Hw.
  { apply Forall_forall. intros r Hr. apply list_elem_of_lookup in Hr as [i Hr].
    destruct (Forall2_lookup_r _ _ _ _ _ F Hr) as (size & _ & j & command & Hj & ->).
    apply case_label_workload. unfold explicit_command in Hj. by apply bw_command_Ok in Hj as [? _]. }
  assert (∀ label, workload_label label = false → List.filter (named label) cases = []) as Hn.
  { intros label Hlab. apply filter_none. eapply Forall_impl; [exact Hw|]. cbn. intros r Hr.
    by apply workload_not_named. }
  assert (∀ label, String.eqb "post-workload-drain" label = false → List.filter (named label) drain = []) as Hd.
  { intros label Hlab. apply filter_none. eapply Forall_impl; [exact D|]. cbn. intros r Hr.
    by eapply labelled_not. }
  assert (∀ label, String.eqb "capabilities" label = false → named label caps = false) as Hcaps.
  { intros label Hlab. by eapply labelled_not. }
  split_and!.
  - intros label Hlab. apply list_elem_of_In in Hlab.
    repeat destruct Hlab as [<-|Hlab]; [..|done];
      (eapply (check_step_named _ _ _); [rewrite List.filter_app; cbn [List.filter]; rewrite Hcaps, !List.filter_app, Hn, Hd
        by reflexivity; reflexivity|reflexivity]).
  - exists (common_start s image artifacts ++ caps :: cases ++ drain), rc. split.
    { by rewrite <- app_assoc, <- app_comm_cons, <- app_assoc. }
    etransitivity; [apply (check_step_named _ _ (record "stop" ["./lab"; "stop-qemu"] rc)); rewrite List.filter_app;
      cbn [List.filter]; rewrite Hcaps, !List.filter_app, Hn, Hd by reflexivity; reflexivity|].
    cbn. apply Z.eqb_eq.
  - done.
  - assert (List.filter workload (common_start s image artifacts ++ caps :: cases ++ drain ++
              [record "stop" ["./lab"; "stop-qemu"] rc]) = cases) as ->.
    { rewrite List.filter_app. cbn [List.filter]. rewrite (labelled_no_workload _ _ Hc) by reflexivity.
      rewrite !List.filter_app.
      assert (List.filter workload drain = []) as ->.
      { apply filter_none. eapply Forall_impl; [exact D|]. cbn. intros r Hr. by eapply labelled_no_workload. }
      assert (List.filter workload cases = cases) as ->; [|cbn; apply app_nil_r].
      clear -Hw. induction Hw as [|r l Hr _ IH]; [done|]. cbn [List.filter]. by rewrite Hr, IH. }
    eapply Forall2_impl; [exact F|]. cbn. intros size r (i & command & Hi & ->). by eapply evidence_auditable.
Qed.
End evidence.

(** ** A concrete trial *)

Definition sample_uart (port : string) : string :=
  line ("--- UART " +:+ port +:+ " ---") +:+ line "max_jfs_depth : 1024" +:+ line "max_jfs_inline_size : 128" +:+
  line "max_jfr_depth : 1024" +:+ line "max_msg_size : 65536" +:+ line "JFS depth : 64" +:+
  line " 4096 64 12.5 11.25 0.75".

Definition trial_env (stop : Z) : env :=
  {| e_output := Ok tt; e_named_image := false; e_image := Ok ("/out/image", "aa");
     e_run := λ _ command, if elemb "stop-qemu" command then Ok (Ended stop EmptyString)
                           else Ok (Ended 0 (sample_uart "3560" +:+ sample_uart "3570"));
     e_manifest := Ok (concat_str ((λ name, line (name +:+ "=/bin/" +:+ name)) <$> ARTIFACTS));
     e_artifact := λ path, Ok (path, "bb"); e_terminals := [(Ok EmptyString, Ok EmptyString); (Ok banner, Ok banner)];
     e_probe := λ _ _, Ok tt; e_turns := λ _, [quiet_turn; quiet_turn]; e_copy := λ _, Ok tt;
     e_float := λ _, None |}.

Definition trial_settings (sizes : list Z) (verb : string) (latency : bool) : settings :=
  Settings "180.0" sizes true verb false false 64 64 16 16 64 false latency None None.

Example trial_of_two_sizes :
  (main (trial_env 0) (trial_settings [4096; 8192] "write_bw" false)).2 = Ok 1 ∧
  (main (trial_env 0) (trial_settings [4096; 4096] "write_bw" false)).1 = None.
Proof. vm_compute. done. Qed.

Definition trial_records (stop : Z) : list jobj :=
  default [] (main (trial_env stop) (trial_settings [4096] "write_bw" false)).1.

Lemma trial_evidence_witness :
  length (trial_records 0) = 9%nat ∧ check_step (trial_records 0) "launch" = Ok tt ∧
  check_step (trial_records 0) "stop" = Ok tt.
Proof.
  assert (main (trial_env 0) (trial_settings [4096] "write_bw" false) = (Some (trial_records 0), Ok 0)) as H
    by (vm_compute; reflexivity).
  destruct (trial_evidence (trial_env 0) (trial_settings [4096] "write_bw" false) _ eq_refl eq_refl H)
    as (H1 & (pre & rc & E & H2) & _).
  split; [vm_compute; reflexivity|]. split; [apply H1; left|]. apply H2.
  apply (f_equal last) in E. rewrite last_snoc in E. vm_compute in E. congruence.
Defined.

(** The launcher's failure to stop the simulators is only recorded: the trial
    ends with status 0 and the audit rejects it. *)
Example stop_failure_recorded :
  (main (trial_env 3) (trial_settings [4096] "write_bw" false)).2 = Ok 0 ∧
  is_ok (check_step (trial_records 3) "stop") = false.
Proof. vm_compute. done. Qed.

(** A READ latency measured in the session is recorded under a label that the
    audit takes for a workload and then rejects, so no trial with
    [--read-latency] can pass it. *)
Lemma latency_unauditable fl py_str read_text manifest st r st' :
  dget r "label" = Some (JStr "read-latency") → check_record fl py_str read_text manifest st r ≠ Ok st'.
Proof.
  intros Hr H. unfold check_record in H. apply bind_Ok in H as (command & _ & H).
  apply bind_Ok in H as (label & Hl & H). rewrite Hr in Hl. injection Hl as <-.
  change (negb (workload_label "read-latency")) with false in H. cbv iota in H.
  unfold check_case in H. apply bind_Ok in H as (u & Hu & _). by apply require_Ok in Hu.
Qed.
